(* ===== verification/_CoqProject ===== *)
-Q . S2P
Prelude.v
Mbuf.v
Dss1Types.v
Dss1State.v
Buffer.v
L3Encoder.v
CallDesc.v
L3Fsm.v
L3Decoder.v
L3Codec.v
SetupCodec.v
StackInv.v
L3Safe.v
L3Reset.v
L3Link.v
L2Pipe.v
L2Fsm.v
L2Safe.v
L2Window.v
L2Poll.v
Stack.v
Reach.v
L2Spec.v
L2Delivery.v
L3Spec.v
L2Pause.v
Hdlc.v
HdlcSpec.v
HdlcRx.v
HdlcTx.v
HdlcLink.v
Shorthold.v
Interconnect.v
Dial.v
XlawTables.v
Xlaw.v
Dtmf.v
DtmfTx.v
DtmfRx.v
IsdndTypes.v
IsdndSupport.v
Isdnd.v
IsdndLogic.v
IsdndSpec.v
IsdndRun.v
IsdndDial.v
IsdndCalls.v
LiteTypes.v
Lite.v
LiteLogic.v
LiteSend.v
LiteSafe.v
LiteCalls.v
LiteRun.v
LiteWindow.v
InfoCodec.v
LiteDial.v
