(* ===== verification/Prelude.v ===== *)
(** * ISDN4BSD: a verification library for the EuroISDN stack

    ISDN4BSD is a set of ISDN drivers for BSD kernels.  This library models
    the parts of it that decide how calls behave, from the bits on the line
    to the daemon that configures it, and proves them correct.  Paths below
    are relative to src/src/sys/i4b, those of the daemon to
    src/src/usr.sbin/i4b/isdnd.

    ** The program and its parts

    Frames arrive from layer 1 (layer1/), are decoded and acknowledged by
    layer 2 (dss1/dss1_l2fsm.c, Q.921), interpreted by layer 3
    (dss1/dss1_l3decoder.h, dss1_l3fsm.h, dss1_l3encoder.h, Q.931) and
    become indications to applications through layer 4 (layer4/i4b_l4.c,
    i4b_l4mgmt.c).  Requests go the other way.  One lock per controller
    serialises everything that happens on it, so an operation is a state
    transformer that runs to its end.  Layer 2 keeps a _pipe_ per terminal
    with a transmit window and a queue; layer 3 keeps _call descriptors_,
    each bound to a pipe by reference counting; layer 4 owns the ids, the
    B-channels and the line interconnects.  The daemon isdnd reads the
    indications, keeps a configuration entry per remote site with a state
    machine of its own, and decides which calls are made and answered.
    Adapters for telephones and GSM modules use a reduced stack instead
    (dss1/dss1_lite.c, dss1_lite_l1if.c): layers 2 and 3 for one call at a
    time in one structure, polled by the driver, with a ring of frames that
    are not acknowledged and the tone detector on its B-channels.

    ** The files

    - Prelude.v: machine integers with their wrap-around, the state monad
      [st] with [keeps] (invariants) and [frames] (observations) and the
      tactics [crush] and [concrete], C strings.
    - Mbuf.v: include/i4b_queue.h and layer4/i4b_mbuf.c; [Module Ifq] is the
      linked queue, [ifqueue] its abstraction, which the stack uses.
    - Dss1Types.v, Dss1State.v: the constants and tables of dss1_l2.h,
      dss1_l3.h, i4b_cause.h and i4b_limits.h; the structures
      [DSS1_TCP_pipe_t] ([pipe]), [l2softc_t] ([l2softc]), [call_desc_t]
      ([call_desc]), [i4b_controller_t] ([controller]); [world] joins them
      with what the stack asks of and tells its surroundings.
    - Buffer.v: reading received frames ([dss1_get_1], [get_multi_1],
      [dss1_decode_ie]).
    - L3Encoder.v, L3Decoder.v, L3Fsm.v: dss1_l3encoder.h, dss1_l3decoder.h
      and dss1_l3fsm.h function by function: the messages, the information
      elements, [cd_set_state] with its timeout, [cd_update] with every
      event, the N_xxx requests, and the requests of layer 4 built on them
      ([i4b_l3_information_req], [i4b_disconnect_by_appl_interface]).
    - CallDesc.v: i4b_l4mgmt.c (ids, allocation and lookup of descriptors,
      channels) and [i4b_link_bchandrvr] of i4b_l4.c.
    - L2Pipe.v, L2Fsm.v: dss1_l2fsm.c: TEI management, the states of a
      pipe, receiving ([dss1_l2_put_mbuf]), sending ([dss1_l2_get_mbuf]),
      the repetition, connecting and disconnecting the stack.
    - Shorthold.v: idle supervision and unit charging of i4b_l4.c and the
      request I4B_TIMEOUT_UPD of layer4/i4b_i4bdrv.c, on the members of the
      call descriptor they use and a clock.
    - Interconnect.v: the allocator of line interconnects of i4b_l4mgmt.c
      over the controllers and the PCM cables they share.
    - Hdlc.v: layer1/i4b_hdlc.h, i4b_hdlc.c and the HDLC filters of
      layer1/ihfc3/i4b_filter.h.
    - XlawTables.v, Xlaw.v: layer1/i4b_convert_xlaw.c, the tables of the
      G.711 laws and [i4b_convert_bsubprot].
    - Dtmf.v: layer1/i4b_dtmf.c, the touch tone generator with its ring of
      digits, the detector with its filters, and the square root.
    - IsdndTypes.v, IsdndSupport.v, Isdnd.v: the daemon: its entries
      ([cfg_entry], the static part [cfg_static]), messages and state
      ([dmn]); support.c, rates.c, holiday.c, exec.c and msg_encoder.h;
      fsm.c and msg_decoder.h handler by handler ([dispatch],
      [handle_recovery], [sigchild_handler]).  The system's answers are the
      class [Env].
    - LiteTypes.v, Lite.v: dss1_lite.h, dss1_lite.c and dss1_lite_l1if.c
      function by function, on the state [lite] ([struct dss1_lite] with the
      clock, the frames that have arrived and the memory that is left).  The
      monad [M] has no result where C has no meaning (a null pointer, an
      index out of range), so that a result is a proof of absence.
    - The other files hold proofs: L3Codec.v and SetupCodec.v (encoder
      against decoder), StackInv.v, L3Safe.v, L3Reset.v, L3Link.v, L2Safe.v,
      L2Window.v, L2Poll.v and Stack.v (the invariant and that every
      operation keeps it), Reach.v (the operations as a step relation and
      what is reachable), L2Spec.v, L3Spec.v, L2Pause.v and Dial.v
      (functional behaviour), L2Delivery.v (two ends of a link and a line that loses
      frames), DtmfTx.v and DtmfRx.v (touch tones), HdlcSpec.v, HdlcRx.v,
      HdlcTx.v and HdlcLink.v (the bit-level reference of HDLC and the link
      over a line), IsdndLogic.v (a weakest precondition for routines on one
      entry), IsdndSpec.v (the state diagram), IsdndRun.v (runs of the
      daemon), IsdndDial.v (dial retries) and IsdndCalls.v (incoming calls,
      valid times), LiteLogic.v (the ring and a weakest precondition for the
      reduced stack), LiteSend.v, LiteSafe.v and LiteCalls.v (its messages,
      states and decoder), LiteRun.v (its runs), LiteWindow.v (its transmit
      window), InfoCodec.v and LiteDial.v (digits from the tone detector to
      the full stack).

    Layer 3 and layer 2 call each other: layer 3 brings up a pipe
    ([dss1_pipe_activate_req]), layer 2 delivers messages and resets.  The
    definitions of layer 3 take the activation as a parameter; what they
    need of it is the class [PipeActivate] (StackInv.v), against which layer 3
    is proved, and L2Safe.v gives its instance.  The cycle is closed in
    L2Fsm.v.

    ** What the theorems show

    - The stack over its lifetime (Reach.v): from [dss1_connect_ft], after
      any frames, polls, timeouts, requests and memory failures, no bad
      pointer is followed, reference counts are exact, every call in use
      has a pipe and running timers, ids and channels have one owner, the
      transmit windows match the queues.
    - Messages (Buffer.v, L3Encoder.v, L3Codec.v, SetupCodec.v): the element
      loop ends and reads in bounds whatever the frame holds, strings stay
      inside their buffers, messages fit into theirs, call references,
      channel identification and the whole SETUP survive the round trip.
    - Calls (L3Spec.v, Dial.v, CallDesc.v): isolation, release, the end of a
      silent call, the end of an application, overlap dialling; ids are fresh,
      channels come back.
    - Links (L2Spec.v, L2Pause.v, L2Delivery.v): acknowledgements, the opening
      of a window, the pause of a pipe, which frees its calls and tells layer
      4, the choice of a TEI, the header of an I-frame; over a line that loses
      frames layer 3 gets what was given to the other end in order, each
      frame once, as long as multi-frame operation lasts; a message is left
      out only if its call was released.
    - Layer 4 (Shorthold.v, Interconnect.v): when an idle call is hung up
      and what it is charged, also when the daemon changes the parameters of
      the call; interconnects never share a slot and the two ends of one are
      crossed.
    - HDLC: the tables and macros equal the bit-level reference; what one
      side sends the other receives, in order, once, and nothing else, as
      long as the receiver gets its buffers (the theorems take the outcomes
      of the allocations, [rx_reset], and ask that they succeed); burst
      errors are detected.
    - Sound (Xlaw.v, DtmfTx.v, DtmfRx.v): the tables are G.711, converting
      between the formats keeps the sound, the square root is exact, a
      number that is played is detected digit by digit.
    - The daemon (IsdndRun.v, IsdndDial.v, IsdndCalls.v): every run is, entry
      by entry, a run of the state diagram of fsm.c; what a device driver was
      told last agrees with the state of its entry and no entry becomes idle
      in silence; entries stay well formed, and the calls charged to a budget
      are those taken from it; a busy number is dialled exactly as often as
      configured, in cyclic order; a call is answered at most once and taken
      by one entry; the times an entry is valid are those of isdnd.rc.5, up to
      two differences.
    - The reduced stack (LiteRun.v, LiteWindow.v, LiteDial.v): no sequence of
      requests, frames, samples and memory failures leads to undefined
      behaviour or a loop that does not end; there is one call, whose state,
      timer and channel agree; a poll sends the oldest frames of the ring
      with consecutive numbers and exactly the acknowledged ones leave it;
      touch tones of the telephone become the digits a full stack at the
      other end collects.
    - Queues (Mbuf.v): the linked queue refines the list.

    ** Conventions, bounds and fuel

    A pointer to a pipe, a call descriptor or an interconnect is an index;
    following a pointer that may be bad emits [FAULT], a write past a buffer
    [OVERRUN], and [panic()] [PANIC].  A [char] array is the list of its
    bytes.  A callout is the delay it is armed with (in Shorthold.v the tick
    it is due at); that it fires is a step that is possible while it is
    armed.  Memory allocation takes its outcomes from a list in the world,
    which the theorems quantify over or constrain where their doc comment
    says so.  m_copypacket is a copy of the frame as it is at that time (the
    code shares the cluster, and rewrites the header of the frame in the queue
    only when it sends it again).  The tick counters of the reduced stack
    wrap around at 32 bits, where C leaves the overflow of an int undefined;
    the differences the code takes are those of the machine.

    Loops are recursive functions on the list they run through.  Where the
    code searches, the fuel is shown to be enough or is the exact number of
    rounds: [decode_ie_fuel] is the number of bytes left in the frame, each
    element takes one at least; [get_cdid_fuel] is two passes over the ids,
    after which the code gives up; [TEI_fuel] is the 64 TEIs of the range;
    [free_slot] looks at four dwords, as many as 128 slots have;
    [sqrt_loop] has the sixteen rounds of a 32-bit root; [detect_loop] one
    round more than there are bytes, and every round but the last takes one;
    and [_IF_DRAIN] ends with any fuel above the length of the queue.  The
    loops of the reduced stack end without a result when their fuel is
    spent; LiteRun.v shows that this does not happen ([find_ie_loop] has a
    round per byte of the frame, the loops over queues and chains of buffers
    a round per member).

    ** Not modelled

    The register access, DMA and USB of layer 1, the other filters of
    i4b_filter.h, the echo canceller; the character devices, the CAPI
    driver and the network drivers, which copy data between userland and
    the operations here (of i4b_i4bdrv.c only I4B_TIMEOUT_UPD is modelled);
    I4B_CTL_SET_PCM_SLOT_END of the CAPI driver, so that in Interconnect.v
    the number of slots of a cable is fixed; the texts of the messages of i4b_l4.c to userland
    other than those of Shorthold.v (they are outputs that carry the call
    descriptor); i4b_update_d_channel, which reinstalls drivers; of the
    reduced stack the echo canceller (it is built without) and registering
    its controller; dss1_aoc.c, whose only call is compiled out; locking, since every entry point runs under the lock of its
    controller; of the daemon the parsers of its files, the log, the
    display, the network monitor and the process management, and the other
    userland tools.  A signal handler of the daemon runs between two events
    in the model.  The answers of code outside the models (memory,
    applications, the operating system, in the stack model also the
    interconnect allocator) are arguments. *)
From stdpp Require Export base tactics decidable numbers list list_monad.
From Stdlib Require Export ZArith Lia Bool.
From coqutil Require Export Datatypes.RecordSettersUsingExistingGetters.

#[global] Set Default Goal Selector "!".
Open Scope Z_scope.

(** Record updates [r <| field := v |>] compute. *)
#[global] Arguments const {E} newValue / _.

(** ** Machine integers

    A [uint8_t], [uint16_t] or [uint32_t] of the source is a [Z]; every
    store into such a variable goes through the wrap-around of its width. *)
Definition u8 (x : Z) : Z := x mod 256.
Definition u16 (x : Z) : Z := x mod 65536.
Definition u32 (x : Z) : Z := x mod 4294967296.

(** C's integer-as-truth-value convention. *)
Definition nonzero (x : Z) : bool := negb (x =? 0).

(** [x & mask] used as a condition. *)
Definition bit_set (x mask : Z) : bool := nonzero (Z.land x mask).

Declare Scope i4b_scope.
Delimit Scope i4b_scope with i4b.
Infix "&.&" := Z.land (at level 30, right associativity) : i4b_scope.
Infix "|.|" := Z.lor (at level 32, right associativity) : i4b_scope.
Infix "^.^" := Z.lxor (at level 31, right associativity) : i4b_scope.
Infix "<<" := Z.shiftl (at level 28, left associativity) : i4b_scope.
Infix ">>" := Z.shiftr (at level 28, left associativity) : i4b_scope.

(** Ranges. *)
Definition is_u8 (x : Z) : Prop := 0 <= x < 256.
Definition is_u16 (x : Z) : Prop := 0 <= x < 65536.
Definition is_u32 (x : Z) : Prop := 0 <= x < 4294967296.

Create HintDb i4b discriminated.

Lemma u8_range x : is_u8 (u8 x).
Proof. unfold is_u8, u8. apply Z.mod_pos_bound. lia. Qed.
Lemma u16_range x : is_u16 (u16 x).
Proof. unfold is_u16, u16. apply Z.mod_pos_bound. lia. Qed.
Lemma u32_range x : is_u32 (u32 x).
Proof. unfold is_u32, u32. apply Z.mod_pos_bound. lia. Qed.
Lemma u8_id x : is_u8 x -> u8 x = x.
Proof. unfold is_u8, u8. apply Z.mod_small. Qed.
Lemma u16_id x : is_u16 x -> u16 x = x.
Proof. unfold is_u16, u16. apply Z.mod_small. Qed.
Lemma u32_id x : is_u32 x -> u32 x = x.
Proof. unfold is_u32, u32. apply Z.mod_small. Qed.
#[export] Hint Resolve u8_range u16_range u32_range : i4b.

Lemma nonzero_true x : nonzero x = true <-> x <> 0.
Proof. unfold nonzero. destruct (Z.eqb_spec x 0); simpl; split; congruence. Qed.
Lemma nonzero_false x : nonzero x = false <-> x = 0.
Proof. unfold nonzero. destruct (Z.eqb_spec x 0); simpl; split; congruence. Qed.

(** Masking with all-ones is taking the remainder. *)
Lemma land_255 x : Z.land x 255 = x mod 256.
Proof. exact (Z.land_ones x 8 ltac:(lia)). Qed.
Lemma land_127 x : Z.land x 127 = x mod 128.
Proof. exact (Z.land_ones x 7 ltac:(lia)). Qed.

(** Facts about bytes, by trying all of them. *)
Lemma byte_forall (P : Z -> bool) :
  forallb (λ k, P (Z.of_nat k)) (seq 0 256) = true -> ∀ x, is_u8 x -> P x = true.
Proof.
  intros H x Hx. rewrite forallb_forall in H. unfold is_u8 in Hx.
  rewrite <-(Z2Nat.id x) by lia. apply H, in_seq. lia.
Qed.

(** ** A state monad

    Stateful code is written in [st S], with the notations of stdpp:
    [x ← m; k] runs [m] and binds its result, [m ;; k] forgets it. *)
Definition st (S A : Type) : Type := S -> A * S.

#[global] Instance st_ret {S} : MRet (st S) := λ A a s, (a, s).
#[global] Instance st_bind {S} : MBind (st S) := λ A B k m s,
  let '(a, s') := m s in k a s'.

Definition gets {S A} (f : S -> A) : st S A := λ s, (f s, s).
Definition modify {S} (f : S -> S) : st S unit := λ s, (tt, f s).

(** [if(b) m] without an [else]. *)
Definition when {S} (b : bool) (m : st S unit) : st S unit :=
  if b then m else mret tt.

(** [for(x in l) body] *)
Fixpoint for_each {S A} (l : list A) (body : A -> st S unit) : st S unit :=
  match l with
  | [] => mret tt
  | x :: l' => body x ;; for_each l' body
  end.

Lemma run_bind {S A B} (m : st S A) (k : A -> st S B) s :
  (m ≫= k) s = k (m s).1 (m s).2.
Proof. unfold mbind, st_bind. by destruct (m s). Qed.

(** *** Triples and invariants of stateful code *)
Section triples.
Context {S : Type}.

(** Partial and total correctness coincide: [st] computations are total. *)
Definition triple {A} (P : S -> Prop) (m : st S A) (Q : A -> S -> Prop) : Prop :=
  ∀ s, P s -> Q (m s).1 (m s).2.

(** [m] keeps the invariant [I]. *)
Definition keeps {A} (I : S -> Prop) (m : st S A) : Prop :=
  ∀ s, I s -> I (m s).2.

(** [m] leaves the observation [f] of the state alone. *)
Definition frames {A B} (f : S -> B) (m : st S A) : Prop :=
  ∀ s, f (m s).2 = f s.

Lemma keeps_ret {A} (I : S -> Prop) (a : A) : keeps I (mret a).
Proof. by intros s. Qed.
Lemma keeps_gets {A} (I : S -> Prop) (f : S -> A) : keeps I (gets f).
Proof. by intros s. Qed.
Lemma keeps_bind {A B} (I : S -> Prop) (m : st S A) (k : A -> st S B) :
  keeps I m -> (∀ a, keeps I (k a)) -> keeps I (m ≫= k).
Proof. intros Hm Hk s HI. rewrite run_bind. by apply Hk, Hm. Qed.
Lemma keeps_when (I : S -> Prop) b (m : st S unit) : keeps I m -> keeps I (when b m).
Proof. destruct b; [done|]. intros _. apply keeps_ret. Qed.
Lemma keeps_for_each {A} (I : S -> Prop) (l : list A) body :
  (∀ x, x ∈ l -> keeps I (body x)) -> keeps I (for_each l body).
Proof.
  induction l as [|x l IH]; intros H; [apply keeps_ret|].
  apply keeps_bind; [apply H; by left|]. intros _. apply IH.
  intros y Hy. apply H. by right.
Qed.

Lemma frames_ret {A B} (f : S -> B) (a : A) : frames f (mret a).
Proof. by intros s. Qed.
Lemma frames_gets {A B} (f : S -> B) (g : S -> A) : frames f (gets g).
Proof. by intros s. Qed.
Lemma frames_bind {A B C} (f : S -> C) (m : st S A) (k : A -> st S B) :
  frames f m -> (∀ a, frames f (k a)) -> frames f (m ≫= k).
Proof. intros Hm Hk s. by rewrite run_bind, Hk, Hm. Qed.
Lemma frames_when {B} (f : S -> B) b (m : st S unit) :
  frames f m -> frames f (when b m).
Proof. destruct b; [done|]. intros _. apply frames_ret. Qed.
Lemma frames_for_each {A B} (f : S -> B) (l : list A) body :
  (∀ x, frames f (body x)) -> frames f (for_each l body).
Proof.
  intros H. induction l as [|x l IH]; [apply frames_ret|].
  by apply frames_bind.
Qed.
Lemma frames_keeps {A B} (f : S -> B) (P : B -> Prop) (m : st S A) :
  frames f m -> keeps (λ s, P (f s)) m.
Proof. intros Hf s. by rewrite Hf. Qed.

Lemma triple_bind {A B} P (m : st S A) (k : A -> st S B) Q R :
  triple P m Q -> (∀ a, triple (Q a) (k a) R) -> triple P (m ≫= k) R.
Proof. intros Hm Hk s HP. rewrite run_bind. by apply Hk, Hm. Qed.
Lemma triple_consequence {A} (P P' : S -> Prop) (m : st S A) (Q Q' : A -> S -> Prop) :
  triple P' m Q' -> (∀ s, P s -> P' s) -> (∀ a s, Q' a s -> Q a s) -> triple P m Q.
Proof. intros Hm HP HQ s H. by apply HQ, Hm, HP. Qed.
End triples.

#[export] Hint Resolve keeps_ret keeps_gets frames_ret frames_gets : i4b.

(** [crush_frames] and [crush_keeps] walk through a stateful program and
    close each primitive step from the hint base [i4b]. *)
Ltac crush_step :=
  match goal with
  | |- keeps _ (_ ≫= _) => apply keeps_bind; [|intros ?]
  | |- frames _ (_ ≫= _) => apply frames_bind; [|intros ?]
  | |- keeps _ (when _ _) => apply keeps_when
  | |- frames _ (when _ _) => apply frames_when
  | |- keeps _ (for_each _ _) => apply keeps_for_each; intros ? ?
  | |- frames _ (for_each _ _) => apply frames_for_each; intros ?
  | |- keeps _ (if ?b then _ else _) => destruct b
  | |- frames _ (if ?b then _ else _) => destruct b
  | |- keeps _ (match ?x with _ => _ end) => destruct x
  | |- frames _ (match ?x with _ => _ end) => destruct x
  | |- keeps _ (let '(_, _) := ?x in _) => destruct x
  | |- frames _ (let '(_, _) := ?x in _) => destruct x
  end.
Ltac crush := repeat first [ solve [eauto with i4b nocore] | crush_step ].

(** Case analysis on every test in the goal. *)
Ltac split_tests :=
  repeat match goal with
  | |- context [if ?b then _ else _] => destruct b eqn:?
  | |- context [match ?x with _ => _ end] => destruct x eqn:?
  end.

(** Closed side conditions of the instances: ranges, bounds, lists of bytes. *)
Ltac concrete :=
  lazymatch goal with
  | |- _ ∧ _ => split; concrete
  | |- Forall _ _ => repeat (apply Forall_cons; split; [concrete|]); apply Forall_nil_2
  | |- is_u8 _ => unfold is_u8; concrete
  | |- is_u16 _ => unfold is_u16; concrete
  | |- is_u32 _ => unfold is_u32; concrete
  | |- _ => first [lia | vm_compute; lia | vm_compute; done | vm_compute; congruence]
  end.

(** ** C strings

    A [char] array is the list of the bytes stored in it; [cstr] is the
    string it denotes: the bytes in front of the first NUL. *)
Fixpoint cstr (a : list Z) : list Z :=
  match a with
  | [] => []
  | c :: a' => if c =? 0 then [] else c :: cstr a'
  end.

(** [strlcat(dst, src, size)]: append and truncate to [size - 1] bytes. *)
Definition strlcat (dst src : list Z) (size : nat) : list Z :=
  take (size - 1) (cstr dst ++ cstr src).

Lemma cstr_length a : (length (cstr a) <= length a)%nat.
Proof. induction a as [|c a IH]; simpl; [done|]. case_match; simpl; lia. Qed.
Lemma cstr_idemp a : cstr (cstr a) = cstr a.
Proof. induction a as [|c a IH]; simpl; [done|]. destruct (c =? 0) eqn:E; simpl; [done|]. by rewrite E, IH. Qed.
