(* ===== verification/Mbuf.v ===== *)
(** * Message buffers and interface queues (i4b_mbuf.c, i4b_queue.h)

    [Module Ifq] models the queue macros on the linked structure they work
    on: a heap of message buffers joined by [m_nextpkt], and a queue header
    with [ifq_head], [ifq_tail], [ifq_len] and [ifq_maxlen].  The refinement
    theorems relate each macro to the operation on the list of the queued
    buffers; the protocol files work on that list ([ifqueue]). *)
From S2P Require Import Prelude.
From stdpp Require Import gmap.
Local Open Scope Z_scope.

(** ** Message buffers *)

(** The storage, the offset of [m_data] in it, [m_len], and the flag
    [M_PROTO1]. *)
Record mbuf := Mbuf {
  m_buf : list Z;
  m_off : nat;
  m_len : nat;
  m_proto1 : bool;
}.
#[global] Instance mbuf_inhabited : Inhabited mbuf := populate (Mbuf [] 0 0 false).

(** [MCLBYTES] of the kernel configuration. *)
Definition MCLBYTES : nat := 2048.

(** [i4b_getmbuf(len, M_NOWAIT)]; [avail] tells if the kernel had memory.
    The contents of a fresh buffer are arbitrary in C; here they are zero. *)
Definition i4b_getmbuf (avail : bool) (len : nat) : option mbuf :=
  if (MCLBYTES <? len)%nat then None
  else if avail then Some (Mbuf (replicate len 0) 0 len false)
  else None.

(** [mtod(m, uint8_t * )[i]], read and written. *)
Definition m_get (m : mbuf) (i : nat) : Z := default 0 (m_buf m !! (m_off m + i)%nat).
Definition m_put (i : nat) (b : Z) (m : mbuf) : mbuf :=
  m <| m_buf ::= <[(m_off m + i)%nat := b]> |>.
(** The frame a buffer carries. *)
Definition m_bytes (m : mbuf) : list Z := take (m_len m) (drop (m_off m) (m_buf m)).
(** A buffer whose storage is written from the start and whose [m_len] is
    the number of bytes written: [ptr = mtod(m); *ptr++ = ...; m_len = ptr - m_data]. *)
Definition m_fill (bytes : list Z) (m : mbuf) : mbuf :=
  Mbuf (bytes ++ drop (length bytes) (m_buf m)) 0 (length bytes) (m_proto1 m).

Lemma m_bytes_fill l m : m_bytes (m_fill l m) = l.
Proof. unfold m_bytes, m_fill. cbn [m_len m_off m_buf]. rewrite drop_0. apply take_app_length. Qed.

(** ** Interface queues, as lists *)
Record ifqueue := Ifqueue {
  ifq : list mbuf;
  ifq_maxlen : Z;
}.
#[global] Instance ifqueue_inhabited : Inhabited ifqueue := populate (Ifqueue [] 0).

Definition ifq_len (q : ifqueue) : Z := Z.of_nat (length (ifq q)).
Definition IF_QFULL (q : ifqueue) : bool := ifq_maxlen q <=? ifq_len q.
Definition IF_QEMPTY (q : ifqueue) : bool := ifq_len q =? 0.
Definition IF_ENQUEUE (m : mbuf) (q : ifqueue) : ifqueue := q <| ifq ::= λ l, l ++ [m] |>.
Definition IF_PREPEND (m : mbuf) (q : ifqueue) : ifqueue := q <| ifq ::= cons m |>.
Definition IF_DEQUEUE (q : ifqueue) : option mbuf * ifqueue :=
  (head (ifq q), q <| ifq ::= tail |>).
Definition IF_DRAIN (q : ifqueue) : ifqueue := q <| ifq := [] |>.

(** ** The linked representation *)
Module Ifq.
Section ifq.
Context {A : Type}.

(** A buffer on the heap: its contents and [m_nextpkt]. *)
Record node := Node { payload : A; m_nextpkt : option positive }.
(** [struct _ifqueue] *)
Record t := Q {
ifq_head : option positive;
ifq_tail : option positive;
ifq_len : Z;
ifq_maxlen : Z;
}.

Implicit Types (h : gmap positive node) (q : t) (m : positive) (l : list (positive * A)).

(** [m->m_nextpkt = p] *)
Definition set_nextpkt m (p : option positive) h : gmap positive node :=
alter (λ n, Node (payload n) p) m h.

Definition _IF_QFULL q : bool := ifq_maxlen q <=? ifq_len q.
Definition _IF_QEMPTY q : bool := ifq_len q =? 0.

Definition _IF_DEQUEUE h q : option positive * gmap positive node * t :=
match ifq_head q with
| None => (None, h, q)
| Some m =>
    let next := h !! m ≫= m_nextpkt in
    (Some m, set_nextpkt m None h,
     Q next (match next with None => None | Some _ => ifq_tail q end)
       (ifq_len q - 1) (ifq_maxlen q))
end.

Definition _IF_PREPEND m h q : gmap positive node * t :=
(set_nextpkt m (ifq_head q) h,
 Q (Some m) (match ifq_tail q with None => Some m | Some x => Some x end)
   (ifq_len q + 1) (ifq_maxlen q)).

Definition _IF_ENQUEUE m h q : gmap positive node * t :=
let h1 := set_nextpkt m None h in
match ifq_tail q with
| None => (h1, Q (Some m) (Some m) (ifq_len q + 1) (ifq_maxlen q))
| Some x => (set_nextpkt x (Some m) h1,
             Q (ifq_head q) (Some m) (ifq_len q + 1) (ifq_maxlen q))
end.

(** The [for(;;)] of [_IF_DRAIN], with [fuel] rounds: the buffers freed. *)
Fixpoint _IF_DRAIN (fuel : nat) h q : option (list positive * gmap positive node * t) :=
match fuel with
| O => None
| S fuel =>
    match _IF_DEQUEUE h q with
    | (None, h', q') => Some ([], h', q')
    | (Some m, h', q') =>
        match _IF_DRAIN fuel (delete m h') q' with
        | None => None
        | Some (freed, h'', q'') => Some (m :: freed, h'', q'')
        end
    end
end.

Definition _if_handoff m h q : bool * gmap positive node * t :=
if _IF_QFULL q then (false, delete m h, q)
else let '(h', q') := _IF_ENQUEUE m h q in (true, h', q').

(** The chain of buffers from [p], in order. *)
Fixpoint chain h (p : option positive) l : Prop :=
match l with
| [] => p = None
| (m, x) :: l' => p = Some m ∧ ∃ next, h !! m = Some (Node x next) ∧ chain h next l'
end.

(** [q] represents the list [l] of buffers. *)
Definition repr h q l : Prop :=
chain h (ifq_head q) l ∧ NoDup l.*1 ∧
ifq_tail q = fst <$> last l ∧ ifq_len q = Z.of_nat (length l).

Lemma chain_frame h p l m f :
m ∉ l.*1 -> chain h p l -> chain (alter f m h) p l.
Proof.
revert p. induction l as [|[m' x] l IH]; intros p Hni; simpl; [done|].
intros [-> [next [Hh Hc]]]. apply not_elem_of_cons in Hni as [Hne Hni].
split; [done|]. exists next. split; [|by apply IH].
rewrite lookup_alter_ne; [done|simpl in *; congruence].
Qed.

Lemma chain_delete h p l m : m ∉ l.*1 -> chain h p l -> chain (delete m h) p l.
Proof.
revert p. induction l as [|[m' x] l IH]; intros p Hni; simpl; [done|].
intros [-> [next [Hh Hc]]]. apply not_elem_of_cons in Hni as [Hne Hni].
split; [done|]. exists next. split; [|by apply IH].
rewrite lookup_delete_ne; [done|simpl in *; congruence].
Qed.

(** Linking [m] behind the last buffer of a chain. *)
Lemma chain_link h p l y xy m x :
NoDup (l ++ [(y, xy)]).*1 -> m ∉ (l ++ [(y, xy)]).*1 ->
chain h p (l ++ [(y, xy)]) -> h !! m = Some (Node x None) ->
chain (set_nextpkt y (Some m) h) p (l ++ [(y, xy); (m, x)]).
Proof.
revert p. induction l as [|[m' x'] l IH]; intros p Hnd Hni.
- simpl. intros [-> [next [Hh Hnext]]] Hm. split; [done|]. exists (Some m).
  unfold set_nextpkt. rewrite lookup_alter_eq, Hh. split; [done|].
  split; [done|]. exists None. rewrite lookup_alter_ne; [done|].
  intros ->. apply Hni. simpl. by left.
- simpl. intros [-> [next [Hh Hc]]] Hm. split; [done|]. exists next.
  simpl in Hnd. apply NoDup_cons in Hnd as [Hm' Hnd].
  simpl in Hni. apply not_elem_of_cons in Hni as [? Hni].
  split; [|by apply IH].
  unfold set_nextpkt. rewrite lookup_alter_ne; [done|].
  intros ->. apply Hm'. rewrite fmap_app. apply elem_of_app. right. simpl. by left.
Qed.

Lemma repr_empty h n : repr h (Q None None 0 n) [].
Proof. split; [done|]. split; [apply NoDup_nil_2|done]. Qed.

Lemma repr_dequeue h q m x l :
repr h q ((m, x) :: l) ->
let '(r, h', q') := _IF_DEQUEUE h q in
r = Some m ∧ repr h' q' l ∧ h' !! m = Some (Node x None).
Proof.
intros (Hc & Hnd & Ht & Hl). destruct Hc as [Hhead [next [Hh Hc]]].
simpl in Hnd. apply NoDup_cons in Hnd as [Hm Hnd].
unfold _IF_DEQUEUE. rewrite Hhead, Hh. simpl. split; [done|]. split.
- unfold repr. simpl. split; [by apply chain_frame|]. split; [done|].
  split; [|simpl in Hl; lia]. destruct l as [|[m1 x1] l]; simpl in *.
  + by rewrite Hc.
  + destruct Hc as [-> _]. done.
- unfold set_nextpkt. by rewrite lookup_alter_eq, Hh.
Qed.

Lemma repr_dequeue_empty h q : repr h q [] -> _IF_DEQUEUE h q = (None, h, q).
Proof. intros (Hc & _). unfold _IF_DEQUEUE. simpl in Hc. by rewrite Hc. Qed.

Lemma repr_prepend h q l m x next :
repr h q l -> m ∉ l.*1 -> h !! m = Some (Node x next) ->
let '(h', q') := _IF_PREPEND m h q in repr h' q' ((m, x) :: l).
Proof.
intros (Hc & Hnd & Ht & Hl) Hm Hh. unfold _IF_PREPEND, repr.
cbn [ifq_head ifq_tail ifq_len chain].
split; [|split; [by constructor|split]].
- split; [done|]. exists (ifq_head q). unfold set_nextpkt.
  rewrite lookup_alter_eq, Hh. split; [done|]. by apply chain_frame.
- rewrite Ht, last_cons. by destruct (last l).
- rewrite Hl. simpl. lia.
Qed.

Lemma repr_enqueue h q l m x next :
repr h q l -> m ∉ l.*1 -> h !! m = Some (Node x next) ->
let '(h', q') := _IF_ENQUEUE m h q in repr h' q' (l ++ [(m, x)]).
Proof.
intros (Hc & Hnd & Ht & Hl) Hm Hh.
assert (Hh1 : set_nextpkt m None h !! m = Some (Node x None)).
{ unfold set_nextpkt. by rewrite lookup_alter_eq, Hh. }
assert (Hnd' : NoDup (l ++ [(m, x)]).*1).
{ rewrite fmap_app. apply NoDup_app. split; [done|]. split; [|apply NoDup_singleton].
  intros y Hy Hy'. apply list_elem_of_singleton in Hy'. simpl in Hy'. by subst. }
unfold _IF_ENQUEUE. destruct l as [|[y xy] l _] using rev_ind.
- simpl in Ht. rewrite Ht. unfold repr. simpl. split; [|split; [done|split; [done|simpl in Hl; lia]]].
  split; [done|]. by exists None.
- rewrite last_snoc in Ht. simpl in Ht. rewrite Ht. unfold repr. cbn [ifq_head ifq_tail ifq_len].
  split; [|split; [done|split]].
  + rewrite <-app_assoc. apply chain_link; try done. by apply chain_frame.
  + by rewrite last_snoc.
  + rewrite Hl, !length_app. simpl. lia.
Qed.

(** The drain loop ends, frees every buffer once, in order, and leaves an
  empty queue. *)
Lemma repr_drain fuel h q l :
repr h q l -> (length l < fuel)%nat ->
∃ h' q', _IF_DRAIN fuel h q = Some (l.*1, h', q') ∧ repr h' q' [] ∧
         ifq_maxlen q' = ifq_maxlen q.
Proof.
revert fuel h q. induction l as [|[m x] l IH]; intros [|fuel] h q Hr Hf;
  simpl in Hf; try lia.
- exists h, q. simpl. by rewrite repr_dequeue_empty.
- simpl. pose proof (repr_dequeue _ _ _ _ _ Hr) as Hd.
  destruct (_IF_DEQUEUE h q) as [[r h1] q1] eqn:E. destruct Hd as (-> & Hr1 & _).
  destruct Hr as (_ & Hnd & _). apply NoDup_cons in Hnd as [Hm _].
  destruct (IH fuel (delete m h1) q1) as (h' & q' & Hdr & Hr' & Hx); [|lia|].
  + destruct Hr1 as (Hc & ?). split; [by apply chain_delete|done].
  + exists h', q'. rewrite Hdr. split; [done|]. split; [done|].
    rewrite Hx. unfold _IF_DEQUEUE in E. case_match; by simplify_eq.
Qed.
End ifq.
Arguments node : clear implicits.
End Ifq.

(** ** The linked queues implement the lists *)

(** The linked queue [q] holds the buffers [l] and stands for [q0]. *)
Definition queue_refines (h : gmap positive (Ifq.node mbuf)) (q : Ifq.t)
    (l : list (positive * mbuf)) (q0 : ifqueue) : Prop :=
  Ifq.repr h q l ∧ l.*2 = ifq q0 ∧ Ifq.ifq_maxlen q = ifq_maxlen q0.

Lemma refines_len h q l q0 : queue_refines h q l q0 -> Ifq.ifq_len q = ifq_len q0.
Proof.
  intros ((_ & _ & _ & Hl) & H2 & _). unfold ifq_len. rewrite <-H2, length_fmap. done.
Qed.
Lemma refines_dequeue h q l q0 :
  queue_refines h q l q0 ->
  let '(r, h', q') := Ifq._IF_DEQUEUE h q in
  queue_refines h' q' (tail l) (IF_DEQUEUE q0).2 ∧
  (m ← r; Ifq.payload <$> h' !! m) = (IF_DEQUEUE q0).1.
Proof.
  intros (Hr & H2 & H3). unfold IF_DEQUEUE. rewrite <-H2. destruct l as [|[m x] l].
  - rewrite (Ifq.repr_dequeue_empty h q Hr). split; [|done]. split; [done|]. cbn. by rewrite <-H2.
  - pose proof (Ifq.repr_dequeue h q m x l Hr) as Hd.
    assert (Ifq.ifq_maxlen (Ifq._IF_DEQUEUE h q).2 = Ifq.ifq_maxlen q) as Hm
      by (unfold Ifq._IF_DEQUEUE; by destruct (Ifq.ifq_head q)).
    destruct (Ifq._IF_DEQUEUE h q) as [[r h'] q'] eqn:E. destruct Hd as (-> & Hr' & Hx).
    cbn in *. rewrite Hx. split; [|done]. split; [done|]. cbn.
    rewrite Hm. by rewrite <-H2.
Qed.
Lemma refines_enqueue h q l q0 m x next :
  queue_refines h q l q0 -> m ∉ l.*1 -> h !! m = Some (Ifq.Node x next) ->
  let '(h', q') := Ifq._IF_ENQUEUE m h q in
  queue_refines h' q' (l ++ [(m, x)]) (IF_ENQUEUE x q0).
Proof.
  intros (Hr & H2 & H3) Hm Hh. pose proof (Ifq.repr_enqueue h q l m x next Hr Hm Hh) as He.
  assert (Ifq.ifq_maxlen (Ifq._IF_ENQUEUE m h q).2 = Ifq.ifq_maxlen q) as Hx
    by (unfold Ifq._IF_ENQUEUE; by destruct (Ifq.ifq_tail q)).
  destruct (Ifq._IF_ENQUEUE m h q) as [h' q']. split; [done|]. cbn in *.
  rewrite fmap_app, H2. by rewrite Hx.
Qed.

(** C37: the queue macros on linked buffers implement the operations on the
    list of the frames: the tests agree, dequeuing gives the first frame and
    leaves the rest, enqueuing and prepending put a buffer that is not queued
    at the end and at the front, [_if_handoff] drops it exactly when the queue
    is full, and draining ends, frees every buffer once and in order, and
    leaves the queue empty. *)
Theorem ifq_refinement h q l q0 :
  queue_refines h q l q0 ->
  (Ifq._IF_QFULL q = IF_QFULL q0 ∧ Ifq._IF_QEMPTY q = IF_QEMPTY q0) ∧
  (let '(r, h', q') := Ifq._IF_DEQUEUE h q in
   queue_refines h' q' (tail l) (IF_DEQUEUE q0).2 ∧
   (m ← r; Ifq.payload <$> h' !! m) = (IF_DEQUEUE q0).1) ∧
  (∀ m x next, m ∉ l.*1 -> h !! m = Some (Ifq.Node x next) ->
   (let '(h', q') := Ifq._IF_ENQUEUE m h q in
    queue_refines h' q' (l ++ [(m, x)]) (IF_ENQUEUE x q0)) ∧
   (let '(h', q') := Ifq._IF_PREPEND m h q in
    queue_refines h' q' ((m, x) :: l) (IF_PREPEND x q0)) ∧
   (let '(ok, h', q') := Ifq._if_handoff m h q in
    ok = negb (IF_QFULL q0) ∧
    if ok then queue_refines h' q' (l ++ [(m, x)]) (IF_ENQUEUE x q0)
    else queue_refines h' q' l q0 ∧ h' !! m = None)) ∧
  (∀ fuel, (length l < fuel)%nat -> ∃ h' q',
     Ifq._IF_DRAIN fuel h q = Some (l.*1, h', q') ∧ queue_refines h' q' [] (IF_DRAIN q0)).
Proof.
  intros Hq. pose proof (refines_len h q l q0 Hq) as Hlen. pose proof Hq as (Hr & H2 & H3).
  assert (Hfull : Ifq._IF_QFULL q = IF_QFULL q0).
  { unfold Ifq._IF_QFULL, IF_QFULL. by rewrite H3, Hlen. }
  split; [split; [done|]; unfold Ifq._IF_QEMPTY, IF_QEMPTY; by rewrite Hlen|].
  split; [by apply refines_dequeue|]. split.
  - intros m x next Hm Hh. split; [by eapply refines_enqueue|]. split.
    + pose proof (Ifq.repr_prepend h q l m x next Hr Hm Hh) as Hp.
      unfold Ifq._IF_PREPEND in *. split; [done|]. cbn. by rewrite H2.
    + unfold Ifq._if_handoff. rewrite Hfull. destruct (IF_QFULL q0).
      * split; [done|]. split; [|apply lookup_delete_eq]. split; [|done].
        destruct Hr as (Hc & ?). split; [by apply Ifq.chain_delete|done].
      * pose proof (refines_enqueue h q l q0 m x next Hq Hm Hh) as He.
        by destruct (Ifq._IF_ENQUEUE m h q).
  - intros fuel Hf. destruct (Ifq.repr_drain fuel h q l Hr Hf) as (h' & q' & Hd & Hr' & Hx).
    exists h', q'. split; [done|]. split; [done|]. split; [done|]. cbn. congruence.
Qed.

(** A queue of two frames and a free third one. *)
Definition sample_heap : gmap positive (Ifq.node mbuf) :=
  <[1%positive := Ifq.Node (Mbuf [1] 0 1 false) (Some 2%positive)]>
  (<[2%positive := Ifq.Node (Mbuf [2] 0 1 false) None]>
  (<[3%positive := Ifq.Node (Mbuf [3] 0 1 false) None]> ∅)).
Definition sample_queue : Ifq.t := Ifq.Q (Some 1%positive) (Some 2%positive) 2 48.
Lemma ifq_refinement_witness :
  let l := [(1%positive, Mbuf [1] 0 1 false); (2%positive, Mbuf [2] 0 1 false)] in
  let q0 := Ifqueue l.*2 48 in
  queue_refines sample_heap sample_queue l q0 ∧
  ∃ h' q', Ifq._IF_DRAIN 3 sample_heap sample_queue = Some ([1%positive; 2%positive], h', q') ∧
    queue_refines h' q' [] (IF_DRAIN q0).
Proof.
  intros l q0. assert (queue_refines sample_heap sample_queue l q0) as H.
  { split; [|done]. split; [|split; [|done]].
    - cbn. split; [done|]. eexists. split; [reflexivity|]. split; [done|]. eexists. by split.
    - by apply (bool_decide_unpack _). }
  split; [exact H|].
  apply (ifq_refinement sample_heap sample_queue l q0 H). cbn. lia.
Defined.
