(* ===== verification/Dss1Types.v ===== *)
(** * Constants, tables and data structures of the DSS1 stack

    The enumerations and tables of dss1_l2.h, dss1_l3.h, i4b_limits.h,
    i4b_ioctl.h and i4b_cause.h, the structures [DSS1_TCP_pipe_t],
    [l2softc_t] (dss1_l2.h), [call_desc_t] (i4b_global.h) and the part of
    [i4b_controller_t] (i4b_controller.h) the stack works on, and the state
    [world] the stateful operations of the other files run in.  The record
    fields keep the names of the structure members; where two structures
    have a member of the same name the field carries a prefix. *)
From S2P Require Import Prelude.

(** ** Limits (i4b_limits.h) and frame layout (dss1_l2.h) *)
Definition I4B_MAX_CONTROLLERS : Z := 64.
Definition I4B_MAX_CHANNELS : nat := 64.
Definition TELNO_MAX : nat := 41.
Definition SUBADDR_MAX : nat := 21.
Definition DISPLAY_MAX : nat := 91.
Definition KEYPAD_MAX : nat := 35.
Definition USER_USER_MAX : nat := 129.
Definition BCH_MAX_DATALEN : nat := 2048.
Definition DCH_MAX_DATALEN : nat := 264.
Definition CDID_REF_MAX : Z := 256.
Definition PIPE_MAX : nat := 16.

Definition I_HEADER_LEN : nat := 4.
Definition U_FRAME_LEN : nat := 3.
Definition S_FRAME_LEN : nat := 4.
Definition TEI_FRAME_LEN : nat := 8.
Definition NR_MAX : Z := 128.

Definition CR_COMMAND : Z := 0.
Definition CR_RESPONSE : Z := 1.
Definition SAPI_CCP : Z := 0x00.
Definition SAPI_L2M : Z := 0x3F.
Definition TEI_BROADCAST : Z := 0xFF.
Definition TEI_POINT2POINT : Z := 0x01.
Definition MEI_TEI_MANAGEMENT : Z := 0x0f.

Definition OFF_SAPI : nat := 0.
Definition OFF_TEI : nat := 1.
Definition OFF_CNTL : nat := 2.
Definition OFF_TX_NR : nat := 2.
Definition OFF_RX_NR : nat := 3.
Definition OFF_MEI : nat := 3.
Definition OFF_RI : nat := 4.
Definition OFF_MT : nat := 6.
Definition OFF_AI : nat := 7.

(** [CNTLS]: the control octets, with the poll/final bit cleared. *)
Definition CNTL_DISC : Z := 0x43.
Definition CNTL_DM : Z := 0x0f.
Definition CNTL_FRMR : Z := 0x87.
Definition CNTL_REJ : Z := 0x09.
Definition CNTL_RNR : Z := 0x05.
Definition CNTL_RR : Z := 0x01.
Definition CNTL_SABME : Z := 0x6f.
Definition CNTL_UA : Z := 0x63.
Definition CNTL_UI : Z := 0x03.
Definition CNTL_XID : Z := 0xaf.
Definition CNTL_PF_BIT : Z := 0x10.

(** TEI management message types. *)
Definition MT_ID_REQUEST : Z := 0x01.
Definition MT_ID_ASSIGN : Z := 0x02.
Definition MT_ID_DENY : Z := 0x03.
Definition MT_ID_CHECK_REQUEST : Z := 0x04.
Definition MT_ID_CHECK_RESPONSE : Z := 0x05.
Definition MT_ID_REMOVE : Z := 0x06.
Definition MT_ID_VERIFY : Z := 0x07.

(** The extract and insert macros for the address octets. *)
Definition GET_SAPI (octet : Z) : Z := Z.land (Z.shiftr octet 2) 0x3f.
Definition GET_CR_BIT (octet : Z) : Z := if bit_set octet 0x02 then 1 else 0.
Definition GET_NR (octet : Z) : Z := Z.land (Z.shiftr octet 1) 0x7f.
Definition MAKE_SAPI (sapi cr : Z) : Z :=
  Z.lor (Z.land (Z.shiftl sapi 2) 0xfc) (Z.shiftl (Z.land cr 0x01) 1).
(** [M128INC(v)] on a [uint8_t]. *)
Definition M128INC (v : Z) : Z := u8 (v + 1) mod 128.

(** ** Layer 2 states ([L2_STATES]) *)
Inductive L2_STATES :=
| ST_L2_PAUSE | ST_L2_SEND_TEI | ST_L2_SEND_SABME | ST_L2_SEND_UA
| ST_L2_SINGLE_FRAME | ST_L2_MULTI_FRAME.
#[global] Instance L2_STATES_eq_dec : EqDecision L2_STATES.
Proof. solve_decision. Defined.
Definition L2_state_val (s : L2_STATES) : Z :=
  match s with
  | ST_L2_PAUSE => 0 | ST_L2_SEND_TEI => 1 | ST_L2_SEND_SABME => 2
  | ST_L2_SEND_UA => 3 | ST_L2_SINGLE_FRAME => 4 | ST_L2_MULTI_FRAME => 5
  end.
Definition L2_STATES_TIMEOUT_DELAY (s : L2_STATES) : Z :=
  match s with
  | ST_L2_PAUSE => 0 | ST_L2_SEND_TEI => 1 | ST_L2_SEND_SABME => 2
  | ST_L2_SEND_UA => 2 | ST_L2_SINGLE_FRAME => 8 | ST_L2_MULTI_FRAME => 12
  end.
Definition L2_STATES_TIMEOUT_STATE (s : L2_STATES) : L2_STATES :=
  match s with
  | ST_L2_PAUSE => ST_L2_PAUSE | ST_L2_SEND_TEI => ST_L2_SEND_TEI
  | ST_L2_SEND_SABME => ST_L2_SEND_TEI | ST_L2_SEND_UA => ST_L2_SEND_TEI
  | ST_L2_SINGLE_FRAME => ST_L2_SEND_TEI | ST_L2_MULTI_FRAME => ST_L2_SINGLE_FRAME
  end.
Definition L2_STATE_IS_TEI_ASSIGNED (s : L2_STATES) : bool :=
  L2_state_val ST_L2_SEND_TEI <? L2_state_val s.

(** ** Layer 3 states ([L3_STATES]) *)
Inductive L3_STATES :=
| ST_L3_U0
| ST_L3_OUTGOING | ST_L3_U1 | ST_L3_U2 | ST_L3_U2_ACK | ST_L3_U3 | ST_L3_U3_TO
| ST_L3_U4 | ST_L3_U4_TO
| ST_L3_INCOMING | ST_L3_IN_ACK | ST_L3_U6 | ST_L3_U6_TO | ST_L3_U7 | ST_L3_U7_TO
| ST_L3_U8
| ST_L3_UA | ST_L3_UA_TO
| ST_L3_UC | ST_L3_UC_TO.
#[global] Instance L3_STATES_eq_dec : EqDecision L3_STATES.
Proof. solve_decision. Defined.
Definition L3_state_val (s : L3_STATES) : Z :=
  match s with
  | ST_L3_U0 => 0
  | ST_L3_OUTGOING => 1 | ST_L3_U1 => 2 | ST_L3_U2 => 3 | ST_L3_U2_ACK => 4
  | ST_L3_U3 => 5 | ST_L3_U3_TO => 6 | ST_L3_U4 => 7 | ST_L3_U4_TO => 8
  | ST_L3_INCOMING => 9 | ST_L3_IN_ACK => 10 | ST_L3_U6 => 11 | ST_L3_U6_TO => 12
  | ST_L3_U7 => 13 | ST_L3_U7_TO => 14 | ST_L3_U8 => 15
  | ST_L3_UA => 16 | ST_L3_UA_TO => 17 | ST_L3_UC => 18 | ST_L3_UC_TO => 19
  end.
(** [newstate--], which the code only does to an [_TO] state. *)
Definition L3_state_pred (s : L3_STATES) : L3_STATES :=
  match s with
  | ST_L3_U0 | ST_L3_OUTGOING => ST_L3_U0
  | ST_L3_U1 => ST_L3_OUTGOING | ST_L3_U2 => ST_L3_U1 | ST_L3_U2_ACK => ST_L3_U2
  | ST_L3_U3 => ST_L3_U2_ACK | ST_L3_U3_TO => ST_L3_U3
  | ST_L3_U4 => ST_L3_U3_TO | ST_L3_U4_TO => ST_L3_U4
  | ST_L3_INCOMING => ST_L3_U4_TO | ST_L3_IN_ACK => ST_L3_INCOMING
  | ST_L3_U6 => ST_L3_IN_ACK | ST_L3_U6_TO => ST_L3_U6
  | ST_L3_U7 => ST_L3_U6_TO | ST_L3_U7_TO => ST_L3_U7 | ST_L3_U8 => ST_L3_U7_TO
  | ST_L3_UA => ST_L3_U8 | ST_L3_UA_TO => ST_L3_UA
  | ST_L3_UC => ST_L3_UA_TO | ST_L3_UC_TO => ST_L3_UC
  end.
Definition L3_STATES_TIMEOUT_DELAY (s : L3_STATES) : Z :=
  match s with
  | ST_L3_U0 => 0
  | ST_L3_OUTGOING => 8 | ST_L3_U1 => 8 | ST_L3_U2 => 16 | ST_L3_U2_ACK => 16
  | ST_L3_U3 => 8 | ST_L3_U3_TO => 4 | ST_L3_U4 => 8 | ST_L3_U4_TO => 4
  | ST_L3_INCOMING => 8 | ST_L3_IN_ACK => 16 | ST_L3_U6 => 8 | ST_L3_U6_TO => 4
  | ST_L3_U7 => 8 | ST_L3_U7_TO => 4 | ST_L3_U8 => 4
  | ST_L3_UA => 8 | ST_L3_UA_TO => 4 | ST_L3_UC => 8 | ST_L3_UC_TO => 4
  end.
Definition L3_STATES_TIMEOUT_STATE (s : L3_STATES) : L3_STATES :=
  match s with
  | ST_L3_U3 => ST_L3_U3_TO | ST_L3_U4 => ST_L3_U4_TO
  | ST_L3_U6 => ST_L3_U6_TO | ST_L3_U7 => ST_L3_U7_TO
  | ST_L3_UA => ST_L3_UA_TO | ST_L3_UC => ST_L3_UC_TO
  | _ => ST_L3_U0
  end.
Definition L3_STATES_Q931_CONV (s : L3_STATES) : Z :=
  match s with
  | ST_L3_U0 | ST_L3_OUTGOING | ST_L3_INCOMING => 0x00
  | ST_L3_U1 => 0x01 | ST_L3_U2 | ST_L3_U2_ACK => 0x02
  | ST_L3_U3 | ST_L3_U3_TO => 0x03 | ST_L3_U4 | ST_L3_U4_TO => 0x04
  | ST_L3_IN_ACK => 0x19
  | ST_L3_U6 | ST_L3_U6_TO => 0x06 | ST_L3_U7 | ST_L3_U7_TO => 0x07
  | ST_L3_U8 => 0x08 | ST_L3_UA | ST_L3_UA_TO => 0x0A
  | ST_L3_UC | ST_L3_UC_TO => 0x0C
  end.
Definition STATUS_ENQUIRY_TIMEOUT : Z := 8.

(** ** Layer 3 events ([L3_EVENTS]) in the order incoming, neutral, outgoing *)
Inductive L3_EVENTS :=
| EV_L3_ILL | EV_L3_PROGRESSRQ | EV_L3_ALERTRQ | EV_L3_PROCEEDINGRQ
| EV_L3_SETACRS | EV_L3_SETRJRS | EV_L3_DEFLECTRQ | EV_L3_MCIDRQ
| EV_L3_SETUP | EV_L3_CONACK
| EV_L3_STATUS | EV_L3_RELEASE | EV_L3_STATENQ | EV_L3_INFO | EV_L3_FACILITY
| EV_L3_RESTART_IND | EV_L3_RESTART_ACK | EV_L3_HOLD_IND | EV_L3_RETRIEVE_IND
| EV_L3_RETRIEVE_ACK | EV_L3_DISCONNECT | EV_L3_INFORQ | EV_L3_HOLD_REQ
| EV_L3_RETRIEVE_REQ
| EV_L3_SETUPRQ | EV_L3_SETUPAK | EV_L3_CALLPRC | EV_L3_ALERT
| EV_L3_CONNECT | EV_L3_PROGIND.
#[global] Instance L3_EVENTS_eq_dec : EqDecision L3_EVENTS.
Proof. solve_decision. Defined.
Definition L3_event_val (e : L3_EVENTS) : Z :=
  match e with
  | EV_L3_ILL => 0 | EV_L3_PROGRESSRQ => 1 | EV_L3_ALERTRQ => 2
  | EV_L3_PROCEEDINGRQ => 3 | EV_L3_SETACRS => 4 | EV_L3_SETRJRS => 5
  | EV_L3_DEFLECTRQ => 6 | EV_L3_MCIDRQ => 7 | EV_L3_SETUP => 8 | EV_L3_CONACK => 9
  | EV_L3_STATUS => 10 | EV_L3_RELEASE => 11 | EV_L3_STATENQ => 12
  | EV_L3_INFO => 13 | EV_L3_FACILITY => 14 | EV_L3_RESTART_IND => 15
  | EV_L3_RESTART_ACK => 16 | EV_L3_HOLD_IND => 17 | EV_L3_RETRIEVE_IND => 18
  | EV_L3_RETRIEVE_ACK => 19 | EV_L3_DISCONNECT => 20 | EV_L3_INFORQ => 21
  | EV_L3_HOLD_REQ => 22 | EV_L3_RETRIEVE_REQ => 23
  | EV_L3_SETUPRQ => 24 | EV_L3_SETUPAK => 25 | EV_L3_CALLPRC => 26
  | EV_L3_ALERT => 27 | EV_L3_CONNECT => 28 | EV_L3_PROGIND => 29
  end.
Definition L3_EVENT_IS_LOCAL_INCOMING (e : L3_EVENTS) : bool :=
  L3_event_val e <? 10 + 14.
Definition L3_EVENT_IS_LOCAL_OUTGOING (e : L3_EVENTS) : bool :=
  10 <=? L3_event_val e.

(** ** Q.931 message types and information elements (dss1_l3.h) *)
Definition ALERT : Z := 0x01.
Definition CALL_PROCEEDING : Z := 0x02.
Definition PROGRESS : Z := 0x03.
Definition SETUP : Z := 0x05.
Definition CONNECT : Z := 0x07.
Definition SETUP_ACKNOWLEDGE : Z := 0x0d.
Definition CONNECT_ACKNOWLEDGE : Z := 0x0f.
Definition HOLD : Z := 0x24.
Definition HOLD_ACKNOWLEDGE : Z := 0x28.
Definition HOLD_REJECT : Z := 0x30.
Definition RETRIEVE : Z := 0x31.
Definition RETRIEVE_ACKNOWLEDGE : Z := 0x33.
Definition RETRIEVE_REJECT : Z := 0x37.
Definition DISCONNECT : Z := 0x45.
Definition RESTART : Z := 0x46.
Definition RELEASE : Z := 0x4d.
Definition RESTART_ACKNOWLEDGE : Z := 0x4e.
Definition RELEASE_COMPLETE : Z := 0x5a.
Definition FACILITY : Z := 0x62.
Definition STATUS_ENQUIRY : Z := 0x75.
Definition INFORMATION : Z := 0x7b.
Definition STATUS : Z := 0x7d.

(** [Q931_MESSAGE_TYPES]: the event of a message type; every other entry of
    the table is the default, [EV_L3_ILL]. *)
Definition Q931_MESSAGE_TYPES_EVENT (mt : Z) : L3_EVENTS :=
  match mt with
  | 0x01 => EV_L3_ALERT | 0x02 => EV_L3_CALLPRC | 0x03 => EV_L3_PROGIND
  | 0x05 => EV_L3_SETUP | 0x07 => EV_L3_CONNECT | 0x0d => EV_L3_SETUPAK
  | 0x0f => EV_L3_CONACK
  | 0x24 => EV_L3_HOLD_IND | 0x31 => EV_L3_RETRIEVE_IND | 0x33 => EV_L3_RETRIEVE_ACK
  | 0x45 => EV_L3_DISCONNECT | 0x46 => EV_L3_RESTART_IND | 0x4d => EV_L3_RELEASE
  | 0x4e => EV_L3_RESTART_ACK | 0x5a => EV_L3_RELEASE
  | 0x62 => EV_L3_FACILITY | 0x75 => EV_L3_STATENQ | 0x7b => EV_L3_INFO
  | 0x7d => EV_L3_STATUS
  | _ => EV_L3_ILL
  end.

Definition PD_Q931 : Z := 0x08.
Definition EXT_LAST : Z := 0x80.
Definition IEI_BEARERCAP : Z := 0x04.
Definition IEI_CAUSE : Z := 0x08.
Definition IEI_CALLSTATE : Z := 0x14.
Definition IEI_CHANNELID : Z := 0x18.
Definition IEI_FACILITY : Z := 0x1c.
Definition IEI_PROGRESSI : Z := 0x1e.
Definition IEI_DISPLAY : Z := 0x28.
Definition IEI_DATETIME : Z := 0x29.
Definition IEI_KEYPAD : Z := 0x2c.
Definition IEI_CALLINGPN : Z := 0x6c.
Definition IEI_CALLINGPS : Z := 0x6d.
Definition IEI_CALLEDPN : Z := 0x70.
Definition IEI_CALLEDPS : Z := 0x71.
Definition IEI_RESTARTI : Z := 0x79.
Definition IEI_USERUSER : Z := 0x7e.
Definition IEI_SHIFT : Z := 0x90.
Definition SHIFT_LOCK : Z := 0x08.
Definition CODESET_MASK : Z := 0x07.
Definition CRLENGTH_MASK : Z := 0x0f.
Definition IEI_SENDCOMPL : Z := 0xa1.

Definition NUMBER_TYPE_LEN : Z := 1.
Definition NUMBER_TYPE_NSAP : Z := 0x80.
Definition NUMBER_TYPE_PLAN : Z := 0x81.
Definition CAUSE_STD_LOC_OUT : Z := 0x80.
Definition CAUSE_STD_LOC_PUBLIC : Z := 0x82.

(** B-channel protocols, channels, number types (i4b_ioctl.h) *)
Definition BPROT_DISABLE : Z := 0.
Definition BPROT_NONE_VOD : Z := 1.
Definition BPROT_RHDLC : Z := 2.
Definition BPROT_RHDLC_DOV : Z := 3.
Definition BPROT_NONE : Z := 4.
Definition BPROT_NONE_3_1_KHZ : Z := 5.
Definition BSUBPROT_UNKNOWN : Z := 0.
Definition BSUBPROT_G711_ALAW : Z := 1.
Definition BSUBPROT_G711_ULAW : Z := 2.
Definition CHAN_D1 : Z := 0.
Definition CHAN_B1 : Z := 1.
Definition CHAN_B2 : Z := 2.
Definition CHAN_ANY : Z := -1.
Definition CHAN_NOT_ANY : Z := -2.
Definition TON_OTHER : Z := 0.
Definition TON_INTERNAT : Z := 1.
Definition TON_NATIONAL : Z := 2.
Definition SCR_NONE : Z := 0.
Definition SCR_USR_NOSC : Z := 1.
Definition SCR_USR_PASS : Z := 2.
Definition SCR_USR_FAIL : Z := 3.
Definition SCR_NET : Z := 4.
Definition PRS_NONE : Z := 0.
Definition PRS_ALLOWED : Z := 1.
Definition PRS_RESTRICT : Z := 2.
Definition DRVR_DIAL_GEN : Z := 8.
Definition SETUP_RESP_DNTCRE : Z := 0.
Definition SETUP_RESP_REJECT : Z := 1.
Definition SETUP_RESP_ACCEPT : Z := 2.

(** ** Causes (i4b_cause.h) *)
Definition CAUSET_Q850 : Z := 0.
Definition CAUSET_I4B : Z := 1.
Definition CAUSE_Q850_NCCLR : Z := 0x10.
Definition CAUSE_Q850_USRBSY : Z := 0x11.
Definition CAUSE_Q850_NOANSWR : Z := 0x13.
Definition CAUSE_Q850_CALLREJ : Z := 0x15.
Definition CAUSE_Q850_NONSELUC : Z := 0x1a.
Definition CAUSE_Q850_DSTOOORDR : Z := 0x1b.
Definition CAUSE_Q850_STENQRSP : Z := 0x1e.
Definition CAUSE_Q850_NOCAVAIL : Z := 0x22.
Definition CAUSE_Q850_TMPFAIL : Z := 0x29.
Definition CAUSE_Q850_INVCLRFVAL : Z := 0x51.
Definition CAUSE_Q850_INCDEST : Z := 0x58.
Definition CAUSE_Q850_MSGNCMPT : Z := 0x62.
Definition CAUSE_Q850_RECOTIMEXP : Z := 0x66.
Definition CAUSE_I4B_NORMAL : Z := 0.
Definition CAUSE_I4B_L1ERROR : Z := 7.
Definition N_I4B_CAUSES : Z := 10.
(** [I4B_CAUSES_Q850_CONV] *)
Definition I4B_CAUSES_Q850_CONV (c : Z) : Z :=
  match c with
  | 0 => CAUSE_Q850_NCCLR | 1 => CAUSE_Q850_USRBSY | 2 => CAUSE_Q850_NOCAVAIL
  | 3 => CAUSE_Q850_INCDEST | 4 => CAUSE_Q850_CALLREJ | 5 => CAUSE_Q850_DSTOOORDR
  | 6 => CAUSE_Q850_TMPFAIL | _ => CAUSE_Q850_USRBSY
  end.
Definition GET_CAUSE_VAL (cause : Z) : Z := Z.land cause 0xff.
Definition GET_CAUSE_TYPE (cause : Z) : Z := Z.land (Z.shiftr cause 8) 0xff.
(** The value [SET_CAUSE_TV(dest, type, val)] stores. *)
Definition CAUSE_TV (type val : Z) : Z :=
  Z.lor (Z.land val 0x000000ff) (Z.land (Z.shiftl type 8) 0x0000ff00).
