(* ===== verification/Dss1State.v ===== *)
(** * The state of the DSS1 stack

    [DSS1_TCP_pipe_t] and [l2softc_t] (dss1_l2.h), [call_desc_t]
    (i4b_global.h) and the members of [i4b_controller_t]
    (i4b_controller.h) the stack reads and writes.  A pointer to a pipe or
    to a call descriptor is its index in [sc_pipe] or [N_call_desc]; a
    [struct callout] is the delay it was armed with, if it is armed; a
    one-bit member is a [bool].  [world] joins them with the surroundings
    of the stack: the answers it gets from the kernel and from the layers
    it does not contain, and the requests and indications it sends out. *)
From S2P Require Import Prelude Mbuf Dss1Types.
Local Open Scope Z_scope.

(** [struct callout] *)
Abbreviation callout := (option Z).

(** ** [DSS1_TCP_pipe_t] *)
Record pipe := Pipe {
  refcount : Z;                          (* uint32_t *)
  pipe_state : L2_STATES;
  get_mbuf_callout : callout;
  pipe_set_state_callout : callout;
  tei : Z;                               (* uint8_t *)
  serial_number : Z;                     (* uint16_t *)
  pipe_ifq : ifqueue;
  tx_window_size : Z;                    (* uint8_t *)
  tx_window_length : Z;                  (* uint8_t *)
  rx_nr : Z;                             (* uint8_t *)
  tx_nr : Z;                             (* uint8_t *)
}.
#[global] Instance pipe_inhabited : Inhabited pipe :=
  populate (Pipe 0 ST_L2_PAUSE None None 0 0 inhabitant 0 0 0 0).
Definition TEI_IS_AUTOMATIC (p : pipe) : bool := 0x80 <=? serial_number p.

(** ** [l2softc_t] *)
Record l2softc := L2softc {
  sc_unit : Z;
  sc_tei_last : Z;                       (* uint8_t *)
  sc_received_frame : bool;
  L1_deactivate_count : Z;               (* uint8_t *)
  L1_activity : Z;                       (* uint8_t *)
  L1_auto_activate : Z;                  (* uint32_t *)
  sc_nt_mode : bool;
  sc_primary_rate : bool;
  sc_point_to_point : bool;
  sc_ifq : ifqueue;
  ID_REQUEST_callout : callout;
  L1_activity_callout : callout;
  sc_pipe : list pipe;
  sc_current_pipe : nat;
  sc_current_mbuf : nat;                 (* position in the queue of the current pipe *)
  sc_current_length : Z;                 (* uint8_t *)
  sc_current_tx_nr : Z;                  (* uint8_t *)
  sc_fifo_translator : bool;             (* connected to layer 1 *)
}.

(** ** [struct i4b_src_telno] and [call_desc_t] *)
Record i4b_src_telno := SrcTelno {
  ton : Z; scr_ind : Z; prs_ind : Z;
  telno : list Z;                        (* char[TELNO_MAX] *)
  subaddr : list Z;                      (* char[SUBADDR_MAX] *)
}.
Record call_desc := CallDesc {
  cdid : Z;
  cd_pipe : option nat;
  cr : Z;                                (* uint32_t *)
  channel_id : Z;                        (* int *)
  channel_bprot : Z;
  channel_bsubprot : Z;
  driver_type : Z;
  driver_unit : Z;
  driver_type_copy : Z;
  driver_unit_copy : Z;
  cause_in : Z;
  cause_out : Z;
  call_state : Z;
  dst_telno : list Z;
  dst_telno_ptr : nat;                   (* offset into dst_telno *)
  dst_telno_part : list Z;
  dst_telno_early : list Z;
  dst_subaddr : list Z;
  src_0 : i4b_src_telno;
  src_1 : i4b_src_telno;
  dst_ton : Z;
  cd_state : L3_STATES;
  status_enquiry_timeout : Z;            (* u_char *)
  ai_type : Z;
  ai_ptr : Z;
  not_end_to_end_digital : bool;
  is_sms : bool;
  channel_allocated : bool;
  dir_incoming : bool;
  need_release : bool;
  peer_responded : bool;
  want_late_inband : bool;
  sending_complete : bool;
  b_link_want_active : bool;
  call_is_on_hold : bool;
  call_is_retrieving : bool;
  received_src_telno_1 : bool;
  received_src_telno_2 : bool;
  setup_interleave : Z;                  (* uint8_t *)
  li_cdid : Z;
  li_data_ptr : option Z;
  tone_gen_state : Z;
  connect_ind_count : Z;                 (* uint16_t *)
  idle_callout : callout;
  cd_set_state_callout : callout;
  display : list Z;
  idate_time_data : list Z;
  idate_time_len : Z;
  odate_time_data : list Z;
  odate_time_len : Z;
  keypad : list Z;
  user_user : list Z;
}.
Definition CDID_UNUSED : Z := 0.
(** [bzero(cd, sizeof( *cd ))] *)
Definition bzero_src : i4b_src_telno := SrcTelno 0 0 0 [] [].
Definition bzero_cd : call_desc :=
  {| cdid := 0; cd_pipe := None; cr := 0; channel_id := 0; channel_bprot := 0;
     channel_bsubprot := 0; driver_type := 0; driver_unit := 0;
     driver_type_copy := 0; driver_unit_copy := 0; cause_in := 0; cause_out := 0;
     call_state := 0; dst_telno := []; dst_telno_ptr := 0; dst_telno_part := [];
     dst_telno_early := []; dst_subaddr := []; src_0 := bzero_src; src_1 := bzero_src;
     dst_ton := 0; cd_state := ST_L3_U0; status_enquiry_timeout := 0; ai_type := 0;
     ai_ptr := 0; not_end_to_end_digital := false; is_sms := false;
     channel_allocated := false; dir_incoming := false; need_release := false;
     peer_responded := false; want_late_inband := false; sending_complete := false;
     b_link_want_active := false; call_is_on_hold := false;
     call_is_retrieving := false; received_src_telno_1 := false;
     received_src_telno_2 := false; setup_interleave := 0; li_cdid := 0;
     li_data_ptr := None; tone_gen_state := 0; connect_ind_count := 0;
     idle_callout := None; cd_set_state_callout := None; display := [];
     idate_time_data := []; idate_time_len := 0; odate_time_data := [];
     odate_time_len := 0; keypad := []; user_user := [] |}.
#[global] Instance call_desc_inhabited : Inhabited call_desc := populate bzero_cd.

(** ** [i4b_controller_t] *)
Record controller := Controller {
  unit_no : Z;                           (* uint8_t unit *)
  no_layer1_dialtone : bool;
  no_power_save : bool;
  no_layer3_status_enquiry : bool;
  N_serial_number : Z;                   (* uint16_t *)
  N_cdid_count : Z;                      (* uint32_t *)
  N_cdid_end : Z;                        (* uint32_t *)
  N_channel_utilization : list Z;        (* uint8_t[(I4B_MAX_CHANNELS + 7) / 8] *)
  N_call_desc : list call_desc;
  L1_channel_end : Z;                    (* uint16_t *)
  L1_type_is_pri : bool;                 (* L1_type == L1_TYPE_ISDN_PRI *)
}.

(** ** What the stack sends to its surroundings *)
Inductive l4_indication :=
| L4_PROCEEDING (complete progress : bool) | L4_ALERT | L4_CONNECT | L4_CONNECT_ACTIVE
| L4_INFORMATION | L4_PRE_DISCONNECT | L4_DISCONNECT | L4_HOLD | L4_RETRIEVE.
Inductive output :=
| L1_FIFO_START                          (* the transmit FIFO may poll for a frame *)
| CMR_PH_ACTIVATE | CMR_PH_DEACTIVATE    (* L1_COMMAND_REQ *)
| CMR_NT_MODE (on : bool)                (* i4b_l1_set_options *)
| SETUP_DRIVER (channel protocol_1 protocol_4 type unit : Z)  (* i4b_setup_driver *)
| L4_IND (ind : l4_indication) (cd : call_desc)
| L4_TEIASG (unit tei : Z)
| PANIC                                  (* panic() was called *)
| FAULT                                  (* a bad pointer was followed *)
| OVERRUN.                               (* a write went past the end of a buffer *)

Definition is_fault (o : output) : bool := match o with FAULT => true | _ => false end.

(** ** What the stack gets from its surroundings *)
Record environment := Env {
  hz : Z;                                (* clock ticks per second *)
  getmbuf_avail : list bool;             (* outcomes of the next allocations; then success *)
  l4_connect_count : call_desc -> Z;     (* the copies of MSG_CONNECT_IND taken (uint16_t) *)
  slot_li_alloc : Z -> Z -> option Z;    (* i4b_slot_li_alloc *)
}.

Record world := World {
  w_sc : l2softc;
  w_cntl : controller;
  w_env : environment;
  w_out : list output;                   (* latest first *)
}.

Abbreviation M := (st world).

(** ** Access to the parts of the world *)
Definition get_sc : M l2softc := gets w_sc.
Definition get_cntl : M controller := gets w_cntl.
Definition get_pipe (i : nat) : M pipe := gets (λ w, sc_pipe (w_sc w) !!! i).
Definition get_cd (j : nat) : M call_desc := gets (λ w, N_call_desc (w_cntl w) !!! j).
Definition get_hz : M Z := gets (λ w, hz (w_env w)).

Definition mod_sc (f : l2softc -> l2softc) : M unit := modify (λ w, w <| w_sc ::= f |>).
Definition mod_cntl (f : controller -> controller) : M unit :=
  modify (λ w, w <| w_cntl ::= f |>).
Definition mod_pipe (i : nat) (f : pipe -> pipe) : M unit :=
  mod_sc (λ s, s <| sc_pipe ::= alter f i |>).
Definition mod_cd (j : nat) (f : call_desc -> call_desc) : M unit :=
  mod_cntl (λ c, c <| N_call_desc ::= alter f j |>).
Definition emit (o : output) : M unit := modify (λ w, w <| w_out ::= cons o |>).

(** [i4b_getmbuf(len, M_NOWAIT)] *)
Definition get_mbuf (len : nat) : M (option mbuf) :=
  avail ← gets (λ w, head (getmbuf_avail (w_env w)));
  modify (λ w, w <| w_env ::= λ e, e <| getmbuf_avail ::= tail |> |>);;
  mret (i4b_getmbuf (default true avail) len).

Definition NT_MODE (s : l2softc) : bool := sc_nt_mode s.
Definition TE_MODE (s : l2softc) : bool := negb (sc_nt_mode s).
Definition IS_POINT_TO_POINT (s : l2softc) : bool := sc_point_to_point s.
Definition IS_PRIMARY_RATE (s : l2softc) : bool := sc_primary_rate s.

(** The indices [PIPE_FOREACH] and [CD_FOREACH] run through. *)
Definition pipe_indices (w : world) : list nat := seq 0 (length (sc_pipe (w_sc w))).
Definition cd_indices (w : world) : list nat := seq 0 (length (N_call_desc (w_cntl w))).

(** Reading the world changes nothing. *)
Section reading.
Context (I : world -> Prop) {B : Type} (f : world -> B).
Lemma keeps_get_sc : keeps I get_sc. Proof. apply keeps_gets. Qed.
Lemma keeps_get_cntl : keeps I get_cntl. Proof. apply keeps_gets. Qed.
Lemma keeps_get_pipe i : keeps I (get_pipe i). Proof. apply keeps_gets. Qed.
Lemma keeps_get_cd j : keeps I (get_cd j). Proof. apply keeps_gets. Qed.
Lemma keeps_get_hz : keeps I get_hz. Proof. apply keeps_gets. Qed.
Lemma frames_get_sc : frames f get_sc. Proof. apply frames_gets. Qed.
Lemma frames_get_cntl : frames f get_cntl. Proof. apply frames_gets. Qed.
Lemma frames_get_pipe i : frames f (get_pipe i). Proof. apply frames_gets. Qed.
Lemma frames_get_cd j : frames f (get_cd j). Proof. apply frames_gets. Qed.
Lemma frames_get_hz : frames f get_hz. Proof. apply frames_gets. Qed.
End reading.
#[export] Hint Resolve keeps_get_sc keeps_get_cntl keeps_get_pipe keeps_get_cd keeps_get_hz
  frames_get_sc frames_get_cntl frames_get_pipe frames_get_cd frames_get_hz : i4b.
