(* ===== verification/Buffer.v ===== *)
(** * Reading received frames (dss1_l2fsm.c, dss1_l3decoder.h)

    [struct dss1_buffer] with the bounds-checked accessors of dss1_l2fsm.c,
    the string reader [get_multi_1] and the generic information element
    loop [dss1_decode_ie] of dss1_l3decoder.h.  The theorems: reads stay
    inside the frame, [get_multi_1] never writes past its destination, and
    the element loop ends, visits the elements of the frame in order and
    hands each of them to the decoder with the window set to it. *)
From S2P Require Import Prelude Dss1Types.
Local Open Scope Z_scope.

(** [struct dss1_buffer]: the bytes at [start], and the window in it. *)
Record dss1_buffer := Buf {
  start : list Z;
  offset : Z;                            (* uint16_t *)
  len : Z;                               (* uint16_t *)
}.

(** [dss1_buf_init] *)
Definition dss1_buf_init (bytes : list Z) (l : Z) : dss1_buffer := Buf bytes 0 (u16 l).

Definition dss1_get_1 (src : dss1_buffer) (off : Z) : Z :=
  let off := u16 (off + offset src) in
  if (off <? offset src) || (len src <=? off) then 0
  else default 0 (start src !! Z.to_nat off).

Definition dss1_get_valid (src : dss1_buffer) (off : Z) : bool :=
  let off := u16 (off + offset src) in
  (offset src <=? off) && (off <? len src).

(** Returns the old length. *)
Definition dss1_set_length (src : dss1_buffer) (new_len : Z) : Z * dss1_buffer :=
  let new_len := u16 new_len in
  let old_len := len src in
  (old_len, if new_len <? old_len then src <| len := new_len |> else src).

(** A buffer as [dss1_l2_put_mbuf] makes it: the window is inside the
    frame, and the frame is at most a [uint16_t] long. *)
Definition buf_ok (b : dss1_buffer) : Prop :=
  is_u16 (offset b) ∧ is_u16 (len b) ∧ (Z.to_nat (len b) <= length (start b))%nat.

(** ** [get_multi_1] *)

(** The copy loop: at most [room] bytes, as long as the offset is valid. *)
Fixpoint copy_valid (b : dss1_buffer) (off : Z) (room : nat) : list Z :=
  match room with
  | O => []
  | S room =>
      if dss1_get_valid b off
      then u8 (dss1_get_1 b off) :: copy_valid b (u16 (off + 1)) room
      else []
  end.

(** The characters the filter lets through. *)
Definition telno_char_ok (c : Z) : bool :=
  ((97 <=? c) && (c <=? 122)) || ((65 <=? c) && (c <=? 90)) ||
  ((48 <=? c) && (c <=? 57)) || (c =? 42) || (c =? 35).

(** The filter loop: it stops at the first NUL. *)
Fixpoint telno_filter (s : list Z) : list Z :=
  match s with
  | [] => []
  | c :: s' => if c =? 0 then c :: s'
               else (if telno_char_ok c then c else 95) :: telno_filter s'
  end.

(** The bytes stored at [dst] without the final NUL, and the result.  With
    [len == 0] nothing is stored, [None]. *)
Definition get_multi_1 (b : dss1_buffer) (off : Z) (len : nat) (filter : bool)
  : option (list Z) * nat :=
  match len with
  | O => (None, O)
  | S room =>
      let s := copy_valid b off room in
      if filter then let s := telno_filter s in (Some s, length (cstr s))
      else (Some s, length s)
  end.

(** ** The information element loop *)
Section decode_ie.
(** The decoder works on an argument of type [S] and only reads the buffer. *)
Context {S : Type} (q931_func : S -> dss1_buffer -> S).

Record ie_state := IeState {
  ie_arg : S; ie_buf : dss1_buffer; codeset : Z; codeset_next : Z }.

(** The length of the element at the offset of the buffer. *)
Definition ie_msg_len (b : dss1_buffer) : Z :=
  let msg_type := dss1_get_1 b 0 in
  if negb (bit_set msg_type 0x80) then dss1_get_1 b 1 + 2 else 1.

(** The body of the [while] loop. *)
Definition decode_ie_step (s : ie_state) : ie_state :=
  let buf := ie_buf s in
  let msg_type := dss1_get_1 buf 0 in
  let '(old_len, win) := dss1_set_length buf (u16 (offset buf + ie_msg_len buf)) in
  let arg := if codeset s =? 0 then q931_func (ie_arg s) win else ie_arg s in
  let buf' := win <| offset := len win |> <| len := old_len |> in
  if Z.land msg_type 0xf0 =? IEI_SHIFT then
    let cs := Z.land msg_type CODESET_MASK in
    IeState arg buf' cs (if bit_set msg_type SHIFT_LOCK then cs else codeset s)
  else IeState arg buf' (codeset_next s) (codeset_next s).

(** [while(dss1_get_valid(buf,0))], with [fuel] rounds. *)
Fixpoint decode_ie_loop (fuel : nat) (s : ie_state) : option ie_state :=
  if dss1_get_valid (ie_buf s) 0 then
    match fuel with
    | O => None
    | Datatypes.S fuel => decode_ie_loop fuel (decode_ie_step s)
    end
  else Some s.

Definition decode_ie_init (arg : S) (b : dss1_buffer) : ie_state := IeState arg b 0 0.

(** A round consumes at least a byte, so the frame length is enough fuel. *)
Definition decode_ie_fuel (b : dss1_buffer) : nat := Z.to_nat (len b - offset b).

Definition dss1_decode_ie (arg : S) (b : dss1_buffer) : S :=
  match decode_ie_loop (decode_ie_fuel b) (decode_ie_init arg b) with
  | Some s => ie_arg s
  | None => arg
  end.
End decode_ie.
Arguments ie_state : clear implicits.

(** ** Reads stay inside the frame *)

(** The bytes of the window. *)
Definition window (b : dss1_buffer) : list Z :=
  take (Z.to_nat (len b - offset b)) (drop (Z.to_nat (offset b)) (start b)).

(** An offset that does not wrap past the [uint16_t] range. *)
Definition off_ok (b : dss1_buffer) (off : Z) : Prop :=
  0 <= off ∧ off + offset b < 65536.

Lemma get_valid_spec b off :
  buf_ok b -> off_ok b off ->
  dss1_get_valid b off = true <-> off + offset b < len b.
Proof.
  intros (Ho & Hl & Hs) (H0 & H1). unfold dss1_get_valid, is_u16 in *.
  rewrite u16_id by (unfold is_u16; lia). rewrite andb_true_iff. lia.
Qed.

Lemma window_length b : buf_ok b -> length (window b) = Z.to_nat (len b - offset b).
Proof.
  intros (Ho & Hl & Hs). unfold window, is_u16 in *.
  rewrite length_take, length_drop. lia.
Qed.

Lemma window_lookup b off :
  buf_ok b -> off_ok b off -> off + offset b < len b ->
  window b !! Z.to_nat off = start b !! Z.to_nat (off + offset b).
Proof.
  intros (Ho & Hl & Hs) (H0 & H1) H. unfold window, is_u16 in *.
  rewrite lookup_take_lt by lia. rewrite lookup_drop. f_equal. lia.
Qed.

Lemma get_1_window b off :
  buf_ok b -> off_ok b off ->
  dss1_get_1 b off = default 0 (window b !! Z.to_nat off).
Proof.
  intros Hb Hoff. pose proof Hb as (Ho & Hl & Hs). pose proof Hoff as (H0 & H1).
  unfold dss1_get_1, is_u16 in *. rewrite u16_id by (unfold is_u16; lia).
  destruct (Z.ltb_spec (off + offset b) (offset b)); [lia|].
  destruct (Z.leb_spec (len b) (off + offset b)); simpl.
  - rewrite lookup_ge_None_2; [done|]. rewrite window_length by done. lia.
  - by rewrite window_lookup.
Qed.

Lemma get_1_nonneg b off : Forall is_u8 (start b) -> 0 <= dss1_get_1 b off < 256.
Proof.
  intros Hf. unfold dss1_get_1. case_match; [lia|].
  destruct (start b !! _) eqn:E; simpl; [|lia].
  exact (Forall_lookup_1 _ _ _ _ Hf E).
Qed.

(** ** [get_multi_1] copies a prefix of the window *)
Lemma copy_valid_window b off room :
  buf_ok b -> Forall is_u8 (start b) -> 0 <= off ->
  off + offset b + Z.of_nat room < 65536 ->
  copy_valid b off room = take room (drop (Z.to_nat off) (window b)).
Proof.
  intros Hb Hu. revert off. induction room as [|room IH]; intros off H0 H1; simpl; [done|].
  assert (Hoff : off_ok b off) by (unfold off_ok; lia).
  pose proof (get_valid_spec b off Hb Hoff) as Hv.
  pose proof (window_length b Hb) as Hwl.
  destruct (dss1_get_valid b off).
  - assert (Hlt : off + offset b < len b) by tauto.
    destruct (lookup_lt_is_Some_2 (window b) (Z.to_nat off)) as [x Hx].
    { destruct Hb as ([? ?] & ? & ?). lia. }
    rewrite get_1_window by done. rewrite Hx. cbn [default].
    rewrite u8_id; [|eapply Forall_lookup_1; [|exact Hx]; by apply Forall_take, Forall_drop].
    rewrite (drop_S _ _ _ Hx). simpl. f_equal.
    destruct Hb as ((? & ?) & ? & ?). rewrite u16_id by (unfold is_u16 in *; lia).
    rewrite IH by lia. repeat f_equal. lia.
  - assert (~ (off + offset b < len b)) by (intros ?%Hv; congruence).
    rewrite drop_ge by lia. by destruct room.
Qed.

Lemma copy_valid_length b off room : (length (copy_valid b off room) <= room)%nat.
Proof. revert off. induction room as [|room IH]; intros off; simpl; [lia|].
  case_match; simpl; [|lia]. specialize (IH (u16 (off + 1))). lia. Qed.
Lemma telno_filter_length s : length (telno_filter s) = length s.
Proof. induction s as [|c s IH]; simpl; [done|]. case_match; simpl; [done|]. by f_equal. Qed.
Lemma telno_filter_ok s : Forall (λ c, telno_char_ok c = true ∨ c = 95) (cstr (telno_filter s)).
Proof.
  induction s as [|c s IH]; simpl; [constructor|].
  destruct (c =? 0) eqn:E; simpl; [by rewrite E; constructor|].
  destruct (telno_char_ok c) eqn:Hc; simpl.
  - rewrite E. constructor; [by left|done].
  - constructor; [by right|done].
Qed.

(** ** The element loop *)
Section decode_ie_proofs.
Context {S : Type} (f : S -> dss1_buffer -> S).

(** No element of the frame can make [offset + msg_len] wrap. *)
Definition loop_ok (s : ie_state S) : Prop :=
  buf_ok (ie_buf s) ∧ Forall is_u8 (start (ie_buf s)) ∧ len (ie_buf s) < 65536 - 257.

Lemma ie_msg_len_range b : Forall is_u8 (start b) -> 1 <= ie_msg_len b <= 257.
Proof.
  intros Hu. unfold ie_msg_len. pose proof (get_1_nonneg b 1 Hu). case_match; lia.
Qed.

(** The window handed to the decoder in a round. *)
Definition ie_window (b : dss1_buffer) : dss1_buffer :=
  (dss1_set_length b (u16 (offset b + ie_msg_len b))).2.

Lemma step_buf s :
  ie_buf (decode_ie_step f s) =
    (ie_window (ie_buf s)) <| offset := len (ie_window (ie_buf s)) |>
                           <| len := len (ie_buf s) |>.
Proof.
  unfold decode_ie_step, ie_window, dss1_set_length. cbn [snd].
  destruct (Z.land _ _ =? _); reflexivity.
Qed.

Lemma step_arg s :
  ie_arg (decode_ie_step f s) =
    if codeset s =? 0 then f (ie_arg s) (ie_window (ie_buf s)) else ie_arg s.
Proof.
  unfold decode_ie_step, ie_window, dss1_set_length. cbn [snd].
  destruct (Z.land _ _ =? _); reflexivity.
Qed.

Lemma ie_window_len b :
  Forall is_u8 (start b) -> is_u16 (offset b) -> is_u16 (len b) -> len b < 65536 - 257 ->
  offset b < len b ->
  len (ie_window b) = Z.min (len b) (offset b + ie_msg_len b) ∧
  offset (ie_window b) = offset b ∧ start (ie_window b) = start b.
Proof.
  intros Hu Ho Hl Hlen Hlt. pose proof (ie_msg_len_range b Hu) as Hm.
  unfold ie_window, dss1_set_length, is_u16 in *. cbn [snd].
  generalize dependent (ie_msg_len b). intros n Hm.
  rewrite !(u16_id (offset b + n)) by (unfold is_u16; lia).
  destruct (Z.ltb_spec (offset b + n) (len b)); cbn; split; try done; lia.
Qed.

(** The windows of the rounds, with the codeset each is read in. *)
Fixpoint ie_rounds (fuel : nat) (s : ie_state S) : list (Z * dss1_buffer) :=
  match fuel with
  | O => []
  | Datatypes.S fuel =>
      if dss1_get_valid (ie_buf s) 0
      then (codeset s, ie_window (ie_buf s)) :: ie_rounds fuel (decode_ie_step f s)
      else []
  end.

Lemma loop_invalid fuel s :
  dss1_get_valid (ie_buf s) 0 = false -> decode_ie_loop f fuel s = Some s.
Proof. intros H. destruct fuel; simpl; by rewrite H. Qed.

Lemma loop_rounds fuel s :
  loop_ok s -> (Z.to_nat (len (ie_buf s) - offset (ie_buf s)) <= fuel)%nat ->
  ∃ s', decode_ie_loop f fuel s = Some s' ∧
    ie_arg s' = fold_left (λ a r, if r.1 =? 0 then f a r.2 else a) (ie_rounds fuel s) (ie_arg s) ∧
    concat ((λ r, window r.2) <$> ie_rounds fuel s) = window (ie_buf s) ∧
    Forall (λ r, window r.2 ≠ []) (ie_rounds fuel s).
Proof.
  revert s. induction fuel as [|fuel IH]; intros s (Hb & Hu & Hlen) Hf.
  - assert (Hv : dss1_get_valid (ie_buf s) 0 = false).
    { apply not_true_iff_false. rewrite get_valid_spec; [lia|done|].
      destruct Hb as ([? ?] & ? & ?). unfold off_ok. lia. }
    exists s. rewrite loop_invalid by done. simpl. repeat split; [|constructor].
    unfold window. by rewrite (proj1 (Nat.le_0_r _) Hf).
  - pose proof Hb as (Ho & Hl & Hs).
    assert (Hoff : off_ok (ie_buf s) 0) by (destruct Ho; unfold off_ok; lia).
    pose proof (get_valid_spec _ 0 Hb Hoff) as Hv.
    cbn [decode_ie_loop ie_rounds].
    destruct (dss1_get_valid (ie_buf s) 0) eqn:Ev.
    + assert (Hlt : offset (ie_buf s) < len (ie_buf s)) by (destruct Hv; lia).
      destruct (ie_window_len (ie_buf s) Hu Ho Hl Hlen Hlt) as (Hwl & Hwo & Hws).
      pose proof (ie_msg_len_range _ Hu) as Hm.
      destruct (IH (decode_ie_step f s)) as (s' & H1 & H2 & H3 & H4).
      { unfold loop_ok, buf_ok. rewrite step_buf. cbn [set const len offset start]. rewrite Hws, Hwl.
        unfold is_u16 in *. repeat split; try done; lia. }
      { rewrite step_buf. cbn [set const len offset start]. rewrite Hwl. unfold is_u16 in *. lia. }
      exists s'. split; [exact H1|]. split; [|split].
      * rewrite H2. cbn [fold_left fst snd]. by rewrite step_arg.
      * cbn [fmap list_fmap concat fst snd]. rewrite H3, step_buf.
        unfold window. cbn [set const len offset start]. rewrite Hws, Hwo, Hwl. unfold is_u16 in *.
        rewrite <-(take_drop (Z.to_nat (Z.min (len (ie_buf s)) (offset (ie_buf s) + ie_msg_len (ie_buf s)) - offset (ie_buf s)))
           (take (Z.to_nat (len (ie_buf s) - offset (ie_buf s))) _)).
        f_equal; [rewrite take_take; f_equal; lia|].
        rewrite skipn_firstn_comm, drop_drop. f_equal; [lia|f_equal; lia].
      * constructor; [|done]. cbn [snd]. intros Hw%(f_equal length). revert Hw.
        rewrite window_length; [cbn [length]; rewrite Hwl, Hwo; lia|].
        unfold buf_ok, is_u16 in *. rewrite Hws, Hwo, Hwl. lia.
    + exists s. repeat split; [|constructor]. unfold window.
      destruct (Z.ltb_spec (offset (ie_buf s)) (len (ie_buf s))); [|].
      { exfalso. destruct Hv as [_ Hv]. discriminate Hv. lia. }
      by replace (Z.to_nat (len (ie_buf s) - offset (ie_buf s))) with O by lia.
Qed.
End decode_ie_proofs.

(** A property every element keeps is kept by a message. *)
Lemma decode_ie_ind {A} (f : A -> dss1_buffer -> A) (P : A -> Prop) arg b :
  (∀ s b, P s -> P (f s b)) -> P arg -> P (dss1_decode_ie f arg b).
Proof.
  intros Hf Harg. unfold dss1_decode_ie.
  assert (∀ fuel s, P (ie_arg s) -> ∀ s', decode_ie_loop f fuel s = Some s' -> P (ie_arg s')) as Hl.
  { induction fuel as [|fuel IH]; intros s Hs s'; cbn [decode_ie_loop].
    - case_match; [done|]. by intros [= <-].
    - case_match; [|by intros [= <-]]. apply IH. unfold decode_ie_step.
      destruct (dss1_set_length _ _) as [old win].
      assert (P (if codeset s =? 0 then f (ie_arg s) win else ie_arg s)) by (case_match; auto).
      by destruct (_ =? IEI_SHIFT). }
  destruct (decode_ie_loop _ _ _) as [s|] eqn:E; [|done]. by eapply Hl; [|exact E].
Qed.

(** Reading a byte of a received frame is memory safe, for every
    offset, wrap-around included: a valid offset reads the byte at an index
    inside the window and inside the storage, any other offset reads 0. *)
Lemma dss1_get_1_safe b off :
  buf_ok b ->
  (dss1_get_valid b off = true ->
     ∃ i x, offset b <= Z.of_nat i < len b ∧ start b !! i = Some x ∧ dss1_get_1 b off = x) ∧
  (dss1_get_valid b off = false -> dss1_get_1 b off = 0).
Proof.
  intros (Ho & Hl & Hs). unfold dss1_get_valid, dss1_get_1.
  pose proof (u16_range (off + offset b)) as Hi. revert Hi.
  generalize (u16 (off + offset b)). intros i Hi. unfold is_u16 in *.
  destruct (Z.ltb_spec i (offset b)), (Z.leb_spec (len b) i), (Z.leb_spec (offset b) i),
    (Z.ltb_spec i (len b)); simpl; split; intros ?; try done; try lia.
  destruct (lookup_lt_is_Some_2 (start b) (Z.to_nat i)) as [x Hx]; [lia|].
  exists (Z.to_nat i), x. rewrite Hx. split; [lia|done].
Qed.
Definition sample_frame : list Z := [0x04; 0x03; 0x80; 0x90; 0xa3; 0xa1; 0x70; 0x03; 0x81; 0x31; 0x32].

(** [get_multi_1] never writes past its destination of [n + 1] bytes:
    it stores at most [n] bytes and the NUL; what it stores is the prefix
    of the window at the offset, filtered on request, and after filtering
    the string holds letters, digits, '*', '#' and '_' only. *)
Lemma get_multi_1_correct b off n filter :
  buf_ok b -> Forall is_u8 (start b) -> 0 <= off ->
  off + offset b + Z.of_nat n < 65536 ->
  ∃ s r, get_multi_1 b off (S n) filter = (Some s, r) ∧
    (length s <= n)%nat ∧ (r <= length s)%nat ∧
    s = (if filter then telno_filter else id) (take n (drop (Z.to_nat off) (window b))) ∧
    (filter = true -> Forall (λ c, telno_char_ok c = true ∨ c = 95) (cstr s)).
Proof.
  intros Hb Hu H0 H1. cbn [get_multi_1].
  rewrite (copy_valid_window b off n Hb Hu H0 H1).
  set (s := take n _). assert (Hs : (length s <= n)%nat) by (unfold s; rewrite length_take; lia).
  destruct filter; eexists _, _; split; try reflexivity.
  - rewrite telno_filter_length. split; [done|]. split; [|split; [done|]].
    + rewrite <-(telno_filter_length s). apply cstr_length.
    + intros _. apply telno_filter_ok.
  - by repeat split.
Qed.

(** C34: the information element loop ends on every frame shorter than
    65279 bytes; the elements it visits partition the frame from the
    offset to the end, none is empty, and the argument of the decoder is
    folded through the elements read in codeset 0, in order. *)
Theorem dss1_decode_ie_correct {S} (f : S -> dss1_buffer -> S) (arg : S) b :
  buf_ok b -> Forall is_u8 (start b) -> len b < 65536 - 257 ->
  ∃ s, decode_ie_loop f (decode_ie_fuel b) (decode_ie_init arg b) = Some s ∧
    let rounds := ie_rounds f (decode_ie_fuel b) (decode_ie_init arg b) in
    dss1_decode_ie f arg b =
      fold_left (λ a r, if r.1 =? 0 then f a r.2 else a) rounds arg ∧
    concat ((λ r, window r.2) <$> rounds) = window b ∧
    Forall (λ r, window r.2 ≠ []) rounds.
Proof.
  intros Hb Hu Hl.
  destruct (loop_rounds f (decode_ie_fuel b) (decode_ie_init arg b)) as (s & H1 & H2 & H3 & H4).
  { by split. }
  { done. }
  exists s. split; [done|]. split; [|by split].
  unfold dss1_decode_ie. by rewrite H1.
Qed.
Lemma dss1_decode_ie_correct_witness :
  let f := λ (acc : list (list Z)) b, acc ++ [window b] in
  let b := dss1_buf_init sample_frame 11 in
  dss1_decode_ie f [] b = [[4; 3; 128; 144; 163]; [161]; [112; 3; 129; 49; 50]] ∧
  ∃ s, decode_ie_loop f (decode_ie_fuel b) (decode_ie_init [] b) = Some s ∧
    let rounds := ie_rounds f (decode_ie_fuel b) (decode_ie_init [] b) in
    dss1_decode_ie f [] b = fold_left (λ a r, if r.1 =? 0 then f a r.2 else a) rounds [] ∧
    concat ((λ r, window r.2) <$> rounds) = window b ∧
    Forall (λ r, window r.2 ≠ []) rounds.
Proof.
  intros f b. split; [vm_compute; reflexivity|].
  apply (dss1_decode_ie_correct f [] b).
  - unfold buf_ok; concrete.
  - concrete.
  - concrete.
Defined.
