(* ===== verification/L3Encoder.v ===== *)
(** * Building and sending Q.931 messages (dss1_l3encoder.h)

    Call references, the channel identification element, SETUP and the
    other messages, and the functions that put them into the queue of a
    pipe; [i4b_make_q850_cause] of i4b_l4mgmt.c and the channel number
    conversion of i4b_ihfc2_l1if.c, which they use; [dss1_pipe_data_req]
    and [dss1_pipe_data_acknowledge] of dss1_l2fsm.c, which they call. *)
From S2P Require Import Prelude Mbuf Dss1Types Dss1State.
Local Open Scope Z_scope.

(** ** Causes *)

(** [None] is the call of [panic]. *)
Definition i4b_make_q850_cause (cause : Z) : option Z :=
  let ret := GET_CAUSE_VAL cause in
  if GET_CAUSE_TYPE cause =? CAUSET_Q850 then Some (Z.land ret 0x7F)
  else if GET_CAUSE_TYPE cause =? CAUSET_I4B then
    let ret := if N_I4B_CAUSES <=? ret then CAUSE_I4B_NORMAL else ret in
    Some (I4B_CAUSES_Q850_CONV ret)
  else None.

Definition q850_cause (cause : Z) : M Z :=
  match i4b_make_q850_cause cause with
  | Some c => mret c
  | None => emit PANIC;; mret 0
  end.

(** ** Channel numbers on a primary rate interface *)
Definition CMR_ENCODE_CHANNEL (channel_id : Z) : Z :=
  if channel_id <? 0 then -1
  else if channel_id =? CHAN_D1 then 0x10
  else if CHAN_D1 + 0x10 <=? channel_id then channel_id + 1
  else channel_id.
Definition CMR_DECODE_CHANNEL (channel_id : Z) : Z :=
  if channel_id =? 0x10 then CHAN_D1
  else if channel_id <=? 0 then CHAN_NOT_ANY
  else if 0x10 <? channel_id then channel_id - 1
  else channel_id.

(** The channel identification element. *)
Definition IEI_channelid (primary_rate : bool) (cd : call_desc) : list Z :=
  let ext_exclusive := Z.lor 0x80 0x08 in
  let chan :=
    if channel_id cd =? CHAN_NOT_ANY then 0x00
    else if channel_id cd =? CHAN_D1 then 0x04
    else if channel_id cd =? CHAN_B1 then 0x01
    else if channel_id cd =? CHAN_B2 then 0x02
    else 0x03 in
  let b := Z.lor chan ext_exclusive in
  let body :=
    if primary_rate then
      let b := Z.lor b 0x20 in
      if CHAN_B1 <=? channel_id cd then
        [u8 (Z.lor (Z.land b (Z.lnot 0x03)) 0x01); Z.lor 0x80 0x03;
         u8 (Z.lor (CMR_ENCODE_CHANNEL (channel_id cd)) 0x80)]
      else [b]
    else [b] in
  [IEI_CHANNELID; Z.of_nat (length body)] ++ body.

(** ** Call references *)

(** The [while(len)] loop of [make_callreference]: low byte first. *)
Fixpoint callref_bytes (len : nat) (cr : Z) : list Z :=
  match len with
  | O => []
  | S len => u8 cr :: callref_bytes len (Z.shiftr cr 8)
  end.
Definition callref_len (primary_rate : bool) (cr : Z) : nat :=
  let len :=
    if nonzero (Z.land cr 0xFF000000) then 4%nat
    else if nonzero (Z.land cr 0x00FF0000) then 3%nat
    else if nonzero (Z.land cr 0x0000FF00) then 2%nat else 1%nat in
  if primary_rate && (len <? 2)%nat then 2%nat else len.
Definition make_callreference (primary_rate : bool) (cr : Z) : list Z :=
  Z.of_nat (callref_len primary_rate cr) :: callref_bytes (callref_len primary_rate cr) cr.

(** The [while(len)] loop of [get_callreference], from [ptr[len - 1]] down. *)
Fixpoint callref_value (len : nat) (ptr : list Z) (cr : Z) : Z :=
  match len with
  | O => cr
  | S len => callref_value len ptr (Z.lor (u32 (Z.shiftl cr 8)) (default 0 (ptr !! len)))
  end.
Definition get_callreference (ptr : list Z) : Z :=
  let len := Z.land (default 0 (head ptr)) CRLENGTH_MASK in
  callref_value (Z.to_nat len) (tail ptr) 0.

(** ** The queue of a pipe (dss1_l2fsm.c) *)
Definition dss1_pipe_data_req (i : nat) (m : mbuf) : M unit :=
  p ← get_pipe i;
  sc ← get_sc;
  if IF_QFULL (pipe_ifq p) || negb (sc_fifo_translator sc) then mret tt
  else
    mod_pipe i (λ p, p <| pipe_ifq ::= IF_ENQUEUE m |>);;
    emit L1_FIFO_START.

(** The frames of the call [crval] in a queue are cut down to their
    header. *)
Definition acknowledge_mbuf (crval : Z) (m : mbuf) : mbuf :=
  let hdr := if m_proto1 m then (I_HEADER_LEN - 1)%nat else I_HEADER_LEN in
  let ptr := drop (m_off m + hdr) (m_buf m) in
  if (default 0 (head ptr) =? PD_Q931) && (get_callreference (tail ptr) =? crval)
  then m <| m_len := hdr |> else m.
Definition dss1_pipe_data_acknowledge (i : nat) (cd : call_desc) : M unit :=
  mod_pipe i (λ p, p <| pipe_ifq ::= λ q, q <| ifq ::= map (acknowledge_mbuf (cr cd)) |> |>).

(** Store [msg] behind the frame header of a buffer of [capacity] bytes
    and hand it to the pipe. *)
Definition tx_frame (i : nat) (capacity : nat) (msg : list Z) (m : mbuf) : M unit :=
  when (capacity <? I_HEADER_LEN + length msg)%nat (emit OVERRUN);;
  dss1_pipe_data_req i (m_fill (replicate I_HEADER_LEN 0 ++ msg) m).

(** ** SETUP *)

(** An element that holds a string: identifier, length, prefix, string;
    nothing if the string is empty. *)
Definition string_ie (iei : Z) (prefix : list Z) (str : list Z) : list Z :=
  let s := cstr str in
  match s with
  | [] => []
  | _ => [iei; u8 (Z.of_nat (length prefix + length s))] ++ prefix ++ s
  end.

Definition bearer_capability (cd : call_desc) : list Z :=
  let law :=
    if channel_bsubprot cd =? BSUBPROT_G711_ALAW then 0xa3
    else if channel_bsubprot cd =? BSUBPROT_G711_ULAW then 0xa2 else 0xA0 in
  IEI_BEARERCAP ::
  (if channel_bprot cd =? BPROT_NONE_3_1_KHZ then [3; 0x90; 0x90; law]
   else if (channel_bprot cd =? BPROT_NONE) || (channel_bprot cd =? BPROT_RHDLC_DOV)
   then [3; 0x80; 0x90; law]
   else [2; 0x88; 0x90]).

(** Type of number and plan, and the presentation and screening octet. *)
Definition calling_prefix (s : i4b_src_telno) : list Z :=
  let plan :=
    if ton s =? TON_INTERNAT then Z.lor NUMBER_TYPE_PLAN 0x10
    else if ton s =? TON_NATIONAL then Z.lor NUMBER_TYPE_PLAN 0x20
    else NUMBER_TYPE_PLAN in
  if negb (prs_ind s =? PRS_NONE) || negb (scr_ind s =? SCR_NONE) then
    let temp := if prs_ind s =? PRS_RESTRICT then Z.lor 0x80 0x20 else 0x80 in
    let temp :=
      if scr_ind s =? SCR_USR_PASS then Z.lor temp 0x01
      else if scr_ind s =? SCR_USR_FAIL then Z.lor temp 0x02
      else if scr_ind s =? SCR_NET then Z.lor temp 0x03 else temp in
    [Z.land plan (Z.lnot 0x80); temp]
  else [plan].

Definition calling_party (s : i4b_src_telno) : list Z :=
  string_ie IEI_CALLINGPN (calling_prefix s) (telno s) ++
  string_ie IEI_CALLINGPS [NUMBER_TYPE_NSAP] (subaddr s).

Definition make_setup (primary_rate : bool) (cd : call_desc) : list Z :=
  [PD_Q931] ++ make_callreference primary_rate (cr cd) ++ [SETUP] ++
  (if sending_complete cd then [IEI_SENDCOMPL] else []) ++
  bearer_capability cd ++
  (if channel_allocated cd then IEI_channelid primary_rate cd else []) ++
  string_ie IEI_KEYPAD [] (keypad cd) ++
  calling_party (src_0 cd) ++ calling_party (src_1 cd) ++
  string_ie IEI_CALLEDPN [NUMBER_TYPE_PLAN] (dst_telno cd) ++
  string_ie IEI_CALLEDPS [NUMBER_TYPE_NSAP] (dst_subaddr cd) ++
  string_ie IEI_USERUSER [] (user_user cd) ++
  string_ie IEI_DISPLAY [] (display cd).

Definition dss1_l3_tx_setup (j : nat) : M unit :=
  cd ← get_cd j;
  sc ← get_sc;
  match cd_pipe cd with
  | None => emit FAULT
  | Some i =>
      m ← get_mbuf BCH_MAX_DATALEN;
      match m with
      | None => mret tt
      | Some m =>
          let msg := make_setup (IS_PRIMARY_RATE sc) cd in
          when (negb (bool_decide (cstr (dst_telno cd) = [])))
            (mod_cd j (λ c, c <| dst_telno_ptr := length (cstr (dst_telno c)) |>));;
          tx_frame i BCH_MAX_DATALEN msg m
      end
  end.

(** ** The other messages *)
Definition L3_TX_HEADER : Z := 0x0000.
Definition L3_TX_CAUSE : Z := 0x0001.
Definition L3_TX_CALLSTATE : Z := 0x0002.
Definition L3_TX_CHANNELID : Z := 0x0004.
Definition L3_TX_CALLEDPN : Z := 0x0008.
Definition L3_TX_PROGRESSI : Z := 0x0010.
Definition L3_TX_RESTARTI : Z := 0x0020.
Definition L3_TX_DEFLECT : Z := 0x0040.
Definition L3_TX_MCID_REQ : Z := 0x0080.
Definition L3_TX_DATE_TIME : Z := 0x0100.

Definition location (nt : bool) : Z := if nt then CAUSE_STD_LOC_PUBLIC else CAUSE_STD_LOC_OUT.
Definition cause_ie (nt : bool) (q850 : Z) : list Z :=
  [IEI_CAUSE; 2; location nt; Z.lor q850 EXT_LAST].

(** The call deflection invocation. *)
Definition deflect_ie (str : list Z) : list Z :=
  let s := cstr str in
  let n := Z.of_nat (length s) in
  match s with
  | [] => []
  | _ => [IEI_FACILITY; u8 (0x10 + n); 0x91; 0xa1; u8 (0x0D + n); 0x02; 0x02; 0x22; 0x00;
          0x02; 0x01; 0x0d; 0x30; u8 (0x04 + n); 0x30; u8 (0x02 + n); 0x80; u8 n] ++ s
  end.
(** The malicious call identification invocation. *)
Definition mcid_ie : list Z :=
  [IEI_FACILITY; 0x0a; 0x91; 0xa1; 0x07; 0x02; 0x02; 0x22; 0x00; 0x02; 0x01; 0x03].

(** [cd->odate_time_len], as clipped by the code. *)
Definition date_time_len (cd : call_desc) : Z := Z.min 8 (odate_time_len cd).

Definition make_message (nt primary_rate : bool) (cd : call_desc)
    (message_type flag q850 : Z) : list Z :=
  [PD_Q931] ++ make_callreference primary_rate (cr cd) ++ [message_type] ++
  (if bit_set flag L3_TX_CAUSE then cause_ie nt q850 else []) ++
  (if bit_set flag L3_TX_CALLSTATE
   then [IEI_CALLSTATE; 1; L3_STATES_Q931_CONV (cd_state cd)] else []) ++
  (if bit_set flag L3_TX_CHANNELID && channel_allocated cd
   then IEI_channelid primary_rate cd else []) ++
  (if bit_set flag L3_TX_PROGRESSI then [IEI_PROGRESSI; 2; location nt; 0x88] else []) ++
  (if bit_set flag L3_TX_CALLEDPN
   then string_ie IEI_CALLEDPN [NUMBER_TYPE_PLAN] (dst_telno_early cd) else []) ++
  (if bit_set flag L3_TX_DEFLECT then deflect_ie (dst_telno_part cd) else []) ++
  (if bit_set flag L3_TX_MCID_REQ then mcid_ie else []) ++
  (if bit_set flag L3_TX_DATE_TIME && nonzero (odate_time_len cd)
   then [IEI_DATETIME; date_time_len cd] ++
        take (Z.to_nat (date_time_len cd)) (odate_time_data cd)
   else []).

Definition dss1_l3_tx_message (j : nat) (message_type flag : Z) : M unit :=
  cd ← get_cd j;
  sc ← get_sc;
  match cd_pipe cd with
  | None => emit FAULT
  | Some i =>
      m ← get_mbuf DCH_MAX_DATALEN;
      match m with
      | None => mret tt
      | Some m =>
          q850 ← (if bit_set flag L3_TX_CAUSE then q850_cause (cause_out cd) else mret 0);
          let msg := make_message (NT_MODE sc) (IS_PRIMARY_RATE sc) cd message_type flag q850 in
          when (bit_set flag L3_TX_DATE_TIME && nonzero (odate_time_len cd))
            (mod_cd j (λ c, c <| odate_time_len ::= Z.min 8 |>));;
          tx_frame i DCH_MAX_DATALEN msg m
      end
  end.

(** The [dss1_l3_tx_xxx] macros. *)
Definition flag_if (b : bool) (flag : Z) : Z := if b then flag else 0.
Definition dss1_l3_tx_alert (j : nat) : M unit := dss1_l3_tx_message j ALERT L3_TX_HEADER.
Definition dss1_l3_tx_setup_acknowledge (j : nat) (send_chan_id send_progress : bool) : M unit :=
  dss1_l3_tx_message j SETUP_ACKNOWLEDGE
    (Z.lor L3_TX_HEADER (Z.lor (flag_if send_progress L3_TX_PROGRESSI)
                               (flag_if send_chan_id L3_TX_CHANNELID))).
Definition dss1_l3_tx_call_proceeding (j : nat) (send_chan_id send_progress : bool) : M unit :=
  dss1_l3_tx_message j CALL_PROCEEDING
    (Z.lor L3_TX_HEADER (Z.lor (flag_if send_progress L3_TX_PROGRESSI)
                               (flag_if send_chan_id L3_TX_CHANNELID))).
Definition dss1_l3_tx_information (j : nat) : M unit :=
  dss1_l3_tx_message j INFORMATION (Z.lor L3_TX_HEADER L3_TX_CALLEDPN).
Definition dss1_l3_tx_connect (j : nat) (send_date_time : bool) : M unit :=
  dss1_l3_tx_message j CONNECT (Z.lor L3_TX_HEADER (flag_if send_date_time L3_TX_DATE_TIME)).
Definition dss1_l3_tx_connect_acknowledge (j : nat) : M unit :=
  dss1_l3_tx_message j CONNECT_ACKNOWLEDGE L3_TX_HEADER.
Definition dss1_l3_tx_release_complete (j : nat) (send_cause_flag : bool) : M unit :=
  dss1_l3_tx_message j RELEASE_COMPLETE
    (if send_cause_flag then Z.lor L3_TX_HEADER L3_TX_CAUSE else L3_TX_HEADER).
Definition set_cause_out (j : nat) (cause : Z) : M unit := mod_cd j (λ c, c <| cause_out := cause |>).
Definition dss1_l3_tx_status (j : nat) (q850cause : Z) : M unit :=
  set_cause_out j q850cause;;
  dss1_l3_tx_message j STATUS (Z.lor L3_TX_HEADER (Z.lor L3_TX_CAUSE L3_TX_CALLSTATE));;
  set_cause_out j 0.
Definition dss1_l3_tx_status_enquiry (j : nat) : M unit :=
  dss1_l3_tx_message j STATUS_ENQUIRY L3_TX_HEADER.
Definition dss1_l3_tx_progress (j : nat) : M unit :=
  dss1_l3_tx_message j PROGRESS (Z.lor L3_TX_HEADER L3_TX_PROGRESSI).
Definition dss1_l3_tx_hold (j : nat) : M unit := dss1_l3_tx_message j HOLD L3_TX_HEADER.
Definition dss1_l3_tx_hold_acknowledge (j : nat) : M unit :=
  dss1_l3_tx_message j HOLD_ACKNOWLEDGE L3_TX_HEADER.
Definition dss1_l3_tx_hold_reject (j : nat) (q850cause : Z) : M unit :=
  set_cause_out j q850cause;;
  dss1_l3_tx_message j HOLD_REJECT (Z.lor L3_TX_HEADER L3_TX_CAUSE);;
  set_cause_out j 0.
Definition dss1_l3_tx_retrieve (j : nat) : M unit := dss1_l3_tx_message j RETRIEVE L3_TX_HEADER.
Definition dss1_l3_tx_retrieve_acknowledge (j : nat) : M unit :=
  dss1_l3_tx_message j RETRIEVE_ACKNOWLEDGE (Z.lor L3_TX_HEADER L3_TX_CHANNELID).
Definition dss1_l3_tx_deflect_call (j : nat) : M unit :=
  dss1_l3_tx_message j FACILITY (Z.lor L3_TX_HEADER L3_TX_DEFLECT).
Definition dss1_l3_tx_mcid_call (j : nat) : M unit :=
  dss1_l3_tx_message j FACILITY (Z.lor L3_TX_HEADER L3_TX_MCID_REQ).
Definition dss1_l3_tx_retrieve_reject (j : nat) (q850cause : Z) : M unit :=
  set_cause_out j q850cause;;
  dss1_l3_tx_message j RETRIEVE_REJECT (Z.lor L3_TX_HEADER L3_TX_CAUSE);;
  set_cause_out j 0.

(** Send to every active pipe but [skip_1] and [skip_2]. *)
Definition dss1_l3_tx_message_complement (j : nat) (skip_1 skip_2 : option nat)
    (message_type flag : Z) : M unit :=
  cd ← get_cd j;
  let pipe_old := cd_pipe cd in
  idx ← gets pipe_indices;
  for_each idx (λ i,
    p ← get_pipe i;
    when (bool_decide (Some i ≠ skip_1) && bool_decide (Some i ≠ skip_2) &&
          bool_decide (pipe_state p ≠ ST_L2_PAUSE))
      (mod_cd j (λ c, c <| cd_pipe := Some i |>);;
       dss1_l3_tx_message j message_type (u8 flag)));;
  mod_cd j (λ c, c <| cd_pipe := pipe_old |>).
Definition dss1_l3_tx_release_complete_complement (j : nat) (p1 p2 : option nat) : M unit :=
  dss1_l3_tx_message_complement j p1 p2 RELEASE_COMPLETE (Z.lor L3_TX_HEADER L3_TX_CAUSE).

(** A message without a call descriptor. *)
Definition make_message_by_pipe_cr (nt primary_rate : bool) (call_ref message_type flag
    q850 restart_indication : Z) : list Z :=
  [PD_Q931] ++ make_callreference primary_rate call_ref ++ [message_type] ++
  (if bit_set flag L3_TX_CAUSE then cause_ie nt q850 else []) ++
  (if bit_set flag L3_TX_RESTARTI
   then [IEI_RESTARTI; 1; Z.lor restart_indication 0x80] else []).
Definition dss1_l3_tx_message_by_pipe_cr (i : nat) (call_ref message_type flag cause_out
    restart_indication : Z) : M unit :=
  sc ← get_sc;
  m ← get_mbuf DCH_MAX_DATALEN;
  match m with
  | None => mret tt
  | Some m =>
      q850 ← (if bit_set flag L3_TX_CAUSE then q850_cause (u8 cause_out) else mret 0);
      let msg := make_message_by_pipe_cr (NT_MODE sc) (IS_PRIMARY_RATE sc) call_ref
                   message_type flag q850 restart_indication in
      tx_frame i DCH_MAX_DATALEN msg m
  end.

(** ** Call references round-trip *)
Lemma callref_bytes_length n x : length (callref_bytes n x) = n.
Proof. revert x. induction n as [|n IH]; intros x; simpl; [done|]. by rewrite IH. Qed.

Lemma callref_bytes_lookup n x k :
  (k < n)%nat -> callref_bytes n x !! k = Some (u8 (Z.shiftr x (8 * Z.of_nat k))).
Proof.
  revert x k. induction n as [|n IH]; intros x k Hk; [lia|].
  destruct k as [|k]; simpl; [done|]. rewrite IH by lia.
  rewrite Z.shiftr_shiftr by lia. repeat f_equal. lia.
Qed.

(** One round of the reader puts the byte back. *)
Lemma callref_round x k :
  0 <= x < 4294967296 ->
  Z.lor (u32 (Z.shiftl (Z.shiftr x (8 * (k + 1))) 8)) (u8 (Z.shiftr x (8 * k))) =
  Z.shiftr x (8 * k) \/ k < 0.
Proof.
  intros Hx. destruct (Z.ltb_spec k 0) as [|Hk]; [by right|left].
  replace (8 * (k + 1)) with (8 * k + 8) by lia.
  rewrite <-Z.shiftr_shiftr by lia. set (y := Z.shiftr x (8 * k)).
  assert (Hy : 0 <= y < 4294967296).
  { unfold y. rewrite Z.shiftr_div_pow2 by lia.
    assert (0 < 2 ^ (8 * k)) by (apply Z.pow_pos_nonneg; lia).
    split; [apply Z.div_pos; lia|]. apply Z.div_lt_upper_bound; nia. }
  rewrite u32_id.
  2:{ unfold is_u32. rewrite Z.shiftl_mul_pow2, Z.shiftr_div_pow2 by lia.
      change (2 ^ 8) with 256. Z.div_mod_to_equations. lia. }
  unfold u8. rewrite <-land_255. apply Z.bits_inj'. intros n Hn.
  rewrite Z.lor_spec, Z.land_spec. destruct (Z.ltb_spec n 8).
  - rewrite Z.shiftl_spec_low by lia.
    replace (Z.testbit 255 n) with true; [by rewrite andb_true_r|].
    change 255 with (Z.ones 8). by rewrite Z.ones_spec_low by lia.
  - rewrite Z.shiftl_spec, Z.shiftr_spec by lia.
    replace (Z.testbit 255 n) with false.
    + rewrite andb_false_r, orb_false_r. f_equal. lia.
    + change 255 with (Z.ones 8). by rewrite Z.ones_spec_high by lia.
Qed.

Lemma callref_value_round n ptr x :
  0 <= x < 4294967296 ->
  (∀ k, (k < n)%nat -> ptr !! k = Some (u8 (Z.shiftr x (8 * Z.of_nat k)))) ->
  callref_value n ptr (Z.shiftr x (8 * Z.of_nat n)) = x.
Proof.
  intros Hx. induction n as [|n IH]; intros Hp; cbn [callref_value]; [apply Z.shiftr_0_r|].
  rewrite Hp by lia. cbn [from_option id].
  destruct (callref_round x (Z.of_nat n) Hx) as [Hr|]; [|lia].
  replace (Z.of_nat (S n)) with (Z.of_nat n + 1) by lia.
  rewrite Hr. apply IH. intros k Hk. apply Hp. lia.
Qed.

(** The value fits into the octets the encoder chooses. *)
Lemma land_zero_lt x m k :
  is_u32 x -> 0 <= k -> Forall (λ n, Z.testbit m n = true) (seqZ k (32 - k)) ->
  Z.land x m = 0 -> x < 2 ^ k.
Proof.
  intros Hx Hk Hm Hz. unfold is_u32 in *.
  destruct (Z.eq_dec x 0) as [->|]; [apply Z.pow_pos_nonneg; lia|].
  destruct (Z.ltb_spec (Z.log2 x) k) as [Hl|Hl]; [apply Z.log2_lt_pow2; lia|exfalso].
  assert (Hb : Z.testbit (Z.land x m) (Z.log2 x) = true).
  { rewrite Z.land_spec, Z.bit_log2 by lia. rewrite Forall_forall in Hm. apply Hm.
    apply elem_of_seqZ. assert (Z.log2 x < 32) by (apply Z.log2_lt_pow2; lia). lia. }
  rewrite Hz, Z.bits_0 in Hb. done.
Qed.

Lemma callref_len_fits pr x : is_u32 x -> x < 2 ^ (8 * Z.of_nat (callref_len pr x)).
Proof.
  intros Hx.
  assert (H : x < 2 ^ (8 * Z.of_nat (callref_len false x))).
  { unfold callref_len. rewrite andb_false_l. unfold nonzero.
    destruct (Z.eqb_spec (Z.land x 0xFF000000) 0) as [H4|]; simpl; [|by destruct Hx].
    destruct (Z.eqb_spec (Z.land x 0x00FF0000) 0) as [H3|]; simpl;
      [|apply (land_zero_lt x 0xFF000000 24); [done|lia|repeat constructor|done]].
    assert (H34 : Z.land x (Z.lor 0xFF000000 0x00FF0000) = 0)
      by by rewrite Z.land_lor_distr_r, H4, H3.
    destruct (Z.eqb_spec (Z.land x 0x0000FF00) 0) as [H2|]; simpl;
      [|apply (land_zero_lt x 0xFFFF0000 16); [done|lia|repeat constructor|done]].
    apply (land_zero_lt x (Z.lor 0xFFFF0000 0x0000FF00) 8); [done|lia|repeat constructor|].
    change 0xFFFF0000 with (Z.lor 0xFF000000 0x00FF0000).
    by rewrite Z.land_lor_distr_r, H34, H2. }
  destruct pr; [|done]. unfold callref_len in *. rewrite andb_false_l in H. rewrite andb_true_l.
  destruct ((_ <? 2)%nat) eqn:E; [|done]. apply Nat.ltb_lt in E.
  eapply Z.lt_le_trans; [exact H|]. apply Z.pow_le_mono_r; lia.
Qed.

Lemma callref_len_range pr x : (1 <= callref_len pr x <= 4)%nat.
Proof. unfold callref_len. repeat case_match; lia. Qed.

Lemma land_crlength n : (n <= 4)%nat -> Z.land (Z.of_nat n) CRLENGTH_MASK = Z.of_nat n.
Proof. intros H. by repeat (destruct n as [|n]; [reflexivity|]; try lia). Qed.

Lemma callreference_rt pr x rest :
  is_u32 x -> get_callreference (make_callreference pr x ++ rest) = x.
Proof.
  intros Hx. unfold get_callreference, make_callreference. cbn [app head tail from_option id].
  pose proof (callref_len_range pr x) as Hl.
  rewrite land_crlength, Nat2Z.id by lia.
  assert (H0 : 0 = Z.shiftr x (8 * Z.of_nat (callref_len pr x))).
  { rewrite Z.shiftr_div_pow2 by lia. symmetry. apply Z.div_small.
    split; [apply Hx|by apply callref_len_fits]. }
  rewrite H0. apply callref_value_round; [exact Hx|].
  intros k Hk. rewrite lookup_app_l by (rewrite callref_bytes_length; lia).
  by apply callref_bytes_lookup.
Qed.


(** ** Messages fit into their buffers *)

(** The string members hold at most their array size less the NUL. *)
Definition src_ok (s : i4b_src_telno) : Prop :=
  (length (telno s) < TELNO_MAX)%nat ∧ (length (subaddr s) < SUBADDR_MAX)%nat.
Definition cd_strings_ok (cd : call_desc) : Prop :=
  (length (dst_telno cd) < TELNO_MAX)%nat ∧ (length (dst_telno_part cd) < TELNO_MAX)%nat ∧
  (length (dst_telno_early cd) < TELNO_MAX)%nat ∧ (length (dst_subaddr cd) < SUBADDR_MAX)%nat ∧
  src_ok (src_0 cd) ∧ src_ok (src_1 cd) ∧ (length (display cd) < DISPLAY_MAX)%nat ∧
  (length (keypad cd) < KEYPAD_MAX)%nat ∧ (length (user_user cd) < USER_USER_MAX)%nat.

Lemma string_ie_length iei prefix s :
  (length (string_ie iei prefix s) <= 2 + length prefix + length s)%nat.
Proof.
  unfold string_ie. pose proof (cstr_length s). destruct (cstr s) as [|c l] eqn:E; simpl; [lia|].
  rewrite length_app. simpl in *. lia.
Qed.
Lemma deflect_ie_length s : (length (deflect_ie s) <= 18 + length s)%nat.
Proof.
  unfold deflect_ie. pose proof (cstr_length s). destruct (cstr s) as [|c l] eqn:E; simpl; [lia|].
  simpl in *. lia.
Qed.
Lemma make_callreference_length pr x : (length (make_callreference pr x) <= 5)%nat.
Proof.
  unfold make_callreference. simpl. rewrite callref_bytes_length.
  pose proof (callref_len_range pr x). lia.
Qed.
Lemma IEI_channelid_length pr cd : (length (IEI_channelid pr cd) <= 5)%nat.
Proof. unfold IEI_channelid. destruct pr; [|simpl; lia]. case_match; simpl; lia. Qed.
Lemma bearer_capability_length cd : (length (bearer_capability cd) <= 5)%nat.
Proof. unfold bearer_capability. repeat case_match; simpl; lia. Qed.
Lemma calling_party_length s :
  (length (calling_party s) <= 7 + length (telno s) + length (subaddr s))%nat.
Proof.
  unfold calling_party. rewrite length_app.
  pose proof (string_ie_length IEI_CALLINGPN (calling_prefix s) (telno s)).
  pose proof (string_ie_length IEI_CALLINGPS [NUMBER_TYPE_NSAP] (subaddr s)).
  assert (length (calling_prefix s) <= 2)%nat by (unfold calling_prefix; repeat case_match; simpl; lia).
  simpl in *. lia.
Qed.

Lemma if_length {A} (b : bool) (l : list A) n : (length l <= n)%nat -> (length (if b then l else []) <= n)%nat.
Proof. destruct b; simpl; lia. Qed.

Lemma make_setup_length pr cd :
  cd_strings_ok cd -> (I_HEADER_LEN + length (make_setup pr cd) <= 549)%nat.
Proof.
  intros (H1 & H2 & H3 & H4 & (H5 & H6) & (H7 & H8) & H9 & H10 & H11).
  unfold make_setup. rewrite !length_app. cbn [length].
  pose proof (make_callreference_length pr (cr cd)).
  pose proof (bearer_capability_length cd).
  pose proof (if_length (channel_allocated cd) _ _ (IEI_channelid_length pr cd)).
  pose proof (if_length (sending_complete cd) [IEI_SENDCOMPL] 1 ltac:(simpl; lia)).
  pose proof (calling_party_length (src_0 cd)). pose proof (calling_party_length (src_1 cd)).
  pose proof (string_ie_length IEI_KEYPAD [] (keypad cd)).
  pose proof (string_ie_length IEI_CALLEDPN [NUMBER_TYPE_PLAN] (dst_telno cd)).
  pose proof (string_ie_length IEI_CALLEDPS [NUMBER_TYPE_NSAP] (dst_subaddr cd)).
  pose proof (string_ie_length IEI_USERUSER [] (user_user cd)).
  pose proof (string_ie_length IEI_DISPLAY [] (display cd)).
  cbn [length] in *. unfold I_HEADER_LEN, TELNO_MAX, SUBADDR_MAX, DISPLAY_MAX, KEYPAD_MAX,
    USER_USER_MAX in *. lia.
Qed.

Lemma make_message_length nt pr cd mt flag q :
  cd_strings_ok cd -> (I_HEADER_LEN + length (make_message nt pr cd mt flag q) <= 151)%nat.
Proof.
  intros (H1 & H2 & H3 & _). unfold make_message. rewrite !length_app. cbn [length].
  pose proof (make_callreference_length pr (cr cd)).
  pose proof (if_length (bit_set flag L3_TX_CAUSE) (cause_ie nt q) 4 ltac:(simpl; lia)).
  pose proof (if_length (bit_set flag L3_TX_CALLSTATE)
    [IEI_CALLSTATE; 1; L3_STATES_Q931_CONV (cd_state cd)] 3 ltac:(simpl; lia)).
  pose proof (if_length (bit_set flag L3_TX_CHANNELID && channel_allocated cd) _ _
    (IEI_channelid_length pr cd)).
  pose proof (if_length (bit_set flag L3_TX_PROGRESSI) [IEI_PROGRESSI; 2; location nt; 0x88] 4
    ltac:(simpl; lia)).
  pose proof (if_length (bit_set flag L3_TX_CALLEDPN) _ _
    (string_ie_length IEI_CALLEDPN [NUMBER_TYPE_PLAN] (dst_telno_early cd))).
  pose proof (if_length (bit_set flag L3_TX_DEFLECT) _ _ (deflect_ie_length (dst_telno_part cd))).
  pose proof (if_length (bit_set flag L3_TX_MCID_REQ) mcid_ie 12 ltac:(simpl; lia)).
  pose proof (if_length (bit_set flag L3_TX_DATE_TIME && nonzero (odate_time_len cd))
    ([IEI_DATETIME; date_time_len cd] ++ take (Z.to_nat (date_time_len cd)) (odate_time_data cd)) 10
    ltac:(rewrite length_app, length_take; unfold date_time_len; simpl; lia)).
  cbn [length] in *. unfold I_HEADER_LEN, TELNO_MAX in *. lia.
Qed.

Lemma make_message_by_pipe_cr_length nt pr c mt flag q r :
  (I_HEADER_LEN + length (make_message_by_pipe_cr nt pr c mt flag q r) <= 18)%nat.
Proof.
  unfold make_message_by_pipe_cr. rewrite !length_app. cbn [length].
  pose proof (make_callreference_length pr c).
  pose proof (if_length (bit_set flag L3_TX_CAUSE) (cause_ie nt q) 4 ltac:(simpl; lia)).
  pose proof (if_length (bit_set flag L3_TX_RESTARTI) [IEI_RESTARTI; 1; Z.lor r 0x80] 3
    ltac:(simpl; lia)).
  unfold I_HEADER_LEN. lia.
Qed.

(** C36: no message overruns its buffer: with the strings of the call
    descriptor inside their arrays, SETUP (any elements present) fits into
    [BCH_MAX_DATALEN] bytes, and every other message, for all message types
    and all combinations of element flags, into [DCH_MAX_DATALEN] bytes. *)
Theorem messages_fit nt pr cd mt flag q :
  cd_strings_ok cd ->
  (I_HEADER_LEN + length (make_setup pr cd) <= BCH_MAX_DATALEN)%nat ∧
  (I_HEADER_LEN + length (make_message nt pr cd mt flag q) <= DCH_MAX_DATALEN)%nat.
Proof.
  intros H. pose proof (make_setup_length pr cd H).
  pose proof (make_message_length nt pr cd mt flag q H).
  unfold BCH_MAX_DATALEN, DCH_MAX_DATALEN. lia.
Qed.
Definition sample_cd : call_desc :=
  bzero_cd <| cdid := 64 |> <| cr := 1 |> <| cd_pipe := Some 0%nat |> <| channel_id := CHAN_B1 |>
           <| channel_bprot := BPROT_NONE |> <| channel_allocated := true |>
           <| dst_telno := [49; 50; 51] |> <| cd_state := ST_L3_U1 |>.
Lemma messages_fit_witness :
  make_setup false sample_cd =
    [8; 1; 1; 5; 4; 3; 128; 144; 160; 24; 1; 137; 112; 4; 129; 49; 50; 51] ∧
  (I_HEADER_LEN + length (make_setup false sample_cd) <= BCH_MAX_DATALEN)%nat ∧
  (I_HEADER_LEN + length (make_message false false sample_cd STATUS 3 30) <= DCH_MAX_DATALEN)%nat.
Proof.
  split; [reflexivity|]. apply (messages_fit false false sample_cd STATUS 3 30).
  unfold cd_strings_ok, src_ok. concrete.
Defined.

(** ** Causes *)

(** [i4b_make_q850_cause] returns a 7-bit Q.850 cause for causes of
    type Q.850 and of type I4B, and panics on every other type. *)
Lemma make_q850_cause_spec cause :
  match i4b_make_q850_cause cause with
  | Some c => 0 <= c < 128 ∧ GET_CAUSE_TYPE cause < 2
  | None => 2 <= GET_CAUSE_TYPE cause
  end.
Proof.
  unfold i4b_make_q850_cause, CAUSET_Q850, CAUSET_I4B.
  assert (H : 0 <= GET_CAUSE_TYPE cause).
  { unfold GET_CAUSE_TYPE. rewrite land_255. by apply Z.mod_pos_bound. }
  destruct (Z.eqb_spec (GET_CAUSE_TYPE cause) 0).
  - rewrite land_127. split; [by apply Z.mod_pos_bound|lia].
  - destruct (Z.eqb_spec (GET_CAUSE_TYPE cause) 1); [|lia].
    split; [|lia]. unfold I4B_CAUSES_Q850_CONV. repeat case_match; vm_compute; split; congruence.
Qed.

(** ** Acknowledging the frames of a call *)

(** A frame as the encoder queues it. *)
Definition l3_frame (msg : list Z) (m : mbuf) : mbuf :=
  m_fill (replicate I_HEADER_LEN 0 ++ msg) m.

Lemma acknowledge_l3_frame c pr x msg m :
  is_u32 x -> m_proto1 m = false ->
  acknowledge_mbuf c (l3_frame ([PD_Q931] ++ make_callreference pr x ++ msg) m) =
  (let f := l3_frame ([PD_Q931] ++ make_callreference pr x ++ msg) m in
   if x =? c then f <| m_len := I_HEADER_LEN |> else f).
Proof.
  intros Hx Hp. unfold acknowledge_mbuf, l3_frame, m_fill. cbn [m_proto1 m_off m_buf].
  rewrite Hp. change (0 + I_HEADER_LEN)%nat with (length (replicate I_HEADER_LEN 0)).
  rewrite <-app_assoc, drop_app_length. cbn [app head tail from_option id].
  rewrite <-app_assoc, callreference_rt by done. rewrite Z.eqb_refl, andb_true_l.
  by destruct (x =? c).
Qed.

(** When a call ends, [dss1_pipe_data_acknowledge] recognises exactly
    the frames of that call in the queue of its pipe: a queued SETUP or
    other message of a call is cut down to the frame header if the call
    reference is the one acknowledged and is left alone otherwise. *)
Lemma acknowledge_exact c nt pr cd mt flag q m :
  is_u32 (cr cd) -> m_proto1 m = false ->
  let cut := λ f : mbuf, if cr cd =? c then f <| m_len := I_HEADER_LEN |> else f in
  acknowledge_mbuf c (l3_frame (make_setup pr cd) m) = cut (l3_frame (make_setup pr cd) m) ∧
  acknowledge_mbuf c (l3_frame (make_message nt pr cd mt flag q) m) =
    cut (l3_frame (make_message nt pr cd mt flag q) m).
Proof.
  intros Hx Hp cut. split; by apply acknowledge_l3_frame.
Qed.
