(* ===== verification/CallDesc.v ===== *)
(** * Call descriptor and channel management (i4b_l4mgmt.c)

    Call descriptor ids, allocation and lookup of call descriptors,
    reservation of B-channels, and [i4b_link_bchandrvr] of i4b_l4.c.  The
    theorems: a new id is fresh and is found whenever one is free, the
    allocator leaves ids unique, a channel is given to one call at a time
    and comes back when it is freed. *)
From S2P Require Import Prelude Mbuf Dss1Types Dss1State.
Local Open Scope Z_scope.

(** ** Channel utilization bits (i4b_controller.h) *)
Definition GET_BIT (var : list Z) (off : Z) : bool :=
  bit_set (default 0 (var !! Z.to_nat (off / 8))) (Z.shiftl 1 (off mod 8)).
Definition SET_BIT (var : list Z) (off : Z) (value : bool) : list Z :=
  alter (λ b, if value then u8 (Z.lor b (Z.shiftl 1 (off mod 8)))
              else u8 (Z.land b (Z.lnot (Z.shiftl 1 (off mod 8))))) (Z.to_nat (off / 8)) var.
Definition GET_CHANNEL_UTILIZATION (c : controller) (channel : Z) : bool :=
  GET_BIT (N_channel_utilization c) channel.
Definition SET_CHANNEL_UTILIZATION (channel : Z) (value : bool) (c : controller) : controller :=
  c <| N_channel_utilization ::= λ v, SET_BIT v channel value |>.

(** ** Call descriptor ids *)
Definition MAKE_CDID (controller callreference : Z) : Z :=
  u32 (Z.lor (controller mod I4B_MAX_CONTROLLERS) (callreference * I4B_MAX_CONTROLLERS)).
Definition CDID2CALLREFERENCE (id : Z) : Z := id / I4B_MAX_CONTROLLERS.
Definition CDID2CONTROLLER (id : Z) : Z := id mod I4B_MAX_CONTROLLERS.

Definition cdid_in_use (cds : list call_desc) (id : Z) : bool :=
  existsb (λ cd, cdid cd =? id) cds.

(** The loop at [again]: the new id and the new [N_cdid_count]. *)
Fixpoint get_cdid_loop (fuel : nat) (unit cdid_end : Z) (used : Z -> bool)
    (timeout : bool) (count : Z) : option (Z * Z) :=
  match fuel with
  | O => None
  | S fuel =>
      let count := u32 (count + 1) in
      let out := (count <=? 0) || (cdid_end <=? count) in
      if out && negb timeout then Some (CDID_UNUSED, count)
      else
        let count := if out then 1 else count in
        let timeout := if out then false else timeout in
        let new_cdid := MAKE_CDID unit count in
        if used new_cdid then get_cdid_loop fuel unit cdid_end used timeout count
        else Some (new_cdid, count)
  end.
(** Two passes over the references below [N_cdid_end] are all it takes. *)
Definition get_cdid_fuel (cdid_end : Z) : nat := Z.to_nat (2 * cdid_end + 4).
Definition get_cdid (c : controller) : Z * controller :=
  let c := if CDID_REF_MAX <? N_cdid_end c then c <| N_cdid_end := CDID_REF_MAX |> else c in
  match get_cdid_loop (get_cdid_fuel (N_cdid_end c)) (unit_no c) (N_cdid_end c)
          (cdid_in_use (N_call_desc c)) true (N_cdid_count c) with
  | Some (id, count) => (id, c <| N_cdid_count := count |>)
  | None => (CDID_UNUSED, c)
  end.

(** ** Call descriptors *)

(** The first descriptor that satisfies [P]: the [CD_FOREACH] searches. *)
Definition cd_find (P : call_desc -> bool) (cds : list call_desc) : option nat :=
  fst <$> list_find (λ cd, P cd = true) cds.

Definition i4b_allocate_cd : M (option nat) :=
  c ← get_cntl;
  match cd_find (λ cd, cdid cd =? CDID_UNUSED) (N_call_desc c) with
  | None => mret None
  | Some j =>
      mod_cd j (λ _, bzero_cd);;
      id ← (λ w, let '(id, c') := get_cdid (w_cntl w) in (id, w <| w_cntl := c' |>));
      mod_cd j (λ cd, cd <| cdid := id |>);;
      mret (if id =? CDID_UNUSED then None else Some j)
  end.

Definition i4b_free_cd (j : nat) : M unit :=
  mod_cd j (λ cd, cd <| cdid := CDID_UNUSED |> <| idle_callout := None |>
                     <| cd_set_state_callout := None |>).

Definition cd_set_appl_interface (j : nat) (type ptr : Z) : M unit :=
  mod_cd j (λ cd, cd <| ai_type := type |> <| ai_ptr := ptr |>).

Definition cd_by_cdid (c : controller) (id : Z) : option nat :=
  if id =? CDID_UNUSED then None
  else cd_find (λ cd, cdid cd =? id) (N_call_desc c).

Definition cd_by_unitcr (c : controller) (p adapter : nat) (crval : Z) : option nat :=
  cd_find (λ cd, negb (cdid cd =? CDID_UNUSED) && (cr cd =? crval) &&
                 (bool_decide (cd_pipe cd = Some adapter) || bool_decide (cd_pipe cd = Some p)))
          (N_call_desc c).

(** ** B-channels *)

(** The search loop over the channels, from [k]. *)
Fixpoint find_channel (n : nat) (k : Z) (c : controller) : option Z :=
  match n with
  | O => None
  | S n => if negb (GET_CHANNEL_UTILIZATION c k) then Some k else find_channel n (k + 1) c
  end.

(** What [cd_allocate_channel] does to the [channel_id] and
    [channel_allocated] of a call without a channel, and the channel it
    marks as used. *)
Definition choose_channel (c : controller) (id : Z) : Z * bool * option Z :=
  if (0 <=? id) && (id <? L1_channel_end c) then
    if negb (GET_CHANNEL_UTILIZATION c id) then (id, true, Some id)
    else (CHAN_ANY, false, None)
  else if id =? CHAN_NOT_ANY then (id, true, None)
  else match find_channel (Z.to_nat (L1_channel_end c)) 0 c with
       | Some k => (k, true, Some k)
       | None => (CHAN_ANY, false, None)
       end.

Definition cd_allocate_channel (j : nat) : M unit :=
  cd ← get_cd j;
  env ← gets w_env;
  when (nonzero (li_cdid cd) && bool_decide (li_data_ptr cd = None))
    (mod_cd j (λ cd, cd <| li_data_ptr := slot_li_alloc env (cdid cd) (li_cdid cd) |>));;
  when (negb (channel_allocated cd))
    (c ← get_cntl;
     let '(id, allocated, used) := choose_channel c (channel_id cd) in
     match used with
     | Some k => mod_cntl (SET_CHANNEL_UTILIZATION k true)
     | None => mret tt
     end;;
     mod_cd j (λ cd, cd <| channel_id := id |> <| channel_allocated := allocated |>)).

Definition cd_free_channel (j : nat) : M unit :=
  cd ← get_cd j;
  when (negb (bool_decide (li_data_ptr cd = None)))
    (mod_cd j (λ cd, cd <| li_data_ptr := None |>));;
  when (channel_allocated cd)
    (c ← get_cntl;
     when ((0 <=? channel_id cd) && (channel_id cd <? L1_channel_end c))
       (mod_cntl (SET_CHANNEL_UTILIZATION (channel_id cd) false));;
     mod_cd j (λ cd, cd <| channel_id := CHAN_ANY |> <| channel_allocated := false |>)).

(** ** Linking a B-channel driver (i4b_l4.c) *)

(** [I4B_B_PROTOCOLS_PROTOCOL] *)
Definition I4B_B_PROTOCOLS_PROTOCOL (bprot : Z) : Z :=
  match bprot with 1 => 10 | 2 => 1 | 3 => 1 | 4 => 10 | 5 => 10 | _ => 0 end.
Definition link_setup_driver (j : nat) (protocol_1 protocol_4 : Z) : M unit :=
  cd ← get_cd j;
  when (channel_allocated cd)
    (emit (SETUP_DRIVER (channel_id cd) protocol_1 protocol_4
             (driver_type_copy cd) (driver_unit_copy cd))).
Definition bchandrvr_disconnect (j : nat) : M unit :=
  mod_cd j (λ cd, cd <| b_link_want_active := false |>);;
  link_setup_driver j 0 0.
Definition i4b_link_bchandrvr (j : nat) (activate : bool) : M unit :=
  if activate then
    bchandrvr_disconnect j;;
    mod_cd j (λ cd, cd <| driver_type_copy := driver_type cd |>
                       <| driver_unit_copy := driver_unit cd |>
                       <| b_link_want_active := true |>);;
    cd ← get_cd j;
    link_setup_driver j (I4B_B_PROTOCOLS_PROTOCOL (channel_bprot cd)) (channel_bsubprot cd)
  else bchandrvr_disconnect j.

(** ** Correctness of the ids *)
Lemma lor_add a b : 0 <= a < 64 -> 0 <= b -> Z.lor a (b * 64) = a + b * 64.
Proof.
  intros Ha Hb. rewrite <-Z.lxor_lor, Z.add_nocarry_lxor; [done| |];
    change 64 with (2 ^ 6); rewrite <-Z.shiftl_mul_pow2 by lia;
    apply Z.bits_inj'; intros n Hn; rewrite Z.land_spec, Z.bits_0;
    (destruct (Z.ltb_spec n 6);
     [rewrite Z.shiftl_spec_low by lia; apply andb_false_r|]);
    rewrite (Z.bits_above_log2 a n); try done; try lia;
    (destruct (Z.eq_dec a 0) as [->|]; [simpl; lia|]);
    (apply Z.lt_le_trans with 6; [apply Z.log2_lt_pow2; lia|lia]).
Qed.

Lemma MAKE_CDID_val unit k : 0 <= k < 65536 -> MAKE_CDID unit k = unit mod 64 + k * 64.
Proof.
  intros Hk. unfold MAKE_CDID, I4B_MAX_CONTROLLERS.
  pose proof (Z.mod_pos_bound unit 64 ltac:(lia)).
  rewrite lor_add by lia. apply u32_id. unfold is_u32. lia.
Qed.
Lemma MAKE_CDID_inj unit k k' :
  0 <= k < 65536 -> 0 <= k' < 65536 -> MAKE_CDID unit k = MAKE_CDID unit k' -> k = k'.
Proof. intros H H'. rewrite !MAKE_CDID_val by done. lia. Qed.

Section get_cdid.
Context (unit cdid_end : Z) (used : Z -> bool).
Hypothesis end_ok : 1 < cdid_end <= CDID_REF_MAX.
Local Lemma end_ok' : 1 < cdid_end <= 256.
Proof. exact end_ok. Qed.

(** What the loop returns when it starts behind reference [lo]. *)
Definition cdid_result (lo : Z) (r : option (Z * Z)) : Prop :=
  ∃ id count, r = Some (id, count) ∧ is_u32 count ∧
    ((id = CDID_UNUSED ∧ ∀ k, lo < k < cdid_end -> used (MAKE_CDID unit k) = true) ∨
     (∃ k, lo < k < cdid_end ∧ id = MAKE_CDID unit k ∧ used id = false ∧ count = k)).

Lemma loop_second_pass n fuel count :
  0 <= count < cdid_end -> cdid_end - count <= Z.of_nat n -> (n <= fuel)%nat ->
  cdid_result count (get_cdid_loop fuel unit cdid_end used false count).
Proof.
  pose proof end_ok' as He. revert fuel count.
  induction n as [|n IH]; intros [|fuel] count Hc Hn Hf; try lia.
  cbn [get_cdid_loop]. rewrite u32_id by (unfold is_u32; lia).
  destruct (Z.leb_spec (count + 1) 0); [lia|].
  destruct (Z.leb_spec cdid_end (count + 1)); simpl.
  - eexists _, _. split; [done|]. split; [unfold is_u32; lia|].
    left. split; [done|]. intros k Hk. lia.
  - destruct (used (MAKE_CDID unit (count + 1))) eqn:Eu.
    + destruct (IH fuel (count + 1)) as (id & cnt & Hr & Hcnt & Hcase); [lia|lia|lia|].
      exists id, cnt. split; [done|]. split; [done|].
      destruct Hcase as [[-> Hall]|(k & Hk & Hrest)]; [left|right].
      * split; [done|]. intros k Hk.
        destruct (Z.eq_dec k (count + 1)) as [->|]; [done|]. apply Hall. lia.
      * exists k. split; [lia|done].
    + eexists _, _. split; [done|]. split; [unfold is_u32; lia|].
      right. exists (count + 1). split; [lia|]. by split.
Qed.

(** The wrap to reference 1. *)
Lemma loop_wrap fuel :
  (Z.to_nat cdid_end <= fuel)%nat ->
  cdid_result 0 (if used (MAKE_CDID unit 1)
                 then get_cdid_loop fuel unit cdid_end used false 1
                 else Some (MAKE_CDID unit 1, 1)).
Proof.
  pose proof end_ok' as He. intros Hf. destruct (used (MAKE_CDID unit 1)) eqn:Eu.
  - destruct (loop_second_pass (Z.to_nat (cdid_end - 1)) fuel 1)
      as (id & cnt & Hres & Hcnt & Hcase); [lia|lia|lia|].
    exists id, cnt. split; [done|]. split; [done|].
    destruct Hcase as [[-> Hall]|(k & Hk & Hrest)]; [left|right].
    + split; [done|]. intros k Hk. destruct (Z.eq_dec k 1) as [->|]; [done|]. apply Hall. lia.
    + exists k. split; [lia|done].
  - eexists _, _. split; [done|]. split; [done|]. right. exists 1. split; [lia|]. by split.
Qed.

Lemma u32_succ count : is_u32 count -> u32 (count + 1) = count + 1 ∨ u32 (count + 1) = 0.
Proof.
  unfold is_u32, u32. intros H.
  destruct (Z.eq_dec count 4294967295) as [->|]; [by right|left; apply Z.mod_small; lia].
Qed.

Lemma loop_first_pass n fuel count :
  is_u32 count -> cdid_end - count <= Z.of_nat n ->
  (n + Z.to_nat cdid_end + 1 <= fuel)%nat ->
  cdid_result 0 (get_cdid_loop fuel unit cdid_end used true count).
Proof.
  pose proof end_ok' as He. revert fuel count.
  induction n as [|n IH]; intros [|fuel] count Hc Hn Hf; try lia.
  - cbn [get_cdid_loop]. pose proof (u32_succ count Hc) as Hu.
    assert ((u32 (count + 1) <=? 0) || (cdid_end <=? u32 (count + 1)) = true) as ->.
    { apply orb_true_iff. rewrite !Z.leb_le. destruct Hu as [-> | ->]; [right|left]; lia. }
    cbn [andb negb]. apply loop_wrap. lia.
  - cbn [get_cdid_loop]. pose proof (u32_succ count Hc) as Hu.
    pose proof (u32_range (count + 1)) as Hr. set (c1 := u32 (count + 1)) in *.
    destruct ((c1 <=? 0) || (cdid_end <=? c1)) eqn:Eo; cbn [andb negb]; [apply loop_wrap; lia|].
    unfold is_u32 in *. destruct (used (MAKE_CDID unit c1)) eqn:Eu.
    + apply (IH fuel c1); [done|lia|lia].
    + eexists _, _. split; [done|]. split; [done|]. right. exists c1. split; [lia|]. by split.
Qed.
End get_cdid.

Lemma cdid_in_use_false cds id :
  cdid_in_use cds id = false <-> Forall (λ cd, cdid cd ≠ id) cds.
Proof.
  induction cds as [|cd cds IH]; simpl; [split; [constructor|done]|].
  rewrite orb_false_iff, IH, Forall_cons, Z.eqb_neq. done.
Qed.

(** [get_cdid] ends; if any call reference below [N_cdid_end] is free
    on the controller it returns a fresh id: one that no call descriptor
    has, that is not [CDID_UNUSED], that encodes the controller and a
    reference in range.  Otherwise every reference is in use and it returns
    [CDID_UNUSED]. *)
Lemma get_cdid_fresh c :
  1 < N_cdid_end c <= CDID_REF_MAX -> is_u32 (N_cdid_count c) ->
  let '(id, c') := get_cdid c in
  N_call_desc c' = N_call_desc c ∧
  ((id = CDID_UNUSED ∧
    ∀ k, 0 < k < N_cdid_end c -> cdid_in_use (N_call_desc c) (MAKE_CDID (unit_no c) k) = true) ∨
   (id ≠ CDID_UNUSED ∧ Forall (λ cd, cdid cd ≠ id) (N_call_desc c) ∧
    0 < CDID2CALLREFERENCE id < N_cdid_end c ∧
    CDID2CONTROLLER id = CDID2CONTROLLER (unit_no c))).
Proof.
  intros He Hc. unfold get_cdid.
  destruct (Z.ltb_spec CDID_REF_MAX (N_cdid_end c)); [lia|].
  destruct (loop_first_pass (unit_no c) (N_cdid_end c) (cdid_in_use (N_call_desc c)) He
      (Z.to_nat (N_cdid_end c)) (get_cdid_fuel (N_cdid_end c)) (N_cdid_count c) Hc)
    as (id & count & -> & Hcnt & Hcase).
  { unfold is_u32 in Hc. lia. }
  { unfold get_cdid_fuel. lia. }
  split; [done|]. destruct Hcase as [Hl|(k & Hk & -> & Hu & _)]; [by left|right].
  rewrite cdid_in_use_false in Hu. unfold CDID_REF_MAX in He.
  unfold CDID2CALLREFERENCE, CDID2CONTROLLER, I4B_MAX_CONTROLLERS, CDID_UNUSED.
  rewrite MAKE_CDID_val in * by lia.
  pose proof (Z.mod_pos_bound (unit_no c) 64 ltac:(lia)).
  rewrite Z.div_add, Z.mod_add, Z.div_small, Z.mod_mod by lia. repeat split; try lia. done.
Qed.
Definition sample_cntl : controller :=
  {| unit_no := 3; no_layer1_dialtone := false; no_power_save := false;
     no_layer3_status_enquiry := false; N_serial_number := 0x4321; N_cdid_count := 0x7e;
     N_cdid_end := 0x7f; N_channel_utilization := replicate 8 0;
     N_call_desc := [bzero_cd; bzero_cd <| cdid := 67 |>]; L1_channel_end := 3;
     L1_type_is_pri := false |}.

(** ** The utilization bits are a set of channels *)
Lemma bit_set_testbit x m : 0 <= m -> bit_set x (Z.shiftl 1 m) = Z.testbit x m.
Proof.
  intros Hm. unfold bit_set. rewrite Z.shiftl_1_l.
  destruct (Z.testbit x m) eqn:E.
  - apply nonzero_true. intros H. pose proof (f_equal (λ y, Z.testbit y m) H) as Hb.
    cbv beta in Hb. rewrite Z.land_spec, E, Z.pow2_bits_true, Z.bits_0 in Hb by lia. done.
  - apply nonzero_false. apply Z.bits_inj'. intros n Hn. rewrite Z.land_spec, Z.bits_0.
    destruct (Z.eq_dec n m) as [->|]; [by rewrite E|].
    rewrite Z.pow2_bits_false by lia. apply andb_false_r.
Qed.
Lemma u8_testbit x m : 0 <= m < 8 -> Z.testbit (u8 x) m = Z.testbit x m.
Proof. intros H. unfold u8. change 256 with (2 ^ 8). apply Z.mod_pow2_bits_low. lia. Qed.

Lemma testbit_one k m : 0 <= k -> 0 <= m -> Z.testbit (Z.shiftl 1 k) m = (m =? k).
Proof.
  intros. rewrite Z.shiftl_1_l, Z.pow2_bits_eqb by lia. apply Z.eqb_sym.
Qed.

Lemma GET_SET_BIT v k k' b :
  0 <= k < 8 * Z.of_nat (length v) -> 0 <= k' ->
  GET_BIT (SET_BIT v k b) k' = if k' =? k then b else GET_BIT v k'.
Proof.
  intros Hk Hk'. unfold GET_BIT, SET_BIT.
  pose proof (Z.mod_pos_bound k 8 ltac:(lia)) as Hm.
  pose proof (Z.mod_pos_bound k' 8 ltac:(lia)) as Hm'.
  rewrite !bit_set_testbit by lia.
  assert (0 <= k / 8 ∧ k / 8 < Z.of_nat (length v)) as [? ?] by (Z.div_mod_to_equations; lia).
  assert (0 <= k' / 8) by (Z.div_mod_to_equations; lia).
  destruct (Z.eq_dec (k' / 8) (k / 8)) as [Hd|Hd].
  - rewrite Hd, list_lookup_alter_eq.
    destruct (lookup_lt_is_Some_2 v (Z.to_nat (k / 8))) as [x Hx]; [lia|].
    rewrite Hx. cbn [fmap option_fmap option_map from_option id].
    assert ((k' =? k) = (k' mod 8 =? k mod 8)) as ->.
    { destruct (Z.eqb_spec k' k), (Z.eqb_spec (k' mod 8) (k mod 8)); try done;
        Z.div_mod_to_equations; lia. }
    destruct b; rewrite u8_testbit by done; [rewrite Z.lor_spec|rewrite Z.land_spec, Z.lnot_spec by lia];
      rewrite testbit_one by lia; destruct (k' mod 8 =? k mod 8); simpl;
      rewrite ?orb_true_r, ?orb_false_r, ?andb_false_r, ?andb_true_r; done.
  - rewrite list_lookup_alter_ne by lia.
    destruct (Z.eqb_spec k' k) as [->|]; [done|done].
Qed.
Lemma SET_BIT_length v k b : length (SET_BIT v k b) = length v.
Proof. apply length_alter. Qed.

(** ** The channel invariant *)

(** The channel a call descriptor holds: one it has allocated, in range. *)
Definition holds_channel (c : controller) (cd : call_desc) (k : Z) : Prop :=
  channel_allocated cd = true ∧ channel_id cd = k ∧ 0 <= k < L1_channel_end c.

(** A held channel is marked as used, and no two calls hold the same. *)
Record chan_inv (c : controller) : Prop := {
  ci_bits : length (N_channel_utilization c) = 8%nat;
  ci_end : L1_channel_end c <= Z.of_nat I4B_MAX_CHANNELS;
  ci_used : ∀ j cd k, N_call_desc c !! j = Some cd -> holds_channel c cd k ->
              GET_CHANNEL_UTILIZATION c k = true;
  ci_excl : ∀ j j' cd cd' k, N_call_desc c !! j = Some cd -> N_call_desc c !! j' = Some cd' ->
              holds_channel c cd k -> holds_channel c cd' k -> j = j';
}.
Definition w_chan_inv (w : world) : Prop := chan_inv (w_cntl w).

(** Changes of a call descriptor that leave its channel alone. *)
Definition same_channel (f : call_desc -> call_desc) : Prop :=
  ∀ cd, channel_id (f cd) = channel_id cd ∧ channel_allocated (f cd) = channel_allocated cd.

Lemma chan_inv_alter c j f :
  (∀ cd k, N_call_desc c !! j = Some cd -> holds_channel c (f cd) k -> holds_channel c cd k) ->
  chan_inv c -> chan_inv (c <| N_call_desc ::= alter f j |>).
Proof.
  intros Hf [H1 H2 H3 H4].
  assert (Hback : ∀ i cd k, alter f j (N_call_desc c) !! i = Some cd -> holds_channel c cd k ->
            ∃ cd0, N_call_desc c !! i = Some cd0 ∧ holds_channel c cd0 k).
  { intros i cd k Hl Hh. destruct (decide (j = i)) as [<-|Hne].
    - rewrite list_lookup_alter_eq in Hl. destruct (N_call_desc c !! j) as [cd0|] eqn:E; [|done].
      simplify_eq/=. eauto.
    - rewrite list_lookup_alter_ne in Hl by done. eauto. }
  constructor; [done|done| |].
  - intros i cd k Hl Hh. destruct (Hback _ _ _ Hl Hh) as (cd0 & ? & ?). by eapply H3.
  - intros i i' cd cd' k Hl Hl' Hh Hh'.
    destruct (Hback _ _ _ Hl Hh) as (? & ? & ?), (Hback _ _ _ Hl' Hh') as (? & ? & ?).
    by eapply H4.
Qed.

Lemma keeps_chan_mod_cd j f : same_channel f -> keeps w_chan_inv (mod_cd j f).
Proof.
  intros Hf w HI. unfold w_chan_inv, mod_cd, mod_cntl, modify in *. cbn.
  apply chan_inv_alter; [|done]. intros cd k _. unfold holds_channel. by destruct (Hf cd) as [-> ->].
Qed.

Lemma find_channel_spec n k c r :
  find_channel n k c = r ->
  match r with
  | Some k' => k <= k' < k + Z.of_nat n ∧ GET_CHANNEL_UTILIZATION c k' = false
  | None => ∀ k', k <= k' < k + Z.of_nat n -> GET_CHANNEL_UTILIZATION c k' = true
  end.
Proof.
  intros <-. revert k. induction n as [|n IH]; intros k; cbn [find_channel].
  - intros k' Hk'. lia.
  - destruct (GET_CHANNEL_UTILIZATION c k) eqn:E; cbn [negb].
    + specialize (IH (k + 1)). destruct (find_channel n (k + 1) c) as [k'|].
      * destruct IH. split; [lia|done].
      * intros k' Hk'. destruct (Z.eq_dec k' k) as [->|]; [done|]. apply IH. lia.
    + split; [lia|done].
Qed.

(** The outcomes of the choice of a channel. *)
Lemma choose_channel_spec c id r :
  choose_channel c id = r ->
  match r with
  | (k, true, Some k') => k' = k ∧ 0 <= k < L1_channel_end c ∧ GET_CHANNEL_UTILIZATION c k = false
  | (k, true, None) => k = CHAN_NOT_ANY
  | (k, false, used) => k = CHAN_ANY ∧ used = None
  end.
Proof.
  intros <-. unfold choose_channel.
  destruct (Z.leb_spec 0 id), (Z.ltb_spec id (L1_channel_end c)); simpl;
    [destruct (GET_CHANNEL_UTILIZATION c id) eqn:E; simpl; [done|split; [done|split; [lia|done]]]|..].
  all: destruct (Z.eqb_spec id CHAN_NOT_ANY); [done|];
    pose proof (find_channel_spec (Z.to_nat (L1_channel_end c)) 0 c _ eq_refl) as Hf;
    destruct (find_channel _ 0 c); [|done]; destruct Hf; split; [done|split; [lia|done]].
Qed.

Lemma holds_channel_mono c v cd k :
  holds_channel (c <| N_channel_utilization := v |>) cd k <-> holds_channel c cd k.
Proof. done. Qed.

(** Marking channel [k], which nobody holds, and giving it to [j]. *)
Lemma chan_inv_take c j k f :
  chan_inv c -> 0 <= k < L1_channel_end c -> GET_CHANNEL_UTILIZATION c k = false ->
  (∀ cd, channel_id (f cd) = k ∧ channel_allocated (f cd) = true) ->
  chan_inv ((SET_CHANNEL_UTILIZATION k true c) <| N_call_desc ::= alter f j |>).
Proof.
  intros [H1 H2 H3 H4] Hk Hfree Hf. unfold I4B_MAX_CHANNELS in H2.
  assert (Hget : ∀ k', 0 <= k' -> GET_CHANNEL_UTILIZATION (SET_CHANNEL_UTILIZATION k true c) k' =
                  if k' =? k then true else GET_CHANNEL_UTILIZATION c k').
  { intros k' Hk'. apply GET_SET_BIT; [rewrite H1; lia|done]. }
  assert (Hnew : ∀ i cd k', alter f j (N_call_desc c) !! i = Some cd -> holds_channel c cd k' ->
      (i = j ∧ k' = k) ∨ (i ≠ j ∧ N_call_desc c !! i = Some cd)).
  { intros i cd k' Hl Hh. destruct (decide (j = i)) as [<-|Hne].
    - left. rewrite list_lookup_alter_eq in Hl. destruct (N_call_desc c !! j) as [cd0|]; [|done].
      simplify_eq/=. destruct Hh as (_ & <- & _). by destruct (Hf cd0).
    - right. by rewrite list_lookup_alter_ne in Hl. }
  assert (Hnot : ∀ i cd, N_call_desc c !! i = Some cd -> ~ holds_channel c cd k).
  { intros i cd Hl Hh. rewrite (H3 _ _ _ Hl Hh) in Hfree. done. }
  constructor; cbn; [by rewrite SET_BIT_length|done| |].
  - intros i cd k' Hl Hh. change (holds_channel c cd k') in Hh.
    pose proof Hh as (_ & _ & ?). setoid_rewrite Hget; [|lia].
    destruct (Hnew _ _ _ Hl Hh) as [[-> ->]|[_ Hl0]]; [by rewrite Z.eqb_refl|].
    case_match; [done|]. by eapply H3.
  - intros i i' cd cd' k' Hl Hl' Hh Hh'.
    change (holds_channel c cd k') in Hh. change (holds_channel c cd' k') in Hh'.
    destruct (Hnew _ _ _ Hl Hh) as [[-> ->]|[_ Hl0]], (Hnew _ _ _ Hl' Hh') as [[-> ?]|[_ Hl0']];
      try done; subst; try (by exfalso; eapply Hnot). by eapply H4.
Qed.

(** Releasing the channel of [j]. *)
Lemma chan_inv_drop c j k f cd0 :
  chan_inv c -> N_call_desc c !! j = Some cd0 -> holds_channel c cd0 k ->
  (∀ cd, channel_allocated (f cd) = false) ->
  chan_inv ((SET_CHANNEL_UTILIZATION k false c) <| N_call_desc ::= alter f j |>).
Proof.
  intros [H1 H2 H3 H4] Hj Hhold Hf. unfold I4B_MAX_CHANNELS in H2.
  pose proof Hhold as (_ & _ & Hk).
  assert (Hnew : ∀ i cd k', alter f j (N_call_desc c) !! i = Some cd -> holds_channel c cd k' ->
      i ≠ j ∧ N_call_desc c !! i = Some cd).
  { intros i cd k' Hl Hh. destruct (decide (j = i)) as [<-|Hne].
    - rewrite list_lookup_alter_eq, Hj in Hl. simplify_eq/=. destruct Hh as (Ha & _).
      by rewrite Hf in Ha.
    - by rewrite list_lookup_alter_ne in Hl. }
  constructor; cbn; [by rewrite SET_BIT_length|done| |].
  - intros i cd k' Hl Hh. change (holds_channel c cd k') in Hh. pose proof Hh as (_ & _ & ?).
    destruct (Hnew _ _ _ Hl Hh) as [Hne Hl0].
    unfold GET_CHANNEL_UTILIZATION. cbn. rewrite GET_SET_BIT by (rewrite ?H1; lia).
    destruct (Z.eqb_spec k' k) as [->|]; [exfalso; eapply Hne, H4; eauto|]. by eapply H3.
  - intros i i' cd cd' k' Hl Hl' Hh Hh'.
    destruct (Hnew _ _ _ Hl Hh), (Hnew _ _ _ Hl' Hh'). by eapply H4.
Qed.

Lemma run_when {S} b (m : st S unit) s : when b m s = if b then m s else (tt, s).
Proof. by destruct b. Qed.

Lemma get_cd_run j w : get_cd j w = (N_call_desc (w_cntl w) !!! j, w).
Proof. done. Qed.

(** The part of [cd_allocate_channel] behind the line interconnect. *)
Definition take_channel (j : nat) (id : Z) : M unit :=
  c ← get_cntl;
  let '(id, allocated, used) := choose_channel c id in
  match used with
  | Some k => mod_cntl (SET_CHANNEL_UTILIZATION k true)
  | None => mret tt
  end;;
  mod_cd j (λ cd, cd <| channel_id := id |> <| channel_allocated := allocated |>).

Lemma keeps_take_channel j id : keeps w_chan_inv (take_channel j id).
Proof.
  intros w HI. unfold take_channel. rewrite run_bind. cbn [get_cntl gets fst snd].
  pose proof (choose_channel_spec (w_cntl w) id _ eq_refl) as Hc.
  destruct (choose_channel (w_cntl w) id) as [[k allocated] used].
  rewrite run_bind. unfold w_chan_inv in *. destruct allocated, used as [k'|].
  - destruct Hc as (-> & Hk & Hfree). by apply chan_inv_take.
  - subst k. apply chan_inv_alter; [|done].
    intros cd k _ (_ & Hid & Hr). cbn in Hid. unfold CHAN_NOT_ANY in Hid. lia.
  - by destruct Hc.
  - apply chan_inv_alter; [|done]. by intros cd k' _ (Ha & _).
Qed.

Lemma cd_allocate_channel_unfold j :
  cd_allocate_channel j =
  (cd ← get_cd j; env ← gets w_env;
   when (nonzero (li_cdid cd) && bool_decide (li_data_ptr cd = None))
     (mod_cd j (λ cd, cd <| li_data_ptr := slot_li_alloc env (cdid cd) (li_cdid cd) |>));;
   when (negb (channel_allocated cd)) (take_channel j (channel_id cd))).
Proof. reflexivity. Qed.

Lemma keeps_chan_allocate j : keeps w_chan_inv (cd_allocate_channel j).
Proof.
  rewrite cd_allocate_channel_unfold. crush.
  - apply keeps_chan_mod_cd. by intros cd.
  - apply keeps_take_channel.
Qed.

Lemma lookup_total_allocated (l : list call_desc) j :
  channel_allocated (l !!! j) = true -> l !! j = Some (l !!! j).
Proof.
  rewrite list_lookup_total_alt. by destruct (l !! j).
Qed.

(** Dropping the line interconnect keeps the channel. *)
Lemma drop_li_run j b w cd0 :
  w_chan_inv w -> N_call_desc (w_cntl w) !! j = Some cd0 ->
  let w' := (when b (mod_cd j (λ cd, cd <| li_data_ptr := None |>)) w).2 in
  w_chan_inv w' ∧ ∃ cd1, N_call_desc (w_cntl w') !! j = Some cd1 ∧
    channel_id cd1 = channel_id cd0 ∧ channel_allocated cd1 = channel_allocated cd0.
Proof.
  intros HI Hj w'. subst w'. rewrite run_when. destruct b; [|by eauto]. split.
  - apply keeps_chan_mod_cd; [by intros cd|done].
  - cbn. rewrite list_lookup_alter_eq, Hj. by eexists.
Qed.

Lemma keeps_chan_free j : keeps w_chan_inv (cd_free_channel j).
Proof.
  intros w HI. unfold cd_free_channel. rewrite run_bind. cbn [get_cd gets fst snd].
  set (cd0 := N_call_desc (w_cntl w) !!! j). rewrite run_bind, run_when.
  destruct (channel_allocated cd0) eqn:Ea.
  2:{ cbn [snd]. apply keeps_when; [|done]. apply keeps_chan_mod_cd. by intros cd. }
  assert (Hj : N_call_desc (w_cntl w) !! j = Some cd0) by by apply lookup_total_allocated.
  destruct (drop_li_run j (negb (bool_decide (li_data_ptr cd0 = None))) w cd0 HI Hj)
    as (HI1 & cd1 & Hj1 & Hid & Ha1).
  clearbody cd0. revert HI1 Hj1. generalize (when (negb (bool_decide (li_data_ptr cd0 = None)))
      (mod_cd j (λ cd, cd <| li_data_ptr := None |>)) w).2. clear w HI Hj. intros w HI1 Hj1.
  rewrite run_bind. cbn [get_cntl gets fst snd]. rewrite run_bind, run_when.
  unfold w_chan_inv in *.
  destruct (Z.leb_spec 0 (channel_id cd0)); cbn [andb];
    [destruct (Z.ltb_spec (channel_id cd0) (L1_channel_end (w_cntl w)))|].
  - eapply (chan_inv_drop _ _ _ _ cd1); [done|done| |done].
    split; [congruence|done].
  - apply chan_inv_alter; [|done]. by intros cd k' _ (Ha & _).
  - apply chan_inv_alter; [|done]. by intros cd k' _ (Ha & _).
Qed.

Lemma find_channel_first n k c k' :
  find_channel n k c = Some k' ->
  ∀ k'', k <= k'' < k' -> GET_CHANNEL_UTILIZATION c k'' = true.
Proof.
  revert k. induction n as [|n IH]; intros k; cbn [find_channel]; [done|].
  destruct (GET_CHANNEL_UTILIZATION c k) eqn:E; cbn [negb].
  - intros Hf k'' Hk. destruct (Z.eq_dec k'' k) as [->|]; [done|]. apply (IH (k + 1)); [done|lia].
  - intros [= ->] k'' Hk. lia.
Qed.

(** The channel a request asks for, if it names one of the interface. *)
Definition requested (c : controller) (id : Z) : bool := (0 <=? id) && (id <? L1_channel_end c).

(** What a call that asked for [id] may get. *)
Definition channel_answer (c : controller) (id : Z) (allocated : bool) (id' : Z) : Prop :=
  if allocated then
    (id = CHAN_NOT_ANY ∧ id' = CHAN_NOT_ANY) ∨
    (0 <= id' < L1_channel_end c ∧ GET_CHANNEL_UTILIZATION c id' = false ∧
     if requested c id then id' = id
     else ∀ k, 0 <= k < id' -> GET_CHANNEL_UTILIZATION c k = true)
  else
    id' = CHAN_ANY ∧
    if requested c id then GET_CHANNEL_UTILIZATION c id = true
    else ∀ k, 0 <= k < L1_channel_end c -> GET_CHANNEL_UTILIZATION c k = true.

Lemma choose_channel_answer c id id' allocated used :
  choose_channel c id = (id', allocated, used) ->
  channel_answer c id allocated id' ∧
  used = (if allocated && negb (id' =? CHAN_NOT_ANY) then Some id' else None).
Proof.
  unfold choose_channel, channel_answer. change ((0 <=? id) && (id <? L1_channel_end c)) with (requested c id).
  destruct (requested c id) eqn:Er.
  - unfold requested in Er. apply andb_true_iff in Er as [E1 E2].
    destruct (GET_CHANNEL_UTILIZATION c id) eqn:E; cbn [negb]; intros [= <- <- <-]; [done|].
    split; [right; split; [lia|done]|]. unfold CHAN_NOT_ANY.
    destruct (Z.eqb_spec id (-2)); [lia|done].
  - destruct (Z.eqb_spec id CHAN_NOT_ANY) as [->|]; [intros [= <- <- <-]; by split; [left|]|].
    pose proof (find_channel_spec (Z.to_nat (L1_channel_end c)) 0 c _ eq_refl) as Hs.
    destruct (find_channel _ 0 c) as [k|] eqn:Ef; intros [= <- <- <-].
    + destruct Hs as [Hk Hg]. split.
      * right. split; [lia|]. split; [done|]. by eapply find_channel_first.
      * unfold CHAN_NOT_ANY. destruct (Z.eqb_spec k (-2)); [lia|done].
    + split; [|done]. split; [done|]. intros k Hk. apply Hs. lia.
Qed.

(** Setting up the line interconnect changes no channel. *)
Definition li_step (j : nat) (cd0 : call_desc) (w : world) : world :=
  (when (nonzero (li_cdid cd0) && bool_decide (li_data_ptr cd0 = None))
    (mod_cd j (λ cd, cd <| li_data_ptr := slot_li_alloc (w_env w) (cdid cd) (li_cdid cd) |>)) w).2.
Lemma li_step_spec j cd0 w cd :
  N_call_desc (w_cntl w) !! j = Some cd ->
  (∀ k, GET_CHANNEL_UTILIZATION (w_cntl (li_step j cd0 w)) k = GET_CHANNEL_UTILIZATION (w_cntl w) k) ∧
  L1_channel_end (w_cntl (li_step j cd0 w)) = L1_channel_end (w_cntl w) ∧
  N_channel_utilization (w_cntl (li_step j cd0 w)) = N_channel_utilization (w_cntl w) ∧
  is_Some (N_call_desc (w_cntl (li_step j cd0 w)) !! j).
Proof.
  intros Hj. unfold li_step. rewrite run_when. case_match; [|by eauto].
  repeat split; try done. cbn. rewrite list_lookup_alter_eq, Hj. by eexists.
Qed.

Lemma cd_allocate_channel_run j w :
  let cd := N_call_desc (w_cntl w) !!! j in
  (cd_allocate_channel j w).2 =
  if channel_allocated cd then li_step j cd w
  else (take_channel j (channel_id cd) (li_step j cd w)).2.
Proof.
  intros cd. rewrite cd_allocate_channel_unfold. rewrite !run_bind. cbn [get_cd gets fst snd].
  fold cd. unfold li_step. rewrite run_when.
  by destruct (channel_allocated cd).
Qed.

Lemma choose_channel_ext c c' id :
  (∀ k, GET_CHANNEL_UTILIZATION c k = GET_CHANNEL_UTILIZATION c' k) ->
  L1_channel_end c = L1_channel_end c' -> choose_channel c id = choose_channel c' id.
Proof.
  intros Hg He. unfold choose_channel. rewrite He, Hg.
  assert (∀ n k, find_channel n k c = find_channel n k c') as Hf.
  { induction n as [|n IH]; intros k; cbn [find_channel]; [done|]. by rewrite Hg, IH. }
  by rewrite Hf.
Qed.

Lemma allocate_channel_spec j w cd :
  w_chan_inv w -> N_call_desc (w_cntl w) !! j = Some cd -> channel_allocated cd = false ->
  let w' := (cd_allocate_channel j w).2 in
  ∃ cd', N_call_desc (w_cntl w') !! j = Some cd' ∧
    channel_answer (w_cntl w) (channel_id cd) (channel_allocated cd') (channel_id cd') ∧
    ∀ k, 0 <= k ->
      GET_CHANNEL_UTILIZATION (w_cntl w') k =
      (channel_allocated cd' && (k =? channel_id cd')) || GET_CHANNEL_UTILIZATION (w_cntl w) k.
Proof.
  intros HI Hj Ha w'.
  assert (Ht : N_call_desc (w_cntl w) !!! j = cd) by by apply list_lookup_total_correct.
  pose proof (cd_allocate_channel_run j w) as Hrun. rewrite Ht in Hrun. cbv zeta in Hrun.
  subst w'. rewrite Hrun, Ha. clear Hrun.
  destruct (li_step_spec j cd w cd Hj) as (Hg & He & Hu & [cd1 Hj1]).
  unfold take_channel. rewrite run_bind. cbn [get_cntl gets fst snd].
  rewrite (choose_channel_ext _ (w_cntl w)) by done.
  pose proof (choose_channel_answer (w_cntl w) (channel_id cd)) as Hc.
  destruct (choose_channel (w_cntl w) (channel_id cd)) as [[id' allocated] used] eqn:Ech.
  destruct (Hc _ _ _ eq_refl) as [Hans Hused]. clear Hc.
  destruct HI as [Hb Hend _ _]. unfold I4B_MAX_CHANNELS in Hend.
  rewrite run_bind. destruct used as [k|].
  - destruct allocated; cbn [andb] in Hused; [|done].
    destruct (Z.eqb_spec id' CHAN_NOT_ANY) as [|Hne]; simplify_eq/=.
    rewrite list_lookup_alter_eq, Hj1. eexists. split; [done|]. split; [done|].
    destruct Hans as [[_ ->]|(Hk & _)]; [done|].
    intros k' Hk'. cbn. unfold GET_CHANNEL_UTILIZATION. cbn.
    rewrite GET_SET_BIT by (rewrite ?Hu, ?Hb; lia). rewrite Hu. by destruct (k' =? id').
  - cbn. rewrite list_lookup_alter_eq, Hj1. eexists. split; [done|]. split; [done|].
    intros k Hk. cbn. change (GET_CHANNEL_UTILIZATION (w_cntl (li_step j cd w)) k =
      allocated && (k =? id') || GET_CHANNEL_UTILIZATION (w_cntl w) k). rewrite Hg.
    destruct allocated; [|done]. cbn [andb] in Hused.
    destruct (Z.eqb_spec id' CHAN_NOT_ANY) as [->|]; [|done]. unfold CHAN_NOT_ANY.
    by destruct (Z.eqb_spec k (-2)); [lia|].
Qed.

(** [cd_allocate_channel] on a call without a channel: a free channel
    the call asks for is the one it gets; without such a wish it gets the
    lowest free channel; [CHAN_NOT_ANY] needs none; and it only fails, with
    [CHAN_ANY], when the channel asked for, or every channel, is in use.
    Exactly the channel given out is marked as used, and the invariant
    [chan_inv] (a held channel is marked and has one holder) is kept. *)
Lemma cd_allocate_channel_correct j w cd :
  w_chan_inv w -> N_call_desc (w_cntl w) !! j = Some cd -> channel_allocated cd = false ->
  let w' := (cd_allocate_channel j w).2 in
  w_chan_inv w' ∧
  ∃ cd', N_call_desc (w_cntl w') !! j = Some cd' ∧
    channel_answer (w_cntl w) (channel_id cd) (channel_allocated cd') (channel_id cd') ∧
    ∀ k, 0 <= k ->
      GET_CHANNEL_UTILIZATION (w_cntl w') k =
      (channel_allocated cd' && (k =? channel_id cd')) || GET_CHANNEL_UTILIZATION (w_cntl w) k.
Proof.
  intros HI Hj Ha. split; [by apply keeps_chan_allocate|by apply allocate_channel_spec].
Qed.

(** An idle terminal with sixteen pipes. *)
Definition sample_env : environment := Env 100 [] (λ _, 1) (λ _ _, None).
Definition sample_sc : l2softc :=
  {| sc_unit := 3; sc_tei_last := 0; sc_received_frame := false; L1_deactivate_count := 0;
     L1_activity := 1; L1_auto_activate := 0; sc_nt_mode := false; sc_primary_rate := false;
     sc_point_to_point := false; sc_ifq := Ifqueue [] 48; ID_REQUEST_callout := None;
     L1_activity_callout := Some 1500;
     sc_pipe := replicate 16 (Pipe 0 ST_L2_PAUSE None None 0xff 0x8643 (Ifqueue [] 48) 0 0 0 0);
     sc_current_pipe := 0; sc_current_mbuf := 0; sc_current_length := 0; sc_current_tx_nr := 0;
     sc_fifo_translator := true |}.
Definition sample_world : world := World sample_sc sample_cntl sample_env [].

Lemma sample_chan_inv : w_chan_inv sample_world.
Proof.
  constructor; [done|unfold I4B_MAX_CHANNELS; cbn; lia|..].
  - by intros [|[|j]] cd k [= <-] (Ha & _).
  - by intros [|[|j]] j' cd cd' k [= <-] _ (Ha & _).
Qed.


(** What [cd_free_channel] does. *)
Lemma free_channel_spec j w cd :
  w_chan_inv w -> N_call_desc (w_cntl w) !! j = Some cd ->
  let w' := (cd_free_channel j w).2 in
  ∃ cd', N_call_desc (w_cntl w') !! j = Some cd' ∧ channel_allocated cd' = false ∧
    li_data_ptr cd' = None ∧
    channel_id cd' = (if channel_allocated cd then CHAN_ANY else channel_id cd) ∧
    ∀ k, 0 <= k ->
      GET_CHANNEL_UTILIZATION (w_cntl w') k =
      GET_CHANNEL_UTILIZATION (w_cntl w) k && negb (channel_allocated cd && (k =? channel_id cd)
        && (k <? L1_channel_end (w_cntl w))).
Proof.
  intros [Hb Hend _ _] Hj w'. subst w'. unfold I4B_MAX_CHANNELS in Hend.
  assert (Ht : N_call_desc (w_cntl w) !!! j = cd) by by apply list_lookup_total_correct.
  unfold cd_free_channel. rewrite run_bind. cbn [get_cd gets fst snd]. rewrite Ht, run_bind, run_when.
  set (w1 := (when _ _ w).2).
  assert (∃ cd1, N_call_desc (w_cntl w1) !! j = Some cd1 ∧ li_data_ptr cd1 = None ∧
    channel_id cd1 = channel_id cd ∧ channel_allocated cd1 = channel_allocated cd ∧
    N_channel_utilization (w_cntl w1) = N_channel_utilization (w_cntl w) ∧
    L1_channel_end (w_cntl w1) = L1_channel_end (w_cntl w)) as (cd1 & Hj1 & Hli & Hid & Ha & Hu & He).
  { subst w1. rewrite run_when. case_bool_decide; cbn [negb]; [by exists cd|].
    cbn. rewrite list_lookup_alter_eq, Hj. by eexists. }
  clearbody w1. destruct (channel_allocated cd) eqn:Eall.
  - rewrite run_bind. cbn [get_cntl gets fst snd]. rewrite run_bind, run_when.
    destruct (Z.leb_spec 0 (channel_id cd)); cbn [andb];
      [destruct (Z.ltb_spec (channel_id cd) (L1_channel_end (w_cntl w1)))|];
      cbn; rewrite list_lookup_alter_eq, Hj1; eexists; (split; [reflexivity|]);
      (do 3 (split; [done|])); intros k Hk; unfold GET_CHANNEL_UTILIZATION; cbn; rewrite ?Hu.
    + rewrite GET_SET_BIT by (rewrite ?Hb; lia).
      destruct (Z.eqb_spec k (channel_id cd)); cbn [andb negb]; [|by rewrite andb_true_r].
      destruct (Z.ltb_spec k (L1_channel_end (w_cntl w))); [by rewrite andb_false_r|lia].
    + destruct (Z.eqb_spec k (channel_id cd)); cbn [andb negb]; [|by rewrite andb_true_r].
      destruct (Z.ltb_spec k (L1_channel_end (w_cntl w))); [lia|by rewrite andb_true_r].
    + destruct (Z.eqb_spec k (channel_id cd)); [lia|]. by rewrite andb_true_r.
  - cbn. exists cd1. repeat split; try done. intros k Hk. unfold GET_CHANNEL_UTILIZATION.
    by rewrite Hu, andb_true_r.
Qed.

Lemma frames_end_allocate j : frames (λ w, L1_channel_end (w_cntl w)) (cd_allocate_channel j).
Proof. unfold cd_allocate_channel. crush; by intros w. Qed.

(** Freeing gives back what allocation took: after
    [cd_allocate_channel] and [cd_free_channel] on a call without a channel
    the same channels are in use as before and the call holds none. *)
Lemma allocate_free_channel j w cd :
  w_chan_inv w -> N_call_desc (w_cntl w) !! j = Some cd -> channel_allocated cd = false ->
  let w' := (cd_free_channel j (cd_allocate_channel j w).2).2 in
  w_chan_inv w' ∧
  (∀ k, 0 <= k -> GET_CHANNEL_UTILIZATION (w_cntl w') k = GET_CHANNEL_UTILIZATION (w_cntl w) k) ∧
  ∃ cd', N_call_desc (w_cntl w') !! j = Some cd' ∧ channel_allocated cd' = false ∧
         channel_id cd' = CHAN_ANY ∧ li_data_ptr cd' = None.
Proof.
  intros HI Hj Ha w'. split; [by apply keeps_chan_free, keeps_chan_allocate|].
  destruct (allocate_channel_spec j w cd HI Hj Ha) as (cd1 & Hj1 & Hans & Hbits).
  pose proof (keeps_chan_allocate j w HI) as HI1.
  destruct (free_channel_spec j (cd_allocate_channel j w).2 cd1 HI1 Hj1)
    as (cd2 & Hj2 & Ha2 & Hli & Hid2 & Hbits2).
  split; [|exists cd2; split; [done|]; split; [done|]; split; [|done]].
  - intros k Hk. subst w'. rewrite Hbits2, Hbits, frames_end_allocate by done.
    unfold channel_answer in Hans.
    destruct (channel_allocated cd1); [|by rewrite andb_true_r]. cbn [andb].
    destruct (Z.eqb_spec k (channel_id cd1)) as [->|]; cbn [andb orb]; [|by rewrite andb_true_r].
    destruct Hans as [[_ Heq]|(Hr & -> & _)].
    + rewrite Heq in Hk. unfold CHAN_NOT_ANY in Hk. lia.
    + by destruct (Z.ltb_spec (channel_id cd1) (L1_channel_end (w_cntl w))); [|lia].
  - unfold channel_answer in Hans. rewrite Hid2. destruct (channel_allocated cd1); [done|].
    by destruct Hans.
Qed.

(** ** Allocation of call descriptors *)

(** No two call descriptors in use have the same id. *)
Definition cdids_unique (c : controller) : Prop :=
  ∀ j j' cd cd', N_call_desc c !! j = Some cd -> N_call_desc c !! j' = Some cd' ->
    cdid cd ≠ CDID_UNUSED -> cdid cd = cdid cd' -> j = j'.

Lemma cd_find_spec P cds j :
  cd_find P cds = Some j ->
  ∃ cd, cds !! j = Some cd ∧ P cd = true.
Proof.
  unfold cd_find. intros H. apply fmap_Some in H as ([j' cd] & Hf & ->).
  apply list_find_Some in Hf as (Hj & HP & _). by exists cd.
Qed.
Lemma cd_find_none P cds :
  cd_find P cds = None -> ∀ j cd, cds !! j = Some cd -> P cd = false.
Proof.
  unfold cd_find. intros H j cd Hj. apply fmap_None, list_find_None in H.
  rewrite Forall_lookup in H. specialize (H j cd Hj). cbn in H. by destruct (P cd).
Qed.

Lemma get_cdid_spec c :
  1 < N_cdid_end c <= CDID_REF_MAX -> is_u32 (N_cdid_count c) ->
  (∃ count, (get_cdid c).2 = c <| N_cdid_count := count |> ∧ is_u32 count) ∧
  (((get_cdid c).1 = CDID_UNUSED ∧
    ∀ k, 0 < k < N_cdid_end c -> cdid_in_use (N_call_desc c) (MAKE_CDID (unit_no c) k) = true) ∨
   (∃ k, 0 < k < N_cdid_end c ∧ (get_cdid c).1 = MAKE_CDID (unit_no c) k ∧
         Forall (λ cd, cdid cd ≠ (get_cdid c).1) (N_call_desc c))).
Proof.
  intros He Hc. unfold get_cdid.
  destruct (Z.ltb_spec CDID_REF_MAX (N_cdid_end c)); [lia|].
  destruct (loop_first_pass (unit_no c) (N_cdid_end c) (cdid_in_use (N_call_desc c)) He
      (Z.to_nat (N_cdid_end c)) (get_cdid_fuel (N_cdid_end c)) (N_cdid_count c) Hc)
    as (id & count & -> & Hcnt & Hcase).
  { unfold is_u32 in Hc. lia. }
  { unfold get_cdid_fuel. lia. }
  split; [by exists count|]. destruct Hcase as [Hl|(k & Hk & -> & Hu & _)]; [by left|right].
  exists k. rewrite cdid_in_use_false in Hu. done.
Qed.

Lemma MAKE_CDID_nonzero unit k : 0 < k < 256 -> MAKE_CDID unit k ≠ CDID_UNUSED.
Proof.
  intros Hk. rewrite MAKE_CDID_val by lia. unfold CDID_UNUSED.
  pose proof (Z.mod_pos_bound unit 64 ltac:(lia)). lia.
Qed.

(** What [i4b_allocate_cd] does, given a slot is free. *)
Lemma allocate_cd_run w j :
  cd_find (λ cd, cdid cd =? CDID_UNUSED) (N_call_desc (w_cntl w)) = Some j ->
  let c1 := (w_cntl w) <| N_call_desc ::= alter (λ _, bzero_cd) j |> in
  let id := (get_cdid c1).1 in
  i4b_allocate_cd w =
  (if id =? CDID_UNUSED then None else Some j,
   w <| w_cntl := (get_cdid c1).2 <| N_call_desc ::= alter (λ cd, cd <| cdid := id |>) j |> |>).
Proof.
  intros Hf c1 id. unfold i4b_allocate_cd. rewrite run_bind. cbn [get_cntl gets fst snd]. rewrite Hf.
  rewrite !run_bind. unfold mod_cd, mod_cntl, modify. cbn [fst snd]. subst id c1.
  cbn [w_cntl set const]. by destruct (get_cdid _) as [id c'].
Qed.

Lemma unique_insert c j id cd' :
  cdids_unique c -> cdid cd' = id ->
  (id = CDID_UNUSED ∨ ∀ i cd, i ≠ j -> N_call_desc c !! i = Some cd -> cdid cd ≠ id) ->
  cdids_unique (c <| N_call_desc := <[j := cd']> (N_call_desc c) |>).
Proof.
  intros Hu Hid Hfresh i i' x x' Hi Hi'. cbn in Hi, Hi'.
  apply list_lookup_insert_Some in Hi as [(-> & -> & _)|[Hne Hi]];
    apply list_lookup_insert_Some in Hi' as [(-> & -> & _)|[Hne' Hi']]; intros Hx Heq; try done.
  - destruct Hfresh as [->|Hf]; [congruence|]. exfalso. apply (Hf i' x'); congruence.
  - destruct Hfresh as [->|Hf]; [congruence|]. exfalso. apply (Hf i x); congruence.
  - by eapply Hu.
Qed.

Lemma alter_const_insert (l : list call_desc) j f : alter (λ _, f) j l = <[j := f]> l.
Proof. apply list_eq. intros i. destruct (decide (i = j)) as [->|Hne].
  - rewrite list_lookup_alter_eq, list_lookup_insert. destruct (l !! j) eqn:E; simpl.
    + rewrite decide_True; [done|]. split; [done|]. by eapply lookup_lt_Some.
    + rewrite decide_False; [done|]. intros [_ Hl]. apply lookup_lt_is_Some_2 in Hl as [? Hl]. congruence.
  - by rewrite list_lookup_alter_ne, list_lookup_insert_ne.
Qed.

Lemma alter_insert_const (l : list call_desc) j x g :
  alter g j (alter (λ _, x) j l) = <[j := g x]> l.
Proof.
  rewrite <-alter_const_insert. apply list_eq. intros i. destruct (decide (i = j)) as [->|Hne].
  - rewrite !list_lookup_alter_eq. by destruct (l !! j).
  - by rewrite !list_lookup_alter_ne by done.
Qed.

Lemma set_cd_twice c j x g count :
  c <| N_call_desc ::= alter (λ _, x) j |> <| N_cdid_count := count |>
    <| N_call_desc ::= alter g j |> =
  c <| N_cdid_count := count |> <| N_call_desc := <[j := g x]> (N_call_desc c) |>.
Proof. rewrite <-alter_insert_const. reflexivity. Qed.

Lemma cd_by_cdid_unique c j cd :
  cdids_unique c -> N_call_desc c !! j = Some cd -> cdid cd ≠ CDID_UNUSED ->
  cd_by_cdid c (cdid cd) = Some j.
Proof.
  intros Hu Hj Hne. unfold cd_by_cdid. destruct (Z.eqb_spec (cdid cd) CDID_UNUSED); [done|].
  destruct (cd_find _ _) as [j'|] eqn:E.
  - apply cd_find_spec in E as (cd' & Hj' & Heq%Z.eqb_eq). f_equal. symmetry. by eapply Hu.
  - pose proof (cd_find_none _ _ E j cd Hj) as Hf. cbn in Hf. by rewrite Z.eqb_refl in Hf.
Qed.

(** The world [i4b_allocate_cd] leaves behind. *)
Lemma allocate_cd_spec w :
  1 < N_cdid_end (w_cntl w) <= CDID_REF_MAX -> is_u32 (N_cdid_count (w_cntl w)) ->
  match cd_find (λ cd, cdid cd =? CDID_UNUSED) (N_call_desc (w_cntl w)) with
  | None => i4b_allocate_cd w = (None, w)
  | Some j =>
      ∃ id count,
        i4b_allocate_cd w =
          (if id =? CDID_UNUSED then None else Some j,
           w <| w_cntl := (w_cntl w) <| N_cdid_count := count |>
                <| N_call_desc := <[j := bzero_cd <| cdid := id |>]> (N_call_desc (w_cntl w)) |> |>) ∧
        is_u32 count ∧
        ((id = CDID_UNUSED ∧ ∀ k, 0 < k < N_cdid_end (w_cntl w) ->
            cdid_in_use (N_call_desc (w_cntl w)) (MAKE_CDID (unit_no (w_cntl w)) k) = true) ∨
         (∃ k, 0 < k < N_cdid_end (w_cntl w) ∧ id = MAKE_CDID (unit_no (w_cntl w)) k ∧
            ∀ i cd, i ≠ j -> N_call_desc (w_cntl w) !! i = Some cd -> cdid cd ≠ id))
  end.
Proof.
  intros He Hc. destruct (cd_find _ _) as [j|] eqn:Ef.
  2:{ unfold i4b_allocate_cd. rewrite run_bind. cbn [get_cntl gets fst snd]. by rewrite Ef. }
  rewrite (allocate_cd_run w j Ef).
  set (c1 := (w_cntl w) <| N_call_desc ::= alter (λ _, bzero_cd) j |>).
  destruct (get_cdid_spec c1 He Hc) as [(count & Hcount & Hcnt) Hcase].
  apply cd_find_spec in Ef as (old & Hj & Hold). exists (get_cdid c1).1, count. split.
  { rewrite Hcount. subst c1. by rewrite set_cd_twice. }
  split; [done|].
  - destruct Hcase as [[Hz Hall]|(k & Hk & Hid & Hfr)]; [left|right].
    + split; [done|]. intros k Hk. specialize (Hall k Hk). unfold cdid_in_use in *.
      apply existsb_exists in Hall as (cd & Hin & Heq%Z.eqb_eq).
      apply existsb_exists. exists cd. split; [|by apply Z.eqb_eq].
      apply list_elem_of_In in Hin. apply list_elem_of_In.
      apply list_elem_of_lookup in Hin as [i Hi]. cbn in Hi. rewrite alter_const_insert in Hi.
      apply list_lookup_insert_Some in Hi as [(-> & <- & _)|[_ Hi]]; [|by eapply list_elem_of_lookup_2].
      exfalso. unfold CDID_REF_MAX in He. eapply (MAKE_CDID_nonzero (unit_no (w_cntl w)) k); [lia|].
      symmetry. exact Heq.
    + exists k. split; [done|]. split; [done|]. intros i cd Hne Hi. rewrite Forall_lookup in Hfr.
      apply (Hfr i). cbn. by rewrite list_lookup_alter_ne.
Qed.

(** [i4b_allocate_cd] keeps the ids unique.  When it returns a
    descriptor, that one was free, it is cleared but for a fresh id in
    range, nothing else has changed and [cd_by_cdid] finds it by its id.
    It returns none only when every descriptor or every id is in use. *)
Lemma i4b_allocate_cd_correct w :
  1 < N_cdid_end (w_cntl w) <= CDID_REF_MAX -> is_u32 (N_cdid_count (w_cntl w)) ->
  cdids_unique (w_cntl w) ->
  let '(r, w') := i4b_allocate_cd w in
  cdids_unique (w_cntl w') ∧
  match r with
  | Some j =>
      (∃ old, N_call_desc (w_cntl w) !! j = Some old ∧ cdid old = CDID_UNUSED) ∧
      ∃ id, id ≠ CDID_UNUSED ∧ 0 < CDID2CALLREFERENCE id < N_cdid_end (w_cntl w) ∧
        N_call_desc (w_cntl w') =
          <[j := bzero_cd <| cdid := id |>]> (N_call_desc (w_cntl w)) ∧
        cd_by_cdid (w_cntl w') id = Some j
  | None =>
      (∀ j cd, N_call_desc (w_cntl w) !! j = Some cd -> cdid cd ≠ CDID_UNUSED) ∨
      (∀ k, 0 < k < N_cdid_end (w_cntl w) ->
         cdid_in_use (N_call_desc (w_cntl w)) (MAKE_CDID (unit_no (w_cntl w)) k) = true)
  end.
Proof.
  intros He Hc Hu. pose proof (allocate_cd_spec w He Hc) as Hs.
  destruct (cd_find _ _) as [j|] eqn:Ef.
  2:{ rewrite Hs. split; [done|]. left. intros j cd Hj Hz.
      pose proof (cd_find_none _ _ Ef j cd Hj) as Hf. cbn in Hf. by rewrite Hz in Hf. }
  apply cd_find_spec in Ef as (old & Hj & Hold%Z.eqb_eq).
  destruct Hs as (id & count & -> & _ & Hcase). unfold CDID_REF_MAX in He.
  assert (cdids_unique ((w_cntl w) <| N_cdid_count := count |>
     <| N_call_desc := <[j := bzero_cd <| cdid := id |>]> (N_call_desc (w_cntl w)) |>)) as Hu'.
  { assert (cdid (bzero_cd <| cdid := id |>) = id) as Hid by done.
    assert (cdids_unique ((w_cntl w) <| N_cdid_count := count |>)) as Hu1 by exact Hu.
    pose proof (unique_insert _ j id (bzero_cd <| cdid := id |>) Hu1 Hid) as Hi. apply Hi.
    destruct Hcase as [[-> _]|(k & _ & _ & Hf)]; [by left|by right]. }
  split; [exact Hu'|]. destruct Hcase as [[-> Hall]|(k & Hk & -> & Hf)]; [by right|].
  pose proof (MAKE_CDID_nonzero (unit_no (w_cntl w)) k ltac:(lia)) as Hnz.
  destruct (Z.eqb_spec (MAKE_CDID (unit_no (w_cntl w)) k) CDID_UNUSED); [done|].
  split; [by exists old|]. eexists. split; [exact Hnz|]. split.
  { rewrite MAKE_CDID_val by lia. unfold CDID2CALLREFERENCE, I4B_MAX_CONTROLLERS.
    pose proof (Z.mod_pos_bound (unit_no (w_cntl w)) 64 ltac:(lia)).
    rewrite Z.div_add, Z.div_small; lia. }
  split; [done|].
  pose proof (cd_by_cdid_unique _ j (bzero_cd <| cdid := MAKE_CDID (unit_no (w_cntl w)) k |>) Hu')
    as Hby. cbn in Hby. apply Hby; [|done]. apply list_lookup_insert_eq. by eapply lookup_lt_Some.
Qed.

Lemma sample_unique : cdids_unique (w_cntl sample_world).
Proof. by intros [|[|j]] [|[|j']] cd cd' [= <-] [= <-]. Qed.
