(* ===== verification/L3Fsm.v ===== *)
(** * The layer 3 state machine (dss1_l3fsm.h)

    Activation of layer 1 by reference counting, the binding of a call to a
    pipe, the states of a call with their timeout, and [cd_update], the
    reaction to every event of [L3_EVENTS].  [cd_set_pipe] calls back into
    layer 2 to bring up the pipe it is given; that operation is a parameter
    of the definitions here and is supplied by the layer 2 file.  Requests
    to layer 1 and indications to layer 4 are outputs of the world. *)
From S2P Require Import Prelude Mbuf Dss1Types Dss1State L3Encoder CallDesc.
Local Open Scope Z_scope.

(** ** Activation of layer 1 *)
Definition dss1_L1_activity_timeout : M unit :=
  sc ← get_sc;
  cntl ← get_cntl;
  hz ← get_hz;
  when (sc_fifo_translator sc)
    ((if nonzero (L1_activity sc) && negb (nonzero (L1_auto_activate sc)) &&
         negb (sc_received_frame sc) && negb (no_power_save cntl)
      then if nonzero (L1_deactivate_count sc)
           then emit CMR_PH_DEACTIVATE;;
                mod_sc (λ s, s <| L1_deactivate_count := 0 |>)
           else mod_sc (λ s, s <| L1_deactivate_count := 1 |>)
      else mod_sc (λ s, s <| L1_deactivate_count := 0 |> <| sc_received_frame := false |>));;
     mod_sc (λ s, s <| L1_activity_callout := Some (15 * hz) |>)).

Definition dss1_L1_deactivate_req : M unit :=
  mod_sc (λ s, s <| L1_auto_activate ::= λ n, u32 (n - 1) |>);;
  sc ← get_sc;
  when (L1_auto_activate sc =? 0) dss1_L1_activity_timeout.

Definition dss1_L1_activate_req : M unit :=
  sc ← get_sc;
  mod_sc (λ s, s <| L1_auto_activate ::= λ n, u32 (n + 1) |>);;
  when (L1_auto_activate sc =? 0)
    (mod_sc (λ s, s <| L1_activity_callout := None |> <| L1_deactivate_count := 0 |>);;
     emit CMR_PH_ACTIVATE).

(** ** Indications to layer 4 (i4b_l4.c) *)
Definition l4_ind (ind : l4_indication) (j : nat) : M unit :=
  cd ← get_cd j;
  emit (L4_IND ind cd).
Definition i4b_l4_disconnect_ind (j : nat) : M unit :=
  i4b_link_bchandrvr j false;;
  l4_ind L4_DISCONNECT j.
(** The number of copies of the message that were taken. *)
Definition i4b_l4_connect_ind (j : nat) : M Z :=
  cd ← get_cd j;
  emit (L4_IND L4_CONNECT cd);;
  gets (λ w, u16 (l4_connect_count (w_env w) cd)).

(** ** The pipe of a call *)
Definition cd_set_pipe (dss1_pipe_activate_req : nat -> M unit) (j : nat) (pipe : option nat)
  : M unit :=
  match pipe with
  | Some i =>
      mod_pipe i (λ p, p <| refcount ::= λ n, u32 (n + 1) |>);;
      dss1_L1_activate_req;;
      dss1_pipe_activate_req i
  | None => mret tt
  end;;
  cd ← get_cd j;
  match cd_pipe cd with
  | Some i =>
      mod_pipe i (λ p, p <| refcount ::= λ n, u32 (n - 1) |>);;
      dss1_L1_deactivate_req
  | None => mret tt
  end;;
  mod_cd j (λ cd, cd <| cd_pipe := pipe |>).

(** [n_free_cd] of dss1_l3decoder.h.  No pipe is brought up by
    [cd_set_pipe(cd,NULL)]. *)
Definition n_free_cd (j : nat) : M unit :=
  i4b_l4_disconnect_ind j;;
  cd_set_appl_interface j 0 0;;
  cd_set_pipe (λ _, mret tt) j None;;
  cd_free_channel j;;
  i4b_free_cd j.

(** ** The state of a call *)

(** The states that wait for the answer to a STATUS ENQUIRY. *)
Definition is_TO (s : L3_STATES) : bool :=
  match s with
  | ST_L3_UC_TO | ST_L3_UA_TO | ST_L3_U3_TO | ST_L3_U4_TO | ST_L3_U6_TO | ST_L3_U7_TO => true
  | _ => false
  end.
Definition is_U3_U4_TO (s : L3_STATES) : bool :=
  match s with ST_L3_U3_TO | ST_L3_U4_TO => true | _ => false end.

(** [newstate == ST_L3_U0]: acknowledge, release and free. *)
Definition cd_set_state_null (j i : nat) : M unit :=
  mod_cd j (λ cd, cd <| cd_state := ST_L3_U0 |>);;
  cd ← get_cd j;
  dss1_pipe_data_acknowledge i cd;;
  sc ← get_sc;
  when (need_release cd)
    (when (cause_out cd =? 0) (mod_cd j (λ cd, cd <| cause_out := CAUSE_Q850_RECOTIMEXP |>));;
     if NT_MODE sc && negb (IS_POINT_TO_POINT sc) && negb (dir_incoming cd) && (i =? 0)%nat
     then dss1_l3_tx_release_complete_complement j (Some i) None
     else dss1_l3_tx_release_complete j true);;
  when (L1_activity sc =? 0)
    (mod_cd j (λ cd, cd <| cause_in := CAUSE_TV CAUSET_I4B CAUSE_I4B_L1ERROR |>));;
  n_free_cd j.

(** Whether a STATUS ENQUIRY is sent and the state entered in the end;
    [true] if the enquiry counter is incremented. *)
Definition adjust_newstate (sc : l2softc) (no_status_enquiry : bool) (cd : call_desc)
    (newstate : L3_STATES) : bool * L3_STATES * bool :=
  if NT_MODE sc && negb (IS_POINT_TO_POINT sc) && is_U3_U4_TO newstate then
    if peer_responded cd && (status_enquiry_timeout cd <? STATUS_ENQUIRY_TIMEOUT)
    then (false, L3_state_pred newstate, true)
    else (false, newstate, false)
  else if no_status_enquiry && is_TO newstate then (false, L3_state_pred newstate, false)
  else (is_TO newstate, newstate, false).

Definition L1_ACTIVATION_TIME (hz : Z) : Z := 4 * hz.

Definition cd_set_state_other (j : nat) (newstate : L3_STATES) : M unit :=
  sc ← get_sc;
  cntl ← get_cntl;
  hz ← get_hz;
  cd ← get_cd j;
  let '(send_status_enquiry, newstate, count) :=
    adjust_newstate sc (no_layer3_status_enquiry cntl) cd newstate in
  when count (mod_cd j (λ cd, cd <| status_enquiry_timeout ::= λ n, u8 (n + 1) |>));;
  mod_cd j (λ cd, cd <| cd_state := newstate |>
     <| cd_set_state_callout :=
          Some (L3_STATES_TIMEOUT_DELAY newstate * hz +
                (if nonzero (L1_activity sc) then 0 else L1_ACTIVATION_TIME hz)) |>);;
  when send_status_enquiry (dss1_l3_tx_status_enquiry j);;
  when (negb (bool_decide (cstr (dst_telno_early cd) = [])) && negb (bool_decide (newstate = ST_L3_U2)) &&
        (TE_MODE sc || IS_POINT_TO_POINT sc || bool_decide (newstate = ST_L3_UA) ||
         bool_decide (newstate = ST_L3_UA_TO)))
    (dss1_l3_tx_information j;;
     mod_cd j (λ cd, cd <| dst_telno_early := [] |>)).

Definition cd_set_state (j : nat) (newstate : L3_STATES) : M unit :=
  cd ← get_cd j;
  match cd_pipe cd with
  | None => emit FAULT
  | Some i =>
      mod_cd j (λ cd, cd <| cd_set_state_callout := None |>);;
      (if bool_decide (newstate = ST_L3_U0) then cd_set_state_null j i
       else cd_set_state_other j newstate);;
      mod_cd j (λ cd, cd <| tone_gen_state := L3_STATES_Q931_CONV (cd_state cd) |>)
  end.

(** The callout has fired: it is no longer armed. *)
Definition cd_set_state_timeout (j : nat) : M unit :=
  mod_cd j (λ cd, cd <| cd_set_state_callout := None |>);;
  sc ← get_sc;
  cd ← get_cd j;
  when (sc_fifo_translator sc) (cd_set_state j (L3_STATES_TIMEOUT_STATE (cd_state cd))).

(** ** [cd_update]: the events *)

(** [(state > lo) && (state < hi)] *)
Definition between (lo hi state : L3_STATES) : bool :=
  (L3_state_val lo <? L3_state_val state) && (L3_state_val state <? L3_state_val hi).

(** [sc] is taken from the pipe of the call; a call without a pipe has none. *)
Definition with_sc (j : nat) (k : l2softc -> M unit) : M unit :=
  cd ← get_cd j;
  match cd_pipe cd with
  | None => emit FAULT
  | Some _ => sc ← get_sc; k sc
  end.

(** [if(cd->channel_id != CHAN_ANY) cd_allocate_channel(cd)] *)
Definition try_allocate_channel (j : nat) : M unit :=
  cd ← get_cd j;
  when (negb (channel_id cd =? CHAN_ANY)) (cd_allocate_channel j).

(** The label [sms_release]. *)
Definition sms_release (j : nat) : M unit :=
  mod_cd j (λ cd, cd <| cause_out := CAUSE_Q850_NOANSWR |> <| need_release := true |>);;
  cd_set_state j ST_L3_U0.

(** The label [no_channel_available]. *)
Definition no_channel_available (j : nat) (sc : l2softc) : M unit :=
  mod_cd j (λ cd, cd <| cause_out := CAUSE_Q850_NOCAVAIL |>);;
  when (NT_MODE sc || IS_POINT_TO_POINT sc) (mod_cd j (λ cd, cd <| need_release := true |>));;
  cd_set_state j ST_L3_U0.

(** The label [event_connect_ack]. *)
Definition event_connect_ack (j : nat) : M unit :=
  cd ← get_cd j;
  if is_sms cd then sms_release j
  else
    cd_set_state j ST_L3_UA;;
    l4_ind L4_CONNECT_ACTIVE j.

Definition ev_disconnect (j : nat) (state : L3_STATES) : M unit :=
  when (negb (bool_decide (state = ST_L3_UC)) && negb (bool_decide (state = ST_L3_UC_TO)))
    (l4_ind L4_PRE_DISCONNECT j;; cd_set_state j ST_L3_UC).

Definition ev_status (j : nat) (state : L3_STATES) : M unit :=
  cd ← get_cd j;
  when (match state with ST_L3_U3_TO | ST_L3_U4_TO | ST_L3_U6_TO | ST_L3_U7_TO => true | _ => false end)
    (when (((call_state cd =? 0x19) || ((0x01 <=? call_state cd) && (call_state cd <=? 0x09))) &&
           (status_enquiry_timeout cd <? STATUS_ENQUIRY_TIMEOUT))
       (mod_cd j (λ cd, cd <| status_enquiry_timeout ::= λ n, u8 (n + 1) |>);;
        cd_set_state j (L3_state_pred state)));;
  when ((bool_decide (state = ST_L3_UA_TO) && (call_state cd =? 0xA)) ||
        (bool_decide (state = ST_L3_UC_TO) && ((call_state cd =? 0xB) || (call_state cd =? 0xC))))
    (cd_set_state j (L3_state_pred state)).

(** Unlink the B-channel driver of a call that goes on hold, and free its
    channel. *)
Definition hold_channel (j : nat) : M unit :=
  cd ← get_cd j;
  when (b_link_want_active cd)
    (i4b_link_bchandrvr j false;;
     mod_cd j (λ cd, cd <| b_link_want_active := true |>));;
  cd_free_channel j.
Definition relink_channel (j : nat) : M unit :=
  cd ← get_cd j;
  when (b_link_want_active cd) (i4b_link_bchandrvr j true).

Definition is_active (state : L3_STATES) : bool :=
  match state with ST_L3_UA | ST_L3_UA_TO => true | _ => false end.

Definition ev_hold_ind (j : nat) (state : L3_STATES) : M unit :=
  with_sc j (λ sc,
    cd ← get_cd j;
    if (is_active state ||
        ((L3_state_val ST_L3_U6 <=? L3_state_val state) &&
         (L3_state_val state <=? L3_state_val ST_L3_U8))) &&
       negb (call_is_on_hold cd) && NT_MODE sc
    then
      hold_channel j;;
      dss1_l3_tx_hold_acknowledge j;;
      l4_ind L4_HOLD j;;
      mod_cd j (λ cd, cd <| call_is_on_hold := true |>)
    else dss1_l3_tx_hold_reject j CAUSE_Q850_MSGNCMPT).

Definition ev_retrieve_ind (j : nat) : M unit :=
  with_sc j (λ sc,
    cd ← get_cd j;
    if call_is_on_hold cd && NT_MODE sc then
      cd_allocate_channel j;;
      cd ← get_cd j;
      if negb (channel_allocated cd) then dss1_l3_tx_retrieve_reject j CAUSE_Q850_NOCAVAIL
      else
        dss1_l3_tx_retrieve_acknowledge j;;
        l4_ind L4_RETRIEVE j;;
        mod_cd j (λ cd, cd <| call_is_on_hold := false |>);;
        relink_channel j
    else dss1_l3_tx_retrieve_reject j CAUSE_Q850_MSGNCMPT).

Definition ev_hold_req (j : nat) (state : L3_STATES) : M unit :=
  cd ← get_cd j;
  when ((is_active state ||
         ((L3_state_val ST_L3_U2_ACK <=? L3_state_val state) &&
          (L3_state_val state <=? L3_state_val ST_L3_U4_TO))) && negb (call_is_on_hold cd))
    (with_sc j (λ sc,
       when (TE_MODE sc)
         (hold_channel j;;
          dss1_l3_tx_hold j;;
          mod_cd j (λ cd, cd <| call_is_on_hold := true |> <| call_is_retrieving := false |>)))).

Definition ev_retrieve_req (j : nat) : M unit :=
  cd ← get_cd j;
  when (call_is_on_hold cd)
    (with_sc j (λ sc,
       when (TE_MODE sc)
         (dss1_l3_tx_retrieve j;;
          mod_cd j (λ cd, cd <| call_is_on_hold := false |> <| call_is_retrieving := true |>)))).

Definition ev_retrieve_ack (j : nat) : M unit :=
  cd ← get_cd j;
  when (call_is_retrieving cd)
    (with_sc j (λ sc,
       when (TE_MODE sc)
         (cd_allocate_channel j;;
          mod_cd j (λ cd, cd <| call_is_retrieving := false |>);;
          relink_channel j))).

(** *** Outgoing calls *)
Definition ev_setuprq (j : nat) (state : L3_STATES) : M unit :=
  when (bool_decide (state = ST_L3_OUTGOING))
    (with_sc j (λ sc,
       when (TE_MODE sc || IS_POINT_TO_POINT sc) (dss1_l3_tx_setup j);;
       mod_cd j (λ cd, cd <| cause_out := 0 |> <| need_release := true |>);;
       cd ← get_cd j;
       cd_set_state j (if sending_complete cd then ST_L3_U1 else ST_L3_U2))).

Definition ev_inforq (j : nat) (state : L3_STATES) : M unit :=
  with_sc j (λ sc,
    when (TE_MODE sc || IS_POINT_TO_POINT sc || is_active state)
      (mod_cd j (λ cd, cd <| dst_telno_early := strlcat (dst_telno_early cd) (dst_telno_part cd) TELNO_MAX |>);;
       when (negb (bool_decide (state = ST_L3_U2)))
         (dss1_l3_tx_information j;;
          mod_cd j (λ cd, cd <| dst_telno_early := [] |>)));;
    when (bool_decide (state = ST_L3_U2) || bool_decide (state = ST_L3_U2_ACK))
      (cd_set_state j state)).

Definition ev_callprc (j : nat) (state : L3_STATES) : M unit :=
  when (between ST_L3_OUTGOING ST_L3_U3 state)
    (with_sc j (λ sc,
       cd_set_state j ST_L3_U3;;
       try_allocate_channel j;;
       l4_ind (L4_PROCEEDING true (TE_MODE sc)) j)).

(** With no [break] in front of [case EV_L3_CALLPRC]. *)
Definition ev_setupak (j : nat) (state : L3_STATES) : M unit :=
  if bool_decide (state = ST_L3_U2) then
    with_sc j (λ sc,
      cd_set_state j ST_L3_U2_ACK;;
      try_allocate_channel j;;
      l4_ind (L4_PROCEEDING false (TE_MODE sc)) j)
  else if bool_decide (state = ST_L3_U2_ACK) then mret tt
  else ev_callprc j state.

Definition ev_alert (j : nat) (state : L3_STATES) : M unit :=
  when (between ST_L3_OUTGOING ST_L3_U4 state)
    (cd ← get_cd j;
     if is_sms cd then sms_release j
     else with_sc j (λ sc,
       when (L3_state_val state <? L3_state_val ST_L3_U3)
         (try_allocate_channel j;;
          l4_ind (L4_PROCEEDING true (TE_MODE sc)) j);;
       cd_set_state j ST_L3_U4;;
       l4_ind L4_ALERT j)).

(** *** Incoming calls *)
Definition want_dialtone (sc : l2softc) (cntl : controller) (cd : call_desc) : bool :=
  NT_MODE sc && negb (no_layer1_dialtone cntl) &&
  ((channel_bprot cd =? BPROT_NONE) || (channel_bprot cd =? BPROT_NONE_3_1_KHZ)).

(** The part of [EV_L3_SETUP] behind the allocation of the channel. *)
Definition setup_answer (j : nat) (sc : l2softc) (dialtone : bool) : M unit :=
  cd ← get_cd j;
  (if negb (sending_complete cd) then
     dss1_l3_tx_setup_acknowledge j (NT_MODE sc) dialtone;;
     cd_set_state j ST_L3_IN_ACK
   else
     dss1_l3_tx_call_proceeding j (NT_MODE sc) dialtone;;
     cd_set_state j ST_L3_U6);;
  when dialtone
    (mod_cd j (λ cd, cd <| driver_type := DRVR_DIAL_GEN |> <| driver_unit := 0 |>);;
     i4b_link_bchandrvr j true);;
  count ← i4b_l4_connect_ind j;
  mod_cd j (λ cd, cd <| connect_ind_count := count |>);;
  when (count =? 0) (sms_release j).

Definition ev_setup (j : nat) (state : L3_STATES) : M unit :=
  when (bool_decide (state = ST_L3_INCOMING) || bool_decide (state = ST_L3_IN_ACK))
    (with_sc j (λ sc,
       cntl ← get_cntl;
       cd ← get_cd j;
       let dialtone := want_dialtone sc cntl cd in
       when (NT_MODE sc || IS_POINT_TO_POINT sc)
         (mod_cd j (λ cd, cd <| need_release := true |>));;
       cd_allocate_channel j;;
       cd ← get_cd j;
       if negb (channel_allocated cd) then no_channel_available j sc
       else setup_answer j sc dialtone)).

Definition ev_info (j : nat) (state : L3_STATES) : M unit :=
  cd ← get_cd j;
  when (negb (bool_decide (cstr (dst_telno_part cd) = [])))
    (when (bool_decide (state = ST_L3_IN_ACK)) (cd_set_state j state);;
     l4_ind L4_INFORMATION j).

Definition ev_proceedingrq (j : nat) (state : L3_STATES) : M unit :=
  when (between ST_L3_INCOMING ST_L3_U6 state)
    (with_sc j (λ sc,
       dss1_l3_tx_call_proceeding j (NT_MODE sc) false;;
       cd_set_state j ST_L3_U6)).

Definition ev_alertrq (j : nat) (state : L3_STATES) : M unit :=
  when (between ST_L3_INCOMING ST_L3_U7 state)
    (cd ← get_cd j;
     if is_sms cd then sms_release j
     else
       when (L3_state_val state <? L3_state_val ST_L3_U6)
         (with_sc j (λ sc, dss1_l3_tx_call_proceeding j (NT_MODE sc) false));;
       dss1_l3_tx_alert j;;
       cd_set_state j ST_L3_U7).

Definition ev_progressrq (j : nat) (state : L3_STATES) : M unit :=
  when (between ST_L3_INCOMING ST_L3_UA state) (dss1_l3_tx_progress j).

Definition ev_setacrs (j : nat) (state : L3_STATES) : M unit :=
  when (between ST_L3_INCOMING ST_L3_U8 state)
    (cd ← get_cd j;
     if is_sms cd then sms_release j
     else with_sc j (λ sc,
       when (L3_state_val state <? L3_state_val ST_L3_U6)
         (dss1_l3_tx_call_proceeding j (NT_MODE sc) false);;
       dss1_l3_tx_connect j (NT_MODE sc);;
       mod_cd j (λ cd, cd <| cause_out := 0 |> <| need_release := true |>);;
       cd_set_state j ST_L3_U8;;
       when (NT_MODE sc) (event_connect_ack j))).

Definition ev_conack (j : nat) (state : L3_STATES) : M unit :=
  when (bool_decide (state = ST_L3_U8)) (event_connect_ack j).

(** *** The events that need layer 2 *)
Section cd_update.
Variable dss1_pipe_activate_req : nat -> M unit.

Definition ev_connect (j : nat) (pipe : option nat) (state : L3_STATES) : M unit :=
  when (between ST_L3_OUTGOING ST_L3_UA state)
    (cd ← get_cd j;
     if is_sms cd then sms_release j
     else with_sc j (λ sc,
       when (negb (channel_id cd =? CHAN_ANY)) (cd_allocate_channel j);;
       cd' ← get_cd j;
       if negb (channel_id cd =? CHAN_ANY) && channel_allocated cd' then
         when (NT_MODE sc && negb (IS_POINT_TO_POINT sc))
           (set_cause_out j CAUSE_Q850_NONSELUC;;
            dss1_l3_tx_release_complete_complement j (cd_pipe cd') pipe;;
            set_cause_out j 0);;
         cd_set_pipe dss1_pipe_activate_req j pipe;;
         dss1_l3_tx_connect_acknowledge j;;
         event_connect_ack j
       else no_channel_available j sc)).

(** The [switch] over the events. *)
Definition cd_event (j : nat) (pipe : option nat) (event : L3_EVENTS) (state : L3_STATES)
  : M unit :=
  match event with
  | EV_L3_SETRJRS => mod_cd j (λ cd, cd <| need_release := true |>);; cd_set_state j ST_L3_U0
  | EV_L3_DISCONNECT => ev_disconnect j state
  | EV_L3_RELEASE => cd_set_state j ST_L3_U0
  | EV_L3_STATENQ => dss1_l3_tx_status j CAUSE_Q850_STENQRSP
  | EV_L3_STATUS => ev_status j state
  | EV_L3_HOLD_IND => ev_hold_ind j state
  | EV_L3_RETRIEVE_IND => ev_retrieve_ind j
  | EV_L3_HOLD_REQ => ev_hold_req j state
  | EV_L3_RETRIEVE_REQ => ev_retrieve_req j
  | EV_L3_RETRIEVE_ACK => ev_retrieve_ack j
  | EV_L3_SETUPRQ => ev_setuprq j state
  | EV_L3_INFORQ => ev_inforq j state
  | EV_L3_SETUPAK => ev_setupak j state
  | EV_L3_CALLPRC | EV_L3_PROGIND => ev_callprc j state
  | EV_L3_ALERT => ev_alert j state
  | EV_L3_CONNECT => ev_connect j pipe state
  | EV_L3_SETUP => ev_setup j state
  | EV_L3_INFO | EV_L3_FACILITY | EV_L3_RESTART_IND | EV_L3_RESTART_ACK => ev_info j state
  | EV_L3_PROCEEDINGRQ => ev_proceedingrq j state
  | EV_L3_ALERTRQ => ev_alertrq j state
  | EV_L3_PROGRESSRQ => ev_progressrq j state
  | EV_L3_SETACRS => ev_setacrs j state
  | EV_L3_CONACK => ev_conack j state
  | EV_L3_DEFLECTRQ => with_sc j (λ sc, when (TE_MODE sc) (dss1_l3_tx_deflect_call j))
  | EV_L3_MCIDRQ => with_sc j (λ sc, when (TE_MODE sc) (dss1_l3_tx_mcid_call j))
  | EV_L3_ILL => mret tt
  end.

Definition cd_update (j : nat) (pipe : option nat) (event : L3_EVENTS) : M unit :=
  cd ← get_cd j;
  if (if dir_incoming cd then L3_EVENT_IS_LOCAL_INCOMING event
      else L3_EVENT_IS_LOCAL_OUTGOING event)
  then cd_event j pipe event (cd_state cd)
  else mret tt.

(** [dss1_pipe_reset_ind] of dss1_l3decoder.h *)
Definition dss1_pipe_reset_ind (i : nat) : M unit :=
  idx ← gets cd_indices;
  for_each idx (λ j,
    cd ← get_cd j;
    when (negb (cdid cd =? CDID_UNUSED) && bool_decide (cd_pipe cd = Some i))
      (cd_update j None EV_L3_RELEASE)).
End cd_update.

(** A release brings up no pipe, so layer 2 may be cut off. *)
Lemma reset_ind_knot a a' i : dss1_pipe_reset_ind a i = dss1_pipe_reset_ind a' i.
Proof. reflexivity. Qed.
