(* ===== verification/L3Decoder.v ===== *)
(** * Decoding of Q.931 messages and the entry points of layer 3
      (dss1_l3decoder.h)

    The codeset 0 information elements of a call, the indications from
    layer 2 ([dss1_pipe_data_ind], [dss1_pipe_resend_ind]), the requests of
    the application, and the allocation of a call.  Bringing up a pipe is a
    parameter, as in the state machine. *)
From S2P Require Import Prelude Mbuf Dss1Types Dss1State Buffer L3Encoder CallDesc L3Fsm.
Local Open Scope Z_scope.

(** The value of the restart indicator, kept if the element is another one. *)
Definition dss1_decode_q931_cs0_ie_restart (restart_ind : Z) (buf : dss1_buffer) : Z :=
  if dss1_get_1 buf 0 =? IEI_RESTARTI then dss1_get_1 buf 2 else restart_ind.

(** ** Information elements *)

(** [get_multi_1(buf, off, dst, len, filter)] into the array [old]. *)
Definition get_string (buf : dss1_buffer) (off : Z) (len : nat) (filter : bool) (old : list Z)
  : list Z := default old (get_multi_1 buf off len filter).1.

Definition decode_bearercap (cd : call_desc) (buf : dss1_buffer) : call_desc :=
  if negb (dir_incoming cd) then cd
  else
    let bprot :=
      match dss1_get_1 buf 2 with
      | 0x90 => BPROT_NONE_3_1_KHZ
      | 0x80 | 0x89 => BPROT_NONE
      | 0x88 => BPROT_RHDLC
      | _ => BPROT_NONE
      end in
    let bsubprot :=
      match Z.land (dss1_get_1 buf 4) 0x1F with
      | 0x02 => BSUBPROT_G711_ULAW
      | 0x03 => BSUBPROT_G711_ALAW
      | _ => BSUBPROT_UNKNOWN
      end in
    cd <| channel_bprot := bprot |> <| channel_bsubprot := bsubprot |>.

Definition decode_cause (cd : call_desc) (buf : dss1_buffer) : call_desc :=
  let off := if bit_set (dss1_get_1 buf 2) 0x80 then 3 else 4 in
  cd <| cause_in := Z.land (dss1_get_1 buf off) 0x7f |>.

(** The channel a channel identification element selects; [old] if the
    element leaves it alone. *)
Definition decode_channel_pri (exclusive : bool) (buf : dss1_buffer) (old : Z) : Z :=
  let temp := dss1_get_1 buf 2 in
  let iid := bit_set temp 0x40 in
  if bit_set temp 0x04 then (if exclusive then CHAN_D1 else old)
  else
    let sel := Z.land temp 0x03 in
    if sel =? 3 then CHAN_ANY
    else if sel =? 1 then
      if Z.land (dss1_get_1 buf (if iid then 4 else 3)) 0x2F =? 0x03 then
        if exclusive
        then CMR_DECODE_CHANNEL (Z.land (dss1_get_1 buf (if iid then 5 else 4)) 0x7F)
        else old
      else old
    else if sel =? 0 then CHAN_NOT_ANY
    else old.
Definition decode_channel_bri (exclusive : bool) (buf : dss1_buffer) (old : Z) : Z :=
  let temp := dss1_get_1 buf 2 in
  if bit_set temp 0x04 then (if exclusive then CHAN_D1 else old)
  else
    let sel := Z.land temp 0x03 in
    if sel =? 0x00 then CHAN_NOT_ANY
    else if sel =? 0x03 then CHAN_ANY
    else if exclusive then (if sel =? 0x01 then CHAN_B1 else CHAN_B2)
    else old.
Definition decode_channelid (sc : l2softc) (cd : call_desc) (buf : dss1_buffer) : call_desc :=
  if channel_allocated cd then cd
  else
    let temp := dss1_get_1 buf 2 in
    let exclusive := bit_set temp 0x08 || TE_MODE sc in
    if bit_set temp 0x20
    then cd <| channel_id ::= decode_channel_pri exclusive buf |>
    else cd <| channel_id ::= decode_channel_bri exclusive buf |>.

Definition decode_progressi (cd : call_desc) (buf : dss1_buffer) : call_desc :=
  let temp := Z.land (dss1_get_1 buf 3) 0x7f in
  if (temp =? 1) || (temp =? 2) || (temp =? 3) then cd <| not_end_to_end_digital := true |>
  else if temp =? 4 then cd <| not_end_to_end_digital := false |>
  else cd.

(** [sizeof(cd->display[0])] is one byte: only the final NUL is stored. *)
Definition decode_display (cd : call_desc) (buf : dss1_buffer) : call_desc :=
  cd <| display ::= get_string buf 2 1 true |>.

Definition decode_datetime (sc : l2softc) (cd : call_desc) (buf : dss1_buffer) : call_desc :=
  if dir_incoming cd || NT_MODE sc then cd
  else cd <| idate_time_len := 6 |>
          <| idate_time_data := map (dss1_get_1 buf) [2; 3; 4; 5; 6; 7] |>.

(** The type of number. *)
Definition decode_ton (temp : Z) : Z :=
  match Z.shiftr (Z.land temp 0x70) 4 with
  | 1 => TON_INTERNAT
  | 2 => TON_NATIONAL
  | _ => TON_OTHER
  end.

Definition decode_src (buf : dss1_buffer) (s : i4b_src_telno) : i4b_src_telno :=
  let temp := dss1_get_1 buf 2 in
  let s := s <| ton := decode_ton temp |> in
  if bit_set temp 0x80 then
    s <| scr_ind := SCR_NONE |> <| prs_ind := PRS_NONE |>
      <| telno ::= get_string buf 3 TELNO_MAX true |>
  else
    let temp := dss1_get_1 buf 3 in
    s <| scr_ind := Z.land temp 0x03 + SCR_USR_NOSC |>
      <| prs_ind := Z.land (Z.shiftr temp 5) 0x03 + PRS_ALLOWED |>
      <| telno ::= get_string buf 4 TELNO_MAX true |>.
Definition decode_callingpn (cd : call_desc) (buf : dss1_buffer) : call_desc :=
  if negb (dir_incoming cd) then cd
  else if received_src_telno_1 cd
  then cd <| received_src_telno_2 := true |> <| src_1 ::= decode_src buf |>
  else cd <| received_src_telno_1 := true |> <| src_0 ::= decode_src buf |>.
Definition decode_callingps (cd : call_desc) (buf : dss1_buffer) : call_desc :=
  let sub s := s <| subaddr ::= get_string buf 3 SUBADDR_MAX true |> in
  if negb (dir_incoming cd) then cd
  else if received_src_telno_2 cd then cd <| src_1 ::= sub |> else cd <| src_0 ::= sub |>.

(** The array [old] with [s] and a NUL written at [off]. *)
Definition write_at (off : nat) (s old : list Z) : list Z :=
  take off (old ++ replicate off 0) ++ s.
Definition decode_calledpn (cd : call_desc) (buf : dss1_buffer) : call_desc :=
  let cd :=
    if dir_incoming cd then
      let '(s, n) := get_multi_1 buf 3
        (Z.to_nat (u16 (Z.of_nat TELNO_MAX - Z.of_nat (dst_telno_ptr cd)))) true in
      cd <| dst_ton := decode_ton (dss1_get_1 buf 2) |>
         <| dst_telno ::= λ old, match s with
                                 | Some s => write_at (dst_telno_ptr cd) s old
                                 | None => old
                                 end |>
         <| dst_telno_ptr := (dst_telno_ptr cd + n)%nat |>
    else cd in
  cd <| dst_telno_part ::= get_string buf 3 TELNO_MAX true |>.
Definition decode_calledps (cd : call_desc) (buf : dss1_buffer) : call_desc :=
  if negb (dir_incoming cd) then cd
  else cd <| dst_subaddr ::= get_string buf 3 SUBADDR_MAX true |>.

(** [sc] is the softc of the pipe of the call. *)
Definition dss1_decode_q931_cs0_ie_cd (sc : l2softc) (cd : call_desc) (buf : dss1_buffer)
  : call_desc :=
  let msg_type := dss1_get_1 buf 0 in
  if bit_set msg_type 0x80 then
    if (msg_type =? IEI_SENDCOMPL) && dir_incoming cd then cd <| sending_complete := true |> else cd
  else if msg_type =? IEI_BEARERCAP then decode_bearercap cd buf
  else if msg_type =? IEI_CAUSE then decode_cause cd buf
  else if msg_type =? IEI_CALLSTATE then cd <| call_state := Z.land (dss1_get_1 buf 2) 0x3f |>
  else if msg_type =? IEI_CHANNELID then decode_channelid sc cd buf
  else if msg_type =? IEI_PROGRESSI then decode_progressi cd buf
  else if msg_type =? IEI_DISPLAY then decode_display cd buf
  else if msg_type =? IEI_DATETIME then decode_datetime sc cd buf
  else if msg_type =? IEI_CALLINGPN then decode_callingpn cd buf
  else if msg_type =? IEI_CALLINGPS then decode_callingps cd buf
  else if msg_type =? IEI_CALLEDPN then decode_calledpn cd buf
  else if msg_type =? IEI_CALLEDPS then decode_calledps cd buf
  else if msg_type =? IEI_USERUSER then cd <| user_user ::= get_string buf 2 USER_USER_MAX false |>
  else cd.

(** ** Indications from layer 2 *)

(** The header of a message: the call reference as the receiver sees it,
    the message type, and the buffer behind it. *)
Definition decode_header (buf : dss1_buffer) : Z * Z * dss1_buffer :=
  let buf := buf <| offset ::= λ o, u16 (o + 1) |> in
  let len := Z.land (dss1_get_1 buf 0) CRLENGTH_MASK in
  let cr_temp := (if 4 <? len then 4 else len) :: map (dss1_get_1 buf) [1; 2; 3; 4] in
  let buf := buf <| offset ::= λ o, u16 (o + (len + 1)) |> in
  let crval := Z.lxor (get_callreference cr_temp) 0x80 in
  let mt := Z.land (dss1_get_1 buf 0) 0x7F in
  (crval, mt, buf <| offset ::= λ o, u16 (o + 1) |>).

Definition dss1_pipe_resend_ind (i : nat) : M unit :=
  idx ← gets cd_indices;
  for_each idx (λ j,
    cd ← get_cd j;
    when (negb (cdid cd =? CDID_UNUSED) && bool_decide (cd_pipe cd = Some i) && need_release cd)
      (when (negb (peer_responded cd) &&
             ((setup_interleave cd =? 0) || (setup_interleave cd =? 4) || (6 <=? setup_interleave cd)))
         (dss1_l3_tx_setup j);;
       sc ← get_sc;
       when (nonzero (L1_activity sc) || nonzero (setup_interleave cd))
         (mod_cd j (λ cd, cd <| setup_interleave ::= λ n, u8 (n + 1) |>)))).

Section entry_points.
Variable dss1_pipe_activate_req : nat -> M unit.
Abbreviation cd_update := (cd_update dss1_pipe_activate_req).

(** [n_allocate_cd]: [None] for [pipe] is an outgoing call. *)
Definition n_allocate_cd (pipe : option nat) (crval ai_type ai_ptr : Z) : M (option nat) :=
  r ← i4b_allocate_cd;
  match r with
  | None => mret None
  | Some j =>
      cd ← get_cd j;
      let incoming := bool_decide (pipe ≠ None) in
      let crval := if incoming then u32 crval else CDID2CALLREFERENCE (cdid cd) in
      mod_cd j (λ cd, cd <| dir_incoming := incoming |> <| channel_id := CHAN_ANY |>
                         <| channel_bprot := BPROT_NONE |> <| cr := crval |>
                         <| dst_telno_ptr := 0%nat |>);;
      cd_set_appl_interface j ai_type ai_ptr;;
      cd_set_pipe dss1_pipe_activate_req j (Some (default 0%nat pipe));;
      cd_set_state j (if incoming then ST_L3_INCOMING else ST_L3_OUTGOING);;
      mret (Some j)
  end.

(** A message whose call reference belongs to no call: a SETUP makes one;
    the global call reference restarts the pipe; the answer to a call of
    ours that is gone is rejected. *)
Definition data_ind_no_cd (i : nat) (buf : dss1_buffer) (broadcast : bool) (crval mt : Z)
    (event : L3_EVENTS) : M (option nat) :=
  sc ← get_sc;
  if bit_set crval 0x80 && bool_decide (event = EV_L3_SETUP) then
    n_allocate_cd (Some i) crval 0 0
  else if Z.land crval (Z.lnot 0x80) =? 0 then
    let restart_ind := dss1_decode_ie dss1_decode_q931_cs0_ie_restart 0 buf in
    when (bool_decide (event = EV_L3_RESTART_IND))
      (dss1_l3_tx_message_by_pipe_cr i crval RESTART_ACKNOWLEDGE
         (Z.lor L3_TX_HEADER L3_TX_RESTARTI) 0 7;;
       dss1_pipe_reset_ind dss1_pipe_activate_req i);;
    mret None
  else if (NT_MODE sc && negb (IS_POINT_TO_POINT sc) && L3_EVENT_IS_LOCAL_OUTGOING event &&
           negb (L3_EVENT_IS_LOCAL_INCOMING event) && negb (bit_set crval 0x80)) ||
          (TE_MODE sc && negb broadcast && (mt =? RELEASE) && (crval =? 0x7F)) then
    dss1_l3_tx_message_by_pipe_cr i crval RELEASE_COMPLETE
      (Z.lor L3_TX_HEADER L3_TX_CAUSE) CAUSE_Q850_INVCLRFVAL 0;;
    mret None
  else mret None.

(** What a message does to its call before the event is processed. *)
Definition prepare_cd (event : L3_EVENTS) (cd : call_desc) : call_desc :=
  let cd := if bool_decide (event = EV_L3_CONNECT) then cd <| idate_time_len := 0 |> else cd in
  let cd := if bool_decide (event = EV_L3_SETUP) then cd <| dst_telno_ptr := 0%nat |> else cd in
  cd <| dst_telno_part := [] |> <| peer_responded := true |>.

(** A multi-point NT ignores a broadcast call being released by one of the
    terminals, unless the user is busy or rejects the call, and DISCONNECT. *)
Definition ignored (sc : l2softc) (cd : call_desc) (event : L3_EVENTS) : bool :=
  NT_MODE sc && negb (IS_POINT_TO_POINT sc) &&
  ((bool_decide (event = EV_L3_RELEASE) && negb (cause_in cd =? CAUSE_Q850_CALLREJ) &&
    negb (cause_in cd =? CAUSE_Q850_USRBSY) && bool_decide (cd_pipe cd = Some 0%nat)) ||
   bool_decide (event = EV_L3_DISCONNECT)).

Definition data_ind_cd (i j : nat) (buf : dss1_buffer) (event : L3_EVENTS) : M unit :=
  cd ← get_cd j;
  let event := if bool_decide (event = EV_L3_DISCONNECT) && negb (want_late_inband cd)
               then EV_L3_RELEASE else event in
  sc ← get_sc;
  mod_cd j (λ cd, dss1_decode_ie (dss1_decode_q931_cs0_ie_cd sc) (prepare_cd event cd) buf);;
  cd ← get_cd j;
  if ignored sc cd event then mret tt else cd_update j (Some i) event.

Definition dss1_pipe_data_ind (i : nat) (buf : dss1_buffer) (broadcast : bool) : M unit :=
  sc ← get_sc;
  if negb (dss1_get_valid buf 0) then mret tt
  else if NT_MODE sc && broadcast then mret tt
  else if negb (dss1_get_1 buf 0 =? PD_Q931) then mret tt
  else
    let '(crval, mt, buf) := decode_header buf in
    let event := Q931_MESSAGE_TYPES_EVENT mt in
    cntl ← get_cntl;
    r ← match cd_by_unitcr cntl i 0 crval with
        | Some j => mret (Some j)
        | None => data_ind_no_cd i buf broadcast crval mt event
        end;
    match r with
    | None => mret tt
    | Some j => data_ind_cd i j buf event
    end.

(** ** Requests of the application *)

(** What [i4b_l3_information_req] writes: the digits, cut to the size of the
    buffer, become the part dialled last; on an outgoing call they are also
    written behind [dst_telno_ptr], as far as [dst_telno] has room.  A
    pointer in front of [dst_telno] is the offset 0. *)
Definition dial_digits (ptr : list Z) (cd : call_desc) : call_desc :=
  let digits := take (TELNO_MAX - 1) ptr in
  let cd := cd <| dst_telno_part := digits |> in
  if dir_incoming cd then cd
  else
    let dst := Nat.min (dst_telno_ptr cd) (TELNO_MAX - 1) in
    let digits := take (TELNO_MAX - 1 - dst) digits in
    cd <| dst_telno ::= write_at dst digits |> <| dst_telno_ptr := (dst + length digits)%nat |>.

Definition n_retrieve_request (j : nat) : M unit := cd_update j None EV_L3_RETRIEVE_REQ.
Definition n_hold_request (j : nat) : M unit := cd_update j None EV_L3_HOLD_REQ.
Definition n_deflect_request (j : nat) : M unit := cd_update j None EV_L3_DEFLECTRQ.
Definition n_mcid_request (j : nat) : M unit := cd_update j None EV_L3_MCIDRQ.
Definition n_connect_request (j : nat) : M unit := cd_update j None EV_L3_SETUPRQ.
Definition n_information_request (j : nat) : M unit := cd_update j None EV_L3_INFORQ.
Definition n_connect_response (j : nat) (response cause : Z) : M unit :=
  mod_cd j (λ cd, cd <| cause_out := cause |>);;
  if response =? SETUP_RESP_ACCEPT then cd_update j None EV_L3_SETACRS
  else if response =? SETUP_RESP_REJECT then cd_update j None EV_L3_SETRJRS
  else
    cd ← get_cd j;
    if connect_ind_count cd <? 2 then cd_update j None EV_L3_RELEASE
    else mod_cd j (λ cd, cd <| connect_ind_count ::= λ n, u16 (n - 1) |>).
Definition n_disconnect_request (j : nat) (cause : Z) : M unit :=
  mod_cd j (λ cd, cd <| cause_out := cause |>);;
  cd_update j None EV_L3_RELEASE.
Definition n_alert_request (j : nat) (flag : Z) : M unit :=
  cd_update j None (if bit_set flag 1 then EV_L3_PROCEEDINGRQ else EV_L3_ALERTRQ).
Definition n_progress_request (j : nat) : M unit := cd_update j None EV_L3_PROGRESSRQ.
Definition i4b_l3_information_req (j : nat) (ptr : list Z) : M unit :=
  mod_cd j (dial_digits ptr);;
  n_information_request j.

(** [i4b_disconnect_by_appl_interface] on one controller: an application
    has gone. *)
Definition i4b_disconnect_by_appl_interface (type ptr : Z) : M unit :=
  sc ← get_sc;
  when (sc_fifo_translator sc)
    (idx ← gets cd_indices;
     for_each idx (λ j,
       cd ← get_cd j;
       when (negb (cdid cd =? CDID_UNUSED) && (ai_type cd =? type) && (ai_ptr cd =? ptr))
         (let cause := CAUSE_TV CAUSET_I4B CAUSE_I4B_NORMAL in
          mod_cd j (λ cd, cd <| cause_in := cause |> <| cause_out := cause |>);;
          n_disconnect_request j cause))).
End entry_points.
