(* ===== verification/L3Codec.v ===== *)
(** * What the encoder writes, the decoder reads
      (dss1_l3encoder.h, dss1_l3decoder.h)

    The channel identification element, the bounds of the dialled number,
    and the SETUP message as a whole. *)
From S2P Require Import Prelude Mbuf Dss1Types Dss1State Buffer L3Encoder CallDesc L3Fsm.
From S2P Require Import L3Decoder.
Local Open Scope Z_scope.

(** A buffer with nothing but the information element [ie]. *)
Definition ie_alone (ie : list Z) : dss1_buffer := dss1_buf_init ie (Z.of_nat (length ie)).

(** ** The channel identification element *)

(** The channels that can be signalled. *)
Definition channel_signalled (primary_rate : bool) (k : Z) : bool :=
  (k =? CHAN_ANY) || (k =? CHAN_NOT_ANY) || (k =? CHAN_D1) ||
  if primary_rate then (CHAN_B1 <=? k) && (k <=? 126) else (k =? CHAN_B1) || (k =? CHAN_B2).
(** The channel read from the element for channel [k]; [k] if it is not
    signalled. *)
Definition channelid_read (primary_rate nt : bool) (old k : Z) : Z :=
  let buf := ie_alone (IEI_channelid primary_rate (bzero_cd <| channel_id := k |>)) in
  let temp := dss1_get_1 buf 2 in
  let exclusive := bit_set temp 0x08 || negb nt in
  if channel_signalled primary_rate k then
    if bit_set temp 0x20 then decode_channel_pri exclusive buf old
    else decode_channel_bri exclusive buf old
  else k.
Definition channel_numbers : list Z := map (λ n, Z.of_nat n - 2) (seq 0 129).
Lemma channelid_all primary_rate nt old :
  map (channelid_read primary_rate nt old) channel_numbers = channel_numbers.
Proof. destruct primary_rate, nt; vm_compute; reflexivity. Qed.
Lemma channelid_read_id primary_rate nt old k :
  -2 <= k <= 126 -> channelid_read primary_rate nt old k = k.
Proof.
  intros Hk. pose proof (channelid_all primary_rate nt old) as Hall.
  assert (channel_numbers !! Z.to_nat (k + 2) = Some k) as Hl.
  { unfold channel_numbers. rewrite list_lookup_fmap, lookup_seq_lt by lia. cbn. f_equal. lia. }
  apply (f_equal (λ l, l !! Z.to_nat (k + 2))) in Hall. rewrite Hl in Hall.
  rewrite list_lookup_fmap, Hl in Hall. by injection Hall.
Qed.

Lemma channelid_rt primary_rate sc cd cd' :
  channel_signalled primary_rate (channel_id cd) = true -> channel_allocated cd' = false ->
  decode_channelid sc cd' (ie_alone (IEI_channelid primary_rate cd)) =
  cd' <| channel_id := channel_id cd |>.
Proof.
  intros Hs Ha. unfold decode_channelid. rewrite Ha.
  assert (IEI_channelid primary_rate cd =
          IEI_channelid primary_rate (bzero_cd <| channel_id := channel_id cd |>)) as -> by done.
  assert (-2 <= channel_id cd <= 126) as Hr.
  { unfold channel_signalled, CHAN_ANY, CHAN_NOT_ANY, CHAN_D1, CHAN_B1, CHAN_B2 in Hs.
    destruct primary_rate; lia. }
  pose proof (channelid_read_id primary_rate (sc_nt_mode sc) (channel_id cd') _ Hr) as Hd.
  unfold channelid_read in Hd. rewrite Hs in Hd. unfold TE_MODE, set, const.
  revert Hd. set (buf := ie_alone _). set (ex := _ || _). intros Hd.
  destruct (bit_set (dss1_get_1 buf 2) 32); by rewrite Hd.
Qed.


(** ** Messages as lists of information elements *)

(** A single octet element that is no shift, or identifier, length and body. *)
Definition ie_wf (ie : list Z) : Prop :=
  match ie with
  | [] => False
  | [x] => bit_set x 0x80 = true ∧ (Z.land x 0xf0 =? IEI_SHIFT) = false
  | id :: n :: body => bit_set id 0x80 = false ∧ n = Z.of_nat (length body)
  end.
Lemma not_shift x : is_u8 x -> bit_set x 0x80 = false -> (Z.land x 0xf0 =? IEI_SHIFT) = false.
Proof.
  intros Hx Hb. pose proof (byte_forall (λ x, bit_set x 0x80 || negb (Z.land x 0xf0 =? IEI_SHIFT))
    ltac:(vm_compute; reflexivity) x Hx) as H. cbv beta in H. rewrite Hb in H. by apply negb_true_iff.
Qed.

(** Decoders that only look at the window of the buffer. *)
Definition window_ok (b : dss1_buffer) : Prop :=
  buf_ok b ∧ Forall is_u8 (start b) ∧ len b < 65536 - 1024.
Definition windowed {S} (f : S -> dss1_buffer -> S) : Prop :=
  ∀ a b b', window_ok b -> window_ok b' -> window b = window b' ->
    (length (window b) < 1000)%nat -> f a b = f a b'.

Lemma window_get_1 b off :
  window_ok b -> 0 <= off < 1024 -> dss1_get_1 b off = default 0 (window b !! Z.to_nat off).
Proof.
  intros (Hb & Hu & Hl) Ho. destruct (Z.leb_spec 65536 (off + offset b)).
  - destruct Hb as ([? ?] & ? & ?). unfold dss1_get_1. 
    rewrite (lookup_ge_None_2 (window b)).
    2:{ rewrite window_length by (unfold buf_ok, is_u16 in *; tauto). lia. }
    unfold u16. replace (off + offset b) with (off + offset b - 65536 + 1 * 65536) by lia.
    rewrite Z.mod_add by lia. rewrite Z.mod_small by lia.
    destruct (Z.ltb_spec (off + offset b - 65536) (offset b)); [done|lia].
  - apply get_1_window; [done|]. split; lia.
Qed.
Lemma window_get_valid b off :
  window_ok b -> 0 <= off < 1024 ->
  dss1_get_valid b off = bool_decide (off < Z.of_nat (length (window b))).
Proof.
  intros (Hb & Hu & Hl) Ho. pose proof (window_length b Hb) as Hwl. apply eq_bool_prop_intro.
  rewrite !Is_true_true, bool_decide_eq_true, Hwl.
  destruct Hb as ([? ?] & ? & ?). destruct (Z.leb_spec 65536 (off + offset b)).
  - unfold dss1_get_valid, u16. replace (off + offset b) with (off + offset b - 65536 + 1 * 65536) by lia.
    rewrite Z.mod_add by lia. rewrite Z.mod_small by lia. rewrite andb_true_iff. unfold is_u16 in *. lia.
  - rewrite get_valid_spec; [lia|done|]. split; lia.
Qed.
(** Copying stops at the end of the window, which is near. *)
Lemma window_copy b off room :
  window_ok b -> (length (window b) < 1000)%nat -> 0 <= off <= 1000 ->
  copy_valid b off room = take room (drop (Z.to_nat off) (window b)).
Proof.
  intros Hb Hw. revert off. induction room as [|room IH]; intros off Ho; cbn [copy_valid]; [done|].
  rewrite window_get_valid by (done || lia). case_bool_decide as Hlt.
  - rewrite window_get_1 by (done || lia).
    destruct (lookup_lt_is_Some_2 (window b) (Z.to_nat off)) as [x Hx]; [lia|].
    rewrite Hx. cbn [default]. rewrite (drop_S _ _ _ Hx). cbn [take]. f_equal.
    + apply u8_id. destruct Hb as (Hb & Hu & _). eapply Forall_lookup_1; [|exact Hx].
      by apply Forall_take, Forall_drop.
    + rewrite u16_id by (unfold is_u16; lia). rewrite IH by lia. do 2 f_equal. lia.
  - rewrite drop_ge by lia. done.
Qed.

Lemma window_alone ie : (length ie < 1000)%nat -> window (ie_alone ie) = ie.
Proof.
  intros Hl. unfold window, ie_alone, dss1_buf_init. cbn [start offset len].
  rewrite u16_id by (unfold is_u16; lia). rewrite Z.sub_0_r, Nat2Z.id. cbn. by rewrite take_ge.
Qed.
Lemma alone_ok ie : Forall is_u8 ie -> (length ie < 1000)%nat -> window_ok (ie_alone ie).
Proof.
  intros Hu Hl. unfold window_ok, buf_ok, ie_alone, dss1_buf_init. cbn [start offset len].
  rewrite u16_id by (unfold is_u16; lia). unfold is_u16. repeat split; try done; lia.
Qed.

(** The elements of a message are decoded one after the other, each as if it
    were alone. *)
Section decode_elements.
Context {S : Type} (f : S -> dss1_buffer -> S) (Hf : windowed f).

Lemma window_mid (pre mid post : list Z) n :
  n = Z.of_nat (length pre + length mid) ->
  window (Buf (pre ++ mid ++ post) (Z.of_nat (length pre)) n) = mid.
Proof.
  intros ->. unfold window. cbn [start offset len]. rewrite Nat2Z.id, drop_app_length.
  replace (Z.to_nat _) with (length mid) by lia. by rewrite take_app_length.
Qed.

Lemma element_step pre ie post a :
  ie_wf ie -> Forall is_u8 (pre ++ ie ++ post) -> (length ie < 1000)%nat ->
  Z.of_nat (length (pre ++ ie ++ post)) < 65536 - 1024 ->
  let n := Z.of_nat (length (pre ++ ie ++ post)) in
  let s := IeState a (Buf (pre ++ ie ++ post) (Z.of_nat (length pre)) n) 0 0 in
  dss1_get_valid (ie_buf s) 0 = true ∧
  decode_ie_step f s =
    IeState (f a (ie_alone ie))
      (Buf (pre ++ ie ++ post) (Z.of_nat (length (pre ++ ie))) n) 0 0.
Proof.
  intros Hwf Hu Hie Hn n s. assert (0 < length ie)%nat as Hpos by (destruct ie; [done|cbn; lia]).
  assert (length (pre ++ ie ++ post) = length pre + length ie + length post)%nat as Hlen
    by (rewrite !length_app; lia).
  assert (window_ok (ie_buf s)) as Hok.
  { unfold window_ok, buf_ok, is_u16. cbn [s ie_buf start offset len]. subst n. repeat split; try done; lia. }
  assert (window (ie_buf s) = ie ++ post) as Hw.
  { subst s. cbn [ie_buf]. rewrite <-(app_nil_r (ie ++ post)) at 1. apply window_mid.
    subst n. rewrite !length_app. lia. }
  split.
  { rewrite window_get_valid by (done || lia). apply bool_decide_eq_true. rewrite Hw, length_app. lia. }
  assert (Hmsg : ie_msg_len (ie_buf s) = Z.of_nat (length ie)).
  { unfold ie_msg_len. rewrite !window_get_1 by (done || lia). rewrite Hw.
    destruct ie as [|x [|y body]]; [done| |]; destruct Hwf as [Hb Hn'].
    - change (default 0 (([x] ++ post) !! Z.to_nat 0)) with x. by rewrite Hb.
    - change (default 0 (((x :: y :: body) ++ post) !! Z.to_nat 0)) with x.
      change (default 0 (((x :: y :: body) ++ post) !! Z.to_nat 1)) with y.
      rewrite Hb, Hn'. cbn [negb length]. lia. }
  assert (Hty : (Z.land (dss1_get_1 (ie_buf s) 0) 0xf0 =? IEI_SHIFT) = false).
  { rewrite window_get_1 by (done || lia). rewrite Hw.
    destruct ie as [|x [|y body]]; [done|by destruct Hwf|]. destruct Hwf as [Hb _].
    change (default 0 (((x :: y :: body) ++ post) !! Z.to_nat 0)) with x.
    apply not_shift; [|done]. apply Forall_app in Hu as [_ Hu]. by inversion Hu. }
  unfold decode_ie_step. rewrite Hmsg, Hty. unfold dss1_set_length.
  subst s. cbn [ie_buf ie_arg codeset codeset_next offset len start].
  assert (u16 (Z.of_nat (length pre) + Z.of_nat (length ie)) = Z.of_nat (length (pre ++ ie))) as ->.
  { rewrite length_app. rewrite u16_id; [lia|]. unfold is_u16. lia. }
  rewrite (u16_id (Z.of_nat (length (pre ++ ie)))) by (rewrite length_app; unfold is_u16; lia).
  assert (Hcase : (if Z.of_nat (length (pre ++ ie)) <? n
            then (Buf (pre ++ ie ++ post) (Z.of_nat (length pre)) n)
                   <| len := Z.of_nat (length (pre ++ ie)) |>
            else Buf (pre ++ ie ++ post) (Z.of_nat (length pre)) n) =
          Buf (pre ++ ie ++ post) (Z.of_nat (length pre)) (Z.of_nat (length (pre ++ ie)))).
  { destruct (Z.ltb_spec (Z.of_nat (length (pre ++ ie))) n); [done|]. f_equal. subst n.
    rewrite !length_app in *. lia. }
  rewrite Hcase. cbn. f_equal. apply Hf.
  - unfold window_ok, buf_ok, is_u16. cbn [start offset len]. rewrite length_app. repeat split; try done; lia.
  - apply alone_ok; [|done]. by apply Forall_app in Hu as [_ [? _]%Forall_app].
  - rewrite window_alone by done. apply window_mid. by rewrite length_app.
  - rewrite window_mid; [done|by rewrite length_app].
Qed.

Lemma decode_elements_loop ies : ∀ pre a fuel,
  Forall ie_wf ies -> Forall (λ ie, (length ie < 1000)%nat) ies ->
  Forall is_u8 (pre ++ concat ies) -> Z.of_nat (length (pre ++ concat ies)) < 65536 - 1024 ->
  (length (concat ies) <= fuel)%nat ->
  ∃ s, decode_ie_loop f fuel
         (IeState a (Buf (pre ++ concat ies) (Z.of_nat (length pre))
                         (Z.of_nat (length (pre ++ concat ies)))) 0 0) = Some s ∧
       ie_arg s = fold_left (λ a ie, f a (ie_alone ie)) ies a.
Proof.
  induction ies as [|ie ies IH]; intros pre a fuel Hwf Hl Hu Hn Hfuel.
  - cbn [concat] in *. rewrite app_nil_r in *. eexists. split; [apply loop_invalid|reflexivity].
    rewrite window_get_valid; [|..|lia].
    + apply bool_decide_eq_false. unfold window. cbn [ie_buf start offset len].
      rewrite Z.sub_diag. change (Z.to_nat 0) with 0%nat. rewrite take_0. cbn [length]. lia.
    + unfold window_ok, buf_ok, is_u16. cbn [ie_buf start offset len]. repeat split; try done; lia.
  - apply Forall_cons in Hwf as [Hwf1 Hwf]. apply Forall_cons in Hl as [Hl1 Hl]. cbn [concat] in *.
    destruct (element_step pre ie (concat ies) a Hwf1 Hu Hl1 Hn) as [Hv Hst].
    assert (0 < length ie)%nat by (destruct ie; [done|cbn; lia]).
    rewrite length_app in Hfuel. destruct fuel as [|fuel]; [lia|].
    cbn [decode_ie_loop]. rewrite Hv, Hst. rewrite app_assoc in *.
    destruct (IH (pre ++ ie) (f a (ie_alone ie)) fuel) as (s & Hs & Ha); try done; [lia|].
    exists s. split; [exact Hs|exact Ha].
Qed.

Lemma decode_elements pre ies a :
  Forall ie_wf ies -> Forall (λ ie, (length ie < 1000)%nat) ies ->
  Forall is_u8 (pre ++ concat ies) -> Z.of_nat (length (pre ++ concat ies)) < 65536 - 1024 ->
  dss1_decode_ie f a (Buf (pre ++ concat ies) (Z.of_nat (length pre))
                        (Z.of_nat (length (pre ++ concat ies)))) =
  fold_left (λ a ie, f a (ie_alone ie)) ies a.
Proof.
  intros Hwf Hl Hu Hn. unfold dss1_decode_ie, decode_ie_init.
  destruct (decode_elements_loop ies pre a (decode_ie_fuel (Buf (pre ++ concat ies)
    (Z.of_nat (length pre)) (Z.of_nat (length (pre ++ concat ies))))) Hwf Hl Hu Hn) as (s & -> & Ha); [|done].
  unfold decode_ie_fuel. cbn [offset len]. rewrite length_app. lia.
Qed.
End decode_elements.

(** Two buffers with the same window are decoded alike. *)
Section same_window.
Context (b b' : dss1_buffer) (Hb : window_ok b) (Hb' : window_ok b')
  (Hw : window b = window b') (Hl : (length (window b) < 1000)%nat).
Lemma same_get_1 k : 0 <= k < 1024 -> dss1_get_1 b k = dss1_get_1 b' k.
Proof. intros Hk. rewrite !window_get_1 by done. by rewrite Hw. Qed.
Lemma same_multi k n fl : 0 <= k < 1000 -> get_multi_1 b k n fl = get_multi_1 b' k n fl.
Proof.
  intros Hk. unfold get_multi_1. destruct n as [|n]; [done|].
  rewrite !window_copy; [by rewrite Hw|done|by rewrite <-Hw|lia|done|done|lia].
Qed.
Lemma same_string k n fl old : 0 <= k < 1000 -> get_string b k n fl old = get_string b' k n fl old.
Proof. intros Hk. unfold get_string. by rewrite same_multi. Qed.
Lemma same_channelid sc cd : decode_channelid sc cd b = decode_channelid sc cd b'.
Proof.
  unfold decode_channelid, set, decode_channel_pri, decode_channel_bri. cbv zeta.
  rewrite (same_get_1 2) by lia.
  rewrite !(same_get_1 (if bit_set (dss1_get_1 b' 2) 64 then _ else _)) by (case_match; lia). done.
Qed.
Lemma same_src s : decode_src b s = decode_src b' s.
Proof.
  unfold decode_src, set. cbv zeta. rewrite (same_get_1 2), (same_get_1 3) by lia.
  destruct (bit_set (dss1_get_1 b' 2) 128); by rewrite same_string by lia.
Qed.
Lemma same_called cd : decode_calledpn cd b = decode_calledpn cd b'.
Proof.
  unfold decode_calledpn. rewrite (same_get_1 2) by lia. rewrite (same_multi 3) by lia.
  destruct (get_multi_1 b' 3 _ true) as [o n].
  set (cd1 := if dir_incoming cd then _ else _). unfold set. by rewrite (same_string 3) by lia.
Qed.
Lemma same_decode sc cd : dss1_decode_q931_cs0_ie_cd sc cd b = dss1_decode_q931_cs0_ie_cd sc cd b'.
Proof.
  unfold dss1_decode_q931_cs0_ie_cd. rewrite (same_get_1 0), same_called, same_channelid by lia.
  assert (decode_bearercap cd b = decode_bearercap cd b') as ->
    by (unfold decode_bearercap; by rewrite (same_get_1 2), (same_get_1 4) by lia).
  assert (decode_cause cd b = decode_cause cd b') as ->.
  { unfold decode_cause. rewrite (same_get_1 2) by lia. by rewrite same_get_1 by (case_match; lia). }
  assert (decode_progressi cd b = decode_progressi cd b') as ->
    by (unfold decode_progressi; by rewrite (same_get_1 3) by lia).
  assert (decode_display cd b = decode_display cd b') as ->
    by (unfold decode_display, set; by rewrite same_string by lia).
  assert (decode_datetime sc cd b = decode_datetime sc cd b') as ->
    by (unfold decode_datetime; cbn [map]; by rewrite (same_get_1 2), (same_get_1 3), (same_get_1 4),
      (same_get_1 5), (same_get_1 6), (same_get_1 7) by lia).
  assert (decode_callingpn cd b = decode_callingpn cd b') as ->
    by (unfold decode_callingpn, set; by rewrite !same_src).
  assert (decode_callingps cd b = decode_callingps cd b') as ->
    by (unfold decode_callingps, set; by rewrite !same_string by lia).
  assert (decode_calledps cd b = decode_calledps cd b') as ->
    by (unfold decode_calledps, set; by rewrite same_string by lia).
  unfold set. rewrite (same_get_1 2), same_string by lia. reflexivity.
Qed.
End same_window.
Lemma decode_cd_windowed sc : windowed (dss1_decode_q931_cs0_ie_cd sc).
Proof. intros cd b b' Hb Hb' Hw Hl. by apply same_decode. Qed.

(** ** Every text stays inside its array *)
Lemma get_multi_length b off L fl s n :
  get_multi_1 b off L fl = (Some s, n) -> (length s < L)%nat ∧ (n <= length s)%nat.
Proof.
  unfold get_multi_1. destruct L as [|room]; [done|].
  pose proof (copy_valid_length b off room) as Hc. destruct fl; intros Heq; injection Heq as <- <-.
  - pose proof (cstr_length (telno_filter (copy_valid b off room))).
    rewrite telno_filter_length in *. lia.
  - lia.
Qed.
Lemma get_multi_none b off L fl n : get_multi_1 b off L fl = (None, n) -> n = 0%nat.
Proof. unfold get_multi_1. destruct L; [by intros [= <-]|]. by case_match. Qed.
Lemma get_string_length b off L fl old :
  (length old < L)%nat -> (length (get_string b off L fl old) < L)%nat.
Proof.
  intros Ho. unfold get_string. destruct (get_multi_1 b off L fl) as [[s|] n] eqn:E; [|done].
  apply get_multi_length in E as [Hs _]. exact Hs.
Qed.

Lemma write_at_length off s old : length (write_at off s old) = (off + length s)%nat.
Proof. unfold write_at. rewrite length_app, length_take, length_app, length_replicate. lia. Qed.
Lemma display_length b old : length (get_string b 2 1 true old) = 0%nat.
Proof. reflexivity. Qed.
#[local] Opaque get_string get_multi_1 write_at.
(** The texts of a call and the end of its dialled number. *)
Definition texts_ok (cd : call_desc) : Prop :=
  cd_strings_ok cd ∧ (dst_telno_ptr cd < TELNO_MAX)%nat.

Lemma decode_calledpn_texts cd b : texts_ok cd -> texts_ok (decode_calledpn cd b).
Proof.
  intros [(H1 & H2 & H3 & H4 & H5 & H6 & H7 & H8 & H9) Hp].
  assert (Hpart : ∀ old, (length old < TELNO_MAX)%nat ->
    (length (get_string b 3 TELNO_MAX true old) < TELNO_MAX)%nat) by (intros; by apply get_string_length).
  unfold decode_calledpn. destruct (dir_incoming cd).
  2:{ unfold texts_ok, cd_strings_ok. cbn. repeat match goal with |- _ ∧ _ => split end; auto. }
  assert (u16 (Z.of_nat TELNO_MAX - Z.of_nat (dst_telno_ptr cd)) =
          Z.of_nat TELNO_MAX - Z.of_nat (dst_telno_ptr cd)) as ->.
  { apply u16_id. unfold is_u16, TELNO_MAX in *. lia. }
  destruct (get_multi_1 b 3 _ true) as [[s|] n] eqn:E.
  - apply get_multi_length in E as [Hs Hn]. unfold texts_ok, cd_strings_ok. cbn.
    assert (length (write_at (dst_telno_ptr cd) s (dst_telno cd)) < TELNO_MAX)%nat as Hwr.
    { rewrite write_at_length. lia. }
    repeat match goal with |- _ ∧ _ => split end; auto; lia.
  - assert (n = 0%nat) as ->.
    { by apply get_multi_none in E. }
    unfold texts_ok, cd_strings_ok. cbn. repeat match goal with |- _ ∧ _ => split end; auto; lia.
Qed.
Lemma decode_src_texts b s : src_ok s -> src_ok (decode_src b s).
Proof.
  intros [H1 H2]. unfold decode_src, src_ok. case_match; cbn; split; auto using get_string_length.
Qed.
Lemma decode_ie_texts sc cd b : texts_ok cd -> texts_ok (dss1_decode_q931_cs0_ie_cd sc cd b).
Proof.
  intros Hok. unfold dss1_decode_q931_cs0_ie_cd. repeat case_match; try done.
  all: try by apply decode_calledpn_texts.
  all: unfold decode_bearercap, decode_channelid, decode_progressi, decode_display, decode_datetime,
    decode_callingpn, decode_callingps, decode_calledps.
  all: repeat case_match; try done.
  all: destruct Hok as [(T1 & T2 & T3 & T4 & [T5 T5'] & [T6 T6'] & T7 & T8 & T9) Tp].
  all: unfold texts_ok, cd_strings_ok; cbn; repeat match goal with |- _ ∧ _ => split end; try done.
  all: try (by apply decode_src_texts); try (by apply get_string_length).
  1: by rewrite display_length; unfold DISPLAY_MAX; lia.
  all: split; cbn; [done | by apply get_string_length].
Qed.

(** C35: whatever a peer sends, every text of the call stays inside its array
    and the end of the dialled number stays inside its buffer: decoding any
    message, well-formed or not, keeps the bounds the encoder relies on. *)
Theorem decoder_keeps_texts sc event cd b :
  texts_ok cd ->
  texts_ok (dss1_decode_ie (dss1_decode_q931_cs0_ie_cd sc) (prepare_cd event cd) b).
Proof.
  intros Hok. apply (decode_ie_ind _ texts_ok).
  - intros s b'. apply decode_ie_texts.
  - destruct Hok as [(H1 & H2 & H3 & H4 & H5 & H6 & H7 & H8 & H9) Hp]. unfold prepare_cd, texts_ok, cd_strings_ok.
    repeat case_bool_decide; cbn; unfold TELNO_MAX; auto 12 with lia.
Qed.
#[local] Transparent get_string get_multi_1 write_at.
Lemma decoder_keeps_texts_witness :
  texts_ok (dss1_decode_ie (dss1_decode_q931_cs0_ie_cd sample_sc) (prepare_cd EV_L3_SETUP
    (bzero_cd <| dir_incoming := true |>)) (ie_alone ([IEI_CALLEDPN; 60; 0x81] ++ replicate 59 49))).
Proof.
  apply (decoder_keeps_texts sample_sc EV_L3_SETUP (bzero_cd <| dir_incoming := true |>)).
  unfold texts_ok, cd_strings_ok, src_ok. concrete.
Defined.
