(* ===== verification/SetupCodec.v ===== *)
(** * SETUP from one stack to another (dss1_l3encoder.h, dss1_l3decoder.h)

    The SETUP message of an outgoing call, read by the stack of the called
    side: the header, every information element and the message as a
    whole. *)
From S2P Require Import Prelude Mbuf Dss1Types Dss1State Buffer L3Encoder CallDesc L3Fsm.
From S2P Require Import L3Decoder L3Codec.
Local Open Scope Z_scope.

(** ** Texts *)

(** What the filter of the decoder lets through unchanged. *)
Definition telno_text (s : list Z) : Prop := Forall (λ c, telno_char_ok c = true) s.
Lemma telno_char_range c : telno_char_ok c = true -> 0 < c < 256.
Proof. unfold telno_char_ok. lia. Qed.
Lemma telno_text_bytes s : telno_text s -> Forall is_u8 s.
Proof. intros Hs. eapply Forall_impl; [exact Hs|]. intros c Hc%telno_char_range. unfold is_u8. lia. Qed.
Lemma telno_text_filter s : telno_text s -> telno_filter s = s.
Proof.
  induction 1 as [|c s Hc Hs IH]; cbn; [done|]. rewrite Hc, IH.
  apply telno_char_range in Hc. destruct (Z.eqb_spec c 0); [lia|done].
Qed.
Lemma cstr_text s : telno_text s -> cstr s = s.
Proof.
  induction 1 as [|c s Hc Hs IH]; cbn; [done|]. rewrite IH.
  apply telno_char_range in Hc. destruct (Z.eqb_spec c 0); [lia|done].
Qed.

(** A string behind the prefix of an element is read back. *)
Lemma read_multi iei n prefix s L fl :
  is_u8 iei -> is_u8 n -> Forall is_u8 prefix -> Forall is_u8 s -> (length prefix <= 2)%nat ->
  (length s < L <= 200)%nat -> (fl = true -> telno_text s) ->
  get_multi_1 (ie_alone (iei :: n :: prefix ++ s)) (2 + Z.of_nat (length prefix)) L fl =
  (Some s, length s).
Proof.
  intros Hi Hn Hp Hs Hlp Hl Hfl. unfold get_multi_1. destruct L as [|room]; [lia|].
  rewrite window_copy.
  - rewrite window_alone by (cbn; rewrite length_app; lia).
    replace (Z.to_nat (2 + Z.of_nat (length prefix))) with (S (S (length prefix))) by lia.
    cbn [drop]. rewrite drop_app_length, take_ge by lia.
    destruct fl; [|done]. rewrite telno_text_filter by auto. by rewrite cstr_text by auto.
  - apply alone_ok; [|cbn; rewrite length_app; lia]. do 2 (apply Forall_cons; split; [done|]). by apply Forall_app_2.
  - rewrite window_alone by (cbn; rewrite length_app; lia). cbn. rewrite length_app. lia.
  - lia.
Qed.
Lemma read_byte ie k :
  Forall is_u8 ie -> (length ie < 1000)%nat -> 0 <= k < 1000 ->
  dss1_get_1 (ie_alone ie) k = default 0 (ie !! Z.to_nat k).
Proof.
  intros Hu Hl Hk. rewrite window_get_1; [|by apply alone_ok|lia]. by rewrite window_alone.
Qed.

(** ** The elements of SETUP *)
Definition opt_ie (iei : Z) (prefix str : list Z) : list (list Z) :=
  match cstr str with [] => [] | _ => [string_ie iei prefix str] end.
Definition calling_ies (s : i4b_src_telno) : list (list Z) :=
  opt_ie IEI_CALLINGPN (calling_prefix s) (telno s) ++
  opt_ie IEI_CALLINGPS [NUMBER_TYPE_NSAP] (subaddr s).
Definition setup_ies (pr : bool) (cd : call_desc) : list (list Z) :=
  (if sending_complete cd then [[IEI_SENDCOMPL]] else []) ++ [bearer_capability cd] ++
  (if channel_allocated cd then [IEI_channelid pr cd] else []) ++
  opt_ie IEI_KEYPAD [] (keypad cd) ++ calling_ies (src_0 cd) ++ calling_ies (src_1 cd) ++
  opt_ie IEI_CALLEDPN [NUMBER_TYPE_PLAN] (dst_telno cd) ++
  opt_ie IEI_CALLEDPS [NUMBER_TYPE_NSAP] (dst_subaddr cd) ++
  opt_ie IEI_USERUSER [] (user_user cd) ++ opt_ie IEI_DISPLAY [] (display cd).
Definition setup_header (pr : bool) (cd : call_desc) : list Z :=
  [PD_Q931] ++ make_callreference pr (cr cd) ++ [SETUP].

Lemma concat_opt_ie iei prefix str : concat (opt_ie iei prefix str) = string_ie iei prefix str.
Proof. unfold opt_ie, string_ie. destruct (cstr str); [done|]. cbn [concat]. by rewrite app_nil_r. Qed.
Lemma make_setup_ies pr cd : make_setup pr cd = setup_header pr cd ++ concat (setup_ies pr cd).
Proof.
  unfold make_setup, setup_header, setup_ies, calling_ies, calling_party.
  rewrite !concat_app, !concat_opt_ie, <-!app_assoc.
  assert (∀ (b : bool) (x : list Z), concat (if b then [x] else []) = if b then x else []) as Hif.
  { intros [] x; [|done]. cbn. apply app_nil_r. }
  rewrite !Hif. cbn [concat app]. by rewrite ?app_nil_r.
Qed.

Lemma opt_ie_wf iei prefix str :
  bit_set iei 0x80 = false -> (length prefix + length str < 200)%nat -> Forall ie_wf (opt_ie iei prefix str).
Proof.
  intros Hi Hl. unfold opt_ie, string_ie. pose proof (cstr_length str) as Hc.
  destruct (cstr str) as [|c s]; constructor; [|done]. split; [done|].
  rewrite u8_id by (unfold is_u8; lia). cbn [app]. by rewrite length_app.
Qed.
Lemma opt_ie_length iei prefix str :
  (length prefix + length str < 200)%nat -> Forall (λ ie, (length ie < 1000)%nat) (opt_ie iei prefix str).
Proof.
  intros Hl. unfold opt_ie. pose proof (string_ie_length iei prefix str).
  destruct (cstr str); constructor; [lia|done].
Qed.
Lemma opt_ie_bytes iei prefix str :
  is_u8 iei -> Forall is_u8 prefix -> Forall is_u8 (cstr str) ->
  Forall is_u8 (concat (opt_ie iei prefix str)).
Proof.
  intros Hi Hp Hs. rewrite concat_opt_ie. unfold string_ie. destruct (cstr str); [done|].
  apply Forall_cons; split; [done|]. apply Forall_cons; split; [apply u8_range|]. by apply Forall_app_2.
Qed.

(** An update that stores a known value. *)
Lemma upd_part f v cd : f (dst_telno_part cd) = v ->
  cd <| dst_telno_part ::= f |> = cd <| dst_telno_part := v |>.
Proof. by intros <-. Qed.
Lemma upd_telno f v cd : f (dst_telno cd) = v -> cd <| dst_telno ::= f |> = cd <| dst_telno := v |>.
Proof. by intros <-. Qed.
Lemma upd_subaddr f v cd : f (dst_subaddr cd) = v ->
  cd <| dst_subaddr ::= f |> = cd <| dst_subaddr := v |>.
Proof. by intros <-. Qed.
Lemma upd_user f v cd : f (user_user cd) = v -> cd <| user_user ::= f |> = cd <| user_user := v |>.
Proof. by intros <-. Qed.
Lemma upd_display f v cd : f (display cd) = v -> cd <| display ::= f |> = cd <| display := v |>.
Proof. by intros <-. Qed.
Lemma upd_src_0 f v cd : f (src_0 cd) = v -> cd <| src_0 ::= f |> = cd <| src_0 := v |>.
Proof. by intros <-. Qed.
Lemma upd_src_1 f v cd : f (src_1 cd) = v -> cd <| src_1 ::= f |> = cd <| src_1 := v |>.
Proof. by intros <-. Qed.

(** What an optional element does. *)
Definition upd_if (s : list Z) (g : call_desc -> call_desc) (cd : call_desc) : call_desc :=
  match s with [] => cd | _ => g cd end.
Lemma upd_if_same {A} (field : call_desc -> A) s g cd :
  (∀ c, field (g c) = field c) -> field (upd_if s g cd) = field cd.
Proof. intros H. destruct s; [done|apply H]. Qed.

(** ** The decoder, element by element *)
Section receiver.
Context (sc : l2softc).
Abbreviation dec := (dss1_decode_q931_cs0_ie_cd sc).
Definition run (ies : list (list Z)) (cd : call_desc) : call_desc :=
  fold_left (λ a ie, dec a (ie_alone ie)) ies cd.
Lemma run_app l l' cd : run (l ++ l') cd = run l' (run l cd).
Proof. apply fold_left_app. Qed.

(** The branches of the decoder. *)
Lemma dec_bearer cd b : dss1_get_1 b 0 = IEI_BEARERCAP -> dec cd b = decode_bearercap cd b.
Proof. intros H. unfold dss1_decode_q931_cs0_ie_cd. by rewrite H. Qed.
Lemma dec_channelid cd b : dss1_get_1 b 0 = IEI_CHANNELID -> dec cd b = decode_channelid sc cd b.
Proof. intros H. unfold dss1_decode_q931_cs0_ie_cd. by rewrite H. Qed.
Lemma dec_keypad cd b : dss1_get_1 b 0 = IEI_KEYPAD -> dec cd b = cd.
Proof. intros H. unfold dss1_decode_q931_cs0_ie_cd. by rewrite H. Qed.
Lemma dec_callingpn cd b : dss1_get_1 b 0 = IEI_CALLINGPN -> dec cd b = decode_callingpn cd b.
Proof. intros H. unfold dss1_decode_q931_cs0_ie_cd. by rewrite H. Qed.
Lemma dec_callingps cd b : dss1_get_1 b 0 = IEI_CALLINGPS -> dec cd b = decode_callingps cd b.
Proof. intros H. unfold dss1_decode_q931_cs0_ie_cd. by rewrite H. Qed.
Lemma dec_calledpn cd b : dss1_get_1 b 0 = IEI_CALLEDPN -> dec cd b = decode_calledpn cd b.
Proof. intros H. unfold dss1_decode_q931_cs0_ie_cd. by rewrite H. Qed.
Lemma dec_calledps cd b : dss1_get_1 b 0 = IEI_CALLEDPS -> dec cd b = decode_calledps cd b.
Proof. intros H. unfold dss1_decode_q931_cs0_ie_cd. by rewrite H. Qed.
Lemma dec_useruser cd b :
  dss1_get_1 b 0 = IEI_USERUSER ->
  dec cd b = cd <| user_user ::= get_string b 2 USER_USER_MAX false |>.
Proof. intros H. unfold dss1_decode_q931_cs0_ie_cd. by rewrite H. Qed.
Lemma dec_display cd b : dss1_get_1 b 0 = IEI_DISPLAY -> dec cd b = decode_display cd b.
Proof. intros H. unfold dss1_decode_q931_cs0_ie_cd. by rewrite H. Qed.

(** One optional string element. *)
Lemma run_opt iei prefix str cd (k : call_desc -> dss1_buffer -> call_desc) :
  is_u8 iei -> Forall is_u8 prefix -> Forall is_u8 (cstr str) ->
  (length prefix + length str < 200)%nat ->
  (∀ cd b, dss1_get_1 b 0 = iei -> dec cd b = k cd b) ->
  run (opt_ie iei prefix str) cd =
  upd_if (cstr str) (λ cd,
    k cd (ie_alone (iei :: u8 (Z.of_nat (length prefix + length (cstr str))) :: prefix ++ cstr str))) cd.
Proof.
  intros Hi Hp Hs Hl Hk. unfold opt_ie, string_ie. pose proof (cstr_length str) as Hc.
  destruct (cstr str) as [|c s]; [done|]. cbn [run fold_left]. apply Hk.
  rewrite read_byte; [done| |cbn; rewrite length_app; lia|lia].
  apply Forall_cons; split; [done|]. apply Forall_cons; split; [apply u8_range|]. by apply Forall_app_2.
Qed.

(** *** The called number and subaddress *)
Lemma run_calledpn str cd :
  dir_incoming cd = true -> dst_telno_ptr cd = 0%nat -> (length str < TELNO_MAX)%nat ->
  telno_text (cstr str) ->
  run (opt_ie IEI_CALLEDPN [NUMBER_TYPE_PLAN] str) cd =
  upd_if (cstr str) (λ cd, cd <| dst_ton := TON_OTHER |> <| dst_telno := cstr str |>
    <| dst_telno_ptr := length (cstr str) |> <| dst_telno_part := cstr str |>) cd.
Proof.
  intros Hd Hp Hl Ht. unfold TELNO_MAX in Hl. pose proof (cstr_length str) as Hc.
  rewrite (run_opt _ _ _ _ decode_calledpn); [|concrete|concrete|by apply telno_text_bytes|cbn; lia|apply dec_calledpn].
  destruct (cstr str) as [|c s] eqn:E; [done|]. rewrite <-E in *. unfold upd_if. rewrite E at 1 2. clear E c s.
  set (n := u8 _). assert (is_u8 n) as Hn by apply u8_range.
  assert (is_u8 IEI_CALLEDPN ∧ Forall is_u8 [NUMBER_TYPE_PLAN]) as [Hi Hpl] by (split; concrete).
  unfold decode_calledpn. rewrite Hd, Hp.
  change (Z.to_nat (u16 (Z.of_nat TELNO_MAX - Z.of_nat 0))) with TELNO_MAX.
  pose proof (read_multi IEI_CALLEDPN n [NUMBER_TYPE_PLAN] (cstr str) TELNO_MAX true Hi Hn Hpl
    (telno_text_bytes _ Ht) ltac:(cbn; lia) ltac:(unfold TELNO_MAX; lia) (λ _, Ht)) as Hr.
  change (2 + Z.of_nat (length [NUMBER_TYPE_PLAN])) with 3 in Hr. rewrite Hr.
  assert (dss1_get_1 (ie_alone (IEI_CALLEDPN :: n :: [NUMBER_TYPE_PLAN] ++ cstr str)) 2 = NUMBER_TYPE_PLAN) as ->.
  { rewrite read_byte; [done| |cbn; lia|lia]. do 2 (apply Forall_cons; split; [done|]).
    apply Forall_app_2; [done|by apply telno_text_bytes]. }
  erewrite upd_part; [|unfold get_string; rewrite Hr; reflexivity].
  erewrite upd_telno by reflexivity. reflexivity.
Qed.

(** The string of an element with a one octet prefix, or none. *)
Lemma read_string iei n prefix s L fl old :
  is_u8 iei -> is_u8 n -> Forall is_u8 prefix -> Forall is_u8 s -> (length prefix <= 2)%nat ->
  (length s < L <= 200)%nat -> (fl = true -> telno_text s) ->
  get_string (ie_alone (iei :: n :: prefix ++ s)) (2 + Z.of_nat (length prefix)) L fl old = s.
Proof. intros. unfold get_string. by rewrite read_multi. Qed.

Lemma run_calledps str cd :
  dir_incoming cd = true -> (length str < SUBADDR_MAX)%nat -> telno_text (cstr str) ->
  run (opt_ie IEI_CALLEDPS [NUMBER_TYPE_NSAP] str) cd =
  upd_if (cstr str) (λ cd, cd <| dst_subaddr := cstr str |>) cd.
Proof.
  intros Hd Hl Ht. unfold SUBADDR_MAX in Hl. pose proof (cstr_length str) as Hc.
  rewrite (run_opt _ _ _ _ decode_calledps);
    [|concrete|concrete|by apply telno_text_bytes|cbn; lia|apply dec_calledps].
  destruct (cstr str) as [|c s] eqn:E; [done|]. rewrite <-E in *. unfold upd_if. rewrite E at 1 2. clear E c s.
  unfold decode_calledps. rewrite Hd. cbn [negb]. apply upd_subaddr.
  apply (read_string IEI_CALLEDPS _ [NUMBER_TYPE_NSAP]); [concrete|apply u8_range|concrete
    |by apply telno_text_bytes|cbn; lia|unfold SUBADDR_MAX; lia|done].
Qed.
Lemma run_useruser str cd :
  (length str < USER_USER_MAX)%nat -> Forall is_u8 (cstr str) ->
  run (opt_ie IEI_USERUSER [] str) cd =
  upd_if (cstr str) (λ cd, cd <| user_user := cstr str |>) cd.
Proof.
  intros Hl Ht. unfold USER_USER_MAX in Hl. pose proof (cstr_length str) as Hc.
  rewrite (run_opt _ _ _ _ (λ cd b, cd <| user_user ::= get_string b 2 USER_USER_MAX false |>));
    [|concrete|done|done|cbn; lia|apply dec_useruser].
  destruct (cstr str) as [|c s] eqn:E; [done|]. rewrite <-E in *. unfold upd_if. rewrite E at 1 2. clear E c s. apply upd_user.
  apply (read_string IEI_USERUSER _ []); [concrete|apply u8_range|done|done|cbn; lia
    |unfold USER_USER_MAX; lia|done].
Qed.
Lemma run_display str cd :
  (length str < DISPLAY_MAX)%nat -> Forall is_u8 (cstr str) ->
  run (opt_ie IEI_DISPLAY [] str) cd = upd_if (cstr str) (λ cd, cd <| display := [] |>) cd.
Proof.
  intros Hl Ht. unfold DISPLAY_MAX in Hl.
  rewrite (run_opt _ _ _ _ decode_display); [|concrete|done|done|cbn; lia|apply dec_display].
  destruct (cstr str) as [|c s]; [done|]. by apply upd_display.
Qed.
Lemma run_keypad str cd :
  (length str < KEYPAD_MAX)%nat -> Forall is_u8 (cstr str) -> run (opt_ie IEI_KEYPAD [] str) cd = cd.
Proof.
  intros Hl Ht. unfold KEYPAD_MAX in Hl.
  rewrite (run_opt _ _ _ _ (λ cd _, cd)); [|concrete|done|done|cbn; lia|apply dec_keypad].
  by destruct (cstr str).
Qed.

(** *** The calling number *)

(** Values with an encoding of their own. *)
Definition src_valid (s : i4b_src_telno) : Prop :=
  (ton s = TON_OTHER ∨ ton s = TON_INTERNAT ∨ ton s = TON_NATIONAL) ∧
  ((prs_ind s = PRS_NONE ∧ scr_ind s = SCR_NONE) ∨
   ((prs_ind s = PRS_ALLOWED ∨ prs_ind s = PRS_RESTRICT) ∧
    (scr_ind s = SCR_USR_NOSC ∨ scr_ind s = SCR_USR_PASS ∨ scr_ind s = SCR_USR_FAIL ∨
     scr_ind s = SCR_NET))) ∧
  telno_text (cstr (telno s)) ∧ telno_text (cstr (subaddr s)) ∧ src_ok s.

Lemma decode_src_ie s n old :
  src_valid s -> is_u8 n ->
  decode_src (ie_alone (IEI_CALLINGPN :: n :: calling_prefix s ++ cstr (telno s))) old =
  SrcTelno (ton s) (scr_ind s) (prs_ind s) (cstr (telno s)) (subaddr old).
Proof.
  intros (Ht & Hps & Htx & _ & Hl & _) Hn. unfold TELNO_MAX in Hl.
  pose proof (cstr_length (telno s)) as Hc. pose proof (telno_text_bytes _ Htx) as Hb.
  assert (Hbyte : ∀ prefix k, Forall is_u8 prefix -> (length prefix <= 2)%nat -> 0 <= k < 1000 ->
    dss1_get_1 (ie_alone (IEI_CALLINGPN :: n :: prefix ++ cstr (telno s))) k =
    default 0 ((IEI_CALLINGPN :: n :: prefix ++ cstr (telno s)) !! Z.to_nat k)).
  { intros prefix k Hp Hlp Hk. apply read_byte; [|cbn; rewrite length_app; lia|done].
    apply Forall_cons; split; [concrete|]. apply Forall_cons; split; [done|]. by apply Forall_app_2. }
  assert (Hstr : ∀ prefix old, Forall is_u8 prefix -> (length prefix <= 2)%nat ->
    get_string (ie_alone (IEI_CALLINGPN :: n :: prefix ++ cstr (telno s)))
      (2 + Z.of_nat (length prefix)) TELNO_MAX true old = cstr (telno s)).
  { intros prefix o Hp Hlp. apply read_string; [concrete|done|done|done|done|unfold TELNO_MAX; lia|done]. }
  unfold decode_src, calling_prefix, set.
  destruct Hps as [[-> ->]|[Hp Hs]].
  - destruct Ht as [-> |[-> | ->]]; cbn [negb orb Z.eqb]; match goal with
    |- context [ie_alone (IEI_CALLINGPN :: n :: ?x ++ _)] =>
      let y := eval vm_compute in x in change x with y;
      rewrite (Hbyte y 2), (Hstr y) by (concrete || (cbn; lia)) end; reflexivity.
  - destruct Ht as [-> |[-> | ->]], Hp as [-> | ->], Hs as [-> |[-> |[-> | ->]]];
    cbn [negb orb Z.eqb]; match goal with
    |- context [ie_alone (IEI_CALLINGPN :: n :: ?x ++ _)] =>
      let y := eval vm_compute in x in change x with y;
      rewrite (Hbyte y 2), (Hbyte y 3), (Hstr y) by (concrete || (cbn; lia)) end; reflexivity.
Qed.

(** The calling number as the receiver keeps it; the subaddress is [sub]. *)
Definition src_received (s : i4b_src_telno) (sub : list Z) : i4b_src_telno :=
  SrcTelno (ton s) (scr_ind s) (prs_ind s) (cstr (telno s)) sub.
Lemma prefix_bytes s : Forall is_u8 (calling_prefix s) ∧ (length (calling_prefix s) <= 2)%nat.
Proof. unfold calling_prefix. repeat case_match; split; try concrete; cbn; lia. Qed.

Lemma run_callingpn s cd :
  dir_incoming cd = true -> src_valid s ->
  run (opt_ie IEI_CALLINGPN (calling_prefix s) (telno s)) cd =
  upd_if (cstr (telno s)) (λ cd,
    if received_src_telno_1 cd
    then cd <| received_src_telno_2 := true |> <| src_1 := src_received s (subaddr (src_1 cd)) |>
    else cd <| received_src_telno_1 := true |> <| src_0 := src_received s (subaddr (src_0 cd)) |>) cd.
Proof.
  intros Hd Hv. pose proof Hv as (_ & _ & Htx & _ & Hl & _). unfold TELNO_MAX in Hl.
  destruct (prefix_bytes s) as [Hp1 Hp2]. pose proof (cstr_length (telno s)) as Hc.
  rewrite (run_opt _ _ _ _ decode_callingpn);
    [|concrete|done|by apply telno_text_bytes|lia|apply dec_callingpn].
  unfold upd_if. destruct (cstr (telno s)) as [|c l] eqn:E; [done|]. rewrite <-E.
  unfold decode_callingpn. rewrite Hd. cbn [negb].
  destruct (received_src_telno_1 cd).
  - rewrite (upd_src_1 _ (src_received s (subaddr (src_1 cd)))); [done|].
    apply decode_src_ie; [done|apply u8_range].
  - rewrite (upd_src_0 _ (src_received s (subaddr (src_0 cd)))); [done|].
    apply decode_src_ie; [done|apply u8_range].
Qed.
Lemma run_callingps s cd :
  dir_incoming cd = true -> src_valid s ->
  run (opt_ie IEI_CALLINGPS [NUMBER_TYPE_NSAP] (subaddr s)) cd =
  upd_if (cstr (subaddr s)) (λ cd,
    if received_src_telno_2 cd
    then cd <| src_1 := (src_1 cd) <| subaddr := cstr (subaddr s) |> |>
    else cd <| src_0 := (src_0 cd) <| subaddr := cstr (subaddr s) |> |>) cd.
Proof.
  intros Hd (_ & _ & _ & Htx & _ & Hl). unfold SUBADDR_MAX in Hl.
  pose proof (cstr_length (subaddr s)) as Hc.
  rewrite (run_opt _ _ _ _ decode_callingps);
    [|concrete|concrete|by apply telno_text_bytes|cbn; lia|apply dec_callingps].
  unfold upd_if. destruct (cstr (subaddr s)) as [|c l] eqn:E; [done|]. rewrite <-E. rewrite <-E in Htx.
  unfold decode_callingps. rewrite Hd. cbn [negb].
  assert (Hr : ∀ n old, is_u8 n -> get_string (ie_alone (IEI_CALLINGPS :: n ::
    [NUMBER_TYPE_NSAP] ++ cstr (subaddr s))) 3 SUBADDR_MAX true old = cstr (subaddr s)).
  { intros n old Hn. rewrite E in *. apply (read_string IEI_CALLINGPS _ [NUMBER_TYPE_NSAP]);
      [concrete|done|concrete|by apply telno_text_bytes|cbn; lia|unfold SUBADDR_MAX; lia|done]. }
  destruct (received_src_telno_2 cd).
  - apply upd_src_1. unfold set. rewrite Hr by apply u8_range. done.
  - apply upd_src_0. unfold set. rewrite Hr by apply u8_range. done.
Qed.

(** *** Bearer capability, sending complete, channel *)
Definition bprot_received (p : Z) : Z :=
  if p =? BPROT_NONE_3_1_KHZ then BPROT_NONE_3_1_KHZ
  else if (p =? BPROT_NONE) || (p =? BPROT_RHDLC_DOV) then BPROT_NONE else BPROT_RHDLC.
Definition bsubprot_received (cd : call_desc) : Z :=
  if bprot_received (channel_bprot cd) =? BPROT_RHDLC then BSUBPROT_UNKNOWN
  else if channel_bsubprot cd =? BSUBPROT_G711_ALAW then BSUBPROT_G711_ALAW
  else if channel_bsubprot cd =? BSUBPROT_G711_ULAW then BSUBPROT_G711_ULAW else BSUBPROT_UNKNOWN.
Lemma run_bearer cd cd0 :
  dir_incoming cd0 = true ->
  run [bearer_capability cd] cd0 =
  cd0 <| channel_bprot := bprot_received (channel_bprot cd) |>
      <| channel_bsubprot := bsubprot_received cd |>.
Proof.
  intros Hd. cbn [run fold_left]. rewrite dec_bearer.
  2:{ unfold bearer_capability. repeat case_match; reflexivity. }
  unfold decode_bearercap. rewrite Hd. cbn [negb].
  unfold bearer_capability, bprot_received, bsubprot_received, bprot_received.
  destruct (channel_bprot cd =? BPROT_NONE_3_1_KHZ);
    [|destruct ((channel_bprot cd =? BPROT_NONE) || (channel_bprot cd =? BPROT_RHDLC_DOV)); [|reflexivity]];
    (destruct (channel_bsubprot cd =? BSUBPROT_G711_ALAW); [reflexivity|]);
    (destruct (channel_bsubprot cd =? BSUBPROT_G711_ULAW); reflexivity).
Qed.
Lemma run_sendcompl cd0 :
  dir_incoming cd0 = true -> run [[IEI_SENDCOMPL]] cd0 = cd0 <| sending_complete := true |>.
Proof. intros Hd. cbn [run fold_left]. unfold dss1_decode_q931_cs0_ie_cd. cbn. by rewrite Hd. Qed.
End receiver.

(** ** The header of a message *)
Lemma header_decodes pr x mt rest :
  is_u32 x -> is_u8 mt ->
  let msg := [PD_Q931] ++ make_callreference pr x ++ [mt] ++ rest in
  Forall is_u8 msg -> Z.of_nat (length msg) < 65536 - 1024 ->
  decode_header (dss1_buf_init msg (Z.of_nat (length msg))) =
  (Z.lxor x 0x80, Z.land mt 0x7F,
   Buf msg (Z.of_nat (length ([PD_Q931] ++ make_callreference pr x ++ [mt]))) (Z.of_nat (length msg))).
Proof.
  intros Hx Hmt msg Hu Hn. set (L := callref_len pr x).
  assert (1 <= L <= 4)%nat as HL by apply callref_len_range.
  assert (Hlen : length msg = (3 + L + length rest)%nat).
  { subst msg. unfold make_callreference. rewrite !length_app. cbn. rewrite callref_bytes_length. unfold L. lia. }
  assert (Hok : ∀ k, 0 <= k <= 6 -> window_ok (Buf msg k (Z.of_nat (length msg)))).
  { intros k Hk. unfold window_ok, buf_ok, is_u16. cbn [start offset len]. repeat split; try done; lia. }
  assert (Hget : ∀ k off, 0 <= k <= 6 -> 0 <= off < 1000 ->
    dss1_get_1 (Buf msg k (Z.of_nat (length msg))) off = default 0 (msg !! Z.to_nat (k + off))).
  { intros k off Hk Ho. rewrite window_get_1; [|by apply Hok|lia]. unfold window. cbn [start offset len].
    rewrite take_ge by (rewrite length_drop; lia). rewrite lookup_drop. do 2 f_equal. lia. }
  assert (Hb : ∀ k, (k < L)%nat -> msg !! (2 + k)%nat = Some (u8 (Z.shiftr x (8 * Z.of_nat k)))).
  { intros k Hk. change (msg !! (2 + k)%nat) with ((callref_bytes L x ++ [mt] ++ rest) !! k).
    rewrite lookup_app_l by (rewrite callref_bytes_length; done). by apply callref_bytes_lookup. }
  assert (Hmsg : msg !! (2 + L)%nat = Some mt).
  { change (msg !! (2 + L)%nat) with ((callref_bytes L x ++ [mt] ++ rest) !! L).
    rewrite lookup_app_r; rewrite callref_bytes_length; [|done]. by rewrite Nat.sub_diag. }
  unfold decode_header, dss1_buf_init. rewrite u16_id by (unfold is_u16; lia).
  unfold set. cbn [start offset len]. change (u16 (0 + 1)) with 1.
  assert (Hcl : Z.land (dss1_get_1 (Buf msg 1 (Z.of_nat (length msg))) 0) CRLENGTH_MASK = Z.of_nat L).
  { rewrite Hget by lia. change (default 0 (msg !! Z.to_nat (1 + 0))) with (Z.of_nat L). apply land_crlength. lia. }
  rewrite Hcl. assert ((4 <? Z.of_nat L) = false) as -> by lia.
  assert (u16 (1 + (Z.of_nat L + 1)) = 2 + Z.of_nat L) as -> by (rewrite u16_id; [lia|unfold is_u16; lia]).
  assert (u16 (2 + Z.of_nat L + 1) = 3 + Z.of_nat L) as -> by (rewrite u16_id; [lia|unfold is_u16; lia]).
  cbn [map]. rewrite !Hget by lia. change (Z.to_nat (1 + 1)) with 2%nat.
  change (Z.to_nat (1 + 2)) with 3%nat. change (Z.to_nat (1 + 3)) with 4%nat.
  change (Z.to_nat (1 + 4)) with 5%nat. replace (Z.to_nat (2 + Z.of_nat L + 0)) with (2 + L)%nat by lia.
  rewrite Hmsg. cbn [from_option id]. f_equal; [f_equal; f_equal|].
  - unfold get_callreference. cbn [head tail from_option id]. rewrite land_crlength, Nat2Z.id by lia.
    assert (H0 : 0 = Z.shiftr x (8 * Z.of_nat L)).
    { rewrite Z.shiftr_div_pow2 by lia. symmetry. apply Z.div_small.
      split; [apply Hx|by apply callref_len_fits]. }
    rewrite H0. apply callref_value_round; [exact Hx|]. intros k Hk. rewrite <-(Hb k Hk).
    assert (k = 0 ∨ k = 1 ∨ k = 2 ∨ k = 3)%nat as Hk4 by lia.
    destruct Hk4 as [-> |[-> |[-> | ->]]]; pose proof (Hb _ Hk) as Hbk; clear - Hbk; clearbody msg;
      cbn in Hbk |- *; by rewrite Hbk.
  - f_equal. unfold make_callreference. rewrite !length_app. cbn. rewrite callref_bytes_length. fold L. lia.
Qed.

(** ** SETUP as a whole *)

(** A call whose SETUP can be understood: its texts fit and pass the filter
    of the receiver, its channel can be signalled, and the calling numbers
    are given in order. *)
Record setup_sendable (pr : bool) (cd : call_desc) : Prop := {
  ss_cr : is_u32 (cr cd);
  ss_strings : cd_strings_ok cd;
  ss_channel : channel_allocated cd = true -> channel_signalled pr (channel_id cd) = true;
  ss_dst : telno_text (cstr (dst_telno cd)) ∧ telno_text (cstr (dst_subaddr cd));
  ss_src_0 : src_valid (src_0 cd);
  ss_src_1 : src_valid (src_1 cd);
  ss_first : cstr (telno (src_0 cd)) = [] -> cstr (telno (src_1 cd)) = [];
  ss_second : cstr (telno (src_1 cd)) = [] -> cstr (subaddr (src_1 cd)) = [];
  ss_bytes : Forall is_u8 (cstr (keypad cd)) ∧ Forall is_u8 (cstr (user_user cd)) ∧
             Forall is_u8 (cstr (display cd));
}.
(** A call descriptor as [n_allocate_cd] makes it for an incoming call. *)
Record fresh_incoming (cd : call_desc) : Prop := {
  fi_dir : dir_incoming cd = true;
  fi_channel : channel_allocated cd = false;
  fi_received : received_src_telno_1 cd = false ∧ received_src_telno_2 cd = false;
  fi_ptr : dst_telno_ptr cd = 0%nat;
  fi_texts : dst_telno cd = [] ∧ dst_subaddr cd = [] ∧ user_user cd = [];
  fi_src : src_0 cd = bzero_src ∧ src_1 cd = bzero_src;
}.
(** [s'] is what the receiver knows of the calling party [s]. *)
Definition src_same (s s' : i4b_src_telno) : Prop :=
  telno s' = cstr (telno s) ∧ subaddr s' = cstr (subaddr s) ∧
  (cstr (telno s) ≠ [] -> ton s' = ton s ∧ scr_ind s' = scr_ind s ∧ prs_ind s' = prs_ind s).

(** Storing what is there changes nothing. *)
Lemma upd_sources_id cd :
  cd <| received_src_telno_1 := received_src_telno_1 cd |>
     <| received_src_telno_2 := received_src_telno_2 cd |>
     <| src_0 := src_0 cd |> <| src_1 := src_1 cd |> = cd.
Proof. by destruct cd. Qed.

Section sources.
Context (sc : l2softc) (s0 s1 : i4b_src_telno) (H0 : src_valid s0) (H1 : src_valid s1)
  (Hfirst : cstr (telno s0) = [] -> cstr (telno s1) = [])
  (Hsecond : cstr (telno s1) = [] -> cstr (subaddr s1) = []).

(** The sources of a call that has received [n] numbers. *)
Definition with_sources (a b : bool) (r0 r1 : i4b_src_telno) (cd : call_desc) : call_desc :=
  cd <| received_src_telno_1 := a |> <| received_src_telno_2 := b |>
     <| src_0 := r0 |> <| src_1 := r1 |>.
Lemma run_source a b r0 r1 s cd :
  dir_incoming cd = true -> src_valid s ->
  run sc (calling_ies s) (with_sources a b r0 r1 cd) =
  let '(a', b', q0, q1) :=
    match cstr (telno s) with
    | [] => (a, b, r0, r1)
    | _ => if a then (a, true, r0, src_received s (subaddr r1))
           else (true, b, src_received s (subaddr r0), r1)
    end in
  match cstr (subaddr s) with
  | [] => with_sources a' b' q0 q1 cd
  | sub => if b' then with_sources a' b' q0 (q1 <| subaddr := sub |>) cd
           else with_sources a' b' (q0 <| subaddr := sub |>) q1 cd
  end.
Proof.
  intros Hd Hs. unfold calling_ies. rewrite run_app, run_callingpn by done.
  rewrite run_callingps; [|by rewrite upd_if_same by (intros c; by case_match)|done].
  unfold upd_if. destruct (cstr (telno s)), a, (cstr (subaddr s)), b; reflexivity.
Qed.

Lemma run_sources cd :
  fresh_incoming cd ->
  ∃ a b r0 r1, run sc (calling_ies s0 ++ calling_ies s1) cd = with_sources a b r0 r1 cd ∧
    src_same s0 r0 ∧ src_same s1 r1.
Proof.
  intros [Hd _ [Hr1 Hr2] _ _ [Hs0 Hs1]].
  assert (cd = with_sources false false bzero_src bzero_src cd) as Hcd.
  { pose proof (upd_sources_id cd) as He. rewrite Hr1, Hr2, Hs0, Hs1 in He. by symmetry. }
  rewrite run_app. assert (run sc (calling_ies s0) cd =
    run sc (calling_ies s0) (with_sources false false bzero_src bzero_src cd)) as -> by (by rewrite <-Hcd).
  clear Hcd. rewrite run_source by done.
  unfold src_same. destruct (cstr (telno s0)) as [|c0 t0] eqn:E0.
  - rewrite (Hfirst eq_refl) in *. rewrite (Hsecond eq_refl).
    destruct (cstr (subaddr s0)) as [|d0 u0] eqn:Eu0;
      (rewrite run_source by done); rewrite (Hfirst eq_refl), (Hsecond eq_refl);
      eexists _, _, _, _; (split; [reflexivity|]); cbn; by repeat split.
  - destruct (cstr (subaddr s0)) as [|d0 u0] eqn:Eu0;
      (rewrite run_source by done);
      (destruct (cstr (telno s1)) as [|c1 t1] eqn:E1; [rewrite (Hsecond eq_refl)|]);
      (destruct (cstr (subaddr s1)) as [|d1 u1] eqn:Eu1);
      eexists _, _, _, _; (split; [reflexivity|]); cbn; rewrite ?E0, ?E1, ?Eu0, ?Eu1;
      by repeat split.
Qed.
End sources.

(** The elements of a sendable SETUP are well-formed. *)
Lemma calling_ies_wf s :
  src_valid s -> Forall ie_wf (calling_ies s) ∧ Forall (λ ie, (length ie < 1000)%nat) (calling_ies s) ∧
  Forall is_u8 (concat (calling_ies s)).
Proof.
  intros (_ & _ & Ht & Hs & Hl1 & Hl2). unfold TELNO_MAX, SUBADDR_MAX in *.
  destruct (prefix_bytes s) as [Hp1 Hp2]. unfold calling_ies. rewrite concat_app.
  repeat split; apply Forall_app_2; try (apply opt_ie_wf; [done|cbn; lia]);
    try (apply opt_ie_length; cbn; lia); apply opt_ie_bytes; try done; try concrete;
    by apply telno_text_bytes.
Qed.
Lemma setup_ies_wf pr cd :
  setup_sendable pr cd ->
  Forall ie_wf (setup_ies pr cd) ∧ Forall (λ ie, (length ie < 1000)%nat) (setup_ies pr cd) ∧
  Forall is_u8 (concat (setup_ies pr cd)).
Proof.
  intros [Hcr (S1 & S2 & S3 & S4 & _ & _ & S7 & S8 & S9) Hch [Hd1 Hd2] Hs0 Hs1 _ _ (Hb1 & Hb2 & Hb3)].
  unfold TELNO_MAX, SUBADDR_MAX, DISPLAY_MAX, KEYPAD_MAX, USER_USER_MAX in *.
  destruct (calling_ies_wf _ Hs0) as (A1 & A2 & A3). destruct (calling_ies_wf _ Hs1) as (B1 & B2 & B3).
  assert (Hbc : ie_wf (bearer_capability cd) ∧ Forall is_u8 (bearer_capability cd)).
  { unfold bearer_capability. split; repeat case_match; try done; concrete. }
  assert (Hci : channel_allocated cd = true ->
    ie_wf (IEI_channelid pr cd) ∧ Forall is_u8 (IEI_channelid pr cd)).
  { intros Ha. split; [unfold IEI_channelid; repeat case_match; done|].
    unfold IEI_channelid. repeat case_match; repeat (apply Forall_cons; split; [first [apply u8_range|concrete]|]);
      apply Forall_nil_2. }
  unfold setup_ies. rewrite !concat_app. split; [|split].
  - rewrite !Forall_app; repeat match goal with |- _ ∧ _ => split end; try done; try (apply opt_ie_wf; [done|cbn; lia]).
    + case_match; by repeat constructor.
    + constructor; [apply Hbc|done].
    + case_match; [|done]. constructor; [by apply Hci|done].
  - rewrite !Forall_app; repeat match goal with |- _ ∧ _ => split end; try done; try (apply opt_ie_length; cbn; lia).
    + case_match; constructor; [cbn; lia|done].
    + constructor; [|done]. pose proof (bearer_capability_length cd). lia.
    + pose proof (IEI_channelid_length pr cd). case_match; constructor; [lia|done].
  - rewrite !Forall_app; repeat match goal with |- _ ∧ _ => split end; try done;
      try (apply opt_ie_bytes; [concrete|concrete|first [done|by apply telno_text_bytes]]).
    + case_match; concrete.
    + cbn [concat]. rewrite app_nil_r. apply Hbc.
    + case_match; [|done]. cbn [concat]. rewrite app_nil_r. by apply Hci.
Qed.

(** What the elements in front of the calling numbers, and those behind
    them, do to the call [cd0] of the receiver. *)
Definition setup_front (cd cd0 : call_desc) : call_desc :=
  cd0 <| sending_complete := sending_complete cd || sending_complete cd0 |>
      <| channel_bprot := bprot_received (channel_bprot cd) |>
      <| channel_bsubprot := bsubprot_received cd |>
      <| channel_id := if channel_allocated cd then channel_id cd else channel_id cd0 |>.
Definition setup_tail (cd cd0 : call_desc) : call_desc :=
  upd_if (cstr (display cd)) (λ c, c <| display := [] |>)
  (upd_if (cstr (user_user cd)) (λ c, c <| user_user := cstr (user_user cd) |>)
  (upd_if (cstr (dst_subaddr cd)) (λ c, c <| dst_subaddr := cstr (dst_subaddr cd) |>)
  (upd_if (cstr (dst_telno cd)) (λ c, c <| dst_ton := TON_OTHER |> <| dst_telno := cstr (dst_telno cd) |>
      <| dst_telno_ptr := length (cstr (dst_telno cd)) |> <| dst_telno_part := cstr (dst_telno cd) |>)
  cd0))).
Section tail_fields.
Context (cd c : call_desc).
Lemma tail_field {A} (field : call_desc -> A) :
  (∀ c, field (c <| display := [] |>) = field c) ->
  (∀ c s, field (c <| user_user := s |>) = field c) ->
  (∀ c s, field (c <| dst_subaddr := s |>) = field c) ->
  (∀ c s n, field (c <| dst_ton := TON_OTHER |> <| dst_telno := s |> <| dst_telno_ptr := n |>
                     <| dst_telno_part := s |>) = field c) ->
  field (setup_tail cd c) = field c.
Proof.
  intros H1 H2 H3 H4. unfold setup_tail. rewrite (upd_if_same field) by done.
  rewrite (upd_if_same field) by done. rewrite (upd_if_same field) by done.
  by rewrite (upd_if_same field).
Qed.
Lemma tail_texts :
  dst_telno c = [] -> dst_telno_ptr c = 0%nat -> dst_subaddr c = [] -> user_user c = [] ->
  dst_telno (setup_tail cd c) = cstr (dst_telno cd) ∧
  dst_telno_ptr (setup_tail cd c) = length (cstr (dst_telno cd)) ∧
  dst_subaddr (setup_tail cd c) = cstr (dst_subaddr cd) ∧
  user_user (setup_tail cd c) = cstr (user_user cd).
Proof.
  intros H1 H2 H3 H4. unfold setup_tail.
  split; [|split; [|split]].
  - do 3 rewrite (upd_if_same dst_telno) by done. by destruct (cstr (dst_telno cd)).
  - do 3 rewrite (upd_if_same dst_telno_ptr) by done. by destruct (cstr (dst_telno cd)).
  - do 2 rewrite (upd_if_same dst_subaddr) by done. destruct (cstr (dst_subaddr cd)); [|done].
    unfold upd_if at 1. by rewrite (upd_if_same dst_subaddr) by done.
  - rewrite (upd_if_same user_user) by done. destruct (cstr (user_user cd)); [|done].
    unfold upd_if at 1. by do 2 rewrite (upd_if_same user_user) by done.
Qed.
End tail_fields.

(** The elements in front of the calling numbers. *)
Lemma run_front sc pr cd cd0 :
  setup_sendable pr cd -> fresh_incoming cd0 ->
  run sc ((if sending_complete cd then [[IEI_SENDCOMPL]] else []) ++ [bearer_capability cd] ++
          (if channel_allocated cd then [IEI_channelid pr cd] else []) ++
          opt_ie IEI_KEYPAD [] (keypad cd)) cd0 =
  setup_front cd cd0.
Proof.
  intros [_ (_ & _ & _ & _ & _ & _ & _ & S8 & _) Hch _ _ _ _ _ (Hb1 & _)] [Hd Ha _ _ _ _].
  unfold setup_front. rewrite !run_app. rewrite run_keypad by done.
  assert (run sc (if sending_complete cd then [[IEI_SENDCOMPL]] else []) cd0 =
    cd0 <| sending_complete := sending_complete cd || sending_complete cd0 |>) as ->.
  { destruct (sending_complete cd); [by apply run_sendcompl|]. by destruct cd0. }
  rewrite run_bearer by done. set (cd1 := cd0 <| sending_complete := _ |>).
  destruct (channel_allocated cd); [|by destruct cd0].
  cbn [run fold_left]. rewrite dec_channelid; [apply channelid_rt; [by apply Hch|done]|].
  unfold IEI_channelid. repeat case_match; reflexivity.
Qed.

Lemma callref_bytes_u8 n x : Forall is_u8 (callref_bytes n x).
Proof. revert x. induction n as [|n IH]; intros x; constructor; [apply u8_range|apply IH]. Qed.
Lemma setup_header_u8 pr cd : Forall is_u8 (setup_header pr cd).
Proof.
  pose proof (callref_len_range pr (cr cd)) as Hl. unfold setup_header, make_callreference.
  apply Forall_cons; split; [concrete|]. apply Forall_cons; split; [unfold is_u8; lia|].
  apply Forall_app_2; [apply callref_bytes_u8|concrete].
Qed.

(** The receiver reads the header and then the elements one by one. *)
Lemma setup_decodes pr sc cd cd0 :
  setup_sendable pr cd ->
  let msg := make_setup pr cd in
  ∃ buf, decode_header (dss1_buf_init msg (Z.of_nat (length msg))) = (Z.lxor (cr cd) 0x80, SETUP, buf) ∧
    dss1_decode_ie (dss1_decode_q931_cs0_ie_cd sc) cd0 buf = run sc (setup_ies pr cd) cd0.
Proof.
  intros Hs msg. destruct (setup_ies_wf pr cd Hs) as (W1 & W2 & W3).
  pose proof (make_setup_length pr cd (ss_strings _ _ Hs)) as Hlen. fold msg in Hlen.
  assert (Hm : msg = setup_header pr cd ++ concat (setup_ies pr cd)) by apply make_setup_ies.
  assert (Hu : Forall is_u8 msg) by (rewrite Hm; apply Forall_app_2; [apply setup_header_u8|done]).
  assert (Hmsg : msg = [PD_Q931] ++ make_callreference pr (cr cd) ++ [SETUP] ++ concat (setup_ies pr cd)).
  { rewrite Hm. unfold setup_header. by rewrite <-!app_assoc. }
  eexists. split.
  - rewrite Hmsg. apply header_decodes; [apply Hs|concrete|by rewrite <-Hmsg|rewrite <-Hmsg; lia].
  - rewrite <-Hmsg, Hm. apply decode_elements; try done.
    + apply decode_cd_windowed.
    + by rewrite <-Hm.
    + rewrite <-Hm. lia.
Qed.

(** What all the elements do to the call of the receiver. *)
Lemma setup_run pr sc cd cd0 :
  setup_sendable pr cd -> fresh_incoming cd0 ->
  ∃ a b r0 r1, src_same (src_0 cd) r0 ∧ src_same (src_1 cd) r1 ∧
  run sc (setup_ies pr cd) cd0 =
  setup_tail cd (with_sources a b r0 r1
    (setup_front cd cd0)).
Proof.
  intros Hs Hf. unfold setup_ies, setup_tail.
  assert (∀ A B C D E (F G : list (list Z)), A ++ B ++ C ++ D ++ E ++ F ++ G =
    (A ++ B ++ C ++ D) ++ (E ++ F) ++ G) as -> by (intros; by rewrite <-!app_assoc).
  rewrite run_app, (run_front sc pr cd cd0 Hs Hf). set (cd1 := setup_front cd cd0).
  assert (fresh_incoming cd1) as Hf1 by (by destruct Hf). clearbody cd1. clear Hf cd0.
  destruct Hs as [_ (S1 & _ & _ & S4 & _ & _ & S7 & _ & S9) _ [Hd1 Hd2] Hs0 Hs1 Hfi Hse (_ & Hb2 & Hb3)].
  rewrite run_app. destruct (run_sources sc (src_0 cd) (src_1 cd) Hs0 Hs1 Hfi Hse cd1 Hf1)
    as (a & b & r0 & r1 & -> & Hr0 & Hr1).
  exists a, b, r0, r1. split; [done|]. split; [done|]. set (cd2 := with_sources a b r0 r1 cd1).
  assert (dir_incoming cd2 = true ∧ dst_telno_ptr cd2 = 0%nat) as [Hd Hp] by (by destruct Hf1).
  clearbody cd2. rewrite !run_app, run_calledpn by done.
  rewrite run_calledps; [|by rewrite upd_if_same|done|done].
  rewrite run_useruser by done. by rewrite run_display by done.
Qed.

(** C7: a SETUP message arrives as it was sent.  For every call whose texts
    fit and pass the filter of the decoder, the receiver of the message reads
    the call reference (with the flag of the other side), the message type,
    and from the information elements, in whatever combination they are
    present: sending complete, bearer capability, channel, called number and
    subaddress, the calling numbers with type, presentation, screening and
    subaddress, and the user-user text. *)
Theorem setup_roundtrip pr sc cd cd0 :
  setup_sendable pr cd -> fresh_incoming cd0 ->
  let msg := make_setup pr cd in
  let '(crval, mt, buf) := decode_header (dss1_buf_init msg (Z.of_nat (length msg))) in
  let cd' := dss1_decode_ie (dss1_decode_q931_cs0_ie_cd sc) cd0 buf in
  crval = Z.lxor (cr cd) 0x80 ∧ mt = SETUP ∧
  sending_complete cd' = sending_complete cd || sending_complete cd0 ∧
  channel_bprot cd' = bprot_received (channel_bprot cd) ∧
  channel_bsubprot cd' = bsubprot_received cd ∧
  channel_id cd' = (if channel_allocated cd then channel_id cd else channel_id cd0) ∧
  dst_telno cd' = cstr (dst_telno cd) ∧ dst_telno_ptr cd' = length (cstr (dst_telno cd)) ∧
  dst_subaddr cd' = cstr (dst_subaddr cd) ∧ user_user cd' = cstr (user_user cd) ∧
  src_same (src_0 cd) (src_0 cd') ∧ src_same (src_1 cd) (src_1 cd').
Proof.
  intros Hs Hf msg. destruct (setup_decodes pr sc cd cd0 Hs) as (buf & Hh & Hd). fold msg in Hh.
  rewrite Hh. cbv zeta. rewrite Hd. clear Hh Hd buf.
  destruct (setup_run pr sc cd cd0 Hs Hf) as (a & b & r0 & r1 & Hr0 & Hr1 & ->).
  destruct Hf as [_ _ _ F1 (F2 & F3 & F4) _]. split; [done|]. split; [done|].
  destruct (tail_texts cd (with_sources a b r0 r1 (setup_front cd cd0)) F2 F1 F3 F4) as (T1 & T2 & T3 & T4).
  split; [by rewrite (tail_field _ _ sending_complete)|].
  split; [by rewrite (tail_field _ _ channel_bprot)|].
  split; [by rewrite (tail_field _ _ channel_bsubprot)|].
  split; [by rewrite (tail_field _ _ channel_id)|].
  do 4 (split; [assumption|]).
  split; [by rewrite (tail_field _ _ src_0)|by rewrite (tail_field _ _ src_1)].
Qed.
(** A call to 0049123 from 4711, subaddress 7, on the second B-channel. *)
Definition sample_setup : call_desc :=
  bzero_cd <| cr := 0x11 |> <| channel_allocated := true |> <| channel_id := CHAN_B2 |>
    <| channel_bprot := BPROT_NONE |> <| channel_bsubprot := BSUBPROT_G711_ALAW |>
    <| dst_telno := [48; 48; 52; 57; 49; 50; 51; 0] |> <| sending_complete := true |>
    <| src_0 := SrcTelno TON_NATIONAL SCR_NET PRS_RESTRICT [52; 55; 49; 49; 0] [55; 0] |>
    <| user_user := [104; 105; 0] |>.
Lemma sample_sendable : setup_sendable false sample_setup.
Proof.
  constructor.
  - concrete.
  - unfold cd_strings_ok, src_ok. concrete.
  - reflexivity.
  - unfold telno_text. concrete.
  - unfold src_valid, telno_text, src_ok. cbn. repeat split; concrete.
  - unfold src_valid, telno_text, src_ok. cbn. repeat split; concrete.
  - discriminate.
  - reflexivity.
  - concrete.
Qed.
Lemma setup_roundtrip_witness :
  let msg := make_setup false sample_setup in
  let '(crval, mt, buf) := decode_header (dss1_buf_init msg (Z.of_nat (length msg))) in
  let cd' := dss1_decode_ie (dss1_decode_q931_cs0_ie_cd sample_sc)
               (bzero_cd <| dir_incoming := true |>) buf in
  crval = 0x91 ∧ channel_id cd' = CHAN_B2 ∧ dst_telno cd' = [48; 48; 52; 57; 49; 50; 51].
Proof.
  pose proof (setup_roundtrip false sample_sc sample_setup (bzero_cd <| dir_incoming := true |>)
    sample_sendable ltac:(constructor; repeat split; reflexivity)) as H. cbv zeta in H |- *.
  destruct (decode_header _) as [[crval mt] buf].
  destruct H as (H1 & _ & _ & _ & _ & H2 & H3 & _). split; [exact H1|]. split; [exact H2|exact H3].
Defined.
