(* ===== verification/StackInv.v ===== *)
(** * The invariant of the stack

    What holds between any two operations of the stack: a pipe is
    referenced as often as calls are bound to it, layer 1 is kept active
    once per call, every call in use is bound to a pipe and has its timer
    running, a pipe that is not paused has its timer running and a paused
    one carries no call, channels and ids have one owner, and no bad
    pointer has been followed.  The invariant is stated with the
    exceptions its operations need on the way: a call [X] and a pipe [Xp]
    that are being worked on, and references [d] and activations [a] that
    are already counted. *)
From S2P Require Import Prelude Mbuf Dss1Types Dss1State L3Encoder CallDesc L3Fsm.
Local Open Scope Z_scope.

(** ** What the invariant looks at *)
Record core := Core {
  k_cdid : Z; k_pipe : option nat; k_channel : Z; k_allocated : bool;
  k_state : L3_STATES; k_timer : callout }.
#[global] Instance core_eq_dec : EqDecision core.
Proof. solve_decision. Defined.
Definition core_of (cd : call_desc) : core :=
  Core (cdid cd) (cd_pipe cd) (channel_id cd) (channel_allocated cd) (cd_state cd)
    (cd_set_state_callout cd).
Definition pcore_of (p : pipe) : Z * L2_STATES * callout :=
  (refcount p, pipe_state p, pipe_set_state_callout p).
Record view := View {
  v_cds : list core;
  v_pipes : list (Z * L2_STATES * callout);
  v_l1 : Z; v_conn : bool;
  v_util : list Z; v_end : Z; v_cdid_end : Z; v_cdid_count : Z;
  v_fault : bool }.
Definition view_of (w : world) : view :=
  View (core_of <$> N_call_desc (w_cntl w)) (pcore_of <$> sc_pipe (w_sc w))
    (L1_auto_activate (w_sc w)) (sc_fifo_translator (w_sc w))
    (N_channel_utilization (w_cntl w)) (L1_channel_end (w_cntl w))
    (N_cdid_end (w_cntl w)) (N_cdid_count (w_cntl w)) (existsb is_fault (w_out w)).

(** The calls bound to pipe [i], and the calls bound to any pipe. *)
Definition nrefs (i : nat) (l : list core) : Z :=
  Z.of_nat (length (filter (λ k, k_pipe k = Some i) l)).
Definition nactive (l : list core) : Z :=
  Z.of_nat (length (filter (λ k, k_pipe k ≠ None) l)).

Definition call_ok (k : core) : Prop :=
  if k_cdid k =? CDID_UNUSED
  then k_pipe k = None ∧ k_allocated k = false ∧ k_timer k = None
  else is_Some (k_pipe k) ∧ is_Some (k_timer k) ∧ k_state k ≠ ST_L3_U0.

Definition pipe_ok (l : list core) (i : nat) (p : Z * L2_STATES * callout) : Prop :=
  if bool_decide (p.1.2 = ST_L2_PAUSE) then nrefs i l = 0 else is_Some p.2.

(** The channel [k] a call holds. *)
Definition k_holds (v : view) (c : core) (k : Z) : Prop :=
  k_allocated c = true ∧ k_channel c = k ∧ 0 <= k < v_end v.

Record vchan (v : view) : Prop := {
  vc_bits : length (v_util v) = 8%nat;
  vc_end : v_end v <= Z.of_nat I4B_MAX_CHANNELS;
  vc_used : ∀ j c k, v_cds v !! j = Some c -> k_holds v c k -> GET_BIT (v_util v) k = true;
  vc_excl : ∀ j j' c c' k, v_cds v !! j = Some c -> v_cds v !! j' = Some c' ->
              k_holds v c k -> k_holds v c' k -> j = j';
}.

Record vinv (X Xp : option nat) (d : nat -> Z) (a : Z) (v : view) : Prop := {
  vi_pipes : length (v_pipes v) = PIPE_MAX;
  vi_few : Z.of_nat (length (v_cds v)) < 2 ^ 31;
  vi_conn : v_conn v = true;
  vi_cdid : 1 < v_cdid_end v <= CDID_REF_MAX ∧ is_u32 (v_cdid_count v);
  vi_refs : ∀ i p, v_pipes v !! i = Some p -> p.1.1 = u32 (nrefs i (v_cds v) + d i);
  vi_l1 : v_l1 v = u32 (nactive (v_cds v) + a);
  vi_bound : ∀ j k i, v_cds v !! j = Some k -> k_pipe k = Some i -> (i < PIPE_MAX)%nat;
  vi_call : ∀ j k, v_cds v !! j = Some k -> Some j ≠ X -> call_ok k;
  vi_pipe : ∀ i p, v_pipes v !! i = Some p -> Some i ≠ Xp -> pipe_ok (v_cds v) i p;
  vi_chan : vchan v;
  vi_ids : ∀ j j' c c', v_cds v !! j = Some c -> v_cds v !! j' = Some c' ->
              k_cdid c ≠ CDID_UNUSED -> k_cdid c = k_cdid c' -> j = j';
  vi_fault : v_fault v = false;
}.
Definition winv (X Xp : option nat) (d : nat -> Z) (a : Z) (w : world) : Prop :=
  vinv X Xp d a (view_of w).
(** Between two operations there is no exception. *)
Definition inv : world -> Prop := winv None None (λ _, 0) 0.

(** The call [j] is in use and bound to a pipe. *)
Definition live (j : nat) (w : world) : Prop :=
  ∃ cd i, N_call_desc (w_cntl w) !! j = Some cd ∧ cdid cd ≠ CDID_UNUSED ∧
          cd_pipe cd = Some i.

(** ** Framing *)
Lemma keeps_view {A} (P : view -> Prop) (m : M A) :
  frames view_of m -> keeps (λ w, P (view_of w)) m.
Proof. apply frames_keeps. Qed.

Lemma alter_fmap_same {A B} (g : A -> B) (f : A -> A) j (l : list A) :
  (∀ x, g (f x) = g x) -> g <$> alter f j l = g <$> l.
Proof.
  intros Hf. apply list_eq. intros i. rewrite !list_lookup_fmap.
  destruct (decide (i = j)) as [->|Hne].
  - rewrite list_lookup_alter_eq. destruct (l !! j); simpl; [by rewrite Hf|done].
  - by rewrite list_lookup_alter_ne.
Qed.

Lemma frames_view_mod_cd j f : (∀ cd, core_of (f cd) = core_of cd) -> frames view_of (mod_cd j f).
Proof. intros Hf w. unfold view_of. cbn. by rewrite alter_fmap_same. Qed.
Lemma frames_view_mod_pipe i f : (∀ p, pcore_of (f p) = pcore_of p) -> frames view_of (mod_pipe i f).
Proof. intros Hf w. unfold view_of. cbn. by rewrite alter_fmap_same. Qed.
Lemma frames_view_emit o : is_fault o = false -> frames view_of (emit o).
Proof. intros Hf w. unfold view_of. cbn. by rewrite Hf. Qed.
Lemma frames_view_get_mbuf n : frames view_of (get_mbuf n).
Proof. unfold get_mbuf. crush. by intros w. Qed.
#[export] Hint Extern 1 (frames view_of (mod_cd _ _)) =>
  apply frames_view_mod_cd; intros; reflexivity : i4b.
#[export] Hint Extern 1 (frames view_of (mod_pipe _ _)) =>
  apply frames_view_mod_pipe; intros; reflexivity : i4b.
#[export] Hint Extern 1 (frames view_of (emit _)) => apply frames_view_emit; reflexivity : i4b.
#[export] Hint Resolve frames_view_get_mbuf : i4b.

Lemma frames_view_data_req i m : frames view_of (dss1_pipe_data_req i m).
Proof. unfold dss1_pipe_data_req. crush. Qed.
Lemma frames_view_acknowledge i cd : frames view_of (dss1_pipe_data_acknowledge i cd).
Proof. unfold dss1_pipe_data_acknowledge. crush. Qed.
#[export] Hint Resolve frames_view_data_req frames_view_acknowledge : i4b.
Lemma frames_view_tx_frame i n msg m : frames view_of (tx_frame i n msg m).
Proof. unfold tx_frame. crush. Qed.
Lemma frames_view_q850 c : frames view_of (q850_cause c).
Proof. unfold q850_cause. crush. Qed.
#[export] Hint Resolve frames_view_tx_frame frames_view_q850 : i4b.
Lemma frames_view_by_pipe_cr i a b c d e : frames view_of (dss1_l3_tx_message_by_pipe_cr i a b c d e).
Proof. unfold dss1_l3_tx_message_by_pipe_cr. crush. Qed.
Lemma frames_view_link_setup j p q : frames view_of (link_setup_driver j p q).
Proof. unfold link_setup_driver. crush. Qed.
#[export] Hint Resolve frames_view_by_pipe_cr frames_view_link_setup : i4b.
Lemma frames_view_link j b : frames view_of (i4b_link_bchandrvr j b).
Proof. unfold i4b_link_bchandrvr, bchandrvr_disconnect. crush. Qed.
Lemma frames_view_l4_ind ind j : frames view_of (l4_ind ind j).
Proof. unfold l4_ind. crush. Qed.
#[export] Hint Resolve frames_view_link frames_view_l4_ind : i4b.
Lemma frames_view_disconnect_ind j : frames view_of (i4b_l4_disconnect_ind j).
Proof. unfold i4b_l4_disconnect_ind. crush. Qed.
Lemma frames_view_connect_ind j : frames view_of (i4b_l4_connect_ind j).
Proof. unfold i4b_l4_connect_ind. crush. Qed.
Lemma frames_view_set_cause_out j c : frames view_of (set_cause_out j c).
Proof. unfold set_cause_out. crush. Qed.
Lemma frames_view_appl j t p : frames view_of (cd_set_appl_interface j t p).
Proof. unfold cd_set_appl_interface. crush. Qed.
Lemma frames_view_activity : frames view_of dss1_L1_activity_timeout.
Proof. unfold dss1_L1_activity_timeout. crush; by intros w. Qed.
#[export] Hint Resolve frames_view_disconnect_ind frames_view_connect_ind
  frames_view_set_cause_out frames_view_appl frames_view_activity : i4b.

(** *** Operations on a live call *)
Lemma live_view j w w' : view_of w' = view_of w -> live j w -> live j w'.
Proof.
  intros Hv (cd & i & Hj & Hid & Hp). unfold view_of in Hv. injection Hv as Hc _ _ _ _ _ _ _ _.
  pose proof (f_equal (λ l, l !! j) Hc) as Hl. cbv beta in Hl. rewrite !list_lookup_fmap, Hj in Hl.
  destruct (N_call_desc (w_cntl w') !! j) as [cd'|] eqn:Hj'; [|done].
  simplify_eq/=. exists cd', i. unfold core_of in *. repeat split; congruence.
Qed.

(** [m] leaves the view alone if the call [j] is live. *)
Definition frames_live (j : nat) {A} (m : M A) : Prop :=
  ∀ w, live j w -> view_of (m w).2 = view_of w.
Lemma frames_live_intro j {A} (m : M A) : frames view_of m -> frames_live j m.
Proof. intros Hm w _. apply Hm. Qed.
Lemma frames_live_bind j {A B} (m : M A) (k : A -> M B) :
  frames_live j m -> (∀ a, frames_live j (k a)) -> frames_live j (m ≫= k).
Proof.
  intros Hm Hk w Hl. rewrite run_bind, Hk; [by apply Hm|]. eapply live_view, Hl. by apply Hm.
Qed.
Lemma frames_live_when j b (m : M unit) : frames_live j m -> frames_live j (when b m).
Proof. destruct b; [done|]. intros _ w _. done. Qed.
(** The pipe read from a live call is there. *)
Lemma frames_live_cd j {A} (k : call_desc -> M A) :
  (∀ cd i, cd_pipe cd = Some i -> frames_live j (k cd)) -> frames_live j (cd ← get_cd j; k cd).
Proof.
  intros Hk w Hl. rewrite run_bind. cbn [get_cd gets fst snd].
  pose proof Hl as (cd & i & Hj & ? & Hp). rewrite (list_lookup_total_correct _ _ _ Hj).
  by apply (Hk cd i Hp).
Qed.
Lemma keeps_live {A} (P : view -> Prop) j (m : M A) :
  frames_live j m -> keeps (λ w, P (view_of w) ∧ live j w) m.
Proof.
  intros Hm w [HP Hl]. pose proof (Hm w Hl) as Hv. rewrite Hv. split; [done|].
  by eapply live_view.
Qed.

Ltac live_step :=
  match goal with
  | |- frames_live ?j (get_cd ?j ≫= _) => apply frames_live_cd; intros ? ? ?
  | |- frames_live _ (_ ≫= _) => apply frames_live_bind; [|intros ?]
  | |- frames_live _ (when _ _) => apply frames_live_when
  | H : cd_pipe ?cd = Some _ |- frames_live _ (match cd_pipe ?cd with _ => _ end) => rewrite H
  | |- frames_live _ (if ?b then _ else _) => destruct b
  | |- frames_live _ (match ?x with _ => _ end) => destruct x
  end.
Ltac crush_live :=
  repeat first [ solve [eauto with i4b nocore]
               | solve [apply frames_live_intro; eauto with i4b nocore] | live_step ].

Lemma live_tx_setup j : frames_live j (dss1_l3_tx_setup j).
Proof. unfold dss1_l3_tx_setup. crush_live. Qed.
Lemma live_tx_message j mt fl : frames_live j (dss1_l3_tx_message j mt fl).
Proof. unfold dss1_l3_tx_message. crush_live. Qed.
#[export] Hint Resolve live_tx_setup live_tx_message : i4b.
Lemma live_tx_status j c : frames_live j (dss1_l3_tx_status j c).
Proof. unfold dss1_l3_tx_status. crush_live. Qed.
Lemma live_tx_hold_reject j c : frames_live j (dss1_l3_tx_hold_reject j c).
Proof. unfold dss1_l3_tx_hold_reject. crush_live. Qed.
Lemma live_tx_retrieve_reject j c : frames_live j (dss1_l3_tx_retrieve_reject j c).
Proof. unfold dss1_l3_tx_retrieve_reject. crush_live. Qed.
#[export] Hint Resolve live_tx_status live_tx_hold_reject live_tx_retrieve_reject : i4b.

(** The view with the pipe of call [j] set to [p]. *)
Definition set_pipe_view (j : nat) (p : option nat) (v : view) : view :=
  View (alter (λ k, Core (k_cdid k) p (k_channel k) (k_allocated k) (k_state k) (k_timer k)) j
          (v_cds v)) (v_pipes v) (v_l1 v) (v_conn v) (v_util v) (v_end v) (v_cdid_end v)
    (v_cdid_count v) (v_fault v).

Lemma alter_fmap_comm {A B} (g : A -> B) f f' j (l : list A) :
  (∀ x, g (f x) = f' (g x)) -> g <$> alter f j l = alter f' j (g <$> l).
Proof.
  intros H. apply list_eq. intros i. rewrite list_lookup_fmap.
  destruct (decide (i = j)) as [->|Hne].
  - rewrite !list_lookup_alter_eq, list_lookup_fmap. destruct (l !! j); simpl; [by rewrite H|done].
  - by rewrite !list_lookup_alter_ne, list_lookup_fmap.
Qed.

Lemma view_set_pipe j p w :
  view_of (mod_cd j (λ c, c <| cd_pipe := p |>) w).2 = set_pipe_view j p (view_of w).
Proof. unfold view_of, set_pipe_view. cbn. f_equal. by apply alter_fmap_comm. Qed.

Lemma set_pipe_twice j p p' v : set_pipe_view j p (set_pipe_view j p' v) = set_pipe_view j p v.
Proof.
  unfold set_pipe_view. cbn. f_equal. apply list_eq. intros i. destruct (decide (i = j)) as [->|].
  - rewrite !list_lookup_alter_eq. by destruct (v_cds v !! j).
  - by rewrite !list_lookup_alter_ne.
Qed.

Lemma set_pipe_id j v k : v_cds v !! j = Some k -> set_pipe_view j (k_pipe k) v = v.
Proof.
  intros Hj. unfold set_pipe_view. destruct v as [cds]. cbn in *. f_equal.
  apply list_eq. intros i. destruct (decide (i = j)) as [->|].
  - rewrite list_lookup_alter_eq, Hj. by destruct k.
  - by rewrite list_lookup_alter_ne.
Qed.

(** The call [j] is in use, whatever its pipe. *)
Definition used (j : nat) (v : view) : Prop :=
  ∃ k, v_cds v !! j = Some k ∧ k_cdid k ≠ CDID_UNUSED.
Lemma used_set_pipe j p v : used j (set_pipe_view j p v) <-> used j v.
Proof.
  unfold used, set_pipe_view. cbn. rewrite list_lookup_alter_eq. split.
  - intros (k & Hk & Hid). destruct (v_cds v !! j) as [k0|]; [|done]. simplify_eq/=. by exists k0.
  - intros (k & -> & Hid). by eexists.
Qed.
Lemma used_live j p w :
  used j (view_of w) -> live j (mod_cd j (λ c, c <| cd_pipe := Some p |>) w).2.
Proof.
  intros (k & Hk & Hid). cbn in Hk. rewrite list_lookup_fmap in Hk.
  destruct (N_call_desc (w_cntl w) !! j) as [cd|] eqn:Hj; [|done]. simplify_eq/=.
  unfold live. cbn. rewrite list_lookup_alter_eq, Hj. by eexists _, p.
Qed.
Lemma live_used j w : live j w -> used j (view_of w).
Proof.
  intros (cd & i & Hj & Hid & _). exists (core_of cd). cbn. by rewrite list_lookup_fmap, Hj.
Qed.

Lemma complement_round j i mt fl p w :
  used j (view_of w) ->
  set_pipe_view j p (view_of ((mod_cd j (λ c, c <| cd_pipe := Some i |>);;
                               dss1_l3_tx_message j mt fl) w).2) = set_pipe_view j p (view_of w).
Proof.
  intros Hu. rewrite run_bind.
  rewrite (live_tx_message j mt fl _ (used_live j i w Hu)), view_set_pipe. apply set_pipe_twice.
Qed.
Lemma live_tx_complement j s1 s2 mt fl :
  frames_live j (dss1_l3_tx_message_complement j s1 s2 mt fl).
Proof.
  intros w Hl. unfold dss1_l3_tx_message_complement. rewrite run_bind. cbn [get_cd gets fst snd].
  pose proof Hl as (cd & i0 & Hj & Hid & Hp). rewrite (list_lookup_total_correct _ _ _ Hj).
  rewrite run_bind. cbn [gets fst snd]. rewrite run_bind, view_set_pipe.
  assert (Hv : v_cds (view_of w) !! j = Some (core_of cd)) by (cbn; by rewrite list_lookup_fmap, Hj).
  rewrite <-(set_pipe_id j (view_of w) (core_of cd) Hv). cbn [core_of k_pipe].
  apply live_used in Hl. clear Hv Hj Hid Hp.
  generalize (pipe_indices w). intros l. revert w Hl.
  induction l as [|i l IH]; intros w Hu; [done|]. cbn [for_each]. rewrite run_bind.
  set (body := (_ ≫= _)). assert (set_pipe_view j (cd_pipe cd) (view_of (body w).2) =
    set_pipe_view j (cd_pipe cd) (view_of w)) as Hb.
  { subst body. rewrite run_bind. cbn [get_pipe gets fst snd]. rewrite run_when.
    case_match; [by apply complement_round|done]. }
  rewrite IH; [exact Hb|]. apply (used_set_pipe j (cd_pipe cd)). rewrite Hb. by apply used_set_pipe.
Qed.
#[export] Hint Resolve live_tx_complement : i4b.

(** ** The steps that change what the invariant looks at *)
Lemma cds_lookup w j k :
  v_cds (view_of w) !! j = Some k <->
  ∃ cd, N_call_desc (w_cntl w) !! j = Some cd ∧ k = core_of cd.
Proof.
  cbn. rewrite list_lookup_fmap. destruct (N_call_desc (w_cntl w) !! j) as [cd|]; simpl.
  - split; [intros [= <-]; eauto|intros (? & [= <-] & ->); done].
  - split; [done|intros (? & ? & _); done].
Qed.

(** The channel part is the invariant of the channel management. *)
Lemma vchan_iff w : vchan (view_of w) <-> w_chan_inv w.
Proof.
  split; intros [H1 H2 H3 H4]; constructor; try done.
  - intros j cd k Hj Hh. apply (H3 j (core_of cd)); [|done]. apply cds_lookup. eauto.
  - intros j j' cd cd' k Hj Hj' Hh Hh'.
    apply (H4 j j' (core_of cd) (core_of cd') k); try done; apply cds_lookup; eauto.
  - intros j c k (cd & Hj & ->)%cds_lookup Hh. by apply (H3 j cd).
  - intros j j' c c' k (cd & Hj & ->)%cds_lookup (cd' & Hj' & ->)%cds_lookup Hh Hh'.
    by apply (H4 j j' cd cd' k).
Qed.

Lemma alter_none {A} (f : A -> A) j (l : list A) : l !! j = None -> alter f j l = l.
Proof.
  intros Hj. apply list_eq. intros i. destruct (decide (i = j)) as [->|].
  - by rewrite list_lookup_alter_eq, Hj.
  - by rewrite list_lookup_alter_ne.
Qed.
Section count.
Context {A : Type} (P : A -> Prop) `{∀ x, Decision (P x)}.
Definition b2z (b : bool) : Z := if b then 1 else 0.
Lemma count_alter (f : A -> A) j (l : list A) x :
  l !! j = Some x ->
  Z.of_nat (length (filter P (alter f j l))) =
  Z.of_nat (length (filter P l)) - b2z (bool_decide (P x)) + b2z (bool_decide (P (f x))).
Proof.
  revert j. induction l as [|y l IH]; intros [|j] Hj; try done; simpl in Hj.
  - simplify_eq. change (alter f 0%nat (x :: l)) with (f x :: l). rewrite !filter_cons.
    repeat case_decide; repeat case_bool_decide; simpl; try done; lia.
  - change (alter f (S j) (y :: l)) with (y :: alter f j l). rewrite !filter_cons.
    specialize (IH j Hj). case_decide; simpl; lia.
Qed.
Lemma count_alter_same (f : A -> A) j (l : list A) :
  (∀ x, P (f x) <-> P x) -> length (filter P (alter f j l)) = length (filter P l).
Proof.
  intros Hf. destruct (l !! j) as [x|] eqn:Hj.
  - pose proof (count_alter f j l x Hj) as Hc. rewrite (bool_decide_ext _ _ (Hf x)) in Hc. lia.
  - by rewrite alter_none.
Qed.
End count.

(** A change of the cores of call [j] that keeps its pipe. *)
Definition upd_cds (f : list core -> list core) (v : view) : view :=
  View (f (v_cds v)) (v_pipes v) (v_l1 v) (v_conn v) (v_util v) (v_end v) (v_cdid_end v)
    (v_cdid_count v) (v_fault v).
Definition upd_util (u : list Z) (v : view) : view :=
  View (v_cds v) (v_pipes v) (v_l1 v) (v_conn v) u (v_end v) (v_cdid_end v)
    (v_cdid_count v) (v_fault v).

Lemma alter_lookup_Some {A} (f : A -> A) i j (l : list A) y :
  alter f j l !! i = Some y ->
  ∃ x, l !! i = Some x ∧ y = if decide (i = j) then f x else x.
Proof.
  case_decide as Hd.
  - subst. rewrite list_lookup_alter_eq. destruct (l !! j) as [x|] eqn:E; [|done].
    intros [= <-]. eauto.
  - rewrite list_lookup_alter_ne by done. eauto.
Qed.

(** What a change of call [j] must respect to keep the invariant: the pipe
    stays, the id stays or is given up; the exception moves from [X] to [X']. *)
Lemma vinv_upd_call X X' Xp d a v j f u k :
  vinv X Xp d a v -> v_cds v !! j = Some k ->
  (∀ k, k_pipe (f k) = k_pipe k ∧ (k_cdid (f k) = k_cdid k ∨ k_cdid (f k) = CDID_UNUSED)) ->
  vchan (upd_util u (upd_cds (alter f j) v)) ->
  (∀ i, Some i ≠ X' -> i ≠ j -> Some i ≠ X) ->
  (Some j ≠ X' -> call_ok (f k)) ->
  vinv X' Xp d a (upd_util u (upd_cds (alter f j) v)).
Proof.
  intros HI Hj Hf Hch HX Hok. destruct HI. constructor; cbn; try done.
  - by rewrite length_alter.
  - intros i p Hp. unfold nrefs. rewrite count_alter_same by (intros x; by destruct (Hf x) as [-> _]).
    by apply vi_refs0.
  - unfold nactive. rewrite count_alter_same; [done|]. intros x. by destruct (Hf x) as [-> _].
  - intros i k' p (x & Hx & ->)%alter_lookup_Some Hp. eapply vi_bound0; [done|].
    case_decide; [|done]. by destruct (Hf x) as [<- _].
  - intros i k' (x & Hx & ->)%alter_lookup_Some Hi. case_decide as Hd; [subst|].
    + simplify_eq. by apply Hok.
    + apply (vi_call0 i); [done|]. by apply HX.
  - intros i p Hp Hi. specialize (vi_pipe0 i p Hp Hi). unfold pipe_ok in *.
    case_bool_decide; [|done]. rewrite <-vi_pipe0. unfold nrefs.
    rewrite count_alter_same; [done|]. intros x. by destruct (Hf x) as [-> _].
  - intros i i' c c' (x & Hx & ->)%alter_lookup_Some (x' & Hx' & ->)%alter_lookup_Some Hc Heq.
    apply (vi_ids0 i i' x x'); try done; repeat case_decide;
      destruct (Hf x) as [_ [?|?]], (Hf x') as [_ [?|?]]; congruence.
Qed.

Definition set_chan (id : Z) (al : bool) (k : core) : core :=
  Core (k_cdid k) (k_pipe k) id al (k_state k) (k_timer k).

Lemma view_take_channel j id w :
  ∃ id' al u, view_of (take_channel j id w).2 =
              upd_util u (upd_cds (alter (set_chan id' al) j) (view_of w)).
Proof.
  unfold take_channel. rewrite run_bind. cbn [get_cntl gets fst snd].
  destruct (choose_channel (w_cntl w) id) as [[id' al] used]. exists id', al.
  rewrite run_bind. destruct used as [k|]; eexists; unfold view_of, upd_util, upd_cds; cbn;
    f_equal; by apply alter_fmap_comm.
Qed.

Lemma frames_view_li_step j cd0 w : view_of (li_step j cd0 w) = view_of w.
Proof.
  unfold li_step. rewrite run_when. case_match; [|done].
  by apply frames_view_mod_cd.
Qed.

(** The channel of a used call is changed: its pipe, id, state stay. *)
Lemma winv_channel_step X Xp d a j w w' id al u :
  winv X Xp d a w -> used j (view_of w) -> w_chan_inv w' ->
  view_of w' = upd_util u (upd_cds (alter (set_chan id al) j) (view_of w)) ->
  winv X Xp d a w'.
Proof.
  intros HI (k & Hk & Hid) Hch Hv. unfold winv. rewrite Hv.
  eapply (vinv_upd_call X X); [exact HI|exact Hk|by split; [|left]| |done|].
  - rewrite <-Hv. by apply vchan_iff.
  - intros HX. pose proof (vi_call _ _ _ _ _ HI j k Hk HX) as Hok. unfold call_ok in *. cbn.
    destruct (Z.eqb_spec (k_cdid k) CDID_UNUSED); [done|exact Hok].
Qed.
Lemma winv_chan X Xp d a w : winv X Xp d a w -> w_chan_inv w.
Proof. intros HI. apply vchan_iff, (vi_chan _ _ _ _ _ HI). Qed.

Lemma live_chan_step j w w' id al u :
  live j w -> view_of w' = upd_util u (upd_cds (alter (set_chan id al) j) (view_of w)) ->
  live j w'.
Proof.
  intros (cd0 & i & Hj & Hid & Hp) Hv.
  assert (v_cds (view_of w') !! j = Some (set_chan id al (core_of cd0))) as Hk.
  { rewrite Hv. cbn. by rewrite list_lookup_alter_eq, list_lookup_fmap, Hj. }
  apply cds_lookup in Hk as (cd1 & Hj1 & Heq). exists cd1, i. unfold core_of, set_chan in Heq.
  injection Heq as H1 H2 _ _ _ _. cbn in H1, H2. repeat split; congruence.
Qed.
Lemma winv_allocate_channel X Xp d a j w :
  winv X Xp d a w -> live j w ->
  winv X Xp d a (cd_allocate_channel j w).2 ∧ live j (cd_allocate_channel j w).2.
Proof.
  intros HI Hl. pose proof (live_used j w Hl) as Hu.
  pose proof (keeps_chan_allocate j w (winv_chan _ _ _ _ _ HI)) as Hch.
  rewrite cd_allocate_channel_run in *. set (cd := N_call_desc (w_cntl w) !!! j) in *.
  destruct (channel_allocated cd).
  - unfold winv. rewrite frames_view_li_step. split; [done|].
    eapply live_view; [apply frames_view_li_step|done].
  - destruct (view_take_channel j (channel_id cd) (li_step j cd w)) as (id' & al & u & Hv).
    rewrite frames_view_li_step in Hv. split; [by eapply winv_channel_step|].
    by eapply live_chan_step.
Qed.

Lemma view_free_channel j w :
  view_of (cd_free_channel j w).2 = view_of w ∨
  ∃ u, view_of (cd_free_channel j w).2 =
       upd_util u (upd_cds (alter (set_chan CHAN_ANY false) j) (view_of w)).
Proof.
  unfold cd_free_channel. rewrite run_bind. cbn [get_cd gets fst snd].
  set (cd := N_call_desc (w_cntl w) !!! j). clearbody cd. rewrite run_bind.
  set (m1 := when (negb (bool_decide (li_data_ptr cd = None))) _). assert (frames view_of m1) as Hm by (subst m1; crush).
  rewrite run_when. destruct (channel_allocated cd); [right|left; apply Hm].
  rewrite <-(Hm w). generalize (m1 w).2. clear. intros w. rewrite run_bind. cbn [get_cntl gets fst snd].
  rewrite run_bind, run_when. case_match; eexists; unfold view_of, upd_util, upd_cds; cbn; f_equal;
    by apply alter_fmap_comm.
Qed.
Lemma winv_free_channel X Xp d a j w :
  winv X Xp d a w -> used j (view_of w) -> winv X Xp d a (cd_free_channel j w).2.
Proof.
  intros HI Hu. pose proof (keeps_chan_free j w (winv_chan _ _ _ _ _ HI)) as Hch.
  destruct (view_free_channel j w) as [Hv|[u Hv]].
  - unfold winv. by rewrite Hv.
  - by eapply winv_channel_step.
Qed.
Lemma live_free_channel j w : live j w -> live j (cd_free_channel j w).2.
Proof.
  intros Hl. destruct (view_free_channel j w) as [Hv|[u Hv]]; [by eapply live_view|].
  by eapply live_chan_step.
Qed.

(** *** Binding a call to a pipe *)
Lemma u32_add_l x y : u32 (u32 x + y) = u32 (x + y).
Proof. unfold u32. apply Z.add_mod_idemp_l. lia. Qed.

(** The part of [cd_set_pipe] that drops the old pipe. *)
Definition rebind (j : nat) (pipe : option nat) : M unit :=
  cd ← get_cd j;
  match cd_pipe cd with
  | Some i =>
      mod_pipe i (λ p, p <| refcount ::= λ n, u32 (n - 1) |>);;
      dss1_L1_deactivate_req
  | None => mret tt
  end;;
  mod_cd j (λ cd, cd <| cd_pipe := pipe |>).

Definition add_ref (n : Z) (p : Z * L2_STATES * callout) : Z * L2_STATES * callout :=
  (u32 (p.1.1 + n), p.1.2, p.2).
Definition upd_pipes (f : list (Z * L2_STATES * callout) -> list (Z * L2_STATES * callout))
    (v : view) : view :=
  View (v_cds v) (f (v_pipes v)) (v_l1 v) (v_conn v) (v_util v) (v_end v) (v_cdid_end v)
    (v_cdid_count v) (v_fault v).
Definition upd_l1 (n : Z) (v : view) : view :=
  View (v_cds v) (v_pipes v) (u32 (v_l1 v + n)) (v_conn v) (v_util v) (v_end v) (v_cdid_end v)
    (v_cdid_count v) (v_fault v).

Lemma view_mod_ref i n w :
  view_of (mod_pipe i (λ p, p <| refcount ::= λ x, u32 (x + n) |>) w).2 =
  upd_pipes (alter (add_ref n) i) (view_of w).
Proof. unfold view_of, upd_pipes. cbn. f_equal. by apply alter_fmap_comm. Qed.
Lemma view_deactivate w : view_of (dss1_L1_deactivate_req w).2 = upd_l1 (-1) (view_of w).
Proof.
  unfold dss1_L1_deactivate_req. rewrite run_bind, run_bind. cbn [get_sc gets fst snd].
  rewrite run_when. case_match; [apply frames_view_activity|done].
Qed.
Lemma view_activate w : view_of (dss1_L1_activate_req w).2 = upd_l1 1 (view_of w).
Proof.
  unfold dss1_L1_activate_req. rewrite run_bind, run_bind. cbn [get_sc gets fst snd].
  rewrite run_when. by case_match.
Qed.

(** The view after the old pipe is dropped. *)
Definition drop_ref (old : option nat) (v : view) : view :=
  match old with
  | Some i => upd_l1 (-1) (upd_pipes (alter (add_ref (-1)) i) v)
  | None => v
  end.
Lemma view_rebind j p w cd :
  N_call_desc (w_cntl w) !! j = Some cd ->
  view_of (rebind j p w).2 = set_pipe_view j p (drop_ref (cd_pipe cd) (view_of w)).
Proof.
  intros Hj. unfold rebind. rewrite run_bind. cbn [get_cd gets fst snd].
  rewrite (list_lookup_total_correct _ _ _ Hj), run_bind, view_set_pipe. f_equal.
  destruct (cd_pipe cd) as [i|]; [|done].
  rewrite run_bind, view_deactivate. unfold drop_ref. f_equal. apply (view_mod_ref i (-1)).
Qed.

Definition is_pipe (p : option nat) (i : nat) : Z := b2z (bool_decide (p = Some i)).
Definition has_pipe (p : option nat) : Z := b2z (bool_decide (p ≠ None)).

Lemma is_pipe_None i : is_pipe None i = 0.
Proof. done. Qed.
Lemma has_pipe_None : has_pipe None = 0.
Proof. done. Qed.

Lemma drop_ref_lookup old v i p :
  v_pipes (drop_ref old v) !! i = Some p ->
  ∃ p0, v_pipes v !! i = Some p0 ∧ p.1.2 = p0.1.2 ∧ p.2 = p0.2 ∧
        (p.1.1 = u32 (p0.1.1 - is_pipe old i) ∨ (p.1.1 = p0.1.1 ∧ is_pipe old i = 0)).
Proof.
  destruct old as [o|]; cbn [drop_ref upd_l1 upd_pipes v_pipes]; [|eauto 10].
  intros (p0 & Hp0 & ->)%alter_lookup_Some. exists p0. unfold is_pipe. case_decide as Hd.
  - subst o. rewrite bool_decide_eq_true_2 by done. repeat split; try done. by left.
  - rewrite bool_decide_eq_false_2 by congruence. repeat split; try done. by right.
Qed.

Definition set_k_pipe (p : option nat) (k : core) : core :=
  Core (k_cdid k) p (k_channel k) (k_allocated k) (k_state k) (k_timer k).
Lemma nrefs_set_pipe i j p l k :
  l !! j = Some k ->
  nrefs i (alter (set_k_pipe p) j l) = nrefs i l - is_pipe (k_pipe k) i + is_pipe p i.
Proof.
  intros Hj. unfold nrefs, is_pipe.
  rewrite (count_alter (λ k, k_pipe k = Some i) (set_k_pipe p) j l k Hj). done.
Qed.
Lemma nactive_set_pipe j p l k :
  l !! j = Some k ->
  nactive (alter (set_k_pipe p) j l) = nactive l - has_pipe (k_pipe k) + has_pipe p.
Proof.
  intros Hj. unfold nactive, has_pipe.
  rewrite (count_alter (λ k, k_pipe k ≠ None) (set_k_pipe p) j l k Hj). done.
Qed.
Lemma nrefs_nonneg i l : 0 <= nrefs i l.
Proof. unfold nrefs. lia. Qed.

(** Fewer channels held, the same marks. *)
Lemma vchan_ext v v' :
  v_util v' = v_util v -> v_end v' = v_end v ->
  (∀ i c', v_cds v' !! i = Some c' -> ∃ c, v_cds v !! i = Some c ∧ k_channel c' = k_channel c ∧
     (k_allocated c' = true -> k_allocated c = true)) ->
  vchan v -> vchan v'.
Proof.
  intros Hu He Hc [H1 H2 H3 H4].
  assert (Hh : ∀ c c' k, k_channel c' = k_channel c -> (k_allocated c' = true -> k_allocated c = true) ->
            k_holds v' c' k -> k_holds v c k).
  { intros c c' k Hch Hal (Ha & <- & Hr). rewrite He in Hr. repeat split; try lia; auto. }
  constructor; rewrite ?Hu, ?He; try done.
  - intros j c' k (c & Hj & Hch & Hal)%Hc Hk. by eapply H3, Hh.
  - intros j j' c c' k (x & Hj & Hch & Hal)%Hc (x' & Hj' & Hch' & Hal')%Hc Hk Hk'.
    by eapply (H4 j j' x x'); [..|eapply Hh|eapply Hh].
Qed.

(** The fields [drop_ref] leaves alone. *)
Lemma drop_ref_fields old v :
  v_cds (drop_ref old v) = v_cds v ∧ length (v_pipes (drop_ref old v)) = length (v_pipes v) ∧
  v_conn (drop_ref old v) = v_conn v ∧ v_util (drop_ref old v) = v_util v ∧
  v_end (drop_ref old v) = v_end v ∧ v_cdid_end (drop_ref old v) = v_cdid_end v ∧
  v_cdid_count (drop_ref old v) = v_cdid_count v ∧ v_fault (drop_ref old v) = v_fault v ∧
  (is_u32 (v_l1 v) -> v_l1 (drop_ref old v) = u32 (v_l1 v - has_pipe old)).
Proof.
  destruct old as [o|]; cbn; rewrite ?length_alter; repeat split; try done.
  intros Hl. by rewrite Z.sub_0_r, u32_id.
Qed.

(** Rebinding and the counters. *)
Lemma rebind_refs d v j k p i q :
  v_cds v !! j = Some k ->
  (∀ i p, v_pipes v !! i = Some p -> p.1.1 = u32 (nrefs i (v_cds v) + d i)) ->
  v_pipes (drop_ref (k_pipe k) v) !! i = Some q ->
  q.1.1 = u32 (nrefs i (alter (set_k_pipe p) j (v_cds v)) + (d i - is_pipe p i)).
Proof.
  intros Hj Hr (q0 & Hq0 & _ & _ & Hq)%drop_ref_lookup. rewrite (nrefs_set_pipe i j p _ k Hj).
  specialize (Hr i q0 Hq0). destruct Hq as [->|[-> Hz]]; rewrite Hr; [|f_equal; lia].
  unfold Z.sub at 1. rewrite u32_add_l. f_equal. lia.
Qed.
Lemma rebind_pipe Xp v j k p i q :
  v_cds v !! j = Some k ->
  (∀ i p, v_pipes v !! i = Some p -> Some i ≠ Xp -> pipe_ok (v_cds v) i p) ->
  (∀ i q, p = Some i -> v_pipes v !! i = Some q -> Some i ≠ Xp -> q.1.2 ≠ ST_L2_PAUSE) ->
  v_pipes (drop_ref (k_pipe k) v) !! i = Some q -> Some i ≠ Xp ->
  pipe_ok (alter (set_k_pipe p) j (v_cds v)) i q.
Proof.
  intros Hj Hok Hp (q0 & Hq0 & Hs & Ht & _)%drop_ref_lookup Hne. specialize (Hok i q0 Hq0 Hne).
  unfold pipe_ok in *. rewrite Hs, Ht. case_bool_decide as Hb; [|done].
  pose proof (nrefs_nonneg i (alter (set_k_pipe p) j (v_cds v))) as Hn.
  rewrite (nrefs_set_pipe i j p _ k Hj), Hok in *.
  assert (is_pipe p i = 0) as Hz.
  { unfold is_pipe. case_bool_decide as Hpi; [|done]. exfalso. by apply (Hp i q0 Hpi). }
  unfold is_pipe in *. repeat case_bool_decide; cbn in *; lia.
Qed.

Lemma vinv_rebind X Xp d a v j k p :
  vinv X Xp d a v -> v_cds v !! j = Some k -> (X = None ∨ X = Some j) ->
  (∀ i, p = Some i -> (i < PIPE_MAX)%nat) ->
  (∀ i q, p = Some i -> v_pipes v !! i = Some q -> Some i ≠ Xp -> q.1.2 ≠ ST_L2_PAUSE) ->
  vinv (Some j) Xp (λ i, d i - is_pipe p i) (a - has_pipe p)
    (set_pipe_view j p (drop_ref (k_pipe k) v)).
Proof.
  intros HI Hj HX Hb Hp. destruct HI.
  destruct (drop_ref_fields (k_pipe k) v) as (F1 & F2 & F3 & F4 & F5 & F6 & F7 & F8 & F9).
  assert (Hset : ∀ i k', alter (set_k_pipe p) j (v_cds v) !! i = Some k' -> ∃ x,
     v_cds v !! i = Some x ∧ k_cdid k' = k_cdid x ∧ k_channel k' = k_channel x ∧
     k_allocated k' = k_allocated x ∧ (i ≠ j -> k' = x) ∧ (i = j -> k_pipe k' = p)).
  { intros i k' (x & Hx & ->)%alter_lookup_Some. exists x. by case_decide. }
  unfold set_pipe_view. fold (set_k_pipe p).
  constructor; cbn [v_cds v_pipes v_l1 v_conn v_util v_end v_cdid_end v_cdid_count v_fault];
    rewrite ?F1, ?F2, ?F3, ?F6, ?F7, ?F8; try done.
  - by rewrite length_alter.
  - intros i q Hq. by eapply rebind_refs.
  - rewrite F9 by (rewrite vi_l2; apply u32_range).
    rewrite (nactive_set_pipe j p _ k Hj), vi_l2. unfold Z.sub at 1. rewrite u32_add_l. f_equal. lia.
  - intros i k' p' (x & Hx & _ & _ & _ & Hne & Heq)%Hset Hk'. destruct (decide (i = j)).
    + apply Hb. rewrite <-Hk'. symmetry. by apply Heq.
    + eapply vi_bound0; [done|]. by rewrite <-Hne.
  - intros i k' (x & Hx & _ & _ & _ & Hne & Heq)%Hset Hi. rewrite Hne by congruence.
    apply (vi_call0 i); [done|]. destruct HX; congruence.
  - intros i q Hq Hi. by eapply rebind_pipe.
  - apply (vchan_ext v); cbn; rewrite ?F1, ?F4, ?F5; try done.
    intros i c' (x & Hx & _ & H1 & H2 & _)%Hset. exists x. rewrite H2. done.
  - intros i i' c c' (x & Hx & H1 & _)%Hset (x' & Hx' & H1' & _)%Hset Hc Heq.
    apply (vi_ids0 i i' x x'); congruence.
Qed.

Lemma vinv_ext X Xp d d' a a' v :
  (∀ i, d i = d' i) -> a = a' -> vinv X Xp d a v -> vinv X Xp d' a' v.
Proof.
  intros Hd <- []. constructor; try done. intros i p Hp. rewrite <-Hd. by apply vi_refs0.
Qed.

(** A change of call [j] that keeps its pipe and channel. *)
Lemma winv_mod_cd X X' Xp d a w j f cd :
  winv X Xp d a w -> N_call_desc (w_cntl w) !! j = Some cd ->
  (∀ cd, cd_pipe (f cd) = cd_pipe cd ∧ (cdid (f cd) = cdid cd ∨ cdid (f cd) = CDID_UNUSED) ∧
         channel_id (f cd) = channel_id cd ∧ channel_allocated (f cd) = channel_allocated cd) ->
  (∀ i, Some i ≠ X' -> i ≠ j -> Some i ≠ X) ->
  (Some j ≠ X' -> call_ok (core_of (f cd))) ->
  winv X' Xp d a (mod_cd j f w).2.
Proof.
  intros HI Hj Hf HX Hok.
  set (g := λ k : core, if decide (k = core_of cd) then core_of (f cd) else k).
  assert (Hg : alter g j (v_cds (view_of w)) = core_of <$> alter f j (N_call_desc (w_cntl w))).
  { apply list_eq. intros i. rewrite list_lookup_fmap. destruct (decide (i = j)) as [->|].
    - rewrite !list_lookup_alter_eq. cbn. rewrite list_lookup_fmap, Hj. cbn. unfold g.
      by rewrite decide_True.
    - rewrite !list_lookup_alter_ne by done. cbn. by rewrite list_lookup_fmap. }
  assert (Hv : view_of (mod_cd j f w).2 =
            upd_util (v_util (view_of w)) (upd_cds (alter g j) (view_of w))).
  { unfold upd_util, upd_cds. rewrite Hg. done. }
  unfold winv. rewrite Hv. apply (vinv_upd_call X X' Xp d a _ j g _ (core_of cd)); try done.
  - apply cds_lookup. eauto.
  - intros k. unfold g. case_decide; [subst; cbn; by destruct (Hf cd) as (-> & ? & _)|by split; [|left]].
  - apply (vchan_ext (view_of w)); cbn; [done|done| |apply HI].
    intros i c' (x & Hx & ->)%alter_lookup_Some. exists x. split; [done|]. case_decide; [|done].
    unfold g. case_decide; [subst; cbn; by destruct (Hf cd) as (_ & _ & -> & ->)|done].
  - intros Hne. unfold g. rewrite decide_True by done. by apply Hok.
Qed.

(** *** Freeing a call *)
Lemma frames_pipe_view i j p w cd :
  N_call_desc (w_cntl w) !! j = Some cd ->
  view_of (cd_set_pipe i j None w).2 = set_pipe_view j None (drop_ref (cd_pipe cd) (view_of w)) ∧
  (cd_set_pipe i j p w).2 = (rebind j p (match p with Some x =>
      (mod_pipe x (λ p, p <| refcount ::= λ n, u32 (n + 1) |>);; dss1_L1_activate_req;; i x) w
    | None => (tt, w) end).2).2.
Proof.
  intros Hj. split.
  - unfold cd_set_pipe. rewrite run_bind. by apply view_rebind.
  - unfold cd_set_pipe. rewrite run_bind. by destruct p.
Qed.

Lemma view_lookup_frame (w w' : world) j cd :
  view_of w' = view_of w -> N_call_desc (w_cntl w) !! j = Some cd ->
  ∃ cd', N_call_desc (w_cntl w') !! j = Some cd' ∧ core_of cd' = core_of cd.
Proof.
  intros Hv Hj. assert (v_cds (view_of w') !! j = Some (core_of cd)) as Hk.
  { rewrite Hv. apply cds_lookup. eauto. }
  apply cds_lookup in Hk as (cd' & ? & ?). eauto.
Qed.

Lemma winv_n_free_cd X Xp d a j w :
  winv X Xp d a w -> live j w -> (X = None ∨ X = Some j) ->
  winv None Xp d a (n_free_cd j w).2.
Proof.
  intros HI Hl HX. unfold n_free_cd. rewrite !run_bind.
  set (w1 := (cd_set_appl_interface j 0 0 _).2).
  assert (Hv1 : view_of w1 = view_of w).
  { subst w1. rewrite frames_view_appl. apply frames_view_disconnect_ind. }
  clearbody w1. assert (winv X Xp d a w1) as HI1 by (unfold winv; by rewrite Hv1).
  apply (live_view j w w1 Hv1) in Hl as (cd & i & Hj & Hid & Hp). clear HI Hv1 w.
  set (w2 := (cd_set_pipe _ j None w1).2).
  assert (Hv2 : view_of w2 = set_pipe_view j None (drop_ref (cd_pipe cd) (view_of w1))).
  { subst w2. by apply (frames_pipe_view _ j None w1 cd Hj). }
  assert (Hk1 : v_cds (view_of w1) !! j = Some (core_of cd)) by (apply cds_lookup; eauto).
  assert (winv (Some j) Xp d a w2) as HI2.
  { unfold winv. rewrite Hv2. eapply vinv_ext; [| |apply (vinv_rebind X Xp d a _ j (core_of cd) None)];
      try done; intros; cbv beta; rewrite ?is_pipe_None, ?has_pipe_None; lia. }
  assert (Hk2 : v_cds (view_of w2) !! j = Some (set_k_pipe None (core_of cd))).
  { rewrite Hv2. cbn. destruct (drop_ref_fields (cd_pipe cd) (view_of w1)) as [-> _].
    by rewrite list_lookup_alter_eq, Hk1. }
  clearbody w2. apply cds_lookup in Hk2 as (cd2 & Hj2 & Heq2).
  assert (cd_pipe cd2 = None) as Hp2 by (change (k_pipe (core_of cd2) = None); by rewrite <-Heq2).
  assert (used j (view_of w2)) as Hu2.
  { exists (core_of cd2). split; [apply cds_lookup; eauto|]. rewrite <-Heq2. done. }
  pose proof (winv_free_channel _ _ _ _ j w2 HI2 Hu2) as HI3.
  destruct (free_channel_spec j w2 cd2 (winv_chan _ _ _ _ _ HI2) Hj2) as (cd3 & Hj3 & Ha3 & _).
  assert (cd_pipe cd3 = None) as Hp3.
  { assert (k_pipe <$> v_cds (view_of (cd_free_channel j w2).2) !! j = Some None) as Hk.
    { destruct (view_free_channel j w2) as [->|[u ->]]; cbn;
        rewrite ?list_lookup_alter_eq, list_lookup_fmap, Hj2; cbn; by rewrite Hp2. }
    cbn in Hk. rewrite list_lookup_fmap, Hj3 in Hk. by injection Hk. }
  revert HI3 Hj3. generalize (cd_free_channel j w2).2. intros w3 HI3 Hj3.
  unfold i4b_free_cd. eapply (winv_mod_cd (Some j) None); [done|done| | |].
  - intros c. repeat split; try done. by right.
  - intros i' _ ? [= ->]. done.
  - intros _. unfold call_ok. cbn. by rewrite Hp3, Ha3.
Qed.

(** *** The state of a call *)
Lemma live_mod_cd j f w :
  (∀ cd, cdid (f cd) = cdid cd ∧ cd_pipe (f cd) = cd_pipe cd) ->
  live j w -> live j (mod_cd j f w).2.
Proof.
  intros Hf (cd & i & Hj & Hid & Hp). exists (f cd), i. cbn. rewrite list_lookup_alter_eq, Hj.
  destruct (Hf cd) as [-> ->]. done.
Qed.
Lemma live_frame j {A} (m : M A) w :
  frames_live j m -> live j w -> live j (m w).2.
Proof. intros Hm Hl. eapply live_view; [by apply Hm|done]. Qed.
Lemma winv_frame X Xp d a j {A} (m : M A) w :
  frames_live j m -> live j w -> winv X Xp d a w -> winv X Xp d a (m w).2.
Proof. intros Hm Hl HI. unfold winv. by rewrite (Hm w Hl). Qed.

(** The steps of [cd_set_state_null] in front of [n_free_cd]. *)
Lemma live_release j i cd sc (b : bool) :
  frames_live j
   (dss1_pipe_data_acknowledge i cd;;
    when (need_release cd)
      (when (cause_out cd =? 0) (mod_cd j (λ cd, cd <| cause_out := CAUSE_Q850_RECOTIMEXP |>));;
       if b then dss1_l3_tx_release_complete_complement j (Some i) None
       else dss1_l3_tx_release_complete j true);;
    when (L1_activity sc =? 0)
      (mod_cd j (λ cd, cd <| cause_in := CAUSE_TV CAUSET_I4B CAUSE_I4B_L1ERROR |>))).
Proof.
  unfold dss1_l3_tx_release_complete_complement, dss1_l3_tx_release_complete. crush_live.
Qed.

Lemma winv_set_state_null X Xp d a j i w :
  winv X Xp d a w -> live j w -> (X = None ∨ X = Some j) ->
  winv None Xp d a (cd_set_state_null j i w).2.
Proof.
  intros HI Hl HX. pose proof Hl as (cd & i0 & Hj & Hid & Hp).
  unfold cd_set_state_null. rewrite run_bind.
  set (w1 := (mod_cd j _ w).2).
  assert (live j w1) as Hl1 by (by apply live_mod_cd).
  assert (winv (Some j) Xp d a w1) as HI1.
  { eapply (winv_mod_cd X (Some j)); [done|done| | |done].
    - intros c. repeat split; try done. by left.
    - intros i' Hne ?. destruct HX; congruence. }
  clearbody w1. clear Hj. rewrite run_bind. cbn [get_cd gets fst snd].
  set (cd1 := N_call_desc (w_cntl w1) !!! j). clearbody cd1.
  rewrite run_bind. rewrite run_bind. cbn [get_sc gets fst snd].
  set (sc := w_sc _). rewrite run_bind. rewrite run_bind.
  pose proof (live_release j i cd1 sc (NT_MODE sc && negb (IS_POINT_TO_POINT sc) &&
    negb (dir_incoming cd1) && (i =? 0)%nat)) as Hr.
  apply (winv_n_free_cd (Some j)); [| |by right].
  - pose proof (winv_frame (Some j) Xp d a j _ w1 Hr Hl1 HI1) as Hf. by rewrite !run_bind in Hf.
  - pose proof (live_frame j _ w1 Hr Hl1) as Hf. by rewrite !run_bind in Hf.
Qed.

Lemma adjust_not_null sc b cd s e s' c :
  s ≠ ST_L3_U0 -> adjust_newstate sc b cd s = (e, s', c) -> s' ≠ ST_L3_U0.
Proof.
  intros Hs. unfold adjust_newstate.
  repeat case_match; intros; simplify_eq; try done; destruct s; try done; by rewrite ?andb_false_r in *.
Qed.

Lemma winv_set_state_other X Xp d a j s w :
  winv X Xp d a w -> live j w -> (X = None ∨ X = Some j) -> s ≠ ST_L3_U0 ->
  winv None Xp d a (cd_set_state_other j s w).2 ∧ live j (cd_set_state_other j s w).2.
Proof.
  intros HI Hl HX Hs. unfold cd_set_state_other.
  rewrite !run_bind. cbn [get_sc get_cntl get_hz get_cd gets fst snd].
  set (cd := N_call_desc (w_cntl w) !!! j). clearbody cd.
  destruct (adjust_newstate _ _ _ s) as [[e s'] c] eqn:Ead.
  apply adjust_not_null in Ead; [|done]. rewrite run_bind.
  set (w1 := (when c _ w).2).
  assert (view_of w1 = view_of w) as Hv1 by (subst w1; destruct c; [by apply frames_view_mod_cd|done]).
  assert (winv X Xp d a w1) as HI1 by (unfold winv; by rewrite Hv1).
  assert (live j w1) as Hl1 by (by eapply live_view). clearbody w1.
  rewrite run_bind. set (w2 := (mod_cd j _ w1).2).
  assert (live j w2) as Hl2 by (by apply live_mod_cd).
  assert (winv None Xp d a w2) as HI2.
  { pose proof Hl1 as (cd1 & i & Hj & Hid & Hp).
    eapply (winv_mod_cd X None); [done|done| | |].
    - intros c'. repeat split; try done. by left.
    - intros i' Hne ?. destruct HX; congruence.
    - intros _. unfold call_ok. cbn. destruct (Z.eqb_spec (cdid cd1) CDID_UNUSED); [done|].
      rewrite Hp. repeat split; try done; by eexists. }
  clearbody w2. match goal with |- winv _ _ _ _ (?m w2).2 ∧ _ => assert (frames_live j m) as Hm end.
  { unfold dss1_l3_tx_status_enquiry, dss1_l3_tx_information. crush_live. }
  split; [by apply (winv_frame _ _ _ _ j)|by apply live_frame].
Qed.

(** [cd_set_state] on a live call. *)
Lemma cd_set_state_run j s w cd i :
  N_call_desc (w_cntl w) !! j = Some cd -> cd_pipe cd = Some i ->
  (cd_set_state j s w).2 =
  (mod_cd j (λ cd, cd <| tone_gen_state := L3_STATES_Q931_CONV (cd_state cd) |>)
    ((if bool_decide (s = ST_L3_U0) then cd_set_state_null j i else cd_set_state_other j s)
      (mod_cd j (λ cd, cd <| cd_set_state_callout := None |>) w).2).2).2.
Proof.
  intros Hj Hp. unfold cd_set_state. rewrite run_bind. cbn [get_cd gets fst snd].
  by rewrite (list_lookup_total_correct _ _ _ Hj), Hp, run_bind, run_bind.
Qed.
Lemma winv_set_state X Xp d a j s w :
  winv X Xp d a w -> live j w -> (X = None ∨ X = Some j) ->
  winv None Xp d a (cd_set_state j s w).2 ∧
  (s ≠ ST_L3_U0 -> live j (cd_set_state j s w).2).
Proof.
  intros HI Hl HX. pose proof Hl as (cd & i & Hj & Hid & Hp).
  rewrite (cd_set_state_run j s w cd i Hj Hp). set (w1 := (mod_cd j _ w).2).
  assert (live j w1) as Hl1 by (by apply live_mod_cd).
  assert (winv (Some j) Xp d a w1) as HI1.
  { eapply (winv_mod_cd X (Some j)); [done|done| | |done].
    - intros c. repeat split; try done. by left.
    - intros i' Hne ?. destruct HX; congruence. }
  clearbody w1. case_bool_decide as Hs.
  - split; [|done]. unfold winv. rewrite frames_view_mod_cd by done.
    apply (winv_set_state_null (Some j)); auto.
  - destruct (winv_set_state_other (Some j) Xp d a j s w1) as [HI2 Hl2]; auto. split.
    + unfold winv. by rewrite frames_view_mod_cd by done.
    + intros _. eapply live_view; [|done]. by apply frames_view_mod_cd.
Qed.

(** ** What layer 3 expects of [dss1_pipe_activate_req]

    It brings the pipe out of the pause, keeps the invariant and touches no
    call.  The layer 2 file provides the instance. *)
Class PipeActivate (activate : nat -> M unit) : Prop := {
  activate_ok X d a i w :
    winv X None d a w -> (i < PIPE_MAX)%nat -> 0 <= d i < 2 ^ 30 ->
    winv X None d a (activate i w).2 ∧
    v_cds (view_of (activate i w).2) = v_cds (view_of w) ∧
    (∀ p, sc_pipe (w_sc (activate i w).2) !! i = Some p -> pipe_state p ≠ ST_L2_PAUSE) }.

Lemma live_cds j w w' : v_cds (view_of w') = v_cds (view_of w) -> live j w -> live j w'.
Proof.
  intros Hv (cd & i & Hj & Hid & Hp).
  assert (v_cds (view_of w') !! j = Some (core_of cd)) as Hk by (rewrite Hv; apply cds_lookup; eauto).
  apply cds_lookup in Hk as (cd' & Hj' & Heq). exists cd', i. unfold core_of in Heq.
  injection Heq as H1 H2 _ _ _ _. repeat split; congruence.
Qed.

(** [n] more references of pipe [i], counted but not held by a call. *)
Lemma vinv_add_ref X Xp d a v i n :
  vinv X Xp d a v ->
  vinv X Xp (λ i', d i' + n * is_pipe (Some i) i') a (upd_pipes (alter (add_ref n) i) v).
Proof.
  intros []. constructor; cbn [upd_pipes v_cds v_pipes v_l1 v_conn v_cdid_end v_cdid_count v_fault];
    try done.
  - by rewrite length_alter.
  - intros i' p (p0 & Hp0 & ->)%alter_lookup_Some. specialize (vi_refs0 i' p0 Hp0). unfold is_pipe.
    case_decide.
    + subst. rewrite bool_decide_eq_true_2 by done. cbn [b2z add_ref fst]. rewrite vi_refs0, u32_add_l.
      f_equal. lia.
    + rewrite bool_decide_eq_false_2 by congruence. rewrite vi_refs0. f_equal. cbn [b2z]. lia.
  - intros i' p (p0 & Hp0 & ->)%alter_lookup_Some Hne. specialize (vi_pipe0 i' p0 Hp0 Hne).
    by case_decide.
  - by destruct vi_chan0.
Qed.
Lemma vinv_add_l1 X Xp d a v :
  vinv X Xp d a v -> vinv X Xp d (a + 1) (upd_l1 1 v).
Proof.
  intros []. constructor; try done.
  - cbn. rewrite vi_l2, u32_add_l. f_equal. lia.
  - by destruct vi_chan0.
Qed.

Section set_pipe.
Context `{PipeActivate activate}.
Context (d : nat -> Z) (a : Z).

(** Binding call [j], which may be new, to pipe [i]. *)
Lemma winv_cd_set_pipe X j i w cd :
  winv X None d a w -> N_call_desc (w_cntl w) !! j = Some cd -> (X = None ∨ X = Some j) ->
  (i < PIPE_MAX)%nat -> 0 <= d i < 2 ^ 29 ->
  let w' := (cd_set_pipe activate j (Some i) w).2 in
  winv (Some j) None d a w' ∧
  v_cds (view_of w') = alter (set_k_pipe (Some i)) j (v_cds (view_of w)).
Proof.
  intros HI Hj HX Hi Hd w'. subst w'.
  destruct (frames_pipe_view activate j (Some i) w cd Hj) as [_ ->].
  rewrite !run_bind. set (w1 := (dss1_L1_activate_req _).2).
  assert (Hv1 : view_of w1 = upd_l1 1 (upd_pipes (alter (add_ref 1) i) (view_of w))).
  { subst w1. rewrite view_activate, (view_mod_ref i 1). done. }
  assert (HI1 : winv X None (λ i', d i' + 1 * is_pipe (Some i) i') (a + 1) w1).
  { unfold winv. rewrite Hv1. by apply vinv_add_l1, vinv_add_ref. }
  assert (Hc1 : v_cds (view_of w1) = v_cds (view_of w)) by (by rewrite Hv1). clearbody w1.
  assert (Hii : is_pipe (Some i) i = 1) by (unfold is_pipe; by rewrite bool_decide_eq_true_2).
  destruct (activate_ok X _ _ i w1 HI1 Hi) as (HI2 & Hc2 & Hst); [cbv beta; lia|].
  revert HI2 Hc2 Hst. generalize (activate i w1).2. intros w2 HI2 Hc2 Hst.
  assert (v_cds (view_of w2) !! j = Some (core_of cd)) as Hk.
  { rewrite Hc2, Hc1. apply cds_lookup. eauto. }
  pose proof Hk as (cd2 & Hj2 & Heq)%cds_lookup.
  assert (cd_pipe cd2 = k_pipe (core_of cd)) as Hp2 by (by rewrite Heq).
  unfold winv. rewrite (view_rebind j (Some i) w2 cd2 Hj2), Hp2. split.
  - eapply vinv_ext; [| |apply (vinv_rebind X None _ _ _ j (core_of cd) (Some i) HI2 Hk HX)].
    + intros i'. cbv beta. lia.
    + unfold has_pipe. rewrite bool_decide_eq_true_2 by done. cbn. lia.
    + by intros ? [= ->].
    + intros i' q [= <-] Hq _. cbn in Hq. rewrite list_lookup_fmap in Hq.
      destruct (sc_pipe (w_sc w2) !! i) as [p|] eqn:Ep; [|done]. simplify_eq/=. by apply Hst.
  - cbn. destruct (drop_ref_fields (cd_pipe cd) (view_of w2)) as [-> _]. by rewrite Hc2, Hc1.
Qed.
End set_pipe.
