(* ===== verification/L3Safe.v ===== *)
(** * Every layer 3 event keeps the invariant

    The handlers of [cd_update] run on a live call.  Most steps keep the
    invariant and the call ([keeps at_call]); the step that frees the call
    is the last one of its handler ([closes]). *)
From S2P Require Import Prelude Mbuf Dss1Types Dss1State L3Encoder CallDesc L3Fsm StackInv.
Local Open Scope Z_scope.

Lemma winv_restore j Xp d a w :
  winv (Some j) Xp d a w -> (∀ k, v_cds (view_of w) !! j = Some k -> call_ok k) ->
  winv None Xp d a w.
Proof.
  intros HI Hok. pose proof (vi_call _ _ _ _ _ HI) as Hcall. destruct HI. constructor; try done.
  intros j' k Hk _. destruct (decide (j' = j)) as [->|]; [by apply Hok|].
  apply (Hcall j'); congruence.
Qed.

Section handlers.
Context (Xp : option nat) (d : nat -> Z) (a : Z) (j : nat).

Definition at_call (w : world) : Prop := winv None Xp d a w ∧ live j w.
Definition closes (m : M unit) : Prop := triple at_call m (λ _ w, winv None Xp d a w).

Lemma at_frame {A} (m : M A) : frames_live j m -> keeps at_call m.
Proof. apply (keeps_live (vinv None Xp d a)). Qed.
Lemma at_set_state s : s ≠ ST_L3_U0 -> keeps at_call (cd_set_state j s).
Proof.
  intros Hs w [HI Hl]. destruct (winv_set_state None Xp d a j s w HI Hl) as [HI' Hl']; [by left|].
  split; auto.
Qed.
Lemma at_allocate : keeps at_call (cd_allocate_channel j).
Proof. intros w [HI Hl]. by apply winv_allocate_channel. Qed.
Lemma at_free_channel : keeps at_call (cd_free_channel j).
Proof.
  intros w [HI Hl]. split; [by apply winv_free_channel, live_used|by apply live_free_channel].
Qed.

Lemma closes_keeps m : keeps at_call m -> closes m.
Proof. intros Hm w Hw. by apply (Hm w Hw). Qed.
Lemma closes_bind {A} (m : M A) (k : A -> M unit) :
  keeps at_call m -> (∀ x, closes (k x)) -> closes (m ≫= k).
Proof. intros Hm Hk w Hw. rewrite run_bind. by apply Hk, Hm. Qed.
Lemma closes_when b m : closes m -> closes (when b m).
Proof. destruct b; [done|]. intros _ w [HI _]. done. Qed.
Lemma closes_set_state s : closes (cd_set_state j s).
Proof. intros w [HI Hl]. apply (winv_set_state None); auto. Qed.

Lemma with_sc_run k w : live j w -> (with_sc j k w).2 = (k (w_sc w) w).2.
Proof.
  intros (cd & i & Hj & _ & Hp). unfold with_sc. rewrite run_bind. cbn [get_cd gets fst snd].
  by rewrite (list_lookup_total_correct _ _ _ Hj), Hp, run_bind.
Qed.
Lemma closes_with_sc k : (∀ sc, closes (k sc)) -> closes (with_sc j k).
Proof. intros Hk w [HI Hl]. rewrite with_sc_run by done. by apply Hk. Qed.
Lemma at_with_sc k : (∀ sc, keeps at_call (k sc)) -> keeps at_call (with_sc j k).
Proof. intros Hk w [HI Hl]. rewrite with_sc_run by done. by apply Hk. Qed.
End handlers.
#[export] Hint Resolve at_allocate at_free_channel closes_set_state : i4b.
#[export] Hint Extern 2 (keeps (at_call _ _ _ _) (cd_set_state _ _)) =>
  apply at_set_state; discriminate : i4b.

(** The proof of a handler: go through its code, close each step from the
    hint base. *)
Ltac call_step :=
  match goal with
  | |- closes _ _ _ _ (_ ≫= _) => apply closes_bind; [|intros ?]
  | |- closes _ _ _ _ (when _ _) => apply closes_when
  | |- closes _ _ _ _ (with_sc _ _) => apply closes_with_sc; intros ?
  | |- keeps (at_call _ _ _ _) (with_sc _ _) => apply at_with_sc; intros ?
  | |- closes _ _ _ _ (if ?b then _ else _) => destruct b eqn:?
  | |- closes _ _ _ _ (match ?x with _ => _ end) => destruct x eqn:?
  | |- keeps _ _ => crush_step
  end.
Ltac crush_call :=
  repeat first
    [ match goal with
      | |- closes _ _ _ _ (if ?b then _ else _) => let E := fresh in destruct b as [|] eqn:E; clear E
      | |- closes _ _ _ _ (_ ≫= _) => apply closes_bind; [|intros ?]
      end
    | solve [eauto with i4b nocore]
    | solve [apply closes_keeps; eauto with i4b nocore]
    | solve [apply at_frame; crush_live]
    | solve [apply closes_keeps, at_frame; crush_live]
    | call_step ].

Section events.
Context (Xp : option nat) (d : nat -> Z) (a : Z) (j : nat).
Abbreviation closes := (closes Xp d a j).
Abbreviation at_call := (at_call Xp d a j).

Lemma closes_sms_release : closes (sms_release j).
Proof. unfold sms_release. crush_call. Qed.
Lemma closes_no_channel sc : closes (no_channel_available j sc).
Proof. unfold no_channel_available. crush_call. Qed.
Lemma at_try_allocate : keeps at_call (try_allocate_channel j).
Proof. unfold try_allocate_channel. crush_call. Qed.
Lemma at_hold_channel : keeps at_call (hold_channel j).
Proof. unfold hold_channel. crush_call. Qed.
Lemma at_relink : keeps at_call (relink_channel j).
Proof. unfold relink_channel. crush_call. Qed.
End events.
#[export] Hint Resolve closes_sms_release closes_no_channel at_try_allocate at_hold_channel
  at_relink : i4b.

Section events2.
Context (Xp : option nat) (d : nat -> Z) (a : Z) (j : nat).
Abbreviation closes := (closes Xp d a j).

Lemma closes_connect_ack : closes (event_connect_ack j).
Proof. unfold event_connect_ack. crush_call. Qed.
Lemma closes_disconnect st : closes (ev_disconnect j st).
Proof. unfold ev_disconnect. crush_call. Qed.
Lemma closes_status st : closes (ev_status j st).
Proof.
  unfold ev_status. apply closes_bind; [auto with i4b|intros cd].
  destruct st; cbn [when bool_decide L3_state_pred]; crush_call.
Qed.
Lemma closes_hold_ind st : closes (ev_hold_ind j st).
Proof. unfold ev_hold_ind, dss1_l3_tx_hold_acknowledge. crush_call. Qed.
Lemma closes_retrieve_ind : closes (ev_retrieve_ind j).
Proof. unfold ev_retrieve_ind, dss1_l3_tx_retrieve_acknowledge. crush_call. Qed.
Lemma closes_hold_req st : closes (ev_hold_req j st).
Proof. unfold ev_hold_req, dss1_l3_tx_hold. crush_call. Qed.
Lemma closes_retrieve_req : closes (ev_retrieve_req j).
Proof. unfold ev_retrieve_req, dss1_l3_tx_retrieve. crush_call. Qed.
Lemma closes_retrieve_ack : closes (ev_retrieve_ack j).
Proof. unfold ev_retrieve_ack. crush_call. Qed.
Lemma closes_setuprq st : closes (ev_setuprq j st).
Proof. unfold ev_setuprq. crush_call. Qed.
Lemma closes_inforq st : closes (ev_inforq j st).
Proof. unfold ev_inforq, dss1_l3_tx_information. crush_call. Qed.
Lemma closes_callprc st : closes (ev_callprc j st).
Proof. unfold ev_callprc. crush_call. Qed.
Lemma closes_setupak st : closes (ev_setupak j st).
Proof. pose proof closes_callprc. unfold ev_setupak. crush_call. Qed.
Lemma closes_alert st : closes (ev_alert j st).
Proof. unfold ev_alert. crush_call. Qed.
Lemma closes_setup_answer sc b : closes (setup_answer j sc b).
Proof. unfold setup_answer, dss1_l3_tx_setup_acknowledge, dss1_l3_tx_call_proceeding. crush_call. Qed.
Lemma closes_setup st : closes (ev_setup j st).
Proof. pose proof closes_setup_answer. unfold ev_setup. crush_call. Qed.
Lemma closes_info st : closes (ev_info j st).
Proof.
  unfold ev_info. destruct (decide (st = ST_L3_IN_ACK)) as [->|]; [crush_call|].
  rewrite bool_decide_eq_false_2 by done. crush_call.
Qed.
Lemma closes_proceedingrq st : closes (ev_proceedingrq j st).
Proof. unfold ev_proceedingrq, dss1_l3_tx_call_proceeding. crush_call. Qed.
Lemma closes_alertrq st : closes (ev_alertrq j st).
Proof. unfold ev_alertrq, dss1_l3_tx_call_proceeding, dss1_l3_tx_alert. crush_call. Qed.
Lemma closes_progressrq st : closes (ev_progressrq j st).
Proof. unfold ev_progressrq, dss1_l3_tx_progress. crush_call. Qed.
Lemma closes_setacrs st : closes (ev_setacrs j st).
Proof.
  pose proof closes_connect_ack.
  unfold ev_setacrs, dss1_l3_tx_call_proceeding, dss1_l3_tx_connect. crush_call.
Qed.
Lemma closes_conack st : closes (ev_conack j st).
Proof. pose proof closes_connect_ack. unfold ev_conack. crush_call. Qed.
End events2.
#[export] Hint Resolve closes_connect_ack closes_disconnect closes_status closes_hold_ind
  closes_retrieve_ind closes_hold_req closes_retrieve_req closes_retrieve_ack closes_setuprq
  closes_inforq closes_callprc closes_setupak closes_alert closes_setup closes_info
  closes_proceedingrq closes_alertrq closes_progressrq closes_setacrs closes_conack : i4b.

Section update.
Context `{PipeActivate activate}.
Context (d : nat -> Z) (a : Z).

Lemma at_set_pipe j i :
  (i < PIPE_MAX)%nat -> 0 <= d i < 2 ^ 29 ->
  keeps (at_call None d a j) (cd_set_pipe activate j (Some i)).
Proof.
  intros Hi Hd w [HI (cd & i0 & Hj & Hid & Hp)].
  destruct (winv_cd_set_pipe d a None j i w cd HI Hj (or_introl eq_refl) Hi Hd) as [HI' Hc].
  assert (Hk : v_cds (view_of w) !! j = Some (core_of cd)) by (apply cds_lookup; eauto).
  assert (Hk' : v_cds (view_of (cd_set_pipe activate j (Some i) w).2) !! j =
            Some (set_k_pipe (Some i) (core_of cd))).
  { by rewrite Hc, list_lookup_alter_eq, Hk. }
  pose proof (vi_call _ _ _ _ _ HI j _ Hk ltac:(done)) as Hok. split.
  - apply (winv_restore j); [done|]. rewrite Hk'. intros k [= <-]. unfold call_ok in *. cbn in *.
    destruct (Z.eqb_spec (cdid cd) CDID_UNUSED); [done|]. by destruct Hok as (_ & ? & ?).
  - apply cds_lookup in Hk' as (cd' & Hj' & Heq). exists cd', i.
    unfold core_of, set_k_pipe in Heq. injection Heq as H1 H2 _ _ _ _. cbn in H1.
    repeat split; congruence.
Qed.

Lemma closes_connect j i st :
  (i < PIPE_MAX)%nat -> 0 <= d i < 2 ^ 29 ->
  closes None d a j (ev_connect activate j (Some i) st).
Proof.
  intros Hi Hd. pose proof (at_set_pipe j i Hi Hd).
  unfold ev_connect, dss1_l3_tx_release_complete_complement, dss1_l3_tx_connect_acknowledge.
  crush_call.
Qed.

(** Only CONNECT binds the call to the pipe the event came from. *)
Definition event_pipe_ok (pipe : option nat) (event : L3_EVENTS) : Prop :=
  event = EV_L3_CONNECT ->
  ∃ i, pipe = Some i ∧ (i < PIPE_MAX)%nat ∧ 0 <= d i < 2 ^ 29.

Lemma closes_cd_event j pipe event st :
  event_pipe_ok pipe event -> closes None d a j (cd_event activate j pipe event st).
Proof.
  intros Hc. unfold cd_event. destruct event;
    try (unfold dss1_l3_tx_deflect_call, dss1_l3_tx_mcid_call; crush_call; fail).
  destruct (Hc eq_refl) as (i & -> & Hi & Hd). by apply closes_connect.
Qed.
Lemma closes_cd_update j pipe event :
  event_pipe_ok pipe event -> closes None d a j (cd_update activate j pipe event).
Proof.
  intros Hc. unfold cd_update. apply closes_bind; [auto with i4b|intros cd].
  pose proof (closes_cd_event j pipe event (cd_state cd) Hc).
  destruct (if dir_incoming cd then _ else _); crush_call.
Qed.
End update.
