(* ===== verification/L3Reset.v ===== *)
(** * Isolation of the calls and the reset of a pipe

    An event on one call leaves the other calls alone; the reset of a pipe
    releases every call that is bound to it. *)
From S2P Require Import Prelude Mbuf Dss1Types Dss1State L3Encoder CallDesc L3Fsm StackInv L3Safe.
Local Open Scope Z_scope.

(** ** An event on one call leaves the other calls alone *)
Section isolation.
Context (j j' : nat) (Hne : j ≠ j').
Definition other_call (w : world) : option call_desc := N_call_desc (w_cntl w) !! j'.

Lemma other_mod_cd f : frames other_call (mod_cd j f).
Proof. intros w. unfold other_call. cbn. by rewrite list_lookup_alter_ne. Qed.
Lemma other_mod_pipe i f : frames other_call (mod_pipe i f).
Proof. by intros w. Qed.
Lemma other_mod_sc f : frames other_call (mod_sc f).
Proof. by intros w. Qed.
Lemma other_emit o : frames other_call (emit o).
Proof. by intros w. Qed.
Lemma other_util k b : frames other_call (mod_cntl (SET_CHANNEL_UTILIZATION k b)).
Proof. by intros w. Qed.
Lemma other_get_mbuf n : frames other_call (get_mbuf n).
Proof. unfold get_mbuf. crush. by intros w. Qed.
Lemma other_get_env : frames other_call (gets w_env).
Proof. by intros w. Qed.
#[local] Hint Resolve other_mod_cd other_mod_pipe other_mod_sc other_emit other_util
  other_get_mbuf other_get_env : i4b.

Lemma other_data_req i m : frames other_call (dss1_pipe_data_req i m).
Proof. unfold dss1_pipe_data_req. crush. Qed.
#[local] Hint Resolve other_data_req : i4b.
Lemma other_tx_frame i n msg m : frames other_call (tx_frame i n msg m).
Proof. unfold tx_frame. crush. Qed.
Lemma other_q850 c : frames other_call (q850_cause c).
Proof. unfold q850_cause. crush. Qed.
#[local] Hint Resolve other_tx_frame other_q850 : i4b.
Lemma other_tx_setup : frames other_call (dss1_l3_tx_setup j).
Proof. unfold dss1_l3_tx_setup. crush. Qed.
Lemma other_tx_message mt fl : frames other_call (dss1_l3_tx_message j mt fl).
Proof. unfold dss1_l3_tx_message. crush. Qed.
#[local] Hint Resolve other_tx_setup other_tx_message : i4b.
Lemma other_tx_complement a b mt fl : frames other_call (dss1_l3_tx_message_complement j a b mt fl).
Proof. unfold dss1_l3_tx_message_complement. crush. Qed.
Lemma other_link b : frames other_call (i4b_link_bchandrvr j b).
Proof. unfold i4b_link_bchandrvr, bchandrvr_disconnect, link_setup_driver. crush. Qed.
Lemma other_l4_ind ind : frames other_call (l4_ind ind j).
Proof. unfold l4_ind. crush. Qed.
Lemma other_allocate : frames other_call (cd_allocate_channel j).
Proof. unfold cd_allocate_channel. crush. Qed.
Lemma other_free_channel : frames other_call (cd_free_channel j).
Proof. unfold cd_free_channel. crush. Qed.
#[local] Hint Resolve other_tx_complement other_link other_l4_ind other_allocate
  other_free_channel : i4b.
Lemma other_activity : frames other_call dss1_L1_activity_timeout.
Proof. unfold dss1_L1_activity_timeout. crush. Qed.
#[local] Hint Resolve other_activity : i4b.
Lemma other_n_free_cd : frames other_call (n_free_cd j).
Proof.
  unfold n_free_cd, i4b_l4_disconnect_ind, cd_set_appl_interface, cd_set_pipe, i4b_free_cd,
    dss1_L1_deactivate_req. crush.
Qed.
#[local] Hint Resolve other_n_free_cd : i4b.
Lemma other_set_state s : frames other_call (cd_set_state j s).
Proof.
  unfold cd_set_state, cd_set_state_null, cd_set_state_other, dss1_pipe_data_acknowledge,
    dss1_l3_tx_release_complete_complement, dss1_l3_tx_release_complete,
    dss1_l3_tx_status_enquiry, dss1_l3_tx_information.
  crush.
Qed.
#[local] Hint Resolve other_set_state : i4b.

(** CONNECT may bring up a pipe, and with it repeat the SETUP of calls
    that wait there; no other event touches a second call. *)
Lemma other_cd_update activate pipe event :
  event ≠ EV_L3_CONNECT -> frames other_call (cd_update activate j pipe event).
Proof.
  intros He. unfold cd_update. apply frames_bind; [auto with i4b|intros cd].
  destruct (if dir_incoming cd then _ else _); [|auto with i4b]. generalize (cd_state cd). intros st.
  unfold cd_event. destruct event; try done;
  unfold ev_disconnect, ev_status, ev_hold_ind, ev_retrieve_ind, ev_hold_req, ev_retrieve_req,
    ev_retrieve_ack, ev_setuprq, ev_inforq, ev_setupak, ev_callprc, ev_alert, ev_setup,
    setup_answer, ev_info, ev_proceedingrq, ev_alertrq, ev_progressrq, ev_setacrs, ev_conack,
    event_connect_ack, sms_release, no_channel_available, with_sc, try_allocate_channel,
    hold_channel, relink_channel, i4b_l4_connect_ind, set_cause_out,
    dss1_l3_tx_status, dss1_l3_tx_hold_reject, dss1_l3_tx_retrieve_reject, dss1_l3_tx_hold,
    dss1_l3_tx_hold_acknowledge, dss1_l3_tx_retrieve_acknowledge, dss1_l3_tx_retrieve,
    dss1_l3_tx_information, dss1_l3_tx_setup_acknowledge, dss1_l3_tx_call_proceeding,
    dss1_l3_tx_alert, dss1_l3_tx_progress, dss1_l3_tx_connect, dss1_l3_tx_deflect_call,
    dss1_l3_tx_mcid_call; crush.
Qed.
End isolation.

Definition bound_to (i : nat) (w : world) (j : nat) : Prop :=
  ∃ cd, N_call_desc (w_cntl w) !! j = Some cd ∧ cdid cd ≠ CDID_UNUSED ∧ cd_pipe cd = Some i.

(** ** [dss1_pipe_reset_ind] releases every call of the pipe *)
Lemma n_free_cd_unused j w cd :
  N_call_desc (w_cntl (n_free_cd j w).2) !! j = Some cd -> cdid cd = CDID_UNUSED.
Proof.
  unfold n_free_cd. rewrite !run_bind. unfold i4b_free_cd.
  generalize (cd_free_channel j (cd_set_pipe (λ _ : nat, mret tt) j None
    (cd_set_appl_interface j 0 0 (i4b_l4_disconnect_ind j w).2).2).2).2. intros w1. cbn.
  rewrite list_lookup_alter_eq. destruct (_ !! j); [|done]. by intros [= <-].
Qed.
Lemma set_state_null_unused j w cd :
  live j w -> N_call_desc (w_cntl (cd_set_state j ST_L3_U0 w).2) !! j = Some cd ->
  cdid cd = CDID_UNUSED.
Proof.
  intros (cd0 & i & Hj & Hid & Hp). rewrite (cd_set_state_run j _ w cd0 i Hj Hp).
  rewrite bool_decide_eq_true_2 by done. unfold cd_set_state_null. rewrite !run_bind.
  match goal with |- context [n_free_cd j ?w0] =>
    pose proof (n_free_cd_unused j w0) as Hf; revert Hf; generalize (n_free_cd j w0).2 end.
  intros w1 Hf. cbn. rewrite list_lookup_alter_eq.
  destruct (N_call_desc (w_cntl w1) !! j) as [cd1|]; [|done].
  intros [= <-]. by apply (Hf cd1).
Qed.

Section reset.
Context (activate : nat -> M unit) (Xp : option nat) (d : nat -> Z) (a : Z) (i : nat).

Lemma release_is_set_state j pipe w :
  (cd_update activate j pipe EV_L3_RELEASE w).2 = (cd_set_state j ST_L3_U0 w).2.
Proof.
  unfold cd_update. rewrite run_bind. cbn [get_cd gets fst snd].
  by destruct (dir_incoming _).
Qed.

(** One round of the loop: [j] is not bound to [i] any more, no other call
    is newly bound to it. *)
Lemma reset_round j w :
  winv None Xp d a w ->
  let w' := ((cd ← get_cd j;
              when (negb (cdid cd =? CDID_UNUSED) && bool_decide (cd_pipe cd = Some i))
                (cd_update activate j None EV_L3_RELEASE)) w).2 in
  winv None Xp d a w' ∧ ~ bound_to i w' j ∧ ∀ j', bound_to i w' j' -> bound_to i w j'.
Proof.
  intros HI w'. subst w'. rewrite run_bind. cbn [get_cd gets fst snd]. rewrite run_when.
  destruct (negb _ && _) eqn:E.
  - apply andb_true_iff in E as [E1%negb_true_iff%Z.eqb_neq E2%bool_decide_eq_true].
    assert (live j w) as Hl.
    { destruct (N_call_desc (w_cntl w) !! j) as [cd|] eqn:Hj.
      - rewrite (list_lookup_total_correct _ _ _ Hj) in *. by exists cd, i.
      - rewrite list_lookup_total_alt, Hj in E1. done. }
    rewrite release_is_set_state.
    destruct (winv_set_state None Xp d a j ST_L3_U0 w HI Hl) as [HI' _]; [by left|].
    assert (Hj : ~ bound_to i (cd_set_state j ST_L3_U0 w).2 j).
    { intros (cd & Hcd & Hid & _). by apply Hid, (set_state_null_unused j w cd Hl). }
    split; [done|]. split; [done|].
    intros j' Hb. destruct (decide (j = j')) as [->|Hne]; [done|].
    pose proof (other_set_state j j' Hne ST_L3_U0 w) as Ho.
    unfold bound_to, other_call in *. by rewrite Ho in Hb.
  - split; [done|]. split; [|done]. intros (cd & Hj & Hid & Hp).
    rewrite (list_lookup_total_correct _ _ _ Hj) in E.
    rewrite Hp, bool_decide_eq_true_2, andb_true_r in E by done.
    by apply negb_false_iff, Z.eqb_eq in E.
Qed.

Lemma reset_ind_spec w :
  winv None Xp d a w ->
  let w' := (dss1_pipe_reset_ind activate i w).2 in
  winv None Xp d a w' ∧ ∀ j, ~ bound_to i w' j.
Proof.
  intros HI w'. subst w'. unfold dss1_pipe_reset_ind. rewrite run_bind. cbn [gets fst snd].
  set (body := λ j, _ ≫= _).
  assert (∀ l w, winv None Xp d a w -> winv None Xp d a (for_each l body w).2 ∧
            ∀ j, bound_to i (for_each l body w).2 j -> bound_to i w j ∧ j ∉ l) as Hloop.
  { clear w HI. induction l as [|j l IH]; intros w HI; [split; [done|]; intros j Hb; by split; [|apply not_elem_of_nil]|].
    cbn [for_each]. rewrite run_bind. destruct (reset_round j w HI) as (HI1 & Hj & Hmono).
    destruct (IH _ HI1) as [HI2 Hl]. split; [exact HI2|]. intros j' Hb.
    destruct (Hl j' Hb) as [Hb1 Hni]. split; [by apply Hmono|].
    apply not_elem_of_cons. split; [|done]. by intros ->. }
  destruct (Hloop (cd_indices w) w HI) as [HI' Hb]. split; [done|].
  intros j Hj. destruct (Hb j Hj) as [(cd & Hcd & _) Hni]. apply Hni, elem_of_seq.
  apply lookup_lt_Some in Hcd. lia.
Qed.
End reset.
