(* ===== verification/L3Link.v ===== *)
(** * Layer 3 and the links

    Apart from CONNECT, which may bring up a pipe, no event changes the link
    a pipe maintains: its state, timers, TEI and sequence numbers.  Layer 3
    only adds to its queue, marks frames in it, and counts references. *)
From S2P Require Import Prelude Mbuf Dss1Types Dss1State L3Encoder CallDesc L3Fsm StackInv.
Local Open Scope Z_scope.

(** Everything of a pipe but its queue and reference count. *)
Record link := Link {
  k_pstate : L2_STATES; k_tei : Z; k_serial : Z; k_window : Z * Z; k_numbers : Z * Z;
  k_timers : callout * callout }.
Definition link_of (p : pipe) : link :=
  Link (pipe_state p) (tei p) (serial_number p) (tx_window_size p, tx_window_length p)
    (rx_nr p, tx_nr p) (get_mbuf_callout p, pipe_set_state_callout p).
Definition links (w : world) : list link := link_of <$> sc_pipe (w_sc w).

(** ** Observations layer 3 leaves alone *)
Section frame_l3.
(** [obs] sees no field of a call, of the queue or of the reference count
    of a pipe, nor the state of layer 1. *)
Context {B : Type} (obs : world -> B).
Hypothesis obs_mod_cd : ∀ j f, frames obs (mod_cd j f).
Hypothesis obs_util : ∀ k b, frames obs (mod_cntl (SET_CHANNEL_UTILIZATION k b)).
Hypothesis obs_emit : ∀ o, frames obs (emit o).
Hypothesis obs_get_mbuf : ∀ n, frames obs (get_mbuf n).
Hypothesis obs_mod_pipe : ∀ i f, (∀ p, link_of (f p) = link_of p) -> frames obs (mod_pipe i f).
Hypothesis obs_mod_sc : ∀ f, (∀ s, sc_pipe (f s) = sc_pipe s) -> frames obs (mod_sc f).
#[local] Hint Resolve obs_mod_cd obs_util obs_emit obs_get_mbuf : i4b.
#[local] Hint Extern 1 (frames obs (mod_pipe _ _)) => apply obs_mod_pipe; intros; reflexivity : i4b.
#[local] Hint Extern 1 (frames obs (mod_sc _)) => apply obs_mod_sc; intros; reflexivity : i4b.

Lemma l3_data_req i m : frames obs (dss1_pipe_data_req i m).
Proof. unfold dss1_pipe_data_req. crush. Qed.
#[local] Hint Resolve l3_data_req : i4b.
Lemma l3_tx_frame i n msg m : frames obs (tx_frame i n msg m).
Proof. unfold tx_frame. crush. Qed.
Lemma l3_q850 c : frames obs (q850_cause c).
Proof. unfold q850_cause. crush. Qed.
#[local] Hint Resolve l3_tx_frame l3_q850 : i4b.
Lemma l3_tx_setup j : frames obs (dss1_l3_tx_setup j).
Proof. unfold dss1_l3_tx_setup. crush. Qed.
Lemma l3_tx_message j mt fl : frames obs (dss1_l3_tx_message j mt fl).
Proof. unfold dss1_l3_tx_message. crush. Qed.
#[local] Hint Resolve l3_tx_setup l3_tx_message : i4b.
Lemma l3_tx_complement j a b mt fl : frames obs (dss1_l3_tx_message_complement j a b mt fl).
Proof. unfold dss1_l3_tx_message_complement. crush. Qed.
Lemma l3_link j b : frames obs (i4b_link_bchandrvr j b).
Proof. unfold i4b_link_bchandrvr, bchandrvr_disconnect, link_setup_driver. crush. Qed.
Lemma l3_l4_ind ind j : frames obs (l4_ind ind j).
Proof. unfold l4_ind. crush. Qed.
Lemma l3_allocate j : frames obs (cd_allocate_channel j).
Proof. unfold cd_allocate_channel. crush. Qed.
Lemma l3_free_channel j : frames obs (cd_free_channel j).
Proof. unfold cd_free_channel. crush. Qed.
Lemma l3_activity : frames obs dss1_L1_activity_timeout.
Proof. unfold dss1_L1_activity_timeout. crush. Qed.
#[local] Hint Resolve l3_tx_complement l3_link l3_l4_ind l3_allocate
  l3_free_channel l3_activity : i4b.
Lemma l3_n_free_cd j : frames obs (n_free_cd j).
Proof.
  unfold n_free_cd, i4b_l4_disconnect_ind, cd_set_appl_interface, cd_set_pipe, i4b_free_cd,
    dss1_L1_deactivate_req. crush.
Qed.
#[local] Hint Resolve l3_n_free_cd : i4b.
Lemma l3_set_state j s : frames obs (cd_set_state j s).
Proof.
  unfold cd_set_state, cd_set_state_null, cd_set_state_other, dss1_pipe_data_acknowledge,
    dss1_l3_tx_release_complete_complement, dss1_l3_tx_release_complete,
    dss1_l3_tx_status_enquiry, dss1_l3_tx_information.
  crush.
Qed.
#[local] Hint Resolve l3_set_state : i4b.

Lemma l3_cd_update activate j pipe event :
  event ≠ EV_L3_CONNECT -> frames obs (cd_update activate j pipe event).
Proof.
  intros He. unfold cd_update. apply frames_bind; [auto with i4b|intros cd].
  destruct (if dir_incoming cd then _ else _); [|auto with i4b]. generalize (cd_state cd). intros st.
  unfold cd_event. destruct event; try done;
  unfold ev_disconnect, ev_status, ev_hold_ind, ev_retrieve_ind, ev_hold_req, ev_retrieve_req,
    ev_retrieve_ack, ev_setuprq, ev_inforq, ev_setupak, ev_callprc, ev_alert, ev_setup,
    setup_answer, ev_info, ev_proceedingrq, ev_alertrq, ev_progressrq, ev_setacrs, ev_conack,
    event_connect_ack, sms_release, no_channel_available, with_sc, try_allocate_channel,
    hold_channel, relink_channel, i4b_l4_connect_ind, set_cause_out,
    dss1_l3_tx_status, dss1_l3_tx_hold_reject, dss1_l3_tx_retrieve_reject, dss1_l3_tx_hold,
    dss1_l3_tx_hold_acknowledge, dss1_l3_tx_retrieve_acknowledge, dss1_l3_tx_retrieve,
    dss1_l3_tx_information, dss1_l3_tx_setup_acknowledge, dss1_l3_tx_call_proceeding,
    dss1_l3_tx_alert, dss1_l3_tx_progress, dss1_l3_tx_connect, dss1_l3_tx_deflect_call,
    dss1_l3_tx_mcid_call; crush.
Qed.
Lemma l3_reset_ind activate i : frames obs (dss1_pipe_reset_ind activate i).
Proof.
  unfold dss1_pipe_reset_ind. apply frames_bind; [auto with i4b|intros l]. apply frames_for_each. intros j.
  apply frames_bind; [auto with i4b|intros cd]. apply frames_when. by apply l3_cd_update.
Qed.
End frame_l3.

(** ** The links, and the number of call descriptors *)
Lemma links_mod_pipe i f : (∀ p, link_of (f p) = link_of p) -> frames links (mod_pipe i f).
Proof. intros Hf w. unfold links. cbn. by rewrite alter_fmap_same. Qed.
Lemma links_mod_sc f : (∀ s, sc_pipe (f s) = sc_pipe s) -> frames links (mod_sc f).
Proof. intros Hf w. unfold links. cbn. by rewrite Hf. Qed.
Definition ncalls (w : world) : nat := length (N_call_desc (w_cntl w)).
Lemma ncalls_mod_cd j f : frames ncalls (mod_cd j f).
Proof. intros w. unfold ncalls. cbn. by rewrite length_alter. Qed.

(** The side conditions of the section, for these observations. *)
Ltac frame_l3 :=
  try by intros; intros ?;
  try (intros; unfold get_mbuf; crush; by intros ?).

Lemma links_cd_update activate j pipe event :
  event ≠ EV_L3_CONNECT -> frames links (cd_update activate j pipe event).
Proof. apply l3_cd_update; auto using links_mod_pipe, links_mod_sc; frame_l3. Qed.
Lemma links_reset_ind activate i : frames links (dss1_pipe_reset_ind activate i).
Proof. apply l3_reset_ind; auto using links_mod_pipe, links_mod_sc; frame_l3. Qed.
Lemma ncalls_set_state j s : frames ncalls (cd_set_state j s).
Proof. apply l3_set_state; auto using ncalls_mod_cd; frame_l3. Qed.
