(* ===== verification/L2Pipe.v ===== *)
(** * Pipes: supervisory frames, TEI management and the layer 2 states
      (dss1_l2fsm.c)

    The transmission of S- and U-frames, the TEI procedures of both sides
    of the line, [dss1_pipe_set_state] with its timeout, and
    [dss1_pipe_activate_req].  The reset of a pipe releases its calls; no
    pipe is brought up on that path, so it is given an idle activation
    ([reset_ind_knot]). *)
From S2P Require Import Prelude Mbuf Dss1Types Dss1State Buffer L3Encoder CallDesc L3Fsm.
From S2P Require Import L3Decoder.
Local Open Scope Z_scope.

(** ** Frames of layer 2 *)
Definition dss1_l2_data_req (m : mbuf) : M unit :=
  sc ← get_sc;
  if IF_QFULL (sc_ifq sc) || negb (nonzero (L1_activity sc)) || negb (sc_fifo_translator sc)
  then mret tt
  else
    mod_sc (λ s, s <| sc_ifq ::= IF_ENQUEUE m |>);;
    emit L1_FIFO_START.

(** [L1_FIFO_START(sc->sc_fifo_translator)] *)
Definition fifo_start : M unit :=
  sc ← get_sc;
  if sc_fifo_translator sc then emit L1_FIFO_START else emit FAULT.

(** The four bytes of an S-frame; a U-frame ends behind the third. *)
Definition cntl_frame (p : pipe) (sapi cntl : Z) (m : mbuf) : mbuf :=
  let nr := Z.land (Z.shiftl (rx_nr p) 1) 0xFE in
  let nr := if GET_CR_BIT sapi =? CR_RESPONSE then Z.lor nr 1 else nr in
  (m_put OFF_CNTL cntl (m_put OFF_TEI (tei p) (m_put OFF_SAPI sapi (m_put OFF_RX_NR nr m))))
    <| m_len := if negb (bit_set cntl 2) then S_FRAME_LEN else U_FRAME_LEN |>.
Definition dss1_cntl_tx_frame (i : nat) (crbit cntl : Z) : M unit :=
  p ← get_pipe i;
  when (L2_STATE_IS_TEI_ASSIGNED (pipe_state p))
    (m ← get_mbuf (Nat.max S_FRAME_LEN U_FRAME_LEN);
     match m with
     | None => mret tt
     | Some m => dss1_l2_data_req (cntl_frame p (MAKE_SAPI SAPI_CCP crbit) cntl m)
     end).

(** ** Unused pipes and TEI values *)
Definition unused_pipe (i : nat) (p : pipe) : bool :=
  bool_decide (pipe_state p = ST_L2_PAUSE) && negb (i =? 0)%nat.
Definition unused_pipes (sc : l2softc) : list nat :=
  filter (λ i, unused_pipe i (sc_pipe sc !!! i) = true) (seq 0 (length (sc_pipe sc))).
Definition dss1_get_unused_pipe (sc : l2softc) : option nat := head (unused_pipes sc).
Definition dss1_count_unused_pipes (sc : l2softc) : Z := u16 (Z.of_nat (length (unused_pipes sc))).

(** [M128INC(sc_tei_last); sc_tei_last |= 0x80 |1] *)
Definition next_TEI (last : Z) : Z := u8 (Z.lor (M128INC last) (Z.lor 0x80 1)).
Definition tei_in_use (pipes : list pipe) (t : Z) : bool := existsb (λ p, tei p =? t) pipes.
(** The loop at [repeat]. *)
Fixpoint get_unused_TEI_loop (fuel : nat) (pipes : list pipe) (last : Z) : option Z :=
  match fuel with
  | O => None
  | S fuel =>
      let t := next_TEI last in
      if tei_in_use pipes t then get_unused_TEI_loop fuel pipes t else Some t
  end.
(** There are 64 automatic values. *)
Definition TEI_fuel : nat := 64.
Definition dss1_get_unused_TEI : M Z :=
  sc ← get_sc;
  match get_unused_TEI_loop TEI_fuel (sc_pipe sc) (sc_tei_last sc) with
  | Some t => mod_sc (λ s, s <| sc_tei_last := t |>);; mret t
  | None => mret (sc_tei_last sc)
  end.

(** ** TEI management frames *)
Definition tei_frame (p : pipe) (type : Z) (m : mbuf) : mbuf :=
  let '(ri0, ri1) :=
    if tei p <? 0x80 then (0, 0)
    else (u8 (serial_number p), u8 (Z.shiftr (serial_number p) 8)) in
  m_fill [MAKE_SAPI SAPI_L2M CR_COMMAND; TEI_BROADCAST; CNTL_UI; MEI_TEI_MANAGEMENT;
          ri0; ri1; type; tei p] m.
Definition dss1_tei_tx_frame (i : nat) (type : Z) : M unit :=
  sc ← get_sc;
  if IS_POINT_TO_POINT sc then mret tt
  else
    when (type =? MT_ID_REQUEST) (mod_pipe i (λ p, p <| tei := TEI_BROADCAST |>));;
    m ← get_mbuf TEI_FRAME_LEN;
    match m with
    | None => mret tt
    | Some m => p ← get_pipe i; dss1_l2_data_req (tei_frame p type m)
    end.

(** ** The state of a pipe *)

(** [ST_L2_SINGLE_FRAME]: a pipe nobody uses and with nothing to send is
    given up. *)
Definition set_state_single_frame (i : nat) : M unit :=
  sc ← get_sc;
  p ← get_pipe i;
  pipe_adapter ← get_pipe 0;
  when ((refcount p =? 0) && IF_QEMPTY (pipe_ifq p))
    (if IS_POINT_TO_POINT sc || (NT_MODE sc && nonzero (refcount pipe_adapter)) then fifo_start
     else
       when (NT_MODE sc && negb (IS_POINT_TO_POINT sc) && negb (i =? 0)%nat)
         (dss1_cntl_tx_frame i CR_COMMAND (Z.lor CNTL_DISC CNTL_PF_BIT);;
          dss1_cntl_tx_frame i CR_COMMAND (Z.lor CNTL_DISC CNTL_PF_BIT));;
       mod_pipe i (λ p, p <| pipe_state := ST_L2_PAUSE |>)).

(** [ST_L2_SEND_TEI]; [true] is [goto done]. *)
Definition set_state_send_tei (i : nat) : M bool :=
  sc ← get_sc;
  p ← get_pipe i;
  if nonzero (refcount p) then
    let adapter_nt := negb (IS_POINT_TO_POINT sc) && NT_MODE sc && (i =? 0)%nat in
    let te := negb (IS_POINT_TO_POINT sc) && TE_MODE sc in
    if adapter_nt then dss1_pipe_resend_ind i;; mret true
    else if te && TEI_IS_AUTOMATIC p then dss1_tei_tx_frame i MT_ID_REQUEST;; mret true
    else
      when te (mod_pipe i (λ p, p <| tei := u8 (serial_number p) |>));;
      mod_pipe i (λ p, p <| pipe_state := ST_L2_SEND_SABME |>);;
      mret false
  else mod_pipe i (λ p, p <| pipe_state := ST_L2_PAUSE |>);; mret false.

(** [ST_L2_PAUSE]: release the calls, drop the frames, reset the counters. *)
Definition set_state_pause (i : nat) : M unit :=
  dss1_pipe_reset_ind (λ _, mret tt) i;;
  mod_pipe i (λ p, p <| pipe_ifq ::= IF_DRAIN |> <| tx_window_size := 0 |>
                     <| tx_window_length := 0 |> <| rx_nr := 0 |> <| tx_nr := 0 |>
                     <| get_mbuf_callout := None |>).

Definition rearm_pipe (i : nat) : M unit :=
  hz ← get_hz;
  p ← get_pipe i;
  when (negb (bool_decide (pipe_state p = ST_L2_PAUSE)))
    (mod_pipe i (λ p, p <| pipe_set_state_callout :=
                             Some (L2_STATES_TIMEOUT_DELAY (pipe_state p) * hz) |>)).

Definition dss1_pipe_set_state (i : nat) (newstate : L2_STATES) : M unit :=
  sc ← get_sc;
  p ← get_pipe i;
  if (L2_state_val (pipe_state p) <=? L2_state_val ST_L2_SEND_TEI) &&
     (L2_state_val ST_L2_SEND_TEI + 2 <=? L2_state_val newstate)
  then mret tt
  else
    mod_pipe i (λ p, p <| pipe_state := newstate |> <| pipe_set_state_callout := None |>);;
    when (bool_decide (newstate = ST_L2_SINGLE_FRAME)) (set_state_single_frame i);;
    p ← get_pipe i;
    goto_done ← (if bool_decide (pipe_state p = ST_L2_SEND_TEI) then set_state_send_tei i
                 else mret false);
    p ← get_pipe i;
    (if goto_done : bool then mret tt
     else if bool_decide (pipe_state p = ST_L2_SEND_SABME) then
       when (TE_MODE sc || IS_POINT_TO_POINT sc)
         (dss1_cntl_tx_frame i CR_COMMAND (Z.lor CNTL_SABME CNTL_PF_BIT))
     else when (bool_decide (pipe_state p = ST_L2_PAUSE)) (set_state_pause i));;
    rearm_pipe i.

(** The callout has fired: it is no longer armed. *)
Definition dss1_pipe_set_state_timeout (i : nat) : M unit :=
  mod_pipe i (λ p, p <| pipe_set_state_callout := None |>);;
  sc ← get_sc;
  p ← get_pipe i;
  when (sc_fifo_translator sc)
    (dss1_pipe_set_state i (L2_STATES_TIMEOUT_STATE (pipe_state p))).

Definition dss1_pipe_activate_req (i : nat) : M unit :=
  p ← get_pipe i;
  when (bool_decide (pipe_state p = ST_L2_PAUSE))
    (mod_pipe i (λ p, p <| refcount ::= λ n, u32 (n + 1) |>);;
     dss1_pipe_set_state i ST_L2_SEND_TEI;;
     mod_pipe i (λ p, p <| refcount ::= λ n, u32 (n - 1) |>)).

(** ** Received TEI management frames *)
Definition tei_rx_assign (ai ri : Z) : M unit :=
  sc ← get_sc;
  when (TE_MODE sc)
    (p ← get_pipe 0;
     when (tei p =? ai) (dss1_pipe_set_state 0 ST_L2_PAUSE);;
     p ← get_pipe 0;
     when (bool_decide (pipe_state p = ST_L2_SEND_TEI) && (serial_number p =? ri))
       (mod_pipe 0 (λ p, p <| tei := ai |>);;
        emit (L4_TEIASG (sc_unit sc) ai);;
        dss1_pipe_set_state 0 ST_L2_SEND_SABME)).

Definition tei_rx_check_request (ai : Z) : M unit :=
  sc ← get_sc;
  p ← get_pipe 0;
  when (TE_MODE sc && negb (TEI_IS_AUTOMATIC p)) (dss1_pipe_activate_req 0);;
  p ← get_pipe 0;
  when (L2_STATE_IS_TEI_ASSIGNED (pipe_state p) && ((ai =? tei p) || (ai =? TEI_BROADCAST)))
    (dss1_tei_tx_frame 0 MT_ID_CHECK_RESPONSE).

Definition tei_rx_remove (ai : Z) : M unit :=
  p ← get_pipe 0;
  when (L2_STATE_IS_TEI_ASSIGNED (pipe_state p) && ((ai =? tei p) || (ai =? TEI_BROADCAST)))
    (dss1_pipe_set_state 0 ST_L2_PAUSE).

(** The network gives a free pipe and TEI to the terminal that asks, at
    most one per second once half of the pipes are in use. *)
Definition tei_rx_request (ri : Z) : M unit :=
  sc ← get_sc;
  hz ← get_hz;
  when (NT_MODE sc)
    (let limited := dss1_count_unused_pipes sc <=? Z.of_nat (PIPE_MAX / 2) in
     if limited && bool_decide (ID_REQUEST_callout sc ≠ None) then mret tt
     else
       when limited (mod_sc (λ s, s <| ID_REQUEST_callout := Some (1 * hz) |>));;
       match dss1_get_unused_pipe sc with
       | None => mret tt
       | Some i =>
           mod_pipe i (λ p, p <| serial_number := ri |>);;
           t ← dss1_get_unused_TEI;
           mod_pipe i (λ p, p <| tei := t |>);;
           dss1_tei_tx_frame i MT_ID_REMOVE;;
           dss1_tei_tx_frame i MT_ID_REMOVE;;
           dss1_tei_tx_frame i MT_ID_ASSIGN;;
           dss1_pipe_activate_req i
       end).

Definition dss1_tei_rx_frame (buf : dss1_buffer) : M unit :=
  sc ← get_sc;
  if IS_POINT_TO_POINT sc then mret tt
  else
    let mt := dss1_get_1 buf (Z.of_nat OFF_MT) in
    let ai := dss1_get_1 buf (Z.of_nat OFF_AI) in
    let ri := Z.lor (dss1_get_1 buf (Z.of_nat OFF_RI + 0))
                    (Z.shiftl (dss1_get_1 buf (Z.of_nat OFF_RI + 1)) 8) in
    if mt =? MT_ID_ASSIGN then tei_rx_assign ai ri
    else if mt =? MT_ID_CHECK_REQUEST then tei_rx_check_request ai
    else if mt =? MT_ID_REMOVE then tei_rx_remove ai
    else if mt =? MT_ID_REQUEST then tei_rx_request ri
    else mret tt.
(** [ID_REQUEST_timeout]: the callout has fired. *)
Definition ID_REQUEST_timeout : M unit := mod_sc (λ s, s <| ID_REQUEST_callout := None |>).
