(* ===== verification/L2Fsm.v ===== *)
(** * Sending and receiving frames (dss1_l2fsm.c)

    [dss1_l2_put_mbuf] takes a frame from layer 1, [dss1_l2_get_mbuf] gives
    the next frame to layer 1, [dss1_l2_get_mbuf_timeout] starts the
    repetition, [dss1_setup_ft] connects and disconnects the stack.  The
    layer 3 operations are tied to [dss1_pipe_activate_req] here. *)
From S2P Require Import Prelude Mbuf Dss1Types Dss1State Buffer L3Encoder CallDesc L3Fsm.
From S2P Require Import L3Decoder L2Pipe.
Local Open Scope Z_scope.

Definition pipe_data_ind : nat -> dss1_buffer -> bool -> M unit :=
  dss1_pipe_data_ind dss1_pipe_activate_req.

(** ** Frames from layer 1 *)

(** [PIPE_FOREACH(pipe) if (pipe->tei == tei) goto TEI_found;] *)
Definition pipe_by_tei (sc : l2softc) (t : Z) : option nat :=
  fst <$> list_find (λ p, (tei p =? t) = true) (sc_pipe sc).

(** The frames that do not wake up a pipe. *)
Definition no_activation (p : pipe) (cntl : Z) : bool :=
  bool_decide (pipe_state p = ST_L2_PAUSE) && bit_set cntl 1 &&
  (let c := Z.land cntl (Z.lnot CNTL_PF_BIT) in
   (c =? CNTL_UA) || (c =? CNTL_DM) || (c =? CNTL_DISC)).

(** A multi-point network takes the pipe with this TEI, or an unused one. *)
Definition find_pipe_nt (t : Z) : M (option nat) :=
  sc ← get_sc;
  match pipe_by_tei sc t with
  | Some i => mret (Some i)
  | None =>
      match dss1_get_unused_pipe sc with
      | Some i => mod_pipe i (λ p, p <| tei := t |>);; mret (Some i)
      | None => mret None
      end
  end.
Definition select_pipe_nt (t cntl : Z) : M (option nat) :=
  r ← find_pipe_nt t;
  match r with
  | None => mret None
  | Some i =>
      p ← get_pipe i;
      if no_activation p cntl then mret None
      else dss1_pipe_activate_req i;; mret (Some i)
  end.

(** The pipe a frame belongs to; [None] is [goto done]. *)
Definition select_pipe (t cntl : Z) : M (option nat) :=
  sc ← get_sc;
  p ← get_pipe 0;
  if t =? TEI_BROADCAST then mret (Some 0%nat)
  else if IS_POINT_TO_POINT sc then
    if negb (tei p =? t) then mret None
    else dss1_pipe_activate_req 0;; mret (Some 0%nat)
  else if TE_MODE sc then
    if negb (tei p =? t) || negb (L2_STATE_IS_TEI_ASSIGNED (pipe_state p)) then mret None
    else mret (Some 0%nat)
  else select_pipe_nt t cntl.

(** The label [check_NR]: the acknowledgement in the frame. *)
Definition check_NR (i : nat) (buf : dss1_buffer) : M unit :=
  p ← get_pipe i;
  let old := tx_nr p in
  let new := GET_NR (dss1_get_1 buf (Z.of_nat OFF_RX_NR)) in
  mod_pipe i (λ p, p <| tx_nr := new |>);;
  let nr := u8 (new - old) mod NR_MAX in
  when (negb (nr =? 0))
    (if tx_window_length p <? nr then
       dss1_pipe_set_state i ST_L2_SINGLE_FRAME;;
       mod_pipe i (λ p, p <| tx_window_size := 0 |> <| tx_window_length := 0 |>)
     else
       dss1_pipe_set_state i ST_L2_MULTI_FRAME;;
       mod_pipe i (λ p, p <| tx_window_length ::= λ n, u8 (n - nr) |>);;
       p ← get_pipe i;
       when (tx_window_length p =? 0) fifo_start).

(** The answer to an I-frame, and to a polling S-frame. *)
Definition answer (i : nat) (buf : dss1_buffer) (cntl crbit resp : Z) : M unit :=
  let nr := dss1_get_1 buf (Z.of_nat OFF_RX_NR) in
  when (negb (bit_set cntl 1))
    (if resp =? CNTL_REJ then dss1_cntl_tx_frame i CR_COMMAND CNTL_REJ
     else if bit_set nr 1 then dss1_cntl_tx_frame i CR_RESPONSE resp
     else
       p ← get_pipe i;
       when (ifq_len (pipe_ifq p) <=? tx_window_size p) (dss1_cntl_tx_frame i CR_COMMAND resp));;
  when ((crbit =? CR_COMMAND) && nonzero (Z.land (Z.land cntl nr) 1))
    (dss1_cntl_tx_frame i CR_RESPONSE CNTL_RR).

(** S- and U-frames. *)
Definition put_su_frame (i : nat) (buf : dss1_buffer) (sapi cntl : Z) (broadcast : bool) : M unit :=
  let c := Z.land cntl (Z.lnot CNTL_PF_BIT) in
  if c =? CNTL_UI then
    if sapi =? SAPI_L2M then
      when (dss1_get_1 buf (Z.of_nat OFF_MEI) =? MEI_TEI_MANAGEMENT) (dss1_tei_rx_frame buf)
    else when (sapi =? SAPI_CCP)
      (pipe_data_ind i (buf <| offset := Z.of_nat U_FRAME_LEN |>) broadcast)
  else if c =? CNTL_SABME then
    dss1_cntl_tx_frame i CR_RESPONSE (Z.lor CNTL_UA (Z.land cntl CNTL_PF_BIT));;
    dss1_pipe_set_state i ST_L2_SEND_UA;;
    mod_pipe i (λ p, p <| rx_nr := 0 |>)
  else when (c =? CNTL_DISC)
    (dss1_cntl_tx_frame i CR_RESPONSE (Z.lor CNTL_UA (Z.land cntl CNTL_PF_BIT));;
     dss1_pipe_set_state i ST_L2_PAUSE).

(** I-frames: the one that is expected goes to layer 3; the response. *)
Definition put_i_frame (i : nat) (buf : dss1_buffer) (broadcast : bool) : M Z :=
  p ← get_pipe i;
  if rx_nr p =? GET_NR (dss1_get_1 buf (Z.of_nat OFF_TX_NR)) then
    mod_pipe i (λ p, p <| rx_nr ::= M128INC |>);;
    pipe_data_ind i (buf <| offset := Z.of_nat I_HEADER_LEN |>) broadcast;;
    mret CNTL_RR
  else mret CNTL_REJ.

Definition frame_crbit (sc : l2softc) (buf : dss1_buffer) : Z :=
  let crbit := GET_CR_BIT (dss1_get_1 buf (Z.of_nat OFF_SAPI)) in
  if TE_MODE sc then Z.lxor crbit (Z.lor CR_COMMAND CR_RESPONSE) else crbit.

Definition put_frame (i : nat) (buf : dss1_buffer) (sapi crbit cntl : Z) (broadcast : bool)
  : M unit :=
  if bit_set cntl 1 then
    put_su_frame i buf sapi cntl broadcast;;
    when (negb (bit_set cntl 2))
      (check_NR i buf;; answer i buf cntl crbit CNTL_RR)
  else
    resp ← put_i_frame i buf broadcast;
    check_NR i buf;;
    answer i buf cntl crbit resp.

Definition dss1_l2_put_mbuf (m : mbuf) : M unit :=
  let buf := dss1_buf_init (drop (m_off m) (m_buf m)) (Z.of_nat (m_len m)) in
  mod_sc (λ s, s <| sc_received_frame := true |>);;
  sc ← get_sc;
  let sapi := GET_SAPI (dss1_get_1 buf (Z.of_nat OFF_SAPI)) in
  let t := dss1_get_1 buf (Z.of_nat OFF_TEI) in
  let cntl := dss1_get_1 buf (Z.of_nat OFF_CNTL) in
  r ← select_pipe t cntl;
  match r with
  | None => mret tt
  | Some i => put_frame i buf sapi (frame_crbit sc buf) cntl (t =? TEI_BROADCAST)
  end.

(** ** Frames to layer 1 *)

(** The repetition timer has fired. *)
Definition dss1_l2_get_mbuf_timeout (i : nat) : M unit :=
  mod_pipe i (λ p, p <| get_mbuf_callout := None |>);;
  sc ← get_sc;
  when (sc_fifo_translator sc)
    (mod_pipe i (λ p, p <| tx_window_size ::= λ n, u8 (n - tx_window_length p) |>
                        <| tx_window_length := 0 |>);;
     fifo_start).

(** A zero length I-frame in the queue. *)
Definition is_ZIF (m : option mbuf) : bool :=
  match m with Some m => (m_len m <=? I_HEADER_LEN)%nat | None => false end.
(** The loop from [insert_second_ZIF]; [false] if there is no memory. *)
Fixpoint insert_ZIF (fuel : nat) (i : nat) : M bool :=
  match fuel with
  | O => mret false
  | S fuel =>
      m ← get_mbuf I_HEADER_LEN;
      match m with
      | None => mret false
      | Some m =>
          mod_pipe i (λ p, p <| pipe_ifq ::= IF_PREPEND m |>);;
          p ← get_pipe i;
          if is_ZIF (ifq (pipe_ifq p) !! 1%nat) then mret true else insert_ZIF fuel i
      end
  end.
(** Two frames in front are all that is ever missing. *)
Definition make_ZIFs (i : nat) : M unit :=
  p ← get_pipe i;
  if is_ZIF (ifq (pipe_ifq p) !! 0%nat) && is_ZIF (ifq (pipe_ifq p) !! 1%nat) then mret tt
  else insert_ZIF 2 i;; mret tt.

(** [pipe->tx_window_length == 0]: drop what is acknowledged and open a new
    window. *)
Definition open_window (i : nat) : M unit :=
  mod_pipe i (λ p, p <| pipe_ifq ::= λ q, q <| ifq ::= drop (Z.to_nat (tx_window_size p)) |> |>
                     <| tx_window_size := 0 |>);;
  p ← get_pipe i;
  let assigned := L2_STATE_IS_TEI_ASSIGNED (pipe_state p) in
  let probe := (tx_nr p =? 0x7F) || (tx_nr p =? 0) ||
               (L2_state_val (pipe_state p) <=? L2_state_val ST_L2_SINGLE_FRAME) in
  let nr_length_max := if negb assigned then 0x7F else if probe then 2 else u8 (0x7F - tx_nr p) in
  when (assigned && probe) (make_ZIFs i);;
  mod_pipe i (λ p, let n := u8 (Z.min nr_length_max (ifq_len (pipe_ifq p))) in
                   p <| get_mbuf_callout := None |> <| tx_window_length := n |>
                     <| tx_window_size := n |>);;
  p ← get_pipe i;
  mod_sc (λ s, s <| sc_current_mbuf := 0%nat |> <| sc_current_length := tx_window_size p |>
                 <| sc_current_tx_nr := tx_nr p |>).

(** The header of an unnumbered frame; the frame is one byte shorter. *)
Definition ui_header (m : mbuf) : mbuf :=
  let m := if m_proto1 m then m
           else m <| m_proto1 := true |> <| m_off ::= S |> <| m_len ::= pred |> in
  m_put OFF_CNTL CNTL_UI (m_put OFF_TEI TEI_BROADCAST
    (m_put OFF_SAPI (MAKE_SAPI SAPI_CCP CR_COMMAND) m)).
(** The header of a numbered frame; the last one of a window polls. *)
Definition i_header (p : pipe) (nr : Z) (last : bool) (m : mbuf) : mbuf :=
  let rx := Z.land (Z.shiftl (rx_nr p) 1) 0xfe in
  m_put OFF_RX_NR (if last then Z.lor rx 1 else rx)
    (m_put OFF_TX_NR (Z.land (Z.shiftl nr 1) 0xfe)
      (m_put OFF_TEI (tei p) (m_put OFF_SAPI (MAKE_SAPI SAPI_CCP CR_COMMAND) m))).

(** The copy layer 1 gets.  A zero length frame carries a dummy STATUS
    ENQUIRY, unless those are turned off. *)
Definition frame_copy (m : mbuf) : M (option mbuf) :=
  sc ← get_sc;
  cntl ← get_cntl;
  if (m_len m <? (if m_proto1 m then I_HEADER_LEN else I_HEADER_LEN + 1))%nat then
    m' ← get_mbuf (m_len m + 16);
    mret (m' ← m';
          let hdr := take (m_len m) (drop (m_off m) (m_buf m)) in
          Some (m_fill (hdr ++ (if no_layer3_status_enquiry cntl then []
                                else [PD_Q931] ++ make_callreference (IS_PRIMARY_RATE sc) 0x7f ++
                                     [STATUS_ENQUIRY])) m'))
  else
    avail ← get_mbuf 0;
    mret (avail' ← avail; Some m).

(** [if(sc->sc_current_length)]: the next frame of the window. *)
Definition send_current (i : nat) : M (option mbuf) :=
  sc ← get_sc;
  p ← get_pipe i;
  match ifq (pipe_ifq p) !! sc_current_mbuf sc with
  | None => emit FAULT;; mret None
  | Some m =>
      let assigned := L2_STATE_IS_TEI_ASSIGNED (pipe_state p) in
      let m := if negb assigned then ui_header m
               else i_header p (sc_current_tx_nr sc) (sc_current_length sc =? 1) m in
      mod_pipe i (λ p, p <| pipe_ifq ::= λ q, q <| ifq ::= <[sc_current_mbuf sc := m]> |> |>);;
      when (negb assigned) (mod_pipe i (λ p, p <| tx_window_length ::= λ n, u8 (n - 1) |>));;
      mod_sc (λ s, s <| sc_current_mbuf ::= S |> <| sc_current_length ::= λ n, u8 (n - 1) |>
                     <| sc_current_tx_nr ::= λ n, u8 (n + 1) |>);;
      frame_copy m
  end.

(** The body of the [do] loop for one pipe. *)
Definition poll_pipe (i : nat) : M (option mbuf) :=
  sc ← get_sc;
  p ← get_pipe i;
  if L2_STATE_IS_TEI_ASSIGNED (pipe_state p) ||
     (NT_MODE sc && negb (IS_POINT_TO_POINT sc) && (i =? 0)%nat)
  then
    when (tx_window_length p =? 0) (open_window i);;
    sc ← get_sc;
    if nonzero (sc_current_length sc) then send_current i else mret None
  else mret None.
Definition skip_pipe (i : nat) : M unit :=
  hz ← get_hz;
  p ← get_pipe i;
  when (nonzero (ifq_len (pipe_ifq p)) && bool_decide (get_mbuf_callout p = None))
    (mod_pipe i (λ p, p <| get_mbuf_callout := Some hz |>));;
  mod_sc (λ s, s <| sc_current_length := 0 |>).
Fixpoint poll_pipes (l : list nat) : M (option mbuf) :=
  match l with
  | [] => mret None
  | i :: l =>
      m ← poll_pipe i;
      match m with
      | Some m => mod_sc (λ s, s <| sc_current_pipe := i |>);; mret (Some m)
      | None => skip_pipe i;; poll_pipes l
      end
  end.

(** The pipes from [k] on, once around. *)
Definition rotation (n k : nat) : list nat := map (λ x, (x `mod` n)%nat) (seq k n).

(** The network inverts the C/R bit of what it sends. *)
Definition invert_crbit (sc : l2softc) (m : mbuf) : mbuf :=
  if NT_MODE sc then m_put OFF_SAPI (Z.lxor (m_get m OFF_SAPI) 0x02) m else m.

Definition dss1_l2_get_mbuf : M (option mbuf) :=
  sc ← get_sc;
  let '(m, q) := IF_DEQUEUE (sc_ifq sc) in
  mod_sc (λ s, s <| sc_ifq := q |>);;
  m ← match m with
      | Some m => mret (Some m)
      | None => poll_pipes (rotation PIPE_MAX (sc_current_pipe sc))
      end;
  mret (invert_crbit sc <$> m).

(** ** Connecting and disconnecting the stack *)
Inductive dss1_driver := DRVR_DSS1_TE | DRVR_DSS1_NT | DRVR_DSS1_P2P_TE | DRVR_DSS1_P2P_NT.
Definition driver_nt (d : dss1_driver) : bool :=
  match d with DRVR_DSS1_NT | DRVR_DSS1_P2P_NT => true | _ => false end.
Definition driver_p2p (d : dss1_driver) : bool :=
  match d with DRVR_DSS1_P2P_TE | DRVR_DSS1_P2P_NT => true | _ => false end.
Definition MAX_QUEUE_PER_CHANNEL : Z := 16.

(** [max_channels] *)
Definition queue_channels (c : controller) : Z :=
  if L1_channel_end c <? 3 then 3 else L1_channel_end c.

(** Pipe [i] as the loop over the pipes leaves it. *)
Definition setup_pipe (p2p : bool) (c : controller) (i : nat) : pipe :=
  {| refcount := 0; pipe_state := ST_L2_PAUSE; get_mbuf_callout := None;
     pipe_set_state_callout := None;
     tei := if p2p && (i =? 0)%nat then TEI_POINT2POINT else TEI_BROADCAST;
     serial_number := u16 (Z.lor ((N_serial_number c + Z.of_nat i) * 2) 1);
     pipe_ifq := Ifqueue [] (queue_channels c * MAX_QUEUE_PER_CHANNEL);
     tx_window_size := 0; tx_window_length := 0; rx_nr := 0; tx_nr := 0 |}.

Definition setup_sc (d : dss1_driver) (c : controller) : l2softc :=
  {| sc_unit := unit_no c; sc_tei_last := 0; sc_received_frame := false;
     L1_deactivate_count := 0; L1_activity := 0; L1_auto_activate := 0;
     sc_nt_mode := driver_nt d; sc_primary_rate := L1_type_is_pri c;
     sc_point_to_point := driver_p2p d;
     sc_ifq := Ifqueue []
       (if driver_nt d && negb (driver_p2p d)
        then queue_channels c * (Z.of_nat PIPE_MAX * MAX_QUEUE_PER_CHANNEL)
        else queue_channels c * MAX_QUEUE_PER_CHANNEL);
     ID_REQUEST_callout := None; L1_activity_callout := None;
     sc_pipe := map (setup_pipe (driver_p2p d) c) (seq 0 PIPE_MAX);
     sc_current_pipe := 0%nat; sc_current_mbuf := 0%nat; sc_current_length := 0;
     sc_current_tx_nr := 0; sc_fifo_translator := true |}.

(** [pp->protocol_1] set: connect. *)
Definition dss1_connect_ft (d : dss1_driver) : M unit :=
  mod_cntl (λ c, c <| N_call_desc ::= map (λ _, bzero_cd) |>
                   <| N_channel_utilization ::= map (λ _, 0) |>);;
  emit (CMR_NT_MODE (driver_nt d));;
  c ← get_cntl;
  mod_sc (λ _, setup_sc d c);;
  mod_cntl (λ c, c <| N_cdid_end := 0x7F |>);;
  dss1_L1_activity_timeout;;
  mod_cntl (SET_CHANNEL_UTILIZATION CHAN_D1 true).

(** [pp->protocol_1] clear: disconnect.  The translator is gone before the
    pipes are paused. *)
Definition dss1_disconnect_ft : M unit :=
  mod_sc (λ s, s <| sc_fifo_translator := false |> <| L1_activity := 0 |> <| L1_auto_activate := 0 |>
                 <| L1_deactivate_count := 0 |> <| sc_current_length := 0 |>
                 <| ID_REQUEST_callout := None |> <| L1_activity_callout := None |>);;
  idx ← gets pipe_indices;
  for_each idx (λ i,
    dss1_pipe_set_state i ST_L2_PAUSE;;
    mod_pipe i (λ p, p <| pipe_set_state_callout := None |> <| get_mbuf_callout := None |>));;
  mod_sc (λ s, s <| sc_ifq ::= IF_DRAIN |>).
