(* ===== verification/L2Safe.v ===== *)
(** * Layer 2 keeps the invariant

    [dss1_pipe_set_state] from any state to any state, the activation of a
    pipe (the instance of [PipeActivate] layer 3 is proved against) and the
    TEI procedures. *)
From S2P Require Import Prelude Mbuf Dss1Types Dss1State Buffer L3Encoder CallDesc L3Fsm.
From S2P Require Import L3Decoder StackInv L3Safe L3Reset L2Pipe.
Local Open Scope Z_scope.

(** ** Frames leave the invariant alone *)
Lemma frames_view_l2_data_req m : frames view_of (dss1_l2_data_req m).
Proof. unfold dss1_l2_data_req. crush. by intros w. Qed.
#[export] Hint Resolve frames_view_l2_data_req : i4b.
Lemma frames_view_cntl_tx i c n : frames view_of (dss1_cntl_tx_frame i c n).
Proof. unfold dss1_cntl_tx_frame. crush. Qed.
Lemma frames_view_tei_tx i t : frames view_of (dss1_tei_tx_frame i t).
Proof. unfold dss1_tei_tx_frame. crush. Qed.
Lemma frames_view_unused_TEI : frames view_of dss1_get_unused_TEI.
Proof. unfold dss1_get_unused_TEI. crush. by intros w. Qed.
#[export] Hint Resolve frames_view_cntl_tx frames_view_tei_tx frames_view_unused_TEI : i4b.

Lemma live_of_read j w i :
  cdid (N_call_desc (w_cntl w) !!! j) ≠ CDID_UNUSED ->
  cd_pipe (N_call_desc (w_cntl w) !!! j) = Some i -> live j w.
Proof.
  intros Hid Hp. destruct (N_call_desc (w_cntl w) !! j) as [cd|] eqn:Hj.
  - rewrite (list_lookup_total_correct _ _ _ Hj) in *. by exists cd, i.
  - rewrite list_lookup_total_alt, Hj in Hid. done.
Qed.

Lemma frames_view_resend i : frames view_of (dss1_pipe_resend_ind i).
Proof.
  unfold dss1_pipe_resend_ind. apply frames_bind; [auto with i4b|intros l].
  apply frames_for_each. intros j w. rewrite run_bind. cbn [get_cd gets fst snd]. rewrite run_when.
  destruct (negb _ && _ && _) eqn:E; [|done].
  apply andb_true_iff in E as [[E1%negb_true_iff%Z.eqb_neq E2%bool_decide_eq_true]%andb_true_iff _].
  pose proof (live_of_read j w i E1 E2) as Hl. clear E1 E2.
  set (cd := N_call_desc (w_cntl w) !!! j) in *. clearbody cd.
  match goal with |- view_of (?m w).2 = _ => assert (frames_live j m) as Hm by crush_live end.
  by apply Hm.
Qed.
#[export] Hint Resolve frames_view_resend : i4b.

(** ** Changes of a pipe *)
Lemma pipes_lookup w i q :
  v_pipes (view_of w) !! i = Some q <-> ∃ p, sc_pipe (w_sc w) !! i = Some p ∧ q = pcore_of p.
Proof.
  cbn. rewrite list_lookup_fmap. destruct (sc_pipe (w_sc w) !! i) as [p|]; simpl.
  - split; [intros [= <-]; eauto|intros (? & [= <-] & ->); done].
  - split; [done|intros (? & ? & _); done].
Qed.

(** The state of pipe [i] may only be [ST_L2_PAUSE] if no call is bound to it. *)
Definition pause_free (i : nat) (w : world) : Prop :=
  ∀ p, sc_pipe (w_sc w) !! i = Some p -> pipe_state p = ST_L2_PAUSE ->
       nrefs i (v_cds (view_of w)) = 0.

Lemma winv_mod_pipe X Xp Xp' d a i f w :
  winv X Xp d a w ->
  (∀ p, refcount (f p) = refcount p) ->
  (∀ i', Some i' ≠ Xp' -> i' ≠ i -> Some i' ≠ Xp) ->
  (Some i ≠ Xp' -> ∀ p, sc_pipe (w_sc w) !! i = Some p ->
     pipe_ok (v_cds (view_of w)) i (pcore_of (f p))) ->
  winv X Xp' d a (mod_pipe i f w).2.
Proof.
  intros HI Hf HX Hok.
  assert (Hl : ∀ i' q, v_pipes (view_of (mod_pipe i f w).2) !! i' = Some q ->
     ∃ p, sc_pipe (w_sc w) !! i' = Some p ∧ q = pcore_of (if decide (i' = i) then f p else p)).
  { intros i' q (p & Hp & ->)%pipes_lookup. cbn in Hp.
    apply alter_lookup_Some in Hp as (p0 & Hp0 & ->). by exists p0. }
  pose proof (vi_refs _ _ _ _ _ HI) as Hr. pose proof (vi_pipe _ _ _ _ _ HI) as Hpk.
  pose proof (vi_pipes _ _ _ _ _ HI) as Hlen. pose proof (vi_chan _ _ _ _ _ HI) as Hch.
  destruct HI. constructor; try done.
  - cbn in *. by rewrite !length_fmap in *; rewrite length_alter.
  - intros i' q (p & Hp & ->)%Hl. specialize (Hr i' (pcore_of p)).
    assert ((pcore_of (if decide (i' = i) then f p else p)).1.1 = (pcore_of p).1.1) as ->.
    { case_decide; [apply Hf|done]. }
    apply Hr. apply pipes_lookup. eauto.
  - intros i' q (p & Hp & ->)%Hl Hne. case_decide; [subst; by apply Hok|].
    apply (Hpk i'); [apply pipes_lookup; eauto|by apply HX].
  - by destruct Hch.
Qed.

Lemma keeps_frame {A} X Xp d a (m : M A) : frames view_of m -> keeps (winv X Xp d a) m.
Proof. apply (keeps_view (vinv X Xp d a)). Qed.
Lemma keeps_fifo_start X Xp d a : keeps (winv X Xp d a) fifo_start.
Proof.
  intros w HI. unfold fifo_start. rewrite run_bind. cbn [get_sc gets fst snd].
  pose proof (vi_conn _ _ _ _ _ HI) as Hc. cbn in Hc. rewrite Hc. by apply (keeps_frame X Xp d a).
Qed.
Lemma keeps_pipe_state X d a i f :
  (∀ p, refcount (f p) = refcount p) ->
  keeps (winv X (Some i) d a) (mod_pipe i f).
Proof.
  intros Hf w HI. eapply (winv_mod_pipe X (Some i) (Some i)); [done|done|done|done].
Qed.
#[export] Hint Resolve keeps_fifo_start : i4b.
#[export] Hint Extern 1 (keeps (winv _ (Some _) _ _) (mod_pipe _ _)) =>
  apply keeps_pipe_state; intros; reflexivity : i4b.
#[export] Hint Extern 3 (keeps (winv _ _ _ _) _) => apply keeps_frame; solve [crush] : i4b.

Lemma keeps_single_frame X d a i : keeps (winv X (Some i) d a) (set_state_single_frame i).
Proof. unfold set_state_single_frame. crush. Qed.
Lemma keeps_send_tei X d a i : keeps (winv X (Some i) d a) (set_state_send_tei i).
Proof. unfold set_state_send_tei. crush. Qed.

(** ** [dss1_pipe_set_state] *)
Lemma nrefs_unbound i Xp d a w :
  winv None Xp d a w -> (∀ j, ~ bound_to i w j) -> nrefs i (v_cds (view_of w)) = 0.
Proof.
  intros HI Hb. unfold nrefs.
  destruct (filter _ _) as [|k l] eqn:E; [done|]. exfalso.
  assert (k ∈ filter (λ k, k_pipe k = Some i) (v_cds (view_of w))) as Hk by (rewrite E; by left).
  apply list_elem_of_filter in Hk as [Hp [j Hk]%list_elem_of_lookup]. apply (Hb j).
  pose proof (vi_call _ _ _ _ _ HI j k Hk ltac:(done)) as Hok. unfold call_ok in Hok.
  apply cds_lookup in Hk as (cd & Hj & ->). exists cd. split; [done|]. cbn in *.
  destruct (Z.eqb_spec (cdid cd) CDID_UNUSED); [|done]. destruct Hok. congruence.
Qed.

Definition pstate (i : nat) (w : world) : L2_STATES := pipe_state (sc_pipe (w_sc w) !!! i).

Lemma pause_free_intro i w :
  (i < length (sc_pipe (w_sc w)))%nat ->
  (pstate i w = ST_L2_PAUSE -> nrefs i (v_cds (view_of w)) = 0) -> pause_free i w.
Proof.
  intros Hi H p Hp Hs. apply H. unfold pstate. by rewrite (list_lookup_total_correct _ _ _ Hp).
Qed.
Lemma winv_pipes X Xp d a w i :
  winv X Xp d a w -> (i < PIPE_MAX)%nat -> (i < length (sc_pipe (w_sc w)))%nat.
Proof. intros HI Hi. pose proof (vi_pipes _ _ _ _ _ HI) as Hl. cbn in Hl. rewrite length_fmap in Hl. lia. Qed.

Lemma pstate_view i w w' : view_of w' = view_of w -> pstate i w' = pstate i w.
Proof.
  intros Hv. assert (Hl : ∀ q, v_pipes (view_of w') !! i = Some q <-> v_pipes (view_of w) !! i = Some q)
    by (by rewrite Hv). unfold pstate. rewrite !list_lookup_total_alt.
  destruct (sc_pipe (w_sc w) !! i) as [p|] eqn:E.
  - assert (v_pipes (view_of w') !! i = Some (pcore_of p)) as (p' & -> & Heq)%pipes_lookup.
    { apply Hl, pipes_lookup. eauto. }
    cbn. unfold pcore_of in Heq. by injection Heq.
  - destruct (sc_pipe (w_sc w') !! i) as [p'|] eqn:E'; [|done].
    assert (v_pipes (view_of w) !! i = Some (pcore_of p')) as (p & Hp & _)%pipes_lookup.
    { apply Hl, pipes_lookup. eauto. }
    congruence.
Qed.

(** The timer is armed again at the end. *)
Lemma rearm_spec X d a i w :
  winv X (Some i) d a w -> pause_free i w ->
  winv X None d a (rearm_pipe i w).2 ∧
  v_cds (view_of (rearm_pipe i w).2) = v_cds (view_of w) ∧
  pstate i (rearm_pipe i w).2 = pstate i w.
Proof.
  intros HI Hpf. unfold rearm_pipe. rewrite !run_bind. cbn [get_hz get_pipe gets fst snd].
  rewrite run_when. fold (pstate i w). case_bool_decide as Hs; cbn [negb].
  - split; [|done]. pose proof (vi_pipe _ _ _ _ _ HI) as Hpk. destruct HI. constructor; try done.
    intros i' q Hq _. destruct (decide (i' = i)) as [->|]; [|apply (Hpk i' q Hq); congruence].
    apply pipes_lookup in Hq as (p & Hp & ->). unfold pipe_ok, pstate in *. cbn.
    rewrite (list_lookup_total_correct _ _ _ Hp) in Hs.
    rewrite bool_decide_eq_true_2 by done. by apply (Hpf p).
  - split; [|split; [done|]].
    + eapply (winv_mod_pipe X (Some i) None); [done|done| |].
      * intros i' _ ?. congruence.
      * intros _ p Hp. unfold pipe_ok, pstate in *. cbn.
        rewrite (list_lookup_total_correct _ _ _ Hp) in Hs.
        rewrite bool_decide_eq_false_2 by done. by eexists.
    + unfold pstate. cbn. rewrite !list_lookup_total_alt, list_lookup_alter_eq.
      by destruct (sc_pipe (w_sc w) !! i).
Qed.

Lemma pause_spec d a i w :
  winv None (Some i) d a w -> (i < PIPE_MAX)%nat ->
  winv None (Some i) d a (set_state_pause i w).2 ∧ pause_free i (set_state_pause i w).2.
Proof.
  intros HI Hi. unfold set_state_pause. rewrite run_bind.
  destruct (reset_ind_spec (λ _, mret tt) (Some i) d a i w HI) as [HI1 Hb].
  revert HI1 Hb. generalize (dss1_pipe_reset_ind (λ _, mret tt) i w).2. intros w1 HI1 Hb.
  set (w2 := (mod_pipe i _ w1).2).
  assert (view_of w2 = view_of w1) as Hv by (by apply frames_view_mod_pipe).
  split; [unfold winv; by rewrite Hv|]. intros p _ _. rewrite Hv. by eapply nrefs_unbound.
Qed.

(** [dss1_pipe_set_state] in three parts. *)
Definition set_state_head (i : nat) (s : L2_STATES) : M bool :=
  mod_pipe i (λ p, p <| pipe_state := s |> <| pipe_set_state_callout := None |>);;
  when (bool_decide (s = ST_L2_SINGLE_FRAME)) (set_state_single_frame i);;
  p ← get_pipe i;
  if bool_decide (pipe_state p = ST_L2_SEND_TEI) then set_state_send_tei i else mret false.
Definition set_state_tail (i : nat) (sc : l2softc) (goto_done : bool) : M unit :=
  p ← get_pipe i;
  if goto_done then mret tt
  else if bool_decide (pipe_state p = ST_L2_SEND_SABME) then
    when (TE_MODE sc || IS_POINT_TO_POINT sc)
      (dss1_cntl_tx_frame i CR_COMMAND (Z.lor CNTL_SABME CNTL_PF_BIT))
  else when (bool_decide (pipe_state p = ST_L2_PAUSE)) (set_state_pause i).
Definition set_state_refused (i : nat) (s : L2_STATES) (w : world) : bool :=
  (L2_state_val (pstate i w) <=? L2_state_val ST_L2_SEND_TEI) &&
  (L2_state_val ST_L2_SEND_TEI + 2 <=? L2_state_val s).
Lemma set_state_run i s w :
  (dss1_pipe_set_state i s w).2 =
  if set_state_refused i s w then w
  else let r := set_state_head i s w in
       (rearm_pipe i (set_state_tail i (w_sc w) r.1 r.2).2).2.
Proof.
  unfold dss1_pipe_set_state. rewrite !run_bind. cbn [get_sc get_pipe gets fst snd].
  fold (pstate i w). change (_ && _) with (set_state_refused i s w).
  destruct (set_state_refused i s w); [done|]. unfold set_state_head, set_state_tail.
  rewrite !run_bind. cbn [get_pipe gets fst snd]. done.
Qed.

Lemma head_keeps X Xp d a i s w :
  winv X Xp d a w -> (Xp = None ∨ Xp = Some i) ->
  winv X (Some i) d a (set_state_head i s w).2.
Proof.
  intros HI HX. unfold set_state_head. rewrite run_bind.
  set (w1 := (mod_pipe i _ w).2). assert (winv X (Some i) d a w1) as HI1.
  { eapply (winv_mod_pipe X Xp (Some i)); [done|done| |done]. intros i' Hne ?. destruct HX; congruence. }
  clearbody w1. revert w1 HI1.
  change (keeps (winv X (Some i) d a)
    (when (bool_decide (s = ST_L2_SINGLE_FRAME)) (set_state_single_frame i);;
     p ← get_pipe i;
     if bool_decide (pipe_state p = ST_L2_SEND_TEI) then set_state_send_tei i else mret false)).
  pose proof (keeps_single_frame X d a i). pose proof (keeps_send_tei X d a i). crush.
Qed.

Lemma send_tei_done i w :
  pstate i w = ST_L2_SEND_TEI -> (set_state_send_tei i w).1 = true ->
  pstate i (set_state_send_tei i w).2 = ST_L2_SEND_TEI.
Proof.
  intros Hs. unfold set_state_send_tei. rewrite !run_bind. cbn [get_sc get_pipe gets fst snd].
  repeat case_match; rewrite ?run_bind; cbn [fst snd]; try done; intros _.
  - by rewrite (pstate_view i w) by apply frames_view_resend.
  - by rewrite (pstate_view i w) by apply frames_view_tei_tx.
Qed.
Lemma head_done i s w :
  (set_state_head i s w).1 = true -> pstate i (set_state_head i s w).2 = ST_L2_SEND_TEI.
Proof.
  unfold set_state_head. rewrite !run_bind. cbn [get_pipe gets fst snd].
  set (w2 := (when _ _ _).2). clearbody w2. fold (pstate i w2).
  case_bool_decide as Hs; [|done]. by apply send_tei_done.
Qed.

(** The middle part leaves a paused pipe without calls. *)
Lemma tail_spec X d a i sc g w :
  winv X (Some i) d a w -> (i < PIPE_MAX)%nat ->
  (g = true -> pstate i w ≠ ST_L2_PAUSE) ->
  (X = None ∨ pstate i w ≠ ST_L2_PAUSE) ->
  winv X (Some i) d a (set_state_tail i sc g w).2 ∧ pause_free i (set_state_tail i sc g w).2 ∧
  (pstate i w ≠ ST_L2_PAUSE -> view_of (set_state_tail i sc g w).2 = view_of w).
Proof.
  intros HI Hi Hg HX. unfold set_state_tail. rewrite run_bind. cbn [get_pipe gets fst snd].
  fold (pstate i w).
  assert (Hsame : ∀ w', view_of w' = view_of w -> pstate i w ≠ ST_L2_PAUSE ->
            winv X (Some i) d a w' ∧ pause_free i w' ∧
            (pstate i w ≠ ST_L2_PAUSE -> view_of w' = view_of w)).
  { intros w' Hv Hs. assert (winv X (Some i) d a w') as HI' by (unfold winv; by rewrite Hv).
    split; [done|]. split; [|done]. apply pause_free_intro; [by eapply winv_pipes|].
    by rewrite (pstate_view i w w' Hv). }
  destruct g; [apply Hsame; auto|].
  case_bool_decide as Hsabme; [rewrite run_when; apply Hsame; [|congruence]; case_match;
    [apply frames_view_cntl_tx|done]|].
  rewrite run_when. case_bool_decide as Hp; [|by apply Hsame].
  destruct HX as [->|]; [|done]. destruct (pause_spec d a i w HI Hi). split; [done|]. split; [done|]. by intros [].
Qed.

Lemma winv_pipe_set_state_from Xp d a i s w :
  winv None Xp d a w -> (i < PIPE_MAX)%nat ->
  (Xp = None ∨ (Xp = Some i ∧ set_state_refused i s w = false)) ->
  winv None None d a (dss1_pipe_set_state i s w).2.
Proof.
  intros HI Hi HX. rewrite set_state_run. destruct (set_state_refused i s w).
  { destruct HX as [->|[_ [=]]]. done. }
  cbv zeta.
  pose proof (head_keeps None Xp d a i s w HI) as HI1. specialize (HI1 ltac:(tauto)).
  destruct (tail_spec None d a i (w_sc w) (set_state_head i s w).1 _ HI1 Hi) as (HI2 & Hpf & _).
  - intros Hg. rewrite head_done; done.
  - by left.
  - by apply (rearm_spec None d a i).
Qed.
Lemma winv_pipe_set_state d a i s w :
  winv None None d a w -> (i < PIPE_MAX)%nat -> winv None None d a (dss1_pipe_set_state i s w).2.
Proof. intros HI Hi. apply (winv_pipe_set_state_from None); auto. Qed.

(** ** Activation of a pipe *)
Definition cds_of (w : world) : list core := v_cds (view_of w).
Lemma cds_mod_pipe i f : frames cds_of (mod_pipe i f).
Proof. by intros w. Qed.
Lemma cds_frame {A} (m : M A) : frames view_of m -> frames cds_of m.
Proof. intros Hm w. unfold cds_of. by rewrite Hm. Qed.
#[export] Hint Resolve cds_mod_pipe : i4b.
#[export] Hint Extern 3 (frames cds_of _) => apply cds_frame; solve [crush] : i4b.

Lemma send_tei_cds i : frames cds_of (set_state_send_tei i).
Proof. unfold set_state_send_tei. crush. Qed.

Lemma pstate_mod_pipe i f w s :
  (i < length (sc_pipe (w_sc w)))%nat -> (∀ p, pipe_state (f p) = s) ->
  pstate i (mod_pipe i f w).2 = s.
Proof.
  intros Hi Hf. unfold pstate. cbn. rewrite list_lookup_total_alt, list_lookup_alter_eq.
  destruct (lookup_lt_is_Some_2 _ _ Hi) as [p ->]. apply Hf.
Qed.

Lemma send_tei_up i w :
  (i < length (sc_pipe (w_sc w)))%nat -> pstate i w = ST_L2_SEND_TEI ->
  refcount (sc_pipe (w_sc w) !!! i) ≠ 0 ->
  pstate i (set_state_send_tei i w).2 ≠ ST_L2_PAUSE.
Proof.
  intros Hi Hs Hr. destruct (set_state_send_tei i w).1 eqn:Hd.
  { by rewrite (send_tei_done i w Hs Hd). }
  revert Hd. unfold set_state_send_tei. rewrite !run_bind. cbn [get_sc get_pipe gets fst snd].
  apply nonzero_true in Hr. rewrite Hr. repeat case_match; rewrite ?run_bind;
    cbn [mret st_ret fst snd]; try done.
  intros _. rewrite (pstate_mod_pipe i _ _ ST_L2_SEND_SABME); [done| |done].
  rewrite run_when. case_match; [|done]. cbn. by rewrite length_alter.
Qed.

Lemma winv_refcount X Xp d a i w :
  winv X Xp d a w -> (i < PIPE_MAX)%nat -> 0 < d i < 2 ^ 31 ->
  refcount (sc_pipe (w_sc w) !!! i) ≠ 0.
Proof.
  intros HI Hi Hd. destruct (lookup_lt_is_Some_2 _ _ (winv_pipes _ _ _ _ _ _ HI Hi)) as [p Hp].
  rewrite (list_lookup_total_correct _ _ _ Hp).
  assert (v_pipes (view_of w) !! i = Some (pcore_of p)) as Hq by (apply pipes_lookup; eauto).
  pose proof (vi_refs _ _ _ _ _ HI i _ Hq) as Hr. pose proof (vi_few _ _ _ _ _ HI) as Hf.
  change ((pcore_of p).1.1) with (refcount p) in Hr. rewrite Hr.
  pose proof (nrefs_nonneg i (v_cds (view_of w))).
  assert (nrefs i (v_cds (view_of w)) <= Z.of_nat (length (v_cds (view_of w)))).
  { unfold nrefs. pose proof (length_filter (λ k, k_pipe k = Some i) (v_cds (view_of w))). lia. }
  rewrite u32_id; [lia|]. unfold is_u32. lia.
Qed.

Lemma head_send_tei X d a i w :
  winv X None d a w -> (i < PIPE_MAX)%nat -> 0 < d i < 2 ^ 31 ->
  winv X (Some i) d a (set_state_head i ST_L2_SEND_TEI w).2 ∧
  cds_of (set_state_head i ST_L2_SEND_TEI w).2 = cds_of w ∧
  pstate i (set_state_head i ST_L2_SEND_TEI w).2 ≠ ST_L2_PAUSE.
Proof.
  intros HI Hi Hd. split; [apply (head_keeps X None); [done|by left]|].
  unfold set_state_head. rewrite !run_bind. set (w1 := (mod_pipe i _ w).2).
  assert (bool_decide (ST_L2_SEND_TEI = ST_L2_SINGLE_FRAME) = false) as -> by done.
  cbn [when get_pipe gets fst snd mret st_ret].
  pose proof (winv_pipes _ _ _ _ _ _ HI Hi) as Hlen.
  assert (Hs : pstate i w1 = ST_L2_SEND_TEI) by (by apply pstate_mod_pipe).
  fold (pstate i w1). rewrite Hs, bool_decide_eq_true_2 by done.
  split; [by rewrite send_tei_cds|]. apply send_tei_up; [|done|].
  - subst w1. cbn. by rewrite length_alter.
  - pose proof (winv_refcount _ _ _ _ _ _ HI Hi Hd) as Hr. subst w1. cbn.
    rewrite list_lookup_total_alt in *. rewrite list_lookup_alter_eq.
    by destruct (sc_pipe (w_sc w) !! i).
Qed.

Lemma winv_set_state_send_tei X d a i w :
  winv X None d a w -> (i < PIPE_MAX)%nat -> 0 < d i < 2 ^ 31 -> pstate i w = ST_L2_PAUSE ->
  let w' := (dss1_pipe_set_state i ST_L2_SEND_TEI w).2 in
  winv X None d a w' ∧ cds_of w' = cds_of w ∧ pstate i w' ≠ ST_L2_PAUSE.
Proof.
  intros HI Hi Hd Hs w'. subst w'. rewrite set_state_run.
  assert (set_state_refused i ST_L2_SEND_TEI w = false) as -> by (unfold set_state_refused; by rewrite Hs).
  cbv zeta.
  destruct (head_send_tei X d a i w HI Hi Hd) as (HI1 & Hc1 & Hs1).
  destruct (tail_spec X d a i (w_sc w) (set_state_head i ST_L2_SEND_TEI w).1 _ HI1 Hi)
    as (HI2 & Hpf & Hv); [done|by right|].
  destruct (rearm_spec X d a i _ HI2 Hpf) as (HI3 & Hc3 & Hs3).
  split; [done|]. split.
  - unfold cds_of in *. rewrite Hc3, (Hv Hs1). done.
  - rewrite Hs3, (pstate_view i _ _ (Hv Hs1)). done.
Qed.

#[global] Instance dss1_pipe_activate : PipeActivate dss1_pipe_activate_req.
Proof.
  constructor. intros X d a i w HI Hi Hd. unfold dss1_pipe_activate_req.
  rewrite run_bind. cbn [get_pipe gets fst snd]. fold (pstate i w). rewrite run_when.
  case_bool_decide as Hs.
  2:{ split; [done|]. split; [done|]. intros p Hp Hps. apply Hs. unfold pstate.
      by rewrite (list_lookup_total_correct _ _ _ Hp). }
  rewrite run_bind, run_bind. set (w1 := (mod_pipe i _ w).2).
  assert (Hii : is_pipe (Some i) i = 1) by (unfold is_pipe; by rewrite bool_decide_eq_true_2).
  assert (HI1 : winv X None (λ i', d i' + 1 * is_pipe (Some i) i') a w1).
  { unfold winv. subst w1. rewrite (view_mod_ref i 1). by apply vinv_add_ref. }
  assert (Hs1 : pstate i w1 = ST_L2_PAUSE).
  { unfold pstate in *. subst w1. cbn. rewrite list_lookup_total_alt in *.
    rewrite list_lookup_alter_eq. by destruct (sc_pipe (w_sc w) !! i). }
  assert (Hc1 : cds_of w1 = cds_of w) by done. clearbody w1.
  destruct (winv_set_state_send_tei X _ a i w1 HI1 Hi) as (HI2 & Hc2 & Hs2); [cbv beta; lia|done|].
  revert HI2 Hc2 Hs2. generalize (dss1_pipe_set_state i ST_L2_SEND_TEI w1).2. intros w2 HI2 Hc2 Hs2.
  split; [|split].
  - unfold winv. rewrite (view_mod_ref i (-1)).
    eapply vinv_ext; [| |apply vinv_add_ref, HI2]; [|done]. intros i'. cbv beta. lia.
  - change (cds_of w2 = cds_of w). congruence.
  - intros p Hp. cbn in Hp. apply alter_lookup_Some in Hp as (p0 & Hp0 & ->).
    rewrite decide_True by done. cbn. unfold pstate in Hs2.
    by rewrite (list_lookup_total_correct _ _ _ Hp0) in Hs2.
Qed.

(** ** TEI management *)
Lemma inv_pipe_set_state i s : (i < PIPE_MAX)%nat -> keeps inv (dss1_pipe_set_state i s).
Proof. intros Hi w HI. by apply winv_pipe_set_state. Qed.
Lemma inv_activate i : (i < PIPE_MAX)%nat -> keeps inv (dss1_pipe_activate_req i).
Proof. intros Hi w HI. by apply activate_ok. Qed.
Lemma inv_frame {A} (m : M A) : frames view_of m -> keeps inv m.
Proof. apply keeps_frame. Qed.
#[export] Hint Extern 1 (keeps inv (dss1_pipe_set_state 0 _)) =>
  apply inv_pipe_set_state; unfold PIPE_MAX; lia : i4b.
#[export] Hint Extern 1 (keeps inv (dss1_pipe_activate_req 0)) =>
  apply inv_activate; unfold PIPE_MAX; lia : i4b.
#[export] Hint Extern 3 (keeps inv _) => apply inv_frame; solve [crush] : i4b.

Lemma unused_pipe_range sc i :
  dss1_get_unused_pipe sc = Some i -> (i < length (sc_pipe sc))%nat ∧
  pipe_state (sc_pipe sc !!! i) = ST_L2_PAUSE ∧ i ≠ 0%nat.
Proof.
  unfold dss1_get_unused_pipe. intros Hh. apply head_Some_elem_of in Hh.
  unfold unused_pipes in Hh. apply list_elem_of_filter in Hh as [Hu Hs].
  apply elem_of_seq in Hs. unfold unused_pipe in Hu.
  apply andb_true_iff in Hu as [Hp%bool_decide_eq_true Hz%negb_true_iff%Nat.eqb_neq].
  split; [lia|done].
Qed.
Lemma inv_pipes w : inv w -> length (sc_pipe (w_sc w)) = PIPE_MAX.
Proof. intros HI. pose proof (vi_pipes _ _ _ _ _ HI) as Hl. cbn in Hl. by rewrite length_fmap in Hl. Qed.

Lemma inv_rx_assign ai ri : keeps inv (tei_rx_assign ai ri).
Proof. unfold tei_rx_assign. crush. Qed.
Lemma inv_rx_check ai : keeps inv (tei_rx_check_request ai).
Proof. unfold tei_rx_check_request. crush. Qed.
Lemma inv_rx_remove ai : keeps inv (tei_rx_remove ai).
Proof. unfold tei_rx_remove. crush. Qed.

Lemma frames_view_id_request hz :
  frames view_of (mod_sc (λ s, s <| ID_REQUEST_callout := Some hz |>)).
Proof. by intros w. Qed.
#[export] Hint Resolve frames_view_id_request : i4b.

Lemma inv_rx_request ri : keeps inv (tei_rx_request ri).
Proof.
  intros w HI. unfold tei_rx_request. rewrite !run_bind. cbn [get_sc get_hz gets fst snd].
  rewrite run_when. destruct (NT_MODE (w_sc w)); [|done]. cbv zeta.
  destruct (_ && bool_decide _); [done|].
  assert (Hrange : ∀ i, dss1_get_unused_pipe (w_sc w) = Some i -> (i < PIPE_MAX)%nat).
  { intros i Hi%unused_pipe_range. rewrite <-(inv_pipes w HI). by destruct Hi. }
  destruct (dss1_get_unused_pipe (w_sc w)) as [i|].
  - specialize (Hrange i eq_refl). pose proof (inv_activate i Hrange).
    match goal with |- inv (?m w).2 => assert (keeps inv m) as Hm by crush end. by apply Hm.
  - match goal with |- inv (?m w).2 => assert (keeps inv m) as Hm by crush end. by apply Hm.
Qed.
#[export] Hint Resolve inv_rx_assign inv_rx_check inv_rx_remove inv_rx_request : i4b.
Lemma inv_tei_rx buf : keeps inv (dss1_tei_rx_frame buf).
Proof. unfold dss1_tei_rx_frame. crush. Qed.
#[export] Hint Resolve inv_tei_rx : i4b.
