(* ===== verification/L2Window.v ===== *)
(** * The transmit window (dss1_l2fsm.c)

    The window counters of every pipe are consistent with its queue and the
    frame layer 1 polls next exists: [sc_current_mbuf] never dangles.  Every
    operation of the stack keeps this. *)
From S2P Require Import Prelude Mbuf Dss1Types Dss1State Buffer L3Encoder CallDesc L3Fsm.
From S2P Require Import L3Decoder StackInv L2Pipe L2Fsm L2Safe.
Local Open Scope Z_scope.

Record pipe_win (p : pipe) : Prop := {
  pw_length : 0 <= tx_window_length p <= tx_window_size p;
  pw_size : tx_window_size p <= 127;
  pw_queue : tx_window_size p <= ifq_len (pipe_ifq p);
  pw_nr : 0 <= tx_nr p <= 127;
}.
(** The frames still to be polled from the window of pipe [i] are there. *)
Record win_at (i : nat) (w : world) : Prop := {
  win_pipes : Forall pipe_win (sc_pipe (w_sc w));
  win_nonneg : 0 <= sc_current_length (w_sc w) <= 127;
  win_current : ∀ p, sc_pipe (w_sc w) !! i = Some p ->
    tx_window_length p ≠ 0 -> sc_current_length (w_sc w) ≠ 0 ->
    Z.of_nat (sc_current_mbuf (w_sc w)) + sc_current_length (w_sc w) <= ifq_len (pipe_ifq p);
  win_cur : (sc_current_pipe (w_sc w) < PIPE_MAX)%nat;
}.
Definition win (w : world) : Prop := win_at (sc_current_pipe (w_sc w)) w.

(** A change of a pipe that opens no window and loses no frame of an open one. *)
Definition win_safe_at (f : pipe -> pipe) (p : pipe) : Prop :=
  pipe_win p -> pipe_win (f p) ∧
    (tx_window_length (f p) ≠ 0 ->
     tx_window_length p ≠ 0 ∧ ifq_len (pipe_ifq p) <= ifq_len (pipe_ifq (f p))).
Definition win_safe (f : pipe -> pipe) : Prop := ∀ p, win_safe_at f p.

Lemma win_at_mod_pipe c i f w :
  win_at c w -> (∀ p, sc_pipe (w_sc w) !! i = Some p -> win_safe_at f p) ->
  win_at c (mod_pipe i f w).2.
Proof.
  intros [H1 H2 H3 H4] Hf. rewrite Forall_lookup in H1. constructor; cbn; [|done| |done].
  - apply Forall_lookup. intros i' p (p0 & Hp & ->)%alter_lookup_Some.
    case_decide; [subst; apply (Hf p0 Hp)|]; by eapply H1.
  - intros p (p0 & Hp & ->)%alter_lookup_Some Hne Hlen. case_decide as Hd; [|by apply H3].
    rewrite Hd in Hp. destruct (Hf p0 Hp (H1 _ _ Hp)) as [_ Hl]. destruct (Hl Hne) as [Hne0 Hle].
    rewrite <-Hd in Hp. specialize (H3 p0 Hp Hne0 Hlen). lia.
Qed.
Lemma win_mod_pipe_at i f w :
  win w -> (∀ p, sc_pipe (w_sc w) !! i = Some p -> win_safe_at f p) -> win (mod_pipe i f w).2.
Proof.
  intros Hw Hf. by apply win_at_mod_pipe.
Qed.
Lemma win_mod_pipe i f : win_safe f -> keeps win (mod_pipe i f).
Proof. intros Hf w Hw. apply win_mod_pipe_at; auto. Qed.
(** Changes that keep the counters and the length of the queue. *)
Lemma win_safe_same f :
  (∀ p, tx_window_length (f p) = tx_window_length p ∧ tx_window_size (f p) = tx_window_size p ∧
        ifq_len (pipe_ifq (f p)) = ifq_len (pipe_ifq p) ∧ tx_nr (f p) = tx_nr p) -> win_safe f.
Proof.
  intros Hf p [H1 H2 H3 H4]. destruct (Hf p) as (E1 & E2 & E3 & E4).
  split; [constructor; rewrite ?E1, ?E2, ?E3, ?E4; done|]. rewrite E1, E3. done.
Qed.
Lemma win_mod_cd j f : keeps win (mod_cd j f).
Proof. by intros w []. Qed.
Lemma win_mod_cntl f : keeps win (mod_cntl f).
Proof. by intros w []. Qed.
Lemma win_emit o : keeps win (emit o).
Proof. by intros w []. Qed.
Lemma win_mod_sc f :
  (∀ s, sc_pipe (f s) = sc_pipe s ∧ sc_current_pipe (f s) = sc_current_pipe s ∧
        sc_current_mbuf (f s) = sc_current_mbuf s ∧ sc_current_length (f s) = sc_current_length s) ->
  keeps win (mod_sc f).
Proof.
  intros Hf w [H1 H2 H3 H4]. destruct (Hf (w_sc w)) as (E1 & E2 & E3 & E4).
  unfold win. cbn. rewrite E2. constructor; cbn; rewrite ?E1, ?E2, ?E3, ?E4; done.
Qed.
Lemma win_get_mbuf n : keeps win (get_mbuf n).
Proof. unfold get_mbuf. crush. by intros w []. Qed.
#[export] Hint Resolve win_mod_cd win_mod_cntl win_emit win_get_mbuf : i4b.
#[export] Hint Extern 1 (keeps win (mod_pipe _ _)) =>
  apply win_mod_pipe, win_safe_same; intros; repeat split; reflexivity : i4b.
#[export] Hint Extern 1 (keeps win (mod_sc _)) =>
  apply win_mod_sc; intros; repeat split; reflexivity : i4b.

Lemma win_safe_enqueue m : win_safe (λ p, p <| pipe_ifq ::= IF_ENQUEUE m |>).
Proof.
  intros p [H1 H2 H3 H4]. assert (ifq_len (pipe_ifq (p <| pipe_ifq ::= IF_ENQUEUE m |>)) =
    ifq_len (pipe_ifq p) + 1) as He.
  { unfold ifq_len. cbn. rewrite length_app. cbn. lia. }
  split; [constructor; rewrite ?He; cbn; try done; cbn in *; lia|]. rewrite He. cbn. intros ?. split; [done|lia].
Qed.
Lemma win_data_req i m : keeps win (dss1_pipe_data_req i m).
Proof. unfold dss1_pipe_data_req. crush. apply win_mod_pipe, win_safe_enqueue. Qed.
Lemma win_acknowledge i cd : keeps win (dss1_pipe_data_acknowledge i cd).
Proof.
  apply win_mod_pipe, win_safe_same. intros p. repeat split; try done.
  unfold ifq_len. cbn. by rewrite length_map.
Qed.
#[export] Hint Resolve win_data_req win_acknowledge : i4b.

(** ** Layer 3 *)
Lemma win_tx_frame i n msg m : keeps win (tx_frame i n msg m).
Proof. unfold tx_frame. crush. Qed.
Lemma win_q850 c : keeps win (q850_cause c).
Proof. unfold q850_cause. crush. Qed.
#[export] Hint Resolve win_tx_frame win_q850 : i4b.
Lemma win_tx_setup j : keeps win (dss1_l3_tx_setup j).
Proof. unfold dss1_l3_tx_setup. crush. Qed.
Lemma win_tx_message j mt fl : keeps win (dss1_l3_tx_message j mt fl).
Proof. unfold dss1_l3_tx_message. crush. Qed.
Lemma win_by_pipe_cr i a b c d e : keeps win (dss1_l3_tx_message_by_pipe_cr i a b c d e).
Proof. unfold dss1_l3_tx_message_by_pipe_cr. crush. Qed.
#[export] Hint Resolve win_tx_setup win_tx_message win_by_pipe_cr : i4b.
Lemma win_tx_complement j a b mt fl : keeps win (dss1_l3_tx_message_complement j a b mt fl).
Proof. unfold dss1_l3_tx_message_complement. crush. Qed.
Lemma win_link j b : keeps win (i4b_link_bchandrvr j b).
Proof. unfold i4b_link_bchandrvr, bchandrvr_disconnect, link_setup_driver. crush. Qed.
Lemma win_l4_ind ind j : keeps win (l4_ind ind j).
Proof. unfold l4_ind. crush. Qed.
Lemma win_allocate j : keeps win (cd_allocate_channel j).
Proof. unfold cd_allocate_channel. crush. Qed.
Lemma win_free_channel j : keeps win (cd_free_channel j).
Proof. unfold cd_free_channel. crush. Qed.
Lemma win_activity : keeps win dss1_L1_activity_timeout.
Proof. unfold dss1_L1_activity_timeout. crush. Qed.
#[export] Hint Resolve win_tx_complement win_link win_l4_ind win_allocate win_free_channel
  win_activity : i4b.
Lemma win_n_free_cd j : keeps win (n_free_cd j).
Proof.
  unfold n_free_cd, i4b_l4_disconnect_ind, cd_set_appl_interface, cd_set_pipe, i4b_free_cd,
    dss1_L1_deactivate_req. crush.
Qed.
#[export] Hint Resolve win_n_free_cd : i4b.
Lemma win_set_state j s : keeps win (cd_set_state j s).
Proof.
  unfold cd_set_state, cd_set_state_null, cd_set_state_other,
    dss1_l3_tx_release_complete_complement, dss1_l3_tx_release_complete,
    dss1_l3_tx_status_enquiry, dss1_l3_tx_information.
  crush.
Qed.
#[export] Hint Resolve win_set_state : i4b.

Section cd_update.
Context (activate : nat -> M unit) (Hact : ∀ i, keeps win (activate i)).
Lemma win_cd_set_pipe j p : keeps win (cd_set_pipe activate j p).
Proof. unfold cd_set_pipe, dss1_L1_activate_req, dss1_L1_deactivate_req. crush. Qed.
#[local] Hint Resolve win_cd_set_pipe : i4b.
Lemma win_cd_update j pipe event : keeps win (cd_update activate j pipe event).
Proof.
  unfold cd_update. apply keeps_bind; [auto with i4b|intros cd].
  destruct (if dir_incoming cd then _ else _); [|auto with i4b]. generalize (cd_state cd). intros st.
  unfold cd_event. destruct event; try done;
  unfold ev_disconnect, ev_status, ev_hold_ind, ev_retrieve_ind, ev_hold_req, ev_retrieve_req,
    ev_retrieve_ack, ev_setuprq, ev_inforq, ev_setupak, ev_callprc, ev_alert, ev_setup,
    setup_answer, ev_info, ev_proceedingrq, ev_alertrq, ev_progressrq, ev_setacrs, ev_conack,
    ev_connect, event_connect_ack, sms_release, no_channel_available, with_sc,
    try_allocate_channel, hold_channel, relink_channel, i4b_l4_connect_ind, set_cause_out,
    dss1_l3_tx_status, dss1_l3_tx_hold_reject, dss1_l3_tx_retrieve_reject, dss1_l3_tx_hold,
    dss1_l3_tx_hold_acknowledge, dss1_l3_tx_retrieve_acknowledge, dss1_l3_tx_retrieve,
    dss1_l3_tx_information, dss1_l3_tx_setup_acknowledge, dss1_l3_tx_call_proceeding,
    dss1_l3_tx_alert, dss1_l3_tx_progress, dss1_l3_tx_connect, dss1_l3_tx_deflect_call,
    dss1_l3_tx_mcid_call, dss1_l3_tx_connect_acknowledge, dss1_l3_tx_release_complete_complement;
  crush.
Qed.
#[local] Hint Resolve win_cd_update : i4b.
Lemma win_reset_ind i : keeps win (dss1_pipe_reset_ind activate i).
Proof. unfold dss1_pipe_reset_ind. crush. Qed.
#[local] Hint Resolve win_reset_ind : i4b.
Lemma win_allocate_cd : keeps win i4b_allocate_cd.
Proof.
  unfold i4b_allocate_cd. crush. intros w []. by destruct (get_cdid (w_cntl w)).
Qed.
#[local] Hint Resolve win_allocate_cd : i4b.
Lemma win_n_allocate_cd a b c d : keeps win (n_allocate_cd activate a b c d).
Proof. unfold n_allocate_cd, cd_set_appl_interface. crush. Qed.
#[local] Hint Resolve win_n_allocate_cd : i4b.
Lemma win_pipe_data_ind i buf bc : keeps win (dss1_pipe_data_ind activate i buf bc).
Proof. unfold dss1_pipe_data_ind, data_ind_no_cd, data_ind_cd. crush. Qed.
End cd_update.
Lemma win_resend i : keeps win (dss1_pipe_resend_ind i).
Proof. unfold dss1_pipe_resend_ind. crush. Qed.
#[export] Hint Resolve win_resend : i4b.

(** ** Layer 2 *)
Lemma win_l2_data_req m : keeps win (dss1_l2_data_req m).
Proof. unfold dss1_l2_data_req. crush. Qed.
#[export] Hint Resolve win_l2_data_req : i4b.
Lemma win_cntl_tx i c n : keeps win (dss1_cntl_tx_frame i c n).
Proof. unfold dss1_cntl_tx_frame. crush. Qed.
Lemma win_tei_tx i t : keeps win (dss1_tei_tx_frame i t).
Proof. unfold dss1_tei_tx_frame. crush. Qed.
Lemma win_fifo_start : keeps win fifo_start.
Proof. unfold fifo_start. crush. Qed.
Lemma win_unused_TEI : keeps win dss1_get_unused_TEI.
Proof. unfold dss1_get_unused_TEI. crush. Qed.
#[export] Hint Resolve win_cntl_tx win_tei_tx win_fifo_start win_unused_TEI : i4b.

(** Closing the window of a pipe. *)
Lemma win_safe_close f :
  (∀ p, tx_window_length (f p) = 0 ∧ tx_window_size (f p) = 0 ∧
        (tx_nr (f p) = tx_nr p ∨ tx_nr (f p) = 0)) -> win_safe f.
Proof.
  intros Hf p [_ _ _ H4]. destruct (Hf p) as (E1 & E2 & E3). split; [|by rewrite E1].
  constructor; rewrite ?E1, ?E2; [lia|lia|unfold ifq_len; lia|].
  destruct E3 as [E3|E3]; rewrite E3; lia.
Qed.
#[export] Hint Extern 2 (keeps win (mod_pipe _ _)) =>
  apply win_mod_pipe, win_safe_close; intros; repeat split; first [left; reflexivity|right; reflexivity] : i4b.

Lemma win_pause i : keeps win (set_state_pause i).
Proof.
  pose proof (win_reset_ind (λ _, mret tt) (λ _, keeps_ret _ _)). unfold set_state_pause. crush.
Qed.
#[export] Hint Resolve win_pause : i4b.
Lemma win_pipe_set_state i s : keeps win (dss1_pipe_set_state i s).
Proof.
  unfold dss1_pipe_set_state, set_state_single_frame, set_state_send_tei, rearm_pipe. crush.
Qed.
#[export] Hint Resolve win_pipe_set_state : i4b.
Lemma win_activate i : keeps win (dss1_pipe_activate_req i).
Proof. unfold dss1_pipe_activate_req. crush. Qed.
Lemma win_pipe_timeout i : keeps win (dss1_pipe_set_state_timeout i).
Proof. unfold dss1_pipe_set_state_timeout. crush. Qed.
#[export] Hint Resolve win_activate win_pipe_timeout : i4b.
Lemma win_tei_rx buf : keeps win (dss1_tei_rx_frame buf).
Proof.
  unfold dss1_tei_rx_frame, tei_rx_assign, tei_rx_check_request, tei_rx_remove, tei_rx_request. crush.
Qed.
Lemma win_data_ind i buf bc : keeps win (pipe_data_ind i buf bc).
Proof. apply win_pipe_data_ind. auto with i4b. Qed.
#[export] Hint Resolve win_tei_rx win_data_ind : i4b.

(** Reaching multi-frame operation changes no counter. *)
Definition window_of (i : nat) (w : world) : Z := tx_window_length (sc_pipe (w_sc w) !!! i).
Lemma window_mod_pipe i f :
  (∀ p, tx_window_length (f p) = tx_window_length p) -> frames (window_of i) (mod_pipe i f).
Proof.
  intros Hf w. unfold window_of. cbn. rewrite !list_lookup_total_alt, list_lookup_alter_eq.
  destruct (sc_pipe (w_sc w) !! i); [apply Hf|done].
Qed.
Lemma window_multi_frame i w :
  (i < length (sc_pipe (w_sc w)))%nat ->
  window_of i (dss1_pipe_set_state i ST_L2_MULTI_FRAME w).2 = window_of i w.
Proof.
  intros Hi. rewrite set_state_run. case_match; [done|]. cbv zeta. unfold set_state_head.
  rewrite !run_bind. set (w1 := (mod_pipe i _ w).2).
  assert (Hw1 : window_of i w1 = window_of i w) by (by apply window_mod_pipe).
  assert (Hs : pstate i w1 = ST_L2_MULTI_FRAME) by (by apply pstate_mod_pipe).
  clearbody w1. assert (bool_decide (ST_L2_MULTI_FRAME = ST_L2_SINGLE_FRAME) = false) as -> by done.
  cbn [when mret st_ret get_pipe gets fst snd]. fold (pstate i w1). rewrite Hs.
  assert (bool_decide (ST_L2_MULTI_FRAME = ST_L2_SEND_TEI) = false) as -> by done.
  cbn [mret st_ret fst snd]. unfold set_state_tail. rewrite run_bind. cbn [get_pipe gets fst snd].
  fold (pstate i w1). rewrite Hs. cbn. unfold rearm_pipe. rewrite !run_bind.
  cbn [get_hz get_pipe gets fst snd]. rewrite run_when. case_match; [|done].
  rewrite <-Hw1. by apply window_mod_pipe.
Qed.

(** The acknowledgement of [n] frames of an open window. *)
Lemma win_ack i n w :
  win w -> 0 <= n <= window_of i w ->
  win (mod_pipe i (λ p, p <| tx_window_length ::= λ x, u8 (x - n) |>) w).2.
Proof.
  intros Hw Hn. apply win_mod_pipe_at; [done|]. intros p Hp [H1 H2 H3 H4].
  unfold window_of in Hn. rewrite (list_lookup_total_correct _ _ _ Hp) in Hn.
  assert (u8 (tx_window_length p - n) = tx_window_length p - n) as He.
  { apply u8_id. unfold is_u8. lia. }
  split; [constructor; cbn; rewrite ?He; lia|]. cbn. rewrite He. lia.
Qed.
Lemma win_check_NR i buf w :
  win w -> (i < length (sc_pipe (w_sc w)))%nat -> win (check_NR i buf w).2.
Proof.
  intros Hw Hi. unfold check_NR. rewrite run_bind. cbn [get_pipe gets fst snd]. cbv zeta.
  set (p := sc_pipe (w_sc w) !!! i). set (new := GET_NR _). rewrite run_bind.
  set (w1 := (mod_pipe i _ w).2).
  assert (win w1) as Hw1.
  { apply win_mod_pipe; [|done]. intros p0 [H1 H2 H3 H4].
    assert (0 <= new <= 127) by (unfold new, GET_NR; rewrite land_127;
      pose proof (Z.mod_pos_bound (Z.shiftr (dss1_get_1 buf (Z.of_nat OFF_RX_NR)) 1) 128); lia).
    split; [by constructor|done]. }
  assert (window_of i w1 = tx_window_length p) as Hp by (by apply (window_mod_pipe i)).
  assert (Hi1 : (i < length (sc_pipe (w_sc w1)))%nat) by (subst w1; cbn; by rewrite length_alter).
  clearbody w1. rewrite run_when. case_match; [|done].
  set (nr := u8 (new - tx_nr p) mod NR_MAX).
  assert (0 <= nr) by (unfold nr, NR_MAX; apply Z.mod_pos_bound; lia). clearbody nr.
  destruct (Z.ltb_spec (tx_window_length p) nr).
  - match goal with |- win (?m w1).2 => assert (keeps win m) as Hm by crush end. by apply Hm.
  - rewrite run_bind, run_bind. match goal with |- win (?m ?w2).2 => assert (keeps win m) as Hm by crush end.
    apply Hm. apply win_ack; [by apply win_pipe_set_state|]. rewrite window_multi_frame by done. lia.
Qed.
