(* ===== verification/L2Poll.v ===== *)
(** * Polling for frames (dss1_l2fsm.c)

    [dss1_l2_get_mbuf] keeps the invariant of the stack and of the transmit
    windows; the frame it sends next is always in the queue. *)
From S2P Require Import Prelude Mbuf Dss1Types Dss1State Buffer L3Encoder CallDesc L3Fsm.
From S2P Require Import L3Decoder StackInv L2Pipe L2Fsm L2Safe L2Window.
Local Open Scope Z_scope.

Definition pipe_at (i : nat) (w : world) : pipe := sc_pipe (w_sc w) !!! i.
(** The window of pipe [i] is closed and its acknowledged frames are gone. *)
Definition closed_at (i : nat) (w : world) : Prop :=
  win_at i w ∧ (i < length (sc_pipe (w_sc w)))%nat ∧
  tx_window_length (pipe_at i w) = 0 ∧ tx_window_size (pipe_at i w) = 0.

Lemma pipe_at_mod i f w :
  (i < length (sc_pipe (w_sc w)))%nat -> pipe_at i (mod_pipe i f w).2 = f (pipe_at i w).
Proof.
  intros Hi. unfold pipe_at. cbn. rewrite !list_lookup_total_alt, list_lookup_alter_eq.
  by destruct (lookup_lt_is_Some_2 _ _ Hi) as [p ->].
Qed.
(** Only what is done to the pipe as it is matters. *)
Lemma alter_ext {A} `{!Inhabited A} (f g : A -> A) i (l : list A) :
  f (l !!! i) = g (l !!! i) -> alter f i l = alter g i l.
Proof.
  intros H. apply list_eq. intros i'. destruct (decide (i' = i)) as [->|].
  - rewrite !list_lookup_alter_eq. rewrite list_lookup_total_alt in H.
    destruct (l !! i); [cbn in *; by rewrite H|done].
  - by rewrite !list_lookup_alter_ne.
Qed.
Lemma mod_pipe_ext i f g w :
  f (pipe_at i w) = g (pipe_at i w) -> mod_pipe i f w = mod_pipe i g w.
Proof.
  intros H. unfold mod_pipe, mod_sc, modify, set. f_equal. f_equal. f_equal. by apply alter_ext.
Qed.
Lemma mod_pipe_twice i f g w :
  (mod_pipe i f (mod_pipe i g w).2).2 = (mod_pipe i (f ∘ g) w).2.
Proof.
  unfold mod_pipe, mod_sc, modify, set. cbn [fst snd w_sc w_cntl w_env w_out sc_pipe].
  by rewrite list_alter_alter_eq.
Qed.
Lemma pipe_at_win i w :
  win_at i w -> (i < length (sc_pipe (w_sc w)))%nat -> pipe_win (pipe_at i w).
Proof.
  intros [H _ _ _] Hi. destruct (lookup_lt_is_Some_2 _ _ Hi) as [p Hp].
  unfold pipe_at. rewrite (list_lookup_total_correct _ _ _ Hp).
  by eapply (Forall_lookup_1 _ _ _ _ H).
Qed.
(** [f] keeps a closed window closed. *)
Definition keeps_closed (f : pipe -> pipe) : Prop :=
  ∀ p, tx_window_length (f p) = tx_window_length p ∧ tx_window_size (f p) = 0 ∧
       tx_nr (f p) = tx_nr p.
Lemma closed_mod_pipe i f w :
  win_at i w -> (i < length (sc_pipe (w_sc w)))%nat -> tx_window_length (pipe_at i w) = 0 ->
  keeps_closed f -> closed_at i (mod_pipe i f w).2.
Proof.
  intros Hw Hi H0 Hf. split.
  - apply win_at_mod_pipe; [done|]. intros p Hp [H1 H2 H3 H4].
    unfold pipe_at in H0. rewrite (list_lookup_total_correct _ _ _ Hp) in H0.
    destruct (Hf p) as (E1 & E2 & E3).
    split; [constructor; rewrite ?E1, ?E2, ?E3; unfold ifq_len; lia|]. rewrite E1. lia.
  - split; [cbn; by rewrite length_alter|]. rewrite pipe_at_mod by done.
    destruct (Hf (pipe_at i w)) as (E1 & E2 & _). lia.
Qed.
Lemma closed_prepend i m : keeps (closed_at i) (mod_pipe i (λ p, p <| pipe_ifq ::= IF_PREPEND m |>)).
Proof.
  intros w (Hw & Hi & H0 & Hs). 
  assert (He : ∀ p, ifq_len (pipe_ifq (p <| pipe_ifq ::= IF_PREPEND m |>)) = ifq_len (pipe_ifq p) + 1)
    by (intros p; unfold ifq_len; cbn; lia).
  split; [|split; [cbn; by rewrite length_alter|by rewrite pipe_at_mod]].
  apply win_at_mod_pipe; [done|]. intros p Hp [H1 H2 H3 H4].
  split; [constructor; rewrite ?He; cbn in *; try done; lia|]. rewrite He. cbn. split; [done|lia].
Qed.
Lemma closed_get_mbuf i n : keeps (closed_at i) (get_mbuf n).
Proof. unfold get_mbuf. crush. by intros w ([] & ? & ?). Qed.
#[export] Hint Resolve closed_prepend closed_get_mbuf : i4b.
Lemma closed_insert_ZIF fuel i : keeps (closed_at i) (insert_ZIF fuel i).
Proof. induction fuel; cbn [insert_ZIF]; crush. Qed.
#[export] Hint Resolve closed_insert_ZIF : i4b.
Lemma closed_make_ZIFs i : keeps (closed_at i) (make_ZIFs i).
Proof. unfold make_ZIFs. crush. Qed.

(** The new window of [n] frames is the one that is polled. *)
Lemma window_opened i n nr w :
  closed_at i w -> 0 <= n <= 127 -> n <= ifq_len (pipe_ifq (pipe_at i w)) ->
  let w1 := (mod_pipe i (λ p, p <| get_mbuf_callout := None |> <| tx_window_length := n |>
                                <| tx_window_size := n |>) w).2 in
  let w2 := (mod_sc (λ s, s <| sc_current_mbuf := 0%nat |> <| sc_current_length := n |>
                            <| sc_current_tx_nr := nr |>) w1).2 in
  win_at i w2 ∧ tx_window_length (pipe_at i w2) = n ∧ sc_current_length (w_sc w2) = n.
Proof.
  intros (Hw & Hi & H0 & Hs) Hn Hq w1 w2. split; [|split; [|done]].
  - destruct Hw as [H1 H2 H3 H4]. subst w1 w2. constructor; cbn; [|done| |done].
    + apply Forall_lookup. intros i' p (p0 & Hp & ->)%alter_lookup_Some.
      pose proof (Forall_lookup_1 _ _ _ _ H1 Hp) as [E1 E2 E3 E4]. case_decide; [|done]. subst i'.
      unfold pipe_at in Hq. rewrite (list_lookup_total_correct _ _ _ Hp) in Hq.
      constructor; cbn; try done; try lia.
    + intros p (p0 & Hp & ->)%alter_lookup_Some _ _. rewrite decide_True by done. cbn.
      unfold pipe_at in Hq. rewrite (list_lookup_total_correct _ _ _ Hp) in Hq. lia.
  - change (tx_window_length (pipe_at i w1) = n). subst w1. by rewrite pipe_at_mod.
Qed.

Lemma win_open_window i w :
  win_at i w -> (i < length (sc_pipe (w_sc w)))%nat -> tx_window_length (pipe_at i w) = 0 ->
  let w' := (open_window i w).2 in
  win_at i w' ∧ tx_window_length (pipe_at i w') = sc_current_length (w_sc w').
Proof.
  intros Hw Hi H0. unfold open_window. rewrite !run_bind. cbn [get_pipe gets fst snd]. cbv zeta.
  set (w1 := (mod_pipe i _ w).2).
  assert (closed_at i w1) as Hc1 by (by apply closed_mod_pipe). clearbody w1.
  fold (pipe_at i w1). set (p1 := pipe_at i w1).
  set (assigned := L2_STATE_IS_TEI_ASSIGNED _). set (probe := _ || _).
  set (mx := if negb assigned then 127 else _).
  assert (0 <= mx <= 127) as Hmx.
  { destruct Hc1 as (Hw1 & Hi1 & _). pose proof (pw_nr _ (pipe_at_win i w1 Hw1 Hi1)) as Hnr.
    fold p1 in Hnr. subst mx. repeat case_match; try lia. rewrite u8_id; [lia|]. unfold is_u8. lia. }
  clearbody mx. set (w2 := (when _ (make_ZIFs i) w1).2).
  assert (closed_at i w2) as Hc2.
  { subst w2. rewrite run_when. case_match; [by apply closed_make_ZIFs|done]. }
  clearbody w2. set (n := u8 (Z.min mx (ifq_len (pipe_ifq (pipe_at i w2))))).
  assert (n = Z.min mx (ifq_len (pipe_ifq (pipe_at i w2)))) as Hn.
  { apply u8_id. unfold is_u8, ifq_len. lia. }
  assert (0 <= ifq_len (pipe_ifq (pipe_at i w2))) by (unfold ifq_len; lia).
  pose proof Hc2 as (_ & Hi2 & _).
  rewrite (mod_pipe_ext i _ (λ p, p <| get_mbuf_callout := None |> <| tx_window_length := n |>
                                <| tx_window_size := n |>)) by done.
  destruct (window_opened i n (tx_nr (pipe_at i w2)) w2 Hc2 ltac:(lia) ltac:(lia)) as (E1 & E2 & E3).
  match goal with |- context [mod_sc ?g ?w3] => assert (tx_window_size (pipe_at i w3) = n) as Hsz
    by (by rewrite pipe_at_mod);
    assert (tx_nr (pipe_at i w3) = tx_nr (pipe_at i w2)) as Hnr by (by rewrite pipe_at_mod) end.
  unfold pipe_at at 1 in Hsz. unfold pipe_at at 1 in Hnr. rewrite Hsz, Hnr. by rewrite E2.
Qed.

(** *** The invariant of the stack looks at none of this *)
Lemma frames_view_mod_sc f :
  (∀ s, sc_pipe (f s) = sc_pipe s ∧ L1_auto_activate (f s) = L1_auto_activate s ∧
        sc_fifo_translator (f s) = sc_fifo_translator s) ->
  frames view_of (mod_sc f).
Proof.
  intros Hf w. destruct (Hf (w_sc w)) as (E1 & E2 & E3). unfold view_of. cbn. by rewrite E1, E2, E3.
Qed.
#[export] Hint Extern 1 (frames view_of (mod_sc _)) =>
  apply frames_view_mod_sc; intros; repeat split; reflexivity : i4b.
Lemma frames_view_insert_ZIF fuel i : frames view_of (insert_ZIF fuel i).
Proof. induction fuel; cbn [insert_ZIF]; crush. Qed.
#[export] Hint Resolve frames_view_insert_ZIF : i4b.
Lemma frames_view_open_window i : frames view_of (open_window i).
Proof. unfold open_window, make_ZIFs. crush. Qed.
Lemma frames_view_frame_copy m : frames view_of (frame_copy m).
Proof. unfold frame_copy. crush. Qed.
Lemma frames_view_skip_pipe i : frames view_of (skip_pipe i).
Proof. unfold skip_pipe. crush. Qed.
#[export] Hint Resolve frames_view_open_window frames_view_frame_copy frames_view_skip_pipe : i4b.

(** ** The next frame of the window *)
Lemma win_frame_copy i m : keeps (win_at i) (frame_copy m).
Proof. unfold frame_copy, get_mbuf. crush; by intros w []. Qed.

(** There is one: the position is inside the queue. *)
Lemma send_current_some i w :
  win_at i w -> (i < length (sc_pipe (w_sc w)))%nat ->
  tx_window_length (pipe_at i w) ≠ 0 -> sc_current_length (w_sc w) ≠ 0 ->
  (sc_current_mbuf (w_sc w) < length (ifq (pipe_ifq (pipe_at i w))))%nat.
Proof.
  intros [H1 H2 H3 _] Hi Hn Hc. destruct (lookup_lt_is_Some_2 _ _ Hi) as [p Hp].
  unfold pipe_at in *. rewrite (list_lookup_total_correct _ _ _ Hp) in *.
  specialize (H3 p Hp Hn Hc). unfold ifq_len in H3. lia.
Qed.

(** What [send_current] does to the pipe. *)
Definition sent (k : nat) (m : mbuf) (ui : bool) (p : pipe) : pipe :=
  let p := p <| pipe_ifq ::= λ q, q <| ifq ::= <[k := m]> |> |> in
  if ui then p <| tx_window_length ::= λ n, u8 (n - 1) |> else p.
Lemma sent_win k m ui p :
  pipe_win p -> tx_window_length p ≠ 0 ->
  pipe_win (sent k m ui p) ∧ ifq_len (pipe_ifq (sent k m ui p)) = ifq_len (pipe_ifq p) ∧
  (tx_window_length (sent k m ui p) ≠ 0 -> tx_window_length p ≠ 0).
Proof.
  intros [H1 H2 H3 H4] Hn.
  assert (He : ifq_len (pipe_ifq (sent k m ui p)) = ifq_len (pipe_ifq p)).
  { unfold sent, ifq_len. destruct ui; cbn; by rewrite length_insert. }
  assert (u8 (tx_window_length p - 1) = tx_window_length p - 1) as Hu
    by (apply u8_id; unfold is_u8; lia).
  split; [|done]. constructor; rewrite ?He; unfold sent; destruct ui; cbn; rewrite ?Hu; lia.
Qed.

Lemma win_sent i k m ui w :
  win_at i w -> (i < length (sc_pipe (w_sc w)))%nat ->
  tx_window_length (pipe_at i w) ≠ 0 -> sc_current_length (w_sc w) ≠ 0 ->
  win_at i (mod_sc (λ s, s <| sc_current_mbuf ::= S |> <| sc_current_length ::= λ n, u8 (n - 1) |>
                           <| sc_current_tx_nr ::= λ n, u8 (n + 1) |>)
             (mod_pipe i (sent k m ui) w).2).2.
Proof.
  intros [H1 H2 H3 H4] Hi Hn Hc.
  assert (Hat : ∀ p, sc_pipe (w_sc w) !! i = Some p -> tx_window_length p ≠ 0).
  { intros p Hp. unfold pipe_at in Hn. by rewrite (list_lookup_total_correct _ _ _ Hp) in Hn. }
  assert (u8 (sc_current_length (w_sc w) - 1) = sc_current_length (w_sc w) - 1) as Hu
    by (apply u8_id; unfold is_u8; lia).
  constructor; cbn; rewrite ?Hu; [|lia| |done].
  - apply Forall_lookup. intros i' p (p0 & Hp & ->)%alter_lookup_Some.
    pose proof (Forall_lookup_1 _ _ _ _ H1 Hp) as Hpw. case_decide; [|done]. subst i'.
    apply sent_win; [done|by apply Hat].
  - intros p (p0 & Hp & ->)%alter_lookup_Some _ _. rewrite decide_True by done.
    pose proof (Forall_lookup_1 _ _ _ _ H1 Hp) as Hpw.
    destruct (sent_win k m ui p0 Hpw (Hat p0 Hp)) as (_ & -> & _).
    specialize (H3 p0 Hp (Hat p0 Hp) Hc). lia.
Qed.

(** [send_current] when there is a frame. *)
Lemma send_current_run i w m :
  ifq (pipe_ifq (pipe_at i w)) !! sc_current_mbuf (w_sc w) = Some m ->
  ∃ m' ui, send_current i w =
    frame_copy m' (mod_sc (λ s, s <| sc_current_mbuf ::= S |> <| sc_current_length ::= λ n, u8 (n - 1) |>
                           <| sc_current_tx_nr ::= λ n, u8 (n + 1) |>)
             (mod_pipe i (sent (sc_current_mbuf (w_sc w)) m' ui) w).2).2.
Proof.
  intros Hm. unfold send_current. rewrite !run_bind. cbn [get_sc get_pipe gets fst snd].
  fold (pipe_at i w). rewrite Hm. set (m' := if negb _ then _ else _). exists m'.
  exists (negb (L2_STATE_IS_TEI_ASSIGNED (pipe_state (pipe_at i w)))).
  rewrite !run_bind. f_equal. destruct (negb (L2_STATE_IS_TEI_ASSIGNED _)); [|done].
  cbn [when]. by rewrite mod_pipe_twice.
Qed.

(** ** One pipe *)
Lemma poll_pipe_ok i w :
  inv w -> win_at i w -> (i < PIPE_MAX)%nat ->
  inv (poll_pipe i w).2 ∧ win_at i (poll_pipe i w).2.
Proof.
  intros HI Hw Hi. unfold poll_pipe. rewrite !run_bind. cbn [get_sc get_pipe gets fst snd].
  fold (pipe_at i w). case_match; [|done]. rewrite !run_bind. cbn [get_sc gets fst snd].
  set (w1 := (when _ (open_window i) w).2).
  assert (Hi0 : (i < length (sc_pipe (w_sc w)))%nat) by (by rewrite (inv_pipes w HI)).
  assert (inv w1) as HI1.
  { subst w1. rewrite run_when. case_match; [|done]. by apply (inv_frame _ (frames_view_open_window i)). }
  assert (win_at i w1 ∧ (sc_current_length (w_sc w1) ≠ 0 -> tx_window_length (pipe_at i w1) ≠ 0))
    as [Hw1 Hn].
  { subst w1. rewrite run_when. destruct (Z.eqb_spec (tx_window_length (pipe_at i w)) 0) as [E|E]; [|done].
    destruct (win_open_window i w Hw Hi0 E) as [Hw1 Heq]. split; [done|]. by rewrite Heq. }
  clearbody w1. assert (Hi1 : (i < length (sc_pipe (w_sc w1)))%nat) by (by rewrite (inv_pipes w1 HI1)).
  destruct (nonzero _) eqn:Hc; [apply nonzero_true in Hc|done].
  destruct (lookup_lt_is_Some_2 _ _ (send_current_some i w1 Hw1 Hi1 (Hn Hc) Hc)) as [m Hm].
  destruct (send_current_run i w1 m Hm) as (m' & ui & ->).
  split; [|apply win_frame_copy, win_sent; auto]. apply (inv_frame _ (frames_view_frame_copy m')).
  unfold inv, winv. rewrite frames_view_mod_sc by done. rewrite frames_view_mod_pipe; [done|].
  intros p. unfold sent. by destruct ui.
Qed.

(** A pipe without a frame leaves no window to be polled. *)
Lemma win_skip_pipe i i' w : win_at i w -> win_at i' (skip_pipe i w).2.
Proof.
  intros Hw. unfold skip_pipe. rewrite !run_bind. cbn [get_hz get_pipe gets fst snd].
  set (w1 := (when _ _ w).2). assert (win_at i w1) as [H1 H2 H3 H4].
  { subst w1. rewrite run_when. case_match; [|done]. apply win_at_mod_pipe; [done|].
    intros p _. by apply win_safe_same. }
  constructor; cbn; [done|lia|lia|done].
Qed.

Lemma poll_pipes_ok l w :
  inv w -> Forall (λ i, (i < PIPE_MAX)%nat) l -> (∀ i, head l = Some i -> win_at i w) ->
  (l = [] -> win w) -> inv (poll_pipes l w).2 ∧ win (poll_pipes l w).2.
Proof.
  revert w. induction l as [|i l IH]; intros w HI Hl Hh Hw; [by split; [|apply Hw]|].
  apply Forall_cons in Hl as [Hi Hl]. cbn [poll_pipes]. rewrite run_bind.
  destruct (poll_pipe_ok i w HI (Hh i eq_refl) Hi) as [HI1 Hw1]. revert HI1 Hw1.
  destruct (poll_pipe i w) as [[m|] w1]; cbn [fst snd]; intros HI1 Hw1; rewrite run_bind.
  - cbn [mret st_ret snd]. split; [apply inv_frame; [crush|done]|].
    destruct Hw1. by constructor.
  - apply IH; [|done| |].
    + by apply (inv_frame _ (frames_view_skip_pipe i)).
    + intros i' _. by apply win_skip_pipe.
    + intros _. by apply win_skip_pipe.
Qed.

Lemma rotation_range n k : (0 < n)%nat -> Forall (λ i, (i < n)%nat) (rotation n k).
Proof.
  intros Hn. apply Forall_forall. unfold rotation. intros i (x & -> & _)%list_elem_of_fmap.
  apply Nat.mod_upper_bound. lia.
Qed.

Lemma rotation_head n k : (0 < n)%nat -> (k < n)%nat -> head (rotation n k) = Some k.
Proof.
  intros Hn Hk. destruct n as [|n]; [lia|]. unfold rotation. change (seq k (S n)) with (k :: seq (S k) n).
  rewrite map_cons. change (Some (k `mod` S n)%nat = Some k). by rewrite Nat.mod_small.
Qed.

Lemma get_mbuf_ok w :
  inv w -> win w -> inv (dss1_l2_get_mbuf w).2 ∧ win (dss1_l2_get_mbuf w).2.
Proof.
  intros HI Hw. unfold dss1_l2_get_mbuf. rewrite run_bind. cbn [get_sc gets fst snd IF_DEQUEUE].
  rewrite run_bind. set (w1 := (mod_sc _ w).2).
  assert (inv w1) as HI1 by (apply (inv_frame (mod_sc _)); [crush|done]).
  assert (win w1) as Hw1 by (by apply win_mod_sc).
  assert (sc_current_pipe (w_sc w) = sc_current_pipe (w_sc w1)) as -> by done. clearbody w1.
  rewrite run_bind. cbn [mret st_ret snd]. destruct (head (ifq _)); [done|].
  apply poll_pipes_ok; [done| | |done].
  - apply rotation_range. unfold PIPE_MAX. lia.
  - intros i Hhd. rewrite rotation_head in Hhd; [|unfold PIPE_MAX; lia|apply (win_cur _ _ Hw1)].
    injection Hhd as <-. exact Hw1.
Qed.
