(* ===== verification/Stack.v ===== *)
(** * The stack as a whole

    Every entry point of the stack keeps the invariant: the messages and
    timeouts of layer 3, the requests of the application, the frames from
    and to layer 1.  Reach.v puts them together. *)
From S2P Require Import Prelude Mbuf Dss1Types Dss1State Buffer L3Encoder CallDesc L3Fsm.
From S2P Require Import L3Decoder StackInv L3Safe L3Reset L2Pipe L2Safe L2Fsm.
Local Open Scope Z_scope.

(** ** The information elements change nothing the invariant looks at but
      the channel of a call that has none *)
(** Same call, same channel if it has one. *)
Definition same_call (cd cd' : call_desc) : Prop :=
  ∃ id, core_of cd' = set_chan id (channel_allocated cd) (core_of cd) ∧
        (channel_allocated cd = true -> id = channel_id cd).
Lemma same_call_core cd cd' : core_of cd' = core_of cd -> same_call cd cd'.
Proof. intros H. exists (channel_id cd). by rewrite H. Qed.
Lemma same_call_trans a b c : same_call a b -> same_call b c -> same_call a c.
Proof.
  intros (id & H & Hid) (id' & H' & Hid').
  assert (channel_allocated b = channel_allocated a) as Hab.
  { change (k_allocated (core_of b) = channel_allocated a). by rewrite H. }
  assert (channel_id b = id) as Hb by (change (k_channel (core_of b) = id); by rewrite H).
  exists id'. rewrite H', H, Hab. split; [done|]. intros Ha. rewrite Hid' by congruence.
  rewrite Hb. auto.
Qed.

Lemma decode_cd_same sc cd buf : same_call cd (dss1_decode_q931_cs0_ie_cd sc cd buf).
Proof.
  assert (same_call cd cd) as Hrefl by by apply same_call_core.
  unfold dss1_decode_q931_cs0_ie_cd. repeat case_match; try done; try by apply same_call_core.
  - unfold decode_bearercap. case_match; [done|]. by apply same_call_core.
  - unfold decode_channelid. destruct (channel_allocated cd) eqn:E; [done|].
    case_match; eexists; (split; [reflexivity|by rewrite E]).
  - unfold decode_progressi. repeat case_match; try done; by apply same_call_core.
  - unfold decode_datetime. case_match; [done|]. by apply same_call_core.
  - unfold decode_callingpn. repeat case_match; try done; by apply same_call_core.
  - unfold decode_callingps. repeat case_match; try done; by apply same_call_core.
  - unfold decode_calledpn. repeat case_match; by apply same_call_core.
  - unfold decode_calledps. case_match; [done|]. by apply same_call_core.
Qed.
Lemma decode_message_same sc cd event buf :
  same_call cd (dss1_decode_ie (dss1_decode_q931_cs0_ie_cd sc) (prepare_cd event cd) buf).
Proof.
  apply (decode_ie_ind _ (same_call cd)).
  - intros s b Hs. eapply same_call_trans; [done|]. apply decode_cd_same.
  - apply same_call_core. unfold prepare_cd. by repeat case_bool_decide.
Qed.

Lemma winv_same_call X Xp d a j f w :
  winv X Xp d a w -> live j w -> (∀ cd, same_call cd (f cd)) ->
  winv X Xp d a (mod_cd j f w).2 ∧ live j (mod_cd j f w).2.
Proof.
  intros HI Hl Hf. pose proof Hl as (cd & i & Hj & Hid & Hp). destruct (Hf cd) as (id & Hc & Hch).
  assert (Hv : view_of (mod_cd j f w).2 = upd_util (v_util (view_of w))
            (upd_cds (alter (set_chan id (channel_allocated cd)) j) (view_of w))).
  { unfold view_of, upd_util, upd_cds. cbn. f_equal. apply list_eq. intros i'.
    rewrite list_lookup_fmap. destruct (decide (i' = j)) as [->|].
    - rewrite !list_lookup_alter_eq, list_lookup_fmap, Hj. cbn. by rewrite Hc.
    - by rewrite !list_lookup_alter_ne, list_lookup_fmap. }
  split; [|by eapply live_chan_step]. eapply winv_channel_step; [done|by apply live_used| |done].
  apply (chan_inv_alter (w_cntl w)); [|by eapply winv_chan].
  intros cd0 k Hj0 (Ha & Hk & Hr). rewrite Hj in Hj0. injection Hj0 as <-.
  assert (channel_allocated (f cd) = channel_allocated cd) as Hal.
  { change (k_allocated (core_of (f cd)) = channel_allocated cd). by rewrite Hc. }
  assert (channel_id (f cd) = id) as Hci by (change (k_channel (core_of (f cd)) = id); by rewrite Hc).
  split; [congruence|]. split; [|done]. rewrite <-Hk, Hci. symmetry. apply Hch. congruence.
Qed.

(** ** Allocation of a call *)
Definition upd_count (n : Z) (v : view) : view :=
  View (v_cds v) (v_pipes v) (v_l1 v) (v_conn v) (v_util v) (v_end v) (v_cdid_end v) n (v_fault v).
Definition new_core (id : Z) : core := core_of (bzero_cd <| cdid := id |>).

Lemma nrefs_new i j id l k :
  l !! j = Some k -> k_pipe k = None -> nrefs i (alter (λ _, new_core id) j l) = nrefs i l.
Proof.
  intros Hj Hp. unfold nrefs.
  rewrite (count_alter (λ k, k_pipe k = Some i) (λ _, new_core id) j l k Hj), Hp. cbn. lia.
Qed.
Lemma nactive_new j id l k :
  l !! j = Some k -> k_pipe k = None -> nactive (alter (λ _, new_core id) j l) = nactive l.
Proof.
  intros Hj Hp. unfold nactive.
  rewrite (count_alter (λ k, k_pipe k ≠ None) (λ _, new_core id) j l k Hj), Hp. cbn. lia.
Qed.

Lemma vinv_new_call d a v j k id n :
  vinv None None d a v -> v_cds v !! j = Some k -> k_cdid k = CDID_UNUSED -> is_u32 n ->
  (id = CDID_UNUSED ∨ ∀ i c, i ≠ j -> v_cds v !! i = Some c -> k_cdid c ≠ id) ->
  vinv (Some j) None d a (upd_count n (upd_cds (alter (λ _, new_core id) j) v)).
Proof.
  intros HI Hj Hid Hn Hfresh.
  destruct HI as [Ipipes Ifew Iconn Icdid Irefs Il1 Ibound Icall Ipipe Ichan Iids Ifault].
  pose proof (Icall j k Hj ltac:(done)) as Hok. unfold call_ok in Hok. rewrite Hid in Hok.
  destruct Hok as (Hp & Hal & _).
  constructor; cbn [upd_count upd_cds v_cds v_pipes v_l1 v_conn v_util v_end v_cdid_end v_cdid_count v_fault];
    try done.
  - by rewrite length_alter.
  - by destruct Icdid.
  - intros i p Hpi. rewrite (nrefs_new i j id _ k Hj Hp). by apply Irefs.
  - by rewrite (nactive_new j id _ k Hj Hp).
  - intros i k' p (x & Hx & ->)%alter_lookup_Some. case_decide; [done|by eapply Ibound].
  - intros i k' (x & Hx & ->)%alter_lookup_Some Hne. case_decide; [congruence|by eapply Icall].
  - intros i p Hpi Hne. specialize (Ipipe i p Hpi Hne). unfold pipe_ok in *.
    by rewrite (nrefs_new i j id _ k Hj Hp).
  - destruct Ichan as [H1 H2 H3 H4]. split; cbn; [done|done| |].
    + intros i c kk (x & Hx & ->)%alter_lookup_Some. case_decide; [by intros [? _]|by apply (H3 i)].
    + intros i i' c c' kk (x & Hx & ->)%alter_lookup_Some (x' & Hx' & ->)%alter_lookup_Some.
      repeat case_decide; try (by intros [? _]); try (by intros _ [? _]). by apply (H4 i i' x x').
  - intros i i' c c' (x & Hx & ->)%alter_lookup_Some (x' & Hx' & ->)%alter_lookup_Some.
    repeat case_decide; subst; try done; cbn; intros Hc Heq.
    + destruct Hfresh as [->|Hf]; [done|]. exfalso. by apply (Hf i' x').
    + destruct Hfresh as [->|Hf]; [congruence|]. exfalso. by apply (Hf i x).
    + by apply (Iids i i' x x').
Qed.

Lemma cdids_unique_inv X Xp d a w : winv X Xp d a w -> cdids_unique (w_cntl w).
Proof.
  intros HI j j' cd cd' Hj Hj' Hid Heq.
  apply (vi_ids _ _ _ _ _ HI j j' (core_of cd) (core_of cd')); try done; apply cds_lookup; eauto.
Qed.

(** [i4b_allocate_cd] gives a new call, the only exception to the invariant. *)
Lemma allocate_cd_inv w :
  inv w ->
  let '(r, w') := i4b_allocate_cd w in
  match r with
  | None => inv w'
  | Some j => winv (Some j) None (λ _, 0) 0 w' ∧
              ∃ id, id ≠ CDID_UNUSED ∧ v_cds (view_of w') !! j = Some (new_core id)
  end.
Proof.
  intros HI. destruct (vi_cdid _ _ _ _ _ HI) as [He Hc].
  pose proof (allocate_cd_spec w He Hc) as Hs. destruct (cd_find _ _) as [j|] eqn:Ef.
  2:{ by rewrite Hs. }
  apply cd_find_spec in Ef as (old & Hj & Hold%Z.eqb_eq).
  destruct Hs as (id & count & -> & Hcnt & Hcase). set (w' := w <| w_cntl := _ |>).
  assert (Hk : v_cds (view_of w) !! j = Some (core_of old)) by (apply cds_lookup; eauto).
  assert (Hv : view_of w' = upd_count count (upd_cds (alter (λ _, new_core id) j) (view_of w))).
  { subst w'. unfold view_of, upd_count, upd_cds. cbn. f_equal.
    rewrite list_fmap_insert. apply list_eq. intros i. destruct (decide (i = j)) as [->|].
    - rewrite list_lookup_insert_eq by (rewrite length_fmap; by eapply lookup_lt_Some).
      by rewrite list_lookup_alter_eq, list_lookup_fmap, Hj.
    - by rewrite list_lookup_insert_ne, list_lookup_alter_ne. }
  assert (HI' : winv (Some j) None (λ _, 0) 0 w').
  { unfold winv. rewrite Hv. eapply vinv_new_call; [exact HI|exact Hk|done|done|].
    destruct Hcase as [[-> _]|(k & _ & _ & Hf)]; [by left|right].
    intros i c Hne (cd & Hi & ->)%cds_lookup. by apply (Hf i). }
  assert (Hk' : v_cds (view_of w') !! j = Some (new_core id)).
  { rewrite Hv. cbn. by rewrite list_lookup_alter_eq, list_lookup_fmap, Hj. }
  clearbody w'. destruct (Z.eqb_spec id CDID_UNUSED) as [->|Hne].
  - apply (winv_restore j); [done|]. rewrite Hk'. by intros k [= <-].
  - split; [done|]. by exists id.
Qed.

Section allocate.
Abbreviation act := dss1_pipe_activate_req.

(** Before it is bound to a pipe, the channel of the new call is cleared. *)
Lemma new_call_init j w id f :
  winv (Some j) None (λ _, 0) 0 w -> id ≠ CDID_UNUSED ->
  v_cds (view_of w) !! j = Some (new_core id) ->
  (∀ cd, core_of (f cd) = set_chan CHAN_ANY (channel_allocated cd) (core_of cd)) ->
  winv (Some j) None (λ _, 0) 0 (mod_cd j f w).2 ∧
  v_cds (view_of (mod_cd j f w).2) !! j = Some (set_chan CHAN_ANY false (new_core id)).
Proof.
  intros HI Hid Hk Hf. pose proof Hk as (cd & Hj & Hcd)%cds_lookup.
  assert (channel_allocated cd = false) as Hal by (change (k_allocated (core_of cd) = false); by rewrite <-Hcd).
  assert (Hv : view_of (mod_cd j f w).2 = upd_util (v_util (view_of w))
            (upd_cds (alter (set_chan CHAN_ANY false) j) (view_of w))).
  { unfold view_of, upd_util, upd_cds. cbn. f_equal. apply list_eq. intros i.
    rewrite list_lookup_fmap. destruct (decide (i = j)) as [->|].
    - rewrite !list_lookup_alter_eq, list_lookup_fmap, Hj. cbn. by rewrite Hf, Hal.
    - by rewrite !list_lookup_alter_ne, list_lookup_fmap. }
  split.
  - eapply winv_channel_step; [done| | |done].
    + eexists. split; [exact Hk|]. done.
    + apply (chan_inv_alter (w_cntl w)); [|by eapply winv_chan].
      intros cd0 k Hj0 (Ha & _). rewrite Hj in Hj0. injection Hj0 as <-.
      change (k_allocated (core_of (f cd)) = true) in Ha. rewrite Hf in Ha. cbn in Ha. congruence.
  - rewrite Hv. cbn [upd_util upd_cds v_cds]. by rewrite list_lookup_alter_eq, Hk.
Qed.

Lemma inv_n_allocate_cd pipe crval t p w :
  inv w -> (∀ i, pipe = Some i -> (i < PIPE_MAX)%nat) ->
  inv (n_allocate_cd act pipe crval t p w).2 ∧
  ∀ j, (n_allocate_cd act pipe crval t p w).1 = Some j ->
       live j (n_allocate_cd act pipe crval t p w).2.
Proof.
  intros HI Hpipe. unfold n_allocate_cd. rewrite run_bind.
  pose proof (allocate_cd_inv w HI) as Ha. destruct (i4b_allocate_cd w) as [[j|] w1]; [|by split].
  destruct Ha as (HI1 & id & Hid & Hk1). cbn [fst snd]. rewrite run_bind. cbn [get_cd gets fst snd].
  rewrite run_bind. match goal with |- context [mod_cd j ?f] =>
    destruct (new_call_init j w1 id f HI1 Hid Hk1 ltac:(done)) as [HI2 Hk2];
    revert HI2 Hk2; generalize (mod_cd j f w1).2 end. intros w2 HI2 Hk2.
  rewrite run_bind. pose proof (frames_view_appl j t p w2) as Hv3. revert Hv3.
  generalize (cd_set_appl_interface j t p w2).2. intros w3 Hv3.
  assert (winv (Some j) None (λ _, 0) 0 w3) as HI3 by (unfold winv; by rewrite Hv3).
  rewrite <-Hv3 in Hk2. pose proof Hk2 as (cd & Hj & Hcd)%cds_lookup.
  set (i := default 0%nat pipe).
  assert ((i < PIPE_MAX)%nat) as Hi by (subst i; destruct pipe; cbn; [by apply Hpipe|unfold PIPE_MAX; lia]).
  rewrite run_bind.
  destruct (winv_cd_set_pipe (λ _, 0) 0 (Some j) j i w3 cd HI3 Hj) as [HI4 Hc4]; [by right|done|lia|].
  revert HI4 Hc4. generalize (cd_set_pipe act j (Some i) w3).2. intros w4 HI4 Hc4.
  assert (live j w4) as Hl4.
  { assert (v_cds (view_of w4) !! j = Some (set_k_pipe (Some i) (set_chan CHAN_ANY false (new_core id))))
      as (cd4 & Hj4 & Hcd4)%cds_lookup by (by rewrite Hc4, list_lookup_alter_eq, Hk2).
    exists cd4, i. unfold core_of, set_k_pipe, set_chan in Hcd4. injection Hcd4 as H1 H2 _ _ _ _.
    cbn in H1. repeat split; congruence. }
  rewrite run_bind. cbn [fst snd mret st_ret].
  destruct (winv_set_state (Some j) None (λ _, 0) 0 j
    (if bool_decide (pipe ≠ None) then ST_L3_INCOMING else ST_L3_OUTGOING) w4 HI4 Hl4) as [HI5 Hl5];
    [by right|]. split; [exact HI5|]. intros j' [= <-]. apply Hl5. by case_bool_decide.
Qed.
End allocate.

(** ** Messages *)
Lemma inv_cd_update j pipe event w :
  inv w -> live j w -> (event = EV_L3_CONNECT -> ∃ i, pipe = Some i ∧ (i < PIPE_MAX)%nat) ->
  inv (cd_update dss1_pipe_activate_req j pipe event w).2.
Proof.
  intros HI Hl Hc. apply (closes_cd_update (λ _, 0) 0 j pipe event); [|done].
  intros He. destruct (Hc He) as (i & ? & ?). exists i. repeat split; try done; lia.
Qed.
Lemma inv_reset i w : inv w -> inv (dss1_pipe_reset_ind dss1_pipe_activate_req i w).2.
Proof. intros HI. by apply reset_ind_spec. Qed.

Lemma cd_by_unitcr_live w i crval j :
  cd_by_unitcr (w_cntl w) i 0 crval = Some j -> live j w.
Proof.
  intros Hf. apply cd_find_spec in Hf as (cd & Hj & HP).
  apply andb_true_iff in HP as [[Hid%negb_true_iff%Z.eqb_neq _]%andb_true_iff Hp].
  apply orb_true_iff in Hp as [Hp%bool_decide_eq_true|Hp%bool_decide_eq_true]; by eexists cd, _.
Qed.

Lemma inv_data_ind_cd i j buf event w :
  inv w -> live j w -> (i < PIPE_MAX)%nat ->
  inv (data_ind_cd dss1_pipe_activate_req i j buf event w).2.
Proof.
  intros HI Hl Hi. unfold data_ind_cd. rewrite !run_bind. cbn [get_cd get_sc gets fst snd].
  set (ev := if _ : bool then EV_L3_RELEASE else event). clearbody ev.
  rewrite ?run_bind. match goal with |- context [mod_cd j ?f] =>
    destruct (winv_same_call None None (λ _, 0) 0 j f w HI Hl) as [HI1 Hl1];
      [intros cd; apply decode_message_same|];
    revert HI1 Hl1; generalize (mod_cd j f w).2 end. intros w1 HI1 Hl1.
  rewrite ?run_bind. cbn [get_cd gets fst snd]. case_match; [done|].
  apply inv_cd_update; [done|done|]. eauto.
Qed.

Lemma inv_no_cd i buf bc crval mt event w :
  inv w -> (i < PIPE_MAX)%nat ->
  let r := data_ind_no_cd dss1_pipe_activate_req i buf bc crval mt event w in
  inv r.2 ∧ ∀ j, r.1 = Some j -> live j r.2.
Proof.
  intros HI Hi r. subst r. unfold data_ind_no_cd. rewrite run_bind. cbn [get_sc gets fst snd].
  destruct (_ && bool_decide _).
  { apply inv_n_allocate_cd; [done|]. by intros ? [= ->]. }
  assert (Hf : ∀ (m : M unit) w, frames view_of m -> inv w -> inv (m w).2).
  { intros m w' Hm HI'. by apply (inv_frame m Hm). }
  repeat case_match; rewrite ?run_bind; cbn [mret st_ret fst snd]; (split; [|done]); try done.
  - rewrite run_when. case_match; [|done]. rewrite run_bind. apply inv_reset. apply Hf; [crush|done].
  - apply Hf; [crush|done].
Qed.

Lemma inv_data_ind i buf bc w :
  inv w -> (i < PIPE_MAX)%nat -> inv (pipe_data_ind i buf bc w).2.
Proof.
  intros HI Hi. unfold pipe_data_ind, dss1_pipe_data_ind. rewrite run_bind. cbn [get_sc gets fst snd].
  repeat (case_match; [done|]). destruct (decode_header buf) as [[crval mt] buf'].
  rewrite run_bind. cbn [get_cntl gets fst snd]. rewrite run_bind.
  destruct (cd_by_unitcr (w_cntl w) i 0 crval) as [j|] eqn:Ef.
  - cbn [mret st_ret fst snd]. apply inv_data_ind_cd; [done| |done]. by eapply cd_by_unitcr_live.
  - destruct (inv_no_cd i buf' bc crval mt (Q931_MESSAGE_TYPES_EVENT mt) w HI Hi) as [HI1 Hl].
    destruct (data_ind_no_cd _ i buf' bc crval mt _ w) as [[j|] w1]; [|done].
    apply inv_data_ind_cd; [done| |done]. by apply Hl.
Qed.

(** ** Frames *)
Lemma inv_check_NR i buf : (i < PIPE_MAX)%nat -> keeps inv (check_NR i buf).
Proof. intros Hi. pose proof (inv_pipe_set_state i). unfold check_NR. crush. Qed.
Lemma inv_fifo_start : keeps inv fifo_start.
Proof. apply keeps_fifo_start. Qed.
Lemma inv_answer i buf a b c : keeps inv (answer i buf a b c).
Proof. apply inv_frame. unfold answer. crush. Qed.
Lemma inv_data_ind_keeps i buf bc : (i < PIPE_MAX)%nat -> keeps inv (pipe_data_ind i buf bc).
Proof. intros Hi w HI. by apply inv_data_ind. Qed.
#[export] Hint Resolve inv_check_NR inv_answer inv_data_ind_keeps inv_pipe_set_state : i4b.
Lemma inv_put_su i buf sapi cntl bc : (i < PIPE_MAX)%nat -> keeps inv (put_su_frame i buf sapi cntl bc).
Proof. intros Hi. unfold put_su_frame. crush. Qed.
Lemma inv_put_i i buf bc : (i < PIPE_MAX)%nat -> keeps inv (put_i_frame i buf bc).
Proof. intros Hi. unfold put_i_frame. crush. Qed.
#[export] Hint Resolve inv_put_su inv_put_i : i4b.
Lemma inv_put_frame i buf sapi cr cntl bc :
  (i < PIPE_MAX)%nat -> keeps inv (put_frame i buf sapi cr cntl bc).
Proof. intros Hi. unfold put_frame. crush. Qed.

Lemma pipe_by_tei_range sc t i : pipe_by_tei sc t = Some i -> (i < length (sc_pipe sc))%nat.
Proof.
  unfold pipe_by_tei. intros H. apply fmap_Some in H as ([i' p] & Hf & ->).
  apply list_find_Some in Hf as (Hp & _). by eapply lookup_lt_Some.
Qed.

(** The pipe selected exists. *)
Lemma inv_find_pipe_nt t w :
  inv w -> inv (find_pipe_nt t w).2 ∧ ∀ i, (find_pipe_nt t w).1 = Some i -> (i < PIPE_MAX)%nat.
Proof.
  intros HI. unfold find_pipe_nt. rewrite run_bind. cbn [get_sc gets fst snd].
  rewrite <-(inv_pipes w HI). destruct (pipe_by_tei (w_sc w) t) as [i|] eqn:E.
  - split; [done|]. intros ? [= <-]. by eapply pipe_by_tei_range.
  - destruct (dss1_get_unused_pipe (w_sc w)) as [i|] eqn:Eu; [|done].
    rewrite run_bind. cbn [mret st_ret fst snd].
    split; [apply inv_frame; [crush|done]|]. intros ? [= <-]. by eapply unused_pipe_range.
Qed.
Lemma inv_select_pipe t cntl w :
  inv w -> inv (select_pipe t cntl w).2 ∧
  ∀ i, (select_pipe t cntl w).1 = Some i -> (i < PIPE_MAX)%nat.
Proof.
  intros HI. assert (H0 : (0 < PIPE_MAX)%nat) by (unfold PIPE_MAX; lia).
  unfold select_pipe. rewrite !run_bind. cbn [get_sc get_pipe gets fst snd].
  repeat case_match; try (split; [done|by intros ? [= <-]]).
  - rewrite run_bind. cbn [mret st_ret fst snd].
    split; [by apply inv_activate|by intros ? [= <-]].
  - unfold select_pipe_nt. rewrite run_bind. destruct (inv_find_pipe_nt t w HI) as [HI1 Hr].
    destruct (find_pipe_nt t w) as [[i|] w1]; [|done]. cbn [fst snd] in *. specialize (Hr i eq_refl).
    rewrite run_bind. cbn [get_pipe gets fst snd]. case_match; [done|].
    rewrite run_bind. cbn [mret st_ret fst snd].
    split; [by apply inv_activate|by intros ? [= <-]].
Qed.

Lemma frames_view_received : frames view_of (mod_sc (λ s, s <| sc_received_frame := true |>)).
Proof. by intros w. Qed.
Lemma inv_put_mbuf m : keeps inv (dss1_l2_put_mbuf m).
Proof.
  intros w HI. unfold dss1_l2_put_mbuf. cbv zeta. rewrite !run_bind. cbn [get_sc gets fst snd].
  set (w1 := (mod_sc _ w).2).
  assert (inv w1) as HI1 by (apply (inv_frame _ frames_view_received); done). clearbody w1.
  set (t := dss1_get_1 _ _). set (cntl := dss1_get_1 _ (Z.of_nat OFF_CNTL)).
  destruct (inv_select_pipe t cntl w1 HI1) as [HI2 Hr]. revert HI2 Hr.
  destruct (select_pipe t cntl w1) as [[i|] w2]; cbn [fst snd]; intros HI2 Hr; [|done].
  apply inv_put_frame; [by apply Hr|done].
Qed.
