(* ===== verification/Reach.v ===== *)
(** * The stack over its lifetime

    [stack_op] lists what the surroundings of a connected stack can make it
    do: frames from layer 1, polls of layer 1, every timer that is armed,
    changes of the activity of layer 1, and the requests of the
    applications.  What is reachable from [dss1_connect_ft] by any sequence
    of these satisfies the invariant of the stack and of its windows. *)
From S2P Require Import Prelude Mbuf Dss1Types Dss1State Buffer L3Encoder CallDesc L3Fsm.
From S2P Require Import L3Decoder StackInv L3Safe L3Reset L2Pipe L2Fsm L2Safe L2Window L2Poll.
From S2P Require Import Stack.
From stdpp Require Import relations.
Local Open Scope Z_scope.

Abbreviation act := dss1_pipe_activate_req.

(** ** The operations *)

(** The call [j] is in use. *)
Definition in_use (j : nat) (w : world) : Prop :=
  ∃ cd, N_call_desc (w_cntl w) !! j = Some cd ∧ cdid cd ≠ CDID_UNUSED.

Definition same_call_of (f : call_desc -> call_desc) : Prop := ∀ cd, same_call cd (f cd).

(** The requests an application can make for a call. *)
Inductive request (j : nat) : M unit -> Prop :=
| req_retrieve : request j (n_retrieve_request act j)
| req_hold : request j (n_hold_request act j)
| req_deflect : request j (n_deflect_request act j)
| req_mcid : request j (n_mcid_request act j)
| req_connect : request j (n_connect_request act j)
| req_information : request j (n_information_request act j)
| req_dial ptr : request j (i4b_l3_information_req act j ptr)
| req_response r c : request j (n_connect_response act j r c)
| req_disconnect c : request j (n_disconnect_request act j c)
| req_alert f : request j (n_alert_request act j f)
| req_progress : request j (n_progress_request act j)
| req_channel : request j (cd_allocate_channel j)
| req_link b : request j (i4b_link_bchandrvr j b;; mret tt)
| req_disconnect_ind : request j (i4b_l4_disconnect_ind j)
| req_free : request j (n_free_cd j)
(** what an application writes into a call: not its id, pipe, state or
    timer, and its channel only if none is allocated *)
| req_write f : same_call_of f -> request j (mod_cd j f).

Inductive stack_op (w : world) : M unit -> Prop :=
| op_put_mbuf m : stack_op w (dss1_l2_put_mbuf m)
| op_get_mbuf : stack_op w (dss1_l2_get_mbuf;; mret tt)
| op_L1_activity a : stack_op w (mod_sc (λ s, s <| L1_activity := a |>))
| op_cd_timeout j cd t : N_call_desc (w_cntl w) !! j = Some cd ->
    cd_set_state_callout cd = Some t -> stack_op w (cd_set_state_timeout j)
| op_pipe_timeout i p t : sc_pipe (w_sc w) !! i = Some p ->
    pipe_set_state_callout p = Some t -> stack_op w (dss1_pipe_set_state_timeout i)
| op_get_mbuf_timeout i p t : sc_pipe (w_sc w) !! i = Some p ->
    get_mbuf_callout p = Some t -> stack_op w (dss1_l2_get_mbuf_timeout i)
| op_activity_timeout t : L1_activity_callout (w_sc w) = Some t ->
    stack_op w dss1_L1_activity_timeout
| op_ID_REQUEST_timeout t : ID_REQUEST_callout (w_sc w) = Some t ->
    stack_op w ID_REQUEST_timeout
| op_allocate t p : stack_op w (n_allocate_cd act None 0 t p;; mret tt)
| op_close t p : stack_op w (i4b_disconnect_by_appl_interface act t p)
| op_request j m : in_use j w -> request j m -> stack_op w m
(** the kernel and the applications give other answers *)
| op_environment e : stack_op w (modify (λ w, w <| w_env := e |>)).

Definition stack_step (w w' : world) : Prop := ∃ m, stack_op w m ∧ w' = (m w).2.

(** ** Every operation keeps the invariant *)
Definition inv2 (w : world) : Prop := inv w ∧ win w.

Lemma in_use_total j w : cdid (N_call_desc (w_cntl w) !!! j) ≠ CDID_UNUSED -> in_use j w.
Proof.
  rewrite list_lookup_total_alt. unfold in_use.
  destruct (N_call_desc (w_cntl w) !! j) as [cd|]; [by exists cd|done].
Qed.
Lemma in_use_live j w : inv w -> in_use j w -> live j w.
Proof.
  intros HI (cd & Hj & Hid).
  assert (v_cds (view_of w) !! j = Some (core_of cd)) as Hk by (apply cds_lookup; eauto).
  pose proof (vi_call _ _ _ _ _ HI j _ Hk ltac:(done)) as Hok. unfold call_ok in Hok. cbn in Hok.
  apply Z.eqb_neq in Hid as Hid'. rewrite Hid' in Hok. destruct Hok as ([i Hp] & _). by exists cd, i.
Qed.
Lemma timer_in_use j cd t w :
  inv w -> N_call_desc (w_cntl w) !! j = Some cd -> cd_set_state_callout cd = Some t -> in_use j w.
Proof.
  intros HI Hj Ht. assert (v_cds (view_of w) !! j = Some (core_of cd)) as Hk by (apply cds_lookup; eauto).
  pose proof (vi_call _ _ _ _ _ HI j _ Hk ltac:(done)) as Hok. unfold call_ok in Hok. cbn in Hok.
  exists cd. split; [done|]. intros Hid. rewrite Hid in Hok. cbn in Hok.
  destruct Hok as (_ & _ & Hn). congruence.
Qed.
Lemma pipe_range i p w : inv w -> sc_pipe (w_sc w) !! i = Some p -> (i < PIPE_MAX)%nat.
Proof. intros HI Hp%lookup_lt_Some. by rewrite <-(inv_pipes w HI). Qed.

(** *** Timeouts *)
Lemma timer_fired j w :
  inv w -> live j w ->
  let w1 := (mod_cd j (λ cd, cd <| cd_set_state_callout := None |>) w).2 in
  winv (Some j) None (λ _, 0) 0 w1 ∧ live j w1.
Proof.
  intros HI Hl. split; [|by apply live_mod_cd]. destruct Hl as (cd & i & Hj & Hid & Hp).
  eapply (winv_mod_cd None (Some j)); [exact HI|exact Hj| |done|done].
  intros c. repeat split; try done. by left.
Qed.
Lemma inv_cd_timeout j w : inv w -> live j w -> inv (cd_set_state_timeout j w).2.
Proof.
  intros HI Hl. destruct (timer_fired j w HI Hl) as [HI1 Hl1]. unfold cd_set_state_timeout.
  rewrite !run_bind. cbn [get_sc get_cd gets fst snd]. rewrite run_when.
  set (w1 := (mod_cd j _ w).2) in *.
  assert (sc_fifo_translator (w_sc w1) = true) as -> by apply (vi_conn _ _ _ _ _ HI1).
  by apply (winv_set_state (Some j) None (λ _, 0) 0 j _ w1 HI1 Hl1); right.
Qed.
Lemma inv_pipe_timeout i : (i < PIPE_MAX)%nat -> keeps inv (dss1_pipe_set_state_timeout i).
Proof.
  intros Hi w HI. unfold dss1_pipe_set_state_timeout. rewrite !run_bind.
  cbn [get_sc get_pipe gets fst snd]. rewrite run_when. set (w1 := (mod_pipe i _ w).2).
  assert (winv None (Some i) (λ _, 0) 0 w1) as HI1.
  { eapply (winv_mod_pipe None None (Some i)); [exact HI|done|done|done]. }
  assert (sc_fifo_translator (w_sc w1) = true) as -> by apply (vi_conn _ _ _ _ _ HI1).
  clearbody w1. apply (winv_pipe_set_state_from (Some i)); [done|done|]. right. split; [done|].
  unfold set_state_refused, pstate. by destruct (pipe_state _).
Qed.

(** The repetition closes the window. *)
Lemma win_repeat i w : win w ->
  win (mod_pipe i (λ p, p <| tx_window_size ::= λ n, u8 (n - tx_window_length p) |>
                          <| tx_window_length := 0 |>) w).2.
Proof.
  intros Hw. apply win_mod_pipe; [|done]. intros p [H1 H2 H3 H4].
  assert (u8 (tx_window_size p - tx_window_length p) = tx_window_size p - tx_window_length p) as Hu
    by (apply u8_id; unfold is_u8; lia).
  split; [|done]. constructor; cbn; rewrite ?Hu; try done; lia.
Qed.
Lemma inv2_get_mbuf_timeout i : keeps inv2 (dss1_l2_get_mbuf_timeout i).
Proof.
  intros w [HI Hw]. split.
  - revert w HI Hw. assert (keeps inv (dss1_l2_get_mbuf_timeout i)) as H; [|auto].
    pose proof inv_fifo_start. unfold dss1_l2_get_mbuf_timeout. crush.
  - revert w Hw HI. assert (keeps win (dss1_l2_get_mbuf_timeout i)) as H; [|auto].
    unfold dss1_l2_get_mbuf_timeout. crush. intros w Hw. by apply win_repeat.
Qed.

(** *** Requests *)
Lemma dial_same_call ptr : same_call_of (dial_digits ptr).
Proof.
  intros cd. apply same_call_core. unfold dial_digits. cbn. by destruct (dir_incoming cd).
Qed.
Lemma inv_request j m w : inv w -> live j w -> request j m -> inv (m w).2.
Proof.
  intros HI Hl Hr.
  assert (Hup : ∀ w e, inv w -> live j w -> e ≠ EV_L3_CONNECT -> inv (cd_update act j None e w).2).
  { intros w' e HI' Hl' He. apply inv_cd_update; [done|done|]. by intros ->. }
  assert (Hco : ∀ c, same_call_of (λ cd, cd <| cause_out := c |>)) by (intros c cd; by apply same_call_core).
  assert (Hmod : ∀ f, same_call_of f -> inv (mod_cd j f w).2 ∧ live j (mod_cd j f w).2).
  { intros f Hf. by apply winv_same_call. }
  destruct Hr as [ | | | | | |ptr|r c|c|f| | |b| | |f Hf]; try (by apply Hup).
  - unfold i4b_l3_information_req. rewrite run_bind. destruct (Hmod _ (dial_same_call ptr)). by apply Hup.
  - unfold n_connect_response. rewrite run_bind. destruct (Hmod _ (Hco c)) as [HI1 Hl1].
    revert HI1 Hl1. generalize (mod_cd j (λ cd, cd <| cause_out := c |>) w).2. intros w1 HI1 Hl1.
    do 2 (case_match; [by apply Hup|]). rewrite run_bind. cbn [get_cd gets fst snd].
    case_match; [by apply Hup|]. apply inv_frame; [crush|done].
  - unfold n_disconnect_request. rewrite run_bind. destruct (Hmod _ (Hco c)). by apply Hup.
  - unfold n_alert_request. apply Hup; [done|done|]. by case_match.
  - by apply winv_allocate_channel.
  - apply inv_frame; [crush|done].
  - apply inv_frame; [crush|done].
  - apply (winv_n_free_cd None); auto.
  - by apply Hmod.
Qed.
Lemma win_request j m : request j m -> keeps win m.
Proof.
  intros Hr. assert (Hup : ∀ e, keeps win (cd_update act j None e)).
  { intros e. apply win_cd_update. apply win_activate. }
  destruct Hr; unfold n_connect_response, n_disconnect_request, i4b_l3_information_req, n_information_request, n_alert_request,
    i4b_l4_disconnect_ind; try (by apply Hup); crush.
Qed.
Lemma close_same_call c : same_call_of (λ cd, cd <| cause_in := c |> <| cause_out := c |>).
Proof. intros cd. by apply same_call_core. Qed.
Lemma inv2_close t p : keeps inv2 (i4b_disconnect_by_appl_interface act t p).
Proof.
  unfold i4b_disconnect_by_appl_interface. apply keeps_bind; [apply keeps_gets|intros sc].
  apply keeps_when, keeps_bind; [apply keeps_gets|intros idx]. apply keeps_for_each. intros j _ w [HI Hw].
  rewrite run_bind, run_when. cbn [get_cd gets fst snd].
  destruct (negb _ && _ && _) eqn:E; [|done]. apply andb_true_iff in E as [[E _]%andb_true_iff _].
  apply negb_true_iff, Z.eqb_neq, in_use_total, (in_use_live j w HI) in E. rewrite run_bind.
  destruct (winv_same_call None None (λ _, 0) 0 j _ w HI E (close_same_call (CAUSE_TV CAUSET_I4B CAUSE_I4B_NORMAL))) as [HI1 Hl1].
  split; [apply (inv_request j); [done|done|apply req_disconnect]|]. apply (win_request j); [apply req_disconnect|]. by apply win_mod_cd.
Qed.
Lemma win_set_timeout j : keeps win (cd_set_state_timeout j).
Proof. unfold cd_set_state_timeout. crush. Qed.

(** *** Frames from layer 1 *)
Lemma keeps_inv2_length {A} (m : M A) i :
  (∀ w, win w -> (i < length (sc_pipe (w_sc w)))%nat -> win (m w).2) -> (i < PIPE_MAX)%nat ->
  keeps inv m -> keeps inv2 m.
Proof.
  intros Hw Hi HI w [H1 H2]. split; [by apply HI|]. apply Hw; [done|]. by rewrite (inv_pipes w H1).
Qed.
Lemma keeps_inv2 {A} (m : M A) : keeps inv m -> keeps win m -> keeps inv2 m.
Proof. intros HI Hw w [H1 H2]. split; auto. Qed.
#[export] Hint Resolve inv_put_frame : i4b.

Lemma inv2_check_NR i buf : (i < PIPE_MAX)%nat -> keeps inv2 (check_NR i buf).
Proof.
  intros Hi. apply (keeps_inv2_length _ i); [|done|by apply inv_check_NR].
  intros w Hw Hl. by apply win_check_NR.
Qed.
Lemma win_answer i buf c cr r : keeps win (answer i buf c cr r).
Proof. unfold answer. crush. Qed.
Lemma win_put_su i buf s c bc : keeps win (put_su_frame i buf s c bc).
Proof. unfold put_su_frame. crush. Qed.
Lemma win_put_i i buf bc : keeps win (put_i_frame i buf bc).
Proof. unfold put_i_frame. crush. Qed.
Lemma inv2_answer i buf c cr r : keeps inv2 (answer i buf c cr r).
Proof. apply keeps_inv2; [apply inv_answer|apply win_answer]. Qed.
Lemma inv2_put_su i buf s c bc : (i < PIPE_MAX)%nat -> keeps inv2 (put_su_frame i buf s c bc).
Proof. intros Hi. apply keeps_inv2; [by apply inv_put_su|apply win_put_su]. Qed.
Lemma inv2_put_i i buf bc : (i < PIPE_MAX)%nat -> keeps inv2 (put_i_frame i buf bc).
Proof. intros Hi. apply keeps_inv2; [by apply inv_put_i|apply win_put_i]. Qed.
#[export] Hint Resolve inv2_check_NR inv2_answer inv2_put_su inv2_put_i : i4b.
Lemma inv2_put_frame i buf sapi cr cntl bc :
  (i < PIPE_MAX)%nat -> keeps inv2 (put_frame i buf sapi cr cntl bc).
Proof. intros Hi. unfold put_frame. crush. Qed.
Lemma win_select_pipe t cntl : keeps win (select_pipe t cntl).
Proof. unfold select_pipe, select_pipe_nt, find_pipe_nt. crush. Qed.
Lemma inv2_put_mbuf m : keeps inv2 (dss1_l2_put_mbuf m).
Proof.
  intros w [HI Hw]. unfold dss1_l2_put_mbuf. cbv zeta. rewrite !run_bind. cbn [get_sc gets fst snd].
  set (w1 := (mod_sc _ w).2).
  assert (inv w1) as HI1 by (apply (inv_frame _ frames_view_received); done).
  assert (win w1) as Hw1 by (by apply win_mod_sc). clearbody w1.
  set (t := dss1_get_1 _ _). set (cntl := dss1_get_1 _ (Z.of_nat OFF_CNTL)).
  destruct (inv_select_pipe t cntl w1 HI1) as [HI2 Hr].
  pose proof (win_select_pipe t cntl w1 Hw1) as Hw2. revert HI2 Hr Hw2.
  destruct (select_pipe t cntl w1) as [[i|] w2]; cbn [fst snd]; intros HI2 Hr Hw2; [|done].
  by apply inv2_put_frame; [apply Hr|].
Qed.

(** *** All of them *)
Lemma stack_op_inv w m : stack_op w m -> inv2 w -> inv2 (m w).2.
Proof.
  intros Hop [HI Hw]. destruct Hop as [m| |a|j cd t Hj Ht|i p t Hp Ht|i p t Hp Ht|t Ht|t Ht|t p|t p|j m Hj Hr|e].
  - by apply inv2_put_mbuf.
  - rewrite run_bind. by apply get_mbuf_ok.
  - split; [apply inv_frame; [crush|done]|by apply win_mod_sc].
  - split; [|by apply win_set_timeout]. apply inv_cd_timeout; [done|].
    by eapply in_use_live, timer_in_use.
  - split; [|by apply win_pipe_timeout]. eapply inv_pipe_timeout; [by eapply pipe_range|done].
  - by apply inv2_get_mbuf_timeout.
  - split; [apply inv_frame; [crush|done]|by apply win_activity].
  - split; [apply inv_frame; [unfold ID_REQUEST_timeout; crush|done]|by apply win_mod_sc].
  - rewrite run_bind. split; [by apply inv_n_allocate_cd|].
    apply win_n_allocate_cd; [apply win_activate|done].
  - by apply inv2_close.
  - split; [|by eapply win_request]. eapply inv_request; [done|by apply in_use_live|done].
  - destruct Hw. split; [done|]. by constructor.
Qed.

(** ** Connecting the stack *)

(** What the attachment of a controller provides. *)
Record attached (w : world) : Prop := {
  at_calls : Z.of_nat (length (N_call_desc (w_cntl w))) < 2 ^ 31;
  at_utilization : length (N_channel_utilization (w_cntl w)) = 8%nat;
  at_channels : L1_channel_end (w_cntl w) <= Z.of_nat I4B_MAX_CHANNELS;
  at_count : is_u32 (N_cdid_count (w_cntl w));
  at_out : existsb is_fault (w_out w) = false;
}.

Lemma nrefs_none i l : (∀ j k, l !! j = Some k -> k_pipe k = None) -> nrefs i l = 0.
Proof.
  intros H. unfold nrefs. destruct (filter _ l) as [|k l'] eqn:E; [done|]. exfalso.
  assert (k ∈ filter (λ k, k_pipe k = Some i) l) as [Hk [j Hj]%list_elem_of_lookup]%list_elem_of_filter
    by (rewrite E; by left).
  rewrite (H j k Hj) in Hk. done.
Qed.
Lemma nactive_none l : (∀ j k, l !! j = Some k -> k_pipe k = None) -> nactive l = 0.
Proof.
  intros H. unfold nactive. destruct (filter _ l) as [|k l'] eqn:E; [done|]. exfalso.
  assert (k ∈ filter (λ k, k_pipe k ≠ None) l) as [Hk [j Hj]%list_elem_of_lookup]%list_elem_of_filter
    by (rewrite E; by left).
  by rewrite (H j k Hj) in Hk.
Qed.

(** The view of a stack that has just been connected: no call, no pipe. *)
Lemma vinv_fresh v :
  (∀ j k, v_cds v !! j = Some k -> k = core_of bzero_cd) ->
  (∀ i p, v_pipes v !! i = Some p -> p = (0, ST_L2_PAUSE, None)) ->
  length (v_pipes v) = PIPE_MAX -> Z.of_nat (length (v_cds v)) < 2 ^ 31 ->
  v_conn v = true -> 1 < v_cdid_end v <= CDID_REF_MAX -> is_u32 (v_cdid_count v) -> v_l1 v = 0 ->
  length (v_util v) = 8%nat -> v_end v <= Z.of_nat I4B_MAX_CHANNELS -> v_fault v = false ->
  vinv None None (λ _, 0) 0 v.
Proof.
  intros Hc Hp Hlp Hlc Hconn He Hcnt Hl1 Hu Hend Hf.
  assert (Hn : ∀ j k, v_cds v !! j = Some k -> k_pipe k = None) by (intros j k Hk; by rewrite (Hc j k Hk)).
  constructor; try done.
  - intros i p Hi. by rewrite (Hp i p Hi), nrefs_none.
  - by rewrite Hl1, nactive_none.
  - intros j k i Hj Hk. by rewrite (Hn j k Hj) in Hk.
  - intros j k Hj _. by rewrite (Hc j k Hj).
  - intros i p Hi _. unfold pipe_ok. rewrite (Hp i p Hi). cbn. by apply nrefs_none.
  - split; [done|done| |].
    + intros j c k Hj (Ha & _). by rewrite (Hc j c Hj) in Ha.
    + intros j j' c c' k Hj _ (Ha & _). by rewrite (Hc j c Hj) in Ha.
  - intros j j' c c' Hj _ Hid. by rewrite (Hc j c Hj) in Hid.
Qed.

(** The state in front of [dss1_L1_activity_timeout]. *)
Definition connected (d : dss1_driver) (w : world) : world :=
  World (setup_sc d (w_cntl w))
    ((w_cntl w) <| N_call_desc ::= map (λ _, bzero_cd) |>
                <| N_channel_utilization ::= map (λ _, 0) |> <| N_cdid_end := 0x7F |>)
    (w_env w) (CMR_NT_MODE (driver_nt d) :: w_out w).
Lemma connect_run d w :
  (dss1_connect_ft d w).2 =
  (mod_cntl (SET_CHANNEL_UTILIZATION CHAN_D1 true) (dss1_L1_activity_timeout (connected d w)).2).2.
Proof. reflexivity. Qed.

Lemma inv_connect d w : attached w -> inv (dss1_connect_ft d w).2.
Proof.
  intros [H1 H2 H3 H4 H5]. rewrite connect_run.
  pose proof (frames_view_activity (connected d w)) as Hv. revert Hv.
  generalize (dss1_L1_activity_timeout (connected d w)).2. intros w1 Hv. unfold inv, winv.
  assert (Hv2 : view_of (mod_cntl (SET_CHANNEL_UTILIZATION CHAN_D1 true) w1).2 =
    upd_util (SET_BIT (v_util (view_of w1)) CHAN_D1 true) (view_of w1)) by done.
  rewrite Hv2, Hv. clear w1 Hv Hv2. unfold connected. apply vinv_fresh; try done; cbn in *.
  - intros j k Hj. rewrite list_lookup_fmap, list_lookup_fmap in Hj.
    destruct (N_call_desc (w_cntl w) !! j); [|done]. by injection Hj as <-.
  - intros i p Hi. do 16 (destruct i as [|i]; [by injection Hi as <-|]). done.
  - by rewrite length_fmap, length_map.
  - by rewrite SET_BIT_length, length_map.
Qed.

Lemma win_connect d w : win (dss1_connect_ft d w).2.
Proof.
  assert (Forall pipe_win (sc_pipe (setup_sc d (w_cntl w)))) as Hp.
  { apply Forall_forall. cbn [sc_pipe setup_sc]. intros p (i & -> & _)%list_elem_of_fmap.
    constructor; unfold ifq_len; cbn; lia. }
  rewrite connect_run. apply win_mod_cntl, win_activity.
  constructor; [exact Hp|cbn; lia|cbn; lia|cbn; unfold PIPE_MAX; lia].
Qed.

(** ** What is reachable *)
Definition reachable (d : dss1_driver) (w0 w : world) : Prop :=
  rtc stack_step (dss1_connect_ft d w0).2 w.

Lemma reachable_inv2 d w0 w : attached w0 -> reachable d w0 w -> inv2 w.
Proof.
  intros Ha Hr. unfold reachable in Hr.
  assert (inv2 (dss1_connect_ft d w0).2) as H0 by (split; [by apply inv_connect|apply win_connect]).
  induction Hr as [|x y z (m & Hm & ->) _ IH]; [done|]. apply IH. by apply stack_op_inv.
Qed.

(** ** What holds in every reachable state *)
Lemma filter_core (P : option nat -> Prop) `{∀ k, Decision (P (k_pipe k))}
    `{∀ cd, Decision (P (cd_pipe cd))} l :
  length (filter (λ k, P (k_pipe k)) (core_of <$> l)) = length (filter (λ cd, P (cd_pipe cd)) l).
Proof.
  induction l as [|cd l IH]; [done|]. rewrite fmap_cons, !filter_cons.
  destruct (decide (P (k_pipe (core_of cd)))), (decide (P (cd_pipe cd))); cbn; by rewrite IH.
Qed.
(** The calls whose pipe satisfies [P]. *)
Definition calls_with (P : option nat -> Prop) `{∀ x, Decision (P x)} (w : world) : Z :=
  Z.of_nat (length (filter (λ cd, P (cd_pipe cd)) (N_call_desc (w_cntl w)))).
Lemma calls_with_small P `{∀ x, Decision (P x)} w : inv w -> is_u32 (calls_with P w).
Proof.
  intros HI. pose proof (vi_few _ _ _ _ _ HI) as Hf. cbn in Hf. rewrite length_fmap in Hf.
  unfold is_u32, calls_with.
  pose proof (length_filter (λ cd, P (cd_pipe cd)) (N_call_desc (w_cntl w))). lia.
Qed.

Lemma inv_refcount w i p :
  inv w -> sc_pipe (w_sc w) !! i = Some p -> refcount p = calls_with (λ x, x = Some i) w.
Proof.
  intros HI Hp. assert (v_pipes (view_of w) !! i = Some (pcore_of p)) as Hq by (apply pipes_lookup; eauto).
  pose proof (vi_refs _ _ _ _ _ HI i _ Hq) as Hc. cbn [pcore_of fst] in Hc. rewrite Hc, Z.add_0_r.
  unfold nrefs. cbn [view_of v_cds]. rewrite (filter_core (λ x, x = Some i)).
  by apply u32_id, (calls_with_small (λ x, x = Some i)).
Qed.
Lemma inv_l1 w : inv w -> L1_auto_activate (w_sc w) = calls_with (λ x, x ≠ None) w.
Proof.
  intros HI. pose proof (vi_l1 _ _ _ _ _ HI) as Hc. cbn [view_of v_l1] in Hc. rewrite Hc, Z.add_0_r.
  unfold nactive. cbn [view_of v_cds]. rewrite (filter_core (λ x, x ≠ None)).
  by apply u32_id, (calls_with_small (λ x, x ≠ None)).
Qed.

Lemma step_op w m : stack_op w m -> stack_step w (m w).2.
Proof. intros Hm. by exists m. Qed.
Lemma step_allocate w t p : stack_step w (n_allocate_cd act None 0 t p w).2.
Proof.
  exists (n_allocate_cd act None 0 t p;; mret tt). split; [apply op_allocate|].
  unfold mbind, st_bind. by destruct (n_allocate_cd act None 0 t p w).
Qed.

(** *** A run: an outgoing call of a terminal *)
Definition sample_call : world :=
  (n_allocate_cd act None 0 1 1 (dss1_connect_ft DRVR_DSS1_TE sample_world).2).2.
Definition sample_channel : world := (cd_allocate_channel 0 sample_call).2.
Definition sample_run : world := (n_connect_request act 0 sample_channel).2.
Lemma sample_attached : attached sample_world.
Proof. constructor; concrete. Qed.
Lemma sample_reachable : reachable DRVR_DSS1_TE sample_world sample_run.
Proof.
  apply (rtc_l _ _ sample_call); [apply step_allocate|].
  apply (rtc_l _ _ sample_channel), rtc_once; apply step_op, (op_request _ 0).
  - apply in_use_total. vm_compute. discriminate.
  - apply req_channel.
  - apply in_use_total. vm_compute. discriminate.
  - apply req_connect.
Qed.
Lemma sample_inv : inv sample_run.
Proof. apply (reachable_inv2 DRVR_DSS1_TE sample_world); [exact sample_attached|exact sample_reachable]. Qed.

(** C2: in every reachable state of a connected stack, the reference count
    of each pipe is the number of the calls bound to it, and the activation
    count of layer 1 is the number of the calls bound to any pipe: no
    reference is ever lost or given back twice, whatever frames, timeouts
    and requests the stack has seen. *)
Theorem reachable_refcounts d w0 w :
  attached w0 -> reachable d w0 w ->
  (∀ i p, sc_pipe (w_sc w) !! i = Some p -> refcount p = calls_with (λ x, x = Some i) w) ∧
  L1_auto_activate (w_sc w) = calls_with (λ x, x ≠ None) w.
Proof.
  intros Ha Hr. destruct (reachable_inv2 d w0 w Ha Hr) as [HI _].
  split; [intros i p; by apply inv_refcount|by apply inv_l1].
Qed.
Lemma reachable_refcounts_witness :
  calls_with (λ x, x = Some 0%nat) sample_run = 1 ∧
  (∀ i p, sc_pipe (w_sc sample_run) !! i = Some p ->
     refcount p = calls_with (λ x, x = Some i) sample_run) ∧
  L1_auto_activate (w_sc sample_run) = calls_with (λ x, x ≠ None) sample_run.
Proof.
  split; [vm_compute; reflexivity|].
  apply (reachable_refcounts DRVR_DSS1_TE sample_world sample_run);
    [exact sample_attached|exact sample_reachable].
Defined.

(** C3: in every reachable state, a call in use is bound to one of the
    pipes, that pipe is not paused, and the timers of the call and of the
    pipe are both armed: no call can hang without a timeout to come.  A
    descriptor that is not in use has no pipe, no channel and no timer. *)
Theorem reachable_calls d w0 w j cd :
  attached w0 -> reachable d w0 w -> N_call_desc (w_cntl w) !! j = Some cd ->
  if cdid cd =? CDID_UNUSED
  then cd_pipe cd = None ∧ channel_allocated cd = false ∧ cd_set_state_callout cd = None
  else ∃ i p, cd_pipe cd = Some i ∧ sc_pipe (w_sc w) !! i = Some p ∧
         pipe_state p ≠ ST_L2_PAUSE ∧ is_Some (pipe_set_state_callout p) ∧
         is_Some (cd_set_state_callout cd) ∧ cd_state cd ≠ ST_L3_U0.
Proof.
  intros Ha Hr Hj. destruct (reachable_inv2 d w0 w Ha Hr) as [HI _].
  assert (v_cds (view_of w) !! j = Some (core_of cd)) as Hk by (apply cds_lookup; eauto).
  pose proof (vi_call _ _ _ _ _ HI j _ Hk ltac:(done)) as Hok. unfold call_ok in Hok. cbn in Hok.
  destruct (cdid cd =? CDID_UNUSED); [done|]. destruct Hok as ([i Hp] & Ht & Hs).
  pose proof (vi_bound _ _ _ _ _ HI j _ i Hk Hp) as Hi. rewrite <-(inv_pipes w HI) in Hi.
  destruct (lookup_lt_is_Some_2 _ _ Hi) as [p Hpi]. exists i, p. split; [done|]. split; [done|].
  assert (v_pipes (view_of w) !! i = Some (pcore_of p)) as Hq by (apply pipes_lookup; eauto).
  pose proof (vi_pipe _ _ _ _ _ HI i _ Hq ltac:(done)) as Hpk. unfold pipe_ok in Hpk. cbn in Hpk.
  case_bool_decide as Hps; [|done]. exfalso.
  assert (core_of cd ∈ filter (λ k, k_pipe k = Some i) (v_cds (view_of w))) as Hin.
  { apply list_elem_of_filter. split; [done|]. apply list_elem_of_lookup. eauto. }
  unfold nrefs in Hpk. cbn [view_of v_cds] in Hin. destruct (filter _ _); [by apply not_elem_of_nil in Hin|done].
Qed.
Lemma reachable_calls_witness :
  let cd := N_call_desc (w_cntl sample_run) !!! 0%nat in
  (cdid cd =? CDID_UNUSED) = false ∧
  if cdid cd =? CDID_UNUSED
  then cd_pipe cd = None ∧ channel_allocated cd = false ∧ cd_set_state_callout cd = None
  else ∃ i p, cd_pipe cd = Some i ∧ sc_pipe (w_sc sample_run) !! i = Some p ∧
         pipe_state p ≠ ST_L2_PAUSE ∧ is_Some (pipe_set_state_callout p) ∧
         is_Some (cd_set_state_callout cd) ∧ cd_state cd ≠ ST_L3_U0.
Proof.
  split; [vm_compute; reflexivity|].
  apply (reachable_calls DRVR_DSS1_TE sample_world sample_run 0);
    [exact sample_attached|exact sample_reachable|vm_compute; reflexivity].
Defined.

(** C4: in every reachable state, no two calls have the same id, no two
    calls hold the same channel, and the channel a call holds is marked as
    used in the utilization map. *)
Theorem reachable_exclusive d w0 w j j' cd cd' :
  attached w0 -> reachable d w0 w ->
  N_call_desc (w_cntl w) !! j = Some cd -> N_call_desc (w_cntl w) !! j' = Some cd' ->
  (cdid cd ≠ CDID_UNUSED -> cdid cd = cdid cd' -> j = j') ∧
  (channel_allocated cd = true -> 0 <= channel_id cd < L1_channel_end (w_cntl w) ->
   GET_CHANNEL_UTILIZATION (w_cntl w) (channel_id cd) = true ∧
   (channel_allocated cd' = true -> channel_id cd' = channel_id cd -> j = j')).
Proof.
  intros Ha Hr Hj Hj'. destruct (reachable_inv2 d w0 w Ha Hr) as [HI _].
  assert (v_cds (view_of w) !! j = Some (core_of cd)) as Hk by (apply cds_lookup; eauto).
  assert (v_cds (view_of w) !! j' = Some (core_of cd')) as Hk' by (apply cds_lookup; eauto).
  split; [by apply (vi_ids _ _ _ _ _ HI j j' _ _ Hk Hk')|].
  intros Hal Hrg. destruct (vi_chan _ _ _ _ _ HI) as [_ _ Hu Hx].
  assert (k_holds (view_of w) (core_of cd) (channel_id cd)) as Hh by done.
  split; [by apply (Hu j _ _ Hk)|]. intros Hal' Heq.
  apply (Hx j j' _ _ (channel_id cd) Hk Hk' Hh). done.
Qed.
Lemma reachable_exclusive_witness :
  let cd := N_call_desc (w_cntl sample_run) !!! 0%nat in
  channel_id cd = CHAN_B1 ∧ GET_CHANNEL_UTILIZATION (w_cntl sample_run) (channel_id cd) = true.
Proof.
  intros cd. split; [vm_compute; reflexivity|].
  apply (reachable_exclusive DRVR_DSS1_TE sample_world sample_run 0 0 cd cd);
    [exact sample_attached|exact sample_reachable|vm_compute; reflexivity|vm_compute; reflexivity
    |vm_compute; reflexivity|vm_compute; split; [discriminate|reflexivity]].
Defined.

(** C1: no reachable state has followed a bad pointer: no event is
    processed for a call without a pipe, the transmit FIFO is there
    whenever it is started, and the frame to be polled next is in the
    queue of its pipe. *)
Theorem reachable_no_fault d w0 w :
  attached w0 -> reachable d w0 w -> FAULT ∉ w_out w.
Proof.
  intros Ha Hr Hin. destruct (reachable_inv2 d w0 w Ha Hr) as [HI _].
  pose proof (vi_fault _ _ _ _ _ HI) as Hf. cbn in Hf.
  apply not_true_iff_false in Hf. apply Hf, existsb_exists. exists FAULT.
  split; [by apply list_elem_of_In|done].
Qed.
Lemma reachable_no_fault_witness : CMR_PH_ACTIVATE ∈ w_out sample_run ∧ FAULT ∉ w_out sample_run.
Proof.
  split; [apply list_elem_of_In; vm_compute; tauto|].
  apply (reachable_no_fault DRVR_DSS1_TE sample_world sample_run);
    [exact sample_attached|exact sample_reachable].
Defined.

(** C6: in every reachable state, the transmit window of each pipe is
    consistent: [tx_window_length] (sent and not acknowledged) is at most
    [tx_window_size] (the frames of the window), which is at most 127 and
    at most the length of the queue, and [tx_nr] is a number modulo 128. *)
Theorem reachable_window d w0 w i p :
  attached w0 -> reachable d w0 w -> sc_pipe (w_sc w) !! i = Some p ->
  0 <= tx_window_length p <= tx_window_size p ∧ tx_window_size p <= 127 ∧
  tx_window_size p <= ifq_len (pipe_ifq p) ∧ 0 <= tx_nr p <= 127.
Proof.
  intros Ha Hr Hp. destruct (reachable_inv2 d w0 w Ha Hr) as [_ [Hw _ _ _]].
  by destruct (Forall_lookup_1 _ _ _ _ Hw Hp).
Qed.
Lemma reachable_window_witness :
  let p := sc_pipe (w_sc sample_run) !!! 0%nat in
  0 <= tx_window_length p <= tx_window_size p ∧ tx_window_size p <= 127 ∧
  tx_window_size p <= ifq_len (pipe_ifq p) ∧ 0 <= tx_nr p <= 127.
Proof.
  apply (reachable_window DRVR_DSS1_TE sample_world sample_run 0);
    [exact sample_attached|exact sample_reachable|vm_compute; reflexivity].
Defined.
