(* ===== verification/L2Spec.v ===== *)
(** * Functional properties of layer 2 (dss1_l2fsm.c)

    What an acknowledgement, an I-frame, a new transmit window, the choice
    of a TEI and the pause of a pipe do. *)
From S2P Require Import Prelude Mbuf Dss1Types Dss1State Buffer L3Encoder CallDesc L3Fsm.
From S2P Require Import L3Decoder StackInv L3Safe L3Reset L3Link L2Pipe L2Fsm L2Safe L2Window.
From S2P Require Import L2Poll Stack Reach.
Local Open Scope Z_scope.

(** ** Acknowledgements *)

(** Multi-frame operation: the new state and its timer. *)
Lemma multi_frame_run i w :
  (i < length (sc_pipe (w_sc w)))%nat ->
  (dss1_pipe_set_state i ST_L2_MULTI_FRAME w).2 =
  if L2_STATE_IS_TEI_ASSIGNED (pipe_state (pipe_at i w)) then
    (mod_pipe i (λ p, p <| pipe_state := ST_L2_MULTI_FRAME |>
                        <| pipe_set_state_callout := Some (12 * hz (w_env w)) |>) w).2
  else w.
Proof.
  intros Hi. rewrite set_state_run.
  assert (set_state_refused i ST_L2_MULTI_FRAME w =
          negb (L2_STATE_IS_TEI_ASSIGNED (pipe_state (pipe_at i w)))) as ->.
  { unfold set_state_refused, pstate, pipe_at. by destruct (pipe_state _). }
  destruct (L2_STATE_IS_TEI_ASSIGNED _); [|done]. cbn [negb]. cbv zeta.
  unfold set_state_head. rewrite !run_bind. set (w1 := (mod_pipe i _ w).2).
  assert (Hs : pstate i w1 = ST_L2_MULTI_FRAME) by (by apply pstate_mod_pipe).
  assert (Hz : hz (w_env w1) = hz (w_env w)) by done.
  assert (bool_decide (ST_L2_MULTI_FRAME = ST_L2_SINGLE_FRAME) = false) as -> by done.
  cbn [when mret st_ret get_pipe gets fst snd]. fold (pstate i w1). rewrite Hs.
  assert (bool_decide (ST_L2_MULTI_FRAME = ST_L2_SEND_TEI) = false) as -> by done.
  cbn [mret st_ret fst snd]. unfold set_state_tail. rewrite run_bind. cbn [get_pipe gets fst snd].
  fold (pstate i w1). rewrite Hs. cbn [bool_decide decide decide_rel].
  change ((if bool_decide (ST_L2_MULTI_FRAME = ST_L2_SEND_SABME) then
    when (TE_MODE (w_sc w) || IS_POINT_TO_POINT (w_sc w))
      (dss1_cntl_tx_frame i CR_COMMAND (Z.lor CNTL_SABME CNTL_PF_BIT))
    else when (bool_decide (ST_L2_MULTI_FRAME = ST_L2_PAUSE)) (set_state_pause i)) w1).2 with w1.
  unfold rearm_pipe. rewrite !run_bind. cbn [get_hz get_pipe gets fst snd]. rewrite run_when, Hz.
  fold (pstate i w1). rewrite Hs.
  change (negb (bool_decide (ST_L2_MULTI_FRAME = ST_L2_PAUSE))) with true. cbv iota.
  subst w1. rewrite mod_pipe_twice. reflexivity.
Qed.

(** The number of frames the N(R) of a received frame acknowledges. *)
Definition acked (p : pipe) (buf : dss1_buffer) : Z :=
  (GET_NR (dss1_get_1 buf (Z.of_nat OFF_RX_NR)) - tx_nr p) mod 128.

Lemma u8_mod_128 x : u8 x mod NR_MAX = x mod 128.
Proof.
  unfold u8, NR_MAX. rewrite (Z.div_mod x 256) at 2 by lia.
  replace (256 * (x `div` 256) + x `mod` 256) with (x `mod` 256 + (2 * (x `div` 256)) * 128) by lia.
  by rewrite Z.mod_add by lia.
Qed.

Lemma pipe_at_fifo_start i w : pipe_at i (fifo_start w).2 = pipe_at i w.
Proof. unfold fifo_start. rewrite run_bind. cbn [get_sc gets fst snd]. by case_match. Qed.

(** The pipe a valid acknowledgement leaves. *)
Definition ack_pipe (hz n new : Z) (p : pipe) : pipe :=
  let p := p <| tx_nr := new |> in
  let p := if L2_STATE_IS_TEI_ASSIGNED (pipe_state p)
           then p <| pipe_state := ST_L2_MULTI_FRAME |> <| pipe_set_state_callout := Some (12 * hz) |>
           else p in
  p <| tx_window_length ::= λ l, l - n |>.

(** The cases of an acknowledgement, for one pipe. *)
Lemma check_NR_run i buf w :
  pipe_win (pipe_at i w) -> (i < length (sc_pipe (w_sc w)))%nat ->
  let p := pipe_at i w in
  let p' := pipe_at i (check_NR i buf w).2 in
  let new := GET_NR (dss1_get_1 buf (Z.of_nat OFF_RX_NR)) in
  let n := acked p buf in
  if n =? 0 then p' = p <| tx_nr := new |>
  else if n <=? tx_window_length p then
    p' = ack_pipe (hz (w_env w)) n new p ∧ 0 <= tx_window_length p'
  else tx_window_length p' = 0 ∧ tx_window_size p' = 0.
Proof.
  intros Hw Hi p p' new n. subst p'. unfold check_NR. rewrite run_bind.
  cbn [get_pipe gets fst snd]. cbv zeta. fold (pipe_at i w) new. fold p. rewrite u8_mod_128.
  change ((new - tx_nr p) mod 128) with n. rewrite run_bind. set (w1 := (mod_pipe i _ w).2).
  assert (Hp1 : pipe_at i w1 = p <| tx_nr := new |>) by (by apply (pipe_at_mod i)).
  assert (Hi1 : (i < length (sc_pipe (w_sc w1)))%nat) by (subst w1; cbn; by rewrite length_alter).
  assert (Hz : hz (w_env w1) = hz (w_env w)) by done. clearbody w1.
  assert (0 <= n < 128) as Hn by (apply Z.mod_pos_bound; lia).
  destruct Hw as [Hl1 Hl2 _ _]. fold p in Hl1, Hl2.
  rewrite run_when. destruct (Z.eqb_spec n 0) as [H0|H0]; cbn [negb]; [done|].
  rewrite Z.leb_antisym. destruct (Z.ltb_spec (tx_window_length p) n) as [Hlt|Hge]; cbn [negb].
  - rewrite run_bind. set (w2 := (dss1_pipe_set_state i ST_L2_SINGLE_FRAME w1).2).
    unfold pipe_at. cbn. rewrite !list_lookup_total_alt, list_lookup_alter_eq.
    by destruct (sc_pipe (w_sc w2) !! i).
  - rewrite run_bind, run_bind, run_bind. cbn [get_pipe gets fst snd].
    rewrite (multi_frame_run i w1 Hi1), Hp1, Hz. cbn [tx_nr pipe_state].
    assert (Hf : ∀ b w, pipe_at i (when b fifo_start w).2 = pipe_at i w).
    { intros b w'. rewrite run_when. destruct b; [apply pipe_at_fifo_start|done]. }
    rewrite Hf. assert (u8 (tx_window_length p - n) = tx_window_length p - n) as Hu
      by (apply u8_id; unfold is_u8; lia).
    unfold ack_pipe. cbn [pipe_state].
    change (pipe_state (p <| tx_nr := new |>)) with (pipe_state p).
    destruct (L2_STATE_IS_TEI_ASSIGNED (pipe_state p)).
    + rewrite mod_pipe_twice, pipe_at_mod, Hp1 by done. unfold compose, set. cbn. rewrite Hu.
      split; [done|lia].
    + rewrite pipe_at_mod, Hp1 by done. unfold set. cbn. rewrite Hu. split; [done|lia].
Qed.
(** C19: the acknowledgement in a received frame.  With N(R) equal to the
    number of the window nothing but [tx_nr] is stored; an N(R) inside the
    window takes that many frames off [tx_window_length], never below zero,
    enters multi-frame operation if a TEI is assigned, and leaves the size
    of the window and the queue alone; an N(R) outside of the window closes
    it. *)
Theorem check_NR_correct i buf w :
  win w -> (i < length (sc_pipe (w_sc w)))%nat ->
  let p := pipe_at i w in
  let p' := pipe_at i (check_NR i buf w).2 in
  let new := GET_NR (dss1_get_1 buf (Z.of_nat OFF_RX_NR)) in
  let n := acked p buf in
  if n =? 0 then p' = p <| tx_nr := new |>
  else if n <=? tx_window_length p then
    p' = ack_pipe (hz (w_env w)) n new p ∧ 0 <= tx_window_length p'
  else tx_window_length p' = 0 ∧ tx_window_size p' = 0.
Proof.
  intros [Hall _ _ _] Hi. apply check_NR_run; [|done]. destruct (lookup_lt_is_Some_2 _ _ Hi) as [p0 Hp0].
  unfold pipe_at. rewrite (list_lookup_total_correct _ _ _ Hp0). by apply (Forall_lookup_1 _ _ _ _ Hall Hp0).
Qed.
(** An open window of three frames of which two are acknowledged. *)
Definition sample_frames : ifqueue := Ifqueue (replicate 3 (Mbuf (replicate 10 0) 0 10 false)) 48.
Definition sample_window : world :=
  sample_world <| w_sc ::= λ s, s <| sc_pipe ::= <[0%nat :=
    Pipe 1 ST_L2_SINGLE_FRAME None (Some 800) 0x83 0x8643 sample_frames 3 3 5 126]> |> |>.
Definition sample_ack : dss1_buffer := dss1_buf_init [2; 0x83; 1; 0] 4.
Lemma sample_win : win sample_window.
Proof.
  constructor; [|cbn; lia|cbn; lia|cbn; unfold PIPE_MAX; lia]. cbn.
  repeat (apply Forall_cons; split; [constructor; unfold ifq_len; cbn; lia|]). apply Forall_nil_2.
Qed.
Lemma check_NR_correct_witness :
  let p := pipe_at 0 sample_window in
  let p' := pipe_at 0 (check_NR 0 sample_ack sample_window).2 in
  acked p sample_ack = 2 ∧ p' = ack_pipe 100 2 0 p ∧ 0 <= tx_window_length p'.
Proof.
  split; [vm_compute; reflexivity|].
  apply (check_NR_correct 0 sample_ack sample_window); [exact sample_win|cbn; lia].
Defined.

(** ** The choice of a TEI *)

(** The values the search tries. *)
Fixpoint tei_tried (n : nat) (last : Z) : list Z :=
  match n with O => [] | S n => next_TEI last :: tei_tried n (next_TEI last) end.

(** [n] tries from any start give [n] different automatic values. *)
Definition tei_check (n : nat) (last : Z) : bool :=
  bool_decide (NoDup (tei_tried n last)) &&
  forallb (λ t, Z.odd t && (0x81 <=? t) && (t <=? 0xFF)) (tei_tried n last).
Lemma tei_check_all : forallb (λ k, tei_check TEI_fuel (Z.of_nat k)) (seq 0 256) = true.
Proof. vm_compute. reflexivity. Qed.
Lemma tei_tried_spec last :
  is_u8 last -> NoDup (tei_tried TEI_fuel last) ∧
  ∀ t, t ∈ tei_tried TEI_fuel last -> Z.odd t = true ∧ 0x81 <= t <= 0xFF.
Proof.
  intros Hl. pose proof tei_check_all as Hall. rewrite forallb_forall in Hall.
  specialize (Hall (Z.to_nat last)). unfold is_u8 in Hl.
  rewrite Z2Nat.id in Hall by lia.
  assert (tei_check TEI_fuel last = true) as Hc by (apply Hall, in_seq; lia). clear Hall.
  unfold tei_check in Hc. apply andb_true_iff in Hc as [Hn%bool_decide_eq_true Hf].
  split; [done|]. intros t Ht%list_elem_of_In. rewrite forallb_forall in Hf.
  specialize (Hf t Ht). apply andb_true_iff in Hf as [[H1 H2%Z.leb_le]%andb_true_iff H3%Z.leb_le]. done.
Qed.

Lemma tei_in_use_spec pipes t : tei_in_use pipes t = true <-> t ∈ map tei pipes.
Proof.
  unfold tei_in_use. rewrite existsb_exists. split.
  - intros (p & Hp & Heq%Z.eqb_eq). subst t. apply list_elem_of_fmap. exists p.
    split; [done|by apply list_elem_of_In].
  - intros (p & -> & Hp)%list_elem_of_fmap. exists p. split; [by apply list_elem_of_In|apply Z.eqb_refl].
Qed.

(** The search gives a value it tried and no pipe has, or all it tried are
    taken. *)
Lemma TEI_loop_spec fuel pipes last :
  match get_unused_TEI_loop fuel pipes last with
  | Some t => t ∈ tei_tried fuel last ∧ t ∉ map tei pipes
  | None => ∀ t, t ∈ tei_tried fuel last -> t ∈ map tei pipes
  end.
Proof.
  revert last. induction fuel as [|fuel IH]; intros last; cbn [get_unused_TEI_loop tei_tried].
  { intros t Ht. by apply not_elem_of_nil in Ht. }
  destruct (tei_in_use pipes (next_TEI last)) eqn:E.
  - apply tei_in_use_spec in E. specialize (IH (next_TEI last)).
    destruct (get_unused_TEI_loop fuel pipes (next_TEI last)) as [t|].
    + destruct IH. split; [by right|done].
    + intros t [->|Ht]%elem_of_cons; [done|by apply IH].
  - split; [by left|]. intros Hin%tei_in_use_spec. congruence.
Qed.
Lemma tei_tried_length n last : length (tei_tried n last) = n.
Proof. revert last. induction n as [|n IH]; intros last; cbn; [done|by rewrite IH]. Qed.
Lemma TEI_loop_terminates pipes last :
  is_u8 last -> (length pipes < TEI_fuel)%nat ->
  ∃ t, get_unused_TEI_loop TEI_fuel pipes last = Some t ∧
       Z.odd t = true ∧ 0x81 <= t <= 0xFF ∧ t ∉ map tei pipes.
Proof.
  intros Hl Hp. destruct (tei_tried_spec last Hl) as [Hnd Hr].
  pose proof (TEI_loop_spec TEI_fuel pipes last) as Hs.
  destruct (get_unused_TEI_loop TEI_fuel pipes last) as [t|].
  - destruct Hs as [Hin Hni]. exists t. by destruct (Hr t Hin).
  - exfalso. pose proof (NoDup_submseteq _ _ Hnd Hs) as Hle%submseteq_length.
    rewrite tei_tried_length, length_map in Hle. lia.
Qed.

(** The values for automatic assignment: odd octets from 0x81 on. *)
Definition automatic_TEI (t : Z) : Prop := Z.odd t = true ∧ 0x81 <= t <= 0xFF.
(** [dss1_get_unused_TEI] always ends with a TEI for automatic
    assignment (odd, from 0x81 on) that no pipe uses; the broadcast value
    is given out only if no pipe has it.  Only [sc_tei_last] changes. *)
Lemma dss1_get_unused_TEI_correct w :
  is_u8 (sc_tei_last (w_sc w)) -> (length (sc_pipe (w_sc w)) <= PIPE_MAX)%nat ->
  ∃ t, dss1_get_unused_TEI w = (t, w <| w_sc ::= λ s, s <| sc_tei_last := t |> |>) ∧
       automatic_TEI t ∧ t ∉ map tei (sc_pipe (w_sc w)).
Proof.
  intros Hl Hp. destruct (TEI_loop_terminates (sc_pipe (w_sc w)) (sc_tei_last (w_sc w)) Hl)
    as (t & Ht & H).
  { unfold PIPE_MAX, TEI_fuel in *. lia. }
  exists t. split; [|unfold automatic_TEI; tauto]. unfold dss1_get_unused_TEI. rewrite run_bind. cbn [get_sc gets fst snd].
  by rewrite Ht, run_bind.
Qed.

(** ** A new transmit window *)

(** The part of the world [open_window] works on, when memory lasts. *)
Definition zif : mbuf := Mbuf (replicate I_HEADER_LEN 0) 0 I_HEADER_LEN false.
Lemma get_mbuf_run n w :
  getmbuf_avail (w_env w) = [] -> (n <= MCLBYTES)%nat ->
  (get_mbuf n w).1 = Some (Mbuf (replicate n 0) 0 n false) ∧
  getmbuf_avail (w_env (get_mbuf n w).2) = [] ∧ w_sc (get_mbuf n w).2 = w_sc w.
Proof.
  intros Ha Hn. unfold get_mbuf. rewrite !run_bind. cbn. rewrite Ha. cbn. split; [|done].
  unfold i4b_getmbuf. destruct (Nat.ltb_spec MCLBYTES n); [lia|done].
Qed.
(** One ZIF is put in front of the queue. *)
Definition with_front (l : list mbuf) (p : pipe) : pipe :=
  p <| pipe_ifq ::= λ q, q <| ifq ::= app l |> |>.
Lemma with_front_front l l' p : with_front l (with_front l' p) = with_front (l ++ l') p.
Proof. unfold with_front, set. cbn. by rewrite app_assoc. Qed.

Definition ready (i : nat) (w : world) : Prop :=
  getmbuf_avail (w_env w) = [] ∧ (i < length (sc_pipe (w_sc w)))%nat.
Lemma insert_ZIF_step fuel i w :
  ready i w -> ∃ w', ready i w' ∧ pipe_at i w' = with_front [zif] (pipe_at i w) ∧
    sc_current_pipe (w_sc w') = sc_current_pipe (w_sc w) ∧
    insert_ZIF (S fuel) i w =
      if is_ZIF (ifq (pipe_ifq (pipe_at i w)) !! 0%nat) then (true, w') else insert_ZIF fuel i w'.
Proof.
  intros [Ha Hi]. cbn [insert_ZIF]. rewrite run_bind.
  destruct (get_mbuf_run I_HEADER_LEN w Ha) as (-> & Ha' & Hsc); [by apply Nat.leb_le|].
  rewrite run_bind, run_bind. cbn [get_pipe gets fst snd]. set (w1 := (get_mbuf _ w).2) in *.
  exists (mod_pipe i (λ p, p <| pipe_ifq ::= IF_PREPEND zif |>) w1).2.
  assert (pipe_at i (mod_pipe i (λ p, p <| pipe_ifq ::= IF_PREPEND zif |>) w1).2 =
          with_front [zif] (pipe_at i w)) as Hp.
  { rewrite pipe_at_mod by (by rewrite Hsc). unfold pipe_at. by rewrite Hsc. }
  split; [split; [done|]; cbn; by rewrite length_alter, Hsc|]. split; [exact Hp|].
  split; [cbn; by rewrite Hsc|]. fold zif. fold (pipe_at i (mod_pipe i (λ p, p <| pipe_ifq ::= IF_PREPEND zif |>) w1).2).
  rewrite Hp.
  change (ifq (pipe_ifq (with_front [zif] (pipe_at i w))) !! 1%nat) with
    (ifq (pipe_ifq (pipe_at i w)) !! 0%nat). by destruct (is_ZIF _).
Qed.

(** The frames in front of [rest] are new zero length frames, at most two,
    and the first two of all are zero length frames. *)
Definition probing (zifs rest : list mbuf) : Prop :=
  Forall (.= zif) zifs ∧ (length zifs <= 2)%nat ∧
  is_ZIF ((zifs ++ rest) !! 0%nat) = true ∧ is_ZIF ((zifs ++ rest) !! 1%nat) = true.
Lemma make_ZIFs_run i w :
  ready i w -> ∃ zifs, ready i (make_ZIFs i w).2 ∧
    probing zifs (ifq (pipe_ifq (pipe_at i w))) ∧
    pipe_at i (make_ZIFs i w).2 = with_front zifs (pipe_at i w).
Proof.
  intros Hr. unfold make_ZIFs. rewrite run_bind. cbn [get_pipe gets fst snd]. fold (pipe_at i w).
  set (q := ifq (pipe_ifq (pipe_at i w))).
  destruct (is_ZIF (q !! 0%nat)) eqn:E0; [destruct (is_ZIF (q !! 1%nat)) eqn:E1|].
  - exists []. split; [done|]. split.
    + split; [apply Forall_nil_2|]. split; [cbn; lia|by rewrite app_nil_l].
    + cbn. fold (pipe_at i w). by destruct (pipe_at i w) as [? ? ? ? ? ? []].
  - cbn [andb]. rewrite run_bind. destruct (insert_ZIF_step 1 i w Hr) as (w1 & Hr1 & Hp1 & _ & ->).
    fold q. rewrite E0. exists [zif]. split; [done|]. split; [|done].
    split; [by repeat constructor|]. split; [cbn; lia|done].
  - cbn [andb]. rewrite run_bind. destruct (insert_ZIF_step 1 i w Hr) as (w1 & Hr1 & Hp1 & _ & ->).
    fold q. rewrite E0. destruct (insert_ZIF_step 0 i w1 Hr1) as (w2 & Hr2 & Hp2 & _ & ->).
    rewrite Hp1. exists [zif; zif]. split; [done|]. split.
    + split; [by repeat constructor|]. split; [cbn; lia|done].
    + cbn. rewrite Hp2, Hp1. done.
Qed.

(** The number of the next frame is not known to the peer for sure. *)
Definition probes (p : pipe) : bool :=
  (tx_nr p =? 0x7F) || (tx_nr p =? 0) ||
  (L2_state_val (pipe_state p) <=? L2_state_val ST_L2_SINGLE_FRAME).
(** The frames that are not acknowledged. *)
Definition unacked (p : pipe) : list mbuf := drop (Z.to_nat (tx_window_size p)) (ifq (pipe_ifq p)).

(** The last steps: [n] frames are to be polled from the front. *)
Definition set_window (n : Z) (p : pipe) : pipe :=
  p <| get_mbuf_callout := None |> <| tx_window_length := n |> <| tx_window_size := n |>.
Definition dropped (p : pipe) : pipe :=
  p <| pipe_ifq ::= λ q, q <| ifq := unacked p |> |> <| tx_window_size := 0 |>.

Lemma open_window_run i w :
  ready i w -> L2_STATE_IS_TEI_ASSIGNED (pipe_state (pipe_at i w)) = true ->
  0 <= tx_nr (pipe_at i w) <= 127 ->
  let p := pipe_at i w in
  let w' := (open_window i w).2 in
  ∃ zifs, (if probes p then probing zifs (unacked p) else zifs = []) ∧
    let n := Z.min (if probes p then 2 else 127 - tx_nr p) (Z.of_nat (length (zifs ++ unacked p))) in
    pipe_at i w' = set_window n (with_front zifs (dropped p)) ∧
    sc_current_mbuf (w_sc w') = 0%nat ∧ sc_current_length (w_sc w') = n ∧
    sc_current_tx_nr (w_sc w') = tx_nr p.
Proof.
  intros [Ha Hi] Has Hnr p w'. subst w'. unfold open_window. rewrite !run_bind.
  cbn [get_pipe gets fst snd]. cbv zeta.
  set (w1 := (mod_pipe i _ w).2).
  assert (Hp1 : pipe_at i w1 = dropped p) by (by apply (pipe_at_mod i)).
  assert (Hr1 : ready i w1) by (split; [done|]; subst w1; cbn; by rewrite length_alter). clearbody w1.
  fold (pipe_at i w1). rewrite Hp1. cbn [dropped pipe_state tx_nr].
  change (pipe_state (dropped p)) with (pipe_state p). change (tx_nr (dropped p)) with (tx_nr p).
  subst p. rewrite Has. cbn [negb andb]. fold (probes (pipe_at i w)). set (p := pipe_at i w) in *.
  set (w2 := (when _ (make_ZIFs i) w1).2).
  assert (∃ zifs, (if probes p then probing zifs (unacked p) else zifs = []) ∧ ready i w2 ∧
            pipe_at i w2 = with_front zifs (dropped p)) as (zifs & Hz & Hr2 & Hp2).
  { subst w2. rewrite run_when. destruct (probes p).
    - destruct (make_ZIFs_run i w1 Hr1) as (zifs & Hr2 & Hz & Hp2). rewrite Hp1 in Hz, Hp2. by exists zifs.
    - exists []. split; [done|]. split; [done|]. cbn [snd]. by rewrite Hp1. }
  clearbody w2. exists zifs. split; [done|]. destruct Hr2 as [Ha2 Hi2].
  set (mx := if probes p then 2 else u8 (127 - tx_nr p)).
  assert (mx = if probes p then 2 else 127 - tx_nr p) as Hmx.
  { subst mx. destruct (probes p); [done|]. apply u8_id. unfold is_u8. lia. }
  rewrite <-Hmx. assert (0 <= mx <= 127) by (rewrite Hmx; destruct (probes p); lia). clearbody mx.
  set (n := Z.min mx _). assert (Hn : u8 (Z.min mx (ifq_len (pipe_ifq (pipe_at i w2)))) = n).
  { rewrite Hp2. subst n. unfold ifq_len. cbn [with_front]. apply u8_id. unfold is_u8. lia. }
  rewrite (mod_pipe_ext i _ (set_window n)) by (unfold set_window; by rewrite Hn).
  fold (pipe_at i (mod_pipe i (set_window n) w2).2).
  rewrite (pipe_at_mod i (set_window n) w2 Hi2), Hp2. split; [|done].
  rewrite <-Hp2, <-(pipe_at_mod i (set_window n) w2 Hi2). done.
Qed.

(** Opening the transmit window of a pipe with a TEI, while memory
    lasts.  The acknowledged frames are gone and the others stay in order.
    If the number of the next frame may be unknown to the peer, the window
    is exactly two zero length frames in front of them, so no frame of
    layer 3 is sent to find it out; otherwise the window takes as many
    frames as there are without wrapping around modulo 128.  The polling
    starts at the first frame of the queue with the number [tx_nr]. *)
Lemma open_window_correct i w :
  ready i w -> L2_STATE_IS_TEI_ASSIGNED (pipe_state (pipe_at i w)) = true ->
  0 <= tx_nr (pipe_at i w) <= 127 ->
  let p := pipe_at i w in
  let w' := (open_window i w).2 in
  let p' := pipe_at i w' in
  (∃ zifs, ifq (pipe_ifq p') = zifs ++ unacked p ∧
     if probes p
     then probing zifs (unacked p) ∧ tx_window_length p' = 2
     else zifs = [] ∧ tx_window_length p' = Z.min (127 - tx_nr p) (Z.of_nat (length (unacked p)))) ∧
  tx_window_size p' = tx_window_length p' ∧ tx_nr p' = tx_nr p ∧
  tx_nr p' + (if probes p then 0 else tx_window_length p') <= 127 ∧
  sc_current_mbuf (w_sc w') = 0%nat ∧ sc_current_length (w_sc w') = tx_window_length p' ∧
  sc_current_tx_nr (w_sc w') = tx_nr p.
Proof.
  intros Hr Has Hnr. destruct (open_window_run i w Hr Has Hnr) as (zifs & Hz & E1 & E2 & E3 & E4).
  intros p w' p'. subst p' w'. rewrite E1, E2, E3, E4. fold p. fold p in Hnr, Hz. cbn.
  split; [|split; [done|]; split; [done|]; split; [destruct (probes p); lia|done]].
  exists zifs. split; [done|]. destruct (probes p).
  - split; [done|]. destruct Hz as (_ & _ & H0 & H1).
    destruct ((zifs ++ unacked p) !! 1%nat) eqn:E; [|done]. apply lookup_lt_Some in E. lia.
  - subst zifs. done.
Qed.

(** ** The header of an I-frame *)

Lemma NR_octet x b :
  is_u8 x -> let o := Z.land (Z.shiftl x 1) 0xfe in
  let o := if b : bool then Z.lor o 1 else o in GET_NR o = x mod 128 ∧ bit_set o 1 = b.
Proof.
  intros Hx o o'. pose proof (byte_forall (λ x,
    let o := Z.land (Z.shiftl x 1) 0xfe in
    (GET_NR o =? x mod 128) && (GET_NR (Z.lor o 1) =? x mod 128) &&
    negb (bit_set o 1) && bit_set (Z.lor o 1) 1) ltac:(vm_compute; reflexivity) x Hx) as H.
  cbv beta zeta in H. fold o in H. rewrite !andb_true_iff, !Z.eqb_eq, negb_true_iff in H.
  destruct H as [[[H1 H2] H3] H4]. subst o'. by destruct b.
Qed.

(** The frame a buffer carries, as the receiver sees it. *)
Definition received (m : mbuf) : dss1_buffer :=
  dss1_buf_init (drop (m_off m) (m_buf m)) (Z.of_nat (m_len m)).
Lemma drop_m_put m i b :
  drop (m_off (m_put i b m)) (m_buf (m_put i b m)) = <[i := b]> (drop (m_off m) (m_buf m)).
Proof. cbn. rewrite drop_insert_ge by lia. f_equal. lia. Qed.

(** The receiver of an I-frame reads from the header what the sender
    has put there: the SAPI of call control as a command, the TEI, N(S)
    modulo 128 in an octet that marks an I-frame, N(R), and the poll bit
    exactly in the last frame of a window; the message behind the header is
    untouched. *)
Lemma i_header_roundtrip p nr last m :
  is_u8 nr -> is_u8 (rx_nr p) -> (I_HEADER_LEN <= m_len m <= MCLBYTES)%nat ->
  (m_off m + m_len m <= length (m_buf m))%nat ->
  let b := received (i_header p nr last m) in
  GET_SAPI (dss1_get_1 b (Z.of_nat OFF_SAPI)) = SAPI_CCP ∧
  GET_CR_BIT (dss1_get_1 b (Z.of_nat OFF_SAPI)) = CR_COMMAND ∧
  dss1_get_1 b (Z.of_nat OFF_TEI) = tei p ∧
  bit_set (dss1_get_1 b (Z.of_nat OFF_CNTL)) 1 = false ∧
  GET_NR (dss1_get_1 b (Z.of_nat OFF_TX_NR)) = nr mod 128 ∧
  GET_NR (dss1_get_1 b (Z.of_nat OFF_RX_NR)) = rx_nr p mod 128 ∧
  bit_set (dss1_get_1 b (Z.of_nat OFF_RX_NR)) 1 = last ∧
  drop I_HEADER_LEN (start b) = drop I_HEADER_LEN (start (received m)).
Proof.
  intros Hnr Hrx Hlen Hbuf b. destruct (NR_octet nr false Hnr) as [N1 N2].
  destruct (NR_octet (rx_nr p) last Hrx) as [R1 R2]. cbv zeta in N1, N2, R1, R2.
  assert (length (drop (m_off m) (m_buf m)) = (length (m_buf m) - m_off m)%nat) as Hl by apply length_drop.
  assert (len b = Z.of_nat (m_len m)) as Hlb.
  { subst b. cbn. unfold u16. apply Z.mod_small. unfold MCLBYTES in Hlen. lia. }
  assert (start b = <[3%nat := if last then Z.lor (Z.land (Z.shiftl (rx_nr p) 1) 254) 1
                               else Z.land (Z.shiftl (rx_nr p) 1) 254]>
    (<[2%nat := Z.land (Z.shiftl nr 1) 254]> (<[1%nat := tei p]> (<[0%nat := MAKE_SAPI SAPI_CCP CR_COMMAND]>
      (drop (m_off m) (m_buf m)))))) as Hs.
  { subst b. unfold received, i_header. cbn [dss1_buf_init start]. by rewrite !drop_m_put. }
  assert (Hget : ∀ k, (k < 4)%nat -> dss1_get_1 b (Z.of_nat k) = default 0 (start b !! k)).
  { intros k Hk. unfold dss1_get_1. rewrite Hlb. change (offset b) with 0. rewrite Z.add_0_r.
    assert (u16 (Z.of_nat k) = Z.of_nat k) as -> by (apply u16_id; unfold is_u16; lia).
    unfold I_HEADER_LEN in Hlen. destruct (Z.ltb_spec (Z.of_nat k) 0); [lia|].
    destruct (Z.leb_spec (Z.of_nat (m_len m)) (Z.of_nat k)); [lia|]. cbn [orb]. by rewrite Nat2Z.id. }
  rewrite !Hget by (vm_compute; lia). rewrite Hs. clear Hget Hs Hlb b.
  change (start (received m)) with (drop (m_off m) (m_buf m)).
  unfold I_HEADER_LEN in *. revert Hl. generalize (drop (m_off m) (m_buf m)).
  intros [|c0 [|c1 [|c2 [|c3 fr]]]] Hl; try (cbn in Hl; lia). cbn. repeat split; done.
Qed.

(** ** The pause of a pipe *)
Lemma pause_run i w :
  (i < length (sc_pipe (w_sc w)))%nat ->
  (dss1_pipe_set_state i ST_L2_PAUSE w).2 =
  (set_state_pause i
    (mod_pipe i (λ p, p <| pipe_state := ST_L2_PAUSE |> <| pipe_set_state_callout := None |>) w).2).2.
Proof.
  intros Hi. rewrite set_state_run.
  assert (set_state_refused i ST_L2_PAUSE w = false) as ->
    by (unfold set_state_refused; by rewrite andb_false_r).
  cbv zeta. unfold set_state_head. rewrite !run_bind. set (w1 := (mod_pipe i _ w).2).
  assert (Hs : pstate i w1 = ST_L2_PAUSE) by (by apply pstate_mod_pipe). clearbody w1.
  assert (bool_decide (ST_L2_PAUSE = ST_L2_SINGLE_FRAME) = false) as -> by done.
  cbn [when mret st_ret get_pipe gets fst snd]. fold (pstate i w1). rewrite Hs.
  assert (bool_decide (ST_L2_PAUSE = ST_L2_SEND_TEI) = false) as -> by done.
  cbn [mret st_ret fst snd]. unfold set_state_tail. rewrite run_bind. cbn [get_pipe gets fst snd].
  fold (pstate i w1). rewrite Hs.
  change ((if bool_decide (ST_L2_PAUSE = ST_L2_SEND_SABME) then
    when (TE_MODE (w_sc w) || IS_POINT_TO_POINT (w_sc w))
      (dss1_cntl_tx_frame i CR_COMMAND (Z.lor CNTL_SABME CNTL_PF_BIT))
    else when (bool_decide (ST_L2_PAUSE = ST_L2_PAUSE)) (set_state_pause i)) w1).2
    with (set_state_pause i w1).2.
  unfold rearm_pipe. rewrite !run_bind. cbn [get_hz get_pipe gets fst snd]. rewrite run_when.
  assert (pstate i (set_state_pause i w1).2 = ST_L2_PAUSE) as Hs2; [|unfold pstate in Hs2; by rewrite Hs2].
  unfold set_state_pause. rewrite run_bind.
  pose proof (links_reset_ind (λ _, mret tt) i w1) as Hl.
  assert (Hlk : ∀ w', links w' = links w1 -> pstate i w' = ST_L2_PAUSE).
  { intros w' Hw'. rewrite <-Hs. unfold links in Hw'. unfold pstate. rewrite !list_lookup_total_alt.
    pose proof (f_equal (λ l, k_pstate <$> l !! i) Hw') as He. cbn in He.
    rewrite !list_lookup_fmap in He.
    destruct (sc_pipe (w_sc w') !! i), (sc_pipe (w_sc w1) !! i); cbn in *; congruence. }
  specialize (Hlk _ Hl). revert Hlk. generalize (dss1_pipe_reset_ind (λ _, mret tt) i w1).2. intros w2.
  unfold pstate. cbn. rewrite !list_lookup_total_alt, list_lookup_alter_eq. by destruct (sc_pipe (w_sc w2) !! i).
Qed.

(** The reset leaves the calls of the other pipes alone. *)
Lemma reset_others activate i w j :
  ~ bound_to i w j ->
  N_call_desc (w_cntl (dss1_pipe_reset_ind activate i w).2) !! j = N_call_desc (w_cntl w) !! j.
Proof.
  unfold dss1_pipe_reset_ind. rewrite run_bind. cbn [gets fst snd]. generalize (cd_indices w). intros l.
  revert w. induction l as [|j' l IH]; intros w Hb; [done|].
  cbn [for_each]. rewrite run_bind. set (w1 := ((get_cd j' ≫= _) w).2).
  assert (N_call_desc (w_cntl w1) !! j = N_call_desc (w_cntl w) !! j) as H1.
  { subst w1. rewrite run_bind. cbn [get_cd gets fst snd]. rewrite run_when.
    destruct (negb _ && _) eqn:E; [|done]. destruct (decide (j' = j)) as [->|Hne].
    - exfalso. apply Hb. apply andb_true_iff in E as [E1%negb_true_iff%Z.eqb_neq E2%bool_decide_eq_true].
      pose proof (live_of_read j w i E1 E2) as (cd & i' & Hj & Hid & Hp). exists cd. split; [done|].
      split; [done|]. by rewrite (list_lookup_total_correct _ _ _ Hj) in E2.
    - by apply (other_cd_update j' j Hne). }
  clearbody w1. rewrite IH; [done|]. unfold bound_to in *. by rewrite H1.
Qed.

(** A pipe with no reference, no timer, nothing queued, a closed window and
    all sequence numbers zero. *)
Record idle_pipe (p : pipe) : Prop := {
  idle_state_of : pipe_state p = ST_L2_PAUSE;
  idle_refs : refcount p = 0;
  idle_queue : ifq (pipe_ifq p) = [];
  idle_timers : pipe_set_state_callout p = None ∧ get_mbuf_callout p = None;
  idle_window : tx_window_size p = 0 ∧ tx_window_length p = 0;
  idle_numbers : rx_nr p = 0 ∧ tx_nr p = 0;
}.
(** The reference count of a pipe no call is bound to. *)
Lemma unbound_refcount i w :
  inv w -> (i < length (sc_pipe (w_sc w)))%nat -> (∀ j, ~ bound_to i w j) -> refcount (pipe_at i w) = 0.
Proof.
  intros HI [q Hq]%lookup_lt_is_Some_2 Hnb.
  assert (pipe_at i w = q) as -> by (unfold pipe_at; by apply list_lookup_total_correct).
  assert (v_pipes (view_of w) !! i = Some (pcore_of q)) as Hv by (apply pipes_lookup; eauto).
  pose proof (vi_refs _ _ _ _ _ HI i _ Hv) as Hr. cbn [pcore_of fst] in Hr. rewrite Hr.
  by rewrite (nrefs_unbound i None (λ _, 0) 0 w HI Hnb).
Qed.
