(* ===== verification/L2Delivery.v ===== *)
(** * Delivery: what layer 2 promises to layer 3

    Two ends of a link in multi-frame operation, joined by lines that lose
    frames.  The sending end keeps its queue, its window and its repetition
    timer; the receiving end its number of the next frame.  Whatever is
    lost and however often windows are repeated, the receiving layer 3 gets
    the frames given to the sending end in order, each of them once; when a
    call is released its messages that are still in the queue are withdrawn,
    and a dummy message takes the place of each. *)
From S2P Require Import Prelude Mbuf Dss1Types Dss1State Buffer L3Encoder CallDesc L3Fsm.
From S2P Require Import L3Decoder StackInv L3Safe L3Reset L3Link L2Pipe L2Fsm L2Safe L2Window.
From S2P Require Import L2Poll Stack Reach L2Spec.
From Stdlib Require Import Sorted.
From stdpp Require Import relations.
Local Open Scope Z_scope.

(** ** The receiving end *)

(** Pipe [j] is up and expects the frame [r]. *)
Definition expects (j : nat) (r : Z) (ls : list link) : Prop :=
  ∃ k, ls !! j = Some k ∧ k_pstate k ≠ ST_L2_PAUSE ∧ (k_numbers k).1 = r.
Definition rx_at (j : nat) (r : Z) (w : world) : Prop := expects j r (links w).

Lemma rx_frame {A} j r (m : M A) : frames links m -> keeps (rx_at j r) m.
Proof. apply (frames_keeps links (expects j r)). Qed.
Lemma rx_other j r i f : i ≠ j -> keeps (rx_at j r) (mod_pipe i f).
Proof.
  intros Hi w (k & Hk & H). exists k. split; [|done]. unfold links in *. cbn. rewrite list_lookup_fmap in *.
  by rewrite list_lookup_alter_ne.
Qed.
Lemma links_mod_cd j f : frames links (mod_cd j f).
Proof. by intros w. Qed.
Lemma links_mod_cntl f : frames links (mod_cntl f).
Proof. by intros w. Qed.
Lemma links_emit o : frames links (emit o).
Proof. by intros w. Qed.
Lemma links_get_mbuf n : frames links (get_mbuf n).
Proof. unfold get_mbuf. crush. by intros w. Qed.
#[local] Hint Resolve links_mod_cd links_mod_cntl links_emit links_get_mbuf : i4b.
#[local] Hint Extern 1 (frames links (mod_pipe _ _)) => apply links_mod_pipe; intros; reflexivity : i4b.
#[local] Hint Extern 1 (frames links (mod_sc _)) => apply links_mod_sc; intros; reflexivity : i4b.
Lemma links_tx_message_by_pipe_cr i a b c d e : frames links (dss1_l3_tx_message_by_pipe_cr i a b c d e).
Proof. unfold dss1_l3_tx_message_by_pipe_cr, tx_frame, dss1_pipe_data_req, q850_cause. crush. Qed.
Lemma links_l2_data_req m : frames links (dss1_l2_data_req m).
Proof. unfold dss1_l2_data_req. crush. Qed.
#[local] Hint Resolve links_tx_message_by_pipe_cr links_l2_data_req : i4b.
Tactic Notation "links_l3" uconstr(L) := apply L; auto using links_mod_pipe, links_mod_sc; frame_l3.
Lemma links_tx_setup j : frames links (dss1_l3_tx_setup j).
Proof. links_l3 l3_tx_setup. Qed.
Lemma links_tx_message j mt fl : frames links (dss1_l3_tx_message j mt fl).
Proof. links_l3 l3_tx_message. Qed.
Lemma links_tx_complement j a b mt fl : frames links (dss1_l3_tx_message_complement j a b mt fl).
Proof. links_l3 l3_tx_complement. Qed.
Lemma links_link j b : frames links (i4b_link_bchandrvr j b).
Proof. links_l3 l3_link. Qed.
Lemma links_l4_ind ind j : frames links (l4_ind ind j).
Proof. links_l3 l3_l4_ind. Qed.
Lemma links_allocate j : frames links (cd_allocate_channel j).
Proof. links_l3 l3_allocate. Qed.
Lemma links_cd_set_state j s : frames links (cd_set_state j s).
Proof. links_l3 l3_set_state. Qed.
#[local] Hint Resolve links_tx_setup links_tx_message links_tx_complement links_link links_l4_ind links_allocate
  links_cd_set_state : i4b.
Lemma links_cntl_tx i c n : frames links (dss1_cntl_tx_frame i c n).
Proof. unfold dss1_cntl_tx_frame. crush. Qed.
Lemma links_resend i : frames links (dss1_pipe_resend_ind i).
Proof. unfold dss1_pipe_resend_ind. crush. Qed.
Lemma links_fifo_start : frames links fifo_start.
Proof. unfold fifo_start. crush. Qed.
Lemma links_allocate_cd : frames links i4b_allocate_cd.
Proof. unfold i4b_allocate_cd. crush. intros w. by destruct (get_cdid (w_cntl w)). Qed.
#[local] Hint Resolve links_cntl_tx links_resend links_fifo_start links_allocate_cd links_reset_ind : i4b.

(** Layer 3 keeps the number that is expected, if bringing up pipes does. *)
Section rx_l3.
Context (j : nat) (r : Z) (activate : nat -> M unit).
Hypothesis activate_rx : ∀ i, keeps (rx_at j r) (activate i).
#[local] Hint Resolve activate_rx : i4b.
#[local] Hint Extern 2 (keeps (rx_at j r) _) => apply rx_frame; solve [auto with i4b] : i4b.
Lemma rx_set_pipe i p : keeps (rx_at j r) (cd_set_pipe activate i p).
Proof using All.
  unfold cd_set_pipe, dss1_L1_activate_req, dss1_L1_deactivate_req, dss1_L1_activity_timeout. crush.
Qed.
#[local] Hint Resolve rx_set_pipe : i4b.
Lemma rx_cd_update c p event : keeps (rx_at j r) (cd_update activate c p event).
Proof using All.
  destruct (decide (event = EV_L3_CONNECT)) as [->|He]; [|by apply rx_frame, links_cd_update].
  unfold cd_update. apply keeps_bind; [auto with i4b|intros cd]. destruct (if dir_incoming cd then _ else _); [|auto with i4b].
  unfold cd_event, ev_connect, event_connect_ack, sms_release, no_channel_available, with_sc, set_cause_out,
    dss1_l3_tx_release_complete_complement, dss1_l3_tx_connect_acknowledge.
  crush.
Qed.
#[local] Hint Resolve rx_cd_update : i4b.
Lemma rx_pipe_data_ind i buf bc : keeps (rx_at j r) (dss1_pipe_data_ind activate i buf bc).
Proof using All.
  unfold dss1_pipe_data_ind, data_ind_no_cd, data_ind_cd, n_allocate_cd, cd_set_appl_interface. crush.
Qed.
End rx_l3.

(** A pipe that is up is not brought up again; another one is another one. *)
Lemma rx_set_state j r i s : i ≠ j -> keeps (rx_at j r) (dss1_pipe_set_state i s).
Proof.
  intros Hi. assert (∀ f, keeps (rx_at j r) (mod_pipe i f)) as Hm by (intros f; by apply rx_other).
  assert (∀ A (m : M A), frames links m -> keeps (rx_at j r) m) as Hf by (intros A m; apply rx_frame).
  unfold dss1_pipe_set_state, set_state_single_frame, set_state_send_tei, set_state_pause, dss1_tei_tx_frame,
    rearm_pipe. crush; auto with i4b.
Qed.
Lemma rx_activate j r i : keeps (rx_at j r) (dss1_pipe_activate_req i).
Proof.
  destruct (decide (i = j)) as [->|Hi].
  - intros w Hw. unfold dss1_pipe_activate_req. rewrite run_bind. cbn [get_pipe gets fst snd]. rewrite run_when.
    rewrite bool_decide_false; [done|]. destruct Hw as (k & Hk & Hp & _). unfold links in Hk.
    rewrite list_lookup_fmap in Hk. destruct (sc_pipe (w_sc w) !! j) as [p|] eqn:E; [|done].
    injection Hk as <-. rewrite list_lookup_total_alt, E. exact Hp.
  - assert (∀ f, keeps (rx_at j r) (mod_pipe i f)) as Hm by (intros f; by apply rx_other).
    unfold dss1_pipe_activate_req. crush; by apply rx_set_state.
Qed.
Lemma rx_data_ind j r i buf bc : keeps (rx_at j r) (pipe_data_ind i buf bc).
Proof. apply rx_pipe_data_ind. intros i'. apply rx_activate. Qed.

Lemma rx_at_pipe j r w : (j < length (sc_pipe (w_sc w)))%nat ->
  rx_at j r w <-> pipe_state (pipe_at j w) ≠ ST_L2_PAUSE ∧ rx_nr (pipe_at j w) = r.
Proof.
  intros Hj. unfold rx_at, expects, links, pipe_at. rewrite list_lookup_fmap, list_lookup_total_alt.
  destruct (lookup_lt_is_Some_2 _ _ Hj) as [p ->]. cbn. split; [|intros H; by eexists].
  intros (k & [= <-] & H). exact H.
Qed.
Lemma rx_at_length j r w : rx_at j r w -> (j < length (sc_pipe (w_sc w)))%nat.
Proof.
  intros (k & Hk & _). unfold links in Hk. rewrite list_lookup_fmap in Hk.
  destruct (sc_pipe (w_sc w) !! j) eqn:E; [|done]. by eapply lookup_lt_Some.
Qed.
(** An I-frame: the one that is expected, or another one. *)
Lemma put_i_frame_rx j r buf bc w : rx_at j r w ->
  let ok := r =? GET_NR (dss1_get_1 buf (Z.of_nat OFF_TX_NR)) in
  (put_i_frame j buf bc w).1 = (if ok then CNTL_RR else CNTL_REJ) ∧
  rx_at j (if ok then M128INC r else r) (put_i_frame j buf bc w).2.
Proof.
  intros Hw ok. pose proof (rx_at_length j r w Hw) as Hj.
  unfold put_i_frame. rewrite run_bind. cbn [get_pipe gets fst snd]. fold (pipe_at j w).
  pose proof (proj1 (rx_at_pipe j r w Hj) Hw) as [Hs Hr]. rewrite Hr. fold ok. destruct ok; [|done].
  rewrite !run_bind. split; [done|]. cbn [mret st_ret snd]. apply rx_data_ind.
  apply rx_at_pipe; [cbn; by rewrite length_alter|]. rewrite pipe_at_mod by done. cbn. by rewrite Hr.
Qed.

(** ** Frames on the line *)

(** What is behind the header, and N(S) and N(R) as they are read. *)
Definition data (m : mbuf) : list Z := drop I_HEADER_LEN (m_bytes m).
Definition wire_nr (m : mbuf) : Z := GET_NR (dss1_get_1 (received m) (Z.of_nat OFF_TX_NR)).
Definition wire_ack (m : mbuf) : Z := GET_NR (dss1_get_1 (received m) (Z.of_nat OFF_RX_NR)).
(** A frame of a queue. *)
Definition frame_ok (m : mbuf) : Prop :=
  m_proto1 m = false ∧ (I_HEADER_LEN <= m_len m <= MCLBYTES)%nat ∧ (m_off m + m_len m <= length (m_buf m))%nat.

Lemma m_bytes_put k b m : m_bytes (m_put k b m) = <[k := b]> (m_bytes m).
Proof.
  unfold m_bytes. change (m_len (m_put k b m)) with (m_len m). rewrite drop_m_put.
  destruct (decide (k < m_len m)%nat).
  - by rewrite take_insert_lt.
  - rewrite take_insert_ge by lia. rewrite list_insert_ge; [done|]. rewrite length_take. lia.
Qed.
Lemma get_1_bytes m k : (m_len m <= MCLBYTES)%nat -> (k < 16)%nat ->
  dss1_get_1 (received m) (Z.of_nat k) = default 0 (m_bytes m !! k).
Proof.
  intros Hl Hk. unfold dss1_get_1, received. cbn [dss1_buf_init offset len start]. rewrite Z.add_0_r.
  unfold u16. unfold MCLBYTES in Hl. rewrite !Z.mod_small by lia. rewrite (proj2 (Z.ltb_ge (Z.of_nat k) 0)) by lia. cbn [orb].
  unfold m_bytes. rewrite lookup_take, Nat2Z.id. destruct (Z.leb_spec (Z.of_nat (m_len m)) (Z.of_nat k)).
  - rewrite decide_False by lia. done.
  - rewrite decide_True by lia. done.
Qed.
Lemma m_bytes_length m : frame_ok m -> length (m_bytes m) = m_len m.
Proof. intros (_ & _ & H). unfold m_bytes. rewrite length_take, length_drop. lia. Qed.
Lemma i_header_bytes p nr last m : frame_ok m ->
  m_bytes (i_header p nr last m) =
  [MAKE_SAPI SAPI_CCP CR_COMMAND; tei p; Z.land (Z.shiftl nr 1) 0xfe;
   let rx := Z.land (Z.shiftl (rx_nr p) 1) 0xfe in if last then Z.lor rx 1 else rx] ++ data m.
Proof.
  intros Hok. unfold i_header, data. rewrite !m_bytes_put. pose proof (m_bytes_length m Hok) as Hl.
  destruct Hok as (_ & Hm & _). unfold I_HEADER_LEN in *. revert Hl. generalize (m_bytes m).
  intros [|b0 [|b1 [|b2 [|b3 l]]]] Hl; try (cbn in Hl; lia). done.
Qed.
Lemma i_header_ok p nr last m : frame_ok m -> frame_ok (i_header p nr last m).
Proof. unfold frame_ok, i_header. cbn. by rewrite !length_insert. Qed.

(** The dummy message of zero length frames, and what a frame of the queue
    is for the peer. *)
Definition dummy (w : world) : list Z :=
  if no_layer3_status_enquiry (w_cntl w) then []
  else [PD_Q931] ++ make_callreference (IS_PRIMARY_RATE (w_sc w)) 0x7f ++ [STATUS_ENQUIRY].
Definition content (d : list Z) (m : mbuf) : list Z := if is_ZIF (Some m) then d else data m.

Lemma frame_copy_wire p nr last m w :
  frame_ok m -> is_u8 nr -> getmbuf_avail (w_env w) = [] ->
  ∃ f w', frame_copy (i_header p nr last m) w = (Some f, w') ∧
    w_sc w' = w_sc w ∧ w_cntl w' = w_cntl w ∧ getmbuf_avail (w_env w') = [] ∧
    wire_nr f = nr mod 128 ∧ data f = content (dummy w) m.
Proof.
  intros Hok Hnr Ha. pose proof (i_header_ok p nr last m Hok) as Hok'.
  pose proof (i_header_bytes p nr last m Hok) as Hb. destruct (NR_octet nr false Hnr) as [HN _]. cbv zeta in HN.
  set (h := i_header p nr last m) in *. assert (m_len h = m_len m) as Hml by done.
  unfold frame_copy. rewrite !run_bind. cbn [get_sc get_cntl gets fst snd].
  destruct Hok' as (Hp & Hl & Hbuf). rewrite Hp, Hml.
  unfold content, is_ZIF. destruct Hok as (Hp0 & Hl0 & Hbuf0).
  assert ((m_len m <? I_HEADER_LEN + 1)%nat = (m_len m <=? I_HEADER_LEN)%nat) as ->.
  { destruct (Nat.ltb_spec (m_len m) (I_HEADER_LEN + 1)), (Nat.leb_spec (m_len m) I_HEADER_LEN); lia. }
  destruct (Nat.leb_spec (m_len m) I_HEADER_LEN) as [Hz|Hz]; rewrite run_bind.
  - destruct (get_mbuf_run (m_len m + 16) w Ha) as (Hg & Ha' & Hsc).
    { unfold I_HEADER_LEN, MCLBYTES in *. lia. }
    set (w1 := (get_mbuf (m_len m + 16) w).2) in *. rewrite Hg.
    assert (w_cntl w1 = w_cntl w) as Hc by done.
    eexists _, w1. split; [reflexivity|]. split; [done|]. split; [done|]. split; [done|].
    set (hdr := take (m_len m) (drop (m_off h) (m_buf h))). change hdr with (m_bytes h). rewrite Hb.
    set (body := if no_layer3_status_enquiry (w_cntl w) then [] else _). change body with (dummy w).
    assert (length (data m) = 0%nat) as Hd0.
    { unfold data. rewrite length_drop. unfold m_bytes. rewrite length_take. lia. }
    destruct (data m) as [|]; [|done]. rewrite app_nil_r.
    set (f := m_fill _ _). assert (m_bytes f = [MAKE_SAPI SAPI_CCP CR_COMMAND; tei p; Z.land (Z.shiftl nr 1) 0xfe;
      if last then Z.lor (Z.land (Z.shiftl (rx_nr p) 1) 0xfe) 1 else Z.land (Z.shiftl (rx_nr p) 1) 0xfe] ++ dummy w) as Hf.
    { unfold f. by rewrite m_bytes_fill. }
    split; [|unfold data; by rewrite Hf].
    unfold wire_nr. rewrite get_1_bytes; [rewrite Hf; exact HN| |unfold OFF_TX_NR; lia].
    unfold f, m_fill. cbn [m_len]. rewrite length_app. cbn [length].
    assert (length (dummy w) <= 10)%nat.
    { unfold dummy. destruct (no_layer3_status_enquiry _); [cbn; lia|].
      by destruct (IS_PRIMARY_RATE _); apply Nat.leb_le. }
    unfold MCLBYTES. lia.
  - destruct (get_mbuf_run 0 w Ha) as (Hg & Ha' & Hsc); [unfold MCLBYTES; lia|].
    set (w1 := (get_mbuf 0 w).2) in *. rewrite Hg.
    eexists _, w1. split; [reflexivity|]. split; [done|]. split; [done|]. split; [done|].
    unfold wire_nr, data. rewrite get_1_bytes by (unfold OFF_TX_NR; lia). rewrite Hb. split; [exact HN|done].
Qed.

(** ** The sending end *)

(** Frames are numbered from the start of the connection on, zero length
    frames included; [hist] is what has been sent under each number.  [base]
    is the first number that is not acknowledged. *)
Definition limit (t : Z) : Z := if (t =? 0x7F) || (t =? 0) then 2 else 127 - t.
(** Acknowledged frames of the window that are still in the queue. *)
Definition done_in (p : pipe) : nat := Z.to_nat (tx_window_size p - tx_window_length p).
(** The number of the first frame of the queue. *)
Definition first_in (p : pipe) (base : nat) : nat := (base - done_in p)%nat.
(** Everything that has ever been given to the sending end, with the zero
    length frames between. *)
Definition all_frames (d : list Z) (p : pipe) (hist : list (list Z)) (base : nat) : list (list Z) :=
  take (first_in p base) hist ++ map (content d) (ifq (pipe_ifq p)).

Record tx_inv (i : nat) (w : world) (d : list Z) (hist : list (list Z)) (base : nat) : Prop := {
  tx_ready : ready i w;
  tx_dummy : dummy w = d;
  tx_multi : pipe_state (pipe_at i w) = ST_L2_MULTI_FRAME;
  tx_win : pipe_win (pipe_at i w);
  tx_number : tx_nr (pipe_at i w) = Z.of_nat base mod 128;
  tx_frames : Forall frame_ok (ifq (pipe_ifq (pipe_at i w)));
  tx_done : (done_in (pipe_at i w) <= base)%nat;
  tx_hist : drop (first_in (pipe_at i w) base) hist `prefix_of` map (content d) (ifq (pipe_ifq (pipe_at i w)));
  tx_base : (base <= length hist)%nat;
  tx_limit : Z.of_nat (length hist) <= Z.of_nat base + limit (Z.of_nat base mod 128);
  tx_span : (length hist <= first_in (pipe_at i w) base + 127)%nat;
  tx_probe : probes (pipe_at i w) = true -> Forall (.= d) (drop base hist);
  tx_open : Z.of_nat base + tx_window_length (pipe_at i w) <= Z.of_nat (length hist);
}.
(** The frame that is polled next has the number it had when the window was
    opened. *)
Definition cur_ok (i : nat) (w : world) (base : nat) : Prop :=
  sc_current_length (w_sc w) ≠ 0 -> tx_window_length (pipe_at i w) ≠ 0 ->
  0 < sc_current_length (w_sc w) ∧
  Z.of_nat (sc_current_mbuf (w_sc w)) + sc_current_length (w_sc w) = tx_window_size (pipe_at i w) ∧
  sc_current_tx_nr (w_sc w) = Z.of_nat (first_in (pipe_at i w) base) mod 128 + Z.of_nat (sc_current_mbuf (w_sc w)).

Lemma probes_multi p : pipe_state p = ST_L2_MULTI_FRAME -> probes p = (tx_nr p =? 0x7F) || (tx_nr p =? 0).
Proof. unfold probes. intros ->. cbn. by rewrite orb_false_r. Qed.
Lemma limit_range t : 0 <= t <= 127 -> 0 <= limit t <= 126.
Proof. unfold limit. intros Ht. destruct (Z.eqb_spec t 127), (Z.eqb_spec t 0); cbn; lia. Qed.

(** *** An acknowledgement *)
Lemma limit_step (base a len : nat) :
  (base <= a <= len)%nat -> Z.of_nat len <= Z.of_nat base + limit (Z.of_nat base mod 128) ->
  Z.of_nat len <= Z.of_nat a + limit (Z.of_nat a mod 128) ∧
  ((Z.of_nat a mod 128 = 127 ∨ Z.of_nat a mod 128 = 0) ->
   (Z.of_nat base mod 128 = 127 ∨ Z.of_nat base mod 128 = 0) ∨ a = len).
Proof.
  intros Ha Hl. set (b := Z.of_nat base) in *. pose proof (Z.div_mod b 128 ltac:(lia)) as Hb.
  pose proof (Z.mod_pos_bound b 128 ltac:(lia)) as Hbr.
  pose proof (Z.div_mod (Z.of_nat a) 128 ltac:(lia)) as Hd. pose proof (Z.mod_pos_bound (Z.of_nat a) 128 ltac:(lia)) as Hdr.
  unfold limit in *. destruct (Z.eqb_spec (b mod 128) 127), (Z.eqb_spec (b mod 128) 0),
    (Z.eqb_spec (Z.of_nat a mod 128) 127), (Z.eqb_spec (Z.of_nat a mod 128) 0); cbn [orb] in *; lia.
Qed.

Definition acked_pipe (n new : Z) (p p' : pipe) : Prop :=
  pipe_state p' = ST_L2_MULTI_FRAME ∧ tx_nr p' = new ∧ tx_window_size p' = tx_window_size p ∧
  tx_window_length p' = tx_window_length p - n ∧ pipe_ifq p' = pipe_ifq p.
Lemma tx_acked i w w' d hist base (a : nat) :
  tx_inv i w d hist base -> (base <= a <= length hist)%nat ->
  let n := Z.of_nat a - Z.of_nat base in
  n <= tx_window_length (pipe_at i w) ->
  ready i w' -> dummy w' = d -> acked_pipe n (Z.of_nat a mod 128) (pipe_at i w) (pipe_at i w') ->
  tx_inv i w' d hist a ∧ first_in (pipe_at i w') a = first_in (pipe_at i w) base.
Proof.
  intros [H1 H2 H3 H4 H5 H6 H7 H8 H9 H10 H11 H12 H13] Ha n Hn Hr Hd (S1 & S2 & S3 & S4 & S5).
  destruct H4 as [W1 W2 W3 W4].
  assert (done_in (pipe_at i w') = (done_in (pipe_at i w) + (a - base))%nat) as Hdone.
  { unfold done_in in *. rewrite S3, S4. lia. }
  assert (first_in (pipe_at i w') a = first_in (pipe_at i w) base) as Hf by (unfold first_in in *; lia).
  destruct (limit_step base a (length hist) Ha H10) as [Hl Hp].
  split; [|exact Hf]. constructor; rewrite ?Hf, ?S5; try done.
  - constructor; rewrite ?S2, ?S3, ?S4, ?S5; try lia. pose proof (Z.mod_pos_bound (Z.of_nat a) 128). lia.
  - unfold done_in in *. lia.
  - lia.
  - rewrite (probes_multi _ S1), S2. intros Hpr%orb_true_iff. rewrite !Z.eqb_eq in Hpr.
    destruct (Hp Hpr) as [Hb| ->]; [|by rewrite drop_all].
    assert (probes (pipe_at i w) = true) as Hpr'.
    { rewrite (probes_multi _ H3), H5, orb_true_iff, !Z.eqb_eq. exact Hb. }
    replace a with (base + (a - base))%nat by lia. rewrite <-drop_drop. by apply Forall_drop, H12.
  - rewrite S4. lia.
Qed.
(** An acknowledgement in the window changes nothing but the pipe. *)
Definition only_pipe (i : nat) (w w' : world) : Prop :=
  w_cntl w' = w_cntl w ∧ w_env w' = w_env w ∧ ∃ f, w_sc w' = w_sc (mod_pipe i f w).2.
Lemma only_pipe_mod i f w : only_pipe i w (mod_pipe i f w).2.
Proof. split; [done|]. split; [done|]. by exists f. Qed.
Lemma only_pipe_trans i w1 w2 w3 : only_pipe i w1 w2 -> only_pipe i w2 w3 -> only_pipe i w1 w3.
Proof.
  intros (A1 & A2 & f & A3) (B1 & B2 & g & B3). split; [congruence|]. split; [congruence|]. exists (g ∘ f).
  rewrite B3, <-mod_pipe_twice. cbn. by rewrite A3.
Qed.
Lemma only_pipe_fifo i b w : only_pipe i w (when b fifo_start w).2.
Proof.
  assert (w_sc w = w_sc (mod_pipe i id w).2) as Hid.
  { cbn. destruct (w_sc w). unfold set. cbn. f_equal. symmetry. by apply list_alter_id. }
  rewrite run_when. destruct b; [|by split; [|split; [|exists id]]].
  unfold fifo_start. rewrite run_bind. cbn [get_sc gets fst snd]. by destruct (sc_fifo_translator _); split; try split; try exists id.
Qed.
Lemma only_pipe_ready i w w' : only_pipe i w w' -> ready i w -> ready i w'.
Proof. intros (_ & He & f & Hs) [Ha Hi]. split; [by rewrite He|]. rewrite Hs. cbn. by rewrite length_alter. Qed.
Lemma only_pipe_dummy i w w' : only_pipe i w w' -> dummy w' = dummy w.
Proof. intros (Hc & _ & f & Hs). unfold dummy, IS_PRIMARY_RATE. by rewrite Hc, Hs. Qed.
Lemma only_pipe_cur i w w' : only_pipe i w w' ->
  sc_current_pipe (w_sc w') = sc_current_pipe (w_sc w) ∧ sc_current_mbuf (w_sc w') = sc_current_mbuf (w_sc w) ∧
  sc_current_length (w_sc w') = sc_current_length (w_sc w) ∧ sc_current_tx_nr (w_sc w') = sc_current_tx_nr (w_sc w).
Proof. by intros (_ & _ & f & ->). Qed.
Lemma check_NR_only i buf w : ready i w -> acked (pipe_at i w) buf <= tx_window_length (pipe_at i w) ->
  only_pipe i w (check_NR i buf w).2.
Proof.
  intros [Ha Hi] Hn. unfold check_NR. rewrite run_bind. cbn [get_pipe gets fst snd]. cbv zeta. fold (pipe_at i w).
  rewrite u8_mod_128. fold (acked (pipe_at i w) buf). rewrite run_bind. set (w1 := (mod_pipe i _ w).2).
  assert (Hi1 : (i < length (sc_pipe (w_sc w1)))%nat) by (subst w1; cbn; by rewrite length_alter).
  apply (only_pipe_trans i w w1); [apply only_pipe_mod|]. clearbody w1. rewrite run_when.
  destruct (negb _); [|apply (only_pipe_fifo i false)].
  rewrite (proj2 (Z.ltb_ge _ _)) by done. rewrite run_bind, run_bind, run_bind. cbn [get_pipe gets fst snd].
  rewrite multi_frame_run by done. eapply only_pipe_trans; [|apply only_pipe_fifo].
  eapply only_pipe_trans; [|apply only_pipe_mod]. destruct (L2_STATE_IS_TEI_ASSIGNED _); [apply only_pipe_mod|].
  apply (only_pipe_fifo i false).
Qed.
(** One outside of it ends multi-frame operation. *)
Lemma not_multi_frame i s : s ≠ ST_L2_MULTI_FRAME ->
  ∀ w, pstate i w = ST_L2_MULTI_FRAME -> (i < length (sc_pipe (w_sc w)))%nat ->
  pstate i (dss1_pipe_set_state i s w).2 ≠ ST_L2_MULTI_FRAME.
Proof.
  intros Hs w Hw Hi. rewrite set_state_run. unfold set_state_refused. rewrite Hw.
  change (L2_state_val ST_L2_MULTI_FRAME <=? L2_state_val ST_L2_SEND_TEI) with false. cbn [andb]. cbv zeta.
  assert (∀ i f, (∀ p, pipe_state p ≠ ST_L2_MULTI_FRAME -> pipe_state (f p) ≠ ST_L2_MULTI_FRAME) ->
    keeps (λ w, pstate i w ≠ ST_L2_MULTI_FRAME) (mod_pipe i f)) as Hm.
  { clear. intros i f Hf w Hw. unfold pstate in *. cbn. rewrite list_lookup_total_alter. case_decide; [by apply Hf|done]. }
  assert (∀ A (m : M A), frames links m -> keeps (λ w, pstate i w ≠ ST_L2_MULTI_FRAME) m) as Hl.
  { intros A m Hf w1 Hw1. specialize (Hf w1). unfold links in Hf. unfold pstate in *.
    rewrite list_lookup_total_alt in *. apply (f_equal (lookup i)) in Hf. rewrite !list_lookup_fmap in Hf.
    destruct (sc_pipe (w_sc (m w1).2) !! i), (sc_pipe (w_sc w1) !! i); try done. injection Hf as Hf. cbn in *. congruence. }
  assert (∀ sc g, keeps (λ w, pstate i w ≠ ST_L2_MULTI_FRAME) (set_state_tail i sc g;; rearm_pipe i)) as Htail.
  { intros sc g. unfold set_state_tail, rearm_pipe, set_state_pause. crush; try (apply Hl; auto with i4b; fail); by apply Hm. }
  pose proof (Htail (w_sc w) (set_state_head i s w).1) as Ht. specialize (Ht (set_state_head i s w).2). rewrite run_bind in Ht.
  apply Ht. unfold set_state_head. rewrite run_bind. clear Ht Htail. set (w1 := (mod_pipe i _ w).2).
  assert (pstate i w1 ≠ ST_L2_MULTI_FRAME) as Hw1 by (subst w1; by rewrite (pstate_mod_pipe i _ w s)).
  clearbody w1. revert w1 Hw1. change (keeps (λ w, pstate i w ≠ ST_L2_MULTI_FRAME)
    (when (bool_decide (s = ST_L2_SINGLE_FRAME)) (set_state_single_frame i);;
     p ← get_pipe i;
     if bool_decide (pipe_state p = ST_L2_SEND_TEI) then set_state_send_tei i else mret false)).
  unfold set_state_single_frame, set_state_send_tei, dss1_tei_tx_frame.
  crush; try (apply Hl; auto with i4b; fail); by apply Hm.
Qed.
Lemma acked_number p buf (base a : nat) :
  tx_nr p = Z.of_nat base mod 128 -> GET_NR (dss1_get_1 buf (Z.of_nat OFF_RX_NR)) = Z.of_nat a mod 128 ->
  (base <= a < base + 128)%nat -> acked p buf = Z.of_nat a - Z.of_nat base.
Proof.
  intros Hb Ha Hr. unfold acked. rewrite Hb, Ha, <-Zminus_mod. apply Z.mod_small. lia.
Qed.
Lemma tx_check_NR i buf w d hist base (a : nat) :
  let w' := (check_NR i buf w).2 in
  tx_inv i w d hist base -> GET_NR (dss1_get_1 buf (Z.of_nat OFF_RX_NR)) = Z.of_nat a mod 128 ->
  (base <= a <= length hist)%nat -> pipe_state (pipe_at i w') = ST_L2_MULTI_FRAME ->
  tx_inv i w' d hist a ∧ first_in (pipe_at i w') a = first_in (pipe_at i w) base ∧
  pipe_ifq (pipe_at i w') = pipe_ifq (pipe_at i w) ∧ only_pipe i w w' ∧
  tx_window_size (pipe_at i w') = tx_window_size (pipe_at i w) ∧
  tx_window_length (pipe_at i w') <= tx_window_length (pipe_at i w).
Proof.
  intros w' HI Hnew Ha Hm. pose proof HI as [H1 H2 H3 H4 H5 H6 H7 H8 H9 H10 H11 H12 H13].
  pose proof (limit_range (Z.of_nat base mod 128)) as Hlr. pose proof (Z.mod_pos_bound (Z.of_nat base) 128) as Hmb.
  assert (acked (pipe_at i w) buf = Z.of_nat a - Z.of_nat base) as Hn by (apply acked_number; [done|done|lia]).
  destruct (decide (acked (pipe_at i w) buf <= tx_window_length (pipe_at i w))) as [Hin|Hout].
  - pose proof (check_NR_only i buf w H1 Hin) as Ho. fold w' in Ho.
    pose proof (check_NR_run i buf w H4 (proj2 H1)) as Hrun. cbv zeta in Hrun. fold w' in Hrun.
    assert (acked_pipe (Z.of_nat a - Z.of_nat base) (Z.of_nat a mod 128) (pipe_at i w) (pipe_at i w')) as Hp.
    { rewrite Hn, Hnew in Hrun. destruct (Z.eqb_spec (Z.of_nat a - Z.of_nat base) 0) as [H0|H0].
      - rewrite Hrun, H0. unfold acked_pipe. by rewrite Z.sub_0_r.
      - rewrite (proj2 (Z.leb_le _ _)) in Hrun by lia. destruct Hrun as [-> _]. unfold acked_pipe, ack_pipe.
        change (pipe_state ((pipe_at i w) <| tx_nr := Z.of_nat a mod 128 |>)) with (pipe_state (pipe_at i w)).
        rewrite H3. done. }
    rewrite Hn in Hin. destruct (tx_acked i w w' d hist base a HI Ha Hin) as [HI' Hf];
      [by eapply only_pipe_ready|by rewrite (only_pipe_dummy i w)|done|].
    destruct Hp as (_ & _ & S3 & S4 & S5). split; [done|]. split; [done|]. split; [done|]. split; [done|]. split; [done|lia].
  - exfalso. subst w'. revert Hm. unfold check_NR. rewrite run_bind. cbn [get_pipe gets fst snd]. cbv zeta. fold (pipe_at i w).
    rewrite u8_mod_128. fold (acked (pipe_at i w) buf). rewrite run_bind. set (w1 := (mod_pipe i _ w).2).
    destruct H1 as [Hav Hi]. assert (pipe_state (pipe_at i w1) = ST_L2_MULTI_FRAME) as Hp1 by (subst w1; by rewrite pipe_at_mod).
    assert (Hi1 : (i < length (sc_pipe (w_sc w1)))%nat) by (subst w1; cbn; by rewrite length_alter). clearbody w1.
    destruct H4 as [W1 _ _ _]. rewrite run_when, (proj2 (Z.eqb_neq _ _)) by lia. cbn [negb].
    rewrite (proj2 (Z.ltb_lt _ _)) by lia. rewrite run_bind. set (w2 := (dss1_pipe_set_state i ST_L2_SINGLE_FRAME w1).2).
    assert (pstate i w2 ≠ ST_L2_MULTI_FRAME) as Hw2 by (by apply not_multi_frame).
    unfold pipe_at. cbn. rewrite list_lookup_total_alter. case_decide; exact Hw2.
Qed.

(** *** The repetition timer, and a new frame *)
Lemma tx_timeout i w d hist base :
  let w' := (dss1_l2_get_mbuf_timeout i w).2 in
  tx_inv i w d hist base ->
  tx_inv i w' d hist base ∧ all_frames d (pipe_at i w') hist base = all_frames d (pipe_at i w) hist base ∧
  only_pipe i w w' ∧ (tx_window_length (pipe_at i w') = 0 ∨ tx_window_length (pipe_at i w') = tx_window_length (pipe_at i w) ∧
    tx_window_size (pipe_at i w') = tx_window_size (pipe_at i w) ∧ first_in (pipe_at i w') base = first_in (pipe_at i w) base).
Proof.
  intros w' [H1 H2 H3 H4 H5 H6 H7 H8 H9 H10 H11 H12 H13]. subst w'. unfold dss1_l2_get_mbuf_timeout.
  rewrite !run_bind. cbn [get_sc gets fst snd]. set (w1 := (mod_pipe i _ w).2).
  assert (only_pipe i w w1) as Ho1 by apply only_pipe_mod. destruct H1 as [Hav Hi].
  assert (pipe_at i w1 = (pipe_at i w) <| get_mbuf_callout := None |>) as Hp1 by (by apply (pipe_at_mod i)).
  assert (Hi1 : (i < length (sc_pipe (w_sc w1)))%nat) by (subst w1; cbn; by rewrite length_alter). clearbody w1.
  rewrite run_when. destruct (sc_fifo_translator (w_sc w1)).
  - rewrite run_bind. set (w2 := (mod_pipe i _ w1).2). destruct H4 as [W1 W2 W3 W4].
    assert (pipe_at i w2 = (pipe_at i w) <| get_mbuf_callout := None |>
      <| tx_window_size := tx_window_size (pipe_at i w) - tx_window_length (pipe_at i w) |>
      <| tx_window_length := 0 |>) as Hp2.
    { subst w2. rewrite pipe_at_mod, Hp1 by done. unfold set. cbn.
      by rewrite (u8_id (_ - _)) by (unfold is_u8; lia). }
    assert (only_pipe i w (fifo_start w2).2) as Ho.
    { apply (only_pipe_trans i w w1 _ Ho1). eapply only_pipe_trans; [apply only_pipe_mod|apply (only_pipe_fifo i true)]. }
    set (w3 := (fifo_start w2).2) in *. assert (pipe_at i w3 = pipe_at i w2) as Hp3 by apply pipe_at_fifo_start.
    rewrite Hp2 in Hp3. clearbody w3.
    assert (done_in (pipe_at i w3) = done_in (pipe_at i w)) as Hd
      by (rewrite Hp3; unfold done_in; cbn; f_equal; lia).
    assert (first_in (pipe_at i w3) base = first_in (pipe_at i w) base) as Hf by (unfold first_in; by rewrite Hd).
    split; [|split; [unfold all_frames; rewrite Hf, Hp3; done|split; [done|left; by rewrite Hp3]]].
    assert (probes (pipe_at i w3) = probes (pipe_at i w)) as Hpr by (by rewrite Hp3).
    constructor; rewrite ?Hf, ?Hd, ?Hpr; try (rewrite Hp3; done); try done.
    + by eapply only_pipe_ready.
    + by rewrite (only_pipe_dummy i w).
    + rewrite Hp3. constructor; cbn in *; lia.
    + rewrite Hp3. cbn. lia.
  - assert (ready i w1 ∧ dummy w1 = d) as [Hr1 Hd1].
    { split; [by eapply only_pipe_ready|by rewrite (only_pipe_dummy i w)]. }
    cbn [mret st_ret snd]. split; [|split; [by rewrite Hp1|split; [done|right; by rewrite Hp1]]].
    constructor; try (rewrite Hp1; done); try done. rewrite Hp1. by destruct H4; constructor.
Qed.
(** A frame of layer 3 that is taken. *)
Definition takes (i : nat) (w : world) : bool :=
  negb (IF_QFULL (pipe_ifq (pipe_at i w)) || negb (sc_fifo_translator (w_sc w))).
Lemma prefix_map_app (f : mbuf -> list Z) l q m : l `prefix_of` map f q -> l `prefix_of` map f (q ++ [m]).
Proof. intros [k Hk]. exists (k ++ [f m]). by rewrite map_app, Hk, <-app_assoc. Qed.
Lemma tx_data_req i m w d hist base :
  let w' := (dss1_pipe_data_req i m w).2 in
  tx_inv i w d hist base -> frame_ok m ->
  tx_inv i w' d hist base ∧
  all_frames d (pipe_at i w') hist base =
    all_frames d (pipe_at i w) hist base ++ (if takes i w then [content d m] else []) ∧
  only_pipe i w w' ∧ tx_window_length (pipe_at i w') = tx_window_length (pipe_at i w) ∧
  tx_window_size (pipe_at i w') = tx_window_size (pipe_at i w).
Proof.
  intros w' HI Hm. subst w'. unfold dss1_pipe_data_req. rewrite !run_bind. cbn [get_sc get_pipe gets fst snd].
  fold (pipe_at i w). unfold takes. destruct (_ || _); cbn [negb].
  { rewrite app_nil_r. split; [done|]. split; [done|]. split; [apply (only_pipe_fifo i false)|done]. }
  rewrite run_bind. set (w1 := (mod_pipe i _ w).2). destruct HI as [H1 H2 H3 H4 H5 H6 H7 H8 H9 H10 H11 H12 H13].
  assert (pipe_at i w1 = (pipe_at i w) <| pipe_ifq ::= IF_ENQUEUE m |>) as Hp1 by (apply (pipe_at_mod i), H1).
  assert (only_pipe i w (emit L1_FIFO_START w1).2) as Ho by (apply only_pipe_mod).
  change (pipe_at i (emit L1_FIFO_START w1).2) with (pipe_at i w1). rewrite Hp1.
  assert (all_frames d ((pipe_at i w) <| pipe_ifq ::= IF_ENQUEUE m |>) hist base =
    all_frames d (pipe_at i w) hist base ++ [content d m]) as ->.
  { unfold all_frames. cbn. rewrite map_app. cbn. by rewrite app_assoc. }
  split; [|split; [done|split; [done|done]]].
  constructor; change (pipe_at i (emit L1_FIFO_START w1).2) with (pipe_at i w1); rewrite ?Hp1; try done.
  - by apply (only_pipe_ready i w).
  - destruct H4 as [W1 W2 W3 W4]. constructor; try done. cbn. unfold ifq_len in *. cbn. rewrite length_app. lia.
  - cbn. apply Forall_app. split; [done|]. by apply Forall_singleton.
  - cbn. by apply prefix_map_app.
Qed.

(** *** A new window *)
Lemma zif_ok : frame_ok zif.
Proof. split; [done|]. split; [by split; apply Nat.leb_le|by apply Nat.leb_le]. Qed.
Lemma content_zif d m : is_ZIF (Some m) = true -> content d m = d.
Proof. unfold content. by intros ->. Qed.
(** The dummies in front of a probing window are what was sent before. *)
Lemma probing_prefix d zifs rest (H : list (list Z)) :
  probing zifs rest -> Forall (.= d) H -> (length H <= 2)%nat -> H `prefix_of` map (content d) (zifs ++ rest).
Proof.
  intros (_ & _ & Z0 & Z1) Hd Hl. destruct (zifs ++ rest) as [|m0 [|m1 l]]; [done|done|]. cbn in Z0, Z1.
  assert (map (content d) (m0 :: m1 :: l) = [d; d] ++ map (content d) l) as ->.
  { cbn [map]. by rewrite !content_zif. }
  apply (prefix_app_r H [d; d]). destruct H as [|x [|y [|z H]]]; cbn in Hl; try lia.
  - apply prefix_nil.
  - apply Forall_cons in Hd as [-> _]. by exists [d].
  - apply Forall_cons in Hd as [-> Hd]. apply Forall_cons in Hd as [-> _]. done.
Qed.
Lemma probing_dummies d zifs rest k : probing zifs rest -> (k <= 2)%nat ->
  Forall (.= d) (take k (map (content d) (zifs ++ rest))).
Proof.
  intros (_ & _ & Z0 & Z1) Hk. destruct (zifs ++ rest) as [|m0 [|m1 l]]; [done|done|]. cbn in Z0, Z1.
  destruct k as [|[|[|k]]]; [apply Forall_nil_2| | |lia]; cbn; repeat (apply Forall_cons; split; [by apply content_zif|]);
    apply Forall_nil_2.
Qed.
Lemma open_window_ready i : keeps (ready i) (open_window i).
Proof.
  assert (∀ f, keeps (ready i) (mod_pipe i f)) as Hm.
  { intros f w [Ha Hi]. split; [done|]. cbn. by rewrite length_alter. }
  assert (∀ n, keeps (ready i) (get_mbuf n)) as Hg.
  { intros n w [Ha Hi]. split; [|done]. change (tail (getmbuf_avail (w_env w)) = []). by rewrite Ha. }
  assert (∀ n, keeps (ready i) (insert_ZIF n i)) as Hz.
  { induction n as [|n IH]; cbn [insert_ZIF]; crush. }
  unfold open_window, make_ZIFs. crush; try done.
Qed.
Lemma open_window_dummy i : frames (λ w, (dummy w, sc_current_pipe (w_sc w))) (open_window i).
Proof.
  assert (∀ f, frames (λ w, (dummy w, sc_current_pipe (w_sc w))) (mod_pipe i f)) as Hm by (by intros f w).
  assert (∀ n, frames (λ w, (dummy w, sc_current_pipe (w_sc w))) (get_mbuf n)) as Hg.
  { intros n. unfold get_mbuf. crush. by intros w. }
  assert (∀ n, frames (λ w, (dummy w, sc_current_pipe (w_sc w))) (insert_ZIF n i)) as Hz.
  { induction n as [|n IH]; cbn [insert_ZIF]; crush. }
  unfold open_window, make_ZIFs. crush; done.
Qed.
(** What has been sent under numbers from [base] on, after a window of [n]
    frames has been opened on the queue [q]. *)
Definition reopened (d : list Z) (hist : list (list Z)) (base n : nat) (q : list mbuf) : list (list Z) :=
  take base hist ++ take (Nat.max (length hist - base) n) (map (content d) q).
Lemma reopened_spec d hist base n q :
  (base <= length hist)%nat -> drop base hist `prefix_of` map (content d) q -> (n <= length q)%nat ->
  hist `prefix_of` reopened d hist base n q ∧ take base (reopened d hist base n q) = take base hist ∧
  length (reopened d hist base n q) = (base + Nat.max (length hist - base) n)%nat ∧
  drop base (reopened d hist base n q) = take (Nat.max (length hist - base) n) (map (content d) q).
Proof.
  intros Hb [k Hk] Hn. unfold reopened.
  assert (length (take base hist) = base) as Hl by (rewrite length_take; lia).
  assert (length (drop base hist) <= length q)%nat as Hd.
  { apply (f_equal length) in Hk. rewrite length_map, length_app in Hk. lia. }
  rewrite length_drop in Hd. split; [|split; [|split]].
  - rewrite <-(take_drop base hist) at 1. apply prefix_app. rewrite Hk, take_app_ge by (rewrite length_drop; lia).
    by eexists.
  - rewrite take_app_le by lia. by rewrite take_take, Nat.min_id.
  - rewrite length_app, Hl, length_take, length_map. lia.
  - by rewrite drop_app_ge, Hl, Nat.sub_diag, drop_0 by lia.
Qed.
(** A poll puts nothing but dummies between the frames, behind [base] of
    them, and only in front of a window that probes the line. *)
Definition inserted (d : list Z) (base : nat) (p : pipe) (l l' : list (list Z)) : Prop :=
  ∃ z, l' = take base l ++ z ++ drop base l ∧ Forall (.= d) z ∧ (probes p = false -> z = []).
Lemma inserted_refl d base p l : inserted d base p l l.
Proof. exists []. split; [by rewrite app_nil_l, take_drop|]. split; [apply Forall_nil_2|done]. Qed.
(** What has been sent from [base] on is in the queue behind the
    acknowledged frames. *)
Lemma history_split d p hist base :
  (done_in p <= base)%nat -> (base <= length hist)%nat ->
  drop (first_in p base) hist `prefix_of` map (content d) (ifq (pipe_ifq p)) ->
  drop base hist `prefix_of` map (content d) (drop (done_in p) (ifq (pipe_ifq p))) ∧
  take base hist = take (first_in p base) hist ++ map (content d) (take (done_in p) (ifq (pipe_ifq p))).
Proof.
  intros H1 H2 [k Hk]. assert (first_in p base + done_in p = base)%nat as Hs by (unfold first_in; lia).
  assert (length (drop (first_in p base) hist) >= done_in p)%nat as Hge by (rewrite length_drop; lia). split.
  - exists k. rewrite <-Hs, <-drop_drop. by rewrite <-skipn_map, Hk, drop_app_le by lia.
  - rewrite <-Hs at 1. by rewrite <-take_take_drop, <-firstn_map, Hk, take_app_le by lia.
Qed.
Lemma tx_open_window i w d hist base :
  let w' := (open_window i w).2 in
  tx_inv i w d hist base -> tx_window_length (pipe_at i w) = 0 ->
  ∃ hist', hist `prefix_of` hist' ∧ tx_inv i w' d hist' base ∧ cur_ok i w' base ∧
    inserted d base (pipe_at i w) (all_frames d (pipe_at i w) hist base) (all_frames d (pipe_at i w') hist' base) ∧
    sc_current_pipe (w_sc w') = sc_current_pipe (w_sc w) ∧
    sc_current_length (w_sc w') = tx_window_length (pipe_at i w').
Proof.
  intros w' HI HL. pose proof HI as [H1 H2 H3 H4 H5 H6 H7 H8 H9 H10 H11 H12 H13]. destruct H4 as [W1 W2 W3 W4].
  destruct (open_window_run i w H1) as (zifs & Hz & E1 & E2 & E3 & E4); [by rewrite H3|lia|]. fold w' in E1, E2, E3, E4.
  set (p := pipe_at i w) in *. rewrite (probes_multi p H3) in Hz, E1, E3.
  set (pr := (tx_nr p =? 127) || (tx_nr p =? 0)) in *.
  assert ((if pr then 2 else 127 - tx_nr p) = limit (Z.of_nat base mod 128)) as Hlim.
  { unfold limit. rewrite <-H5. done. }
  rewrite Hlim in E1, E3. set (q := zifs ++ unacked p) in *.
  pose proof (limit_range (Z.of_nat base mod 128)) as Hlr. rewrite <-H5 in Hlr at 1 2.
  set (n := Z.min (limit (Z.of_nat base mod 128)) (Z.of_nat (length q))) in *.
  assert (done_in p = Z.to_nat (tx_window_size p)) as Hdone by (unfold done_in; f_equal; lia).
  destruct (history_split d p hist base) as [Hpre Htake]; [done..|]. fold p in Hpre, Htake.
  replace (drop (done_in p) (ifq (pipe_ifq p))) with (unacked p) in Hpre by (unfold unacked; by rewrite Hdone).
  assert (drop base hist `prefix_of` map (content d) q) as Hpq.
  { destruct pr eqn:Hpr; [|subst q; by rewrite Hz].
    apply probing_prefix; [done|apply H12; by rewrite probes_multi|].
    rewrite length_drop. unfold limit in H10. rewrite <-H5 in H10. fold p pr in H10. rewrite Hpr in H10. lia. }
  destruct (reopened_spec d hist base (Z.to_nat n) q H9 Hpq) as (R1 & R2 & R3 & R4); [lia|].
  exists (reopened d hist base (Z.to_nat n) q). set (hist' := reopened d hist base (Z.to_nat n) q) in *.
  assert (first_in (pipe_at i w') base = base) as Hf.
  { rewrite E1. unfold first_in, done_in. cbn. lia. }
  assert (ifq (pipe_ifq (pipe_at i w')) = q) as Hq by (by rewrite E1).
  assert (tx_window_length (pipe_at i w') = n) as HLn by (by rewrite E1).
  assert (tx_window_size (pipe_at i w') = n) as HSn by (by rewrite E1).
  assert (tx_nr (pipe_at i w') = tx_nr p) as Hnr by (by rewrite E1).
  pose proof (open_window_dummy i w) as Hdum. fold w' in Hdum. injection Hdum as Hdum Hcp.
  split; [done|]. split; [|split; [|split; [|split; [done|by rewrite E3]]]].
  - constructor; rewrite ?Hf, ?Hq, ?HLn, ?Hnr, ?R3; try done.
    + by apply open_window_ready.
    + by rewrite Hdum.
    + by rewrite E1.
    + constructor; rewrite ?HLn, ?HSn, ?Hnr; unfold ifq_len; rewrite ?Hq; lia.
    + unfold q. apply Forall_app. split.
      * destruct pr; [|by subst zifs]. destruct Hz as [Hz _]. apply (Forall_impl _ _ _ Hz). intros m ->. exact zif_ok.
      * by apply Forall_drop.
    + rewrite E1. unfold done_in. cbn. lia.
    + rewrite R4. apply prefix_take.
    + lia.
    + lia.
    + lia.
    + rewrite probes_multi by (by rewrite E1). rewrite Hnr. fold pr. intros Hpr. rewrite R4.
      rewrite Hpr in Hz, Hlim.
      rewrite <-Hlim in H10. apply (probing_dummies d zifs (unacked p)); [done|lia].
    + lia.
  - intros _ HL'. rewrite HLn in HL'. rewrite E2, E3, E4, HSn, Hf, H5. lia.
  - assert (all_frames d p hist base = take base hist ++ map (content d) (unacked p)) as Hall.
    { unfold all_frames, unacked. by rewrite Htake, <-app_assoc, <-map_app, Hdone, take_drop. }
    assert (length (take base hist) = base) as Hlb by (rewrite length_take; lia).
    exists (map (content d) zifs). rewrite Hall. unfold all_frames. rewrite Hf, R2, Hq. unfold q.
    rewrite map_app, take_app_le, take_take, Nat.min_id, drop_app_ge, Hlb, Nat.sub_diag, drop_0 by lia. split; [done|].
    rewrite (probes_multi p H3). fold pr. destruct pr; [|subst zifs; split; [apply Forall_nil_2|done]]. split; [|done].
    apply Forall_map. apply (Forall_impl _ _ _ (proj1 Hz)). by intros m ->.
Qed.

(** *** The next frame of a window *)
Lemma content_header d p nr last m : frame_ok m -> content d (i_header p nr last m) = content d m.
Proof.
  intros Hok. unfold content. change (is_ZIF (Some (i_header p nr last m))) with (is_ZIF (Some m)).
  unfold data at 1. by rewrite i_header_bytes.
Qed.
(** The frame gets its header in the queue. *)
Definition put_header (k : nat) (m : mbuf) (p : pipe) : pipe :=
  p <| pipe_ifq ::= λ q, q <| ifq ::= <[k := m]> |> |>.
Lemma map_put_header d k nr last p' m p :
  ifq (pipe_ifq p) !! k = Some m -> frame_ok m ->
  map (content d) (ifq (pipe_ifq (put_header k (i_header p' nr last m) p))) = map (content d) (ifq (pipe_ifq p)).
Proof.
  intros Hm Hok. change (map (content d)) with (fmap (M := list) (content d)). cbn. rewrite list_fmap_insert, content_header by done.
  apply list_insert_id. by rewrite list_lookup_fmap, Hm.
Qed.
(** The position behind the frame that has been sent. *)
Definition advanced (s : l2softc) : l2softc :=
  s <| sc_current_mbuf ::= S |> <| sc_current_length ::= λ n, u8 (n - 1) |>
    <| sc_current_tx_nr ::= λ n, u8 (n + 1) |>.
Lemma send_current_multi i w m :
  pipe_state (pipe_at i w) = ST_L2_MULTI_FRAME ->
  ifq (pipe_ifq (pipe_at i w)) !! sc_current_mbuf (w_sc w) = Some m ->
  let m' := i_header (pipe_at i w) (sc_current_tx_nr (w_sc w)) (sc_current_length (w_sc w) =? 1) m in
  send_current i w =
  frame_copy m' (mod_sc advanced (mod_pipe i (put_header (sc_current_mbuf (w_sc w)) m') w).2).2.
Proof.
  intros Hs Hm m'. unfold send_current. rewrite !run_bind. cbn [get_sc get_pipe gets fst snd].
  fold (pipe_at i w). rewrite Hm, Hs. done.
Qed.
(** The frame [f] carries the number [k] and what is sent under it. *)
Definition carries (hist : list (list Z)) (f : mbuf) (k : nat) : Prop :=
  wire_nr f = Z.of_nat k mod 128 ∧ hist !! k = Some (data f).
Lemma tx_send i w d hist base :
  tx_inv i w d hist base -> cur_ok i w base -> tx_window_length (pipe_at i w) ≠ 0 -> sc_current_length (w_sc w) ≠ 0 ->
  ∃ f w' k, send_current i w = (Some f, w') ∧ tx_inv i w' d hist base ∧ cur_ok i w' base ∧
    all_frames d (pipe_at i w') hist base = all_frames d (pipe_at i w) hist base ∧
    (first_in (pipe_at i w') base <= k < length hist)%nat ∧ carries hist f k.
Proof.
  intros [H1 H2 H3 H4 H5 H6 H7 H8 H9 H10 H11 H12 H13] Hcur HL Hc. destruct (Hcur Hc HL) as (C1 & C2 & C3).
  pose proof H4 as [W1 W2 W3 W4]. destruct H1 as [Ha Hi]. unfold ifq_len in W3.
  set (p := pipe_at i w) in *. set (c := sc_current_mbuf (w_sc w)) in *.
  destruct (lookup_lt_is_Some_2 (ifq (pipe_ifq p)) c) as [m Hm]; [lia|].
  pose proof (Forall_lookup_1 _ _ _ _ H6 Hm) as Hok.
  pose proof (Z.mod_pos_bound (Z.of_nat (first_in p base)) 128) as Hmb.
  pose proof (send_current_multi i w m H3 Hm) as Hrun. cbv zeta in Hrun. fold p c in Hrun.
  set (w1 := (mod_sc advanced _).2) in Hrun.
  destruct (frame_copy_wire p (sc_current_tx_nr (w_sc w)) (sc_current_length (w_sc w) =? 1) m w1 Hok)
    as (f & w' & Hf & E1 & E2 & E3 & Hnr & Hdata); [unfold is_u8; lia|done|].
  assert (dummy w1 = d) as Hdum by (rewrite <-H2; done). rewrite Hdum in Hdata.
  assert (pipe_at i w' = put_header c (i_header p (sc_current_tx_nr (w_sc w)) (sc_current_length (w_sc w) =? 1) m) p) as Hp.
  { unfold pipe_at. rewrite E1. apply (pipe_at_mod i (put_header c _) w Hi). }
  pose proof (map_put_header d c (sc_current_tx_nr (w_sc w)) (sc_current_length (w_sc w) =? 1) p m p Hm Hok) as Hmap.
  rewrite <-Hp in Hmap.
  assert (first_in (pipe_at i w') base = first_in p base) as Hfi by (by rewrite Hp).
  assert (first_in p base + c < length hist)%nat as Hk.
  { unfold first_in, done_in in *. lia. }
  exists f, w', (first_in p base + c)%nat. split; [by rewrite Hrun|].
  split; [|split; [|split; [|split; [|split]]]].
  - constructor; rewrite ?Hfi, ?Hmap; try (rewrite Hp; done); try done.
    + split; [done|]. rewrite E1. cbn. by rewrite length_alter.
    + unfold dummy. rewrite E1, E2. exact Hdum.
    + rewrite Hp. constructor; try done. cbn. unfold ifq_len. cbn. rewrite length_insert. lia.
    + rewrite Hp. cbn. apply Forall_insert; [done|by apply i_header_ok].
  - intros Hc' HL'. rewrite Hfi. rewrite E1 in *. cbn in *. rewrite Hp. fold c.
    assert (u8 (sc_current_length (w_sc w) - 1) = sc_current_length (w_sc w) - 1) as Hu1 by (apply u8_id; unfold is_u8; lia).
    assert (u8 (sc_current_tx_nr (w_sc w) + 1) = sc_current_tx_nr (w_sc w) + 1) as Hu2 by (apply u8_id; unfold is_u8; lia).
    rewrite Hu1 in *. rewrite Hu2. cbn. fold p c. lia.
  - unfold all_frames. by rewrite Hfi, Hmap.
  - lia.
  - rewrite Hnr, C3. rewrite Nat2Z.inj_add, Zplus_mod_idemp_l. done.
  - destruct H8 as [k Hk8]. apply (f_equal (lookup c)) in Hk8.
    rewrite lookup_app_l, lookup_drop in Hk8 by (rewrite length_drop; lia). rewrite <-Hk8.
    change (map (content d)) with (fmap (M := list) (content d)). rewrite list_lookup_fmap, Hm. rewrite Hdata. done.
Qed.

(** *** A poll *)

(** What the sending end knows of its pipe. *)
Definition tx_view (p : pipe) : L2_STATES * (Z * Z) * Z * ifqueue :=
  (pipe_state p, (tx_window_size p, tx_window_length p), tx_nr p, pipe_ifq p).
Lemma tx_inv_view i w w' d hist base :
  tx_inv i w d hist base -> tx_view (pipe_at i w') = tx_view (pipe_at i w) -> ready i w' -> dummy w' = d ->
  tx_inv i w' d hist base.
Proof.
  intros [H1 H2 H3 H4 H5 H6 H7 H8 H9 H10 H11 H12 H13] [= V1 V2 V3 V4 V5] Hr Hd.
  assert (done_in (pipe_at i w') = done_in (pipe_at i w)) as Hdn by (unfold done_in; by rewrite V2, V3).
  assert (first_in (pipe_at i w') base = first_in (pipe_at i w) base) as Hfi by (unfold first_in; by rewrite Hdn).
  constructor; rewrite ?Hfi, ?Hdn, ?V1, ?V3, ?V4, ?V5; try done.
  - destruct H4. constructor; rewrite ?V2, ?V3, ?V4, ?V5; done.
  - rewrite probes_multi, V4 by congruence. rewrite <-probes_multi by done. exact H12.
Qed.
Lemma all_frames_view d p p' hist base :
  tx_view p' = tx_view p -> all_frames d p' hist base = all_frames d p hist base.
Proof. intros [= V1 V2 V3 V4 V5]. unfold all_frames, first_in, done_in. by rewrite V2, V3, V5. Qed.
Lemma tx_skip i w d hist base : tx_inv i w d hist base ->
  let w' := (skip_pipe i w).2 in
  tx_inv i w' d hist base ∧ tx_view (pipe_at i w') = tx_view (pipe_at i w) ∧ sc_current_length (w_sc w') = 0.
Proof.
  intros HI w'. pose proof (tx_ready _ _ _ _ _ HI) as Hr. pose proof (tx_dummy _ _ _ _ _ HI) as Hd.
  assert (tx_view (pipe_at i w') = tx_view (pipe_at i w) ∧ ready i w' ∧ dummy w' = d ∧ sc_current_length (w_sc w') = 0)
    as (Hv & Hr' & Hd' & Hc); [|split; [by eapply tx_inv_view|done]].
  subst w'. unfold skip_pipe. rewrite !run_bind. cbn [get_hz get_pipe gets fst snd]. rewrite run_when.
  destruct (_ && _); [|done]. set (w1 := (mod_pipe i _ w).2).
  assert (only_pipe i w w1) as Ho by apply only_pipe_mod. split; [|split; [|split]]; [| | |done].
  - change (tx_view (pipe_at i w1) = tx_view (pipe_at i w)). subst w1. rewrite pipe_at_mod by apply Hr. done.
  - exact (only_pipe_ready i w w1 Ho Hr).
  - rewrite <-Hd. exact (only_pipe_dummy i w w1 Ho).
Qed.

Lemma tx_poll i w d hist base :
  tx_inv i w d hist base -> (sc_current_pipe (w_sc w) = i -> cur_ok i w base) ->
  sc_current_length (w_sc w) = 0 ∨ sc_current_pipe (w_sc w) = i ->
  let '(f, w') := poll_pipes [i] w in
  ∃ hist', hist `prefix_of` hist' ∧ tx_inv i w' d hist' base ∧ (sc_current_pipe (w_sc w') = i -> cur_ok i w' base) ∧
    inserted d base (pipe_at i w) (all_frames d (pipe_at i w) hist base) (all_frames d (pipe_at i w') hist' base) ∧
    match f with
    | None => True
    | Some f => ∃ k, (first_in (pipe_at i w') base <= k < length hist')%nat ∧ carries hist' f k
    end.
Proof.
  intros HI Hcur Hpoll. cbn [poll_pipes].
  assert (cur_ok i w base) as Hcw by (destruct Hpoll as [Hz|Hz]; [intros Hc; by rewrite Hz in Hc|auto]).
  set (w1 := (when (tx_window_length (pipe_at i w) =? 0) (open_window i) w).2).
  assert (∃ hist', hist `prefix_of` hist' ∧ tx_inv i w1 d hist' base ∧ cur_ok i w1 base ∧
    inserted d base (pipe_at i w) (all_frames d (pipe_at i w) hist base) (all_frames d (pipe_at i w1) hist' base) ∧
    (sc_current_length (w_sc w1) ≠ 0 -> tx_window_length (pipe_at i w1) ≠ 0)) as (hist' & P1 & P2 & P3 & P4 & P5).
  { subst w1. rewrite run_when. destruct (Z.eqb_spec (tx_window_length (pipe_at i w)) 0) as [HL|HL].
    - destruct (tx_open_window i w d hist base HI HL) as (hist' & Q1 & Q2 & Q3 & Q4 & Q5 & Q6). exists hist'.
      by rewrite Q6.
    - exists hist. split; [done|]. split; [done|]. split; [done|]. split; [apply inserted_refl|done]. }
  rewrite run_bind. assert (poll_pipe i w = if nonzero (sc_current_length (w_sc w1)) then send_current i w1 else (None, w1)) as ->.
  { unfold poll_pipe. rewrite !run_bind. cbn [get_sc get_pipe gets fst snd]. fold (pipe_at i w).
    rewrite (tx_multi _ _ _ _ _ HI). cbn [orb]. change (L2_STATE_IS_TEI_ASSIGNED ST_L2_MULTI_FRAME) with true. cbn [orb].
    rewrite !run_bind. fold w1. cbn [get_sc gets fst snd]. by destruct (nonzero _). }
  destruct (nonzero _) eqn:Hnz.
  - apply nonzero_true in Hnz. destruct (tx_send i w1 d hist' base P2 P3 (P5 Hnz) Hnz) as (f & w2 & k & -> & S1 & S2 & S3 & S4 & S5).
    cbn [fst snd]. rewrite run_bind. cbn [mret st_ret fst snd]. exists hist'. split; [done|].
    set (w3 := (mod_sc _ w2).2). change (pipe_at i w3) with (pipe_at i w2).
    split; [by apply (tx_inv_view i w2); [|done|apply S1|apply S1]|]. split; [intros _; exact S2|]. split; [by rewrite S3|].
    by exists k.
  - cbn [fst snd]. rewrite run_bind. cbn [mret st_ret fst snd].
    destruct (tx_skip i w1 d hist' base P2) as (K1 & K2 & K3). cbv zeta in K1, K2, K3.
    exists hist'. split; [done|]. split; [done|]. split; [intros _ Hc; by rewrite K3 in Hc|]. split; [|done].
    by rewrite (all_frames_view _ _ _ _ _ K2).
Qed.

(** ** The line *)

(** The two ends, the frames on the way in both directions, what layer 3
    has given to the sending end, what it has got at the other, and what has
    been withdrawn from the queue because its call was released. *)
Record line := Line {
  l_a : world; l_b : world; down : list mbuf; up : list mbuf; given : list (list Z); got : list (list Z);
  withdrawn : list (list Z);
}.
(** The messages of the call [c] that are in a queue: their frames are cut
    down to the header when the call is released. *)
Definition cuts (c : Z) (m : mbuf) : bool := negb (is_ZIF (Some m)) && is_ZIF (Some (acknowledge_mbuf c m)).
Definition cut_by (c : Z) (q : list mbuf) : list (list Z) := map data (List.filter (cuts c) q).
(** The frames by which the receiving end acknowledges: S-frames, in a
    buffer of [dss1_cntl_tx_frame], and its own I-frames. *)
Inductive acknowledges (p : pipe) : mbuf -> Prop :=
| ack_s sapi cntl : bit_set cntl 2 = false ->
    acknowledges p (cntl_frame p sapi cntl (Mbuf (replicate S_FRAME_LEN 0) 0 S_FRAME_LEN false))
| ack_i nr last m : frame_ok m -> acknowledges p (i_header p nr last m).
(** Work that has nothing to do with the sending pipe [i]: other pipes may
    be polled, but while a window of [i] is polled its position stays. *)
Definition other_a (i : nat) (w w' : world) : Prop :=
  tx_view (pipe_at i w') = tx_view (pipe_at i w) ∧ ready i w' ∧ dummy w' = dummy w ∧
  (sc_current_pipe (w_sc w') = i -> sc_current_length (w_sc w') = 0 ∨
     sc_current_pipe (w_sc w) = i ∧ sc_current_mbuf (w_sc w') = sc_current_mbuf (w_sc w) ∧
     sc_current_length (w_sc w') = sc_current_length (w_sc w) ∧
     sc_current_tx_nr (w_sc w') = sc_current_tx_nr (w_sc w)).
Inductive line_step (i j : nat) : line -> line -> Prop :=
| l_data m a b dn u gv gt wd : frame_ok m -> is_ZIF (Some m) = false ->
    line_step i j (Line a b dn u gv gt wd)
      (Line (dss1_pipe_data_req i m a).2 b dn u (gv ++ if takes i a then [data m] else []) gt wd)
| l_release cd a b dn u gv gt wd :
    line_step i j (Line a b dn u gv gt wd)
      (Line (dss1_pipe_data_acknowledge i cd a).2 b dn u gv gt (wd ++ cut_by (cr cd) (ifq (pipe_ifq (pipe_at i a)))))
| l_poll a b dn u gv gt wd : sc_current_length (w_sc a) = 0 ∨ sc_current_pipe (w_sc a) = i ->
    line_step i j (Line a b dn u gv gt wd)
      (Line (poll_pipes [i] a).2 b (dn ++ option_list (poll_pipes [i] a).1) u gv gt wd)
| l_timeout a b dn u gv gt wd :
    line_step i j (Line a b dn u gv gt wd) (Line (dss1_l2_get_mbuf_timeout i a).2 b dn u gv gt wd)
| l_ack m a b dn u gv gt wd :
    line_step i j (Line a b dn (m :: u) gv gt wd) (Line (check_NR i (received m) a).2 b dn u gv gt wd)
| l_receive m resp b' a b dn u gv gt wd : put_i_frame j (received m) false b = (resp, b') ->
    line_step i j (Line a b (m :: dn) u gv gt wd)
      (Line a b' dn u gv (gt ++ if resp =? CNTL_RR then [data m] else []) wd)
| l_answer m a b dn u gv gt wd : acknowledges (pipe_at j b) m ->
    line_step i j (Line a b dn u gv gt wd) (Line a b dn (u ++ [m]) gv gt wd)
| l_lose_down l1 m l2 a b u gv gt wd :
    line_step i j (Line a b (l1 ++ m :: l2) u gv gt wd) (Line a b (l1 ++ l2) u gv gt wd)
| l_lose_up l1 m l2 a b dn gv gt wd :
    line_step i j (Line a b dn (l1 ++ m :: l2) gv gt wd) (Line a b dn (l1 ++ l2) gv gt wd)
| l_other_a a' a b dn u gv gt wd : other_a i a a' ->
    line_step i j (Line a b dn u gv gt wd) (Line a' b dn u gv gt wd)
| l_other_b b' a b dn u gv gt wd : (∀ r, rx_at j r b -> rx_at j r b') ->
    line_step i j (Line a b dn u gv gt wd) (Line a b' dn u gv gt wd).
(** A step after which the sending end is still in multi-frame operation. *)
Definition multi_step (i j : nat) (s s' : line) : Prop :=
  line_step i j s s' ∧ pipe_state (pipe_at i (l_a s')) = ST_L2_MULTI_FRAME.

(** The ends agree on the next number, nothing is on the way, and the
    frames in the queue are those that have been given. *)
Record line_start (i j : nat) (s : line) : Prop := {
  st_ready : ready i (l_a s);
  st_multi : pipe_state (pipe_at i (l_a s)) = ST_L2_MULTI_FRAME;
  st_window : tx_window_size (pipe_at i (l_a s)) = 0 ∧ tx_window_length (pipe_at i (l_a s)) = 0;
  st_queue : Forall (λ m, frame_ok m ∧ is_ZIF (Some m) = false) (ifq (pipe_ifq (pipe_at i (l_a s))));
  st_given : given s = map data (ifq (pipe_ifq (pipe_at i (l_a s))));
  st_number : 0 <= tx_nr (pipe_at i (l_a s)) <= 127 ∧ rx_at j (tx_nr (pipe_at i (l_a s))) (l_b s);
  st_empty : down s = [] ∧ up s = [] ∧ got s = [] ∧ withdrawn s = [];
}.

(** [x] is [y], or the dummy sent in place of a withdrawn [y]. *)
Definition stands (d : list Z) (wd : list (list Z)) (x y : list Z) : Prop := x = y ∨ x = d ∧ y ∈ wd.
(** The frame [f] has the number [k] and stands for the frame [o] has there. *)
Definition on_way (d : list Z) (wd hist o : list (list Z)) (f : mbuf) (k : nat) : Prop :=
  wire_nr f = Z.of_nat k mod 128 ∧ (k < length hist)%nat ∧ ∃ y, o !! k = Some y ∧ stands d wd (data f) y.

(** [hist] is what the queue has for the numbers that have been used, [o]
    what layer 3 gave for each number, from [r], the first one, on; [next]
    is expected by the receiving end, [ks] and [acks] are the numbers on the
    way. *)
Record linked (i j : nat) (d : list Z) (r : nat) (hist o : list (list Z)) (base next : nat) (ks acks : list nat)
    (s : line) : Prop := {
  k_tx : tx_inv i (l_a s) d hist base;
  k_cur : sc_current_pipe (w_sc (l_a s)) = i -> cur_ok i (l_a s) base;
  k_rx : rx_at j (Z.of_nat next mod 128) (l_b s);
  k_next : (r <= base <= next ∧ next <= length hist)%nat;
  k_orig : Forall2 (stands d (withdrawn s)) (all_frames d (pipe_at i (l_a s)) hist base) o;
  k_down : Forall2 (on_way d (withdrawn s) hist o) (down s) ks;
  k_order : StronglySorted (λ x y, (x < y + 127)%nat) ks;
  k_near : Forall (λ k, (next <= k + 127 ∧ k < next + 127)%nat) ks;
  k_up : Forall2 (λ f a, wire_ack f = Z.of_nat a mod 128) (up s) acks;
  k_acks : StronglySorted le acks;
  k_range : Forall (λ a, (base <= a <= next)%nat) acks;
  k_given : filter (.≠ d) (take r o) = [] ∧ filter (.≠ d) o = filter (.≠ d) (given s);
  k_got : Forall2 (stands d (withdrawn s)) (got s) (drop r (take next o));
  k_probe : probes (pipe_at i (l_a s)) = true ->
    Forall2 (λ f k, (base <= k)%nat -> data f = d) (down s) ks ∧ Forall (.= d) (drop (base - r) (got s));
}.

(** *** Lists of numbers *)
Lemma StronglySorted_snoc {A} (R : A -> A -> Prop) l x :
  StronglySorted R l -> Forall (λ y, R y x) l -> StronglySorted R (l ++ [x]).
Proof.
  induction 1 as [|y l Hl IH Hy]; intros Hx; cbn; [by repeat constructor|]. apply Forall_cons in Hx as [Hyx Hx].
  constructor; [by apply IH|]. apply Forall_app. split; [done|by apply Forall_singleton].
Qed.
Lemma StronglySorted_remove {A} (R : A -> A -> Prop) l1 x l2 :
  StronglySorted R (l1 ++ x :: l2) -> StronglySorted R (l1 ++ l2).
Proof.
  induction l1 as [|y l1 IH]; cbn; intros H; apply StronglySorted_inv in H as [H1 H2]; [done|].
  constructor; [by apply IH|]. rewrite !Forall_app in *. rewrite Forall_cons in H2. tauto.
Qed.
Lemma Forall_remove {A} (P : A -> Prop) l1 x l2 : Forall P (l1 ++ x :: l2) -> Forall P (l1 ++ l2).
Proof. rewrite !Forall_app, Forall_cons. tauto. Qed.
Lemma Forall2_remove {A B} (P : A -> B -> Prop) l1 x l2 k :
  Forall2 P (l1 ++ x :: l2) k -> ∃ k1 y k2, k = k1 ++ y :: k2 ∧ Forall2 P (l1 ++ l2) (k1 ++ k2).
Proof.
  intros (k1 & k' & H1 & H2 & ->)%Forall2_app_inv_l. apply Forall2_cons_inv_l in H2 as (y & k2 & _ & H2 & ->).
  exists k1, y, k2. split; [done|by apply Forall2_app].
Qed.
Lemma Forall2_both {A B} (P Q : A -> B -> Prop) l k : Forall2 P l k -> Forall2 Q l k -> Forall2 (λ x y, P x y ∧ Q x y) l k.
Proof. induction 1; intros HQ; [constructor|]. apply Forall2_cons in HQ as [HQ1 HQ2]. constructor; [done|auto]. Qed.
Lemma filter_prefix {A} (P : A -> Prop) `{!∀ x, Decision (P x)} l k : l `prefix_of` k -> filter P l `prefix_of` filter P k.
Proof. intros [k' ->]. rewrite filter_app. by eexists. Qed.
Lemma acknowledges_number p m : acknowledges p m -> is_u8 (rx_nr p) -> wire_ack m = rx_nr p mod 128.
Proof.
  intros Hm Hr. unfold wire_ack. destruct Hm as [sapi cntl Hc|nr last m Hok].
  - unfold cntl_frame. rewrite Hc. cbn [negb]. set (b := GET_CR_BIT sapi =? CR_RESPONSE).
    destruct (NR_octet (rx_nr p) b Hr) as [HN _]. cbv zeta in HN. rewrite get_1_bytes; [|by apply Nat.leb_le|unfold OFF_RX_NR; lia].
    exact HN.
  - destruct (NR_octet (rx_nr p) last Hr) as [HN _]. cbv zeta in HN.
    rewrite get_1_bytes; [|apply (i_header_ok _ _ _ _ Hok)|unfold OFF_RX_NR; lia]. rewrite i_header_bytes by done. exact HN.
Qed.

(** *** The release of a call *)
Lemma acknowledge_frame d c m : frame_ok m ->
  frame_ok (acknowledge_mbuf c m) ∧ content d (acknowledge_mbuf c m) = (if cuts c m then d else content d m).
Proof.
  intros (Hp & Hl & Hb). unfold cuts, content, acknowledge_mbuf. rewrite Hp.
  destruct (_ && _); [|by destruct (is_ZIF (Some m))]. set (m' := m <| m_len := I_HEADER_LEN |>).
  assert (is_ZIF (Some m') = true) as -> by done. split; [|by destruct (is_ZIF (Some m))].
  split; [done|]. cbn. unfold I_HEADER_LEN, MCLBYTES in *. lia.
Qed.
(** A frame stays what it is or becomes a dummy. *)
Definition fades (d : list Z) (wd : list (list Z)) (x x' : list Z) : Prop := x' = x ∨ x' = d ∧ x ∈ wd.
Lemma fades_refl d wd l : Forall2 (fades d wd) l l.
Proof. induction l; constructor; [by left|done]. Qed.
Lemma fades_queue d c q : Forall frame_ok q ->
  Forall2 (fades d (cut_by c q)) (map (content d) q) (map (content d) (map (acknowledge_mbuf c) q)).
Proof.
  intros Hq. assert (∀ m, m ∈ q -> cuts c m = true -> data m ∈ cut_by c q) as Hin.
  { intros m Hm Hc. apply list_elem_of_In, in_map, filter_In. by rewrite <-list_elem_of_In. }
  revert Hin. generalize (cut_by c q). intros wd. induction Hq as [|m q Hm _ IH]; intros Hin; cbn [map]; constructor.
  - destruct (acknowledge_frame d c m Hm) as [_ ->]. destruct (cuts c m) eqn:Hc; [right; split; [done|]|by left].
    assert (content d m = data m) as ->; [|by apply Hin; [left|]].
    unfold cuts in Hc. apply andb_true_iff in Hc as [Hz%negb_true_iff _]. unfold content. by rewrite Hz.
  - apply IH. intros m' Hm'. apply Hin. by right.
Qed.
Lemma fades_dummies d wd l l' : Forall2 (fades d wd) l l' -> Forall (.= d) l -> Forall (.= d) l'.
Proof.
  induction 1 as [|x x' l l' Hx _ IH]; [done|]. rewrite !Forall_cons. intros [-> Hl]. split; [by destruct Hx as [->|[-> _]]|auto].
Qed.
Lemma stands_fades d wd wd' l l' o :
  Forall2 (stands d wd) l o -> Forall2 (fades d wd') l l' -> Forall2 (stands d (wd ++ wd')) l' o.
Proof.
  intros H. revert l'. induction H as [|x y l o Hx _ IH]; intros l' Hl.
  - apply Forall2_nil_inv_l in Hl as ->. constructor.
  - apply Forall2_cons_inv_l in Hl as (x' & l1 & Hf & Hl & ->). constructor; [|by apply IH]. unfold stands, fades in *.
    rewrite elem_of_app. destruct Hx as [->|[-> Hy]], Hf as [->|[-> Hx']]; tauto.
Qed.
Lemma tx_release i cd w d hist base :
  let w' := (dss1_pipe_data_acknowledge i cd w).2 in
  tx_inv i w d hist base ->
  ∃ hist', tx_inv i w' d hist' base ∧ length hist' = length hist ∧ only_pipe i w w' ∧
    tx_window_length (pipe_at i w') = tx_window_length (pipe_at i w) ∧
    tx_window_size (pipe_at i w') = tx_window_size (pipe_at i w) ∧ probes (pipe_at i w') = probes (pipe_at i w) ∧
    Forall2 (fades d (cut_by (cr cd) (ifq (pipe_ifq (pipe_at i w)))))
      (all_frames d (pipe_at i w) hist base) (all_frames d (pipe_at i w') hist' base).
Proof.
  intros w' [H1 H2 H3 H4 H5 H6 H7 H8 H9 H10 H11 H12 H13]. set (p := pipe_at i w) in *.
  assert (pipe_at i w' = p <| pipe_ifq ::= λ q, q <| ifq ::= map (acknowledge_mbuf (cr cd)) |> |>) as Hp by (apply (pipe_at_mod i), H1).
  assert (only_pipe i w w') as Ho by apply only_pipe_mod. clearbody w'.
  pose proof (fades_queue d (cr cd) _ H6) as Hq. set (q := ifq (pipe_ifq p)) in *. set (wd := cut_by _ q) in *.
  set (f := first_in p base) in *. assert (f <= base)%nat as Hf by (unfold f, first_in; lia).
  set (k := (length hist - f)%nat). set (cq := map (content d) (map (acknowledge_mbuf (cr cd)) q)) in *.
  assert (drop f hist = take k (map (content d) q)) as Hd.
  { destruct H8 as [t ->]. unfold k. rewrite <-length_drop, take_app_length. done. }
  assert (Forall2 (fades d wd) hist (take f hist ++ take k cq)) as Hh.
  { rewrite <-(take_drop f hist) at 1. apply Forall2_app; [apply fades_refl|]. rewrite Hd. by apply Forall2_take. }
  exists (take f hist ++ take k cq). pose proof (Forall2_length _ _ _ Hh) as Hlen.
  assert (length (take f hist) = f) as Hlf by (rewrite length_take; lia).
  assert (first_in (pipe_at i w') base = f) as Hf' by (by rewrite Hp).
  assert (map (content d) (ifq (pipe_ifq (pipe_at i w'))) = cq) as Hcq by (by rewrite Hp).
  split; [|split; [done|split; [done|split; [by rewrite Hp|split; [by rewrite Hp|split; [by rewrite Hp|]]]]]].
  - constructor; rewrite ?Hf', ?Hcq, <-?Hlen; try (rewrite Hp; done); try done.
    + by eapply only_pipe_ready.
    + by rewrite (only_pipe_dummy i w).
    + rewrite Hp. destruct H4 as [W1 W2 W3 W4]. constructor; try done. unfold ifq_len in *. cbn. by rewrite length_map.
    + rewrite Hp. cbn. apply Forall_map, (Forall_impl _ _ _ H6). intros m Hm. by apply (acknowledge_frame d).
    + rewrite drop_app_ge, Hlf, Nat.sub_diag, drop_0 by lia. apply prefix_take.
    + rewrite Hp. intros Hpr. eapply fades_dummies; [by apply Forall2_drop|]. by apply H12.
  - unfold all_frames. fold p f q. rewrite Hf', Hcq, take_app_le, take_take, Nat.min_id by lia.
    apply Forall2_app; [apply fades_refl|done].
Qed.

(** *** The invariant is kept *)
Ltac line_cbn := cbn [l_a l_b down up given got withdrawn] in *.
(** What has been sent is the first part of all frames. *)
Lemma hist_prefix i w d hist base : tx_inv i w d hist base -> hist `prefix_of` all_frames d (pipe_at i w) hist base.
Proof.
  intros HI. unfold all_frames. rewrite <-(take_drop (first_in (pipe_at i w) base) hist) at 1. apply prefix_app, HI.
Qed.
Lemma probes_base i w d hist base : tx_inv i w d hist base ->
  probes (pipe_at i w) = (Z.of_nat base mod 128 =? 127) || (Z.of_nat base mod 128 =? 0).
Proof. intros HI. rewrite (probes_multi _ (tx_multi _ _ _ _ _ HI)), (tx_number _ _ _ _ _ HI). done. Qed.
Lemma stands_more d wd wd' x y : stands d wd x y -> stands d (wd ++ wd') x y.
Proof. unfold stands. rewrite elem_of_app. tauto. Qed.
(** Numbers in front of [base] keep their frames, and the others stand for
    dummies before and after, if dummies are put between. *)
Lemma stands_inserted d wd base p all all' o :
  Forall2 (stands d wd) all o -> inserted d base p all all' ->
  ∃ z, let o' := take base o ++ z ++ drop base o in
    Forall2 (stands d wd) all' o' ∧ filter (.≠ d) o' = filter (.≠ d) o ∧ (probes p = false -> o' = o) ∧
    (base <= length all -> length (take base o) = base)%nat.
Proof.
  intros Ho (z & -> & Hz & Hp). exists z. cbv zeta. assert (filter (.≠ d) z = []) as Hfz.
  { clear Hp. induction Hz as [|x z -> _ IH]; [done|]. rewrite filter_cons_False; [exact IH|]. intros H. by apply H. }
  split; [|split; [|split]].
  - apply Forall2_app; [by apply Forall2_take|]. apply Forall2_app; [|by apply Forall2_drop].
    clear. induction z; constructor; [by left|done].
  - rewrite !filter_app, Hfz, app_nil_l, <-filter_app. by rewrite take_drop.
  - intros H. by rewrite Hp, app_nil_l, take_drop.
  - intros H. rewrite length_take, <-(Forall2_length _ _ _ Ho). lia.
Qed.
Section linked.
Context (i j : nat) (d : list Z) (r : nat).
Definition joined (s : line) : Prop := ∃ hist o base next ks acks, linked i j d r hist o base next ks acks s.

(** The position of the poll, when only the pipe has changed. *)
Lemma cur_ok_only w w' base base' :
  only_pipe i w w' -> tx_window_size (pipe_at i w') = tx_window_size (pipe_at i w) ->
  first_in (pipe_at i w') base' = first_in (pipe_at i w) base ->
  (tx_window_length (pipe_at i w') ≠ 0 -> tx_window_length (pipe_at i w) ≠ 0) ->
  (sc_current_pipe (w_sc w) = i -> cur_ok i w base) -> sc_current_pipe (w_sc w') = i -> cur_ok i w' base'.
Proof.
  intros Ho HS Hf HL Hc. destruct (only_pipe_cur i w w' Ho) as (-> & E1 & E2 & E3). intros Hp. unfold cur_ok.
  rewrite E1, E2, E3, HS, Hf. intros Hn Hw. by apply (Hc Hp Hn), HL.
Qed.
(** Frames on the way stay what they are while more is sent and withdrawn. *)
Lemma on_way_more wd wd' hist hist' o o' f k :
  on_way d wd hist o f k -> (length hist <= length hist')%nat -> o `prefix_of` o' -> on_way d (wd ++ wd') hist' o' f k.
Proof.
  intros (C1 & C2 & y & C3 & C4) Hl Ho. split; [done|]. split; [lia|]. exists y. split; [by eapply prefix_lookup_Some|].
  by apply stands_more.
Qed.
Lemma take_prefix (o o' : list (list Z)) n : o `prefix_of` o' -> (n <= length o)%nat -> take n o' = take n o.
Proof. intros [k ->] Hn. by rewrite take_app_le. Qed.
Lemma linked_length hist o base next ks acks s : linked i j d r hist o base next ks acks s ->
  (length hist <= length o ∧ length (got s) = next - r)%nat.
Proof.
  intros [K1 K2 K3 K4 K5 K6 K7 K8 K9 K10 K11 K12 K13 K14].
  pose proof (prefix_length _ _ (hist_prefix _ _ _ _ _ K1)) as Hl. rewrite (Forall2_length _ _ _ K5) in Hl. split; [done|].
  rewrite (Forall2_length _ _ _ K13), length_drop, length_take. lia.
Qed.

Lemma joined_data m a b dn u gv gt wd :
  joined (Line a b dn u gv gt wd) -> frame_ok m -> is_ZIF (Some m) = false ->
  joined (Line (dss1_pipe_data_req i m a).2 b dn u (gv ++ if takes i a then [data m] else []) gt wd).
Proof.
  intros (hist & o & base & next & ks & acks & HK) Hok Hz. pose proof (linked_length _ _ _ _ _ _ _ HK) as [Ho _].
  destruct HK as [K1 K2 K3 K4 K5 K6 K7 K8 K9 K10 K11 K12 K13 K14].
  assert (content d m = data m) as Hcm by (unfold content; by rewrite Hz). line_cbn.
  destruct (tx_data_req i m a d hist base K1 Hok) as (T1 & T2 & T3 & T4 & T5). cbv zeta in T1, T2, T3, T4, T5.
  rewrite Hcm in T2. set (x := if takes i a then [data m] else []) in *. assert (o `prefix_of` o ++ x) as Hpo by (by eexists).
  exists hist, (o ++ x), base, next, ks, acks. constructor; try done; line_cbn.
  - apply (cur_ok_only a _ base); [done|done|unfold first_in, done_in; by rewrite T4, T5|by rewrite T4|done].
  - rewrite T2. apply Forall2_app; [done|]. clear. induction x; constructor; [by left|done].
  - apply (Forall2_impl _ _ _ _ K6). intros f k Hfk. rewrite <-(app_nil_r wd). by apply (on_way_more wd [] hist hist o).
  - rewrite (take_prefix o) by (done || lia). split; [apply K12|]. rewrite !filter_app. f_equal. apply K12.
  - by rewrite (take_prefix o) by (done || lia).
  - rewrite (probes_base _ _ _ _ _ T1), <-(probes_base _ _ _ _ _ K1). exact K14.
Qed.
Lemma joined_release cd a b dn u gv gt wd :
  joined (Line a b dn u gv gt wd) ->
  joined (Line (dss1_pipe_data_acknowledge i cd a).2 b dn u gv gt (wd ++ cut_by (cr cd) (ifq (pipe_ifq (pipe_at i a))))).
Proof.
  intros (hist & o & base & next & ks & acks & [K1 K2 K3 K4 K5 K6 K7 K8 K9 K10 K11 K12 K13 K14]). line_cbn.
  destruct (tx_release i cd a d hist base K1) as (hist' & T1 & T2 & T3 & T4 & T5 & T6 & T7). cbv zeta in T1, T3, T4, T5, T6, T7.
  exists hist', o, base, next, ks, acks. constructor; try done; line_cbn.
  - apply (cur_ok_only a _ base); [done|done|unfold first_in, done_in; by rewrite T4, T5|by rewrite T4|done].
  - by rewrite T2.
  - by eapply stands_fades.
  - apply (Forall2_impl _ _ _ _ K6). intros f k Hfk. apply (on_way_more wd _ hist hist' o); [done|by rewrite T2|done].
  - apply (Forall2_impl _ _ _ _ K13). intros x y. apply stands_more.
  - by rewrite T6.
Qed.
(** After dummies were put in front of the frames from [base] on: what has a
    number in front of [base] keeps its place, and what was sent under the
    others stands for dummies. *)
Section inserting.
Context (wd hist hist' o o' : list (list Z)) (base : nat) (w : world).
Hypothesis Hi : tx_inv i w d hist' base.
Hypothesis Ho : Forall2 (stands d wd) (all_frames d (pipe_at i w) hist' base) o'.
Hypothesis Hfront : ∀ n, (n <= base)%nat -> take n o' = take n o.
Hypothesis Hl : (length hist <= length hist')%nat.
Lemma ins_sent k x : hist' !! k = Some x -> ∃ y, o' !! k = Some y ∧ stands d wd x y.
Proof using Hi Ho.
  intros Hx. apply (Forall2_lookup_l _ _ _ _ _ Ho). by eapply prefix_lookup_Some; [|apply (hist_prefix _ _ _ _ _ Hi)].
Qed.
Lemma ins_probe k x : probes (pipe_at i w) = true -> (base <= k)%nat -> hist' !! k = Some x -> x = d.
Proof using Hi.
  clear Hl. intros Hp Hk Hx. pose proof (tx_probe _ _ _ _ _ Hi Hp) as Hd. apply (Forall_lookup_1 _ _ (k - base) x Hd).
  by rewrite lookup_drop, Nat.add_sub_assoc, Nat.add_comm, Nat.add_sub by lia.
Qed.
Lemma ins_dummy k : probes (pipe_at i w) = true -> (base <= k < length hist')%nat ->
  ∃ y, o' !! k = Some y ∧ stands d wd d y.
Proof using Hi Ho.
  clear Hl. intros Hp Hk. destruct (lookup_lt_is_Some_2 hist' k) as [x Hx]; [lia|].
  destruct (ins_sent k x Hx) as (y & Hy & Hs). exists y. by rewrite <-(ins_probe k x Hp (proj1 Hk) Hx) at 2.
Qed.
Lemma ins_down dn ks : probes (pipe_at i w) = true -> Forall2 (on_way d wd hist o) dn ks ->
  Forall2 (λ f k, (base <= k)%nat -> data f = d) dn ks -> Forall2 (on_way d wd hist' o') dn ks.
Proof using Hi Ho Hfront Hl.
  intros Hp H1 H2. apply (Forall2_impl _ _ _ _ (Forall2_both _ _ _ _ H1 H2)).
  intros m k [(C1 & C2 & y & C3 & C4) C5]. split; [done|]. split; [lia|]. destruct (decide (base <= k)%nat) as [Hk|Hk].
  - rewrite C5 by done. apply ins_dummy; [done|lia].
  - exists y. split; [|done]. rewrite <-(lookup_take_lt o' (S k) k), Hfront, lookup_take_lt by lia. done.
Qed.
Lemma ins_got gt next : probes (pipe_at i w) = true -> (r <= base <= next ∧ next <= length hist)%nat ->
  length gt = (next - r)%nat -> Forall2 (stands d wd) gt (drop r (take next o)) ->
  Forall (.= d) (drop (base - r) gt) -> Forall2 (stands d wd) gt (drop r (take next o')).
Proof using Hi Ho Hfront Hl.
  intros Hp Hn Hg H1 H2. rewrite <-(take_drop (base - r) gt).
  assert (drop r (take next o') = take (base - r) (drop r (take next o)) ++ drop base (take next o')) as ->.
  { rewrite !skipn_firstn_comm, take_take, Nat.min_l by lia.
    rewrite <-(take_drop (base - r) (take (next - r) (drop r o'))), take_take, Nat.min_l by lia. f_equal.
    - rewrite <-!skipn_firstn_comm. f_equal. apply Hfront. lia.
    - rewrite skipn_firstn_comm, drop_drop. f_equal; [lia|]. f_equal. lia. }
  pose proof (prefix_length _ _ (hist_prefix _ _ _ _ _ Hi)) as Hpl. rewrite (Forall2_length _ _ _ Ho) in Hpl.
  apply Forall2_app; [by apply Forall2_take|].
  apply Forall2_same_length_lookup_2; [rewrite !length_drop, length_take, Hg; lia|].
  intros n x y Hx Hy. rewrite lookup_drop in Hy. apply lookup_take_Some in Hy as [Hy Hlt].
  pose proof (Forall_lookup_1 _ _ _ _ H2 Hx) as ->. destruct (ins_dummy (base + n)%nat) as (y' & Hy' & Hs); [done|lia|].
  congruence.
Qed.
End inserting.
Lemma joined_poll a b dn u gv gt wd :
  joined (Line a b dn u gv gt wd) -> sc_current_length (w_sc a) = 0 ∨ sc_current_pipe (w_sc a) = i ->
  joined (Line (poll_pipes [i] a).2 b (dn ++ option_list (poll_pipes [i] a).1) u gv gt wd).
Proof.
  intros (hist & o & base & next & ks & acks & HK) Hp. pose proof (linked_length _ _ _ _ _ _ _ HK) as [Hlo Hlg].
  destruct HK as [K1 K2 K3 K4 K5 K6 K7 K8 K9 K10 K11 K12 K13 K14]. line_cbn.
  pose proof (tx_poll i a d hist base K1 K2 Hp) as Ht. destruct (poll_pipes [i] a) as [f a'].
  destruct Ht as (hist' & P1 & P2 & P3 & P4 & P5). cbn [fst snd].
  assert (length hist <= length hist')%nat as Hl by (by apply prefix_length).
  destruct (stands_inserted d wd base _ _ _ o K5 P4) as (z & O1 & O2 & O3 & O4). cbv zeta in O1, O2, O3.
  pose proof (Forall2_length _ _ _ K5) as Hall. assert (length (take base o) = base) as Hbo by (apply O4; lia).
  set (o' := take base o ++ z ++ drop base o) in *.
  assert (probes (pipe_at i a') = probes (pipe_at i a)) as Hpr.
  { by rewrite (probes_base _ _ _ _ _ P2), (probes_base _ _ _ _ _ K1). }
  assert (∀ n, (n <= base)%nat -> take n o' = take n o) as Hfront.
  { intros n Hn. unfold o'. rewrite take_app_le by lia. by rewrite take_take, Nat.min_l by lia. }
  assert (Forall2 (on_way d wd hist' o') dn ks ∧ Forall2 (stands d wd) gt (drop r (take next o'))) as [Hdn Hgt].
  { destruct (probes (pipe_at i a)) eqn:Hpt.
    - destruct (K14 eq_refl) as [K14a K14b]. split; [by eapply ins_down|by eapply ins_got].
    - rewrite O3 by done. split; [|done]. apply (Forall2_impl _ _ _ _ K6). intros m k Hm. rewrite <-(app_nil_r wd).
      by apply (on_way_more wd [] hist hist' o). }
  assert (filter (.≠ d) (take r o') = [] ∧ filter (.≠ d) o' = filter (.≠ d) gv) as Hgv by (rewrite Hfront, O2 by lia; done).
  destruct f as [f|]; cbn [option_list].
  - destruct P5 as (k & Hk & Hc1 & Hc2). exists hist', o', base, next, (ks ++ [k]), acks.
    pose proof (tx_span _ _ _ _ _ P2) as Hs. assert (first_in (pipe_at i a') base <= base)%nat by (unfold first_in; lia).
    constructor; try done; line_cbn; [lia| | | |].
    + apply Forall2_app; [done|]. apply Forall2_cons. split; [|done]. split; [done|]. split; [lia|]. by eapply ins_sent.
    + apply StronglySorted_snoc; [done|]. rewrite Forall_forall. intros x Hx%list_elem_of_lookup. destruct Hx as [n Hx].
      destruct (Forall2_lookup_r _ _ _ _ _ Hdn Hx) as (m & _ & _ & Hm & _). lia.
    + apply Forall_app. split; [done|]. apply Forall_singleton. lia.
    + rewrite Hpr. intros Hpt. destruct (K14 Hpt) as [K14a K14b]. split; [|done]. apply Forall2_app; [done|].
      apply Forall2_cons. split; [|done]. intros Hb. rewrite <-Hpr in Hpt. by eapply ins_probe.
  - exists hist', o', base, next, ks, acks. rewrite app_nil_r. constructor; try done; line_cbn; [lia|by rewrite Hpr].
Qed.
Lemma joined_timeout a b dn u gv gt wd :
  joined (Line a b dn u gv gt wd) -> joined (Line (dss1_l2_get_mbuf_timeout i a).2 b dn u gv gt wd).
Proof.
  intros (hist & o & base & next & ks & acks & [K1 K2 K3 K4 K5 K6 K7 K8 K9 K10 K11 K12 K13 K14]). line_cbn.
  destruct (tx_timeout i a d hist base K1) as (T1 & T2 & T3 & T4). cbv zeta in T1, T2, T3, T4.
  exists hist, o, base, next, ks, acks. constructor; try done; line_cbn; [|by rewrite T2|].
  - destruct T4 as [HL|(E1 & E2 & E3)]; [intros _ _ Hn; by rewrite HL in Hn|].
    apply (cur_ok_only a _ base); [done|done|done|by rewrite E1|done].
  - rewrite (probes_base _ _ _ _ _ T1), <-(probes_base _ _ _ _ _ K1). exact K14.
Qed.
Lemma joined_ack m a b dn u gv gt wd :
  joined (Line a b dn (m :: u) gv gt wd) -> pipe_state (pipe_at i (check_NR i (received m) a).2) = ST_L2_MULTI_FRAME ->
  joined (Line (check_NR i (received m) a).2 b dn u gv gt wd).
Proof.
  intros (hist & o & base & next & ks & acks & HK) Hm. pose proof (linked_length _ _ _ _ _ _ _ HK) as [_ Hlg].
  destruct HK as [K1 K2 K3 K4 K5 K6 K7 K8 K9 K10 K11 K12 K13 K14]. line_cbn.
  apply Forall2_cons_inv_l in K9 as (x & acks' & Hx & K9 & ->). apply Forall_cons in K11 as [Hr K11].
  apply StronglySorted_inv in K10 as [K10 Hle].
  destruct (tx_check_NR i (received m) a d hist base x K1 Hx) as (T1 & T2 & T3 & T4 & T5 & T6); [lia|done|].
  exists hist, o, x, next, ks, acks'. constructor; try done; line_cbn.
  - apply (cur_ok_only a _ base); [done..| |done]. pose proof (tx_win _ _ _ _ _ T1) as [W _ _ _]. lia.
  - lia.
  - unfold all_frames. rewrite T2, T3. exact K5.
  - rewrite Forall_forall in *. intros y Hy. specialize (K11 y Hy). specialize (Hle y Hy). lia.
  - rewrite (probes_base _ _ _ _ _ T1), orb_true_iff, !Z.eqb_eq. intros Hp.
    destruct (limit_step base x (length hist)) as [_ Hlim]; [lia|apply K1|]. destruct (Hlim Hp) as [Hb| ->].
    + destruct K14 as [K14a K14b]; [by rewrite (probes_base _ _ _ _ _ K1), orb_true_iff, !Z.eqb_eq|]. split.
      * apply (Forall2_impl _ _ _ _ K14a). intros f k Hf Hk. apply Hf. lia.
      * replace (x - r)%nat with (base - r + (x - base))%nat by lia. rewrite <-drop_drop. by apply Forall_drop.
    + split; [|rewrite drop_ge by lia; apply Forall_nil_2].
      apply (Forall2_impl _ _ _ _ K6). intros f k (_ & Hk & _) Hge. lia.
Qed.
Lemma joined_receive m resp b' a b dn u gv gt wd :
  joined (Line a b (m :: dn) u gv gt wd) -> put_i_frame j (received m) false b = (resp, b') ->
  joined (Line a b' dn u gv (gt ++ if resp =? CNTL_RR then [data m] else []) wd).
Proof.
  intros (hist & o & base & next & ks & acks & HK) Hput. pose proof (linked_length _ _ _ _ _ _ _ HK) as [Hlo Hlg].
  destruct HK as [K1 K2 K3 K4 K5 K6 K7 K8 K9 K10 K11 K12 K13 K14]. line_cbn.
  apply Forall2_cons_inv_l in K6 as (k & ks' & (Hnr & Hlen & y & Hy & Hdata) & K6 & ->). apply Forall_cons in K8 as [Hk K8].
  apply StronglySorted_inv in K7 as [K7 Hlt].
  assert (probes (pipe_at i a) = true -> ((base <= k)%nat -> data m = d) ∧
    Forall2 (λ f k, (base <= k)%nat -> data f = d) dn ks' ∧ Forall (.= d) (drop (base - r) gt)) as K14'.
  { intros Hp. destruct (K14 Hp) as [K14a K14b]. by apply Forall2_cons in K14a as [??]. }
  pose proof (put_i_frame_rx j _ (received m) false b K3) as Hrx. rewrite Hput in Hrx. cbn [fst snd] in Hrx. cbv zeta in Hrx.
  fold (wire_nr m) in Hrx. rewrite Hnr in Hrx. destruct Hrx as [-> Hrx].
  assert (M128INC (Z.of_nat next mod 128) = Z.of_nat (S next) mod 128) as Hinc.
  { unfold M128INC, u8. pose proof (Z.mod_pos_bound (Z.of_nat next) 128). rewrite (Z.mod_small _ 256) by lia.
    rewrite Zplus_mod_idemp_l, Nat2Z.inj_succ. done. }
  destruct (Z.eqb_spec (Z.of_nat next mod 128) (Z.of_nat k mod 128)) as [He|He].
  - assert (k = next) as ->.
    { pose proof (Z.div_mod (Z.of_nat k) 128). pose proof (Z.div_mod (Z.of_nat next) 128). lia. }
    change (CNTL_RR =? CNTL_RR) with true. cbv iota. rewrite Hinc in Hrx.
    exists hist, o, base, (S next), ks', acks. constructor; try done; line_cbn.
    + lia.
    + rewrite Forall_forall in *. intros x Hx. specialize (K8 x Hx). specialize (Hlt x Hx). lia.
    + apply (Forall_impl _ _ _ K11). intros x Hx. lia.
    + rewrite (take_S_r _ _ _ Hy), drop_app_le by (rewrite length_take; lia). apply Forall2_app; [done|].
      by apply Forall2_cons.
    + intros Hp. destruct (K14' Hp) as (P1 & P2 & P3). split; [done|]. rewrite drop_app_le by lia.
      apply Forall_app. split; [done|]. apply Forall_singleton, P1. lia.
  - change (CNTL_REJ =? CNTL_RR) with false. cbv iota. rewrite app_nil_r.
    exists hist, o, base, next, ks', acks. constructor; try done. line_cbn. intros Hp. by destruct (K14' Hp).
Qed.
Lemma joined_answer m a b dn u gv gt wd :
  joined (Line a b dn u gv gt wd) -> acknowledges (pipe_at j b) m -> joined (Line a b dn (u ++ [m]) gv gt wd).
Proof.
  intros (hist & o & base & next & ks & acks & [K1 K2 K3 K4 K5 K6 K7 K8 K9 K10 K11 K12 K13 K14]) Hm. line_cbn.
  assert (j < length (sc_pipe (w_sc b)))%nat as Hj by (by eapply rx_at_length).
  destruct (proj1 (rx_at_pipe j _ b Hj) K3) as [_ Hrx]. pose proof (Z.mod_pos_bound (Z.of_nat next) 128) as Hmb.
  pose proof (acknowledges_number _ _ Hm) as Hn. rewrite Hrx in Hn. specialize (Hn ltac:(unfold is_u8; lia)).
  rewrite Z.mod_mod in Hn by lia.
  exists hist, o, base, next, ks, (acks ++ [next]). constructor; try done; line_cbn.
  - apply Forall2_app; [done|]. by apply Forall2_cons.
  - apply StronglySorted_snoc; [done|]. apply (Forall_impl _ _ _ K11). intros x Hx. lia.
  - apply Forall_app. split; [done|]. apply Forall_singleton. lia.
Qed.
Lemma joined_lose_down l1 m l2 a b u gv gt wd :
  joined (Line a b (l1 ++ m :: l2) u gv gt wd) -> joined (Line a b (l1 ++ l2) u gv gt wd).
Proof.
  intros (hist & o & base & next & ks & acks & [K1 K2 K3 K4 K5 K6 K7 K8 K9 K10 K11 K12 K13 K14]). line_cbn.
  assert (Forall2 (λ f k, on_way d wd hist o f k ∧ (probes (pipe_at i a) = true -> (base <= k)%nat -> data f = d))
    (l1 ++ m :: l2) ks) as Hb.
  { destruct (probes (pipe_at i a)); [destruct (K14 eq_refl) as [K14a _]|].
    - apply (Forall2_impl _ _ _ _ (Forall2_both _ _ _ _ K6 K14a)). intros f k [H1 H2]. by split.
    - apply (Forall2_impl _ _ _ _ K6). by intros f k H1. }
  destruct (Forall2_remove _ _ _ _ _ Hb) as (k1 & y & k2 & -> & Hb'). exists hist, o, base, next, (k1 ++ k2), acks.
  constructor; try done; line_cbn.
  - apply (Forall2_impl _ _ _ _ Hb'). by intros f k [H1 _].
  - by eapply StronglySorted_remove.
  - by eapply Forall_remove.
  - intros Hp. split; [|by apply K14]. apply (Forall2_impl _ _ _ _ Hb'). intros f k [_ H2]. by apply H2.
Qed.
Lemma joined_other_a a' a b dn u gv gt wd :
  joined (Line a b dn u gv gt wd) -> other_a i a a' -> joined (Line a' b dn u gv gt wd).
Proof.
  intros (hist & o & base & next & ks & acks & [K1 K2 K3 K4 K5 K6 K7 K8 K9 K10 K11 K12 K13 K14]) (V & Hr & Hd & Hc). line_cbn.
  assert (tx_inv i a' d hist base) as K1' by (apply (tx_inv_view i a); try done; rewrite Hd; apply K1).
  exists hist, o, base, next, ks, acks. constructor; try done; line_cbn.
  - intros Hp Hn HL. destruct (Hc Hp) as [H0|(P1 & P2 & P3 & P4)]; [by rewrite H0 in Hn|].
    injection V as V1 V2 V3 V4 V5. unfold first_in, done_in. rewrite P2, P3, P4, V2, V3.
    apply (K2 P1); [by rewrite <-P3|by rewrite <-V3].
  - by rewrite (all_frames_view _ _ _ _ _ V).
  - rewrite (probes_base _ _ _ _ _ K1'), <-(probes_base _ _ _ _ _ K1). exact K14.
Qed.
Lemma joined_step s s' : joined s -> multi_step i j s s' -> joined s'.
Proof.
  intros HJ [Hs Hm]. destruct Hs; line_cbn.
  - by apply joined_data.
  - by apply joined_release.
  - by apply joined_poll.
  - by apply joined_timeout.
  - by apply joined_ack.
  - by eapply joined_receive.
  - by apply joined_answer.
  - by eapply joined_lose_down.
  - destruct HJ as (hist & o & base & next & ks & acks & [K1 K2 K3 K4 K5 K6 K7 K8 K9 K10 K11 K12 K13 K14]). line_cbn.
    destruct (Forall2_remove _ _ _ _ _ K9) as (k1 & y & k2 & -> & K9'). exists hist, o, base, next, ks, (k1 ++ k2).
    constructor; try done; [by eapply StronglySorted_remove|by eapply Forall_remove].
  - by eapply joined_other_a.
  - destruct HJ as (hist & o & base & next & ks & acks & [K1 K2 K3 K4 K5 K6 K7 K8 K9 K10 K11 K12 K13 K14]). line_cbn.
    exists hist, o, base, next, ks, acks. constructor; try done. line_cbn. auto.
Qed.
Lemma joined_prefix s : joined s ->
  ∃ sent, Forall2 (stands d (withdrawn s)) (got s) sent ∧ filter (.≠ d) sent `prefix_of` filter (.≠ d) (given s).
Proof.
  intros (hist & o & base & next & ks & acks & [K1 K2 K3 K4 K5 K6 K7 K8 K9 K10 K11 K12 K13 K14]).
  exists (drop r (take next o)). split; [done|]. destruct K12 as [Hr <-]. rewrite skipn_firstn_comm.
  rewrite <-(take_drop r o) at 2. rewrite filter_app, Hr, app_nil_l. apply filter_prefix, prefix_take.
Qed.
End linked.

Lemma joined_start i j s : line_start i j s -> ∃ r, joined i j (dummy (l_a s)) r s.
Proof.
  intros [Hr Hm [HS HL] Hq Hg [Hn Hrx] (Hd & Hu & Hgt & Hwd)]. set (p := pipe_at i (l_a s)) in *. set (d := dummy (l_a s)).
  set (r := Z.to_nat (tx_nr p)). assert (Z.of_nat r = tx_nr p) as Hzr by (unfold r; lia).
  assert (Z.of_nat r mod 128 = tx_nr p) as Hmod by (rewrite Hzr; apply Z.mod_small; lia).
  assert (first_in p r = r) as Hf by (unfold first_in, done_in; rewrite HS, HL; cbn; lia).
  assert (∀ n, filter (.≠ d) (replicate n d) = []) as Hfr.
  { induction n as [|n IH]; [done|]. cbn. rewrite decide_False; [exact IH|]. intros H. by apply H. }
  pose proof (limit_range (tx_nr p) Hn) as Hlr.
  assert (all_frames d p (replicate r d) r = replicate r d ++ given s) as Hall.
  { unfold all_frames. rewrite Hf, take_ge, Hg by (by rewrite length_replicate). f_equal.
    apply map_ext_Forall, (Forall_impl _ _ _ Hq). intros m [_ Hz]. unfold content. by rewrite Hz. }
  exists r, (replicate r d), (replicate r d ++ given s), r, r, [], [].
  constructor; fold p; rewrite ?Hd, ?Hu, ?Hgt, ?Hall; try done; try constructor;
    fold p; rewrite ?Hf, ?Hmod, ?length_replicate, ?HS, ?HL, ?drop_nil; try done; try lia.
  - constructor; rewrite ?HS, ?HL; unfold ifq_len; lia.
  - apply (Forall_impl _ _ _ Hq). by intros m [H _].
  - unfold done_in. rewrite HS, HL. cbn. lia.
  - rewrite drop_ge by (by rewrite length_replicate). apply prefix_nil.
  - intros _. rewrite drop_ge by (by rewrite length_replicate). apply Forall_nil_2.
  - generalize (replicate r d ++ given s). intros l. induction l; constructor; [by left|done].
  - by rewrite take_app_length' by (by rewrite length_replicate).
  - by rewrite filter_app, Hfr.
  - rewrite drop_ge; [constructor|]. rewrite length_take. lia.
Qed.

(** C5: delivery.  Two ends agree on the next number, the window of the
    sending one is closed and nothing is on the way.  From then on frames are given to the sending end, calls are
    released, which withdraws their messages from the queue
    ([dss1_pipe_data_acknowledge] cuts them down to the header, and the
    dummy message is sent under their numbers), windows are polled and
    repeated, frames and acknowledgements are received or lost, in any
    order; between them comes any work that leaves the queue, the window and
    the numbers of the sending pipe and the number expected by the receiving
    one alone.  As long as the sending end stays in multi-frame operation
    (the link is not set up again) and has memory, what the receiving layer 3
    gets is, frame by frame, what was numbered, or the dummy message for a
    withdrawn one; and what was numbered is, apart from dummy messages, a
    prefix of what the sending layer 3 has given.  So messages come in order,
    none comes twice, and none is left out unless its call was released. *)
Theorem delivery_in_order i j s s' :
  line_start i j s -> rtc (multi_step i j) s s' ->
  let d := dummy (l_a s) in
  ∃ numbered,
    Forall2 (λ x y, x = y ∨ x = d ∧ y ∈ withdrawn s') (got s') numbered ∧
    filter (.≠ d) numbered `prefix_of` filter (.≠ d) (given s').
Proof.
  intros Hst Hs d. destruct (joined_start i j s Hst) as [r HJ]. fold d in HJ. clear Hst. clearbody d.
  apply (joined_prefix i j d r). induction Hs as [s|s s1 s' H1 _ IH]; [done|]. apply IH. by eapply joined_step.
Qed.
(** Of two messages the first one is withdrawn; its frame is lost, the
    window repeated and received. *)
Definition sample_msg : mbuf := Mbuf [0; 0; 0; 0; 8; 1; 5; 0x7b] 0 8 false.
Definition sample_kept : mbuf := Mbuf [0; 0; 0; 0; 8; 1; 6; 0x7b] 0 8 false.
Definition sample_end (q : list mbuf) : world :=
  sample_world <| w_sc ::= λ s, s <| sc_pipe ::= <[0%nat :=
    Pipe 1 ST_L2_MULTI_FRAME None (Some 1200) 0x83 0x8643 (Ifqueue q 48) 0 0 5 5]> |> |>.
Definition sample_poll (w : world) : world := (poll_pipes [0%nat] w).2.
Definition sample_sent (w : world) : mbuf := default zif (poll_pipes [0%nat] w).1.
Definition sample_put (f : mbuf) (w : world) : world := (put_i_frame 0 (received f) false w).2.
Definition sample_a0 : world := sample_end [sample_msg; sample_kept].
Definition sample_call : call_desc := inhabitant <| cr := 5 |>.
Definition sample_a1 : world := (dss1_pipe_data_acknowledge 0 sample_call sample_a0).2.
Definition sample_a2 : world := (dss1_l2_get_mbuf_timeout 0 (sample_poll sample_a1)).2.
Definition sample_f1 : mbuf := sample_sent sample_a2.
Definition sample_f2 : mbuf := sample_sent (sample_poll sample_a2).
Definition sample_given : list (list Z) := [data sample_msg; data sample_kept].
Definition sample_start : line := Line sample_a0 (sample_end []) [] [] sample_given [] [].
Definition sample_stop : line :=
  Line (sample_poll (sample_poll sample_a2)) (sample_put sample_f2 (sample_put sample_f1 (sample_end []))) [] []
    sample_given [data sample_f1; data sample_f2] [data sample_msg].
Lemma sample_line_start : line_start 0 0 sample_start.
Proof.
  constructor; try done; cbn; try lia.
  - split; [done|]. by apply Nat.ltb_lt.
  - repeat (apply Forall_cons; split; [split; [|done]|]); try apply Forall_nil_2;
      (split; [done|]; split; [split; by apply Nat.leb_le|by apply Nat.leb_le]).
  - split; [lia|]. eexists. split; [reflexivity|]. done.
Qed.
Lemma sample_line_run : rtc (multi_step 0 0) sample_start sample_stop.
Proof.
  assert (∀ s s1 s', line_step 0 0 s s1 -> s1 = s' ->
    bool_decide (pipe_state (pipe_at 0 (l_a s')) = ST_L2_MULTI_FRAME) = true ->
    rtc (multi_step 0 0) s' sample_stop -> rtc (multi_step 0 0) s sample_stop) as Hgo.
  { intros s s1 s' H1 -> H2%bool_decide_eq_true H3. by eapply rtc_l; [split|]. }
  unfold sample_start. set (gv := sample_given). set (b := sample_end []). set (wd := [data sample_msg]).
  apply (Hgo _ _ (Line sample_a1 b [] [] gv [] wd)
    (l_release 0 0 sample_call sample_a0 b [] [] gv [] [])); [vm_compute; reflexivity..|].
  set (f := sample_sent sample_a1).
  apply (Hgo _ _ (Line (sample_poll sample_a1) b ([] ++ f :: []) [] gv [] wd)
    (l_poll 0 0 sample_a1 b [] [] gv [] wd (or_introl eq_refl))); [vm_compute; reflexivity..|].
  apply (Hgo _ _ _ (l_lose_down 0 0 [] f [] (sample_poll sample_a1) b [] gv [] wd) eq_refl); [vm_compute; reflexivity|].
  apply (Hgo _ _ (Line sample_a2 b [] [] gv [] wd) (l_timeout 0 0 (sample_poll sample_a1) b [] [] gv [] wd));
    [vm_compute; reflexivity..|].
  apply (Hgo _ _ (Line (sample_poll sample_a2) b [sample_f1] [] gv [] wd)
    (l_poll 0 0 sample_a2 b [] [] gv [] wd (or_intror eq_refl))); [vm_compute; reflexivity..|].
  apply (Hgo _ _ (Line (sample_poll (sample_poll sample_a2)) b [sample_f1; sample_f2] [] gv [] wd)
    (l_poll 0 0 (sample_poll sample_a2) b [sample_f1] [] gv [] wd (or_intror eq_refl))); [vm_compute; reflexivity..|].
  set (a := sample_poll (sample_poll sample_a2)).
  apply (Hgo _ _ (Line a (sample_put sample_f1 b) [sample_f2] [] gv [data sample_f1] wd)
    (l_receive 0 0 sample_f1 CNTL_RR _ a b [sample_f2] [] gv [] wd (surjective_pairing _))); [vm_compute; reflexivity..|].
  apply (Hgo _ _ sample_stop (l_receive 0 0 sample_f2 CNTL_RR _ a (sample_put sample_f1 b) [] [] gv [data sample_f1] wd
    (surjective_pairing _))); [vm_compute; reflexivity..|done].
Qed.
Lemma delivery_in_order_witness :
  let d := dummy (l_a sample_start) in
  got sample_stop = [d; [8; 1; 6; 0x7b]] ∧
  ∃ numbered,
    Forall2 (λ x y, x = y ∨ x = d ∧ y ∈ withdrawn sample_stop) (got sample_stop) numbered ∧
    filter (.≠ d) numbered `prefix_of` filter (.≠ d) (given sample_stop).
Proof.
  split; [vm_compute; reflexivity|].
  apply (delivery_in_order 0 0 sample_start sample_stop); [exact sample_line_start|exact sample_line_run].
Defined.

(** ** Outside of multi-frame operation

    Between the repetition timer and the next poll the window is closed, so
    an acknowledgement that arrives then is taken for one outside of the
    window: multi-frame operation ends, the new number is stored and the
    acknowledged frame stays in the queue.  It is delivered a second time. *)
Definition sample_rr (b : world) : mbuf :=
  cntl_frame (pipe_at 0 b) (MAKE_SAPI SAPI_CCP CR_RESPONSE) CNTL_RR (Mbuf (replicate S_FRAME_LEN 0) 0 S_FRAME_LEN false).
(** The sending end is polled, the receiving end takes the frame. *)
Definition exchange (s : world * world * list (list Z)) : world * world * list (list Z) :=
  let '(a, b, gt) := s in
  match poll_pipes [0%nat] a with
  | (Some f, a) => let '(resp, b) := put_i_frame 0 (received f) false b in
                   (a, b, gt ++ if resp =? CNTL_RR then [data f] else [])
  | (None, a) => (a, b, gt)
  end.
Definition acknowledge_to (s : world * world * list (list Z)) : world * world * list (list Z) :=
  let '(a, b, gt) := s in ((check_NR 0 (received (sample_rr b)) a).2, b, gt).
Lemma late_acknowledgement_repeats :
  let s1 := exchange (sample_end [sample_msg], sample_end [], []) in
  let s2 := acknowledge_to ((dss1_l2_get_mbuf_timeout 0 s1.1.1).2, s1.1.2, s1.2) in
  let s3 := exchange (acknowledge_to (exchange (exchange s2))) in
  let d := dummy (sample_end []) in
  pipe_state (pipe_at 0 s2.1.1) = ST_L2_SINGLE_FRAME ∧ s3.2 = [data sample_msg; d; d; data sample_msg].
Proof. vm_compute. split; reflexivity. Qed.
