(* ===== verification/L3Spec.v ===== *)
(** * Functional properties of layer 3

    Isolation of the calls, the release of a call, what happens to a call
    whose peer is silent, and the end of an application. *)
From S2P Require Import Prelude Mbuf Dss1Types Dss1State Buffer L3Encoder CallDesc L3Fsm.
From S2P Require Import L3Decoder StackInv L3Safe L3Reset L3Link L2Pipe L2Fsm L2Safe L2Window.
From S2P Require Import L2Poll Stack Reach.
Local Open Scope Z_scope.

(** ** Isolation *)

(** The call [j] may change, and the queues of the pipes; no other call and
    no link does. *)
Definition isolated (j : nat) (w w' : world) : Prop :=
  (∀ j', j ≠ j' -> N_call_desc (w_cntl w') !! j' = N_call_desc (w_cntl w) !! j') ∧
  links w' = links w.

(** C33: an event other than CONNECT on one call changes no other call
    descriptor and no link: every pipe keeps its state, timers, TEI, window
    and sequence numbers. *)
Theorem cd_update_isolated activate j pipe event w :
  event ≠ EV_L3_CONNECT -> isolated j w (cd_update activate j pipe event w).2.
Proof.
  intros He. split; [intros j' Hne; by apply (other_cd_update j j' Hne)|by apply links_cd_update].
Qed.
Lemma cd_update_isolated_witness :
  let w' := (cd_update act 0 (Some 0%nat) EV_L3_ALERT sample_run).2 in
  cd_state (N_call_desc (w_cntl w') !!! 0%nat) = ST_L3_U4 ∧
  isolated 0 sample_run w'.
Proof.
  intros w'. split; [vm_compute; reflexivity|].
  apply (cd_update_isolated act 0 (Some 0%nat) EV_L3_ALERT sample_run); done.
Defined.

(** ** Timeouts of a call *)

(** What the timeouts depend on: the state of call [j], its enquiries and
    the modes of the stack. *)
Definition fsm_of (cd : call_desc) : L3_STATES * Z * bool :=
  (cd_state cd, status_enquiry_timeout cd, peer_responded cd).
Definition fsm_at (j : nat) (w : world) : L3_STATES * Z * bool := fsm_of (N_call_desc (w_cntl w) !!! j).
Definition modes (w : world) : bool * bool * bool :=
  (NT_MODE (w_sc w), IS_POINT_TO_POINT (w_sc w), no_layer3_status_enquiry (w_cntl w)).
Definition obs (j : nat) (w : world) : (L3_STATES * Z * bool) * (bool * bool * bool) :=
  (fsm_at j w, modes w).

Section obs.
Context (j : nat).
Lemma obs_mod_pipe i f : frames (obs j) (mod_pipe i f).
Proof. by intros w. Qed.
Lemma obs_emit o : frames (obs j) (emit o).
Proof. by intros w. Qed.
Lemma obs_get_mbuf n : frames (obs j) (get_mbuf n).
Proof. unfold get_mbuf. crush. by intros w. Qed.
Lemma obs_mod_same f : (∀ cd, fsm_of (f cd) = fsm_of cd) -> frames (obs j) (mod_cd j f).
Proof.
  intros Hf w. unfold obs, fsm_at. cbn. f_equal. rewrite !list_lookup_total_alt, list_lookup_alter_eq.
  destruct (N_call_desc (w_cntl w) !! j); cbn; [apply Hf|done].
Qed.
#[local] Hint Resolve obs_mod_pipe obs_emit obs_get_mbuf : i4b.
#[local] Hint Extern 1 (frames (obs _) (mod_cd _ _)) => apply obs_mod_same; intros; reflexivity : i4b.
Lemma obs_tx_frame i n msg m : frames (obs j) (tx_frame i n msg m).
Proof. unfold tx_frame, dss1_pipe_data_req. crush. Qed.
Lemma obs_q850 c : frames (obs j) (q850_cause c).
Proof. unfold q850_cause. crush. Qed.
#[local] Hint Resolve obs_tx_frame obs_q850 : i4b.
Lemma obs_tx_message mt fl : frames (obs j) (dss1_l3_tx_message j mt fl).
Proof. unfold dss1_l3_tx_message. crush. Qed.
#[local] Hint Resolve obs_tx_message : i4b.

(** The state a call enters, and its enquiry counter. *)
Definition next_fsm (m : bool * bool * bool) (s : L3_STATES) (o : L3_STATES * Z * bool)
  : L3_STATES * Z * bool :=
  let '(nt, p2p, noenq) := m in let '(_, count, peer) := o in
  if nt && negb p2p && is_U3_U4_TO s then
    if peer && (count <? STATUS_ENQUIRY_TIMEOUT)
    then (L3_state_pred s, u8 (count + 1), peer) else (s, count, peer)
  else if noenq && is_TO s then (L3_state_pred s, count, peer) else (s, count, peer).

Lemma obs_mod_cd f w :
  in_use j w -> obs j (mod_cd j f w).2 = (fsm_of (f (N_call_desc (w_cntl w) !!! j)), modes w).
Proof.
  intros (cd & Hj & _). unfold obs, fsm_at. cbn.
  rewrite !list_lookup_total_alt, list_lookup_alter_eq, Hj. done.
Qed.
Lemma in_use_mod_cd f w :
  (∀ cd, cdid (f cd) = cdid cd) -> in_use j w -> in_use j (mod_cd j f w).2.
Proof.
  intros Hf (cd & Hj & Hid). exists (f cd). cbn. rewrite list_lookup_alter_eq, Hj, Hf. done.
Qed.

Lemma set_state_other_obs s w :
  in_use j w ->
  obs j (cd_set_state_other j s w).2 = (next_fsm (modes w) s (fsm_at j w), modes w).
Proof.
  intros Hu. unfold cd_set_state_other. rewrite !run_bind.
  cbn [get_sc get_cntl get_hz get_cd gets fst snd].
  set (cd := N_call_desc (w_cntl w) !!! j).
  destruct (adjust_newstate _ _ cd s) as [[e s'] c] eqn:Ead. rewrite !run_bind.
  match goal with |- obs j (when _ ?m ?w3).2 = _ => assert (frames (obs j) m) as Hm
    by (unfold dss1_l3_tx_information; crush) end.
  rewrite (frames_when (obs j) _ _ Hm). clear Hm.
  assert (frames (obs j) (dss1_l3_tx_status_enquiry j)) as Hm by apply obs_tx_message.
  rewrite (frames_when (obs j) _ _ Hm). clear Hm.
  set (w1 := (when c _ w).2).
  assert (in_use j w1) as Hu1
    by (subst w1; rewrite run_when; case_match; [by apply in_use_mod_cd|done]).
  rewrite obs_mod_cd by done.
  assert (modes w1 = modes w) as Hmd by (subst w1; rewrite run_when; by case_match).
  rewrite Hmd. f_equal.
  assert (fsm_of (N_call_desc (w_cntl w1) !!! j) =
    (cd_state cd, if c then u8 (status_enquiry_timeout cd + 1) else status_enquiry_timeout cd,
     peer_responded cd)) as Hf.
  { subst w1. rewrite run_when. destruct c; [|done].
    pose proof (obs_mod_cd (λ cd, cd <| status_enquiry_timeout ::= λ n, u8 (n + 1) |>) w Hu) as Ho.
    exact (f_equal fst Ho). }
  unfold fsm_of in *. injection Hf as H1 H2 H3. cbn. rewrite H2, H3.
  unfold fsm_at. fold cd. unfold next_fsm, modes, fsm_of. unfold adjust_newstate in Ead.
  destruct (NT_MODE (w_sc w) && negb (IS_POINT_TO_POINT (w_sc w)) && is_U3_U4_TO s);
    repeat case_match; by simplify_eq.
Qed.
End obs.

Lemma live_in_use j w : live j w -> in_use j w.
Proof. intros (cd & i & Hj & Hid & _). by exists cd. Qed.

(** One timeout: the call is freed or enters the next state. *)
Lemma timeout_step j w :
  inv w -> in_use j w ->
  let s := L3_STATES_TIMEOUT_STATE (fsm_at j w).1.1 in
  let w' := (cd_set_state_timeout j w).2 in
  inv w' ∧ if bool_decide (s = ST_L3_U0) then ~ in_use j w'
           else in_use j w' ∧ obs j w' = (next_fsm (modes w) s (fsm_at j w), modes w).
Proof.
  intros HI Hu s w'. pose proof (in_use_live j w HI Hu) as Hl.
  split; [by apply inv_cd_timeout|]. subst w'. unfold cd_set_state_timeout.
  rewrite !run_bind. cbn [get_sc get_cd gets fst snd]. rewrite run_when. set (w1 := (mod_cd j _ w).2).
  assert (Ho1 : obs j w1 = obs j w) by (by apply obs_mod_same).
  destruct (timer_fired j w HI Hl) as [HI1 Hl1]. fold w1 in HI1, Hl1.
  assert (sc_fifo_translator (w_sc w1) = true) as -> by apply (vi_conn _ _ _ _ _ HI).
  assert (cd_state (N_call_desc (w_cntl w1) !!! j) = (fsm_at j w).1.1) as ->.
  { pose proof (f_equal (λ o, o.1.1.1) Ho1) as H. exact H. }
  fold s. clearbody w1. case_bool_decide as Hs.
  - rewrite Hs. intros (cd & Hj & Hid). by apply Hid, (set_state_null_unused j w1 cd Hl1).
  - split.
    { apply live_in_use. apply (winv_set_state (Some j) None (λ _, 0) 0 j s w1 HI1 Hl1); [by right|done]. }
    pose proof Hl1 as (cd & i & Hj & Hid & Hp). rewrite (cd_set_state_run j s w1 cd i Hj Hp).
    rewrite bool_decide_eq_false_2 by done. set (w2 := (mod_cd j _ w1).2).
    assert (Ho2 : obs j w2 = obs j w1) by (by apply obs_mod_same).
    assert (in_use j w2) as Hu2 by (by apply in_use_mod_cd, live_in_use). clearbody w2.
    pose proof (set_state_other_obs j s w2 Hu2) as Ho3. rewrite Ho1 in Ho2.
    pose proof (f_equal fst Ho2) as Hf. pose proof (f_equal snd Ho2) as Hm. cbn [obs fst snd] in Hf, Hm.
    rewrite Hf, Hm in Ho3.
    rewrite obs_mod_same by done. exact Ho3.
Qed.

(** [n] timeouts of call [j] with no message in between. *)
Definition timeouts (n : nat) (j : nat) (w : world) : world :=
  Nat.iter n (λ w, (cd_set_state_timeout j w).2) w.

(** The number of timeouts a call can still take. *)
Definition patience (o : L3_STATES * Z * bool) : Z :=
  let '(s, count, _) := o in
  if bool_decide (L3_STATES_TIMEOUT_STATE s = ST_L3_U0) then 1
  else 2 + Z.max 0 (STATUS_ENQUIRY_TIMEOUT - count).
Lemma patience_step m s count peer :
  m.2 = false -> 0 <= count -> L3_STATES_TIMEOUT_STATE s ≠ ST_L3_U0 ->
  let o := next_fsm m (L3_STATES_TIMEOUT_STATE s) (s, count, peer) in
  0 <= o.1.2 ∧ patience o < patience (s, count, peer).
Proof.
  destruct m as [[nt p2p] noenq]. cbn [snd]. intros -> Hc Hs. unfold next_fsm. cbn [andb].
  assert (Hp : patience (s, count, peer) = 2 + Z.max 0 (STATUS_ENQUIRY_TIMEOUT - count)).
  { unfold patience. by rewrite bool_decide_eq_false_2. }
  rewrite Hp. clear Hp.
  assert (Hto : patience (L3_STATES_TIMEOUT_STATE s, count, peer) = 1) by (by destruct s).
  assert (Hpred : L3_state_pred (L3_STATES_TIMEOUT_STATE s) = s) by (by destruct s).
  destruct (nt && negb p2p && is_U3_U4_TO _); [|rewrite Hto; cbn [fst snd]; lia].
  destruct (peer && (count <? STATUS_ENQUIRY_TIMEOUT)) eqn:E; [|rewrite Hto; cbn [fst snd]; lia].
  apply andb_true_iff in E as [_ E%Z.ltb_lt]. unfold STATUS_ENQUIRY_TIMEOUT in *.
  assert (u8 (count + 1) = count + 1) as -> by (apply u8_id; unfold is_u8; lia).
  rewrite Hpred. unfold patience. rewrite bool_decide_eq_false_2 by done. unfold STATUS_ENQUIRY_TIMEOUT.
  cbn [fst snd]. lia.
Qed.

Lemma timeouts_free j k : ∀ w,
  inv w -> in_use j w -> (modes w).2 = false -> 0 <= (fsm_at j w).1.2 ->
  patience (fsm_at j w) <= Z.of_nat k ->
  ∃ n, (1 <= n <= k)%nat ∧ ~ in_use j (timeouts n j w).
Proof.
  induction k as [|k IH]; intros w HI Hu Hm Hc Hk.
  { exfalso. destruct (fsm_at j w) as [[s count] peer]. unfold patience in Hk. case_match; lia. }
  destruct (timeout_step j w HI Hu) as [HI' Hs]. case_bool_decide as Ht.
  { exists 1%nat. split; [lia|]. exact Hs. }
  destruct Hs as [Hu' Ho]. pose proof (f_equal fst Ho : fsm_at j _ = _) as Hf. pose proof (f_equal snd Ho : modes _ = _) as Hm'.
  cbn [fst snd] in Hf, Hm'. clear Ho.
  destruct (fsm_at j w) as [[s count] peer] eqn:E. cbn [fst snd] in Hf, Hc, Ht.
  destruct (patience_step (modes w) s count peer Hm Hc Ht) as [Hc' Hp']. rewrite <-Hf in Hc', Hp'.
  destruct (IH _ HI' Hu') as (n & Hn & Hfree); [by rewrite Hm'|done|lia|].
  exists (S n). split; [lia|]. unfold timeouts in *. by rewrite Nat.iter_succ_r.
Qed.

(** C17: a call never outlives its peer.  If nothing but timeouts happen to a
    call (no message, no request), and status enquiries are not turned off,
    it is freed by its tenth timeout at the latest, whatever state it is
    in. *)
Theorem silent_call_is_freed j w :
  inv w -> in_use j w -> no_layer3_status_enquiry (w_cntl w) = false ->
  0 <= status_enquiry_timeout (N_call_desc (w_cntl w) !!! j) ->
  ∃ n, (1 <= n <= 10)%nat ∧ ~ in_use j (timeouts n j w).
Proof.
  intros HI Hu Hm Hc. apply timeouts_free; [done|done|done|done|].
  unfold fsm_at, fsm_of, patience. case_match; unfold STATUS_ENQUIRY_TIMEOUT; lia.
Qed.
Lemma sample_in_use : in_use 0 sample_run.
Proof.
  exists (N_call_desc (w_cntl sample_run) !!! 0%nat).
  split; [vm_compute; reflexivity|vm_compute; discriminate].
Qed.
Lemma silent_call_is_freed_witness :
  in_use 0 sample_run ∧ ∃ n, (1 <= n <= 10)%nat ∧ ~ in_use 0 (timeouts n 0 sample_run).
Proof.
  split; [exact sample_in_use|].
  apply (silent_call_is_freed 0 sample_run);
    [exact sample_inv|exact sample_in_use|vm_compute; reflexivity|vm_compute; discriminate].
Defined.

Lemma timeouts_stay j n : ∀ w,
  inv w -> in_use j w -> (modes w).2 = true ->
  ((fsm_at j w).1.1 = ST_L3_UA ∨ (fsm_at j w).1.1 = ST_L3_UC) ->
  inv (timeouts n j w) ∧ in_use j (timeouts n j w) ∧
  (fsm_at j (timeouts n j w)).1.1 = (fsm_at j w).1.1.
Proof.
  induction n as [|n IH]; intros w HI Hu Hm Hs; [done|].
  destruct (timeout_step j w HI Hu) as [HI' Hst].
  assert (L3_STATES_TIMEOUT_STATE (fsm_at j w).1.1 ≠ ST_L3_U0) as Hne
    by (destruct Hs as [-> | ->]; done).
  rewrite bool_decide_eq_false_2 in Hst by done. destruct Hst as [Hu' Ho].
  pose proof (f_equal fst Ho : fsm_at j _ = _) as Hf. pose proof (f_equal snd Ho : modes _ = _) as Hm'.
  cbn [fst snd] in Hf, Hm'. clear Ho.
  assert ((fsm_at j (cd_set_state_timeout j w).2).1.1 = (fsm_at j w).1.1) as Hsame.
  { rewrite Hf. destruct (fsm_at j w) as [[s count] peer], (modes w) as [[nt p2p] noenq].
    cbn in *. subst noenq. destruct Hs as [-> | ->]; cbn; by rewrite andb_false_r. }
  unfold timeouts. rewrite Nat.iter_succ_r. fold (timeouts n j (cd_set_state_timeout j w).2).
  rewrite <-Hsame. apply IH; [done|done|by rewrite Hm'|by rewrite Hsame].
Qed.

(** With status enquiries turned off ([no_layer3_status_enquiry]) the
    timeouts never end a call that is connected or whose peer has announced
    a disconnect: it stays in its state, with the timer armed again, after
    any number of them. *)
Lemma no_enquiry_call_stays j w n :
  inv w -> in_use j w -> no_layer3_status_enquiry (w_cntl w) = true ->
  (cd_state (N_call_desc (w_cntl w) !!! j) = ST_L3_UA ∨
   cd_state (N_call_desc (w_cntl w) !!! j) = ST_L3_UC) ->
  in_use j (timeouts n j w) ∧
  cd_state (N_call_desc (w_cntl (timeouts n j w)) !!! j) = cd_state (N_call_desc (w_cntl w) !!! j) ∧
  is_Some (cd_set_state_callout (N_call_desc (w_cntl (timeouts n j w)) !!! j)).
Proof.
  intros HI Hu Hm Hs. destruct (timeouts_stay j n w HI Hu Hm Hs) as (HI' & Hu' & He).
  split; [done|]. split; [exact He|]. destruct Hu' as (cd & Hj & Hid).
  rewrite (list_lookup_total_correct _ _ _ Hj).
  assert (v_cds (view_of (timeouts n j w)) !! j = Some (core_of cd)) as Hk by (apply cds_lookup; eauto).
  pose proof (vi_call _ _ _ _ _ HI' j _ Hk ltac:(done)) as Hok. unfold call_ok in Hok. cbn in Hok.
  apply Z.eqb_neq in Hid. rewrite Hid in Hok. apply Hok.
Qed.

(** The call of the sample run, connected, with status enquiries off. *)
Definition sample_active : world :=
  (cd_update act 0 (Some 0%nat) EV_L3_CONNECT sample_run).2
    <| w_cntl ::= λ c, c <| no_layer3_status_enquiry := true |> |>.
Lemma view_no_enquiry w :
  view_of (w <| w_cntl ::= λ c, c <| no_layer3_status_enquiry := true |> |>) = view_of w.
Proof. reflexivity. Qed.
Lemma sample_active_inv : inv sample_active.
Proof.
  assert (inv (cd_update act 0 (Some 0%nat) EV_L3_CONNECT sample_run).2) as H.
  { apply inv_cd_update; [exact sample_inv|apply in_use_live; [exact sample_inv|exact sample_in_use]|].
    intros _. exists 0%nat. split; [done|unfold PIPE_MAX; lia]. }
  unfold inv, winv, sample_active. rewrite view_no_enquiry. exact H.
Qed.

(** ** The release of a call *)
Definition id_at (j : nat) (w : world) : Z := cdid (N_call_desc (w_cntl w) !!! j).
Lemma id_view j w w' : view_of w' = view_of w -> live j w -> id_at j w' = id_at j w.
Proof.
  intros Hv (cd & i & Hj & _). unfold id_at. rewrite (list_lookup_total_correct _ _ _ Hj).
  assert (v_cds (view_of w') !! j = Some (core_of cd)) as (cd' & Hj' & Heq)%cds_lookup
    by (rewrite Hv; apply cds_lookup; eauto).
  rewrite (list_lookup_total_correct _ _ _ Hj'). by injection Heq.
Qed.
Lemma id_mod_cd j f w : (∀ cd, cdid (f cd) = cdid cd) -> id_at j (mod_cd j f w).2 = id_at j w.
Proof.
  intros Hf. unfold id_at. cbn. rewrite !list_lookup_total_alt, list_lookup_alter_eq.
  destruct (N_call_desc (w_cntl w) !! j); cbn; [apply Hf|done].
Qed.

(** What was sent stays sent. *)
Section sent.
Context (o : output).
Definition was_sent (w : world) : Prop := o ∈ w_out w.
Lemma sent_modify f : (∀ w, w_out (f w) = w_out w) -> keeps was_sent (modify f).
Proof. intros Hf w Hw. unfold was_sent in *. cbn. by rewrite Hf. Qed.
Lemma sent_emit o' : keeps was_sent (emit o').
Proof. intros w Hw. unfold was_sent in *. cbn. by right. Qed.
#[local] Hint Resolve sent_emit : i4b.
#[local] Hint Extern 1 (keeps was_sent (mod_cd _ _)) => apply sent_modify; intros; reflexivity : i4b.
#[local] Hint Extern 1 (keeps was_sent (mod_sc _)) => apply sent_modify; intros; reflexivity : i4b.
#[local] Hint Extern 1 (keeps was_sent (mod_cntl _)) => apply sent_modify; intros; reflexivity : i4b.
#[local] Hint Extern 1 (keeps was_sent (mod_pipe _ _)) => apply sent_modify; intros; reflexivity : i4b.
Lemma sent_free_tail j :
  keeps was_sent (cd_set_appl_interface j 0 0;; cd_set_pipe (λ _, mret tt) j None;;
                  cd_free_channel j;; i4b_free_cd j).
Proof.
  unfold cd_set_appl_interface, cd_set_pipe, cd_free_channel, i4b_free_cd, dss1_L1_deactivate_req,
    dss1_L1_activity_timeout. crush.
Qed.
End sent.

Lemma n_free_cd_indicates j w :
  live j w -> ∃ cd, L4_IND L4_DISCONNECT cd ∈ w_out (n_free_cd j w).2 ∧ cdid cd = id_at j w.
Proof.
  intros Hl. unfold n_free_cd, i4b_l4_disconnect_ind. rewrite !run_bind.
  set (w1 := (i4b_link_bchandrvr j false w).2).
  assert (id_at j w1 = id_at j w) as Hid by (apply id_view; [apply frames_view_link|done]).
  clearbody w1. exists (N_call_desc (w_cntl w1) !!! j). split; [|exact Hid].
  pose proof (sent_free_tail (L4_IND L4_DISCONNECT (N_call_desc (w_cntl w1) !!! j)) j) as Hs.
  specialize (Hs (l4_ind L4_DISCONNECT j w1).2). rewrite !run_bind in Hs. apply Hs.
  unfold was_sent, l4_ind. rewrite run_bind. cbn. by left.
Qed.

Lemma release_indicates j w :
  live j w -> ∃ cd, L4_IND L4_DISCONNECT cd ∈ w_out (cd_set_state j ST_L3_U0 w).2 ∧
                    cdid cd = id_at j w.
Proof.
  intros Hl. pose proof Hl as (cd & i & Hj & Hid & Hp). rewrite (cd_set_state_run j _ w cd i Hj Hp).
  rewrite bool_decide_eq_true_2 by done. set (w1 := (mod_cd j _ w).2).
  assert (live j w1) as Hl1 by (by apply live_mod_cd).
  assert (id_at j w1 = id_at j w) as Hid1 by (by apply id_mod_cd). clearbody w1.
  unfold cd_set_state_null. rewrite run_bind. set (w2 := (mod_cd j _ w1).2).
  assert (live j w2) as Hl2 by (by apply live_mod_cd).
  assert (id_at j w2 = id_at j w1) as Hid2 by (by apply id_mod_cd). clearbody w2.
  rewrite run_bind. cbn [get_cd gets fst snd].
  set (cd2 := N_call_desc (w_cntl w2) !!! j). clearbody cd2.
  rewrite run_bind. rewrite run_bind. cbn [get_sc gets fst snd].
  set (sc := w_sc _). rewrite run_bind. rewrite run_bind.
  pose proof (live_release j i cd2 sc (NT_MODE sc && negb (IS_POINT_TO_POINT sc) &&
    negb (dir_incoming cd2) && (i =? 0)%nat)) as Hr.
  pose proof (Hr w2 Hl2) as Hv. pose proof (live_frame j _ w2 Hr Hl2) as Hl3. rewrite !run_bind in Hv, Hl3.
  destruct (n_free_cd_indicates j _ Hl3) as (cd' & Hin & He).
  exists cd'. split; [exact Hin|]. rewrite He, (id_view j w2) by done. congruence.
Qed.

(** The other calls and the number of calls stay: the list is updated at [j]. *)
Lemma release_calls j w :
  in_use j w -> ∃ cd', N_call_desc (w_cntl (cd_set_state j ST_L3_U0 w).2) =
                         alter (λ _, cd') j (N_call_desc (w_cntl w)).
Proof.
  intros (cd & Hj & _). pose proof (ncalls_set_state j ST_L3_U0 w) as Hn. unfold ncalls in Hn.
  set (w' := (cd_set_state j ST_L3_U0 w).2) in *.
  destruct (lookup_lt_is_Some_2 (N_call_desc (w_cntl w')) j) as [cd' Hj'].
  { rewrite Hn. by eapply lookup_lt_Some. }
  exists cd'. apply list_eq. intros j'. destruct (decide (j' = j)) as [->|Hne].
  - by rewrite list_lookup_alter_eq, Hj, Hj'.
  - rewrite list_lookup_alter_ne by done. by apply (other_set_state j j' (not_eq_sym Hne) ST_L3_U0 w).
Qed.

(** A call descriptor that has been given back. *)
Record given_back (cd : call_desc) : Prop := {
  gb_id : cdid cd = CDID_UNUSED;
  gb_pipe : cd_pipe cd = None;
  gb_channel : channel_allocated cd = false;
  gb_timer : cd_set_state_callout cd = None;
}.
(** Releasing a call gives its descriptor back. *)
Lemma release_gives_back j w :
  inv w -> in_use j w ->
  let w' := (cd_set_state j ST_L3_U0 w).2 in
  inv w' ∧ ∃ cd', N_call_desc (w_cntl w') = alter (λ _, cd') j (N_call_desc (w_cntl w)) ∧
    N_call_desc (w_cntl w') !! j = Some cd' ∧ given_back cd'.
Proof.
  intros HI Hu w'. pose proof (in_use_live j w HI Hu) as Hl.
  assert (inv w') as HI'.
  { subst w'. rewrite <-(release_is_set_state act j None). by apply inv_cd_update. }
  split; [done|]. destruct (release_calls j w Hu) as [cd' Hc]. exists cd'. split; [done|].
  pose proof Hl as (cd & i & Hj & Hid & Hp).
  assert (N_call_desc (w_cntl w') !! j = Some cd') as Hj' by (subst w'; by rewrite Hc, list_lookup_alter_eq, Hj).
  split; [done|].
  assert (cdid cd' = CDID_UNUSED) as Hid' by (by apply (set_state_null_unused j w)).
  assert (v_cds (view_of w') !! j = Some (core_of cd')) as Hk by (apply cds_lookup; eauto).
  pose proof (vi_call _ _ _ _ _ HI' j _ Hk ltac:(done)) as Hok. unfold call_ok in Hok. cbn in Hok.
  rewrite Hid', Z.eqb_refl in Hok. by destruct Hok as (? & ? & ?).
Qed.

(** C20: the release of a call (RELEASE or RELEASE COMPLETE of the peer, or a
    request of the application) in any state: only this call descriptor
    changes; it is given back with no pipe, channel or timer; its pipe has
    one reference less and layer 1 one activation less; and layer 4 is told
    that this call is disconnected. *)
Theorem release_frees j pipe w :
  inv w -> in_use j w ->
  let w' := (cd_update act j pipe EV_L3_RELEASE w).2 in
  ∃ cd' i p p', N_call_desc (w_cntl w') = alter (λ _, cd') j (N_call_desc (w_cntl w)) ∧
    given_back cd' ∧
    cd_pipe (N_call_desc (w_cntl w) !!! j) = Some i ∧
    sc_pipe (w_sc w) !! i = Some p ∧ sc_pipe (w_sc w') !! i = Some p' ∧
    refcount p' = refcount p - 1 ∧
    L1_auto_activate (w_sc w') = L1_auto_activate (w_sc w) - 1 ∧
    ∃ cd, L4_IND L4_DISCONNECT cd ∈ w_out w' ∧ cdid cd = cdid (N_call_desc (w_cntl w) !!! j).
Proof.
  intros HI Hu w'. pose proof (in_use_live j w HI Hu) as Hl.
  assert (w' = (cd_set_state j ST_L3_U0 w).2) as Hw by apply release_is_set_state.
  destruct (release_gives_back j w HI Hu) as (HI' & cd' & Hc & Hj' & Hgb). rewrite <-Hw in HI', Hc, Hj'.
  destruct (release_indicates j w Hl) as (o & Ho & Hoid). rewrite <-Hw in Ho.
  pose proof Hl as (cd & i & Hj & Hid & Hp). rewrite (list_lookup_total_correct _ _ _ Hj).
  unfold id_at in Hoid. rewrite (list_lookup_total_correct _ _ _ Hj) in Hoid.
  pose proof (gb_pipe _ Hgb) as Hp'.
  assert (v_cds (view_of w) !! j = Some (core_of cd)) as Hk0 by (apply cds_lookup; eauto).
  pose proof (vi_bound _ _ _ _ _ HI j _ i Hk0 Hp) as Hi.
  destruct (lookup_lt_is_Some_2 (sc_pipe (w_sc w)) i) as [p Hpi]; [by rewrite (inv_pipes w HI)|].
  destruct (lookup_lt_is_Some_2 (sc_pipe (w_sc w')) i) as [p' Hpi']; [by rewrite (inv_pipes w' HI')|].
  exists cd', i, p, p'. split; [done|]. split; [done|]. repeat (split; [done|]).
  assert (Hcount : ∀ (P : option nat -> Prop) `{∀ x, Decision (P x)}, P (Some i) -> ~ P None ->
            calls_with P w' = calls_with P w - 1).
  { intros P HP H1 H2. unfold calls_with. rewrite Hc.
    rewrite (count_alter (λ cd, P (cd_pipe cd)) (λ _, cd') j _ cd Hj), Hp, Hp'.
    rewrite bool_decide_eq_true_2, bool_decide_eq_false_2 by done. cbn. lia. }
  split; [|split].
  - rewrite (inv_refcount w' i p' HI' Hpi'), (inv_refcount w i p HI Hpi).
    apply (Hcount (λ x, x = Some i)); done.
  - rewrite (inv_l1 w' HI'), (inv_l1 w HI).
    apply (Hcount (λ x, x ≠ None)); [done|]. intros Hn. by apply Hn.
  - by exists o.
Qed.
Lemma release_frees_witness :
  let w' := (cd_update act 0 None EV_L3_RELEASE sample_run).2 in
  ∃ cd' i p p', N_call_desc (w_cntl w') = alter (λ _, cd') 0%nat (N_call_desc (w_cntl sample_run)) ∧
    given_back cd' ∧
    cd_pipe (N_call_desc (w_cntl sample_run) !!! 0%nat) = Some i ∧
    sc_pipe (w_sc sample_run) !! i = Some p ∧ sc_pipe (w_sc w') !! i = Some p' ∧
    refcount p' = refcount p - 1 ∧
    L1_auto_activate (w_sc w') = L1_auto_activate (w_sc sample_run) - 1 ∧
    ∃ cd, L4_IND L4_DISCONNECT cd ∈ w_out w' ∧
          cdid cd = cdid (N_call_desc (w_cntl sample_run) !!! 0%nat).
Proof. apply (release_frees 0 None sample_run); [exact sample_inv|exact sample_in_use]. Defined.

(** ** An application goes away *)

Definition belongs (t p : Z) (cd : call_desc) : bool :=
  negb (cdid cd =? CDID_UNUSED) && (ai_type cd =? t) && (ai_ptr cd =? p).
(** What becomes of a descriptor. *)
Definition closed (t p : Z) (cd cd' : call_desc) : Prop :=
  if belongs t p cd then given_back cd' else cd' = cd.
Definition close_round (t p : Z) (j : nat) : M unit :=
  cd ← get_cd j;
  when (belongs t p cd)
    (let cause := CAUSE_TV CAUSET_I4B CAUSE_I4B_NORMAL in
     mod_cd j (λ cd, cd <| cause_in := cause |> <| cause_out := cause |>);;
     n_disconnect_request act j cause).

Lemma close_round_spec t p j w :
  inv w -> let w' := (close_round t p j w).2 in
  inv w' ∧ (∀ j', j ≠ j' -> N_call_desc (w_cntl w') !! j' = N_call_desc (w_cntl w) !! j') ∧
  option_Forall2 (closed t p) (N_call_desc (w_cntl w) !! j) (N_call_desc (w_cntl w') !! j).
Proof.
  intros HI w'. subst w'. unfold close_round. rewrite run_bind, run_when. cbn [get_cd gets fst snd].
  destruct (belongs t p _) eqn:E.
  - assert (in_use j w) as Hu.
    { apply andb_true_iff in E as [[E _]%andb_true_iff _]. by apply negb_true_iff, Z.eqb_neq, in_use_total in E. }
    cbv zeta. unfold n_disconnect_request. rewrite !run_bind, release_is_set_state.
    set (w1 := (mod_cd j _ (mod_cd j _ w).2).2).
    assert (inv w1 ∧ in_use j w1) as [HI1 Hu1].
    { pose proof (in_use_live j w HI Hu) as Hl. destruct (winv_same_call None None (λ _, 0) 0 j _ w HI Hl
        (close_same_call (CAUSE_TV CAUSET_I4B CAUSE_I4B_NORMAL))) as [HI1 Hl1].
      destruct (winv_same_call None None (λ _, 0) 0 j (λ cd, cd <| cause_out := CAUSE_TV CAUSET_I4B CAUSE_I4B_NORMAL |>)
        _ HI1 Hl1) as [HI2 Hl2]; [intros cd; by apply same_call_core|]. split; [done|by apply live_in_use]. }
    destruct (release_gives_back j w1 HI1 Hu1) as (HI2 & cd' & Hc & Hj & Hg). split; [done|]. split.
    + intros j' Hne. rewrite Hc, list_lookup_alter_ne by done. subst w1. cbn.
      by rewrite !list_lookup_alter_ne by done.
    + destruct Hu as (cd & Hcd & _). rewrite (list_lookup_total_correct _ _ _ Hcd) in E.
      rewrite Hcd, Hj. constructor. unfold closed. by rewrite E.
  - cbn [snd]. split; [done|]. split; [done|]. destruct (N_call_desc (w_cntl w) !! j) as [cd|] eqn:Hj; [|constructor].
    rewrite (list_lookup_total_correct _ _ _ Hj) in E. constructor. unfold closed. by rewrite E.
Qed.

Lemma close_loop_spec t p l : ∀ w, inv w -> NoDup l ->
  let w' := (for_each l (close_round t p) w).2 in
  inv w' ∧ ∀ j, if decide (j ∈ l)
    then option_Forall2 (closed t p) (N_call_desc (w_cntl w) !! j) (N_call_desc (w_cntl w') !! j)
    else N_call_desc (w_cntl w') !! j = N_call_desc (w_cntl w) !! j.
Proof.
  induction l as [|j l IH]; intros w HI Hnd.
  - split; [done|]. intros j. rewrite decide_False by apply not_elem_of_nil. done.
  - apply NoDup_cons in Hnd as [Hni Hnd]. cbn [for_each]. rewrite run_bind.
    destruct (close_round_spec t p j w HI) as (HI1 & Ho & Hj). destruct (IH _ HI1 Hnd) as [HI2 Hl].
    split; [done|]. intros j'. specialize (Hl j'). destruct (decide (j = j')) as [<-|Hne].
    + rewrite decide_False in Hl by done. rewrite decide_True by (by left). by rewrite Hl.
    + rewrite (Ho j' Hne) in Hl. destruct (decide (j' ∈ l)).
      * rewrite decide_True by (by right). done.
      * rewrite decide_False; [done|]. rewrite elem_of_cons. by intros [-> | ?].
Qed.

(** When an application goes away, exactly its calls end: every call in
    use that belongs to it is released and its descriptor given back, with
    no pipe, channel or timer; every other descriptor is left as it was;
    and the invariant of the stack still holds. *)
Lemma disconnect_by_appl_interface_exact t p w :
  inv w ->
  let w' := (i4b_disconnect_by_appl_interface act t p w).2 in
  inv w' ∧ Forall2 (closed t p) (N_call_desc (w_cntl w)) (N_call_desc (w_cntl w')).
Proof.
  intros HI w'. subst w'. unfold i4b_disconnect_by_appl_interface. rewrite run_bind, run_when.
  cbn [get_sc gets fst snd]. assert (sc_fifo_translator (w_sc w) = true) as -> by apply (vi_conn _ _ _ _ _ HI).
  rewrite run_bind. cbn [gets fst snd].
  destruct (close_loop_spec t p (cd_indices w) w HI (NoDup_seq _ _)) as [HI' Hl].
  split; [exact HI'|]. apply Forall2_lookup. intros j. specialize (Hl j). case_decide as Hj; [exact Hl|].
  assert (N_call_desc (w_cntl w) !! j = None) as Hn.
  { apply lookup_ge_None. unfold cd_indices in Hj. rewrite elem_of_seq in Hj. lia. }
  rewrite Hn in *. unfold close_round, belongs in Hl. cbv zeta in Hl. rewrite Hl. constructor.
Qed.
