(* ===== verification/L2Pause.v ===== *)
(** * Pausing a pipe

    The end of a link: [dss1_pipe_set_state] with [ST_L2_PAUSE] releases the
    calls of the pipe through layer 3 and makes the pipe idle. *)
From S2P Require Import Prelude Mbuf Dss1Types Dss1State Buffer L3Encoder CallDesc L3Fsm.
From S2P Require Import L3Decoder StackInv L3Safe L3Reset L3Link L2Pipe L2Fsm L2Safe L2Window.
From S2P Require Import L2Poll Stack Reach L2Spec L3Spec.
Local Open Scope Z_scope.

(** ** What layer 4 has been told *)

(** Outputs are added, none is taken back. *)
Section grows.
Context (P : list output -> Prop).
Hypothesis more : ∀ o l, P l -> P (o :: l).
Definition grown (w : world) : Prop := P (w_out w).
Lemma grows_modify f : (∀ w, w_out (f w) = w_out w) -> keeps grown (modify f).
Proof using. intros Hf w Hw. unfold grown in *. cbn. by rewrite Hf. Qed.
Lemma grows_emit o : keeps grown (emit o).
Proof using more. intros w Hw. unfold grown in *. cbn. by apply more. Qed.
#[local] Hint Resolve grows_emit : i4b.
#[local] Hint Extern 1 (keeps grown (mod_cd _ _)) => apply grows_modify; intros; reflexivity : i4b.
#[local] Hint Extern 1 (keeps grown (mod_sc _)) => apply grows_modify; intros; reflexivity : i4b.
#[local] Hint Extern 1 (keeps grown (mod_cntl _)) => apply grows_modify; intros; reflexivity : i4b.
#[local] Hint Extern 1 (keeps grown (mod_pipe _ _)) => apply grows_modify; intros; reflexivity : i4b.
Lemma grows_get_mbuf n : keeps grown (get_mbuf n).
Proof using more. unfold get_mbuf. crush; by apply grows_modify. Qed.
#[local] Hint Resolve grows_get_mbuf : i4b.
Lemma grows_tx_frame i n msg m : keeps grown (tx_frame i n msg m).
Proof using more. unfold tx_frame, dss1_pipe_data_req. crush. Qed.
Lemma grows_q850 c : keeps grown (q850_cause c).
Proof using more. unfold q850_cause. crush. Qed.
#[local] Hint Resolve grows_tx_frame grows_q850 : i4b.
Lemma grows_tx_setup j : keeps grown (dss1_l3_tx_setup j).
Proof using more. unfold dss1_l3_tx_setup. crush. Qed.
Lemma grows_tx_message j mt fl : keeps grown (dss1_l3_tx_message j mt fl).
Proof using more. unfold dss1_l3_tx_message. crush. Qed.
#[local] Hint Resolve grows_tx_setup grows_tx_message : i4b.
Lemma grows_tx_complement j a b mt fl : keeps grown (dss1_l3_tx_message_complement j a b mt fl).
Proof using more. unfold dss1_l3_tx_message_complement. crush. Qed.
Lemma grows_link j b : keeps grown (i4b_link_bchandrvr j b).
Proof using more. unfold i4b_link_bchandrvr, bchandrvr_disconnect, link_setup_driver. crush. Qed.
Lemma grows_l4_ind ind j : keeps grown (l4_ind ind j).
Proof using more. unfold l4_ind. crush. Qed.
#[local] Hint Resolve grows_tx_complement grows_link grows_l4_ind : i4b.
Lemma grows_free_tail j :
  keeps grown (cd_set_appl_interface j 0 0;; cd_set_pipe (λ _, mret tt) j None;; cd_free_channel j;; i4b_free_cd j).
Proof using more.
  unfold cd_set_appl_interface, cd_set_pipe, cd_free_channel, i4b_free_cd, dss1_L1_deactivate_req,
    dss1_L1_activity_timeout. crush.
Qed.
Lemma grows_n_free_cd j : keeps grown (n_free_cd j).
Proof using more.
  unfold n_free_cd, i4b_l4_disconnect_ind. apply keeps_bind; [crush|intros _]. apply grows_free_tail.
Qed.
#[local] Hint Resolve grows_n_free_cd : i4b.
Lemma grows_set_state j s : keeps grown (cd_set_state j s).
Proof using more.
  unfold cd_set_state, cd_set_state_null, cd_set_state_other, dss1_pipe_data_acknowledge,
    dss1_l3_tx_release_complete_complement, dss1_l3_tx_release_complete,
    dss1_l3_tx_status_enquiry, dss1_l3_tx_information.
  crush.
Qed.
Lemma grows_release j i cd sc (b : bool) :
  keeps grown (dss1_pipe_data_acknowledge i cd;;
    when (need_release cd)
      (when (cause_out cd =? 0) (mod_cd j (λ cd, cd <| cause_out := CAUSE_Q850_RECOTIMEXP |>));;
       if b then dss1_l3_tx_release_complete_complement j (Some i) None
       else dss1_l3_tx_release_complete j true);;
    when (L1_activity sc =? 0)
      (mod_cd j (λ cd, cd <| cause_in := CAUSE_TV CAUSET_I4B CAUSE_I4B_L1ERROR |>))).
Proof using more.
  unfold dss1_pipe_data_acknowledge, dss1_l3_tx_release_complete_complement, dss1_l3_tx_release_complete. crush.
Qed.
End grows.

(** Since [out] layer 4 has been told that the call [id] is disconnected. *)
Definition extends (out : list output) : world -> Prop := grown (λ l, ∃ new, l = new ++ out).
Definition told (out : list output) (id : Z) : world -> Prop :=
  grown (λ l, ∃ new cd, l = new ++ out ∧ L4_IND L4_DISCONNECT cd ∈ new ∧ cdid cd = id).
Lemma extends_more out o (l : list output) : (∃ new, l = new ++ out) -> ∃ new, o :: l = new ++ out.
Proof. intros [new ->]. by exists (o :: new). Qed.
Lemma told_more out id o (l : list output) :
  (∃ new cd, l = new ++ out ∧ L4_IND L4_DISCONNECT cd ∈ new ∧ cdid cd = id) ->
  ∃ new cd, o :: l = new ++ out ∧ L4_IND L4_DISCONNECT cd ∈ new ∧ cdid cd = id.
Proof. intros (new & cd & -> & Hin & He). exists (o :: new), cd. split; [done|]. split; [by right|done]. Qed.

Lemma n_free_cd_tells out j w : live j w -> extends out w -> told out (id_at j w) (n_free_cd j w).2.
Proof.
  intros Hl Hx. unfold n_free_cd, i4b_l4_disconnect_ind. rewrite !run_bind.
  pose proof (grows_link _ (extends_more out) j false w Hx) as Hx1. set (w1 := (i4b_link_bchandrvr j false w).2) in *.
  assert (id_at j w1 = id_at j w) as Hid by (apply id_view; [apply frames_view_link|done]). clearbody w1.
  pose proof (grows_free_tail _ (told_more out (id_at j w)) j) as Hs. specialize (Hs (l4_ind L4_DISCONNECT j w1).2).
  rewrite !run_bind in Hs. apply Hs. destruct Hx1 as [new Hn]. unfold grown, l4_ind. rewrite run_bind. cbn. rewrite Hn.
  eexists (_ :: new), _. split; [done|]. split; [by left|exact Hid].
Qed.
Lemma release_tells out j w :
  live j w -> extends out w -> told out (id_at j w) (cd_set_state j ST_L3_U0 w).2.
Proof.
  intros Hl Hx. pose proof Hl as (cd & i & Hj & Hid & Hp). rewrite (cd_set_state_run j _ w cd i Hj Hp).
  rewrite bool_decide_eq_true_2 by done. set (w1 := (mod_cd j _ w).2).
  assert (live j w1) as Hl1 by (by apply live_mod_cd).
  assert (id_at j w1 = id_at j w) as <- by (by apply id_mod_cd). assert (extends out w1) as Hx1 by exact Hx. clearbody w1.
  unfold cd_set_state_null. rewrite run_bind. set (w2 := (mod_cd j _ w1).2).
  assert (live j w2) as Hl2 by (by apply live_mod_cd).
  assert (id_at j w2 = id_at j w1) as <- by (by apply id_mod_cd). assert (extends out w2) as Hx2 by exact Hx1. clearbody w2.
  rewrite run_bind. cbn [get_cd gets fst snd].
  set (cd2 := N_call_desc (w_cntl w2) !!! j). clearbody cd2.
  rewrite run_bind. rewrite run_bind. cbn [get_sc gets fst snd].
  set (sc := w_sc _). rewrite run_bind. rewrite run_bind.
  set (b := NT_MODE sc && negb (IS_POINT_TO_POINT sc) && negb (dir_incoming cd2) && (i =? 0)%nat).
  pose proof (live_release j i cd2 sc b) as Hr. pose proof (grows_release _ (extends_more out) j i cd2 sc b w2 Hx2) as Hx3.
  pose proof (Hr w2 Hl2) as Hv. pose proof (live_frame j _ w2 Hr Hl2) as Hl3. rewrite !run_bind in Hv, Hl3, Hx3.
  pose proof (n_free_cd_tells out j _ Hl3 Hx3) as Ht. by rewrite (id_view j w2) in Ht.
Qed.

(** ** The reset of a pipe *)

(** The call [j], which had the identifier [id], is given back and layer 4
    has been told. *)
Definition freed (out : list output) (id : Z) (j : nat) (w : world) : Prop :=
  (∃ cd, N_call_desc (w_cntl w) !! j = Some cd ∧ cdid cd = CDID_UNUSED) ∧ told out id w.

Section freeing.
Context (activate : nat -> M unit) (i : nat) (out : list output).
Definition reset_step (j : nat) : M unit :=
  cd ← get_cd j;
  when (negb (cdid cd =? CDID_UNUSED) && bool_decide (cd_pipe cd = Some i)) (cd_update activate j None EV_L3_RELEASE).
Lemma reset_step_run j w :
  (bound_to i w j ∧ live j w ∧ (reset_step j w).2 = (cd_set_state j ST_L3_U0 w).2) ∨
  (~ bound_to i w j ∧ (reset_step j w).2 = w).
Proof.
  unfold reset_step. rewrite run_bind. cbn [get_cd gets fst snd]. rewrite run_when. destruct (negb _ && _) eqn:E.
  - left. apply andb_true_iff in E as [E1%negb_true_iff%Z.eqb_neq E2%bool_decide_eq_true].
    pose proof (live_of_read j w i E1 E2) as Hl. split; [|split; [done|apply release_is_set_state]].
    pose proof Hl as (cd & i' & Hj & Hid & Hp). exists cd. split; [done|]. split; [done|].
    by rewrite (list_lookup_total_correct _ _ _ Hj) in E2.
  - right. split; [|done]. intros (cd & Hj & Hid & Hp). rewrite (list_lookup_total_correct _ _ _ Hj), Hp in E.
    rewrite bool_decide_eq_true_2, andb_true_r in E by done. by apply negb_false_iff, Z.eqb_eq in E.
Qed.
Lemma reset_step_extends j w : extends out w -> extends out (reset_step j w).2.
Proof.
  intros Hx. destruct (reset_step_run j w) as [(_ & _ & ->)|[_ ->]]; [|done].
  by apply (grows_set_state _ (extends_more out)).
Qed.
Lemma reset_step_freed j' id j w : freed out id j w -> freed out id j (reset_step j' w).2.
Proof.
  intros [(cd & Hj & Hid) Ht]. destruct (reset_step_run j' w) as [(Hb & _ & ->)|[_ ->]]; [|by split; [exists cd|]].
  split; [|by apply (grows_set_state _ (told_more out id))]. exists cd. split; [|done].
  destruct (decide (j' = j)) as [->|Hne].
  - destruct Hb as (cd' & Hj' & Hid' & _). congruence.
  - pose proof (other_set_state j' j Hne ST_L3_U0 w) as Ho. unfold other_call in Ho. by rewrite Ho.
Qed.
Lemma reset_step_frees j w : bound_to i w j -> extends out w -> freed out (id_at j w) j (reset_step j w).2.
Proof.
  intros Hb Hx. destruct (reset_step_run j w) as [(_ & Hl & ->)|[Hn _]]; [|done].
  split; [|by apply release_tells]. destruct (lookup_lt_is_Some_2 (N_call_desc (w_cntl (cd_set_state j ST_L3_U0 w).2)) j)
    as [cd Hcd]; [|exists cd; split; [done|by apply (set_state_null_unused j w)]].
  pose proof (ncalls_set_state j ST_L3_U0 w) as Hn. unfold ncalls in Hn. rewrite Hn.
  destruct Hb as (cd & Hj & _). by eapply lookup_lt_Some.
Qed.
Lemma reset_step_other j' j w : j' ≠ j -> N_call_desc (w_cntl (reset_step j' w).2) !! j = N_call_desc (w_cntl w) !! j.
Proof.
  intros Hne. destruct (reset_step_run j' w) as [(_ & _ & ->)|[_ ->]]; [|done]. apply (other_set_state j' j Hne ST_L3_U0 w).
Qed.
Lemma reset_frees j w :
  bound_to i w j -> extends out w -> freed out (id_at j w) j (dss1_pipe_reset_ind activate i w).2.
Proof.
  intros Hb. unfold dss1_pipe_reset_ind. rewrite run_bind. cbn [gets fst snd].
  change (λ j, cd ← get_cd j; when _ _) with reset_step.
  assert (j ∈ cd_indices w) as Hin.
  { destruct Hb as (cd & Hj & _). apply elem_of_seq. apply lookup_lt_Some in Hj. lia. }
  revert Hin Hb. generalize (cd_indices w). intros l. revert w. induction l as [|j' l IH]; intros w Hin Hb Hx.
  { by apply not_elem_of_nil in Hin. }
  cbn [for_each]. rewrite run_bind. pose proof (reset_step_extends j' w Hx) as Hx'.
  destruct (decide (j' = j)) as [->|Hne].
  - pose proof (reset_step_frees j w Hb Hx) as Hf. revert Hf. generalize (reset_step j w).2 (id_at j w). clear.
    intros w id. revert w. induction l as [|j' l IH]; intros w Hf; [done|]. cbn [for_each]. rewrite run_bind.
    by apply IH, reset_step_freed.
  - apply elem_of_cons in Hin as [->|Hin]; [done|]. pose proof (reset_step_other j' j w Hne) as Ho.
    assert (id_at j w = id_at j (reset_step j' w).2) as -> by (unfold id_at; by rewrite !list_lookup_total_alt, Ho).
    apply IH; [done| |done]. unfold bound_to in *. by rewrite Ho.
Qed.
End freeing.

(** An unused descriptor is clean. *)
Lemma unused_given_back j w cd :
  inv w -> N_call_desc (w_cntl w) !! j = Some cd -> cdid cd = CDID_UNUSED -> given_back cd.
Proof.
  intros HI Hj Hid. assert (v_cds (view_of w) !! j = Some (core_of cd)) as Hk by (apply cds_lookup; eauto).
  pose proof (vi_call _ _ _ _ _ HI j _ Hk ltac:(done)) as Hok. unfold call_ok in Hok. cbn in Hok.
  rewrite Hid, Z.eqb_refl in Hok. by destruct Hok as (? & ? & ?).
Qed.

(** C18: pausing a pipe, from any state of the stack that satisfies the
    invariant.  Every call bound to the pipe is released: its descriptor is
    given back, with no pipe, channel or timer, and layer 4 is told, by an
    indication that was not there before, that the call with its identifier
    is disconnected.  No call is bound to the pipe any more, every other
    call is left exactly as it was, and the pipe is idle: no reference, no
    timer, an empty queue, a closed window and all sequence numbers zero. *)
Theorem pause_correct i w :
  inv w -> (i < PIPE_MAX)%nat ->
  let w' := (dss1_pipe_set_state i ST_L2_PAUSE w).2 in
  (∀ j cd, N_call_desc (w_cntl w) !! j = Some cd -> cdid cd ≠ CDID_UNUSED -> cd_pipe cd = Some i ->
     (∃ cd', N_call_desc (w_cntl w') !! j = Some cd' ∧ given_back cd') ∧
     ∃ new o, w_out w' = new ++ w_out w ∧ L4_IND L4_DISCONNECT o ∈ new ∧ cdid o = cdid cd) ∧
  (∀ j, ~ bound_to i w' j) ∧
  (∀ j, ~ bound_to i w j -> N_call_desc (w_cntl w') !! j = N_call_desc (w_cntl w) !! j) ∧
  idle_pipe (pipe_at i w').
Proof.
  intros HI Hi w'. set (p' := pipe_at i w').
  assert (Hlen : (i < length (sc_pipe (w_sc w)))%nat) by (by rewrite (inv_pipes w HI)).
  pose proof (inv_pipe_set_state i ST_L2_PAUSE Hi w HI) as HI'. fold w' in HI'.
  assert (Hrun := pause_run i w Hlen). fold w' in Hrun. revert Hrun.
  set (w1 := (mod_pipe i _ w).2). unfold set_state_pause. rewrite run_bind.
  assert (HI1 : winv None (Some i) (λ _, 0) 0 w1).
  { eapply (winv_mod_pipe None None (Some i)); [exact HI|done|done|done]. }
  destruct (reset_ind_spec (λ _, mret tt) (Some i) (λ _, 0) 0 i w1 HI1) as [HI2 Hb2].
  assert (Hoth : ∀ j, ~ bound_to i w j ->
    N_call_desc (w_cntl (dss1_pipe_reset_ind (λ _, mret tt) i w1).2) !! j = N_call_desc (w_cntl w) !! j).
  { intros j Hj. by rewrite reset_others. }
  assert (Hfr : ∀ j, bound_to i w j ->
    freed (w_out w) (id_at j w) j (dss1_pipe_reset_ind (λ _, mret tt) i w1).2).
  { intros j Hj. apply (reset_frees (λ _, mret tt) i (w_out w) j w1); [done|]. by exists []. }
  pose proof (links_reset_ind (λ _, mret tt) i w1) as Hlk.
  assert (Hl1 : links w1 !! i = Some (link_of (pipe_at i w1))).
  { unfold links. rewrite list_lookup_fmap. unfold pipe_at.
    assert ((i < length (sc_pipe (w_sc w1)))%nat) as [q Hq]%lookup_lt_is_Some_2
      by (subst w1; cbn; by rewrite length_alter).
    by rewrite (list_lookup_total_correct _ _ _ Hq), Hq. }
  assert (Hst : pipe_state (pipe_at i w1) = ST_L2_PAUSE ∧ pipe_set_state_callout (pipe_at i w1) = None).
  { subst w1. by rewrite pipe_at_mod. }
  rewrite <-Hlk in Hl1. revert HI2 Hb2 Hoth Hfr Hl1. clear Hlk.
  generalize (dss1_pipe_reset_ind (λ _, mret tt) i w1).2. intros w2 HI2 Hb2 Hoth Hfr Hl1 Hrun.
  assert (Hi2 : (i < length (sc_pipe (w_sc w2)))%nat) by (by eapply winv_pipes).
  assert (N_call_desc (w_cntl w') = N_call_desc (w_cntl w2)) as Hc by (by rewrite Hrun).
  assert (Hnb : ∀ j, ~ bound_to i w' j) by (intros j; unfold bound_to; rewrite Hc; apply Hb2).
  split.
  { intros j cd Hj Hid Hp. destruct (Hfr j) as [(cd' & Hj' & Hid') Ht]; [by exists cd|].
    unfold id_at in Ht. rewrite (list_lookup_total_correct _ _ _ Hj) in Ht. rewrite <-Hc in Hj'.
    split; [exists cd'; split; [done|by apply (unused_given_back j w')]|].
    assert (w_out w' = w_out w2) as -> by (by rewrite Hrun). exact Ht. }
  split; [done|]. split; [intros j Hj; rewrite Hc; by apply Hoth|].
  assert (Hp' : p' = (pipe_at i w2) <| pipe_ifq ::= IF_DRAIN |> <| tx_window_size := 0 |>
     <| tx_window_length := 0 |> <| rx_nr := 0 |> <| tx_nr := 0 |> <| get_mbuf_callout := None |>).
  { subst p'. rewrite Hrun. by apply (pipe_at_mod i). }
  unfold links in Hl1. rewrite list_lookup_fmap in Hl1. apply fmap_Some in Hl1 as (q & Hq & Hlq).
  assert (pipe_at i w2 = q) as Hpq by (unfold pipe_at; by apply list_lookup_total_correct).
  rewrite Hpq in Hp'. injection Hlq as E1 _ _ _ _ _ _ _ E2. destruct Hst as [Es Et].
  assert (refcount p' = 0) as Hr.
  { apply unbound_refcount; [done| |done]. by rewrite (inv_pipes w' HI'). }
  rewrite Hp' in Hr |- *. split; cbn in *; repeat split; congruence.
Qed.
Lemma pause_correct_witness :
  let w' := (dss1_pipe_set_state 0 ST_L2_PAUSE sample_run).2 in
  let cd := N_call_desc (w_cntl sample_run) !!! 0%nat in
  (∃ cd', N_call_desc (w_cntl w') !! 0%nat = Some cd' ∧ given_back cd') ∧
  (∃ new o, w_out w' = new ++ w_out sample_run ∧ L4_IND L4_DISCONNECT o ∈ new ∧ cdid o = cdid cd) ∧
  idle_pipe (pipe_at 0 w').
Proof.
  destruct (pause_correct 0 sample_run) as (Hf & _ & _ & Hp); [exact sample_inv|unfold PIPE_MAX; lia|].
  destruct (Hf 0%nat (N_call_desc (w_cntl sample_run) !!! 0%nat)) as [H1 H2];
    [vm_compute; reflexivity|vm_compute; discriminate|vm_compute; reflexivity|].
  split; [exact H1|]. split; [exact H2|exact Hp].
Defined.
