(* ===== verification/Hdlc.v ===== *)
(** * Software HDLC (layer1/i4b_hdlc.h, i4b_hdlc.c, ihfc3/i4b_filter.h)

    The tables, the macros [HDLC_DECODE] and [HDLC_ENCODE], the latter for
    B- and for D-channels, and the filters around them that move frames
    between the buffers of layer 2 and the byte stream of a line.  The
    labels of the macros are definitions of the same name.  A frame buffer
    that is filled or emptied through a pointer and a length is the list of
    the bytes behind the pointer; the frames a filter takes from or gives
    to layer 2 are lists in its state. *)
From S2P Require Import Prelude Mbuf Dss1Types.
Local Open Scope Z_scope.

(** ** Tables *)
Definition HDLC_FCS_TAB : list Z :=
  [
   0x0000; 0x1189; 0x2312; 0x329b; 0x4624; 0x57ad; 0x6536; 0x74bf;
   0x8c48; 0x9dc1; 0xaf5a; 0xbed3; 0xca6c; 0xdbe5; 0xe97e; 0xf8f7;
   0x1081; 0x0108; 0x3393; 0x221a; 0x56a5; 0x472c; 0x75b7; 0x643e;
   0x9cc9; 0x8d40; 0xbfdb; 0xae52; 0xdaed; 0xcb64; 0xf9ff; 0xe876;
   0x2102; 0x308b; 0x0210; 0x1399; 0x6726; 0x76af; 0x4434; 0x55bd;
   0xad4a; 0xbcc3; 0x8e58; 0x9fd1; 0xeb6e; 0xfae7; 0xc87c; 0xd9f5;
   0x3183; 0x200a; 0x1291; 0x0318; 0x77a7; 0x662e; 0x54b5; 0x453c;
   0xbdcb; 0xac42; 0x9ed9; 0x8f50; 0xfbef; 0xea66; 0xd8fd; 0xc974;
   0x4204; 0x538d; 0x6116; 0x709f; 0x0420; 0x15a9; 0x2732; 0x36bb;
   0xce4c; 0xdfc5; 0xed5e; 0xfcd7; 0x8868; 0x99e1; 0xab7a; 0xbaf3;
   0x5285; 0x430c; 0x7197; 0x601e; 0x14a1; 0x0528; 0x37b3; 0x263a;
   0xdecd; 0xcf44; 0xfddf; 0xec56; 0x98e9; 0x8960; 0xbbfb; 0xaa72;
   0x6306; 0x728f; 0x4014; 0x519d; 0x2522; 0x34ab; 0x0630; 0x17b9;
   0xef4e; 0xfec7; 0xcc5c; 0xddd5; 0xa96a; 0xb8e3; 0x8a78; 0x9bf1;
   0x7387; 0x620e; 0x5095; 0x411c; 0x35a3; 0x242a; 0x16b1; 0x0738;
   0xffcf; 0xee46; 0xdcdd; 0xcd54; 0xb9eb; 0xa862; 0x9af9; 0x8b70;
   0x8408; 0x9581; 0xa71a; 0xb693; 0xc22c; 0xd3a5; 0xe13e; 0xf0b7;
   0x0840; 0x19c9; 0x2b52; 0x3adb; 0x4e64; 0x5fed; 0x6d76; 0x7cff;
   0x9489; 0x8500; 0xb79b; 0xa612; 0xd2ad; 0xc324; 0xf1bf; 0xe036;
   0x18c1; 0x0948; 0x3bd3; 0x2a5a; 0x5ee5; 0x4f6c; 0x7df7; 0x6c7e;
   0xa50a; 0xb483; 0x8618; 0x9791; 0xe32e; 0xf2a7; 0xc03c; 0xd1b5;
   0x2942; 0x38cb; 0x0a50; 0x1bd9; 0x6f66; 0x7eef; 0x4c74; 0x5dfd;
   0xb58b; 0xa402; 0x9699; 0x8710; 0xf3af; 0xe226; 0xd0bd; 0xc134;
   0x39c3; 0x284a; 0x1ad1; 0x0b58; 0x7fe7; 0x6e6e; 0x5cf5; 0x4d7c;
   0xc60c; 0xd785; 0xe51e; 0xf497; 0x8028; 0x91a1; 0xa33a; 0xb2b3;
   0x4a44; 0x5bcd; 0x6956; 0x78df; 0x0c60; 0x1de9; 0x2f72; 0x3efb;
   0xd68d; 0xc704; 0xf59f; 0xe416; 0x90a9; 0x8120; 0xb3bb; 0xa232;
   0x5ac5; 0x4b4c; 0x79d7; 0x685e; 0x1ce1; 0x0d68; 0x3ff3; 0x2e7a;
   0xe70e; 0xf687; 0xc41c; 0xd595; 0xa12a; 0xb0a3; 0x8238; 0x93b1;
   0x6b46; 0x7acf; 0x4854; 0x59dd; 0x2d62; 0x3ceb; 0x0e70; 0x1ff9;
   0xf78f; 0xe606; 0xd49d; 0xc514; 0xb1ab; 0xa022; 0x92b9; 0x8330;
   0x7bc7; 0x6a4e; 0x58d5; 0x495c; 0x3de3; 0x2c6a; 0x1ef1; 0x0f78].
Definition HDLC_BIT_TAB : list Z :=
  [
   0x0100; 0x0201; 0x0100; 0x0302; 0x0100; 0x0201; 0x0100; 0x0403;
   0x0100; 0x0201; 0x0100; 0x0302; 0x0100; 0x0201; 0x0100; 0x0504;
   0x0100; 0x0201; 0x0100; 0x0302; 0x0100; 0x0201; 0x0100; 0x0403;
   0x0100; 0x0201; 0x0100; 0x0302; 0x0100; 0x0201; 0x0100; 0x0605;
   0x0100; 0x0201; 0x0100; 0x0302; 0x0100; 0x0201; 0x0100; 0x0403;
   0x0100; 0x0201; 0x0100; 0x0302; 0x0100; 0x0201; 0x0100; 0x0504;
   0x0100; 0x0201; 0x0100; 0x0302; 0x0100; 0x0201; 0x0100; 0x0403;
   0x0100; 0x0201; 0x0100; 0x0302; 0x0100; 0x0201; 0x0160; 0x0706;
   0x0100; 0x0201; 0x0100; 0x0302; 0x0100; 0x0201; 0x0100; 0x0403;
   0x0100; 0x0201; 0x0100; 0x0302; 0x0100; 0x0201; 0x0100; 0x0504;
   0x0100; 0x0201; 0x0100; 0x0302; 0x0100; 0x0201; 0x0100; 0x0403;
   0x0100; 0x0201; 0x0100; 0x0302; 0x0100; 0x0201; 0x0100; 0x0605;
   0x0100; 0x0201; 0x0100; 0x0302; 0x0100; 0x0201; 0x0100; 0x0403;
   0x0100; 0x0201; 0x0100; 0x0302; 0x0100; 0x0201; 0x0100; 0x0504;
   0x0100; 0x0201; 0x0100; 0x0302; 0x0100; 0x0201; 0x0100; 0x0403;
   0x0100; 0x0201; 0x0100; 0x0302; 0x01a0; 0x02a1; 0x0860; 0x0807;
   0x1100; 0x1201; 0x1100; 0x1302; 0x1100; 0x1201; 0x1100; 0x1403;
   0x1100; 0x1201; 0x1100; 0x1302; 0x1100; 0x1201; 0x1100; 0x1504;
   0x1100; 0x1201; 0x1100; 0x1302; 0x1100; 0x1201; 0x1100; 0x1403;
   0x1100; 0x1201; 0x1100; 0x1302; 0x1100; 0x1201; 0x1100; 0x1605;
   0x1100; 0x1201; 0x1100; 0x1302; 0x1100; 0x1201; 0x1100; 0x1403;
   0x1100; 0x1201; 0x1100; 0x1302; 0x1100; 0x1201; 0x1100; 0x1504;
   0x1100; 0x1201; 0x1100; 0x1302; 0x1100; 0x1201; 0x1100; 0x1403;
   0x1100; 0x1201; 0x1100; 0x1302; 0x1100; 0x1201; 0x1160; 0x1706;
   0x2100; 0x2201; 0x2100; 0x2302; 0x2100; 0x2201; 0x2100; 0x2403;
   0x2100; 0x2201; 0x2100; 0x2302; 0x2100; 0x2201; 0x2100; 0x2504;
   0x2100; 0x2201; 0x2100; 0x2302; 0x2100; 0x2201; 0x2100; 0x2403;
   0x2100; 0x2201; 0x2100; 0x2302; 0x2100; 0x2201; 0x2100; 0x2605;
   0x3100; 0x3201; 0x3100; 0x3302; 0x3100; 0x3201; 0x3100; 0x3403;
   0x3100; 0x3201; 0x3100; 0x3302; 0x3100; 0x3201; 0x3100; 0x3504;
   0x4100; 0x4201; 0x4100; 0x4302; 0x4100; 0x4201; 0x4100; 0x4403;
   0x5100; 0x5201; 0x5100; 0x5302; 0x6180; 0x6281; 0x7150; 0x8908].
Definition FCS_TAB (x : Z) : Z := default 0 (HDLC_FCS_TAB !! Z.to_nat (u8 x)).
Definition BIT_TAB (x : Z) : Z := default 0 (HDLC_BIT_TAB !! Z.to_nat (u8 x)).

(** [crc = (HDLC_FCS_TAB[LO8(crc ^ byte)] ^ (LO8(crc >> 8)))] *)
Definition crc_step (crc byte : Z) : Z := Z.lxor (FCS_TAB (Z.lxor crc byte)) (u8 (Z.shiftr crc 8)).

(** ** The decoder *)
Record hdlc_rx := HdlcRx {
  rx_flag : Z;                           (* uint8_t *)
  rx_blevel : Z;                         (* uint8_t *)
  rx_crc : Z;                            (* uint16_t *)
  rx_ib : Z;                             (* uint16_t *)
  rx_tmp : Z;                            (* uint16_t *)
  rx_len : Z;                            (* uint16_t: room left behind dst *)
  rx_mbuf : option (list Z);             (* f->mbuf: the bytes written in front of dst *)
  rx_alloc : list bool;                  (* outcomes of the next L5_ALLOC_MBUF; then success *)
  rx_frames : list (list Z);             (* frames given to layer 2, in order *)
}.

(** [*dst++ = byte] *)
Definition put_dst (byte : Z) (s : hdlc_rx) : hdlc_rx := s <| rx_mbuf ::= fmap (λ l, l ++ [byte]) |>.

(** The commands the receive filter gives to the macro. *)
Definition nfr (s : hdlc_rx) : hdlc_rx :=
  let s' := s <| rx_alloc ::= tail |> in
  if default true (head (rx_alloc s))
  then s' <| rx_mbuf := Some [] |> <| rx_len := Z.of_nat BCH_MAX_DATALEN |>
  else s' <| rx_mbuf := None |> <| rx_flag := 0xff |>.
Definition cfr (s : hdlc_rx) : hdlc_rx :=
  let len := u16 (Z.of_nat BCH_MAX_DATALEN - rx_len s) in
  (if (len =? 0) || (Z.of_nat BCH_MAX_DATALEN <? len) || nonzero (rx_crc s) then s
   else s <| rx_frames ::= λ l, l ++ [take (Z.to_nat len) (default [] (rx_mbuf s))] |>)
    <| rx_mbuf := None |>.
Definition rab (s : hdlc_rx) : hdlc_rx := s <| rx_mbuf := None |>.
Definition rdo (s : hdlc_rx) : hdlc_rx := s <| rx_mbuf := None |>.

(** [j00]: the end of a frame. *)
Definition j00_frame (s : hdlc_rx) : hdlc_rx :=
  (cfr (s <| rx_crc ::= Z.lxor 0xf0b8 |>
          <| rx_len := u16 (rx_len s + Z.land (4 - rx_flag s) 3) |>))
    <| rx_len := 0 |>.
(** Behind a flag sequence: the bits after it start a new byte. *)
Definition after_flag (tmp2 ib : Z) (s : hdlc_rx) : hdlc_rx :=
  let blevel := Z.land (Z.shiftr ib 8) 0xf in
  s <| rx_flag := 1 |> <| rx_tmp := Z.shiftr (u8 tmp2) blevel |> <| rx_blevel := u8 (8 - blevel) |>
    <| rx_ib := Z.shiftr ib 12 |>.
Definition j0 (tmp2 ib : Z) (s : hdlc_rx) : hdlc_rx :=
  after_flag tmp2 ib (if 2 <=? rx_flag s then j00_frame s else s).

(** Seven or more ones: abort, unless they follow the end of a flag. *)
Definition abort_seq (tmp2 ib : Z) (s : hdlc_rx) : hdlc_rx :=
  if (2 <=? rx_flag s) && (u8 ib =? 0x16) then after_flag tmp2 ib (j00_frame s)
  else
    (if 2 <=? rx_flag s then (rab s) <| rx_len := 0 |> else s)
      <| rx_flag := 0 |> <| rx_ib := Z.shiftr ib 12 |>.

(** The labels [j3], [j4], [j5]. *)
Definition j5 (ib : Z) (s : hdlc_rx) : hdlc_rx :=
  s <| rx_ib := Z.shiftr ib 12 |> <| rx_tmp ::= λ t, Z.shiftr t 8 |>.
Definition j4 (ib : Z) (s : hdlc_rx) : hdlc_rx :=
  j5 ib (s <| rx_crc := crc_step (rx_crc s) (rx_tmp s) |>).
Definition j3 (ib : Z) (s : hdlc_rx) : hdlc_rx := j4 ib (put_dst (u8 (rx_tmp s)) s).

(** [case 2]: the first byte of a frame. *)
Definition new_frame (ib : Z) (s : hdlc_rx) : hdlc_rx :=
  let s := (nfr s) <| rx_crc := 0xffff |> in
  if rx_len s =? 0 then j4 ib (s <| rx_flag ::= λ f, u8 (f + 1) |>)
  else j3 ib (s <| rx_len ::= λ n, n - 1 |>).

(** A complete byte in [tmp]. *)
Definition store_byte (ib : Z) (s : hdlc_rx) : hdlc_rx :=
  if rx_len s =? 0 then
    if rx_flag s =? 0 then j5 ib s
    else
      let s := s <| rx_flag ::= λ f, u8 (f + 1) |> in
      match rx_flag s with
      | 2 => new_frame ib s
      | 3 | 4 => j4 ib s
      | 5 => j5 ib ((rdo s) <| rx_flag := 0 |>)
      | _ => j5 ib s
      end
  else j3 ib (s <| rx_len ::= λ n, n - 1 |>).
Definition store_bits (tmp2 ib : Z) (s : hdlc_rx) : hdlc_rx :=
  store_byte ib (s <| rx_tmp ::= λ t, u16 (Z.lor t (Z.shiftl (u8 tmp2) (rx_blevel s))) |>).

(** Fewer than eight bits so far. *)
Definition eo_bits (tmp2 ib : Z) (s : hdlc_rx) : hdlc_rx :=
  let blevel := Z.land (rx_blevel s) 7 in
  s <| rx_blevel := blevel |>
    <| rx_tmp ::= λ t, Z.lor t (Z.shiftr (u8 tmp2) (if bit_set blevel 1 then 1 else 2)) |>
    <| rx_ib := Z.shiftr ib 12 |>.

(** The removal of a stuffed zero in front of the last bits of the byte,
    and behind its first ones. *)
Definition destuff_msb (tmp2 ib : Z) : Z * Z :=
  let tmp2 := u16 (tmp2 + Z.land tmp2 0x7f) in
  let ib := u16 (ib + 0x100) in
  (if bit_set ib 0xc then Z.lor tmp2 1 else tmp2, ib).
Definition destuff_lsb (tmp2 : Z) : Z := Z.land (u16 (Z.lor tmp2 (tmp2 + 1))) (Z.lnot 1).

(** The part of the macro behind the removal of a zero at the end. *)
Definition decode_special (tmp2 ib : Z) (s : hdlc_rx) : hdlc_rx :=
  let ib := Z.land ib (Z.lnot 0xe0) in
  if u8 ib =? 6 then j0 tmp2 ib s
  else if 7 <=? u8 ib then abort_seq tmp2 ib s
  else
    let '(tmp2, s) := if u8 ib =? 5
                      then (destuff_lsb tmp2, s <| rx_blevel ::= λ n, u8 (n - 1) |>)
                      else (tmp2, s) in
    if 7 <? rx_blevel s then eo_bits tmp2 ib s else store_bits tmp2 ib s.

Definition HDLC_DECODE (s : hdlc_rx) (byte : Z) : hdlc_rx :=
  let tmp2 := byte in
  let ib := u16 (rx_ib s + BIT_TAB tmp2) in
  if 5 <=? u8 ib then
    if bit_set ib 0x20 then
      if u8 tmp2 =? 0x7e then j0 tmp2 ib s
      else
        let '(tmp2, ib) := destuff_msb tmp2 ib in
        decode_special tmp2 ib (s <| rx_blevel ::= λ n, u8 (n - 1) |>)
    else decode_special tmp2 ib s
  else store_bits tmp2 ib s.

(** [rx_hdlc_emulation]: a block of received bytes. *)
Definition rx_hdlc_emulation (s : hdlc_rx) (src : list Z) : hdlc_rx := fold_left HDLC_DECODE src s.

(** ** The encoder *)
Record hdlc_tx := HdlcTx {
  tx_flag : Z;                           (* uint8_t *)
  tx_blevel : Z;                         (* uint16_t *)
  tx_ib : Z;                             (* uint16_t *)
  tx_crc : Z;                            (* uint16_t *)
  tx_tmp : Z;                            (* uint32_t *)
  tx_src : list Z;                       (* the len bytes behind src *)
  tx_queue : list (list Z);              (* the frames ihfc_i4b_getmbuf will return *)
  tx_last : bool;                        (* dst_end = dst + 1: out of data *)
}.

(** [gfr]: free the last frame and get the next one. *)
Definition gfr (s : hdlc_tx) : hdlc_tx :=
  match tx_queue s with
  | m :: q => s <| tx_src := m |> <| tx_queue := q |>
  | [] => s <| tx_last := true |>
  end.

(** Where the selection of the next output goes to. *)
Inductive tx_label := to_j1 | to_j2 (tmp2 : Z) | to_j3 (tmp2 : Z) | to_j4.

(** Stuff the zero that is due in front of a flag sequence. *)
Definition stuff_special (s : hdlc_tx) : hdlc_tx :=
  let ib := Z.shiftr (tx_ib s) 12 in
  s <| tx_ib := ib |> <| tx_blevel ::= λ n, if ib =? 5 then u16 (n + 0x100) else n |>.

(** [switch(++flag)], default encoding. *)
Definition next_b (s : hdlc_tx) : tx_label * hdlc_tx :=
  let s := s <| tx_flag ::= λ f, u8 (f + 1) |> in
  match tx_flag s with
  | 1 | 2 => (to_j3 0x7e, stuff_special s)
  | 3 =>
      let s := gfr s in
      match tx_src s with
      | [] => (to_j3 0x7e, s <| tx_flag ::= λ f, u8 (f - 1) |>)
      | _ => (to_j1, s <| tx_crc := 0xffff |> <| tx_ib := 0 |>)
      end
  | 4 => let crc := Z.lxor (tx_crc s) 0xffff in (to_j2 (u8 crc), s <| tx_crc := crc |>)
  | 5 => (to_j2 (u8 (Z.shiftr (tx_crc s) 8)), s <| tx_flag := 1 |>)
  | _ => (to_j3 0xff, s <| tx_tmp := 0 |> <| tx_blevel := 0 |> <| tx_ib := 0 |>)
  end.
(** [switch(++flag)], D-channel encoding. *)
Definition next_d (s : hdlc_tx) : tx_label * hdlc_tx :=
  let s := s <| tx_flag ::= λ f, u8 (f + 1) |> in
  match tx_flag s with
  | 3 =>
      let s := gfr s in
      match tx_src s with
      | [] => (to_j3 0xff, s <| tx_flag ::= λ f, u8 (f - 1) |>)
      | _ => (to_j4, s <| tx_crc := 0xffff |> <| tx_ib := 0 |> <| tx_tmp := 0x7eff |>
                       <| tx_blevel := 0x800 |>)
      end
  | 4 => let crc := Z.lxor (tx_crc s) 0xffff in (to_j2 (u8 crc), s <| tx_crc := crc |>)
  | 5 => (to_j2 (u8 (Z.shiftr (tx_crc s) 8)), s)
  | 6 => (to_j3 0x7e, (stuff_special s) <| tx_flag := 0 |>)
  | _ => (to_j3 0xff, s)
  end.

(** The stuffing of a byte: what is put into [tmp], the number of zeros in
    it, and the new [ib]. *)
Definition stuff_lsb (tmp2 ib n : Z) : Z * Z * Z :=
  if 5 <=? u8 ib then
    let t := Z.land (u8 (ib - Z.shiftr ib 8 + 1)) 7 in
    let tmp2 := u32 (tmp2 + Z.land tmp2 (u32 (Z.lnot (Z.shiftr 0x1f t)))) in
    let n := n + 1 in
    let '(tmp2, n) :=
      if 10 <=? u8 ib
      then (u32 (tmp2 + Z.land tmp2 (u32 (Z.lnot (Z.shiftr 0x7ff t)))), n + 1) else (tmp2, n) in
    let ib := if bit_set ib 0x8000
              then u16 (Z.shiftl (u8 (ib - (if 10 <=? u8 ib then 10 else 5))) 12) else ib in
    (tmp2, n, ib)
  else (tmp2, n, ib).
Definition stuff_msb (tmp2 ib : Z) : Z * Z * Z :=
  if bit_set ib 0xc0 then
    (u32 (tmp2 + Z.land tmp2 (if bit_set ib 0x80 then 0xff * 0x80 else 0xff * 0x40)), 1,
     if 0x5000 <=? ib then ib - 0x5000 else ib)
  else (tmp2, 0, ib).

(** The labels [j4], [j3], [j2] and [j1]. *)
Definition tx_j4 (s : hdlc_tx) : Z * hdlc_tx :=
  (u8 (tx_tmp s), s <| tx_tmp ::= λ t, Z.shiftr t 8 |>).
Definition add_bits (tmp2 : Z) (s : hdlc_tx) : hdlc_tx :=
  s <| tx_tmp ::= λ t, u32 (Z.lor t (Z.shiftl tmp2 (u8 (Z.shiftr (tx_blevel s) 8)))) |>.
Definition tx_j3 (tmp2 : Z) (s : hdlc_tx) : Z * hdlc_tx := tx_j4 (add_bits tmp2 s).
Definition tx_j2 (tmp2 : Z) (s : hdlc_tx) : Z * hdlc_tx :=
  let ib := u16 (Z.shiftr (tx_ib s) 12 + BIT_TAB tmp2) in
  if 5 <=? u8 ib then
    let '(tmp2, n, ib) := stuff_msb tmp2 ib in
    let '(tmp2, n, ib) := stuff_lsb tmp2 (Z.land ib (Z.lnot 0xf0)) n in
    let s := s <| tx_ib := ib |> <| tx_blevel ::= λ v, Z.land v (Z.lnot 0xff) + n |> in
    tx_j4 ((add_bits tmp2 s) <| tx_blevel ::= λ v, u16 (v + Z.shiftl (u8 v) 8) |>)
  else tx_j3 tmp2 (s <| tx_ib := ib |>).
Definition tx_j1 (s : hdlc_tx) : Z * hdlc_tx :=
  match tx_src s with
  | [] => tx_j4 s
  | b :: src => tx_j2 (u8 b) (s <| tx_src := src |> <| tx_crc := crc_step (tx_crc s) (u8 b) |>)
  end.

(** The macro: the byte that is written. *)
Definition HDLC_ENCODE (dchan : bool) (s : hdlc_tx) : Z * hdlc_tx :=
  if 0x800 <=? tx_blevel s then tx_j4 (s <| tx_blevel ::= λ v, v - 0x800 |>)
  else match tx_src s with
       | _ :: _ => tx_j1 s
       | [] =>
           match (if dchan then next_d s else next_b s) with
           | (to_j1, s) => tx_j1 s
           | (to_j2 tmp2, s) => tx_j2 tmp2 s
           | (to_j3 tmp2, s) => tx_j3 tmp2 s
           | (to_j4, s) => tx_j4 s
           end
       end.

(** [while(dst != dst_end)] of [tx_hdlc_emulation] and of
    [tx_hdlc_emulation_dchan], for a buffer of [room] bytes. *)
Fixpoint tx_fill (dchan : bool) (room : nat) (s : hdlc_tx) : list Z * hdlc_tx :=
  match room with
  | O => ([], s)
  | S room =>
      let '(b, s) := HDLC_ENCODE dchan s in
      if tx_last s then ([b], s)
      else let '(l, s) := tx_fill dchan room s in (b :: l, s)
  end.
Definition tx_hdlc_emulation (room : nat) (s : hdlc_tx) : list Z * hdlc_tx :=
  tx_fill false room (s <| tx_last := false |>).
Definition tx_hdlc_emulation_dchan (room : nat) (s : hdlc_tx) : list Z * hdlc_tx :=
  tx_fill true room (s <| tx_last := false |>).

(** The states after the setup of a FIFO: zero for all variables.  [alloc]
    is what the allocations of receive buffers to come answer; those behind
    its end succeed. *)
Definition rx_reset (alloc : list bool) : hdlc_rx := HdlcRx 0 0 0 0 0 0 None alloc [].
Definition tx_reset (frames : list (list Z)) : hdlc_tx := HdlcTx 0 0 0 0 0 [] frames false.
