(* ===== verification/HdlcSpec.v ===== *)
(** * HDLC: the bit-level reference and the tables

    What is on the line, bit by bit: the frame check sequence as a shift
    register, zero stuffing, the flag sequence, and a receiver that looks
    at one bit at a time.  The lookup tables and the byte-wise stuffing and
    unstuffing of [HDLC_ENCODE] and [HDLC_DECODE] are compared with it for
    every byte and every number of ones in front of it. *)
From S2P Require Import Prelude Mbuf Dss1Types Hdlc.
Local Open Scope Z_scope.

(** ** Bits of a byte, the first one sent first *)
Fixpoint bits (n : nat) (x : Z) : list bool :=
  match n with
  | O => []
  | S n => Z.odd x :: bits n (Z.div2 x)
  end.
Fixpoint val (l : list bool) : Z :=
  match l with
  | [] => 0
  | b :: l => (if b then 1 else 0) + 2 * val l
  end.
Definition line (bytes : list Z) : list bool := concat (map (bits 8) bytes).

Lemma bits_length n x : length (bits n x) = n.
Proof. revert x. induction n as [|n IH]; intros x; simpl; [done|]. by rewrite IH. Qed.
Lemma line_app l1 l2 : line (l1 ++ l2) = line l1 ++ line l2.
Proof. unfold line. by rewrite map_app, concat_app. Qed.
Lemma line_length l : length (line l) = (8 * length l)%nat.
Proof.
  induction l as [|b l IH]; [done|]. unfold line in *. cbn [map concat].
  rewrite length_app, bits_length, IH. cbn [length]. lia.
Qed.
Lemma val_range l : 0 <= val l < 2 ^ Z.of_nat (length l).
Proof.
  induction l as [|b l IH]; [simpl; lia|]. cbn [val length].
  rewrite Nat2Z.inj_succ, Z.pow_succ_r by lia. destruct b; lia.
Qed.
Lemma val_bits n x : val (bits n x) = x mod 2 ^ Z.of_nat n.
Proof.
  revert x. induction n as [|n IH]; intros x; [by rewrite Z.mod_1_r|].
  cbn [bits val]. rewrite IH, Nat2Z.inj_succ, Z.pow_succ_r by lia.
  rewrite Z.rem_mul_r, <-Z.div2_div by lia. rewrite Zmod_odd. by destruct (Z.odd x).
Qed.
Lemma bits_val l : bits (length l) (val l) = l.
Proof.
  induction l as [|b l IH]; [done|]. cbn [length bits val].
  assert (Z.odd ((if b then 1 else 0) + 2 * val l) = b) as ->.
  { rewrite Z.add_comm, Z.mul_comm, Z.odd_add, Z.odd_mul. cbn. rewrite andb_false_r. by destruct b. }
  assert (Z.div2 ((if b then 1 else 0) + 2 * val l) = val l) as ->.
  { rewrite Z.div2_div. destruct b; Z.to_euclidean_division_equations; lia. }
  by rewrite IH.
Qed.
Lemma val_app l l' : val (l ++ l') = val l + 2 ^ Z.of_nat (length l) * val l'.
Proof.
  induction l as [|b l IH]; cbn [app val length]; [by rewrite Z.mul_1_l|].
  rewrite IH, Nat2Z.inj_succ, Z.pow_succ_r by lia. lia.
Qed.

(** ** The frame check sequence (RFC 1662) *)

(** One bit through the shift register of x^16 + x^12 + x^5 + 1, reflected. *)
Definition fcs_bit (crc : Z) : Z :=
  if Z.odd crc then Z.lxor (Z.shiftr crc 1) 0x8408 else Z.shiftr crc 1.
Definition fcs_byte (crc byte : Z) : Z := Nat.iter 8 fcs_bit (Z.lxor crc byte).

(** The sender's check sequence and the frame with it. *)
Definition fcs (frame : list Z) : Z := fold_left fcs_byte frame 0xffff.
Definition with_fcs (frame : list Z) : list Z :=
  let c := Z.lxor (fcs frame) 0xffff in frame ++ [u8 c; u8 (Z.shiftr c 8)].
(** The same with the table. *)
Definition fcs_tab (frame : list Z) : Z := fold_left crc_step frame 0xffff.

Lemma FCS_TAB_correct b : is_u8 b -> FCS_TAB b = Nat.iter 8 fcs_bit b.
Proof.
  intros Hb. apply Z.eqb_eq. revert b Hb. apply byte_forall. vm_compute. reflexivity.
Qed.
Lemma FCS_TAB_u16 x : is_u16 (FCS_TAB x).
Proof.
  assert (H : ∀ b, is_u8 b -> ((0 <=? FCS_TAB b) && (FCS_TAB b <? 65536) = true)%Z)
    by (apply byte_forall; vm_compute; reflexivity).
  pose proof (H (u8 x) (u8_range x)) as Hx. unfold FCS_TAB in *. rewrite u8_id in Hx by auto with i4b.
  unfold is_u16. lia.
Qed.
Lemma lxor_u16 a b : is_u16 a -> is_u16 b -> is_u16 (Z.lxor a b).
Proof.
  unfold is_u16. intros Ha Hb. rewrite <-(Z.mod_small a 65536), <-(Z.mod_small b 65536) by done.
  change 65536 with (2 ^ 16). rewrite <-!Z.land_ones by done.
  replace (Z.lxor _ _) with (Z.land (Z.lxor a b) (Z.ones 16)).
  - rewrite Z.land_ones by done. by apply Z.mod_pos_bound.
  - apply Z.bits_inj'. intros k _. rewrite !Z.land_spec, !Z.lxor_spec, !Z.land_spec.
    by destruct (Z.testbit a k), (Z.testbit b k), (Z.testbit (Z.ones 16) k).
Qed.
Lemma hi8 x : is_u16 x -> is_u8 (Z.shiftr x 8).
Proof. unfold is_u16, is_u8. rewrite Z.shiftr_div_pow2 by done. Z.to_euclidean_division_equations. lia. Qed.
Lemma crc_step_u16 crc b : is_u16 crc -> is_u16 (crc_step crc b).
Proof.
  intros Hc. apply lxor_u16; [apply FCS_TAB_u16|]. pose proof (u8_range (Z.shiftr crc 8)).
  unfold is_u8, is_u16 in *. lia.
Qed.
Lemma fcs_tab_u16 l : is_u16 (fcs_tab l).
Proof.
  unfold fcs_tab. assert (H : is_u16 0xffff) by (unfold is_u16; lia). revert H. generalize 0xffff.
  induction l as [|b l IH]; intros c Hc; [done|]. cbn. apply IH. by apply crc_step_u16.
Qed.

Lemma u8_lxor_u8 a b : u8 (Z.lxor a (u8 b)) = u8 (Z.lxor a b).
Proof.
  unfold u8. change 256 with (2 ^ 8). apply Z.bits_inj'. intros k Hk. destruct (Z.ltb_spec k 8).
  - rewrite !Z.mod_pow2_bits_low, !Z.lxor_spec, Z.mod_pow2_bits_low by lia. done.
  - by rewrite !Z.mod_pow2_bits_high by lia.
Qed.
Lemma crc_step_u8 crc x : crc_step crc (u8 x) = crc_step crc x.
Proof. unfold crc_step, FCS_TAB. by rewrite u8_lxor_u8. Qed.

(** The register is linear. *)
Lemma fcs_bit_lxor a b : fcs_bit (Z.lxor a b) = Z.lxor (fcs_bit a) (fcs_bit b).
Proof.
  unfold fcs_bit. rewrite <-!Z.bit0_odd, Z.lxor_spec, !Z.shiftr_lxor.
  destruct (Z.testbit a 0), (Z.testbit b 0); cbn [xorb]; apply Z.bits_inj'; intros k _;
    rewrite !Z.lxor_spec; by destruct (Z.testbit (Z.shiftr a 1) k), (Z.testbit (Z.shiftr b 1) k),
      (Z.testbit 0x8408 k).
Qed.
Lemma fcs_iter_lxor n a b : Nat.iter n fcs_bit (Z.lxor a b) = Z.lxor (Nat.iter n fcs_bit a) (Nat.iter n fcs_bit b).
Proof. induction n as [|n IH]; [done|]. by rewrite !Nat.iter_succ, IH, fcs_bit_lxor. Qed.
Lemma fcs_iter_shift n h : Nat.iter n fcs_bit (Z.shiftl h (Z.of_nat n)) = h.
Proof.
  revert h. induction n as [|n IH]; intros h; [apply Z.shiftl_0_r|].
  rewrite Nat2Z.inj_succ, <-Z.add_1_l, <-Z.shiftl_shiftl, Nat.iter_succ, IH by lia. unfold fcs_bit.
  rewrite Z.shiftl_mul_pow2, Z.odd_mul, andb_false_r by done. by rewrite <-Z.shiftl_mul_pow2, Z.shiftr_shiftl_l.
Qed.
Lemma split_u16 x : x = Z.lxor (u8 x) (Z.shiftl (Z.shiftr x 8) 8).
Proof.
  unfold u8. change 256 with (2 ^ 8). apply Z.bits_inj'. intros k Hk. rewrite Z.lxor_spec.
  destruct (Z.ltb_spec k 8).
  - rewrite Z.mod_pow2_bits_low, Z.shiftl_spec_low by lia. by rewrite xorb_false_r.
  - rewrite Z.mod_pow2_bits_high, Z.shiftl_spec, Z.shiftr_spec by lia. cbn. f_equal. lia.
Qed.
Lemma crc_step_fcs crc b : is_u16 crc -> is_u8 b -> crc_step crc b = fcs_byte crc b.
Proof.
  intros Hc Hb. unfold fcs_byte, crc_step. rewrite (split_u16 (Z.lxor crc b)) at 2.
  rewrite fcs_iter_lxor, (fcs_iter_shift 8), <-FCS_TAB_correct by apply u8_range.
  unfold FCS_TAB. rewrite (u8_id (u8 _)) by apply u8_range. f_equal. rewrite Z.shiftr_lxor.
  rewrite u8_id by (by apply hi8). assert (Z.shiftr b 8 = 0) as ->; [|by rewrite Z.lxor_0_r].
  unfold is_u8 in Hb. rewrite Z.shiftr_div_pow2 by done. by apply Z.div_small.
Qed.
Lemma fcs_tab_fcs l : Forall is_u8 l -> fcs_tab l = fcs l.
Proof.
  intros Hl. induction l as [|b l IH] using rev_ind; [done|]. apply Forall_app in Hl as [Hl Hb].
  apply (Forall_singleton is_u8) in Hb. unfold fcs_tab, fcs in *. rewrite !fold_left_app. cbn [fold_left].
  rewrite <-IH by done. apply crc_step_fcs; [apply (fcs_tab_u16 l)|done].
Qed.
(** The check sequence leaves its own residue. *)
Lemma fcs_residue frame : Forall is_u8 frame -> fcs_tab (with_fcs frame) = 0xf0b8.
Proof.
  intros Hf. unfold with_fcs. rewrite <-fcs_tab_fcs by done. pose proof (fcs_tab_u16 frame) as Hc.
  unfold fcs_tab at 1. rewrite fold_left_app. fold (fcs_tab frame). set (c := fcs_tab frame) in *.
  cbn [fold_left]. set (h := Z.shiftr c 8). assert (Hh : is_u8 h) by (by apply hi8).
  assert (Hlo : crc_step c (u8 (Z.lxor c 0xffff)) = Z.lxor 0x0f78 h).
  { unfold crc_step, FCS_TAB. fold h. rewrite u8_lxor_u8, <-Z.lxor_assoc, Z.lxor_nilpotent, (u8_id h) by done. done. }
  rewrite Hlo, Z.shiftr_lxor. fold h. change (Z.shiftr 0xffff 8) with 0xff. unfold crc_step, FCS_TAB.
  rewrite u8_lxor_u8, Z.lxor_assoc, <-(Z.lxor_assoc h h), Z.lxor_nilpotent, Z.shiftr_lxor.
  assert (Z.shiftr h 8 = 0) as ->; [|vm_compute; reflexivity].
  unfold is_u8 in Hh. rewrite Z.shiftr_div_pow2 by done. by apply Z.div_small.
Qed.

(** The check sequence that is computed a byte at a time with the table
    is the one of the 16-bit shift register, and a frame that is sent with
    it, least significant byte first, leaves the value the decoder compares
    with at its end. *)
Lemma frame_check_correct frame :
  Forall is_u8 frame ->
  fold_left crc_step frame 0xffff = fcs frame ∧ fold_left crc_step (with_fcs frame) 0xffff = 0xf0b8.
Proof. intros H. split; [exact (fcs_tab_fcs frame H)|exact (fcs_residue frame H)]. Qed.

(** ** Bursts *)
Lemma fcs_bit_inj a b : is_u16 a -> is_u16 b -> fcs_bit a = fcs_bit b -> a = b.
Proof.
  intros Ha Hb H. assert (Hodd : ∀ x, is_u16 x -> Z.testbit (fcs_bit x) 15 = Z.odd x).
  { intros x Hx. assert (Z.testbit (Z.shiftr x 1) 15 = false).
    { rewrite Z.shiftr_spec by done. apply Z.bits_above_log2; [unfold is_u16 in Hx; lia|].
      destruct (Z.eq_dec x 0) as [->|Hn]; [cbn; lia|]. apply Z.log2_lt_pow2; unfold is_u16 in Hx; lia. }
    unfold fcs_bit. destruct (Z.odd x); [rewrite Z.lxor_spec|]; by rewrite H0. }
  assert (Ho : Z.odd a = Z.odd b) by (rewrite <-!Hodd by done; by rewrite H).
  rewrite (Z.div2_odd a), (Z.div2_odd b), Ho. do 2 f_equal.
  unfold fcs_bit in H. rewrite Ho in H. rewrite !Z.div2_spec. destruct (Z.odd b); [|done].
  apply (f_equal (λ x, Z.lxor x 0x8408)) in H. by rewrite !Z.lxor_assoc, Z.lxor_nilpotent, !Z.lxor_0_r in H.
Qed.

Lemma fcs_bit_u16 a : is_u16 a -> is_u16 (fcs_bit a).
Proof.
  intros Ha. assert (is_u16 (Z.shiftr a 1)).
  { unfold is_u16 in *. rewrite Z.shiftr_div_pow2 by done. Z.to_euclidean_division_equations. lia. }
  unfold fcs_bit. destruct (Z.odd a); [|done]. apply lxor_u16; [done|unfold is_u16; lia].
Qed.
Lemma fcs_iter_u16 n a : is_u16 a -> is_u16 (Nat.iter n fcs_bit a).
Proof. intros Ha. induction n as [|n IH]; [done|]. rewrite Nat.iter_succ. by apply fcs_bit_u16. Qed.
Lemma fcs_iter_inj n a b : is_u16 a -> is_u16 b -> Nat.iter n fcs_bit a = Nat.iter n fcs_bit b -> a = b.
Proof.
  intros Ha Hb. induction n as [|n IH]; [done|]. rewrite !Nat.iter_succ. intros H.
  apply IH, fcs_bit_inj; [by apply fcs_iter_u16|by apply fcs_iter_u16|done].
Qed.
Lemma lxor_cancel_l a b c : Z.lxor a b = Z.lxor a c -> b = c.
Proof.
  intros H. apply (f_equal (Z.lxor a)) in H. by rewrite <-!Z.lxor_assoc, Z.lxor_nilpotent, !Z.lxor_0_l in H.
Qed.
Lemma u8_u16 x : is_u8 x -> is_u16 x.
Proof. unfold is_u8, is_u16. lia. Qed.
(** Two bytes are sixteen bits of the register. *)
Definition word (a b : Z) : Z := Z.lxor a (Z.shiftl b 8).
Lemma fcs_two crc a b : fcs_byte (fcs_byte crc a) b = Nat.iter 16 fcs_bit (Z.lxor crc (word a b)).
Proof.
  unfold fcs_byte, word. rewrite <-Z.lxor_assoc. change 16%nat with (8 + 8)%nat.
  rewrite Nat.iter_add, (fcs_iter_lxor 8 _ (Z.shiftl b 8)).
  pose proof (fcs_iter_shift 8 b) as H. change (Z.of_nat 8) with 8 in H. by rewrite H.
Qed.
Lemma word_u16 a b : is_u8 a -> is_u8 b -> is_u16 (word a b).
Proof.
  intros Ha Hb. apply lxor_u16; [by apply u8_u16|]. unfold is_u8, is_u16 in *.
  rewrite Z.shiftl_mul_pow2 by done. lia.
Qed.
Lemma word_inj a b a' b' : is_u8 a -> is_u8 a' -> word a b = word a' b' -> a = a' ∧ b = b'.
Proof.
  intros Ha Ha' H. assert (Hz : ∀ x, is_u8 x -> Z.shiftr x 8 = 0).
  { intros x Hx. rewrite Z.shiftr_div_pow2 by done. by apply Z.div_small. }
  assert (b = b') as <-.
  { apply (f_equal (λ x, Z.shiftr x 8)) in H. unfold word in H. rewrite !Z.shiftr_lxor, !Hz, !Z.lxor_0_l in H by done.
    rewrite !Z.shiftr_shiftl_l in H by done. change (8 - 8) with 0 in H. rewrite !Z.shiftl_0_r in H. by rewrite Hz, Z.lxor_0_l in H by done. }
  split; [|done]. unfold word in H. rewrite !(Z.lxor_comm _ (Z.shiftl b 8)) in H. by apply lxor_cancel_l in H.
Qed.
Lemma fcs_u16 crc l : is_u16 crc -> Forall is_u8 l -> is_u16 (fold_left fcs_byte l crc).
Proof.
  revert crc. induction l as [|b l IH]; intros crc Hc Hl; [done|]. apply Forall_cons in Hl as [Hb Hl].
  cbn [fold_left]. apply IH; [|done]. apply fcs_iter_u16, lxor_u16; [done|by apply u8_u16].
Qed.
Lemma fcs_fold_inj c c' l : is_u16 c -> is_u16 c' -> Forall is_u8 l ->
  fold_left fcs_byte l c = fold_left fcs_byte l c' -> c = c'.
Proof.
  revert c c'. induction l as [|b l IH]; intros c c' Hc Hc' Hl H; [done|]. apply Forall_cons in Hl as [Hb Hl].
  assert (H2 : ∀ x, is_u16 x -> is_u16 (Z.lxor x b)) by (intros x Hx; apply lxor_u16; [done|by apply u8_u16]).
  apply IH in H; [|by apply fcs_iter_u16, H2..|done]. apply fcs_iter_inj in H; [|by apply H2..].
  rewrite !(Z.lxor_comm _ b) in H. by apply lxor_cancel_l in H.
Qed.

(** C38: No error burst within two neighbouring bytes goes undetected: if a
    received frame has the right check sequence, a frame of the same length
    that differs from it in these bytes only does not have it. *)
Theorem burst_detected x a b a' b' y :
  Forall is_u8 (x ++ [a; b; a'; b'] ++ y) -> (a, b) <> (a', b') ->
  fcs_tab (x ++ [a; b] ++ y) = 0xf0b8 ->
  fcs_tab (x ++ [a'; b'] ++ y) <> 0xf0b8.
Proof.
  intros Hu Hne H1 H2. rewrite !Forall_app, !Forall_cons in Hu.
  destruct Hu as (Hx & (Ha & Hb & Ha' & Hb' & _) & Hy).
  assert (Hw : ∀ a b, is_u8 a -> is_u8 b -> fcs_tab (x ++ [a; b] ++ y) =
    fold_left fcs_byte y (fcs_byte (fcs_byte (fcs x) a) b)).
  { intros u v Hu Hv. rewrite fcs_tab_fcs.
    - unfold fcs. by rewrite !fold_left_app.
    - rewrite !Forall_app, !Forall_cons. split_and!; done. }
  rewrite Hw in H1, H2 by done. rewrite <-H2, !fcs_two in H1.
  assert (Hc : is_u16 (fcs x)) by (apply fcs_u16; [unfold is_u16; lia|done]).
  assert (Hwu : ∀ a b, is_u8 a -> is_u8 b -> is_u16 (Z.lxor (fcs x) (word a b)))
    by (intros; apply lxor_u16; [done|by apply word_u16]).
  apply fcs_fold_inj in H1; [|by apply fcs_iter_u16, Hwu..|done]. apply fcs_iter_inj in H1; [|by apply Hwu..].
  apply lxor_cancel_l, word_inj in H1 as [<- <-]; done.
Qed.
Lemma burst_detected_witness :
  fcs_tab ([0x42] ++ [0x0a; 0x51] ++ [0x7e; 0xcb]) = 0xf0b8 ∧
  fcs_tab ([0x42] ++ [0x0b; 0xd1] ++ [0x7e; 0xcb]) <> 0xf0b8.
Proof.
  split; [vm_compute; reflexivity|]. apply (burst_detected [0x42] 0x0a 0x51 0x0b 0xd1 [0x7e; 0xcb]).
  - repeat (apply Forall_cons; split); try apply Forall_nil_2; unfold is_u8; lia.
  - done.
  - vm_compute. reflexivity.
Defined.

(** ** Zero stuffing *)

(** A zero after five ones; [c] ones are in front. *)
Fixpoint stuff (c : nat) (l : list bool) : list bool :=
  match l with
  | [] => []
  | true :: l => if (c =? 4)%nat then true :: false :: stuff 0 l else true :: stuff (S c) l
  | false :: l => false :: stuff 0 l
  end.
Fixpoint ones_after (c : nat) (l : list bool) : nat :=
  match l with
  | [] => c
  | true :: l => if (c =? 4)%nat then ones_after 0 l else ones_after (S c) l
  | false :: l => ones_after 0 l
  end.
Definition FLAG : list bool := [false; true; true; true; true; true; true; false].

Lemma stuff_app c l l' : stuff c (l ++ l') = stuff c l ++ stuff (ones_after c l) l'.
Proof.
  revert c. induction l as [|b l IH]; intros c; [done|]. cbn [app stuff ones_after].
  destruct b; [destruct (c =? 4)%nat|]; rewrite IH; done.
Qed.
Lemma ones_after_app c l l' : ones_after c (l ++ l') = ones_after (ones_after c l) l'.
Proof.
  revert c. induction l as [|b l IH]; intros c; [done|]. cbn [app ones_after].
  destruct b; [destruct (c =? 4)%nat|]; rewrite IH; done.
Qed.
Lemma ones_after_le c l : (c <= 4)%nat -> (ones_after c l <= 4)%nat.
Proof.
  revert c. induction l as [|b l IH]; intros c Hc; [done|]. cbn [ones_after].
  destruct b; [destruct (Nat.eqb_spec c 4)|]; apply IH; lia.
Qed.

(** ** The receiver *)

(** The ones in a row; the bits since the last flag sequence, [None] while
    there was none and after an abort; and for every flag sequence so far
    the bits in front of it. *)
Record receiver := Receiver {
  r_ones : nat;
  r_acc : option (list bool);
  r_flags : list (option (list bool));
}.
Definition receive_bit (r : receiver) (b : bool) : receiver :=
  if b then
    if (6 <=? r_ones r)%nat then Receiver 7 None (r_flags r)
    else Receiver (S (r_ones r)) ((λ l, l ++ [true]) <$> r_acc r) (r_flags r)
  else
    if (r_ones r =? 6)%nat then Receiver 0 (Some []) (r_flags r ++ [r_acc r])
    else if (r_ones r =? 5)%nat then Receiver 0 (r_acc r) (r_flags r)
    else Receiver 0 ((λ l, l ++ [false]) <$> r_acc r) (r_flags r).
Definition receive (r : receiver) (l : list bool) : receiver := fold_left receive_bit l r.
Definition receiver_reset : receiver := Receiver 0 None [].

Lemma receive_app r l l' : receive r (l ++ l') = receive (receive r l) l'.
Proof. apply fold_left_app. Qed.
Lemma receive_flags r l : r_flags r `prefix_of` r_flags (receive r l).
Proof.
  revert r. induction l as [|b l IH]; intros r; [done|]. cbn. etransitivity; [|apply IH].
  unfold receive_bit. repeat case_match; cbn; try done; by apply prefix_app_r.
Qed.

(** The last of a run of ones is the last bit kept. *)
Definition ones_kept (r : receiver) : Prop :=
  ∀ l, r_acc r = Some l -> (1 <= r_ones r)%nat -> last l = Some true.
Lemma receive_ones_kept r l : ones_kept r -> ones_kept (receive r l).
Proof.
  revert r. induction l as [|b l IH]; intros r Hr; [done|]. apply IH.
  unfold receive_bit, ones_kept. destruct b; repeat case_match; cbn; intros l' Hl Ho; try lia; try done.
  destruct (r_acc r) as [x|]; [|done]. injection Hl as <-. apply last_snoc.
Qed.

(** The bits in front of the first flag sequence extend what was there. *)
Definition acc_app (l x : option (list bool)) : option (list bool) :=
  match l, x with Some l, Some x => Some (l ++ x) | _, _ => None end.
Definition shift_receiver (l : option (list bool)) (E : list (option (list bool))) (r : receiver)
  : receiver :=
  match r_flags r with
  | [] => Receiver (r_ones r) (acc_app l (r_acc r)) E
  | e :: es => Receiver (r_ones r) (r_acc r) (E ++ acc_app l e :: es)
  end.
Lemma receive_shift l E r bs :
  receive (shift_receiver l E r) bs = shift_receiver l E (receive r bs).
Proof.
  revert r. induction bs as [|b bs IH]; intros r; [done|].
  change (receive (receive_bit (shift_receiver l E r) b) bs =
    shift_receiver l E (receive (receive_bit r b) bs)). rewrite <-IH. f_equal.
  destruct r as [c acc fl]. unfold shift_receiver, receive_bit. 
  destruct fl as [|e es]; cbn [r_ones r_acc r_flags]; destruct b;
    [destruct (6 <=? c)%nat|destruct (c =? 6)%nat; [|destruct (c =? 5)%nat]
    |destruct (6 <=? c)%nat|destruct (c =? 6)%nat; [|destruct (c =? 5)%nat]];
    destruct l, acc; cbn; rewrite <-?app_assoc; done.
Qed.

(** ** The byte-wise unstuffing *)

(** What the macro finds in a byte: data, with the number of zeros removed;
    the end of a flag sequence; or an abort. *)
Inductive found := Data (tmp2 ib n : Z) | Flag (tmp2 ib : Z) | Abort (tmp2 ib : Z).
Definition look_special (tmp2 ib n : Z) : found :=
  let ib := Z.land ib (Z.lnot 0xe0) in
  if u8 ib =? 6 then Flag tmp2 ib
  else if 7 <=? u8 ib then Abort tmp2 ib
  else if u8 ib =? 5 then Data (destuff_lsb tmp2) ib (n + 1) else Data tmp2 ib n.
Definition look (c byte : Z) : found :=
  let ib := u16 (c + BIT_TAB byte) in
  if 5 <=? u8 ib then
    if bit_set ib 0x20 then
      if u8 byte =? 0x7e then Flag byte ib
      else let '(tmp2, ib) := destuff_msb byte ib in look_special tmp2 ib 1
    else look_special byte ib 0
  else Data byte ib 0.

(** The bits a byte adds to a receiver with [c] ones in front, if no flag
    sequence ends in it. *)
Definition after8 (c : Z) (byte : Z) : receiver :=
  receive (Receiver (Z.to_nat (Z.min c 7)) (Some []) []) (bits 8 byte).

(** [look] agrees with the receiver. *)
Definition data_agrees (c tmp2 ib n : Z) (r : receiver) : bool :=
  match r_acc r, r_flags r with
  | Some l, [] =>
      (c <=? 6) && (Z.of_nat (length l) =? 8 - n) && (0 <=? n) && (n <=? 2) &&
      (Z.shiftr ib 12 =? Z.of_nat (r_ones r)) && (r_ones r <=? 6)%nat &&
      (let g := u8 tmp2 - Z.shiftl (val l) n in
       (g =? 0) || ((1 <=? c) && (1 <=? n) && (g =? n)))
  | _, _ => false
  end.
(** A byte is too short for a second frame. *)
Definition flags_short (l : list (option (list bool))) : bool :=
  match l with
  | Some e :: es => (length e <=? 7)%nat &&
      forallb (λ x, match x with Some l => (length l <? 7)%nat | None => false end) es
  | _ => false
  end.
Definition flag_agrees (tmp2 ib : Z) (r : receiver) : bool :=
  let blevel := Z.land (Z.shiftr ib 8) 0xf in
  match r_acc r, r_flags r with
  | Some l, _ :: _ =>
      (Z.of_nat (length l) =? 8 - blevel) && (Z.shiftr (u8 tmp2) blevel =? val l) &&
      (Z.shiftr ib 12 =? Z.of_nat (r_ones r)) && (r_ones r <=? 6)%nat && (1 <=? blevel) &&
      flags_short (r_flags r)
  | _, _ => false
  end.
Definition abort_agrees (c tmp2 ib : Z) (r : receiver) : bool :=
  (Z.min (Z.shiftr ib 12) 7 =? Z.of_nat (r_ones r)) && (Z.shiftr ib 12 <=? 8) &&
  match r_flags r with
  | [] => negb (u8 ib =? 0x16) && (bool_decide (r_acc r = None) || (7 <=? c))
  | _ :: _ => (u8 ib =? 0x16) && bool_decide (r_acc r = None) && (Z.shiftr ib 12 =? 7) &&
              flags_short (r_flags r)
  end.
Definition look_agrees (c byte : Z) : bool :=
  match look c byte with
  | Data tmp2 ib n => data_agrees c tmp2 ib n (after8 c byte)
  | Flag tmp2 ib => flag_agrees tmp2 ib (after8 c byte)
  | Abort tmp2 ib => abort_agrees c tmp2 ib (after8 c byte)
  end.
Lemma look_check c byte : 0 <= c <= 8 -> is_u8 byte -> look_agrees c byte = true.
Proof.
  intros Hc. revert byte. apply byte_forall.
  assert (c = 0 ∨ c = 1 ∨ c = 2 ∨ c = 3 ∨ c = 4 ∨ c = 5 ∨ c = 6 ∨ c = 7 ∨ c = 8) as H by lia.
  destruct_or! H; subst c; vm_compute; reflexivity.
Qed.
