(* ===== verification/HdlcRx.v ===== *)
(** * HDLC: the decoder is the bit-level receiver

    [HDLC_DECODE] takes a byte at a time, at whatever alignment the frames
    have in the stream.  It is simulated by eight steps of [receive_bit];
    on every stream whose frames are whole bytes it gives layer 2 exactly
    the frames with a correct check sequence that fit into a buffer. *)
From S2P Require Import Prelude Mbuf Dss1Types Hdlc HdlcSpec.
Local Open Scope Z_scope.

(** The whole bytes of a list of bits. *)
Definition bytes_of (l : list bool) : list Z :=
  map (λ i, val (take 8 (drop (8 * i) l))) (seq 0 (length l / 8)).
(** What layer 2 gets of the bits in front of a flag sequence. *)
Definition good_frame (e : option (list bool)) : option (list Z) :=
  match e with
  | None => None
  | Some l =>
      let b := bytes_of l in
      if (3 <=? length b)%nat && (length b <=? BCH_MAX_DATALEN + 2)%nat && (fcs b =? 0xf0b8)
      then Some (take (length b - 2) b) else None
  end.
(** What is between two flag sequences is too short for a frame, or whole
    bytes and the first seven bits of the closing flag sequence. *)
Definition whole (e : option (list bool)) : Prop :=
  match e with Some l => (length l < 24 ∨ length l mod 8 = 7)%nat | None => True end.

(** ** The macro in terms of what it finds *)
Lemma set_blevel_same s v : v = rx_blevel s -> s <| rx_blevel := v |> = s.
Proof. intros ->. by destruct s. Qed.
Lemma decode_look s b :
  is_u8 (rx_blevel s) -> ∃ v, is_u8 v ∧
  match look (rx_ib s) b with
  | Data tmp2 ib n =>
      v = u8 (rx_blevel s - n) ∧ ∃ chk : bool, (chk = true ∨ n = 0) ∧
      HDLC_DECODE s b = if chk && (7 <? v) then eo_bits tmp2 ib (s <| rx_blevel := v |>)
                        else store_bits tmp2 ib (s <| rx_blevel := v |>)
  | Flag tmp2 ib => HDLC_DECODE s b = j0 tmp2 ib (s <| rx_blevel := v |>)
  | Abort tmp2 ib => HDLC_DECODE s b = abort_seq tmp2 ib (s <| rx_blevel := v |>)
  end.
Proof.
  intros Hb. assert (H0 : u8 (rx_blevel s - 0) = rx_blevel s) by (rewrite Z.sub_0_r; by apply u8_id).
  assert (H2 : u8 (u8 (rx_blevel s - 1) - 1) = u8 (rx_blevel s - (1 + 1))).
  { unfold u8. rewrite Zminus_mod_idemp_l. f_equal. lia. }
  unfold HDLC_DECODE, look. destruct (5 <=? u8 (u16 (rx_ib s + BIT_TAB b))).
  2:{ exists (rx_blevel s). rewrite H0, set_blevel_same by done. split; [done|]. split; [done|].
      exists false. auto. }
  destruct (bit_set _ 0x20); [destruct (u8 b =? 0x7e)|].
  - exists (rx_blevel s). by rewrite set_blevel_same.
  - destruct (destuff_msb b _) as [t ib]. unfold look_special, decode_special.
    destruct (u8 (Z.land ib (Z.lnot 0xe0)) =? 6); [by exists (u8 (rx_blevel s - 1)); auto with i4b|].
    destruct (7 <=? u8 (Z.land ib (Z.lnot 0xe0))); [by exists (u8 (rx_blevel s - 1)); auto with i4b|].
    destruct (u8 (Z.land ib (Z.lnot 0xe0)) =? 5).
    + exists (u8 (rx_blevel s - (1 + 1))). split; [auto with i4b|]. split; [done|]. exists true.
      split; [auto|]. rewrite <-H2. done.
    + exists (u8 (rx_blevel s - 1)). split; [auto with i4b|]. split; [done|]. exists true. auto.
  - unfold look_special, decode_special.
    destruct (u8 (Z.land _ (Z.lnot 0xe0)) =? 6); [by exists (rx_blevel s); rewrite set_blevel_same|].
    destruct (7 <=? u8 (Z.land _ (Z.lnot 0xe0))); [by exists (rx_blevel s); rewrite set_blevel_same|].
    destruct (u8 (Z.land _ (Z.lnot 0xe0)) =? 5).
    + exists (u8 (rx_blevel s - (0 + 1))). split; [auto with i4b|]. split; [done|]. exists true. auto.
    + exists (rx_blevel s). rewrite H0, set_blevel_same by done. split; [done|]. split; [done|].
      exists true. auto.
Qed.

(** ** Bits and numbers *)
Lemma lor_shift a x n : 0 <= n -> 0 <= a < 2 ^ n -> Z.lor a (x * 2 ^ n) = a + x * 2 ^ n.
Proof.
  intros Hn Ha. rewrite <-Z.shiftl_mul_pow2 by done. rewrite <-Z.lxor_lor, Z.add_nocarry_lxor; [done| |].
  all: apply Z.bits_inj'; intros k Hk; rewrite Z.land_spec, Z.bits_0.
  all: destruct (Z.ltb_spec k n); [rewrite Z.shiftl_spec_low by lia; apply andb_false_r|].
  all: rewrite <-(Z.mod_small a (2 ^ n)) by done; by rewrite Z.mod_pow2_bits_high by lia.
Qed.
Lemma bits_mod n x : bits n (x mod 2 ^ Z.of_nat n) = bits n x.
Proof.
  rewrite <-val_bits. pose proof (bits_val (bits n x)) as H. by rewrite bits_length in H.
Qed.
Lemma val_shiftr l l' : Z.shiftr (val (l ++ l')) (Z.of_nat (length l)) = val l'.
Proof.
  rewrite val_app, Z.shiftr_div_pow2, Z.mul_comm, Z.div_add by lia.
  rewrite Z.div_small by apply val_range. lia.
Qed.
Lemma val_u8 l l' : length l = 8%nat -> u8 (val (l ++ l')) = val l.
Proof.
  intros Hl. rewrite val_app, Hl. unfold u8. change (2 ^ Z.of_nat 8) with 256.
  rewrite Z.mul_comm, Z.mod_add by lia. apply Z.mod_small. pose proof (val_range l) as H.
  by rewrite Hl in H.
Qed.
Lemma line_last bytes x : line (bytes ++ [x]) = line bytes ++ bits 8 x.
Proof. rewrite line_app. unfold line at 2. cbn [map concat]. by rewrite app_nil_r. Qed.

(** ** The decoder in step with the receiver *)
Definition room : nat := BCH_MAX_DATALEN.
(** [flag] and [len] after [k] bytes of a frame. *)
Definition frame_flag (k : nat) : Z :=
  if (k =? 0)%nat then 1 else if (k <=? room)%nat then 2
  else if (k =? room + 1)%nat then 3 else if (k =? room + 2)%nat then 4 else 0.
Definition frame_room (k : nat) : Z := if (k =? 0)%nat then 0 else Z.of_nat (room - k).

(** Every allocation of a buffer to come succeeds. *)
Definition memory (s : hdlc_rx) : Prop := Forall (.= true) (rx_alloc s).
(** The buffer holds the bytes of the frame so far. *)
Record stored (s : hdlc_rx) (bytes : list Z) : Prop := {
  st_flag : rx_flag s = frame_flag (length bytes);
  st_len : rx_len s = frame_room (length bytes);
  st_data : (1 <= length bytes <= room + 2)%nat ->
    rx_crc s = fcs_tab bytes ∧ rx_mbuf s = Some (take room bytes);
  st_alloc : memory s;
}.
(** [rest] is what is left of the last byte in [tmp]. *)
Record synced (s : hdlc_rx) (c : nat) (bytes : list Z) (rest : list bool) : Prop := {
  sy_stored : stored s bytes;
  sy_ib : rx_ib s = Z.of_nat c;
  sy_c : (c <= 6)%nat;
  sy_rest : (length rest < 8)%nat;
  sy_blevel : rx_blevel s = Z.of_nat (length rest);
  sy_tmp : rx_tmp s = val rest;
  sy_u8 : Forall is_u8 bytes;
}.

(** A complete byte. *)
Lemma frame_flag_S k : (1 <= k)%nat -> (k < room)%nat -> frame_flag (k + 1) = frame_flag k.
Proof.
  intros H1 H2. unfold frame_flag. rewrite !(proj2 (Nat.eqb_neq _ _)) by lia.
  by rewrite !(proj2 (Nat.leb_le _ _)) by lia.
Qed.
Lemma frame_room_S k : (1 <= k)%nat -> frame_room (k + 1) = Z.max 0 (frame_room k - 1).
Proof. intros H1. unfold frame_room. rewrite !(proj2 (Nat.eqb_neq _ _)) by lia. lia. Qed.
Lemma room_val : room = BCH_MAX_DATALEN.
Proof. done. Qed.
Lemma frame_flag_cases k : (1 <= k)%nat ->
  ((k <= room)%nat ∧ frame_flag k = 2) ∨ (k = (room + 1)%nat ∧ frame_flag k = 3) ∨
  (k = (room + 2)%nat ∧ frame_flag k = 4) ∨ ((room + 2 < k)%nat ∧ frame_flag k = 0).
Proof.
  intros Hk. unfold frame_flag. destruct (Nat.eqb_spec k 0); [lia|].
  destruct (Nat.leb_spec k room); [lia|]. destruct (Nat.eqb_spec k (room + 1)); [lia|].
  destruct (Nat.eqb_spec k (room + 2)); lia.
Qed.
Lemma store_full ib s :
  rx_len s = 0 ->
  (rx_flag s = 0 -> store_byte ib s = j5 ib s) ∧
  (rx_flag s = 2 -> store_byte ib s = j4 ib (s <| rx_flag := 3 |>)) ∧
  (rx_flag s = 3 -> store_byte ib s = j4 ib (s <| rx_flag := 4 |>)) ∧
  (rx_flag s = 4 -> store_byte ib s = j5 ib ((rdo s) <| rx_flag := 0 |>)).
Proof. intros H. destruct s; cbn in H; subst. repeat split; cbn; intros ->; done. Qed.
Lemma store_byte_stored ib s bytes x rest :
  stored s bytes -> length x = 8%nat -> rx_tmp s = val (x ++ rest) ->
  let s' := store_byte ib s in
  stored s' (bytes ++ [val x]) ∧ rx_ib s' = Z.shiftr ib 12 ∧ rx_tmp s' = val rest ∧
  rx_blevel s' = rx_blevel s ∧ rx_frames s' = rx_frames s.
Proof.
  intros [Hf Hl Hd Ha] Hx Ht.
  assert (Hsh : Z.shiftr (rx_tmp s) 8 = val rest) by (by rewrite Ht; rewrite <-(val_shiftr x rest), Hx).
  assert (Hcrc : ∀ c, crc_step c (rx_tmp s) = crc_step c (val x)).
  { intros c. by rewrite <-crc_step_u8, Ht, val_u8. }
  assert (Hu : u8 (rx_tmp s) = val x) by (by rewrite Ht, val_u8).
  assert (Hfcs : fcs_tab (bytes ++ [val x]) = crc_step (fcs_tab bytes) (val x)).
  { unfold fcs_tab. by rewrite fold_left_app. }
  assert (Hr0 : (0 < room)%nat) by (unfold room, BCH_MAX_DATALEN; lia).
  destruct (decide (bytes = [])) as [->|Hne].
  { assert (default true (head (rx_alloc s)) = true ∧ Forall (.= true) (tail (rx_alloc s))) as [Hhd Htl]
      by (unfold memory in Ha; by destruct Ha as [|? ? ->]).
    destruct s. cbn -[room] in *. subst. unfold store_byte. cbn -[room val].
    change (u8 (1 + 1)) with 2. cbn -[room val]. unfold new_frame, nfr. cbn -[room val BCH_MAX_DATALEN]. rewrite Hhd. cbn -[room val BCH_MAX_DATALEN].
    change (Z.of_nat BCH_MAX_DATALEN =? 0) with false. unfold j3, j4, j5, put_dst.
    cbn -[room val BCH_MAX_DATALEN]. rewrite Hcrc, Hu, Hsh. split; [|done].
    constructor; cbn -[room val BCH_MAX_DATALEN take]; [done|done|intros _; split; [done|]|done].
    rewrite take_ge by (cbn; lia). done. }
  assert (Hk : (1 <= length bytes)%nat) by (destruct bytes; [done|cbn; lia]).
  assert (Hlen : length (bytes ++ [val x]) = (length bytes + 1)%nat) by (rewrite length_app; done).
  destruct (Z.eq_dec (rx_len s) 0) as [Hz|Hz].
  - assert (Hroom : (room <= length bytes)%nat).
    { rewrite Hl in Hz. unfold frame_room in Hz. rewrite (proj2 (Nat.eqb_neq _ _)) in Hz by lia. lia. }
    assert (Hlen' : frame_room (length bytes + 1) = 0) by (rewrite frame_room_S, <-Hl by done; lia).
    assert (Htake : take room (bytes ++ [val x]) = take room bytes) by (by rewrite take_app_le by lia).
    destruct (frame_flag_cases (length bytes + 1)) as [[H1 H2]|[[H1 H2]|[[H1 H2]|[H1 H2]]]]; [lia|lia| | |].
    all: destruct (frame_flag_cases (length bytes)) as [[H3 H4]|[[H3 H4]|[[H3 H4]|[H3 H4]]]]; [lia| | | |];
      try lia; destruct (store_full ib s Hz) as (E0 & E2 & E3 & E4);
      first [rewrite E0 by congruence|rewrite E2 by congruence|rewrite E3 by congruence
            |rewrite E4 by congruence]; cbn -[room]; rewrite ?Hsh, ?Hcrc; (split; [|done]).
    all: constructor; cbn -[room]; rewrite ?Hlen, ?Hlen', ?H2, ?Htake, ?Hfcs; try done; try congruence.
    all: try (intros ?; lia).
    all: intros _; destruct Hd as [-> ->]; [lia|done].
  - assert (Hroom : (length bytes < room)%nat).
    { rewrite Hl in Hz. unfold frame_room in Hz. rewrite (proj2 (Nat.eqb_neq _ _)) in Hz by lia. lia. }
    unfold store_byte. rewrite (proj2 (Z.eqb_neq _ _) Hz).
    unfold j3, j4, j5, put_dst. cbn -[room]. rewrite Hcrc, Hu, Hsh. split; [|done]. destruct Hd as [Hc Hm]; [lia|].
    constructor; cbn -[room]; rewrite ?Hlen, ?frame_flag_S, ?frame_room_S by done; try done.
    + rewrite Hl. rewrite Hl in Hz. unfold frame_room in *. case_match; lia.
    + intros _. rewrite Hc, Hm, Hfcs. split; [done|]. cbn -[room].
      rewrite !take_ge by (rewrite ?Hlen; lia). done.
Qed.

(** The bits of a byte behind those that are left over: the first of them
    may come with a one that is there already. *)
Lemma lor_rest rest D g :
  g = 0 ∨ (last rest = Some true ∧ g = 2 ^ (Z.of_nat (length rest) - 1)) ->
  Z.lor (val rest) (g + val D * 2 ^ Z.of_nat (length rest)) = val (rest ++ D).
Proof.
  intros Hg. assert (Z.lor (val rest) g = val rest ∧ 0 <= g < 2 ^ Z.of_nat (length rest)) as [H1 H2].
  { destruct Hg as [->|[Hl ->]]; [rewrite Z.lor_0_r; split; [done|]; split; [done|apply Z.pow_pos_nonneg; lia]|].
    apply last_Some in Hl as [r ->]. rewrite length_app, Nat.add_1_r, Nat2Z.inj_succ, val_app. cbn [val].
    replace (Z.succ _ - 1) with (Z.of_nat (length r)) by lia. rewrite Z.pow_succ_r by lia.
    pose proof (val_range r) as Hr. split; [|lia].
    assert (val r + 2 ^ Z.of_nat (length r) * (1 + 2 * 0) = Z.lor (val r) (2 ^ Z.of_nat (length r))) as ->.
    { rewrite <-(Z.mul_1_l (2 ^ Z.of_nat (length r))) at 2. rewrite lor_shift by lia. lia. }
    by rewrite <-Z.lor_assoc, Z.lor_diag. }
  rewrite <-lor_shift, Z.lor_assoc, H1, lor_shift, val_app by (apply val_range || lia). lia.
Qed.

Section DataStep.
Context (s : hdlc_rx) (bytes : list Z) (c : nat) (rest D : list bool) (tmp2 ib : Z) (n : nat) (g : Z).
Context (Hs : synced s c bytes rest) (Hlast : (1 <= c)%nat -> rest <> [] -> last rest = Some true).
Context (HD : length D = (8 - n)%nat) (Hn : (n <= 2)%nat).
Context (Ht : u8 tmp2 = g + val D * 2 ^ Z.of_nat n).
Context (Hg : g = 0 ∨ ((1 <= c)%nat ∧ (1 <= n)%nat ∧ g = Z.of_nat n)).
Context (Hi : 0 <= Z.shiftr ib 12 <= 6).
Let s1 := s <| rx_blevel := u8 (rx_blevel s - Z.of_nat n) |>.

Lemma eo_step : (length rest < n)%nat ->
  synced (eo_bits tmp2 ib s1) (Z.to_nat (Z.shiftr ib 12)) bytes (rest ++ D).
Proof.
  intros Hm. destruct Hs as [Hst Hib Hc Hrest Hbl Htmp Hby].
  assert (Hb : rx_blevel s1 = 256 + Z.of_nat (length rest) - Z.of_nat n).
  { cbn. rewrite Hbl. unfold u8. Z.to_euclidean_division_equations. lia. }
  assert (Hb' : Z.land (rx_blevel s1) 7 = Z.of_nat (length (rest ++ D))).
  { rewrite Hb, length_app, HD. assert (length rest = 0 ∨ length rest = 1)%nat as [E|E] by lia;
    assert (n = 1 ∨ n = 2)%nat as [F|F] by lia; rewrite E, F; first [done|lia]. }
  destruct Hst as [Hf Hl Hd Ha]. constructor; [constructor| | | | | |done]; try done.
  - cbn. lia.
  - lia.
  - rewrite length_app. lia.
  - change (Z.lor (rx_tmp s) (Z.shiftr (u8 tmp2) (if bit_set (Z.land (rx_blevel s1) 7) 1 then 1 else 2))
      = val (rest ++ D)).
    rewrite Hb', length_app, HD, Htmp, Ht.
    assert ((if bit_set (Z.of_nat (length rest + (8 - n))) 1 then 1 else 2) =
      Z.of_nat n - Z.of_nat (length rest)) as ->.
    { assert (length rest = 0 ∨ length rest = 1)%nat as [E|E] by lia;
      assert (n = 1 ∨ n = 2)%nat as [F|F] by lia; rewrite E, F; first [done|lia]. }
    assert (2 ^ Z.of_nat n = 2 ^ Z.of_nat (length rest) * 2 ^ (Z.of_nat n - Z.of_nat (length rest))) as ->.
    { rewrite <-Z.pow_add_r by lia. f_equal. lia. }
    rewrite Z.shiftr_div_pow2, Z.mul_assoc, Z.div_add by (lia || apply Z.pow_nonzero; lia).
    apply lor_rest. destruct Hg as [->|(Hc1 & _ & ->)]; [left; by rewrite Z.div_0_l by (apply Z.pow_nonzero; lia)|].
    destruct (decide (rest = [])) as [->|Hne].
    + left. assert (n = 1 ∨ n = 2)%nat as [F|F] by lia; rewrite F; done.
    + right. split; [auto|]. assert (length rest = 1 ∧ n = 2)%nat as [E F].
      { destruct rest; [done|]. cbn in *. lia. }
      by rewrite E, F.
Qed.
Lemma store_step : (n <= length rest)%nat ->
  synced (store_bits tmp2 ib s1) (Z.to_nat (Z.shiftr ib 12))
    (bytes ++ [val (take 8 (rest ++ D))]) (drop 8 (rest ++ D)) ∧
  rx_frames (store_bits tmp2 ib s1) = rx_frames s.
Proof.
  intros Hm. destruct Hs as [Hst Hib Hc Hrest Hbl Htmp Hby].
  assert (Hb : rx_blevel s1 = Z.of_nat (length rest) - Z.of_nat n).
  { cbn. rewrite Hbl. apply u8_id. unfold is_u8. lia. }
  assert (Hlen : length (rest ++ D) = (length rest + 8 - n)%nat) by (rewrite length_app; lia).
  set (s2 := s1 <| rx_tmp ::= λ t, u16 (Z.lor t (Z.shiftl (u8 tmp2) (rx_blevel s1))) |>).
  assert (Hg' : let g' := g * 2 ^ (Z.of_nat (length rest) - Z.of_nat n) in
    g' = 0 ∨ last rest = Some true ∧ g' = 2 ^ (Z.of_nat (length rest) - 1)).
  { destruct Hg as [->|(Hc1 & Hn1 & ->)]; [by left|]. right.
    split; [apply Hlast; [done|by intros ->; cbn in *; lia]|].
    assert (n = 1 ∨ n = 2)%nat as [F|F] by lia; rewrite F in *; [by rewrite Z.mul_1_l|].
    cbn. rewrite <-Z.pow_succ_r by lia. f_equal. lia. }
  assert (Htmp' : rx_tmp s2 = val (take 8 (rest ++ D) ++ drop 8 (rest ++ D))).
  { rewrite take_drop. cbn. cbn in Hb. rewrite Hb, Htmp, Ht, Z.shiftl_mul_pow2 by lia.
    rewrite Z.mul_add_distr_r, <-Z.mul_assoc, <-Z.pow_add_r by lia.
    replace (Z.of_nat n + _) with (Z.of_nat (length rest)) by lia.
    rewrite lor_rest by exact Hg'. apply u16_id. pose proof (val_range (rest ++ D)) as Hr. unfold is_u16.
    assert (2 ^ Z.of_nat (length (rest ++ D)) <= 2 ^ 16) by (apply Z.pow_le_mono_r; lia). lia. }
  destruct (store_byte_stored ib s2 bytes (take 8 (rest ++ D)) (drop 8 (rest ++ D))) as (S1 & S2 & S3 & S4 & S5);
    [|rewrite length_take; lia|done|].
  { destruct Hst. by constructor. }
  split; [|exact S5]. constructor; [exact S1| | | | |exact S3|].
  - rewrite Z2Nat.id by lia. exact S2.
  - lia.
  - rewrite length_drop. lia.
  - etransitivity; [exact S4|]. cbn. cbn in Hb. rewrite Hb, length_drop. lia.
  - apply Forall_app. split; [done|]. apply Forall_singleton. 
    pose proof (val_range (take 8 (rest ++ D))) as Hr. rewrite length_take_le in Hr by lia. exact Hr.
Qed.
End DataStep.

(** ** The end of a frame *)
Lemma bytes_of_line bytes x : Forall is_u8 bytes -> (length x < 8)%nat -> bytes_of (line bytes ++ x) = bytes.
Proof.
  intros Hb Hx. unfold bytes_of. rewrite length_app, line_length.
  replace ((8 * length bytes + length x) / 8)%nat with (length bytes)
    by (rewrite Nat.mul_comm, Nat.div_add_l, Nat.div_small by lia; lia).
  revert Hb. induction bytes as [|b bytes IH]; intros Hb; [done|]. apply Forall_cons in Hb as [Hb1 Hb].
  cbn [length seq map]. rewrite <-seq_shift, map_map. f_equal.
  - rewrite drop_0. unfold line. cbn [map concat]. rewrite <-app_assoc, take_app_length' by (by rewrite bits_length).
    rewrite val_bits. by apply u8_id.
  - rewrite <-(IH Hb) at 2. apply map_ext. intros i. do 2 f_equal. unfold line. cbn [map concat].
    rewrite <-app_assoc. replace (8 * S i)%nat with (8 + 8 * i)%nat by lia.
    by rewrite <-drop_drop, drop_app_length' by (by rewrite bits_length).
Qed.
Lemma bytes_of_short l : (length l < 24)%nat -> (length (bytes_of l) < 3)%nat.
Proof.
  intros Hl. unfold bytes_of. rewrite length_map, length_seq. apply Nat.Div0.div_lt_upper_bound. lia.
Qed.
Lemma good_frame_short l : (length l < 24)%nat -> good_frame (Some l) = None.
Proof.
  intros Hl. unfold good_frame. pose proof (bytes_of_short l Hl). by rewrite (proj2 (Nat.leb_gt 3 _)) by done.
Qed.
(** What layer 2 gets of the bytes in the buffer. *)
Definition accepted (b : list Z) : option (list Z) :=
  if (3 <=? length b)%nat && (length b <=? BCH_MAX_DATALEN + 2)%nat && (fcs_tab b =? 0xf0b8)
  then Some (take (length b - 2) b) else None.
Lemma good_frame_whole bytes rest x :
  Forall is_u8 bytes -> (length rest < 8)%nat -> (length x <= 7)%nat ->
  whole (Some ((line bytes ++ rest) ++ x)) ->
  good_frame (Some ((line bytes ++ rest) ++ x)) = accepted bytes.
Proof.
  intros Hb Hr Hx Hw. destruct (decide (length ((line bytes ++ rest) ++ x) < 24)%nat) as [Hs|Hs].
  - rewrite good_frame_short by done. unfold accepted. rewrite !length_app, line_length in Hs.
    by rewrite (proj2 (Nat.leb_gt 3 _)) by lia.
  - destruct Hw as [|Hw]; [done|]. unfold good_frame. rewrite <-app_assoc, bytes_of_line; [by unfold accepted; rewrite fcs_tab_fcs|done|].
    rewrite length_app. rewrite !length_app, line_length in Hw.
    rewrite <-Nat.add_assoc, Nat.mul_comm, Nat.add_comm, Nat.Div0.mod_add in Hw.
    assert (length rest + length x < 8 ∨ 8 <= length rest + length x < 15)%nat as [?|H] by lia; [done|].
    replace (length rest + length x)%nat with ((length rest + length x - 8) + 1 * 8)%nat in Hw by lia.
    rewrite Nat.Div0.mod_add, Nat.mod_small in Hw by lia. lia.
Qed.
Lemma crc_good c : nonzero (Z.lxor 0xf0b8 c) = negb (c =? 0xf0b8).
Proof.
  unfold nonzero. destruct (Z.eqb_spec c 0xf0b8) as [->|Hne]; [done|].
  destruct (Z.eqb_spec (Z.lxor 0xf0b8 c) 0) as [H|H]; [|done]. apply Z.lxor_eq in H. congruence.
Qed.
Definition end_frame (s : hdlc_rx) : hdlc_rx := if 2 <=? rx_flag s then j00_frame s else s.
Lemma end_frame_same s : rx_alloc (end_frame s) = rx_alloc s.
Proof. unfold end_frame, j00_frame, cfr. by repeat case_match. Qed.
Lemma end_frame_len s bytes : stored s bytes -> rx_len (end_frame s) = 0.
Proof.
  intros [Hf Hl _ _]. unfold end_frame. destruct (Z.leb_spec 2 (rx_flag s)) as [H|H]; [done|].
  rewrite Hl. unfold frame_room. destruct (Nat.eqb_spec (length bytes) 0); [done|].
  destruct (frame_flag_cases (length bytes)); lia.
Qed.
Lemma end_frame_accepted s bytes : stored s bytes ->
  rx_frames (end_frame s) = rx_frames s ++ option_list (accepted bytes).
Proof.
  intros [Hf Hl Hd _]. unfold end_frame, accepted. rewrite Hf.
  destruct (Nat.eq_dec (length bytes) 0) as [->|Hk]; [cbn; by rewrite app_nil_r|].
  assert (H16 : Z.of_nat room + 2 < 65536) by (vm_compute; done).
  assert (Hlen : (length bytes <= room + 2)%nat -> 2 <= frame_flag (length bytes) ∧
    u16 (frame_room (length bytes) + Z.land (4 - frame_flag (length bytes)) 3) =
    Z.of_nat room + 2 - Z.of_nat (length bytes)).
  { intros Hb. unfold frame_room. rewrite (proj2 (Nat.eqb_neq _ _)) by done.
    destruct (frame_flag_cases (length bytes)) as [[H1 ->]|[[H1 ->]|[[H1 ->]|[H1 _]]]]; [lia| | | |lia].
    all: split; [done|]; match goal with |- context [Z.land ?a 3] =>
      let v := eval vm_compute in (Z.land a 3) in change (Z.land a 3) with v end.
    all: rewrite u16_id; [lia|unfold is_u16; lia]. }
  destruct (Nat.leb_spec (length bytes) (BCH_MAX_DATALEN + 2)) as [Hb|Hb].
  2:{ destruct (frame_flag_cases (length bytes)) as [[H1 ?]|[[H1 ?]|[[H1 ?]|[H1 ->]]]];
        rewrite room_val in *; try lia. rewrite andb_false_r. cbn. by rewrite app_nil_r. }
  destruct (Hlen Hb) as [H1 H2]. rewrite (proj2 (Z.leb_le _ _)) by done.
  destruct Hd as [Hcrc Hm]; [rewrite room_val; lia|]. unfold j00_frame, cfr.
  cbn -[room Z.lxor Nat.leb]. rewrite Hf, Hl, H2, Hcrc, Hm, crc_good, <-room_val.
  replace (Z.of_nat room - _) with (Z.of_nat (length bytes) - 2) by lia. rewrite andb_true_r.
  rewrite <-room_val in Hb. destruct (Nat.leb_spec 3 (length bytes)) as [H3|H3].
  - rewrite u16_id by (unfold is_u16; lia). rewrite (proj2 (Z.eqb_neq _ _)), (proj2 (Z.ltb_ge _ _)) by lia.
    destruct (fcs_tab bytes =? 0xf0b8); cbn -[room]; [|by rewrite app_nil_r].
    rewrite take_take. do 3 f_equal. lia.
  - cbn -[room Z.lxor]. rewrite app_nil_r.
    assert (length bytes = 1 ∨ length bytes = 2)%nat as [-> | ->] by lia; [|done].
    change (u16 (Z.of_nat 1 - 2)) with 65535. by rewrite (proj2 (Z.ltb_lt _ _)) by lia.
Qed.

(** ** The simulation *)

(** Between the start of a frame and its end. *)
Definition in_frame (s : hdlc_rx) (r : receiver) : Prop :=
  ∃ bytes rest, r_acc r = Some (line bytes ++ rest) ∧ synced s (r_ones r) bytes rest.
(** Waiting for a flag sequence; [ib] may count more ones than the receiver. *)
Record hunting (s : hdlc_rx) (r : receiver) : Prop := {
  hu_acc : r_acc r = None;
  hu_len : rx_len s = 0;
  hu_flag : rx_flag s = 0 ∨ (rx_flag s = 1 ∧ 7 <= rx_ib s);
  hu_ones : Z.min (rx_ib s) 7 = Z.of_nat (r_ones r);
  hu_ib : 0 <= rx_ib s <= 8;
  hu_blevel : is_u8 (rx_blevel s);
  hu_alloc : memory s;
}.
Record tracks (s : hdlc_rx) (r : receiver) : Prop := {
  tr_frames : rx_frames s = omap good_frame (r_flags r);
  tr_kept : ones_kept r;
  tr_state : in_frame s r ∨ hunting s r;
}.

Lemma tracks_bounds s r : tracks s r ->
  0 <= rx_ib s <= 8 ∧ is_u8 (rx_blevel s) ∧ Z.min (rx_ib s) 7 = Z.of_nat (r_ones r).
Proof.
  intros [_ _ [(bytes & rest & _ & [_ -> ? ? -> _ _])|[]]]; [|done]. unfold is_u8. lia.
Qed.
Lemma tracks_byte s r b : tracks s r ->
  receive r (bits 8 b) = shift_receiver (r_acc r) (r_flags r) (after8 (rx_ib s) b).
Proof.
  intros Ht. destruct (tracks_bounds s r Ht) as (_ & _ & Hc). unfold after8.
  rewrite <-receive_shift, Hc, Nat2Z.id.
  assert (shift_receiver (r_acc r) (r_flags r) (Receiver (r_ones r) (Some []) []) = r) as ->; [|done].
  destruct r as [c [l|] E]; unfold shift_receiver; cbn; [by rewrite app_nil_r|done].
Qed.
Lemma flags_app E acc e es : flags_short (Some e :: es) = true ->
  omap good_frame (E ++ acc_app acc (Some e) :: es) =
  omap good_frame E ++ option_list (good_frame (acc_app acc (Some e))).
Proof.
  intros Hs. cbn in Hs. apply andb_true_iff in Hs as [_ Hs].
  assert (omap good_frame es = []) as Hes.
  { revert Hs. induction es as [|x es IH]; intros Hs; [done|]. cbn in Hs.
    apply andb_true_iff in Hs as [Hx Hs]. destruct x as [x|]; [|done]. apply Nat.leb_le in Hx.
    cbn [omap list_omap]. rewrite good_frame_short by lia. apply IH. exact Hs. }
  rewrite omap_app. f_equal. cbn [omap list_omap]. by destruct (good_frame (acc_app acc (Some e))); rewrite Hes.
Qed.
(** The frame that a flag sequence ends. *)
Lemma flag_frames s r e es :
  tracks s r -> flags_short (Some e :: es) = true -> whole (acc_app (r_acc r) (Some e)) ->
  rx_frames (end_frame s) = omap good_frame (r_flags r ++ acc_app (r_acc r) (Some e) :: es).
Proof.
  intros [Hf _ Hst] Hs Hw. rewrite flags_app, <-Hf by done.
  cbn in Hs. apply andb_true_iff in Hs as [He _]. apply Nat.leb_le in He.
  destruct Hst as [(bytes & rest & Ha & Hy)|Hh].
  - rewrite Ha in *. cbn [acc_app] in *. destruct Hy. rewrite good_frame_whole by done.
    by apply end_frame_accepted.
  - rewrite (hu_acc _ _ Hh). cbn. rewrite app_nil_r. unfold end_frame.
    destruct (hu_flag _ _ Hh) as [-> | [-> _]]; done.
Qed.
Lemma end_frame_ready s r v : tracks s r -> 
  rx_len (end_frame (s <| rx_blevel := v |>)) = 0 ∧ memory (end_frame (s <| rx_blevel := v |>)).
Proof.
  intros [_ _ Hst]. unfold memory. rewrite end_frame_same. destruct Hst as [(bytes & rest & _ & [[]])|Hh].
  - split; [|done]. apply end_frame_len with bytes. by constructor.
  - destruct Hh as [_ Hl Hf _ _ _ Ha]. split; [|done]. unfold end_frame. 
    destruct Hf as [Hf|[Hf _]]; cbn; rewrite Hf; done.
Qed.

(** A byte of data. *)
Section DataFound.
Context (s : hdlc_rx) (r : receiver) (D : list bool) (tmp2 ib n g : Z) (chk : bool) (c' : nat).
Context (Ht2 : u8 tmp2 = g + val D * 2 ^ n) (HD : Z.of_nat (length D) = 8 - n) (Hn : 0 <= n <= 2).
Context (Hc : rx_ib s <= 6) (Hg : g = 0 ∨ (1 <= rx_ib s ∧ 1 <= n) ∧ g = n).
Context (Hi : Z.shiftr ib 12 = Z.of_nat c') (Hc' : (c' <= 6)%nat) (Hchk : chk = true ∨ n = 0).
Let s1 := s <| rx_blevel := u8 (rx_blevel s - n) |>.
Let s' := if chk && (7 <? rx_blevel s1) then eo_bits tmp2 ib s1 else store_bits tmp2 ib s1.
Let r' := Receiver c' (acc_app (r_acc r) (Some D)) (r_flags r).

Lemma data_in_frame : ones_kept r -> in_frame s r -> in_frame s' r' ∧ rx_frames s' = rx_frames s.
Proof.
  intros Hkept (bytes & rest & Hacc & Hy). assert (Hib := sy_ib _ _ _ _ Hy).
  assert (Hlast : (1 <= r_ones r)%nat -> rest <> [] -> last rest = Some true).
  { intros Hc1 Hne. pose proof (Hkept _ Hacc Hc1) as Hl. rewrite last_app in Hl.
    destruct (last rest) eqn:E; [done|]. by apply last_None in E. }
  rewrite <-(Z2Nat.id n) in Ht2 by lia.
  assert (Hg' : g = 0 ∨ (1 <= r_ones r)%nat ∧ (1 <= Z.to_nat n)%nat ∧ g = Z.of_nat (Z.to_nat n)) by lia.
  assert (Hi' : 0 <= Z.shiftr ib 12 <= 6) by lia.
  assert (HD' : length D = (8 - Z.to_nat n)%nat) by lia. assert (Hn' : (Z.to_nat n <= 2)%nat) by lia.
  assert (Hc2 : Z.to_nat (Z.shiftr ib 12) = c') by lia.
  pose proof (eo_step s bytes _ rest D tmp2 ib _ g Hy Hlast HD' Hn' Ht2 Hg' Hi') as Heo.
  pose proof (store_step s bytes _ rest D tmp2 ib _ g Hy Hlast HD' Hn' Ht2 Hg' Hi') as Hso.
  rewrite Z2Nat.id, Hc2 in Heo, Hso by lia. assert (Hbl := sy_blevel _ _ _ _ Hy).
  assert (Hr := sy_rest _ _ _ _ Hy). subst s' r' s1. cbn [rx_blevel]. unfold in_frame. cbn [r_acc r_ones].
  rewrite Hacc in *. destruct (Nat.ltb_spec (length rest) (Z.to_nat n)) as [Hm|Hm].
  - assert (chk = true) as -> by (destruct Hchk; [done|lia]). cbn [rx_blevel set andb].
    rewrite (proj2 (Z.ltb_lt _ _)). 2:{ cbn. rewrite Hbl. unfold u8. Z.to_euclidean_division_equations. lia. }
    split; [|done]. exists bytes, (rest ++ D). cbn. rewrite <-app_assoc. auto.
  - rewrite (proj2 (Z.ltb_ge 7 _)), andb_false_r by (cbn; rewrite Hbl, u8_id; unfold is_u8; lia).
    destruct (Hso Hm) as [H1 H2]. split; [|exact H2]. do 2 eexists.
    split; [|exact H1]. cbn. f_equal. rewrite line_last, <-!app_assoc. f_equal.
    pose proof (bits_val (take 8 (rest ++ D))) as Hb. rewrite length_take_le in Hb by (rewrite length_app; lia).
    by rewrite Hb, take_drop.
Qed.
Lemma store_lost s0 : rx_len s0 = 0 -> rx_flag s0 = 0 -> ∃ t, store_bits tmp2 ib s0 =
  s0 <| rx_tmp := t |> <| rx_ib := Z.shiftr ib 12 |>.
Proof. intros Hl Hf. unfold store_bits, store_byte. cbn. rewrite Hl, Hf. cbn. eexists. done. Qed.
Lemma data_hunting : hunting s r -> hunting s' r' ∧ rx_frames s' = rx_frames s.
Proof.
  intros [Hacc Hl Hfl Ho Hib Hbl Hal]. assert (rx_flag s = 0) as Hfl0 by (destruct Hfl; [done|lia]).
  subst s' r'. rewrite Hacc. destruct (chk && _).
  - split; [|done]. constructor; cbn; auto; try lia. change 7 with (Z.ones 3).
    rewrite Z.land_ones by done. unfold is_u8. Z.to_euclidean_division_equations. lia.
  - destruct (store_lost s1) as [t ->]; [done|done|]. split; [|done]. constructor; cbn; auto; try lia. apply u8_range.
Qed.
End DataFound.

Lemma data_found s r b tmp2 ib n (chk : bool) :
  tracks s r -> data_agrees (rx_ib s) tmp2 ib n (after8 (rx_ib s) b) = true ->
  (chk = true ∨ n = 0) -> let s1 := s <| rx_blevel := u8 (rx_blevel s - n) |> in
  tracks (if chk && (7 <? rx_blevel s1) then eo_bits tmp2 ib s1 else store_bits tmp2 ib s1)
    (receive r (bits 8 b)).
Proof.
  intros Ht Ha Hchk. pose proof (receive_ones_kept r (bits 8 b) (tr_kept _ _ Ht)) as Hk.
  rewrite (tracks_byte s r b Ht) in *. unfold data_agrees in Ha.
  destruct (after8 (rx_ib s) b) as [c' [D|] fl]; cbn [r_acc r_flags r_ones] in Ha; [|done].
  destruct fl; [|done]. unfold shift_receiver in *. cbn [r_acc r_flags r_ones] in *.
  rewrite !andb_true_iff, !orb_true_iff, !andb_true_iff, !Z.leb_le, !Z.eqb_eq, Nat.leb_le in Ha.
  destruct Ha as ((((((Hc & HD) & Hn1) & Hn2) & Hi) & Hi6) & Hg).
  assert (Ht2 : u8 tmp2 = (u8 tmp2 - Z.shiftl (val D) n) + val D * 2 ^ n)
    by (rewrite Z.shiftl_mul_pow2 by done; lia).
  destruct Ht as [Hf Hkept [Hst|Hst]].
  - destruct (data_in_frame s r D tmp2 ib n _ chk c' Ht2 HD (conj Hn1 Hn2) Hg Hi Hi6 Hchk Hkept Hst) as [H1 H2].
    constructor; [by rewrite H2|exact Hk|by left].
  - destruct (data_hunting s r D tmp2 ib n chk c') as [H1 H2]; [done..|].
    constructor; [by rewrite H2|exact Hk|by right].
Qed.

(** A byte in which a flag sequence ends. *)
Lemma end_frame_blevel s v : rx_frames (end_frame (s <| rx_blevel := v |>)) = rx_frames (end_frame s).
Proof. unfold end_frame, j00_frame, cfr. cbn. by repeat case_match. Qed.
Lemma whole_first E e es : Forall whole (E ++ e :: es) -> whole e.
Proof. intros H. apply Forall_app in H as [_ H]. by apply Forall_cons in H as [? _]. Qed.
Lemma flag_found s r b tmp2 ib v :
  tracks s r -> flag_agrees tmp2 ib (after8 (rx_ib s) b) = true ->
  Forall whole (r_flags (receive r (bits 8 b))) ->
  tracks (j0 tmp2 ib (s <| rx_blevel := v |>)) (receive r (bits 8 b)).
Proof.
  intros Ht Ha Hw. pose proof (receive_ones_kept r (bits 8 b) (tr_kept _ _ Ht)) as Hk.
  rewrite (tracks_byte s r b Ht) in *. unfold flag_agrees in Ha.
  destruct (after8 (rx_ib s) b) as [c' [l|] fl]; cbn [r_acc r_flags r_ones] in Ha; [|done].
  destruct fl as [|e es]; [done|]. unfold shift_receiver in *. cbn [r_acc r_flags r_ones] in *.
  rewrite !andb_true_iff, Z.leb_le, !Z.eqb_eq, Nat.leb_le in Ha.
  destruct Ha as (((((Hl & Htm) & Hi) & Hi6) & Hb) & Hs). destruct e as [e|]; [|done].
  pose proof (flag_frames s r e es Ht Hs (whole_first _ _ _ Hw)) as Hfr.
  destruct (end_frame_ready s r v Ht) as [Hlen Hal].
  constructor; [|exact Hk|left; exists [], l; split; [done|]].
  - etransitivity; [|exact Hfr]. rewrite <-(end_frame_blevel s v). done.
  - constructor; [constructor; try done| | | | | |done].
    + cbn. lia.
    + cbn. done.
    + done.
    + lia.
    + cbn. rewrite u8_id; [lia|unfold is_u8; lia].
    + done.
Qed.
(** A byte with an abort. *)
Lemma tracks_ready s r : tracks s r -> memory s ∧ (rx_flag s < 2 -> rx_len s = 0).
Proof.
  intros [_ _ [(bytes & rest & _ & [[Hf Hl Hd Ha]])|[_ Hl _ _ _ _ Ha]]]; [|done]. split; [done|].
  intros H. pose proof (end_frame_len s bytes) as He. unfold end_frame in He.
  rewrite (proj2 (Z.leb_gt _ _) H) in He. apply He. by constructor.
Qed.
Lemma abort_found s r b tmp2 ib v :
  tracks s r -> is_u8 v -> abort_agrees (rx_ib s) tmp2 ib (after8 (rx_ib s) b) = true ->
  Forall whole (r_flags (receive r (bits 8 b))) ->
  tracks (abort_seq tmp2 ib (s <| rx_blevel := v |>)) (receive r (bits 8 b)).
Proof.
  intros Ht Hv Ha Hw. pose proof (receive_ones_kept r (bits 8 b) (tr_kept _ _ Ht)) as Hk.
  rewrite (tracks_byte s r b Ht) in *. unfold abort_agrees in Ha.
  destruct (after8 (rx_ib s) b) as [c' acc fl]. unfold shift_receiver in *. cbn [r_acc r_flags r_ones] in *.
  rewrite !andb_true_iff, Z.leb_le, Z.eqb_eq in Ha. destruct Ha as ((Ho & Hi8) & Ha).
  pose proof (tracks_ready s r Ht) as [Hal Hlen]. assert (Hib : 0 <= Z.shiftr ib 12) by lia.
  set (s1 := s <| rx_blevel := v |>). destruct fl as [|e es]; cbn [r_acc r_ones r_flags] in *.
  - rewrite andb_true_iff, orb_true_iff, bool_decide_eq_true, Z.leb_le in Ha. destruct Ha as [H16 Ha].
    apply negb_true_iff in H16. assert (Hfr : rx_frames (abort_seq tmp2 ib s1) = rx_frames s).
    { unfold abort_seq. rewrite H16, andb_false_r. by case_match. }
    constructor; [by rewrite Hfr, (tr_frames _ _ Ht)|exact Hk|right].
    assert (acc_app (r_acc r) acc = None) as ->.
    { destruct Ha as [->|Ha]; [by destruct (r_acc r)|]. destruct (tr_state _ _ Ht) as [(? & ? & _ & [])|[->]]; [lia|done]. }
    unfold abort_seq. rewrite H16, andb_false_r. 
    constructor; [done| |by left|done|done| |]; cbn; case_match; cbn; auto; apply Hlen; lia.
  - rewrite !andb_true_iff, bool_decide_eq_true, !Z.eqb_eq in Ha. destruct Ha as (((H16 & ->) & H7) & Hs).
    destruct e as [e|]; [|done]. pose proof (flag_frames s r e es Ht Hs (whole_first _ _ _ Hw)) as Hfr.
    destruct (end_frame_ready s r v Ht) as [Hlen' Hal']. fold s1 in Hlen', Hal'.
    rewrite <-(end_frame_blevel s v) in Hfr. fold s1 in Hfr. unfold abort_seq. rewrite (proj2 (Z.eqb_eq _ _) H16).
    unfold end_frame in *. destruct (2 <=? rx_flag s1) eqn:E; cbn [andb].
    + constructor; [exact Hfr|exact Hk|right]. constructor; cbn; auto with i4b; lia.
    + constructor; [exact Hfr|exact Hk|right]. constructor; cbn; auto with i4b; lia.
Qed.

(** ** The decoder *)
Lemma decode_tracks s r b :
  tracks s r -> is_u8 b -> Forall whole (r_flags (receive r (bits 8 b))) ->
  tracks (HDLC_DECODE s b) (receive r (bits 8 b)).
Proof.
  intros Ht Hb Hw. destruct (tracks_bounds s r Ht) as (Hib & Hbl & _).
  pose proof (look_check _ _ Hib Hb) as Hl. unfold look_agrees in Hl.
  destruct (decode_look s b Hbl) as (v & Hv & Hd). destruct (look (rx_ib s) b) as [t ib n|t ib|t ib].
  - destruct Hd as (-> & chk & Hchk & ->). by apply data_found.
  - rewrite Hd. by apply flag_found.
  - rewrite Hd. by apply abort_found.
Qed.
Lemma emulation_tracks s r bs :
  tracks s r -> Forall is_u8 bs -> Forall whole (r_flags (receive r (line bs))) ->
  tracks (rx_hdlc_emulation s bs) (receive r (line bs)).
Proof.
  revert s r. induction bs as [|b bs IH]; intros s r Ht Hb Hw; [done|]. apply Forall_cons in Hb as [Hb Hbs].
  change (line (b :: bs)) with (bits 8 b ++ line bs) in *. rewrite receive_app in *.
  apply IH; [|done|done]. apply decode_tracks; [done|done|].
  destruct (receive_flags (receive r (bits 8 b)) (line bs)) as [k Hk]. rewrite Hk in Hw.
  by apply Forall_app in Hw as [? _].
Qed.
Lemma tracks_reset alloc : Forall (.= true) alloc -> tracks (rx_reset alloc) receiver_reset.
Proof. intros Ha. constructor; [done|done|right]. constructor; try done. by left. Qed.

(** C9: The receive filter is a receiver that looks at one bit at a time.
    From the state after the setup of the FIFO on, and as long as every
    allocation of a receive buffer succeeds: whatever bytes come in, at
    whatever alignment the frames have in them, with flag sequences that
    share a zero, with aborts and with idle lines, if what is between two
    flag sequences is whole bytes or too short for a frame, layer 2 gets
    exactly the frames of one byte up to the size of a buffer
    (BCH_MAX_DATALEN) whose check sequence, computed bit by bit, is right, in
    their order. *)
Theorem rx_hdlc_emulation_correct alloc bs :
  Forall (.= true) alloc -> Forall is_u8 bs -> Forall whole (r_flags (receive receiver_reset (line bs))) ->
  rx_frames (rx_hdlc_emulation (rx_reset alloc) bs) =
  omap good_frame (r_flags (receive receiver_reset (line bs))).
Proof. intros Ha Hb Hw. by apply tr_frames, emulation_tracks; [apply tracks_reset| |]. Qed.
(** A line with an abort and a frame. *)
Definition sample_line : list Z := 
  [247; 19; 250; 238; 123; 134; 210; 239; 23; 32; 48; 240; 31; 191; 239; 0; 223; 253; 0].
Lemma rx_hdlc_emulation_correct_witness :
  rx_frames (rx_hdlc_emulation (rx_reset [true; true]) sample_line) = [[0x42; 0xff; 0xfe]; [0xff]] ∧
  rx_frames (rx_hdlc_emulation (rx_reset [true; true]) sample_line) =
  omap good_frame (r_flags (receive receiver_reset (line sample_line))).
Proof.
  split; [vm_compute; reflexivity|]. apply rx_hdlc_emulation_correct.
  - by repeat constructor.
  - repeat (apply Forall_cons; split); try apply Forall_nil_2; unfold is_u8; lia.
  - vm_compute. repeat (apply Forall_cons; split); try apply Forall_nil_2; cbn; lia || done.
Defined.
(** Without memory for it a frame is dropped. *)
Lemma no_memory_drops_frame :
  rx_frames (rx_hdlc_emulation (rx_reset [true; true; false]) sample_line) = [[0x42; 0xff; 0xfe]].
Proof. vm_compute. reflexivity. Qed.
