(* ===== verification/HdlcTx.v ===== *)
(** * HDLC: what the encoder puts on the line

    [HDLC_ENCODE] stuffs a byte at a time and keeps the bits that do not
    fit into an output byte.  The bits on the line are flag sequences (ones
    on a D-channel) and, between flag sequences, every frame of the queue
    with its check sequence, stuffed. *)
From S2P Require Import Prelude Mbuf Dss1Types Hdlc HdlcSpec HdlcRx.
Local Open Scope Z_scope.

(** ** The byte-wise stuffing *)

(** The zero behind five ones is sent with the next bits. *)
Definition due (c : Z) : list bool := if c =? 5 then [false] else [].
(** What [tx_j2] puts behind the pending bits, the number of zeros in it
    and the new [ib]. *)
Definition stuffed (c byte : Z) : Z * Z * Z :=
  let ib := u16 (c + BIT_TAB byte) in
  if 5 <=? u8 ib then
    let '(tmp2, n, ib) := stuff_msb byte ib in stuff_lsb tmp2 (Z.land ib (Z.lnot 0xf0)) n
  else (byte, 0, ib).
Definition stuffed_agrees (c byte : Z) : bool :=
  let '(tmp2, n, ib) := stuffed c byte in
  let c' := Z.shiftr ib 12 in
  (0 <=? tmp2) && (0 <=? n) && (n <=? 2) && (tmp2 <? 2 ^ (8 + n)) && (0 <=? ib) && (ib <? 65536) &&
  (c' <=? 5) && (Z.to_nat (c' mod 5) =? ones_after (Z.to_nat (c mod 5)) (bits 8 byte))%nat &&
  bool_decide (bits (Z.to_nat (8 + n)) tmp2 ++ due c' =
               due c ++ stuff (Z.to_nat (c mod 5)) (bits 8 byte)).
Lemma stuffed_check c byte : 0 <= c <= 5 -> is_u8 byte -> stuffed_agrees c byte = true.
Proof.
  intros Hc. revert byte. apply byte_forall.
  assert (c = 0 ∨ c = 1 ∨ c = 2 ∨ c = 3 ∨ c = 4 ∨ c = 5) as H by lia.
  destruct_or! H; subst c; vm_compute; reflexivity.
Qed.

(** ** Output *)

(** [tmp] holds the bits that are not yet sent. *)
Record pending (s : hdlc_tx) (pend : list bool) : Prop := {
  pe_tmp : tx_tmp s = val pend;
  pe_blevel : Z.shiftr (tx_blevel s) 8 = Z.of_nat (length pend);
  pe_low : 0 <= tx_blevel s < 4096;
}.
Lemma tx_j4_out s L : tx_tmp s = val L -> (8 <= length L)%nat ->
  bits 8 (tx_j4 s).1 ++ drop 8 L = L ∧ tx_tmp (tx_j4 s).2 = val (drop 8 L) ∧ is_u8 (tx_j4 s).1.
Proof.
  intros Ht Hl. assert (Hl' : length (take 8 L) = 8%nat) by (rewrite length_take; lia).
  assert (Hb : u8 (tx_tmp s) = val (take 8 L)).
  { rewrite Ht, <-(take_drop 8 L) at 1. by apply val_u8. }
  unfold tx_j4. cbn [fst snd]. rewrite Hb. split_and!.
  - pose proof (bits_val (take 8 L)) as H. rewrite Hl' in H. by rewrite H, take_drop.
  - pose proof (val_shiftr (take 8 L) (drop 8 L)) as H. rewrite Hl', take_drop, <-Ht in H. exact H.
  - pose proof (val_range (take 8 L)) as H. rewrite Hl' in H. exact H.
Qed.
Lemma blevel_u8 s pend : pending s pend -> u8 (Z.shiftr (tx_blevel s) 8) = Z.of_nat (length pend).
Proof.
  intros [_ Hb Hr]. rewrite <-Hb. apply u8_id. unfold is_u8. rewrite Z.shiftr_div_pow2 by done.
  Z.to_euclidean_division_equations. lia.
Qed.
Lemma pending_short s pend : pending s pend -> (length pend < 16)%nat.
Proof.
  intros [_ Hb Hr]. rewrite Z.shiftr_div_pow2 in Hb by done. Z.to_euclidean_division_equations. lia.
Qed.
Lemma add_bits_tmp s pend X : pending s pend -> (length X <= 16)%nat ->
  tx_tmp (add_bits (val X) s) = val (pend ++ X).
Proof.
  intros Hp HX. pose proof (pending_short s pend Hp). cbn. rewrite (blevel_u8 s pend Hp), (pe_tmp _ _ Hp).
  rewrite Z.shiftl_mul_pow2, lor_shift by (lia || apply val_range). rewrite val_app, Z.mul_comm. apply u32_id.
  rewrite <-val_app. pose proof (val_range (pend ++ X)) as Hr. unfold is_u32.
  assert (2 ^ Z.of_nat (length (pend ++ X)) <= 2 ^ 32) by (apply Z.pow_le_mono_r; rewrite ?length_app; lia). lia.
Qed.
Lemma tx_j3_out s pend x : pending s pend -> is_u8 x ->
  ∃ pend', pending (tx_j3 x s).2 pend' ∧ bits 8 (tx_j3 x s).1 ++ pend' = pend ++ bits 8 x ∧
    length pend' = length pend ∧ is_u8 (tx_j3 x s).1.
Proof.
  intros Hp Hx. assert (Hv : val (bits 8 x) = x) by (rewrite val_bits; by apply u8_id).
  pose proof (add_bits_tmp s pend (bits 8 x) Hp) as Ht. rewrite bits_length, Hv in Ht.
  assert (Hlen : length (pend ++ bits 8 x) = (length pend + 8)%nat) by (rewrite length_app, bits_length; done).
  destruct (tx_j4_out (add_bits x s) (pend ++ bits 8 x)) as (H1 & H2 & H3); [apply Ht; lia|lia|].
  exists (drop 8 (pend ++ bits 8 x)). assert (Hd : length (drop 8 (pend ++ bits 8 x)) = length pend)
    by (rewrite length_drop; lia).
  split_and!; [|exact H1|done|exact H3]. destruct Hp as [_ Hb Hr]. constructor; [exact H2| |exact Hr].
  rewrite Hd. exact Hb.
Qed.

(** [tx_j2] in terms of [stuffed]. *)
Lemma low_byte v n : 0 <= n <= 2 -> 0 <= v < 2048 ->
  let w := Z.land v (Z.lnot 0xff) + n in
  Z.shiftr w 8 = Z.shiftr v 8 ∧ u8 w = n ∧
  Z.shiftr (u16 (w + Z.shiftl (u8 w) 8)) 8 = Z.shiftr v 8 + n ∧ 0 <= u16 (w + Z.shiftl (u8 w) 8) < 4096.
Proof.
  intros Hn Hv w. assert (Hw : w = 256 * (v / 256) + n).
  { unfold w. f_equal. rewrite <-Z.ldiff_land. change 0xff with (Z.ones 8). rewrite Z.ldiff_ones_r by done.
    rewrite Z.shiftl_mul_pow2, Z.shiftr_div_pow2 by done. change (2 ^ 8) with 256. lia. }
  assert (Hu : u8 w = n).
  { rewrite Hw. unfold u8. rewrite Z.add_comm, Z.mul_comm, Z.mod_add by done. apply Z.mod_small. lia. }
  rewrite Hu, !Z.shiftr_div_pow2, Z.shiftl_mul_pow2 by done. change (2 ^ 8) with 256.
  rewrite u16_id by (unfold is_u16; rewrite Hw; Z.to_euclidean_division_equations; lia).
  rewrite Hw. Z.to_euclidean_division_equations. lia.
Qed.
Lemma tx_j2_eq x s t n ib : stuffed (Z.shiftr (tx_ib s) 12) x = (t, n, ib) -> 0 <= n <= 2 ->
  0 <= tx_blevel s < 2048 ->
  ∃ v, Z.shiftr v 8 = Z.shiftr (tx_blevel s) 8 + n ∧ 0 <= v < 4096 ∧
  tx_j2 x s = ((tx_j3 t s).1, (tx_j3 t s).2 <| tx_ib := ib |> <| tx_blevel := v |>).
Proof.
  intros He Hn Hb. unfold stuffed in He. unfold tx_j2. destruct (5 <=? u8 _).
  - destruct (stuff_msb x _) as [[t0 n0] ib0]. rewrite He.
    destruct (low_byte (tx_blevel s) n Hn Hb) as (H1 & H2 & H3 & H4). eexists. split; [exact H3|].
    split; [exact H4|]. unfold tx_j3, tx_j4, add_bits. cbn. rewrite H1. by destruct s.
  - injection He as <- <- <-. exists (tx_blevel s). rewrite Z.add_0_r. split; [done|]. split; [lia|]. by destruct s.
Qed.
(** A byte of a frame. *)
Lemma tx_j2_out s pend x : let c := Z.shiftr (tx_ib s) 12 in
  pending s pend -> (length pend < 8)%nat -> is_u8 x -> 0 <= c <= 5 ->
  ∃ pend', let s' := (tx_j2 x s).2 in let c' := Z.shiftr (tx_ib s') 12 in
    pending s' pend' ∧ (length pend' <= length pend + 2)%nat ∧ 0 <= c' <= 5 ∧
    Z.to_nat (c' mod 5) = ones_after (Z.to_nat (c mod 5)) (bits 8 x) ∧
    bits 8 (tx_j2 x s).1 ++ pend' ++ due c' = pend ++ due c ++ stuff (Z.to_nat (c mod 5)) (bits 8 x) ∧
    is_u8 (tx_j2 x s).1 ∧ tx_flag s' = tx_flag s ∧ tx_src s' = tx_src s ∧ tx_queue s' = tx_queue s ∧
    tx_crc s' = tx_crc s ∧ tx_last s' = tx_last s.
Proof.
  intros c Hp Hl Hx Hc. pose proof (stuffed_check c x Hc Hx) as Hs. unfold stuffed_agrees in Hs.
  destruct (stuffed c x) as [[t n] ib] eqn:E. rewrite !andb_true_iff, bool_decide_eq_true in Hs.
  destruct Hs as ((((((((Ht0 & Hn0) & Hn2) & Ht) & Hi0) & Hi) & Hc5) & Ho) & Hb).
  apply Z.leb_le in Ht0, Hn0, Hn2, Hi0, Hc5. apply Z.ltb_lt in Ht, Hi. apply Nat.eqb_eq in Ho.
  assert (Hb8 : 0 <= tx_blevel s < 2048).
  { destruct Hp as [_ Hpb Hr]. rewrite Z.shiftr_div_pow2 in Hpb by done. Z.to_euclidean_division_equations. lia. }
  destruct (tx_j2_eq x s t n ib E (conj Hn0 Hn2) Hb8) as (v & Hv & Hvr & ->). cbn [fst snd].
  set (X := bits (Z.to_nat (8 + n)) t) in *.
  assert (HX : val X = t). { unfold X. rewrite val_bits, Z2Nat.id by lia. by apply Z.mod_small. }
  assert (HXl : length X = Z.to_nat (8 + n)) by apply bits_length.
  pose proof (add_bits_tmp s pend X Hp) as Ha. rewrite HX in Ha.
  assert (Hlen : length (pend ++ X) = (length pend + 8 + Z.to_nat n)%nat) by (rewrite length_app, HXl; lia).
  destruct (tx_j4_out (add_bits t s) (pend ++ X)) as (H1 & H2 & H3); [apply Ha; lia|lia|].
  exists (drop 8 (pend ++ X)). cbn [tx_ib]. split_and!; try done.
  - constructor; [exact H2| |exact Hvr]. cbn. rewrite Hv, length_drop, Hlen, (pe_blevel _ _ Hp). lia.
  - rewrite length_drop, Hlen. lia.
  - cbn. by apply Z.shiftr_nonneg.
  - rewrite app_assoc. unfold tx_j3. rewrite H1, <-app_assoc. f_equal. exact Hb.
Qed.

(** ** The line *)

(** What is sent before a frame: flag sequences on a B-channel, ones and a
    flag sequence on a D-channel. *)
Definition idle_bits (dchan : bool) (k : nat) : list bool :=
  if dchan then replicate k true else concat (replicate k FLAG).
Definition fill_bits (dchan : bool) (k : nat) : list bool :=
  idle_bits dchan k ++ (if dchan then FLAG else []).
(** Frames, each with the fill in front of it. *)
Definition frame_bits (frame : list Z) : list bool := stuff 0 (line (with_fcs frame)) ++ FLAG.
Definition sent_bits (dchan : bool) (sent : list (nat * list Z)) : list bool :=
  concat (map (λ '(k, f), fill_bits dchan k ++ frame_bits f) sent).
(** The first frame of a B-channel has an opening flag sequence of its own,
    the others share the closing one of the frame in front. *)
Definition opened (dchan : bool) (sent : list (nat * list Z)) (k : nat) : Prop :=
  dchan = true ∨ sent <> [] ∨ (1 <= k)%nat.
Fixpoint all_opened (dchan : bool) (pre sent : list (nat * list Z)) : Prop :=
  match sent with
  | [] => True
  | (k, f) :: sent => opened dchan pre k ∧ all_opened dchan (pre ++ [(k, f)]) sent
  end.
Lemma all_opened_snoc dchan pre sent k f :
  all_opened dchan pre sent -> opened dchan (pre ++ sent) k -> all_opened dchan pre (sent ++ [(k, f)]).
Proof.
  revert pre. induction sent as [|[k' f'] sent IH]; intros pre Ha Ho; cbn in *.
  - by rewrite app_nil_r in Ho.
  - destruct Ha as [H1 H2]. split; [done|]. apply IH; [done|]. by rewrite <-app_assoc.
Qed.
Lemma sent_bits_snoc dchan sent k f :
  sent_bits dchan (sent ++ [(k, f)]) = sent_bits dchan sent ++ fill_bits dchan k ++ frame_bits f.
Proof. unfold sent_bits. rewrite map_app, concat_app. cbn. by rewrite app_nil_r. Qed.

(** ** The state between two bytes of output *)

(** [d] of the frame [f], check sequence included, is sent behind [k] fills. *)
Record in_bytes (dchan : bool) (ib : Z) (sent : list (nat * list Z)) (k : nat) (d : list Z) : Prop := {
  ib_opened : opened dchan sent k;
  ib_carry : 0 <= Z.shiftr ib 12 <= 5;
  ib_ones : Z.to_nat (Z.shiftr ib 12 mod 5) = ones_after 0 (line d);
}.
(** The frames sent, the one that is being sent, and the bits on the line
    and pending. *)
Inductive phase (dchan : bool) (s : hdlc_tx) (sent : list (nat * list Z)) : option (list Z) -> list bool -> Prop :=
| ph_idle k X :
    tx_src s = [] -> 0 <= tx_flag s <= 2 -> 0 <= tx_ib s < 4096 ->
    (if dchan then (if tx_flag s =? 2 then 16 <= Z.of_nat k else Z.of_nat k = 8 * tx_flag s)
     else sent = [] ∧ Z.of_nat k = tx_flag s ∨ tx_flag s = 2 ∧ opened dchan sent k) ->
    X = sent_bits dchan sent ++ idle_bits dchan k ->
    phase dchan s sent None X
| ph_data k f d X :
    in_bytes dchan (tx_ib s) sent k d -> f = d ++ tx_src s -> tx_flag s = 3 -> tx_crc s = fcs_tab d ->
    X ++ due (Z.shiftr (tx_ib s) 12) = sent_bits dchan sent ++ fill_bits dchan k ++ stuff 0 (line d) ->
    phase dchan s sent (Some f) X
| ph_check k f X :
    let c := Z.lxor (fcs_tab f) 0xffff in
    in_bytes dchan (tx_ib s) sent k (f ++ [u8 c]) -> tx_src s = [] -> tx_flag s = 4 -> tx_crc s = c ->
    X ++ due (Z.shiftr (tx_ib s) 12) = sent_bits dchan sent ++ fill_bits dchan k ++ stuff 0 (line (f ++ [u8 c])) ->
    phase dchan s sent (Some f) X
| ph_end k f X :
    in_bytes dchan (tx_ib s) sent k (with_fcs f) -> tx_src s = [] -> tx_flag s = (if dchan then 5 else 1) ->
    X ++ due (Z.shiftr (tx_ib s) 12) = sent_bits dchan sent ++ fill_bits dchan k ++ stuff 0 (line (with_fcs f)) ->
    phase dchan s sent (Some f) X.

Definition good (f : list Z) : Prop := f <> [] ∧ Forall is_u8 f.
(** The invariant: [out] was sent, the queue held the frames [all]. *)
Record tx_inv (dchan : bool) (s : hdlc_tx) (out : list Z) (sent : list (nat * list Z)) (all : list (list Z))
  : Prop := {
  ti_pend : ∃ pend cur, pending s pend ∧ (length pend <= 10)%nat ∧
    phase dchan s sent cur (line out ++ pend) ∧ all = map snd sent ++ option_list cur ++ tx_queue s;
  ti_opened : all_opened dchan [] sent;
  ti_good : Forall good all;
  ti_out : Forall is_u8 out;
}.

(** A byte of a frame or of its check sequence. *)
Lemma byte_sent dchan s sent k d P out pend x :
  in_bytes dchan (tx_ib s) sent k d -> pending s pend -> (length pend < 8)%nat -> is_u8 x ->
  (line out ++ pend) ++ due (Z.shiftr (tx_ib s) 12) = P ++ stuff 0 (line d) ->
  ∃ pend', let s' := (tx_j2 x s).2 in let b := (tx_j2 x s).1 in
    pending s' pend' ∧ (length pend' <= length pend + 2)%nat ∧ in_bytes dchan (tx_ib s') sent k (d ++ [x]) ∧
    (line (out ++ [b]) ++ pend') ++ due (Z.shiftr (tx_ib s') 12) = P ++ stuff 0 (line (d ++ [x])) ∧
    is_u8 b ∧ tx_flag s' = tx_flag s ∧ tx_src s' = tx_src s ∧ tx_queue s' = tx_queue s ∧
    tx_crc s' = tx_crc s ∧ tx_last s' = tx_last s.
Proof.
  intros [Ho Hc H1] Hp Hl Hx HP.
  destruct (tx_j2_out s pend x Hp Hl Hx Hc) as (pend' & Hp' & Hl' & Hc' & H1' & Hb & Hr).
  exists pend'. split; [exact Hp'|]. split; [exact Hl'|]. split; [|split; [|exact Hr]].
  - constructor; [done|exact Hc'|]. by rewrite H1', H1, line_last, ones_after_app.
  - rewrite !line_last, <-!app_assoc, Hb, H1, stuff_app, !app_assoc. f_equal. exact HP.
Qed.
(** The flag sequence behind it. *)
Lemma val_due pend c : val (pend ++ due c) = val pend.
Proof. rewrite val_app. unfold due. case_match; cbn; lia. Qed.
Lemma special_pending s pend : pending s pend -> (length pend < 8)%nat ->
  pending (stuff_special s) (pend ++ due (Z.shiftr (tx_ib s) 12)).
Proof.
  intros [Ht Hb Hr] Hl. rewrite Z.shiftr_div_pow2 in Hb by done.
  assert (tx_blevel s < 2048) by (Z.to_euclidean_division_equations; lia). constructor.
  - by rewrite val_due.
  - cbn. unfold due. rewrite length_app, Z.shiftr_div_pow2 by done. case_match; [|cbn; lia].
    rewrite u16_id by (unfold is_u16; lia). cbn. Z.to_euclidean_division_equations. lia.
  - cbn. case_match; [|done]. rewrite u16_id by (unfold is_u16; lia). lia.
Qed.
Lemma flag_sent s out pend P : pending s pend -> (length pend < 8)%nat -> 0 <= Z.shiftr (tx_ib s) 12 <= 5 ->
  (line out ++ pend) ++ due (Z.shiftr (tx_ib s) 12) = P ->
  ∃ pend', let s' := (tx_j3 0x7e (stuff_special s)).2 in let b := (tx_j3 0x7e (stuff_special s)).1 in
    pending s' pend' ∧ (length pend' <= length pend + 1)%nat ∧ 0 <= tx_ib s' < 4096 ∧
    line (out ++ [b]) ++ pend' = P ++ FLAG ∧ is_u8 b.
Proof.
  intros Hp Hl Hc HP. destruct (tx_j3_out _ _ 0x7e (special_pending s pend Hp Hl)) as (pend' & H1 & H2 & H3 & H4);
    [unfold is_u8; lia|].
  exists pend'. split; [exact H1|]. split; [|split; [cbn; lia|split; [|exact H4]]].
  - rewrite H3, length_app. unfold due. case_match; cbn; lia.
  - rewrite line_last, <-app_assoc, H2, <-HP. by rewrite <-!app_assoc.
Qed.
Lemma idle_bits_add dchan k : idle_bits dchan k ++ bits 8 (if dchan then 0xff else 0x7e) =
  idle_bits dchan (k + if dchan then 8 else 1).
Proof.
  destruct dchan; cbn [idle_bits].
  - rewrite replicate_add. done.
  - rewrite replicate_add, concat_app. cbn. done.
Qed.
Lemma idle_sent dchan s out pend P k : pending s pend -> 
  line out ++ pend = P ++ idle_bits dchan k ->
  ∃ pend', let x := if dchan then 0xff else 0x7e in let s' := (tx_j3 x s).2 in let b := (tx_j3 x s).1 in
    pending s' pend' ∧ length pend' = length pend ∧
    line (out ++ [b]) ++ pend' = P ++ idle_bits dchan (k + if dchan then 8 else 1) ∧ is_u8 b.
Proof.
  intros Hp HP. destruct (tx_j3_out s pend (if dchan then 0xff else 0x7e) Hp) as (pend' & H1 & H2 & H3 & H4);
    [unfold is_u8; destruct dchan; lia|].
  exists pend'. split; [exact H1|]. split; [exact H3|]. split; [|exact H4].
  rewrite line_last, <-app_assoc, H2, app_assoc, HP, <-idle_bits_add. by rewrite app_assoc.
Qed.

Lemma prefix_front {A} (a b c d : list A) : a ++ b = c ++ d -> (length d <= length b)%nat -> a `prefix_of` c.
Proof.
  intros H Hl. exists (drop (length a) c). pose proof (f_equal length H) as Hn. rewrite !length_app in Hn.
  rewrite <-(take_drop (length a) c) at 1. f_equal. rewrite <-(take_app_le c d), <-H by lia.
  by rewrite take_app_length.
Qed.

(** ** One byte of output *)
Definition flag_weight (flag : Z) : nat :=
  match flag with 0 => 2 | 1 => 1 | 2 => 0 | 3 => 5 | 4 => 4 | _ => 3 end.
Definition queue_weight (q : list (list Z)) : nat := sum_list (map (λ f, length f + 8)%nat q).
Definition load (s : hdlc_tx) : nat :=
  (flag_weight (tx_flag s) + length (tx_src s) + queue_weight (tx_queue s))%nat.
(** An upper bound for the number of bytes until the queue is empty. *)
Definition weight (s : hdlc_tx) : nat :=
  (4 * load s + Z.to_nat (Z.shiftr (tx_blevel s) 8))%nat.
(** Every frame is on the line up to its closing flag sequence. *)
Definition drained (dchan : bool) (out : list Z) (sent : list (nat * list Z)) (all : list (list Z)) : Prop :=
  map snd sent = all ∧ sent_bits dchan sent `prefix_of` line out.
Definition advances (dchan : bool) (s : hdlc_tx) (out : list Z) (all : list (list Z)) (r : Z * hdlc_tx) : Prop :=
  ∃ sent, tx_inv dchan r.2 (out ++ [r.1]) sent all ∧
    (tx_last r.2 = true -> drained dchan (out ++ [r.1]) sent all) ∧
    (tx_last r.2 = true ∨ (weight r.2 < weight s)%nat).

(** Where the macro goes at the end of the data, by [flag]. *)
Definition next (dchan : bool) (s : hdlc_tx) : tx_label * hdlc_tx := if dchan then next_d s else next_b s.
Definition run_label (r : tx_label * hdlc_tx) : Z * hdlc_tx :=
  match r with
  | (to_j1, s) => tx_j1 s
  | (to_j2 tmp2, s) => tx_j2 tmp2 s
  | (to_j3 tmp2, s) => tx_j3 tmp2 s
  | (to_j4, s) => tx_j4 s
  end.
Definition idle_byte (dchan : bool) : Z := if dchan then 0xff else 0x7e.
Lemma next_eq dchan s :
  (tx_flag s = 0 ∨ tx_flag s = 1 -> next true s = (to_j3 0xff, s <| tx_flag := tx_flag s + 1 |>)) ∧
  (tx_flag s = 0 ∨ tx_flag s = 1 ->
    next false s = (to_j3 0x7e, stuff_special (s <| tx_flag := tx_flag s + 1 |>))) ∧
  (tx_flag s = 2 -> tx_queue s = [] -> tx_src s = [] ->
    next dchan s = (to_j3 (idle_byte dchan), s <| tx_last := true |>)) ∧
  (∀ m q, tx_flag s = 2 -> tx_queue s = m :: q -> m <> [] ->
    let s1 := s <| tx_flag := 3 |> <| tx_src := m |> <| tx_queue := q |> <| tx_crc := 0xffff |> <| tx_ib := 0 |> in
    next dchan s = if dchan then (to_j4, s1 <| tx_tmp := 0x7eff |> <| tx_blevel := 0x800 |>) else (to_j1, s1)) ∧
  (tx_flag s = 3 -> let c := Z.lxor (tx_crc s) 0xffff in
    next dchan s = (to_j2 (u8 c), s <| tx_flag := 4 |> <| tx_crc := c |>)) ∧
  (tx_flag s = 4 -> next dchan s =
    (to_j2 (u8 (Z.shiftr (tx_crc s) 8)), s <| tx_flag := if dchan then 5 else 1 |>)) ∧
  (tx_flag s = 5 -> next true s = (to_j3 0x7e, stuff_special (s <| tx_flag := 0 |>))).
Proof.
  destruct s as [fl bl ib crc tmp src q lst]. cbn [tx_flag tx_queue tx_src]. split_and!.
  - intros [-> | ->]; done.
  - intros [-> | ->]; done.
  - intros -> -> ->. by destruct dchan.
  - intros m q' -> -> Hm. destruct m; [done|]. by destruct dchan.
  - intros ->. by destruct dchan.
  - intros ->. by destruct dchan.
  - intros ->. done.
Qed.

Section Step.
Context (dchan : bool) (s : hdlc_tx) (out : list Z) (sent : list (nat * list Z)) (all : list (list Z)).
Context (pend : list bool) (Hp : pending s pend) (Ho : all_opened dchan [] sent) (Hg : Forall good all).
Context (Hu : Forall is_u8 out) (Hlast : tx_last s = false).

Lemma advances_intro r sent' cur pend' :
  pending r.2 pend' -> (length pend' <= 10)%nat -> phase dchan r.2 sent' cur (line (out ++ [r.1]) ++ pend') ->
  all = map snd sent' ++ option_list cur ++ tx_queue r.2 -> all_opened dchan [] sent' -> is_u8 r.1 ->
  (tx_last r.2 = true -> drained dchan (out ++ [r.1]) sent' all) ->
  (tx_last r.2 = true ∨ 4 * load r.2 + length pend' < 4 * load s + length pend)%nat ->
  advances dchan s out all r.
Proof.
  intros H1 H2 H3 H4 H5 H6 H7 H8. exists sent'. split; [|split; [exact H7|]].
  - constructor; [by exists pend', cur|done|done|]. apply Forall_app. split; [done|]. by apply Forall_singleton.
  - destruct H8 as [H8|H8]; [by left|right]. unfold weight.
    rewrite (pe_blevel _ _ Hp), (pe_blevel _ _ H1), !Nat2Z.id. exact H8.
Qed.

(** Eight bits are pending. *)
Lemma advances_flush cur : (8 <= length pend <= 10)%nat -> phase dchan s sent cur (line out ++ pend) ->
  all = map snd sent ++ option_list cur ++ tx_queue s ->
  advances dchan s out all (tx_j4 (s <| tx_blevel ::= λ v, v - 0x800 |>)).
Proof.
  intros Hl Hph Ha. destruct (tx_j4_out (s <| tx_blevel ::= λ v, v - 0x800 |>) pend) as (H1 & H2 & H3);
    [apply (pe_tmp _ _ Hp)|lia|]. destruct Hp as [_ Hb Hr]. rewrite Z.shiftr_div_pow2 in Hb by done.
  apply advances_intro with (sent' := sent) (cur := cur) (pend' := drop 8 pend); try done.
  - constructor; [exact H2| |cbn; Z.to_euclidean_division_equations; lia].
    cbn. rewrite length_drop, Z.shiftr_div_pow2 by done. Z.to_euclidean_division_equations. lia.
  - rewrite length_drop. lia.
  - rewrite line_last, <-app_assoc, H1. inversion Hph; subst.
    + by apply ph_idle with k.
    + by apply ph_data with k d.
    + by apply ph_check with k.
    + by apply ph_end with k.
  - cbn. by rewrite Hlast.
  - right. rewrite length_drop. change (load _) with (load s) at 1. lia.
Qed.

(** A byte of data. *)
Lemma advances_data f : (length pend < 8)%nat -> tx_src s <> [] -> phase dchan s sent (Some f) (line out ++ pend) ->
  all = map snd sent ++ f :: tx_queue s -> advances dchan s out all (tx_j1 s).
Proof.
  intros Hl Hne Hph. inversion Hph as [|k f' d X Hi Hf Hfl Hc HX| | ]; subst; try done. intros Ha.
  unfold tx_j1. destruct (tx_src s) as [|x src] eqn:E; [done|].
  assert (Hx : is_u8 x).
  { pose proof Hg as Hg'. rewrite Ha, Forall_app, Forall_cons in Hg'. destruct Hg' as (_ & [_ Hgf] & _).
    rewrite Forall_app, Forall_cons in Hgf. tauto. }
  rewrite u8_id by done. set (s1 := s <| tx_src := src |> <| tx_crc := crc_step (tx_crc s) x |>).
  destruct (byte_sent dchan s1 sent k d (sent_bits dchan sent ++ fill_bits dchan k) out pend x)
    as (pend' & H1 & H2 & H3 & H4 & H5 & H6 & H7 & H8 & H9 & H10); [done|by destruct Hp|done|done|by rewrite <-(app_assoc (sent_bits _ _))|].
  rewrite <-(app_assoc (sent_bits _ _)) in H4.
  apply advances_intro with (sent' := sent) (cur := Some (d ++ x :: src)) (pend' := pend'); try done.
  - lia.
  - apply ph_data with k (d ++ [x]); try done.
    + rewrite H7, <-app_assoc. done.
    + by rewrite H6.
    + rewrite H9. cbn. rewrite Hc. unfold fcs_tab. by rewrite fold_left_app.
  - by rewrite H8.
  - rewrite H10. cbn. by rewrite Hlast.
  - right. unfold load. rewrite H6, H7, H8, E. cbn -[queue_weight flag_weight Nat.mul]. lia.
Qed.

(** The check sequence. *)
Lemma cur_good f q l : all = l ++ f :: q -> good f.
Proof. intros H. pose proof Hg as Hg'. rewrite H, Forall_app, Forall_cons in Hg'. tauto. Qed.
Lemma advances_check1 f : (length pend < 8)%nat -> tx_src s = [] -> tx_flag s = 3 ->
  phase dchan s sent (Some f) (line out ++ pend) ->
  all = map snd sent ++ f :: tx_queue s -> advances dchan s out all (run_label (next dchan s)).
Proof.
  intros Hl He Hfl Hph. inversion Hph as [|k f' d X Hi Hf _ Hc HX|k f' X c _ _ Hf _ _|k f' X _ _ Hf _]; subst.
  2:congruence. 2:by rewrite Hf in Hfl; destruct dchan. intros Ha.
  destruct (next_eq dchan s) as (_ & _ & _ & _ & -> & _); [|done]. rewrite He, app_nil_r in *. cbn [run_label].
  set (c := Z.lxor (tx_crc s) 0xffff). set (s1 := s <| tx_flag := 4 |> <| tx_crc := c |>).
  destruct (byte_sent dchan s1 sent k d (sent_bits dchan sent ++ fill_bits dchan k) out pend (u8 c))
    as (pend' & H1 & H2 & H3 & H4 & H5 & H6 & H7 & H8 & H9 & H10);
    [done|by destruct Hp|done|apply u8_range|by rewrite <-(app_assoc (sent_bits _ _))|].
  rewrite <-(app_assoc (sent_bits _ _)) in H4.
  apply advances_intro with (sent' := sent) (cur := Some d) (pend' := pend'); try done.
  - lia.
  - subst c. rewrite Hc in *. apply ph_check with k; rewrite ?H7, ?H6, ?H9; try done.
    cbn. by rewrite Hc.
  - by rewrite H8.
  - rewrite H10. cbn. by rewrite Hlast.
  - right. unfold load. rewrite H6, H7, H8, Hfl. cbn -[queue_weight flag_weight Nat.mul]. rewrite He. cbn -[queue_weight]. lia.
Qed.
Lemma advances_check2 f : (length pend < 8)%nat -> tx_src s = [] -> tx_flag s = 4 ->
  phase dchan s sent (Some f) (line out ++ pend) ->
  all = map snd sent ++ f :: tx_queue s -> advances dchan s out all (run_label (next dchan s)).
Proof.
  intros Hl He Hfl Hph. inversion Hph as [|k f' d X _ _ Hf _ _|k f' X c Hi _ _ Hc HX|k f' X _ _ Hf _]; subst.
  1:congruence. 2:by rewrite Hf in Hfl; destruct dchan. intros Ha.
  destruct (next_eq dchan s) as (_ & _ & _ & _ & _ & -> & _); [|done]. cbn [run_label].
  set (s1 := s <| tx_flag := if dchan then 5 else 1 |>). rewrite Hc.
  destruct (byte_sent dchan s1 sent k (f ++ [u8 c]) (sent_bits dchan sent ++ fill_bits dchan k) out pend (u8 (Z.shiftr c 8)))
    as (pend' & H1 & H2 & H3 & H4 & H5 & H6 & H7 & H8 & H9 & H10);
    [done|by destruct Hp|done|apply u8_range|by rewrite <-(app_assoc (sent_bits _ _))|].
  rewrite <-(app_assoc (sent_bits _ _)) in H4. destruct (cur_good _ _ _ Ha) as [_ Hf8].
  assert (Hw : (f ++ [u8 c]) ++ [u8 (Z.shiftr c 8)] = with_fcs f).
  { unfold with_fcs. by rewrite <-fcs_tab_fcs, <-app_assoc. }
  rewrite Hw in *. apply advances_intro with (sent' := sent) (cur := Some f) (pend' := pend'); try done.
  - lia.
  - by apply ph_end with k; rewrite ?H7, ?H6.
  - by rewrite H8.
  - rewrite H10. cbn. by rewrite Hlast.
  - right. unfold load. rewrite H6, H7, H8, Hfl. cbn -[queue_weight flag_weight Nat.mul]. rewrite He.
    destruct dchan; cbn -[queue_weight]; lia.
Qed.

(** The closing flag sequence. *)
Lemma next_end : tx_flag s = (if dchan then 5 else 1) ->
  next dchan s = (to_j3 0x7e, stuff_special (s <| tx_flag := if dchan then 0 else 2 |>)).
Proof.
  intros Hf. destruct (next_eq dchan s) as (_ & Hb & _ & _ & _ & _ & Hd). destruct dchan; [by apply Hd|].
  rewrite Hb by auto. by rewrite Hf.
Qed.
Lemma advances_end f k : (length pend < 8)%nat -> tx_src s = [] -> tx_flag s = (if dchan then 5 else 1) ->
  in_bytes dchan (tx_ib s) sent k (with_fcs f) ->
  (line out ++ pend) ++ due (Z.shiftr (tx_ib s) 12) =
    sent_bits dchan sent ++ fill_bits dchan k ++ stuff 0 (line (with_fcs f)) ->
  all = map snd sent ++ f :: tx_queue s -> advances dchan s out all (run_label (next dchan s)).
Proof.
  intros Hl He Hfl Hi HX Ha. rewrite next_end by done. cbn [run_label].
  set (s1 := s <| tx_flag := if dchan then 0 else 2 |>).
  destruct (flag_sent s1 out pend _ (ltac:(by destruct Hp)) Hl (ib_carry _ _ _ _ _ Hi) HX)
    as (pend' & H1 & H2 & H3 & H4 & H5).
  assert (Hop : opened dchan (sent ++ [(k, f)]) 0) by (right; left; by destruct sent).
  apply advances_intro with (sent' := sent ++ [(k, f)]) (cur := None) (pend' := pend'); try done.
  - lia.
  - apply ph_idle with 0%nat; [done|cbn; destruct dchan; lia|done| |].
    + cbn. destruct dchan; [done|right; done].
    + rewrite H4, sent_bits_snoc. unfold frame_bits. destruct dchan; cbn [idle_bits replicate concat];
        by rewrite <-!app_assoc, app_nil_r.
  - rewrite map_app. cbn. by rewrite <-app_assoc.
  - apply all_opened_snoc; [done|apply (ib_opened _ _ _ _ _ Hi)].
  - cbn. by rewrite Hlast.
  - right. unfold load. cbn -[queue_weight flag_weight Nat.mul]. rewrite He, Hfl. destruct dchan; cbn -[queue_weight]; lia.
Qed.

End Step.

(** Nothing to send: [k] times the idle pattern is sent. *)
Record idle_at (dchan : bool) (s : hdlc_tx) (out : list Z) (sent : list (nat * list Z)) (all : list (list Z))
  (pend : list bool) (k : nat) : Prop := {
  id_pend : pending s pend;
  id_opened : all_opened dchan [] sent;
  id_good : Forall good all;
  id_u8 : Forall is_u8 out;
  id_last : tx_last s = false;
  id_len : (length pend < 8)%nat;
  id_src : tx_src s = [];
  id_ib : 0 <= tx_ib s < 4096;
  id_line : line out ++ pend = sent_bits dchan sent ++ idle_bits dchan k;
  id_all : all = map snd sent ++ tx_queue s;
}.
Lemma no_carry ib : 0 <= ib < 4096 -> Z.shiftr ib 12 = 0.
Proof. intros H. rewrite Z.shiftr_div_pow2 by done. by apply Z.div_small. Qed.
Lemma flag_weight_S f : f = 0 ∨ f = 1 -> (flag_weight (f + 1) < flag_weight f)%nat.
Proof. intros [-> | ->]; vm_compute; lia. Qed.
Lemma advances_lead_d s out sent all pend k :
  idle_at true s out sent all pend k -> tx_flag s = 0 ∨ tx_flag s = 1 -> Z.of_nat k = 8 * tx_flag s ->
  advances true s out all (run_label (next true s)).
Proof.
  intros [Hp Ho Hg Hu Hlast Hl Hsrc Hib HX Hall] Hfl Hk. destruct (next_eq true s) as (-> & _); [|done].
  pose proof (flag_weight_S _ Hfl). cbn [run_label]. set (s1 := s <| tx_flag := tx_flag s + 1 |>).
  destruct (idle_sent true s1 out pend _ k (ltac:(by destruct Hp)) HX) as (pend' & H1 & H2 & H3 & H4).
  apply advances_intro with (sent' := sent) (cur := None) (pend := pend) (pend' := pend'); try done.
  - lia.
  - apply ph_idle with (k + 8)%nat; try done; cbn; [lia|]. case_match; lia.
  - cbn. by rewrite Hlast.
  - right. unfold load. cbn -[queue_weight flag_weight Nat.mul]. lia.
Qed.
Lemma advances_lead_b s out sent all pend k :
  idle_at false s out sent all pend k -> tx_flag s = 0 ∨ tx_flag s = 1 -> sent = [] -> Z.of_nat k = tx_flag s ->
  advances false s out all (run_label (next false s)).
Proof.
  intros [Hp Ho Hg Hu Hlast Hl Hsrc Hib HX Hall] Hfl Hs Hk. destruct (next_eq false s) as (_ & -> & _); [|done].
  pose proof (flag_weight_S _ Hfl). cbn [run_label]. set (s1 := s <| tx_flag := tx_flag s + 1 |>).
  destruct (flag_sent s1 out pend (line out ++ pend)) as (pend' & H1 & H2 & H3 & H4 & H5);
    [by destruct Hp|done|cbn; rewrite no_carry; lia|cbn; rewrite no_carry by done; apply app_nil_r|].
  apply advances_intro with (sent' := sent) (cur := None) (pend := pend) (pend' := pend'); try done.
  - lia.
  - apply ph_idle with (k + 1)%nat; [done|cbn; lia|done|left; split; [done|cbn; lia]|].
    cbn [fst snd]. rewrite H4, HX, <-app_assoc. f_equal. apply (idle_bits_add false).
  - cbn. by rewrite Hlast.
  - right. unfold load. cbn -[queue_weight flag_weight Nat.mul]. lia.
Qed.
Lemma advances_stop dchan s out sent all pend k :
  idle_at dchan s out sent all pend k -> tx_flag s = 2 -> tx_queue s = [] ->
  (if dchan then 16 <= Z.of_nat k else opened dchan sent k) ->
  advances dchan s out all (run_label (next dchan s)).
Proof.
  intros [Hp Ho Hg Hu Hlast Hl Hsrc Hib HX Hall] Hfl Hq Hk.
  destruct (next_eq dchan s) as (_ & _ & -> & _); [|done..]. cbn [run_label].
  set (s1 := s <| tx_last := true |>).
  destruct (idle_sent dchan s1 out pend _ k (ltac:(by destruct Hp)) HX) as (pend' & H1 & H2 & H3 & H4).
  apply advances_intro with (sent' := sent) (cur := None) (pend := pend) (pend' := pend'); try done.
  - lia.
  - eapply ph_idle; [done|cbn; lia|done| |exact H3]. cbn. rewrite Hfl. cbn.
    destruct dchan; [lia|right; split; [done|]]. destruct Hk as [|[|]]; [done|right; by left|right; right; lia].
  - intros _. split; [by rewrite Hall, Hq, app_nil_r|].
    apply (prefix_front _ (idle_bits dchan (k + if dchan then 8 else 1)) _ pend'); [by rewrite <-H3|].
    rewrite H2, <-idle_bits_add, length_app, bits_length. lia.
  - by left.
Qed.

(** The next frame. *)
Lemma advances_start_b s out sent all pend k :
  idle_at false s out sent all pend k -> tx_flag s = 2 -> tx_queue s <> [] -> opened false sent k ->
  advances false s out all (run_label (next false s)).
Proof.
  intros [Hp Ho Hg Hu Hlast Hl Hsrc Hib HX Hall] Hfl Hq Hk. destruct (tx_queue s) as [|m q] eqn:E; [done|].
  assert (Hm : good m) by (rewrite Hall, Forall_app, Forall_cons in Hg; tauto).
  destruct (next_eq false s) as (_ & _ & _ & Hn & _). rewrite (Hn m q) by (done || apply Hm). cbn [run_label].
  set (s1 := s <| tx_flag := 3 |> <| tx_src := m |> <| tx_queue := q |> <| tx_crc := 0xffff |> <| tx_ib := 0 |>).
  destruct (advances_data false s1 out sent all pend (ltac:(by destruct Hp)) Ho Hg Hu Hlast m) as (sent' & H1 & H2 & H3).
  - done.
  - apply Hm.
  - apply ph_data with k []; [by constructor|done|done|done|]. 
    change (due _) with (@nil bool). change (stuff 0 (line [])) with (@nil bool). unfold fill_bits.
    by rewrite !app_nil_r.
  - done.
  - exists sent'. split; [exact H1|]. split; [exact H2|]. destruct H3 as [H3|H3]; [by left|right].
    enough (weight s1 < weight s)%nat by lia. unfold weight, load. rewrite E, Hfl, Hsrc. cbn -[Nat.mul Nat.add]. lia.
Qed.
(** The ones that are pending are not missed. *)
Lemma idle_pending l pend P k : l ++ pend = P ++ replicate k true -> (length pend <= k)%nat ->
  l = P ++ replicate (k - length pend) true.
Proof.
  intros H Hl. replace k with ((k - length pend) + length pend)%nat in H by lia.
  rewrite replicate_add, app_assoc in H. apply app_inj_2 in H as [H _]; [done|]. by rewrite length_replicate.
Qed.
Lemma advances_start_d s out sent all pend k :
  idle_at true s out sent all pend k -> tx_flag s = 2 -> tx_queue s <> [] -> 16 <= Z.of_nat k ->
  advances true s out all (run_label (next true s)).
Proof.
  intros [Hp Ho Hg Hu Hlast Hl Hsrc Hib HX Hall] Hfl Hq Hk. destruct (tx_queue s) as [|m q] eqn:E; [done|].
  assert (Hm : good m) by (rewrite Hall, Forall_app, Forall_cons in Hg; tauto).
  destruct (next_eq true s) as (_ & _ & _ & Hn & _). rewrite (Hn m q) by (done || apply Hm). cbn [run_label].
  apply advances_intro with (sent' := sent) (cur := Some m) (pend := pend) (pend' := FLAG); try done.
  - cbn. lia.
  - apply ph_data with (k - length pend + 8)%nat []; [constructor; [by left|done|done]|done|done|done|].
    change (stuff 0 (line [])) with (@nil bool). change (due _) with (@nil bool).
    rewrite !app_nil_r, line_last. rewrite (idle_pending _ _ _ _ HX) by lia. unfold fill_bits.
    cbn [idle_bits]. rewrite replicate_add, <-!app_assoc. done.
  - cbn. by rewrite Hlast.
  - right. unfold load. rewrite E, Hfl, Hsrc. cbn -[Nat.mul Nat.add]. lia.
Qed.

(** ** The macro and the filter *)
Lemma encode_advances dchan s out sent all :
  tx_inv dchan s out sent all -> tx_last s = false -> advances dchan s out all (HDLC_ENCODE dchan s).
Proof.
  intros [(pend & cur & Hp & Hl & Hph & Ha) Ho Hg Hu] Hlast.
  assert (Hb : (0x800 <=? tx_blevel s) = (8 <=? length pend)%nat).
  { destruct Hp as [_ Hb Hr]. rewrite Z.shiftr_div_pow2 in Hb by done.
    destruct (Z.leb_spec 0x800 (tx_blevel s)), (Nat.leb_spec 8 (length pend)); try done;
      Z.to_euclidean_division_equations; lia. }
  unfold HDLC_ENCODE. rewrite Hb. destruct (Nat.leb_spec 8 (length pend)) as [H8|H8].
  { by apply advances_flush with sent pend cur. }
  destruct (tx_src s) as [|x src] eqn:Hsrc.
  2:{ destruct cur as [f|]; [by apply advances_data with sent pend f; rewrite ?Hsrc|].
      inversion Hph as [k X Hs | | |]; subst; congruence. }
  change (advances dchan s out all (run_label (next dchan s))).
  inversion Hph as [k X _ Hf Hib Hk HX|k f d X _ _ Hf _ _|k f X c _ _ Hf _ _|k f X Hi _ Hf HX].
  - subst cur X. assert (Hid : idle_at dchan s out sent all pend k) by (by constructor).
    destruct (decide (tx_flag s = 2)) as [H2|H2].
    + rewrite H2 in Hk. cbn in Hk.
      assert (Hk' : if dchan then 16 <= Z.of_nat k else opened dchan sent k).
      { destruct dchan; [done|]. destruct Hk as [[_ Hk]|[_ Hk]]; [right; right; lia|done]. }
      destruct (decide (tx_queue s = [])) as [Hq|Hq]; [by apply advances_stop with sent pend k|].
      destruct dchan; [by apply advances_start_d with sent pend k|by apply advances_start_b with sent pend k].
    + assert (H01 : tx_flag s = 0 ∨ tx_flag s = 1) by lia. destruct dchan.
      * apply advances_lead_d with sent pend k; [done|done|]. case_match; lia.
      * apply advances_lead_b with sent pend k; destruct Hk as [[? ?]|[? _]]; done.
  - subst cur X. by apply advances_check1 with sent pend f.
  - subst cur X. by apply advances_check2 with sent pend f.
  - subst cur X. by apply advances_end with sent pend f k.
Qed.
Lemma fill_advances dchan room s out sent all :
  tx_inv dchan s out sent all -> tx_last s = false -> let '(l, s') := tx_fill dchan room s in
  ∃ sent', tx_inv dchan s' (out ++ l) sent' all ∧ (tx_last s' = true -> drained dchan (out ++ l) sent' all) ∧
    ((weight s < room)%nat -> tx_last s' = true).
Proof.
  revert s out sent. induction room as [|room IH]; intros s out sent Hi Hlast; cbn [tx_fill].
  { exists sent. rewrite app_nil_r. split; [done|]. split; [congruence|lia]. }
  destruct (encode_advances dchan s out sent all Hi Hlast) as (sent1 & H1 & H2 & H3).
  destruct (HDLC_ENCODE dchan s) as [b s1]. cbn [fst snd] in *. destruct (tx_last s1) eqn:E; [by exists sent1; auto|].
  specialize (IH s1 _ sent1 H1 E). destruct (tx_fill dchan room s1) as [l s']. destruct IH as (sent' & H4 & H5 & H6).
  exists sent'. rewrite <-app_assoc in H4, H5. split; [exact H4|]. split; [exact H5|].
  destruct H3 as [H3|H3]; [done|]. intros Hw. apply H6. lia.
Qed.
