(* ===== verification/HdlcLink.v ===== *)
(** * HDLC: from the encoder over the line to the decoder

    A sender is called for as many bytes as the line takes, with new frames
    in its queue or without; the receiver gets what it wrote.  Nothing is
    received that was not sent, nothing twice or out of order, and every
    frame is received when the sender is out of data. *)
From S2P Require Import Prelude Mbuf Dss1Types Hdlc HdlcSpec HdlcRx HdlcTx.
Local Open Scope Z_scope.

(** ** What a receiver makes of the line of a sender *)

(** Behind a flag sequence, with [E] received so far. *)
Definition at_flag (E : list (option (list bool))) : receiver := Receiver 0 (Some []) E.
(** Nothing is given to layer 2. *)
Definition silent (e : option (list bool)) : Prop := whole e ∧ good_frame e = None.

Lemma receive_cons r b l : receive r (b :: l) = receive (receive_bit r b) l.
Proof. done. Qed.
Lemma receive_stuff c a E l : (c <= 4)%nat ->
  receive (Receiver c (Some a) E) (stuff c l) = Receiver (ones_after c l) (Some (a ++ l)) E.
Proof.
  revert c a. induction l as [|b l IH]; intros c a Hc; [cbn; by rewrite app_nil_r|].
  destruct b; cbn [stuff ones_after].
  - destruct (Nat.eqb_spec c 4) as [->|Hn].
    + rewrite !receive_cons. cbn -[receive]. rewrite (IH 0%nat) by lia. by rewrite <-app_assoc.
    + assert (c = 0 ∨ c = 1 ∨ c = 2 ∨ c = 3)%nat as H by lia. destruct_or! H; subst c;
        rewrite receive_cons; cbn -[receive]; rewrite IH by lia; by rewrite <-app_assoc.
  - assert (c = 0 ∨ c = 1 ∨ c = 2 ∨ c = 3 ∨ c = 4)%nat as H by lia. destruct_or! H; subst c;
      rewrite receive_cons; cbn -[receive]; rewrite (IH 0%nat) by lia; by rewrite <-app_assoc.
Qed.
Lemma receive_closing c a E : (c <= 4)%nat ->
  receive (Receiver c (Some a) E) FLAG = at_flag (E ++ [Some (a ++ take 7 FLAG)]).
Proof.
  intros Hc. assert (c = 0 ∨ c = 1 ∨ c = 2 ∨ c = 3 ∨ c = 4)%nat as H by lia.
  destruct_or! H; subst c; cbn; by rewrite <-!app_assoc.
Qed.
Lemma receive_frame E f :
  receive (at_flag E) (frame_bits f) = at_flag (E ++ [Some (line (with_fcs f) ++ take 7 FLAG)]).
Proof.
  unfold frame_bits, at_flag. rewrite receive_app, receive_stuff, receive_closing by (try apply ones_after_le; lia).
  done.
Qed.
Lemma receive_ones E k : receive (Receiver 7 None E) (replicate k true) = Receiver 7 None E.
Proof. induction k as [|k IH]; [done|]. exact IH. Qed.

(** Ones and flag sequences in front of a frame. *)
Lemma receive_fill_d acc E k : acc = None ∨ acc = Some [] ->
  ∃ es, receive (Receiver 0 acc E) (fill_bits true k) = at_flag (E ++ es) ∧ Forall silent es.
Proof.
  intros Hacc. unfold fill_bits, idle_bits. rewrite receive_app.
  destruct (decide (k < 7)%nat) as [Hk|Hk].
  - assert (k = 0 ∨ k = 1 ∨ k = 2 ∨ k = 3 ∨ k = 4 ∨ k = 5 ∨ k = 6)%nat as H by lia.
    destruct Hacc as [-> | ->]; destruct_or! H; subst k; cbn; rewrite <-?app_assoc; cbn;
      (eexists; split; [done|]); repeat (apply Forall_cons; split); try apply Forall_nil_2;
      (split; [cbn; lia || done|reflexivity]).
  - replace k with (7 + (k - 7))%nat by lia. rewrite replicate_add, receive_app.
    assert (receive (Receiver 0 acc E) (replicate 7 true) = Receiver 7 None E) as ->.
    { destruct Hacc as [-> | ->]; done. }
    rewrite receive_ones. exists [None]. split; [done|]. by apply Forall_singleton.
Qed.
Lemma receive_flags_b E k : ∃ es, receive (at_flag E) (fill_bits false k) = at_flag (E ++ es) ∧ Forall silent es.
Proof.
  unfold fill_bits, idle_bits. rewrite app_nil_r. revert E. induction k as [|k IH]; intros E.
  { exists []. rewrite app_nil_r. auto. }
  cbn [replicate concat]. rewrite receive_app. unfold at_flag at 1. rewrite receive_closing by lia.
  destruct (IH (E ++ [Some ([] ++ take 7 FLAG)])) as (es & -> & Hs). eexists. rewrite <-app_assoc. split; [done|].
  apply Forall_cons. split; [|done]. split; [cbn; lia|reflexivity].
Qed.
(** The receiver behind what was sent: it has seen no flag sequence, or one
    is just over. *)
Definition seen (sent : list (nat * list Z)) (r : receiver) (E : list (option (list bool))) : Prop :=
  if decide (sent = []) then r = Receiver 0 None E else r = at_flag E.
Lemma receive_fill dchan pre E r k :
  opened dchan pre k -> seen pre r E ->
  ∃ es, receive r (fill_bits dchan k) = at_flag (E ++ es) ∧ Forall silent es.
Proof.
  intros Ho Hr. unfold seen in Hr. destruct dchan.
  - case_decide; subst r; apply receive_fill_d; auto.
  - case_decide; subst r; [|apply receive_flags_b]. destruct Ho as [?|[?|Hk]]; [done|done|].
    destruct k as [|k]; [lia|]. unfold fill_bits, idle_bits. cbn [replicate concat]. rewrite <-app_assoc, receive_app.
    change (receive (Receiver 0 None E) FLAG) with (at_flag (E ++ [None])).
    change (concat (replicate k FLAG) ++ []) with (fill_bits false k).
    destruct (receive_flags_b (E ++ [None]) k) as (es & -> & Hs). eexists. rewrite <-app_assoc. split; [done|].
    by apply Forall_cons.
Qed.

(** Every frame on the line is received. *)
Lemma with_fcs_u8 f : Forall is_u8 f -> Forall is_u8 (with_fcs f).
Proof.
  intros Hf. unfold with_fcs. apply Forall_app. split; [done|]. repeat (apply Forall_cons; split); try apply u8_range.
  apply Forall_nil_2.
Qed.
(** A frame of layer 2. *)
Definition sendable (f : list Z) : Prop := good f ∧ (length f <= BCH_MAX_DATALEN)%nat.
Lemma frame_received f : good f -> (length f <= BCH_MAX_DATALEN)%nat ->
  let e := Some (line (with_fcs f) ++ take 7 FLAG) in whole e ∧ good_frame e = Some f.
Proof.
  intros [Hne Hf] Hl. pose proof (with_fcs_u8 f Hf) as Hw. cbv zeta. split.
  - right. rewrite length_app, line_length, Nat.mul_comm, Nat.add_comm, Nat.Div0.mod_add. done.
  - unfold good_frame. rewrite bytes_of_line by (done || cbn; lia). rewrite <-fcs_tab_fcs, fcs_residue by done.
    assert (Hlen : length (with_fcs f) = (length f + 2)%nat) by (unfold with_fcs; rewrite length_app; done).
    assert (1 <= length f)%nat by (destruct f; [done|cbn; lia]).
    rewrite Hlen, !(proj2 (Nat.leb_le _ _)) by lia. cbn [andb Z.eqb Pos.eqb].
    f_equal. replace (length f + 2 - 2)%nat with (length f) by lia. unfold with_fcs. by rewrite take_app_length.
Qed.
Lemma silent_omap es : Forall silent es -> omap good_frame es = [].
Proof. induction 1 as [|e es [_ He] _ IH]; [done|]. cbn [omap list_omap]. by rewrite He. Qed.
Lemma receive_sent dchan pre sent E r :
  all_opened dchan pre sent -> seen pre r E -> Forall sendable (map snd sent) ->
  ∃ es, seen (pre ++ sent) (receive r (sent_bits dchan sent)) (E ++ es) ∧ Forall whole es ∧
    omap good_frame es = map snd sent.
Proof.
  revert pre E r. induction sent as [|[k f] sent IH]; intros pre E r Ho Hr Hg.
  { exists []. by rewrite !app_nil_r. }
  cbn [map] in Hg. apply Forall_cons in Hg as [[Hgf Hlf] Hg]. destruct Ho as [Ho1 Ho]. cbn [snd] in Hgf, Hlf.
  destruct (receive_fill dchan pre E r k Ho1 Hr) as (es & He & Hs). destruct (frame_received f Hgf Hlf) as [Hw Hf].
  set (e := Some (line (with_fcs f) ++ take 7 FLAG)) in *.
  destruct (IH (pre ++ [(k, f)]) (E ++ es ++ [e]) (at_flag (E ++ es ++ [e]))) as (es' & H1 & H2 & H3); [done| |done|].
  { unfold seen. rewrite decide_False; [done|]. by destruct pre. }
  exists (es ++ e :: es'). split_and!.
  - unfold sent_bits. cbn [map concat]. rewrite receive_app, receive_app, He, receive_frame. fold e.
    rewrite <-!app_assoc in *. exact H1.
  - apply Forall_app. split; [|by apply Forall_cons]. eapply Forall_impl; [exact Hs|]. by intros ? [].
  - rewrite omap_app, silent_omap by done. cbn [omap list_omap app]. rewrite Hf. cbn [map snd]. by rewrite <-H3.
Qed.

(** What is on the line can be completed to frames of the queue. *)
Lemma frame_prefix d d' P k X c :
  X ++ due c = P ++ fill_bits k.1 k.2 ++ stuff 0 (line d) -> ∃ more,
  X ++ more = P ++ fill_bits k.1 k.2 ++ stuff 0 (line (d ++ d')) ++ FLAG.
Proof.
  intros H. rewrite line_app, stuff_app. eexists (due c ++ _). rewrite app_assoc, H, <-!app_assoc. done.
Qed.
Lemma line_completed dchan s out sent all : tx_inv dchan s out sent all ->
  ∃ sent' k more, line out ++ more = sent_bits dchan sent' ++ fill_bits dchan k ∧
    all_opened dchan [] sent' ∧ opened dchan sent' k ∧ map snd sent' `prefix_of` all.
Proof.
  intros [(pend & cur & _ & _ & Hph & Ha) Ho Hg _].
  assert (Hidle : ∀ k, line out ++ pend = sent_bits dchan sent ++ idle_bits dchan k ->
    cur = None -> ∃ sent' k more, line out ++ more = sent_bits dchan sent' ++ fill_bits dchan k ∧
    all_opened dchan [] sent' ∧ opened dchan sent' k ∧ map snd sent' `prefix_of` all).
  { intros k HX ->. exists sent, (if dchan then k else k + 1)%nat, (pend ++ FLAG). split_and!; [|done| |].
    - rewrite app_assoc, HX, <-app_assoc. f_equal. unfold fill_bits. destruct dchan; [done|].
      rewrite app_nil_r. apply (idle_bits_add false).
    - destruct dchan; [by left|right; right; lia].
    - rewrite Ha. by apply prefix_app_r. }
  assert (Hframe : ∀ k f d d', (line out ++ pend) ++ due (Z.shiftr (tx_ib s) 12) =
      sent_bits dchan sent ++ fill_bits dchan k ++ stuff 0 (line d) -> opened dchan sent k ->
    with_fcs f = d ++ d' -> cur = Some f ->
    ∃ sent' k more, line out ++ more = sent_bits dchan sent' ++ fill_bits dchan k ∧
    all_opened dchan [] sent' ∧ opened dchan sent' k ∧ map snd sent' `prefix_of` all).
  { intros k f d d' HX Hk Hd ->. destruct (frame_prefix d d' _ (dchan, k) _ _ HX) as [more Hm].
    exists (sent ++ [(k, f)]), 0%nat, (pend ++ more ++ fill_bits dchan 0). split_and!.
    - rewrite sent_bits_snoc. unfold frame_bits. rewrite Hd. cbn [fst snd] in Hm. rewrite !app_assoc in *.
      by rewrite Hm.
    - by apply all_opened_snoc.
    - right. left. by destruct sent.
    - rewrite Ha, map_app. cbn [map snd option_list]. apply prefix_app. by apply prefix_cons, prefix_nil. }
  inversion Hph as [k X _ _ _ _ HX|k f d X [Hk _ _] Hf _ _ HX|k f X c [Hk _ _] _ _ _ HX|k f X [Hk _ _] _ _ HX]; subst X.
  - by apply (Hidle k).
  - apply (Hframe k f d (tx_src s ++ drop (length f) (with_fcs f))); try done.
    rewrite app_assoc, <-Hf. unfold with_fcs. by rewrite drop_app_length.
  - assert (Hgf : good f) by (rewrite Ha in Hg; subst cur; apply Forall_app in Hg as [_ Hg]; by apply Forall_cons in Hg as [? _]).
    apply (Hframe k f _ [u8 (Z.shiftr c 8)] HX); try done. unfold with_fcs, c. destruct Hgf as [_ Hgf].
    by rewrite <-fcs_tab_fcs, <-app_assoc.
  - apply (Hframe k f _ [] HX); try done. by rewrite app_nil_r.
Qed.

(** ** Sending *)

(** The filter of a B- or of a D-channel. *)
Definition emulate (dchan : bool) : nat -> hdlc_tx -> list Z * hdlc_tx :=
  if dchan then tx_hdlc_emulation_dchan else tx_hdlc_emulation.
(** Calls of the filter, each with the frames that were queued before it
    and the room for output. *)
Fixpoint send (dchan : bool) (calls : list (list (list Z) * nat)) (s : hdlc_tx) : list Z * hdlc_tx :=
  match calls with
  | [] => ([], s)
  | (new, room) :: calls =>
      let '(l, s) := emulate dchan room (s <| tx_queue ::= λ q, q ++ new |>) in
      let '(l', s) := send dchan calls s in (l ++ l', s)
  end.
Definition queued (calls : list (list (list Z) * nat)) : list (list Z) := concat (map fst calls).
(** What the other side gets of a line, with the answers [alloc] of the
    allocations of its receive buffers. *)
Definition received (alloc : list bool) (bytes : list Z) : list (list Z) :=
  rx_frames (rx_hdlc_emulation (rx_reset alloc) bytes).

Lemma tx_inv_reset dchan : tx_inv dchan (tx_reset []) [] [] [].
Proof.
  constructor; [|done|by apply Forall_nil_2|by apply Forall_nil_2]. exists [], None. split_and!; [done|cbn; lia| |done].
  apply ph_idle with 0%nat; try done; destruct dchan; try done. by left.
Qed.
Lemma inv_queue dchan s out sent all new : tx_inv dchan s out sent all -> Forall good new ->
  tx_inv dchan (s <| tx_queue ::= λ q, q ++ new |> <| tx_last := false |>) out sent (all ++ new).
Proof.
  intros [(pend & cur & Hp & Hl & Hph & Ha) Ho Hg Hu] Hn. constructor; [|done|by apply Forall_app|done].
  exists pend, cur. split_and!; [by destruct Hp|done| |by rewrite Ha, <-!app_assoc].
  inversion Hph; subst; [by apply ph_idle with k|by apply ph_data with k d|by apply ph_check with k|by apply ph_end with k].
Qed.
Lemma emulate_inv dchan room s out sent all new : tx_inv dchan s out sent all -> Forall good new ->
  let '(l, s') := emulate dchan room (s <| tx_queue ::= λ q, q ++ new |>) in
  ∃ sent', tx_inv dchan s' (out ++ l) sent' (all ++ new) ∧
    (tx_last s' = true -> drained dchan (out ++ l) sent' (all ++ new)) ∧
    ((weight (s <| tx_queue ::= λ q, q ++ new |>) < room)%nat -> tx_last s' = true).
Proof.
  intros Hi Hn. pose proof (fill_advances dchan room _ _ _ _ (inv_queue dchan s out sent all new Hi Hn) eq_refl) as H.
  unfold emulate. destruct dchan; exact H.
Qed.
Lemma send_inv dchan calls s out sent all : tx_inv dchan s out sent all -> Forall good (queued calls) ->
  let '(l, s') := send dchan calls s in ∃ sent', tx_inv dchan s' (out ++ l) sent' (all ++ queued calls).
Proof.
  revert s out sent all. induction calls as [|[new room] calls IH]; intros s out sent all Hi Hg; cbn [send].
  { exists sent. by rewrite !app_nil_r. }
  unfold queued in Hg. cbn [map concat fst] in Hg. apply Forall_app in Hg as [Hn Hg].
  pose proof (emulate_inv dchan room s out sent all new Hi Hn) as H. destruct (emulate _ _ _) as [l s1].
  destruct H as (sent1 & H1 & _). specialize (IH s1 _ sent1 _ H1 Hg). destruct (send dchan calls s1) as [l' s'].
  destruct IH as [sent' H2]. exists sent'. unfold queued. cbn [map concat fst]. by rewrite !app_assoc in *.
Qed.
Lemma send_snoc dchan calls new room s :
  send dchan (calls ++ [(new, room)]) s =
  let '(l, s1) := send dchan calls s in
  let '(l', s2) := emulate dchan room (s1 <| tx_queue ::= λ q, q ++ new |>) in (l ++ l', s2).
Proof.
  revert s. induction calls as [|[n r] calls IH]; intros s; cbn [send app].
  - destruct (emulate _ _ _) as [l' s2]. by rewrite app_nil_r.
  - destruct (emulate dchan r _) as [l s1]. rewrite IH. destruct (send dchan calls s1) as [l1 s2].
    destruct (emulate dchan room _) as [l' s3]. by rewrite app_assoc.
Qed.

(** ** Receiving *)
Section receiving.
Context (alloc : list bool).
Hypothesis enough : Forall (.= true) alloc.
Lemma received_line bytes : Forall is_u8 bytes -> Forall whole (r_flags (receive receiver_reset (line bytes))) ->
  received alloc bytes = omap good_frame (r_flags (receive receiver_reset (line bytes))).
Proof using enough. intros Hb Hw. apply tr_frames, emulation_tracks; [by apply tracks_reset|done|done]. Qed.
Lemma omap_prefix {A B} (f : A -> option B) l l' : l `prefix_of` l' -> omap f l `prefix_of` omap f l'.
Proof. intros [k ->]. rewrite omap_app. by apply prefix_app_r. Qed.
(** The flags of a line with whole frames. *)
Lemma sent_flags dchan sent k : all_opened dchan [] sent -> opened dchan sent k -> Forall sendable (map snd sent) ->
  let fl := r_flags (receive receiver_reset (sent_bits dchan sent ++ fill_bits dchan k)) in
  Forall whole fl ∧ omap good_frame fl = map snd sent.
Proof.
  intros Ho Hk Hs. destruct (receive_sent dchan [] sent [] receiver_reset Ho eq_refl Hs) as (es & H1 & H2 & H3).
  destruct (receive_fill dchan sent _ _ k Hk H1) as (es' & H4 & H5). cbv zeta. rewrite receive_app, H4. cbn [r_flags at_flag app].
  split; [|by rewrite omap_app, H3, silent_omap, app_nil_r]. apply Forall_app. split; [done|].
  eapply Forall_impl; [exact H5|]. by intros ? [].
Qed.
Lemma inv_received dchan s out sent all : tx_inv dchan s out sent all -> Forall sendable all ->
  received alloc out `prefix_of` all ∧ (drained dchan out sent all -> received alloc out = all).
Proof using enough.
  intros Hi Hs. destruct (line_completed _ _ _ _ _ Hi) as (sent' & k & more & H1 & H2 & H3 & H4).
  destruct (sent_flags dchan sent' k H2 H3) as [Hw Hf]; [by destruct H4 as [? ->]; apply Forall_app in Hs as [? _]|].
  rewrite <-H1, receive_app in Hw, Hf. pose proof (receive_flags (receive receiver_reset (line out)) more) as Hp.
  assert (Hr : received alloc out = omap good_frame (r_flags (receive receiver_reset (line out)))).
  { apply received_line; [apply (ti_out _ _ _ _ _ Hi)|]. destruct Hp as [x Hx]. rewrite Hx in Hw.
    by apply Forall_app in Hw as [? _]. }
  assert (Hpre : received alloc out `prefix_of` all).
  { rewrite Hr. etransitivity; [apply omap_prefix, Hp|]. by rewrite Hf. }
  split; [done|]. intros [Hd [x Hx]]. apply prefix_length_eq; [done|]. 
  destruct (receive_sent dchan [] sent [] receiver_reset (ti_opened _ _ _ _ _ Hi) eq_refl) as (es & H5 & _ & H6);
    [by rewrite Hd|].
  rewrite Hr, Hx, receive_app, <-Hd, <-H6. apply prefix_length, omap_prefix.
  etransitivity; [|apply receive_flags]. unfold seen in H5. case_decide; rewrite H5; done.
Qed.
End receiving.

(** ** The theorems *)
Lemma sendable_good l : Forall sendable l -> Forall good l.
Proof. intros H. eapply Forall_impl; [exact H|]. by intros ? []. Qed.

(** On every B- and D-channel, however the calls of the transmit filter
    are spread and whatever room each of them has, the bits on the line are
    the beginning of a well-formed HDLC line: fill (flag sequences, or ones
    and a flag sequence on a D-channel), then frames in the order in which
    layer 2 queued them, each with its check sequence, zeros stuffed, and a
    closing flag sequence. *)
Lemma hdlc_line_format dchan calls :
  Forall sendable (queued calls) ->
  let out := (send dchan calls (tx_reset [])).1 in
  ∃ sent k more, line out ++ more = sent_bits dchan sent ++ fill_bits dchan k ∧
    all_opened dchan [] sent ∧ map snd sent `prefix_of` queued calls.
Proof.
  intros Hs. pose proof (send_inv dchan calls _ _ _ _ (tx_inv_reset dchan) (sendable_good _ Hs)) as H.
  destruct (send dchan calls (tx_reset [])) as [l s]. destruct H as [sent' Hi].
  destruct (line_completed _ _ _ _ _ Hi) as (sent & k & more & H1 & H2 & H3 & H4). by exists sent, k, more.
Qed.

(** Two frames, one of them with ones to be stuffed, in two calls. *)
Definition sample_calls : list (list (list Z) * nat) := [([[0xff; 0x7e; 0xfd]], 7%nat); ([[0x01]], 3%nat)].
Lemma sample_frames_ok : Forall sendable (queued sample_calls).
Proof.
  assert (1 <= BCH_MAX_DATALEN ∧ 3 <= BCH_MAX_DATALEN)%nat as [H1 H3] by (unfold BCH_MAX_DATALEN; lia).
  repeat (apply Forall_cons; split); try apply Forall_nil_2; (split; [split; [done|]|done]);
    repeat (apply Forall_cons; split); try apply Forall_nil_2; unfold is_u8; lia.
Qed.

(** C25: The receive filter behind the line of a transmit filter.  Both
    start as after the setup of their FIFOs; the frames that are queued have
    1 up to BCH_MAX_DATALEN bytes, and every allocation of a receive buffer
    succeeds.  Then layer 2 gets only frames that were queued, unchanged, in
    their order, none twice and none left out in between: at any time, what
    was received is a prefix of what was queued. *)
Theorem hdlc_in_order alloc dchan calls :
  Forall (.= true) alloc -> Forall sendable (queued calls) ->
  received alloc (send dchan calls (tx_reset [])).1 `prefix_of` queued calls.
Proof.
  intros Ha Hs. pose proof (send_inv dchan calls _ _ _ _ (tx_inv_reset dchan) (sendable_good _ Hs)) as H.
  destruct (send dchan calls (tx_reset [])) as [l s]. destruct H as [sent Hi].
  by apply (inv_received _ Ha _ _ _ _ _ Hi).
Qed.

Lemma hdlc_in_order_witness :
  received [true] (send false sample_calls (tx_reset [])).1 = [[0xff; 0x7e; 0xfd]] ∧
  received [true] (send false sample_calls (tx_reset [])).1 `prefix_of` queued sample_calls.
Proof.
  split; [vm_compute; reflexivity|]. apply (hdlc_in_order [true] false sample_calls); [by repeat constructor|exact sample_frames_ok].
Defined.

(** C8: Everything gets across.  After any calls of the transmit filter,
    more frames are queued and the filter is called with room for what is
    still to be sent: [weight] counts four bytes for every byte of the frame
    in work and of the frames in the queue and for every byte that goes with
    them (check sequence, flag sequences), and the bits left over.  Then the
    receive filter has given layer 2 exactly the frames that were queued on
    the other side, whatever happened in the calls before.  Both filters
    start as after the setup of their FIFOs, every frame has 1 up to
    BCH_MAX_DATALEN bytes, and every allocation of a receive buffer
    succeeds. *)
Theorem hdlc_delivers alloc dchan calls new room :
  Forall (.= true) alloc -> Forall sendable (queued calls ++ new) ->
  (weight ((send dchan calls (tx_reset [])).2 <| tx_queue ::= λ q, q ++ new |>) < room)%nat ->
  received alloc (send dchan (calls ++ [(new, room)]) (tx_reset [])).1 = queued calls ++ new.
Proof.
  intros Ha Hs Hr. apply Forall_app in Hs as Hs'. destruct Hs' as [Hs1 Hs2]. rewrite send_snoc.
  pose proof (send_inv dchan calls _ _ _ _ (tx_inv_reset dchan) (sendable_good _ Hs1)) as H.
  destruct (send dchan calls (tx_reset [])) as [l s1]. destruct H as [sent Hi].
  pose proof (emulate_inv dchan room _ _ _ _ _ Hi (sendable_good _ Hs2)) as H.
  cbn [fst snd] in Hr. destruct (emulate dchan room _) as [l' s2]. destruct H as (sent' & H1 & H2 & H3).
  apply (inv_received _ Ha _ _ _ _ _ H1); [done|]. by apply H2, H3.
Qed.
(** The first of the two frames is out when the third call comes. *)
Lemma hdlc_delivers_witness :
  received [true] (send false (sample_calls ++ [([], 40%nat)]) (tx_reset [])).1 = [[0xff; 0x7e; 0xfd]; [0x01]].
Proof.
  rewrite (hdlc_delivers [true] false sample_calls [] 40); [reflexivity|by repeat constructor|
    rewrite app_nil_r; exact sample_frames_ok|vm_compute; lia].
Defined.
