(* ===== verification/Shorthold.v ===== *)
(** * Idle time supervision and unit charging (layer4/i4b_l4.c)

    [i4b_l4_connect_active_ind] starts the supervision of a connected call,
    [i4b_l4_setup_timeout] chooses the algorithm, [i4b_idle_check] is
    the timer that counts charging units and hangs up an idle call, and the
    request [I4B_TIMEOUT_UPD] of the daemon changes the parameters.  The
    state holds the members of [call_desc_t] they use, the clock in ticks
    and what is sent: the messages to the daemon, the calls into the CAPI
    interface, and N_DISCONNECT_REQUEST, which ends the call (L3Decoder.v).
    A callout that is reset for [n] ticks fires [n] ticks from now. *)
From stdpp Require Import relations.
From S2P Require Import Prelude Mbuf Dss1Types Dss1State.
Local Open Scope Z_scope.

Module Shorthold.

(** [shorthold_algorithm] and [idle_state] (i4b_ioctl.h, i4b_global.h). *)
Definition SHA_FIXU : Z := 0.
Definition SHA_VARU : Z := 1.
Definition IST_NOT_STARTED : Z := 0.
Definition IST_STARTED : Z := 1.
Definition IST_CHECK : Z := 2.
Definition CHARGE_CALC : Z := 3.
Definition I4B_AI_BROADCAST : Z := 0.
Definition I4B_AI_I4B : Z := 1.
Definition I4B_AI_CAPI : Z := 2.

Record msg_shorthold := Msg_shorthold {
  shorthold_algorithm : Z;
  unitlen_time : Z;
  idle_time : Z;
  earlyhup_time : Z;
}.
(** What is sent. *)
Inductive sent_ind :=
| MSG_CHARGING_IND (units : Z)
| MSG_IDLE_TIMEOUT_IND
| MSG_CONNECT_ACTIVE_IND (channel : Z) (datetime : list Z)
| capi_ai_connect_active_ind
| capi_ai_info_ind (number : Z)
| N_DISCONNECT_REQUEST (cause : Z).

Record call := Call {
  N_fifo_translator : bool;              (* of the controller *)
  cdid : Z;
  ai_type : Z;
  dir_incoming : bool;
  aocd_flag : bool;
  channel_id : Z;
  idle_state : Z;
  shorthold_data : msg_shorthold;
  connect_time : Z;
  last_active_time : Z;
  units_type : Z;
  units : Z;
  cunits : Z;
  idate_time_len : nat;
  idate_time_data : list Z;
  idle_callout : option Z;               (* the tick it is due at *)
  ticks : Z;                             (* now *)
  mbufs : list bool;                     (* outcomes of the next i4b_getmbuf; then success *)
  out : list sent_ind;
}.

Section Operations.
(** Clock ticks per second. *)
Context (hz : Z).

(** [time_uptime] *)
Definition SECOND (cd : call) : Z := ticks cd / hz.
(** [callout_reset(&cd->idle_callout, n, i4b_idle_check, cd)] *)
Definition callout_reset (n : Z) (cd : call) : call := cd <| idle_callout := Some (ticks cd + n) |>.
Definition send_msg (m : sent_ind) (cd : call) : call := cd <| out ::= λ l, l ++ [m] |>.
(** A message to the daemon, if the call is its own or nobody's and there
    is a buffer. *)
Definition ai_i4b (cd : call) : bool := (ai_type cd =? I4B_AI_I4B) || (ai_type cd =? I4B_AI_BROADCAST).
Definition ai_capi (cd : call) : bool := (ai_type cd =? I4B_AI_CAPI) || (ai_type cd =? I4B_AI_BROADCAST).
Definition msg_i4b (m : sent_ind) (cd : call) : call :=
  if ai_i4b cd then
    let cd' := cd <| mbufs ::= tail |> in
    if default true (head (mbufs cd)) then send_msg m cd' else cd'
  else cd.

Definition i4b_l4_idle_timeout_ind (cd : call) : call := msg_i4b MSG_IDLE_TIMEOUT_IND cd.
Definition i4b_l4_charging_ind (cd : call) : call :=
  msg_i4b (MSG_CHARGING_IND (if units_type cd =? CHARGE_CALC then cunits cd else units cd)) cd.

(** [case IST_STARTED]: a new unit begins. *)
Definition start_unit (cd : call) : call :=
  let cd := if aocd_flag cd then cd
            else i4b_l4_charging_ind (cd <| units_type := CHARGE_CALC |> <| cunits ::= Z.add 1 |>) in
  callout_reset (unitlen_time (shorthold_data cd) * hz) (cd <| idle_state := IST_CHECK |>).
Definition hangup (cd : call) : call :=
  let cd := i4b_l4_idle_timeout_ind (cd <| idle_state := IST_NOT_STARTED |>) in
  send_msg (N_DISCONNECT_REQUEST (Z.lor (Z.shiftl CAUSET_I4B 8) CAUSE_I4B_NORMAL)) cd.
Definition i4b_idle_check (cd : call) : call :=
  if N_fifo_translator cd && negb (cdid cd =? CDID_UNUSED) then
    if idle_state cd =? IST_CHECK then
      let sh := shorthold_data cd in
      if (idle_time sh <=? 0) || (SECOND cd - last_active_time cd <? idle_time sh) then
        if earlyhup_time sh <=? 0 then start_unit cd
        else callout_reset (earlyhup_time sh * hz) (cd <| idle_state := IST_STARTED |>)
      else hangup cd
    else if idle_state cd =? IST_STARTED then start_unit cd
    else cd
  else cd.

(** The parameters of the algorithm. *)
Definition idle_only (cd : call) : call :=
  cd <| shorthold_data ::= λ sh, sh <| unitlen_time := 1 |> <| earlyhup_time := 0 |> |>
     <| aocd_flag := true |>.
Definition choose_algorithm (cd : call) : call * Z :=
  let sh := shorthold_data cd in
  if dir_incoming cd then (idle_only cd, 0)
  else if (0 <? unitlen_time sh) && (earlyhup_time sh <? unitlen_time sh) then
    if shorthold_algorithm sh =? SHA_VARU then
      (cd <| shorthold_data := sh <| unitlen_time := unitlen_time sh - 1 |> <| earlyhup_time := 0 |> |>
          <| aocd_flag := true |>, 1)
    else (cd <| shorthold_data := sh <| unitlen_time := unitlen_time sh - earlyhup_time sh |> |>, 0)
  else (idle_only cd, 0).
Definition i4b_l4_setup_timeout (cd : call) : call :=
  let '(cd, next_unitlen_time) := choose_algorithm cd in
  let cd :=
    if (idle_state cd =? IST_NOT_STARTED) && (negb (aocd_flag cd) || (0 <? idle_time (shorthold_data cd)))
    then i4b_idle_check (cd <| idle_state := IST_STARTED |>) else cd in
  if nonzero next_unitlen_time
  then cd <| shorthold_data ::= λ sh, sh <| unitlen_time := next_unitlen_time |> |> else cd.

(** [snprintf(mp->datetime, ...)]: two digits each. *)
Definition digits2 (x : Z) : list Z := [48 + x mod 100 / 10; 48 + x mod 10].
Definition connect_active_msg (cd : call) : call :=
  if ai_i4b cd then
    let ok := default true (head (mbufs cd)) in
    let cd := cd <| mbufs ::= tail |> in
    if ok then
      let n := idate_time_len cd in
      if (n =? 0)%nat then send_msg (MSG_CONNECT_ACTIVE_IND (channel_id cd) []) cd
      else
        let cd := if (n <? 6)%nat
                  then cd <| idate_time_data ::= λ l, take n l ++ replicate (6 - n) 0 ++ drop 6 l |>
                  else cd in
        send_msg (MSG_CONNECT_ACTIVE_IND (channel_id cd)
                    (concat (map digits2 (take 6 (idate_time_data cd))))) cd
    else cd
  else cd.
Definition i4b_l4_connect_active_ind (cd : call) : call :=
  let cd := cd <| last_active_time := SECOND cd |> <| connect_time := SECOND cd |> in
  let cd := connect_active_msg (i4b_l4_setup_timeout cd) in
  if ai_capi cd
  then send_msg (capi_ai_info_ind (if dir_incoming cd then 0x800f else 0x8007))
         (send_msg capi_ai_connect_active_ind cd)
  else cd.

(** [I4B_TIMEOUT_UPD] (layer4/i4b_i4bdrv.c): new parameters for the call. *)
Definition I4B_TIMEOUT_UPD (sh : msg_shorthold) (cd : call) : call :=
  let cd := cd <| shorthold_data := sh |> in
  if negb (idle_state cd =? IST_NOT_STARTED) then i4b_l4_setup_timeout cd else cd.

(** ** The life of a call *)

(** The timer when it is due; data on the B-channel, which the drivers note
    in [last_active_time]. *)
Inductive step : call -> call -> Prop :=
| st_timer cd due : idle_callout cd = Some due ->
    step cd (i4b_idle_check (cd <| idle_callout := None |> <| ticks := due |>))
| st_active cd t : ticks cd <= t -> (∀ due, idle_callout cd = Some due -> t <= due) ->
    step cd (cd <| ticks := t |> <| last_active_time := t / hz |>)
| st_wait cd t : ticks cd <= t -> (∀ due, idle_callout cd = Some due -> t <= due) ->
    step cd (cd <| ticks := t |>).
(** ... or the daemon changes the parameters. *)
Inductive life_step : call -> call -> Prop :=
| ls_step cd cd' : step cd cd' -> life_step cd cd'
| ls_update sh cd : life_step cd (I4B_TIMEOUT_UPD sh cd).
(** A connected call; one whose parameters are those of the connect. *)
Definition life (cd0 cd : call) : Prop := rtc life_step (i4b_l4_connect_active_ind cd0) cd.
Definition connected (cd0 cd : call) : Prop := rtc step (i4b_l4_connect_active_ind cd0) cd.

(** ** The schedule *)

(** Seconds from the connect to the first check of the activity, between
    two checks, from a check to the next unit; and whether units are
    counted. *)
Record schedule := Schedule { sc_first : Z; sc_period : Z; sc_early : Z; sc_charge : bool }.
Definition schedule_of (cd : call) : schedule :=
  let sh := shorthold_data cd in
  let U := unitlen_time sh in
  let E := earlyhup_time sh in
  if negb (dir_incoming cd) && (0 <? U) && (E <? U) then
    if shorthold_algorithm sh =? SHA_VARU then Schedule (U - 1) 1 0 false
    else Schedule (U - E) (U - E + Z.max E 0) (Z.max E 0) (negb (aocd_flag cd))
  else Schedule 1 1 0 false.

(** A call that is about to be connected, and that is to be supervised. *)
Record fresh (cd : call) : Prop := {
  fr_translator : N_fifo_translator cd = true;
  fr_cdid : cdid cd <> CDID_UNUSED;
  fr_idle : idle_state cd = IST_NOT_STARTED;
  fr_callout : idle_callout cd = None;
}.
Definition to_watch (cd : call) : Prop := sc_charge (schedule_of cd) = true ∨ 0 < idle_time (shorthold_data cd).
(** Supervised: the supervision has begun, and N_DISCONNECT_REQUEST was not
    sent. *)
Definition watched (cd : call) : Prop := idle_state cd <> IST_NOT_STARTED.
End Operations.

Section Proofs.
Context (hz : Z) (Hhz : 0 < hz) (cd0 : call) (Hf : fresh cd0) (Fw : to_watch cd0).
Let sc := schedule_of cd0.
Let t0 := ticks cd0.
Let T := idle_time (shorthold_data cd0).
(** The [n]th check, and the unit that begins behind it. *)
Definition check_at (n : Z) : Z := t0 + (sc_first sc + n * sc_period sc) * hz.
Definition unit_at (n : Z) : Z := check_at n + sc_early sc * hz.

(** The fields the supervision does not change. *)
Record runs (cd : call) : Prop := {
  ru_translator : N_fifo_translator cd = true;
  ru_cdid : cdid cd <> CDID_UNUSED;
  ru_unitlen : unitlen_time (shorthold_data cd) = sc_period sc - sc_early sc;
  ru_idle : idle_time (shorthold_data cd) = T;
  ru_early : Z.max (earlyhup_time (shorthold_data cd)) 0 = sc_early sc;
  ru_aocd : aocd_flag cd = negb (sc_charge sc);
}.
(** [n] checks found activity. *)
Inductive supervised (cd : call) : Prop :=
| su_check n due : 0 <= n -> idle_state cd = IST_CHECK -> idle_callout cd = Some due -> due = check_at n ->
    ticks cd <= due -> t0 / hz <= last_active_time cd <= ticks cd / hz ->
    cunits cd = cunits cd0 + (if sc_charge sc then n + 1 else 0) ->
    (n = 0 ∨ T <= 0 ∨ check_at (n - 1) / hz - last_active_time cd < T) -> supervised cd
| su_early n due : 0 <= n -> 0 < sc_early sc -> idle_state cd = IST_STARTED -> idle_callout cd = Some due ->
    due = unit_at n -> ticks cd <= due -> t0 / hz <= last_active_time cd <= ticks cd / hz ->
    cunits cd = cunits cd0 + (if sc_charge sc then n + 1 else 0) ->
    (T <= 0 ∨ check_at n / hz - last_active_time cd < T) -> supervised cd
| su_over : idle_state cd = IST_NOT_STARTED -> idle_callout cd = None -> supervised cd.

(** Messages leave the supervision alone. *)
Definition core (cd : call) :=
  (N_fifo_translator cd, cdid cd, shorthold_data cd, aocd_flag cd, idle_state cd, idle_callout cd, ticks cd,
   last_active_time cd, cunits cd).
Lemma core_fields a b : core a = core b ->
  N_fifo_translator a = N_fifo_translator b ∧ cdid a = cdid b ∧ shorthold_data a = shorthold_data b ∧
  aocd_flag a = aocd_flag b ∧ idle_state a = idle_state b ∧ idle_callout a = idle_callout b ∧ ticks a = ticks b ∧
  last_active_time a = last_active_time b ∧ cunits a = cunits b.
Proof. unfold core. intros H. simplify_eq. done. Qed.
Lemma core_msg m cd : core (msg_i4b m cd) = core cd.
Proof. unfold msg_i4b. by repeat case_match. Qed.
Lemma core_start_unit cd : core (start_unit hz cd) =
  core (cd <| cunits ::= Z.add (if aocd_flag cd then 0 else 1) |> <| idle_state := IST_CHECK |>
           <| idle_callout := Some (ticks cd + unitlen_time (shorthold_data cd) * hz) |>).
Proof.
  unfold start_unit, i4b_l4_charging_ind, msg_i4b. destruct (aocd_flag cd) eqn:E; [by destruct cd|].
  repeat case_match; unfold core; cbn; by rewrite E.
Qed.
Lemma core_hangup cd : core (hangup cd) = core (cd <| idle_state := IST_NOT_STARTED |>).
Proof. unfold hangup, i4b_l4_idle_timeout_ind, msg_i4b. by repeat case_match. Qed.

(** The invariant only depends on these fields. *)
Lemma runs_core cd cd' : core cd = core cd' -> runs cd -> runs cd'.
Proof. unfold core. intros H [? ? ? ? ? ?]. simplify_eq. constructor; congruence. Qed.
Lemma supervised_core cd cd' : core cd = core cd' -> supervised cd -> supervised cd'.
Proof.
  unfold core. intros H Hs. simplify_eq. destruct Hs as [n due|n due|].
  - apply su_check with n due; congruence.
  - apply su_early with n due; congruence.
  - apply su_over; congruence.
Qed.
(** A unit begins behind [n] checks. *)
Lemma start_unit_supervised cd n :
  runs cd -> 0 <= n -> ticks cd + (sc_period sc - sc_early sc) * hz = check_at n -> ticks cd <= check_at n ->
  t0 / hz <= last_active_time cd <= ticks cd / hz -> cunits cd = cunits cd0 + (if sc_charge sc then n else 0) ->
  (n = 0 ∨ T <= 0 ∨ check_at (n - 1) / hz - last_active_time cd < T) ->
  runs (start_unit hz cd) ∧ supervised (start_unit hz cd).
Proof.
  intros Hr Hn Hd Ht Hl Hc Hdl. split.
  - eapply runs_core; [symmetry; apply core_start_unit|]. by destruct Hr.
  - eapply supervised_core; [symmetry; apply core_start_unit|]. destruct Hr as [_ _ Hu _ _ Ha].
    eapply su_check with (n := n); cbn; [done|done|done|by rewrite Hu|by rewrite Hu, Hd|done| |done].
    rewrite Hc, Ha. destruct (sc_charge sc); cbn; lia.
Qed.
Lemma schedule_ok : 0 <= sc_first sc ∧ 0 <= sc_early sc ∧ 0 < sc_period sc - sc_early sc.
Proof. subst sc. unfold schedule_of. repeat case_match; cbn; lia. Qed.
Lemma check_at_S n : check_at (n + 1) = check_at n + sc_period sc * hz.
Proof. unfold check_at. lia. Qed.
Lemma div_hz a b : (a + b * hz) / hz = a / hz + b.
Proof. apply Z.div_add. lia. Qed.

(** The timer. *)
Lemma timer_supervised cd due : runs cd -> supervised cd -> idle_callout cd = Some due ->
  let cd' := i4b_idle_check hz (cd <| idle_callout := None |> <| ticks := due |>) in
  runs cd' ∧ supervised cd'.
Proof.
  intros Hr Hs Hc cd'. destruct schedule_ok as (Hf0 & He0 & Hp0).
  set (cd1 := cd <| idle_callout := None |> <| ticks := due |>) in *.
  assert (Hr1 : runs cd1) by (by destruct Hr). subst cd'. unfold i4b_idle_check.
  rewrite (ru_translator _ Hr1), (proj2 (Z.eqb_neq _ _) (ru_cdid _ Hr1)). cbn [andb negb].
  destruct Hs as [n due' Hn Hi Hc' Hd Ht Hl Hu Hdl|n due' Hn He Hi Hc' Hd Ht Hl Hu Hdl|Hi Hc']; [| |congruence].
  - assert (due' = due) as -> by congruence.
    assert (Hl1 : t0 / hz <= last_active_time cd1 <= ticks cd1 / hz).
    { cbn. pose proof (Z.div_le_mono _ _ hz Hhz Ht). lia. }
    change (idle_state cd1) with (idle_state cd). rewrite Hi. cbn [Z.eqb].
    change (IST_CHECK =? IST_CHECK) with true. cbn [andb].
    unfold SECOND. change (ticks cd1) with due. change (last_active_time cd1) with (last_active_time cd).
    rewrite (ru_idle _ Hr1). destruct ((T <=? 0) || _) eqn:Ha.
    + assert (Ha' : T <= 0 ∨ check_at n / hz - last_active_time cd < T).
      { apply orb_true_iff in Ha as [Ha|Ha]; [left; lia|right; rewrite <-Hd; lia]. }
      pose proof (ru_early _ Hr1) as He. destruct (Z.leb_spec (earlyhup_time (shorthold_data cd1)) 0) as [H0|H0].
      * apply start_unit_supervised with (n + 1); [done|lia| | |done| |].
        -- change (ticks cd1) with due. rewrite Hd, check_at_S. rewrite <-He. nia.
        -- change (ticks cd1) with due. rewrite Hd, check_at_S. nia.
        -- change (cunits cd1) with (cunits cd). rewrite Hu. destruct (sc_charge sc); lia.
        -- right. replace (n + 1 - 1) with n by lia. exact Ha'.
      * assert (Hl2 : t0 / hz <= last_active_time cd1 <= ticks cd1 / hz) by done.
        split; [by destruct Hr1|]. eapply su_early with (n := n); [done|lia|done|done| | |exact Hl2|done|done].
        -- change (due + earlyhup_time (shorthold_data cd1) * hz = unit_at n). unfold unit_at. rewrite Hd, <-He, Z.max_l by lia. done.
        -- change (due <= due + earlyhup_time (shorthold_data cd1) * hz). nia.
    + split; [eapply runs_core; [symmetry; apply core_hangup|by destruct Hr1]|].
      eapply supervised_core; [symmetry; apply core_hangup|]. by apply su_over.
  - assert (due' = due) as -> by congruence.
    assert (Hl1 : t0 / hz <= last_active_time cd1 <= ticks cd1 / hz).
    { cbn. pose proof (Z.div_le_mono _ _ hz Hhz Ht). lia. }
    change (idle_state cd1) with (idle_state cd). rewrite Hi.
    change (IST_STARTED =? IST_CHECK) with false. change (IST_STARTED =? IST_STARTED) with true.
    apply start_unit_supervised with (n + 1); [done|lia| | |done| |].
    + change (ticks cd1) with due. rewrite Hd, check_at_S. unfold unit_at. lia.
    + change (ticks cd1) with due. rewrite Hd, check_at_S. unfold unit_at. nia.
    + change (cunits cd1) with (cunits cd). rewrite Hu. destruct (sc_charge sc); lia.
    + right. replace (n + 1 - 1) with n by lia. exact Hdl.
Qed.

(** The connect. *)
Lemma core_active_msg cd : core (connect_active_msg cd) = core cd.
Proof. unfold connect_active_msg. by repeat case_match. Qed.
(** What [choose_algorithm] leaves to the timer. *)
Lemma choose_spec cd1 : shorthold_data cd1 = shorthold_data cd0 -> dir_incoming cd1 = dir_incoming cd0 ->
  aocd_flag cd1 = aocd_flag cd0 ->
  let '(cd2, next) := choose_algorithm cd1 in
  (N_fifo_translator cd2, cdid cd2, idle_state cd2, ticks cd2, last_active_time cd2, cunits cd2) =
    (N_fifo_translator cd1, cdid cd1, idle_state cd1, ticks cd1, last_active_time cd1, cunits cd1) ∧
  idle_time (shorthold_data cd2) = T ∧ Z.max (earlyhup_time (shorthold_data cd2)) 0 = sc_early sc ∧
  aocd_flag cd2 = negb (sc_charge sc) ∧ unitlen_time (shorthold_data cd2) = sc_first sc ∧
  (if nonzero next then next else sc_first sc) = sc_period sc - sc_early sc.
Proof.
  intros Hs Hd Ha. subst sc T. unfold choose_algorithm, schedule_of. rewrite Hs, Hd.
  destruct (dir_incoming cd0); cbn [negb andb]; [cbn; rewrite Hs; done|].
  destruct ((0 <? _) && _) eqn:E.
  - destruct (shorthold_algorithm (shorthold_data cd0) =? SHA_VARU); cbn; rewrite ?Ha, ?negb_involutive; split_and!; try done; lia.
  - cbn. rewrite Hs. done.
Qed.
Lemma idle_check_started cd : N_fifo_translator cd = true -> cdid cd <> CDID_UNUSED -> idle_state cd = IST_STARTED ->
  i4b_idle_check hz cd = start_unit hz cd.
Proof. intros H1 H2 H3. unfold i4b_idle_check. by rewrite H1, (proj2 (Z.eqb_neq _ _) H2), H3. Qed.
Lemma connect_supervised :
  let cd := i4b_l4_connect_active_ind hz cd0 in runs cd ∧ supervised cd.
Proof.
  set (cd1 := cd0 <| last_active_time := SECOND hz cd0 |> <| connect_time := SECOND hz cd0 |>).
  assert (Hsame : core (i4b_l4_connect_active_ind hz cd0) = core (i4b_l4_setup_timeout hz cd1)).
  { unfold i4b_l4_connect_active_ind. fold cd1. rewrite <-(core_active_msg (i4b_l4_setup_timeout hz cd1)). by case_match. }
  enough (runs (i4b_l4_setup_timeout hz cd1) ∧ supervised (i4b_l4_setup_timeout hz cd1)) as [H1 H2].
  { split; [eapply runs_core; [symmetry; exact Hsame|done]|eapply supervised_core; [symmetry; exact Hsame|done]]. }
  unfold i4b_l4_setup_timeout. pose proof (choose_spec cd1 eq_refl eq_refl eq_refl) as Hc.
  destruct (choose_algorithm cd1) as [cd2 next]. destruct Hc as (Hf2 & HT & He & Ha & Hu & Hn).
  destruct Hf as [F1 F2 F3 F4]. pose proof Fw as F5. unfold to_watch in F5. fold sc in F5. fold T in F5. injection Hf2 as G1 G2 G3 G4 G5 G6. cbn in G1, G2, G3, G4, G5, G6.
  rewrite G3, F3, HT, Ha. change (IST_NOT_STARTED =? IST_NOT_STARTED) with true.
  assert ((negb (negb (sc_charge sc)) || (0 <? T)) = true) as ->.
  { destruct F5 as [-> | F5]; [done|]. rewrite (proj2 (Z.ltb_lt _ _) F5). apply orb_true_r. }
  cbn [andb]. rewrite idle_check_started by (cbn; congruence).
  set (cd3 := start_unit hz (cd2 <| idle_state := IST_STARTED |>)).
  pose proof (core_start_unit (cd2 <| idle_state := IST_STARTED |>)) as H3. fold cd3 in H3. clearbody cd3.
  apply core_fields in H3. destruct H3 as (K1 & K2 & K3 & K4 & K5 & K6 & K7 & K8 & K9). cbn in K1, K2, K3, K4, K5, K6, K7, K8, K9.
  assert (Hrun : runs (if nonzero next then cd3 <| shorthold_data ::= λ sh, sh <| unitlen_time := next |> |> else cd3)).
  { destruct (nonzero next); constructor; cbn; congruence. }
  split; [exact Hrun|].
  assert (Hd : idle_callout cd3 = Some (check_at 0)).
  { rewrite K6, G4, Hu. f_equal. unfold check_at. subst t0. lia. }
  destruct schedule_ok as (Hf0 & _).
  destruct (nonzero next); apply su_check with 0 (check_at 0); cbn; try done; try congruence.
  all: try (rewrite K9, G6, Ha; destruct (sc_charge sc); cbn; lia).
  all: try (left; reflexivity).
  all: try (rewrite K8, K7, G5, G4; change (t0 / hz <= t0 / hz <= t0 / hz); lia).
  all: rewrite K7, G4; change (t0 <= t0 + (sc_first sc + 0) * hz); nia.
Qed.
Lemma connected_supervised cd : connected hz cd0 cd -> runs cd ∧ supervised cd.
Proof.
  unfold connected. intros H. remember (i4b_l4_connect_active_ind hz cd0) as c0 eqn:E.
  assert (H0 : runs c0 ∧ supervised c0) by (subst c0; apply connect_supervised). clear E.
  induction H as [|c0 c1 c2 Hstep _ IH]; [done|]. apply IH. destruct H0 as [Hr Hs].
  destruct Hstep as [cd due Hc|cd t Ht Hd|cd t Ht Hd].
  - by apply timer_supervised.
  - split; [by destruct Hr|]. assert (Hm : ticks cd / hz <= t / hz) by (by apply Z.div_le_mono).
    { destruct Hs as [n due ? ? ? ? ? ? ? Hdl|n due ? ? ? ? ? ? ? ? Hdl|].
      - apply su_check with n due; cbn; auto; [lia|]. destruct Hdl as [?|[?|?]]; [auto|auto|right; right; lia].
      - apply su_early with n due; cbn; auto; [lia|]. destruct Hdl as [?|?]; [auto|right; lia].
      - by apply su_over. }
  - split; [by destruct Hr|]. assert (Hm : ticks cd / hz <= t / hz) by (by apply Z.div_le_mono).
    destruct Hs as [n due|n due|].
    + apply su_check with n due; cbn; auto. lia.
    + apply su_early with n due; cbn; auto. lia.
    + by apply su_over.
Qed.

(** The step that ends the supervision. *)
Lemma core_state cd cd' : core cd = core cd' -> idle_state cd = idle_state cd'.
Proof. intros H. apply core_fields in H as (_ & _ & _ & _ & H & _). done. Qed.
Lemma hangup_step cd due : runs cd -> supervised cd -> idle_callout cd = Some due ->
  let cd' := i4b_idle_check hz (cd <| idle_callout := None |> <| ticks := due |>) in
  idle_state cd' = IST_NOT_STARTED ->
  ∃ n, 0 <= n ∧ due = check_at n ∧ 0 < T ∧ T <= due / hz - last_active_time cd ∧
    cunits cd = cunits cd0 + (if sc_charge sc then n + 1 else 0) ∧
    cd' = hangup (cd <| idle_callout := None |> <| ticks := due |>).
Proof.
  intros Hr Hs Hc cd' Hend. set (cd1 := cd <| idle_callout := None |> <| ticks := due |>) in *.
  assert (Hsu : ∀ c, idle_state (start_unit hz c) = IST_CHECK).
  { intros c. by rewrite (core_state _ _ (core_start_unit c)). }
  assert (Hr1 : runs cd1) by (by destruct Hr). subst cd'. unfold i4b_idle_check in *.
  rewrite (ru_translator _ Hr1), (proj2 (Z.eqb_neq _ _) (ru_cdid _ Hr1)) in *. cbn [andb negb] in *.
  destruct Hs as [n due' Hn Hi Hc' Hd Ht Hl Hu Hdl|n due' Hn He Hi Hc' Hd Ht Hl Hu Hdl|Hi Hc']; [| |congruence].
  - assert (due' = due) as -> by congruence. change (idle_state cd1) with (idle_state cd) in *. rewrite Hi in *.
    change (IST_CHECK =? IST_CHECK) with true in *. cbv iota in *. rewrite (ru_idle _ Hr1) in *.
    change (SECOND hz cd1) with (due / hz) in *. change (last_active_time cd1) with (last_active_time cd) in *.
    destruct ((T <=? 0) || _) eqn:Ha.
    + case_match; [by rewrite Hsu in Hend|done].
    + apply orb_false_iff in Ha as [Ha1 Ha2]. exists n. split_and!; try done; lia.
  - change (idle_state cd1) with (idle_state cd) in *. rewrite Hi in *.
    change (IST_STARTED =? IST_CHECK) with false in *. change (IST_STARTED =? IST_STARTED) with true in *.
    cbv iota in *. by rewrite Hsu in Hend.
Qed.
End Proofs.

(** ** Every life of a call *)
Section Lives.
Context (hz : Z) (Hhz : 0 < hz).

(** A supervised call has its timer, in a state the timer knows; a call that
    is not supervised has none. *)
Record armed (cd : call) : Prop := {
  ar_translator : N_fifo_translator cd = true;
  ar_cdid : cdid cd <> CDID_UNUSED;
  ar_timer : idle_state cd = IST_NOT_STARTED ∧ idle_callout cd = None ∨
    (idle_state cd = IST_CHECK ∨ idle_state cd = IST_STARTED) ∧ 0 <= unitlen_time (shorthold_data cd) ∧
    ∃ due, idle_callout cd = Some due ∧ ticks cd <= due;
}.
Lemma armed_core cd cd' : core cd = core cd' -> armed cd -> armed cd'.
Proof.
  intros H%core_fields [A1 A2 A3]. destruct H as (E1 & E2 & E3 & _ & E5 & E6 & E7 & _).
  constructor; [congruence|congruence|]. by rewrite <-E3, <-E5, <-E6, <-E7.
Qed.
Lemma armed_start_unit cd :
  N_fifo_translator cd = true -> cdid cd <> CDID_UNUSED -> 0 <= unitlen_time (shorthold_data cd) -> armed (start_unit hz cd).
Proof using Hhz.
  intros H1 H2 H3. eapply armed_core; [symmetry; apply core_start_unit|]. constructor; [done|done|]. right. cbn.
  split; [by left|]. split; [done|]. eexists. split; [done|]. nia.
Qed.
Lemma armed_timer cd due : armed cd -> idle_callout cd = Some due ->
  armed (i4b_idle_check hz (cd <| idle_callout := None |> <| ticks := due |>)).
Proof using Hhz.
  intros [A1 A2 A3] Hd. destruct A3 as [[_ ?]|(Hi & Hu & _)]; [congruence|].
  set (cd1 := cd <| idle_callout := None |> <| ticks := due |>). unfold i4b_idle_check.
  change (N_fifo_translator cd1) with (N_fifo_translator cd). change (cdid cd1) with (cdid cd).
  rewrite A1, (proj2 (Z.eqb_neq _ _) A2). cbn [andb negb]. change (idle_state cd1) with (idle_state cd).
  destruct (Z.eqb_spec (idle_state cd) IST_CHECK) as [Hc|Hc].
  - cbv zeta. case_match; [case_match|].
    + by apply armed_start_unit.
    + constructor; [done|done|]. right. cbn. split; [by right|]. split; [done|]. eexists. split; [done|].
      change (shorthold_data cd1) with (shorthold_data cd) in *. nia.
    + eapply armed_core; [symmetry; apply core_hangup|]. constructor; [done|done|by left].
  - destruct Hi as [?|Hi]; [done|]. rewrite Hi. cbn. by apply armed_start_unit.
Qed.
(** The parameters [i4b_l4_setup_timeout] leaves behind. *)
Lemma choose_unitlen cd : 0 <= unitlen_time (shorthold_data (choose_algorithm cd).1) ∧ 0 <= (choose_algorithm cd).2 ∧
  (λ c, (N_fifo_translator c, cdid c, idle_state c, idle_callout c, ticks c)) (choose_algorithm cd).1 =
  (λ c, (N_fifo_translator c, cdid c, idle_state c, idle_callout c, ticks c)) cd.
Proof.
  unfold choose_algorithm. repeat case_match; cbn; split_and!; try done; try lia.
  all: apply andb_true_iff in H0 as [? ?]; lia.
Qed.
Lemma armed_setup cd : N_fifo_translator cd = true -> cdid cd <> CDID_UNUSED ->
  (idle_state cd = IST_NOT_STARTED ∧ idle_callout cd = None ∨
   (idle_state cd = IST_CHECK ∨ idle_state cd = IST_STARTED) ∧ ∃ due, idle_callout cd = Some due ∧ ticks cd <= due) ->
  armed (i4b_l4_setup_timeout hz cd).
Proof using Hhz.
  intros H1 H2 H3. unfold i4b_l4_setup_timeout. pose proof (choose_unitlen cd) as Hc.
  destruct (choose_algorithm cd) as [c next]. cbn [fst snd] in Hc. destruct Hc as (Hu & Hn & [= E1 E2 E3 E4 E5]).
  rewrite <-E1 in H1. rewrite <-E2 in H2. rewrite <-E3, <-E4, <-E5 in H3. clear E1 E2 E3 E4 E5.
  set (c' := if (idle_state c =? IST_NOT_STARTED) && _ then _ else c).
  assert (armed c') as [A1 A2 A3].
  { unfold c'. destruct (_ && _) eqn:E.
    - rewrite idle_check_started by done. by apply armed_start_unit.
    - constructor; [done|done|]. destruct H3 as [H3|[H3 H4]]; [by left|right; split_and!; done]. }
  clearbody c'. case_match; [|by constructor]. constructor; [done|done|]. destruct A3 as [A3|(A3 & _ & A4)]; [by left|by right].
Qed.
Lemma armed_update sh cd : armed cd -> armed (I4B_TIMEOUT_UPD hz sh cd).
Proof using Hhz.
  intros [A1 A2 A3]. unfold I4B_TIMEOUT_UPD. change (idle_state (cd <| shorthold_data := sh |>)) with (idle_state cd).
  destruct (Z.eqb_spec (idle_state cd) IST_NOT_STARTED) as [E|E]; cbn [negb].
  - constructor; [done|done|]. left. destruct A3 as [A3|([A3|A3] & _)]; [done|by rewrite A3 in E..].
  - apply armed_setup; [done|done|]. destruct A3 as [A3|(A3 & _ & A4)]; [by left|by right].
Qed.
Lemma armed_connect cd0 : fresh cd0 -> armed (i4b_l4_connect_active_ind hz cd0).
Proof using Hhz.
  intros [F1 F2 F3 F4]. set (cd1 := cd0 <| last_active_time := SECOND hz cd0 |> <| connect_time := SECOND hz cd0 |>).
  assert (armed (i4b_l4_setup_timeout hz cd1)) as H1 by (apply armed_setup; [done|done|by left]).
  eapply armed_core; [|exact H1]. symmetry. unfold i4b_l4_connect_active_ind. fold cd1.
  rewrite <-(core_active_msg (i4b_l4_setup_timeout hz cd1)). by case_match.
Qed.
Lemma armed_step c c' : armed c -> life_step hz c c' -> armed c'.
Proof using Hhz.
  intros H0 Hst. destruct Hst as [c1 c1' Hs|sh c1]; [|by apply armed_update].
  destruct Hs as [c2 due Hc|c2 t Ht Hd|c2 t Ht Hd]; [by apply armed_timer|..];
    (destruct H0 as [A1 A2 A3]; constructor; [done|done|]; destruct A3 as [A3|(A3 & A4 & due & A5 & _)]; [by left|];
     right; split_and!; [done|done|]; exists due; split; [done|by apply Hd]).
Qed.
(** No step starts the supervision. *)
Lemma watched_before c c' : armed c -> life_step hz c c' -> watched c' -> watched c.
Proof.
  intros [_ _ A] Hs Hw Hn. destruct A as [[_ A]|([A|A] & _)]; [|by rewrite A in Hn..]. destruct Hs as [c1 c1' Hs|sh c1].
  - destruct Hs as [c2 due Hc|c2 t Ht Hd|c2 t Ht Hd]; [congruence|by apply Hw..].
  - apply Hw. unfold I4B_TIMEOUT_UPD. change (idle_state (c1 <| shorthold_data := sh |>)) with (idle_state c1). by rewrite Hn.
Qed.
Lemma life_armed cd0 cd : fresh cd0 -> life hz cd0 cd ->
  armed cd ∧ (watched cd -> watched (i4b_l4_connect_active_ind hz cd0)).
Proof using Hhz.
  intros Hf H. unfold life in H. pose proof (armed_connect cd0 Hf) as H0. revert H0.
  induction H as [|c0 c1 c2 Hstep _ IH]; intros H0; [done|]. destruct (IH (armed_step _ _ H0 Hstep)) as [H1 H2].
  split; [done|]. intros Hw. by apply (watched_before c0 c1), H2.
Qed.
(** The supervision ends by the timer only, after [idle_time] seconds
    without activity. *)
Lemma life_hangup cd cd' : armed cd -> life_step hz cd cd' -> watched cd -> ~ watched cd' ->
  step hz cd cd' ∧ idle_callout cd = Some (ticks cd') ∧
  0 < idle_time (shorthold_data cd) <= SECOND hz cd' - last_active_time cd' ∧
  last (out cd') = Some (N_DISCONNECT_REQUEST 0x100).
Proof.
  intros [A1 A2 A3] Hs Hw Hw'. unfold watched in *. destruct A3 as [[? _]|(Hi & _)]; [done|].
  destruct Hs as [cd cd' Hs|sh cd].
  2: { exfalso. apply Hw'. unfold I4B_TIMEOUT_UPD. change (idle_state (cd <| shorthold_data := sh |>)) with (idle_state cd).
       rewrite (proj2 (Z.eqb_neq _ _) Hw). cbn [negb]. unfold i4b_l4_setup_timeout.
       pose proof (choose_unitlen (cd <| shorthold_data := sh |>)) as (_ & _ & Hc).
       destruct (choose_algorithm _) as [c next]. cbn [fst snd] in Hc. injection Hc as _ _ E _ _. cbn in E.
       rewrite E, (proj2 (Z.eqb_neq _ _) Hw). cbn [andb]. case_match; cbn; by rewrite E. }
  split; [done|]. destruct Hs as [cd due Hd|cd t Ht Hd|cd t Ht Hd]; [|done..].
  set (cd1 := cd <| idle_callout := None |> <| ticks := due |>) in *.
  assert (Hsu : ∀ c, idle_state (start_unit hz c) ≠ IST_NOT_STARTED).
  { intros c. by rewrite (core_state _ _ (core_start_unit hz c)). }
  revert Hw'. unfold i4b_idle_check. change (N_fifo_translator cd1) with (N_fifo_translator cd).
  change (cdid cd1) with (cdid cd). rewrite A1, (proj2 (Z.eqb_neq _ _) A2). cbn [andb negb].
  change (idle_state cd1) with (idle_state cd).
  destruct (Z.eqb_spec (idle_state cd) IST_CHECK) as [Hc|Hc]; [|destruct Hi as [?|Hi]; [done|rewrite Hi]; intros H; by destruct H].
  cbv zeta. destruct (_ || _) eqn:E; [intros H; by destruct H; case_match|]. intros _.
  apply orb_false_iff in E as [E1 E2]. destruct (core_fields _ _ (core_hangup cd1)) as (_ & _ & _ & _ & _ & _ & K1 & K2 & _).
  unfold SECOND in *. rewrite K1, K2. change (shorthold_data cd1) with (shorthold_data cd) in *. change (ticks cd1) with due in *.
  split; [done|]. split; [cbn in *; lia|]. unfold hangup, send_msg. cbn. by rewrite last_snoc.
Qed.
End Lives.

(** ** The theorems *)


(** An outgoing call with units of ten seconds: it is used four seconds
    after the connect and hung up two seconds before the end of the first
    unit. *)
Definition sample_call : call :=
  Call true 67 I4B_AI_I4B false false 1 IST_NOT_STARTED (Msg_shorthold SHA_FIXU 10 3 2) 0 0 0 0 0 0 [] None 500 [] [].
Definition sample_used : call :=
  (i4b_l4_connect_active_ind 100 sample_call) <| ticks := 900 |> <| last_active_time := 900 / 100 |>.
Definition sample_over : call := i4b_idle_check 100 (sample_used <| idle_callout := None |> <| ticks := 1300 |>).
Lemma sample_fresh : fresh sample_call.
Proof. by constructor. Qed.
Lemma sample_to_watch : to_watch sample_call.
Proof. by left. Qed.
Lemma sample_connected : connected 100 sample_call sample_used.
Proof.
  apply rtc_once. apply st_active; [vm_compute; done|]. intros due H. vm_compute in H. injection H as <-. lia.
Qed.
Lemma sample_life : life 100 sample_call sample_used.
Proof. apply rtc_subrel with (step 100); [|exact sample_connected]. intros x y. apply ls_step. Qed.

(** The daemon shortens the idle time of the call. *)
Definition sample_updated : call := I4B_TIMEOUT_UPD 100 (Msg_shorthold SHA_FIXU 10 1 2) sample_used.
Lemma sample_updated_life : life 100 sample_call sample_updated.
Proof. eapply rtc_r; [exact sample_life|]. apply (ls_update 100 (Msg_shorthold SHA_FIXU 10 1 2) sample_used). Qed.

(** ** Where the manual says otherwise, and what a change does not do *)

(** A call with variable units of ten seconds that is not used is hung up
    after nine. *)
Lemma variable_unit_cut_short :
  let cd0 := sample_call <| shorthold_data := Msg_shorthold SHA_VARU 10 3 0 |> in
  let cd := i4b_l4_connect_active_ind 100 cd0 in
  let cd' := i4b_idle_check 100 (cd <| idle_callout := None |> <| ticks := 1400 |>) in
  idle_callout cd = Some (ticks cd0 + 9 * 100) ∧ idle_state cd' = IST_NOT_STARTED ∧
  last (out cd') = Some (N_DISCONNECT_REQUEST 0x100).
Proof. vm_compute. done. Qed.
(** An [idle_time] that is set for a connected call without supervision has
    no effect: no timer is started. *)
Lemma update_does_not_start hz sh cd : idle_state cd = IST_NOT_STARTED -> idle_callout cd = None ->
  let cd' := I4B_TIMEOUT_UPD hz sh cd in
  idle_time (shorthold_data cd') = idle_time sh ∧ idle_state cd' = IST_NOT_STARTED ∧ idle_callout cd' = None.
Proof. intros H1 H2. unfold I4B_TIMEOUT_UPD. cbn. by rewrite H1. Qed.
End Shorthold.
