(* ===== verification/Interconnect.v ===== *)
(** * Line interconnects (layer4/i4b_l4mgmt.c)

    Two calls are connected through a PCM cable the adapters share: each of
    them sends in the slot the other one receives in.  The allocator keeps a
    bitmap of the slots in use per cable and a list of interconnects per
    controller.  A pointer to an interconnect is the number of its
    controller and its index there. *)
From stdpp Require Import relations.
From S2P Require Import Prelude Mbuf Dss1Types Dss1State CallDesc.
Local Open Scope Z_scope.

Module Interconnect.

Definition I4B_PCM_CABLE_MAX : nat := 8.
Definition I4B_PCM_SLOT_MAX : Z := 128.

(** [struct i4b_line_interconnect], [struct i4b_pcm_cable] and the members
    of a controller. *)
Record line_interconnect := Line_interconnect {
  li_owner : Z;                          (* cdid *)
  pcm_cable : Z;
  pcm_slot_rx : Z;
  pcm_slot_tx : Z;
}.
Record cable := Cable { slot_end : Z; slot_bitmap : list Z }.
Record li_unit := Li_unit {
  N_line_interconnect : list line_interconnect;
  L1_pcm_cable_map : list Z;             (* the first L1_pcm_cable_end entries *)
}.
Record state := State { li_units : list li_unit; cables : list cable }.
Definition ptr : Type := nat * nat.

(** GET_BIT and SET_BIT on an array of [uint32_t]. *)
Definition GET_BIT32 (var : list Z) (off : Z) : bool :=
  bit_set (default 0 (var !! Z.to_nat (off / 32))) (Z.shiftl 1 (off mod 32)).
Definition SET_BIT32 (var : list Z) (off : Z) (value : bool) : list Z :=
  alter (λ b, if value then u32 (Z.lor b (Z.shiftl 1 (off mod 32)))
              else u32 (Z.land b (Z.lnot (Z.shiftl 1 (off mod 32))))) (Z.to_nat (off / 32)) var.

Definition unit_of (cdid : Z) : nat := Z.to_nat (CDID2CONTROLLER cdid).
Definition lis (s : state) (u : nat) : list line_interconnect := default [] (N_line_interconnect <$> li_units s !! u).
Definition li_at (s : state) (p : ptr) : option line_interconnect := lis s p.1 !! p.2.
Definition mod_li (p : ptr) (f : line_interconnect -> line_interconnect) (s : state) : state :=
  s <| li_units ::= alter (λ c, c <| N_line_interconnect ::= alter f p.2 |>) p.1 |>.
Definition cable_at (s : state) (c : Z) : cable := default (Cable 0 []) (cables s !! Z.to_nat c).
Definition mod_cable (c : Z) (f : cable -> cable) (s : state) : state :=
  s <| cables ::= alter f (Z.to_nat c) |>.
(** LI_FOREACH *)
Definition li_find (P : line_interconnect -> bool) (u : nat) (s : state) : option ptr :=
  match list_find (λ li, P li = true) (lis s u) with Some (i, _) => Some (u, i) | None => None end.

Definition i4b_li_alloc (cdid : Z) (s : state) : option ptr * state :=
  if cdid =? CDID_UNUSED then (None, s)
  else match li_find (λ li, li_owner li =? CDID_UNUSED) (unit_of cdid) s with
       | Some p => (Some p, mod_li p (λ li, li <| li_owner := cdid |>) s)
       | None => (None, s)
       end.
Definition i4b_li_search (cdid : Z) (s : state) : option ptr :=
  if cdid =? CDID_UNUSED then None else li_find (λ li, li_owner li =? cdid) (unit_of cdid) s.
Definition i4b_li_free (p : ptr) (s : state) : state := mod_li p (λ _, Line_interconnect 0 0 0 0) s.

(** The slot of the other direction. *)
Definition peer_slot (pcm_end slot : Z) : Z :=
  if slot <? pcm_end then u16 (slot + pcm_end) else u16 (slot - pcm_end).
(** [__i4b_slot_li_alloc] *)
Definition slot_li_alloc_at (cdid c slot : Z) (s : state) : option ptr * state :=
  let rx := peer_slot (slot_end (cable_at s c) / 2) slot in
  let tx := slot in
  if GET_BIT32 (slot_bitmap (cable_at s c)) rx then (None, s)
  else match i4b_li_alloc cdid s with
       | (None, s) => (None, s)
       | (Some p, s) =>
           (Some p, mod_li p (λ li, li <| pcm_cable := c |> <| pcm_slot_rx := rx |> <| pcm_slot_tx := tx |>)
                      (mod_cable c (λ x, x <| slot_bitmap ::= λ v, SET_BIT32 v rx true |>) s))
       end.

Definition get_dword (bitmap : list Z) (bit_offset : Z) : Z :=
  let dword_offset := bit_offset / 32 in
  let bit_offset := bit_offset mod 32 in
  let temp := Z.shiftr (default 0 (bitmap !! Z.to_nat dword_offset)) bit_offset in
  if nonzero bit_offset
  then Z.lor temp (u32 (Z.shiftl (default 0 (bitmap !! Z.to_nat (dword_offset + 1))) (32 - bit_offset)))
  else temp.
(** The two loops on [y] that look for a pair of slots; [y] is given as the
    list of the values that are left. *)
Definition free_in_dword (t : Z) (ys : list Z) : option Z :=
  snd <$> list_find (λ y, bit_set t (Z.shiftl 1 (y mod 32)) = false) ys.
Fixpoint free_slot (dwords : nat) (y pcm_end : Z) (bitmap : list Z) : option Z :=
  match dwords with
  | O => None
  | S dwords =>
      if y <? pcm_end then
        let t := Z.lor (get_dword bitmap y) (get_dword bitmap (y + pcm_end)) in
        if t =? 0xffffffff then free_slot dwords (y + 32) pcm_end bitmap
        else free_in_dword t (seqZ y (pcm_end - y))
      else None
  end.
(** The cables of the source that the destination has too, in order. *)
Fixpoint common_slot (src dst : list Z) (s : state) : option (Z * Z) :=
  match src with
  | [] => None
  | z :: src =>
      if (Z.of_nat I4B_PCM_CABLE_MAX <=? z) || negb (existsb (Z.eqb z) dst) then common_slot src dst s
      else match free_slot 4 0 (slot_end (cable_at s z) / 2) (slot_bitmap (cable_at s z)) with
           | Some y => Some (z, y)
           | None => common_slot src dst s
           end
  end.
Definition cable_map (s : state) (u : nat) : list Z := default [] (L1_pcm_cable_map <$> li_units s !! u).
Definition i4b_slot_li_alloc (cdid_src cdid_dst : Z) (s : state) : option ptr * state :=
  match i4b_li_search cdid_dst s with
  | Some p =>
      match li_at s p with
      | Some li => slot_li_alloc_at cdid_src (pcm_cable li) (pcm_slot_rx li) s
      | None => (None, s)
      end
  | None =>
      match common_slot (cable_map s (unit_of cdid_src)) (cable_map s (unit_of cdid_dst)) s with
      | Some (z, y) => slot_li_alloc_at cdid_src z y s
      | None => (None, s)
      end
  end.
Definition i4b_slot_li_free (p : ptr) (s : state) : state :=
  match li_at s p with
  | Some li => i4b_li_free p (mod_cable (pcm_cable li)
                 (λ x, x <| slot_bitmap ::= λ v, SET_BIT32 v (pcm_slot_rx li) false |>) s)
  | None => s
  end.

(** ** The invariant *)
Definition in_use (s : state) (p : ptr) (li : line_interconnect) : Prop :=
  li_at s p = Some li ∧ li_owner li <> CDID_UNUSED.
Definition slot_used (s : state) (c k : Z) : bool := GET_BIT32 (slot_bitmap (cable_at s c)) k.
Definition pcm_end (s : state) (c : Z) : Z := slot_end (cable_at s c) / 2.
Definition cable_ok (c : cable) : Prop :=
  0 <= slot_end c <= I4B_PCM_SLOT_MAX ∧ slot_end c mod 2 = 0 ∧ length (slot_bitmap c) = 4%nat ∧
  Forall is_u32 (slot_bitmap c).
Record li_inv (s : state) : Prop := {
  lv_cables : length (cables s) = I4B_PCM_CABLE_MAX ∧ Forall cable_ok (cables s);
  lv_maps : ∀ u, Forall (λ z, 0 <= z) (cable_map s u);
  lv_slots p li : in_use s p li -> 0 <= pcm_cable li < Z.of_nat I4B_PCM_CABLE_MAX ∧
    0 <= pcm_slot_rx li < 2 * pcm_end s (pcm_cable li) ∧
    pcm_slot_tx li = peer_slot (pcm_end s (pcm_cable li)) (pcm_slot_rx li) ∧
    slot_used s (pcm_cable li) (pcm_slot_rx li) = true;
  lv_owner c k : 0 <= c < Z.of_nat I4B_PCM_CABLE_MAX -> 0 <= k -> slot_used s c k = true ->
    ∃ p li, in_use s p li ∧ pcm_cable li = c ∧ pcm_slot_rx li = k;
  lv_unique p q li li' : in_use s p li -> in_use s q li' -> pcm_cable li = pcm_cable li' ->
    pcm_slot_rx li = pcm_slot_rx li' -> p = q;
}.
(** What the surroundings can do: connect two calls, and end an
    interconnect that is in use. *)
Inductive li_step : state -> state -> Prop :=
| ls_alloc s cdid_src cdid_dst : li_step s (i4b_slot_li_alloc cdid_src cdid_dst s).2
| ls_free s p li : in_use s p li -> li_step s (i4b_slot_li_free p s).
(** Nothing is in use after the start. *)
Record li_fresh (s : state) : Prop := {
  lf_cables : length (cables s) = I4B_PCM_CABLE_MAX ∧ Forall cable_ok (cables s);
  lf_maps : ∀ u, Forall (λ z, 0 <= z) (cable_map s u);
  lf_clear : Forall (λ c, Forall (eq 0) (slot_bitmap c)) (cables s);
  lf_unused p li : li_at s p = Some li -> li_owner li = CDID_UNUSED;
}.

(** ** Bits and slots *)
Lemma u32_testbit x m : 0 <= m < 32 -> Z.testbit (u32 x) m = Z.testbit x m.
Proof. intros H. unfold u32. change 4294967296 with (2 ^ 32). apply Z.mod_pow2_bits_low. lia. Qed.
Lemma GET_BIT32_testbit v k : GET_BIT32 v k = Z.testbit (default 0 (v !! Z.to_nat (k / 32))) (k mod 32).
Proof. apply bit_set_testbit, Z.mod_pos_bound. lia. Qed.
Lemma GET_SET32 v k k' b : 0 <= k < 32 * Z.of_nat (length v) -> 0 <= k' ->
  GET_BIT32 (SET_BIT32 v k b) k' = if k' =? k then b else GET_BIT32 v k'.
Proof.
  intros Hk Hk'. rewrite !GET_BIT32_testbit. unfold SET_BIT32.
  pose proof (Z.mod_pos_bound k 32 ltac:(lia)) as Hm. pose proof (Z.mod_pos_bound k' 32 ltac:(lia)) as Hm'.
  assert (0 <= k / 32 < Z.of_nat (length v)) as Hd0 by (Z.div_mod_to_equations; lia).
  assert (0 <= k' / 32) by (Z.div_mod_to_equations; lia).
  destruct (Z.eq_dec (k' / 32) (k / 32)) as [Hd|Hd].
  - rewrite Hd, list_lookup_alter_eq. destruct (lookup_lt_is_Some_2 v (Z.to_nat (k / 32))) as [x Hx]; [lia|].
    rewrite Hx. cbn [fmap option_fmap option_map from_option id].
    assert ((k' =? k) = (k' mod 32 =? k mod 32)) as ->.
    { destruct (Z.eqb_spec k' k), (Z.eqb_spec (k' mod 32) (k mod 32)); try done; Z.div_mod_to_equations; lia. }
    destruct b; rewrite u32_testbit by done; [rewrite Z.lor_spec|rewrite Z.land_spec, Z.lnot_spec by lia];
      rewrite testbit_one by lia; destruct (k' mod 32 =? k mod 32); simpl;
      rewrite ?orb_true_r, ?orb_false_r, ?andb_false_r, ?andb_true_r; done.
  - rewrite list_lookup_alter_ne by lia. by destruct (Z.eqb_spec k' k) as [->|].
Qed.
Lemma SET_BIT32_u32 v k b : Forall is_u32 v -> Forall is_u32 (SET_BIT32 v k b).
Proof.
  intros H. apply Forall_alter; [done|]. intros x _ _. destruct b; apply u32_range.
Qed.
Lemma peer_ok e k : 0 <= e <= 64 -> 0 <= k < 2 * e -> 0 <= peer_slot e k < 2 * e ∧ peer_slot e (peer_slot e k) = k.
Proof.
  intros He Hk. assert (Hp : peer_slot e k = if k <? e then k + e else k - e).
  { unfold peer_slot. destruct (Z.ltb_spec k e); apply u16_id; unfold is_u16; lia. }
  rewrite Hp. unfold peer_slot. destruct (Z.ltb_spec k e).
  - rewrite (proj2 (Z.ltb_ge _ _)) by lia. rewrite u16_id by (unfold is_u16; lia). lia.
  - rewrite (proj2 (Z.ltb_lt _ _)) by lia. rewrite u16_id by (unfold is_u16; lia). lia.
Qed.

(** ** The state *)
Lemma li_at_mod p f s q : li_at (mod_li p f s) q = if decide (q = p) then f <$> li_at s p else li_at s q.
Proof.
  unfold li_at, lis, mod_li. cbn. destruct p as [u i], q as [u' i']. cbn [fst snd].
  destruct (decide (u' = u)) as [->|Hu].
  - rewrite list_lookup_alter_eq. destruct (li_units s !! u) as [c|] eqn:E; cbn.
    + case_decide as H.
      * injection H as ->. by rewrite list_lookup_alter_eq.
      * rewrite list_lookup_alter_ne; [done|congruence].
    + by case_decide.
  - rewrite list_lookup_alter_ne by done. rewrite decide_False by congruence. done.
Qed.
Lemma li_at_cable c f s p : li_at (mod_cable c f s) p = li_at s p.
Proof. done. Qed.
Lemma cable_at_li p f s c : cable_at (mod_li p f s) c = cable_at s c.
Proof. done. Qed.
Lemma cable_map_mod p f s u : cable_map (mod_li p f s) u = cable_map s u.
Proof.
  unfold cable_map, mod_li. cbn. destruct (decide (u = p.1)) as [->|Hu].
  - rewrite list_lookup_alter_eq. by destruct (li_units s !! p.1).
  - by rewrite list_lookup_alter_ne by done.
Qed.
Lemma cable_at_mod c f s c' : 0 <= c -> 0 <= c' -> (Z.to_nat c < length (cables s))%nat ->
  cable_at (mod_cable c f s) c' = if c' =? c then f (cable_at s c) else cable_at s c'.
Proof.
  intros Hc Hc' Hl. unfold cable_at, mod_cable. cbn. destruct (Z.eqb_spec c' c) as [->|Hn].
  - rewrite list_lookup_alter_eq. by destruct (lookup_lt_is_Some_2 _ _ Hl) as [x ->].
  - by rewrite list_lookup_alter_ne by lia.
Qed.
Lemma cable_ok_at s c : li_inv s -> 0 <= c < Z.of_nat I4B_PCM_CABLE_MAX ->
  cable_ok (cable_at s c) ∧ (Z.to_nat c < length (cables s))%nat.
Proof.
  intros Hi Hc. destruct (lv_cables _ Hi) as [Hl Hok].
  assert (Hlt : (Z.to_nat c < length (cables s))%nat) by lia. split; [|done].
  destruct (lookup_lt_is_Some_2 _ _ Hlt) as [x Hx]. unfold cable_at. rewrite Hx. cbn.
  rewrite Forall_lookup in Hok. by apply (Hok (Z.to_nat c)).
Qed.
Lemma pcm_end_ok c : cable_ok c -> 0 <= slot_end c / 2 <= 64 ∧ 2 * (slot_end c / 2) = slot_end c.
Proof. intros (H1 & H2 & _). unfold I4B_PCM_SLOT_MAX in H1. Z.div_mod_to_equations. lia. Qed.

(** Only the bitmap of one cable and one interconnect change. *)
Section Change.
Context (s : state) (Hi : li_inv s) (c k : Z) (b : bool) (p : ptr) (li' : line_interconnect).
Context (Hc : 0 <= c < Z.of_nat I4B_PCM_CABLE_MAX) (Hk : 0 <= k < 2 * pcm_end s c).
Let s' := mod_li p (λ _, li') (mod_cable c (λ x, x <| slot_bitmap ::= λ v, SET_BIT32 v k b |>) s).

Lemma change_pcm_end c' : 0 <= c' -> pcm_end s' c' = pcm_end s c'.
Proof using Hi Hc.
  intros Hc'. destruct (cable_ok_at s c Hi Hc) as [_ Hl]. unfold pcm_end, s'. rewrite cable_at_li, cable_at_mod by lia.
  by destruct (Z.eqb_spec c' c) as [->|].
Qed.
Lemma change_used c' k' : 0 <= c' -> 0 <= k' ->
  slot_used s' c' k' = if decide (c' = c ∧ k' = k) then b else slot_used s c' k'.
Proof using Hi Hc Hk.
  intros Hc' Hk'. destruct (cable_ok_at s c Hi Hc) as [Hok Hl]. unfold slot_used, s'. rewrite cable_at_li, cable_at_mod by lia.
  destruct (Z.eqb_spec c' c) as [->|Hn]; [|by rewrite decide_False by tauto].
  cbn. rewrite GET_SET32; [|split; [lia|]|done].
  - destruct (Z.eqb_spec k' k) as [->|Hn]; [by rewrite decide_True|by rewrite decide_False by tauto].
  - destruct (pcm_end_ok _ Hok) as [H1 _]. destruct Hok as (_ & _ & -> & _). unfold pcm_end in Hk. lia.
Qed.
Lemma change_cables : length (cables s') = I4B_PCM_CABLE_MAX ∧ Forall cable_ok (cables s').
Proof using Hi.
  destruct (lv_cables _ Hi) as [Hl Hok]. split; [etransitivity; [apply length_alter|done]|].
  apply Forall_alter; [done|]. intros x _ (H1 & H2 & H3 & H4). split; [exact H1|]. split; [exact H2|]. split.
  - etransitivity; [apply length_alter|done].
  - by apply SET_BIT32_u32.
Qed.
Lemma change_maps u : Forall (λ z, 0 <= z) (cable_map s' u).
Proof using Hi. unfold s'. rewrite cable_map_mod. apply (lv_maps _ Hi). Qed.
Lemma change_li q : is_Some (li_at s p) -> li_at s' q = if decide (q = p) then Some li' else li_at s q.
Proof. intros [li Hp]. unfold s'. rewrite li_at_mod, !li_at_cable, Hp. done. Qed.

(** An unused interconnect is taken into use for a slot that is free. *)
Lemma take_inv li : b = true -> li_at s p = Some li -> li_owner li = CDID_UNUSED -> li_owner li' <> CDID_UNUSED ->
  slot_used s c k = false -> pcm_cable li' = c -> pcm_slot_rx li' = k -> pcm_slot_tx li' = peer_slot (pcm_end s c) k ->
  li_inv s'.
Proof using Hi Hc Hk.
  intros Hb Hp Hun Hown Hfree H1 H2 H3. assert (HpS : is_Some (li_at s p)) by eauto.
  assert (Hold : ∀ q li0, in_use s' q li0 -> (q = p ∧ li0 = li') ∨ (q <> p ∧ in_use s q li0)).
  { intros q li0 [Hq Ho]. rewrite change_li in Hq by done. case_decide; [left; naive_solver|right; done]. }
  assert (Hslot : ∀ q li0, in_use s q li0 -> ~ (pcm_cable li0 = c ∧ pcm_slot_rx li0 = k)).
  { intros q li0 Hq [E1 E2]. destruct (lv_slots _ Hi q li0 Hq) as (_ & _ & _ & Hu). congruence. }
  constructor; [apply change_cables|apply change_maps| | |].
  - intros q li0 Hq. destruct (Hold q li0 Hq) as [[-> ->]|[_ Hq']].
    + rewrite H1, H2, change_pcm_end, change_used, decide_True by lia. auto.
    + destruct (lv_slots _ Hi q li0 Hq') as (L1 & L2 & L3 & L4). rewrite change_pcm_end, change_used by lia.
      rewrite decide_False by (by apply (Hslot q)). auto.
  - intros c' k' Hc' Hk' Hu. rewrite change_used in Hu by lia. case_decide as Hd.
    + destruct Hd as [-> ->]. exists p, li'. split; [|done]. split; [|done]. by rewrite change_li, decide_True.
    + destruct (lv_owner _ Hi c' k' Hc' Hk' Hu) as (q & li0 & [Hq Ho] & E). exists q, li0. split; [|done].
      split; [|done]. rewrite change_li, decide_False; [done| |done]. intros ->. congruence.
  - intros q q' l l' Hq Hq' E1 E2.
    destruct (Hold _ _ Hq) as [[-> ->]|[_ Hq1]], (Hold _ _ Hq') as [[-> ->]|[_ Hq2]]; [done| | |].
    + destruct (Hslot _ _ Hq2). by rewrite <-E1, <-E2.
    + destruct (Hslot _ _ Hq1). by rewrite E1, E2.
    + by apply (lv_unique _ Hi q q' l l').
Qed.
(** An interconnect in use is given back with its slot. *)
Lemma drop_inv li : b = false -> in_use s p li -> pcm_cable li = c -> pcm_slot_rx li = k -> li_owner li' = CDID_UNUSED ->
  li_inv s'.
Proof using Hi Hc Hk.
  intros Hb Hp H1 H2 Hun. assert (HpS : is_Some (li_at s p)) by (destruct Hp; eauto).
  assert (Hold : ∀ q li0, in_use s' q li0 -> q <> p ∧ in_use s q li0).
  { intros q li0 [Hq Ho]. rewrite change_li in Hq by done. case_decide; [naive_solver|done]. }
  constructor; [apply change_cables|apply change_maps| | |].
  - intros q li0 Hq. destruct (Hold q li0 Hq) as [Hne Hq']. destruct (lv_slots _ Hi q li0 Hq') as (L1 & L2 & L3 & L4).
    rewrite change_pcm_end, change_used by lia. rewrite decide_False; [auto|]. intros [E1 E2]. apply Hne.
    apply (lv_unique _ Hi q p li0 li Hq' Hp); congruence.
  - intros c' k' Hc' Hk' Hu. rewrite change_used in Hu by lia. case_decide as Hd; [congruence|].
    destruct (lv_owner _ Hi c' k' Hc' Hk' Hu) as (q & li0 & [Hq Ho] & E1 & E2). exists q, li0. split; [|done].
    split; [|done]. rewrite change_li, decide_False; [done| |done]. intros ->. destruct Hp as [Hp _].
    assert (li0 = li) as -> by congruence. apply Hd. split; congruence.
  - intros q q' l l' Hq Hq' E1 E2. apply (lv_unique _ Hi q q' l l'); try done; by apply Hold.
Qed.
End Change.

(** ** Allocation *)
Lemma li_find_spec P u s p : li_find P u s = Some p -> ∃ li, li_at s p = Some li ∧ P li = true.
Proof.
  unfold li_find. destruct (list_find _ _) as [[i li]|] eqn:E; [|done]. intros H. injection H as <-.
  apply list_find_Some in E as (H1 & H2 & _). by exists li.
Qed.
Lemma mod_li_twice p f h k c g s : (∀ li, li_at s p = Some li -> f (h li) = k li) ->
  mod_li p f (mod_cable c g (mod_li p h s)) = mod_li p k (mod_cable c g s).
Proof.
  intros H. destruct s as [us cs], p as [u i]. unfold mod_li, mod_cable.
  change (State (alter (λ c, c <| N_line_interconnect ::= alter f i |>) u
                   (alter (λ c, c <| N_line_interconnect ::= alter h i |>) u us)) (alter g (Z.to_nat c) cs) =
          State (alter (λ c, c <| N_line_interconnect ::= alter k i |>) u us) (alter g (Z.to_nat c) cs)).
  rewrite list_alter_alter_eq. assert (Hu : ∀ x, us !! u = Some x ->
    ((λ c, c <| N_line_interconnect ::= alter f i |>) ∘ (λ c, c <| N_line_interconnect ::= alter h i |>)) x =
    x <| N_line_interconnect ::= alter k i |>).
  { intros [ls m] Hx. change (Li_unit (alter f i (alter h i ls)) m = Li_unit (alter k i ls) m).
    rewrite list_alter_alter_eq. rewrite (list_alter_ext (f ∘ h) k ls ls i); [done| |done].
    intros l Hl. apply H. unfold li_at, lis. cbn. by rewrite Hx. }
  by rewrite (list_alter_ext _ _ us us u Hu eq_refl).
Qed.
(** What [__i4b_slot_li_alloc] does. *)
Lemma alloc_at_spec cdid c slot s : li_inv s -> 0 <= c < Z.of_nat I4B_PCM_CABLE_MAX -> 0 <= slot < 2 * pcm_end s c ->
  let r := slot_li_alloc_at cdid c slot s in
  let rx := peer_slot (pcm_end s c) slot in
  r = (None, s) ∨
  ∃ p li, r.1 = Some p ∧ li_at s p = Some li ∧ li_owner li = CDID_UNUSED ∧ cdid <> CDID_UNUSED ∧
    slot_used s c rx = false ∧ li_inv r.2 ∧
    ∀ q, li_at r.2 q = if decide (q = p) then Some (Line_interconnect cdid c rx slot) else li_at s q.
Proof.
  intros Hi Hc Hs r rx. subst r. unfold slot_li_alloc_at, i4b_li_alloc. fold (pcm_end s c). fold rx.
  change (GET_BIT32 (slot_bitmap (cable_at s c)) rx) with (slot_used s c rx).
  destruct (slot_used s c rx) eqn:Hu; [by left|].
  destruct (Z.eqb_spec cdid CDID_UNUSED) as [->|Hn]; [by left|].
  destruct (li_find _ (unit_of cdid) s) as [p|] eqn:Hp; [|by left]. right.
  destruct (li_find_spec _ _ _ _ Hp) as (li & Hli & Ho). apply Z.eqb_eq in Ho. exists p, li. cbn [fst snd].
  destruct (cable_ok_at s c Hi Hc) as [Hok _]. destruct (pcm_end_ok _ Hok) as [He _].
  destruct (peer_ok (pcm_end s c) slot He Hs) as [Hrx Hpp]. fold rx in Hrx, Hpp.
  set (li' := Line_interconnect cdid c rx slot).
  assert (Hst : mod_li p (λ li, li <| pcm_cable := c |> <| pcm_slot_rx := rx |> <| pcm_slot_tx := slot |>)
      (mod_cable c (λ x, x <| slot_bitmap ::= λ v, SET_BIT32 v rx true |>) (mod_li p (λ li, li <| li_owner := cdid |>) s)) =
    mod_li p (λ _, li') (mod_cable c (λ x, x <| slot_bitmap ::= λ v, SET_BIT32 v rx true |>) s)).
  { apply mod_li_twice. intros l Hl. assert (l = li) as -> by congruence. by destruct li. }
  rewrite Hst. split_and!; try done.
  - by apply take_inv with li.
  - intros q. apply change_li. eauto.
Qed.

(** ** The search for a pair of free slots *)
Lemma u32_high x k : is_u32 x -> 32 <= k -> Z.testbit x k = false.
Proof.
  intros Hx Hk. rewrite <-(Z.mod_small x (2 ^ 32)) by exact Hx. by apply Z.mod_pow2_bits_high.
Qed.
Lemma word_u32 v i : Forall is_u32 v -> is_u32 (default 0 (v !! i)).
Proof.
  intros H. destruct (v !! i) as [x|] eqn:E; cbn; [|unfold is_u32; lia]. rewrite Forall_lookup in H. by apply (H i).
Qed.
Lemma get_dword_bit v off j : Forall is_u32 v -> 0 <= off -> 0 <= j < 32 ->
  Z.testbit (get_dword v off) j = GET_BIT32 v (off + j).
Proof.
  intros Hv Ho Hj. rewrite GET_BIT32_testbit. unfold get_dword. set (r := off mod 32). set (d := off / 32).
  assert (Hr : 0 <= r < 32) by (apply Z.mod_pos_bound; lia). assert (Hd : 0 <= d) by (apply Z.div_pos; lia).
  assert (Hoff : off = 32 * d + r) by (apply Z.div_mod; lia).
  assert (Hb : ∀ q m, 0 <= m < 32 -> off + j = 32 * q + m -> (off + j) / 32 = q ∧ (off + j) mod 32 = m).
  { intros q m Hm He. Z.div_mod_to_equations. lia. }
  destruct (Z.ltb_spec (r + j) 32) as [Hlt|Hge].
  - destruct (Hb d (r + j)) as [-> ->]; [lia|lia|]. assert (Hlow : Z.testbit (Z.shiftr (default 0 (v !! Z.to_nat d)) r) j =
      Z.testbit (default 0 (v !! Z.to_nat d)) (r + j)) by (rewrite Z.shiftr_spec by lia; f_equal; lia).
    destruct (nonzero r); [|done]. rewrite Z.lor_spec, Hlow, u32_testbit, Z.shiftl_spec by lia.
    rewrite (Z.testbit_neg_r _ (j - (32 - r))) by lia. apply orb_false_r.
  - destruct (Hb (d + 1) (r + j - 32)) as [-> ->]; [lia|lia|].
    assert (nonzero r = true) as -> by (apply nonzero_true; lia).
    rewrite Z.lor_spec, Z.shiftr_spec, u32_high, u32_testbit, Z.shiftl_spec by (by apply word_u32 || lia).
    cbn. f_equal. lia.
Qed.
Lemma lor_u32 a b : is_u32 a -> is_u32 b -> is_u32 (Z.lor a b).
Proof.
  unfold is_u32. intros Ha Hb. assert (0 <= Z.lor a b) by (apply Z.lor_nonneg; lia). split; [done|].
  destruct (Z.eq_dec (Z.lor a b) 0) as [->|Hn]; [lia|]. apply (Z.log2_lt_cancel _ (2 ^ 32)).
  rewrite Z.log2_lor, Z.log2_pow2 by lia. apply Z.max_lub_lt; destruct (Z.eq_dec a 0), (Z.eq_dec b 0); subst; cbn; try lia;
    apply Z.log2_lt_pow2; lia.
Qed.
Lemma get_dword_u32 v off : Forall is_u32 v -> is_u32 (get_dword v off).
Proof.
  intros Hv. unfold get_dword. assert (H : is_u32 (Z.shiftr (default 0 (v !! Z.to_nat (off / 32))) (off mod 32))).
  { pose proof (word_u32 v (Z.to_nat (off / 32)) Hv) as Hw. unfold is_u32 in *.
    pose proof (Z.mod_pos_bound off 32 ltac:(lia)). rewrite Z.shiftr_div_pow2 by lia.
    assert (0 < 2 ^ (off mod 32)) by (apply Z.pow_pos_nonneg; lia). split; [apply Z.div_pos; lia|].
    apply Z.div_lt_upper_bound; nia. }
  destruct (nonzero _); [|done]. apply lor_u32; [done|apply u32_range].
Qed.
Lemma all_ones t : is_u32 t -> (∀ j, 0 <= j < 32 -> Z.testbit t j = true) -> t = 0xffffffff.
Proof.
  intros Ht H. change 0xffffffff with (Z.ones 32). apply Z.bits_inj'. intros k Hk. destruct (Z.ltb_spec k 32).
  - rewrite H, Z.ones_spec_low by lia. done.
  - rewrite u32_high, Z.ones_spec_high by (done || lia). done.
Qed.
Lemma free_slot_spec n y e v x : Forall is_u32 v -> 0 <= y -> y mod 32 = 0 -> 0 <= e ->
  free_slot n y e v = Some x -> 0 <= x < e ∧ GET_BIT32 v x = false ∧ GET_BIT32 v (x + e) = false.
Proof.
  intros Hv. revert y. induction n as [|n IH]; intros y Hy Hm He; [done|]. cbn [free_slot].
  destruct (Z.ltb_spec y e) as [Hlt|]; [|done]. set (t := Z.lor _ _).
  assert (Ht : is_u32 t) by (apply lor_u32; by apply get_dword_u32).
  destruct (Z.eqb_spec t 0xffffffff) as [_|Hne].
  { apply IH; [lia| |done]. rewrite <-Hm, <-(Z.mod_add y 1 32) by lia. done. }
  unfold free_in_dword. destruct (list_find _ _) as [[i x']|] eqn:E; [|done]. intros H. injection H as ->.
  apply list_find_Some in E as (H1 & H2 & H3). apply lookup_seqZ in H1 as [-> Hi].
  assert (Hbit : ∀ j, 0 <= j < 32 -> bit_set t (Z.shiftl 1 ((y + j) mod 32)) = Z.testbit t j).
  { intros j Hj. rewrite bit_set_testbit by (apply Z.mod_pos_bound; lia). f_equal.
    rewrite Z.add_mod, Hm, Z.add_0_l, Z.mod_mod, Z.mod_small by lia. done. }
  assert (Hi32 : Z.of_nat i < 32).
  { destruct (Z.ltb_spec (Z.of_nat i) 32) as [|Hge]; [done|]. exfalso. apply Hne, all_ones; [done|]. intros j Hj.
    specialize (H3 (Z.to_nat j) (y + j)). rewrite Hbit in H3 by done. apply not_false_iff_true, H3; [|lia].
    apply lookup_seqZ. lia. }
  rewrite Hbit in H2 by lia. subst t. rewrite Z.lor_spec in H2. apply orb_false_iff in H2 as [H4 H5].
  rewrite get_dword_bit in H4, H5 by (done || lia). split; [lia|]. split; [done|].
  by replace (y + Z.of_nat i + e) with (y + e + Z.of_nat i) by lia.
Qed.

Lemma common_slot_spec src dst s z y : li_inv s -> Forall (λ z, 0 <= z) src -> common_slot src dst s = Some (z, y) ->
  z ∈ src ∧ z ∈ dst ∧ 0 <= z < Z.of_nat I4B_PCM_CABLE_MAX ∧ 0 <= y < pcm_end s z ∧
  slot_used s z y = false ∧ slot_used s z (y + pcm_end s z) = false.
Proof.
  intros Hi. induction src as [|z0 src IH]; intros Hs; [done|]. apply Forall_cons in Hs as [Hz0 Hs]. cbn [common_slot].
  assert (Hrec : common_slot src dst s = Some (z, y) -> z ∈ z0 :: src ∧ z ∈ dst ∧ 0 <= z < Z.of_nat I4B_PCM_CABLE_MAX ∧
    0 <= y < pcm_end s z ∧ slot_used s z y = false ∧ slot_used s z (y + pcm_end s z) = false).
  { intros H. destruct (IH Hs H) as (H1 & H2). split; [by right|done]. }
  destruct (Z.leb_spec (Z.of_nat I4B_PCM_CABLE_MAX) z0) as [|Hz1]; [done|]. cbn [orb].
  destruct (existsb (Z.eqb z0) dst) eqn:E; cbn [negb]; [|done].
  destruct (free_slot _ _ _ _) as [x|] eqn:Hf; [|done]. intros H. injection H as <- <-.
  destruct (cable_ok_at s z0 Hi) as [Hok _]; [lia|]. destruct (pcm_end_ok _ Hok) as [He _].
  apply free_slot_spec in Hf as (H1 & H2 & H3); [|apply Hok|lia|done|lia].
  apply existsb_exists in E as (z' & Hin & ->%Z.eqb_eq). apply list_elem_of_In in Hin.
  split; [by left|]. split; [done|]. split; [lia|]. done.
Qed.
Lemma search_in_use cdid s p : i4b_li_search cdid s = Some p -> ∃ li, in_use s p li ∧ li_owner li = cdid.
Proof.
  unfold i4b_li_search. destruct (Z.eqb_spec cdid CDID_UNUSED) as [|Hn]; [done|]. intros H.
  destruct (li_find_spec _ _ _ _ H) as (li & H1 & H2). apply Z.eqb_eq in H2. exists li. split; [|done]. split; congruence.
Qed.
Definition crossed (a b : line_interconnect) : Prop :=
  pcm_cable a = pcm_cable b ∧ pcm_slot_tx a = pcm_slot_rx b ∧ pcm_slot_rx a = pcm_slot_tx b.
(** [p] is taken into use as [new], nothing else is changed. *)
Definition taken (s s' : state) (p : ptr) (new : line_interconnect) : Prop :=
  (∃ li, li_at s p = Some li ∧ li_owner li = CDID_UNUSED) ∧
  (∀ q, li_at s' q = if decide (q = p) then Some new else li_at s q).
Lemma slot_li_alloc_spec cdid_src cdid_dst s : li_inv s ->
  let r := i4b_slot_li_alloc cdid_src cdid_dst s in
  r = (None, s) ∨ ∃ p new, r.1 = Some p ∧ taken s r.2 p new ∧ li_owner new = cdid_src ∧ li_inv r.2 ∧
    match i4b_li_search cdid_dst s with
    | Some d => ∃ li, in_use s d li ∧ li_owner li = cdid_dst ∧ crossed new li
    | None => pcm_cable new ∈ cable_map s (unit_of cdid_src) ∧ pcm_cable new ∈ cable_map s (unit_of cdid_dst) ∧
        slot_used s (pcm_cable new) (pcm_slot_rx new) = false ∧ slot_used s (pcm_cable new) (pcm_slot_tx new) = false
    end.
Proof.
  intros Hi r. subst r. unfold i4b_slot_li_alloc. destruct (i4b_li_search cdid_dst s) as [d|] eqn:Hd.
  - destruct (search_in_use _ _ _ Hd) as (li & Hu & Ho). rewrite (proj1 Hu).
    destruct (lv_slots _ Hi d li Hu) as (H1 & H2 & H3 & _).
    destruct (alloc_at_spec cdid_src _ _ s Hi H1 H2) as [H|(p & l0 & K1 & K2 & K3 & _ & _ & K6 & K7)]; [by left|right].
    eexists p, _. split; [exact K1|]. split; [split; [by exists l0|exact K7]|]. split; [done|]. split; [exact K6|].
    exists li. split; [done|]. split; [done|]. split_and!; cbn; done.
  - destruct (common_slot _ _ s) as [[z y]|] eqn:Hc; [|by left].
    destruct (common_slot_spec _ _ s z y Hi (lv_maps _ Hi _) Hc) as (C1 & C2 & C3 & C4 & C5 & C6).
    destruct (alloc_at_spec cdid_src z y s Hi C3) as [H|(p & l0 & K1 & K2 & K3 & _ & K5 & K6 & K7)]; [lia|by left|right].
    eexists p, _. split; [exact K1|]. split; [split; [by exists l0|exact K7]|]. split; [done|]. split; [exact K6|].
    split_and!; cbn; done.
Qed.
Lemma slot_li_free_inv s p li : li_inv s -> in_use s p li -> li_inv (i4b_slot_li_free p s).
Proof.
  intros Hi Hu. unfold i4b_slot_li_free, i4b_li_free. rewrite (proj1 Hu). destruct (lv_slots _ Hi p li Hu) as (H1 & H2 & _).
  by apply (drop_inv s Hi _ _ false p (Line_interconnect 0 0 0 0) H1 H2 li).
Qed.
Lemma fresh_inv s : li_fresh s -> li_inv s.
Proof.
  intros [H1 H2 H3 H4]. constructor; try done.
  - intros p li [Hp Ho]. by apply H4 in Hp.
  - intros c k Hc Hk Hu. exfalso. unfold slot_used in Hu. rewrite GET_BIT32_testbit in Hu.
    unfold cable_at in Hu. destruct (cables s !! Z.to_nat c) as [x|] eqn:E; cbn in Hu; [|by rewrite Z.bits_0 in Hu].
    rewrite Forall_lookup in H3. pose proof (H3 _ _ E) as Hx. cbn in Hx.
    destruct (slot_bitmap x !! Z.to_nat (k / 32)) as [w|] eqn:Ew; cbn in Hu; [|by rewrite Z.bits_0 in Hu].
    rewrite Forall_lookup in Hx. rewrite <-(Hx _ _ Ew), Z.bits_0 in Hu. done.
  - intros p q li li' [Hp Ho] _. by apply H4 in Hp.
Qed.
Lemma reachable_inv s0 s : li_fresh s0 -> rtc li_step s0 s -> li_inv s.
Proof.
  intros Hf H. apply fresh_inv in Hf. induction H as [|s0 s1 s2 Hstep _ IH]; [done|]. apply IH.
  destruct Hstep as [s cs cd|s p li Hu]; [|by apply slot_li_free_inv with li].
  destruct (slot_li_alloc_spec cs cd s Hf) as [H|(p & new & _ & _ & _ & H & _)]; [by rewrite H|done].
Qed.

(** ** The theorems *)

(** C26: Whatever calls were connected and disconnected before, no two
    interconnects of a cable receive in the same slot and no two of them
    send in the same slot, each of them sends and receives in the two slots
    of a pair, and a slot that is marked as in use belongs to an
    interconnect that is in use, so none is lost. *)
Theorem interconnect_exclusive s0 s :
  li_fresh s0 -> rtc li_step s0 s ->
  (∀ p q li li', in_use s p li -> in_use s q li' -> pcm_cable li = pcm_cable li' ->
     pcm_slot_rx li = pcm_slot_rx li' ∨ pcm_slot_tx li = pcm_slot_tx li' -> p = q) ∧
  (∀ p li, in_use s p li -> pcm_slot_rx li = peer_slot (pcm_end s (pcm_cable li)) (pcm_slot_tx li)) ∧
  (∀ c k, 0 <= c < Z.of_nat I4B_PCM_CABLE_MAX -> 0 <= k -> slot_used s c k = true ->
     ∃ p li, in_use s p li ∧ pcm_cable li = c ∧ pcm_slot_rx li = k).
Proof.
  intros Hf Hr. pose proof (reachable_inv s0 s Hf Hr) as Hi.
  assert (Hp : ∀ p li, in_use s p li -> pcm_slot_rx li = peer_slot (pcm_end s (pcm_cable li)) (pcm_slot_tx li)).
  { intros p li Hu. destruct (lv_slots _ Hi p li Hu) as (H1 & H2 & -> & _).
    destruct (cable_ok_at s _ Hi H1) as [Hok _]. destruct (pcm_end_ok _ Hok) as [He _].
    symmetry. by apply peer_ok. }
  split; [|split; [exact Hp|apply (lv_owner _ Hi)]]. intros p q li li' Hu Hu' Hc [H|H].
  - by apply (lv_unique _ Hi p q li li').
  - apply (lv_unique _ Hi p q li li'); try done. by rewrite (Hp p), (Hp q), Hc, H.
Qed.

(** C27: Connecting a call to another one changes nothing or takes exactly
    one unused interconnect into use for it.  If the other call has an
    interconnect already, the new one is on the same cable, sends in the slot
    the other one receives in and receives in the slot it sends in; if it
    has none, both slots of the pair are free and the cable is one that both
    controllers are attached to. *)
Theorem interconnect_crossed s0 s cdid_src cdid_dst :
  li_fresh s0 -> rtc li_step s0 s ->
  let r := i4b_slot_li_alloc cdid_src cdid_dst s in
  r = (None, s) ∨ ∃ p new, r.1 = Some p ∧ taken s r.2 p new ∧ li_owner new = cdid_src ∧
    match i4b_li_search cdid_dst s with
    | Some d => ∃ li, in_use s d li ∧ li_owner li = cdid_dst ∧ crossed new li
    | None => pcm_cable new ∈ cable_map s (unit_of cdid_src) ∧ pcm_cable new ∈ cable_map s (unit_of cdid_dst) ∧
        slot_used s (pcm_cable new) (pcm_slot_rx new) = false ∧ slot_used s (pcm_cable new) (pcm_slot_tx new) = false
    end.
Proof.
  intros Hf Hr. pose proof (reachable_inv s0 s Hf Hr) as Hi.
  destruct (slot_li_alloc_spec cdid_src cdid_dst s Hi) as [H|(p & new & H1 & H2 & H3 & _ & H5)]; [by left|right].
  by exists p, new.
Qed.

(** Two controllers on cable 3, which has sixty-four slots. *)
Definition sample_units : list li_unit :=
  replicate 2 (Li_unit (replicate 2 (Line_interconnect 0 0 0 0)) [9; 3]).
Definition sample_li : state := State sample_units (replicate 8 (Cable 64 [0; 0; 0; 0])).
(** A call of controller 0, then one of controller 1 that joins it. *)
Definition sample_one : state := (i4b_slot_li_alloc (MAKE_CDID 0 5) (MAKE_CDID 1 7) sample_li).2.
Definition sample_two : option ptr * state := i4b_slot_li_alloc (MAKE_CDID 1 7) (MAKE_CDID 0 5) sample_one.
Lemma sample_li_fresh : li_fresh sample_li.
Proof.
  assert (Hc : cable_ok (Cable 64 [0; 0; 0; 0])).
  { split; [unfold I4B_PCM_SLOT_MAX; cbn; lia|]. split; [done|]. split; [done|]. repeat (apply Forall_cons; split); try done. }
  constructor.
  - split; [done|]. by apply Forall_replicate.
  - intros u. destruct u as [|[|u]]; cbn; repeat (apply Forall_cons; split); try apply Forall_nil_2; lia.
  - apply Forall_replicate. cbn. repeat (apply Forall_cons; split); try apply Forall_nil_2; done.
  - intros [u i] li H. unfold li_at, lis in H. cbn in H. destruct u as [|[|u]]; cbn in H; [| |done].
    all: destruct i as [|[|i]]; cbn in H; [by injection H as <-|by injection H as <-|done].
Qed.
Lemma sample_one_reachable : rtc li_step sample_li sample_one.
Proof. apply rtc_once. apply ls_alloc. Qed.
Lemma interconnect_exclusive_witness :
  slot_used sample_one 3 32 = true ∧ ∃ p li, in_use sample_one p li ∧ pcm_cable li = 3 ∧ pcm_slot_rx li = 32.
Proof.
  split; [vm_compute; reflexivity|].
  destruct (interconnect_exclusive sample_li sample_one sample_li_fresh sample_one_reachable) as (_ & _ & H).
  apply H; [vm_compute; split; done|lia|vm_compute; reflexivity].
Defined.
Lemma interconnect_crossed_witness :
  sample_two.1 = Some (1, 0)%nat ∧
  (sample_two = (None, sample_one) ∨ ∃ p new, sample_two.1 = Some p ∧ taken sample_one sample_two.2 p new ∧
    li_owner new = MAKE_CDID 1 7 ∧
    match i4b_li_search (MAKE_CDID 0 5) sample_one with
    | Some d => ∃ li, in_use sample_one d li ∧ li_owner li = MAKE_CDID 0 5 ∧ crossed new li
    | None => pcm_cable new ∈ cable_map sample_one (unit_of (MAKE_CDID 1 7)) ∧
        pcm_cable new ∈ cable_map sample_one (unit_of (MAKE_CDID 0 5)) ∧
        slot_used sample_one (pcm_cable new) (pcm_slot_rx new) = false ∧
        slot_used sample_one (pcm_cable new) (pcm_slot_tx new) = false
    end).
Proof.
  split; [vm_compute; reflexivity|].
  apply (interconnect_crossed sample_li sample_one); [exact sample_li_fresh|exact sample_one_reachable].
Defined.
End Interconnect.
