(* ===== verification/Dial.v ===== *)
(** * Overlap dialling (layer4/i4b_l4.c)

    What becomes of the digits an application dials with
    [i4b_l3_information_req] (L3Decoder.v) on an outgoing call: they are
    kept in the call descriptor until the network has acknowledged the
    SETUP, and are sent in INFORMATION messages from then on. *)
From S2P Require Import Prelude Mbuf Dss1Types Dss1State Buffer L3Encoder CallDesc L3Fsm.
From S2P Require Import L3Decoder L2Pipe L2Fsm Stack Reach.
Local Open Scope Z_scope.

Module Dial.

(** ** The dialling of a call, seen from outside *)

(** An INFORMATION message as it is queued: the room for the header of
    layer 2, the header of layer 3 and the digits. *)
Definition information_frame (primary_rate : bool) (ref : Z) (digits : list Z) : list Z :=
  replicate I_HEADER_LEN 0 ++ [PD_Q931] ++ make_callreference primary_rate ref ++ [INFORMATION] ++
  string_ie IEI_CALLEDPN [NUMBER_TYPE_PLAN] digits.

Section dialling.
(** The call, its pipe, its reference. *)
Context (j i : nat) (ref : Z) (primary_rate : bool).

(** What is seen of the call descriptor. *)
Record dview := Dview { d_state : L3_STATES; d_telno : list Z; d_ptr : nat; d_part : list Z; d_early : list Z }.
Definition dview_of (cd : call_desc) : dview :=
  Dview (cd_state cd) (dst_telno cd) (dst_telno_ptr cd) (dst_telno_part cd) (dst_telno_early cd).
Definition outgoing_on (cd : call_desc) : Prop :=
  dir_incoming cd = false ∧ cd_pipe cd = Some i ∧ cr cd = ref.
(** Layer 2 is connected to a terminal or a point-to-point line and there is
    memory for frames. *)
Definition dial_line (w : world) : Prop :=
  sc_fifo_translator (w_sc w) = true ∧ TE_MODE (w_sc w) || IS_POINT_TO_POINT (w_sc w) = true ∧
  IS_PRIMARY_RATE (w_sc w) = primary_rate ∧ getmbuf_avail (w_env w) = [].
(** The frames that wait in the pipe, with room for [room] more. *)
Definition queued (l : list (list Z)) (room : nat) (w : world) : Prop :=
  ∃ p, sc_pipe (w_sc w) !! i = Some p ∧ m_bytes <$> ifq (pipe_ifq p) = l ∧
       Z.of_nat (length l + room) <= ifq_maxlen (pipe_ifq p).
Definition dialling (v : dview) (l : list (list Z)) (room : nat) (w : world) : Prop :=
  (∃ cd, N_call_desc (w_cntl w) !! j = Some cd ∧ outgoing_on cd ∧ dview_of cd = v) ∧
  dial_line w ∧ queued l room w.

(** ** Symbolic execution *)
Lemma dialling_cd v l r w : dialling v l r w -> ∃ cd, (get_cd j w).1 = cd ∧ outgoing_on cd ∧ dview_of cd = v.
Proof.
  intros [(cd & Hj & Ho & Hv) _]. exists cd. cbn. rewrite list_lookup_total_alt, Hj. done.
Qed.
Lemma dialling_mod f g v l r w :
  (∀ cd, outgoing_on cd -> outgoing_on (f cd)) -> (∀ cd, outgoing_on cd -> dview_of (f cd) = g (dview_of cd)) ->
  dialling v l r w -> dialling (g v) l r (mod_cd j f w).2.
Proof.
  intros Hf Hg [(cd & Hj & Ho & Hv) [Hl Hq]]. split; [|done].
  exists (f cd). cbn. rewrite list_lookup_alter_eq, Hj. split; [done|]. split; [by apply Hf|].
  rewrite Hg by done. by rewrite Hv.
Qed.
Lemma dialling_emit o v l r w : dialling v l r w -> dialling v l r (emit o w).2.
Proof. done. Qed.

(** Reading the call inside a program. *)
Lemma bind_get_cd {B} v l r w (k : call_desc -> M B) (Q : world -> Prop) :
  dialling v l r w -> (∀ cd, outgoing_on cd -> dview_of cd = v -> Q (k cd w).2) -> Q ((get_cd j ≫= k) w).2.
Proof.
  intros Hd Hk. destruct (dialling_cd v l r w Hd) as (cd & Hcd & Ho & Hv).
  rewrite run_bind, Hcd. by apply Hk.
Qed.


Lemma dialling_tx_frame n msg m v l r w :
  dialling v l (S r) w ->
  dialling v (l ++ [replicate I_HEADER_LEN 0 ++ msg]) r (tx_frame i n msg m w).2.
Proof.
  intros Hd. unfold tx_frame. rewrite run_bind.
  assert (dialling v l (S r) (when (n <? I_HEADER_LEN + length msg)%nat (emit OVERRUN) w).2) as Hd1
    by (by destruct (n <? _)%nat).
  generalize dependent (when (n <? I_HEADER_LEN + length msg)%nat (emit OVERRUN) w).2. clear w Hd.
  intros w (Hcd & Hl & p & Hp & Hq & Hr). unfold dss1_pipe_data_req. rewrite !run_bind.
  cbn [get_pipe get_sc gets fst snd]. rewrite list_lookup_total_alt, Hp. cbn [default from_option id].
  assert (length l = length (ifq (pipe_ifq p))) as Hlen by (by rewrite <-Hq, length_fmap).
  assert (IF_QFULL (pipe_ifq p) = false) as -> by (unfold IF_QFULL, ifq_len; rewrite Z.leb_gt; lia).
  destruct Hl as (Hf & Hl). rewrite Hf. cbn [orb negb]. rewrite run_bind.
  split; [done|]. split; [done|]. exists (p <| pipe_ifq ::= IF_ENQUEUE (m_fill (replicate I_HEADER_LEN 0 ++ msg) m) |>).
  split; [cbn; by rewrite list_lookup_alter_eq, Hp|]. split; [|cbn; rewrite length_app; cbn; lia].
  trans (m_bytes <$> (ifq (pipe_ifq p) ++ [m_fill (replicate I_HEADER_LEN 0 ++ msg) m])); [done|].
  rewrite fmap_app, Hq. cbn [fmap list_fmap]. by rewrite m_bytes_fill.
Qed.

Lemma information_message nt cd q :
  outgoing_on cd ->
  replicate I_HEADER_LEN 0 ++ make_message nt primary_rate cd INFORMATION (Z.lor L3_TX_HEADER L3_TX_CALLEDPN) q =
  information_frame primary_rate ref (dst_telno_early cd).
Proof.
  intros (_ & _ & Hr). unfold make_message, information_frame. rewrite Hr. cbn.
  by rewrite app_nil_r.
Qed.
Lemma dialling_information v l r w :
  dialling v l (S r) w ->
  dialling v (l ++ [information_frame primary_rate ref (d_early v)]) r (dss1_l3_tx_information j w).2.
Proof.
  intros Hd. unfold dss1_l3_tx_information, dss1_l3_tx_message.
  apply (bind_get_cd _ _ _ _ _ _ Hd). intros cd Ho Hv. rewrite run_bind. cbn [get_sc gets fst snd].
  destruct Ho as (Hi & Hp & Hr). rewrite Hp. unfold get_mbuf. rewrite !run_bind.
  pose proof Hd as (_ & (_ & _ & Hpr & Hav) & _). cbn [gets modify fst snd]. rewrite Hav, Hpr.
  change (default true (head [])) with true. unfold i4b_getmbuf.
  change (MCLBYTES <? DCH_MAX_DATALEN)%nat with false. cbn [fst snd mret st_ret].
  change (bit_set (Z.lor L3_TX_HEADER L3_TX_CALLEDPN) L3_TX_CAUSE) with false.
  change (bit_set (Z.lor L3_TX_HEADER L3_TX_CALLEDPN) L3_TX_DATE_TIME) with false.
  cbn [andb when]. rewrite !run_bind. cbn [fst snd mret st_ret].
  rewrite <-Hv. cbn [d_early dview_of]. rewrite <-(information_message (NT_MODE (w_sc w)) cd 0) by done.
  apply dialling_tx_frame. rewrite Hv.
  destruct Hd as (? & (Hl1 & Hl2 & Hl3 & Hl4) & Hq). split; [done|]. split; [|done].
  split; [done|]. split; [done|]. split; [done|]. cbn. by rewrite Hl4.
Qed.

(** Entering one of the dialling states: the digits that wait are sent, but
    in [ST_L3_U2]. *)
Definition flushed (v : dview) : list (list Z) :=
  if bool_decide (cstr (d_early v) = []) then [] else [information_frame primary_rate ref (d_early v)].
Definition in_state (s : L3_STATES) (v : dview) : dview :=
  Dview s (d_telno v) (d_ptr v) (d_part v) (d_early v).
Definition sent_early (v : dview) : dview := Dview (d_state v) (d_telno v) (d_ptr v) (d_part v) [].
Definition is_dialling (s : L3_STATES) : Prop := s = ST_L3_U2 ∨ s = ST_L3_U2_ACK.
Definition entered (s : L3_STATES) (v : dview) : dview :=
  if bool_decide (s = ST_L3_U2) || bool_decide (cstr (d_early v) = [])
  then in_state s v else sent_early (in_state s v).
Definition entering (s : L3_STATES) (v : dview) : list (list Z) :=
  if bool_decide (s = ST_L3_U2) then [] else flushed v.

Lemma in_state_same v : in_state (d_state v) v = v.
Proof. by destruct v. Qed.

Lemma dialling_set_state s v l r w :
  is_dialling s -> dialling v l (length (entering s v) + r) w ->
  dialling (entered s v) (l ++ entering s v) r (cd_set_state j s w).2.
Proof.
  intros Hs Hd. unfold cd_set_state. apply (bind_get_cd _ _ _ _ _ _ Hd). intros cd Ho Hv.
  destruct Ho as (_ & Hp & _). rewrite Hp, !run_bind. apply (dialling_mod _ id); [done|done|].
  assert (s ≠ ST_L3_U0) as Hs0. { destruct Hs as [-> | ->]; discriminate. }
  rewrite (bool_decide_false (s = ST_L3_U0)) by exact Hs0.
  set (w1 := (mod_cd j _ w).2). assert (dialling v l (length (entering s v) + r) w1) as Hd1 by (by apply (dialling_mod _ id)).
  clearbody w1. clear Hd cd Hp Hv. unfold cd_set_state_other. rewrite !run_bind.
  cbn [get_sc get_cntl get_hz gets fst snd].
  destruct (dialling_cd _ _ _ _ Hd1) as (cd & Hcd & Ho & Hv). cbn [get_cd gets fst] in Hcd.
  cbn [get_cd gets fst snd]. rewrite Hcd.
  assert (adjust_newstate (w_sc w1) (no_layer3_status_enquiry (w_cntl w1)) cd s = (false, s, false)) as ->.
  { unfold adjust_newstate. destruct Hs as [-> | ->]; cbn; by rewrite !andb_false_r. }
  rewrite !run_bind. cbn [when mret st_ret fst snd]. set (w2 := (mod_cd j _ w1).2).
  assert (dialling (in_state s v) l (length (entering s v) + r) w2) as Hd2 by (by apply (dialling_mod _ (in_state s))).
  clearbody w2. destruct Hd1 as (_ & (_ & -> & _) & _). cbn [orb].
  unfold entering, flushed in *. rewrite andb_true_r, <-Hv in *. cbn [dview_of d_early] in *.
  destruct (bool_decide_reflect (s = ST_L3_U2)) as [Hs2|Hs2];
    destruct (bool_decide_reflect (cstr (dst_telno_early cd) = [])) as [He|He]; cbn [orb andb negb when];
    rewrite ?app_nil_r; try exact Hd2.
  rewrite run_bind. apply (dialling_mod _ sent_early); [done|done|].
  replace (dst_telno_early cd) with (d_early (in_state s (dview_of cd))) by done. by apply dialling_information.
Qed.

(** ** The requests *)
Definition dialled_view (ptr : list Z) (v : dview) : dview :=
  let digits := take (TELNO_MAX - 1) ptr in
  let dst := Nat.min (d_ptr v) (TELNO_MAX - 1) in
  Dview (d_state v) (write_at dst (take (TELNO_MAX - 1 - dst) digits) (d_telno v))
    (dst + length (take (TELNO_MAX - 1 - dst) digits)) digits (d_early v).
Definition collected (v : dview) : dview :=
  Dview (d_state v) (d_telno v) (d_ptr v) (d_part v) (strlcat (d_early v) (d_part v) TELNO_MAX).

Lemma dialling_digits ptr v l r w : dialling v l r w -> dialling (dialled_view ptr v) l r (mod_cd j (dial_digits ptr) w).2.
Proof.
  apply (dialling_mod _ (dialled_view ptr)); intros cd (Hd & Hp & Hr); unfold dial_digits; cbn; by rewrite Hd.
Qed.

Lemma dialling_collect v l r w :
  dialling v l r w ->
  dialling (collected v) l r
    (mod_cd j (λ cd, cd <| dst_telno_early := strlcat (dst_telno_early cd) (dst_telno_part cd) TELNO_MAX |>) w).2.
Proof. by apply (dialling_mod _ collected). Qed.

Lemma dialling_sent v l r w :
  dialling v l r w -> dialling (sent_early v) l r (mod_cd j (λ cd, cd <| dst_telno_early := [] |>) w).2.
Proof. by apply (dialling_mod _ sent_early). Qed.

(** A request before the acknowledgement only collects the digits; later
    ones are sent at once. *)
Definition requested (ptr : list Z) (v : dview) : dview :=
  let v1 := collected (dialled_view ptr v) in
  if bool_decide (d_state v = ST_L3_U2) then v1 else sent_early v1.
Definition requesting (ptr : list Z) (v : dview) : list (list Z) :=
  if bool_decide (d_state v = ST_L3_U2) then []
  else [information_frame primary_rate ref (d_early (collected (dialled_view ptr v)))].

Lemma dialling_request ptr v l r w :
  is_dialling (d_state v) -> dialling v l (length (requesting ptr v) + r) w ->
  dialling (requested ptr v) (l ++ requesting ptr v) r (i4b_l3_information_req act j ptr w).2.
Proof.
  intros Hs Hd. unfold i4b_l3_information_req. rewrite run_bind.
  apply (dialling_digits ptr) in Hd. revert Hd.
  generalize (mod_cd j (dial_digits ptr) w).2. clear w. intros w Hd. unfold n_information_request, cd_update.
  apply (bind_get_cd _ _ _ _ _ _ Hd). intros cd (Hi & Hp & Hr) Hv. rewrite Hi.
  assert (cd_state cd = d_state v) as -> by (by injection Hv).
  change (L3_EVENT_IS_LOCAL_OUTGOING EV_L3_INFORQ) with true. cbn [cd_event]. unfold ev_inforq, with_sc.
  clear cd Hi Hp Hr Hv. apply (bind_get_cd _ _ _ _ _ _ Hd). intros cd (Hi & Hp & Hr) Hv. rewrite Hp.
  rewrite run_bind. cbn [get_sc gets fst snd]. pose proof Hd as (_ & (_ & -> & _) & _). cbn [orb when].
  rewrite !run_bind. apply dialling_collect in Hd.
  revert Hd. match goal with |- dialling _ _ _ ?w2 -> _ => generalize w2 end. clear w cd Hi Hp Hr Hv. intros w Hd.
  unfold requesting, requested in *. destruct Hs as [Hs|Hs]; rewrite Hs in *.
  - rewrite app_nil_r. change (bool_decide (ST_L3_U2 = ST_L3_U2)) with true in *. cbn [orb negb when].
    eapply (dialling_set_state ST_L3_U2) in Hd; [|by left]. unfold entered, entering in Hd. cbn in Hd.
    rewrite app_nil_r in Hd. rewrite <-(in_state_same (collected _)). cbn. by rewrite Hs.
  - change (bool_decide (ST_L3_U2_ACK = ST_L3_U2)) with false in *. cbn [orb negb when]. rewrite !run_bind.
    apply dialling_information, dialling_sent in Hd.
    apply (dialling_set_state ST_L3_U2_ACK (sent_early _) _ r) in Hd; [|by right]. unfold entered, entering in Hd. cbn in Hd.
    rewrite app_nil_r in Hd. rewrite <-(in_state_same (sent_early _)). cbn. by rewrite Hs.
Qed.

Lemma dialling_less r' v l r w : (r' <= r)%nat -> dialling v l r w -> dialling v l r' w.
Proof.
  intros Hr (Hcd & Hl & p & Hp & Hq & Hm). split; [done|]. split; [done|]. exists p. split; [done|].
  split; [done|lia].
Qed.
(** The acknowledgement of the SETUP sends what was collected. *)
Lemma dialling_indicate ind v l r w : dialling v l r w -> dialling v l r (l4_ind ind j w).2.
Proof. done. Qed.
Lemma dialling_allocate v l r w : dialling v l r w -> dialling v l r (try_allocate_channel j w).2.
Proof.
  intros Hd. unfold try_allocate_channel. rewrite run_bind, run_when. case_match; [|done].
  change (get_cd j w).2 with w. unfold cd_allocate_channel. rewrite !run_bind. cbn [get_cd gets fst snd].
  set (w1 := (when _ _ w).2). assert (dialling v l r w1) as Hd1.
  { subst w1. rewrite run_when. case_match; [|done]. by apply (dialling_mod _ id). }
  clearbody w1. rewrite run_when. case_match; [|done]. rewrite run_bind. cbn [get_cntl gets fst snd].
  destruct (choose_channel _ _) as [[id allocated] used]. rewrite run_bind. apply (dialling_mod _ (λ v, v)); [done|done|].
  by destruct used.
Qed.
Lemma dialling_acknowledged v l r w pipe :
  d_state v = ST_L3_U2 -> dialling v l (length (flushed v) + r) w ->
  dialling (entered ST_L3_U2_ACK v) (l ++ flushed v) r (cd_update act j pipe EV_L3_SETUPAK w).2.
Proof.
  intros Hs Hd. unfold cd_update. apply (bind_get_cd _ _ _ _ _ _ Hd). intros cd (Hi & Hp & Hr) Hv. rewrite Hi.
  assert (cd_state cd = ST_L3_U2) as -> by (by rewrite <-Hs, <-Hv).
  change (L3_EVENT_IS_LOCAL_OUTGOING EV_L3_SETUPAK) with true. cbn [cd_event]. unfold ev_setupak.
  change (bool_decide (ST_L3_U2 = ST_L3_U2)) with true. unfold with_sc.
  clear cd Hi Hp Hr Hv. apply (bind_get_cd _ _ _ _ _ _ Hd). intros cd (Hi & Hp & Hr) Hv. rewrite Hp.
  rewrite run_bind. cbn [get_sc gets fst snd]. rewrite !run_bind.
  apply dialling_indicate, dialling_allocate, dialling_set_state; [by right|done].
Qed.

(** ** The number dialled *)

(** The number [n] is in [dst_telno] and [dst_telno_ptr] points behind it;
    the digits [e] wait to be sent. *)
Definition holds (n e : list Z) (v : dview) : Prop :=
  cstr (d_telno v) = n ∧ d_ptr v = length n ∧ (length n <= TELNO_MAX - 1)%nat ∧ cstr (d_early v) = e.
Definition cut (s : list Z) : list Z := take (TELNO_MAX - 1) s.

Lemma cut_app a b : cut (cut a ++ b) = cut (a ++ b).
Proof.
  unfold cut. rewrite !take_app, length_take, take_take, Nat.min_id.
  destruct (decide (length a <= TELNO_MAX - 1)%nat); [by rewrite Nat.min_r by lia|].
  rewrite Nat.min_l by lia. f_equal. by replace (TELNO_MAX - 1 - length a)%nat with 0%nat by lia.
Qed.
Lemma cut_app_r a b : cut (a ++ cut b) = cut (a ++ b).
Proof. unfold cut. rewrite !take_app, take_take. by rewrite Nat.min_l by lia. Qed.
Lemma cut_length s : (length (cut s) <= TELNO_MAX - 1)%nat.
Proof. unfold cut. rewrite length_take. lia. Qed.

Lemma cstr_digits a : Forall (λ x, x ≠ 0) a -> cstr a = a.
Proof.
  induction 1 as [|x a Hx _ IH]; [done|]. cbn. rewrite IH.
  by rewrite (proj2 (Z.eqb_neq x 0)) by done.
Qed.
Lemma cstr_nonzero a : Forall (λ x, x ≠ 0) (cstr a).
Proof.
  induction a as [|x a IH]; [done|]. cbn. destruct (Z.eqb_spec x 0); [done|]. by constructor.
Qed.
Lemma cstr_prefix a b : take (length (cstr a)) (a ++ b) = cstr a.
Proof.
  induction a as [|x a IH]; [done|]. cbn. destruct (x =? 0); [done|]. cbn. by rewrite IH.
Qed.
Lemma cut_nonzero a : Forall (λ x, x ≠ 0) a -> Forall (λ x, x ≠ 0) (cut a).
Proof. apply Forall_take. Qed.

Lemma holds_request n e d v :
  Forall (λ x, x ≠ 0) d -> holds n e v ->
  holds (cut (n ++ d)) (cut (e ++ d)) (collected (dialled_view d v)).
Proof.
  intros Hd (Ht & Hp & Hn & He). unfold holds, collected, dialled_view. cbn [d_telno d_ptr d_early d_part].
  rewrite Hp, Nat.min_l by lia.
  assert (n ++ take (TELNO_MAX - 1 - length n) (take (TELNO_MAX - 1) d) = cut (n ++ d)) as Hnd.
  { unfold cut. rewrite take_app, take_take, Nat.min_l by lia. by rewrite (take_ge n) by lia. }
  assert (Forall (λ x, x ≠ 0) (cut (n ++ d))) as Hz.
  { apply cut_nonzero, Forall_app. split; [rewrite <-Ht; apply cstr_nonzero|done]. }
  unfold write_at. rewrite <-Ht at 1. rewrite cstr_prefix, Ht, Hnd.
  split; [by apply cstr_digits|]. split; [by rewrite <-Hnd, length_app|]. split; [apply cut_length|].
  unfold strlcat. rewrite He, (cstr_digits (take _ d)) by (by apply cut_nonzero).
  fold (cut d). fold (cut (e ++ cut d)). rewrite cut_app_r. apply cstr_digits, cut_nonzero, Forall_app.
  split; [rewrite <-He; apply cstr_nonzero|done].
Qed.

(** ** Sequences of requests *)
Lemma concat_step n d ds : cut (cut (n ++ d) ++ concat ds) = cut (n ++ concat (d :: ds)).
Proof. by rewrite cut_app, <-app_assoc. Qed.
Lemma dialling_before ds : ∀ n e v l r w,
  Forall (Forall (λ x, x ≠ 0)) ds -> d_state v = ST_L3_U2 -> holds n e v -> cut e = e -> dialling v l r w ->
  ∃ v', d_state v' = ST_L3_U2 ∧ holds (cut (n ++ concat ds)) (cut (e ++ concat ds)) v' ∧
        dialling v' l r (for_each ds (i4b_l3_information_req act j) w).2.
Proof.
  induction ds as [|d ds IH]; intros n e v l r w Hz Hs Hv He Hd.
  - exists v. cbn [concat for_each]. rewrite !app_nil_r, He. split; [done|]. split; [|done].
    unfold cut. rewrite take_ge by apply Hv. done.
  - apply Forall_cons in Hz as [Hz Hzs]. cbn [for_each]. rewrite run_bind.
    assert (requesting d v = []) as Hr by (unfold requesting; by rewrite bool_decide_true).
    pose proof (dialling_request d v l r w (or_introl Hs)) as Hq. rewrite Hr, app_nil_r in Hq.
    specialize (Hq Hd). unfold requested in Hq. rewrite bool_decide_true in Hq by done.
    destruct (IH (cut (n ++ d)) (cut (e ++ d)) (collected (dialled_view d v)) l r _ Hzs Hs (holds_request n e d v Hz Hv)
      ltac:(unfold cut; by rewrite take_take, Nat.min_id) Hq) as (v' & Hs' & Hv' & Hd').
    exists v'. rewrite !concat_step in Hv'. done.
Qed.
Lemma information_cstr d : information_frame primary_rate ref (cstr d) = information_frame primary_rate ref d.
Proof. unfold information_frame, string_ie. by rewrite cstr_idemp. Qed.
Lemma holds_sent n e v : holds n e v -> holds n [] (sent_early v).
Proof. by intros (? & ? & ? & ?). Qed.
Lemma dialling_after ds : ∀ n v l r w,
  Forall (Forall (λ x, x ≠ 0)) ds -> d_state v = ST_L3_U2_ACK -> holds n [] v ->
  dialling v l (length ds + r) w ->
  ∃ v', d_state v' = ST_L3_U2_ACK ∧ holds (cut (n ++ concat ds)) [] v' ∧
        dialling v' (l ++ ((λ d, information_frame primary_rate ref (cut d)) <$> ds)) r
          (for_each ds (i4b_l3_information_req act j) w).2.
Proof.
  induction ds as [|d ds IH]; intros n v l r w Hz Hs Hv Hd.
  - exists v. cbn [concat for_each fmap list_fmap]. rewrite !app_nil_r. split; [done|]. split; [|done].
    unfold cut. rewrite take_ge by apply Hv. done.
  - apply Forall_cons in Hz as [Hz Hzs]. cbn [for_each]. rewrite run_bind.
    pose proof (holds_request n [] d v Hz Hv) as Hv1.
    assert (requesting d v = [information_frame primary_rate ref (cut d)]) as Hr.
    { unfold requesting. rewrite bool_decide_false by (by rewrite Hs). f_equal.
      rewrite <-information_cstr. by destruct Hv1 as (_ & _ & _ & ->). }
    pose proof (dialling_request d v l (length ds + r) w (or_intror Hs)) as Hq. rewrite Hr in Hq.
    specialize (Hq Hd). unfold requested in Hq. rewrite bool_decide_false in Hq by (by rewrite Hs).
    destruct (IH (cut (n ++ d)) (sent_early (collected (dialled_view d v))) _ r _ Hzs Hs (holds_sent _ _ _ Hv1) Hq) as (v' & Hs' & Hv' & Hd').
    exists v'. rewrite concat_step in Hv'. rewrite <-app_assoc in Hd'. done.
Qed.

End dialling.

(** C21: overlap dialling.  An outgoing call whose SETUP waits for its
    acknowledgement, on a line that is connected, is in terminal mode or
    point-to-point, has memory, and has room in the queue of the pipe for one
    frame and one more for every request after the acknowledgement; the
    digits are not NUL.  However the digits are split into requests before
    and after the network acknowledges the SETUP: no frame is queued before
    the acknowledgement; the acknowledgement queues one INFORMATION message
    with the digits collected so far, if any, cut at the [TELNO_MAX - 1] = 40
    bytes the buffer for them has room for; and each later request queues
    one with its own digits, cut at 40 bytes as well.  Nothing else is queued
    and the order is kept, so up to these limits no digit is lost, repeated
    or moved.  The call descriptor holds the number dialled, cut at 40
    bytes. *)
Theorem overlap_dialling j i pipe w cd l before after :
  let request := i4b_l3_information_req act j in
  let frame := information_frame (IS_PRIMARY_RATE (w_sc w)) (cr cd) in
  let pending := cut (cstr (dst_telno_early cd) ++ concat before) in
  let w1 := (for_each before request w).2 in
  let w2 := ((cd_update act j pipe EV_L3_SETUPAK;; for_each after request) w1).2 in
  N_call_desc (w_cntl w) !! j = Some cd -> cd_state cd = ST_L3_U2 ->
  dir_incoming cd = false -> cd_pipe cd = Some i ->
  dst_telno_ptr cd = length (cstr (dst_telno cd)) ->
  (length (dst_telno cd) < TELNO_MAX)%nat -> (length (dst_telno_early cd) < TELNO_MAX)%nat ->
  dial_line (IS_PRIMARY_RATE (w_sc w)) w -> queued i l (1 + length after) w ->
  Forall (Forall (λ x, x ≠ 0)) (before ++ after) ->
  queued i l (1 + length after) w1 ∧
  queued i (l ++ (if bool_decide (pending = []) then [] else [frame pending]) ++
            ((λ d, frame (cut d)) <$> after)) 0 w2 ∧
  ∃ cd', N_call_desc (w_cntl w2) !! j = Some cd' ∧ cd_state cd' = ST_L3_U2_ACK ∧
    cstr (dst_telno cd') = cut (cstr (dst_telno cd) ++ concat before ++ concat after) ∧
    cstr (dst_telno_early cd') = [].
Proof.
  intros request frame pending w1 w2 Hj Hs Hi Hp Hptr Hlen Hlen' Hl Hq Hz.
  apply Forall_app in Hz as [Hz1 Hz2]. set (prim := IS_PRIMARY_RATE (w_sc w)) in *.
  pose proof (cstr_length (dst_telno cd)). pose proof (cstr_length (dst_telno_early cd)).
  assert (dialling j i (cr cd) prim (dview_of cd) l (1 + length after) w) as Hd
    by (split; [by exists cd|done]).
  destruct (dialling_before j i (cr cd) prim before (cstr (dst_telno cd)) (cstr (dst_telno_early cd))
    (dview_of cd) l (1 + length after) w Hz1 Hs) as (v1 & Hs1 & Hv1 & Hd1); [| |exact Hd|].
  { split; [done|]. split; [done|]. split; [lia|done]. }
  { unfold cut. apply take_ge. lia. }
  fold request in Hd1. fold w1 pending in Hd1, Hv1. split; [apply Hd1|].
  assert (flushed (cr cd) prim v1 = if bool_decide (pending = []) then [] else [frame pending]) as Hfl.
  { destruct Hv1 as (_ & _ & _ & He). unfold flushed. rewrite He. case_bool_decide; [done|].
    by rewrite <-information_cstr, He. }
  apply (dialling_less _ _ _ _ (length (flushed (cr cd) prim v1) + (length after + 0))) in Hd1;
    [|rewrite Hfl; case_bool_decide; cbn; lia].
  apply (dialling_acknowledged j i _ _ v1 l _ w1 pipe Hs1) in Hd1. rewrite Hfl in Hd1.
  assert (holds (cut (cstr (dst_telno cd) ++ concat before)) [] (entered ST_L3_U2_ACK v1)) as Hv2.
  { destruct Hv1 as (Ht & Hp1 & Hn & He). unfold entered.
    destruct (bool_decide_reflect (cstr (d_early v1) = [])) as [Hc|Hc]; rewrite ?orb_true_r, ?orb_false_r;
      [by rewrite <-Hc|done]. }
  destruct (dialling_after j i (cr cd) prim after _ (entered ST_L3_U2_ACK v1) _ 0 _ Hz2 ltac:(unfold entered; by destruct (_ || _)) Hv2 Hd1)
    as (v2 & Hs2 & (Ht & _ & _ & He) & (cd' & Hj' & _ & Hc') & _ & Hq2).
  subst w2. rewrite run_bind. rewrite <-app_assoc in Hq2. split; [exact Hq2|].
  exists cd'. split; [exact Hj'|]. rewrite <-Hc' in Hs2, Ht, He. cbn in Hs2, Ht, He.
  rewrite cut_app, <-app_assoc in Ht. done.
Qed.
(** A call whose SETUP waits for its acknowledgement, with one digit. *)
Definition sample_dial : world :=
  (mod_cd 0 (λ cd, cd <| cd_state := ST_L3_U2 |> <| dst_telno := [48] |> <| dst_telno_ptr := 1%nat |>) sample_run).2.
Lemma overlap_dialling_witness :
  let w1 := (for_each [[49; 50]; [51]] (i4b_l3_information_req act 0) sample_dial).2 in
  let w2 := ((cd_update act 0 None EV_L3_SETUPAK;; for_each [[52]] (i4b_l3_information_req act 0)) w1).2 in
  ∃ l cr, queued 0 l 2 w1 ∧
    queued 0 (l ++ [information_frame false cr [49; 50; 51]] ++ [information_frame false cr [52]]) 0 w2 ∧
    ∃ cd', N_call_desc (w_cntl w2) !! 0%nat = Some cd' ∧ cd_state cd' = ST_L3_U2_ACK ∧
      cstr (dst_telno cd') = [48; 49; 50; 51; 52] ∧ cstr (dst_telno_early cd') = [].
Proof.
  intros w1 w2. set (cd := N_call_desc (w_cntl sample_dial) !!! 0%nat).
  set (l := m_bytes <$> ifq (pipe_ifq (sc_pipe (w_sc sample_dial) !!! 0%nat))).
  exists l, (cr cd).
  apply (overlap_dialling 0 0 None sample_dial cd l [[49; 50]; [51]] [[52]]);
    try (vm_compute; reflexivity); try (vm_compute; lia).
  - repeat split; vm_compute; reflexivity.
  - eexists. split; [vm_compute; reflexivity|]. split; [vm_compute; reflexivity|vm_compute; done].
  - repeat constructor; done.
Defined.
End Dial.
