(* ===== verification/XlawTables.v ===== *)
(** * The sound tables (layer1/i4b_convert_xlaw.c)

    The tables as they are in the source; its hexadecimal numbers are
    written in decimal here.  A table of [int16_t] that is written with
    16-bit numbers is read with the sign of its type. *)
From S2P Require Import Prelude.
Local Open Scope Z_scope.

(** Conversion to [int8_t], [int16_t] and [int32_t]. *)
Definition i8 (x : Z) : Z := (x + 128) mod 256 - 128.
Definition i16 (x : Z) : Z := (x + 32768) mod 65536 - 32768.
Definition i32 (x : Z) : Z := (x + 2147483648) mod 4294967296 - 2147483648.

(** [i4b_reverse_bits] *)

Definition i4b_reverse_bits : list Z :=
  [0; 128; 64; 192; 32; 160; 96; 224;
   16; 144; 80; 208; 48; 176; 112; 240;
   8; 136; 72; 200; 40; 168; 104; 232;
   24; 152; 88; 216; 56; 184; 120; 248;
   4; 132; 68; 196; 36; 164; 100; 228;
   20; 148; 84; 212; 52; 180; 116; 244;
   12; 140; 76; 204; 44; 172; 108; 236;
   28; 156; 92; 220; 60; 188; 124; 252;
   2; 130; 66; 194; 34; 162; 98; 226;
   18; 146; 82; 210; 50; 178; 114; 242;
   10; 138; 74; 202; 42; 170; 106; 234;
   26; 154; 90; 218; 58; 186; 122; 250;
   6; 134; 70; 198; 38; 166; 102; 230;
   22; 150; 86; 214; 54; 182; 118; 246;
   14; 142; 78; 206; 46; 174; 110; 238;
   30; 158; 94; 222; 62; 190; 126; 254;
   1; 129; 65; 193; 33; 161; 97; 225;
   17; 145; 81; 209; 49; 177; 113; 241;
   9; 137; 73; 201; 41; 169; 105; 233;
   25; 153; 89; 217; 57; 185; 121; 249;
   5; 133; 69; 197; 37; 165; 101; 229;
   21; 149; 85; 213; 53; 181; 117; 245;
   13; 141; 77; 205; 45; 173; 109; 237;
   29; 157; 93; 221; 61; 189; 125; 253;
   3; 131; 67; 195; 35; 163; 99; 227;
   19; 147; 83; 211; 51; 179; 115; 243;
   11; 139; 75; 203; 43; 171; 107; 235;
   27; 155; 91; 219; 59; 187; 123; 251;
   7; 135; 71; 199; 39; 167; 103; 231;
   23; 151; 87; 215; 55; 183; 119; 247;
   15; 143; 79; 207; 47; 175; 111; 239;
   31; 159; 95; 223; 63; 191; 127; 255].

(** The index is bit-reversed; the entries are [int16_t]. *)

Definition i4b_ulaw_to_signed : list Z :=
  map i16 [33412; 32124; 63652; 1884; 57604; 7932; 65164; 372;
   49540; 15996; 64660; 876; 61636; 3900; 65416; 120;
   41604; 23932; 64164; 1372; 59652; 5884; 65292; 244;
   53636; 11900; 64916; 620; 62660; 2876; 65480; 56;
   37508; 28028; 63908; 1628; 58628; 6908; 65228; 308;
   51588; 13948; 64788; 748; 62148; 3388; 65448; 88;
   45700; 19836; 64420; 1116; 60676; 4860; 65356; 180;
   55684; 9852; 65044; 492; 63172; 2364; 65512; 24;
   35460; 30076; 63780; 1756; 58116; 7420; 65196; 340;
   50564; 14972; 64724; 812; 61892; 3644; 65432; 104;
   43652; 21884; 64292; 1244; 60164; 5372; 65324; 212;
   54660; 10876; 64980; 556; 62916; 2620; 65496; 40;
   39556; 25980; 64036; 1500; 59140; 6396; 65260; 276;
   52612; 12924; 64852; 684; 62404; 3132; 65464; 72;
   47748; 17788; 64548; 988; 61188; 4348; 65388; 148;
   56708; 8828; 65108; 428; 63428; 2108; 65528; 8;
   34436; 31100; 63716; 1820; 57860; 7676; 65180; 356;
   50052; 15484; 64692; 844; 61764; 3772; 65424; 112;
   42628; 22908; 64228; 1308; 59908; 5628; 65308; 228;
   54148; 11388; 64948; 588; 62788; 2748; 65488; 48;
   38532; 27004; 63972; 1564; 58884; 6652; 65244; 292;
   52100; 13436; 64820; 716; 62276; 3260; 65456; 80;
   46724; 18812; 64484; 1052; 60932; 4604; 65372; 164;
   56196; 9340; 65076; 460; 63300; 2236; 65520; 16;
   36484; 29052; 63844; 1692; 58372; 7164; 65212; 324;
   51076; 14460; 64756; 780; 62020; 3516; 65440; 96;
   44676; 20860; 64356; 1180; 60420; 5116; 65340; 196;
   55172; 10364; 65012; 524; 63044; 2492; 65504; 32;
   40580; 24956; 64100; 1436; 59396; 6140; 65276; 260;
   53124; 12412; 64884; 652; 62532; 3004; 65472; 64;
   48772; 16764; 64612; 924; 61444; 4092; 65404; 132;
   57220; 8316; 65140; 396; 63556; 1980; 0; 0].

(** The index is bit-reversed; the entries are [int16_t]. *)

Definition i4b_alaw_to_signed : list Z :=
  map i16 [60032; 5504; 65192; 344; 43520; 22016; 64160; 1376;
   62784; 2752; 65448; 88; 54528; 11008; 64848; 688;
   57984; 7552; 65064; 472; 35328; 30208; 63648; 1888;
   61760; 3776; 65320; 216; 50432; 15104; 64592; 944;
   61056; 4480; 65256; 280; 47616; 17920; 64416; 1120;
   63296; 2240; 65512; 24; 56576; 8960; 64976; 560;
   59008; 6528; 65128; 408; 39424; 26112; 63904; 1632;
   62272; 3264; 65384; 152; 52480; 13056; 64720; 816;
   59520; 6016; 65160; 376; 41472; 24064; 64032; 1504;
   62528; 3008; 65416; 120; 53504; 12032; 64784; 752;
   57472; 8064; 65032; 504; 33280; 32256; 63520; 2016;
   61504; 4032; 65288; 248; 49408; 16128; 64528; 1008;
   60544; 4992; 65224; 312; 45568; 19968; 64288; 1248;
   63040; 2496; 65480; 56; 55552; 9984; 64912; 624;
   58496; 7040; 65096; 440; 37376; 28160; 63776; 1760;
   62016; 3520; 65352; 184; 51456; 14080; 64656; 880;
   60288; 5248; 65208; 328; 44544; 20992; 64224; 1312;
   62912; 2624; 65464; 72; 55040; 10496; 64880; 656;
   58240; 7296; 65080; 456; 36352; 29184; 63712; 1824;
   61888; 3648; 65336; 200; 50944; 14592; 64624; 912;
   61312; 4224; 65272; 264; 48640; 16896; 64480; 1056;
   63424; 2112; 65528; 8; 57088; 8448; 65008; 528;
   59264; 6272; 65144; 392; 40448; 25088; 63968; 1568;
   62400; 3136; 65400; 136; 52992; 12544; 64752; 784;
   59776; 5760; 65176; 360; 42496; 23040; 64096; 1440;
   62656; 2880; 65432; 104; 54016; 11520; 64816; 720;
   57728; 7808; 65048; 488; 34304; 31232; 63584; 1952;
   61632; 3904; 65304; 232; 49920; 15616; 64560; 976;
   60800; 4736; 65240; 296; 46592; 18944; 64352; 1184;
   63168; 2368; 65496; 40; 56064; 9472; 64944; 592;
   58752; 6784; 65112; 424; 38400; 27136; 63840; 1696;
   62144; 3392; 65368; 168; 51968; 13568; 64688; 848].

(** [__i4b_signed_to_ulaw], in ten pieces *)

Definition signed_to_ulaw_0 : list Z :=
  [255; 127; 127; 191; 191; 63; 63; 223; 223; 95; 95; 159;
   159; 31; 31; 239; 239; 111; 111; 175; 175; 47; 47; 207;
   207; 79; 79; 143; 143; 15; 15; 247; 247; 247; 247; 119;
   119; 119; 119; 183; 183; 183; 183; 55; 55; 55; 55; 215;
   215; 215; 215; 87; 87; 87; 87; 151; 151; 151; 151; 23;
   23; 23; 23; 231; 231; 231; 231; 103; 103; 103; 103; 167;
   167; 167; 167; 39; 39; 39; 39; 199; 199; 199; 199; 71;
   71; 71; 71; 135; 135; 135; 135; 7; 7; 7; 7; 251;
   251; 251; 251; 251; 251; 251; 251; 123; 123; 123; 123; 123;
   123; 123; 123; 187; 187; 187; 187; 187; 187; 187; 187; 59;
   59; 59; 59; 59; 59; 59; 59; 219; 219; 219; 219; 219;
   219; 219; 219; 91; 91; 91; 91; 91; 91; 91; 91; 155;
   155; 155; 155; 155; 155; 155; 155; 27; 27; 27; 27; 27;
   27; 27; 27; 235; 235; 235; 235; 235; 235; 235; 235; 107;
   107; 107; 107; 107; 107; 107; 107; 171; 171; 171; 171; 171;
   171; 171; 171; 43; 43; 43; 43; 43; 43; 43; 43; 203;
   203; 203; 203; 203; 203; 203; 203; 75; 75; 75; 75; 75;
   75; 75; 75; 139; 139; 139; 139; 139; 139; 139; 139; 11;
   11; 11; 11; 11; 11; 11; 11; 243; 243; 243; 243; 243;
   243; 243; 243; 243; 243; 243; 243; 243; 243; 243; 243; 115;
   115; 115; 115; 115; 115; 115; 115; 115; 115; 115; 115; 115;
   115; 115; 115; 179; 179; 179; 179; 179; 179; 179; 179; 179;
   179; 179; 179; 179; 179; 179; 179; 51; 51; 51; 51; 51;
   51; 51; 51; 51; 51; 51; 51; 51; 51; 51; 51; 211;
   211; 211; 211; 211; 211; 211; 211; 211; 211; 211; 211; 211;
   211; 211; 211; 83; 83; 83; 83; 83; 83; 83; 83; 83;
   83; 83; 83; 83; 83; 83; 83; 147; 147; 147; 147; 147;
   147; 147; 147; 147; 147; 147; 147; 147; 147; 147; 147; 19;
   19; 19; 19; 19; 19; 19; 19; 19; 19; 19; 19; 19;
   19; 19; 19; 227; 227; 227; 227; 227; 227; 227; 227; 227;
   227; 227; 227; 227; 227; 227; 227; 99; 99; 99; 99; 99;
   99; 99; 99; 99; 99; 99; 99; 99; 99; 99; 99; 163;
   163; 163; 163; 163; 163; 163; 163; 163; 163; 163; 163; 163;
   163; 163; 163; 35; 35; 35; 35; 35; 35; 35; 35; 35;
   35; 35; 35; 35; 35; 35; 35; 195; 195; 195; 195; 195;
   195; 195; 195; 195; 195; 195; 195; 195; 195; 195; 195; 67;
   67; 67; 67; 67; 67; 67; 67; 67; 67; 67; 67; 67;
   67; 67; 67; 131; 131; 131; 131; 131; 131; 131; 131; 131;
   131; 131; 131; 131; 131; 131; 131; 3; 3; 3; 3; 3;
   3; 3; 3; 3; 3; 3; 3; 3; 3; 3; 3; 253;
   253; 253; 253; 253; 253; 253; 253; 253; 253; 253; 253; 253;
   253; 253; 253; 253; 253; 253; 253; 253; 253; 253; 253; 253;
   253; 253; 253; 253; 253; 253; 253; 125; 125; 125; 125; 125;
   125; 125; 125; 125; 125; 125; 125; 125; 125; 125; 125; 125;
   125; 125; 125; 125; 125; 125; 125; 125; 125; 125; 125; 125;
   125; 125; 125; 189; 189; 189; 189; 189; 189; 189; 189; 189;
   189; 189; 189; 189; 189; 189; 189; 189; 189; 189; 189; 189;
   189; 189; 189; 189; 189; 189; 189; 189; 189; 189; 189; 61;
   61; 61; 61; 61; 61; 61; 61; 61; 61; 61; 61; 61;
   61; 61; 61; 61; 61; 61; 61; 61; 61; 61; 61; 61;
   61; 61; 61; 61; 61; 61; 61; 221; 221; 221; 221; 221;
   221; 221; 221; 221; 221; 221; 221; 221; 221; 221; 221; 221;
   221; 221; 221; 221; 221; 221; 221; 221; 221; 221; 221; 221;
   221; 221; 221; 93; 93; 93; 93; 93; 93; 93; 93; 93;
   93; 93; 93; 93; 93; 93; 93; 93; 93; 93; 93; 93;
   93; 93; 93; 93; 93; 93; 93; 93; 93; 93; 93; 157;
   157; 157; 157; 157; 157; 157; 157; 157; 157; 157; 157; 157;
   157; 157; 157; 157; 157; 157; 157; 157; 157; 157; 157; 157;
   157; 157; 157; 157; 157; 157; 157; 29; 29; 29; 29; 29;
   29; 29; 29; 29; 29; 29; 29; 29; 29; 29; 29; 29;
   29; 29; 29; 29; 29; 29; 29; 29; 29; 29; 29; 29;
   29; 29; 29; 237; 237; 237; 237; 237; 237; 237; 237; 237;
   237; 237; 237; 237; 237; 237; 237; 237; 237; 237; 237; 237;
   237; 237; 237; 237; 237; 237; 237; 237; 237; 237; 237; 109;
   109; 109; 109; 109; 109; 109; 109; 109; 109; 109; 109; 109;
   109; 109; 109; 109; 109; 109; 109; 109; 109; 109; 109; 109;
   109; 109; 109; 109; 109; 109; 109; 173; 173; 173; 173; 173;
   173; 173; 173; 173; 173; 173; 173; 173; 173; 173; 173; 173;
   173; 173; 173; 173; 173; 173; 173; 173; 173; 173; 173; 173;
   173; 173; 173; 45; 45; 45; 45; 45; 45; 45; 45; 45;
   45; 45; 45; 45; 45; 45; 45; 45; 45; 45; 45; 45;
   45; 45; 45; 45; 45; 45; 45; 45; 45; 45; 45; 205;
   205; 205; 205; 205; 205; 205; 205; 205; 205; 205; 205; 205;
   205; 205; 205; 205; 205; 205; 205; 205; 205; 205; 205; 205;
   205; 205; 205; 205; 205; 205; 205; 77; 77; 77; 77; 77;
   77; 77; 77; 77; 77; 77; 77; 77; 77; 77; 77; 77;
   77; 77; 77; 77; 77; 77; 77; 77; 77; 77; 77; 77;
   77; 77; 77; 141; 141; 141; 141; 141; 141; 141; 141; 141;
   141; 141; 141; 141; 141; 141; 141; 141; 141; 141; 141; 141;
   141; 141; 141; 141; 141; 141; 141; 141; 141; 141; 141; 13;
   13; 13; 13; 13; 13; 13; 13; 13; 13; 13; 13; 13;
   13; 13; 13; 13; 13; 13; 13; 13; 13; 13; 13; 13;
   13; 13; 13; 13; 13; 13; 13; 245; 245; 245; 245; 245;
   245; 245; 245; 245; 245; 245; 245; 245; 245; 245; 245; 245;
   245; 245; 245; 245; 245; 245; 245; 245; 245; 245; 245; 245;
   245; 245; 245; 245; 245; 245; 245; 245; 245; 245; 245; 245;
   245; 245; 245; 245; 245; 245; 245; 245; 245; 245; 245; 245;
   245; 245; 245; 245; 245; 245; 245; 245; 245; 245; 245; 117;
   117; 117; 117; 117; 117; 117; 117; 117; 117; 117; 117; 117;
   117; 117; 117; 117; 117; 117; 117; 117; 117; 117; 117; 117;
   117; 117; 117; 117; 117; 117; 117; 117; 117; 117; 117; 117;
   117; 117; 117; 117; 117; 117; 117; 117; 117; 117; 117; 117;
   117; 117; 117; 117; 117; 117; 117; 117; 117; 117; 117; 117;
   117; 117; 117; 181; 181; 181; 181; 181; 181; 181; 181; 181;
   181; 181; 181; 181; 181; 181; 181; 181; 181; 181; 181; 181;
   181; 181; 181; 181; 181; 181; 181; 181; 181; 181; 181; 181;
   181; 181; 181; 181; 181; 181; 181; 181; 181; 181; 181; 181;
   181; 181; 181; 181; 181; 181; 181; 181; 181; 181; 181; 181;
   181; 181; 181; 181; 181; 181; 181; 53; 53; 53; 53; 53;
   53; 53; 53; 53; 53; 53; 53; 53; 53; 53; 53; 53;
   53; 53; 53; 53; 53; 53; 53; 53; 53; 53; 53; 53;
   53; 53; 53; 53; 53; 53; 53; 53; 53; 53; 53; 53;
   53; 53; 53; 53; 53; 53; 53; 53; 53; 53; 53; 53;
   53; 53; 53; 53; 53; 53; 53; 53; 53; 53; 53; 213;
   213; 213; 213; 213; 213; 213; 213; 213; 213; 213; 213; 213;
   213; 213; 213; 213; 213; 213; 213; 213; 213; 213; 213; 213;
   213; 213; 213; 213; 213; 213; 213; 213; 213; 213; 213; 213;
   213; 213; 213; 213; 213; 213; 213; 213; 213; 213; 213; 213;
   213; 213; 213; 213; 213; 213; 213; 213; 213; 213; 213; 213;
   213; 213; 213; 85; 85; 85; 85; 85; 85; 85; 85; 85;
   85; 85; 85; 85; 85; 85; 85; 85; 85; 85; 85; 85;
   85; 85; 85; 85; 85; 85; 85; 85; 85; 85; 85; 85;
   85; 85; 85; 85; 85; 85; 85; 85; 85; 85; 85; 85;
   85; 85; 85; 85; 85; 85; 85; 85; 85; 85; 85; 85;
   85; 85; 85; 85; 85; 85; 85; 149; 149; 149; 149; 149;
   149; 149; 149; 149; 149; 149; 149; 149; 149; 149; 149; 149;
   149; 149; 149; 149; 149; 149; 149; 149; 149; 149; 149; 149;
   149; 149; 149; 149; 149; 149; 149; 149; 149; 149; 149; 149;
   149; 149; 149; 149; 149; 149; 149; 149; 149; 149; 149; 149;
   149; 149; 149; 149; 149; 149; 149; 149; 149; 149; 149; 21;
   21; 21; 21; 21; 21; 21; 21; 21; 21; 21; 21; 21;
   21; 21; 21; 21; 21; 21; 21; 21; 21; 21; 21; 21;
   21; 21; 21; 21; 21; 21; 21; 21; 21; 21; 21; 21;
   21; 21; 21; 21; 21; 21; 21; 21; 21; 21; 21; 21;
   21; 21; 21; 21; 21; 21; 21; 21; 21; 21; 21; 21;
   21; 21; 21; 229; 229; 229; 229; 229; 229; 229; 229; 229;
   229; 229; 229; 229; 229; 229; 229; 229; 229; 229; 229; 229;
   229; 229; 229; 229; 229; 229; 229; 229; 229; 229; 229; 229;
   229; 229; 229; 229; 229; 229; 229; 229; 229; 229; 229; 229;
   229; 229; 229; 229; 229; 229; 229; 229; 229; 229; 229; 229;
   229; 229; 229; 229; 229; 229; 229; 101; 101; 101; 101; 101;
   101; 101; 101; 101; 101; 101; 101; 101; 101; 101; 101; 101;
   101; 101; 101; 101; 101; 101; 101; 101; 101; 101; 101; 101;
   101; 101; 101; 101; 101; 101; 101; 101; 101; 101; 101; 101;
   101; 101; 101; 101; 101; 101; 101; 101; 101; 101; 101; 101;
   101; 101; 101; 101; 101; 101; 101; 101; 101; 101; 101; 165;
   165; 165; 165; 165; 165; 165; 165; 165; 165; 165; 165; 165].

Definition signed_to_ulaw_1 : list Z :=
  [165; 165; 165; 165; 165; 165; 165; 165; 165; 165; 165; 165;
   165; 165; 165; 165; 165; 165; 165; 165; 165; 165; 165; 165;
   165; 165; 165; 165; 165; 165; 165; 165; 165; 165; 165; 165;
   165; 165; 165; 165; 165; 165; 165; 165; 165; 165; 165; 165;
   165; 165; 165; 37; 37; 37; 37; 37; 37; 37; 37; 37;
   37; 37; 37; 37; 37; 37; 37; 37; 37; 37; 37; 37;
   37; 37; 37; 37; 37; 37; 37; 37; 37; 37; 37; 37;
   37; 37; 37; 37; 37; 37; 37; 37; 37; 37; 37; 37;
   37; 37; 37; 37; 37; 37; 37; 37; 37; 37; 37; 37;
   37; 37; 37; 37; 37; 37; 37; 197; 197; 197; 197; 197;
   197; 197; 197; 197; 197; 197; 197; 197; 197; 197; 197; 197;
   197; 197; 197; 197; 197; 197; 197; 197; 197; 197; 197; 197;
   197; 197; 197; 197; 197; 197; 197; 197; 197; 197; 197; 197;
   197; 197; 197; 197; 197; 197; 197; 197; 197; 197; 197; 197;
   197; 197; 197; 197; 197; 197; 197; 197; 197; 197; 197; 69;
   69; 69; 69; 69; 69; 69; 69; 69; 69; 69; 69; 69;
   69; 69; 69; 69; 69; 69; 69; 69; 69; 69; 69; 69;
   69; 69; 69; 69; 69; 69; 69; 69; 69; 69; 69; 69;
   69; 69; 69; 69; 69; 69; 69; 69; 69; 69; 69; 69;
   69; 69; 69; 69; 69; 69; 69; 69; 69; 69; 69; 69;
   69; 69; 69; 133; 133; 133; 133; 133; 133; 133; 133; 133;
   133; 133; 133; 133; 133; 133; 133; 133; 133; 133; 133; 133;
   133; 133; 133; 133; 133; 133; 133; 133; 133; 133; 133; 133;
   133; 133; 133; 133; 133; 133; 133; 133; 133; 133; 133; 133;
   133; 133; 133; 133; 133; 133; 133; 133; 133; 133; 133; 133;
   133; 133; 133; 133; 133; 133; 133; 5; 5; 5; 5; 5;
   5; 5; 5; 5; 5; 5; 5; 5; 5; 5; 5; 5;
   5; 5; 5; 5; 5; 5; 5; 5; 5; 5; 5; 5;
   5; 5; 5; 5; 5; 5; 5; 5; 5; 5; 5; 5;
   5; 5; 5; 5; 5; 5; 5; 5; 5; 5; 5; 5;
   5; 5; 5; 5; 5; 5; 5; 5; 5; 5; 5; 249;
   249; 249; 249; 249; 249; 249; 249; 249; 249; 249; 249; 249;
   249; 249; 249; 249; 249; 249; 249; 249; 249; 249; 249; 249;
   249; 249; 249; 249; 249; 249; 249; 249; 249; 249; 249; 249;
   249; 249; 249; 249; 249; 249; 249; 249; 249; 249; 249; 249;
   249; 249; 249; 249; 249; 249; 249; 249; 249; 249; 249; 249;
   249; 249; 249; 249; 249; 249; 249; 249; 249; 249; 249; 249;
   249; 249; 249; 249; 249; 249; 249; 249; 249; 249; 249; 249;
   249; 249; 249; 249; 249; 249; 249; 249; 249; 249; 249; 249;
   249; 249; 249; 249; 249; 249; 249; 249; 249; 249; 249; 249;
   249; 249; 249; 249; 249; 249; 249; 249; 249; 249; 249; 249;
   249; 249; 249; 249; 249; 249; 249; 121; 121; 121; 121; 121;
   121; 121; 121; 121; 121; 121; 121; 121; 121; 121; 121; 121;
   121; 121; 121; 121; 121; 121; 121; 121; 121; 121; 121; 121;
   121; 121; 121; 121; 121; 121; 121; 121; 121; 121; 121; 121;
   121; 121; 121; 121; 121; 121; 121; 121; 121; 121; 121; 121;
   121; 121; 121; 121; 121; 121; 121; 121; 121; 121; 121; 121;
   121; 121; 121; 121; 121; 121; 121; 121; 121; 121; 121; 121;
   121; 121; 121; 121; 121; 121; 121; 121; 121; 121; 121; 121;
   121; 121; 121; 121; 121; 121; 121; 121; 121; 121; 121; 121;
   121; 121; 121; 121; 121; 121; 121; 121; 121; 121; 121; 121;
   121; 121; 121; 121; 121; 121; 121; 121; 121; 121; 121; 121;
   121; 121; 121; 185; 185; 185; 185; 185; 185; 185; 185; 185;
   185; 185; 185; 185; 185; 185; 185; 185; 185; 185; 185; 185;
   185; 185; 185; 185; 185; 185; 185; 185; 185; 185; 185; 185;
   185; 185; 185; 185; 185; 185; 185; 185; 185; 185; 185; 185;
   185; 185; 185; 185; 185; 185; 185; 185; 185; 185; 185; 185;
   185; 185; 185; 185; 185; 185; 185; 185; 185; 185; 185; 185;
   185; 185; 185; 185; 185; 185; 185; 185; 185; 185; 185; 185;
   185; 185; 185; 185; 185; 185; 185; 185; 185; 185; 185; 185;
   185; 185; 185; 185; 185; 185; 185; 185; 185; 185; 185; 185;
   185; 185; 185; 185; 185; 185; 185; 185; 185; 185; 185; 185;
   185; 185; 185; 185; 185; 185; 185; 185; 185; 185; 185; 57;
   57; 57; 57; 57; 57; 57; 57; 57; 57; 57; 57; 57;
   57; 57; 57; 57; 57; 57; 57; 57; 57; 57; 57; 57;
   57; 57; 57; 57; 57; 57; 57; 57; 57; 57; 57; 57;
   57; 57; 57; 57; 57; 57; 57; 57; 57; 57; 57; 57;
   57; 57; 57; 57; 57; 57; 57; 57; 57; 57; 57; 57;
   57; 57; 57; 57; 57; 57; 57; 57; 57; 57; 57; 57;
   57; 57; 57; 57; 57; 57; 57; 57; 57; 57; 57; 57;
   57; 57; 57; 57; 57; 57; 57; 57; 57; 57; 57; 57;
   57; 57; 57; 57; 57; 57; 57; 57; 57; 57; 57; 57;
   57; 57; 57; 57; 57; 57; 57; 57; 57; 57; 57; 57;
   57; 57; 57; 57; 57; 57; 57; 217; 217; 217; 217; 217;
   217; 217; 217; 217; 217; 217; 217; 217; 217; 217; 217; 217;
   217; 217; 217; 217; 217; 217; 217; 217; 217; 217; 217; 217;
   217; 217; 217; 217; 217; 217; 217; 217; 217; 217; 217; 217;
   217; 217; 217; 217; 217; 217; 217; 217; 217; 217; 217; 217;
   217; 217; 217; 217; 217; 217; 217; 217; 217; 217; 217; 217;
   217; 217; 217; 217; 217; 217; 217; 217; 217; 217; 217; 217;
   217; 217; 217; 217; 217; 217; 217; 217; 217; 217; 217; 217;
   217; 217; 217; 217; 217; 217; 217; 217; 217; 217; 217; 217;
   217; 217; 217; 217; 217; 217; 217; 217; 217; 217; 217; 217;
   217; 217; 217; 217; 217; 217; 217; 217; 217; 217; 217; 217;
   217; 217; 217; 89; 89; 89; 89; 89; 89; 89; 89; 89;
   89; 89; 89; 89; 89; 89; 89; 89; 89; 89; 89; 89;
   89; 89; 89; 89; 89; 89; 89; 89; 89; 89; 89; 89;
   89; 89; 89; 89; 89; 89; 89; 89; 89; 89; 89; 89;
   89; 89; 89; 89; 89; 89; 89; 89; 89; 89; 89; 89;
   89; 89; 89; 89; 89; 89; 89; 89; 89; 89; 89; 89;
   89; 89; 89; 89; 89; 89; 89; 89; 89; 89; 89; 89;
   89; 89; 89; 89; 89; 89; 89; 89; 89; 89; 89; 89;
   89; 89; 89; 89; 89; 89; 89; 89; 89; 89; 89; 89;
   89; 89; 89; 89; 89; 89; 89; 89; 89; 89; 89; 89;
   89; 89; 89; 89; 89; 89; 89; 89; 89; 89; 89; 153;
   153; 153; 153; 153; 153; 153; 153; 153; 153; 153; 153; 153;
   153; 153; 153; 153; 153; 153; 153; 153; 153; 153; 153; 153;
   153; 153; 153; 153; 153; 153; 153; 153; 153; 153; 153; 153;
   153; 153; 153; 153; 153; 153; 153; 153; 153; 153; 153; 153;
   153; 153; 153; 153; 153; 153; 153; 153; 153; 153; 153; 153;
   153; 153; 153; 153; 153; 153; 153; 153; 153; 153; 153; 153;
   153; 153; 153; 153; 153; 153; 153; 153; 153; 153; 153; 153;
   153; 153; 153; 153; 153; 153; 153; 153; 153; 153; 153; 153;
   153; 153; 153; 153; 153; 153; 153; 153; 153; 153; 153; 153;
   153; 153; 153; 153; 153; 153; 153; 153; 153; 153; 153; 153;
   153; 153; 153; 153; 153; 153; 153; 25; 25; 25; 25; 25;
   25; 25; 25; 25; 25; 25; 25; 25; 25; 25; 25; 25;
   25; 25; 25; 25; 25; 25; 25; 25; 25; 25; 25; 25;
   25; 25; 25; 25; 25; 25; 25; 25; 25; 25; 25; 25;
   25; 25; 25; 25; 25; 25; 25; 25; 25; 25; 25; 25;
   25; 25; 25; 25; 25; 25; 25; 25; 25; 25; 25; 25;
   25; 25; 25; 25; 25; 25; 25; 25; 25; 25; 25; 25;
   25; 25; 25; 25; 25; 25; 25; 25; 25; 25; 25; 25;
   25; 25; 25; 25; 25; 25; 25; 25; 25; 25; 25; 25;
   25; 25; 25; 25; 25; 25; 25; 25; 25; 25; 25; 25;
   25; 25; 25; 25; 25; 25; 25; 25; 25; 25; 25; 25;
   25; 25; 25; 233; 233; 233; 233; 233; 233; 233; 233; 233;
   233; 233; 233; 233; 233; 233; 233; 233; 233; 233; 233; 233;
   233; 233; 233; 233; 233; 233; 233; 233; 233; 233; 233; 233;
   233; 233; 233; 233; 233; 233; 233; 233; 233; 233; 233; 233;
   233; 233; 233; 233; 233; 233; 233; 233; 233; 233; 233; 233;
   233; 233; 233; 233; 233; 233; 233; 233; 233; 233; 233; 233;
   233; 233; 233; 233; 233; 233; 233; 233; 233; 233; 233; 233;
   233; 233; 233; 233; 233; 233; 233; 233; 233; 233; 233; 233;
   233; 233; 233; 233; 233; 233; 233; 233; 233; 233; 233; 233;
   233; 233; 233; 233; 233; 233; 233; 233; 233; 233; 233; 233;
   233; 233; 233; 233; 233; 233; 233; 233; 233; 233; 233; 105;
   105; 105; 105; 105; 105; 105; 105; 105; 105; 105; 105; 105;
   105; 105; 105; 105; 105; 105; 105; 105; 105; 105; 105; 105;
   105; 105; 105; 105; 105; 105; 105; 105; 105; 105; 105; 105;
   105; 105; 105; 105; 105; 105; 105; 105; 105; 105; 105; 105;
   105; 105; 105; 105; 105; 105; 105; 105; 105; 105; 105; 105;
   105; 105; 105; 105; 105; 105; 105; 105; 105; 105; 105; 105;
   105; 105; 105; 105; 105; 105; 105; 105; 105; 105; 105; 105;
   105; 105; 105; 105; 105; 105; 105; 105; 105; 105; 105; 105;
   105; 105; 105; 105; 105; 105; 105; 105; 105; 105; 105; 105;
   105; 105; 105; 105; 105; 105; 105; 105; 105; 105; 105; 105].

Definition signed_to_ulaw_2 : list Z :=
  [105; 105; 105; 105; 105; 105; 105; 169; 169; 169; 169; 169;
   169; 169; 169; 169; 169; 169; 169; 169; 169; 169; 169; 169;
   169; 169; 169; 169; 169; 169; 169; 169; 169; 169; 169; 169;
   169; 169; 169; 169; 169; 169; 169; 169; 169; 169; 169; 169;
   169; 169; 169; 169; 169; 169; 169; 169; 169; 169; 169; 169;
   169; 169; 169; 169; 169; 169; 169; 169; 169; 169; 169; 169;
   169; 169; 169; 169; 169; 169; 169; 169; 169; 169; 169; 169;
   169; 169; 169; 169; 169; 169; 169; 169; 169; 169; 169; 169;
   169; 169; 169; 169; 169; 169; 169; 169; 169; 169; 169; 169;
   169; 169; 169; 169; 169; 169; 169; 169; 169; 169; 169; 169;
   169; 169; 169; 169; 169; 169; 169; 169; 169; 169; 169; 169;
   169; 169; 169; 41; 41; 41; 41; 41; 41; 41; 41; 41;
   41; 41; 41; 41; 41; 41; 41; 41; 41; 41; 41; 41;
   41; 41; 41; 41; 41; 41; 41; 41; 41; 41; 41; 41;
   41; 41; 41; 41; 41; 41; 41; 41; 41; 41; 41; 41;
   41; 41; 41; 41; 41; 41; 41; 41; 41; 41; 41; 41;
   41; 41; 41; 41; 41; 41; 41; 41; 41; 41; 41; 41;
   41; 41; 41; 41; 41; 41; 41; 41; 41; 41; 41; 41;
   41; 41; 41; 41; 41; 41; 41; 41; 41; 41; 41; 41;
   41; 41; 41; 41; 41; 41; 41; 41; 41; 41; 41; 41;
   41; 41; 41; 41; 41; 41; 41; 41; 41; 41; 41; 41;
   41; 41; 41; 41; 41; 41; 41; 41; 41; 41; 41; 201;
   201; 201; 201; 201; 201; 201; 201; 201; 201; 201; 201; 201;
   201; 201; 201; 201; 201; 201; 201; 201; 201; 201; 201; 201;
   201; 201; 201; 201; 201; 201; 201; 201; 201; 201; 201; 201;
   201; 201; 201; 201; 201; 201; 201; 201; 201; 201; 201; 201;
   201; 201; 201; 201; 201; 201; 201; 201; 201; 201; 201; 201;
   201; 201; 201; 201; 201; 201; 201; 201; 201; 201; 201; 201;
   201; 201; 201; 201; 201; 201; 201; 201; 201; 201; 201; 201;
   201; 201; 201; 201; 201; 201; 201; 201; 201; 201; 201; 201;
   201; 201; 201; 201; 201; 201; 201; 201; 201; 201; 201; 201;
   201; 201; 201; 201; 201; 201; 201; 201; 201; 201; 201; 201;
   201; 201; 201; 201; 201; 201; 201; 73; 73; 73; 73; 73;
   73; 73; 73; 73; 73; 73; 73; 73; 73; 73; 73; 73;
   73; 73; 73; 73; 73; 73; 73; 73; 73; 73; 73; 73;
   73; 73; 73; 73; 73; 73; 73; 73; 73; 73; 73; 73;
   73; 73; 73; 73; 73; 73; 73; 73; 73; 73; 73; 73;
   73; 73; 73; 73; 73; 73; 73; 73; 73; 73; 73; 73;
   73; 73; 73; 73; 73; 73; 73; 73; 73; 73; 73; 73;
   73; 73; 73; 73; 73; 73; 73; 73; 73; 73; 73; 73;
   73; 73; 73; 73; 73; 73; 73; 73; 73; 73; 73; 73;
   73; 73; 73; 73; 73; 73; 73; 73; 73; 73; 73; 73;
   73; 73; 73; 73; 73; 73; 73; 73; 73; 73; 73; 73;
   73; 73; 73; 137; 137; 137; 137; 137; 137; 137; 137; 137;
   137; 137; 137; 137; 137; 137; 137; 137; 137; 137; 137; 137;
   137; 137; 137; 137; 137; 137; 137; 137; 137; 137; 137; 137;
   137; 137; 137; 137; 137; 137; 137; 137; 137; 137; 137; 137;
   137; 137; 137; 137; 137; 137; 137; 137; 137; 137; 137; 137;
   137; 137; 137; 137; 137; 137; 137; 137; 137; 137; 137; 137;
   137; 137; 137; 137; 137; 137; 137; 137; 137; 137; 137; 137;
   137; 137; 137; 137; 137; 137; 137; 137; 137; 137; 137; 137;
   137; 137; 137; 137; 137; 137; 137; 137; 137; 137; 137; 137;
   137; 137; 137; 137; 137; 137; 137; 137; 137; 137; 137; 137;
   137; 137; 137; 137; 137; 137; 137; 137; 137; 137; 137; 9;
   9; 9; 9; 9; 9; 9; 9; 9; 9; 9; 9; 9;
   9; 9; 9; 9; 9; 9; 9; 9; 9; 9; 9; 9;
   9; 9; 9; 9; 9; 9; 9; 9; 9; 9; 9; 9;
   9; 9; 9; 9; 9; 9; 9; 9; 9; 9; 9; 9;
   9; 9; 9; 9; 9; 9; 9; 9; 9; 9; 9; 9;
   9; 9; 9; 9; 9; 9; 9; 9; 9; 9; 9; 9;
   9; 9; 9; 9; 9; 9; 9; 9; 9; 9; 9; 9;
   9; 9; 9; 9; 9; 9; 9; 9; 9; 9; 9; 9;
   9; 9; 9; 9; 9; 9; 9; 9; 9; 9; 9; 9;
   9; 9; 9; 9; 9; 9; 9; 9; 9; 9; 9; 9;
   9; 9; 9; 9; 9; 9; 9; 241; 241; 241; 241; 241;
   241; 241; 241; 241; 241; 241; 241; 241; 241; 241; 241; 241;
   241; 241; 241; 241; 241; 241; 241; 241; 241; 241; 241; 241;
   241; 241; 241; 241; 241; 241; 241; 241; 241; 241; 241; 241;
   241; 241; 241; 241; 241; 241; 241; 241; 241; 241; 241; 241;
   241; 241; 241; 241; 241; 241; 241; 241; 241; 241; 241; 241;
   241; 241; 241; 241; 241; 241; 241; 241; 241; 241; 241; 241;
   241; 241; 241; 241; 241; 241; 241; 241; 241; 241; 241; 241;
   241; 241; 241; 241; 241; 241; 241; 241; 241; 241; 241; 241;
   241; 241; 241; 241; 241; 241; 241; 241; 241; 241; 241; 241;
   241; 241; 241; 241; 241; 241; 241; 241; 241; 241; 241; 241;
   241; 241; 241; 241; 241; 241; 241; 241; 241; 241; 241; 241;
   241; 241; 241; 241; 241; 241; 241; 241; 241; 241; 241; 241;
   241; 241; 241; 241; 241; 241; 241; 241; 241; 241; 241; 241;
   241; 241; 241; 241; 241; 241; 241; 241; 241; 241; 241; 241;
   241; 241; 241; 241; 241; 241; 241; 241; 241; 241; 241; 241;
   241; 241; 241; 241; 241; 241; 241; 241; 241; 241; 241; 241;
   241; 241; 241; 241; 241; 241; 241; 241; 241; 241; 241; 241;
   241; 241; 241; 241; 241; 241; 241; 241; 241; 241; 241; 241;
   241; 241; 241; 241; 241; 241; 241; 241; 241; 241; 241; 241;
   241; 241; 241; 241; 241; 241; 241; 241; 241; 241; 241; 241;
   241; 241; 241; 241; 241; 241; 241; 241; 241; 241; 241; 113;
   113; 113; 113; 113; 113; 113; 113; 113; 113; 113; 113; 113;
   113; 113; 113; 113; 113; 113; 113; 113; 113; 113; 113; 113;
   113; 113; 113; 113; 113; 113; 113; 113; 113; 113; 113; 113;
   113; 113; 113; 113; 113; 113; 113; 113; 113; 113; 113; 113;
   113; 113; 113; 113; 113; 113; 113; 113; 113; 113; 113; 113;
   113; 113; 113; 113; 113; 113; 113; 113; 113; 113; 113; 113;
   113; 113; 113; 113; 113; 113; 113; 113; 113; 113; 113; 113;
   113; 113; 113; 113; 113; 113; 113; 113; 113; 113; 113; 113;
   113; 113; 113; 113; 113; 113; 113; 113; 113; 113; 113; 113;
   113; 113; 113; 113; 113; 113; 113; 113; 113; 113; 113; 113;
   113; 113; 113; 113; 113; 113; 113; 113; 113; 113; 113; 113;
   113; 113; 113; 113; 113; 113; 113; 113; 113; 113; 113; 113;
   113; 113; 113; 113; 113; 113; 113; 113; 113; 113; 113; 113;
   113; 113; 113; 113; 113; 113; 113; 113; 113; 113; 113; 113;
   113; 113; 113; 113; 113; 113; 113; 113; 113; 113; 113; 113;
   113; 113; 113; 113; 113; 113; 113; 113; 113; 113; 113; 113;
   113; 113; 113; 113; 113; 113; 113; 113; 113; 113; 113; 113;
   113; 113; 113; 113; 113; 113; 113; 113; 113; 113; 113; 113;
   113; 113; 113; 113; 113; 113; 113; 113; 113; 113; 113; 113;
   113; 113; 113; 113; 113; 113; 113; 113; 113; 113; 113; 113;
   113; 113; 113; 113; 113; 113; 113; 113; 113; 113; 113; 113;
   113; 113; 113; 177; 177; 177; 177; 177; 177; 177; 177; 177;
   177; 177; 177; 177; 177; 177; 177; 177; 177; 177; 177; 177;
   177; 177; 177; 177; 177; 177; 177; 177; 177; 177; 177; 177;
   177; 177; 177; 177; 177; 177; 177; 177; 177; 177; 177; 177;
   177; 177; 177; 177; 177; 177; 177; 177; 177; 177; 177; 177;
   177; 177; 177; 177; 177; 177; 177; 177; 177; 177; 177; 177;
   177; 177; 177; 177; 177; 177; 177; 177; 177; 177; 177; 177;
   177; 177; 177; 177; 177; 177; 177; 177; 177; 177; 177; 177;
   177; 177; 177; 177; 177; 177; 177; 177; 177; 177; 177; 177;
   177; 177; 177; 177; 177; 177; 177; 177; 177; 177; 177; 177;
   177; 177; 177; 177; 177; 177; 177; 177; 177; 177; 177; 177;
   177; 177; 177; 177; 177; 177; 177; 177; 177; 177; 177; 177;
   177; 177; 177; 177; 177; 177; 177; 177; 177; 177; 177; 177;
   177; 177; 177; 177; 177; 177; 177; 177; 177; 177; 177; 177;
   177; 177; 177; 177; 177; 177; 177; 177; 177; 177; 177; 177;
   177; 177; 177; 177; 177; 177; 177; 177; 177; 177; 177; 177;
   177; 177; 177; 177; 177; 177; 177; 177; 177; 177; 177; 177;
   177; 177; 177; 177; 177; 177; 177; 177; 177; 177; 177; 177;
   177; 177; 177; 177; 177; 177; 177; 177; 177; 177; 177; 177;
   177; 177; 177; 177; 177; 177; 177; 177; 177; 177; 177; 177;
   177; 177; 177; 177; 177; 177; 177; 177; 177; 177; 177; 177;
   177; 177; 177; 177; 177; 177; 177; 49; 49; 49; 49; 49;
   49; 49; 49; 49; 49; 49; 49; 49; 49; 49; 49; 49;
   49; 49; 49; 49; 49; 49; 49; 49; 49; 49; 49; 49;
   49; 49; 49; 49; 49; 49; 49; 49; 49; 49; 49; 49;
   49; 49; 49; 49; 49; 49; 49; 49; 49; 49; 49; 49;
   49; 49; 49; 49; 49; 49; 49; 49; 49; 49; 49; 49;
   49; 49; 49; 49; 49; 49; 49; 49; 49; 49; 49; 49;
   49; 49; 49; 49; 49; 49; 49; 49; 49; 49; 49; 49;
   49; 49; 49; 49; 49; 49; 49; 49; 49; 49; 49; 49].

Definition signed_to_ulaw_3 : list Z :=
  [49; 49; 49; 49; 49; 49; 49; 49; 49; 49; 49; 49;
   49; 49; 49; 49; 49; 49; 49; 49; 49; 49; 49; 49;
   49; 49; 49; 49; 49; 49; 49; 49; 49; 49; 49; 49;
   49; 49; 49; 49; 49; 49; 49; 49; 49; 49; 49; 49;
   49; 49; 49; 49; 49; 49; 49; 49; 49; 49; 49; 49;
   49; 49; 49; 49; 49; 49; 49; 49; 49; 49; 49; 49;
   49; 49; 49; 49; 49; 49; 49; 49; 49; 49; 49; 49;
   49; 49; 49; 49; 49; 49; 49; 49; 49; 49; 49; 49;
   49; 49; 49; 49; 49; 49; 49; 49; 49; 49; 49; 49;
   49; 49; 49; 49; 49; 49; 49; 49; 49; 49; 49; 49;
   49; 49; 49; 49; 49; 49; 49; 49; 49; 49; 49; 49;
   49; 49; 49; 49; 49; 49; 49; 49; 49; 49; 49; 49;
   49; 49; 49; 49; 49; 49; 49; 49; 49; 49; 49; 209;
   209; 209; 209; 209; 209; 209; 209; 209; 209; 209; 209; 209;
   209; 209; 209; 209; 209; 209; 209; 209; 209; 209; 209; 209;
   209; 209; 209; 209; 209; 209; 209; 209; 209; 209; 209; 209;
   209; 209; 209; 209; 209; 209; 209; 209; 209; 209; 209; 209;
   209; 209; 209; 209; 209; 209; 209; 209; 209; 209; 209; 209;
   209; 209; 209; 209; 209; 209; 209; 209; 209; 209; 209; 209;
   209; 209; 209; 209; 209; 209; 209; 209; 209; 209; 209; 209;
   209; 209; 209; 209; 209; 209; 209; 209; 209; 209; 209; 209;
   209; 209; 209; 209; 209; 209; 209; 209; 209; 209; 209; 209;
   209; 209; 209; 209; 209; 209; 209; 209; 209; 209; 209; 209;
   209; 209; 209; 209; 209; 209; 209; 209; 209; 209; 209; 209;
   209; 209; 209; 209; 209; 209; 209; 209; 209; 209; 209; 209;
   209; 209; 209; 209; 209; 209; 209; 209; 209; 209; 209; 209;
   209; 209; 209; 209; 209; 209; 209; 209; 209; 209; 209; 209;
   209; 209; 209; 209; 209; 209; 209; 209; 209; 209; 209; 209;
   209; 209; 209; 209; 209; 209; 209; 209; 209; 209; 209; 209;
   209; 209; 209; 209; 209; 209; 209; 209; 209; 209; 209; 209;
   209; 209; 209; 209; 209; 209; 209; 209; 209; 209; 209; 209;
   209; 209; 209; 209; 209; 209; 209; 209; 209; 209; 209; 209;
   209; 209; 209; 209; 209; 209; 209; 209; 209; 209; 209; 209;
   209; 209; 209; 209; 209; 209; 209; 209; 209; 209; 209; 209;
   209; 209; 209; 81; 81; 81; 81; 81; 81; 81; 81; 81;
   81; 81; 81; 81; 81; 81; 81; 81; 81; 81; 81; 81;
   81; 81; 81; 81; 81; 81; 81; 81; 81; 81; 81; 81;
   81; 81; 81; 81; 81; 81; 81; 81; 81; 81; 81; 81;
   81; 81; 81; 81; 81; 81; 81; 81; 81; 81; 81; 81;
   81; 81; 81; 81; 81; 81; 81; 81; 81; 81; 81; 81;
   81; 81; 81; 81; 81; 81; 81; 81; 81; 81; 81; 81;
   81; 81; 81; 81; 81; 81; 81; 81; 81; 81; 81; 81;
   81; 81; 81; 81; 81; 81; 81; 81; 81; 81; 81; 81;
   81; 81; 81; 81; 81; 81; 81; 81; 81; 81; 81; 81;
   81; 81; 81; 81; 81; 81; 81; 81; 81; 81; 81; 81;
   81; 81; 81; 81; 81; 81; 81; 81; 81; 81; 81; 81;
   81; 81; 81; 81; 81; 81; 81; 81; 81; 81; 81; 81;
   81; 81; 81; 81; 81; 81; 81; 81; 81; 81; 81; 81;
   81; 81; 81; 81; 81; 81; 81; 81; 81; 81; 81; 81;
   81; 81; 81; 81; 81; 81; 81; 81; 81; 81; 81; 81;
   81; 81; 81; 81; 81; 81; 81; 81; 81; 81; 81; 81;
   81; 81; 81; 81; 81; 81; 81; 81; 81; 81; 81; 81;
   81; 81; 81; 81; 81; 81; 81; 81; 81; 81; 81; 81;
   81; 81; 81; 81; 81; 81; 81; 81; 81; 81; 81; 81;
   81; 81; 81; 81; 81; 81; 81; 81; 81; 81; 81; 81;
   81; 81; 81; 81; 81; 81; 81; 145; 145; 145; 145; 145;
   145; 145; 145; 145; 145; 145; 145; 145; 145; 145; 145; 145;
   145; 145; 145; 145; 145; 145; 145; 145; 145; 145; 145; 145;
   145; 145; 145; 145; 145; 145; 145; 145; 145; 145; 145; 145;
   145; 145; 145; 145; 145; 145; 145; 145; 145; 145; 145; 145;
   145; 145; 145; 145; 145; 145; 145; 145; 145; 145; 145; 145;
   145; 145; 145; 145; 145; 145; 145; 145; 145; 145; 145; 145;
   145; 145; 145; 145; 145; 145; 145; 145; 145; 145; 145; 145;
   145; 145; 145; 145; 145; 145; 145; 145; 145; 145; 145; 145;
   145; 145; 145; 145; 145; 145; 145; 145; 145; 145; 145; 145;
   145; 145; 145; 145; 145; 145; 145; 145; 145; 145; 145; 145;
   145; 145; 145; 145; 145; 145; 145; 145; 145; 145; 145; 145;
   145; 145; 145; 145; 145; 145; 145; 145; 145; 145; 145; 145;
   145; 145; 145; 145; 145; 145; 145; 145; 145; 145; 145; 145;
   145; 145; 145; 145; 145; 145; 145; 145; 145; 145; 145; 145;
   145; 145; 145; 145; 145; 145; 145; 145; 145; 145; 145; 145;
   145; 145; 145; 145; 145; 145; 145; 145; 145; 145; 145; 145;
   145; 145; 145; 145; 145; 145; 145; 145; 145; 145; 145; 145;
   145; 145; 145; 145; 145; 145; 145; 145; 145; 145; 145; 145;
   145; 145; 145; 145; 145; 145; 145; 145; 145; 145; 145; 145;
   145; 145; 145; 145; 145; 145; 145; 145; 145; 145; 145; 145;
   145; 145; 145; 145; 145; 145; 145; 145; 145; 145; 145; 17;
   17; 17; 17; 17; 17; 17; 17; 17; 17; 17; 17; 17;
   17; 17; 17; 17; 17; 17; 17; 17; 17; 17; 17; 17;
   17; 17; 17; 17; 17; 17; 17; 17; 17; 17; 17; 17;
   17; 17; 17; 17; 17; 17; 17; 17; 17; 17; 17; 17;
   17; 17; 17; 17; 17; 17; 17; 17; 17; 17; 17; 17;
   17; 17; 17; 17; 17; 17; 17; 17; 17; 17; 17; 17;
   17; 17; 17; 17; 17; 17; 17; 17; 17; 17; 17; 17;
   17; 17; 17; 17; 17; 17; 17; 17; 17; 17; 17; 17;
   17; 17; 17; 17; 17; 17; 17; 17; 17; 17; 17; 17;
   17; 17; 17; 17; 17; 17; 17; 17; 17; 17; 17; 17;
   17; 17; 17; 17; 17; 17; 17; 17; 17; 17; 17; 17;
   17; 17; 17; 17; 17; 17; 17; 17; 17; 17; 17; 17;
   17; 17; 17; 17; 17; 17; 17; 17; 17; 17; 17; 17;
   17; 17; 17; 17; 17; 17; 17; 17; 17; 17; 17; 17;
   17; 17; 17; 17; 17; 17; 17; 17; 17; 17; 17; 17;
   17; 17; 17; 17; 17; 17; 17; 17; 17; 17; 17; 17;
   17; 17; 17; 17; 17; 17; 17; 17; 17; 17; 17; 17;
   17; 17; 17; 17; 17; 17; 17; 17; 17; 17; 17; 17;
   17; 17; 17; 17; 17; 17; 17; 17; 17; 17; 17; 17;
   17; 17; 17; 17; 17; 17; 17; 17; 17; 17; 17; 17;
   17; 17; 17; 17; 17; 17; 17; 17; 17; 17; 17; 17;
   17; 17; 17; 225; 225; 225; 225; 225; 225; 225; 225; 225;
   225; 225; 225; 225; 225; 225; 225; 225; 225; 225; 225; 225;
   225; 225; 225; 225; 225; 225; 225; 225; 225; 225; 225; 225;
   225; 225; 225; 225; 225; 225; 225; 225; 225; 225; 225; 225;
   225; 225; 225; 225; 225; 225; 225; 225; 225; 225; 225; 225;
   225; 225; 225; 225; 225; 225; 225; 225; 225; 225; 225; 225;
   225; 225; 225; 225; 225; 225; 225; 225; 225; 225; 225; 225;
   225; 225; 225; 225; 225; 225; 225; 225; 225; 225; 225; 225;
   225; 225; 225; 225; 225; 225; 225; 225; 225; 225; 225; 225;
   225; 225; 225; 225; 225; 225; 225; 225; 225; 225; 225; 225;
   225; 225; 225; 225; 225; 225; 225; 225; 225; 225; 225; 225;
   225; 225; 225; 225; 225; 225; 225; 225; 225; 225; 225; 225;
   225; 225; 225; 225; 225; 225; 225; 225; 225; 225; 225; 225;
   225; 225; 225; 225; 225; 225; 225; 225; 225; 225; 225; 225;
   225; 225; 225; 225; 225; 225; 225; 225; 225; 225; 225; 225;
   225; 225; 225; 225; 225; 225; 225; 225; 225; 225; 225; 225;
   225; 225; 225; 225; 225; 225; 225; 225; 225; 225; 225; 225;
   225; 225; 225; 225; 225; 225; 225; 225; 225; 225; 225; 225;
   225; 225; 225; 225; 225; 225; 225; 225; 225; 225; 225; 225;
   225; 225; 225; 225; 225; 225; 225; 225; 225; 225; 225; 225;
   225; 225; 225; 225; 225; 225; 225; 225; 225; 225; 225; 225;
   225; 225; 225; 225; 225; 225; 225; 97; 97; 97; 97; 97;
   97; 97; 97; 97; 97; 97; 97; 97; 97; 97; 97; 97;
   97; 97; 97; 97; 97; 97; 97; 97; 97; 97; 97; 97;
   97; 97; 97; 97; 97; 97; 97; 97; 97; 97; 97; 97;
   97; 97; 97; 97; 97; 97; 97; 97; 97; 97; 97; 97;
   97; 97; 97; 97; 97; 97; 97; 97; 97; 97; 97; 97;
   97; 97; 97; 97; 97; 97; 97; 97; 97; 97; 97; 97;
   97; 97; 97; 97; 97; 97; 97; 97; 97; 97; 97; 97;
   97; 97; 97; 97; 97; 97; 97; 97; 97; 97; 97; 97;
   97; 97; 97; 97; 97; 97; 97; 97; 97; 97; 97; 97;
   97; 97; 97; 97; 97; 97; 97; 97; 97; 97; 97; 97;
   97; 97; 97; 97; 97; 97; 97; 97; 97; 97; 97; 97;
   97; 97; 97; 97; 97; 97; 97; 97; 97; 97; 97; 97;
   97; 97; 97; 97; 97; 97; 97; 97; 97; 97; 97; 97;
   97; 97; 97; 97; 97; 97; 97; 97; 97; 97; 97; 97;
   97; 97; 97; 97; 97; 97; 97; 97; 97; 97; 97; 97;
   97; 97; 97; 97; 97; 97; 97; 97; 97; 97; 97; 97;
   97; 97; 97; 97; 97; 97; 97; 97; 97; 97; 97; 97].

Definition signed_to_ulaw_4 : list Z :=
  [97; 97; 97; 97; 97; 97; 97; 97; 97; 97; 97; 97;
   97; 97; 97; 97; 97; 97; 97; 97; 97; 97; 97; 97;
   97; 97; 97; 97; 97; 97; 97; 97; 97; 97; 97; 97;
   97; 97; 97; 97; 97; 97; 97; 97; 97; 97; 97; 161;
   161; 161; 161; 161; 161; 161; 161; 161; 161; 161; 161; 161;
   161; 161; 161; 161; 161; 161; 161; 161; 161; 161; 161; 161;
   161; 161; 161; 161; 161; 161; 161; 161; 161; 161; 161; 161;
   161; 161; 161; 161; 161; 161; 161; 161; 161; 161; 161; 161;
   161; 161; 161; 161; 161; 161; 161; 161; 161; 161; 161; 161;
   161; 161; 161; 161; 161; 161; 161; 161; 161; 161; 161; 161;
   161; 161; 161; 161; 161; 161; 161; 161; 161; 161; 161; 161;
   161; 161; 161; 161; 161; 161; 161; 161; 161; 161; 161; 161;
   161; 161; 161; 161; 161; 161; 161; 161; 161; 161; 161; 161;
   161; 161; 161; 161; 161; 161; 161; 161; 161; 161; 161; 161;
   161; 161; 161; 161; 161; 161; 161; 161; 161; 161; 161; 161;
   161; 161; 161; 161; 161; 161; 161; 161; 161; 161; 161; 161;
   161; 161; 161; 161; 161; 161; 161; 161; 161; 161; 161; 161;
   161; 161; 161; 161; 161; 161; 161; 161; 161; 161; 161; 161;
   161; 161; 161; 161; 161; 161; 161; 161; 161; 161; 161; 161;
   161; 161; 161; 161; 161; 161; 161; 161; 161; 161; 161; 161;
   161; 161; 161; 161; 161; 161; 161; 161; 161; 161; 161; 161;
   161; 161; 161; 161; 161; 161; 161; 161; 161; 161; 161; 161;
   161; 161; 161; 161; 161; 161; 161; 161; 161; 161; 161; 161;
   161; 161; 161; 161; 161; 161; 161; 161; 161; 161; 161; 161;
   161; 161; 161; 161; 161; 161; 161; 161; 161; 161; 161; 161;
   161; 161; 161; 33; 33; 33; 33; 33; 33; 33; 33; 33;
   33; 33; 33; 33; 33; 33; 33; 33; 33; 33; 33; 33;
   33; 33; 33; 33; 33; 33; 33; 33; 33; 33; 33; 33;
   33; 33; 33; 33; 33; 33; 33; 33; 33; 33; 33; 33;
   33; 33; 33; 33; 33; 33; 33; 33; 33; 33; 33; 33;
   33; 33; 33; 33; 33; 33; 33; 33; 33; 33; 33; 33;
   33; 33; 33; 33; 33; 33; 33; 33; 33; 33; 33; 33;
   33; 33; 33; 33; 33; 33; 33; 33; 33; 33; 33; 33;
   33; 33; 33; 33; 33; 33; 33; 33; 33; 33; 33; 33;
   33; 33; 33; 33; 33; 33; 33; 33; 33; 33; 33; 33;
   33; 33; 33; 33; 33; 33; 33; 33; 33; 33; 33; 33;
   33; 33; 33; 33; 33; 33; 33; 33; 33; 33; 33; 33;
   33; 33; 33; 33; 33; 33; 33; 33; 33; 33; 33; 33;
   33; 33; 33; 33; 33; 33; 33; 33; 33; 33; 33; 33;
   33; 33; 33; 33; 33; 33; 33; 33; 33; 33; 33; 33;
   33; 33; 33; 33; 33; 33; 33; 33; 33; 33; 33; 33;
   33; 33; 33; 33; 33; 33; 33; 33; 33; 33; 33; 33;
   33; 33; 33; 33; 33; 33; 33; 33; 33; 33; 33; 33;
   33; 33; 33; 33; 33; 33; 33; 33; 33; 33; 33; 33;
   33; 33; 33; 33; 33; 33; 33; 33; 33; 33; 33; 33;
   33; 33; 33; 33; 33; 33; 33; 33; 33; 33; 33; 33;
   33; 33; 33; 33; 33; 33; 33; 193; 193; 193; 193; 193;
   193; 193; 193; 193; 193; 193; 193; 193; 193; 193; 193; 193;
   193; 193; 193; 193; 193; 193; 193; 193; 193; 193; 193; 193;
   193; 193; 193; 193; 193; 193; 193; 193; 193; 193; 193; 193;
   193; 193; 193; 193; 193; 193; 193; 193; 193; 193; 193; 193;
   193; 193; 193; 193; 193; 193; 193; 193; 193; 193; 193; 193;
   193; 193; 193; 193; 193; 193; 193; 193; 193; 193; 193; 193;
   193; 193; 193; 193; 193; 193; 193; 193; 193; 193; 193; 193;
   193; 193; 193; 193; 193; 193; 193; 193; 193; 193; 193; 193;
   193; 193; 193; 193; 193; 193; 193; 193; 193; 193; 193; 193;
   193; 193; 193; 193; 193; 193; 193; 193; 193; 193; 193; 193;
   193; 193; 193; 193; 193; 193; 193; 193; 193; 193; 193; 193;
   193; 193; 193; 193; 193; 193; 193; 193; 193; 193; 193; 193;
   193; 193; 193; 193; 193; 193; 193; 193; 193; 193; 193; 193;
   193; 193; 193; 193; 193; 193; 193; 193; 193; 193; 193; 193;
   193; 193; 193; 193; 193; 193; 193; 193; 193; 193; 193; 193;
   193; 193; 193; 193; 193; 193; 193; 193; 193; 193; 193; 193;
   193; 193; 193; 193; 193; 193; 193; 193; 193; 193; 193; 193;
   193; 193; 193; 193; 193; 193; 193; 193; 193; 193; 193; 193;
   193; 193; 193; 193; 193; 193; 193; 193; 193; 193; 193; 193;
   193; 193; 193; 193; 193; 193; 193; 193; 193; 193; 193; 193;
   193; 193; 193; 193; 193; 193; 193; 193; 193; 193; 193; 65;
   65; 65; 65; 65; 65; 65; 65; 65; 65; 65; 65; 65;
   65; 65; 65; 65; 65; 65; 65; 65; 65; 65; 65; 65;
   65; 65; 65; 65; 65; 65; 65; 65; 65; 65; 65; 65;
   65; 65; 65; 65; 65; 65; 65; 65; 65; 65; 65; 65;
   65; 65; 65; 65; 65; 65; 65; 65; 65; 65; 65; 65;
   65; 65; 65; 65; 65; 65; 65; 65; 65; 65; 65; 65;
   65; 65; 65; 65; 65; 65; 65; 65; 65; 65; 65; 65;
   65; 65; 65; 65; 65; 65; 65; 65; 65; 65; 65; 65;
   65; 65; 65; 65; 65; 65; 65; 65; 65; 65; 65; 65;
   65; 65; 65; 65; 65; 65; 65; 65; 65; 65; 65; 65;
   65; 65; 65; 65; 65; 65; 65; 65; 65; 65; 65; 65;
   65; 65; 65; 65; 65; 65; 65; 65; 65; 65; 65; 65;
   65; 65; 65; 65; 65; 65; 65; 65; 65; 65; 65; 65;
   65; 65; 65; 65; 65; 65; 65; 65; 65; 65; 65; 65;
   65; 65; 65; 65; 65; 65; 65; 65; 65; 65; 65; 65;
   65; 65; 65; 65; 65; 65; 65; 65; 65; 65; 65; 65;
   65; 65; 65; 65; 65; 65; 65; 65; 65; 65; 65; 65;
   65; 65; 65; 65; 65; 65; 65; 65; 65; 65; 65; 65;
   65; 65; 65; 65; 65; 65; 65; 65; 65; 65; 65; 65;
   65; 65; 65; 65; 65; 65; 65; 65; 65; 65; 65; 65;
   65; 65; 65; 65; 65; 65; 65; 65; 65; 65; 65; 65;
   65; 65; 65; 129; 129; 129; 129; 129; 129; 129; 129; 129;
   129; 129; 129; 129; 129; 129; 129; 129; 129; 129; 129; 129;
   129; 129; 129; 129; 129; 129; 129; 129; 129; 129; 129; 129;
   129; 129; 129; 129; 129; 129; 129; 129; 129; 129; 129; 129;
   129; 129; 129; 129; 129; 129; 129; 129; 129; 129; 129; 129;
   129; 129; 129; 129; 129; 129; 129; 129; 129; 129; 129; 129;
   129; 129; 129; 129; 129; 129; 129; 129; 129; 129; 129; 129;
   129; 129; 129; 129; 129; 129; 129; 129; 129; 129; 129; 129;
   129; 129; 129; 129; 129; 129; 129; 129; 129; 129; 129; 129;
   129; 129; 129; 129; 129; 129; 129; 129; 129; 129; 129; 129;
   129; 129; 129; 129; 129; 129; 129; 129; 129; 129; 129; 129;
   129; 129; 129; 129; 129; 129; 129; 129; 129; 129; 129; 129;
   129; 129; 129; 129; 129; 129; 129; 129; 129; 129; 129; 129;
   129; 129; 129; 129; 129; 129; 129; 129; 129; 129; 129; 129;
   129; 129; 129; 129; 129; 129; 129; 129; 129; 129; 129; 129;
   129; 129; 129; 129; 129; 129; 129; 129; 129; 129; 129; 129;
   129; 129; 129; 129; 129; 129; 129; 129; 129; 129; 129; 129;
   129; 129; 129; 129; 129; 129; 129; 129; 129; 129; 129; 129;
   129; 129; 129; 129; 129; 129; 129; 129; 129; 129; 129; 129;
   129; 129; 129; 129; 129; 129; 129; 129; 129; 129; 129; 129;
   129; 129; 129; 129; 129; 129; 129; 129; 129; 129; 129; 129;
   129; 129; 129; 129; 129; 129; 129; 1; 1; 1; 1; 1;
   1; 1; 1; 1; 1; 1; 1; 1; 1; 1; 1; 1;
   1; 1; 1; 1; 1; 1; 1; 1; 1; 1; 1; 1;
   1; 1; 1; 1; 1; 1; 1; 1; 1; 1; 1; 1;
   1; 1; 1; 1; 1; 1; 1; 1; 1; 1; 1; 1;
   1; 1; 1; 1; 1; 1; 1; 1; 1; 1; 1; 1;
   1; 1; 1; 1; 1; 1; 1; 1; 1; 1; 1; 1;
   1; 1; 1; 1; 1; 1; 1; 1; 1; 1; 1; 1;
   1; 1; 1; 1; 1; 1; 1; 1; 1; 1; 1; 1;
   1; 1; 1; 1; 1; 1; 1; 1; 1; 1; 1; 1;
   1; 1; 1; 1; 1; 1; 1; 1; 1; 1; 1; 1;
   1; 1; 1; 1; 1; 1; 1; 1; 1; 1; 1; 1;
   1; 1; 1; 1; 1; 1; 1; 1; 1; 1; 1; 1;
   1; 1; 1; 1; 1; 1; 1; 1; 1; 1; 1; 1;
   1; 1; 1; 1; 1; 1; 1; 1; 1; 1; 1; 1;
   1; 1; 1; 1; 1; 1; 1; 1; 1; 1; 1; 1;
   1; 1; 1; 1; 1; 1; 1; 1; 1; 1; 1; 1;
   1; 1; 1; 1; 1; 1; 1; 1; 1; 1; 1; 1;
   1; 1; 1; 1; 1; 1; 1; 1; 1; 1; 1; 1;
   1; 1; 1; 1; 1; 1; 1; 1; 1; 1; 1; 1;
   1; 1; 1; 1; 1; 1; 1; 1; 1; 1; 1; 1;
   1; 1; 1; 1; 1; 1; 1; 1; 1; 1; 1; 1;
   1; 1; 1; 1; 1; 1; 1; 1; 1; 1; 1; 1;
   1; 1; 1; 1; 1; 1; 1; 1; 1; 1; 1; 1;
   1; 1; 1; 1; 1; 1; 1; 1; 0; 0; 0; 0;
   0; 0; 0; 0; 0; 0; 0; 0; 0; 0; 0; 0;
   0; 0; 0; 0; 0; 0; 0; 0; 0; 0; 0; 0].

Definition signed_to_ulaw_5 : list Z :=
  [0; 0; 0; 0; 0; 0; 0; 0; 0; 0; 0; 0;
   0; 0; 0; 0; 0; 0; 0; 0; 0; 0; 0; 0;
   0; 0; 0; 0; 0; 0; 0; 0; 0; 0; 0; 0;
   0; 0; 0; 0; 0; 0; 0; 0; 0; 0; 0; 0;
   0; 0; 0; 0; 0; 0; 0; 0; 0; 0; 0; 0;
   0; 0; 0; 0; 0; 0; 0; 0; 0; 0; 0; 0;
   0; 0; 0; 0; 0; 0; 0; 0; 0; 0; 0; 0;
   0; 0; 0; 0; 0; 0; 0; 0; 0; 0; 0; 0;
   0; 0; 0; 0; 0; 0; 0; 0; 0; 0; 0; 0;
   0; 0; 0; 0; 0; 0; 0; 0; 0; 0; 0; 0;
   0; 0; 0; 0; 0; 0; 0; 0; 0; 0; 0; 0;
   0; 0; 0; 0; 0; 0; 0; 0; 0; 0; 0; 0;
   0; 0; 0; 0; 0; 0; 0; 0; 0; 0; 0; 0;
   0; 0; 0; 0; 0; 0; 0; 0; 0; 0; 0; 0;
   0; 0; 0; 0; 0; 0; 0; 0; 0; 0; 0; 0;
   0; 0; 0; 0; 0; 0; 0; 0; 0; 0; 0; 0;
   0; 0; 0; 0; 0; 0; 0; 0; 0; 0; 0; 0;
   0; 0; 0; 0; 0; 0; 0; 0; 0; 0; 0; 0;
   0; 0; 0; 0; 0; 0; 0; 0; 0; 0; 0; 0;
   0; 0; 0; 0; 0; 0; 0; 0; 0; 0; 0; 0;
   0; 0; 0; 0; 0; 0; 0; 0; 0; 0; 0; 0;
   0; 0; 0; 0; 0; 0; 0; 0; 0; 0; 128; 128;
   128; 128; 128; 128; 128; 128; 128; 128; 128; 128; 128; 128;
   128; 128; 128; 128; 128; 128; 128; 128; 128; 128; 128; 128;
   128; 128; 128; 128; 128; 128; 128; 128; 128; 128; 128; 128;
   128; 128; 128; 128; 128; 128; 128; 128; 128; 128; 128; 128;
   128; 128; 128; 128; 128; 128; 128; 128; 128; 128; 128; 128;
   128; 128; 128; 128; 128; 128; 128; 128; 128; 128; 128; 128;
   128; 128; 128; 128; 128; 128; 128; 128; 128; 128; 128; 128;
   128; 128; 128; 128; 128; 128; 128; 128; 128; 128; 128; 128;
   128; 128; 128; 128; 128; 128; 128; 128; 128; 128; 128; 128;
   128; 128; 128; 128; 128; 128; 128; 128; 128; 128; 128; 128;
   128; 128; 128; 128; 128; 128; 128; 128; 128; 128; 128; 128;
   128; 128; 128; 128; 128; 128; 128; 128; 128; 128; 128; 128;
   128; 128; 128; 128; 128; 128; 128; 128; 128; 128; 128; 128;
   128; 128; 128; 128; 128; 128; 128; 128; 128; 128; 128; 128;
   128; 128; 128; 128; 128; 128; 128; 128; 128; 128; 128; 128;
   128; 128; 128; 128; 128; 128; 128; 128; 128; 128; 128; 128;
   128; 128; 128; 128; 128; 128; 128; 128; 128; 128; 128; 128;
   128; 128; 128; 128; 128; 128; 128; 128; 128; 128; 128; 128;
   128; 128; 128; 128; 128; 128; 128; 128; 128; 128; 128; 128;
   128; 128; 128; 128; 128; 128; 128; 128; 128; 128; 128; 128;
   128; 128; 128; 128; 128; 128; 128; 128; 128; 128; 128; 128;
   128; 128; 64; 64; 64; 64; 64; 64; 64; 64; 64; 64;
   64; 64; 64; 64; 64; 64; 64; 64; 64; 64; 64; 64;
   64; 64; 64; 64; 64; 64; 64; 64; 64; 64; 64; 64;
   64; 64; 64; 64; 64; 64; 64; 64; 64; 64; 64; 64;
   64; 64; 64; 64; 64; 64; 64; 64; 64; 64; 64; 64;
   64; 64; 64; 64; 64; 64; 64; 64; 64; 64; 64; 64;
   64; 64; 64; 64; 64; 64; 64; 64; 64; 64; 64; 64;
   64; 64; 64; 64; 64; 64; 64; 64; 64; 64; 64; 64;
   64; 64; 64; 64; 64; 64; 64; 64; 64; 64; 64; 64;
   64; 64; 64; 64; 64; 64; 64; 64; 64; 64; 64; 64;
   64; 64; 64; 64; 64; 64; 64; 64; 64; 64; 64; 64;
   64; 64; 64; 64; 64; 64; 64; 64; 64; 64; 64; 64;
   64; 64; 64; 64; 64; 64; 64; 64; 64; 64; 64; 64;
   64; 64; 64; 64; 64; 64; 64; 64; 64; 64; 64; 64;
   64; 64; 64; 64; 64; 64; 64; 64; 64; 64; 64; 64;
   64; 64; 64; 64; 64; 64; 64; 64; 64; 64; 64; 64;
   64; 64; 64; 64; 64; 64; 64; 64; 64; 64; 64; 64;
   64; 64; 64; 64; 64; 64; 64; 64; 64; 64; 64; 64;
   64; 64; 64; 64; 64; 64; 64; 64; 64; 64; 64; 64;
   64; 64; 64; 64; 64; 64; 64; 64; 64; 64; 64; 64;
   64; 64; 64; 64; 64; 64; 64; 64; 64; 64; 64; 64;
   64; 64; 64; 64; 64; 64; 192; 192; 192; 192; 192; 192;
   192; 192; 192; 192; 192; 192; 192; 192; 192; 192; 192; 192;
   192; 192; 192; 192; 192; 192; 192; 192; 192; 192; 192; 192;
   192; 192; 192; 192; 192; 192; 192; 192; 192; 192; 192; 192;
   192; 192; 192; 192; 192; 192; 192; 192; 192; 192; 192; 192;
   192; 192; 192; 192; 192; 192; 192; 192; 192; 192; 192; 192;
   192; 192; 192; 192; 192; 192; 192; 192; 192; 192; 192; 192;
   192; 192; 192; 192; 192; 192; 192; 192; 192; 192; 192; 192;
   192; 192; 192; 192; 192; 192; 192; 192; 192; 192; 192; 192;
   192; 192; 192; 192; 192; 192; 192; 192; 192; 192; 192; 192;
   192; 192; 192; 192; 192; 192; 192; 192; 192; 192; 192; 192;
   192; 192; 192; 192; 192; 192; 192; 192; 192; 192; 192; 192;
   192; 192; 192; 192; 192; 192; 192; 192; 192; 192; 192; 192;
   192; 192; 192; 192; 192; 192; 192; 192; 192; 192; 192; 192;
   192; 192; 192; 192; 192; 192; 192; 192; 192; 192; 192; 192;
   192; 192; 192; 192; 192; 192; 192; 192; 192; 192; 192; 192;
   192; 192; 192; 192; 192; 192; 192; 192; 192; 192; 192; 192;
   192; 192; 192; 192; 192; 192; 192; 192; 192; 192; 192; 192;
   192; 192; 192; 192; 192; 192; 192; 192; 192; 192; 192; 192;
   192; 192; 192; 192; 192; 192; 192; 192; 192; 192; 192; 192;
   192; 192; 192; 192; 192; 192; 192; 192; 192; 192; 192; 192;
   192; 192; 192; 192; 192; 192; 192; 192; 192; 192; 32; 32;
   32; 32; 32; 32; 32; 32; 32; 32; 32; 32; 32; 32;
   32; 32; 32; 32; 32; 32; 32; 32; 32; 32; 32; 32;
   32; 32; 32; 32; 32; 32; 32; 32; 32; 32; 32; 32;
   32; 32; 32; 32; 32; 32; 32; 32; 32; 32; 32; 32;
   32; 32; 32; 32; 32; 32; 32; 32; 32; 32; 32; 32;
   32; 32; 32; 32; 32; 32; 32; 32; 32; 32; 32; 32;
   32; 32; 32; 32; 32; 32; 32; 32; 32; 32; 32; 32;
   32; 32; 32; 32; 32; 32; 32; 32; 32; 32; 32; 32;
   32; 32; 32; 32; 32; 32; 32; 32; 32; 32; 32; 32;
   32; 32; 32; 32; 32; 32; 32; 32; 32; 32; 32; 32;
   32; 32; 32; 32; 32; 32; 32; 32; 32; 32; 32; 32;
   32; 32; 32; 32; 32; 32; 32; 32; 32; 32; 32; 32;
   32; 32; 32; 32; 32; 32; 32; 32; 32; 32; 32; 32;
   32; 32; 32; 32; 32; 32; 32; 32; 32; 32; 32; 32;
   32; 32; 32; 32; 32; 32; 32; 32; 32; 32; 32; 32;
   32; 32; 32; 32; 32; 32; 32; 32; 32; 32; 32; 32;
   32; 32; 32; 32; 32; 32; 32; 32; 32; 32; 32; 32;
   32; 32; 32; 32; 32; 32; 32; 32; 32; 32; 32; 32;
   32; 32; 32; 32; 32; 32; 32; 32; 32; 32; 32; 32;
   32; 32; 32; 32; 32; 32; 32; 32; 32; 32; 32; 32;
   32; 32; 32; 32; 32; 32; 32; 32; 32; 32; 32; 32;
   32; 32; 160; 160; 160; 160; 160; 160; 160; 160; 160; 160;
   160; 160; 160; 160; 160; 160; 160; 160; 160; 160; 160; 160;
   160; 160; 160; 160; 160; 160; 160; 160; 160; 160; 160; 160;
   160; 160; 160; 160; 160; 160; 160; 160; 160; 160; 160; 160;
   160; 160; 160; 160; 160; 160; 160; 160; 160; 160; 160; 160;
   160; 160; 160; 160; 160; 160; 160; 160; 160; 160; 160; 160;
   160; 160; 160; 160; 160; 160; 160; 160; 160; 160; 160; 160;
   160; 160; 160; 160; 160; 160; 160; 160; 160; 160; 160; 160;
   160; 160; 160; 160; 160; 160; 160; 160; 160; 160; 160; 160;
   160; 160; 160; 160; 160; 160; 160; 160; 160; 160; 160; 160;
   160; 160; 160; 160; 160; 160; 160; 160; 160; 160; 160; 160;
   160; 160; 160; 160; 160; 160; 160; 160; 160; 160; 160; 160;
   160; 160; 160; 160; 160; 160; 160; 160; 160; 160; 160; 160;
   160; 160; 160; 160; 160; 160; 160; 160; 160; 160; 160; 160;
   160; 160; 160; 160; 160; 160; 160; 160; 160; 160; 160; 160;
   160; 160; 160; 160; 160; 160; 160; 160; 160; 160; 160; 160;
   160; 160; 160; 160; 160; 160; 160; 160; 160; 160; 160; 160;
   160; 160; 160; 160; 160; 160; 160; 160; 160; 160; 160; 160;
   160; 160; 160; 160; 160; 160; 160; 160; 160; 160; 160; 160;
   160; 160; 160; 160; 160; 160; 160; 160; 160; 160; 160; 160;
   160; 160; 160; 160; 160; 160; 160; 160; 160; 160; 160; 160;
   160; 160; 160; 160; 160; 160; 96; 96; 96; 96; 96; 96;
   96; 96; 96; 96; 96; 96; 96; 96; 96; 96; 96; 96;
   96; 96; 96; 96; 96; 96; 96; 96; 96; 96; 96; 96;
   96; 96; 96; 96; 96; 96; 96; 96; 96; 96; 96; 96;
   96; 96; 96; 96; 96; 96; 96; 96; 96; 96; 96; 96;
   96; 96; 96; 96; 96; 96; 96; 96; 96; 96; 96; 96;
   96; 96; 96; 96; 96; 96; 96; 96; 96; 96; 96; 96;
   96; 96; 96; 96; 96; 96; 96; 96; 96; 96; 96; 96;
   96; 96; 96; 96; 96; 96; 96; 96; 96; 96; 96; 96].

Definition signed_to_ulaw_6 : list Z :=
  [96; 96; 96; 96; 96; 96; 96; 96; 96; 96; 96; 96;
   96; 96; 96; 96; 96; 96; 96; 96; 96; 96; 96; 96;
   96; 96; 96; 96; 96; 96; 96; 96; 96; 96; 96; 96;
   96; 96; 96; 96; 96; 96; 96; 96; 96; 96; 96; 96;
   96; 96; 96; 96; 96; 96; 96; 96; 96; 96; 96; 96;
   96; 96; 96; 96; 96; 96; 96; 96; 96; 96; 96; 96;
   96; 96; 96; 96; 96; 96; 96; 96; 96; 96; 96; 96;
   96; 96; 96; 96; 96; 96; 96; 96; 96; 96; 96; 96;
   96; 96; 96; 96; 96; 96; 96; 96; 96; 96; 96; 96;
   96; 96; 96; 96; 96; 96; 96; 96; 96; 96; 96; 96;
   96; 96; 96; 96; 96; 96; 96; 96; 96; 96; 96; 96;
   96; 96; 96; 96; 96; 96; 96; 96; 96; 96; 96; 96;
   96; 96; 96; 96; 96; 96; 96; 96; 96; 96; 224; 224;
   224; 224; 224; 224; 224; 224; 224; 224; 224; 224; 224; 224;
   224; 224; 224; 224; 224; 224; 224; 224; 224; 224; 224; 224;
   224; 224; 224; 224; 224; 224; 224; 224; 224; 224; 224; 224;
   224; 224; 224; 224; 224; 224; 224; 224; 224; 224; 224; 224;
   224; 224; 224; 224; 224; 224; 224; 224; 224; 224; 224; 224;
   224; 224; 224; 224; 224; 224; 224; 224; 224; 224; 224; 224;
   224; 224; 224; 224; 224; 224; 224; 224; 224; 224; 224; 224;
   224; 224; 224; 224; 224; 224; 224; 224; 224; 224; 224; 224;
   224; 224; 224; 224; 224; 224; 224; 224; 224; 224; 224; 224;
   224; 224; 224; 224; 224; 224; 224; 224; 224; 224; 224; 224;
   224; 224; 224; 224; 224; 224; 224; 224; 224; 224; 224; 224;
   224; 224; 224; 224; 224; 224; 224; 224; 224; 224; 224; 224;
   224; 224; 224; 224; 224; 224; 224; 224; 224; 224; 224; 224;
   224; 224; 224; 224; 224; 224; 224; 224; 224; 224; 224; 224;
   224; 224; 224; 224; 224; 224; 224; 224; 224; 224; 224; 224;
   224; 224; 224; 224; 224; 224; 224; 224; 224; 224; 224; 224;
   224; 224; 224; 224; 224; 224; 224; 224; 224; 224; 224; 224;
   224; 224; 224; 224; 224; 224; 224; 224; 224; 224; 224; 224;
   224; 224; 224; 224; 224; 224; 224; 224; 224; 224; 224; 224;
   224; 224; 224; 224; 224; 224; 224; 224; 224; 224; 224; 224;
   224; 224; 224; 224; 224; 224; 224; 224; 224; 224; 224; 224;
   224; 224; 16; 16; 16; 16; 16; 16; 16; 16; 16; 16;
   16; 16; 16; 16; 16; 16; 16; 16; 16; 16; 16; 16;
   16; 16; 16; 16; 16; 16; 16; 16; 16; 16; 16; 16;
   16; 16; 16; 16; 16; 16; 16; 16; 16; 16; 16; 16;
   16; 16; 16; 16; 16; 16; 16; 16; 16; 16; 16; 16;
   16; 16; 16; 16; 16; 16; 16; 16; 16; 16; 16; 16;
   16; 16; 16; 16; 16; 16; 16; 16; 16; 16; 16; 16;
   16; 16; 16; 16; 16; 16; 16; 16; 16; 16; 16; 16;
   16; 16; 16; 16; 16; 16; 16; 16; 16; 16; 16; 16;
   16; 16; 16; 16; 16; 16; 16; 16; 16; 16; 16; 16;
   16; 16; 16; 16; 16; 16; 16; 16; 16; 16; 16; 16;
   16; 16; 16; 16; 16; 16; 16; 16; 16; 16; 16; 16;
   16; 16; 16; 16; 16; 16; 16; 16; 16; 16; 16; 16;
   16; 16; 16; 16; 16; 16; 16; 16; 16; 16; 16; 16;
   16; 16; 16; 16; 16; 16; 16; 16; 16; 16; 16; 16;
   16; 16; 16; 16; 16; 16; 16; 16; 16; 16; 16; 16;
   16; 16; 16; 16; 16; 16; 16; 16; 16; 16; 16; 16;
   16; 16; 16; 16; 16; 16; 16; 16; 16; 16; 16; 16;
   16; 16; 16; 16; 16; 16; 16; 16; 16; 16; 16; 16;
   16; 16; 16; 16; 16; 16; 16; 16; 16; 16; 16; 16;
   16; 16; 16; 16; 16; 16; 16; 16; 16; 16; 16; 16;
   16; 16; 16; 16; 16; 16; 144; 144; 144; 144; 144; 144;
   144; 144; 144; 144; 144; 144; 144; 144; 144; 144; 144; 144;
   144; 144; 144; 144; 144; 144; 144; 144; 144; 144; 144; 144;
   144; 144; 144; 144; 144; 144; 144; 144; 144; 144; 144; 144;
   144; 144; 144; 144; 144; 144; 144; 144; 144; 144; 144; 144;
   144; 144; 144; 144; 144; 144; 144; 144; 144; 144; 144; 144;
   144; 144; 144; 144; 144; 144; 144; 144; 144; 144; 144; 144;
   144; 144; 144; 144; 144; 144; 144; 144; 144; 144; 144; 144;
   144; 144; 144; 144; 144; 144; 144; 144; 144; 144; 144; 144;
   144; 144; 144; 144; 144; 144; 144; 144; 144; 144; 144; 144;
   144; 144; 144; 144; 144; 144; 144; 144; 144; 144; 144; 144;
   144; 144; 144; 144; 144; 144; 144; 144; 144; 144; 144; 144;
   144; 144; 144; 144; 144; 144; 144; 144; 144; 144; 144; 144;
   144; 144; 144; 144; 144; 144; 144; 144; 144; 144; 144; 144;
   144; 144; 144; 144; 144; 144; 144; 144; 144; 144; 144; 144;
   144; 144; 144; 144; 144; 144; 144; 144; 144; 144; 144; 144;
   144; 144; 144; 144; 144; 144; 144; 144; 144; 144; 144; 144;
   144; 144; 144; 144; 144; 144; 144; 144; 144; 144; 144; 144;
   144; 144; 144; 144; 144; 144; 144; 144; 144; 144; 144; 144;
   144; 144; 144; 144; 144; 144; 144; 144; 144; 144; 144; 144;
   144; 144; 144; 144; 144; 144; 144; 144; 144; 144; 144; 144;
   144; 144; 144; 144; 144; 144; 144; 144; 144; 144; 80; 80;
   80; 80; 80; 80; 80; 80; 80; 80; 80; 80; 80; 80;
   80; 80; 80; 80; 80; 80; 80; 80; 80; 80; 80; 80;
   80; 80; 80; 80; 80; 80; 80; 80; 80; 80; 80; 80;
   80; 80; 80; 80; 80; 80; 80; 80; 80; 80; 80; 80;
   80; 80; 80; 80; 80; 80; 80; 80; 80; 80; 80; 80;
   80; 80; 80; 80; 80; 80; 80; 80; 80; 80; 80; 80;
   80; 80; 80; 80; 80; 80; 80; 80; 80; 80; 80; 80;
   80; 80; 80; 80; 80; 80; 80; 80; 80; 80; 80; 80;
   80; 80; 80; 80; 80; 80; 80; 80; 80; 80; 80; 80;
   80; 80; 80; 80; 80; 80; 80; 80; 80; 80; 80; 80;
   80; 80; 80; 80; 80; 80; 80; 80; 80; 80; 80; 80;
   80; 80; 80; 80; 80; 80; 80; 80; 80; 80; 80; 80;
   80; 80; 80; 80; 80; 80; 80; 80; 80; 80; 80; 80;
   80; 80; 80; 80; 80; 80; 80; 80; 80; 80; 80; 80;
   80; 80; 80; 80; 80; 80; 80; 80; 80; 80; 80; 80;
   80; 80; 80; 80; 80; 80; 80; 80; 80; 80; 80; 80;
   80; 80; 80; 80; 80; 80; 80; 80; 80; 80; 80; 80;
   80; 80; 80; 80; 80; 80; 80; 80; 80; 80; 80; 80;
   80; 80; 80; 80; 80; 80; 80; 80; 80; 80; 80; 80;
   80; 80; 80; 80; 80; 80; 80; 80; 80; 80; 80; 80;
   80; 80; 80; 80; 80; 80; 80; 80; 80; 80; 80; 80;
   80; 80; 208; 208; 208; 208; 208; 208; 208; 208; 208; 208;
   208; 208; 208; 208; 208; 208; 208; 208; 208; 208; 208; 208;
   208; 208; 208; 208; 208; 208; 208; 208; 208; 208; 208; 208;
   208; 208; 208; 208; 208; 208; 208; 208; 208; 208; 208; 208;
   208; 208; 208; 208; 208; 208; 208; 208; 208; 208; 208; 208;
   208; 208; 208; 208; 208; 208; 208; 208; 208; 208; 208; 208;
   208; 208; 208; 208; 208; 208; 208; 208; 208; 208; 208; 208;
   208; 208; 208; 208; 208; 208; 208; 208; 208; 208; 208; 208;
   208; 208; 208; 208; 208; 208; 208; 208; 208; 208; 208; 208;
   208; 208; 208; 208; 208; 208; 208; 208; 208; 208; 208; 208;
   208; 208; 208; 208; 208; 208; 208; 208; 208; 208; 208; 208;
   208; 208; 208; 208; 208; 208; 208; 208; 208; 208; 208; 208;
   208; 208; 208; 208; 208; 208; 208; 208; 208; 208; 208; 208;
   208; 208; 208; 208; 208; 208; 208; 208; 208; 208; 208; 208;
   208; 208; 208; 208; 208; 208; 208; 208; 208; 208; 208; 208;
   208; 208; 208; 208; 208; 208; 208; 208; 208; 208; 208; 208;
   208; 208; 208; 208; 208; 208; 208; 208; 208; 208; 208; 208;
   208; 208; 208; 208; 208; 208; 208; 208; 208; 208; 208; 208;
   208; 208; 208; 208; 208; 208; 208; 208; 208; 208; 208; 208;
   208; 208; 208; 208; 208; 208; 208; 208; 208; 208; 208; 208;
   208; 208; 208; 208; 208; 208; 208; 208; 208; 208; 208; 208;
   208; 208; 208; 208; 208; 208; 48; 48; 48; 48; 48; 48;
   48; 48; 48; 48; 48; 48; 48; 48; 48; 48; 48; 48;
   48; 48; 48; 48; 48; 48; 48; 48; 48; 48; 48; 48;
   48; 48; 48; 48; 48; 48; 48; 48; 48; 48; 48; 48;
   48; 48; 48; 48; 48; 48; 48; 48; 48; 48; 48; 48;
   48; 48; 48; 48; 48; 48; 48; 48; 48; 48; 48; 48;
   48; 48; 48; 48; 48; 48; 48; 48; 48; 48; 48; 48;
   48; 48; 48; 48; 48; 48; 48; 48; 48; 48; 48; 48;
   48; 48; 48; 48; 48; 48; 48; 48; 48; 48; 48; 48;
   48; 48; 48; 48; 48; 48; 48; 48; 48; 48; 48; 48;
   48; 48; 48; 48; 48; 48; 48; 48; 48; 48; 48; 48;
   48; 48; 48; 48; 48; 48; 48; 48; 48; 48; 48; 48;
   48; 48; 48; 48; 48; 48; 48; 48; 48; 48; 48; 48;
   48; 48; 48; 48; 48; 48; 48; 48; 48; 48; 48; 48;
   48; 48; 48; 48; 48; 48; 48; 48; 48; 48; 48; 48;
   48; 48; 48; 48; 48; 48; 48; 48; 48; 48; 48; 48;
   48; 48; 48; 48; 48; 48; 48; 48; 48; 48; 48; 48;
   48; 48; 48; 48; 48; 48; 48; 48; 48; 48; 48; 48].

Definition signed_to_ulaw_7 : list Z :=
  [48; 48; 48; 48; 48; 48; 48; 48; 48; 48; 48; 48;
   48; 48; 48; 48; 48; 48; 48; 48; 48; 48; 48; 48;
   48; 48; 48; 48; 48; 48; 48; 48; 48; 48; 48; 48;
   48; 48; 48; 48; 48; 48; 48; 48; 48; 48; 176; 176;
   176; 176; 176; 176; 176; 176; 176; 176; 176; 176; 176; 176;
   176; 176; 176; 176; 176; 176; 176; 176; 176; 176; 176; 176;
   176; 176; 176; 176; 176; 176; 176; 176; 176; 176; 176; 176;
   176; 176; 176; 176; 176; 176; 176; 176; 176; 176; 176; 176;
   176; 176; 176; 176; 176; 176; 176; 176; 176; 176; 176; 176;
   176; 176; 176; 176; 176; 176; 176; 176; 176; 176; 176; 176;
   176; 176; 176; 176; 176; 176; 176; 176; 176; 176; 176; 176;
   176; 176; 176; 176; 176; 176; 176; 176; 176; 176; 176; 176;
   176; 176; 176; 176; 176; 176; 176; 176; 176; 176; 176; 176;
   176; 176; 176; 176; 176; 176; 176; 176; 176; 176; 176; 176;
   176; 176; 176; 176; 176; 176; 176; 176; 176; 176; 176; 176;
   176; 176; 176; 176; 176; 176; 176; 176; 176; 176; 176; 176;
   176; 176; 176; 176; 176; 176; 176; 176; 176; 176; 176; 176;
   176; 176; 176; 176; 176; 176; 176; 176; 176; 176; 176; 176;
   176; 176; 176; 176; 176; 176; 176; 176; 176; 176; 176; 176;
   176; 176; 176; 176; 176; 176; 176; 176; 176; 176; 176; 176;
   176; 176; 176; 176; 176; 176; 176; 176; 176; 176; 176; 176;
   176; 176; 176; 176; 176; 176; 176; 176; 176; 176; 176; 176;
   176; 176; 176; 176; 176; 176; 176; 176; 176; 176; 176; 176;
   176; 176; 176; 176; 176; 176; 176; 176; 176; 176; 176; 176;
   176; 176; 176; 176; 176; 176; 176; 176; 176; 176; 176; 176;
   176; 176; 112; 112; 112; 112; 112; 112; 112; 112; 112; 112;
   112; 112; 112; 112; 112; 112; 112; 112; 112; 112; 112; 112;
   112; 112; 112; 112; 112; 112; 112; 112; 112; 112; 112; 112;
   112; 112; 112; 112; 112; 112; 112; 112; 112; 112; 112; 112;
   112; 112; 112; 112; 112; 112; 112; 112; 112; 112; 112; 112;
   112; 112; 112; 112; 112; 112; 112; 112; 112; 112; 112; 112;
   112; 112; 112; 112; 112; 112; 112; 112; 112; 112; 112; 112;
   112; 112; 112; 112; 112; 112; 112; 112; 112; 112; 112; 112;
   112; 112; 112; 112; 112; 112; 112; 112; 112; 112; 112; 112;
   112; 112; 112; 112; 112; 112; 112; 112; 112; 112; 112; 112;
   112; 112; 112; 112; 112; 112; 112; 112; 112; 112; 112; 112;
   112; 112; 112; 112; 112; 112; 112; 112; 112; 112; 112; 112;
   112; 112; 112; 112; 112; 112; 112; 112; 112; 112; 112; 112;
   112; 112; 112; 112; 112; 112; 112; 112; 112; 112; 112; 112;
   112; 112; 112; 112; 112; 112; 112; 112; 112; 112; 112; 112;
   112; 112; 112; 112; 112; 112; 112; 112; 112; 112; 112; 112;
   112; 112; 112; 112; 112; 112; 112; 112; 112; 112; 112; 112;
   112; 112; 112; 112; 112; 112; 112; 112; 112; 112; 112; 112;
   112; 112; 112; 112; 112; 112; 112; 112; 112; 112; 112; 112;
   112; 112; 112; 112; 112; 112; 112; 112; 112; 112; 112; 112;
   112; 112; 112; 112; 112; 112; 112; 112; 112; 112; 112; 112;
   112; 112; 112; 112; 112; 112; 240; 240; 240; 240; 240; 240;
   240; 240; 240; 240; 240; 240; 240; 240; 240; 240; 240; 240;
   240; 240; 240; 240; 240; 240; 240; 240; 240; 240; 240; 240;
   240; 240; 240; 240; 240; 240; 240; 240; 240; 240; 240; 240;
   240; 240; 240; 240; 240; 240; 240; 240; 240; 240; 240; 240;
   240; 240; 240; 240; 240; 240; 240; 240; 240; 240; 240; 240;
   240; 240; 240; 240; 240; 240; 240; 240; 240; 240; 240; 240;
   240; 240; 240; 240; 240; 240; 240; 240; 240; 240; 240; 240;
   240; 240; 240; 240; 240; 240; 240; 240; 240; 240; 240; 240;
   240; 240; 240; 240; 240; 240; 240; 240; 240; 240; 240; 240;
   240; 240; 240; 240; 240; 240; 240; 240; 240; 240; 240; 240;
   240; 240; 240; 240; 240; 240; 240; 240; 240; 240; 240; 240;
   240; 240; 240; 240; 240; 240; 240; 240; 240; 240; 240; 240;
   240; 240; 240; 240; 240; 240; 240; 240; 240; 240; 240; 240;
   240; 240; 240; 240; 240; 240; 240; 240; 240; 240; 240; 240;
   240; 240; 240; 240; 240; 240; 240; 240; 240; 240; 240; 240;
   240; 240; 240; 240; 240; 240; 240; 240; 240; 240; 240; 240;
   240; 240; 240; 240; 240; 240; 240; 240; 240; 240; 240; 240;
   240; 240; 240; 240; 240; 240; 240; 240; 240; 240; 240; 240;
   240; 240; 240; 240; 240; 240; 240; 240; 240; 240; 240; 240;
   240; 240; 240; 240; 240; 240; 240; 240; 240; 240; 240; 240;
   240; 240; 240; 240; 240; 240; 240; 240; 240; 240; 8; 8;
   8; 8; 8; 8; 8; 8; 8; 8; 8; 8; 8; 8;
   8; 8; 8; 8; 8; 8; 8; 8; 8; 8; 8; 8;
   8; 8; 8; 8; 8; 8; 8; 8; 8; 8; 8; 8;
   8; 8; 8; 8; 8; 8; 8; 8; 8; 8; 8; 8;
   8; 8; 8; 8; 8; 8; 8; 8; 8; 8; 8; 8;
   8; 8; 8; 8; 8; 8; 8; 8; 8; 8; 8; 8;
   8; 8; 8; 8; 8; 8; 8; 8; 8; 8; 8; 8;
   8; 8; 8; 8; 8; 8; 8; 8; 8; 8; 8; 8;
   8; 8; 8; 8; 8; 8; 8; 8; 8; 8; 8; 8;
   8; 8; 8; 8; 8; 8; 8; 8; 8; 8; 8; 8;
   8; 8; 8; 8; 8; 8; 136; 136; 136; 136; 136; 136;
   136; 136; 136; 136; 136; 136; 136; 136; 136; 136; 136; 136;
   136; 136; 136; 136; 136; 136; 136; 136; 136; 136; 136; 136;
   136; 136; 136; 136; 136; 136; 136; 136; 136; 136; 136; 136;
   136; 136; 136; 136; 136; 136; 136; 136; 136; 136; 136; 136;
   136; 136; 136; 136; 136; 136; 136; 136; 136; 136; 136; 136;
   136; 136; 136; 136; 136; 136; 136; 136; 136; 136; 136; 136;
   136; 136; 136; 136; 136; 136; 136; 136; 136; 136; 136; 136;
   136; 136; 136; 136; 136; 136; 136; 136; 136; 136; 136; 136;
   136; 136; 136; 136; 136; 136; 136; 136; 136; 136; 136; 136;
   136; 136; 136; 136; 136; 136; 136; 136; 136; 136; 136; 136;
   136; 136; 72; 72; 72; 72; 72; 72; 72; 72; 72; 72;
   72; 72; 72; 72; 72; 72; 72; 72; 72; 72; 72; 72;
   72; 72; 72; 72; 72; 72; 72; 72; 72; 72; 72; 72;
   72; 72; 72; 72; 72; 72; 72; 72; 72; 72; 72; 72;
   72; 72; 72; 72; 72; 72; 72; 72; 72; 72; 72; 72;
   72; 72; 72; 72; 72; 72; 72; 72; 72; 72; 72; 72;
   72; 72; 72; 72; 72; 72; 72; 72; 72; 72; 72; 72;
   72; 72; 72; 72; 72; 72; 72; 72; 72; 72; 72; 72;
   72; 72; 72; 72; 72; 72; 72; 72; 72; 72; 72; 72;
   72; 72; 72; 72; 72; 72; 72; 72; 72; 72; 72; 72;
   72; 72; 72; 72; 72; 72; 72; 72; 72; 72; 200; 200;
   200; 200; 200; 200; 200; 200; 200; 200; 200; 200; 200; 200;
   200; 200; 200; 200; 200; 200; 200; 200; 200; 200; 200; 200;
   200; 200; 200; 200; 200; 200; 200; 200; 200; 200; 200; 200;
   200; 200; 200; 200; 200; 200; 200; 200; 200; 200; 200; 200;
   200; 200; 200; 200; 200; 200; 200; 200; 200; 200; 200; 200;
   200; 200; 200; 200; 200; 200; 200; 200; 200; 200; 200; 200;
   200; 200; 200; 200; 200; 200; 200; 200; 200; 200; 200; 200;
   200; 200; 200; 200; 200; 200; 200; 200; 200; 200; 200; 200;
   200; 200; 200; 200; 200; 200; 200; 200; 200; 200; 200; 200;
   200; 200; 200; 200; 200; 200; 200; 200; 200; 200; 200; 200;
   200; 200; 200; 200; 200; 200; 40; 40; 40; 40; 40; 40;
   40; 40; 40; 40; 40; 40; 40; 40; 40; 40; 40; 40;
   40; 40; 40; 40; 40; 40; 40; 40; 40; 40; 40; 40;
   40; 40; 40; 40; 40; 40; 40; 40; 40; 40; 40; 40;
   40; 40; 40; 40; 40; 40; 40; 40; 40; 40; 40; 40;
   40; 40; 40; 40; 40; 40; 40; 40; 40; 40; 40; 40;
   40; 40; 40; 40; 40; 40; 40; 40; 40; 40; 40; 40;
   40; 40; 40; 40; 40; 40; 40; 40; 40; 40; 40; 40;
   40; 40; 40; 40; 40; 40; 40; 40; 40; 40; 40; 40;
   40; 40; 40; 40; 40; 40; 40; 40; 40; 40; 40; 40;
   40; 40; 40; 40; 40; 40; 40; 40; 40; 40; 40; 40;
   40; 40; 168; 168; 168; 168; 168; 168; 168; 168; 168; 168;
   168; 168; 168; 168; 168; 168; 168; 168; 168; 168; 168; 168;
   168; 168; 168; 168; 168; 168; 168; 168; 168; 168; 168; 168;
   168; 168; 168; 168; 168; 168; 168; 168; 168; 168; 168; 168;
   168; 168; 168; 168; 168; 168; 168; 168; 168; 168; 168; 168;
   168; 168; 168; 168; 168; 168; 168; 168; 168; 168; 168; 168;
   168; 168; 168; 168; 168; 168; 168; 168; 168; 168; 168; 168;
   168; 168; 168; 168; 168; 168; 168; 168; 168; 168; 168; 168;
   168; 168; 168; 168; 168; 168; 168; 168; 168; 168; 168; 168;
   168; 168; 168; 168; 168; 168; 168; 168; 168; 168; 168; 168;
   168; 168; 168; 168; 168; 168; 168; 168; 168; 168; 104; 104;
   104; 104; 104; 104; 104; 104; 104; 104; 104; 104; 104; 104;
   104; 104; 104; 104; 104; 104; 104; 104; 104; 104; 104; 104;
   104; 104; 104; 104; 104; 104; 104; 104; 104; 104; 104; 104;
   104; 104; 104; 104; 104; 104; 104; 104; 104; 104; 104; 104;
   104; 104; 104; 104; 104; 104; 104; 104; 104; 104; 104; 104].

Definition signed_to_ulaw_8 : list Z :=
  [104; 104; 104; 104; 104; 104; 104; 104; 104; 104; 104; 104;
   104; 104; 104; 104; 104; 104; 104; 104; 104; 104; 104; 104;
   104; 104; 104; 104; 104; 104; 104; 104; 104; 104; 104; 104;
   104; 104; 104; 104; 104; 104; 104; 104; 104; 104; 104; 104;
   104; 104; 104; 104; 104; 104; 104; 104; 104; 104; 104; 104;
   104; 104; 104; 104; 104; 104; 232; 232; 232; 232; 232; 232;
   232; 232; 232; 232; 232; 232; 232; 232; 232; 232; 232; 232;
   232; 232; 232; 232; 232; 232; 232; 232; 232; 232; 232; 232;
   232; 232; 232; 232; 232; 232; 232; 232; 232; 232; 232; 232;
   232; 232; 232; 232; 232; 232; 232; 232; 232; 232; 232; 232;
   232; 232; 232; 232; 232; 232; 232; 232; 232; 232; 232; 232;
   232; 232; 232; 232; 232; 232; 232; 232; 232; 232; 232; 232;
   232; 232; 232; 232; 232; 232; 232; 232; 232; 232; 232; 232;
   232; 232; 232; 232; 232; 232; 232; 232; 232; 232; 232; 232;
   232; 232; 232; 232; 232; 232; 232; 232; 232; 232; 232; 232;
   232; 232; 232; 232; 232; 232; 232; 232; 232; 232; 232; 232;
   232; 232; 24; 24; 24; 24; 24; 24; 24; 24; 24; 24;
   24; 24; 24; 24; 24; 24; 24; 24; 24; 24; 24; 24;
   24; 24; 24; 24; 24; 24; 24; 24; 24; 24; 24; 24;
   24; 24; 24; 24; 24; 24; 24; 24; 24; 24; 24; 24;
   24; 24; 24; 24; 24; 24; 24; 24; 24; 24; 24; 24;
   24; 24; 24; 24; 24; 24; 24; 24; 24; 24; 24; 24;
   24; 24; 24; 24; 24; 24; 24; 24; 24; 24; 24; 24;
   24; 24; 24; 24; 24; 24; 24; 24; 24; 24; 24; 24;
   24; 24; 24; 24; 24; 24; 24; 24; 24; 24; 24; 24;
   24; 24; 24; 24; 24; 24; 24; 24; 24; 24; 24; 24;
   24; 24; 24; 24; 24; 24; 24; 24; 24; 24; 152; 152;
   152; 152; 152; 152; 152; 152; 152; 152; 152; 152; 152; 152;
   152; 152; 152; 152; 152; 152; 152; 152; 152; 152; 152; 152;
   152; 152; 152; 152; 152; 152; 152; 152; 152; 152; 152; 152;
   152; 152; 152; 152; 152; 152; 152; 152; 152; 152; 152; 152;
   152; 152; 152; 152; 152; 152; 152; 152; 152; 152; 152; 152;
   152; 152; 152; 152; 152; 152; 152; 152; 152; 152; 152; 152;
   152; 152; 152; 152; 152; 152; 152; 152; 152; 152; 152; 152;
   152; 152; 152; 152; 152; 152; 152; 152; 152; 152; 152; 152;
   152; 152; 152; 152; 152; 152; 152; 152; 152; 152; 152; 152;
   152; 152; 152; 152; 152; 152; 152; 152; 152; 152; 152; 152;
   152; 152; 152; 152; 152; 152; 88; 88; 88; 88; 88; 88;
   88; 88; 88; 88; 88; 88; 88; 88; 88; 88; 88; 88;
   88; 88; 88; 88; 88; 88; 88; 88; 88; 88; 88; 88;
   88; 88; 88; 88; 88; 88; 88; 88; 88; 88; 88; 88;
   88; 88; 88; 88; 88; 88; 88; 88; 88; 88; 88; 88;
   88; 88; 88; 88; 88; 88; 88; 88; 88; 88; 88; 88;
   88; 88; 88; 88; 88; 88; 88; 88; 88; 88; 88; 88;
   88; 88; 88; 88; 88; 88; 88; 88; 88; 88; 88; 88;
   88; 88; 88; 88; 88; 88; 88; 88; 88; 88; 88; 88;
   88; 88; 88; 88; 88; 88; 88; 88; 88; 88; 88; 88;
   88; 88; 88; 88; 88; 88; 88; 88; 88; 88; 88; 88;
   88; 88; 216; 216; 216; 216; 216; 216; 216; 216; 216; 216;
   216; 216; 216; 216; 216; 216; 216; 216; 216; 216; 216; 216;
   216; 216; 216; 216; 216; 216; 216; 216; 216; 216; 216; 216;
   216; 216; 216; 216; 216; 216; 216; 216; 216; 216; 216; 216;
   216; 216; 216; 216; 216; 216; 216; 216; 216; 216; 216; 216;
   216; 216; 216; 216; 216; 216; 216; 216; 216; 216; 216; 216;
   216; 216; 216; 216; 216; 216; 216; 216; 216; 216; 216; 216;
   216; 216; 216; 216; 216; 216; 216; 216; 216; 216; 216; 216;
   216; 216; 216; 216; 216; 216; 216; 216; 216; 216; 216; 216;
   216; 216; 216; 216; 216; 216; 216; 216; 216; 216; 216; 216;
   216; 216; 216; 216; 216; 216; 216; 216; 216; 216; 56; 56;
   56; 56; 56; 56; 56; 56; 56; 56; 56; 56; 56; 56;
   56; 56; 56; 56; 56; 56; 56; 56; 56; 56; 56; 56;
   56; 56; 56; 56; 56; 56; 56; 56; 56; 56; 56; 56;
   56; 56; 56; 56; 56; 56; 56; 56; 56; 56; 56; 56;
   56; 56; 56; 56; 56; 56; 56; 56; 56; 56; 56; 56;
   56; 56; 56; 56; 56; 56; 56; 56; 56; 56; 56; 56;
   56; 56; 56; 56; 56; 56; 56; 56; 56; 56; 56; 56;
   56; 56; 56; 56; 56; 56; 56; 56; 56; 56; 56; 56;
   56; 56; 56; 56; 56; 56; 56; 56; 56; 56; 56; 56;
   56; 56; 56; 56; 56; 56; 56; 56; 56; 56; 56; 56;
   56; 56; 56; 56; 56; 56; 184; 184; 184; 184; 184; 184;
   184; 184; 184; 184; 184; 184; 184; 184; 184; 184; 184; 184;
   184; 184; 184; 184; 184; 184; 184; 184; 184; 184; 184; 184;
   184; 184; 184; 184; 184; 184; 184; 184; 184; 184; 184; 184;
   184; 184; 184; 184; 184; 184; 184; 184; 184; 184; 184; 184;
   184; 184; 184; 184; 184; 184; 184; 184; 184; 184; 184; 184;
   184; 184; 184; 184; 184; 184; 184; 184; 184; 184; 184; 184;
   184; 184; 184; 184; 184; 184; 184; 184; 184; 184; 184; 184;
   184; 184; 184; 184; 184; 184; 184; 184; 184; 184; 184; 184;
   184; 184; 184; 184; 184; 184; 184; 184; 184; 184; 184; 184;
   184; 184; 184; 184; 184; 184; 184; 184; 184; 184; 184; 184;
   184; 184; 120; 120; 120; 120; 120; 120; 120; 120; 120; 120;
   120; 120; 120; 120; 120; 120; 120; 120; 120; 120; 120; 120;
   120; 120; 120; 120; 120; 120; 120; 120; 120; 120; 120; 120;
   120; 120; 120; 120; 120; 120; 120; 120; 120; 120; 120; 120;
   120; 120; 120; 120; 120; 120; 120; 120; 120; 120; 120; 120;
   120; 120; 120; 120; 120; 120; 120; 120; 120; 120; 120; 120;
   120; 120; 120; 120; 120; 120; 120; 120; 120; 120; 120; 120;
   120; 120; 120; 120; 120; 120; 120; 120; 120; 120; 120; 120;
   120; 120; 120; 120; 120; 120; 120; 120; 120; 120; 120; 120;
   120; 120; 120; 120; 120; 120; 120; 120; 120; 120; 120; 120;
   120; 120; 120; 120; 120; 120; 120; 120; 120; 120; 248; 248;
   248; 248; 248; 248; 248; 248; 248; 248; 248; 248; 248; 248;
   248; 248; 248; 248; 248; 248; 248; 248; 248; 248; 248; 248;
   248; 248; 248; 248; 248; 248; 248; 248; 248; 248; 248; 248;
   248; 248; 248; 248; 248; 248; 248; 248; 248; 248; 248; 248;
   248; 248; 248; 248; 248; 248; 248; 248; 248; 248; 248; 248;
   248; 248; 248; 248; 248; 248; 248; 248; 248; 248; 248; 248;
   248; 248; 248; 248; 248; 248; 248; 248; 248; 248; 248; 248;
   248; 248; 248; 248; 248; 248; 248; 248; 248; 248; 248; 248;
   248; 248; 248; 248; 248; 248; 248; 248; 248; 248; 248; 248;
   248; 248; 248; 248; 248; 248; 248; 248; 248; 248; 248; 248;
   248; 248; 248; 248; 248; 248; 4; 4; 4; 4; 4; 4;
   4; 4; 4; 4; 4; 4; 4; 4; 4; 4; 4; 4;
   4; 4; 4; 4; 4; 4; 4; 4; 4; 4; 4; 4;
   4; 4; 4; 4; 4; 4; 4; 4; 4; 4; 4; 4;
   4; 4; 4; 4; 4; 4; 4; 4; 4; 4; 4; 4;
   4; 4; 4; 4; 4; 4; 4; 4; 4; 4; 132; 132;
   132; 132; 132; 132; 132; 132; 132; 132; 132; 132; 132; 132;
   132; 132; 132; 132; 132; 132; 132; 132; 132; 132; 132; 132;
   132; 132; 132; 132; 132; 132; 132; 132; 132; 132; 132; 132;
   132; 132; 132; 132; 132; 132; 132; 132; 132; 132; 132; 132;
   132; 132; 132; 132; 132; 132; 132; 132; 132; 132; 132; 132;
   132; 132; 68; 68; 68; 68; 68; 68; 68; 68; 68; 68;
   68; 68; 68; 68; 68; 68; 68; 68; 68; 68; 68; 68;
   68; 68; 68; 68; 68; 68; 68; 68; 68; 68; 68; 68;
   68; 68; 68; 68; 68; 68; 68; 68; 68; 68; 68; 68;
   68; 68; 68; 68; 68; 68; 68; 68; 68; 68; 68; 68;
   68; 68; 68; 68; 68; 68; 196; 196; 196; 196; 196; 196;
   196; 196; 196; 196; 196; 196; 196; 196; 196; 196; 196; 196;
   196; 196; 196; 196; 196; 196; 196; 196; 196; 196; 196; 196;
   196; 196; 196; 196; 196; 196; 196; 196; 196; 196; 196; 196;
   196; 196; 196; 196; 196; 196; 196; 196; 196; 196; 196; 196;
   196; 196; 196; 196; 196; 196; 196; 196; 196; 196; 36; 36;
   36; 36; 36; 36; 36; 36; 36; 36; 36; 36; 36; 36;
   36; 36; 36; 36; 36; 36; 36; 36; 36; 36; 36; 36;
   36; 36; 36; 36; 36; 36; 36; 36; 36; 36; 36; 36;
   36; 36; 36; 36; 36; 36; 36; 36; 36; 36; 36; 36;
   36; 36; 36; 36; 36; 36; 36; 36; 36; 36; 36; 36;
   36; 36; 164; 164; 164; 164; 164; 164; 164; 164; 164; 164;
   164; 164; 164; 164; 164; 164; 164; 164; 164; 164; 164; 164;
   164; 164; 164; 164; 164; 164; 164; 164; 164; 164; 164; 164;
   164; 164; 164; 164; 164; 164; 164; 164; 164; 164; 164; 164;
   164; 164; 164; 164; 164; 164; 164; 164; 164; 164; 164; 164;
   164; 164; 164; 164; 164; 164; 100; 100; 100; 100; 100; 100;
   100; 100; 100; 100; 100; 100; 100; 100; 100; 100; 100; 100;
   100; 100; 100; 100; 100; 100; 100; 100; 100; 100; 100; 100;
   100; 100; 100; 100; 100; 100; 100; 100; 100; 100; 100; 100].

Definition signed_to_ulaw_9 : list Z :=
  [100; 100; 100; 100; 100; 100; 100; 100; 100; 100; 100; 100;
   100; 100; 100; 100; 100; 100; 100; 100; 100; 100; 228; 228;
   228; 228; 228; 228; 228; 228; 228; 228; 228; 228; 228; 228;
   228; 228; 228; 228; 228; 228; 228; 228; 228; 228; 228; 228;
   228; 228; 228; 228; 228; 228; 228; 228; 228; 228; 228; 228;
   228; 228; 228; 228; 228; 228; 228; 228; 228; 228; 228; 228;
   228; 228; 228; 228; 228; 228; 228; 228; 228; 228; 228; 228;
   228; 228; 20; 20; 20; 20; 20; 20; 20; 20; 20; 20;
   20; 20; 20; 20; 20; 20; 20; 20; 20; 20; 20; 20;
   20; 20; 20; 20; 20; 20; 20; 20; 20; 20; 20; 20;
   20; 20; 20; 20; 20; 20; 20; 20; 20; 20; 20; 20;
   20; 20; 20; 20; 20; 20; 20; 20; 20; 20; 20; 20;
   20; 20; 20; 20; 20; 20; 148; 148; 148; 148; 148; 148;
   148; 148; 148; 148; 148; 148; 148; 148; 148; 148; 148; 148;
   148; 148; 148; 148; 148; 148; 148; 148; 148; 148; 148; 148;
   148; 148; 148; 148; 148; 148; 148; 148; 148; 148; 148; 148;
   148; 148; 148; 148; 148; 148; 148; 148; 148; 148; 148; 148;
   148; 148; 148; 148; 148; 148; 148; 148; 148; 148; 84; 84;
   84; 84; 84; 84; 84; 84; 84; 84; 84; 84; 84; 84;
   84; 84; 84; 84; 84; 84; 84; 84; 84; 84; 84; 84;
   84; 84; 84; 84; 84; 84; 84; 84; 84; 84; 84; 84;
   84; 84; 84; 84; 84; 84; 84; 84; 84; 84; 84; 84;
   84; 84; 84; 84; 84; 84; 84; 84; 84; 84; 84; 84;
   84; 84; 212; 212; 212; 212; 212; 212; 212; 212; 212; 212;
   212; 212; 212; 212; 212; 212; 212; 212; 212; 212; 212; 212;
   212; 212; 212; 212; 212; 212; 212; 212; 212; 212; 212; 212;
   212; 212; 212; 212; 212; 212; 212; 212; 212; 212; 212; 212;
   212; 212; 212; 212; 212; 212; 212; 212; 212; 212; 212; 212;
   212; 212; 212; 212; 212; 212; 52; 52; 52; 52; 52; 52;
   52; 52; 52; 52; 52; 52; 52; 52; 52; 52; 52; 52;
   52; 52; 52; 52; 52; 52; 52; 52; 52; 52; 52; 52;
   52; 52; 52; 52; 52; 52; 52; 52; 52; 52; 52; 52;
   52; 52; 52; 52; 52; 52; 52; 52; 52; 52; 52; 52;
   52; 52; 52; 52; 52; 52; 52; 52; 52; 52; 180; 180;
   180; 180; 180; 180; 180; 180; 180; 180; 180; 180; 180; 180;
   180; 180; 180; 180; 180; 180; 180; 180; 180; 180; 180; 180;
   180; 180; 180; 180; 180; 180; 180; 180; 180; 180; 180; 180;
   180; 180; 180; 180; 180; 180; 180; 180; 180; 180; 180; 180;
   180; 180; 180; 180; 180; 180; 180; 180; 180; 180; 180; 180;
   180; 180; 116; 116; 116; 116; 116; 116; 116; 116; 116; 116;
   116; 116; 116; 116; 116; 116; 116; 116; 116; 116; 116; 116;
   116; 116; 116; 116; 116; 116; 116; 116; 116; 116; 116; 116;
   116; 116; 116; 116; 116; 116; 116; 116; 116; 116; 116; 116;
   116; 116; 116; 116; 116; 116; 116; 116; 116; 116; 116; 116;
   116; 116; 116; 116; 116; 116; 244; 244; 244; 244; 244; 244;
   244; 244; 244; 244; 244; 244; 244; 244; 244; 244; 244; 244;
   244; 244; 244; 244; 244; 244; 244; 244; 244; 244; 244; 244;
   244; 244; 244; 244; 244; 244; 244; 244; 244; 244; 244; 244;
   244; 244; 244; 244; 244; 244; 244; 244; 244; 244; 244; 244;
   244; 244; 244; 244; 244; 244; 244; 244; 244; 244; 12; 12;
   12; 12; 12; 12; 12; 12; 12; 12; 12; 12; 12; 12;
   12; 12; 12; 12; 12; 12; 12; 12; 12; 12; 12; 12;
   12; 12; 12; 12; 12; 12; 140; 140; 140; 140; 140; 140;
   140; 140; 140; 140; 140; 140; 140; 140; 140; 140; 140; 140;
   140; 140; 140; 140; 140; 140; 140; 140; 140; 140; 140; 140;
   140; 140; 76; 76; 76; 76; 76; 76; 76; 76; 76; 76;
   76; 76; 76; 76; 76; 76; 76; 76; 76; 76; 76; 76;
   76; 76; 76; 76; 76; 76; 76; 76; 76; 76; 204; 204;
   204; 204; 204; 204; 204; 204; 204; 204; 204; 204; 204; 204;
   204; 204; 204; 204; 204; 204; 204; 204; 204; 204; 204; 204;
   204; 204; 204; 204; 204; 204; 44; 44; 44; 44; 44; 44;
   44; 44; 44; 44; 44; 44; 44; 44; 44; 44; 44; 44;
   44; 44; 44; 44; 44; 44; 44; 44; 44; 44; 44; 44;
   44; 44; 172; 172; 172; 172; 172; 172; 172; 172; 172; 172;
   172; 172; 172; 172; 172; 172; 172; 172; 172; 172; 172; 172;
   172; 172; 172; 172; 172; 172; 172; 172; 172; 172; 108; 108;
   108; 108; 108; 108; 108; 108; 108; 108; 108; 108; 108; 108;
   108; 108; 108; 108; 108; 108; 108; 108; 108; 108; 108; 108;
   108; 108; 108; 108; 108; 108; 236; 236; 236; 236; 236; 236;
   236; 236; 236; 236; 236; 236; 236; 236; 236; 236; 236; 236;
   236; 236; 236; 236; 236; 236; 236; 236; 236; 236; 236; 236;
   236; 236; 28; 28; 28; 28; 28; 28; 28; 28; 28; 28;
   28; 28; 28; 28; 28; 28; 28; 28; 28; 28; 28; 28;
   28; 28; 28; 28; 28; 28; 28; 28; 28; 28; 156; 156;
   156; 156; 156; 156; 156; 156; 156; 156; 156; 156; 156; 156;
   156; 156; 156; 156; 156; 156; 156; 156; 156; 156; 156; 156;
   156; 156; 156; 156; 156; 156; 92; 92; 92; 92; 92; 92;
   92; 92; 92; 92; 92; 92; 92; 92; 92; 92; 92; 92;
   92; 92; 92; 92; 92; 92; 92; 92; 92; 92; 92; 92;
   92; 92; 220; 220; 220; 220; 220; 220; 220; 220; 220; 220;
   220; 220; 220; 220; 220; 220; 220; 220; 220; 220; 220; 220;
   220; 220; 220; 220; 220; 220; 220; 220; 220; 220; 60; 60;
   60; 60; 60; 60; 60; 60; 60; 60; 60; 60; 60; 60;
   60; 60; 60; 60; 60; 60; 60; 60; 60; 60; 60; 60;
   60; 60; 60; 60; 60; 60; 188; 188; 188; 188; 188; 188;
   188; 188; 188; 188; 188; 188; 188; 188; 188; 188; 188; 188;
   188; 188; 188; 188; 188; 188; 188; 188; 188; 188; 188; 188;
   188; 188; 124; 124; 124; 124; 124; 124; 124; 124; 124; 124;
   124; 124; 124; 124; 124; 124; 124; 124; 124; 124; 124; 124;
   124; 124; 124; 124; 124; 124; 124; 124; 124; 124; 252; 252;
   252; 252; 252; 252; 252; 252; 252; 252; 252; 252; 252; 252;
   252; 252; 252; 252; 252; 252; 252; 252; 252; 252; 252; 252;
   252; 252; 252; 252; 252; 252; 2; 2; 2; 2; 2; 2;
   2; 2; 2; 2; 2; 2; 2; 2; 2; 2; 130; 130;
   130; 130; 130; 130; 130; 130; 130; 130; 130; 130; 130; 130;
   130; 130; 66; 66; 66; 66; 66; 66; 66; 66; 66; 66;
   66; 66; 66; 66; 66; 66; 194; 194; 194; 194; 194; 194;
   194; 194; 194; 194; 194; 194; 194; 194; 194; 194; 34; 34;
   34; 34; 34; 34; 34; 34; 34; 34; 34; 34; 34; 34;
   34; 34; 162; 162; 162; 162; 162; 162; 162; 162; 162; 162;
   162; 162; 162; 162; 162; 162; 98; 98; 98; 98; 98; 98;
   98; 98; 98; 98; 98; 98; 98; 98; 98; 98; 226; 226;
   226; 226; 226; 226; 226; 226; 226; 226; 226; 226; 226; 226;
   226; 226; 18; 18; 18; 18; 18; 18; 18; 18; 18; 18;
   18; 18; 18; 18; 18; 18; 146; 146; 146; 146; 146; 146;
   146; 146; 146; 146; 146; 146; 146; 146; 146; 146; 82; 82;
   82; 82; 82; 82; 82; 82; 82; 82; 82; 82; 82; 82;
   82; 82; 210; 210; 210; 210; 210; 210; 210; 210; 210; 210;
   210; 210; 210; 210; 210; 210; 50; 50; 50; 50; 50; 50;
   50; 50; 50; 50; 50; 50; 50; 50; 50; 50; 178; 178;
   178; 178; 178; 178; 178; 178; 178; 178; 178; 178; 178; 178;
   178; 178; 114; 114; 114; 114; 114; 114; 114; 114; 114; 114;
   114; 114; 114; 114; 114; 114; 242; 242; 242; 242; 242; 242;
   242; 242; 242; 242; 242; 242; 242; 242; 242; 242; 10; 10;
   10; 10; 10; 10; 10; 10; 138; 138; 138; 138; 138; 138;
   138; 138; 74; 74; 74; 74; 74; 74; 74; 74; 202; 202;
   202; 202; 202; 202; 202; 202; 42; 42; 42; 42; 42; 42;
   42; 42; 170; 170; 170; 170; 170; 170; 170; 170; 106; 106;
   106; 106; 106; 106; 106; 106; 234; 234; 234; 234; 234; 234;
   234; 234; 26; 26; 26; 26; 26; 26; 26; 26; 154; 154;
   154; 154; 154; 154; 154; 154; 90; 90; 90; 90; 90; 90;
   90; 90; 218; 218; 218; 218; 218; 218; 218; 218; 58; 58;
   58; 58; 58; 58; 58; 58; 186; 186; 186; 186; 186; 186;
   186; 186; 122; 122; 122; 122; 122; 122; 122; 122; 250; 250;
   250; 250; 250; 250; 250; 250; 6; 6; 6; 6; 134; 134;
   134; 134; 70; 70; 70; 70; 198; 198; 198; 198; 38; 38;
   38; 38; 166; 166; 166; 166; 102; 102; 102; 102; 230; 230;
   230; 230; 22; 22; 22; 22; 150; 150; 150; 150; 86; 86;
   86; 86; 214; 214; 214; 214; 54; 54; 54; 54; 182; 182;
   182; 182; 118; 118; 118; 118; 246; 246; 246; 246; 14; 14;
   142; 142; 78; 78; 206; 206; 46; 46; 174; 174; 110; 110;
   238; 238; 30; 30; 158; 158; 94; 94; 222; 222; 62; 62;
   190; 190; 126; 126].

Definition signed_to_ulaw : list Z :=
  signed_to_ulaw_0 ++
  signed_to_ulaw_1 ++
  signed_to_ulaw_2 ++
  signed_to_ulaw_3 ++
  signed_to_ulaw_4 ++
  signed_to_ulaw_5 ++
  signed_to_ulaw_6 ++
  signed_to_ulaw_7 ++
  signed_to_ulaw_8 ++
  signed_to_ulaw_9.

(** [__i4b_signed_to_alaw], in five pieces *)

Definition signed_to_alaw_0 : list Z :=
  [171; 171; 43; 43; 235; 235; 107; 107; 139; 139; 11; 11;
   203; 203; 75; 75; 187; 187; 59; 59; 251; 251; 123; 123;
   155; 155; 27; 27; 219; 219; 91; 91; 163; 163; 35; 35;
   227; 227; 99; 99; 131; 131; 3; 3; 195; 195; 67; 67;
   179; 179; 51; 51; 243; 243; 115; 115; 147; 147; 19; 19;
   211; 211; 83; 83; 175; 175; 175; 175; 47; 47; 47; 47;
   239; 239; 239; 239; 111; 111; 111; 111; 143; 143; 143; 143;
   15; 15; 15; 15; 207; 207; 207; 207; 79; 79; 79; 79;
   191; 191; 191; 191; 63; 63; 63; 63; 255; 255; 255; 255;
   127; 127; 127; 127; 159; 159; 159; 159; 31; 31; 31; 31;
   223; 223; 223; 223; 95; 95; 95; 95; 167; 167; 167; 167;
   167; 167; 167; 167; 39; 39; 39; 39; 39; 39; 39; 39;
   231; 231; 231; 231; 231; 231; 231; 231; 103; 103; 103; 103;
   103; 103; 103; 103; 135; 135; 135; 135; 135; 135; 135; 135;
   7; 7; 7; 7; 7; 7; 7; 7; 199; 199; 199; 199;
   199; 199; 199; 199; 71; 71; 71; 71; 71; 71; 71; 71;
   183; 183; 183; 183; 183; 183; 183; 183; 55; 55; 55; 55;
   55; 55; 55; 55; 247; 247; 247; 247; 247; 247; 247; 247;
   119; 119; 119; 119; 119; 119; 119; 119; 151; 151; 151; 151;
   151; 151; 151; 151; 23; 23; 23; 23; 23; 23; 23; 23;
   215; 215; 215; 215; 215; 215; 215; 215; 87; 87; 87; 87;
   87; 87; 87; 87; 169; 169; 169; 169; 169; 169; 169; 169;
   169; 169; 169; 169; 169; 169; 169; 169; 41; 41; 41; 41;
   41; 41; 41; 41; 41; 41; 41; 41; 41; 41; 41; 41;
   233; 233; 233; 233; 233; 233; 233; 233; 233; 233; 233; 233;
   233; 233; 233; 233; 105; 105; 105; 105; 105; 105; 105; 105;
   105; 105; 105; 105; 105; 105; 105; 105; 137; 137; 137; 137;
   137; 137; 137; 137; 137; 137; 137; 137; 137; 137; 137; 137;
   9; 9; 9; 9; 9; 9; 9; 9; 9; 9; 9; 9;
   9; 9; 9; 9; 201; 201; 201; 201; 201; 201; 201; 201;
   201; 201; 201; 201; 201; 201; 201; 201; 73; 73; 73; 73;
   73; 73; 73; 73; 73; 73; 73; 73; 73; 73; 73; 73;
   185; 185; 185; 185; 185; 185; 185; 185; 185; 185; 185; 185;
   185; 185; 185; 185; 57; 57; 57; 57; 57; 57; 57; 57;
   57; 57; 57; 57; 57; 57; 57; 57; 249; 249; 249; 249;
   249; 249; 249; 249; 249; 249; 249; 249; 249; 249; 249; 249;
   121; 121; 121; 121; 121; 121; 121; 121; 121; 121; 121; 121;
   121; 121; 121; 121; 153; 153; 153; 153; 153; 153; 153; 153;
   153; 153; 153; 153; 153; 153; 153; 153; 25; 25; 25; 25;
   25; 25; 25; 25; 25; 25; 25; 25; 25; 25; 25; 25;
   217; 217; 217; 217; 217; 217; 217; 217; 217; 217; 217; 217;
   217; 217; 217; 217; 89; 89; 89; 89; 89; 89; 89; 89;
   89; 89; 89; 89; 89; 89; 89; 89; 161; 161; 161; 161;
   161; 161; 161; 161; 161; 161; 161; 161; 161; 161; 161; 161;
   161; 161; 161; 161; 161; 161; 161; 161; 161; 161; 161; 161;
   161; 161; 161; 161; 33; 33; 33; 33; 33; 33; 33; 33;
   33; 33; 33; 33; 33; 33; 33; 33; 33; 33; 33; 33;
   33; 33; 33; 33; 33; 33; 33; 33; 33; 33; 33; 33;
   225; 225; 225; 225; 225; 225; 225; 225; 225; 225; 225; 225;
   225; 225; 225; 225; 225; 225; 225; 225; 225; 225; 225; 225;
   225; 225; 225; 225; 225; 225; 225; 225; 97; 97; 97; 97;
   97; 97; 97; 97; 97; 97; 97; 97; 97; 97; 97; 97;
   97; 97; 97; 97; 97; 97; 97; 97; 97; 97; 97; 97;
   97; 97; 97; 97; 129; 129; 129; 129; 129; 129; 129; 129;
   129; 129; 129; 129; 129; 129; 129; 129; 129; 129; 129; 129;
   129; 129; 129; 129; 129; 129; 129; 129; 129; 129; 129; 129;
   1; 1; 1; 1; 1; 1; 1; 1; 1; 1; 1; 1;
   1; 1; 1; 1; 1; 1; 1; 1; 1; 1; 1; 1;
   1; 1; 1; 1; 1; 1; 1; 1; 193; 193; 193; 193;
   193; 193; 193; 193; 193; 193; 193; 193; 193; 193; 193; 193;
   193; 193; 193; 193; 193; 193; 193; 193; 193; 193; 193; 193;
   193; 193; 193; 193; 65; 65; 65; 65; 65; 65; 65; 65;
   65; 65; 65; 65; 65; 65; 65; 65; 65; 65; 65; 65;
   65; 65; 65; 65; 65; 65; 65; 65; 65; 65; 65; 65;
   177; 177; 177; 177; 177; 177; 177; 177; 177; 177; 177; 177;
   177; 177; 177; 177; 177; 177; 177; 177; 177; 177; 177; 177;
   177; 177; 177; 177; 177; 177; 177; 177; 49; 49; 49; 49;
   49; 49; 49; 49; 49; 49; 49; 49; 49; 49; 49; 49;
   49; 49; 49; 49; 49; 49; 49; 49; 49; 49; 49; 49;
   49; 49; 49; 49; 241; 241; 241; 241; 241; 241; 241; 241;
   241; 241; 241; 241; 241; 241; 241; 241; 241; 241; 241; 241;
   241; 241; 241; 241; 241; 241; 241; 241; 241; 241; 241; 241;
   113; 113; 113; 113; 113; 113; 113; 113; 113; 113; 113; 113;
   113; 113; 113; 113; 113; 113; 113; 113; 113; 113; 113; 113;
   113; 113; 113; 113; 113; 113; 113; 113; 145; 145; 145; 145;
   145; 145; 145; 145; 145; 145; 145; 145; 145; 145; 145; 145;
   145; 145; 145; 145; 145; 145; 145; 145; 145; 145; 145; 145;
   145; 145; 145; 145; 17; 17; 17; 17; 17; 17; 17; 17;
   17; 17; 17; 17; 17; 17; 17; 17; 17; 17; 17; 17;
   17; 17; 17; 17; 17; 17; 17; 17; 17; 17; 17; 17;
   209; 209; 209; 209; 209; 209; 209; 209; 209; 209; 209; 209;
   209; 209; 209; 209; 209; 209; 209; 209; 209; 209; 209; 209;
   209; 209; 209; 209; 209; 209; 209; 209; 81; 81; 81; 81;
   81; 81; 81; 81; 81; 81; 81; 81; 81; 81; 81; 81;
   81; 81; 81; 81; 81; 81; 81; 81; 81; 81; 81; 81;
   81; 81; 81; 81; 173; 173; 173; 173; 173; 173; 173; 173;
   173; 173; 173; 173; 173; 173; 173; 173; 173; 173; 173; 173;
   173; 173; 173; 173; 173; 173; 173; 173; 173; 173; 173; 173;
   173; 173; 173; 173; 173; 173; 173; 173; 173; 173; 173; 173;
   173; 173; 173; 173; 173; 173; 173; 173; 173; 173; 173; 173;
   173; 173; 173; 173; 173; 173; 173; 173; 45; 45; 45; 45;
   45; 45; 45; 45; 45; 45; 45; 45; 45; 45; 45; 45;
   45; 45; 45; 45; 45; 45; 45; 45; 45; 45; 45; 45;
   45; 45; 45; 45; 45; 45; 45; 45; 45; 45; 45; 45;
   45; 45; 45; 45; 45; 45; 45; 45; 45; 45; 45; 45;
   45; 45; 45; 45; 45; 45; 45; 45; 45; 45; 45; 45;
   237; 237; 237; 237; 237; 237; 237; 237; 237; 237; 237; 237;
   237; 237; 237; 237; 237; 237; 237; 237; 237; 237; 237; 237;
   237; 237; 237; 237; 237; 237; 237; 237; 237; 237; 237; 237;
   237; 237; 237; 237; 237; 237; 237; 237; 237; 237; 237; 237;
   237; 237; 237; 237; 237; 237; 237; 237; 237; 237; 237; 237;
   237; 237; 237; 237; 109; 109; 109; 109; 109; 109; 109; 109;
   109; 109; 109; 109; 109; 109; 109; 109; 109; 109; 109; 109;
   109; 109; 109; 109; 109; 109; 109; 109; 109; 109; 109; 109;
   109; 109; 109; 109; 109; 109; 109; 109; 109; 109; 109; 109;
   109; 109; 109; 109; 109; 109; 109; 109; 109; 109; 109; 109;
   109; 109; 109; 109; 109; 109; 109; 109; 141; 141; 141; 141;
   141; 141; 141; 141; 141; 141; 141; 141; 141; 141; 141; 141;
   141; 141; 141; 141; 141; 141; 141; 141; 141; 141; 141; 141;
   141; 141; 141; 141; 141; 141; 141; 141; 141; 141; 141; 141;
   141; 141; 141; 141; 141; 141; 141; 141; 141; 141; 141; 141;
   141; 141; 141; 141; 141; 141; 141; 141; 141; 141; 141; 141;
   13; 13; 13; 13; 13; 13; 13; 13; 13; 13; 13; 13;
   13; 13; 13; 13; 13; 13; 13; 13; 13; 13; 13; 13;
   13; 13; 13; 13; 13; 13; 13; 13; 13; 13; 13; 13;
   13; 13; 13; 13; 13; 13; 13; 13; 13; 13; 13; 13;
   13; 13; 13; 13; 13; 13; 13; 13; 13; 13; 13; 13;
   13; 13; 13; 13; 205; 205; 205; 205; 205; 205; 205; 205;
   205; 205; 205; 205; 205; 205; 205; 205; 205; 205; 205; 205;
   205; 205; 205; 205; 205; 205; 205; 205; 205; 205; 205; 205;
   205; 205; 205; 205; 205; 205; 205; 205; 205; 205; 205; 205;
   205; 205; 205; 205; 205; 205; 205; 205; 205; 205; 205; 205;
   205; 205; 205; 205; 205; 205; 205; 205; 77; 77; 77; 77;
   77; 77; 77; 77; 77; 77; 77; 77; 77; 77; 77; 77;
   77; 77; 77; 77; 77; 77; 77; 77; 77; 77; 77; 77;
   77; 77; 77; 77; 77; 77; 77; 77; 77; 77; 77; 77;
   77; 77; 77; 77; 77; 77; 77; 77; 77; 77; 77; 77;
   77; 77; 77; 77; 77; 77; 77; 77; 77; 77; 77; 77;
   189; 189; 189; 189; 189; 189; 189; 189; 189; 189; 189; 189;
   189; 189; 189; 189; 189; 189; 189; 189; 189; 189; 189; 189;
   189; 189; 189; 189; 189; 189; 189; 189; 189; 189; 189; 189;
   189; 189; 189; 189; 189; 189; 189; 189; 189; 189; 189; 189;
   189; 189; 189; 189; 189; 189; 189; 189; 189; 189; 189; 189;
   189; 189; 189; 189; 61; 61; 61; 61; 61; 61; 61; 61;
   61; 61; 61; 61; 61; 61; 61; 61; 61; 61; 61; 61;
   61; 61; 61; 61; 61; 61; 61; 61; 61; 61; 61; 61;
   61; 61; 61; 61; 61; 61; 61; 61; 61; 61; 61; 61].

Definition signed_to_alaw_1 : list Z :=
  [61; 61; 61; 61; 61; 61; 61; 61; 61; 61; 61; 61;
   61; 61; 61; 61; 61; 61; 61; 61; 253; 253; 253; 253;
   253; 253; 253; 253; 253; 253; 253; 253; 253; 253; 253; 253;
   253; 253; 253; 253; 253; 253; 253; 253; 253; 253; 253; 253;
   253; 253; 253; 253; 253; 253; 253; 253; 253; 253; 253; 253;
   253; 253; 253; 253; 253; 253; 253; 253; 253; 253; 253; 253;
   253; 253; 253; 253; 253; 253; 253; 253; 253; 253; 253; 253;
   125; 125; 125; 125; 125; 125; 125; 125; 125; 125; 125; 125;
   125; 125; 125; 125; 125; 125; 125; 125; 125; 125; 125; 125;
   125; 125; 125; 125; 125; 125; 125; 125; 125; 125; 125; 125;
   125; 125; 125; 125; 125; 125; 125; 125; 125; 125; 125; 125;
   125; 125; 125; 125; 125; 125; 125; 125; 125; 125; 125; 125;
   125; 125; 125; 125; 157; 157; 157; 157; 157; 157; 157; 157;
   157; 157; 157; 157; 157; 157; 157; 157; 157; 157; 157; 157;
   157; 157; 157; 157; 157; 157; 157; 157; 157; 157; 157; 157;
   157; 157; 157; 157; 157; 157; 157; 157; 157; 157; 157; 157;
   157; 157; 157; 157; 157; 157; 157; 157; 157; 157; 157; 157;
   157; 157; 157; 157; 157; 157; 157; 157; 29; 29; 29; 29;
   29; 29; 29; 29; 29; 29; 29; 29; 29; 29; 29; 29;
   29; 29; 29; 29; 29; 29; 29; 29; 29; 29; 29; 29;
   29; 29; 29; 29; 29; 29; 29; 29; 29; 29; 29; 29;
   29; 29; 29; 29; 29; 29; 29; 29; 29; 29; 29; 29;
   29; 29; 29; 29; 29; 29; 29; 29; 29; 29; 29; 29;
   221; 221; 221; 221; 221; 221; 221; 221; 221; 221; 221; 221;
   221; 221; 221; 221; 221; 221; 221; 221; 221; 221; 221; 221;
   221; 221; 221; 221; 221; 221; 221; 221; 221; 221; 221; 221;
   221; 221; 221; 221; 221; 221; 221; 221; 221; 221; 221; 221;
   221; 221; 221; 221; 221; 221; 221; 221; 221; 221; 221; 221;
   221; 221; 221; 221; 93; 93; 93; 93; 93; 93; 93; 93;
   93; 93; 93; 93; 93; 93; 93; 93; 93; 93; 93; 93;
   93; 93; 93; 93; 93; 93; 93; 93; 93; 93; 93; 93;
   93; 93; 93; 93; 93; 93; 93; 93; 93; 93; 93; 93;
   93; 93; 93; 93; 93; 93; 93; 93; 93; 93; 93; 93;
   93; 93; 93; 93; 93; 93; 93; 93; 165; 165; 165; 165;
   165; 165; 165; 165; 165; 165; 165; 165; 165; 165; 165; 165;
   165; 165; 165; 165; 165; 165; 165; 165; 165; 165; 165; 165;
   165; 165; 165; 165; 165; 165; 165; 165; 165; 165; 165; 165;
   165; 165; 165; 165; 165; 165; 165; 165; 165; 165; 165; 165;
   165; 165; 165; 165; 165; 165; 165; 165; 165; 165; 165; 165;
   165; 165; 165; 165; 165; 165; 165; 165; 165; 165; 165; 165;
   165; 165; 165; 165; 165; 165; 165; 165; 165; 165; 165; 165;
   165; 165; 165; 165; 165; 165; 165; 165; 165; 165; 165; 165;
   165; 165; 165; 165; 165; 165; 165; 165; 165; 165; 165; 165;
   165; 165; 165; 165; 165; 165; 165; 165; 165; 165; 165; 165;
   165; 165; 165; 165; 37; 37; 37; 37; 37; 37; 37; 37;
   37; 37; 37; 37; 37; 37; 37; 37; 37; 37; 37; 37;
   37; 37; 37; 37; 37; 37; 37; 37; 37; 37; 37; 37;
   37; 37; 37; 37; 37; 37; 37; 37; 37; 37; 37; 37;
   37; 37; 37; 37; 37; 37; 37; 37; 37; 37; 37; 37;
   37; 37; 37; 37; 37; 37; 37; 37; 37; 37; 37; 37;
   37; 37; 37; 37; 37; 37; 37; 37; 37; 37; 37; 37;
   37; 37; 37; 37; 37; 37; 37; 37; 37; 37; 37; 37;
   37; 37; 37; 37; 37; 37; 37; 37; 37; 37; 37; 37;
   37; 37; 37; 37; 37; 37; 37; 37; 37; 37; 37; 37;
   37; 37; 37; 37; 37; 37; 37; 37; 37; 37; 37; 37;
   229; 229; 229; 229; 229; 229; 229; 229; 229; 229; 229; 229;
   229; 229; 229; 229; 229; 229; 229; 229; 229; 229; 229; 229;
   229; 229; 229; 229; 229; 229; 229; 229; 229; 229; 229; 229;
   229; 229; 229; 229; 229; 229; 229; 229; 229; 229; 229; 229;
   229; 229; 229; 229; 229; 229; 229; 229; 229; 229; 229; 229;
   229; 229; 229; 229; 229; 229; 229; 229; 229; 229; 229; 229;
   229; 229; 229; 229; 229; 229; 229; 229; 229; 229; 229; 229;
   229; 229; 229; 229; 229; 229; 229; 229; 229; 229; 229; 229;
   229; 229; 229; 229; 229; 229; 229; 229; 229; 229; 229; 229;
   229; 229; 229; 229; 229; 229; 229; 229; 229; 229; 229; 229;
   229; 229; 229; 229; 229; 229; 229; 229; 101; 101; 101; 101;
   101; 101; 101; 101; 101; 101; 101; 101; 101; 101; 101; 101;
   101; 101; 101; 101; 101; 101; 101; 101; 101; 101; 101; 101;
   101; 101; 101; 101; 101; 101; 101; 101; 101; 101; 101; 101;
   101; 101; 101; 101; 101; 101; 101; 101; 101; 101; 101; 101;
   101; 101; 101; 101; 101; 101; 101; 101; 101; 101; 101; 101;
   101; 101; 101; 101; 101; 101; 101; 101; 101; 101; 101; 101;
   101; 101; 101; 101; 101; 101; 101; 101; 101; 101; 101; 101;
   101; 101; 101; 101; 101; 101; 101; 101; 101; 101; 101; 101;
   101; 101; 101; 101; 101; 101; 101; 101; 101; 101; 101; 101;
   101; 101; 101; 101; 101; 101; 101; 101; 101; 101; 101; 101;
   101; 101; 101; 101; 133; 133; 133; 133; 133; 133; 133; 133;
   133; 133; 133; 133; 133; 133; 133; 133; 133; 133; 133; 133;
   133; 133; 133; 133; 133; 133; 133; 133; 133; 133; 133; 133;
   133; 133; 133; 133; 133; 133; 133; 133; 133; 133; 133; 133;
   133; 133; 133; 133; 133; 133; 133; 133; 133; 133; 133; 133;
   133; 133; 133; 133; 133; 133; 133; 133; 133; 133; 133; 133;
   133; 133; 133; 133; 133; 133; 133; 133; 133; 133; 133; 133;
   133; 133; 133; 133; 133; 133; 133; 133; 133; 133; 133; 133;
   133; 133; 133; 133; 133; 133; 133; 133; 133; 133; 133; 133;
   133; 133; 133; 133; 133; 133; 133; 133; 133; 133; 133; 133;
   133; 133; 133; 133; 133; 133; 133; 133; 133; 133; 133; 133;
   5; 5; 5; 5; 5; 5; 5; 5; 5; 5; 5; 5;
   5; 5; 5; 5; 5; 5; 5; 5; 5; 5; 5; 5;
   5; 5; 5; 5; 5; 5; 5; 5; 5; 5; 5; 5;
   5; 5; 5; 5; 5; 5; 5; 5; 5; 5; 5; 5;
   5; 5; 5; 5; 5; 5; 5; 5; 5; 5; 5; 5;
   5; 5; 5; 5; 5; 5; 5; 5; 5; 5; 5; 5;
   5; 5; 5; 5; 5; 5; 5; 5; 5; 5; 5; 5;
   5; 5; 5; 5; 5; 5; 5; 5; 5; 5; 5; 5;
   5; 5; 5; 5; 5; 5; 5; 5; 5; 5; 5; 5;
   5; 5; 5; 5; 5; 5; 5; 5; 5; 5; 5; 5;
   5; 5; 5; 5; 5; 5; 5; 5; 197; 197; 197; 197;
   197; 197; 197; 197; 197; 197; 197; 197; 197; 197; 197; 197;
   197; 197; 197; 197; 197; 197; 197; 197; 197; 197; 197; 197;
   197; 197; 197; 197; 197; 197; 197; 197; 197; 197; 197; 197;
   197; 197; 197; 197; 197; 197; 197; 197; 197; 197; 197; 197;
   197; 197; 197; 197; 197; 197; 197; 197; 197; 197; 197; 197;
   197; 197; 197; 197; 197; 197; 197; 197; 197; 197; 197; 197;
   197; 197; 197; 197; 197; 197; 197; 197; 197; 197; 197; 197;
   197; 197; 197; 197; 197; 197; 197; 197; 197; 197; 197; 197;
   197; 197; 197; 197; 197; 197; 197; 197; 197; 197; 197; 197;
   197; 197; 197; 197; 197; 197; 197; 197; 197; 197; 197; 197;
   197; 197; 197; 197; 69; 69; 69; 69; 69; 69; 69; 69;
   69; 69; 69; 69; 69; 69; 69; 69; 69; 69; 69; 69;
   69; 69; 69; 69; 69; 69; 69; 69; 69; 69; 69; 69;
   69; 69; 69; 69; 69; 69; 69; 69; 69; 69; 69; 69;
   69; 69; 69; 69; 69; 69; 69; 69; 69; 69; 69; 69;
   69; 69; 69; 69; 69; 69; 69; 69; 69; 69; 69; 69;
   69; 69; 69; 69; 69; 69; 69; 69; 69; 69; 69; 69;
   69; 69; 69; 69; 69; 69; 69; 69; 69; 69; 69; 69;
   69; 69; 69; 69; 69; 69; 69; 69; 69; 69; 69; 69;
   69; 69; 69; 69; 69; 69; 69; 69; 69; 69; 69; 69;
   69; 69; 69; 69; 69; 69; 69; 69; 69; 69; 69; 69;
   181; 181; 181; 181; 181; 181; 181; 181; 181; 181; 181; 181;
   181; 181; 181; 181; 181; 181; 181; 181; 181; 181; 181; 181;
   181; 181; 181; 181; 181; 181; 181; 181; 181; 181; 181; 181;
   181; 181; 181; 181; 181; 181; 181; 181; 181; 181; 181; 181;
   181; 181; 181; 181; 181; 181; 181; 181; 181; 181; 181; 181;
   181; 181; 181; 181; 181; 181; 181; 181; 181; 181; 181; 181;
   181; 181; 181; 181; 181; 181; 181; 181; 181; 181; 181; 181;
   181; 181; 181; 181; 181; 181; 181; 181; 181; 181; 181; 181;
   181; 181; 181; 181; 181; 181; 181; 181; 181; 181; 181; 181;
   181; 181; 181; 181; 181; 181; 181; 181; 181; 181; 181; 181;
   181; 181; 181; 181; 181; 181; 181; 181; 53; 53; 53; 53;
   53; 53; 53; 53; 53; 53; 53; 53; 53; 53; 53; 53;
   53; 53; 53; 53; 53; 53; 53; 53; 53; 53; 53; 53;
   53; 53; 53; 53; 53; 53; 53; 53; 53; 53; 53; 53;
   53; 53; 53; 53; 53; 53; 53; 53; 53; 53; 53; 53;
   53; 53; 53; 53; 53; 53; 53; 53; 53; 53; 53; 53;
   53; 53; 53; 53; 53; 53; 53; 53; 53; 53; 53; 53;
   53; 53; 53; 53; 53; 53; 53; 53; 53; 53; 53; 53].

Definition signed_to_alaw_2 : list Z :=
  [53; 53; 53; 53; 53; 53; 53; 53; 53; 53; 53; 53;
   53; 53; 53; 53; 53; 53; 53; 53; 53; 53; 53; 53;
   53; 53; 53; 53; 53; 53; 53; 53; 53; 53; 53; 53;
   53; 53; 53; 53; 245; 245; 245; 245; 245; 245; 245; 245;
   245; 245; 245; 245; 245; 245; 245; 245; 245; 245; 245; 245;
   245; 245; 245; 245; 245; 245; 245; 245; 245; 245; 245; 245;
   245; 245; 245; 245; 245; 245; 245; 245; 245; 245; 245; 245;
   245; 245; 245; 245; 245; 245; 245; 245; 245; 245; 245; 245;
   245; 245; 245; 245; 245; 245; 245; 245; 245; 245; 245; 245;
   245; 245; 245; 245; 245; 245; 245; 245; 245; 245; 245; 245;
   245; 245; 245; 245; 245; 245; 245; 245; 245; 245; 245; 245;
   245; 245; 245; 245; 245; 245; 245; 245; 245; 245; 245; 245;
   245; 245; 245; 245; 245; 245; 245; 245; 245; 245; 245; 245;
   245; 245; 245; 245; 245; 245; 245; 245; 245; 245; 245; 245;
   117; 117; 117; 117; 117; 117; 117; 117; 117; 117; 117; 117;
   117; 117; 117; 117; 117; 117; 117; 117; 117; 117; 117; 117;
   117; 117; 117; 117; 117; 117; 117; 117; 117; 117; 117; 117;
   117; 117; 117; 117; 117; 117; 117; 117; 117; 117; 117; 117;
   117; 117; 117; 117; 117; 117; 117; 117; 117; 117; 117; 117;
   117; 117; 117; 117; 117; 117; 117; 117; 117; 117; 117; 117;
   117; 117; 117; 117; 117; 117; 117; 117; 117; 117; 117; 117;
   117; 117; 117; 117; 117; 117; 117; 117; 117; 117; 117; 117;
   117; 117; 117; 117; 117; 117; 117; 117; 117; 117; 117; 117;
   117; 117; 117; 117; 117; 117; 117; 117; 117; 117; 117; 117;
   117; 117; 117; 117; 117; 117; 117; 117; 149; 149; 149; 149;
   149; 149; 149; 149; 149; 149; 149; 149; 149; 149; 149; 149;
   149; 149; 149; 149; 149; 149; 149; 149; 149; 149; 149; 149;
   149; 149; 149; 149; 149; 149; 149; 149; 149; 149; 149; 149;
   149; 149; 149; 149; 149; 149; 149; 149; 149; 149; 149; 149;
   149; 149; 149; 149; 149; 149; 149; 149; 149; 149; 149; 149;
   149; 149; 149; 149; 149; 149; 149; 149; 149; 149; 149; 149;
   149; 149; 149; 149; 149; 149; 149; 149; 149; 149; 149; 149;
   149; 149; 149; 149; 149; 149; 149; 149; 149; 149; 149; 149;
   149; 149; 149; 149; 149; 149; 149; 149; 149; 149; 149; 149;
   149; 149; 149; 149; 149; 149; 149; 149; 149; 149; 149; 149;
   149; 149; 149; 149; 21; 21; 21; 21; 21; 21; 21; 21;
   21; 21; 21; 21; 21; 21; 21; 21; 21; 21; 21; 21;
   21; 21; 21; 21; 21; 21; 21; 21; 21; 21; 21; 21;
   21; 21; 21; 21; 21; 21; 21; 21; 21; 21; 21; 21;
   21; 21; 21; 21; 21; 21; 21; 21; 21; 21; 21; 21;
   21; 21; 21; 21; 21; 21; 21; 21; 21; 21; 21; 21;
   21; 21; 21; 21; 21; 21; 21; 21; 21; 21; 21; 21;
   21; 21; 21; 21; 21; 21; 21; 21; 21; 21; 21; 21;
   21; 21; 21; 21; 21; 21; 21; 21; 21; 21; 21; 21;
   21; 21; 21; 21; 21; 21; 21; 21; 21; 21; 21; 21;
   21; 21; 21; 21; 21; 21; 21; 21; 21; 21; 21; 21;
   213; 213; 213; 213; 213; 213; 213; 213; 213; 213; 213; 213;
   213; 213; 213; 213; 213; 213; 213; 213; 213; 213; 213; 213;
   213; 213; 213; 213; 213; 213; 213; 213; 213; 213; 213; 213;
   213; 213; 213; 213; 213; 213; 213; 213; 213; 213; 213; 213;
   213; 213; 213; 213; 213; 213; 213; 213; 213; 213; 213; 213;
   213; 213; 213; 213; 213; 213; 213; 213; 213; 213; 213; 213;
   213; 213; 213; 213; 213; 213; 213; 213; 213; 213; 213; 213;
   213; 213; 213; 213; 213; 213; 213; 213; 213; 213; 213; 213;
   213; 213; 213; 213; 213; 213; 213; 213; 213; 213; 213; 213;
   213; 213; 213; 213; 213; 213; 213; 213; 213; 213; 213; 213;
   213; 213; 213; 213; 213; 213; 213; 213; 85; 85; 85; 85;
   85; 85; 85; 85; 85; 85; 85; 85; 85; 85; 85; 85;
   85; 85; 85; 85; 85; 85; 85; 85; 85; 85; 85; 85;
   85; 85; 85; 85; 85; 85; 85; 85; 85; 85; 85; 85;
   85; 85; 85; 85; 85; 85; 85; 85; 85; 85; 85; 85;
   85; 85; 85; 85; 85; 85; 85; 85; 85; 85; 85; 85;
   85; 85; 85; 85; 85; 85; 85; 85; 85; 85; 85; 85;
   85; 85; 85; 85; 85; 85; 85; 85; 85; 85; 85; 85;
   85; 85; 85; 85; 85; 85; 85; 85; 85; 85; 85; 85;
   85; 85; 85; 85; 85; 85; 85; 85; 85; 85; 85; 85;
   85; 85; 85; 85; 85; 85; 85; 85; 85; 85; 85; 85;
   85; 85; 85; 85; 84; 84; 84; 84; 84; 84; 84; 84;
   84; 84; 84; 84; 84; 84; 84; 84; 84; 84; 84; 84;
   84; 84; 84; 84; 84; 84; 84; 84; 84; 84; 84; 84;
   84; 84; 84; 84; 84; 84; 84; 84; 84; 84; 84; 84;
   84; 84; 84; 84; 84; 84; 84; 84; 84; 84; 84; 84;
   84; 84; 84; 84; 84; 84; 84; 84; 84; 84; 84; 84;
   84; 84; 84; 84; 84; 84; 84; 84; 84; 84; 84; 84;
   84; 84; 84; 84; 84; 84; 84; 84; 84; 84; 84; 84;
   84; 84; 84; 84; 84; 84; 84; 84; 84; 84; 84; 84;
   84; 84; 84; 84; 84; 84; 84; 84; 84; 84; 84; 84;
   84; 84; 84; 84; 84; 84; 84; 84; 84; 84; 84; 84;
   212; 212; 212; 212; 212; 212; 212; 212; 212; 212; 212; 212;
   212; 212; 212; 212; 212; 212; 212; 212; 212; 212; 212; 212;
   212; 212; 212; 212; 212; 212; 212; 212; 212; 212; 212; 212;
   212; 212; 212; 212; 212; 212; 212; 212; 212; 212; 212; 212;
   212; 212; 212; 212; 212; 212; 212; 212; 212; 212; 212; 212;
   212; 212; 212; 212; 212; 212; 212; 212; 212; 212; 212; 212;
   212; 212; 212; 212; 212; 212; 212; 212; 212; 212; 212; 212;
   212; 212; 212; 212; 212; 212; 212; 212; 212; 212; 212; 212;
   212; 212; 212; 212; 212; 212; 212; 212; 212; 212; 212; 212;
   212; 212; 212; 212; 212; 212; 212; 212; 212; 212; 212; 212;
   212; 212; 212; 212; 212; 212; 212; 212; 20; 20; 20; 20;
   20; 20; 20; 20; 20; 20; 20; 20; 20; 20; 20; 20;
   20; 20; 20; 20; 20; 20; 20; 20; 20; 20; 20; 20;
   20; 20; 20; 20; 20; 20; 20; 20; 20; 20; 20; 20;
   20; 20; 20; 20; 20; 20; 20; 20; 20; 20; 20; 20;
   20; 20; 20; 20; 20; 20; 20; 20; 20; 20; 20; 20;
   20; 20; 20; 20; 20; 20; 20; 20; 20; 20; 20; 20;
   20; 20; 20; 20; 20; 20; 20; 20; 20; 20; 20; 20;
   20; 20; 20; 20; 20; 20; 20; 20; 20; 20; 20; 20;
   20; 20; 20; 20; 20; 20; 20; 20; 20; 20; 20; 20;
   20; 20; 20; 20; 20; 20; 20; 20; 20; 20; 20; 20;
   20; 20; 20; 20; 148; 148; 148; 148; 148; 148; 148; 148;
   148; 148; 148; 148; 148; 148; 148; 148; 148; 148; 148; 148;
   148; 148; 148; 148; 148; 148; 148; 148; 148; 148; 148; 148;
   148; 148; 148; 148; 148; 148; 148; 148; 148; 148; 148; 148;
   148; 148; 148; 148; 148; 148; 148; 148; 148; 148; 148; 148;
   148; 148; 148; 148; 148; 148; 148; 148; 148; 148; 148; 148;
   148; 148; 148; 148; 148; 148; 148; 148; 148; 148; 148; 148;
   148; 148; 148; 148; 148; 148; 148; 148; 148; 148; 148; 148;
   148; 148; 148; 148; 148; 148; 148; 148; 148; 148; 148; 148;
   148; 148; 148; 148; 148; 148; 148; 148; 148; 148; 148; 148;
   148; 148; 148; 148; 148; 148; 148; 148; 148; 148; 148; 148;
   116; 116; 116; 116; 116; 116; 116; 116; 116; 116; 116; 116;
   116; 116; 116; 116; 116; 116; 116; 116; 116; 116; 116; 116;
   116; 116; 116; 116; 116; 116; 116; 116; 116; 116; 116; 116;
   116; 116; 116; 116; 116; 116; 116; 116; 116; 116; 116; 116;
   116; 116; 116; 116; 116; 116; 116; 116; 116; 116; 116; 116;
   116; 116; 116; 116; 116; 116; 116; 116; 116; 116; 116; 116;
   116; 116; 116; 116; 116; 116; 116; 116; 116; 116; 116; 116;
   116; 116; 116; 116; 116; 116; 116; 116; 116; 116; 116; 116;
   116; 116; 116; 116; 116; 116; 116; 116; 116; 116; 116; 116;
   116; 116; 116; 116; 116; 116; 116; 116; 116; 116; 116; 116;
   116; 116; 116; 116; 116; 116; 116; 116; 244; 244; 244; 244;
   244; 244; 244; 244; 244; 244; 244; 244; 244; 244; 244; 244;
   244; 244; 244; 244; 244; 244; 244; 244; 244; 244; 244; 244;
   244; 244; 244; 244; 244; 244; 244; 244; 244; 244; 244; 244;
   244; 244; 244; 244; 244; 244; 244; 244; 244; 244; 244; 244;
   244; 244; 244; 244; 244; 244; 244; 244; 244; 244; 244; 244;
   244; 244; 244; 244; 244; 244; 244; 244; 244; 244; 244; 244;
   244; 244; 244; 244; 244; 244; 244; 244; 244; 244; 244; 244;
   244; 244; 244; 244; 244; 244; 244; 244; 244; 244; 244; 244;
   244; 244; 244; 244; 244; 244; 244; 244; 244; 244; 244; 244;
   244; 244; 244; 244; 244; 244; 244; 244; 244; 244; 244; 244;
   244; 244; 244; 244; 52; 52; 52; 52; 52; 52; 52; 52;
   52; 52; 52; 52; 52; 52; 52; 52; 52; 52; 52; 52;
   52; 52; 52; 52; 52; 52; 52; 52; 52; 52; 52; 52;
   52; 52; 52; 52; 52; 52; 52; 52; 52; 52; 52; 52;
   52; 52; 52; 52; 52; 52; 52; 52; 52; 52; 52; 52;
   52; 52; 52; 52; 52; 52; 52; 52; 52; 52; 52; 52].

Definition signed_to_alaw_3 : list Z :=
  [52; 52; 52; 52; 52; 52; 52; 52; 52; 52; 52; 52;
   52; 52; 52; 52; 52; 52; 52; 52; 52; 52; 52; 52;
   52; 52; 52; 52; 52; 52; 52; 52; 52; 52; 52; 52;
   52; 52; 52; 52; 52; 52; 52; 52; 52; 52; 52; 52;
   52; 52; 52; 52; 52; 52; 52; 52; 52; 52; 52; 52;
   180; 180; 180; 180; 180; 180; 180; 180; 180; 180; 180; 180;
   180; 180; 180; 180; 180; 180; 180; 180; 180; 180; 180; 180;
   180; 180; 180; 180; 180; 180; 180; 180; 180; 180; 180; 180;
   180; 180; 180; 180; 180; 180; 180; 180; 180; 180; 180; 180;
   180; 180; 180; 180; 180; 180; 180; 180; 180; 180; 180; 180;
   180; 180; 180; 180; 180; 180; 180; 180; 180; 180; 180; 180;
   180; 180; 180; 180; 180; 180; 180; 180; 180; 180; 180; 180;
   180; 180; 180; 180; 180; 180; 180; 180; 180; 180; 180; 180;
   180; 180; 180; 180; 180; 180; 180; 180; 180; 180; 180; 180;
   180; 180; 180; 180; 180; 180; 180; 180; 180; 180; 180; 180;
   180; 180; 180; 180; 180; 180; 180; 180; 68; 68; 68; 68;
   68; 68; 68; 68; 68; 68; 68; 68; 68; 68; 68; 68;
   68; 68; 68; 68; 68; 68; 68; 68; 68; 68; 68; 68;
   68; 68; 68; 68; 68; 68; 68; 68; 68; 68; 68; 68;
   68; 68; 68; 68; 68; 68; 68; 68; 68; 68; 68; 68;
   68; 68; 68; 68; 68; 68; 68; 68; 68; 68; 68; 68;
   68; 68; 68; 68; 68; 68; 68; 68; 68; 68; 68; 68;
   68; 68; 68; 68; 68; 68; 68; 68; 68; 68; 68; 68;
   68; 68; 68; 68; 68; 68; 68; 68; 68; 68; 68; 68;
   68; 68; 68; 68; 68; 68; 68; 68; 68; 68; 68; 68;
   68; 68; 68; 68; 68; 68; 68; 68; 68; 68; 68; 68;
   68; 68; 68; 68; 196; 196; 196; 196; 196; 196; 196; 196;
   196; 196; 196; 196; 196; 196; 196; 196; 196; 196; 196; 196;
   196; 196; 196; 196; 196; 196; 196; 196; 196; 196; 196; 196;
   196; 196; 196; 196; 196; 196; 196; 196; 196; 196; 196; 196;
   196; 196; 196; 196; 196; 196; 196; 196; 196; 196; 196; 196;
   196; 196; 196; 196; 196; 196; 196; 196; 196; 196; 196; 196;
   196; 196; 196; 196; 196; 196; 196; 196; 196; 196; 196; 196;
   196; 196; 196; 196; 196; 196; 196; 196; 196; 196; 196; 196;
   196; 196; 196; 196; 196; 196; 196; 196; 196; 196; 196; 196;
   196; 196; 196; 196; 196; 196; 196; 196; 196; 196; 196; 196;
   196; 196; 196; 196; 196; 196; 196; 196; 196; 196; 196; 196;
   4; 4; 4; 4; 4; 4; 4; 4; 4; 4; 4; 4;
   4; 4; 4; 4; 4; 4; 4; 4; 4; 4; 4; 4;
   4; 4; 4; 4; 4; 4; 4; 4; 4; 4; 4; 4;
   4; 4; 4; 4; 4; 4; 4; 4; 4; 4; 4; 4;
   4; 4; 4; 4; 4; 4; 4; 4; 4; 4; 4; 4;
   4; 4; 4; 4; 4; 4; 4; 4; 4; 4; 4; 4;
   4; 4; 4; 4; 4; 4; 4; 4; 4; 4; 4; 4;
   4; 4; 4; 4; 4; 4; 4; 4; 4; 4; 4; 4;
   4; 4; 4; 4; 4; 4; 4; 4; 4; 4; 4; 4;
   4; 4; 4; 4; 4; 4; 4; 4; 4; 4; 4; 4;
   4; 4; 4; 4; 4; 4; 4; 4; 132; 132; 132; 132;
   132; 132; 132; 132; 132; 132; 132; 132; 132; 132; 132; 132;
   132; 132; 132; 132; 132; 132; 132; 132; 132; 132; 132; 132;
   132; 132; 132; 132; 132; 132; 132; 132; 132; 132; 132; 132;
   132; 132; 132; 132; 132; 132; 132; 132; 132; 132; 132; 132;
   132; 132; 132; 132; 132; 132; 132; 132; 132; 132; 132; 132;
   132; 132; 132; 132; 132; 132; 132; 132; 132; 132; 132; 132;
   132; 132; 132; 132; 132; 132; 132; 132; 132; 132; 132; 132;
   132; 132; 132; 132; 132; 132; 132; 132; 132; 132; 132; 132;
   132; 132; 132; 132; 132; 132; 132; 132; 132; 132; 132; 132;
   132; 132; 132; 132; 132; 132; 132; 132; 132; 132; 132; 132;
   132; 132; 132; 132; 100; 100; 100; 100; 100; 100; 100; 100;
   100; 100; 100; 100; 100; 100; 100; 100; 100; 100; 100; 100;
   100; 100; 100; 100; 100; 100; 100; 100; 100; 100; 100; 100;
   100; 100; 100; 100; 100; 100; 100; 100; 100; 100; 100; 100;
   100; 100; 100; 100; 100; 100; 100; 100; 100; 100; 100; 100;
   100; 100; 100; 100; 100; 100; 100; 100; 100; 100; 100; 100;
   100; 100; 100; 100; 100; 100; 100; 100; 100; 100; 100; 100;
   100; 100; 100; 100; 100; 100; 100; 100; 100; 100; 100; 100;
   100; 100; 100; 100; 100; 100; 100; 100; 100; 100; 100; 100;
   100; 100; 100; 100; 100; 100; 100; 100; 100; 100; 100; 100;
   100; 100; 100; 100; 100; 100; 100; 100; 100; 100; 100; 100;
   228; 228; 228; 228; 228; 228; 228; 228; 228; 228; 228; 228;
   228; 228; 228; 228; 228; 228; 228; 228; 228; 228; 228; 228;
   228; 228; 228; 228; 228; 228; 228; 228; 228; 228; 228; 228;
   228; 228; 228; 228; 228; 228; 228; 228; 228; 228; 228; 228;
   228; 228; 228; 228; 228; 228; 228; 228; 228; 228; 228; 228;
   228; 228; 228; 228; 228; 228; 228; 228; 228; 228; 228; 228;
   228; 228; 228; 228; 228; 228; 228; 228; 228; 228; 228; 228;
   228; 228; 228; 228; 228; 228; 228; 228; 228; 228; 228; 228;
   228; 228; 228; 228; 228; 228; 228; 228; 228; 228; 228; 228;
   228; 228; 228; 228; 228; 228; 228; 228; 228; 228; 228; 228;
   228; 228; 228; 228; 228; 228; 228; 228; 36; 36; 36; 36;
   36; 36; 36; 36; 36; 36; 36; 36; 36; 36; 36; 36;
   36; 36; 36; 36; 36; 36; 36; 36; 36; 36; 36; 36;
   36; 36; 36; 36; 36; 36; 36; 36; 36; 36; 36; 36;
   36; 36; 36; 36; 36; 36; 36; 36; 36; 36; 36; 36;
   36; 36; 36; 36; 36; 36; 36; 36; 36; 36; 36; 36;
   36; 36; 36; 36; 36; 36; 36; 36; 36; 36; 36; 36;
   36; 36; 36; 36; 36; 36; 36; 36; 36; 36; 36; 36;
   36; 36; 36; 36; 36; 36; 36; 36; 36; 36; 36; 36;
   36; 36; 36; 36; 36; 36; 36; 36; 36; 36; 36; 36;
   36; 36; 36; 36; 36; 36; 36; 36; 36; 36; 36; 36;
   36; 36; 36; 36; 164; 164; 164; 164; 164; 164; 164; 164;
   164; 164; 164; 164; 164; 164; 164; 164; 164; 164; 164; 164;
   164; 164; 164; 164; 164; 164; 164; 164; 164; 164; 164; 164;
   164; 164; 164; 164; 164; 164; 164; 164; 164; 164; 164; 164;
   164; 164; 164; 164; 164; 164; 164; 164; 164; 164; 164; 164;
   164; 164; 164; 164; 164; 164; 164; 164; 164; 164; 164; 164;
   164; 164; 164; 164; 164; 164; 164; 164; 164; 164; 164; 164;
   164; 164; 164; 164; 164; 164; 164; 164; 164; 164; 164; 164;
   164; 164; 164; 164; 164; 164; 164; 164; 164; 164; 164; 164;
   164; 164; 164; 164; 164; 164; 164; 164; 164; 164; 164; 164;
   164; 164; 164; 164; 164; 164; 164; 164; 164; 164; 164; 164;
   92; 92; 92; 92; 92; 92; 92; 92; 92; 92; 92; 92;
   92; 92; 92; 92; 92; 92; 92; 92; 92; 92; 92; 92;
   92; 92; 92; 92; 92; 92; 92; 92; 92; 92; 92; 92;
   92; 92; 92; 92; 92; 92; 92; 92; 92; 92; 92; 92;
   92; 92; 92; 92; 92; 92; 92; 92; 92; 92; 92; 92;
   92; 92; 92; 92; 220; 220; 220; 220; 220; 220; 220; 220;
   220; 220; 220; 220; 220; 220; 220; 220; 220; 220; 220; 220;
   220; 220; 220; 220; 220; 220; 220; 220; 220; 220; 220; 220;
   220; 220; 220; 220; 220; 220; 220; 220; 220; 220; 220; 220;
   220; 220; 220; 220; 220; 220; 220; 220; 220; 220; 220; 220;
   220; 220; 220; 220; 220; 220; 220; 220; 28; 28; 28; 28;
   28; 28; 28; 28; 28; 28; 28; 28; 28; 28; 28; 28;
   28; 28; 28; 28; 28; 28; 28; 28; 28; 28; 28; 28;
   28; 28; 28; 28; 28; 28; 28; 28; 28; 28; 28; 28;
   28; 28; 28; 28; 28; 28; 28; 28; 28; 28; 28; 28;
   28; 28; 28; 28; 28; 28; 28; 28; 28; 28; 28; 28;
   156; 156; 156; 156; 156; 156; 156; 156; 156; 156; 156; 156;
   156; 156; 156; 156; 156; 156; 156; 156; 156; 156; 156; 156;
   156; 156; 156; 156; 156; 156; 156; 156; 156; 156; 156; 156;
   156; 156; 156; 156; 156; 156; 156; 156; 156; 156; 156; 156;
   156; 156; 156; 156; 156; 156; 156; 156; 156; 156; 156; 156;
   156; 156; 156; 156; 124; 124; 124; 124; 124; 124; 124; 124;
   124; 124; 124; 124; 124; 124; 124; 124; 124; 124; 124; 124;
   124; 124; 124; 124; 124; 124; 124; 124; 124; 124; 124; 124;
   124; 124; 124; 124; 124; 124; 124; 124; 124; 124; 124; 124;
   124; 124; 124; 124; 124; 124; 124; 124; 124; 124; 124; 124;
   124; 124; 124; 124; 124; 124; 124; 124; 252; 252; 252; 252;
   252; 252; 252; 252; 252; 252; 252; 252; 252; 252; 252; 252;
   252; 252; 252; 252; 252; 252; 252; 252; 252; 252; 252; 252;
   252; 252; 252; 252; 252; 252; 252; 252; 252; 252; 252; 252;
   252; 252; 252; 252; 252; 252; 252; 252; 252; 252; 252; 252;
   252; 252; 252; 252; 252; 252; 252; 252; 252; 252; 252; 252;
   60; 60; 60; 60; 60; 60; 60; 60; 60; 60; 60; 60;
   60; 60; 60; 60; 60; 60; 60; 60; 60; 60; 60; 60;
   60; 60; 60; 60; 60; 60; 60; 60; 60; 60; 60; 60;
   60; 60; 60; 60; 60; 60; 60; 60; 60; 60; 60; 60].

Definition signed_to_alaw_4 : list Z :=
  [60; 60; 60; 60; 60; 60; 60; 60; 60; 60; 60; 60;
   60; 60; 60; 60; 188; 188; 188; 188; 188; 188; 188; 188;
   188; 188; 188; 188; 188; 188; 188; 188; 188; 188; 188; 188;
   188; 188; 188; 188; 188; 188; 188; 188; 188; 188; 188; 188;
   188; 188; 188; 188; 188; 188; 188; 188; 188; 188; 188; 188;
   188; 188; 188; 188; 188; 188; 188; 188; 188; 188; 188; 188;
   188; 188; 188; 188; 188; 188; 188; 188; 76; 76; 76; 76;
   76; 76; 76; 76; 76; 76; 76; 76; 76; 76; 76; 76;
   76; 76; 76; 76; 76; 76; 76; 76; 76; 76; 76; 76;
   76; 76; 76; 76; 76; 76; 76; 76; 76; 76; 76; 76;
   76; 76; 76; 76; 76; 76; 76; 76; 76; 76; 76; 76;
   76; 76; 76; 76; 76; 76; 76; 76; 76; 76; 76; 76;
   204; 204; 204; 204; 204; 204; 204; 204; 204; 204; 204; 204;
   204; 204; 204; 204; 204; 204; 204; 204; 204; 204; 204; 204;
   204; 204; 204; 204; 204; 204; 204; 204; 204; 204; 204; 204;
   204; 204; 204; 204; 204; 204; 204; 204; 204; 204; 204; 204;
   204; 204; 204; 204; 204; 204; 204; 204; 204; 204; 204; 204;
   204; 204; 204; 204; 12; 12; 12; 12; 12; 12; 12; 12;
   12; 12; 12; 12; 12; 12; 12; 12; 12; 12; 12; 12;
   12; 12; 12; 12; 12; 12; 12; 12; 12; 12; 12; 12;
   12; 12; 12; 12; 12; 12; 12; 12; 12; 12; 12; 12;
   12; 12; 12; 12; 12; 12; 12; 12; 12; 12; 12; 12;
   12; 12; 12; 12; 12; 12; 12; 12; 140; 140; 140; 140;
   140; 140; 140; 140; 140; 140; 140; 140; 140; 140; 140; 140;
   140; 140; 140; 140; 140; 140; 140; 140; 140; 140; 140; 140;
   140; 140; 140; 140; 140; 140; 140; 140; 140; 140; 140; 140;
   140; 140; 140; 140; 140; 140; 140; 140; 140; 140; 140; 140;
   140; 140; 140; 140; 140; 140; 140; 140; 140; 140; 140; 140;
   108; 108; 108; 108; 108; 108; 108; 108; 108; 108; 108; 108;
   108; 108; 108; 108; 108; 108; 108; 108; 108; 108; 108; 108;
   108; 108; 108; 108; 108; 108; 108; 108; 108; 108; 108; 108;
   108; 108; 108; 108; 108; 108; 108; 108; 108; 108; 108; 108;
   108; 108; 108; 108; 108; 108; 108; 108; 108; 108; 108; 108;
   108; 108; 108; 108; 236; 236; 236; 236; 236; 236; 236; 236;
   236; 236; 236; 236; 236; 236; 236; 236; 236; 236; 236; 236;
   236; 236; 236; 236; 236; 236; 236; 236; 236; 236; 236; 236;
   236; 236; 236; 236; 236; 236; 236; 236; 236; 236; 236; 236;
   236; 236; 236; 236; 236; 236; 236; 236; 236; 236; 236; 236;
   236; 236; 236; 236; 236; 236; 236; 236; 44; 44; 44; 44;
   44; 44; 44; 44; 44; 44; 44; 44; 44; 44; 44; 44;
   44; 44; 44; 44; 44; 44; 44; 44; 44; 44; 44; 44;
   44; 44; 44; 44; 44; 44; 44; 44; 44; 44; 44; 44;
   44; 44; 44; 44; 44; 44; 44; 44; 44; 44; 44; 44;
   44; 44; 44; 44; 44; 44; 44; 44; 44; 44; 44; 44;
   172; 172; 172; 172; 172; 172; 172; 172; 172; 172; 172; 172;
   172; 172; 172; 172; 172; 172; 172; 172; 172; 172; 172; 172;
   172; 172; 172; 172; 172; 172; 172; 172; 172; 172; 172; 172;
   172; 172; 172; 172; 172; 172; 172; 172; 172; 172; 172; 172;
   172; 172; 172; 172; 172; 172; 172; 172; 172; 172; 172; 172;
   172; 172; 172; 172; 80; 80; 80; 80; 80; 80; 80; 80;
   80; 80; 80; 80; 80; 80; 80; 80; 80; 80; 80; 80;
   80; 80; 80; 80; 80; 80; 80; 80; 80; 80; 80; 80;
   208; 208; 208; 208; 208; 208; 208; 208; 208; 208; 208; 208;
   208; 208; 208; 208; 208; 208; 208; 208; 208; 208; 208; 208;
   208; 208; 208; 208; 208; 208; 208; 208; 16; 16; 16; 16;
   16; 16; 16; 16; 16; 16; 16; 16; 16; 16; 16; 16;
   16; 16; 16; 16; 16; 16; 16; 16; 16; 16; 16; 16;
   16; 16; 16; 16; 144; 144; 144; 144; 144; 144; 144; 144;
   144; 144; 144; 144; 144; 144; 144; 144; 144; 144; 144; 144;
   144; 144; 144; 144; 144; 144; 144; 144; 144; 144; 144; 144;
   112; 112; 112; 112; 112; 112; 112; 112; 112; 112; 112; 112;
   112; 112; 112; 112; 112; 112; 112; 112; 112; 112; 112; 112;
   112; 112; 112; 112; 112; 112; 112; 112; 240; 240; 240; 240;
   240; 240; 240; 240; 240; 240; 240; 240; 240; 240; 240; 240;
   240; 240; 240; 240; 240; 240; 240; 240; 240; 240; 240; 240;
   240; 240; 240; 240; 48; 48; 48; 48; 48; 48; 48; 48;
   48; 48; 48; 48; 48; 48; 48; 48; 48; 48; 48; 48;
   48; 48; 48; 48; 48; 48; 48; 48; 48; 48; 48; 48;
   176; 176; 176; 176; 176; 176; 176; 176; 176; 176; 176; 176;
   176; 176; 176; 176; 176; 176; 176; 176; 176; 176; 176; 176;
   176; 176; 176; 176; 176; 176; 176; 176; 64; 64; 64; 64;
   64; 64; 64; 64; 64; 64; 64; 64; 64; 64; 64; 64;
   64; 64; 64; 64; 64; 64; 64; 64; 64; 64; 64; 64;
   64; 64; 64; 64; 192; 192; 192; 192; 192; 192; 192; 192;
   192; 192; 192; 192; 192; 192; 192; 192; 192; 192; 192; 192;
   192; 192; 192; 192; 192; 192; 192; 192; 192; 192; 192; 192;
   0; 0; 0; 0; 0; 0; 0; 0; 0; 0; 0; 0;
   0; 0; 0; 0; 0; 0; 0; 0; 0; 0; 0; 0;
   0; 0; 0; 0; 0; 0; 0; 0; 128; 128; 128; 128;
   128; 128; 128; 128; 128; 128; 128; 128; 128; 128; 128; 128;
   128; 128; 128; 128; 128; 128; 128; 128; 128; 128; 128; 128;
   128; 128; 128; 128; 96; 96; 96; 96; 96; 96; 96; 96;
   96; 96; 96; 96; 96; 96; 96; 96; 96; 96; 96; 96;
   96; 96; 96; 96; 96; 96; 96; 96; 96; 96; 96; 96;
   224; 224; 224; 224; 224; 224; 224; 224; 224; 224; 224; 224;
   224; 224; 224; 224; 224; 224; 224; 224; 224; 224; 224; 224;
   224; 224; 224; 224; 224; 224; 224; 224; 32; 32; 32; 32;
   32; 32; 32; 32; 32; 32; 32; 32; 32; 32; 32; 32;
   32; 32; 32; 32; 32; 32; 32; 32; 32; 32; 32; 32;
   32; 32; 32; 32; 160; 160; 160; 160; 160; 160; 160; 160;
   160; 160; 160; 160; 160; 160; 160; 160; 160; 160; 160; 160;
   160; 160; 160; 160; 160; 160; 160; 160; 160; 160; 160; 160;
   88; 88; 88; 88; 88; 88; 88; 88; 88; 88; 88; 88;
   88; 88; 88; 88; 216; 216; 216; 216; 216; 216; 216; 216;
   216; 216; 216; 216; 216; 216; 216; 216; 24; 24; 24; 24;
   24; 24; 24; 24; 24; 24; 24; 24; 24; 24; 24; 24;
   152; 152; 152; 152; 152; 152; 152; 152; 152; 152; 152; 152;
   152; 152; 152; 152; 120; 120; 120; 120; 120; 120; 120; 120;
   120; 120; 120; 120; 120; 120; 120; 120; 248; 248; 248; 248;
   248; 248; 248; 248; 248; 248; 248; 248; 248; 248; 248; 248;
   56; 56; 56; 56; 56; 56; 56; 56; 56; 56; 56; 56;
   56; 56; 56; 56; 184; 184; 184; 184; 184; 184; 184; 184;
   184; 184; 184; 184; 184; 184; 184; 184; 72; 72; 72; 72;
   72; 72; 72; 72; 72; 72; 72; 72; 72; 72; 72; 72;
   200; 200; 200; 200; 200; 200; 200; 200; 200; 200; 200; 200;
   200; 200; 200; 200; 8; 8; 8; 8; 8; 8; 8; 8;
   8; 8; 8; 8; 8; 8; 8; 8; 136; 136; 136; 136;
   136; 136; 136; 136; 136; 136; 136; 136; 136; 136; 136; 136;
   104; 104; 104; 104; 104; 104; 104; 104; 104; 104; 104; 104;
   104; 104; 104; 104; 232; 232; 232; 232; 232; 232; 232; 232;
   232; 232; 232; 232; 232; 232; 232; 232; 40; 40; 40; 40;
   40; 40; 40; 40; 40; 40; 40; 40; 40; 40; 40; 40;
   168; 168; 168; 168; 168; 168; 168; 168; 168; 168; 168; 168;
   168; 168; 168; 168; 86; 86; 86; 86; 86; 86; 86; 86;
   214; 214; 214; 214; 214; 214; 214; 214; 22; 22; 22; 22;
   22; 22; 22; 22; 150; 150; 150; 150; 150; 150; 150; 150;
   118; 118; 118; 118; 118; 118; 118; 118; 246; 246; 246; 246;
   246; 246; 246; 246; 54; 54; 54; 54; 54; 54; 54; 54;
   182; 182; 182; 182; 182; 182; 182; 182; 70; 70; 70; 70;
   70; 70; 70; 70; 198; 198; 198; 198; 198; 198; 198; 198;
   6; 6; 6; 6; 6; 6; 6; 6; 134; 134; 134; 134;
   134; 134; 134; 134; 102; 102; 102; 102; 102; 102; 102; 102;
   230; 230; 230; 230; 230; 230; 230; 230; 38; 38; 38; 38;
   38; 38; 38; 38; 166; 166; 166; 166; 166; 166; 166; 166;
   94; 94; 94; 94; 222; 222; 222; 222; 30; 30; 30; 30;
   158; 158; 158; 158; 126; 126; 126; 126; 254; 254; 254; 254;
   62; 62; 62; 62; 190; 190; 190; 190; 78; 78; 78; 78;
   206; 206; 206; 206; 14; 14; 14; 14; 142; 142; 142; 142;
   110; 110; 110; 110; 238; 238; 238; 238; 46; 46; 46; 46;
   174; 174; 174; 174; 82; 82; 210; 210; 18; 18; 146; 146;
   114; 114; 242; 242; 50; 50; 178; 178; 66; 66; 194; 194;
   2; 2; 130; 130; 98; 98; 226; 226; 34; 34; 162; 162;
   90; 90; 218; 218; 26; 26; 154; 154; 122; 122; 250; 250;
   58; 58; 186; 186; 74; 74; 202; 202; 10; 10; 138; 138;
   106; 106; 234; 234; 42; 42; 170; 170].

Definition signed_to_alaw : list Z :=
  signed_to_alaw_0 ++
  signed_to_alaw_1 ++
  signed_to_alaw_2 ++
  signed_to_alaw_3 ++
  signed_to_alaw_4.

(** [i4b_sine_to_signed], in seven pieces *)

Definition i4b_sine_to_signed_0 : list Z :=
  [0; 25; 51; 77; 102; 128; 154; 180;
   205; 231; 257; 283; 308; 334; 360; 386;
   411; 437; 463; 488; 514; 540; 566; 591;
   617; 643; 669; 694; 720; 746; 771; 797;
   823; 849; 874; 900; 926; 952; 977; 1003;
   1029; 1054; 1080; 1106; 1132; 1157; 1183; 1209;
   1234; 1260; 1286; 1312; 1337; 1363; 1389; 1414;
   1440; 1466; 1492; 1517; 1543; 1569; 1594; 1620;
   1646; 1672; 1697; 1723; 1749; 1774; 1800; 1826;
   1851; 1877; 1903; 1929; 1954; 1980; 2006; 2031;
   2057; 2083; 2108; 2134; 2160; 2185; 2211; 2237;
   2262; 2288; 2314; 2339; 2365; 2391; 2416; 2442;
   2468; 2493; 2519; 2545; 2570; 2596; 2622; 2647;
   2673; 2699; 2724; 2750; 2776; 2801; 2827; 2852;
   2878; 2904; 2929; 2955; 2981; 3006; 3032; 3058;
   3083; 3109; 3134; 3160; 3186; 3211; 3237; 3262;
   3288; 3314; 3339; 3365; 3390; 3416; 3442; 3467;
   3493; 3518; 3544; 3570; 3595; 3621; 3646; 3672;
   3697; 3723; 3749; 3774; 3800; 3825; 3851; 3876;
   3902; 3928; 3953; 3979; 4004; 4030; 4055; 4081;
   4106; 4132; 4157; 4183; 4208; 4234; 4259; 4285;
   4310; 4336; 4361; 4387; 4412; 4438; 4463; 4489;
   4514; 4540; 4565; 4591; 4616; 4642; 4667; 4693;
   4718; 4744; 4769; 4795; 4820; 4846; 4871; 4896;
   4922; 4947; 4973; 4998; 5024; 5049; 5075; 5100;
   5125; 5151; 5176; 5202; 5227; 5252; 5278; 5303;
   5329; 5354; 5379; 5405; 5430; 5456; 5481; 5506;
   5532; 5557; 5582; 5608; 5633; 5658; 5684; 5709;
   5734; 5760; 5785; 5810; 5836; 5861; 5886; 5912;
   5937; 5962; 5988; 6013; 6038; 6064; 6089; 6114;
   6139; 6165; 6190; 6215; 6241; 6266; 6291; 6316;
   6342; 6367; 6392; 6417; 6442; 6468; 6493; 6518;
   6543; 6569; 6594; 6619; 6644; 6669; 6695; 6720;
   6745; 6770; 6795; 6821; 6846; 6871; 6896; 6921;
   6946; 6971; 6997; 7022; 7047; 7072; 7097; 7122;
   7147; 7173; 7198; 7223; 7248; 7273; 7298; 7323;
   7348; 7373; 7398; 7423; 7448; 7474; 7499; 7524;
   7549; 7574; 7599; 7624; 7649; 7674; 7699; 7724;
   7749; 7774; 7799; 7824; 7849; 7874; 7899; 7924;
   7949; 7974; 7999; 8024; 8049; 8074; 8098; 8123;
   8148; 8173; 8198; 8223; 8248; 8273; 8298; 8323;
   8348; 8372; 8397; 8422; 8447; 8472; 8497; 8522;
   8546; 8571; 8596; 8621; 8646; 8671; 8695; 8720;
   8745; 8770; 8795; 8819; 8844; 8869; 8894; 8919;
   8943; 8968; 8993; 9018; 9042; 9067; 9092; 9116;
   9141; 9166; 9191; 9215; 9240; 9265; 9289; 9314;
   9339; 9363; 9388; 9413; 9437; 9462; 9487; 9511;
   9536; 9561; 9585; 9610; 9634; 9659; 9684; 9708;
   9733; 9757; 9782; 9806; 9831; 9855; 9880; 9905;
   9929; 9954; 9978; 10003; 10027; 10052; 10076; 10101;
   10125; 10150; 10174; 10198; 10223; 10247; 10272; 10296;
   10321; 10345; 10370; 10394; 10418; 10443; 10467; 10491;
   10516; 10540; 10565; 10589; 10613; 10638; 10662; 10686;
   10711; 10735; 10759; 10784; 10808; 10832; 10856; 10881;
   10905; 10929; 10954; 10978; 11002; 11026; 11050; 11075;
   11099; 11123; 11147; 11172; 11196; 11220; 11244; 11268;
   11292; 11317; 11341; 11365; 11389; 11413; 11437; 11461;
   11485; 11510; 11534; 11558; 11582; 11606; 11630; 11654;
   11678; 11702; 11726; 11750; 11774; 11798; 11822; 11846;
   11870; 11894; 11918; 11942; 11966; 11990; 12014; 12038;
   12062; 12086; 12110; 12134; 12157; 12181; 12205; 12229;
   12253; 12277; 12301; 12325; 12348; 12372; 12396; 12420;
   12444; 12468; 12491; 12515; 12539; 12563; 12586; 12610;
   12634; 12658; 12681; 12705; 12729; 12753; 12776; 12800;
   12824; 12847; 12871; 12895; 12918; 12942; 12966; 12989;
   13013; 13036; 13060; 13084; 13107; 13131; 13154; 13178;
   13202; 13225; 13249; 13272; 13296; 13319; 13343; 13366;
   13390; 13413; 13437; 13460; 13484; 13507; 13530; 13554;
   13577; 13601; 13624; 13648; 13671; 13694; 13718; 13741;
   13764; 13788; 13811; 13834; 13858; 13881; 13904; 13928;
   13951; 13974; 13998; 14021; 14044; 14067; 14091; 14114;
   14137; 14160; 14183; 14207; 14230; 14253; 14276; 14299;
   14322; 14346; 14369; 14392; 14415; 14438; 14461; 14484;
   14507; 14530; 14553; 14577; 14600; 14623; 14646; 14669;
   14692; 14715; 14738; 14761; 14784; 14807; 14830; 14852;
   14875; 14898; 14921; 14944; 14967; 14990; 15013; 15036;
   15059; 15081; 15104; 15127; 15150; 15173; 15196; 15218;
   15241; 15264; 15287; 15309; 15332; 15355; 15378; 15400;
   15423; 15446; 15468; 15491; 15514; 15536; 15559; 15582;
   15604; 15627; 15650; 15672; 15695; 15717; 15740; 15763;
   15785; 15808; 15830; 15853; 15875; 15898; 15920; 15943;
   15965; 15988; 16010; 16033; 16055; 16077; 16100; 16122;
   16145; 16167; 16189; 16212; 16234; 16257; 16279; 16301;
   16324; 16346; 16368; 16390; 16413; 16435; 16457; 16479;
   16502; 16524; 16546; 16568; 16591; 16613; 16635; 16657;
   16679; 16701; 16724; 16746; 16768; 16790; 16812; 16834;
   16856; 16878; 16900; 16922; 16944; 16966; 16988; 17010;
   17032; 17054; 17076; 17098; 17120; 17142; 17164; 17186;
   17208; 17230; 17252; 17274; 17295; 17317; 17339; 17361;
   17383; 17405; 17426; 17448; 17470; 17492; 17513; 17535;
   17557; 17579; 17600; 17622; 17644; 17665; 17687; 17709;
   17730; 17752; 17774; 17795; 17817; 17838; 17860; 17882;
   17903; 17925; 17946; 17968; 17989; 18011; 18032; 18054;
   18075; 18097; 18118; 18140; 18161; 18182; 18204; 18225;
   18247; 18268; 18289; 18311; 18332; 18353; 18375; 18396;
   18417; 18439; 18460; 18481; 18502; 18524; 18545; 18566;
   18587; 18608; 18630; 18651; 18672; 18693; 18714; 18735;
   18756; 18777; 18799; 18820; 18841; 18862; 18883; 18904;
   18925; 18946; 18967; 18988; 19009; 19030; 19051; 19072;
   19093; 19113; 19134; 19155; 19176; 19197; 19218; 19239;
   19259; 19280; 19301; 19322; 19343; 19363; 19384; 19405;
   19426; 19446; 19467; 19488; 19508; 19529; 19550; 19570;
   19591; 19612; 19632; 19653; 19673; 19694; 19715; 19735;
   19756; 19776; 19797; 19817; 19838; 19858; 19879; 19899;
   19920; 19940; 19960; 19981; 20001; 20022; 20042; 20062;
   20083; 20103; 20123; 20144; 20164; 20184; 20204; 20225;
   20245; 20265; 20285; 20306; 20326; 20346; 20366; 20386;
   20406; 20427; 20447; 20467; 20487; 20507; 20527; 20547;
   20567; 20587; 20607; 20627; 20647; 20667; 20687; 20707;
   20727; 20747; 20767; 20787; 20807; 20826; 20846; 20866;
   20886; 20906; 20926; 20945; 20965; 20985; 21005; 21024;
   21044; 21064; 21084; 21103; 21123; 21143; 21162; 21182;
   21202; 21221; 21241; 21260; 21280; 21300; 21319; 21339;
   21358; 21378; 21397; 21417; 21436; 21456; 21475; 21494;
   21514; 21533; 21553; 21572; 21591; 21611; 21630; 21649;
   21669; 21688; 21707; 21727; 21746; 21765; 21784; 21804;
   21823; 21842; 21861; 21880; 21899; 21919; 21938; 21957;
   21976; 21995; 22014; 22033; 22052; 22071; 22090; 22109;
   22128; 22147; 22166; 22185; 22204; 22223; 22242; 22261;
   22280; 22298; 22317; 22336; 22355; 22374; 22393; 22411;
   22430; 22449; 22468; 22486; 22505; 22524; 22542; 22561;
   22580; 22598; 22617; 22636; 22654; 22673; 22691; 22710;
   22728; 22747; 22765; 22784; 22802; 22821; 22839; 22858;
   22876; 22895; 22913; 22931; 22950; 22968; 22987; 23005;
   23023; 23042; 23060; 23078; 23096; 23115; 23133; 23151;
   23169; 23187; 23206; 23224; 23242; 23260; 23278; 23296;
   23314; 23332; 23351; 23369; 23387; 23405; 23423; 23441;
   23459; 23477; 23494; 23512; 23530; 23548; 23566; 23584;
   23602; 23620; 23638; 23655; 23673; 23691; 23709; 23726;
   23744; 23762; 23780; 23797; 23815; 23833; 23850; 23868;
   23886; 23903; 23921; 23938; 23956; 23974; 23991; 24009;
   24026; 24044; 24061; 24079; 24096; 24113; 24131; 24148;
   24166; 24183; 24200; 24218; 24235; 24252; 24270; 24287;
   24304; 24321; 24339; 24356; 24373; 24390; 24407; 24425;
   24442; 24459; 24476; 24493; 24510; 24527; 24544; 24561;
   24578; 24595; 24612; 24629; 24646; 24663; 24680; 24697;
   24714; 24731; 24748; 24765; 24782; 24798; 24815; 24832;
   24849; 24866; 24882; 24899; 24916; 24932; 24949; 24966;
   24982; 24999; 25016; 25032; 25049; 25066; 25082; 25099;
   25115; 25132; 25148; 25165; 25181; 25198; 25214; 25230;
   25247; 25263; 25280; 25296; 25312; 25329; 25345; 25361;
   25378; 25394; 25410; 25426; 25443; 25459; 25475; 25491;
   25507; 25524; 25540; 25556; 25572; 25588; 25604; 25620].

Definition i4b_sine_to_signed_1 : list Z :=
  [25636; 25652; 25668; 25684; 25700; 25716; 25732; 25748;
   25764; 25780; 25796; 25811; 25827; 25843; 25859; 25875;
   25891; 25906; 25922; 25938; 25953; 25969; 25985; 26001;
   26016; 26032; 26047; 26063; 26079; 26094; 26110; 26125;
   26141; 26156; 26172; 26187; 26203; 26218; 26234; 26249;
   26264; 26280; 26295; 26311; 26326; 26341; 26356; 26372;
   26387; 26402; 26418; 26433; 26448; 26463; 26478; 26493;
   26509; 26524; 26539; 26554; 26569; 26584; 26599; 26614;
   26629; 26644; 26659; 26674; 26689; 26704; 26719; 26734;
   26748; 26763; 26778; 26793; 26808; 26823; 26837; 26852;
   26867; 26882; 26896; 26911; 26926; 26940; 26955; 26970;
   26984; 26999; 27013; 27028; 27042; 27057; 27071; 27086;
   27100; 27115; 27129; 27144; 27158; 27173; 27187; 27201;
   27216; 27230; 27244; 27259; 27273; 27287; 27301; 27316;
   27330; 27344; 27358; 27372; 27386; 27401; 27415; 27429;
   27443; 27457; 27471; 27485; 27499; 27513; 27527; 27541;
   27555; 27569; 27583; 27596; 27610; 27624; 27638; 27652;
   27666; 27679; 27693; 27707; 27721; 27734; 27748; 27762;
   27775; 27789; 27803; 27816; 27830; 27843; 27857; 27871;
   27884; 27898; 27911; 27925; 27938; 27951; 27965; 27978;
   27992; 28005; 28018; 28032; 28045; 28058; 28072; 28085;
   28098; 28111; 28125; 28138; 28151; 28164; 28177; 28190;
   28203; 28217; 28230; 28243; 28256; 28269; 28282; 28295;
   28308; 28321; 28334; 28346; 28359; 28372; 28385; 28398;
   28411; 28424; 28436; 28449; 28462; 28475; 28487; 28500;
   28513; 28525; 28538; 28551; 28563; 28576; 28589; 28601;
   28614; 28626; 28639; 28651; 28664; 28676; 28689; 28701;
   28713; 28726; 28738; 28751; 28763; 28775; 28788; 28800;
   28812; 28824; 28837; 28849; 28861; 28873; 28885; 28897;
   28910; 28922; 28934; 28946; 28958; 28970; 28982; 28994;
   29006; 29018; 29030; 29042; 29054; 29066; 29077; 29089;
   29101; 29113; 29125; 29136; 29148; 29160; 29172; 29183;
   29195; 29207; 29218; 29230; 29242; 29253; 29265; 29276;
   29288; 29300; 29311; 29323; 29334; 29345; 29357; 29368;
   29380; 29391; 29402; 29414; 29425; 29436; 29448; 29459;
   29470; 29482; 29493; 29504; 29515; 29526; 29537; 29549;
   29560; 29571; 29582; 29593; 29604; 29615; 29626; 29637;
   29648; 29659; 29670; 29681; 29692; 29703; 29713; 29724;
   29735; 29746; 29757; 29767; 29778; 29789; 29800; 29810;
   29821; 29832; 29842; 29853; 29863; 29874; 29885; 29895;
   29906; 29916; 29927; 29937; 29948; 29958; 29968; 29979;
   29989; 30000; 30010; 30020; 30031; 30041; 30051; 30061;
   30072; 30082; 30092; 30102; 30112; 30122; 30133; 30143;
   30153; 30163; 30173; 30183; 30193; 30203; 30213; 30223;
   30233; 30243; 30253; 30262; 30272; 30282; 30292; 30302;
   30312; 30321; 30331; 30341; 30350; 30360; 30370; 30379;
   30389; 30399; 30408; 30418; 30427; 30437; 30447; 30456;
   30465; 30475; 30484; 30494; 30503; 30513; 30522; 30531;
   30541; 30550; 30559; 30569; 30578; 30587; 30596; 30605;
   30615; 30624; 30633; 30642; 30651; 30660; 30669; 30678;
   30687; 30696; 30705; 30714; 30723; 30732; 30741; 30750;
   30759; 30768; 30777; 30786; 30794; 30803; 30812; 30821;
   30829; 30838; 30847; 30855; 30864; 30873; 30881; 30890;
   30898; 30907; 30916; 30924; 30933; 30941; 30950; 30958;
   30966; 30975; 30983; 30992; 31000; 31008; 31017; 31025;
   31033; 31041; 31050; 31058; 31066; 31074; 31082; 31090;
   31099; 31107; 31115; 31123; 31131; 31139; 31147; 31155;
   31163; 31171; 31179; 31187; 31194; 31202; 31210; 31218;
   31226; 31234; 31241; 31249; 31257; 31265; 31272; 31280;
   31288; 31295; 31303; 31310; 31318; 31326; 31333; 31341;
   31348; 31356; 31363; 31370; 31378; 31385; 31393; 31400;
   31407; 31415; 31422; 31429; 31437; 31444; 31451; 31458;
   31465; 31473; 31480; 31487; 31494; 31501; 31508; 31515;
   31522; 31529; 31536; 31543; 31550; 31557; 31564; 31571;
   31578; 31585; 31592; 31598; 31605; 31612; 31619; 31625;
   31632; 31639; 31646; 31652; 31659; 31665; 31672; 31679;
   31685; 31692; 31698; 31705; 31711; 31718; 31724; 31731;
   31737; 31743; 31750; 31756; 31763; 31769; 31775; 31781;
   31788; 31794; 31800; 31806; 31812; 31819; 31825; 31831;
   31837; 31843; 31849; 31855; 31861; 31867; 31873; 31879;
   31885; 31891; 31897; 31903; 31909; 31914; 31920; 31926;
   31932; 31938; 31943; 31949; 31955; 31960; 31966; 31972;
   31977; 31983; 31989; 31994; 32000; 32005; 32011; 32016;
   32022; 32027; 32033; 32038; 32043; 32049; 32054; 32059;
   32065; 32070; 32075; 32080; 32086; 32091; 32096; 32101;
   32106; 32112; 32117; 32122; 32127; 32132; 32137; 32142;
   32147; 32152; 32157; 32162; 32167; 32172; 32176; 32181;
   32186; 32191; 32196; 32200; 32205; 32210; 32215; 32219;
   32224; 32229; 32233; 32238; 32243; 32247; 32252; 32256;
   32261; 32265; 32270; 32274; 32279; 32283; 32287; 32292;
   32296; 32300; 32305; 32309; 32313; 32318; 32322; 32326;
   32330; 32334; 32339; 32343; 32347; 32351; 32355; 32359;
   32363; 32367; 32371; 32375; 32379; 32383; 32387; 32391;
   32395; 32399; 32402; 32406; 32410; 32414; 32417; 32421;
   32425; 32429; 32432; 32436; 32440; 32443; 32447; 32450;
   32454; 32457; 32461; 32464; 32468; 32471; 32475; 32478;
   32482; 32485; 32488; 32492; 32495; 32498; 32502; 32505;
   32508; 32511; 32515; 32518; 32521; 32524; 32527; 32530;
   32533; 32536; 32539; 32542; 32545; 32548; 32551; 32554;
   32557; 32560; 32563; 32566; 32569; 32571; 32574; 32577;
   32580; 32582; 32585; 32588; 32591; 32593; 32596; 32598;
   32601; 32604; 32606; 32609; 32611; 32614; 32616; 32619;
   32621; 32623; 32626; 32628; 32631; 32633; 32635; 32638;
   32640; 32642; 32644; 32647; 32649; 32651; 32653; 32655;
   32657; 32659; 32661; 32663; 32665; 32667; 32669; 32671;
   32673; 32675; 32677; 32679; 32681; 32683; 32685; 32686;
   32688; 32690; 32692; 32694; 32695; 32697; 32699; 32700;
   32702; 32703; 32705; 32707; 32708; 32710; 32711; 32713;
   32714; 32716; 32717; 32718; 32720; 32721; 32722; 32724;
   32725; 32726; 32728; 32729; 32730; 32731; 32733; 32734;
   32735; 32736; 32737; 32738; 32739; 32740; 32741; 32742;
   32743; 32744; 32745; 32746; 32747; 32748; 32749; 32750;
   32750; 32751; 32752; 32753; 32753; 32754; 32755; 32755;
   32756; 32757; 32757; 32758; 32759; 32759; 32760; 32760;
   32761; 32761; 32762; 32762; 32762; 32763; 32763; 32764;
   32764; 32764; 32765; 32765; 32765; 32765; 32765; 32766;
   32766; 32766; 32766; 32766; 32766; 32766; 32766; 32766;
   32767; 32766; 32766; 32766; 32766; 32766; 32766; 32766;
   32766; 32766; 32765; 32765; 32765; 32765; 32765; 32764;
   32764; 32764; 32763; 32763; 32762; 32762; 32762; 32761;
   32761; 32760; 32760; 32759; 32759; 32758; 32757; 32757;
   32756; 32755; 32755; 32754; 32753; 32753; 32752; 32751;
   32750; 32750; 32749; 32748; 32747; 32746; 32745; 32744;
   32743; 32742; 32741; 32740; 32739; 32738; 32737; 32736;
   32735; 32734; 32733; 32731; 32730; 32729; 32728; 32726;
   32725; 32724; 32722; 32721; 32720; 32718; 32717; 32716;
   32714; 32713; 32711; 32710; 32708; 32707; 32705; 32703;
   32702; 32700; 32699; 32697; 32695; 32694; 32692; 32690;
   32688; 32686; 32685; 32683; 32681; 32679; 32677; 32675;
   32673; 32671; 32669; 32667; 32665; 32663; 32661; 32659;
   32657; 32655; 32653; 32651; 32649; 32647; 32644; 32642;
   32640; 32638; 32635; 32633; 32631; 32628; 32626; 32623;
   32621; 32619; 32616; 32614; 32611; 32609; 32606; 32604;
   32601; 32598; 32596; 32593; 32591; 32588; 32585; 32582;
   32580; 32577; 32574; 32571; 32569; 32566; 32563; 32560;
   32557; 32554; 32551; 32548; 32545; 32542; 32539; 32536;
   32533; 32530; 32527; 32524; 32521; 32518; 32515; 32511;
   32508; 32505; 32502; 32498; 32495; 32492; 32488; 32485;
   32482; 32478; 32475; 32471; 32468; 32464; 32461; 32457;
   32454; 32450; 32447; 32443; 32440; 32436; 32432; 32429;
   32425; 32421; 32417; 32414; 32410; 32406; 32402; 32399;
   32395; 32391; 32387; 32383; 32379; 32375; 32371; 32367;
   32363; 32359; 32355; 32351; 32347; 32343; 32339; 32334;
   32330; 32326; 32322; 32318; 32313; 32309; 32305; 32300;
   32296; 32292; 32287; 32283; 32279; 32274; 32270; 32265;
   32261; 32256; 32252; 32247; 32243; 32238; 32233; 32229;
   32224; 32219; 32215; 32210; 32205; 32200; 32196; 32191;
   32186; 32181; 32176; 32172; 32167; 32162; 32157; 32152;
   32147; 32142; 32137; 32132; 32127; 32122; 32117; 32112;
   32106; 32101; 32096; 32091; 32086; 32080; 32075; 32070;
   32065; 32059; 32054; 32049; 32043; 32038; 32033; 32027;
   32022; 32016; 32011; 32005; 32000; 31994; 31989; 31983;
   31977; 31972; 31966; 31960; 31955; 31949; 31943; 31938].

Definition i4b_sine_to_signed_2 : list Z :=
  [31932; 31926; 31920; 31914; 31909; 31903; 31897; 31891;
   31885; 31879; 31873; 31867; 31861; 31855; 31849; 31843;
   31837; 31831; 31825; 31819; 31812; 31806; 31800; 31794;
   31788; 31781; 31775; 31769; 31763; 31756; 31750; 31743;
   31737; 31731; 31724; 31718; 31711; 31705; 31698; 31692;
   31685; 31679; 31672; 31665; 31659; 31652; 31646; 31639;
   31632; 31625; 31619; 31612; 31605; 31598; 31592; 31585;
   31578; 31571; 31564; 31557; 31550; 31543; 31536; 31529;
   31522; 31515; 31508; 31501; 31494; 31487; 31480; 31473;
   31465; 31458; 31451; 31444; 31437; 31429; 31422; 31415;
   31407; 31400; 31393; 31385; 31378; 31370; 31363; 31356;
   31348; 31341; 31333; 31326; 31318; 31310; 31303; 31295;
   31288; 31280; 31272; 31265; 31257; 31249; 31241; 31234;
   31226; 31218; 31210; 31202; 31194; 31187; 31179; 31171;
   31163; 31155; 31147; 31139; 31131; 31123; 31115; 31107;
   31099; 31090; 31082; 31074; 31066; 31058; 31050; 31041;
   31033; 31025; 31017; 31008; 31000; 30992; 30983; 30975;
   30966; 30958; 30950; 30941; 30933; 30924; 30916; 30907;
   30898; 30890; 30881; 30873; 30864; 30855; 30847; 30838;
   30829; 30821; 30812; 30803; 30794; 30786; 30777; 30768;
   30759; 30750; 30741; 30732; 30723; 30714; 30705; 30696;
   30687; 30678; 30669; 30660; 30651; 30642; 30633; 30624;
   30615; 30605; 30596; 30587; 30578; 30569; 30559; 30550;
   30541; 30531; 30522; 30513; 30503; 30494; 30484; 30475;
   30465; 30456; 30447; 30437; 30427; 30418; 30408; 30399;
   30389; 30379; 30370; 30360; 30350; 30341; 30331; 30321;
   30312; 30302; 30292; 30282; 30272; 30262; 30253; 30243;
   30233; 30223; 30213; 30203; 30193; 30183; 30173; 30163;
   30153; 30143; 30133; 30122; 30112; 30102; 30092; 30082;
   30072; 30061; 30051; 30041; 30031; 30020; 30010; 30000;
   29989; 29979; 29968; 29958; 29948; 29937; 29927; 29916;
   29906; 29895; 29885; 29874; 29863; 29853; 29842; 29832;
   29821; 29810; 29800; 29789; 29778; 29767; 29757; 29746;
   29735; 29724; 29713; 29703; 29692; 29681; 29670; 29659;
   29648; 29637; 29626; 29615; 29604; 29593; 29582; 29571;
   29560; 29549; 29537; 29526; 29515; 29504; 29493; 29482;
   29470; 29459; 29448; 29436; 29425; 29414; 29402; 29391;
   29380; 29368; 29357; 29345; 29334; 29323; 29311; 29300;
   29288; 29276; 29265; 29253; 29242; 29230; 29218; 29207;
   29195; 29183; 29172; 29160; 29148; 29136; 29125; 29113;
   29101; 29089; 29077; 29066; 29054; 29042; 29030; 29018;
   29006; 28994; 28982; 28970; 28958; 28946; 28934; 28922;
   28910; 28897; 28885; 28873; 28861; 28849; 28837; 28824;
   28812; 28800; 28788; 28775; 28763; 28751; 28738; 28726;
   28713; 28701; 28689; 28676; 28664; 28651; 28639; 28626;
   28614; 28601; 28589; 28576; 28563; 28551; 28538; 28525;
   28513; 28500; 28487; 28475; 28462; 28449; 28436; 28424;
   28411; 28398; 28385; 28372; 28359; 28346; 28334; 28321;
   28308; 28295; 28282; 28269; 28256; 28243; 28230; 28217;
   28203; 28190; 28177; 28164; 28151; 28138; 28125; 28111;
   28098; 28085; 28072; 28058; 28045; 28032; 28018; 28005;
   27992; 27978; 27965; 27951; 27938; 27925; 27911; 27898;
   27884; 27871; 27857; 27843; 27830; 27816; 27803; 27789;
   27775; 27762; 27748; 27734; 27721; 27707; 27693; 27679;
   27666; 27652; 27638; 27624; 27610; 27596; 27583; 27569;
   27555; 27541; 27527; 27513; 27499; 27485; 27471; 27457;
   27443; 27429; 27415; 27401; 27386; 27372; 27358; 27344;
   27330; 27316; 27301; 27287; 27273; 27259; 27244; 27230;
   27216; 27201; 27187; 27173; 27158; 27144; 27129; 27115;
   27100; 27086; 27071; 27057; 27042; 27028; 27013; 26999;
   26984; 26970; 26955; 26940; 26926; 26911; 26896; 26882;
   26867; 26852; 26837; 26823; 26808; 26793; 26778; 26763;
   26748; 26734; 26719; 26704; 26689; 26674; 26659; 26644;
   26629; 26614; 26599; 26584; 26569; 26554; 26539; 26524;
   26509; 26493; 26478; 26463; 26448; 26433; 26418; 26402;
   26387; 26372; 26356; 26341; 26326; 26311; 26295; 26280;
   26264; 26249; 26234; 26218; 26203; 26187; 26172; 26156;
   26141; 26125; 26110; 26094; 26079; 26063; 26047; 26032;
   26016; 26001; 25985; 25969; 25953; 25938; 25922; 25906;
   25891; 25875; 25859; 25843; 25827; 25811; 25796; 25780;
   25764; 25748; 25732; 25716; 25700; 25684; 25668; 25652;
   25636; 25620; 25604; 25588; 25572; 25556; 25540; 25524;
   25507; 25491; 25475; 25459; 25443; 25426; 25410; 25394;
   25378; 25361; 25345; 25329; 25312; 25296; 25280; 25263;
   25247; 25230; 25214; 25198; 25181; 25165; 25148; 25132;
   25115; 25099; 25082; 25066; 25049; 25032; 25016; 24999;
   24982; 24966; 24949; 24932; 24916; 24899; 24882; 24866;
   24849; 24832; 24815; 24798; 24782; 24765; 24748; 24731;
   24714; 24697; 24680; 24663; 24646; 24629; 24612; 24595;
   24578; 24561; 24544; 24527; 24510; 24493; 24476; 24459;
   24442; 24425; 24407; 24390; 24373; 24356; 24339; 24321;
   24304; 24287; 24270; 24252; 24235; 24218; 24200; 24183;
   24166; 24148; 24131; 24113; 24096; 24079; 24061; 24044;
   24026; 24009; 23991; 23974; 23956; 23938; 23921; 23903;
   23886; 23868; 23850; 23833; 23815; 23797; 23780; 23762;
   23744; 23726; 23709; 23691; 23673; 23655; 23638; 23620;
   23602; 23584; 23566; 23548; 23530; 23512; 23494; 23477;
   23459; 23441; 23423; 23405; 23387; 23369; 23351; 23332;
   23314; 23296; 23278; 23260; 23242; 23224; 23206; 23187;
   23169; 23151; 23133; 23115; 23096; 23078; 23060; 23042;
   23023; 23005; 22987; 22968; 22950; 22931; 22913; 22895;
   22876; 22858; 22839; 22821; 22802; 22784; 22765; 22747;
   22728; 22710; 22691; 22673; 22654; 22636; 22617; 22598;
   22580; 22561; 22542; 22524; 22505; 22486; 22468; 22449;
   22430; 22411; 22393; 22374; 22355; 22336; 22317; 22298;
   22280; 22261; 22242; 22223; 22204; 22185; 22166; 22147;
   22128; 22109; 22090; 22071; 22052; 22033; 22014; 21995;
   21976; 21957; 21938; 21919; 21899; 21880; 21861; 21842;
   21823; 21804; 21784; 21765; 21746; 21727; 21707; 21688;
   21669; 21649; 21630; 21611; 21591; 21572; 21553; 21533;
   21514; 21494; 21475; 21456; 21436; 21417; 21397; 21378;
   21358; 21339; 21319; 21300; 21280; 21260; 21241; 21221;
   21202; 21182; 21162; 21143; 21123; 21103; 21084; 21064;
   21044; 21024; 21005; 20985; 20965; 20945; 20926; 20906;
   20886; 20866; 20846; 20826; 20807; 20787; 20767; 20747;
   20727; 20707; 20687; 20667; 20647; 20627; 20607; 20587;
   20567; 20547; 20527; 20507; 20487; 20467; 20447; 20427;
   20406; 20386; 20366; 20346; 20326; 20306; 20285; 20265;
   20245; 20225; 20204; 20184; 20164; 20144; 20123; 20103;
   20083; 20062; 20042; 20022; 20001; 19981; 19960; 19940;
   19920; 19899; 19879; 19858; 19838; 19817; 19797; 19776;
   19756; 19735; 19715; 19694; 19673; 19653; 19632; 19612;
   19591; 19570; 19550; 19529; 19508; 19488; 19467; 19446;
   19426; 19405; 19384; 19363; 19343; 19322; 19301; 19280;
   19259; 19239; 19218; 19197; 19176; 19155; 19134; 19113;
   19093; 19072; 19051; 19030; 19009; 18988; 18967; 18946;
   18925; 18904; 18883; 18862; 18841; 18820; 18799; 18777;
   18756; 18735; 18714; 18693; 18672; 18651; 18630; 18608;
   18587; 18566; 18545; 18524; 18502; 18481; 18460; 18439;
   18417; 18396; 18375; 18353; 18332; 18311; 18289; 18268;
   18247; 18225; 18204; 18182; 18161; 18140; 18118; 18097;
   18075; 18054; 18032; 18011; 17989; 17968; 17946; 17925;
   17903; 17882; 17860; 17838; 17817; 17795; 17774; 17752;
   17730; 17709; 17687; 17665; 17644; 17622; 17600; 17579;
   17557; 17535; 17513; 17492; 17470; 17448; 17426; 17405;
   17383; 17361; 17339; 17317; 17295; 17274; 17252; 17230;
   17208; 17186; 17164; 17142; 17120; 17098; 17076; 17054;
   17032; 17010; 16988; 16966; 16944; 16922; 16900; 16878;
   16856; 16834; 16812; 16790; 16768; 16746; 16724; 16701;
   16679; 16657; 16635; 16613; 16591; 16568; 16546; 16524;
   16502; 16479; 16457; 16435; 16413; 16390; 16368; 16346;
   16324; 16301; 16279; 16257; 16234; 16212; 16189; 16167;
   16145; 16122; 16100; 16077; 16055; 16033; 16010; 15988;
   15965; 15943; 15920; 15898; 15875; 15853; 15830; 15808;
   15785; 15763; 15740; 15717; 15695; 15672; 15650; 15627;
   15604; 15582; 15559; 15536; 15514; 15491; 15468; 15446;
   15423; 15400; 15378; 15355; 15332; 15309; 15287; 15264;
   15241; 15218; 15196; 15173; 15150; 15127; 15104; 15081;
   15059; 15036; 15013; 14990; 14967; 14944; 14921; 14898;
   14875; 14852; 14830; 14807; 14784; 14761; 14738; 14715;
   14692; 14669; 14646; 14623; 14600; 14577; 14553; 14530;
   14507; 14484; 14461; 14438; 14415; 14392; 14369; 14346;
   14322; 14299; 14276; 14253; 14230; 14207; 14183; 14160].

Definition i4b_sine_to_signed_3 : list Z :=
  [14137; 14114; 14091; 14067; 14044; 14021; 13998; 13974;
   13951; 13928; 13904; 13881; 13858; 13834; 13811; 13788;
   13764; 13741; 13718; 13694; 13671; 13648; 13624; 13601;
   13577; 13554; 13530; 13507; 13484; 13460; 13437; 13413;
   13390; 13366; 13343; 13319; 13296; 13272; 13249; 13225;
   13202; 13178; 13154; 13131; 13107; 13084; 13060; 13036;
   13013; 12989; 12966; 12942; 12918; 12895; 12871; 12847;
   12824; 12800; 12776; 12753; 12729; 12705; 12681; 12658;
   12634; 12610; 12586; 12563; 12539; 12515; 12491; 12468;
   12444; 12420; 12396; 12372; 12348; 12325; 12301; 12277;
   12253; 12229; 12205; 12181; 12157; 12134; 12110; 12086;
   12062; 12038; 12014; 11990; 11966; 11942; 11918; 11894;
   11870; 11846; 11822; 11798; 11774; 11750; 11726; 11702;
   11678; 11654; 11630; 11606; 11582; 11558; 11534; 11510;
   11485; 11461; 11437; 11413; 11389; 11365; 11341; 11317;
   11292; 11268; 11244; 11220; 11196; 11172; 11147; 11123;
   11099; 11075; 11050; 11026; 11002; 10978; 10954; 10929;
   10905; 10881; 10856; 10832; 10808; 10784; 10759; 10735;
   10711; 10686; 10662; 10638; 10613; 10589; 10565; 10540;
   10516; 10491; 10467; 10443; 10418; 10394; 10370; 10345;
   10321; 10296; 10272; 10247; 10223; 10198; 10174; 10150;
   10125; 10101; 10076; 10052; 10027; 10003; 9978; 9954;
   9929; 9905; 9880; 9855; 9831; 9806; 9782; 9757;
   9733; 9708; 9684; 9659; 9634; 9610; 9585; 9561;
   9536; 9511; 9487; 9462; 9437; 9413; 9388; 9363;
   9339; 9314; 9289; 9265; 9240; 9215; 9191; 9166;
   9141; 9116; 9092; 9067; 9042; 9018; 8993; 8968;
   8943; 8919; 8894; 8869; 8844; 8819; 8795; 8770;
   8745; 8720; 8695; 8671; 8646; 8621; 8596; 8571;
   8546; 8522; 8497; 8472; 8447; 8422; 8397; 8372;
   8348; 8323; 8298; 8273; 8248; 8223; 8198; 8173;
   8148; 8123; 8098; 8074; 8049; 8024; 7999; 7974;
   7949; 7924; 7899; 7874; 7849; 7824; 7799; 7774;
   7749; 7724; 7699; 7674; 7649; 7624; 7599; 7574;
   7549; 7524; 7499; 7474; 7448; 7423; 7398; 7373;
   7348; 7323; 7298; 7273; 7248; 7223; 7198; 7173;
   7147; 7122; 7097; 7072; 7047; 7022; 6997; 6971;
   6946; 6921; 6896; 6871; 6846; 6821; 6795; 6770;
   6745; 6720; 6695; 6669; 6644; 6619; 6594; 6569;
   6543; 6518; 6493; 6468; 6442; 6417; 6392; 6367;
   6342; 6316; 6291; 6266; 6241; 6215; 6190; 6165;
   6139; 6114; 6089; 6064; 6038; 6013; 5988; 5962;
   5937; 5912; 5886; 5861; 5836; 5810; 5785; 5760;
   5734; 5709; 5684; 5658; 5633; 5608; 5582; 5557;
   5532; 5506; 5481; 5456; 5430; 5405; 5379; 5354;
   5329; 5303; 5278; 5252; 5227; 5202; 5176; 5151;
   5125; 5100; 5075; 5049; 5024; 4998; 4973; 4947;
   4922; 4896; 4871; 4846; 4820; 4795; 4769; 4744;
   4718; 4693; 4667; 4642; 4616; 4591; 4565; 4540;
   4514; 4489; 4463; 4438; 4412; 4387; 4361; 4336;
   4310; 4285; 4259; 4234; 4208; 4183; 4157; 4132;
   4106; 4081; 4055; 4030; 4004; 3979; 3953; 3928;
   3902; 3876; 3851; 3825; 3800; 3774; 3749; 3723;
   3697; 3672; 3646; 3621; 3595; 3570; 3544; 3518;
   3493; 3467; 3442; 3416; 3390; 3365; 3339; 3314;
   3288; 3262; 3237; 3211; 3186; 3160; 3134; 3109;
   3083; 3058; 3032; 3006; 2981; 2955; 2929; 2904;
   2878; 2852; 2827; 2801; 2776; 2750; 2724; 2699;
   2673; 2647; 2622; 2596; 2570; 2545; 2519; 2493;
   2468; 2442; 2416; 2391; 2365; 2339; 2314; 2288;
   2262; 2237; 2211; 2185; 2160; 2134; 2108; 2083;
   2057; 2031; 2006; 1980; 1954; 1929; 1903; 1877;
   1851; 1826; 1800; 1774; 1749; 1723; 1697; 1672;
   1646; 1620; 1594; 1569; 1543; 1517; 1492; 1466;
   1440; 1414; 1389; 1363; 1337; 1312; 1286; 1260;
   1234; 1209; 1183; 1157; 1132; 1106; 1080; 1054;
   1029; 1003; 977; 952; 926; 900; 874; 849;
   823; 797; 771; 746; 720; 694; 669; 643;
   617; 591; 566; 540; 514; 488; 463; 437;
   411; 386; 360; 334; 308; 283; 257; 231;
   205; 180; 154; 128; 102; 77; 51; 25;
   0; (-25); (-51); (-77); (-102); (-128); (-154); (-180);
   (-205); (-231); (-257); (-283); (-308); (-334); (-360); (-386);
   (-411); (-437); (-463); (-488); (-514); (-540); (-566); (-591);
   (-617); (-643); (-669); (-694); (-720); (-746); (-771); (-797);
   (-823); (-849); (-874); (-900); (-926); (-952); (-977); (-1003);
   (-1029); (-1054); (-1080); (-1106); (-1132); (-1157); (-1183); (-1209);
   (-1234); (-1260); (-1286); (-1312); (-1337); (-1363); (-1389); (-1414);
   (-1440); (-1466); (-1492); (-1517); (-1543); (-1569); (-1594); (-1620);
   (-1646); (-1672); (-1697); (-1723); (-1749); (-1774); (-1800); (-1826);
   (-1851); (-1877); (-1903); (-1929); (-1954); (-1980); (-2006); (-2031);
   (-2057); (-2083); (-2108); (-2134); (-2160); (-2185); (-2211); (-2237);
   (-2262); (-2288); (-2314); (-2339); (-2365); (-2391); (-2416); (-2442);
   (-2468); (-2493); (-2519); (-2545); (-2570); (-2596); (-2622); (-2647);
   (-2673); (-2699); (-2724); (-2750); (-2776); (-2801); (-2827); (-2852);
   (-2878); (-2904); (-2929); (-2955); (-2981); (-3006); (-3032); (-3058);
   (-3083); (-3109); (-3134); (-3160); (-3186); (-3211); (-3237); (-3262);
   (-3288); (-3314); (-3339); (-3365); (-3390); (-3416); (-3442); (-3467);
   (-3493); (-3518); (-3544); (-3570); (-3595); (-3621); (-3646); (-3672);
   (-3697); (-3723); (-3749); (-3774); (-3800); (-3825); (-3851); (-3876);
   (-3902); (-3928); (-3953); (-3979); (-4004); (-4030); (-4055); (-4081);
   (-4106); (-4132); (-4157); (-4183); (-4208); (-4234); (-4259); (-4285);
   (-4310); (-4336); (-4361); (-4387); (-4412); (-4438); (-4463); (-4489);
   (-4514); (-4540); (-4565); (-4591); (-4616); (-4642); (-4667); (-4693);
   (-4718); (-4744); (-4769); (-4795); (-4820); (-4846); (-4871); (-4896);
   (-4922); (-4947); (-4973); (-4998); (-5024); (-5049); (-5075); (-5100);
   (-5125); (-5151); (-5176); (-5202); (-5227); (-5252); (-5278); (-5303);
   (-5329); (-5354); (-5379); (-5405); (-5430); (-5456); (-5481); (-5506);
   (-5532); (-5557); (-5582); (-5608); (-5633); (-5658); (-5684); (-5709);
   (-5734); (-5760); (-5785); (-5810); (-5836); (-5861); (-5886); (-5912);
   (-5937); (-5962); (-5988); (-6013); (-6038); (-6064); (-6089); (-6114);
   (-6139); (-6165); (-6190); (-6215); (-6241); (-6266); (-6291); (-6316);
   (-6342); (-6367); (-6392); (-6417); (-6442); (-6468); (-6493); (-6518);
   (-6543); (-6569); (-6594); (-6619); (-6644); (-6669); (-6695); (-6720);
   (-6745); (-6770); (-6795); (-6821); (-6846); (-6871); (-6896); (-6921);
   (-6946); (-6971); (-6997); (-7022); (-7047); (-7072); (-7097); (-7122);
   (-7147); (-7173); (-7198); (-7223); (-7248); (-7273); (-7298); (-7323);
   (-7348); (-7373); (-7398); (-7423); (-7448); (-7474); (-7499); (-7524);
   (-7549); (-7574); (-7599); (-7624); (-7649); (-7674); (-7699); (-7724);
   (-7749); (-7774); (-7799); (-7824); (-7849); (-7874); (-7899); (-7924);
   (-7949); (-7974); (-7999); (-8024); (-8049); (-8074); (-8098); (-8123);
   (-8148); (-8173); (-8198); (-8223); (-8248); (-8273); (-8298); (-8323);
   (-8348); (-8372); (-8397); (-8422); (-8447); (-8472); (-8497); (-8522);
   (-8546); (-8571); (-8596); (-8621); (-8646); (-8671); (-8695); (-8720);
   (-8745); (-8770); (-8795); (-8819); (-8844); (-8869); (-8894); (-8919);
   (-8943); (-8968); (-8993); (-9018); (-9042); (-9067); (-9092); (-9116);
   (-9141); (-9166); (-9191); (-9215); (-9240); (-9265); (-9289); (-9314);
   (-9339); (-9363); (-9388); (-9413); (-9437); (-9462); (-9487); (-9511);
   (-9536); (-9561); (-9585); (-9610); (-9634); (-9659); (-9684); (-9708);
   (-9733); (-9757); (-9782); (-9806); (-9831); (-9855); (-9880); (-9905);
   (-9929); (-9954); (-9978); (-10003); (-10027); (-10052); (-10076); (-10101);
   (-10125); (-10150); (-10174); (-10198); (-10223); (-10247); (-10272); (-10296);
   (-10321); (-10345); (-10370); (-10394); (-10418); (-10443); (-10467); (-10491);
   (-10516); (-10540); (-10565); (-10589); (-10613); (-10638); (-10662); (-10686);
   (-10711); (-10735); (-10759); (-10784); (-10808); (-10832); (-10856); (-10881);
   (-10905); (-10929); (-10954); (-10978); (-11002); (-11026); (-11050); (-11075);
   (-11099); (-11123); (-11147); (-11172); (-11196); (-11220); (-11244); (-11268);
   (-11292); (-11317); (-11341); (-11365); (-11389); (-11413); (-11437); (-11461);
   (-11485); (-11510); (-11534); (-11558); (-11582); (-11606); (-11630); (-11654);
   (-11678); (-11702); (-11726); (-11750); (-11774); (-11798); (-11822); (-11846);
   (-11870); (-11894); (-11918); (-11942); (-11966); (-11990); (-12014); (-12038);
   (-12062); (-12086); (-12110); (-12134); (-12157); (-12181); (-12205); (-12229);
   (-12253); (-12277); (-12301); (-12325); (-12348); (-12372); (-12396); (-12420);
   (-12444); (-12468); (-12491); (-12515); (-12539); (-12563); (-12586); (-12610);
   (-12634); (-12658); (-12681); (-12705); (-12729); (-12753); (-12776); (-12800);
   (-12824); (-12847); (-12871); (-12895); (-12918); (-12942); (-12966); (-12989);
   (-13013); (-13036); (-13060); (-13084); (-13107); (-13131); (-13154); (-13178);
   (-13202); (-13225); (-13249); (-13272); (-13296); (-13319); (-13343); (-13366);
   (-13390); (-13413); (-13437); (-13460); (-13484); (-13507); (-13530); (-13554);
   (-13577); (-13601); (-13624); (-13648); (-13671); (-13694); (-13718); (-13741);
   (-13764); (-13788); (-13811); (-13834); (-13858); (-13881); (-13904); (-13928);
   (-13951); (-13974); (-13998); (-14021); (-14044); (-14067); (-14091); (-14114);
   (-14137); (-14160); (-14183); (-14207); (-14230); (-14253); (-14276); (-14299)].

Definition i4b_sine_to_signed_4 : list Z :=
  [(-14322); (-14346); (-14369); (-14392); (-14415); (-14438); (-14461); (-14484);
   (-14507); (-14530); (-14553); (-14577); (-14600); (-14623); (-14646); (-14669);
   (-14692); (-14715); (-14738); (-14761); (-14784); (-14807); (-14830); (-14852);
   (-14875); (-14898); (-14921); (-14944); (-14967); (-14990); (-15013); (-15036);
   (-15059); (-15081); (-15104); (-15127); (-15150); (-15173); (-15196); (-15218);
   (-15241); (-15264); (-15287); (-15309); (-15332); (-15355); (-15378); (-15400);
   (-15423); (-15446); (-15468); (-15491); (-15514); (-15536); (-15559); (-15582);
   (-15604); (-15627); (-15650); (-15672); (-15695); (-15717); (-15740); (-15763);
   (-15785); (-15808); (-15830); (-15853); (-15875); (-15898); (-15920); (-15943);
   (-15965); (-15988); (-16010); (-16033); (-16055); (-16077); (-16100); (-16122);
   (-16145); (-16167); (-16189); (-16212); (-16234); (-16257); (-16279); (-16301);
   (-16324); (-16346); (-16368); (-16390); (-16413); (-16435); (-16457); (-16479);
   (-16502); (-16524); (-16546); (-16568); (-16591); (-16613); (-16635); (-16657);
   (-16679); (-16701); (-16724); (-16746); (-16768); (-16790); (-16812); (-16834);
   (-16856); (-16878); (-16900); (-16922); (-16944); (-16966); (-16988); (-17010);
   (-17032); (-17054); (-17076); (-17098); (-17120); (-17142); (-17164); (-17186);
   (-17208); (-17230); (-17252); (-17274); (-17295); (-17317); (-17339); (-17361);
   (-17383); (-17405); (-17426); (-17448); (-17470); (-17492); (-17513); (-17535);
   (-17557); (-17579); (-17600); (-17622); (-17644); (-17665); (-17687); (-17709);
   (-17730); (-17752); (-17774); (-17795); (-17817); (-17838); (-17860); (-17882);
   (-17903); (-17925); (-17946); (-17968); (-17989); (-18011); (-18032); (-18054);
   (-18075); (-18097); (-18118); (-18140); (-18161); (-18182); (-18204); (-18225);
   (-18247); (-18268); (-18289); (-18311); (-18332); (-18353); (-18375); (-18396);
   (-18417); (-18439); (-18460); (-18481); (-18502); (-18524); (-18545); (-18566);
   (-18587); (-18608); (-18630); (-18651); (-18672); (-18693); (-18714); (-18735);
   (-18756); (-18777); (-18799); (-18820); (-18841); (-18862); (-18883); (-18904);
   (-18925); (-18946); (-18967); (-18988); (-19009); (-19030); (-19051); (-19072);
   (-19093); (-19113); (-19134); (-19155); (-19176); (-19197); (-19218); (-19239);
   (-19259); (-19280); (-19301); (-19322); (-19343); (-19363); (-19384); (-19405);
   (-19426); (-19446); (-19467); (-19488); (-19508); (-19529); (-19550); (-19570);
   (-19591); (-19612); (-19632); (-19653); (-19673); (-19694); (-19715); (-19735);
   (-19756); (-19776); (-19797); (-19817); (-19838); (-19858); (-19879); (-19899);
   (-19920); (-19940); (-19960); (-19981); (-20001); (-20022); (-20042); (-20062);
   (-20083); (-20103); (-20123); (-20144); (-20164); (-20184); (-20204); (-20225);
   (-20245); (-20265); (-20285); (-20306); (-20326); (-20346); (-20366); (-20386);
   (-20406); (-20427); (-20447); (-20467); (-20487); (-20507); (-20527); (-20547);
   (-20567); (-20587); (-20607); (-20627); (-20647); (-20667); (-20687); (-20707);
   (-20727); (-20747); (-20767); (-20787); (-20807); (-20826); (-20846); (-20866);
   (-20886); (-20906); (-20926); (-20945); (-20965); (-20985); (-21005); (-21024);
   (-21044); (-21064); (-21084); (-21103); (-21123); (-21143); (-21162); (-21182);
   (-21202); (-21221); (-21241); (-21260); (-21280); (-21300); (-21319); (-21339);
   (-21358); (-21378); (-21397); (-21417); (-21436); (-21456); (-21475); (-21494);
   (-21514); (-21533); (-21553); (-21572); (-21591); (-21611); (-21630); (-21649);
   (-21669); (-21688); (-21707); (-21727); (-21746); (-21765); (-21784); (-21804);
   (-21823); (-21842); (-21861); (-21880); (-21899); (-21919); (-21938); (-21957);
   (-21976); (-21995); (-22014); (-22033); (-22052); (-22071); (-22090); (-22109);
   (-22128); (-22147); (-22166); (-22185); (-22204); (-22223); (-22242); (-22261);
   (-22280); (-22298); (-22317); (-22336); (-22355); (-22374); (-22393); (-22411);
   (-22430); (-22449); (-22468); (-22486); (-22505); (-22524); (-22542); (-22561);
   (-22580); (-22598); (-22617); (-22636); (-22654); (-22673); (-22691); (-22710);
   (-22728); (-22747); (-22765); (-22784); (-22802); (-22821); (-22839); (-22858);
   (-22876); (-22895); (-22913); (-22931); (-22950); (-22968); (-22987); (-23005);
   (-23023); (-23042); (-23060); (-23078); (-23096); (-23115); (-23133); (-23151);
   (-23169); (-23187); (-23206); (-23224); (-23242); (-23260); (-23278); (-23296);
   (-23314); (-23332); (-23351); (-23369); (-23387); (-23405); (-23423); (-23441);
   (-23459); (-23477); (-23494); (-23512); (-23530); (-23548); (-23566); (-23584);
   (-23602); (-23620); (-23638); (-23655); (-23673); (-23691); (-23709); (-23726);
   (-23744); (-23762); (-23780); (-23797); (-23815); (-23833); (-23850); (-23868);
   (-23886); (-23903); (-23921); (-23938); (-23956); (-23974); (-23991); (-24009);
   (-24026); (-24044); (-24061); (-24079); (-24096); (-24113); (-24131); (-24148);
   (-24166); (-24183); (-24200); (-24218); (-24235); (-24252); (-24270); (-24287);
   (-24304); (-24321); (-24339); (-24356); (-24373); (-24390); (-24407); (-24425);
   (-24442); (-24459); (-24476); (-24493); (-24510); (-24527); (-24544); (-24561);
   (-24578); (-24595); (-24612); (-24629); (-24646); (-24663); (-24680); (-24697);
   (-24714); (-24731); (-24748); (-24765); (-24782); (-24798); (-24815); (-24832);
   (-24849); (-24866); (-24882); (-24899); (-24916); (-24932); (-24949); (-24966);
   (-24982); (-24999); (-25016); (-25032); (-25049); (-25066); (-25082); (-25099);
   (-25115); (-25132); (-25148); (-25165); (-25181); (-25198); (-25214); (-25230);
   (-25247); (-25263); (-25280); (-25296); (-25312); (-25329); (-25345); (-25361);
   (-25378); (-25394); (-25410); (-25426); (-25443); (-25459); (-25475); (-25491);
   (-25507); (-25524); (-25540); (-25556); (-25572); (-25588); (-25604); (-25620);
   (-25636); (-25652); (-25668); (-25684); (-25700); (-25716); (-25732); (-25748);
   (-25764); (-25780); (-25796); (-25811); (-25827); (-25843); (-25859); (-25875);
   (-25891); (-25906); (-25922); (-25938); (-25953); (-25969); (-25985); (-26001);
   (-26016); (-26032); (-26047); (-26063); (-26079); (-26094); (-26110); (-26125);
   (-26141); (-26156); (-26172); (-26187); (-26203); (-26218); (-26234); (-26249);
   (-26264); (-26280); (-26295); (-26311); (-26326); (-26341); (-26356); (-26372);
   (-26387); (-26402); (-26418); (-26433); (-26448); (-26463); (-26478); (-26493);
   (-26509); (-26524); (-26539); (-26554); (-26569); (-26584); (-26599); (-26614);
   (-26629); (-26644); (-26659); (-26674); (-26689); (-26704); (-26719); (-26734);
   (-26748); (-26763); (-26778); (-26793); (-26808); (-26823); (-26837); (-26852);
   (-26867); (-26882); (-26896); (-26911); (-26926); (-26940); (-26955); (-26970);
   (-26984); (-26999); (-27013); (-27028); (-27042); (-27057); (-27071); (-27086);
   (-27100); (-27115); (-27129); (-27144); (-27158); (-27173); (-27187); (-27201);
   (-27216); (-27230); (-27244); (-27259); (-27273); (-27287); (-27301); (-27316);
   (-27330); (-27344); (-27358); (-27372); (-27386); (-27401); (-27415); (-27429);
   (-27443); (-27457); (-27471); (-27485); (-27499); (-27513); (-27527); (-27541);
   (-27555); (-27569); (-27583); (-27596); (-27610); (-27624); (-27638); (-27652);
   (-27666); (-27679); (-27693); (-27707); (-27721); (-27734); (-27748); (-27762);
   (-27775); (-27789); (-27803); (-27816); (-27830); (-27843); (-27857); (-27871);
   (-27884); (-27898); (-27911); (-27925); (-27938); (-27951); (-27965); (-27978);
   (-27992); (-28005); (-28018); (-28032); (-28045); (-28058); (-28072); (-28085);
   (-28098); (-28111); (-28125); (-28138); (-28151); (-28164); (-28177); (-28190);
   (-28203); (-28217); (-28230); (-28243); (-28256); (-28269); (-28282); (-28295);
   (-28308); (-28321); (-28334); (-28346); (-28359); (-28372); (-28385); (-28398);
   (-28411); (-28424); (-28436); (-28449); (-28462); (-28475); (-28487); (-28500);
   (-28513); (-28525); (-28538); (-28551); (-28563); (-28576); (-28589); (-28601);
   (-28614); (-28626); (-28639); (-28651); (-28664); (-28676); (-28689); (-28701);
   (-28713); (-28726); (-28738); (-28751); (-28763); (-28775); (-28788); (-28800);
   (-28812); (-28824); (-28837); (-28849); (-28861); (-28873); (-28885); (-28897);
   (-28910); (-28922); (-28934); (-28946); (-28958); (-28970); (-28982); (-28994);
   (-29006); (-29018); (-29030); (-29042); (-29054); (-29066); (-29077); (-29089);
   (-29101); (-29113); (-29125); (-29136); (-29148); (-29160); (-29172); (-29183);
   (-29195); (-29207); (-29218); (-29230); (-29242); (-29253); (-29265); (-29276);
   (-29288); (-29300); (-29311); (-29323); (-29334); (-29345); (-29357); (-29368);
   (-29380); (-29391); (-29402); (-29414); (-29425); (-29436); (-29448); (-29459);
   (-29470); (-29482); (-29493); (-29504); (-29515); (-29526); (-29537); (-29549);
   (-29560); (-29571); (-29582); (-29593); (-29604); (-29615); (-29626); (-29637);
   (-29648); (-29659); (-29670); (-29681); (-29692); (-29703); (-29713); (-29724);
   (-29735); (-29746); (-29757); (-29767); (-29778); (-29789); (-29800); (-29810);
   (-29821); (-29832); (-29842); (-29853); (-29863); (-29874); (-29885); (-29895);
   (-29906); (-29916); (-29927); (-29937); (-29948); (-29958); (-29968); (-29979);
   (-29989); (-30000); (-30010); (-30020); (-30031); (-30041); (-30051); (-30061);
   (-30072); (-30082); (-30092); (-30102); (-30112); (-30122); (-30133); (-30143);
   (-30153); (-30163); (-30173); (-30183); (-30193); (-30203); (-30213); (-30223);
   (-30233); (-30243); (-30253); (-30262); (-30272); (-30282); (-30292); (-30302);
   (-30312); (-30321); (-30331); (-30341); (-30350); (-30360); (-30370); (-30379);
   (-30389); (-30399); (-30408); (-30418); (-30427); (-30437); (-30447); (-30456);
   (-30465); (-30475); (-30484); (-30494); (-30503); (-30513); (-30522); (-30531);
   (-30541); (-30550); (-30559); (-30569); (-30578); (-30587); (-30596); (-30605);
   (-30615); (-30624); (-30633); (-30642); (-30651); (-30660); (-30669); (-30678);
   (-30687); (-30696); (-30705); (-30714); (-30723); (-30732); (-30741); (-30750);
   (-30759); (-30768); (-30777); (-30786); (-30794); (-30803); (-30812); (-30821);
   (-30829); (-30838); (-30847); (-30855); (-30864); (-30873); (-30881); (-30890);
   (-30898); (-30907); (-30916); (-30924); (-30933); (-30941); (-30950); (-30958);
   (-30966); (-30975); (-30983); (-30992); (-31000); (-31008); (-31017); (-31025);
   (-31033); (-31041); (-31050); (-31058); (-31066); (-31074); (-31082); (-31090);
   (-31099); (-31107); (-31115); (-31123); (-31131); (-31139); (-31147); (-31155);
   (-31163); (-31171); (-31179); (-31187); (-31194); (-31202); (-31210); (-31218);
   (-31226); (-31234); (-31241); (-31249); (-31257); (-31265); (-31272); (-31280);
   (-31288); (-31295); (-31303); (-31310); (-31318); (-31326); (-31333); (-31341);
   (-31348); (-31356); (-31363); (-31370); (-31378); (-31385); (-31393); (-31400);
   (-31407); (-31415); (-31422); (-31429); (-31437); (-31444); (-31451); (-31458);
   (-31465); (-31473); (-31480); (-31487); (-31494); (-31501); (-31508); (-31515);
   (-31522); (-31529); (-31536); (-31543); (-31550); (-31557); (-31564); (-31571);
   (-31578); (-31585); (-31592); (-31598); (-31605); (-31612); (-31619); (-31625);
   (-31632); (-31639); (-31646); (-31652); (-31659); (-31665); (-31672); (-31679);
   (-31685); (-31692); (-31698); (-31705); (-31711); (-31718); (-31724); (-31731);
   (-31737); (-31743); (-31750); (-31756); (-31763); (-31769); (-31775); (-31781);
   (-31788); (-31794); (-31800); (-31806); (-31812); (-31819); (-31825); (-31831);
   (-31837); (-31843); (-31849); (-31855); (-31861); (-31867); (-31873); (-31879);
   (-31885); (-31891); (-31897); (-31903); (-31909); (-31914); (-31920); (-31926);
   (-31932); (-31938); (-31943); (-31949); (-31955); (-31960); (-31966); (-31972)].

Definition i4b_sine_to_signed_5 : list Z :=
  [(-31977); (-31983); (-31989); (-31994); (-32000); (-32005); (-32011); (-32016);
   (-32022); (-32027); (-32033); (-32038); (-32043); (-32049); (-32054); (-32059);
   (-32065); (-32070); (-32075); (-32080); (-32086); (-32091); (-32096); (-32101);
   (-32106); (-32112); (-32117); (-32122); (-32127); (-32132); (-32137); (-32142);
   (-32147); (-32152); (-32157); (-32162); (-32167); (-32172); (-32176); (-32181);
   (-32186); (-32191); (-32196); (-32200); (-32205); (-32210); (-32215); (-32219);
   (-32224); (-32229); (-32233); (-32238); (-32243); (-32247); (-32252); (-32256);
   (-32261); (-32265); (-32270); (-32274); (-32279); (-32283); (-32287); (-32292);
   (-32296); (-32300); (-32305); (-32309); (-32313); (-32318); (-32322); (-32326);
   (-32330); (-32334); (-32339); (-32343); (-32347); (-32351); (-32355); (-32359);
   (-32363); (-32367); (-32371); (-32375); (-32379); (-32383); (-32387); (-32391);
   (-32395); (-32399); (-32402); (-32406); (-32410); (-32414); (-32417); (-32421);
   (-32425); (-32429); (-32432); (-32436); (-32440); (-32443); (-32447); (-32450);
   (-32454); (-32457); (-32461); (-32464); (-32468); (-32471); (-32475); (-32478);
   (-32482); (-32485); (-32488); (-32492); (-32495); (-32498); (-32502); (-32505);
   (-32508); (-32511); (-32515); (-32518); (-32521); (-32524); (-32527); (-32530);
   (-32533); (-32536); (-32539); (-32542); (-32545); (-32548); (-32551); (-32554);
   (-32557); (-32560); (-32563); (-32566); (-32569); (-32571); (-32574); (-32577);
   (-32580); (-32582); (-32585); (-32588); (-32591); (-32593); (-32596); (-32598);
   (-32601); (-32604); (-32606); (-32609); (-32611); (-32614); (-32616); (-32619);
   (-32621); (-32623); (-32626); (-32628); (-32631); (-32633); (-32635); (-32638);
   (-32640); (-32642); (-32644); (-32647); (-32649); (-32651); (-32653); (-32655);
   (-32657); (-32659); (-32661); (-32663); (-32665); (-32667); (-32669); (-32671);
   (-32673); (-32675); (-32677); (-32679); (-32681); (-32683); (-32685); (-32686);
   (-32688); (-32690); (-32692); (-32694); (-32695); (-32697); (-32699); (-32700);
   (-32702); (-32703); (-32705); (-32707); (-32708); (-32710); (-32711); (-32713);
   (-32714); (-32716); (-32717); (-32718); (-32720); (-32721); (-32722); (-32724);
   (-32725); (-32726); (-32728); (-32729); (-32730); (-32731); (-32733); (-32734);
   (-32735); (-32736); (-32737); (-32738); (-32739); (-32740); (-32741); (-32742);
   (-32743); (-32744); (-32745); (-32746); (-32747); (-32748); (-32749); (-32750);
   (-32750); (-32751); (-32752); (-32753); (-32753); (-32754); (-32755); (-32755);
   (-32756); (-32757); (-32757); (-32758); (-32759); (-32759); (-32760); (-32760);
   (-32761); (-32761); (-32762); (-32762); (-32762); (-32763); (-32763); (-32764);
   (-32764); (-32764); (-32765); (-32765); (-32765); (-32765); (-32765); (-32766);
   (-32766); (-32766); (-32766); (-32766); (-32766); (-32766); (-32766); (-32766);
   (-32767); (-32766); (-32766); (-32766); (-32766); (-32766); (-32766); (-32766);
   (-32766); (-32766); (-32765); (-32765); (-32765); (-32765); (-32765); (-32764);
   (-32764); (-32764); (-32763); (-32763); (-32762); (-32762); (-32762); (-32761);
   (-32761); (-32760); (-32760); (-32759); (-32759); (-32758); (-32757); (-32757);
   (-32756); (-32755); (-32755); (-32754); (-32753); (-32753); (-32752); (-32751);
   (-32750); (-32750); (-32749); (-32748); (-32747); (-32746); (-32745); (-32744);
   (-32743); (-32742); (-32741); (-32740); (-32739); (-32738); (-32737); (-32736);
   (-32735); (-32734); (-32733); (-32731); (-32730); (-32729); (-32728); (-32726);
   (-32725); (-32724); (-32722); (-32721); (-32720); (-32718); (-32717); (-32716);
   (-32714); (-32713); (-32711); (-32710); (-32708); (-32707); (-32705); (-32703);
   (-32702); (-32700); (-32699); (-32697); (-32695); (-32694); (-32692); (-32690);
   (-32688); (-32686); (-32685); (-32683); (-32681); (-32679); (-32677); (-32675);
   (-32673); (-32671); (-32669); (-32667); (-32665); (-32663); (-32661); (-32659);
   (-32657); (-32655); (-32653); (-32651); (-32649); (-32647); (-32644); (-32642);
   (-32640); (-32638); (-32635); (-32633); (-32631); (-32628); (-32626); (-32623);
   (-32621); (-32619); (-32616); (-32614); (-32611); (-32609); (-32606); (-32604);
   (-32601); (-32598); (-32596); (-32593); (-32591); (-32588); (-32585); (-32582);
   (-32580); (-32577); (-32574); (-32571); (-32569); (-32566); (-32563); (-32560);
   (-32557); (-32554); (-32551); (-32548); (-32545); (-32542); (-32539); (-32536);
   (-32533); (-32530); (-32527); (-32524); (-32521); (-32518); (-32515); (-32511);
   (-32508); (-32505); (-32502); (-32498); (-32495); (-32492); (-32488); (-32485);
   (-32482); (-32478); (-32475); (-32471); (-32468); (-32464); (-32461); (-32457);
   (-32454); (-32450); (-32447); (-32443); (-32440); (-32436); (-32432); (-32429);
   (-32425); (-32421); (-32417); (-32414); (-32410); (-32406); (-32402); (-32399);
   (-32395); (-32391); (-32387); (-32383); (-32379); (-32375); (-32371); (-32367);
   (-32363); (-32359); (-32355); (-32351); (-32347); (-32343); (-32339); (-32334);
   (-32330); (-32326); (-32322); (-32318); (-32313); (-32309); (-32305); (-32300);
   (-32296); (-32292); (-32287); (-32283); (-32279); (-32274); (-32270); (-32265);
   (-32261); (-32256); (-32252); (-32247); (-32243); (-32238); (-32233); (-32229);
   (-32224); (-32219); (-32215); (-32210); (-32205); (-32200); (-32196); (-32191);
   (-32186); (-32181); (-32176); (-32172); (-32167); (-32162); (-32157); (-32152);
   (-32147); (-32142); (-32137); (-32132); (-32127); (-32122); (-32117); (-32112);
   (-32106); (-32101); (-32096); (-32091); (-32086); (-32080); (-32075); (-32070);
   (-32065); (-32059); (-32054); (-32049); (-32043); (-32038); (-32033); (-32027);
   (-32022); (-32016); (-32011); (-32005); (-32000); (-31994); (-31989); (-31983);
   (-31977); (-31972); (-31966); (-31960); (-31955); (-31949); (-31943); (-31938);
   (-31932); (-31926); (-31920); (-31914); (-31909); (-31903); (-31897); (-31891);
   (-31885); (-31879); (-31873); (-31867); (-31861); (-31855); (-31849); (-31843);
   (-31837); (-31831); (-31825); (-31819); (-31812); (-31806); (-31800); (-31794);
   (-31788); (-31781); (-31775); (-31769); (-31763); (-31756); (-31750); (-31743);
   (-31737); (-31731); (-31724); (-31718); (-31711); (-31705); (-31698); (-31692);
   (-31685); (-31679); (-31672); (-31665); (-31659); (-31652); (-31646); (-31639);
   (-31632); (-31625); (-31619); (-31612); (-31605); (-31598); (-31592); (-31585);
   (-31578); (-31571); (-31564); (-31557); (-31550); (-31543); (-31536); (-31529);
   (-31522); (-31515); (-31508); (-31501); (-31494); (-31487); (-31480); (-31473);
   (-31465); (-31458); (-31451); (-31444); (-31437); (-31429); (-31422); (-31415);
   (-31407); (-31400); (-31393); (-31385); (-31378); (-31370); (-31363); (-31356);
   (-31348); (-31341); (-31333); (-31326); (-31318); (-31310); (-31303); (-31295);
   (-31288); (-31280); (-31272); (-31265); (-31257); (-31249); (-31241); (-31234);
   (-31226); (-31218); (-31210); (-31202); (-31194); (-31187); (-31179); (-31171);
   (-31163); (-31155); (-31147); (-31139); (-31131); (-31123); (-31115); (-31107);
   (-31099); (-31090); (-31082); (-31074); (-31066); (-31058); (-31050); (-31041);
   (-31033); (-31025); (-31017); (-31008); (-31000); (-30992); (-30983); (-30975);
   (-30966); (-30958); (-30950); (-30941); (-30933); (-30924); (-30916); (-30907);
   (-30898); (-30890); (-30881); (-30873); (-30864); (-30855); (-30847); (-30838);
   (-30829); (-30821); (-30812); (-30803); (-30794); (-30786); (-30777); (-30768);
   (-30759); (-30750); (-30741); (-30732); (-30723); (-30714); (-30705); (-30696);
   (-30687); (-30678); (-30669); (-30660); (-30651); (-30642); (-30633); (-30624);
   (-30615); (-30605); (-30596); (-30587); (-30578); (-30569); (-30559); (-30550);
   (-30541); (-30531); (-30522); (-30513); (-30503); (-30494); (-30484); (-30475);
   (-30465); (-30456); (-30447); (-30437); (-30427); (-30418); (-30408); (-30399);
   (-30389); (-30379); (-30370); (-30360); (-30350); (-30341); (-30331); (-30321);
   (-30312); (-30302); (-30292); (-30282); (-30272); (-30262); (-30253); (-30243);
   (-30233); (-30223); (-30213); (-30203); (-30193); (-30183); (-30173); (-30163);
   (-30153); (-30143); (-30133); (-30122); (-30112); (-30102); (-30092); (-30082);
   (-30072); (-30061); (-30051); (-30041); (-30031); (-30020); (-30010); (-30000);
   (-29989); (-29979); (-29968); (-29958); (-29948); (-29937); (-29927); (-29916);
   (-29906); (-29895); (-29885); (-29874); (-29863); (-29853); (-29842); (-29832);
   (-29821); (-29810); (-29800); (-29789); (-29778); (-29767); (-29757); (-29746);
   (-29735); (-29724); (-29713); (-29703); (-29692); (-29681); (-29670); (-29659);
   (-29648); (-29637); (-29626); (-29615); (-29604); (-29593); (-29582); (-29571);
   (-29560); (-29549); (-29537); (-29526); (-29515); (-29504); (-29493); (-29482);
   (-29470); (-29459); (-29448); (-29436); (-29425); (-29414); (-29402); (-29391);
   (-29380); (-29368); (-29357); (-29345); (-29334); (-29323); (-29311); (-29300);
   (-29288); (-29276); (-29265); (-29253); (-29242); (-29230); (-29218); (-29207);
   (-29195); (-29183); (-29172); (-29160); (-29148); (-29136); (-29125); (-29113);
   (-29101); (-29089); (-29077); (-29066); (-29054); (-29042); (-29030); (-29018);
   (-29006); (-28994); (-28982); (-28970); (-28958); (-28946); (-28934); (-28922);
   (-28910); (-28897); (-28885); (-28873); (-28861); (-28849); (-28837); (-28824);
   (-28812); (-28800); (-28788); (-28775); (-28763); (-28751); (-28738); (-28726);
   (-28713); (-28701); (-28689); (-28676); (-28664); (-28651); (-28639); (-28626);
   (-28614); (-28601); (-28589); (-28576); (-28563); (-28551); (-28538); (-28525);
   (-28513); (-28500); (-28487); (-28475); (-28462); (-28449); (-28436); (-28424);
   (-28411); (-28398); (-28385); (-28372); (-28359); (-28346); (-28334); (-28321);
   (-28308); (-28295); (-28282); (-28269); (-28256); (-28243); (-28230); (-28217);
   (-28203); (-28190); (-28177); (-28164); (-28151); (-28138); (-28125); (-28111);
   (-28098); (-28085); (-28072); (-28058); (-28045); (-28032); (-28018); (-28005);
   (-27992); (-27978); (-27965); (-27951); (-27938); (-27925); (-27911); (-27898);
   (-27884); (-27871); (-27857); (-27843); (-27830); (-27816); (-27803); (-27789);
   (-27775); (-27762); (-27748); (-27734); (-27721); (-27707); (-27693); (-27679);
   (-27666); (-27652); (-27638); (-27624); (-27610); (-27596); (-27583); (-27569);
   (-27555); (-27541); (-27527); (-27513); (-27499); (-27485); (-27471); (-27457);
   (-27443); (-27429); (-27415); (-27401); (-27386); (-27372); (-27358); (-27344);
   (-27330); (-27316); (-27301); (-27287); (-27273); (-27259); (-27244); (-27230);
   (-27216); (-27201); (-27187); (-27173); (-27158); (-27144); (-27129); (-27115);
   (-27100); (-27086); (-27071); (-27057); (-27042); (-27028); (-27013); (-26999);
   (-26984); (-26970); (-26955); (-26940); (-26926); (-26911); (-26896); (-26882);
   (-26867); (-26852); (-26837); (-26823); (-26808); (-26793); (-26778); (-26763);
   (-26748); (-26734); (-26719); (-26704); (-26689); (-26674); (-26659); (-26644);
   (-26629); (-26614); (-26599); (-26584); (-26569); (-26554); (-26539); (-26524);
   (-26509); (-26493); (-26478); (-26463); (-26448); (-26433); (-26418); (-26402);
   (-26387); (-26372); (-26356); (-26341); (-26326); (-26311); (-26295); (-26280);
   (-26264); (-26249); (-26234); (-26218); (-26203); (-26187); (-26172); (-26156);
   (-26141); (-26125); (-26110); (-26094); (-26079); (-26063); (-26047); (-26032);
   (-26016); (-26001); (-25985); (-25969); (-25953); (-25938); (-25922); (-25906);
   (-25891); (-25875); (-25859); (-25843); (-25827); (-25811); (-25796); (-25780);
   (-25764); (-25748); (-25732); (-25716); (-25700); (-25684); (-25668); (-25652);
   (-25636); (-25620); (-25604); (-25588); (-25572); (-25556); (-25540); (-25524)].

Definition i4b_sine_to_signed_6 : list Z :=
  [(-25507); (-25491); (-25475); (-25459); (-25443); (-25426); (-25410); (-25394);
   (-25378); (-25361); (-25345); (-25329); (-25312); (-25296); (-25280); (-25263);
   (-25247); (-25230); (-25214); (-25198); (-25181); (-25165); (-25148); (-25132);
   (-25115); (-25099); (-25082); (-25066); (-25049); (-25032); (-25016); (-24999);
   (-24982); (-24966); (-24949); (-24932); (-24916); (-24899); (-24882); (-24866);
   (-24849); (-24832); (-24815); (-24798); (-24782); (-24765); (-24748); (-24731);
   (-24714); (-24697); (-24680); (-24663); (-24646); (-24629); (-24612); (-24595);
   (-24578); (-24561); (-24544); (-24527); (-24510); (-24493); (-24476); (-24459);
   (-24442); (-24425); (-24407); (-24390); (-24373); (-24356); (-24339); (-24321);
   (-24304); (-24287); (-24270); (-24252); (-24235); (-24218); (-24200); (-24183);
   (-24166); (-24148); (-24131); (-24113); (-24096); (-24079); (-24061); (-24044);
   (-24026); (-24009); (-23991); (-23974); (-23956); (-23938); (-23921); (-23903);
   (-23886); (-23868); (-23850); (-23833); (-23815); (-23797); (-23780); (-23762);
   (-23744); (-23726); (-23709); (-23691); (-23673); (-23655); (-23638); (-23620);
   (-23602); (-23584); (-23566); (-23548); (-23530); (-23512); (-23494); (-23477);
   (-23459); (-23441); (-23423); (-23405); (-23387); (-23369); (-23351); (-23332);
   (-23314); (-23296); (-23278); (-23260); (-23242); (-23224); (-23206); (-23187);
   (-23169); (-23151); (-23133); (-23115); (-23096); (-23078); (-23060); (-23042);
   (-23023); (-23005); (-22987); (-22968); (-22950); (-22931); (-22913); (-22895);
   (-22876); (-22858); (-22839); (-22821); (-22802); (-22784); (-22765); (-22747);
   (-22728); (-22710); (-22691); (-22673); (-22654); (-22636); (-22617); (-22598);
   (-22580); (-22561); (-22542); (-22524); (-22505); (-22486); (-22468); (-22449);
   (-22430); (-22411); (-22393); (-22374); (-22355); (-22336); (-22317); (-22298);
   (-22280); (-22261); (-22242); (-22223); (-22204); (-22185); (-22166); (-22147);
   (-22128); (-22109); (-22090); (-22071); (-22052); (-22033); (-22014); (-21995);
   (-21976); (-21957); (-21938); (-21919); (-21899); (-21880); (-21861); (-21842);
   (-21823); (-21804); (-21784); (-21765); (-21746); (-21727); (-21707); (-21688);
   (-21669); (-21649); (-21630); (-21611); (-21591); (-21572); (-21553); (-21533);
   (-21514); (-21494); (-21475); (-21456); (-21436); (-21417); (-21397); (-21378);
   (-21358); (-21339); (-21319); (-21300); (-21280); (-21260); (-21241); (-21221);
   (-21202); (-21182); (-21162); (-21143); (-21123); (-21103); (-21084); (-21064);
   (-21044); (-21024); (-21005); (-20985); (-20965); (-20945); (-20926); (-20906);
   (-20886); (-20866); (-20846); (-20826); (-20807); (-20787); (-20767); (-20747);
   (-20727); (-20707); (-20687); (-20667); (-20647); (-20627); (-20607); (-20587);
   (-20567); (-20547); (-20527); (-20507); (-20487); (-20467); (-20447); (-20427);
   (-20406); (-20386); (-20366); (-20346); (-20326); (-20306); (-20285); (-20265);
   (-20245); (-20225); (-20204); (-20184); (-20164); (-20144); (-20123); (-20103);
   (-20083); (-20062); (-20042); (-20022); (-20001); (-19981); (-19960); (-19940);
   (-19920); (-19899); (-19879); (-19858); (-19838); (-19817); (-19797); (-19776);
   (-19756); (-19735); (-19715); (-19694); (-19673); (-19653); (-19632); (-19612);
   (-19591); (-19570); (-19550); (-19529); (-19508); (-19488); (-19467); (-19446);
   (-19426); (-19405); (-19384); (-19363); (-19343); (-19322); (-19301); (-19280);
   (-19259); (-19239); (-19218); (-19197); (-19176); (-19155); (-19134); (-19113);
   (-19093); (-19072); (-19051); (-19030); (-19009); (-18988); (-18967); (-18946);
   (-18925); (-18904); (-18883); (-18862); (-18841); (-18820); (-18799); (-18777);
   (-18756); (-18735); (-18714); (-18693); (-18672); (-18651); (-18630); (-18608);
   (-18587); (-18566); (-18545); (-18524); (-18502); (-18481); (-18460); (-18439);
   (-18417); (-18396); (-18375); (-18353); (-18332); (-18311); (-18289); (-18268);
   (-18247); (-18225); (-18204); (-18182); (-18161); (-18140); (-18118); (-18097);
   (-18075); (-18054); (-18032); (-18011); (-17989); (-17968); (-17946); (-17925);
   (-17903); (-17882); (-17860); (-17838); (-17817); (-17795); (-17774); (-17752);
   (-17730); (-17709); (-17687); (-17665); (-17644); (-17622); (-17600); (-17579);
   (-17557); (-17535); (-17513); (-17492); (-17470); (-17448); (-17426); (-17405);
   (-17383); (-17361); (-17339); (-17317); (-17295); (-17274); (-17252); (-17230);
   (-17208); (-17186); (-17164); (-17142); (-17120); (-17098); (-17076); (-17054);
   (-17032); (-17010); (-16988); (-16966); (-16944); (-16922); (-16900); (-16878);
   (-16856); (-16834); (-16812); (-16790); (-16768); (-16746); (-16724); (-16701);
   (-16679); (-16657); (-16635); (-16613); (-16591); (-16568); (-16546); (-16524);
   (-16502); (-16479); (-16457); (-16435); (-16413); (-16390); (-16368); (-16346);
   (-16324); (-16301); (-16279); (-16257); (-16234); (-16212); (-16189); (-16167);
   (-16145); (-16122); (-16100); (-16077); (-16055); (-16033); (-16010); (-15988);
   (-15965); (-15943); (-15920); (-15898); (-15875); (-15853); (-15830); (-15808);
   (-15785); (-15763); (-15740); (-15717); (-15695); (-15672); (-15650); (-15627);
   (-15604); (-15582); (-15559); (-15536); (-15514); (-15491); (-15468); (-15446);
   (-15423); (-15400); (-15378); (-15355); (-15332); (-15309); (-15287); (-15264);
   (-15241); (-15218); (-15196); (-15173); (-15150); (-15127); (-15104); (-15081);
   (-15059); (-15036); (-15013); (-14990); (-14967); (-14944); (-14921); (-14898);
   (-14875); (-14852); (-14830); (-14807); (-14784); (-14761); (-14738); (-14715);
   (-14692); (-14669); (-14646); (-14623); (-14600); (-14577); (-14553); (-14530);
   (-14507); (-14484); (-14461); (-14438); (-14415); (-14392); (-14369); (-14346);
   (-14322); (-14299); (-14276); (-14253); (-14230); (-14207); (-14183); (-14160);
   (-14137); (-14114); (-14091); (-14067); (-14044); (-14021); (-13998); (-13974);
   (-13951); (-13928); (-13904); (-13881); (-13858); (-13834); (-13811); (-13788);
   (-13764); (-13741); (-13718); (-13694); (-13671); (-13648); (-13624); (-13601);
   (-13577); (-13554); (-13530); (-13507); (-13484); (-13460); (-13437); (-13413);
   (-13390); (-13366); (-13343); (-13319); (-13296); (-13272); (-13249); (-13225);
   (-13202); (-13178); (-13154); (-13131); (-13107); (-13084); (-13060); (-13036);
   (-13013); (-12989); (-12966); (-12942); (-12918); (-12895); (-12871); (-12847);
   (-12824); (-12800); (-12776); (-12753); (-12729); (-12705); (-12681); (-12658);
   (-12634); (-12610); (-12586); (-12563); (-12539); (-12515); (-12491); (-12468);
   (-12444); (-12420); (-12396); (-12372); (-12348); (-12325); (-12301); (-12277);
   (-12253); (-12229); (-12205); (-12181); (-12157); (-12134); (-12110); (-12086);
   (-12062); (-12038); (-12014); (-11990); (-11966); (-11942); (-11918); (-11894);
   (-11870); (-11846); (-11822); (-11798); (-11774); (-11750); (-11726); (-11702);
   (-11678); (-11654); (-11630); (-11606); (-11582); (-11558); (-11534); (-11510);
   (-11485); (-11461); (-11437); (-11413); (-11389); (-11365); (-11341); (-11317);
   (-11292); (-11268); (-11244); (-11220); (-11196); (-11172); (-11147); (-11123);
   (-11099); (-11075); (-11050); (-11026); (-11002); (-10978); (-10954); (-10929);
   (-10905); (-10881); (-10856); (-10832); (-10808); (-10784); (-10759); (-10735);
   (-10711); (-10686); (-10662); (-10638); (-10613); (-10589); (-10565); (-10540);
   (-10516); (-10491); (-10467); (-10443); (-10418); (-10394); (-10370); (-10345);
   (-10321); (-10296); (-10272); (-10247); (-10223); (-10198); (-10174); (-10150);
   (-10125); (-10101); (-10076); (-10052); (-10027); (-10003); (-9978); (-9954);
   (-9929); (-9905); (-9880); (-9855); (-9831); (-9806); (-9782); (-9757);
   (-9733); (-9708); (-9684); (-9659); (-9634); (-9610); (-9585); (-9561);
   (-9536); (-9511); (-9487); (-9462); (-9437); (-9413); (-9388); (-9363);
   (-9339); (-9314); (-9289); (-9265); (-9240); (-9215); (-9191); (-9166);
   (-9141); (-9116); (-9092); (-9067); (-9042); (-9018); (-8993); (-8968);
   (-8943); (-8919); (-8894); (-8869); (-8844); (-8819); (-8795); (-8770);
   (-8745); (-8720); (-8695); (-8671); (-8646); (-8621); (-8596); (-8571);
   (-8546); (-8522); (-8497); (-8472); (-8447); (-8422); (-8397); (-8372);
   (-8348); (-8323); (-8298); (-8273); (-8248); (-8223); (-8198); (-8173);
   (-8148); (-8123); (-8098); (-8074); (-8049); (-8024); (-7999); (-7974);
   (-7949); (-7924); (-7899); (-7874); (-7849); (-7824); (-7799); (-7774);
   (-7749); (-7724); (-7699); (-7674); (-7649); (-7624); (-7599); (-7574);
   (-7549); (-7524); (-7499); (-7474); (-7448); (-7423); (-7398); (-7373);
   (-7348); (-7323); (-7298); (-7273); (-7248); (-7223); (-7198); (-7173);
   (-7147); (-7122); (-7097); (-7072); (-7047); (-7022); (-6997); (-6971);
   (-6946); (-6921); (-6896); (-6871); (-6846); (-6821); (-6795); (-6770);
   (-6745); (-6720); (-6695); (-6669); (-6644); (-6619); (-6594); (-6569);
   (-6543); (-6518); (-6493); (-6468); (-6442); (-6417); (-6392); (-6367);
   (-6342); (-6316); (-6291); (-6266); (-6241); (-6215); (-6190); (-6165);
   (-6139); (-6114); (-6089); (-6064); (-6038); (-6013); (-5988); (-5962);
   (-5937); (-5912); (-5886); (-5861); (-5836); (-5810); (-5785); (-5760);
   (-5734); (-5709); (-5684); (-5658); (-5633); (-5608); (-5582); (-5557);
   (-5532); (-5506); (-5481); (-5456); (-5430); (-5405); (-5379); (-5354);
   (-5329); (-5303); (-5278); (-5252); (-5227); (-5202); (-5176); (-5151);
   (-5125); (-5100); (-5075); (-5049); (-5024); (-4998); (-4973); (-4947);
   (-4922); (-4896); (-4871); (-4846); (-4820); (-4795); (-4769); (-4744);
   (-4718); (-4693); (-4667); (-4642); (-4616); (-4591); (-4565); (-4540);
   (-4514); (-4489); (-4463); (-4438); (-4412); (-4387); (-4361); (-4336);
   (-4310); (-4285); (-4259); (-4234); (-4208); (-4183); (-4157); (-4132);
   (-4106); (-4081); (-4055); (-4030); (-4004); (-3979); (-3953); (-3928);
   (-3902); (-3876); (-3851); (-3825); (-3800); (-3774); (-3749); (-3723);
   (-3697); (-3672); (-3646); (-3621); (-3595); (-3570); (-3544); (-3518);
   (-3493); (-3467); (-3442); (-3416); (-3390); (-3365); (-3339); (-3314);
   (-3288); (-3262); (-3237); (-3211); (-3186); (-3160); (-3134); (-3109);
   (-3083); (-3058); (-3032); (-3006); (-2981); (-2955); (-2929); (-2904);
   (-2878); (-2852); (-2827); (-2801); (-2776); (-2750); (-2724); (-2699);
   (-2673); (-2647); (-2622); (-2596); (-2570); (-2545); (-2519); (-2493);
   (-2468); (-2442); (-2416); (-2391); (-2365); (-2339); (-2314); (-2288);
   (-2262); (-2237); (-2211); (-2185); (-2160); (-2134); (-2108); (-2083);
   (-2057); (-2031); (-2006); (-1980); (-1954); (-1929); (-1903); (-1877);
   (-1851); (-1826); (-1800); (-1774); (-1749); (-1723); (-1697); (-1672);
   (-1646); (-1620); (-1594); (-1569); (-1543); (-1517); (-1492); (-1466);
   (-1440); (-1414); (-1389); (-1363); (-1337); (-1312); (-1286); (-1260);
   (-1234); (-1209); (-1183); (-1157); (-1132); (-1106); (-1080); (-1054);
   (-1029); (-1003); (-977); (-952); (-926); (-900); (-874); (-849);
   (-823); (-797); (-771); (-746); (-720); (-694); (-669); (-643);
   (-617); (-591); (-566); (-540); (-514); (-488); (-463); (-437);
   (-411); (-386); (-360); (-334); (-308); (-283); (-257); (-231);
   (-205); (-180); (-154); (-128); (-102); (-77); (-51); (-25)].

Definition i4b_sine_to_signed : list Z :=
  i4b_sine_to_signed_0 ++
  i4b_sine_to_signed_1 ++
  i4b_sine_to_signed_2 ++
  i4b_sine_to_signed_3 ++
  i4b_sine_to_signed_4 ++
  i4b_sine_to_signed_5 ++
  i4b_sine_to_signed_6.
