(* ===== verification/Xlaw.v ===== *)
(** * Sound formats (layer1/i4b_convert_xlaw.c)

    The conversion between linear samples and the two companding laws of
    G.711 by lookup tables, and [i4b_convert_bsubprot], which converts the
    bytes of a buffer from one format to another.  The reference is the
    arithmetic definition of the laws on 14-bit and 13-bit samples. *)
From S2P Require Import Prelude XlawTables.
Local Open Scope Z_scope.

(** ** The conversions *)
Definition tab (l : list Z) (i : Z) : Z := default 0 (l !! Z.to_nat i).
Definition clamp (temp : Z) : Z :=
  if 0x7FFF <? temp then 0x7FFF else if temp <? -0x7FFF then -0x7FFF else temp.
Definition i4b_signed_to_ulaw (temp : Z) : Z :=
  tab signed_to_ulaw (Z.land (Z.shiftr (clamp temp) 2) 0x3FFF).
Definition i4b_signed_to_alaw (temp : Z) : Z :=
  tab signed_to_alaw (Z.land (Z.shiftr (clamp temp) 3) 0x1FFF).

(** [BSUBPROT_xxx] (i4b_ioctl.h) *)
Inductive bsubprot :=
| BSUBPROT_UNKNOWN | BSUBPROT_G711_ALAW | BSUBPROT_G711_ULAW | BSUBPROT_PLAIN_ALAW
| BSUBPROT_PLAIN_ULAW | BSUBPROT_SIGNED_8BIT | BSUBPROT_MUTED.
#[global] Instance bsubprot_eq_dec : EqDecision bsubprot.
Proof. solve_decision. Defined.

(** The first [switch]: a byte as a linear sample. *)
Definition to_signed (p : bsubprot) (b : Z) : Z :=
  match p with
  | BSUBPROT_SIGNED_8BIT => i8 b * 256
  | BSUBPROT_G711_ULAW => tab i4b_ulaw_to_signed b
  | BSUBPROT_PLAIN_ULAW => tab i4b_ulaw_to_signed (tab i4b_reverse_bits b)
  | BSUBPROT_G711_ALAW => tab i4b_alaw_to_signed b
  | BSUBPROT_PLAIN_ALAW => tab i4b_alaw_to_signed (tab i4b_reverse_bits b)
  | BSUBPROT_UNKNOWN | BSUBPROT_MUTED => 0
  end.
(** The second one: a linear sample as a byte. *)
Definition of_signed (p : bsubprot) (temp : Z) : Z :=
  match p with
  | BSUBPROT_SIGNED_8BIT => u8 (Z.quot (clamp temp) 256)
  | BSUBPROT_G711_ULAW => i4b_signed_to_ulaw temp
  | BSUBPROT_PLAIN_ULAW => tab i4b_reverse_bits (i4b_signed_to_ulaw temp)
  | BSUBPROT_G711_ALAW => i4b_signed_to_alaw temp
  | BSUBPROT_PLAIN_ALAW => tab i4b_reverse_bits (i4b_signed_to_alaw temp)
  | BSUBPROT_UNKNOWN | BSUBPROT_MUTED => 0xFF
  end.
(** The two bit orders of one law. *)
Definition other_order (p q : bsubprot) : bool :=
  match p, q with
  | BSUBPROT_G711_ULAW, BSUBPROT_PLAIN_ULAW | BSUBPROT_PLAIN_ULAW, BSUBPROT_G711_ULAW
  | BSUBPROT_G711_ALAW, BSUBPROT_PLAIN_ALAW | BSUBPROT_PLAIN_ALAW, BSUBPROT_G711_ALAW => true
  | _, _ => false
  end.
(** Amplify or attenuate; a product that leaves [int32_t] wraps around. *)
Definition amplify (factor divisor temp : Z) : Z :=
  if factor =? divisor then temp else Z.quot (i32 (temp * factor)) divisor.
Definition i4b_convert_bsubprot (factor divisor : Z) (inp out : bsubprot) (buf : list Z) : list Z :=
  if (factor =? divisor) && bool_decide (inp = out) then buf
  else if (factor =? divisor) && other_order inp out then map (tab i4b_reverse_bits) buf
  else map (λ b, of_signed out (amplify factor divisor (to_signed inp b))) buf.

(** ** The reference: G.711 *)

(** The bits of a byte in the other order. *)
Definition reverse8 (b : Z) : Z :=
  foldr (λ k acc, Z.b2z (Z.testbit b k) + 2 * acc) 0 [7; 6; 5; 4; 3; 2; 1; 0].

(** mu-law: sign, segment and interval of a 14-bit sample, inverted; a bias
    of 33 makes the segment the position of the leading one. *)
Definition ulaw14 (n : Z) : Z :=
  let m := Z.min (Z.abs n) 8158 + 33 in
  let e := Z.log2 m - 5 in
  255 - ((if n <? 0 then 128 else 0) + 16 * e + m / 2 ^ (e + 1) mod 16).
Definition ulaw14_value (c : Z) : Z :=
  let c := 255 - c in
  let v := (2 * (c mod 16) + 33) * 2 ^ (c / 16 mod 8) - 33 in
  if c / 128 =? 0 then v else - v.
(** A-law: a 13-bit sample in ones complement; the first segment is linear;
    every second bit of the result is inverted. *)
Definition alaw13 (n : Z) : Z :=
  let m := if n <? 0 then - n - 1 else n in
  let c := if m <? 32 then m / 2 else let e := Z.log2 m - 4 in 16 * e + m / 2 ^ e mod 16 in
  Z.lxor c (if n <? 0 then 0x55 else 0xD5).
Definition alaw13_value (c : Z) : Z :=
  let c := Z.lxor c 0x55 in
  let e := c / 16 mod 8 in
  let v := if e =? 0 then 2 * (c mod 16) + 1 else (2 * (c mod 16) + 33) * 2 ^ (e - 1) in
  if c / 128 =? 0 then - v else v.

(** ** Checking the tables *)
Definition bytes : list Z := map Z.of_nat (seq 0 256).
(** The table has at index [k] the value of [f] at [k] read as a two's
    complement number of [bits] bits. *)
Definition signed_index (bits k : Z) : Z := if k <? 2 ^ (bits - 1) then k else k - 2 ^ bits.
Fixpoint table_is (f : Z -> Z) (k : Z) (l : list Z) : bool :=
  match l with
  | [] => true
  | x :: l => (x =? f k) && table_is f (k + 1) l
  end.

Lemma table_is_lookup f l : ∀ k i x, table_is f k l = true -> l !! i = Some x -> x = f (k + Z.of_nat i).
Proof.
  induction l as [|y l IH]; intros k i x Ht Hi; [done|]. cbn in Ht. apply andb_true_iff in Ht as [Hy Ht].
  destruct i as [|i]; cbn in Hi.
  - injection Hi as <-. rewrite Z.add_0_r. by apply Z.eqb_eq.
  - rewrite (IH (k + 1) i x Ht Hi). f_equal. lia.
Qed.
Definition zlength (l : list Z) : Z := Z.of_nat (length l).
Lemma tab_is f l i : table_is f 0 l = true -> 0 <= i < zlength l -> tab l i = f i.
Proof.
  intros Ht Hi. unfold zlength in Hi. unfold tab. destruct (lookup_lt_is_Some_2 l (Z.to_nat i)) as [x Hx]; [lia|].
  rewrite Hx. cbn. rewrite (table_is_lookup f l 0 _ x Ht Hx). f_equal. lia.
Qed.

Lemma ulaw_table : table_is (λ k, reverse8 (ulaw14 (signed_index 14 k))) 0 signed_to_ulaw = true.
Proof. vm_compute. reflexivity. Qed.
Lemma alaw_table : table_is (λ k, reverse8 (alaw13 (signed_index 13 k))) 0 signed_to_alaw = true.
Proof. vm_compute. reflexivity. Qed.
Lemma ulaw_signed_table : table_is (λ b, 4 * ulaw14_value (reverse8 b)) 0 i4b_ulaw_to_signed = true.
Proof. vm_compute. reflexivity. Qed.
Lemma alaw_signed_table : table_is (λ b, 8 * alaw13_value (reverse8 b)) 0 i4b_alaw_to_signed = true.
Proof. vm_compute. reflexivity. Qed.
Lemma reverse_table : table_is reverse8 0 i4b_reverse_bits = true.
Proof. vm_compute. reflexivity. Qed.
Lemma table_lengths :
  zlength signed_to_ulaw = 16384 ∧ zlength signed_to_alaw = 8192 ∧ zlength i4b_ulaw_to_signed = 256 ∧
  zlength i4b_alaw_to_signed = 256 ∧ zlength i4b_reverse_bits = 256.
Proof. repeat split; vm_compute; reflexivity. Qed.

(** ** The functions and the reference *)
Lemma clamp_range t : -32767 <= clamp t <= 32767.
Proof. unfold clamp. repeat case_match; lia. Qed.
Lemma clamp_id t : -32767 <= t <= 32767 -> clamp t = t.
Proof. unfold clamp. intros. repeat case_match; lia. Qed.
(** The index of a sample, read as a signed number, is the sample without
    its low bits. *)
Lemma signed_index_mod bits n : 0 < bits -> - 2 ^ (bits - 1) <= n < 2 ^ (bits - 1) ->
  signed_index bits (n mod 2 ^ bits) = n.
Proof.
  intros Hb Hn. assert (2 ^ bits = 2 * 2 ^ (bits - 1)) as Hp.
  { rewrite <-Z.pow_succ_r by lia. f_equal. lia. }
  unfold signed_index. destruct (Z_lt_dec n 0).
  - replace (n mod 2 ^ bits) with (n + 2 ^ bits).
    + case_match; lia.
    + apply Z.mod_unique_pos with (-1); lia.
  - rewrite Z.mod_small by lia. case_match; lia.
Qed.
Lemma ulaw_spec t : i4b_signed_to_ulaw t = reverse8 (ulaw14 (clamp t / 4)).
Proof.
  unfold i4b_signed_to_ulaw. pose proof (clamp_range t) as Hc. revert Hc. generalize (clamp t). intros c Hc.
  change 0x3FFF with (Z.ones 14). rewrite Z.land_ones, Z.shiftr_div_pow2 by lia. change (2 ^ 2) with 4.
  pose proof (Z.mod_pos_bound (c / 4) (2 ^ 14) ltac:(lia)).
  pose proof table_lengths as (Hl & _).
  rewrite (tab_is _ _ _ ulaw_table) by (rewrite Hl; lia).
  rewrite signed_index_mod; [done|lia|]. change (2 ^ (14 - 1)) with 8192. split; [|apply Z.div_lt_upper_bound; lia].
  apply Z.div_le_lower_bound; lia.
Qed.
Lemma alaw_spec t : i4b_signed_to_alaw t = reverse8 (alaw13 (clamp t / 8)).
Proof.
  unfold i4b_signed_to_alaw. pose proof (clamp_range t) as Hc. revert Hc. generalize (clamp t). intros c Hc.
  change 0x1FFF with (Z.ones 13). rewrite Z.land_ones, Z.shiftr_div_pow2 by lia. change (2 ^ 3) with 8.
  pose proof (Z.mod_pos_bound (c / 8) (2 ^ 13) ltac:(lia)).
  pose proof table_lengths as (_ & Hl & _).
  rewrite (tab_is _ _ _ alaw_table) by (rewrite Hl; lia).
  rewrite signed_index_mod; [done|lia|]. change (2 ^ (13 - 1)) with 4096. split; [|apply Z.div_lt_upper_bound; lia].
  apply Z.div_le_lower_bound; lia.
Qed.
Lemma ulaw_value_spec b : is_u8 b -> tab i4b_ulaw_to_signed b = 4 * ulaw14_value (reverse8 b).
Proof.
  intros Hb. pose proof table_lengths as (_ & _ & Hl & _).
  apply (tab_is _ _ _ ulaw_signed_table). rewrite Hl. unfold is_u8 in Hb. lia.
Qed.
Lemma alaw_value_spec b : is_u8 b -> tab i4b_alaw_to_signed b = 8 * alaw13_value (reverse8 b).
Proof.
  intros Hb. pose proof table_lengths as (_ & _ & _ & Hl & _).
  apply (tab_is _ _ _ alaw_signed_table). rewrite Hl. unfold is_u8 in Hb. lia.
Qed.
Lemma reverse_spec b : is_u8 b -> tab i4b_reverse_bits b = reverse8 b.
Proof.
  intros Hb. pose proof table_lengths as (_ & _ & _ & _ & Hl).
  apply (tab_is _ _ _ reverse_table). rewrite Hl. unfold is_u8 in Hb. lia.
Qed.

(** *** Facts about every byte and every sample *)
Fixpoint check_from (P : Z -> bool) (k : Z) (n : nat) : bool :=
  match n with O => true | S n => P k && check_from P (k + 1) n end.
Lemma check_from_spec P n : ∀ k x, check_from P k n = true -> k <= x < k + Z.of_nat n -> P x = true.
Proof.
  induction n as [|n IH]; intros k x Hc Hx; [lia|]. cbn [check_from] in Hc. apply andb_true_iff in Hc as [Hk Hc].
  destruct (decide (x = k)) as [->|Hne]; [done|]. apply (IH (k + 1)); [done|lia].
Qed.
Lemma check_bytes P b : check_from P 0 256 = true -> is_u8 b -> P b = true.
Proof. intros Hc Hb. apply (check_from_spec P 256 0); [done|]. unfold is_u8 in Hb. lia. Qed.

Lemma reverse8_u8 b : is_u8 (reverse8 b).
Proof.
  assert (∀ x, 0 <= Z.b2z x <= 1) as Hz by (intros []; cbn; lia).
  unfold reverse8, is_u8. cbn [foldr].
  repeat match goal with |- context [Z.b2z ?x] => pose proof (Hz x); generalize dependent (Z.b2z x); intros end.
  lia.
Qed.
Lemma reverse8_twice b : is_u8 b -> reverse8 (reverse8 b) = b.
Proof.
  intros Hb. apply Z.eqb_eq. apply (check_bytes (λ b, reverse8 (reverse8 b) =? b)); [vm_compute; reflexivity|done].
Qed.

(** ** Companding and expanding *)

(** The sample a sample becomes. *)
Definition ulaw14_quantized (n : Z) : Z := ulaw14_value (ulaw14 n).
Definition alaw13_quantized (n : Z) : Z := alaw13_value (alaw13 n).
(** The error of [d] as the code of [t]. *)
Definition small_error (d t : Z) : bool := 32 * Z.abs (d - t) <=? Z.abs t + 256.
(** One sample of a quantizer [q] with code [c] in steps of [step]: the code
    is a byte, the error small, and the next sample not below this one. *)
Definition sample_check (c q : Z -> Z) (step last n : Z) : bool :=
  let d := step * q n in
  (0 <=? c n) && (c n <? 256) && forallb (λ k, small_error d (step * n + Z.of_nat k)) (seq 0 (Z.to_nat step)) &&
  ((n =? last) || (d <=? step * q (n + 1))).
Lemma ulaw_checked : check_from (sample_check ulaw14 ulaw14_quantized 4 8191) (-8192) (Z.to_nat 16384) = true.
Proof. vm_compute. reflexivity. Qed.
Lemma alaw_checked : check_from (sample_check alaw13 alaw13_quantized 8 4095) (-4096) (Z.to_nat 8192) = true.
Proof. vm_compute. reflexivity. Qed.

Section quantizer.
Context (c q : Z -> Z) (step size : Z).
Context (Hstep : 0 < step) (Hsize : step * size = 32768).
Hypothesis checked : check_from (sample_check c q step (size - 1)) (- size) (Z.to_nat (2 * size)) = true.

Lemma sample_range t : -32767 <= t <= 32767 -> - size <= t / step < size.
Proof using Hstep Hsize checked.
  intros Ht. split; [apply Z.div_le_lower_bound; lia|apply Z.div_lt_upper_bound; lia].
Qed.
Lemma sample_checked n : - size <= n < size -> sample_check c q step (size - 1) n = true.
Proof using Hstep Hsize checked. intros Hn. apply (check_from_spec _ _ _ n checked). lia. Qed.
Lemma sample_code n : - size <= n < size -> is_u8 (c n).
Proof using Hstep Hsize checked.
  intros Hn%sample_checked. unfold sample_check in Hn. rewrite !andb_true_iff in Hn.
  destruct Hn as [[[H1 H2] _] _]. unfold is_u8. lia.
Qed.
Lemma sample_error t : -32767 <= t <= 32767 -> 32 * Z.abs (step * q (t / step) - t) <= Z.abs t + 256.
Proof using Hstep Hsize checked.
  intros Ht. pose proof (sample_checked _ (sample_range t Ht)) as Hn. unfold sample_check in Hn.
  rewrite !andb_true_iff in Hn. destruct Hn as [[_ H3] _]. rewrite forallb_forall in H3.
  pose proof (Z.mod_pos_bound t step Hstep).
  specialize (H3 (Z.to_nat (t mod step)) ltac:(apply in_seq; lia)). rewrite Z2Nat.id in H3 by lia.
  rewrite <-Z.div_mod in H3 by lia. by apply Z.leb_le.
Qed.
Lemma sample_mono t t' : -32767 <= t <= t' -> t' <= 32767 -> step * q (t / step) <= step * q (t' / step).
Proof using Hstep Hsize checked.
  intros Ht Ht'. assert (t / step <= t' / step) as Hd by (apply Z.div_le_mono; lia).
  pose proof (sample_range t ltac:(lia)) as H1. pose proof (sample_range t' ltac:(lia)) as H2.
  revert Hd H2. generalize (t' / step). intros m Hd H2.
  assert (∀ k : nat, t / step + Z.of_nat k < size -> step * q (t / step) <= step * q (t / step + Z.of_nat k)) as Hk.
  { induction k as [|k IH]; intros Hk; [by rewrite Z.add_0_r|]. trans (step * q (t / step + Z.of_nat k)); [apply IH; lia|].
    pose proof (sample_checked (t / step + Z.of_nat k) ltac:(lia)) as Hc. unfold sample_check in Hc.
    rewrite !andb_true_iff in Hc. destruct Hc as [_ Hc]. apply orb_true_iff in Hc as [Hc|Hc]; [lia|].
    apply Z.leb_le in Hc. by replace (t / step + Z.of_nat (S k)) with (t / step + Z.of_nat k + 1) by lia. }
  specialize (Hk (Z.to_nat (m - t / step)) ltac:(lia)). by replace (t / step + Z.of_nat (Z.to_nat (m - t / step))) with m in Hk by lia.
Qed.
End quantizer.

(** The four formats that hold a law. *)
Definition is_law (p : bsubprot) : bool :=
  match p with
  | BSUBPROT_G711_ALAW | BSUBPROT_G711_ULAW | BSUBPROT_PLAIN_ALAW | BSUBPROT_PLAIN_ULAW => true
  | _ => false
  end.
Definition is_ulaw (p : bsubprot) : bool :=
  match p with BSUBPROT_G711_ULAW | BSUBPROT_PLAIN_ULAW => true | _ => false end.
(** The quantizer of a law. *)
Definition quantized (p : bsubprot) (t : Z) : Z :=
  if is_ulaw p then 4 * ulaw14_quantized (t / 4) else 8 * alaw13_quantized (t / 8).

Lemma ulaw_code_u8 t : is_u8 (ulaw14 (clamp t / 4)).
Proof.
  apply (sample_code ulaw14 ulaw14_quantized 4 8192), (sample_range ulaw14 ulaw14_quantized 4 8192);
    (lia || exact ulaw_checked || apply clamp_range).
Qed.
Lemma alaw_code_u8 t : is_u8 (alaw13 (clamp t / 8)).
Proof.
  apply (sample_code alaw13 alaw13_quantized 8 4096), (sample_range alaw13 alaw13_quantized 8 4096);
    (lia || exact alaw_checked || apply clamp_range).
Qed.
Lemma of_signed_u8 p t : is_law p = true -> is_u8 (of_signed p t).
Proof.
  destruct p; intros H; try discriminate H; cbn [of_signed]; rewrite ?ulaw_spec, ?alaw_spec; try apply reverse8_u8;
    rewrite reverse_spec by apply reverse8_u8; apply reverse8_u8.
Qed.
Lemma to_of_signed p t : is_law p = true -> to_signed p (of_signed p t) = quantized p (clamp t).
Proof.
  destruct p; intros H; try discriminate H; cbn [of_signed to_signed]; rewrite ?ulaw_spec, ?alaw_spec;
    rewrite ?(reverse_spec (reverse8 (reverse8 _))) by apply reverse8_u8;
    rewrite ?(reverse_spec (reverse8 _)) by apply reverse8_u8;
    rewrite ?(reverse_spec (reverse8 (reverse8 _))) by apply reverse8_u8;
    rewrite ?ulaw_value_spec, ?alaw_value_spec by apply reverse8_u8;
    unfold quantized; cbn [is_ulaw]; rewrite ?reverse8_twice; try done;
    auto using ulaw_code_u8, alaw_code_u8, reverse8_u8.
Qed.
Lemma quantized_error p t : -32767 <= t <= 32767 -> 32 * Z.abs (quantized p t - t) <= Z.abs t + 256.
Proof.
  intros Ht. unfold quantized. destruct (is_ulaw p).
  - by apply (sample_error ulaw14 ulaw14_quantized 4 8192); (lia || exact ulaw_checked).
  - by apply (sample_error alaw13 alaw13_quantized 8 4096); (lia || exact alaw_checked).
Qed.
Lemma quantized_mono p t t' : -32767 <= t <= t' -> t' <= 32767 -> quantized p t <= quantized p t'.
Proof.
  intros Ht Ht'. unfold quantized. destruct (is_ulaw p).
  - by apply (sample_mono ulaw14 ulaw14_quantized 4 8192); (lia || exact ulaw_checked).
  - by apply (sample_mono alaw13 alaw13_quantized 8 4096); (lia || exact alaw_checked).
Qed.
Lemma clamp_mono t t' : t <= t' -> clamp t <= clamp t'.
Proof. unfold clamp. intros. repeat case_match; lia. Qed.

(** C32: the sound tables are G.711.  For every [int32_t] sample the encoder
    tables give the code of the mu-law of its 14 high bits and of the A-law
    of its 13 high bits, after clipping, in the bit order of the line; the
    decoder tables give the value of every code. *)
Theorem tables_are_g711 t b :
  is_u8 b ->
  i4b_signed_to_ulaw t = reverse8 (ulaw14 (clamp t / 4)) ∧
  i4b_signed_to_alaw t = reverse8 (alaw13 (clamp t / 8)) ∧
  tab i4b_ulaw_to_signed b = 4 * ulaw14_value (reverse8 b) ∧
  tab i4b_alaw_to_signed b = 8 * alaw13_value (reverse8 b) ∧
  tab i4b_reverse_bits b = reverse8 b.
Proof.
  intros Hb. split; [apply ulaw_spec|]. split; [apply alaw_spec|]. split; [by apply ulaw_value_spec|].
  split; [by apply alaw_value_spec|by apply reverse_spec].
Qed.
Lemma tables_are_g711_witness :
  i4b_signed_to_ulaw (-1000) = reverse8 0x4e ∧ i4b_signed_to_alaw (-1000) = reverse8 0x7a ∧
  tab i4b_ulaw_to_signed 0x12 = 4 * ulaw14_value (reverse8 0x12).
Proof.
  destruct (tables_are_g711 (-1000) 0x12) as (H1 & H2 & H3 & _); [unfold is_u8; lia|].
  rewrite H1, H2, H3. split; [vm_compute; reflexivity|]. split; [vm_compute; reflexivity|reflexivity].
Defined.

(** A fact about every byte of every law. *)
Definition laws : list bsubprot :=
  [BSUBPROT_G711_ALAW; BSUBPROT_G711_ULAW; BSUBPROT_PLAIN_ALAW; BSUBPROT_PLAIN_ULAW].
Lemma law_bytes (P : bsubprot -> Z -> bool) p b :
  forallb (λ p, check_from (P p) 0 256) laws = true -> is_law p = true -> is_u8 b -> P p b = true.
Proof.
  intros Ha Hp Hb. rewrite forallb_forall in Ha. apply (check_bytes (P p) b); [|exact Hb].
  apply Ha. destruct p; try discriminate Hp; cbn; tauto.
Qed.

(** The codes are those of their values, but for the negative zero of the
    mu-law. *)
Definition own_code (p : bsubprot) (b : Z) : bool :=
  (of_signed p (to_signed p b) =? b) || (is_ulaw p && (to_signed p b =? 0)).
Lemma own_codes : forallb (λ p, check_from (own_code p) 0 256) laws = true.
Proof. vm_compute. reflexivity. Qed.
Lemma own_code_spec p b : is_law p = true -> is_u8 b ->
  of_signed p (to_signed p b) = b ∨ is_ulaw p = true ∧ to_signed p b = 0.
Proof.
  intros Hp Hb. pose proof (law_bytes own_code p b own_codes Hp Hb) as Hc. unfold own_code in Hc.
  apply orb_true_iff in Hc as [Hc|[Hc1 Hc2]%andb_true_iff]; [left|right; split; [exact Hc1|]]; by apply Z.eqb_eq.
Qed.
Definition in_range (p : bsubprot) (b : Z) : bool := (-32767 <=? to_signed p b) && (to_signed p b <=? 32767).
Lemma all_in_range : forallb (λ p, check_from (in_range p) 0 256) laws = true.
Proof. vm_compute. reflexivity. Qed.
Lemma to_signed_range p b : is_law p = true -> is_u8 b -> -32767 <= to_signed p b <= 32767.
Proof.
  intros Hp Hb. pose proof (law_bytes in_range p b all_in_range Hp Hb) as Hc. unfold in_range in Hc.
  apply andb_true_iff in Hc as [Hc1 Hc2]. apply Z.leb_le in Hc1, Hc2. done.
Qed.
#[local] Opaque tab i4b_reverse_bits i4b_ulaw_to_signed i4b_alaw_to_signed.

(** Companding.  In each of the four formats of the two laws a sample
    is encoded to a byte, decoded to a sample that differs from the
    (clipped) original by at most 1/32 of it and 8, and the order of samples
    is kept; a decoded byte is encoded to the same byte, except that the
    mu-law has two codes for zero. *)
Lemma companding_correct p t t' b :
  is_law p = true -> t <= t' -> is_u8 b ->
  is_u8 (of_signed p t) ∧
  32 * Z.abs (to_signed p (of_signed p t) - clamp t) <= Z.abs (clamp t) + 256 ∧
  to_signed p (of_signed p t) <= to_signed p (of_signed p t') ∧
  (of_signed p (to_signed p b) = b ∨ is_ulaw p = true ∧ to_signed p b = 0).
Proof.
  intros Hp Ht Hb. split; [by apply of_signed_u8|]. rewrite !to_of_signed by done.
  split; [apply quantized_error, clamp_range|]. split.
  - pose proof (clamp_range t). pose proof (clamp_range t'). pose proof (clamp_mono t t' Ht).
    apply quantized_mono; lia.
  - by apply own_code_spec.
Qed.

(** ** Converting a buffer *)
Lemma other_order_sound p q b :
  other_order p q = true -> is_u8 b -> to_signed q (tab i4b_reverse_bits b) = to_signed p b.
Proof.
  intros Ho Hb. destruct p, q; try discriminate Ho; cbn [to_signed]; rewrite (reverse_spec b) by done;
    rewrite ?(reverse_spec (reverse8 b)) by apply reverse8_u8; by rewrite ?reverse8_twice.
Qed.
Lemma other_order_ulaw p q : other_order p q = true -> is_ulaw p = is_ulaw q.
Proof. by destruct p, q. Qed.

(** The sound of two buffers is the same up to the error of one encoding. *)
Definition same_sound (p q : bsubprot) (b b' : Z) : Prop :=
  is_u8 b' ∧ 32 * Z.abs (to_signed q b' - to_signed p b) <= Z.abs (to_signed p b) + 256 ∧
  (is_ulaw p = is_ulaw q -> to_signed q b' = to_signed p b).
Lemma quantized_fix p b : is_law p = true -> is_u8 b -> quantized p (to_signed p b) = to_signed p b.
Proof.
  intros Hp Hb. rewrite <-(clamp_id (to_signed p b)) at 1 by (by apply to_signed_range).
  rewrite <-to_of_signed by done. destruct (own_code_spec p b Hp Hb) as [Hc|[Hu Hc]]; [by rewrite Hc|].
  rewrite Hc. destruct p; try discriminate Hu; vm_compute; reflexivity.
Qed.

Lemma converted p q b :
  is_law p = true -> is_law q = true -> is_u8 b -> same_sound p q b (of_signed q (to_signed p b)).
Proof.
  intros Hp Hq Hb. pose proof (to_signed_range p b Hp Hb) as Hr. split; [by apply of_signed_u8|].
  rewrite to_of_signed, clamp_id by done. split; [by apply quantized_error|]. intros Hu.
  assert (quantized q (to_signed p b) = quantized p (to_signed p b)) as -> by (unfold quantized; by rewrite Hu).
  by apply quantized_fix.
Qed.
Lemma reordered p q b :
  other_order p q = true -> is_u8 b -> same_sound p q b (tab i4b_reverse_bits b).
Proof.
  intros Ho Hb. pose proof (other_order_sound p q b Ho Hb) as Hs. split; [rewrite reverse_spec by done; apply reverse8_u8|].
  rewrite Hs. split; [lia|done].
Qed.

(** Converting a buffer between two formats of the laws without a
    change of volume keeps its length and its sound: each sample differs by
    at most 1/32 of it and 8, and not at all within one law, whichever of
    the two loops of the code is taken.  Between the two bit orders of a law
    converting back restores every byte. *)
Lemma convert_bsubprot_correct f p q buf :
  is_law p = true -> is_law q = true -> Forall is_u8 buf ->
  let buf' := i4b_convert_bsubprot f f p q buf in
  Forall2 (same_sound p q) buf buf' ∧
  (is_ulaw p = is_ulaw q -> i4b_convert_bsubprot f f q p buf' = buf).
Proof.
  intros Hp Hq Hb buf'. subst buf'. unfold i4b_convert_bsubprot. rewrite !Z.eqb_refl. cbn [andb].
  destruct (decide (p = q)) as [->|Hne].
  { rewrite bool_decide_true by done. split; [|done]. apply Forall_Forall2_diag.
    apply (Forall_impl _ _ _ Hb). intros b Hu. split; [done|]. split; [|done]. lia. }
  rewrite !bool_decide_false by congruence. destruct (other_order p q) eqn:Ho.
  - assert (other_order q p = true) as -> by (destruct p, q; (discriminate Ho || reflexivity)). split.
    + apply Forall2_fmap_r, Forall_Forall2_diag, (Forall_impl _ _ _ Hb). intros b Hu. by apply reordered.
    + intros _. rewrite map_map. rewrite <-(map_id buf) at 2. apply map_ext_Forall, (Forall_impl _ _ _ Hb).
      intros b Hu. rewrite !reverse_spec by (first [done|rewrite reverse_spec by done; apply reverse8_u8]).
      by apply reverse8_twice.
  - split.
    + apply Forall2_fmap_r, Forall_Forall2_diag, (Forall_impl _ _ _ Hb). intros b Hu.
      unfold amplify. rewrite Z.eqb_refl. by apply converted.
    + intros Hu. destruct p, q; (discriminate Hp || discriminate Hq || discriminate Ho || discriminate Hu || done).
Qed.
