(* ===== verification/Dtmf.v ===== *)
(** * Touch tones (layer1/i4b_dtmf.c)

    The generator, which plays the digits of a ring buffer into the frames
    of a B-channel, and the detector, which runs eighteen Goertzel filters
    over blocks of samples.  An array that is written at a running index is
    the list of what has been written; the filters are pairs of their last
    two values.  They are cleared in front of every block, so they are no
    part of the state. *)
From S2P Require Import Prelude XlawTables Xlaw.
Local Open Scope Z_scope.

Definition I4B_DTMF_N_FREQ : nat := 18.
Definition I4B_DTMF_N_SAMPLES : nat := 102.
Definition I4B_DTMF_N_DIGITS : nat := 32.

(** ** The generator *)

(** [struct i4b_dtmf_info_tx] *)
Record dtmf_tx := Dtmf_tx {
  freq0 : list Z; freq1 : list Z; duration : list Z;   (* uint16_t[I4B_DTMF_N_DIGITS] *)
  omega0 : Z; omega1 : Z;                              (* uint16_t *)
  input_pos : nat; output_pos : nat;                   (* uint8_t *)
  tx_bsubprot : bsubprot;
}.
Definition i4b_dtmf_init_tx (p : bsubprot) : dtmf_tx :=
  let zeros := replicate I4B_DTMF_N_DIGITS 0 in
  Dtmf_tx zeros zeros zeros 0 0 0 0 p.

(** [dtmf_to_freq]: f0, f1 and the key, with the entry that ends the search. *)
Definition dtmf_to_freq : list (Z * Z * Z) :=
  [(941, 1477, 35); (941, 1209, 42); (941, 1336, 48); (697, 1209, 49); (697, 1336, 50); (697, 1477, 51);
   (770, 1209, 52); (770, 1336, 53); (770, 1477, 54); (852, 1209, 55); (852, 1336, 56); (852, 1477, 57);
   (697, 1633, 65); (770, 1633, 66); (852, 1633, 67); (941, 1633, 68); (0, 0, 0)].
Definition digit_freq (digit : Z) : Z * Z :=
  match list_find (λ x, (x.2 =? digit) || (x.2 =? 0) = true) dtmf_to_freq with
  | Some (_, x) => x.1
  | None => (0, 0)
  end.
(** Milliseconds to samples, at most 0x1FFF and 40 by default. *)
Definition samples (ms : Z) : Z :=
  let ms := if 0x1FFF <? ms then 0x1FFF else ms in
  let ms := if ms =? 0 then 40 else ms in
  u16 (ms * 8).
Definition next_pos (i : nat) : nat := ((i + 1) mod I4B_DTMF_N_DIGITS)%nat.

(** What is written at position [i] of the ring. *)
Definition set_tone (i : nat) (f0 f1 d : Z) (s : dtmf_tx) : dtmf_tx :=
  s <| freq0 ::= <[i := f0]> |> <| freq1 ::= <[i := f1]> |> <| duration ::= <[i := d]> |>.
Definition i4b_dtmf_queue_digit (digit tone_duration gap_duration : Z) (s : dtmf_tx) : dtmf_tx :=
  let next_pos0 := next_pos (output_pos s) in
  let next_pos1 := next_pos next_pos0 in
  if (next_pos0 =? input_pos s)%nat || (next_pos1 =? input_pos s)%nat then s
  else
    let '(f0, f1) := digit_freq digit in
    (set_tone next_pos0 0 0 (samples gap_duration)
       (set_tone (output_pos s) f0 f1 (samples tone_duration) s)) <| output_pos := next_pos1 |>.

(** One sample of the sum of both tones. *)
Definition encode (p : bsubprot) (temp : Z) : Z :=
  if bool_decide (p = BSUBPROT_G711_ULAW) then i4b_signed_to_ulaw temp else i4b_signed_to_alaw temp.
Definition tone_sample (p : bsubprot) (o0 o1 : Z) : Z :=
  encode p (Z.quot (tab i4b_sine_to_signed o0 + tab i4b_sine_to_signed o1) 4).
Definition advance (omega freq : Z) : Z :=
  let omega := u16 (omega + freq) in if 8000 <=? omega then omega - 8000 else omega.
Definition emit_sample (i : nat) (s : dtmf_tx) : Z * dtmf_tx :=
  (tone_sample (tx_bsubprot s) (omega0 s) (omega1 s),
   s <| omega0 := advance (omega0 s) (freq0 s !!! i) |> <| omega1 := advance (omega1 s) (freq1 s !!! i) |>).

(** [*ptr = silence; while(len--) *ptr++ = silence;] on what is left of the
    buffer, the byte at [ptr] included. *)
Definition fill_silence (silence : Z) (rest : list Z) : list Z :=
  match rest with
  | [] => []
  | [_] => [silence]
  | _ :: rest' => replicate (length rest') silence ++ drop (length rest - 1) rest
  end.
(** The [while(len--)] loop: what becomes of the bytes [buf] from [ptr] on. *)
Fixpoint generate_loop (allocated : bool) (silence : Z) (buf : list Z) (s : dtmf_tx) : list Z * dtmf_tx :=
  match buf with
  | [] => ([], s)
  | x :: buf' =>
      let i := input_pos s in
      let again s :=
        let '(y, s) := emit_sample (input_pos s) s in
        let '(out, s) := generate_loop allocated silence buf' s in (y :: out, s) in
      if (duration s !!! i) =? 0 then
        let i := if (I4B_DTMF_N_DIGITS <=? i + 1)%nat then 0%nat else (i + 1)%nat in
        let s := s <| omega0 := 0 |> <| omega1 := 0 |> <| input_pos := i |> in
        if (i =? output_pos s)%nat then (if allocated then fill_silence silence buf else buf, s)
        else again s
      else again (s <| duration ::= alter (λ d, d - 1) i |>)
  end.
(** [m]: the data of the frame that is given, or none; [new]: the buffer
    [i4b_getmbuf(800)] returns, or none.  The result is the frame to send. *)
Definition i4b_dtmf_generate (m new : option (list Z)) (s : dtmf_tx) : option (list Z) * dtmf_tx :=
  if (input_pos s =? output_pos s)%nat then (m, s)
  else
    match m, new with
    | Some buf, _ => let '(out, s) := generate_loop false 0 buf s in (Some out, s)
    | None, Some buf => let '(out, s) := generate_loop true (encode (tx_bsubprot s) 0) buf s in (Some out, s)
    | None, None => (None, s)
    end.

(** ** The square root *)

(** One round of [i4b_sqrt_32]: the result, or the next [a], [b] and [x]. *)
Definition sqrt_step (a b x : Z) : Z + Z * Z * Z :=
  if b <=? a then
    let a := a - b in
    if bit_set b 1 then inl (Z.lor (Z.shiftr b 1) x)
    else
      let b := Z.lor (Z.shiftr b 1) x in
      let x := Z.shiftr x 1 in let b := Z.lxor b x in
      let x := Z.shiftr x 1 in let b := Z.lxor b x in inr (a, b, x)
  else if bit_set b 1 then inl (Z.shiftr b 1)
  else
    let b := Z.shiftr b 1 in
    let x := Z.shiftr x 1 in let b := Z.lxor b x in
    let x := Z.shiftr x 1 in let b := Z.lxor b x in inr (a, b, x).
Fixpoint sqrt_loop (fuel : nat) (a b x : Z) : option Z :=
  match fuel with
  | O => None
  | S fuel =>
      match sqrt_step a b x with
      | inl r => Some r
      | inr (a, b, x) => sqrt_loop fuel a b x
      end
  end.
(** The loop ends in the sixteenth round. *)
Definition i4b_sqrt_32 (a : Z) : Z := u16 (default 0 (sqrt_loop 16 a 0x40000000 0x40000000)).

(** ** The detector *)

(** 2 cos(2 pi f / 8000) * 16384 *)
Definition K : list Z :=
  [27980; 26956; 25701; 24219; 19073; 16325; 13085; 9315; 14739; 11221; 7549; 3032; -10565; -16503; -22318;
   -27472; 21281; -2571].
Definition code_to_ascii : list Z :=
  [49; 52; 55; 42; 50; 53; 56; 48; 51; 54; 57; 35; 65; 66; 67; 68].

(** [struct i4b_dtmf_info_rx]; the first [count] bytes of the buffer. *)
Record dtmf_rx := Dtmf_rx {
  rx_buffer : list Z;
  code : Z; code_count : Z; no_code_count : Z;         (* uint8_t *)
  rx_bsubprot : bsubprot;
  detected_fax_or_modem : bool;
}.
Definition i4b_dtmf_init_rx (p : bsubprot) : dtmf_rx := Dtmf_rx [] 0 0 0 p false.

Definition decode_sample (p : bsubprot) (b : Z) : Z :=
  if bool_decide (p = BSUBPROT_G711_ALAW) then tab i4b_alaw_to_signed b else tab i4b_ulaw_to_signed b.
(** The automatic gain control: the loudest sample. *)
Definition max_gain (p : bsubprot) (buf : list Z) : Z :=
  foldl (λ g b, let sample := Z.abs (decode_sample p b) in
                if g <? sample then Z.min sample 0x7FFF else g) 0x1000 buf.
Definition normalize (gain sample : Z) : Z :=
  let sample := Z.quot (i32 (sample * 0x8000) - sample) gain in
  if 0x7FFF <? sample then 0x7FFF else if sample <? -0x7FFF then -0x7FFF else sample.
(** One sample in one filter: [w0], [w1] and the new value. *)
Definition goertzel (k sample : Z) (w : Z * Z) : Z * Z :=
  (w.2, i32 (Z.quot (i32 (k * Z.quot w.2 128)) 128 - w.1 + sample)).
Definition run_filter (k : Z) (data : list Z) : Z * Z := foldl (λ w x, goertzel k x w) (0, 0) data.
(** The strength of a tone. *)
Definition energy (k : Z) (w : Z * Z) : Z :=
  let w0 := Z.quot w.1 128 in
  let w1 := Z.quot w.2 128 in
  i4b_sqrt_32 (u32 (w0 * w0 + w1 * w1 - Z.quot (i32 (k * w0)) 128 * Z.quot w1 128)).
(** The three highest values. *)
Definition insert_max (m : Z * Z * Z) (x : Z) : Z * Z * Z :=
  let '(max0, max1, max2) := m in
  if max0 <? x then (x, max0, max1) else if max1 <? x then (max0, x, max1)
  else if max2 <? x then (max0, max1, x) else m.
(** [found |= (w2[n] rel max) << n] for all [n] *)
Definition flags (P : Z -> bool) (w2 : list Z) : Z := foldr (λ x acc, Z.b2z (P x) + 2 * acc) 0 w2.
Definition found_tones (w2 : list Z) : Z :=
  let '(max0, max1, max2) := foldl insert_max (0, 0, 0) w2 in
  if (5000 <=? max0) && (Z.quot max0 2 <=? max1) && (max2 <? Z.quot max0 2) then flags (λ x, max1 <=? x) w2
  else if (10000 <=? max0) && (max1 <? Z.quot max0 2) then flags (λ x, x =? max0) w2
  else 0.
Definition block_tones (p : bsubprot) (buf : list Z) : Z :=
  let gain := max_gain p buf in
  let data := map (λ b, normalize gain (decode_sample p b)) buf in
  found_tones (map (λ k, energy k (run_filter k data)) K).

(** The position of the only bit of a group of four. *)
Definition one_of_four (t : Z) : option Z :=
  if t =? 1 then Some 0 else if t =? 2 then Some 1 else if t =? 4 then Some 2
  else if t =? 8 then Some 3 else None.
Definition tones_code (found : Z) (fax : bool) : Z :=
  if found =? Z.shiftl 1 16 then (if fax then 0 else 88)
  else if found =? Z.shiftl 1 17 then (if fax then 0 else 89)
  else
    match one_of_four (Z.land found 0xF), one_of_four (Z.land (Z.shiftr found 4) 0xF) with
    | Some lo, Some hi =>
        if bit_set found 0xFFFFFF00 then 0 else tab code_to_ascii (Z.lor lo (4 * hi))
    | _, _ => 0
    end.
Definition count_code (n : Z) : Z := if n =? 255 then n else u8 (n + 1).
(** From the label [done] on: the code that is reported, if any. *)
Definition accept_code (c : Z) (s : dtmf_rx) : list Z * dtmf_rx :=
  let '(c, s) :=
    if (c =? 0) && (no_code_count s <? 2) then (code s, s <| no_code_count ::= λ n, u8 (n + 1) |>)
    else (c, s <| no_code_count := 0 |>) in
  let s := if c =? code s then s else s <| code := c |> <| code_count := 0 |> in
  if (c =? 88) || (c =? 89) then
    let '(out, s) := if code_count s =? 14 then ([c], s <| detected_fax_or_modem := true |>) else ([], s) in
    (out, s <| code_count ::= count_code |>)
  else if negb (c =? 0) then
    (if code_count s =? 1 then [c] else [], s <| code_count ::= count_code |>)
  else ([], s).
Definition detect_block (s : dtmf_rx) : list Z * dtmf_rx :=
  accept_code (tones_code (block_tones (rx_bsubprot s) (rx_buffer s)) (detected_fax_or_modem s))
    (s <| rx_buffer := [] |>).
(** The [while(1)] loop; [fuel] rounds. *)
Fixpoint detect_loop (fuel : nat) (data : list Z) (s : dtmf_rx) : option (list Z * dtmf_rx) :=
  match fuel with
  | O => None
  | S fuel =>
      let delta := Nat.min (I4B_DTMF_N_SAMPLES - length (rx_buffer s)) (length data) in
      let s := s <| rx_buffer ::= λ l, l ++ take delta data |> in
      let data := drop delta data in
      if negb (length (rx_buffer s) =? I4B_DTMF_N_SAMPLES)%nat then Some ([], s)
      else
        let '(out, s) := detect_block s in
        match detect_loop fuel data s with
        | None => None
        | Some (out', s) => Some (out ++ out', s)
        end
  end.
(** Every round but the last takes a byte at least. *)
Definition i4b_dtmf_detect (data : list Z) (s : dtmf_rx) : list Z * dtmf_rx :=
  default ([], s) (detect_loop (S (length data)) data s).
