(* ===== verification/DtmfTx.v ===== *)
(** * Touch tones: the square root and the generator

    [i4b_sqrt_32] is the integer square root.  The generator plays the
    stream of samples that the digits in its ring stand for, whatever the
    sizes of the frames it is called for. *)
From S2P Require Import Prelude XlawTables Xlaw Dtmf.
Local Open Scope Z_scope.

(** ** The square root *)

(** The bit operations of a round on [b], which is [2 * r * s + s * s] for the
    root [r = 2 * s * t] found so far and the bit [s] that is tried; [u] is a
    quarter of [s * s]. *)
Lemma lor_mul_pow2 a b k : 0 <= k -> Z.lor (a * 2 ^ k) (b * 2 ^ k) = Z.lor a b * 2 ^ k.
Proof. intros Hk. rewrite <-!Z.shiftl_mul_pow2 by done. by rewrite Z.shiftl_lor. Qed.
Lemma lxor_mul_pow2 a b k : 0 <= k -> Z.lxor (a * 2 ^ k) (b * 2 ^ k) = Z.lxor a b * 2 ^ k.
Proof. intros Hk. rewrite <-!Z.shiftl_mul_pow2 by done. by rewrite Z.shiftl_lxor. Qed.
Lemma low_bits t : 0 <= t ->
  Z.lor (8 * t + 2) 4 = 8 * t + 6 ∧ Z.lxor (8 * t + 6) 2 = 8 * t + 4 ∧ Z.lxor (8 * t + 4) 1 = 8 * t + 5 ∧
  Z.lxor (8 * t + 2) 2 = 8 * t ∧ Z.lxor (8 * t) 1 = 8 * t + 1 ∧ Z.lor (2 * t) 1 = 2 * t + 1.
Proof. intros Ht. destruct t as [|p|p]; [repeat split; reflexivity|repeat split; reflexivity|lia]. Qed.
Lemma halve x : Z.shiftr (2 * x) 1 = x.
Proof. rewrite Z.shiftr_div_pow2 by lia. change (2 ^ 1) with 2. rewrite Z.mul_comm. by apply Z.div_mul. Qed.
Lemma bit_set_1 x : bit_set x 1 = Z.odd x.
Proof.
  unfold bit_set, nonzero. change 1 with (Z.ones 1). rewrite Z.land_ones by lia. change (2 ^ 1) with 2.
  rewrite Zmod_odd. by destruct (Z.odd x).
Qed.

Definition root_inv (A s t a b x : Z) : Prop :=
  0 <= t ∧ a = A - (2 * s * t) * (2 * s * t) ∧ 0 <= a ∧ A < (2 * s * (t + 1)) * (2 * s * (t + 1)) ∧
  b = (4 * t + 1) * (s * s) ∧ x = s * s.

Lemma sqrt_loop_spec A n : ∀ a b x t, root_inv A (2 ^ Z.of_nat n) t a b x ->
  sqrt_loop (S n) a b x = Some (Z.sqrt A).
Proof.
  induction n as [|n IH]; intros a b x t (Ht & Ha & Ha0 & HA & Hb & Hx); cbn [sqrt_loop]; unfold sqrt_step.
  - change (2 ^ Z.of_nat 0) with 1 in *. rewrite !bit_set_1.
    assert (b = 2 * (2 * t) + 1) as Hb' by lia. assert (Z.odd b = true) as ->
      by (rewrite Hb', Z.add_comm, Z.odd_add_mul_2; reflexivity).
    assert (Z.shiftr b 1 = 2 * t) as ->.
    { rewrite Z.shiftr_div_pow2 by lia. change (2 ^ 1) with 2. rewrite Hb'. symmetry. apply Z.div_unique with 1; lia. }
    destruct (Z.leb_spec b a); f_equal; symmetry; apply Z.sqrt_unique.
    + subst x. change (1 * 1) with 1. destruct (low_bits t Ht) as (_ & _ & _ & _ & _ & ->). unfold Z.succ. nia.
    + unfold Z.succ. nia.
  - set (s := 2 ^ Z.of_nat n) in *. assert (2 ^ Z.of_nat (S n) = 2 * s) as Hs.
    { unfold s. rewrite Nat2Z.inj_succ, Z.pow_succ_r by lia. done. }
    rewrite Hs in *. set (u := s * s). assert (0 < s) as Hs0 by (unfold s; apply Z.pow_pos_nonneg; lia).
    assert (u = 2 ^ (2 * Z.of_nat n)) as Hu.
    { unfold u, s. rewrite <-Z.pow_add_r by lia. f_equal. lia. }
    assert (b = 2 * ((8 * t + 2) * u)) as Hb' by (unfold u; nia). assert (x = 2 * (2 * u)) as Hx' by (unfold u; nia).
    rewrite bit_set_1. assert (Z.odd b = false) as -> by (rewrite Hb', Z.odd_mul; reflexivity).
    assert (Z.shiftr b 1 = (8 * t + 2) * u) as -> by (rewrite Hb'; apply halve).
    assert (Z.shiftr x 1 = 2 * u) as -> by (rewrite Hx'; apply halve). rewrite halve.
    destruct (low_bits t Ht) as (L1 & L2 & L3 & L4 & L5 & _).
    assert (0 <= 2 * Z.of_nat n) as Hk by lia.
    destruct (Z.leb_spec b a).
    + assert (Z.lxor (Z.lxor (Z.lor ((8 * t + 2) * u) x) (2 * u)) u = (4 * (2 * t + 1) + 1) * u) as ->.
      { rewrite Hx', Z.mul_assoc. change (2 * 2) with 4. rewrite Hu, lor_mul_pow2, L1, lxor_mul_pow2, L2 by done.
        rewrite <-(Z.mul_1_l (2 ^ _)) at 2. rewrite lxor_mul_pow2, L3 by done. lia. }
      apply (IH _ _ _ (2 * t + 1)). unfold root_inv, u in *. split; [lia|]. split; [nia|]. split; [lia|]. split; [nia|].
      split; [nia|done].
    + assert (Z.lxor (Z.lxor ((8 * t + 2) * u) (2 * u)) u = (4 * (2 * t) + 1) * u) as ->.
      { rewrite Hu, lxor_mul_pow2, L4 by done. rewrite <-(Z.mul_1_l (2 ^ _)) at 2.
        rewrite lxor_mul_pow2, L5 by done. lia. }
      apply (IH _ _ _ (2 * t)). unfold root_inv, u in *. split; [lia|]. split; [nia|]. split; [lia|]. split; [nia|].
      split; [nia|done].
Qed.

Lemma sqrt_32_spec a : is_u32 a -> i4b_sqrt_32 a = Z.sqrt a.
Proof.
  intros Ha. unfold i4b_sqrt_32. unfold is_u32 in Ha.
  rewrite (sqrt_loop_spec a 15 _ _ _ 0).
  - cbn [default from_option id]. unfold u16. apply Z.mod_small. split; [apply Z.sqrt_nonneg|].
    apply Z.sqrt_lt_square; lia.
  - change (2 ^ Z.of_nat 15) with 32768. unfold root_inv. lia.
Qed.
(** [i4b_sqrt_32] is the integer square root of every [uint32_t]: the
    loop ends in at most sixteen rounds with the largest number whose square
    is not above the argument. *)
Lemma sqrt_32_correct a :
  is_u32 a -> let r := i4b_sqrt_32 a in is_u16 r ∧ r * r <= a < (r + 1) * (r + 1).
Proof.
  intros Ha r. subst r. rewrite sqrt_32_spec by done. unfold is_u32 in Ha. pose proof (Z.sqrt_spec a ltac:(lia)) as H.
  unfold Z.succ in H. split; [|exact H]. split; [apply Z.sqrt_nonneg|]. apply Z.sqrt_lt_square; lia.
Qed.

(** ** The stream of samples the ring stands for *)

(** [n] samples of two tones from the phases [o0] and [o1] on. *)
Fixpoint play (p : bsubprot) (f0 f1 : Z) (n : nat) (o0 o1 : Z) : list Z :=
  match n with
  | O => []
  | S n => tone_sample p o0 o1 :: play p f0 f1 n (advance o0 f0) (advance o1 f1)
  end.
(** [k] positions of the ring from [i] on. *)
Fixpoint ring (i k : nat) : list nat :=
  match k with O => [] | S k => i :: ring (next_pos i) k end.
(** The number of positions in use. *)
Definition dist (i o : nat) : nat := ((o + I4B_DTMF_N_DIGITS - i) mod I4B_DTMF_N_DIGITS)%nat.
(** A position that is entered plays one sample more than its duration. *)
Definition tone_at (s : dtmf_tx) (j : nat) : list Z :=
  play (tx_bsubprot s) (freq0 s !!! j) (freq1 s !!! j) (S (Z.to_nat (duration s !!! j))) 0 0.
Definition current_tone (s : dtmf_tx) : list Z :=
  play (tx_bsubprot s) (freq0 s !!! input_pos s) (freq1 s !!! input_pos s)
    (Z.to_nat (duration s !!! input_pos s)) (omega0 s) (omega1 s).
Definition pending (s : dtmf_tx) : list nat :=
  ring (next_pos (input_pos s)) (dist (input_pos s) (output_pos s) - 1).
Definition idle (s : dtmf_tx) : Prop := input_pos s = output_pos s.
Definition stream (s : dtmf_tx) : list Z :=
  if (input_pos s =? output_pos s)%nat then []
  else current_tone s ++ concat (map (tone_at s) (pending s)).

(** The invariant: positions in the ring, phases in the table. *)
Record tx_ok (s : dtmf_tx) : Prop := {
  ok_len : length (freq0 s) = I4B_DTMF_N_DIGITS ∧ length (freq1 s) = I4B_DTMF_N_DIGITS ∧
           length (duration s) = I4B_DTMF_N_DIGITS;
  ok_pos : (input_pos s < I4B_DTMF_N_DIGITS)%nat ∧ (output_pos s < I4B_DTMF_N_DIGITS)%nat;
  ok_freq : Forall (λ f, 0 <= f < 8000) (freq0 s) ∧ Forall (λ f, 0 <= f < 8000) (freq1 s);
  ok_dur : Forall is_u16 (duration s);
  ok_omega : 0 <= omega0 s < 8000 ∧ 0 <= omega1 s < 8000;
  ok_idle : idle s -> omega0 s = 0 ∧ omega1 s = 0;
}.

(** *** The ring *)
Lemma next_pos_lt i : (next_pos i < I4B_DTMF_N_DIGITS)%nat.
Proof. unfold next_pos. by apply Nat.mod_upper_bound. Qed.
Lemma next_pos_wrap i : (i < I4B_DTMF_N_DIGITS)%nat ->
  (if (I4B_DTMF_N_DIGITS <=? i + 1)%nat then 0%nat else (i + 1)%nat) = next_pos i.
Proof.
  intros Hi. unfold next_pos. destruct (Nat.leb_spec I4B_DTMF_N_DIGITS (i + 1)).
  - by replace (i + 1)%nat with I4B_DTMF_N_DIGITS by lia.
  - by rewrite Nat.mod_small.
Qed.
(** Finite facts about two positions. *)
Lemma ring_positions (P : nat -> nat -> bool) i o :
  forallb (λ i, forallb (P i) (seq 0 I4B_DTMF_N_DIGITS)) (seq 0 I4B_DTMF_N_DIGITS) = true ->
  (i < I4B_DTMF_N_DIGITS)%nat -> (o < I4B_DTMF_N_DIGITS)%nat -> P i o = true.
Proof.
  intros H Hi Ho. rewrite forallb_forall in H. specialize (H i ltac:(apply in_seq; lia)).
  rewrite forallb_forall in H. apply H, in_seq. lia.
Qed.
Definition ring_facts (i o : nat) : bool :=
  bool_decide (i ≠ o -> S (dist (next_pos i) o) = dist i o) &&
  bool_decide (dist i o = 0%nat <-> i = o) &&
  bool_decide (i ∉ ring (next_pos i) (dist i o - 1)) &&
  bool_decide (Forall (λ j, j ≠ o) (ring i (dist i o))) &&
  bool_decide (next_pos o ≠ i -> dist i (next_pos o) = S (dist i o)) &&
  bool_decide (ring i (S (dist i o)) = ring i (dist i o) ++ [o]) &&
  bool_decide (next_pos o ≠ i -> Forall (λ j, j ≠ next_pos o) (ring i (S (dist i o)))) &&
  bool_decide (next_pos o ≠ o).
Lemma ring_facts_all i o : (i < I4B_DTMF_N_DIGITS)%nat -> (o < I4B_DTMF_N_DIGITS)%nat -> ring_facts i o = true.
Proof. apply (ring_positions ring_facts). vm_compute. reflexivity. Qed.
Ltac ring_fact i o Hi Ho :=
  let H := fresh "H" in pose proof (ring_facts_all i o Hi Ho) as H; unfold ring_facts in H;
  rewrite !andb_true_iff, !bool_decide_eq_true in H;
  destruct H as [[[[[[[Hf1 Hf2] Hf3] Hf4] Hf5] Hf6] Hf7] Hf8].

(** *** One sample *)
Lemma advance_range o f : 0 <= o < 8000 -> 0 <= f < 8000 -> 0 <= advance o f < 8000.
Proof.
  intros Ho Hf. unfold advance, u16. rewrite Z.mod_small by lia. destruct (Z.leb_spec 8000 (o + f)); lia.
Qed.
Lemma total_Forall (P : Z -> Prop) l i : Forall P l -> (i < length l)%nat -> P (l !!! i).
Proof. intros H Hi. apply (Forall_lookup_total_1 _ _ _ H Hi). Qed.

(** The tone at the input position goes on. *)
Definition played (s : dtmf_tx) : dtmf_tx :=
  (emit_sample (input_pos s) (s <| duration ::= alter (λ d, d - 1) (input_pos s) |>)).2.
Lemma tone_at_ext s s' j :
  tx_bsubprot s' = tx_bsubprot s -> freq0 s' = freq0 s -> freq1 s' = freq1 s ->
  duration s' !!! j = duration s !!! j -> tone_at s' j = tone_at s j.
Proof. unfold tone_at. by intros -> -> -> ->. Qed.
Lemma played_ok s : tx_ok s -> ~ idle s -> duration s !!! input_pos s ≠ 0 -> tx_ok (played s).
Proof.
  intros [(L1 & L2 & L3) [P1 P2] [F1 F2] D [O1 O2] Hi] Ha Hd. constructor; cbn; try done.
  - by rewrite length_alter.
  - apply Forall_alter; [done|]. intros d Hlk Hd1. unfold is_u16 in *.
    rewrite (list_lookup_total_correct _ _ _ Hlk) in Hd. lia.
  - split; apply advance_range; try done; apply total_Forall with (P := λ f, 0 <= f < 8000); (done || lia).
Qed.
Lemma played_stream s : tx_ok s -> ~ idle s -> duration s !!! input_pos s ≠ 0 ->
  stream s = tone_sample (tx_bsubprot s) (omega0 s) (omega1 s) :: stream (played s).
Proof.
  intros [(L1 & L2 & L3) [P1 P2] F D O Hi] Ha Hd. unfold idle in Ha. unfold stream.
  change (input_pos (played s)) with (input_pos s). change (output_pos (played s)) with (output_pos s).
  rewrite (proj2 (Nat.eqb_neq _ _)) by done. rewrite app_comm_cons. f_equal.
  - unfold current_tone. cbn. rewrite list_lookup_total_alter, decide_True by (split; lia).
    assert (is_u16 (duration s !!! input_pos s)) as Hu by (apply total_Forall; [done|lia]). unfold is_u16 in Hu.
    replace (Z.to_nat (duration s !!! input_pos s)) with (S (Z.to_nat (duration s !!! input_pos s - 1))) by lia. done.
  - f_equal. apply map_ext_in. intros j Hj%list_elem_of_In. symmetry. apply tone_at_ext; [done..|]. cbn.
    rewrite list_lookup_total_alter, decide_False; [done|]. intros [<- _]. ring_fact (input_pos s) (output_pos s) P1 P2. by apply Hf3.
Qed.

(** The next position is entered. *)
Definition moved (s : dtmf_tx) : dtmf_tx :=
  s <| omega0 := 0 |> <| omega1 := 0 |> <| input_pos := next_pos (input_pos s) |>.
Definition entered (s : dtmf_tx) : dtmf_tx := (emit_sample (input_pos (moved s)) (moved s)).2.
Lemma moved_ok s : tx_ok s -> tx_ok (moved s).
Proof.
  intros [L [P1 P2] F D O Hi]. constructor; try done. split; [apply next_pos_lt|done].
Qed.
Lemma entered_ok s : tx_ok s -> ~ idle (moved s) -> tx_ok (entered s).
Proof.
  intros Hok Ha. destruct (moved_ok s Hok) as [(L1 & L2 & L3) [P1 P2] [F1 F2] D [O1 O2] Hi].
  constructor; try done.
  split; apply advance_range; try done; apply total_Forall with (P := λ f, 0 <= f < 8000); (done || lia).
Qed.
Lemma moved_stream s : tx_ok s -> ~ idle s -> duration s !!! input_pos s = 0 ->
  stream s = if (input_pos (moved s) =? output_pos s)%nat then []
             else tone_sample (tx_bsubprot s) 0 0 :: stream (entered s).
Proof.
  intros [(L1 & L2 & L3) [P1 P2] F D O Hi] Ha Hd. unfold idle in Ha. unfold stream at 1.
  rewrite (proj2 (Nat.eqb_neq _ _)) by done. unfold current_tone. rewrite Hd. cbn [play Z.to_nat app].
  unfold pending. change (input_pos (moved s)) with (next_pos (input_pos s)).
  ring_fact (input_pos s) (output_pos s) P1 P2. specialize (Hf1 Ha). rewrite <-Hf1. cbn [Nat.sub]. rewrite Nat.sub_0_r.
  pose proof (next_pos_lt (input_pos s)) as P3. clear Hf1 Hf2 Hf3 Hf4 Hf5 Hf6 Hf7 Hf8.
  ring_fact (next_pos (input_pos s)) (output_pos s) P3 P2.
  destruct (Nat.eqb_spec (next_pos (input_pos s)) (output_pos s)) as [He|He].
  - rewrite (proj2 Hf2 He). done.
  - unfold stream. change (input_pos (entered s)) with (next_pos (input_pos s)).
    change (output_pos (entered s)) with (output_pos s). rewrite (proj2 (Nat.eqb_neq _ _)) by done.
    destruct (dist (next_pos (input_pos s)) (output_pos s)) as [|k] eqn:Ek; [by destruct (He (proj1 Hf2 eq_refl))|].
    cbn [ring map concat]. unfold pending. change (input_pos (entered s)) with (next_pos (input_pos s)).
    change (output_pos (entered s)) with (output_pos s). rewrite Ek. cbn [Nat.sub]. rewrite Nat.sub_0_r. done.
Qed.

(** *** A frame *)
Lemma generate_unfold allocated silence x buf s : tx_ok s -> ~ idle s ->
  generate_loop allocated silence (x :: buf) s =
  if (duration s !!! input_pos s) =? 0 then
    if (input_pos (moved s) =? output_pos s)%nat
    then (if allocated then fill_silence silence (x :: buf) else x :: buf, moved s)
    else (tone_sample (tx_bsubprot s) 0 0 :: (generate_loop allocated silence buf (entered s)).1,
          (generate_loop allocated silence buf (entered s)).2)
  else (tone_sample (tx_bsubprot s) (omega0 s) (omega1 s) :: (generate_loop allocated silence buf (played s)).1,
        (generate_loop allocated silence buf (played s)).2).
Proof.
  intros [_ [P1 _] _ _ _ _] _. cbn [generate_loop]. rewrite next_pos_wrap by done.
  change (s <| omega0 := 0 |> <| omega1 := 0 |> <| input_pos := next_pos (input_pos s) |>) with (moved s).
  change (next_pos (input_pos s)) with (input_pos (moved s)). change (output_pos (moved s)) with (output_pos s).
  destruct (_ =? 0); [destruct (_ =? _)%nat; [done|]|].
  - change (emit_sample (input_pos (moved s)) (moved s)) with
      (tone_sample (tx_bsubprot s) 0 0, entered s). cbv iota beta. by destruct (generate_loop _ _ buf (entered s)).
  - change (emit_sample _ _) with (tone_sample (tx_bsubprot s) (omega0 s) (omega1 s), played s).
    cbv iota beta. by destruct (generate_loop _ _ buf (played s)).
Qed.

(** What the frame holds behind the end of the stream: in a frame the
    generator has allocated, every byte is silence but the last one, which
    is only if it is the first one too; another frame is as it was. *)
Definition behind (allocated : bool) (silence : Z) (rest : list Z) : list Z :=
  imap (λ k x, if allocated && ((k =? 0) || (k <? length rest - 1))%nat then silence else x) rest.
Lemma behind_given silence rest : behind false silence rest = rest.
Proof. apply list_eq. intros k. unfold behind. rewrite list_lookup_imap. by destruct (rest !! k). Qed.
Lemma fill_silence_behind silence rest : fill_silence silence rest = behind true silence rest.
Proof.
  destruct rest as [|x [|y rest]]; [done..|]. apply list_eq. intros k. unfold fill_silence, behind.
  rewrite list_lookup_imap. set (l := x :: y :: rest). set (n := length (y :: rest)).
  assert (length l = S n) as Hl by done. rewrite Hl. cbn [andb]. replace (S n - 1)%nat with n by lia.
  destruct (decide (k < n)%nat) as [Hk|Hk].
  - rewrite lookup_app_l by (by rewrite length_replicate). rewrite lookup_replicate_2 by done.
    destruct (lookup_lt_is_Some_2 l k) as [z ->]; [lia|]. cbn [fmap option_fmap option_map].
    rewrite (proj2 (Nat.ltb_lt k n) Hk). by rewrite orb_true_r.
  - rewrite lookup_app_r by (rewrite length_replicate; lia). rewrite length_replicate, lookup_drop.
    replace (n + (k - n))%nat with k by lia. rewrite (proj2 (Nat.ltb_ge _ _)) by lia.
    assert ((k =? 0)%nat = false) as -> by (apply Nat.eqb_neq; unfold n in Hk; cbn in Hk; lia). by destruct (l !! k).
Qed.
Lemma behind_loop (allocated : bool) silence rest :
  (if allocated then fill_silence silence rest else rest) = behind allocated silence rest.
Proof. destruct allocated; [apply fill_silence_behind|symmetry; apply behind_given]. Qed.
Lemma generate_loop_spec allocated silence buf : ∀ s, tx_ok s -> ~ idle s ->
  let '(out, s') := generate_loop allocated silence buf s in
  out = take (length buf) (stream s) ++ behind allocated silence (drop (length (stream s)) buf) ∧
  tx_ok s' ∧ stream s' = drop (length buf) (stream s) ∧ (idle s' <-> (length (stream s) < length buf)%nat) ∧
  tx_bsubprot s' = tx_bsubprot s ∧ output_pos s' = output_pos s.
Proof.
  induction buf as [|x buf IH]; intros s Hok Ha.
  { cbn. rewrite drop_nil. split; [done|]. split; [done|]. split; [done|]. split; [|done].
    split; [done|lia]. }
  rewrite generate_unfold by done. rewrite behind_loop. destruct (Z.eqb_spec (duration s !!! input_pos s) 0) as [Hd|Hd].
  - pose proof (moved_stream s Hok Ha Hd) as Hs.
    destruct (Nat.eqb_spec (input_pos (moved s)) (output_pos s)) as [He|He].
    + rewrite Hs. cbn [length drop take app]. split; [done|]. split; [by apply moved_ok|].
      assert (idle (moved s)) as Hid by done. split; [|split; [split; [lia|done]|done]].
      unfold stream. by rewrite (proj2 (Nat.eqb_eq _ _) Hid).
    + specialize (IH (entered s) (entered_ok s Hok He) He). rewrite Hs.
      destruct (generate_loop allocated silence buf (entered s)) as [out s']. cbn [fst snd length take drop app].
      destruct IH as (-> & H2 & H3 & H4 & H5). repeat (split; [done|]). split; [rewrite H4; lia|done].
  - pose proof (played_stream s Hok Ha Hd) as Hs. specialize (IH (played s) (played_ok s Hok Ha Hd) Ha). rewrite Hs.
    destruct (generate_loop allocated silence buf (played s)) as [out s']. cbn [fst snd length take drop app].
    destruct IH as (-> & H2 & H3 & H4 & H5). repeat (split; [done|]). split; [rewrite H4; lia|done].
Qed.

(** C31: the generator.  Called for a frame of any length while it is not
    idle, it puts the next samples of its stream into it.  What is left of
    the frame stays as it was in a frame that was given; in a frame of its
    own it is silence but for its last byte, which stays as it was unless
    nothing else is left.  The samples are taken from the stream exactly
    once, the ring and the phases stay in range, and the generator is idle
    when the stream does not fill the frame.  Without a frame and without
    memory for one nothing happens. *)
Theorem generate_correct m new s :
  tx_ok s -> ~ idle s ->
  let frame := match m with Some buf => Some (false, buf) | None => (λ buf, (true, buf)) <$> new end in
  let '(out, s') := i4b_dtmf_generate m new s in
  match frame with
  | None => out = None ∧ s' = s
  | Some (allocated, buf) =>
      out = Some (take (length buf) (stream s) ++
                  behind allocated (encode (tx_bsubprot s) 0) (drop (length (stream s)) buf)) ∧
      tx_ok s' ∧ stream s' = drop (length buf) (stream s) ∧ (idle s' <-> (length (stream s) < length buf)%nat)
  end.
Proof.
  intros Hok Ha. unfold i4b_dtmf_generate. rewrite (proj2 (Nat.eqb_neq _ _)) by exact Ha.
  destruct m as [buf|]; [|destruct new as [buf|]; [|done]]; cbn [fmap option_fmap option_map].
  - pose proof (generate_loop_spec false 0 buf s Hok Ha) as H. destruct (generate_loop _ _ _ _) as [out s'].
    destruct H as (-> & H2 & H3 & H4 & _). done.
  - pose proof (generate_loop_spec true (encode (tx_bsubprot s) 0) buf s Hok Ha) as H.
    destruct (generate_loop _ _ _ _) as [out s']. destruct H as (-> & H2 & H3 & H4 & _). done.
Qed.

(** ** Queueing a digit *)
Definition has_room (s : dtmf_tx) : bool :=
  negb ((next_pos (output_pos s) =? input_pos s)%nat || (next_pos (next_pos (output_pos s)) =? input_pos s)%nat).
(** The samples of a digit and of the gap behind it; [n] more of the tone. *)
Definition tone_samples (p : bsubprot) (n : nat) (digit t : Z) : list Z :=
  play p (digit_freq digit).1 (digit_freq digit).2 (n + Z.to_nat (samples t)) 0 0.
Definition gap_samples (p : bsubprot) (g : Z) : list Z := play p 0 0 (S (Z.to_nat (samples g))) 0 0.

Lemma samples_u16 t : is_u16 (samples t).
Proof. unfold samples. apply u16_range. Qed.
Lemma digit_freq_range d : 0 <= (digit_freq d).1 < 8000 ∧ 0 <= (digit_freq d).2 < 8000.
Proof.
  unfold digit_freq. destruct (list_find _ dtmf_to_freq) as [[k x]|] eqn:E; [|cbn; lia].
  apply list_find_Some in E as (Hx & _ & _). cbv beta.
  assert (forallb (λ x, (0 <=? x.1.1) && (x.1.1 <? 8000) && (0 <=? x.1.2) && (x.1.2 <? 8000)) dtmf_to_freq = true)
    as Hf by (vm_compute; reflexivity).
  rewrite forallb_forall in Hf. specialize (Hf x ltac:(by eapply list_elem_of_In, list_elem_of_lookup_2)).
  cbv beta in Hf. rewrite !andb_true_iff in Hf. lia.
Qed.
Lemma queue_run d t g s : has_room s = true ->
  i4b_dtmf_queue_digit d t g s =
  (set_tone (next_pos (output_pos s)) 0 0 (samples g)
     (set_tone (output_pos s) (digit_freq d).1 (digit_freq d).2 (samples t) s))
    <| output_pos := next_pos (next_pos (output_pos s)) |>.
Proof.
  unfold has_room, i4b_dtmf_queue_digit. intros ->%negb_true_iff. by destruct (digit_freq d).
Qed.
Lemma queue_ok d t g s : tx_ok s -> tx_ok (i4b_dtmf_queue_digit d t g s).
Proof.
  intros Hok. destruct (has_room s) eqn:Hr.
  - rewrite queue_run by done. destruct Hok as [(L1 & L2 & L3) [P1 P2] [F1 F2] D O Hi].
    destruct (digit_freq_range d) as [R1 R2].
    constructor; cbn; try done; rewrite ?length_insert.
    + done.
    + split; [done|apply next_pos_lt].
    + split; repeat (apply Forall_insert; [|lia]); done.
    + repeat (apply Forall_insert; [|apply samples_u16]). done.
    + intros He. exfalso. apply negb_true_iff, orb_false_iff in Hr as [_ Hr]. apply Nat.eqb_neq in Hr.
      apply Hr. symmetry. exact He.
  - unfold has_room in Hr. apply negb_false_iff in Hr. unfold i4b_dtmf_queue_digit. by rewrite Hr.
Qed.

Lemma queue_other d t g s j : has_room s = true -> j ≠ output_pos s -> j ≠ next_pos (output_pos s) ->
  let s' := i4b_dtmf_queue_digit d t g s in
  freq0 s' !!! j = freq0 s !!! j ∧ freq1 s' !!! j = freq1 s !!! j ∧ duration s' !!! j = duration s !!! j.
Proof.
  intros Hr H1 H2 s'. subst s'. rewrite queue_run by done. revert H2.
  generalize (next_pos (output_pos s)). intros n H2. generalize (next_pos n). intros n'. cbn. by rewrite !list_lookup_total_insert_ne by done.
Qed.
Lemma queue_at d t g s : tx_ok s -> has_room s = true ->
  let s' := i4b_dtmf_queue_digit d t g s in
  let o := output_pos s in
  (freq0 s' !!! o = (digit_freq d).1 ∧ freq1 s' !!! o = (digit_freq d).2 ∧ duration s' !!! o = samples t) ∧
  tone_at s' (next_pos o) = gap_samples (tx_bsubprot s) g.
Proof.
  intros [(L1 & L2 & L3) [P1 P2] F D O Hi] Hr s' o. subst s' o. rewrite queue_run by done.
  pose proof (next_pos_lt (output_pos s)) as P3.
  ring_fact (input_pos s) (output_pos s) P1 P2. clear Hf1 Hf2 Hf3 Hf4 Hf5 Hf6 Hf7. rename Hf8 into Hne.
  revert P3 Hne. generalize (next_pos (output_pos s)). intros n P3 Hne. generalize (next_pos n). intros n'.
  unfold tone_at. cbn. rewrite !(list_lookup_total_insert_ne _ n (output_pos s)) by done.
  rewrite !list_lookup_total_insert_eq by (rewrite ?length_insert; lia). done.
Qed.

Lemma queue_stream d t g s : tx_ok s -> has_room s = true ->
  stream (i4b_dtmf_queue_digit d t g s) =
  stream s ++ tone_samples (tx_bsubprot s) (if (input_pos s =? output_pos s)%nat then 0 else 1) d t ++
  gap_samples (tx_bsubprot s) g.
Proof.
  intros Hok Hr. destruct (queue_at d t g s Hok Hr) as [(Q1 & Q2 & Q3) Q4].
  pose proof (λ j, queue_other d t g s j Hr) as Qo. pose proof Hok as [(L1 & L2 & L3) [P1 P2] F D O Hi].
  set (s' := i4b_dtmf_queue_digit d t g s) in *.
  assert (input_pos s' = input_pos s ∧ output_pos s' = next_pos (next_pos (output_pos s)) ∧
    tx_bsubprot s' = tx_bsubprot s ∧ omega0 s' = omega0 s ∧ omega1 s' = omega1 s) as (S1 & S2 & S3 & S4 & S5)
    by (subst s'; by rewrite queue_run).
  unfold has_room in Hr. apply negb_true_iff, orb_false_iff in Hr as [Hr1%Nat.eqb_neq Hr2%Nat.eqb_neq].
  pose proof (next_pos_lt (output_pos s)) as P3.
  unfold stream, pending. rewrite S1, S2, (proj2 (Nat.eqb_neq _ _)) by congruence.
  ring_fact (input_pos s) (output_pos s) P1 P2. pose proof (Hf5 Hr1) as Hd1. pose proof (Hf7 Hr1) as Hn. clear Hf1 Hf3 Hf5 Hf7 Hf8.
  rename Hf2 into Hdi, Hf4 into Ho, Hf6 into Hr6.
  ring_fact (input_pos s) (next_pos (output_pos s)) P1 P3. pose proof (Hf5 Hr2) as Hd2. clear Hf1 Hf2 Hf3 Hf4 Hf5 Hf7.
  rewrite Hd1 in Hf6, Hd2. rewrite Hd2.
  destruct (Nat.eqb_spec (input_pos s) (output_pos s)) as [He|He].
  - rewrite (proj2 Hdi He). cbn [Nat.sub ring map concat app]. destruct (Hi He) as [Ho0 Ho1].
    unfold current_tone. rewrite S1, S3, S4, S5, Ho0, Ho1, He, Q1, Q2, Q3, app_nil_r. f_equal. exact Q4.
  - destruct (dist (input_pos s) (output_pos s)) as [|k] eqn:Ek; [by destruct (He (proj1 Hdi eq_refl))|].
    rewrite Hr6 in Hf6. cbn [ring app] in Hf6, Ho, Hn, Hr6. cbn [Nat.sub]. rewrite Nat.sub_0_r.
    injection Hf6 as Hf6. cbn [ring]. rewrite Hf6.
    apply Forall_cons in Ho as [_ Ho]. apply Forall_cons in Hn as [_ Hn].
    injection Hr6 as Hr6. rewrite Hr6 in Hn. apply Forall_app in Hn as [Hn _].
    rewrite !map_app, !concat_app. cbn [map concat]. rewrite !app_nil_r, Q4.
    assert (tone_at s' (output_pos s) = tone_samples (tx_bsubprot s) 1 d t) as ->
      by (unfold tone_at, tone_samples; by rewrite Q1, Q2, Q3, S3).
    rewrite <-!app_assoc. f_equal.
    + unfold current_tone. destruct (Qo (input_pos s)) as (E1 & E2 & E3); [done|done|].
      by rewrite S1, S3, S4, S5, E1, E2, E3.
    + f_equal. f_equal. apply map_ext_in. intros j Hj%list_elem_of_In. rewrite Forall_forall in Ho, Hn.
      destruct (Qo j (Ho j Hj) (Hn j Hj)) as (E1 & E2 & E3). unfold tone_at. by rewrite S3, E1, E2, E3.
Qed.

(** ** Playing a number *)
Definition queue_digits (t g : Z) (ds : list Z) (s : dtmf_tx) : dtmf_tx :=
  foldl (λ s d, i4b_dtmf_queue_digit d t g s) s ds.
(** The first digit starts an idle generator, the others are entered. *)
Definition digit_samples (p : bsubprot) (n : nat) (t g d : Z) : list Z := tone_samples p n d t ++ gap_samples p g.
Definition digits_stream (p : bsubprot) (t g : Z) (ds : list Z) : list Z :=
  match ds with
  | [] => []
  | d :: ds => digit_samples p 0 t g d ++ concat (map (digit_samples p 1 t g) ds)
  end.

Lemma init_ok p : tx_ok (i4b_dtmf_init_tx p).
Proof.
  constructor; cbn -[replicate]; try done; try (split; lia); rewrite ?length_replicate; try done.
  - unfold I4B_DTMF_N_DIGITS. lia.
  - split; apply Forall_replicate; lia.
  - apply Forall_replicate. unfold is_u16. lia.
Qed.
Lemma queue_digits_spec p t g ds : (length ds <= 15)%nat ->
  let s := queue_digits t g ds (i4b_dtmf_init_tx p) in
  tx_ok s ∧ input_pos s = 0%nat ∧ output_pos s = (2 * length ds)%nat ∧ tx_bsubprot s = p ∧
  stream s = digits_stream p t g ds.
Proof.
  induction ds as [|d ds IH] using rev_ind; intros Hl.
  { split_and!; [apply init_ok|done..]. }
  rewrite length_app in *. cbn [length] in *. destruct IH as (Hok & Hi & Ho & Hp & Hs); [lia|].
  unfold queue_digits. rewrite foldl_app. fold (queue_digits t g ds (i4b_dtmf_init_tx p)). cbn [foldl].
  set (s := queue_digits t g ds (i4b_dtmf_init_tx p)) in *.
  assert (∀ k, (k < 31)%nat -> next_pos k = S k) as Hn.
  { intros k Hk. unfold next_pos. rewrite Nat.mod_small by (unfold I4B_DTMF_N_DIGITS; lia). lia. }
  assert (next_pos (output_pos s) = S (2 * length ds) ∧ next_pos (next_pos (output_pos s)) = S (S (2 * length ds))) as [N1 N2].
  { rewrite Ho, (Hn (2 * length ds)%nat) by lia. rewrite Hn by lia. done. }
  assert (has_room s = true) as Hr.
  { unfold has_room. rewrite N2, N1, Hi. done. }
  split; [by apply queue_ok|]. rewrite queue_stream by done. rewrite Hs, Hp, Hi, Ho, queue_run by done.
  cbn [input_pos output_pos tx_bsubprot set_tone]. split; [exact Hi|]. split; [|split; [exact Hp|]].
  - change (next_pos (next_pos (output_pos s)) = (2 * (length ds + 1))%nat). rewrite N2. lia.
  - destruct ds as [|d' ds]; [cbn [digits_stream app map concat]; by rewrite app_nil_r|]. cbn [digits_stream app length]. rewrite map_app, concat_app. cbn [map concat].
    rewrite app_nil_r, <-app_assoc. done.
Qed.

Lemma generate_correct_witness :
  let s := i4b_dtmf_queue_digit 53 0 0 (i4b_dtmf_init_tx BSUBPROT_G711_ULAW) in
  let '(out, s') := i4b_dtmf_generate None (Some (replicate 4 7)) s in
  out = Some (take 4 (stream s) ++ []) ∧ tx_ok s' ∧ stream s' = drop 4 (stream s) ∧
  (idle s' <-> (length (stream s) < 4)%nat).
Proof.
  intros s. assert (length (stream s) = 641%nat) as Hl by (vm_compute; reflexivity).
  pose proof (generate_correct None (Some (replicate 4 7)) s
    (queue_ok 53 0 0 _ (init_ok BSUBPROT_G711_ULAW)) ltac:(vm_compute; discriminate)) as H.
  cbn [fmap option_fmap option_map] in H. destruct (i4b_dtmf_generate _ _ s) as [out s'].
  rewrite length_replicate, Hl in *. destruct H as (H1 & H2 & H3 & H4).
  split; [exact H1|]. split; [exact H2|]. split; [exact H3|exact H4].
Defined.

(** The frames of a B-channel, one after the other. *)
Fixpoint send_frames (bufs : list (list Z)) (s : dtmf_tx) : list Z :=
  match bufs with
  | [] => []
  | buf :: bufs =>
      let '(out, s) := i4b_dtmf_generate (Some buf) None s in default [] out ++ send_frames bufs s
  end.
Lemma send_frames_spec bufs : ∀ s, tx_ok s -> ~ idle s ->
  (length (concat bufs) <= length (stream s))%nat -> send_frames bufs s = take (length (concat bufs)) (stream s).
Proof.
  induction bufs as [|buf bufs IH]; intros s Hok Ha Hl; [done|]. cbn [send_frames concat] in *.
  rewrite length_app in *. unfold i4b_dtmf_generate. rewrite (proj2 (Nat.eqb_neq _ _)) by exact Ha.
  pose proof (generate_loop_spec false 0 buf s Hok Ha) as H. destruct (generate_loop _ _ _ _) as [out s'].
  destruct H as (-> & H2 & H3 & H4 & _). cbn [default from_option id].
  rewrite (drop_ge buf) by lia. rewrite behind_given, app_nil_r, IH; [|done|rewrite H4; lia|rewrite H3, length_drop; lia].
  by rewrite H3, take_take_drop.
Qed.
