(* ===== verification/DtmfRx.v ===== *)
(** * Touch tones: what is played is detected

    The detector takes its input byte by byte as far as its results go.  On
    the stream of a number that the generator plays it reports exactly the
    digits of the number. *)
From stdpp Require Import pmap.
From S2P Require Import Prelude XlawTables Xlaw Dtmf DtmfTx.
Local Open Scope Z_scope.

(** ** One byte at a time *)
Definition rx_open (s : dtmf_rx) : Prop := (length (rx_buffer s) < I4B_DTMF_N_SAMPLES)%nat.
Definition detect_byte (s : dtmf_rx) (b : Z) : list Z * dtmf_rx :=
  let s := s <| rx_buffer ::= λ l, l ++ [b] |> in
  if (length (rx_buffer s) =? I4B_DTMF_N_SAMPLES)%nat then detect_block s else ([], s).
Fixpoint detect_bytes (data : list Z) (s : dtmf_rx) : list Z * dtmf_rx :=
  match data with
  | [] => ([], s)
  | b :: data =>
      let '(out, s) := detect_byte s b in
      let '(out', s) := detect_bytes data s in (out ++ out', s)
  end.
Lemma detect_bytes_app a b s :
  detect_bytes (a ++ b) s =
  ((detect_bytes a s).1 ++ (detect_bytes b (detect_bytes a s).2).1, (detect_bytes b (detect_bytes a s).2).2).
Proof.
  revert s. induction a as [|x a IH]; intros s; cbn [detect_bytes app fst snd]; [by destruct (detect_bytes b s)|].
  destruct (detect_byte s x) as [o s1]. rewrite IH. destruct (detect_bytes a s1) as [o2 s2]. cbn [fst snd].
  by rewrite app_assoc.
Qed.
Lemma accept_buffer c s : rx_buffer (accept_code c s).2 = rx_buffer s.
Proof. unfold accept_code. repeat (case_match; simplify_eq); done. Qed.
Lemma detect_block_open s : rx_open (detect_block s).2.
Proof. unfold rx_open, detect_block. rewrite accept_buffer. cbn. unfold I4B_DTMF_N_SAMPLES. lia. Qed.
(** Bytes that do not complete the block. *)
Lemma detect_bytes_short data : ∀ s, (length (rx_buffer s) + length data < I4B_DTMF_N_SAMPLES)%nat ->
  detect_bytes data s = ([], s <| rx_buffer ::= λ l, l ++ data |>).
Proof.
  induction data as [|b data IH]; intros s Hl; cbn [detect_bytes].
  { destruct s as [l ? ? ? ? ?]. unfold set. cbn. by rewrite app_nil_r. }
  unfold detect_byte. cbn [length] in Hl. cbn [rx_buffer]. cbn -[length Nat.eqb].
  rewrite (proj2 (Nat.eqb_neq _ _)) by (rewrite length_app; cbn [length]; lia).
  rewrite IH by (cbn -[length]; rewrite length_app; cbn [length]; lia).
  destruct s as [l ? ? ? ? ?]. unfold set. cbn. by rewrite <-app_assoc.
Qed.
Lemma detect_bytes_block data s :
  (length (rx_buffer s) + length data = I4B_DTMF_N_SAMPLES)%nat -> data ≠ [] ->
  detect_bytes data s = detect_block (s <| rx_buffer ::= λ l, l ++ data |>).
Proof.
  intros Hl Hne. destruct (exists_last Hne) as (data' & b & ->). rewrite length_app in Hl. cbn [length] in Hl.
  rewrite detect_bytes_app, detect_bytes_short by lia. cbn [fst snd app detect_bytes]. unfold detect_byte.
  cbn -[length Nat.eqb]. rewrite (proj2 (Nat.eqb_eq _ _)) by (rewrite !length_app; cbn [length]; lia).
  destruct s as [l ? ? ? ? ?]. unfold set. cbn -[detect_block]. rewrite <-app_assoc.
  destruct (detect_block _) as [o s']. by rewrite app_nil_r.
Qed.

Lemma detect_loop_bytes n : ∀ fuel data s, (length data <= n)%nat -> (length data < fuel)%nat -> rx_open s ->
  detect_loop fuel data s = Some (detect_bytes data s).
Proof.
  induction n as [n IH] using lt_wf_ind. intros [|fuel] data s Hn Hf Ho; [lia|]. unfold rx_open in Ho.
  cbn [detect_loop]. set (delta := Nat.min _ _).
  assert (length (take delta data) = delta) as Hd by (rewrite length_take; lia).
  change (rx_buffer (s <| rx_buffer ::= λ l, l ++ take delta data |>)) with (rx_buffer s ++ take delta data).
  rewrite length_app, Hd. destruct (decide (length (rx_buffer s) + length data < I4B_DTMF_N_SAMPLES)%nat) as [Hs|Hs].
  - rewrite (proj2 (Nat.eqb_neq _ _)) by lia. cbn [negb]. rewrite detect_bytes_short by done.
    by rewrite take_ge by lia.
  - assert (length (rx_buffer s) + delta = I4B_DTMF_N_SAMPLES)%nat as He by lia.
    rewrite (proj2 (Nat.eqb_eq _ _)) by done. cbn [negb].
    replace (detect_bytes data s) with (detect_bytes (take delta data ++ drop delta data) s) by (by rewrite take_drop).
    rewrite detect_bytes_app, (detect_bytes_block (take delta data)); [|by rewrite Hd|].
    2: { intros Hz. rewrite Hz in Hd. cbn [length] in Hd. lia. }
    pose proof (detect_block_open (s <| rx_buffer ::= λ l, l ++ take delta data |>)) as Hb.
    destruct (detect_block _) as [out s']. cbn [fst snd] in *.
    rewrite (IH (length (drop delta data))); [|rewrite length_drop; lia|done|rewrite length_drop; lia|done].
    by destruct (detect_bytes (drop delta data) s').
Qed.
Lemma detect_is_bytes data s : rx_open s -> i4b_dtmf_detect data s = detect_bytes data s.
Proof. intros Ho. unfold i4b_dtmf_detect. by rewrite (detect_loop_bytes (length data)) by (done || lia). Qed.

(** ** The results of the blocks *)

(** The codes of the whole blocks of [data], [k] bytes of the first one
    being there already, and what is left. *)
Fixpoint block_codes (p : bsubprot) (n : nat) (data : list Z) : list Z * list Z :=
  match n with
  | O => ([], data)
  | S n =>
      let '(cs, rest) := block_codes p n (drop I4B_DTMF_N_SAMPLES data) in
      (tones_code (block_tones p (take I4B_DTMF_N_SAMPLES data)) false :: cs, rest)
  end.
Fixpoint accept_codes (cs : list Z) (s : dtmf_rx) : list Z * dtmf_rx :=
  match cs with
  | [] => ([], s)
  | c :: cs => let '(out, s) := accept_code c s in let '(out', s) := accept_codes cs s in (out ++ out', s)
  end.

(** ** A block of decoded samples, fast *)

(** Division by 128 by a shift, and a wrap that is seldom needed. *)
Definition quot128 (x : Z) : Z := if x <? 0 then - Z.shiftr (- x) 7 else Z.shiftr x 7.
Lemma quot128_spec x : Z.quot x 128 = quot128 x.
Proof.
  unfold quot128. destruct (Z.ltb_spec x 0).
  - rewrite Z.shiftr_div_pow2, <-Z.quot_div_nonneg, Z.quot_opp_l by lia. by rewrite Z.opp_involutive.
  - by rewrite Z.shiftr_div_pow2, <-Z.quot_div_nonneg by lia.
Qed.
Definition wrap32 (x : Z) : Z := if (-2147483648 <=? x) && (x <? 2147483648) then x else i32 x.
Lemma wrap32_spec x : i32 x = wrap32 x.
Proof.
  unfold wrap32. destruct (_ && _) eqn:E; [|done]. apply andb_true_iff in E as [E1%Z.leb_le E2%Z.ltb_lt].
  unfold i32. rewrite Z.mod_small by lia. lia.
Qed.
Definition goertzel_fast (k : Z) (w : Z * Z) (sample : Z) : Z * Z :=
  (w.2, wrap32 (quot128 (wrap32 (k * quot128 w.2)) - w.1 + sample)).
Lemma run_filter_fast k data : run_filter k data = foldl (goertzel_fast k) (0, 0) data.
Proof.
  unfold run_filter. generalize (0, 0). induction data as [|x data IH]; intros w; [done|]. cbn [foldl].
  rewrite IH. f_equal. unfold goertzel, goertzel_fast. by rewrite !quot128_spec, !wrap32_spec.
Qed.

(** The tones and the code of a block of samples. *)
Definition loudest (g sample : Z) : Z :=
  let sample := Z.abs sample in if g <? sample then Z.min sample 0x7FFF else g.
Definition samples_tones (l : list Z) : Z :=
  let gain := foldl loudest 0x1000 l in
  let data := map (normalize gain) l in
  found_tones (map (λ k, energy k (foldl (goertzel_fast k) (0, 0) data)) K).
Lemma block_tones_samples p buf : block_tones p buf = samples_tones (map (decode_sample p) buf).
Proof.
  unfold block_tones, samples_tones, max_gain.
  assert (∀ g, foldl loudest g (map (decode_sample p) buf) =
    foldl (λ g b, let sample := Z.abs (decode_sample p b) in if g <? sample then Z.min sample 32767 else g) g buf) as ->.
  { induction buf as [|b buf IH]; intros g; [done|]. cbn [map foldl]. by rewrite IH. }
  rewrite map_map. f_equal. apply map_ext. intros k. by rewrite run_filter_fast.
Qed.

(** The decoded samples of two tones; [m] is the table of sines. *)
Definition sine_of (m : Pmap Z) (o : Z) : Z := default 0 (m !! Z.to_pos (o + 1)).
Fixpoint pmap_of (k : positive) (l : list Z) : Pmap Z :=
  match l with [] => ∅ | x :: l => <[k := x]> (pmap_of (Pos.succ k) l) end.
Lemma pmap_of_lookup l : ∀ k (i : nat), pmap_of k l !! Pos.of_nat (Pos.to_nat k + i) = l !! i.
Proof.
  assert (∀ l (k j : positive), (j < k)%positive -> pmap_of k l !! j = None) as Hn.
  { clear l. induction l as [|x l IH]; intros k j Hj; [done|]. cbn [pmap_of].
    rewrite lookup_insert_ne by lia. apply IH. lia. }
  induction l as [|x l IH]; intros k i; [done|]. cbn [pmap_of]. destruct i as [|i].
  - rewrite Nat.add_0_r, Pos2Nat.id. by rewrite lookup_insert_eq.
  - rewrite lookup_insert_ne by lia. change ((x :: l) !! S i) with (l !! i). rewrite <-(IH (Pos.succ k) i). f_equal. lia.
Qed.
Lemma sine_of_spec l o : sine_of (pmap_of 1 l) o = tab l o.
Proof.
  unfold sine_of, tab. f_equal. rewrite <-(pmap_of_lookup l 1 (Z.to_nat o)). f_equal. lia.
Qed.
Definition sines : Pmap Z := pmap_of 1 i4b_sine_to_signed.
Fixpoint heard (m : Pmap Z) (p : bsubprot) (f0 f1 : Z) (n : nat) (o0 o1 : Z) : list Z :=
  match n with
  | O => []
  | S n => quantized p (clamp (Z.quot (sine_of m o0 + sine_of m o1) 4)) ::
           heard m p f0 f1 n (advance o0 f0) (advance o1 f1)
  end.
Definition g711 (p : bsubprot) : Prop := p = BSUBPROT_G711_ULAW ∨ p = BSUBPROT_G711_ALAW.
Lemma decode_encode p t : g711 p -> decode_sample p (encode p t) = quantized p (clamp t).
Proof. intros [->| ->]; [by apply (to_of_signed BSUBPROT_G711_ULAW)|by apply (to_of_signed BSUBPROT_G711_ALAW)]. Qed.
Lemma play_heard p f0 f1 n : g711 p -> ∀ o0 o1,
  map (decode_sample p) (play p f0 f1 n o0 o1) = heard sines p f0 f1 n o0 o1.
Proof.
  intros Hp. induction n as [|n IH]; intros o0 o1; [done|]. cbn [play map heard]. rewrite IH. f_equal.
  unfold tone_sample, sines. by rewrite decode_encode, !sine_of_spec.
Qed.
Lemma gap_play p n : play p 0 0 n 0 0 = replicate n (encode p 0).
Proof. induction n as [|n IH]; [done|]. cbn [play replicate]. change (advance 0 0) with 0. by rewrite IH. Qed.

(** The codes of blocks; a block of silence has none. *)
Definition silent (p : bsubprot) : Z := quantized p 0.
Definition samples_code (p : bsubprot) (l : list Z) : Z :=
  if forallb (Z.eqb (silent p)) l then 0 else tones_code (samples_tones l) false.
Fixpoint samples_codes (p : bsubprot) (n : nat) (l : list Z) : list Z :=
  match n with
  | O => []
  | S n => samples_code p (take I4B_DTMF_N_SAMPLES l) :: samples_codes p n (drop I4B_DTMF_N_SAMPLES l)
  end.
(** The number of samples of a tone of 49 ms, and of the gap of 40 ms. *)
Definition TONE : nat := 392.
Definition GAP : nat := 321.
Definition digit_check (m : Pmap Z) (p : bsubprot) (d : Z) : bool :=
  let '(f0, f1) := digit_freq d in
  let gap := replicate GAP (silent p) in
  bool_decide (samples_codes p 6 (heard m p f0 f1 TONE 0 0 ++ gap) = [d; d; d; d; 0; 0]) &&
  bool_decide (samples_codes p 7 (replicate 101 (silent p) ++ heard m p f0 f1 (S TONE) 0 0 ++ gap) =
               [0; d; d; d; d; 0; 0]).
Lemma all_digits_checked :
  forallb (λ p, forallb (digit_check sines p) code_to_ascii) [BSUBPROT_G711_ULAW; BSUBPROT_G711_ALAW] = true.
Proof. vm_compute. reflexivity. Qed.

(** ** The codes of the blocks of a number *)
Lemma silence_code p : g711 p ->
  tones_code (samples_tones (replicate I4B_DTMF_N_SAMPLES (silent p))) false = 0.
Proof. intros [->| ->]; vm_compute; reflexivity. Qed.
Lemma samples_code_spec p l : g711 p -> length l = I4B_DTMF_N_SAMPLES ->
  samples_code p l = tones_code (samples_tones l) false.
Proof.
  intros Hp Hl. unfold samples_code. destruct (forallb _ l) eqn:Hf; [|done].
  assert (l = replicate I4B_DTMF_N_SAMPLES (silent p)) as ->; [|by rewrite silence_code].
  symmetry. apply replicate_as_elem_of. split; [done|]. intros x Hx. rewrite forallb_forall in Hf.
  symmetry. apply Z.eqb_eq, Hf. by apply list_elem_of_In.
Qed.
Lemma block_codes_spec p n : g711 p -> ∀ data, (n * I4B_DTMF_N_SAMPLES <= length data)%nat ->
  block_codes p n data = (samples_codes p n (map (decode_sample p) data), drop (n * I4B_DTMF_N_SAMPLES) data).
Proof.
  intros Hp. induction n as [|n IH]; intros data Hl; [done|]. cbn [block_codes samples_codes].
  rewrite IH by (rewrite length_drop; lia). rewrite drop_drop. f_equal. rewrite <-fmap_drop.
  f_equal. rewrite block_tones_samples, samples_code_spec; [by rewrite fmap_take|done|].
  rewrite <-fmap_take, length_map, length_take. lia.
Qed.
(** Blocks one after the other. *)
Lemma detect_block_code p s : rx_bsubprot s = p -> detected_fax_or_modem s = false ->
  detect_block s = accept_code (tones_code (block_tones p (rx_buffer s)) false) (s <| rx_buffer := [] |>).
Proof. by intros <- Hf; unfold detect_block; rewrite Hf. Qed.
Lemma accept_digit c s : (c =? 88) || (c =? 89) = false -> code s ≠ 88 -> code s ≠ 89 ->
  let s' := (accept_code c s).2 in
  rx_bsubprot s' = rx_bsubprot s ∧ detected_fax_or_modem s' = detected_fax_or_modem s ∧
  (code s' ≠ 88 ∧ code s' ≠ 89) ∧ rx_buffer s' = rx_buffer s.
Proof.
  intros Hc H1 H2. apply orb_false_iff in Hc as [Hc1%Z.eqb_neq Hc2%Z.eqb_neq].
  unfold accept_code. destruct (_ && _).
  - cbn. rewrite Z.eqb_refl. rewrite !(proj2 (Z.eqb_neq _ _)) by done. cbn. by destruct (negb _).
  - cbn. destruct (Z.eqb_spec c (code s)); cbn; rewrite !(proj2 (Z.eqb_neq _ _)) by done; cbn; by destruct (negb _).
Qed.
Definition not_fax (c : Z) : Prop := (c =? 88) || (c =? 89) = false.
Lemma detect_bytes_codes p n : ∀ cs rest data s,
  block_codes p n (rx_buffer s ++ data) = (cs, rest) -> Forall not_fax cs ->
  (length (rx_buffer s ++ data) = n * I4B_DTMF_N_SAMPLES + length rest)%nat -> (length rest < I4B_DTMF_N_SAMPLES)%nat ->
  rx_open s -> rx_bsubprot s = p -> detected_fax_or_modem s = false -> code s ≠ 88 ∧ code s ≠ 89 ->
  detect_bytes data s =
  ((accept_codes cs (s <| rx_buffer := [] |>)).1, (accept_codes cs (s <| rx_buffer := [] |>)).2 <| rx_buffer := rest |>).
Proof.
  induction n as [|n IH]; intros cs rest data s Hb Hcs Hl Hr Ho Hp Hf Hc; cbn [block_codes] in Hb.
  { injection Hb as <- <-. rewrite detect_bytes_short by (rewrite length_app in Hr; lia). by destruct s. }
  destruct (block_codes p n _) as [cs' rest'] eqn:Hb'. injection Hb as <- <-. apply Forall_cons in Hcs as [Hc1 Hcs].
  rewrite length_app in Hl. unfold rx_open in Ho. set (k := (I4B_DTMF_N_SAMPLES - length (rx_buffer s))%nat).
  assert (length (take k data) = k) as Hk by (rewrite length_take; lia).
  rewrite drop_app_ge in Hb' by lia. fold k in Hb'.
  rewrite take_app_ge in * by lia. fold k in Hc1. fold k.
  rewrite <-(take_drop k data) at 1. rewrite detect_bytes_app, (detect_bytes_block (take k data)); [|lia|].
  2: { intros Hz. rewrite Hz in Hk. cbn [length] in Hk. lia. }
  rewrite (detect_block_code p) by done. cbn [accept_codes].
  change (rx_buffer (s <| rx_buffer ::= λ l, l ++ take k data |>)) with (rx_buffer s ++ take k data).
  set (c := tones_code _ _) in *. change (s <| rx_buffer ::= λ l, l ++ take k data |> <| rx_buffer := [] |>) with
    (s <| rx_buffer := [] |>).
  destruct (accept_digit c (s <| rx_buffer := [] |>)) as (A1 & A2 & A3 & A4); [done|apply Hc..|].
  destruct (accept_code c _) as [out s1]. cbn [fst snd] in *. change (rx_buffer (s <| rx_buffer := [] |>)) with (@nil Z) in A4.
  rewrite (IH cs' rest'); try done.
  - destruct s1 as [b ? ? ? ? ?]. cbn in A4. subst b. cbn -[accept_codes]. by destruct (accept_codes _ _).
  - by rewrite A4.
  - rewrite A4. cbn [app]. rewrite length_drop. lia.
  - unfold rx_open. rewrite A4. cbn [length]. lia.
  - by rewrite A1.
  - by rewrite A2.
Qed.

(** ** A number *)

(** The detector behind a digit: the last block of its gap lacks a sample. *)
Definition behind_digit (p : bsubprot) (d : Z) : dtmf_rx :=
  Dtmf_rx (replicate 101 (encode p 0)) d 6 2 p false.
Lemma digit_samples_eq p n d :
  digit_samples p n 49 40 d =
  play p (digit_freq d).1 (digit_freq d).2 (n + TONE) 0 0 ++ replicate GAP (encode p 0).
Proof. unfold digit_samples, tone_samples, gap_samples. by rewrite gap_play. Qed.
Lemma play_length p f0 f1 n : ∀ o0 o1, length (play p f0 f1 n o0 o1) = n.
Proof. induction n as [|n IH]; intros o0 o1; cbn; [done|]. by rewrite IH. Qed.
Lemma digit_checked p d : g711 p -> d ∈ code_to_ascii -> digit_check sines p d = true.
Proof.
  intros Hp Hd. pose proof all_digits_checked as H.
  rewrite forallb_forall in H. 
  assert (In p [BSUBPROT_G711_ULAW; BSUBPROT_G711_ALAW]) as Hin by (destruct Hp as [->| ->]; cbn; tauto).
  specialize (H p Hin). rewrite forallb_forall in H. apply (H d). by apply list_elem_of_In.
Qed.
Lemma silence_decoded p : g711 p -> decode_sample p (encode p 0) = silent p.
Proof. intros Hp. by rewrite decode_encode. Qed.
Lemma digit_ne d : d ∈ code_to_ascii -> d ≠ 0 ∧ d ≠ 88 ∧ d ≠ 89.
Proof.
  intros Hd. assert (Forall (λ d, d ≠ 0 ∧ d ≠ 88 ∧ d ≠ 89) code_to_ascii) as H by (repeat constructor; done).
  rewrite Forall_forall in H. by apply H.
Qed.
(** What follows the blocks in a list that ends in a gap. *)
Lemma gap_rest (l : list Z) (x : Z) n k : (length l <= n * I4B_DTMF_N_SAMPLES)%nat ->
  (length l + GAP = n * I4B_DTMF_N_SAMPLES + k)%nat ->
  drop (n * I4B_DTMF_N_SAMPLES) (l ++ replicate GAP x) = replicate k x.
Proof.
  intros Hl Hk. rewrite drop_app_ge by done. rewrite drop_replicate. f_equal. lia.
Qed.
Lemma digit_block_codes p d : g711 p -> d ∈ code_to_ascii ->
  block_codes p 6 (digit_samples p 0 49 40 d) = ([d; d; d; d; 0; 0], replicate 101 (encode p 0)) ∧
  block_codes p 7 (replicate 101 (encode p 0) ++ digit_samples p 1 49 40 d) =
    ([0; d; d; d; d; 0; 0], replicate 101 (encode p 0)).
Proof.
  intros Hp Hd. pose proof (digit_checked p d Hp Hd) as Hc. unfold digit_check in Hc. rewrite !digit_samples_eq.
  destruct (digit_freq d) as [f0 f1]. cbn [fst snd]. rewrite andb_true_iff, !bool_decide_eq_true in Hc.
  destruct Hc as [H1 H2].
  assert (∀ n, map (decode_sample p) (replicate n (encode p 0)) = replicate n (silent p)) as Hs.
  { intros n. rewrite <-(silence_decoded p Hp). apply fmap_replicate. }
  split.
  - rewrite block_codes_spec; [|done|rewrite length_app, play_length, length_replicate; by apply Nat.leb_le].
    rewrite map_app, play_heard, Hs by done. cbn [Nat.add]. rewrite H1. apply (f_equal (pair _)).
    by apply gap_rest; rewrite play_length; [apply Nat.leb_le|].
  - rewrite block_codes_spec; [|done|rewrite !length_app, play_length, !length_replicate; by apply Nat.leb_le].
    rewrite !map_app, play_heard, !Hs by done. cbn [Nat.add]. rewrite H2, app_assoc. apply (f_equal (pair _)).
    by apply gap_rest; rewrite length_app, play_length, length_replicate; [apply Nat.leb_le|].
Qed.

Lemma accept_first p d : d ∈ code_to_ascii ->
  accept_codes [d; d; d; d; 0; 0] (i4b_dtmf_init_rx p) = ([d], Dtmf_rx [] d 6 2 p false).
Proof.
  intros Hd. unfold code_to_ascii in Hd. repeat (apply elem_of_cons in Hd as [->|Hd]; [reflexivity|]). by apply not_elem_of_nil in Hd.
Qed.
Lemma accept_next p d0 d : d0 ∈ code_to_ascii -> d ∈ code_to_ascii ->
  accept_codes [0; d; d; d; d; 0; 0] (Dtmf_rx [] d0 6 2 p false) = ([d], Dtmf_rx [] d 6 2 p false).
Proof.
  intros H0 Hd. unfold code_to_ascii in H0, Hd.
  repeat (apply elem_of_cons in H0 as [->|H0];
    [repeat (apply elem_of_cons in Hd as [->|Hd]; [reflexivity|]); by apply not_elem_of_nil in Hd|]).
  by apply not_elem_of_nil in H0.
Qed.
Lemma digit_codes_fax d : d ∈ code_to_ascii ->
  Forall not_fax [d; d; d; d; 0; 0] ∧ Forall not_fax [0; d; d; d; d; 0; 0].
Proof.
  intros (H0 & H1 & H2)%digit_ne.
  assert (not_fax d) as Hf by (unfold not_fax; by rewrite !(proj2 (Z.eqb_neq _ _))). split; by repeat constructor.
Qed.
Lemma digit_samples_length p n d : length (digit_samples p n 49 40 d) = (n + 713)%nat.
Proof. rewrite digit_samples_eq, length_app, play_length, length_replicate. unfold TONE, GAP. lia. Qed.

#[local] Opaque digit_samples.
Lemma detect_first p d : g711 p -> d ∈ code_to_ascii ->
  detect_bytes (digit_samples p 0 49 40 d) (i4b_dtmf_init_rx p) = ([d], behind_digit p d).
Proof.
  intros Hp Hd. destruct (digit_block_codes p d Hp Hd) as [Hb _]. destruct (digit_codes_fax d Hd) as [Hf _].
  rewrite (detect_bytes_codes p 6 _ _ (digit_samples p 0 49 40 d) (i4b_dtmf_init_rx p) Hb Hf);
    [|change (rx_buffer (i4b_dtmf_init_rx p)) with (@nil Z); rewrite length_app, digit_samples_length, length_replicate; reflexivity
    |rewrite length_replicate; by apply Nat.ltb_lt|by apply Nat.ltb_lt|done..].
  change ((i4b_dtmf_init_rx p) <| rx_buffer := [] |>) with (i4b_dtmf_init_rx p). by rewrite accept_first.
Qed.
Lemma detect_next p d0 d : g711 p -> d0 ∈ code_to_ascii -> d ∈ code_to_ascii ->
  detect_bytes (digit_samples p 1 49 40 d) (behind_digit p d0) = ([d], behind_digit p d).
Proof.
  intros Hp H0 Hd. destruct (digit_block_codes p d Hp Hd) as [_ Hb]. destruct (digit_codes_fax d Hd) as [_ Hf].
  rewrite (detect_bytes_codes p 7 _ _ (digit_samples p 1 49 40 d) (behind_digit p d0) Hb Hf);
    [|unfold behind_digit; cbn [rx_buffer]; rewrite length_app, digit_samples_length, !length_replicate; reflexivity
    |rewrite length_replicate; by apply Nat.ltb_lt|unfold rx_open, behind_digit; cbn [rx_buffer];
     rewrite length_replicate; by apply Nat.ltb_lt|done|done|by apply digit_ne].
  change ((behind_digit p d0) <| rx_buffer := [] |>) with (Dtmf_rx [] d0 6 2 p false). by rewrite accept_next.
Qed.
Lemma detect_more p ds : g711 p -> Forall (.∈ code_to_ascii) ds -> ∀ d0, d0 ∈ code_to_ascii ->
  (detect_bytes (concat (map (digit_samples p 1 49 40) ds)) (behind_digit p d0)).1 = ds.
Proof.
  intros Hp. induction ds as [|d ds IH]; intros Hds d0 H0; [done|]. apply Forall_cons in Hds as [Hd Hds].
  cbn [map concat]. rewrite detect_bytes_app, detect_next by done. cbn [fst snd]. by rewrite IH.
Qed.
Lemma detect_number p ds : g711 p -> Forall (.∈ code_to_ascii) ds ->
  (detect_bytes (digits_stream p 49 40 ds) (i4b_dtmf_init_rx p)).1 = ds.
Proof.
  intros Hp Hds. destruct ds as [|d ds]; [done|]. apply Forall_cons in Hds as [Hd Hds]. cbn [digits_stream].
  rewrite detect_bytes_app, detect_first by done. cbn [fst snd]. by rewrite detect_more.
Qed.
Lemma digits_stream_length p ds : ds ≠ [] -> length (digits_stream p 49 40 ds) = (714 * length ds - 1)%nat.
Proof.
  destruct ds as [|d ds]; [done|]. intros _. cbn [digits_stream]. rewrite length_app, digit_samples_length.
  cbn [length]. assert (length (concat (map (digit_samples p 1 49 40) ds)) = (714 * length ds)%nat) as ->; [|lia].
  induction ds as [|d' ds IH]; [done|]. cbn [map concat length]. rewrite length_app, digit_samples_length, IH. lia.
Qed.

(** The frames a detector is given, one after the other. *)
Fixpoint receive_frames (frames : list (list Z)) (s : dtmf_rx) : list Z :=
  match frames with
  | [] => []
  | f :: frames => let '(out, s) := i4b_dtmf_detect f s in out ++ receive_frames frames s
  end.
Lemma detect_bytes_open data : ∀ s, rx_open s -> rx_open (detect_bytes data s).2.
Proof.
  induction data as [|b data IH]; intros s Ho; [done|]. cbn [detect_bytes].
  assert (rx_open (detect_byte s b).2) as H1.
  { unfold detect_byte. case_match eqn:E; [apply detect_block_open|]. apply Nat.eqb_neq in E. unfold rx_open in *.
    cbn -[length] in *. rewrite length_app in *. cbn [length] in *. lia. }
  destruct (detect_byte s b) as [o s1]. specialize (IH s1 H1). by destruct (detect_bytes data s1).
Qed.
Lemma receive_frames_bytes frames : ∀ s, rx_open s ->
  receive_frames frames s = (detect_bytes (concat frames) s).1.
Proof.
  induction frames as [|f frames IH]; intros s Ho; [done|]. cbn [receive_frames concat].
  rewrite detect_is_bytes, detect_bytes_app by done. pose proof (detect_bytes_open f s Ho) as H.
  destruct (detect_bytes f s) as [o s1]. cbn [fst snd] in *. by rewrite IH.
Qed.

Lemma number_received p ds bufs frames :
  g711 p -> Forall (.∈ code_to_ascii) ds -> (0 < length ds <= 15)%nat ->
  length (concat bufs) = (714 * length ds - 1)%nat ->
  concat frames = send_frames bufs (queue_digits 49 40 ds (i4b_dtmf_init_tx p)) ->
  receive_frames frames (i4b_dtmf_init_rx p) = ds.
Proof.
  intros Hp Hds [Hl0 Hl] Hb Hf. assert (ds ≠ []) as Hne by (intros ->; cbn in Hl0; lia).
  rewrite receive_frames_bytes by (by apply Nat.ltb_lt). rewrite Hf.
  destruct (queue_digits_spec p 49 40 ds Hl) as (Hok & Hi & Ho & _ & Hs).
  pose proof (digits_stream_length p ds Hne) as Hlen.
  rewrite send_frames_spec; [|done|unfold idle; rewrite Hi, Ho; lia|rewrite Hs, Hlen, Hb; done].
  rewrite Hs, take_ge by (rewrite Hb, Hlen; done). by apply detect_number.
Qed.

(** C30: touch tones end to end.  A number of one up to fifteen digits (of
    the sixteen keys) is queued in a freshly initialised generator, with
    tones of 49 ms and gaps of 40 ms, and played in either law into frames of
    any sizes that take exactly the samples of the number (714 for a digit,
    and one less); these samples, and nothing before them, reach a freshly
    initialised detector of the same law, in frames with any other
    boundaries.  The detector reports exactly the digits of the number, in
    order, each of them once.  (The state of the detector matters: one that
    has just heard a digit may not report the same digit again.) *)
Theorem dtmf_roundtrip p ds bufs frames :
  g711 p -> Forall (.∈ code_to_ascii) ds -> (0 < length ds <= 15)%nat ->
  length (concat bufs) = (714 * length ds - 1)%nat ->
  concat frames = send_frames bufs (queue_digits 49 40 ds (i4b_dtmf_init_tx p)) ->
  receive_frames frames (i4b_dtmf_init_rx p) = ds.
Proof. apply number_received. Qed.
Lemma dtmf_roundtrip_witness :
  let bufs := [replicate 400 0; replicate 1027 0] in
  let sent := send_frames bufs (queue_digits 49 40 [52; 35] (i4b_dtmf_init_tx BSUBPROT_G711_ALAW)) in
  receive_frames [take 50 sent; drop 50 sent] (i4b_dtmf_init_rx BSUBPROT_G711_ALAW) = [52; 35].
Proof.
  intros bufs sent. apply (dtmf_roundtrip BSUBPROT_G711_ALAW [52; 35] bufs).
  - by right.
  - apply Forall_cons. split; [|apply Forall_singleton]; by apply (bool_decide_eq_true _).
  - cbn. lia.
  - reflexivity.
  - cbn [concat]. rewrite app_nil_r. apply take_drop.
Defined.
