(* ===== verification/IsdndTypes.v ===== *)
(** * The data of the ISDN daemon

    The configuration entries, messages and global state of the daemon
    [isdnd] ([src/src/usr.sbin/i4b/isdnd]), the requests it makes of the
    operating system, and the monad in which its routines are written.

    A [char] array is the list of its bytes, what follows the terminating
    NUL included; a pointer to a configuration entry is its index in
    [cfg_entry_tab].  What the daemon asks of the system (an [ioctl] on
    [/dev/i4b], a child process, a signal, a random number, a line of the
    accounting file) is appended to [trace]; the system's answers are the
    methods of the class [Env], which may depend on all that was asked
    before, so that a theorem about every [Env] is a theorem about every
    sequence of answers.  Texts for the log, the full-screen display and the
    network monitor are not part of the state. *)
From S2P Require Import Prelude Dss1Types.

(** ** Constants *)
Definition CDID_UNUSED : Z := 0.
Definition CDID2CONTROLLER (id : Z) : Z := id mod I4B_MAX_CONTROLLERS.
Definition GOOD : Z := 0.
Definition ERROR : Z := -1.
Definition INVALID : Z := -1.
Definition TIMEOUT_CONNECT_ACTIVE : Z := 30.

Definition DRVR_TEL : Z := 5.
Definition TON_INTERNAT : Z := 1.
Definition TON_NATIONAL : Z := 2.
Definition CHARGE_INVALID : Z := 0.
Definition CHARGE_AOCD : Z := 1.
Definition CHARGE_CALC : Z := 3.
Definition LAYER_ONE : Z := 1.
Definition LAYER_TWO : Z := 2.
Definition LAYER_IDLE : Z := 0.
Definition LAYER_ACTIVE : Z := 1.
Definition SHA_FIXU : Z := 0.
Definition SHA_VARU : Z := 1.
Definition ULEN_METHOD_STATIC : Z := 0.
Definition ULEN_METHOD_DYNAMIC : Z := 1.

(** [DSTATS]: the states reported to the device driver of a call. *)
Definition DSTAT_NOT_CONNECTED : Z := 0.
Definition DSTAT_INCOMING_CALL : Z := 1.
Definition DSTAT_CONNECTED : Z := 2.
Definition DSTAT_TFAIL : Z := 5.
Definition DSTAT_PFAIL : Z := 6.
Definition DSTAT_INONLY : Z := 7.
Definition DSTAT_NO_ENTRY : Z := 8.

(** [(CAUSET_I4B << 8) | CAUSE_I4B_NORMAL] and [.. | CAUSE_I4B_REJECT] *)
Definition CAUSE_NORMAL : Z := Z.lor (Z.shiftl CAUSET_I4B 8) 0.
Definition CAUSE_REJECT : Z := Z.lor (Z.shiftl CAUSET_I4B 8) 4.

Definition RNF_IDLE : Z := 0.
Definition RNF_SUCC : Z := 1.
Definition MAXRNUMBERS : nat := 8.
Definition RNH_LAST : Z := 1.
Definition RNH_FIRST : Z := 2.
Definition REACT_ACCEPT : Z := 0.
Definition REACT_REJECT : Z := 1.
Definition REACT_IGNORE : Z := 2.
Definition REACT_ANSWER : Z := 3.
Definition REACT_CALLBACK : Z := 4.
Definition REACT_ALERT : Z := 5.
Definition UNITLENGTH_DEFAULT : Z := 60.
Definition NRATES : Z := 4.
Definition INVALID_RATE : Z := -1.
Definition ULSRC_CMDL : Z := 1.
Definition ULSRC_CONF : Z := 2.
Definition ULSRC_RATE : Z := 3.
Definition ULSRC_DYN : Z := 4.
Definition DIALOUT_CALLEDBACK : Z := 1.
Definition DIR_INONLY : Z := 1.
Definition DIR_OUTONLY : Z := 2.
Definition HD : Z := 0x80.
Definition DISC_LOCATION_LOCAL : Z := 0.
Definition DISC_LOCATION_REMOTE : Z := 1.
Definition AOC_INVALID : Z := 0.
Definition AOC_VALID : Z := 1.
Definition RANDOM_MASK : Z := 0x03.
Definition BUDGET_TYPE_CBACK : Z := 1.
Definition BUDGET_TYPE_COUT : Z := 2.
Definition CHAN_IDLE : Z := 0.
Definition CHAN_RUN : Z := 1.

(** The character ['*'], which matches any number. *)
Definition STAR : Z := 42.

(** Conversion to [int] (32 bits, two's complement). *)
Definition to_int (x : Z) : Z :=
  let y := u32 x in if y <? 2147483648 then y else y - 4294967296.

(** ** Configuration entries *)

(** [STATES]: the states of an entry. *)
Inductive STATES :=
| ST_IDLE | ST_DIAL | ST_DIAL_FAIL | ST_INCOMING | ST_WAIT_CONNECT | ST_CONNECTED.
#[global] Instance STATES_eq_dec : EqDecision STATES.
Proof. solve_decision. Defined.

Record number_t := mkNumber { number : list Z; subaddr : list Z; flag : Z }.

(** The fields of [cfg_entry_t] that only the configuration file sets. *)
Record cfg_static := mkStatic {
  isdncontroller : Z; isdnchannel : Z;
  isdntxdelin : Z; isdntxdelout : Z;
  usrdevicename : Z; usrdeviceunit : Z;
  remote_numbers_handling : Z;
  local_phone_dialout : number_t;
  local_phone_incoming : number_t;
  incoming_numbers_count : nat;
  remote_phone_incoming : list number_t;
  dialin_reaction : Z;
  bprotocol : Z;
  idle_time_in : Z; idle_time_out : Z;
  shorthold_algorithm : Z;
  earlyhangup : Z;
  ratetype : Z; unitlengthsrc : Z;
  answerprog : option (list Z);
  connectprog : option (list Z);
  disconnectprog : option (list Z);
  callbackwait : Z; calledbackwait : Z;
  dialretries : Z; recoverytime : Z; dialrandincr : Z;
  usedown : Z; downtime : Z;
  dialouttype : Z;
  alert : Z;
  inout : Z;
  usesubaddr : Z;
  budget_callbackperiod : Z; budget_callbackncalls : Z; budget_callbacks_file : bool;
  budget_calloutperiod : Z; budget_calloutncalls : Z; budget_callouts_file : bool;
  day : Z; fromhr : Z; frommin : Z; tohr : Z; tomin : Z;
  maxconnecttime : Z
}.

(** [cfg_entry_t]: the static part and the fields that change. *)
Record cfg_entry := mkEntry {
  cf : cfg_static;
  remote_numbers_count : Z;
  remote_numbers : list number_t;
  unitlength : Z;
  answerpid : Z;
  last_set_state_time : Z; waittime : Z; waitfunc : Z;
  cdid : Z;
  isdncontrollerused : Z; isdnchannelused : Z;
  state : STATES;
  disc_cause : Z; disc_location : Z;
  real_phone_incoming : number_t;
  last_remote_number : Z;
  remote_phone_dialout : number_t;
  dir_incoming : Z;
  charge : Z; last_charge : Z;
  inbytes : Z; iinbytes : Z; inbps : Z;
  outbytes : Z; ioutbytes : Z; outbps : Z;
  aoc_last : Z; aoc_now : Z; aoc_diff : Z; aoc_valid : Z;
  dial_count : Z;
  display : list Z; user_user : list Z;
  budget_callbackperiod_time : Z; budget_callbackncalls_cnt : Z;
  budget_callback_req : Z; budget_callback_done : Z; budget_callback_rej : Z;
  budget_calloutperiod_time : Z; budget_calloutncalls_cnt : Z;
  budget_callout_req : Z; budget_callout_done : Z; budget_callout_rej : Z;
  budget_calltype : Z;
  keypad : list Z
}.

Definition CEP_IS_CALLED_BACK (e : cfg_entry) : bool :=
  (dialin_reaction (cf e) =? REACT_ACCEPT) && (dialouttype (cf e) =? DIALOUT_CALLEDBACK).

(** ** Requests and answers *)
Record msg_shorthold := mkShorthold {
  sh_algorithm : Z; sh_unitlen_time : Z; sh_idle_time : Z; sh_earlyhup_time : Z }.

Record msg_connect_req := mkConnectReq {
  mcr_cdid : Z; mcr_channel : Z; mcr_txdelay : Z; mcr_bprot : Z;
  mcr_driver : Z; mcr_driver_unit : Z;
  mcr_shorthold_data : msg_shorthold; mcr_unitlen_method : Z;
  mcr_dst_telno : list Z; mcr_dst_subaddr : list Z;
  mcr_src_telno : list Z; mcr_src_subaddr : list Z;
  mcr_keypad : list Z
}.

Inductive ioctl_req :=
| I4B_CDID_REQ (controller : Z)
| I4B_CONNECT_REQ (m : msg_connect_req)
| I4B_CONNECT_RESP (id response cause txdelay bprot driver driver_unit max_idle_time : Z)
| I4B_DISCONNECT_REQ (id cause : Z)
| I4B_RESPONSE_TO_USER (driver_type driver_unit status cause : Z)
    (src_telno src_display src_user_user : list Z)
| I4B_TIMEOUT_UPD (id : Z) (m : msg_shorthold)
| I4B_ALERT_REQ (id : Z)
| I4B_LINK_B_CHANNEL_DRIVER_REQ (id activate : Z)
| I4B_CONNECT_REPLAY_REQ (id : Z).

(** The child processes: the connect and disconnect programs with their
    interface, the answering machine with the numbers and the text it is
    given ([None] for the string ["unknown"]). *)
Inductive program :=
| ConnectProg (prog : list Z) (driver unit : Z) (link_down : bool)
| AnswerProg (prog : list Z) (driver unit : Z) (dst src display : option (list Z)).

Inductive effect :=
| Ioctl (r : ioctl_req)
| Fork (p : program)
| Kill (pid : Z)
| Random
| Account (ch con_secs : Z) (bytes : option (Z * Z))
| CallStat (calltype : Z)
| Exit (exitval : Z).

Record tm := mkTm {
  tm_min : Z; tm_hour : Z; tm_mday : Z; tm_mon : Z; tm_year : Z; tm_wday : Z }.

(** The answers of the system: [localtime(t)]; the value an [ioctl]
    returns; the call descriptor id [I4B_CDID_REQ] stores; [random()]; the
    process id [fork()] returns to the parent. *)
Class Env := {
  localtime : Z -> tm;
  ioctl : list effect -> ioctl_req -> Z;
  cdid_req : list effect -> Z -> Z;
  random : list effect -> Z;
  fork : list effect -> Z
}.

(** ** Messages from [/dev/i4b] *)
Record msg_connect_ind := mkConnectInd {
  ci_cdid : Z; ci_channel : Z; ci_bprot : Z;
  ci_dst_telno : list Z; ci_dst_subaddr : list Z;
  ci_src_telno : list Z; ci_src_subaddr : list Z;
  ci_dst_ton : Z; ci_src_ton : Z;
  ci_display : list Z; ci_user_user : list Z
}.

Record msg_accounting_ind := mkAccounting {
  ac_driver : Z; ac_driver_unit : Z;
  ac_ioutbytes : Z; ac_iinbytes : Z; ac_outbps : Z; ac_inbps : Z;
  ac_outbytes : Z; ac_inbytes : Z
}.

Inductive i4b_msg :=
| MSG_CONNECT_IND (m : msg_connect_ind)
| MSG_INFORMATION_IND (id : Z)
| MSG_CONNECT_ACTIVE_IND (id channel : Z)
| MSG_DISCONNECT_IND (id cause : Z)
| MSG_DIALOUT_IND (driver driver_unit : Z)
| MSG_ACCT_IND (m : msg_accounting_ind)
| MSG_IDLE_TIMEOUT_IND (id : Z)
| MSG_CHARGING_IND (id units units_type : Z)
| MSG_PROCEEDING_IND (id : Z)
| MSG_ALERT_IND (id : Z)
| MSG_DRVRDISC_REQ (driver driver_unit : Z)
| MSG_DRVRANSWER_REQ (driver driver_unit : Z)
| MSG_DRVRREJECT_REQ (driver driver_unit : Z)
| MSG_L12STAT_IND (id layer state : Z)
| MSG_TEIASG_IND (id tei : Z)
| MSG_NEGCOMP_IND (id : Z)
| MSG_IFSTATE_CHANGED_IND (id state : Z)
| MSG_DIALOUTNUMBER_IND (driver driver_unit : Z) (cmd sub : list Z)
| MSG_PACKET_IND (driver driver_unit : Z)
| MSG_KEYPAD_IND (driver driver_unit : Z) (cmd : list Z)
| MSG_HOLD_IND | MSG_RETRIEVE_IND
| MSG_UNKNOWN.

(** ** The state of the daemon *)
Record rates_t := mkRates { start_time : Z; end_time : Z; rate : Z }.
Record holiday := mkHoliday { h_day : Z; h_month : Z; h_year : Z }.

Record isdn_ctrl_state := mkCtrl {
  ch_state : list Z; tei : Z; l1stat : Z; l2stat : Z }.

(** The settings of the [system] section of the configuration file, the
    rates and the holidays. *)
Record globals := mkGlobals {
  unit_length : Z;
  got_rate : bool;
  rates : list (list (list rates_t));
  firsth : list holiday;
  useacctfile : bool;
  addprefix : bool;
  prefixnational : list Z;
  prefixinternational : list Z
}.

Record dmn := mkDmn {
  cfg_entry_tab : list cfg_entry;
  isdn_ctrl_tab : list isdn_ctrl_state;
  glob : globals;
  clock : Z;                            (* time(NULL) *)
  last_time : Z; last_unit_check : Z;   (* of handle_recovery() *)
  trace : list effect
}.

(** ** The monad

    A routine changes the state and either returns a value or, after
    [exit()], nothing. *)
Definition M (A : Type) : Type := dmn -> option A * dmn.
#[global] Instance M_ret : MRet M := λ A a s, (Some a, s).
#[global] Instance M_bind : MBind M := λ A B k m s,
  let '(r, s') := m s in
  match r with Some a => k a s' | None => (None, s') end.

Definition get {A} (f : dmn -> A) : M A := λ s, (Some (f s), s).
Definition put (f : dmn -> dmn) : M unit := λ s, (Some tt, f s).
Definition emit (x : effect) : M unit := put (λ s, s <| trace := trace s ++ [x] |>).
Definition iff (b : bool) (m : M unit) : M unit := if b then m else mret tt.

#[global] Instance number_inhabited : Inhabited number_t := populate (mkNumber [] [] 0).
#[global] Instance static_inhabited : Inhabited cfg_static :=
  populate (mkStatic 0 0 0 0 0 0 0 inhabitant inhabitant 0 [] 0 0 0 0 0 0 0 0 None None None
              0 0 0 0 0 0 0 0 0 0 0 0 0 false 0 0 false 0 0 0 0 0 0).
#[global] Instance entry_inhabited : Inhabited cfg_entry :=
  populate (mkEntry inhabitant 0 [] 0 0 0 0 0 0 0 0 ST_IDLE 0 0 inhabitant 0 inhabitant
              0 0 0 0 0 0 0 0 0 0 0 0 0 0 [] [] 0 0 0 0 0 0 0 0 0 0 0 []).

(** [cep->field] and [cep->field = ..] *)
Definition entry (s : dmn) (cep : nat) : cfg_entry := cfg_entry_tab s !!! cep.
Definition fld {A} (cep : nat) (f : cfg_entry -> A) : M A := get (λ s, f (entry s cep)).
Definition upd (cep : nat) (f : cfg_entry -> cfg_entry) : M unit :=
  put (λ s, s <| cfg_entry_tab := alter f cep (cfg_entry_tab s) |>).
Definition in_state (x : STATES) (e : cfg_entry) : bool := bool_decide (state e = x).

(** [for(x in l) body]; the body of [for_until] says whether to leave. *)
Fixpoint for_all {A} (l : list A) (body : A -> M unit) : M unit :=
  match l with
  | [] => mret tt
  | x :: l' => body x ;; for_all l' body
  end.
Fixpoint for_until {A} (l : list A) (body : A -> M bool) : M unit :=
  match l with
  | [] => mret tt
  | x :: l' => leave ← body x; if (leave : bool) then mret tt else for_until l' body
  end.
(** [CEP_FOREACH(cep, &cfg_entry_tab[0])] *)
Definition ceps (s : dmn) : list nat := seq 0 (length (cfg_entry_tab s)).

(** [exit()], after the messages of [error_exit()] *)
Definition error_exit {A} (exitval : Z) : M A :=
  λ s, (None, s <| trace := trace s ++ [Exit exitval] |>).

(** ** Strings *)

(** [strcpy(dst, src)] and [strlcpy(dst, src, size)] *)
Definition put_str (dst s : list Z) : list Z := s ++ [0] ++ drop (S (length s)) dst.
Definition strcpy (dst src : list Z) : list Z := put_str dst (cstr src).
Definition strlcpy (dst src : list Z) (size : nat) : list Z :=
  put_str dst (take (size - 1) (cstr src)).

(** [strncmp(a, b, n)] *)
Fixpoint strncmp (a b : list Z) (n : nat) : Z :=
  match n with
  | O => 0
  | S n' =>
      let ca := hd 0 a in let cb := hd 0 b in
      if negb (ca =? cb) then ca - cb
      else if ca =? 0 then 0 else strncmp (tl a) (tl b) n'
  end.
(** [strncmp(a, b, strlen(a)) == 0] *)
Definition strn_eq (a b : list Z) : bool := strncmp a b (length (cstr a)) =? 0.

Definition isdigit (c : Z) : bool := (48 <=? c) && (c <=? 57).

