(* ===== verification/IsdndSupport.v ===== *)
(** * Support routines of the daemon

    [support.c] (looking up entries, matching numbers, the time an entry is
    valid, channel states, the numbers to dial), the unit length of
    [rates.c], the holidays of [holiday.c], the child processes of [exec.c]
    and the requests of [msg_encoder.h]. *)
From S2P Require Import Prelude Dss1Types IsdndTypes.

Section support.
Context {env : Env}.

(** ** Looking up an entry *)
Definition get_cep_by_driver (s : dmn) (drivertype driverunit : Z) : option nat :=
  fst <$> list_find (λ e, usrdevicename (cf e) = drivertype ∧ usrdeviceunit (cf e) = driverunit)
            (cfg_entry_tab s).
Definition get_cep_by_cdid (s : dmn) (id : Z) : option nat :=
  fst <$> list_find (λ e, cdid e = id) (cfg_entry_tab s).

(** ** The time an entry is valid *)
Definition isholiday (s : dmn) (d m y : Z) : bool :=
  existsb (λ ch, (h_day ch =? d) && (h_month ch =? m) &&
                 ((h_year ch =? 0) || (h_year ch =? y))) (firsth (glob s)).

Definition isvalidtime (e : cfg_entry) (s : dmn) : bool :=
  let c := cf e in
  let tp := localtime (clock s) in
  if day c =? 0 then true
  else if (bit_set (day c) HD && isholiday s (tm_mday tp) (tm_mon tp + 1) (tm_year tp + 1900))
          || bit_set (day c) (Z.shiftl 1 (tm_wday tp)) then
    if (fromhr c =? 0) && (frommin c =? 0) && (tohr c =? 0) && (tomin c =? 0) then true
    else if tohr c <? fromhr c then
      ((fromhr c <? tm_hour tp) || ((tm_hour tp =? fromhr c) && (frommin c <? tm_min tp))) ||
      ((tm_hour tp <? tohr c) || ((tm_hour tp =? tohr c) && (tm_min tp <? tomin c)))
    else if fromhr c =? tohr c then
      (frommin c <=? tm_min tp) && (tm_min tp <? tomin c)
    else
      ((fromhr c <? tm_hour tp) && (tm_hour tp <? tohr c)) ||
      ((tm_hour tp =? fromhr c) && (frommin c <=? tm_min tp)) ||
      ((tm_hour tp =? tohr c) && (tm_min tp <? tomin c))
  else false.

(** ** Matching an incoming call *)

(** The body of the loop over the allowed remote numbers. *)
Definition remote_matches (mp : msg_connect_ind) (e : cfg_entry) (rn : number_t) : bool :=
  ((hd 0 (number rn) =? STAR) || strn_eq (number rn) (ci_src_telno mp)) &&
  (if nonzero (usesubaddr (cf e)) then
     (hd 0 (subaddr rn) =? STAR) || strn_eq (subaddr rn) (ci_src_subaddr mp)
   else true).

Definition number_matches (mp : msg_connect_ind) (e : cfg_entry) (s : dmn) : bool :=
  let c := cf e in
  if negb (strn_eq (number (local_phone_incoming c)) (ci_dst_telno mp)) then false
  else if nonzero (usesubaddr c) &&
          negb (strn_eq (subaddr (local_phone_incoming c)) (ci_dst_subaddr mp)) then false
  else if negb (existsb (remote_matches mp e)
                  (take (incoming_numbers_count c) (remote_phone_incoming c))) then false
  else if negb (bprotocol c =? ci_bprot mp) then false
  else if negb (isdncontroller c =? CDID2CONTROLLER (ci_cdid mp)) then false
  else isvalidtime e s.

(** [add_number_prefix]: the number it leaves in its argument. *)
Definition add_number_prefix (s : dmn) (num : list Z) (type_of_number : Z) : list Z :=
  if (type_of_number =? TON_NATIONAL) || (type_of_number =? TON_INTERNAT) then
    let prefix := if type_of_number =? TON_NATIONAL then prefixnational (glob s)
                  else prefixinternational (glob s) in
    if negb (strn_eq prefix num) then
      let tmp := take (TELNO_MAX - 2) (cstr prefix ++ cstr num) in
      tmp ++ replicate (TELNO_MAX - 1 - length tmp) 0 ++ drop (TELNO_MAX - 1) num
    else num
  else num.

(** ** Channels *)
Definition set_channel_state (controller channel st : Z) : M Z :=
  if (controller <? 0) || (I4B_MAX_CONTROLLERS <=? controller) then mret ERROR
  else if (channel <? 0) || (Z.of_nat I4B_MAX_CHANNELS <=? channel) then mret ERROR
  else
    put (λ s, s <| isdn_ctrl_tab :=
                     alter (λ c, c <| ch_state := <[Z.to_nat channel := st]> (ch_state c) |>)
                       (Z.to_nat controller) (isdn_ctrl_tab s) |>) ;;
    mret GOOD.

(** ** The number to dial *)

(** [strcpy] of the number and the subaddress of [remote_numbers[i]] into
    [remote_phone_dialout], and [last_remote_number = i]. *)
Definition use_number (i : Z) (e : cfg_entry) : cfg_entry :=
  let rn := remote_numbers e !!! Z.to_nat i in
  e <| remote_phone_dialout :=
         mkNumber (strcpy (number (remote_phone_dialout e)) (number rn))
           (strcpy (subaddr (remote_phone_dialout e)) (subaddr rn))
           (flag (remote_phone_dialout e)) |>
    <| last_remote_number := i |>.
(** The same without the subaddress. *)
Definition use_number_only (i : Z) (e : cfg_entry) : cfg_entry :=
  let rn := remote_numbers e !!! Z.to_nat i in
  e <| remote_phone_dialout :=
         mkNumber (strcpy (number (remote_phone_dialout e)) (number rn))
           (subaddr (remote_phone_dialout e)) (flag (remote_phone_dialout e)) |>
    <| last_remote_number := i |>.
(** [if(++i >= cep->remote_numbers_count) i = 0;] *)
Definition next_number (e : cfg_entry) (i : Z) : Z :=
  if remote_numbers_count e <=? i + 1 then 0 else i + 1.
Definition set_flag (i : Z) (f : Z) (e : cfg_entry) : cfg_entry :=
  e <| remote_numbers := alter (λ n, mkNumber (number n) (subaddr n) f) (Z.to_nat i)
                           (remote_numbers e) |>.

(** The loop that looks for the last successful number. *)
Fixpoint select_loop (j : nat) (i : Z) (e : cfg_entry) : cfg_entry :=
  match j with
  | O => use_number_only 0 e
  | S j' =>
      if flag (remote_numbers e !!! Z.to_nat i) =? RNF_SUCC then
        if remote_numbers_handling (cf e) =? RNH_LAST then use_number i e
        else use_number (next_number e i) e
      else select_loop j' (next_number e i) e
  end.

Definition select_first_dialno (e : cfg_entry) : cfg_entry :=
  if negb (hd 0 (keypad e) =? 0) then e
  else if remote_numbers_count e <? 1 then e
  else if remote_numbers_count e =? 1 then use_number 0 e
  else if remote_numbers_handling (cf e) =? RNH_FIRST then use_number 0 e
  else select_loop (Z.to_nat (remote_numbers_count e)) (last_remote_number e) e.

Definition select_next_dialno (e : cfg_entry) : cfg_entry :=
  if remote_numbers_count e <? 1 then e
  else if remote_numbers_count e =? 1 then use_number 0 e
  else
    let e1 := set_flag (last_remote_number e) RNF_IDLE e in
    use_number_only (next_number e1 (last_remote_number e1)) e1.

Definition select_this_dialno (e : cfg_entry) : cfg_entry :=
  set_flag (last_remote_number e) RNF_SUCC e.

(** ** The length of a charging unit *)
Definition getrate (s : dmn) (rate_type : Z) : Z :=
  if negb (got_rate (glob s)) || (NRATES <=? rate_type) || (rate_type =? INVALID_RATE) then -1
  else
    let ptr := localtime (clock s) in
    let time_now := tm_hour ptr * 60 + tm_min ptr in
    match list_find (λ hd, start_time hd <= time_now ∧ time_now < end_time hd)
            ((rates (glob s) !!! Z.to_nat rate_type) !!! Z.to_nat (tm_wday ptr)) with
    | Some (_, hd) => rate hd
    | None => -1
    end.

Definition get_current_rate (s : dmn) (e : cfg_entry) : Z :=
  let c := cf e in
  let src := unitlengthsrc c in
  if src =? ULSRC_CMDL then unit_length (glob s)
  else if src =? ULSRC_CONF then unitlength e
  else if src =? ULSRC_RATE then
    if negb (got_rate (glob s)) then UNITLENGTH_DEFAULT
    else if (NRATES <=? ratetype c) || (ratetype c =? INVALID_RATE) then UNITLENGTH_DEFAULT
    else let rt := getrate s (ratetype c) in
         if negb (rt =? -1) then rt else UNITLENGTH_DEFAULT
  else if src =? ULSRC_DYN then
    let rt := getrate s (ratetype c) in
    if negb (rt =? -1) then rt else UNITLENGTH_DEFAULT
  else UNITLENGTH_DEFAULT.

(** ** Requests to the kernel *)
Definition do_ioctl (r : ioctl_req) : M Z :=
  λ s, (Some (ioctl (trace s) r), s <| trace := trace s ++ [Ioctl r] |>).

Definition dial_fail_response_to_user (driver_type driver_unit : Z) : M unit :=
  do_ioctl (I4B_RESPONSE_TO_USER driver_type driver_unit DSTAT_NO_ENTRY 0 [] [] []) ;;
  mret tt.

Definition response_to_user (cep : nat) (dstat : Z) : M unit :=
  e ← fld cep id;
  do_ioctl
    (if dstat =? DSTAT_INCOMING_CALL then
       I4B_RESPONSE_TO_USER (usrdevicename (cf e)) (usrdeviceunit (cf e)) dstat (disc_cause e)
         (take (TELNO_MAX - 1) (cstr (number (real_phone_incoming e))))
         (take (DISPLAY_MAX - 1) (cstr (display e)))
         (take (USER_USER_MAX - 1) (cstr (user_user e)))
     else
       I4B_RESPONSE_TO_USER (usrdevicename (cf e)) (usrdeviceunit (cf e)) dstat (disc_cause e)
         [] [] []) ;;
  mret tt.

(** The message of [sendm_connect_req]. *)
Definition connect_req (e : cfg_entry) : msg_connect_req :=
  let c := cf e in
  mkConnectReq (cdid e) (isdnchannelused e) (isdntxdelout c) (bprotocol c)
    (usrdevicename c) (usrdeviceunit c)
    (mkShorthold (shorthold_algorithm c) (unitlength e) (idle_time_out c) (earlyhangup c))
    (if unitlengthsrc c =? ULSRC_DYN then ULEN_METHOD_DYNAMIC else ULEN_METHOD_STATIC)
    (cstr (number (remote_phone_dialout e)))
    (if nonzero (usesubaddr c) then cstr (subaddr (remote_phone_dialout e)) else [])
    (cstr (number (local_phone_dialout c)))
    (if nonzero (usesubaddr c) then cstr (subaddr (local_phone_dialout c)) else [])
    (cstr (keypad e)).

Definition sendm_connect_req (cep : nat) : M Z :=
  controller ← fld cep isdncontrollerused;
  tr ← get trace;
  ret ← do_ioctl (I4B_CDID_REQ controller);
  upd cep (λ e, e <| cdid := if ret <? 0 then CDID_UNUSED else cdid_req tr controller |>) ;;
  if ret <? 0 then mret ret
  else e ← fld cep id; do_ioctl (I4B_CONNECT_REQ (connect_req e)).

Definition sendm_connect_resp (cep : nat) (response cause : Z) : M Z :=
  e ← fld cep id;
  let c := cf e in
  do_ioctl
    (if response =? SETUP_RESP_REJECT then
       I4B_CONNECT_RESP (cdid e) response cause 0 0 0 0 0
     else if response =? SETUP_RESP_ACCEPT then
       I4B_CONNECT_RESP (cdid e) response 0 (isdntxdelin c) (bprotocol c)
         (usrdevicename c) (usrdeviceunit c) (idle_time_in c)
     else I4B_CONNECT_RESP (cdid e) response 0 0 0 0 0 0).

Definition sendm_disconnect_req (cep : nat) (cause : Z) : M Z :=
  id ← fld cep cdid;
  do_ioctl (I4B_DISCONNECT_REQ id cause).

Definition sendm_alert_req (cep : nat) : M Z :=
  id ← fld cep cdid;
  do_ioctl (I4B_ALERT_REQ id).

Definition unitlen_chkupd (cep : nat) : M unit :=
  e ← fld cep id;
  let c := cf e in
  if shorthold_algorithm c =? SHA_FIXU then
    do_ioctl (I4B_TIMEOUT_UPD (cdid e)
                (mkShorthold SHA_FIXU (unitlength e) (idle_time_out c) (earlyhangup c))) ;;
    mret tt
  else if shorthold_algorithm c =? SHA_VARU then
    do_ioctl (I4B_TIMEOUT_UPD (cdid e)
                (mkShorthold SHA_VARU (unitlength e) (idle_time_out c) 0)) ;;
    mret tt
  else mret tt.

(** ** Child processes *)

(** The parent's side of [exec_prog]; the child runs another program. *)
Definition exec_prog (p : program) : M Z :=
  tr ← get trace;
  emit (Fork p) ;;
  if fork tr =? -1 then error_exit 1 else mret (fork tr).

Definition exec_connect_prog (cep : nat) (prog : list Z) (link_down : bool) : M Z :=
  c ← fld cep cf;
  exec_prog (ConnectProg prog (usrdevicename c) (usrdeviceunit c) link_down).

(** A string argument, if the string is not empty. *)
Definition opt_str (a : list Z) : option (list Z) :=
  if hd 0 a =? 0 then None else Some (cstr a).

Definition exec_answer (cep : nat) : M Z :=
  e ← fld cep id;
  match answerprog (cf e) with
  | None => mret GOOD
  | Some prog =>
      if hd 0 prog =? 0 then mret GOOD
      else
        pid ← exec_prog (AnswerProg prog (usrdevicename (cf e)) (usrdeviceunit (cf e))
                           (opt_str (number (local_phone_incoming (cf e))))
                           (opt_str (number (real_phone_incoming e)))
                           (opt_str (display e)));
        if negb (pid =? 0) && negb (pid =? -1) then
          upd cep (λ e, e <| answerpid := pid |>) ;; mret GOOD
        else mret ERROR
  end.
End support.
