(* ===== verification/Isdnd.v ===== *)
(** * The call control of the daemon

    The finite state machine of [fsm.c], the message handlers of
    [msg_decoder.h] and the routines that start events of their own
    ([handle_recovery], [sigchild_handler], [close_allactive]).  An [event]
    is one pass through one of them; [run] is a sequence of events, as
    [mloop] and the signal handlers produce it. *)
From S2P Require Import Prelude Dss1Types IsdndTypes IsdndSupport.

Section fsm.
Context {env : Env}.

(** ** Transitions of one entry *)
Definition cep_set_state (cep : nat) (st : STATES) (wait func : Z) : M unit :=
  now ← get clock;
  upd cep (λ e, e <| state := st |> <| last_set_state_time := now |>
                  <| waitfunc := to_int func |> <| waittime := to_int wait |>).

(** The line written to the accounting file. *)
Definition account (cep : nat) : M unit :=
  e ← fld cep id;
  now ← get clock;
  emit (Account (charge e) (now - last_set_state_time e)
          (if negb (inbytes e =? INVALID) && negb (outbytes e =? INVALID)
           then Some (inbytes e, outbytes e) else None)).

Definition disconnect_code (cep : nat) : M unit :=
  c ← fld cep cf;
  match disconnectprog c with
  | Some prog => exec_connect_prog cep prog true ;; mret tt
  | None => mret tt
  end ;;
  acct ← get (λ s, useacctfile (glob s));
  iff acct (account cep) ;;
  e ← fld cep id;
  set_channel_state (isdncontrollerused e) (isdnchannelused e) CHAN_IDLE ;;
  iff (negb (answerpid e =? 0) && negb (answerpid e =? -1))
    (emit (Kill (answerpid e)) ;;
     upd cep (λ e, e <| answerpid := 0 |>)).

(** [waittime] of a retry, with the random increment. *)
Definition retry_wait (cep : nat) : M Z :=
  e ← fld cep id;
  let c := cf e in
  if CEP_IS_CALLED_BACK e then mret (calledbackwait c)
  else if nonzero (dialrandincr c) then
    tr ← get trace;
    emit Random ;;
    mret (recoverytime c + Z.land (random tr) RANDOM_MASK)
  else mret (recoverytime c).

Definition dial_fail_code (cep : nat) : M unit :=
  upd cep (λ e, e <| dial_count := dial_count e + 1 |>) ;;
  e ← fld cep id;
  let c := cf e in
  if (dial_count e <? dialretries c) || (dialretries c =? -1) then
    wait ← retry_wait cep;
    cep_set_state cep ST_DIAL_FAIL wait 2 ;;
    upd cep select_next_dialno
  else if nonzero (usedown c) then
    response_to_user cep DSTAT_PFAIL ;;
    cep_set_state cep ST_DIAL_FAIL (downtime c) 1
  else
    response_to_user cep DSTAT_TFAIL ;;
    cep_set_state cep ST_IDLE 0 0.

(** The body of the loop of [ev_disconnect_from_i4b]; each test reads the
    state the code before it has left. *)
Definition disconnect_cep (cep : nat) (cause : Z) : M unit :=
  upd cep (λ e, e <| disc_cause := cause |> <| disc_location := DISC_LOCATION_REMOTE |>) ;;
  e ← fld cep id;
  iff (in_state ST_DIAL e) (dial_fail_code cep) ;;
  e ← fld cep id;
  iff (in_state ST_CONNECTED e)
    (disconnect_code cep ;;
     response_to_user cep DSTAT_NOT_CONNECTED ;;
     cep_set_state cep ST_IDLE 0 0) ;;
  e ← fld cep id;
  iff (in_state ST_INCOMING e || in_state ST_WAIT_CONNECT e)
    (response_to_user cep DSTAT_NOT_CONNECTED ;;
     cep_set_state cep ST_IDLE 0 0) ;;
  upd cep (λ e, e <| cdid := CDID_UNUSED |>).

Definition ev_disconnect_from_i4b (mp_cdid mp_cause : Z) (cep_exception : option nat) : M unit :=
  l ← get ceps;
  for_all l (λ cep,
    id ← fld cep cdid;
    iff ((id =? mp_cdid) && negb (bool_decide (cep_exception = Some cep)))
      (disconnect_cep cep mp_cause)).

Definition ev_disconnect_from_user (cep : nat) : M unit :=
  upd cep (λ e, e <| disc_cause := CAUSE_NORMAL |> <| disc_location := DISC_LOCATION_LOCAL |>) ;;
  e ← fld cep id;
  iff (in_state ST_DIAL e || in_state ST_WAIT_CONNECT e || in_state ST_CONNECTED e)
    (sendm_disconnect_req cep CAUSE_NORMAL ;; mret tt) ;;
  iff (in_state ST_CONNECTED e) (disconnect_code cep) ;;
  response_to_user cep DSTAT_NOT_CONNECTED ;;
  cep_set_state cep ST_IDLE 0 0 ;;
  upd cep (λ e, e <| cdid := CDID_UNUSED |>).

Definition ev_reject_from_user (cep : nat) : M unit :=
  e ← fld cep id;
  iff (in_state ST_INCOMING e)
    (sendm_connect_resp cep SETUP_RESP_REJECT CAUSE_REJECT ;;
     ev_disconnect_from_i4b (cdid e) CAUSE_REJECT None).

Definition ev_alert_from_user (cep : nat) : M unit :=
  e ← fld cep id;
  iff (in_state ST_INCOMING e) (sendm_alert_req cep ;; mret tt).

Definition ev_connect_from_user (cep : nat) : M unit :=
  e ← fld cep id;
  iff (in_state ST_INCOMING e)
    (sendm_connect_resp cep SETUP_RESP_ACCEPT 0 ;;
     cep_set_state cep ST_WAIT_CONNECT TIMEOUT_CONNECT_ACTIVE 1 ;;
     ev_disconnect_from_i4b (cdid e) CAUSE_NORMAL (Some cep)).

(** A call that was paid from a budget is active. *)
Definition count_call (e : cfg_entry) : cfg_entry :=
  if budget_calltype e =? BUDGET_TYPE_CBACK then
    e <| budget_callback_done := budget_callback_done e + 1 |>
      <| budget_callbackncalls_cnt := budget_callbackncalls_cnt e - 1 |>
      <| budget_calltype := 0 |>
  else if budget_calltype e =? BUDGET_TYPE_COUT then
    e <| budget_callout_done := budget_callout_done e + 1 |>
      <| budget_calloutncalls_cnt := budget_calloutncalls_cnt e - 1 |>
      <| budget_calltype := 0 |>
  else e <| budget_calltype := 0 |>.
Definition call_stat (cep : nat) : M unit :=
  e ← fld cep id;
  iff (((budget_calltype e =? BUDGET_TYPE_CBACK) && budget_callbacks_file (cf e)) ||
       ((budget_calltype e =? BUDGET_TYPE_COUT) && budget_callouts_file (cf e)))
    (emit (CallStat (budget_calltype e))).

Definition link_b_channel (id : Z) : M unit :=
  do_ioctl (I4B_LINK_B_CHANNEL_DRIVER_REQ id 1) ;; mret tt.

(** The call of the entry is active. *)
Definition call_active (cep : nat) (id channel : Z) : M unit :=
  link_b_channel id ;;
  response_to_user cep DSTAT_CONNECTED ;;
  c ← fld cep cf;
  cep_set_state cep ST_CONNECTED (maxconnecttime c) (if 0 <? maxconnecttime c then 1 else 0) ;;
  now ← get clock;
  upd cep (λ e, e <| isdncontrollerused := CDID2CONTROLLER id |>
                  <| isdnchannelused := channel |>
                  <| aoc_now := now |> <| aoc_last := 0 |> <| aoc_diff := 0 |>
                  <| aoc_valid := AOC_INVALID |>
                  <| inbytes := INVALID |> <| outbytes := INVALID |>) ;;
  set_channel_state (CDID2CONTROLLER id) channel CHAN_RUN ;;
  e ← fld cep (λ e, e);
  if nonzero (dir_incoming e) then
    iff (dialin_reaction (cf e) =? REACT_ANSWER) (exec_answer cep ;; mret tt)
  else
    iff (nonzero (budget_calltype e)) (call_stat cep ;; upd cep count_call) ;;
    upd cep select_this_dialno.

Definition ev_connect_from_i4b (mp_cdid channel : Z) : M unit :=
  r ← get (λ s, get_cep_by_cdid s mp_cdid);
  match r with
  | None => mret tt
  | Some cep =>
      e ← fld cep id;
      iff (in_state ST_DIAL e && CEP_IS_CALLED_BACK e) (ev_disconnect_from_user cep) ;;
      e ← fld cep id;
      iff (in_state ST_WAIT_CONNECT e || in_state ST_DIAL e) (call_active cep mp_cdid channel)
  end.

(** ** Dialling *)
Definition dial_code (cep : nat) : M unit :=
  e ← fld cep id;
  valid ← get (isvalidtime e);
  (if inout (cf e) =? DIR_INONLY then
     response_to_user cep DSTAT_INONLY ;;
     cep_set_state cep ST_IDLE 0 0
   else if negb valid then
     response_to_user cep DSTAT_NO_ENTRY ;;
     cep_set_state cep ST_IDLE 0 0
   else
     length ← get (λ s, get_current_rate s e);
     upd cep (λ e, e <| isdncontrollerused := isdncontroller (cf e) |>
                     <| isdnchannelused := isdnchannel (cf e) |>
                     <| disc_cause := CAUSE_NORMAL |>
                     <| disc_location := DISC_LOCATION_LOCAL |>
                     <| charge := 0 |> <| last_charge := 0 |>
                     <| unitlength := length |> <| dir_incoming := 0 |>) ;;
     ret ← sendm_connect_req cep;
     if ret <? 0 then dial_fail_code cep
     else cep_set_state cep ST_DIAL 0 0) ;;
  upd cep (λ e, e <| keypad := <[0%nat := 0]> (keypad e) |>).

Definition has_cback_budget (c : cfg_static) : bool :=
  nonzero (budget_callbackperiod c) && nonzero (budget_callbackncalls c).
Definition has_cout_budget (c : cfg_static) : bool :=
  nonzero (budget_calloutperiod c) && nonzero (budget_calloutncalls c).

Definition ev_dial_from_user (cep : nat) : M unit :=
  e ← fld cep id;
  iff (in_state ST_IDLE e)
    (upd cep (λ e, select_first_dialno (e <| budget_calltype := 0 |> <| dial_count := 0 |>)) ;;
     let c := cf e in
     if dialin_reaction c =? REACT_CALLBACK then
       if has_cback_budget c && (budget_callbackncalls_cnt e =? 0) then
         upd cep (λ e, e <| budget_callback_req := budget_callback_req e + 1 |>
                         <| budget_callback_rej := budget_callback_rej e + 1 |>) ;;
         dial_fail_code cep
       else
         iff (has_cback_budget c)
           (upd cep (λ e, e <| budget_callback_req := budget_callback_req e + 1 |>
                            <| budget_calltype := BUDGET_TYPE_CBACK |>)) ;;
         cep_set_state cep ST_DIAL_FAIL (callbackwait c) 2
     else
       if has_cout_budget c && (budget_calloutncalls_cnt e =? 0) then
         upd cep (λ e, e <| budget_callout_req := budget_callout_req e + 1 |>
                         <| budget_callout_rej := budget_callout_rej e + 1 |>) ;;
         dial_fail_code cep
       else
         iff (has_cout_budget c)
           (upd cep (λ e, e <| budget_callout_req := budget_callout_req e + 1 |>
                            <| budget_calltype := BUDGET_TYPE_COUT |>)) ;;
         dial_code cep).

Definition ev_dial_from_i4b (cep : nat) : M unit :=
  e ← fld cep id;
  iff (in_state ST_DIAL_FAIL e) (dial_code cep).

(** ** Incoming calls *)

(** From the label [connect] to the end of the [switch]; the result says
    whether the loop is left ([goto done]). *)
Definition take_call (cep : nat) (mp : msg_connect_ind) : M bool :=
  c ← fld cep cf;
  cep_set_state cep ST_INCOMING (alert c) 3 ;;
  upd cep (λ e, e <| charge := 0 |> <| last_charge := 0 |>
                  <| cdid := ci_cdid mp |>
                  <| isdncontrollerused := CDID2CONTROLLER (ci_cdid mp) |>
                  <| isdnchannelused := ci_channel mp |>
                  <| dir_incoming := 1 |>
                  <| real_phone_incoming :=
                       mkNumber (strlcpy (number (real_phone_incoming e)) (ci_src_telno mp)
                                   TELNO_MAX)
                         (subaddr (real_phone_incoming e)) (flag (real_phone_incoming e)) |>
                  <| display := strlcpy (display e) (ci_display mp) DISPLAY_MAX |>
                  <| user_user := strlcpy (user_user e) (ci_user_user mp) USER_USER_MAX |>) ;;
  let r := dialin_reaction c in
  if r =? REACT_ACCEPT then ev_connect_from_user cep ;; mret true
  else if r =? REACT_REJECT then ev_reject_from_user cep ;; mret true
  else if r =? REACT_ALERT then
    cep_set_state cep ST_INCOMING 0 0 ;;
    response_to_user cep DSTAT_INCOMING_CALL ;;
    ev_alert_from_user cep ;; mret false
  else if r =? REACT_ANSWER then
    if nonzero (alert c) then
      response_to_user cep DSTAT_INCOMING_CALL ;;
      ev_alert_from_user cep ;; mret false
    else ev_connect_from_user cep ;; mret true
  else if r =? REACT_CALLBACK then
    ev_reject_from_user cep ;;
    ev_dial_from_user cep ;; mret true
  else ev_disconnect_from_user cep ;; mret false.

(** The body of the loop over the entries. *)
Definition offer_call (mp : msg_connect_ind) (cep : nat) : M bool :=
  e ← fld cep id;
  matches ← get (number_matches mp e);
  if inout (cf e) =? DIR_OUTONLY then mret false
  else if in_state ST_IDLE e || in_state ST_DIAL_FAIL e then
    if (matches : bool) then take_call cep mp else mret false
  else if CEP_IS_CALLED_BACK e && matches then
    ev_disconnect_from_user cep ;; take_call cep mp
  else mret false.

Definition ev_incoming_from_i4b (mp : msg_connect_ind) : M unit :=
  s ← get id;
  let mp := if addprefix (glob s) then
              mp <| ci_src_telno := add_number_prefix s (ci_src_telno mp) (ci_src_ton mp) |>
                 <| ci_dst_telno := add_number_prefix s (ci_dst_telno mp) (ci_dst_ton mp) |>
            else mp in
  if ci_channel mp =? CHAN_NOT_ANY then mret tt
  else for_until (ceps s) (offer_call mp).

(** ** Other messages *)
Definition msg_proceeding_ind (id : Z) : M unit :=
  s ← get (λ s, s);
  match get_cep_by_cdid s id with
  | None => mret tt
  | Some cep =>
      let e := entry s cep in
      iff ((dir_incoming e =? 0) && (dialin_reaction (cf e) =? REACT_ALERT) &&
           (usrdevicename (cf e) =? DRVR_TEL)) (link_b_channel id)
  end.

Definition upd_ctrl (controller : Z) (f : isdn_ctrl_state -> isdn_ctrl_state) : M unit :=
  put (λ s, s <| isdn_ctrl_tab := alter f (Z.to_nat controller) (isdn_ctrl_tab s) |>).

Definition msg_l12stat_ind (id layer st : Z) : M unit :=
  let controller := CDID2CONTROLLER id in
  if (controller <? 0) || (I4B_MAX_CONTROLLERS <=? controller) then mret tt
  else if layer =? LAYER_ONE then
    upd_ctrl controller (λ c, (if st =? LAYER_IDLE then c <| l2stat := st |> else c) <| l1stat := st |>)
  else if layer =? LAYER_TWO then
    upd_ctrl controller (λ c, (if st =? LAYER_ACTIVE then c <| l1stat := st |> else c) <| l2stat := st |>)
  else mret tt.

Definition msg_teiasg_ind (id t : Z) : M unit :=
  let controller := CDID2CONTROLLER id in
  if (controller <? 0) || (I4B_MAX_CONTROLLERS <=? controller) then mret tt
  else upd_ctrl controller (λ c, c <| tei := t |>).

Definition msg_negcomplete_ind (id : Z) : M unit :=
  s ← get (λ s, s);
  match get_cep_by_cdid s id with
  | None => mret tt
  | Some cep =>
      match connectprog (cf (entry s cep)) with
      | Some prog => exec_connect_prog cep prog false ;; mret tt
      | None => mret tt
      end
  end.

Definition msg_dialout (driver drv_unit : Z) : M unit :=
  r ← get (λ s, get_cep_by_driver s driver drv_unit);
  match r with
  | Some cep => ev_dial_from_user cep
  | None => dial_fail_response_to_user driver drv_unit
  end.

(** The loop that copies digits into an array: what it leaves there, and
    whether it met only digits. *)
Fixpoint copy_digits (a : list Z) (j : nat) (src : list Z) : list Z * bool :=
  match src with
  | [] => (<[j := 0]> a, true)
  | c :: src' => if isdigit c then copy_digits (<[j := c]> a) (S j) src' else (a, false)
  end.

Definition set_number (f : number_t -> number_t) (e : cfg_entry) : cfg_entry :=
  e <| remote_numbers := alter f 0%nat (remote_numbers e) |>.

Definition msg_dialoutnumber (driver drv_unit : Z) (cmd sub : list Z) : M unit :=
  s ← get (λ s, s);
  match get_cep_by_driver s driver drv_unit with
  | None => dial_fail_response_to_user driver drv_unit
  | Some cep =>
      let e := entry s cep in
      iff (in_state ST_IDLE e)
        (let rn := remote_numbers e !!! 0%nat in
         let '(num, ok) := copy_digits (number rn) 0 cmd in
         upd cep (set_number (λ n, mkNumber num (subaddr n) (flag n))) ;;
         if ok then
           let '(subn, ok) := copy_digits (subaddr rn) 0 sub in
           upd cep (set_number (λ n, mkNumber (number n) subn (flag n))) ;;
           if ok then
             upd cep (λ e, e <| remote_numbers_count := 1 |>) ;;
             ev_dial_from_user cep
           else mret tt
         else mret tt)
  end.

Definition msg_keypad (driver drv_unit : Z) (cmd : list Z) : M unit :=
  s ← get (λ s, s);
  match get_cep_by_driver s driver drv_unit with
  | None => dial_fail_response_to_user driver drv_unit
  | Some cep =>
      let e := entry s cep in
      iff (in_state ST_IDLE e)
        (upd cep (set_number (λ n, mkNumber (<[0%nat := 0]> (number n)) (subaddr n) (flag n))) ;;
         upd cep (λ e, e <| remote_numbers_count := 0 |>
                         <| remote_phone_dialout :=
                              mkNumber (<[0%nat := 0]> (number (remote_phone_dialout e)))
                                (subaddr (remote_phone_dialout e))
                                (flag (remote_phone_dialout e)) |>
                         <| keypad := cstr cmd ++ replicate (KEYPAD_MAX - length (cstr cmd)) 0 |>) ;;
         ev_dial_from_user cep)
  end.

Definition msg_drvrdisc_req (driver drv_unit : Z) : M unit :=
  r ← get (λ s, get_cep_by_driver s driver drv_unit);
  match r with Some cep => ev_disconnect_from_user cep | None => mret tt end.

Definition msg_drvranswer_req (driver drv_unit : Z) : M unit :=
  r ← get (λ s, get_cep_by_driver s driver drv_unit);
  match r with
  | Some cep => ev_connect_from_user cep
  | None => dial_fail_response_to_user driver drv_unit
  end.

Definition msg_drvrreject_req (driver drv_unit : Z) : M unit :=
  r ← get (λ s, get_cep_by_driver s driver drv_unit);
  match r with
  | Some cep => ev_reject_from_user cep
  | None => dial_fail_response_to_user driver drv_unit
  end.

Definition msg_accounting (m : msg_accounting_ind) : M unit :=
  s ← get (λ s, s);
  match get_cep_by_driver s (ac_driver m) (ac_driver_unit m) with
  | None => mret tt
  | Some cep =>
      iff (in_state ST_CONNECTED (entry s cep))
        (upd cep (λ e, e <| inbytes := ac_inbytes m |> <| iinbytes := ac_iinbytes m |>
                         <| outbytes := ac_outbytes m |> <| ioutbytes := ac_ioutbytes m |>
                         <| inbps := ac_inbps m |> <| outbps := ac_outbps m |>))
  end.

(** ** Advice of charge *)
Definition aoc_stamp (now : Z) (e : cfg_entry) : cfg_entry :=
  if aoc_last e =? 0 then e <| aoc_last := now |>
  else if aoc_now e =? 0 then e <| aoc_now := now |>
  else e <| aoc_last := aoc_now e |> <| aoc_now := now |>
         <| aoc_diff := now - aoc_now e |> <| aoc_valid := AOC_VALID |>.

Definition handle_charge (cep : nat) : M unit :=
  now ← get clock;
  upd cep (aoc_stamp now) ;;
  e ← fld cep id;
  iff ((aoc_valid e =? AOC_VALID) && negb (aoc_diff e =? unitlength e))
    (upd cep (λ e, e <| unitlength := to_int (aoc_diff e) |>) ;;
     unitlen_chkupd cep).

Definition msg_charging_ind (id units units_type : Z) : M unit :=
  r ← get (λ s, get_cep_by_cdid s id);
  match r with
  | None => mret tt
  | Some cep =>
      if (units_type <? CHARGE_INVALID) || (CHARGE_CALC <? units_type) then error_exit 1
      else
        upd cep (λ e, e <| charge := units |>) ;;
        e ← fld cep (λ e, e);
        iff ((units_type =? CHARGE_AOCD) && (unitlengthsrc (cf e) =? ULSRC_DYN) &&
             negb (charge e =? last_charge e))
          (upd cep (λ e, e <| last_charge := charge e |>) ;;
           handle_charge cep)
  end.

Definition msg_information_ind (id : Z) : M unit :=
  do_ioctl (I4B_CONNECT_REPLAY_REQ id) ;; mret tt.

(** The [switch] of [isdnrdhdl].  An alert, an idle timeout, a changed
    interface state and a logged packet are only written to the log. *)
Definition dispatch (m : i4b_msg) : M unit :=
  match m with
  | MSG_CONNECT_IND m => ev_incoming_from_i4b m
  | MSG_INFORMATION_IND id => msg_information_ind id
  | MSG_CONNECT_ACTIVE_IND id channel => ev_connect_from_i4b id channel
  | MSG_DISCONNECT_IND id cause => ev_disconnect_from_i4b id cause None
  | MSG_DIALOUT_IND driver drv_unit => msg_dialout driver drv_unit
  | MSG_ACCT_IND m => msg_accounting m
  | MSG_CHARGING_IND id units units_type => msg_charging_ind id units units_type
  | MSG_PROCEEDING_IND id => msg_proceeding_ind id
  | MSG_DRVRDISC_REQ driver drv_unit => msg_drvrdisc_req driver drv_unit
  | MSG_DRVRANSWER_REQ driver drv_unit => msg_drvranswer_req driver drv_unit
  | MSG_DRVRREJECT_REQ driver drv_unit => msg_drvrreject_req driver drv_unit
  | MSG_L12STAT_IND id layer st => msg_l12stat_ind id layer st
  | MSG_TEIASG_IND id t => msg_teiasg_ind id t
  | MSG_NEGCOMP_IND id => msg_negcomplete_ind id
  | MSG_DIALOUTNUMBER_IND driver drv_unit cmd sub => msg_dialoutnumber driver drv_unit cmd sub
  | MSG_KEYPAD_IND driver drv_unit cmd => msg_keypad driver drv_unit cmd
  | MSG_IDLE_TIMEOUT_IND _ | MSG_ALERT_IND _ | MSG_IFSTATE_CHANGED_IND _ _
  | MSG_PACKET_IND _ _ | MSG_HOLD_IND | MSG_RETRIEVE_IND | MSG_UNKNOWN => mret tt
  end.

(** ** Timeouts *)

(** The budget periods of one entry. *)
Definition renew_budgets (now : Z) (e : cfg_entry) : cfg_entry :=
  let e1 :=
    if has_cback_budget (cf e) && (budget_callbackperiod_time e <=? now) then
      e <| budget_callbackperiod_time := u32 (now + budget_callbackperiod (cf e)) |>
        <| budget_callbackncalls_cnt := budget_callbackncalls (cf e) |>
    else e in
  if has_cout_budget (cf e1) && (budget_calloutperiod_time e1 <=? now) then
    e1 <| budget_calloutperiod_time := u32 (now + budget_calloutperiod (cf e1)) |>
       <| budget_calloutncalls_cnt := budget_calloutncalls (cf e1) |>
  else e1.

(** A new rate of a rates-based short hold mode. *)
Definition check_rate (cep : nat) : M unit :=
  e ← fld cep id;
  newrate ← get (λ s, get_current_rate s e);
  iff ((unitlengthsrc (cf e) =? ULSRC_RATE) && negb (newrate =? unitlength e))
    (upd cep (λ e, e <| unitlength := newrate |>) ;;
     unitlen_chkupd cep).

Definition recover_cep (now : Z) (check_units : bool) (cep : nat) : M bool :=
  upd cep (renew_budgets now) ;;
  e ← fld cep id;
  if in_state ST_IDLE e then mret false
  else
    iff check_units (check_rate cep) ;;
    e ← fld cep id;
    if waittime e <? now - last_set_state_time e then
      if waitfunc e =? 1 then ev_disconnect_from_user cep ;; mret true
      else if waitfunc e =? 2 then ev_dial_from_i4b cep ;; mret false
      else if waitfunc e =? 3 then ev_connect_from_user cep ;; mret false
      else mret false
    else mret false.

Definition handle_recovery : M unit :=
  s ← get id;
  let now := u32 (clock s) in
  if u32 (now - last_time s) <? 1 then mret tt
  else
    put (λ s, s <| last_time := now |>) ;;
    let check_units := 10 <=? u32 (now - last_unit_check s) in
    iff check_units (put (λ s, s <| last_unit_check := now |>)) ;;
    for_until (ceps s) (recover_cep now check_units).

(** ** Child processes and shutdown *)
Definition sigchild_handler (pid : Z) : M unit :=
  if pid <=? 0 then error_exit 1
  else
    l ← get ceps;
    for_until l (λ cep,
      e ← fld cep id;
      if answerpid e =? pid then
        upd cep (λ e, e <| answerpid := 0 |>) ;;
        ev_disconnect_from_user cep ;; mret true
      else mret false).

Definition close_allactive : M unit :=
  l ← get ceps;
  for_all l ev_disconnect_from_user.

(** ** Events *)
Inductive event :=
| Message (m : i4b_msg)
| Timeout
| Child (pid : Z)
| Close.

(** One event at the time [t]. *)
Definition handle (ev : Z * event) : M unit :=
  put (λ s, s <| clock := ev.1 |>) ;;
  match ev.2 with
  | Message m => dispatch m
  | Timeout => handle_recovery
  | Child pid => sigchild_handler pid
  | Close => close_allactive
  end.

Definition run (evs : list (Z * event)) : M unit := for_all evs handle.
End fsm.
