(* ===== verification/IsdndLogic.v ===== *)
(** * Reasoning about one configuration entry

    Nearly every routine of the daemon works on one entry.  [lwp cep m Q e l]
    is the weakest precondition of such a routine: started with the entry
    [cep] equal to [e] and the statuses [l] reported to its driver so far, it
    leaves every other entry and what other drivers were told alone, does not
    change the configuration, and ends in an entry and a report that satisfy
    [Q], unless the daemon exits. *)
From S2P Require Import Prelude Dss1Types IsdndTypes IsdndSupport Isdnd.

(** ** What a driver has been told *)
Definition status_to (d u : Z) (x : effect) : option Z :=
  match x with
  | Ioctl (I4B_RESPONSE_TO_USER d' u' st _ _ _ _) =>
      if (d' =? d) && (u' =? u) then Some st else None
  | _ => None
  end.
Definition statuses (d u : Z) (tr : list effect) : list Z := omap (status_to d u) tr.

Definition drv (c : cfg_static) : Z * Z := (usrdevicename c, usrdeviceunit c).
Definition told (s : dmn) (cep : nat) : list Z :=
  let c := cf (entry s cep) in statuses (usrdevicename c) (usrdeviceunit c) (trace s).

Lemma statuses_snoc d u tr x :
  statuses d u (tr ++ [x]) = statuses d u tr ++ option_list (status_to d u x).
Proof.
  unfold statuses. rewrite omap_app. f_equal.
Qed.
Lemma statuses_same d u tr x : status_to d u x = None -> statuses d u (tr ++ [x]) = statuses d u tr.
Proof. intros H. rewrite statuses_snoc, H. simpl. by rewrite app_nil_r. Qed.

(** ** Routines that work on one entry *)
Record local_frame (cep : nat) (s s' : dmn) : Prop := {
  lf_tab : cfg_entry_tab s' = <[cep := entry s' cep]> (cfg_entry_tab s);
  lf_cf : cf (entry s' cep) = cf (entry s cep);
  lf_told : ∀ d u, (d, u) ≠ drv (cf (entry s cep)) ->
    statuses d u (trace s') = statuses d u (trace s);
  lf_clock : clock s' = clock s;
  lf_glob : glob s' = glob s
}.

Lemma entry_insert s cep : (cep < length (cfg_entry_tab s))%nat ->
  <[cep := entry s cep]> (cfg_entry_tab s) = cfg_entry_tab s.
Proof.
  intros H. apply list_insert_id. unfold entry. by apply list_lookup_lookup_total_lt.
Qed.

Lemma Forall_entry (P : cfg_entry -> Prop) s :
  Forall P (cfg_entry_tab s) <-> ∀ j, (j < length (cfg_entry_tab s))%nat -> P (entry s j).
Proof.
  rewrite Forall_lookup. unfold entry. split; intros H j.
  - intros Hj. apply (H j). by apply list_lookup_lookup_total_lt.
  - intros e He. rewrite <-(list_lookup_total_correct _ _ _ He). apply H. by eapply lookup_lt_Some.
Qed.

Lemma frame_refl cep s : (cep < length (cfg_entry_tab s))%nat -> local_frame cep s s.
Proof. intros H. split; try done. symmetry. by apply entry_insert. Qed.

Lemma frame_trans cep s1 s2 s3 :
  local_frame cep s1 s2 -> local_frame cep s2 s3 -> local_frame cep s1 s3.
Proof.
  intros [T1 C1 S1 K1 G1] [T2 C2 S2 K2 G2]. split; [..|congruence|congruence].
  - rewrite T2, T1. apply list_insert_insert_eq.
  - congruence.
  - intros d u Hd. rewrite S2, S1; [done..|]. by rewrite C1.
Qed.

Lemma frame_length cep s s' :
  local_frame cep s s' -> length (cfg_entry_tab s') = length (cfg_entry_tab s).
Proof. intros [T _ _ _ _]. rewrite T. apply length_insert. Qed.

Definition lwp {A} (cep : nat) (m : M A) (Q : A -> cfg_entry -> list Z -> Prop)
    (e : cfg_entry) (l : list Z) : Prop :=
  ∀ s, (cep < length (cfg_entry_tab s))%nat -> entry s cep = e -> told s cep = l ->
  local_frame cep s (m s).2 ∧
  match (m s).1 with
  | Some a => Q a (entry (m s).2 cep) (told (m s).2 cep)
  | None => True
  end.

Section rules.
Context {env : Env} (cep : nat).
Implicit Types (e : cfg_entry) (l : list Z).

Lemma lwp_ret {A} (a : A) (Q : A -> _ -> _ -> Prop) e l : Q a e l -> lwp cep (mret a) Q e l.
Proof. intros H s Hi <- <-. split; [by apply frame_refl|done]. Qed.

Lemma lwp_mono {A} (m : M A) (Q Q' : A -> _ -> _ -> Prop) e l :
  lwp cep m Q e l -> (∀ a e' l', cf e' = cf e -> Q a e' l' -> Q' a e' l') -> lwp cep m Q' e l.
Proof.
  intros Hm HQ s Hi He Hl. destruct (Hm s Hi He Hl) as [Hf Hr]. split; [done|].
  destruct (m s).1; [|done]. apply HQ; [|done]. rewrite <-He. apply Hf.
Qed.

Lemma lwp_bind {A B} (m : M A) (k : A -> M B) Q e l :
  lwp cep m (λ a, lwp cep (k a) Q) e l -> lwp cep (m ≫= k) Q e l.
Proof.
  intros Hm s Hi He Hl. destruct (Hm s Hi He Hl) as [Hf Hr].
  unfold mbind, M_bind. destruct (m s) as [[a|] s1] eqn:E; simpl in *; [|by split].
  pose proof Hf as Hf'. apply frame_length in Hf'.
  destruct (Hr s1) as [Hf2 Hr2]; [lia|done|done|].
  split; [by eapply frame_trans|done].
Qed.

Lemma lwp_fld {A} (f : cfg_entry -> A) (Q : A -> _ -> _ -> Prop) e l :
  Q (f e) e l -> lwp cep (fld cep f) Q e l.
Proof. intros H s Hi <- <-. split; [by apply frame_refl|done]. Qed.

Lemma lwp_get {A} (f : dmn -> A) (Q : A -> _ -> _ -> Prop) e l :
  (∀ a, Q a e l) -> lwp cep (get f) Q e l.
Proof. intros H s Hi <- <-. split; [by apply frame_refl|apply H]. Qed.

Lemma lwp_upd (f : cfg_entry -> cfg_entry) (Q : unit -> _ -> _ -> Prop) e l :
  cf (f e) = cf e -> Q tt (f e) l -> lwp cep (upd cep f) Q e l.
Proof.
  intros Hc H s Hi <- <-. unfold upd, put. cbn [fst snd].
  assert (entry (s <| cfg_entry_tab := alter f cep (cfg_entry_tab s) |>) cep = f (entry s cep)) as E.
  { unfold entry. simpl. by apply list_lookup_total_alter_eq. }
  split; [split|]; rewrite ?E; try done.
  - simpl. unfold entry in *. simpl. apply list_eq. intros j. destruct (decide (j = cep)) as [->|].
    + rewrite list_lookup_alter_eq, list_lookup_insert_eq by done.
      by rewrite (list_lookup_lookup_total_lt (cfg_entry_tab s) cep).
    + by rewrite list_lookup_alter_ne, list_lookup_insert_ne.
  - unfold told. rewrite E, Hc. done.
Qed.

(** A state that differs only in what no entry sees. *)
Lemma frame_other s s' : (cep < length (cfg_entry_tab s))%nat ->
  cfg_entry_tab s' = cfg_entry_tab s -> clock s' = clock s -> glob s' = glob s ->
  (∀ d u, (d, u) ≠ drv (cf (entry s cep)) -> statuses d u (trace s') = statuses d u (trace s)) ->
  local_frame cep s s' ∧ entry s' cep = entry s cep.
Proof.
  intros Hi T K G S. assert (entry s' cep = entry s cep) as E by (unfold entry; by rewrite T).
  split; [|done]. split; try done; rewrite E; [|done]. rewrite T. symmetry. by apply entry_insert.
Qed.

Lemma lwp_emit x (Q : unit -> _ -> _ -> Prop) e l :
  (∀ d u, status_to d u x = None) -> Q tt e l -> lwp cep (emit x) Q e l.
Proof.
  intros Hx H s Hi <- <-. unfold emit, put. cbn [fst snd].
  destruct (frame_other s (s <| trace := trace s ++ [x] |>)) as [Hf E]; try done.
  { intros d u _. by apply statuses_same. }
  split; [done|]. rewrite E. unfold told. rewrite E. simpl. by rewrite statuses_same.
Qed.

Lemma lwp_ioctl r (Q : Z -> _ -> _ -> Prop) e l :
  (∀ d u, status_to d u (Ioctl r) = None) -> (∀ ret, Q ret e l) -> lwp cep (do_ioctl r) Q e l.
Proof.
  intros Hx H s Hi <- <-. unfold do_ioctl. cbn [fst snd].
  destruct (frame_other s (s <| trace := trace s ++ [Ioctl r] |>)) as [Hf E]; try done.
  { intros d u _. by apply statuses_same. }
  split; [done|]. rewrite E. unfold told. rewrite E. simpl. by rewrite statuses_same.
Qed.

Lemma lwp_response d (Q : unit -> _ -> _ -> Prop) e l :
  Q tt e (l ++ [d]) -> lwp cep (response_to_user cep d) Q e l.
Proof.
  intros H s Hi <- <-. unfold response_to_user, fld, get, mbind, M_bind, do_ioctl, mret, M_ret. cbn [fst snd id].
  match goal with |- context [Ioctl ?r'] => set (r := r') end.
  assert (∀ d' u', status_to d' u' (Ioctl r) =
            if bool_decide ((d', u') = drv (cf (entry s cep))) then Some d else None) as Hr.
  { intros d' u'. unfold r, drv. case_match; simpl;
      (case_bool_decide as Hd; [injection Hd as -> ->; by rewrite !Z.eqb_refl|]);
      (destruct (Z.eqb_spec (usrdevicename (cf (entry s cep))) d'); [|done]);
      (destruct (Z.eqb_spec (usrdeviceunit (cf (entry s cep))) u'); [congruence|done]). }
  destruct (frame_other s (s <| trace := trace s ++ [Ioctl r] |>)) as [Hf E]; try done.
  { intros d' u' Hne. apply statuses_same. rewrite Hr. by rewrite bool_decide_false. }
  split; [done|]. rewrite E. unfold told. rewrite E. simpl. rewrite statuses_snoc, Hr.
  by rewrite bool_decide_true.
Qed.

Lemma lwp_put_ctrl f (Q : unit -> _ -> _ -> Prop) e l :
  Q tt e l -> lwp cep (put (λ s, s <| isdn_ctrl_tab := f s |>)) Q e l.
Proof.
  intros H s Hi <- <-. unfold put. cbn [fst snd].
  destruct (frame_other s (s <| isdn_ctrl_tab := f s |>)) as [Hf E]; try done.
Qed.

Lemma lwp_exit {A} x (Q : A -> _ -> _ -> Prop) e l : lwp cep (error_exit x) Q e l.
Proof.
  intros s Hi <- <-. unfold error_exit. cbn [fst snd]. split; [|done].
  eapply frame_other; try done. intros d u _. by apply statuses_same.
Qed.

Lemma lwp_iff b m (Q : unit -> _ -> _ -> Prop) e l :
  (b = true -> lwp cep m Q e l) -> (b = false -> Q tt e l) -> lwp cep (iff b m) Q e l.
Proof. intros H1 H2. destruct b; simpl; [by apply H1|]. apply lwp_ret. by apply H2. Qed.

Lemma lwp_if {A} (b : bool) (m1 m2 : M A) Q e l :
  (b = true -> lwp cep m1 Q e l) -> (b = false -> lwp cep m2 Q e l) ->
  lwp cep (if b then m1 else m2) Q e l.
Proof. destruct b; auto. Qed.

(** *** The routines every handler uses *)
Lemma lwp_set_state st w f (Q : unit -> _ -> _ -> Prop) e l :
  (∀ t, Q tt (e <| state := st |> <| last_set_state_time := t |>
                <| waitfunc := to_int f |> <| waittime := to_int w |>) l) ->
  lwp cep (cep_set_state cep st w f) Q e l.
Proof. intros H. apply lwp_bind, lwp_get. intros t. by apply lwp_upd. Qed.

Lemma lwp_set_channel_state c ch x (Q : Z -> _ -> _ -> Prop) e l :
  (∀ r, Q r e l) -> lwp cep (set_channel_state c ch x) Q e l.
Proof.
  intros H. unfold set_channel_state. repeat (apply lwp_if; intros _; [by apply lwp_ret|]).
  by apply lwp_bind, lwp_put_ctrl, lwp_ret.
Qed.

Lemma lwp_exec_prog p (Q : Z -> _ -> _ -> Prop) e l :
  (∀ r, Q r e l) -> lwp cep (exec_prog p) Q e l.
Proof.
  intros H. apply lwp_bind, lwp_get. intros tr. apply lwp_bind, lwp_emit; [done|].
  apply lwp_if; intros _; [apply lwp_exit|by apply lwp_ret].
Qed.
End rules.

(** Computes the fields of an updated entry, and nothing else. *)
Ltac fields :=
  cbv beta iota delta [set const id
      cf remote_numbers_count remote_numbers unitlength answerpid last_set_state_time
      waittime waitfunc cdid isdncontrollerused isdnchannelused state disc_cause
      disc_location real_phone_incoming last_remote_number remote_phone_dialout dir_incoming
      charge last_charge inbytes iinbytes inbps outbytes ioutbytes outbps aoc_last aoc_now
      aoc_diff aoc_valid dial_count display user_user budget_callbackperiod_time
      budget_callbackncalls_cnt budget_callback_req budget_callback_done budget_callback_rej
      budget_calloutperiod_time budget_calloutncalls_cnt budget_callout_req
      budget_callout_done budget_callout_rej budget_calltype keypad].
Ltac fields_eq := fields; reflexivity.

(** ** Symbolic execution

    [lwp_step] applies the rule of the next step of the goal; the routines
    that have a rule of their own are listed first. *)
Ltac lwp_step :=
  lazymatch goal with
  | |- lwp _ (mret _) _ _ _ => apply lwp_ret
  | |- lwp _ (_ ≫= _) _ _ _ => apply lwp_bind
  | |- lwp _ (fld _ _) _ _ _ => apply lwp_fld
  | |- lwp _ (get _) _ _ _ => apply lwp_get; intros ?
  | |- lwp _ (upd _ _) _ _ _ => apply lwp_upd; [try fields_eq|]
  | |- lwp _ (emit _) _ _ _ => apply lwp_emit; [done|]
  | |- lwp _ (do_ioctl _) _ _ _ => apply lwp_ioctl; [done|intros ?]
  | |- lwp _ (response_to_user _ _) _ _ _ => apply lwp_response
  | |- lwp _ (error_exit _) _ _ _ => apply lwp_exit
  | |- lwp _ (cep_set_state _ _ _ _) _ _ _ => apply lwp_set_state; intros ?
  | |- lwp _ (set_channel_state _ _ _) _ _ _ => apply lwp_set_channel_state; intros ?
  | |- lwp _ (exec_prog _) _ _ _ => apply lwp_exec_prog; intros ?
  | |- lwp _ (exec_connect_prog _ _ _) _ _ _ => unfold exec_connect_prog
  | |- lwp _ (iff _ _) _ _ _ => apply lwp_iff; intros ?
  | |- lwp _ (if _ then _ else _) _ _ _ => apply lwp_if; intros ?
  | |- lwp _ (let _ := _ in _) _ _ _ => cbv zeta
  | |- lwp _ (match ?x with _ => _ end) _ _ _ => destruct x eqn:?
  end.
Ltac lwp_go := repeat (cbv beta; lwp_step).
