(* ===== verification/IsdndSpec.v ===== *)
(** * The state diagram of an entry

    [fsm] is the state diagram at the head of [fsm.c] with the statuses
    reported to the driver of the entry, completed by the moves the diagram
    leaves out (a retry that waits before the first call, a dial attempt that
    ends without one).  Every routine that works on one entry is a run of
    [fsm], keeps the call budgets, and keeps the index of the number dialled
    inside its array: the entry [evolves]. *)
From stdpp Require Import relations.
From S2P Require Import Prelude Dss1Types IsdndTypes IsdndSupport Isdnd IsdndLogic.

(** ** The abstract state machine *)

(** The states without a call. *)
Definition dialling (st : STATES) : Prop := st = ST_IDLE ∨ st = ST_DIAL ∨ st = ST_DIAL_FAIL.

(** A state, and the statuses the driver was sent, the last one last. *)
Inductive fsm : STATES * list Z -> STATES * list Z -> Prop :=
| fsm_dial l st : st = ST_IDLE ∨ st = ST_DIAL_FAIL -> fsm (st, l) (ST_DIAL, l)
| fsm_retry l st : dialling st -> fsm (st, l) (ST_DIAL_FAIL, l)
| fsm_down l st : dialling st -> fsm (st, l) (ST_DIAL_FAIL, l ++ [DSTAT_PFAIL])
| fsm_give_up l st d : dialling st ->
    d = DSTAT_TFAIL ∨ d = DSTAT_INONLY ∨ d = DSTAT_NO_ENTRY ->
    fsm (st, l) (ST_IDLE, l ++ [d])
| fsm_offer l st : st = ST_IDLE ∨ st = ST_DIAL_FAIL -> fsm (st, l) (ST_INCOMING, l)
| fsm_ring l : fsm (ST_INCOMING, l) (ST_INCOMING, l ++ [DSTAT_INCOMING_CALL])
| fsm_answer l : fsm (ST_INCOMING, l) (ST_WAIT_CONNECT, l)
| fsm_active l st : st = ST_DIAL ∨ st = ST_WAIT_CONNECT ->
    fsm (st, l) (ST_CONNECTED, l ++ [DSTAT_CONNECTED])
| fsm_disconnect l st : fsm (st, l) (ST_IDLE, l ++ [DSTAT_NOT_CONNECTED]).

(** ** Budgets and numbers *)
Definition budget_cfg (c : cfg_static) : Prop :=
  0 <= budget_callbackncalls c ∧ 0 <= budget_calloutncalls c.
Definition budget_ok (e : cfg_entry) : Prop :=
  0 <= budget_callbackncalls_cnt e ∧ 0 <= budget_calloutncalls_cnt e ∧
  (budget_calltype e = BUDGET_TYPE_CBACK -> 1 <= budget_callbackncalls_cnt e) ∧
  (budget_calltype e = BUDGET_TYPE_COUT -> 1 <= budget_calloutncalls_cnt e).
(** The calls made from a budget and the calls left. *)
Definition cback_total (e : cfg_entry) : Z :=
  budget_callback_done e + budget_callbackncalls_cnt e.
Definition cout_total (e : cfg_entry) : Z :=
  budget_callout_done e + budget_calloutncalls_cnt e.
Definition numbers_ok (e : cfg_entry) : Prop :=
  length (remote_numbers e) = MAXRNUMBERS ∧ 0 <= last_remote_number e < Z.of_nat MAXRNUMBERS ∧
  remote_numbers_count e <= Z.of_nat MAXRNUMBERS.

(** A budget: the calls made and left together, and the end of its period.
    They stay, or a new period has begun because the last one had ended at
    [renew], the time of the latest timeout. *)
Definition budget_stays (renew : option Z) (has : bool) (x x' : Z * Z) : Prop :=
  x' = x ∨ ∃ t, renew = Some t ∧ has = true ∧ x.2 <= t.
Definition cback_budget (e : cfg_entry) : Z * Z := (cback_total e, budget_callbackperiod_time e).
Definition cout_budget (e : cfg_entry) : Z * Z := (cout_total e, budget_calloutperiod_time e).

(** What events may do to an entry, with timeouts up to the time [renew], or
    none. *)
Record evolves (renew : option Z) (e : cfg_entry) (l : list Z) (e' : cfg_entry) (l' : list Z) : Prop := {
  ev_fsm : rtc fsm (state e, l) (state e', l');
  ev_budget : budget_cfg (cf e) -> budget_ok e -> budget_ok e';
  ev_cback : budget_stays renew (has_cback_budget (cf e)) (cback_budget e) (cback_budget e');
  ev_cout : budget_stays renew (has_cout_budget (cf e)) (cout_budget e) (cout_budget e');
  ev_numbers : numbers_ok e -> numbers_ok e';
  ev_cf : cf e' = cf e
}.

Lemma evolves_refl b e l : evolves b e l e l.
Proof. split; try done; by left. Qed.
Lemma budget_stays_trans b h x1 x2 x3 : budget_stays b h x1 x2 -> budget_stays b h x2 x3 -> budget_stays b h x1 x3.
Proof. intros [->|H1] H2; [done|by right]. Qed.
Lemma evolves_trans b e1 l1 e2 l2 e3 l3 :
  evolves b e1 l1 e2 l2 -> evolves b e2 l2 e3 l3 -> evolves b e1 l1 e3 l3.
Proof.
  intros [F1 B1 T1 U1 N1 C1] [F2 B2 T2 U2 N2 C2]. rewrite C1 in T2, U2.
  split; [by etrans| |by eapply budget_stays_trans|by eapply budget_stays_trans|by auto|congruence].
  intros Hc H1. apply B2; [congruence|by apply B1].
Qed.
Lemma evolves_weaken b e l e' l' : evolves None e l e' l' -> evolves b e l e' l'.
Proof. intros [F B T U N C]. split; try done; [destruct T as [|(t & ? & _)]|destruct U as [|(t & ? & _)]]; by left. Qed.

(** A change of fields that none of the above looks at. *)
Definition core (e : cfg_entry) :=
  (cf e, state e, (budget_calltype e, budget_callbackncalls_cnt e, budget_callback_done e,
                   budget_calloutncalls_cnt e, budget_callout_done e),
   (budget_callbackperiod_time e, budget_calloutperiod_time e)).
Definition nums (e : cfg_entry) := (length (remote_numbers e), last_remote_number e, remote_numbers_count e).

Lemma evolves_core b e l e' : core e' = core e -> (numbers_ok e -> numbers_ok e') -> evolves b e l e' l.
Proof.
  unfold core. intros [= Hc Hs Ht H1 H2 H3 H4 H5 H6] Hn. split; [by rewrite Hs| | | |done|done].
  - unfold budget_ok. by rewrite Ht, H1, H3.
  - left. unfold cback_budget, cback_total. by rewrite H1, H2, H5.
  - left. unfold cout_budget, cout_total. by rewrite H3, H4, H6.
Qed.
Lemma evolves_same b e l e' : core e' = core e -> nums e' = nums e -> evolves b e l e' l.
Proof.
  intros Hc Hn. apply evolves_core; [done|]. unfold nums in Hn. injection Hn as H1 H2 H3.
  unfold numbers_ok. by rewrite H1, H2, H3.
Qed.

(** A move of the state machine that changes nothing else. *)
Lemma evolves_move b e l e' l' :
  fsm (state e, l) (state e', l') ->
  (core (e <| state := state e' |>)) = core e' -> nums e' = nums e -> evolves b e l e' l'.
Proof.
  intros Hf Hc Hn. eapply evolves_trans; [|apply evolves_same; [symmetry; apply Hc|]].
  - split; [by apply rtc_once|done|by left|by left|done|done].
  - by rewrite Hn.
Qed.

Lemma evolves_stay b e l e' : state e' = state e ->
  core (e <| state := state e' |>) = core e' -> nums e' = nums e -> evolves b e l e' l.
Proof.
  intros Hs Hc Hn. apply evolves_same; [|done]. rewrite <-Hc. unfold core. cbn. by rewrite Hs.
Qed.
Ltac core_eq := unfold core, nums; fields_eq.

(** ** The number to dial *)
Lemma next_number_range e i :
  0 <= i < Z.of_nat MAXRNUMBERS -> remote_numbers_count e <= Z.of_nat MAXRNUMBERS ->
  0 <= next_number e i < Z.of_nat MAXRNUMBERS.
Proof. unfold next_number, MAXRNUMBERS. intros H1 H2. destruct (Z.leb_spec (remote_numbers_count e) (i + 1)); lia. Qed.

Lemma use_number_ok i e : 0 <= i < Z.of_nat MAXRNUMBERS ->
  (numbers_ok e -> numbers_ok (use_number i e)) ∧ (numbers_ok e -> numbers_ok (use_number_only i e)).
Proof. intros Hi. split; intros (H1 & H2 & H3); (split; [done|]); split; [exact Hi|done|exact Hi|done]. Qed.

Lemma select_loop_core j i e : core (select_loop j i e) = core e.
Proof.
  revert i. induction j as [|j IH]; intros i; [done|]. simpl. repeat case_match; try done.
Qed.
Lemma select_loop_ok j i e : numbers_ok e -> 0 <= i < Z.of_nat MAXRNUMBERS ->
  numbers_ok (select_loop j i e).
Proof.
  intros Hn. revert i. induction j as [|j IH]; intros i Hi; simpl.
  { by apply use_number_ok. }
  pose proof (next_number_range e i Hi (proj2 (proj2 Hn))) as Hx.
  repeat case_match; [by apply use_number_ok..|]. by apply IH.
Qed.

Lemma select_first_core e : core (select_first_dialno e) = core e.
Proof. unfold select_first_dialno. repeat case_match; try done. apply select_loop_core. Qed.
Lemma evolves_select_first b e l : evolves b e l (select_first_dialno e) l.
Proof.
  apply evolves_core; [apply select_first_core|]. unfold select_first_dialno.
  - intros Hn. repeat case_match; try done; try by apply use_number_ok.
    apply select_loop_ok; [done|apply Hn].
Qed.
Lemma evolves_set_flag b e l i f : evolves b e l (set_flag i f e) l.
Proof. apply evolves_same; [done|]. unfold nums, set_flag. cbn. by rewrite length_alter. Qed.
Lemma evolves_select_next b e l : evolves b e l (select_next_dialno e) l.
Proof.
  unfold select_next_dialno. apply evolves_core.
  - by repeat case_match.
  - intros Hn. repeat case_match; try done; [by apply use_number_ok|].
    destruct (evolves_set_flag None e [] (last_remote_number e) RNF_IDLE) as [_ _ _ _ Hf _].
    specialize (Hf Hn). apply use_number_ok; [|done]. apply next_number_range; apply Hf.
Qed.

Lemma select_cf e :
  cf (select_first_dialno e) = cf e ∧ cf (select_next_dialno e) = cf e ∧
  cf (select_this_dialno e) = cf e.
Proof.
  split; [|split]; [|apply (ev_cf _ _ _ _ _ (evolves_select_next None e []))|done].
  apply (ev_cf _ _ _ _ _ (evolves_select_first None e [])).
Qed.

(** ** Every routine on one entry is a run of [fsm] *)
Lemma in_state_true x e : in_state x e = true -> state e = x.
Proof. apply bool_decide_eq_true. Qed.
Lemma in_state_false x e : in_state x e = false -> state e ≠ x.
Proof. apply bool_decide_eq_false. Qed.

(** [lwp_use lem] runs a call by its lemma and chains the evolutions. *)
Tactic Notation "lwp_use" uconstr(lem) "as" simple_intropattern(p) :=
  eapply lwp_mono; [apply lem|intros ? ? ? _ p; cbv beta in *].
Ltac evolve :=
  lazymatch goal with
  | H : evolves ?b ?e ?l ?e1 ?l1 |- evolves ?b ?e ?l _ _ =>
      apply (evolves_trans _ _ _ _ _ _ _ H); clear H
  | |- _ => idtac
  end.
(** Proves that the next part of a routine evolves the entry, and goes on. *)
Tactic Notation "lwp_stage" constr(e) constr(l) "as" simple_intropattern(p) :=
  apply lwp_bind; eapply (lwp_mono _ _ (λ _, evolves None e l)); [|intros ? ? ? _ p; cbv beta in *].
(** Forgets how the entry came about, but not that it evolved from [e]. *)
Ltac lwp_abstract e l :=
  lazymatch goal with
  | |- lwp _ _ _ ?e1 ?l1 =>
      let H := fresh "H" in
      assert (evolves None e l e1 l1) as H; [|generalize dependent e1; intros]
  end.
(** Closes an evolution that is one move, or none. *)
Ltac evolve_done :=
  evolve;
  first [ apply evolves_same; core_eq
        | apply evolves_move; [cbn [state]|core_eq|core_eq] ].

Section handlers.
Context {env : Env} (cep : nat).

Lemma dial_fail_code_evolves e l : dialling (state e) ->
  lwp cep (dial_fail_code cep) (λ _, evolves None e l) e l.
Proof.
  intros Hst. unfold dial_fail_code. lwp_go; cbn [id] in *.
  1: unfold retry_wait; lwp_go.
  all: try apply select_cf.
  all: try (eapply evolves_trans; [|apply evolves_select_next]).
  all: apply evolves_move; [|core_eq|core_eq]; cbn [state].
  1-3: by apply fsm_retry.
  - by apply fsm_down.
  - apply fsm_give_up; [done|by left].
Qed.

Lemma disconnect_code_evolves e l :
  lwp cep (disconnect_code cep) (λ _ e' l', evolves None e l e' l' ∧ state e' = state e ∧ l' = l) e l.
Proof.
  unfold disconnect_code, account. lwp_go.
  all: split; [(apply evolves_same; core_eq)|done].
Qed.

(** [response_to_user(cep, DSTAT_NOT_CONNECTED); cep_set_state(cep, ST_IDLE, 0, 0)] *)
Lemma evolves_idle e l e1 l1 t : evolves None e l e1 l1 ->
  evolves None e l
    (e1 <| state := ST_IDLE |> <| last_set_state_time := t |>
        <| waitfunc := to_int 0 |> <| waittime := to_int 0 |>) (l1 ++ [DSTAT_NOT_CONNECTED]).
Proof. intros H. evolve_done. apply fsm_disconnect. Qed.

Lemma disconnect_cep_evolves cause e l :
  lwp cep (disconnect_cep cep cause) (λ _, evolves None e l) e l.
Proof.
  unfold disconnect_cep. apply lwp_bind, lwp_upd; [done|]. apply lwp_bind, lwp_fld. cbn [id].
  lwp_stage e l as HK1.
  { lwp_go; [|(apply evolves_same; core_eq)]. lwp_use dial_fail_code_evolves as HD.
    { right. left. by apply in_state_true. }
    eapply evolves_trans; [|done]. (apply evolves_same; core_eq). }
  apply lwp_bind, lwp_fld. lwp_stage e l as HK2.
  { lwp_go; [|done]. lwp_use disconnect_code_evolves as (HD & _ & _). lwp_go. apply evolves_idle.
    by eapply evolves_trans. }
  apply lwp_bind, lwp_fld. lwp_stage e l as HK3.
  { lwp_go; [|done]. by apply evolves_idle. }
  lwp_go. evolve_done.
Qed.

Lemma ev_disconnect_from_user_evolves e l :
  lwp cep (ev_disconnect_from_user cep)
    (λ _ e' l', evolves None e l e' l' ∧ state e' = ST_IDLE) e l.
Proof.
  unfold ev_disconnect_from_user. apply lwp_bind, lwp_upd; [done|]. apply lwp_bind, lwp_fld. cbn [id].
  lwp_stage e l as HK1.
  { unfold sendm_disconnect_req. lwp_go; (apply evolves_same; core_eq). }
  lwp_stage e l as HK2.
  { lwp_go; [|done]. lwp_use disconnect_code_evolves as (HD & _ & _). by eapply evolves_trans. }
  lwp_go. split; [|done].
  evolve_done. apply fsm_disconnect.
Qed.

Lemma ev_alert_from_user_evolves e l :
  lwp cep (ev_alert_from_user cep) (λ _, evolves None e l) e l.
Proof. unfold ev_alert_from_user, sendm_alert_req. lwp_go; apply evolves_refl. Qed.

Lemma evolves_count_call b e l : evolves b e l (count_call e) l.
Proof.
  unfold count_call. split; [by repeat case_match| | | | |by repeat case_match].
  - intros _ (H1 & H2 & H3 & H4). unfold budget_ok.
    destruct (Z.eqb_spec (budget_calltype e) BUDGET_TYPE_CBACK) as [E|];
      [|destruct (Z.eqb_spec (budget_calltype e) BUDGET_TYPE_COUT) as [E'|]]; cbn.
    + specialize (H3 E). repeat split; try lia; done.
    + specialize (H4 E'). repeat split; try lia; done.
    + repeat split; try lia; done.
  - left. unfold cback_budget, cback_total. repeat case_match; cbn; f_equal; lia.
  - left. unfold cout_budget, cout_total. repeat case_match; cbn; f_equal; lia.
  - intros Hn. repeat case_match; exact Hn.
Qed.

Lemma call_active_evolves id channel e l : state e = ST_DIAL ∨ state e = ST_WAIT_CONNECT ->
  lwp cep (call_active cep id channel) (λ _, evolves None e l) e l.
Proof.
  intros Hst. unfold call_active, link_b_channel.
  do 16 (lwp_step; cbv beta). lwp_abstract e l.
  { apply evolves_move; [|core_eq|core_eq]. by apply fsm_active. }
  do 3 (lwp_step; cbv beta).
  - lwp_step; [|done]. unfold exec_answer. lwp_go; try done; evolve_done.
  - lwp_stage e l as HK1.
    { lwp_step; [|done]. unfold call_stat. lwp_go; try (by unfold count_call; repeat case_match).
      all: eapply evolves_trans; [done|apply evolves_count_call]. }
    lwp_go. eapply evolves_trans; [done|]. apply evolves_set_flag.
Qed.

(** [m] changes neither the state nor what the driver was told. *)
Definition silent {A} (m : M A) : Prop :=
  ∀ e l, lwp cep m (λ _ e' l', evolves None e l e' l' ∧ state e' = state e ∧ l' = l) e l.

Lemma sendm_connect_req_silent : silent (sendm_connect_req cep).
Proof.
  intros e l. unfold sendm_connect_req. lwp_go.
  all: split; [apply evolves_same; core_eq|done].
Qed.

Lemma dial_code_evolves e l : state e = ST_IDLE ∨ state e = ST_DIAL_FAIL ->
  lwp cep (dial_code cep) (λ _, evolves None e l) e l.
Proof.
  intros Hst. assert (dialling (state e)) as Hd by (unfold dialling; tauto).
  unfold dial_code. lwp_step. lwp_step. cbv beta. cbn [id]. lwp_step. lwp_step. cbv beta.
  lwp_stage e l as HK1; [|lwp_go; evolve_done].
  lwp_step; [lwp_go; evolve_done; apply fsm_give_up; tauto|].
  lwp_step; [lwp_go; evolve_done; apply fsm_give_up; tauto|].
  do 5 (lwp_step; cbv beta). lwp_use sendm_connect_req_silent as (H2 & Hs & ->).
  cbn in Hs.
  assert (evolves None e l e' l) by (eapply evolves_trans; [|exact H2]; apply evolves_same; core_eq).
  lwp_step.
  - lwp_use dial_fail_code_evolves as HD; [by rewrite Hs|]. by eapply evolves_trans.
  - lwp_go. evolve_done. rewrite Hs. by apply fsm_dial.
Qed.

Lemma evolves_calltype b e l t :
  (budget_ok e -> t = BUDGET_TYPE_CBACK -> 1 <= budget_callbackncalls_cnt e) ->
  (budget_ok e -> t = BUDGET_TYPE_COUT -> 1 <= budget_calloutncalls_cnt e) ->
  evolves b e l (e <| budget_calltype := t |>) l.
Proof.
  intros H1 H2. split; [done| |by left|by left|done|done].
  intros _ H. pose proof H as (H3 & H4 & _). unfold budget_ok. cbn. auto.
Qed.

(** The setup of a dial attempt. *)
Definition start_dial (e : cfg_entry) : cfg_entry :=
  select_first_dialno (e <| budget_calltype := 0 |> <| dial_count := 0 |>).
Lemma start_dial_core e : core (start_dial e) = core (e <| budget_calltype := 0 |>).
Proof. unfold start_dial. rewrite select_first_core. done. Qed.
Lemma evolves_start_dial e l : evolves None e l (start_dial e) l.
Proof.
  eapply evolves_trans; [|apply evolves_select_first].
  eapply evolves_trans; [by apply (evolves_calltype _ _ _ 0)|]. apply evolves_same; core_eq.
Qed.

Lemma ev_dial_from_user_evolves e l :
  lwp cep (ev_dial_from_user cep) (λ _, evolves None e l) e l.
Proof.
  unfold ev_dial_from_user. lwp_step. lwp_step. cbv beta. cbn [id].
  lwp_step; [|apply evolves_refl]. apply in_state_true in H.
  lwp_step. apply lwp_upd; [by apply (ev_cf _ _ _ _ _ (evolves_start_dial e l))|].
  fold (start_dial e). pose proof (evolves_start_dial e l) as HK. pose proof (start_dial_core e) as Hc.
  generalize dependent (start_dial e). intros e1 HK [= Hcf Hs Ht H1 _ H2 _]. cbn in *.
  assert (state e1 = ST_IDLE) as Hi by congruence.
  assert (∀ d n, budget_ok e1 -> d && (n =? 0) = false -> d = true -> 0 <= n -> 1 <= n) as Hn.
  { intros d n _ Hz -> ?. destruct (Z.eqb_spec n 0); [done|lia]. }
  lwp_step; lwp_step.
  - do 2 (lwp_step; cbv beta). lwp_use dial_fail_code_evolves as HD; [by left|].
    evolve. eapply evolves_trans; [|exact HD]. apply evolves_same; core_eq.
  - lwp_step. lwp_step; cbv beta; lwp_go.
    + evolve. eapply evolves_trans; [apply (evolves_calltype _ _ _ BUDGET_TYPE_CBACK)|].
      * intros Hb _. rewrite <-H1 in *. eapply Hn; [done..|apply Hb].
      * done.
      * apply evolves_move; [|core_eq|core_eq]. cbn. rewrite Hi. apply fsm_retry. by left.
    + evolve. apply evolves_move; [|core_eq|core_eq]. rewrite Hi. apply fsm_retry. by left.
  - do 2 (lwp_step; cbv beta). lwp_use dial_fail_code_evolves as HD; [by left|].
    evolve. eapply evolves_trans; [|exact HD]. apply evolves_same; core_eq.
  - lwp_step. lwp_step; cbv beta; [lwp_step; cbv beta|].
    + lwp_use dial_code_evolves as HD; [by left|].
      evolve. eapply evolves_trans; [apply (evolves_calltype _ _ _ BUDGET_TYPE_COUT)|].
      * done.
      * intros Hb _. rewrite <-H2 in *. eapply Hn; [done..|apply Hb].
      * eapply evolves_trans; [|exact HD]. apply evolves_same; core_eq.
    + lwp_use dial_code_evolves as HD; [by left|]. by eapply evolves_trans.
Qed.

Lemma ev_dial_from_i4b_evolves e l :
  lwp cep (ev_dial_from_i4b cep) (λ _, evolves None e l) e l.
Proof.
  unfold ev_dial_from_i4b. lwp_go; [|apply evolves_refl]. apply dial_code_evolves.
  right. by apply in_state_true.
Qed.

Lemma unitlen_chkupd_silent : silent (unitlen_chkupd cep).
Proof.
  intros e l. unfold unitlen_chkupd. lwp_go; by split; [apply evolves_refl|].
Qed.

Lemma check_rate_evolves e l : lwp cep (check_rate cep) (λ _, evolves None e l) e l.
Proof.
  unfold check_rate. lwp_go; [|apply evolves_refl].
  lwp_use unitlen_chkupd_silent as (HD & _ & _). eapply evolves_trans; [|exact HD].
  apply evolves_same; core_eq.
Qed.

Lemma handle_charge_evolves e l : lwp cep (handle_charge cep) (λ _, evolves None e l) e l.
Proof.
  assert (∀ t, core (aoc_stamp t e) = core e ∧ nums (aoc_stamp t e) = nums e) as Hs.
  { intros t. unfold aoc_stamp. repeat case_match; split; core_eq. }
  unfold handle_charge. apply lwp_bind, lwp_get. intros t. apply lwp_bind, lwp_upd.
  { destruct (Hs t) as [Hc _]. by injection Hc. }
  cbv beta. lwp_abstract e l; [by apply evolves_same; apply Hs|]. lwp_go; [|done].
  lwp_use unitlen_chkupd_silent as (HD & _ & _). eapply evolves_trans; [|exact HD].
  evolve_done.
Qed.

Lemma evolves_renew now t e l : now <= t -> evolves (Some t) e l (renew_budgets now e) l.
Proof.
  intros Ht. unfold renew_budgets. split; [by repeat case_match| | | | |by repeat case_match].
  - intros [Hc1 Hc2] (H1 & H2 & H3 & H4). unfold has_cback_budget, has_cout_budget, budget_ok in *.
    repeat match goal with
    | |- context [if ?b then _ else _] => destruct b eqn:?
    end; cbn in *; rewrite ?andb_true_iff, ?nonzero_true in *; repeat split; intros; try lia; auto.
  - destruct (has_cback_budget (cf e) && _) eqn:E; [|left; by case_match].
    apply andb_true_iff in E as [E1 E2%Z.leb_le]. right. exists t. cbn. split; [done|]. split; [done|lia].
  - set (e1 := if has_cback_budget (cf e) && _ then _ else e).
    assert (cf e1 = cf e ∧ cout_budget e1 = cout_budget e) as [H1 H2] by (unfold e1; by case_match).
    rewrite H1, <-H2. destruct (has_cout_budget (cf e) && _) eqn:E; [|by left].
    apply andb_true_iff in E as [E1 E2%Z.leb_le]. right. exists t. cbn. split; [done|]. split; [done|lia].
  - intros Hn. repeat case_match; exact Hn.
Qed.
End handlers.
