(* ===== verification/IsdndRun.v ===== *)
(** * Runs of the daemon

    The routines that work on several entries, the message dispatcher, the
    timeouts and a sequence of events, and what they promise: every run is,
    entry by entry, a run of the state diagram; what a driver believes about
    its call agrees with the state of its entry; the fields of an entry stay
    in range; the call budgets are kept. *)
From stdpp Require Import relations.
From S2P Require Import Prelude Dss1Types IsdndTypes IsdndSupport Isdnd IsdndLogic IsdndSpec.

(** ** The whole table

    With one entry per driver unit, an event is an evolution of every
    entry. *)
Definition distinct (s : dmn) : Prop := NoDup ((λ e, drv (cf e)) <$> cfg_entry_tab s).

Record gstep (b : option Z) (s s' : dmn) : Prop := {
  gs_length : length (cfg_entry_tab s') = length (cfg_entry_tab s);
  gs_entry : ∀ j, (j < length (cfg_entry_tab s))%nat ->
    evolves b (entry s j) (told s j) (entry s' j) (told s' j)
}.

Lemma gstep_refl b s : gstep b s s.
Proof. split; [done|]. intros. apply evolves_refl. Qed.
Lemma gstep_trans b s1 s2 s3 : gstep b s1 s2 -> gstep b s2 s3 -> gstep b s1 s3.
Proof.
  intros [L1 E1] [L2 E2]. split; [congruence|]. intros j Hj.
  eapply evolves_trans; [by apply E1|]. apply E2. lia.
Qed.
Lemma gstep_drv b s s' : gstep b s s' ->
  (λ e, drv (cf e)) <$> cfg_entry_tab s' = (λ e, drv (cf e)) <$> cfg_entry_tab s.
Proof.
  intros [L E]. apply list_eq. intros j. rewrite !list_lookup_fmap.
  destruct (decide (j < length (cfg_entry_tab s))%nat) as [Hj|Hj].
  - rewrite !list_lookup_lookup_total_lt by lia. simpl. f_equal. f_equal.
    apply (ev_cf _ _ _ _ _ (E j Hj)).
  - rewrite !lookup_ge_None_2 by lia. done.
Qed.
Lemma gstep_distinct b s s' : gstep b s s' -> distinct s -> distinct s'.
Proof. intros H. unfold distinct. by rewrite (gstep_drv _ _ _ H). Qed.

(** The step of a routine on one entry. *)
Lemma frame_gstep b cep s s' : (cep < length (cfg_entry_tab s))%nat -> distinct s ->
  local_frame cep s s' -> evolves b (entry s cep) (told s cep) (entry s' cep) (told s' cep) ->
  gstep b s s'.
Proof.
  intros Hi Hd Hf He. split; [by eapply frame_length|]. intros j Hj.
  destruct (decide (j = cep)) as [->|Hne]; [done|].
  assert (entry s' j = entry s j) as Hej.
  { unfold entry. rewrite (lf_tab _ _ _ Hf). by rewrite list_lookup_total_insert_ne. }
  unfold told. rewrite Hej, (lf_told _ _ _ Hf); [apply evolves_refl|].
  intros Heq. apply Hne. unfold distinct in Hd.
  apply (NoDup_lookup _ j cep (drv (cf (entry s cep))) Hd);
    rewrite list_lookup_fmap, list_lookup_lookup_total_lt by done; [|done].
  simpl. by rewrite <-Heq.
Qed.

(** Total over the daemon's life: a routine that returns has evolved every
    entry. *)
Definition gwp {A} (b : option Z) (m : M A) (Q : A -> dmn -> Prop) (s : dmn) : Prop :=
  distinct s ->
  match (m s).1 with
  | Some a => gstep b s (m s).2 ∧ Q a (m s).2
  | None => True
  end.

Lemma gwp_bind {A B} b (m : M A) (k : A -> M B) Q s :
  gwp b m (λ a, gwp b (k a) Q) s -> gwp b (m ≫= k) Q s.
Proof.
  intros Hm Hd. specialize (Hm Hd). unfold mbind, M_bind.
  destruct (m s) as [[a|] s1]; simpl in *; [|done]. destruct Hm as [H1 Hk].
  specialize (Hk (gstep_distinct _ _ _ H1 Hd)). destruct (k a s1) as [[x|] s2]; simpl in *; [|done].
  destruct Hk. split; [by eapply gstep_trans|done].
Qed.
Lemma gwp_ret {A} b (a : A) (Q : A -> dmn -> Prop) s : Q a s -> gwp b (mret a) Q s.
Proof. intros H _. split; [apply gstep_refl|done]. Qed.
Lemma gwp_get {A} b (f : dmn -> A) (Q : A -> dmn -> Prop) s : Q (f s) s -> gwp b (get f) Q s.
Proof. intros H _. split; [apply gstep_refl|done]. Qed.
Lemma gwp_fld {A} b cep (f : cfg_entry -> A) (Q : A -> dmn -> Prop) s :
  Q (f (entry s cep)) s -> gwp b (fld cep f) Q s.
Proof. intros H. by apply (gwp_get b (λ s, f (entry s cep))). Qed.
Lemma gwp_mono {A} b (m : M A) (Q Q' : A -> dmn -> Prop) s :
  gwp b m Q s -> (∀ a s', gstep b s s' -> Q a s' -> Q' a s') -> gwp b m Q' s.
Proof.
  intros Hm HQ Hd. specialize (Hm Hd). destruct (m s) as [[a|] s1]; simpl in *; [|done].
  destruct Hm. auto.
Qed.
Lemma gwp_local {A} b cep (m : M A) (R : A -> cfg_entry -> list Z -> Prop) (Q : A -> dmn -> Prop) s :
  (cep < length (cfg_entry_tab s))%nat ->
  lwp cep m (λ a e' l', evolves None (entry s cep) (told s cep) e' l' ∧ R a e' l')
    (entry s cep) (told s cep) ->
  (∀ a s', length (cfg_entry_tab s') = length (cfg_entry_tab s) ->
     R a (entry s' cep) (told s' cep) -> Q a s') ->
  gwp b m Q s.
Proof.
  intros Hi Hm HQ Hd. destruct (Hm s Hi eq_refl eq_refl) as [Hf Hr].
  destruct (m s) as [[a|] s1]; simpl in *; [|done]. destruct Hr as [He HR].
  split; [|apply HQ; [by eapply frame_length|done]].
  eapply frame_gstep; [done..|]. by apply evolves_weaken.
Qed.

(** [m] evolves every entry of a table of [n] entries. *)
Definition safe {A} (b : option Z) (n : nat) (m : M A) : Prop :=
  ∀ s, length (cfg_entry_tab s) = n -> gwp b m (λ _ _, True) s.

Lemma safe_ret {A} b n (a : A) : safe b n (mret a).
Proof. intros s _. by apply gwp_ret. Qed.
Lemma safe_bind {A B} b n (m : M A) (k : A -> M B) :
  safe b n m -> (∀ a, safe b n (k a)) -> safe b n (m ≫= k).
Proof.
  intros Hm Hk s Hs. apply gwp_bind. eapply gwp_mono; [by apply Hm|].
  intros a s' [Hl _] _. apply Hk. lia.
Qed.
Lemma safe_get {A} b n (f : dmn -> A) : safe b n (get f).
Proof. intros s _. by apply gwp_get. Qed.
Lemma safe_local {A} b n cep (m : M A) : (cep < n)%nat ->
  (∀ e l, lwp cep m (λ _, evolves None e l) e l) -> safe b n m.
Proof.
  intros Hi Hm s Hs. eapply (gwp_local _ cep _ (λ _ _ _, True)); [lia| |done].
  eapply lwp_mono; [apply Hm|]. auto.
Qed.
Lemma safe_iff b n x (m : M unit) : safe b n m -> safe b n (iff x m).
Proof. destruct x; [done|]. intros _. apply safe_ret. Qed.
Lemma safe_for_all {A} b n (l : list A) (body : A -> M unit) :
  (∀ x, x ∈ l -> safe b n (body x)) -> safe b n (for_all l body).
Proof.
  induction l as [|x l IH]; intros H; simpl; [apply safe_ret|].
  apply safe_bind; [apply H; by left|]. intros _. apply IH. intros y Hy. apply H. by right.
Qed.
Lemma safe_for_until {A} b n (l : list A) (body : A -> M bool) :
  (∀ x, x ∈ l -> safe b n (body x)) -> safe b n (for_until l body).
Proof.
  induction l as [|x l IH]; intros H; simpl; [apply safe_ret|].
  apply safe_bind; [apply H; by left|]. intros [|]; [apply safe_ret|].
  apply IH. intros y Hy. apply H. by right.
Qed.
(** A loop over the table. *)
Lemma safe_ceps {A} b n (k : list nat -> M A) :
  (∀ l, (∀ cep, cep ∈ l -> (cep < n)%nat) -> safe b n (k l)) -> safe b n (get ceps ≫= k).
Proof.
  intros Hk s Hs. apply gwp_bind, gwp_get. apply Hk; [|done].
  intros cep Hc. apply elem_of_seq in Hc. lia.
Qed.
(** A loop-up by driver or call descriptor id gives an entry of the table. *)
Lemma list_find_lt (P : cfg_entry -> Prop) `{∀ e, Decision (P e)} (l : list cfg_entry) cep :
  fst <$> list_find P l = Some cep -> (cep < length l)%nat.
Proof.
  destruct (list_find P l) as [[i e]|] eqn:E; [|done]. intros [= <-].
  apply list_find_Some in E as (E & _). by apply lookup_lt_Some in E.
Qed.

Section events.
Context {env : Env} (b : option Z) (n : nat).

Lemma safe_error_exit {A} x : safe b n (error_exit x : M A).
Proof. by intros s _ _. Qed.

(** A state that differs in nothing the entries show. *)
Lemma safe_put f : (∀ s, cfg_entry_tab (f s) = cfg_entry_tab s ∧ trace (f s) = trace s) ->
  safe b n (put f).
Proof.
  intros Hf s Hs _. destruct (Hf s) as [Ht Htr]. split; [|done]. cbn. split; [by rewrite Ht|].
  intros j Hj. unfold told, entry. rewrite Ht, Htr. apply evolves_refl.
Qed.

(** An ioctl that is no response to a driver. *)
Lemma safe_do_ioctl r : (∀ d u, status_to d u (Ioctl r) = None) -> safe b n (do_ioctl r).
Proof.
  intros Hr s Hs _. split; [|done]. split; [done|]. intros j Hj.
  assert (told (do_ioctl r s).2 j = told s j) as -> by (by apply statuses_same). apply evolves_refl.
Qed.

Lemma ev_disconnect_from_i4b_safe id cause ex : safe b n (ev_disconnect_from_i4b id cause ex).
Proof.
  apply safe_ceps. intros l Hl. apply safe_for_all. intros cep Hc.
  apply safe_bind; [apply safe_get|]. intros x. apply safe_iff.
  apply (safe_local _ _ cep); [by apply Hl|]. apply disconnect_cep_evolves.
Qed.

Lemma ev_disconnect_from_user_safe cep : (cep < n)%nat -> safe b n (ev_disconnect_from_user cep).
Proof.
  intros Hc. apply (safe_local _ _ cep); [done|]. intros e l.
  by lwp_use ev_disconnect_from_user_evolves as [HD _].
Qed.

Lemma sendm_connect_resp_safe cep r c : safe b n (sendm_connect_resp cep r c).
Proof.
  apply safe_bind; [apply safe_get|]. intros e. apply safe_do_ioctl. intros d u. by repeat case_match.
Qed.

Lemma ev_reject_from_user_safe cep : safe b n (ev_reject_from_user cep).
Proof.
  apply safe_bind; [apply safe_get|]. intros e. apply safe_iff.
  apply safe_bind; [apply sendm_connect_resp_safe|]. intros _. apply ev_disconnect_from_i4b_safe.
Qed.

Lemma ev_connect_from_user_safe cep : (cep < n)%nat -> safe b n (ev_connect_from_user cep).
Proof.
  intros Hc s Hs. apply gwp_bind, gwp_fld. destruct (in_state ST_INCOMING _) eqn:Hi; [|by apply gwp_ret].
  apply in_state_true in Hi. simpl. apply gwp_bind.
  eapply (gwp_local _ cep _ (λ _ e' _, state e' = ST_INCOMING)); [lia| |].
  { unfold sendm_connect_resp. lwp_step. lwp_step. cbv beta zeta. apply lwp_ioctl.
    - intros d u. by repeat case_match.
    - intros _. split; [apply evolves_refl|done]. }
  intros _ s1 Hl1 Hs1. apply gwp_bind.
  eapply (gwp_local _ cep _ (λ _ _ _, True)); [lia| |].
  { lwp_go. split; [|done]. apply evolves_move; [|core_eq|core_eq]. rewrite Hs1. apply fsm_answer. }
  intros _ s2 Hl2 _. apply ev_disconnect_from_i4b_safe. lia.
Qed.

Lemma ev_dial_from_user_safe cep : (cep < n)%nat -> safe b n (ev_dial_from_user cep).
Proof. intros Hc. apply (safe_local _ _ cep); [done|]. apply ev_dial_from_user_evolves. Qed.

Lemma ring_safe cep s : length (cfg_entry_tab s) = n -> (cep < n)%nat ->
  state (entry s cep) = ST_INCOMING ->
  gwp b (response_to_user cep DSTAT_INCOMING_CALL ;; ev_alert_from_user cep ;; mret false)
    (λ _ _, True) s.
Proof.
  intros Hn Hc Hs. eapply (gwp_local _ cep _ (λ _ _ _, True)); [lia| |done].
  lwp_step. lwp_step. lwp_step. lwp_use ev_alert_from_user_evolves as HD. lwp_go. split; [|done].
  eapply evolves_trans; [|exact HD]. apply evolves_move; [|done|done]. rewrite Hs. apply fsm_ring.
Qed.

Lemma take_call_safe cep mp s : length (cfg_entry_tab s) = n -> (cep < n)%nat ->
  state (entry s cep) = ST_IDLE ∨ state (entry s cep) = ST_DIAL_FAIL ->
  gwp b (take_call cep mp) (λ _ _, True) s.
Proof.
  intros Hn Hc Hst. unfold take_call. apply gwp_bind, gwp_fld.
  set (c := cf (entry s cep)). clearbody c.
  apply gwp_bind. eapply (gwp_local _ cep _ (λ _ e' _, state e' = ST_INCOMING)); [lia| |].
  { lwp_step. split; [|done]. apply evolves_move; [|core_eq|core_eq]. by apply fsm_offer. }
  intros _ s1 Hl1 Hs1. apply gwp_bind.
  eapply (gwp_local _ cep _ (λ _ e' _, state e' = ST_INCOMING)); [lia| |].
  { lwp_step. split; [apply evolves_same; core_eq|done]. }
  intros _ s2 Hl2 Hs2. assert (length (cfg_entry_tab s2) = n) as Hn2 by congruence. cbv zeta.
  assert (safe b n (ev_connect_from_user cep ;; mret true)) as Hconnect.
  { apply safe_bind; [by apply ev_connect_from_user_safe|]. intros _. apply safe_ret. }
  repeat match goal with |- gwp _ (if ?x then _ else _) _ _ => destruct x end.
  - by apply Hconnect.
  - apply (safe_bind _ n); [apply ev_reject_from_user_safe| |done]. intros _. apply safe_ret.
  - apply gwp_bind. eapply (gwp_local _ cep _ (λ _ e' _, state e' = ST_INCOMING)); [lia| |].
    { lwp_step. split; [|done]. apply evolves_stay; [by rewrite Hs2|core_eq|core_eq]. }
    intros _ s3 Hl3 Hs3. apply ring_safe; [congruence|done|done].
  - by apply ring_safe.
  - by apply Hconnect.
  - apply (safe_bind _ n); [apply ev_reject_from_user_safe| |done]. intros _.
    apply safe_bind; [by apply ev_dial_from_user_safe|]. intros _. apply safe_ret.
  - apply (safe_bind _ n); [by apply ev_disconnect_from_user_safe| |done]. intros _. apply safe_ret.
Qed.

Lemma offer_call_safe mp cep : (cep < n)%nat -> safe b n (offer_call mp cep).
Proof.
  intros Hc s Hs. apply gwp_bind, gwp_fld. apply gwp_bind, gwp_get.
  destruct (inout _ =? _); [by apply gwp_ret|]. cbn [id].
  destruct (in_state ST_IDLE _ || in_state ST_DIAL_FAIL _) eqn:Hi.
  - destruct (number_matches _ _ _); [|by apply gwp_ret]. apply take_call_safe; [done..|].
    apply orb_true_iff in Hi as [?|?]; [left|right]; by apply in_state_true.
  - destruct (CEP_IS_CALLED_BACK _ && _); [|by apply gwp_ret]. apply gwp_bind.
    eapply (gwp_local _ cep _ (λ _ e' _, state e' = ST_IDLE)); [lia| |].
    { apply ev_disconnect_from_user_evolves. }
    intros _ s1 Hl Hs1. apply take_call_safe; [congruence|done|by left].
Qed.

Lemma ev_incoming_from_i4b_safe mp : safe b n (ev_incoming_from_i4b mp).
Proof.
  intros s Hs. apply gwp_bind, gwp_get. cbv zeta. destruct (_ =? CHAN_NOT_ANY); [by apply gwp_ret|].
  apply (safe_for_until _ n); [|done]. intros cep Hc. apply offer_call_safe.
  apply elem_of_seq in Hc. cbn [id] in Hc. lia.
Qed.

Lemma ev_connect_from_i4b_safe id channel : safe b n (ev_connect_from_i4b id channel).
Proof.
  intros s Hs. apply gwp_bind, gwp_get. destruct (get_cep_by_cdid s id) as [cep|] eqn:Hg;
    [|by apply gwp_ret].
  apply list_find_lt in Hg. eapply (gwp_local _ cep _ (λ _ _ _, True)); [done| |done].
  set (e := entry s cep). set (l := told s cep). clearbody e l. lwp_step. lwp_step. cbv beta.
  lwp_stage e l as HK1.
  { lwp_step; [|apply evolves_refl]. by lwp_use ev_disconnect_from_user_evolves as [HD _]. }
  lwp_step. lwp_step. cbv beta. lwp_step; [|done]. lwp_use call_active_evolves as HD.
  - match goal with H : _ = true |- _ => apply orb_true_iff in H as [H|H] end;
      apply in_state_true in H; [by right|by left].
  - split; [|done]. by eapply evolves_trans.
Qed.

(** A handler that looks an entry up and works on it, or does without. *)
Lemma gwp_cep (r : option nat) s (k : nat -> M unit) (d : M unit) :
  length (cfg_entry_tab s) = n ->
  (∀ cep, r = Some cep -> (cep < n)%nat) ->
  (r = None -> gwp b d (λ _ _, True) s) ->
  (∀ cep, (cep < n)%nat -> lwp cep (k cep) (λ _, evolves None (entry s cep) (told s cep))
                             (entry s cep) (told s cep)) ->
  gwp b (match r with Some cep => k cep | None => d end) (λ _ _, True) s.
Proof.
  intros Hn Hr Hd Hk. destruct r as [cep|]; [|by apply Hd]. specialize (Hr _ eq_refl).
  eapply (gwp_local _ cep _ (λ _ _ _, True)); [lia| |done]. by lwp_use (Hk cep) as HD.
Qed.

Lemma get_cep_lt s : length (cfg_entry_tab s) = n ->
  (∀ d u cep, get_cep_by_driver s d u = Some cep -> (cep < n)%nat) ∧
  (∀ id cep, get_cep_by_cdid s id = Some cep -> (cep < n)%nat).
Proof. intros <-. split; intros *; apply list_find_lt. Qed.

Lemma dial_fail_response_safe s d u : get_cep_by_driver s d u = None ->
  gwp b (dial_fail_response_to_user d u) (λ _ _, True) s.
Proof.
  intros Hg _. split; [|done]. split; [done|]. intros j Hj.
  unfold dial_fail_response_to_user, mbind, M_bind, mret, M_ret, do_ioctl. cbn [fst snd].
  match goal with |- evolves _ _ _ (entry ?s' _) _ => assert (told s' j = told s j) as Ht end.
  { apply (statuses_same (usrdevicename (cf (entry s j))) (usrdeviceunit (cf (entry s j)))).
    cbn. destruct (Z.eqb_spec d (usrdevicename (cf (entry s j)))) as [->|];
      [|done]. destruct (Z.eqb_spec u (usrdeviceunit (cf (entry s j)))) as [->|]; [|done].
    exfalso. unfold get_cep_by_driver in Hg. apply fmap_None, list_find_None in Hg.
    rewrite Forall_lookup in Hg. eapply (Hg j); [by apply list_lookup_lookup_total_lt|done]. }
  rewrite Ht. apply evolves_refl.
Qed.

Lemma evolves_numbers e l e' : core e' = core e -> last_remote_number e' = last_remote_number e ->
  length (remote_numbers e') = length (remote_numbers e) ->
  remote_numbers_count e' = remote_numbers_count e ∨ remote_numbers_count e' <= 1 ->
  evolves None e l e' l.
Proof.
  intros Hc H1 H2 H3. apply evolves_core; [done|]. unfold numbers_ok, MAXRNUMBERS. rewrite H1, H2. lia.
Qed.
Lemma evolves_set_number f e l : evolves None e l (set_number f e) l.
Proof. apply evolves_numbers; [core_eq|done| |by left]. apply length_alter. Qed.

Lemma msg_dialoutnumber_safe d u cmd sub : safe b n (msg_dialoutnumber d u cmd sub).
Proof.
  intros s Hs. apply gwp_bind, gwp_get. apply gwp_cep; [done|by apply get_cep_lt| |].
  { apply dial_fail_response_safe. }
  intros cep _. cbv zeta. set (e := entry s cep). set (l := told s cep). clearbody e l.
  lwp_step; [|apply evolves_refl]. destruct (copy_digits _ _ cmd) as [num [|]]; lwp_step; lwp_step;
    cbv beta; [|lwp_go; apply evolves_set_number].
  lwp_abstract e l; [apply evolves_set_number|]. destruct (copy_digits _ _ sub) as [num' [|]].
  all: do 2 (lwp_step; cbv beta); lwp_abstract e l; [evolve; apply evolves_set_number|].
  - do 2 (lwp_step; cbv beta). lwp_use ev_dial_from_user_evolves as HD. eapply evolves_trans; [|exact HD].
    evolve. apply evolves_numbers; [core_eq|done|done|by right].
  - lwp_go. done.
Qed.

Lemma msg_keypad_safe d u cmd : safe b n (msg_keypad d u cmd).
Proof.
  intros s Hs. apply gwp_bind, gwp_get. apply gwp_cep; [done|by apply get_cep_lt| |].
  { apply dial_fail_response_safe. }
  intros cep _. cbv zeta. set (e := entry s cep). set (l := told s cep). clearbody e l.
  lwp_step; [|apply evolves_refl].
  do 2 (lwp_step; cbv beta). lwp_abstract e l; [apply evolves_set_number|].
  do 2 (lwp_step; cbv beta). lwp_use ev_dial_from_user_evolves as HD. eapply evolves_trans; [|exact HD].
  evolve. apply evolves_numbers; [core_eq|done|done|by right].
Qed.

Lemma exec_connect_prog_safe cep prog d : (cep < n)%nat -> safe b n (exec_connect_prog cep prog d).
Proof. intros Hc. apply (safe_local _ _ cep); [done|]. intros e l. lwp_go. apply evolves_refl. Qed.

Lemma upd_ctrl_safe c f : safe b n (upd_ctrl c f).
Proof. by apply safe_put. Qed.

Lemma msg_charging_ind_safe id units t : safe b n (msg_charging_ind id units t).
Proof.
  intros s Hs. apply gwp_bind, gwp_get. apply gwp_cep; [done|by apply get_cep_lt|by intros; apply gwp_ret|].
  intros cep _. set (e := entry s cep). set (l := told s cep). clearbody e l.
  lwp_step; [apply lwp_exit|]. lwp_go; [|apply evolves_same; core_eq].
  lwp_use handle_charge_evolves as HD. eapply evolves_trans; [|exact HD]. apply evolves_same; core_eq.
Qed.

Lemma msg_accounting_safe m : safe b n (msg_accounting m).
Proof.
  intros s Hs. apply gwp_bind, gwp_get. apply gwp_cep; [done|by apply get_cep_lt|by intros; apply gwp_ret|].
  intros cep _. lwp_go; [apply evolves_same; core_eq|apply evolves_refl].
Qed.

Lemma dispatch_safe m : safe b n (dispatch m).
Proof.
  destruct m; simpl; try apply safe_ret.
  - apply ev_incoming_from_i4b_safe.
  - apply safe_bind; [by apply safe_do_ioctl|]. intros. apply safe_ret.
  - apply ev_connect_from_i4b_safe.
  - apply ev_disconnect_from_i4b_safe.
  - intros s Hs. apply gwp_bind, gwp_get. apply gwp_cep; [done|by apply get_cep_lt| |].
    { apply dial_fail_response_safe. }
    intros. apply ev_dial_from_user_evolves.
  - apply msg_accounting_safe.
  - apply msg_charging_ind_safe.
  - apply safe_bind; [apply safe_get|]. intros s. destruct (get_cep_by_cdid s id); [|apply safe_ret].
    apply safe_iff, safe_bind; [by apply safe_do_ioctl|]. intros. apply safe_ret.
  - intros s Hs. apply gwp_bind, gwp_get. apply gwp_cep; [done|by apply get_cep_lt|by intros; apply gwp_ret|].
    intros. by lwp_use ev_disconnect_from_user_evolves as [HD _].
  - intros s Hs. apply gwp_bind, gwp_get. destruct (get_cep_by_driver s _ _) eqn:Hg.
    + apply (get_cep_lt s Hs) in Hg. by apply ev_connect_from_user_safe.
    + by apply dial_fail_response_safe.
  - intros s Hs. apply gwp_bind, gwp_get. destruct (get_cep_by_driver s _ _) eqn:Hg.
    + by apply ev_reject_from_user_safe.
    + by apply dial_fail_response_safe.
  - unfold msg_l12stat_ind. repeat case_match; try apply safe_ret; apply upd_ctrl_safe.
  - unfold msg_teiasg_ind. repeat case_match; [apply safe_ret|apply upd_ctrl_safe].
  - intros s Hs. apply gwp_bind, gwp_get. apply gwp_cep; [done|by apply get_cep_lt|by intros; apply gwp_ret|].
    intros cep _. lwp_go; apply evolves_refl.
  - apply msg_dialoutnumber_safe.
  - apply msg_keypad_safe.
Qed.

Lemma sigchild_handler_safe pid : safe b n (sigchild_handler pid).
Proof.
  unfold sigchild_handler. case_match; [apply safe_error_exit|].
  apply safe_ceps. intros l Hl. apply safe_for_until. intros cep Hc. apply Hl in Hc.
  apply (safe_local _ _ cep); [done|]. clear. intros e l. lwp_go; [|apply evolves_refl].
  lwp_use ev_disconnect_from_user_evolves as [HD _]. lwp_go.
  eapply evolves_trans; [|exact HD]. apply evolves_same; core_eq.
Qed.

Lemma close_allactive_safe : safe b n close_allactive.
Proof.
  apply safe_ceps. intros l Hl. apply safe_for_all. intros cep Hc.
  by apply ev_disconnect_from_user_safe, Hl.
Qed.
End events.

Section recovery.
Context {env : Env} (n : nat).

Lemma renew_safe now t cep : now <= t -> (cep < n)%nat -> safe (Some t) n (upd cep (renew_budgets now)).
Proof.
  intros Ht Hc s Hs Hd. assert (cep < length (cfg_entry_tab s))%nat as Hc' by lia.
  destruct (lwp_upd cep (renew_budgets now)
              (λ _ e' l', evolves (Some t) (entry s cep) (told s cep) e' l')
              (entry s cep) (told s cep)) with (s := s) as [Hf Hr]; try done.
  - by apply (ev_cf _ _ _ _ _ (evolves_renew now t (entry s cep) [] Ht)).
  - by apply evolves_renew.
  - split; [|done]. by eapply frame_gstep.
Qed.

Lemma recover_cep_safe now t chk cep : now <= t -> (cep < n)%nat -> safe (Some t) n (recover_cep now chk cep).
Proof.
  intros Ht Hc. apply safe_bind; [by apply renew_safe|]. intros _.
  apply safe_bind; [apply safe_get|]. intros e. case_match; [apply safe_ret|].
  apply safe_bind.
  { apply safe_iff, (safe_local _ _ cep); [done|]. apply check_rate_evolves. }
  intros _. apply safe_bind; [apply safe_get|]. intros e'. repeat case_match; try apply safe_ret.
  all: apply safe_bind; [|intros; apply safe_ret].
  - by apply ev_disconnect_from_user_safe.
  - apply (safe_local _ _ cep); [done|]. apply ev_dial_from_i4b_evolves.
  - by apply ev_connect_from_user_safe.
Qed.

Lemma handle_recovery_safe t s : length (cfg_entry_tab s) = n -> u32 (clock s) <= t ->
  gwp (Some t) handle_recovery (λ _ _, True) s.
Proof.
  intros Hs Ht. apply gwp_bind, gwp_get. cbv zeta. case_match; [by apply gwp_ret|].
  apply (safe_bind _ n); [by apply safe_put| |done]. intros _.
  apply safe_bind; [by apply safe_iff, safe_put|]. intros _. apply safe_for_until.
  intros cep Hc. apply recover_cep_safe; [exact Ht|]. apply elem_of_seq in Hc. cbn [id] in Hc. lia.
Qed.

(** The timeouts come until [b]; only they can start a new budget period. *)
Definition timed (b : option Z) (ev : Z * event) : Prop :=
  ev.2 = Timeout -> ∃ t, b = Some t ∧ u32 ev.1 <= t.

Lemma handle_safe b ev : timed b ev -> safe b n (handle ev).
Proof.
  destruct ev as [t ev]. intros Hb. destruct ev as [m| |pid|].
  2: { destruct (Hb eq_refl) as (t' & -> & Ht). intros s Hs. apply gwp_bind. intros Hd.
       destruct (safe_put (Some t') n (λ s, s <| clock := t |>) ltac:(done) s Hs Hd) as [Hg _].
       split; [exact Hg|]. by apply handle_recovery_safe. }
  all: apply safe_bind; [by apply safe_put|]; intros _; simpl.
  - apply dispatch_safe.
  - apply sigchild_handler_safe.
  - apply close_allactive_safe.
Qed.

Lemma run_safe b evs : Forall (timed b) evs -> safe b n (run evs).
Proof.
  intros Hb. apply safe_for_all. intros ev Hev. apply handle_safe. by eapply Forall_forall in Hb.
Qed.
(** Every time is one of 32 bits. *)
Lemma timed_all evs : Forall (timed (Some 4294967296)) evs.
Proof.
  apply Forall_forall. intros ev _ _. eexists. split; [done|]. pose proof (u32_range ev.1) as [_ H]. 
  unfold is_u32 in *. lia.
Qed.
End recovery.

(** ** The daemon keeps running

    It only exits when [fork()] fails, when the kernel sends a charging
    message of an unknown type, or when [waitpid()] finds no child. *)
Definition returns {A} (m : M A) : Prop := ∀ s, is_Some (m s).1.

Lemma returns_ret {A} (a : A) : returns (mret a).
Proof. intros s. by eexists. Qed.
Lemma returns_bind {A B} (m : M A) (k : A -> M B) :
  returns m -> (∀ a, returns (k a)) -> returns (m ≫= k).
Proof.
  intros Hm Hk s. unfold mbind, M_bind. destruct (Hm s) as [a Ha].
  destruct (m s) as [r s1]; simpl in *; subst. apply Hk.
Qed.
Lemma returns_get {A} (f : dmn -> A) : returns (get f).
Proof. intros s. by eexists. Qed.
Lemma returns_fld {A} cep (f : cfg_entry -> A) : returns (fld cep f).
Proof. intros s. by eexists. Qed.
Lemma returns_put f : returns (put f).
Proof. intros s. by eexists. Qed.
Lemma returns_upd cep f : returns (upd cep f).
Proof. intros s. by eexists. Qed.
Lemma returns_emit x : returns (emit x).
Proof. intros s. by eexists. Qed.
Lemma returns_iff b m : returns m -> returns (iff b m).
Proof. destruct b; [done|]. intros _. apply returns_ret. Qed.
Lemma returns_for_all {A} (l : list A) body : (∀ x, x ∈ l -> returns (body x)) -> returns (for_all l body).
Proof.
  induction l as [|x l IH]; intros H; simpl; [apply returns_ret|].
  apply returns_bind; [apply H; by left|]. intros _. apply IH. intros y Hy. apply H. by right.
Qed.
Lemma returns_for_until {A} (l : list A) (body : A -> M bool) :
  (∀ x, returns (body x)) -> returns (for_until l body).
Proof.
  intros H. induction l as [|x l IH]; simpl; [apply returns_ret|].
  apply returns_bind; [apply H|]. intros [|]; [apply returns_ret|done].
Qed.
Create HintDb returns discriminated.
#[export] Hint Resolve returns_ret returns_get returns_fld returns_put returns_upd returns_emit : returns.

(** Walks through a routine; the calls are closed from the hint base. *)
Ltac returns :=
  repeat first
    [ solve [eauto with returns nocore]
    | lazymatch goal with
      | |- returns (_ ≫= _) => apply returns_bind; [|intros ?]
      | |- returns (iff _ _) => apply returns_iff
      | |- returns (for_all _ _) => apply returns_for_all; intros ? ?
      | |- returns (for_until _ _) => apply returns_for_until; intros ?
      | |- returns (let _ := _ in _) => cbv zeta
      | |- returns (match ?x with _ => _ end) => destruct x
      end ].
Tactic Notation "returns_by" reference(f) := intros; unfold f; returns.

Section returning.
Context {env : Env} (fork_works : ∀ tr, fork tr ≠ -1).

Lemma do_ioctl_returns r : returns (do_ioctl r).
Proof. intros s. by eexists. Qed.
Lemma exec_prog_returns p : returns (exec_prog p).
Proof.
  apply returns_bind; [apply returns_get|]. intros tr. apply returns_bind; [apply returns_emit|].
  intros _. destruct (Z.eqb_spec (fork tr) (-1)) as [E|]; [by apply fork_works in E|apply returns_ret].
Qed.
#[local] Hint Resolve do_ioctl_returns exec_prog_returns : returns.
Lemma response_to_user_returns cep d : returns (response_to_user cep d).
Proof. returns_by response_to_user. Qed.
Lemma dial_fail_response_to_user_returns d u : returns (dial_fail_response_to_user d u).
Proof. returns_by dial_fail_response_to_user. Qed.
Lemma cep_set_state_returns cep st w f : returns (cep_set_state cep st w f).
Proof. returns_by cep_set_state. Qed.
Lemma set_channel_state_returns c ch x : returns (set_channel_state c ch x).
Proof. returns_by set_channel_state. Qed.
Lemma unitlen_chkupd_returns cep : returns (unitlen_chkupd cep).
Proof. returns_by unitlen_chkupd. Qed.
Lemma sendm_connect_req_returns cep : returns (sendm_connect_req cep).
Proof. returns_by sendm_connect_req. Qed.
Lemma sendm_connect_resp_returns cep r c : returns (sendm_connect_resp cep r c).
Proof. returns_by sendm_connect_resp. Qed.
#[local] Hint Resolve response_to_user_returns dial_fail_response_to_user_returns
  cep_set_state_returns set_channel_state_returns unitlen_chkupd_returns
  sendm_connect_req_returns sendm_connect_resp_returns : returns.

Lemma disconnect_code_returns cep : returns (disconnect_code cep).
Proof. returns_by disconnect_code; unfold exec_connect_prog, account; returns. Qed.
Lemma dial_fail_code_returns cep : returns (dial_fail_code cep).
Proof. returns_by dial_fail_code; returns_by retry_wait. Qed.
#[local] Hint Resolve disconnect_code_returns dial_fail_code_returns : returns.
Lemma ev_disconnect_from_i4b_returns id cause ex : returns (ev_disconnect_from_i4b id cause ex).
Proof. returns_by ev_disconnect_from_i4b; returns_by disconnect_cep. Qed.
Lemma ev_disconnect_from_user_returns cep : returns (ev_disconnect_from_user cep).
Proof. returns_by ev_disconnect_from_user; returns_by sendm_disconnect_req. Qed.
#[local] Hint Resolve ev_disconnect_from_i4b_returns ev_disconnect_from_user_returns : returns.
Lemma ev_connect_from_user_returns cep : returns (ev_connect_from_user cep).
Proof. returns_by ev_connect_from_user. Qed.
Lemma ev_reject_from_user_returns cep : returns (ev_reject_from_user cep).
Proof. returns_by ev_reject_from_user. Qed.
Lemma ev_alert_from_user_returns cep : returns (ev_alert_from_user cep).
Proof. returns_by ev_alert_from_user; returns_by sendm_alert_req. Qed.
Lemma dial_code_returns cep : returns (dial_code cep).
Proof. returns_by dial_code. Qed.
#[local] Hint Resolve ev_connect_from_user_returns ev_reject_from_user_returns
  ev_alert_from_user_returns dial_code_returns : returns.
Lemma ev_dial_from_user_returns cep : returns (ev_dial_from_user cep).
Proof. returns_by ev_dial_from_user. Qed.
#[local] Hint Resolve ev_dial_from_user_returns : returns.
Lemma take_call_returns cep mp : returns (take_call cep mp).
Proof. returns_by take_call. Qed.
#[local] Hint Resolve take_call_returns : returns.
Lemma exec_answer_returns cep : returns (exec_answer cep).
Proof. returns_by exec_answer. Qed.
#[local] Hint Resolve exec_answer_returns : returns.
Lemma ev_connect_from_i4b_returns id ch : returns (ev_connect_from_i4b id ch).
Proof. returns_by ev_connect_from_i4b; unfold call_active, link_b_channel, call_stat; returns. Qed.
#[local] Hint Resolve ev_connect_from_i4b_returns : returns.

(** The inputs on which the daemon does not exit. *)
Definition proper (ev : Z * event) : Prop :=
  match ev.2 with
  | Message (MSG_CHARGING_IND _ _ t) => CHARGE_INVALID <= t <= CHARGE_CALC
  | Child pid => 0 < pid
  | _ => True
  end.

Lemma dispatch_returns t m : proper (t, Message m) -> returns (dispatch m).
Proof.
  destruct m; unfold proper; simpl; intros Hp; returns.
  - unfold ev_incoming_from_i4b. returns; returns_by offer_call.
  - returns_by msg_information_ind.
  - returns_by msg_dialout.
  - returns_by msg_accounting.
  - unfold msg_charging_ind. destruct (Z.ltb_spec units_type CHARGE_INVALID); [lia|].
    destruct (Z.ltb_spec CHARGE_CALC units_type); [lia|]. cbn [orb]. returns.
    all: returns_by handle_charge.
  - returns_by msg_proceeding_ind; returns_by link_b_channel.
  - returns_by msg_drvrdisc_req.
  - returns_by msg_drvranswer_req.
  - returns_by msg_drvrreject_req.
  - unfold msg_l12stat_ind, upd_ctrl. returns.
  - unfold msg_teiasg_ind, upd_ctrl. returns.
  - returns_by msg_negcomplete_ind; returns_by exec_connect_prog.
  - unfold msg_dialoutnumber. returns.
  - returns_by msg_keypad.
Qed.

Lemma handle_recovery_returns : returns handle_recovery.
Proof.
  unfold handle_recovery. returns. unfold recover_cep, ev_dial_from_i4b, check_rate. returns.
Qed.

Lemma run_returns evs : Forall proper evs -> returns (run evs).
Proof.
  intros Hp. apply returns_for_all. intros [t ev] Hev. rewrite Forall_forall in Hp.
  specialize (Hp _ Hev). apply returns_bind; [apply returns_put|]. intros _.
  destruct ev as [m| |pid|]; cbn [snd].
  - by eapply dispatch_returns.
  - apply handle_recovery_returns.
  - unfold sigchild_handler. unfold proper in Hp. simpl in Hp.
    destruct (Z.leb_spec pid 0); [lia|]. returns.
  - returns_by close_allactive.
Qed.
End returning.

(** ** What a run does to an entry *)
Section runs.
Context {env : Env}.

Lemma run_evolves b evs s s' j :
  distinct s -> run evs s = (Some tt, s') -> Forall (timed b) evs ->
  (j < length (cfg_entry_tab s))%nat ->
  evolves b (entry s j) (told s j) (entry s' j) (told s' j).
Proof.
  intros Hd Hr Hb Hj. pose proof (run_safe _ b evs Hb s eq_refl Hd) as H. rewrite Hr in H.
  by apply H.
Qed.

(** ... with all timeouts before the time [t], unless [has] is false. *)
Lemma run_budget evs s s' j (has : bool) t :
  distinct s -> run evs s = (Some tt, s') -> (j < length (cfg_entry_tab s))%nat ->
  (∀ x, (x, Timeout) ∈ evs -> has = true -> u32 x < t) ->
  evolves (Some (if has then t - 1 else 4294967296)) (entry s j) (told s j) (entry s' j) (told s' j).
Proof.
  intros Hd Hr Hj Ht. apply (run_evolves _ evs); try done. destruct has; [|apply timed_all].
  apply Forall_forall. intros [x ev] Hin Hev. cbn in Hev. subst. eexists. split; [done|].
  specialize (Ht x Hin eq_refl). cbn. lia.
Qed.

Lemma run_det evs s s1 s2 : run evs s = (Some tt, s1) -> run evs s = (Some tt, s2) -> s1 = s2.
Proof. congruence. Qed.

(** What the driver believes, and what it must believe in a state. *)
Definition disconnected (v : option Z) : Prop :=
  v ≠ Some DSTAT_CONNECTED ∧ v ≠ Some DSTAT_INCOMING_CALL.
Definition agrees (st : STATES) (l : list Z) : Prop :=
  match st with
  | ST_CONNECTED => last l = Some DSTAT_CONNECTED
  | ST_IDLE | ST_DIAL | ST_DIAL_FAIL => disconnected (last l)
  | ST_INCOMING | ST_WAIT_CONNECT => last l ≠ Some DSTAT_CONNECTED
  end.

Lemma fsm_agrees x y : fsm x y -> agrees x.1 x.2 -> agrees y.1 y.2.
Proof.
  unfold agrees, disconnected. intros H.
  destruct H; simpl; rewrite ?last_snoc; try done; intros Ha.
  all: unfold dialling in *; repeat match goal with H : _ ∨ _ |- _ => destruct H end; simplify_eq; try tauto.
  all: try split; vm_compute; congruence.
Qed.

(** An entry only becomes idle with a report to its driver. *)
Lemma fsm_reports x y : rtc fsm x y ->
  ∃ l, y.2 = x.2 ++ l ∧ (x.1 ≠ ST_IDLE -> y.1 = ST_IDLE -> l ≠ []).
Proof.
  induction 1 as [x|x y z Hxy _ (l & Hz & Hi)].
  { exists []. by rewrite app_nil_r. }
  assert (∃ l1, y.2 = x.2 ++ l1 ∧ (y.1 = ST_IDLE -> l1 ≠ [])) as (l1 & Hy & H1).
  { destruct Hxy; simpl; first [by eexists|exists []; by rewrite app_nil_r]. }
  exists (l1 ++ l). rewrite Hz, Hy, (assoc_L (++)). split; [done|]. intros _ Hz1 Hl.
  apply app_eq_nil in Hl as [-> ->]. destruct (decide (y.1 = ST_IDLE)); [by apply H1|by apply Hi].
Qed.

(** ** Claims *)

(** C14: the daemon implements the state diagram of [fsm.c].  Whatever
    messages, timeouts, dead children and shutdowns it handles, and whatever
    the system answers to its requests, the state of every entry and the
    statuses sent to its driver are those of a run of the abstract machine
    [fsm]: dialling starts from idle or from a failed attempt, only a dialled
    or an answered call becomes connected and then the driver is told so, a
    call is only offered to an entry that has none, and every other way back
    to idle is reported to the driver.  And the daemon handles the whole
    sequence: it does not exit while [fork()] works, the charging messages
    have a known type and the signal handler is called for a dead child. *)
Theorem isdnd_refines_fsm evs s :
  distinct s -> (∀ tr, fork tr ≠ -1) -> Forall proper evs ->
  ∃ s', run evs s = (Some tt, s') ∧ length (cfg_entry_tab s') = length (cfg_entry_tab s) ∧
    ∀ j, (j < length (cfg_entry_tab s))%nat ->
      rtc fsm (state (entry s j), told s j) (state (entry s' j), told s' j).
Proof.
  intros Hd Hf Hp. destruct (run_returns Hf evs Hp s) as [[] Hr].
  destruct (run evs s) as [r s'] eqn:E. simpl in Hr. subst. exists s'. split; [done|].
  pose proof (run_safe _ _ evs (timed_all evs) s eq_refl Hd) as H. rewrite E in H.
  destruct H as [[Hl He] _]. split; [done|]. intros j Hj. apply (He j Hj).
Qed.

(** C15: what a driver was told last agrees with the state of its entry, and
    an entry that becomes idle has reported it.  The last status is
    "connected" exactly in the connected state; in the idle and the dialling
    states it is neither "connected" nor "incoming call"; and if the entry
    was in another state and is idle after the run, its driver was sent a
    further status. *)
Theorem driver_is_told evs s s' j :
  distinct s -> agrees (state (entry s j)) (told s j) ->
  run evs s = (Some tt, s') -> (j < length (cfg_entry_tab s))%nat ->
  agrees (state (entry s' j)) (told s' j) ∧
  (last (told s' j) = Some DSTAT_CONNECTED <-> state (entry s' j) = ST_CONNECTED) ∧
  ∃ l, told s' j = told s j ++ l ∧
    (state (entry s j) ≠ ST_IDLE -> state (entry s' j) = ST_IDLE -> l ≠ []).
Proof.
  intros Hd Ha Hr Hj. destruct (run_evolves _ evs s s' j Hd Hr (timed_all evs) Hj) as [Hf _ _ _ _ _].
  assert (agrees (state (entry s' j)) (told s' j)) as Ha'.
  { clear -Hf Ha. change (agrees (state (entry s j), told s j).1 (state (entry s j), told s j).2) in Ha.
    change (agrees (state (entry s' j), told s' j).1 (state (entry s' j), told s' j).2).
    induction Hf as [|x y z Hxy _ IH]; [done|]. apply IH. by eapply fsm_agrees. }
  split; [done|]. split; [|apply (fsm_reports _ _ Hf)].
  unfold agrees, disconnected in Ha'. destruct (state (entry s' j)); split; try done; intros; exfalso; tauto.
Qed.

(** C39: the entries stay well formed.  Every run keeps the number of
    entries and their configuration, the index of the number dialled inside
    [remote_numbers], the count of the numbers within the array, and the
    calls left in a budget non-negative, with at least one left while a call
    that will be charged to the budget is under way. *)
Theorem entries_well_formed evs s s' :
  distinct s -> run evs s = (Some tt, s') ->
  Forall (λ e, budget_cfg (cf e) ∧ budget_ok e ∧ numbers_ok e) (cfg_entry_tab s) ->
  cf <$> cfg_entry_tab s' = cf <$> cfg_entry_tab s ∧
  Forall (λ e, budget_cfg (cf e) ∧ budget_ok e ∧ numbers_ok e) (cfg_entry_tab s').
Proof.
  intros Hd Hr Hw. pose proof (run_safe _ _ evs (timed_all evs) s eq_refl Hd) as H.
  rewrite Hr in H. destruct H as [[Hl He] _]. cbn [fst snd] in *. split.
  - apply list_eq. intros j. rewrite !list_lookup_fmap.
    destruct (decide (j < length (cfg_entry_tab s))%nat) as [Hj|Hj].
    + rewrite !list_lookup_lookup_total_lt by lia. simpl. f_equal. apply (He j Hj).
    + by rewrite !lookup_ge_None_2 by lia.
  - rewrite Forall_entry in *. intros j Hj. rewrite Hl in Hj.
    destruct (Hw j Hj) as (H1 & H2 & H3). destruct (He j Hj) as [_ Hb _ _ Hn Hc].
    rewrite Hc. auto.
Qed.

(** C24: the accounting of call budgets.  While the period of a budget
    lasts, that is, in a run of any messages, dead children, shutdowns and
    timeouts in which no timeout of [handle_recovery] comes at or after the
    end of the period, the calls charged to the callback budget of an entry
    are exactly those taken from the calls left in it, and there are never
    more of them than were left; the same holds for the callout budget.  This
    is about the calls that are charged, and not a limit on the calls that
    are placed: a call is charged when it becomes active, if the check of the
    budget marked it when it was requested; a request on a spent budget is
    not marked, but with several dial retries it still leads to a call, which
    is not charged, where isdnd.rc.5 says that further attempts are blocked
    ([IsdndCalls.spent_budget_dials]). *)
Theorem budget_accounting evs s s' j :
  distinct s -> run evs s = (Some tt, s') -> (j < length (cfg_entry_tab s))%nat ->
  budget_cfg (cf (entry s j)) -> budget_ok (entry s j) ->
  let e := entry s j in let e' := entry s' j in
  ((∀ t, (t, Timeout) ∈ evs -> has_cback_budget (cf e) = true -> u32 t < budget_callbackperiod_time e) ->
   budget_callback_done e' - budget_callback_done e =
     budget_callbackncalls_cnt e - budget_callbackncalls_cnt e' ∧
   budget_callback_done e' - budget_callback_done e <= budget_callbackncalls_cnt e) ∧
  ((∀ t, (t, Timeout) ∈ evs -> has_cout_budget (cf e) = true -> u32 t < budget_calloutperiod_time e) ->
   budget_callout_done e' - budget_callout_done e =
     budget_calloutncalls_cnt e - budget_calloutncalls_cnt e' ∧
   budget_callout_done e' - budget_callout_done e <= budget_calloutncalls_cnt e).
Proof.
  intros Hd Hr Hj Hc Hb. cbv zeta. split; intros Ht.
  - destruct (run_budget evs s s' j _ _ Hd Hr Hj Ht) as [_ H1 H2 _ _ _]. destruct (H1 Hc Hb) as (H4 & _).
    destruct H2 as [[= H2 _]|(t & [= <-] & Hh & H2)]; [|cbn in H2; rewrite Hh in H2; lia]. unfold cback_total in H2. lia.
  - destruct (run_budget evs s s' j _ _ Hd Hr Hj Ht) as [_ H1 _ H2 _ _]. destruct (H1 Hc Hb) as (_ & H4 & _).
    destruct H2 as [[= H2 _]|(t & [= <-] & Hh & H2)]; [|cbn in H2; rewrite Hh in H2; lia]. unfold cout_total in H2. lia.
Qed.
End runs.

(** ** An example

    Two entries: a network interface that may call out twice an hour and
    tries three times, and a telephone that rings.  The interface dials and
    is connected; a call arrives for the telephone, is answered and becomes
    active; both calls end. *)
#[local] Instance sample_env : Env := {|
  localtime := λ _, mkTm 0 12 1 0 100 1;
  ioctl := λ _ _, 0;
  cdid_req := λ tr c, 64 * Z.of_nat (S (length tr)) + c;
  random := λ _, 0;
  fork := λ tr, 100 + Z.of_nat (length tr)
|}.

Definition sample_number (n : Z) : number_t :=
  mkNumber (n :: replicate 40 0) (replicate 21 0) 0.
Definition sample_static (driver reaction : Z) : cfg_static :=
  mkStatic 0 CHAN_ANY 0 0 driver 0 0 (sample_number 49) (sample_number 49) 1 [sample_number STAR]
    reaction 0 0 0 0 5 0 0 None None None 1 2 3 5 0 0 10 0 0 0 0 0 0 false 3600 2 false 0 0 0 0 0 0.
Definition sample_entry (driver reaction : Z) : cfg_entry :=
  inhabitant <| cf := sample_static driver reaction |>
    <| remote_numbers_count := 2 |>
    <| remote_numbers := sample_number 50 :: sample_number 51 :: replicate 6 (sample_number 0) |>
    <| remote_phone_dialout := sample_number 0 |>
    <| budget_calloutncalls_cnt := 2 |>
    <| keypad := replicate 35 0 |> <| display := replicate 91 0 |>
    <| user_user := replicate 129 0 |>.
Definition sample_dmn : dmn :=
  mkDmn [sample_entry 3 REACT_IGNORE; sample_entry 5 REACT_ALERT]
    (replicate 64 (mkCtrl (replicate 64 0) 0 0 0))
    (mkGlobals 60 false [] [] true false [] []) 0 0 0 [].
Definition sample_call : msg_connect_ind :=
  mkConnectInd 640 1 0 [49; 0] [0] [55; 0] [0] 0 0 [0] [0].
Definition sample_run : list (Z * event) :=
  [(100, Message (MSG_DIALOUT_IND 3 0));
   (102, Message (MSG_CONNECT_ACTIVE_IND 64 1));
   (110, Message (MSG_CONNECT_IND sample_call));
   (113, Message (MSG_DRVRANSWER_REQ 5 0));
   (114, Message (MSG_CONNECT_ACTIVE_IND 640 2));
   (200, Message (MSG_DISCONNECT_IND 64 16));
   (210, Message (MSG_DRVRDISC_REQ 5 0))].
Definition sample_end : dmn := (run sample_run sample_dmn).2.

Lemma sample_distinct : distinct sample_dmn.
Proof. apply (bool_decide_unpack _). vm_compute. exact I. Qed.
Lemma sample_runs : run sample_run sample_dmn = (Some tt, sample_end).
Proof. vm_compute. reflexivity. Qed.
Lemma sample_fork tr : fork tr ≠ -1.
Proof. cbn. lia. Qed.
Lemma sample_proper : Forall proper sample_run.
Proof. unfold sample_run, proper. by repeat constructor. Qed.

Lemma isdnd_refines_fsm_witness :
  rtc fsm (ST_IDLE, []) (ST_IDLE, [DSTAT_INCOMING_CALL; DSTAT_CONNECTED; DSTAT_NOT_CONNECTED]).
Proof.
  destruct (isdnd_refines_fsm sample_run sample_dmn sample_distinct sample_fork sample_proper)
    as (s' & Hr & _ & H).
  rewrite <-(run_det _ _ _ _ sample_runs Hr) in H.
  specialize (H 1%nat ltac:(vm_compute; lia)). vm_compute in H. exact H.
Defined.

Lemma driver_is_told_witness :
  agrees ST_IDLE [DSTAT_CONNECTED; DSTAT_NOT_CONNECTED] ∧
  state (entry sample_end 0) = ST_IDLE ∧ told sample_end 0 = [DSTAT_CONNECTED; DSTAT_NOT_CONNECTED].
Proof.
  split; [|vm_compute; done].
  apply (driver_is_told sample_run sample_dmn sample_end 0 sample_distinct).
  - by split.
  - exact sample_runs.
  - vm_compute. lia.
Defined.

Lemma entries_well_formed_witness :
  Forall (λ e, budget_cfg (cf e) ∧ budget_ok e ∧ numbers_ok e) (cfg_entry_tab sample_end).
Proof.
  apply (entries_well_formed sample_run sample_dmn sample_end sample_distinct sample_runs).
  repeat constructor; vm_compute; congruence.
Defined.

(** The same run with two timeouts before the end of the budget period. *)
Definition budget_dmn : dmn :=
  sample_dmn <| cfg_entry_tab ::= map (λ e, e <| budget_calloutperiod_time := 5000 |>) |>.
Definition budget_run : list (Z * event) := (90, Timeout) :: sample_run ++ [(200, Timeout)].
Definition budget_end : dmn := (run budget_run budget_dmn).2.
Lemma budget_runs : run budget_run budget_dmn = (Some tt, budget_end).
Proof. vm_compute. reflexivity. Qed.
Lemma budget_accounting_witness :
  budget_callout_done (entry budget_end 0) = 1 ∧ budget_calloutncalls_cnt (entry budget_end 0) = 1 ∧
  budget_callout_done (entry budget_end 0) - budget_callout_done (entry budget_dmn 0) <=
    budget_calloutncalls_cnt (entry budget_dmn 0).
Proof.
  split; [vm_compute; done|]. split; [vm_compute; done|].
  apply (budget_accounting budget_run budget_dmn budget_end 0).
  - apply (bool_decide_unpack _). vm_compute. exact I.
  - exact budget_runs.
  - vm_compute. lia.
  - split; vm_compute; congruence.
  - repeat split; vm_compute; congruence.
  - intros t Ht _. change (u32 t < 5000). unfold budget_run, sample_run in Ht. set_unfold in Ht.
    destruct_or! Ht; try congruence; injection Ht as ->; vm_compute; reflexivity.
Defined.
