(* ===== verification/IsdndDial.v ===== *)
(** * Dial retries

    What the daemon does when a remote number is always busy: it dials the
    configured number of times, one remote number after the other, and then
    reports the failure.  The executions are followed exactly, on a table of
    one entry. *)
From S2P Require Import Prelude Dss1Types IsdndTypes IsdndSupport Isdnd IsdndLogic IsdndSpec IsdndRun.

(** The numbers dialled. *)
Definition dialled (x : effect) : option (list Z) :=
  match x with Ioctl (I4B_CONNECT_REQ m) => Some (mcr_dst_telno m) | _ => None end.
Definition calls (tr : list effect) : list (list Z) := omap dialled tr.

Lemma calls_snoc tr x : calls (tr ++ [x]) = calls tr ++ option_list (dialled x).
Proof. unfold calls. by rewrite omap_app. Qed.

Lemma cstr_terminated s x : cstr s = s -> cstr (s ++ 0 :: x) = s.
Proof.
  induction s as [|c s IH]; intros Hs; [done|]. simpl in *.
  destruct (c =? 0) eqn:E; [done|]. injection Hs as Hs. f_equal. by apply IH.
Qed.
Lemma cstr_strcpy dst src : cstr (strcpy dst src) = cstr src.
Proof. apply cstr_terminated, cstr_idemp. Qed.

(** ** Exact executions *)
Definition ewp {A} (m : M A) (Q : A -> dmn -> Prop) (s : dmn) : Prop :=
  ∃ a s', m s = (Some a, s') ∧ Q a s'.

Section rules.
Context {env : Env} (ctrl : list isdn_ctrl_state) (gl : globals).

(** The state with the one entry [e]. *)
Definition one (e : cfg_entry) (t lt lu : Z) (tr : list effect) : dmn :=
  mkDmn [e] ctrl gl t lt lu tr.

Lemma ewp_ret {A} (a : A) (Q : A -> dmn -> Prop) s : Q a s -> ewp (mret a) Q s.
Proof. intros H. by exists a, s. Qed.
Lemma ewp_bind {A B} (m : M A) (k : A -> M B) Q s :
  ewp m (λ a, ewp (k a) Q) s -> ewp (m ≫= k) Q s.
Proof.
  intros (a & s1 & Hm & b & s2 & Hk & HQ). exists b, s2. split; [|done].
  unfold mbind, M_bind. by rewrite Hm.
Qed.
Lemma ewp_get {A} (f : dmn -> A) (Q : A -> dmn -> Prop) s : Q (f s) s -> ewp (get f) Q s.
Proof. intros H. by exists (f s), s. Qed.
Lemma ewp_put f (Q : unit -> dmn -> Prop) s : Q tt (f s) -> ewp (put f) Q s.
Proof. intros H. by exists tt, (f s). Qed.
Lemma ewp_fld {A} (f : cfg_entry -> A) (Q : A -> dmn -> Prop) e t lt lu tr :
  Q (f e) (one e t lt lu tr) -> ewp (fld 0 f) Q (one e t lt lu tr).
Proof. intros H. by exists (f e), (one e t lt lu tr). Qed.
Lemma ewp_upd f (Q : unit -> dmn -> Prop) e t lt lu tr :
  Q tt (one (f e) t lt lu tr) -> ewp (upd 0 f) Q (one e t lt lu tr).
Proof. intros H. by exists tt, (one (f e) t lt lu tr). Qed.
Lemma ewp_ioctl r (Q : Z -> dmn -> Prop) e t lt lu tr :
  Q (ioctl tr r) (one e t lt lu (tr ++ [Ioctl r])) -> ewp (do_ioctl r) Q (one e t lt lu tr).
Proof. intros H. by exists (ioctl tr r), (one e t lt lu (tr ++ [Ioctl r])). Qed.
Lemma ewp_set_state st w f (Q : unit -> dmn -> Prop) e t lt lu tr :
  Q tt (one (e <| state := st |> <| last_set_state_time := t |>
               <| waitfunc := to_int f |> <| waittime := to_int w |>) t lt lu tr) ->
  ewp (cep_set_state 0 st w f) Q (one e t lt lu tr).
Proof. intros H. apply ewp_bind, ewp_get. by apply ewp_upd. Qed.
Lemma ewp_if {A} (b : bool) (m1 m2 : M A) Q s c :
  b = c -> ewp (if c then m1 else m2) Q s -> ewp (if b then m1 else m2) Q s.
Proof. by intros ->. Qed.
Lemma ewp_mono {A} (m : M A) (Q Q' : A -> dmn -> Prop) s :
  ewp m Q s -> (∀ a s', Q a s' -> Q' a s') -> ewp m Q' s.
Proof. intros (a & s' & Hm & HQ) H. exists a, s'. auto. Qed.
Lemma ewp_clock t' (Q : unit -> dmn -> Prop) e t lt lu tr :
  Q tt (one e t' lt lu tr) -> ewp (put (λ s, s <| clock := t' |>)) Q (one e t lt lu tr).
Proof. intros H. by apply ewp_put. Qed.
End rules.

Ltac ewp_step :=
  lazymatch goal with
  | |- ewp (mret _) _ _ => apply ewp_ret
  | |- ewp (_ ≫= _) _ _ => apply ewp_bind
  | |- ewp (fld _ _) _ _ => apply ewp_fld
  | |- ewp (get _) _ _ => apply ewp_get
  | |- ewp (upd _ _) _ _ => apply ewp_upd
  | |- ewp (do_ioctl _) _ _ => apply ewp_ioctl
  | |- ewp (cep_set_state _ _ _ _) _ _ => apply ewp_set_state
  end; cbv beta; cbn [id].
Ltac ewp_go := repeat ewp_step.
(** Decides the next test. *)
Tactic Notation "ewp_test" constr(b) "by" tactic3(tac) :=
  lazymatch goal with
  | |- ewp (iff _ _) _ _ => unfold iff; apply (ewp_if _ _ _ _ _ b); [tac|]; cbv iota
  | |- ewp (if _ then _ else _) _ _ => apply (ewp_if _ _ _ _ _ b); [tac|]; cbv iota
  end.

(** ** The retry cycle *)
Section retries.
Context {env : Env} (ctrl : list isdn_ctrl_state) (gl : globals).
Context (ioctl_works : ∀ tr r, 0 <= ioctl tr r).
#[local] Abbreviation one := (one ctrl gl).

(** An entry that dials as often as configured: outgoing calls are allowed,
    at any time, without a budget and without a callback, it is not taken
    down after a failure, and the wait between two attempts is not random. *)
Record dials (c : cfg_static) : Prop := {
  d_inout : inout c ≠ DIR_INONLY;
  d_day : day c = 0;
  d_reaction : dialin_reaction c ≠ REACT_CALLBACK;
  d_calledback : dialouttype c ≠ DIALOUT_CALLEDBACK;
  d_cback : has_cback_budget c = false;
  d_cout : has_cout_budget c = false;
  d_rand : dialrandincr c = 0;
  d_down : usedown c = 0;
  d_recovery : 0 <= recoverytime c < 2147483648;
  d_rate : unitlengthsrc c ≠ ULSRC_RATE
}.

Definition to_idx (i0 k n : Z) : Z := (i0 + k) mod n.

(** The entry while the [k]-th attempt (from 0) is under way. *)
Record attempt (e0 e : cfg_entry) (i0 k : Z) : Prop := {
  at_cf : cf e = cf e0;
  at_state : state e = ST_DIAL;
  at_count : dial_count e = k;
  at_numbers : number <$> remote_numbers e = number <$> remote_numbers e0;
  at_n : remote_numbers_count e = remote_numbers_count e0;
  at_index : last_remote_number e = to_idx i0 k (remote_numbers_count e0);
  at_keypad : hd 0 (keypad e) = 0
}.

Lemma next_number_mod e i : 1 <= remote_numbers_count e -> 0 <= i < remote_numbers_count e ->
  next_number e i = (i + 1) mod remote_numbers_count e.
Proof.
  intros Hn Hi. unfold next_number. destruct (Z.leb_spec (remote_numbers_count e) (i + 1)).
  - replace (i + 1) with (remote_numbers_count e) by lia. by rewrite Z_mod_same_full.
  - symmetry. apply Z.mod_small. lia.
Qed.
Lemma to_idx_next i0 k n : 0 < n -> (to_idx i0 k n + 1) mod n = to_idx i0 (k + 1) n.
Proof. intros Hn. unfold to_idx. rewrite Zplus_mod_idemp_l. f_equal. lia. Qed.

(** The number an attempt dials. *)
Definition number_of (e0 : cfg_entry) (i : Z) : list Z :=
  cstr (number (remote_numbers e0 !!! Z.to_nat i)).

Lemma lookup_number (l l' : list number_t) (i : nat) : number <$> l = number <$> l' -> number (l !!! i) = number (l' !!! i).
Proof.
  intros H. rewrite !list_lookup_total_alt. apply (f_equal (λ x, x !! i)) in H.
  rewrite !list_lookup_fmap in H. by destruct (l !! i), (l' !! i); simplify_eq/=.
Qed.

Lemma use_number_dials i e :
  cstr (number (remote_phone_dialout (use_number i e))) = number_of e i ∧
  cstr (number (remote_phone_dialout (use_number_only i e))) = number_of e i.
Proof. split; exact (cstr_strcpy _ _). Qed.

(** [select_next_dialno] goes on to the next number, cyclically. *)
Lemma select_next_correct e : 1 <= remote_numbers_count e ->
  0 <= last_remote_number e < remote_numbers_count e ->
  let e' := select_next_dialno e in
  number <$> remote_numbers e' = number <$> remote_numbers e ∧
  last_remote_number e' = (last_remote_number e + 1) mod remote_numbers_count e ∧
  cstr (number (remote_phone_dialout e')) =
    number_of e ((last_remote_number e + 1) mod remote_numbers_count e) ∧
  remote_numbers_count e' = remote_numbers_count e ∧
  keypad e' = keypad e ∧ dial_count e' = dial_count e ∧ cdid e' = cdid e ∧
  state e' = state e ∧ cf e' = cf e ∧ waittime e' = waittime e ∧ waitfunc e' = waitfunc e ∧
  last_set_state_time e' = last_set_state_time e.
Proof.
  intros Hn Hi. unfold select_next_dialno. destruct (Z.ltb_spec (remote_numbers_count e) 1); [lia|].
  destruct (Z.eqb_spec (remote_numbers_count e) 1) as [H1|H1]; cbv zeta.
  - rewrite H1, Z.mod_1_r. rewrite (proj1 (use_number_dials 0 e)). by rewrite <-H1.
  - set (e1 := set_flag (last_remote_number e) RNF_IDLE e).
    assert (number <$> remote_numbers e1 = number <$> remote_numbers e) as Hm.
    { unfold e1, set_flag. cbn. apply list_eq. intros j. rewrite !list_lookup_fmap.
      destruct (decide (j = Z.to_nat (last_remote_number e))) as [->|].
      - rewrite list_lookup_alter_eq. by destruct (_ !! _).
      - by rewrite list_lookup_alter_ne. }
    rewrite (next_number_mod e1) by done.
    change (last_remote_number e1) with (last_remote_number e).
    change (remote_numbers_count e1) with (remote_numbers_count e).
    split; [exact Hm|]. split; [done|]. split; [|done].
    rewrite (proj2 (use_number_dials _ e1)). unfold number_of. f_equal. by apply lookup_number.
Qed.

(** What survives of the entry when a call is placed. *)
Record same_plan (e e' : cfg_entry) : Prop := {
  sp_cf : cf e' = cf e;
  sp_count : dial_count e' = dial_count e;
  sp_numbers : remote_numbers e' = remote_numbers e;
  sp_n : remote_numbers_count e' = remote_numbers_count e;
  sp_last : last_remote_number e' = last_remote_number e
}.

Lemma dial_code_places e t lt lu tr : dials (cf e) ->
  ewp (dial_code 0) (λ _ s', ∃ e' tr', s' = one e' t lt lu tr' ∧ state e' = ST_DIAL ∧
      same_plan e e' ∧ hd 0 (keypad e') = 0 ∧
      calls tr' = calls tr ++ [cstr (number (remote_phone_dialout e))] ∧
      ∀ d u, statuses d u tr' = statuses d u tr)
    (one e t lt lu tr).
Proof.
  intros Hd. unfold dial_code. ewp_go.
  ewp_test false by (apply Z.eqb_neq, Hd).
  ewp_test false by (unfold isvalidtime; rewrite (d_day _ Hd); reflexivity).
  unfold sendm_connect_req. ewp_go.
  ewp_test false by (apply Z.ltb_ge, ioctl_works). ewp_go.
  ewp_test false by (apply Z.ltb_ge, ioctl_works). ewp_go.
  eexists _, _. split; [reflexivity|]. split; [fields_eq|]. split; [by split; fields_eq|].
  split; [|split].
  - change (hd 0 (<[0%nat := 0]> (keypad e)) = 0). by destruct (keypad e).
  - rewrite !calls_snoc. simpl. by rewrite app_nil_r.
  - intros d u. by rewrite !statuses_same.
Qed.

(** The remote end refuses the call of the entry, at the time [a]. *)
Definition busy_once (a cause : Z) : M unit :=
  id ← fld 0 cdid; handle (a, Message (MSG_DISCONNECT_IND id cause)).

Lemma busy_runs a cause e t lt lu tr Q : state e = ST_DIAL ->
  ewp (dial_fail_code 0) (λ _ s', ∃ e' tr', s' = one e' a lt lu tr' ∧
      (state e' = ST_DIAL_FAIL ∨ state e' = ST_IDLE) ∧
      Q (one (e' <| cdid := CDID_UNUSED |>) a lt lu tr'))
    (one (e <| disc_cause := cause |> <| disc_location := DISC_LOCATION_REMOTE |>) a lt lu tr) ->
  ewp (busy_once a cause) (λ _, Q) (one e t lt lu tr).
Proof.
  intros Hs Hf. unfold busy_once. ewp_go. unfold handle. ewp_step. apply ewp_clock. cbn [snd fst].
  unfold dispatch, ev_disconnect_from_i4b. ewp_step. ewp_step. unfold ceps. cbn [one cfg_entry_tab length seq].
  unfold for_all. ewp_go.
  ewp_test true by (by rewrite Z.eqb_refl). unfold disconnect_cep. ewp_go.
  ewp_test true by (by unfold in_state; cbn; rewrite Hs).
  eapply ewp_mono; [exact Hf|]. intros _ s' (e' & tr' & -> & Hs' & HQ). ewp_go.
  assert (∀ x, x ≠ ST_DIAL_FAIL -> x ≠ ST_IDLE -> in_state x e' = false) as Hx.
  { intros x H1 H2. apply bool_decide_eq_false. destruct Hs'; congruence. }
  ewp_test false by (by apply Hx). ewp_go.
  ewp_test false by (by rewrite !Hx). ewp_go. exact HQ.
Qed.

Lemma to_int_small x : 0 <= x < 2147483648 -> to_int x = x.
Proof.
  intros Hx. unfold to_int, u32. rewrite Z.mod_small by lia.
  destruct (Z.ltb_spec x 2147483648); lia.
Qed.

(** The entry that waits, since the time [a], to make the [k]-th attempt. *)
Record waiting (e0 e : cfg_entry) (i0 k a : Z) : Prop := {
  wt_cf : cf e = cf e0;
  wt_state : state e = ST_DIAL_FAIL;
  wt_count : dial_count e = k;
  wt_numbers : number <$> remote_numbers e = number <$> remote_numbers e0;
  wt_n : remote_numbers_count e = remote_numbers_count e0;
  wt_index : last_remote_number e = to_idx i0 k (remote_numbers_count e0);
  wt_dialout : cstr (number (remote_phone_dialout e)) =
    number_of e0 (to_idx i0 k (remote_numbers_count e0));
  wt_wait : waittime e = recoverytime (cf e0);
  wt_func : waitfunc e = 2;
  wt_since : last_set_state_time e = a
}.

(** An attempt that is not the last one fails: the entry waits for the
    recovery time, with the next number selected. *)
Lemma busy_retries a cause e0 e i0 k t lt lu tr :
  dials (cf e0) -> attempt e0 e i0 k -> 0 < remote_numbers_count e0 -> k + 1 < dialretries (cf e0) ->
  ewp (busy_once a cause) (λ _ s', ∃ e', s' = one e' a lt lu tr ∧ waiting e0 e' i0 (k + 1) a)
    (one e t lt lu tr).
Proof.
  intros Hd [Hcf Hs Hc Hnum Hn Hi Hk] Hpos Hlt. apply (busy_runs a cause e t lt lu tr _ Hs).
  unfold dial_fail_code. ewp_go.
  ewp_test true by (cbn; rewrite Hcf, Hc; apply orb_true_iff; left; by apply Z.ltb_lt).
  unfold retry_wait. ewp_go.
  ewp_test false by (unfold CEP_IS_CALLED_BACK; cbn; rewrite Hcf; apply andb_false_iff; right;
                     apply Z.eqb_neq, Hd).
  ewp_test false by (cbn; rewrite Hcf, (d_rand _ Hd); reflexivity).
  ewp_go.
  match goal with |- context [select_next_dialno ?x] => set (x0 := x) end.
  assert (0 <= to_idx i0 k (remote_numbers_count e0) < remote_numbers_count e0)
    by (apply Z.mod_pos_bound; lia).
  destruct (select_next_correct x0) as (H1 & H2 & H3 & H4 & H5 & H6 & H7 & H8 & H9 & H10 & H11 & H12).
  { change (1 <= remote_numbers_count e). lia. }
  { change (0 <= last_remote_number e < remote_numbers_count e). rewrite Hi, Hn. lia. }
  change (last_remote_number x0) with (last_remote_number e) in *.
  change (remote_numbers_count x0) with (remote_numbers_count e) in *.
  rewrite Hi, Hn, to_idx_next in * by lia.
  eexists _, _. split; [reflexivity|]. split; [left; by rewrite H8|].
  eexists. split; [reflexivity|].
  split; [exact (eq_trans H9 Hcf)|exact H8| |exact (eq_trans H1 Hnum)|exact H4|exact H2| | |exact H11|exact H12].
  - etrans; [exact H6|]. change (dial_count e + 1 = k + 1). by rewrite Hc.
  - etrans; [exact H3|]. unfold number_of. f_equal. by apply lookup_number.
  - etrans; [exact H10|]. change (to_int (recoverytime (cf e)) = recoverytime (cf e0)).
    rewrite Hcf. apply to_int_small, Hd.
Qed.

(** The last attempt fails: the driver is told and the entry is idle. *)
Lemma busy_gives_up a cause e0 e i0 k t lt lu tr :
  dials (cf e0) -> attempt e0 e i0 k -> k + 1 = dialretries (cf e0) -> 0 < dialretries (cf e0) ->
  ewp (busy_once a cause) (λ _ s', ∃ e' tr', s' = one e' a lt lu tr' ∧ state e' = ST_IDLE ∧
      cf e' = cf e0 ∧ calls tr' = calls tr ∧
      let d := usrdevicename (cf e0) in let u := usrdeviceunit (cf e0) in
      statuses d u tr' = statuses d u tr ++ [DSTAT_TFAIL])
    (one e t lt lu tr).
Proof.
  intros Hd [Hcf Hs Hc Hnum Hn Hi Hk] Hlast Hr. apply (busy_runs a cause e t lt lu tr _ Hs).
  unfold dial_fail_code. ewp_go.
  ewp_test false by (cbn; rewrite Hcf, Hc; apply orb_false_iff; split; [apply Z.ltb_ge|apply Z.eqb_neq]; lia).
  ewp_test false by (cbn; rewrite Hcf, (d_down _ Hd); reflexivity).
  unfold response_to_user. ewp_go. eexists _, _. split; [reflexivity|]. split; [by right|].
  eexists _, _. split; [reflexivity|]. split; [done|]. split; [exact Hcf|].
  change (DSTAT_TFAIL =? DSTAT_INCOMING_CALL) with false. cbv iota zeta. split.
  - rewrite calls_snoc. apply app_nil_r.
  - rewrite statuses_snoc. f_equal. cbn. rewrite Hcf. by rewrite !Z.eqb_refl.
Qed.

Lemma renew_none now e : has_cback_budget (cf e) = false -> has_cout_budget (cf e) = false ->
  renew_budgets now e = e.
Proof. intros H1 H2. unfold renew_budgets. rewrite H1. cbn [andb]. by rewrite H2. Qed.

(** [handle_recovery] at a time [b] after the previous one. *)
Lemma timeout_runs b e t lt lu tr Q : 0 <= lt < b -> b < 4294967296 ->
  has_cback_budget (cf e) = false -> has_cout_budget (cf e) = false ->
  unitlengthsrc (cf e) ≠ ULSRC_RATE ->
  (∀ lu', (state e = ST_IDLE ∧ Q (one e b b lu' tr)) ∨
          (state e = ST_DIAL_FAIL ∧ waitfunc e = 2 ∧ waittime e < b - last_set_state_time e ∧
           ewp (dial_code 0) (λ _, Q) (one e b b lu' tr))) ->
  ewp (handle (b, Timeout)) (λ _, Q) (one e t lt lu tr).
Proof.
  intros Hlt Hb H1 H2 H3 Hk. unfold handle. ewp_step. apply ewp_clock. cbn [snd fst].
  unfold handle_recovery. ewp_step. ewp_step. cbn [one clock last_time last_unit_check].
  assert (u32 b = b) as -> by (apply u32_id; unfold is_u32; lia). cbv zeta.
  ewp_test false by (rewrite u32_id by (unfold is_u32; lia); apply Z.ltb_ge; lia).
  ewp_step. apply ewp_put. ewp_step.
  set (chk := 10 <=? _). assert (∀ Q', (∀ lu', Q' tt (one e b b lu' tr)) ->
    ewp (iff chk (put (λ s, s <| last_unit_check := b |>))) Q' (one e b b lu tr)) as Hchk.
  { intros Q' HQ. destruct chk; [by apply ewp_put, (HQ b)|by apply ewp_ret]. }
  apply Hchk. intros lu'. unfold ceps. cbn [one cfg_entry_tab length seq id for_until].
  ewp_step. unfold recover_cep. ewp_step. apply ewp_upd. rewrite renew_none by done.
  ewp_step. ewp_step. destruct (Hk lu') as [[Hs HQ]|(Hs & Hf & Hw & Hdial)].
  - ewp_test true by (by unfold in_state; rewrite Hs). by repeat ewp_step.
  - ewp_test false by (by unfold in_state; rewrite Hs). ewp_step.
    assert (∀ Q', Q' tt (one e b b lu' tr) -> ewp (iff chk (check_rate 0)) Q' (one e b b lu' tr)) as Hr.
    { intros Q' HQ. destruct chk; [|by apply ewp_ret]. unfold iff, check_rate. ewp_go.
      ewp_test false by (by rewrite (proj2 (Z.eqb_neq _ _) H3)). by apply ewp_ret. }
    apply Hr. ewp_step. ewp_step.
    ewp_test true by (by apply Z.ltb_lt). rewrite Hf. cbn [Z.eqb Pos.eqb].
    unfold ev_dial_from_i4b. ewp_go. ewp_test true by (by unfold in_state; rewrite Hs).
    eapply ewp_mono; [exact Hdial|]. intros ? s' HQ. by repeat ewp_step.
Qed.

Lemma timeout_redials b e0 e i0 k a lt lu tr : dials (cf e0) -> waiting e0 e i0 k a ->
  0 <= lt <= a -> a + recoverytime (cf e0) < b -> b < 4294967296 ->
  ewp (handle (b, Timeout)) (λ _ s', ∃ e' lu' tr', s' = one e' b b lu' tr' ∧ attempt e0 e' i0 k ∧
      calls tr' = calls tr ++ [number_of e0 (to_idx i0 k (remote_numbers_count e0))] ∧
      ∀ d u, statuses d u tr' = statuses d u tr)
    (one e a lt lu tr).
Proof.
  intros Hd [Hcf Hs Hc Hnum Hn Hi Hout Hw Hf Ha] Hlt Hab Hb. pose proof (d_recovery _ Hd).
  apply timeout_runs; [lia|lia|rewrite Hcf; apply Hd..|].
  intros lu'. right. split; [done|]. split; [done|]. split; [rewrite Hw, Ha; lia|].
  eapply ewp_mono; [apply dial_code_places; by rewrite Hcf|].
  intros _ s' (e' & tr' & -> & Hs' & [P1 P2 P3 P4 P5] & Hk & Hcalls & Hst).
  eexists _, _, _. split; [reflexivity|]. split; [|by rewrite Hcalls, Hout].
  split; congruence.
Qed.

Lemma timeout_idle b e lt lu t tr : dials (cf e) -> state e = ST_IDLE -> 0 <= lt < b -> b < 4294967296 ->
  ewp (handle (b, Timeout)) (λ _ s', ∃ lu', s' = one e b b lu' tr) (one e t lt lu tr).
Proof.
  intros Hd Hs Hlt Hb. apply timeout_runs; [lia|lia|apply Hd..|]. intros lu'. left. eauto.
Qed.

(** The times [(a, b)] of the failures and of the timeouts after them. *)
Fixpoint spaced (w last : Z) (ts : list (Z * Z)) : Prop :=
  match ts with
  | [] => True
  | (a, b) :: ts' => last <= a ∧ a + w < b ∧ b < 4294967296 ∧ spaced w b ts'
  end.

(** The remote end refuses every call. *)
Fixpoint busy (ts : list (Z * Z)) (cause : Z) : M unit :=
  match ts with
  | [] => mret tt
  | (a, b) :: ts' => busy_once a cause ;; handle (b, Timeout) ;; busy ts' cause
  end.

Lemma busy_cycle ts cause e0 e i0 k t lt lu tr : dials (cf e0) -> attempt e0 e i0 k ->
  0 < remote_numbers_count e0 -> 0 <= k -> 0 <= lt -> spaced (recoverytime (cf e0)) lt ts ->
  k + Z.of_nat (length ts) = dialretries (cf e0) -> (0 < length ts)%nat ->
  ewp (busy ts cause) (λ _ s', ∃ e' t' lu' tr', s' = one e' t' t' lu' tr' ∧ state e' = ST_IDLE ∧
      calls tr' = calls tr ++
        map (λ j, number_of e0 (to_idx i0 (k + 1 + Z.of_nat j) (remote_numbers_count e0)))
          (seq 0 (length ts - 1)) ∧
      let d := usrdevicename (cf e0) in let u := usrdeviceunit (cf e0) in
      statuses d u tr' = statuses d u tr ++ [DSTAT_TFAIL])
    (one e t lt lu tr).
Proof.
  intros Hd. revert e k t lt lu tr. induction ts as [|[a b] ts IH]; intros e k t lt lu tr Hat Hpos Hk Hlt Hsp Hlen Hne.
  { simpl in Hne. lia. }
  destruct Hsp as (H1 & H2 & H3 & Hsp). pose proof (d_recovery _ Hd). simpl busy. ewp_step.
  destruct (decide (ts = [])) as [->|Hts].
  - eapply ewp_mono; [eapply busy_gives_up; [done|exact Hat|simpl in Hlen; lia|simpl in Hlen; lia]|].
    intros _ s' (e' & tr' & -> & Hs & Hcf & Hcalls & Hst). ewp_step.
    eapply ewp_mono; [apply timeout_idle; [by rewrite Hcf|done|lia|done]|].
    intros _ s' (lu' & ->). simpl. ewp_step. eexists _, _, _, _. split; [reflexivity|].
    split; [done|]. rewrite Hcalls, app_nil_r. done.
  - assert (0 < length ts)%nat by (destruct ts; [done|simpl; lia]). simpl length in Hlen.
    eapply ewp_mono; [eapply busy_retries; [done|exact Hat|done|lia]|].
    intros _ s' (e' & -> & Hw). ewp_step.
    eapply ewp_mono; [eapply timeout_redials; [done|exact Hw|lia|done|done]|].
    intros _ s' (e'' & lu' & tr' & -> & Hat' & Hcalls & Hst).
    eapply ewp_mono; [eapply IH; [exact Hat'|done|lia|lia|done|lia|done]|].
    intros _ s' (e3 & t3 & lu3 & tr3 & -> & Hs3 & Hcalls3 & Hst3).
    eexists _, _, _, _. split; [reflexivity|]. split; [done|].
    rewrite Hcalls3, Hcalls, <-app_assoc. split; [|by rewrite Hst3, Hst].
    f_equal. simpl length. replace (S (length ts) - 1)%nat with (S (length ts - 1)) by lia.
    simpl. rewrite Z.add_0_r. f_equal. rewrite <-seq_shift, map_map. apply map_ext. intros j.
    do 2 f_equal. lia.
Qed.

(** [select_first_dialno] selects one of the numbers. *)
Record selected (e e' : cfg_entry) : Prop := {
  se_numbers : remote_numbers e' = remote_numbers e;
  se_n : remote_numbers_count e' = remote_numbers_count e;
  se_index : 0 <= last_remote_number e' < remote_numbers_count e;
  se_dialout : cstr (number (remote_phone_dialout e')) = number_of e (last_remote_number e');
  se_count : dial_count e' = dial_count e;
  se_core : core e' = core e
}.

Lemma use_number_selected e i : 0 <= i < remote_numbers_count e ->
  selected e (use_number i e) ∧ selected e (use_number_only i e).
Proof.
  intros Hi. split; (split; [done|done|exact Hi| |done|done]); apply (use_number_dials i e).
Qed.
Lemma select_loop_selected j i e : 0 <= i < remote_numbers_count e -> selected e (select_loop j i e).
Proof.
  revert i. induction j as [|j IH]; intros i Hi; simpl.
  { apply use_number_selected. lia. }
  assert (0 <= next_number e i < remote_numbers_count e)
    by (rewrite next_number_mod by lia; apply Z.mod_pos_bound; lia).
  repeat case_match; [by apply use_number_selected..|by apply IH].
Qed.
Lemma select_first_selected e : hd 0 (keypad e) = 0 -> 0 <= last_remote_number e < remote_numbers_count e ->
  selected e (select_first_dialno e).
Proof.
  intros Hk Hi. unfold select_first_dialno. rewrite Hk. cbn [Z.eqb negb].
  destruct (Z.ltb_spec (remote_numbers_count e) 1); [lia|].
  repeat case_match; [apply use_number_selected; lia..|]. by apply select_loop_selected.
Qed.

Lemma start_dial_selected e : hd 0 (keypad e) = 0 -> 0 <= last_remote_number e < remote_numbers_count e ->
  remote_numbers (start_dial e) = remote_numbers e ∧
  remote_numbers_count (start_dial e) = remote_numbers_count e ∧
  0 <= last_remote_number (start_dial e) < remote_numbers_count e ∧
  cstr (number (remote_phone_dialout (start_dial e))) = number_of e (last_remote_number (start_dial e)) ∧
  dial_count (start_dial e) = 0 ∧ cf (start_dial e) = cf e.
Proof.
  intros Hk Hi. unfold start_dial. set (x := e <| budget_calltype := 0 |> <| dial_count := 0 |>).
  destruct (select_first_selected x Hk Hi) as [P1 P2 P3 P4 P5 P6].
  rewrite P1, P2, P4, P5. injection P6 as -> _. split_and!; try reflexivity; apply P3.
Qed.

Lemma dialout_starts e t t0 lt lu tr : dials (cf e) -> state e = ST_IDLE -> hd 0 (keypad e) = 0 ->
  0 <= last_remote_number e < remote_numbers_count e ->
  let i0 := last_remote_number (start_dial e) in
  ewp (handle (t, Message (MSG_DIALOUT_IND (usrdevicename (cf e)) (usrdeviceunit (cf e)))))
    (λ _ s', ∃ e' tr', s' = one e' t lt lu tr' ∧ attempt e e' i0 0 ∧
       calls tr' = calls tr ++ [number_of e i0] ∧ ∀ d u, statuses d u tr' = statuses d u tr)
    (one e t0 lt lu tr).
Proof.
  intros Hd Hs Hk Hi i0. unfold handle. ewp_step. apply ewp_clock. cbn [snd fst dispatch].
  unfold msg_dialout. ewp_step. ewp_step. unfold get_cep_by_driver. cbn [one cfg_entry_tab list_find].
  rewrite decide_True by done. cbn [fmap option_fmap option_map fst].
  unfold ev_dial_from_user. ewp_go. ewp_test true by (by unfold in_state; rewrite Hs). ewp_go.
  fold (start_dial e).
  destruct (start_dial_selected e Hk Hi) as (Hnum & Hn & Hi0 & Hout & Hc & Hcf). fold i0 in Hi0, Hout.
  ewp_test false by (apply Z.eqb_neq, Hd).
  ewp_test false by (by rewrite (d_cout _ Hd)).
  ewp_step. ewp_test false by (apply Hd). ewp_step.
  eapply ewp_mono; [apply dial_code_places; by rewrite Hcf|].
  intros ? s' (e' & tr' & -> & Hs' & [R1 R2 R3 R4 R5] & Hk' & Hcalls & Hst).
  eexists _, _. split; [reflexivity|]. split; [|by rewrite Hcalls, Hout].
  split; try congruence. rewrite R5. unfold to_idx. by rewrite Z.add_0_r, Z.mod_small.
Qed.

(** C16: dial retries.  The table has one entry only, every ioctl works, and
    the entry is idle, without keypad string, with a valid index into its
    remote numbers and [dialretries] above 0.  It is configured to dial
    ([dials]): outgoing calls are allowed at any time, there is no callback
    and no call budget, it is not taken down after a failure ([usedown] is
    0), the wait between attempts is not random ([dialrandincr] is 0) and
    the unit length does not come from the rates file.  From the driver's
    request on every call is cleared by the remote end, and after each of
    [dialretries] refusals one timeout of [handle_recovery] comes, later than
    the recovery time.  Then the daemon places exactly [dialretries] calls,
    to the number [select_first_dialno] chose and then to the remote numbers
    in cyclic order; in the end the entry is idle and its driver has been
    told, once, of the dialout failure. *)
Theorem dial_retries e ts cause t t0 lt lu tr :
  dials (cf e) -> state e = ST_IDLE -> hd 0 (keypad e) = 0 ->
  0 <= last_remote_number e < remote_numbers_count e ->
  0 < dialretries (cf e) -> Z.of_nat (length ts) = dialretries (cf e) ->
  0 <= lt -> spaced (recoverytime (cf e)) lt ts ->
  let d := usrdevicename (cf e) in let u := usrdeviceunit (cf e) in
  let i0 := last_remote_number (start_dial e) in
  ∃ s', (handle (t, Message (MSG_DIALOUT_IND d u)) ;; busy ts cause) (one e t0 lt lu tr) =
          (Some tt, s') ∧
    state (entry s' 0) = ST_IDLE ∧
    calls (trace s') = calls tr ++
      map (λ j, number_of e ((i0 + Z.of_nat j) mod remote_numbers_count e)) (seq 0 (length ts)) ∧
    statuses d u (trace s') = statuses d u tr ++ [DSTAT_TFAIL].
Proof.
  intros Hd Hs Hk Hi Hr Hlen Hlt Hsp d u i0.
  assert (ewp (handle (t, Message (MSG_DIALOUT_IND d u)) ;; busy ts cause) (λ _ s',
    state (entry s' 0) = ST_IDLE ∧ calls (trace s') = calls tr ++
      map (λ j, number_of e ((i0 + Z.of_nat j) mod remote_numbers_count e)) (seq 0 (length ts)) ∧
    statuses d u (trace s') = statuses d u tr ++ [DSTAT_TFAIL]) (one e t0 lt lu tr)) as H.
  { ewp_step. eapply ewp_mono; [by apply dialout_starts|].
    intros ? s' (e' & tr' & -> & Hat & Hcalls & Hst).
    eapply ewp_mono; [eapply busy_cycle; [done|exact Hat|lia|lia|done|exact Hsp|lia|lia]|].
    intros ? s' (e2 & t2 & lu2 & tr2 & -> & Hs2 & Hcalls2 & Hst2).
    split; [done|]. cbn [one trace]. rewrite Hcalls2, Hcalls, <-app_assoc. split; [|unfold d, u; by rewrite Hst2, Hst].
    f_equal. destruct (length ts) as [|n] eqn:En; [simpl in Hlen; lia|].
    replace (S n - 1)%nat with n by lia. simpl. rewrite Z.add_0_r.
    assert (0 <= i0 < remote_numbers_count e) as Hi0.
    { by apply (start_dial_selected e Hk Hi). }
    rewrite (Z.mod_small i0) by done. f_equal. rewrite <-seq_shift, map_map. apply map_ext. intros j.
    unfold to_idx. do 2 f_equal. lia. }
  destruct H as ([] & s' & Hrun & HQ). by exists s'.
Qed.
End retries.

#[local] Existing Instance sample_env.
Definition retry_entry : cfg_entry :=
  let e := sample_entry 3 REACT_IGNORE in e <| cf := (cf e) <| budget_calloutncalls := 0 |> |>.
Lemma dial_retries_witness :
  ∃ s', (handle (100, Message (MSG_DIALOUT_IND 3 0)) ;; busy [(102, 108); (110, 120); (125, 131)] 17)
          (one [] (glob sample_dmn) retry_entry 0 0 0 []) = (Some tt, s') ∧
    calls (trace s') = [[50]; [51]; [50]] ∧ statuses 3 0 (trace s') = [DSTAT_TFAIL].
Proof.
  destruct (dial_retries [] (glob sample_dmn)) with
    (e := retry_entry) (ts := [(102, 108); (110, 120); (125, 131)]) (cause := 17)
    (t := 100) (t0 := 0) (lt := 0) (lu := 0) (tr := @nil effect) as (s' & Hr & _ & Hc & Ht).
  - intros. vm_compute. congruence.
  - split; vm_compute; try congruence. split; congruence.
  - reflexivity.
  - reflexivity.
  - vm_compute. split; congruence.
  - reflexivity.
  - reflexivity.
  - lia.
  - vm_compute. repeat split; congruence.
  - exists s'. split; [exact Hr|]. split; [exact Hc|exact Ht].
Defined.
