(* ===== verification/IsdndCalls.v ===== *)
(** * Incoming calls, valid times, and what goes wrong

    An incoming call may be offered to several entries, but only one of them
    answers it; the time interval of an entry; and executions in which the
    daemon does not do what its comments say. *)
From S2P Require Import Prelude Dss1Types IsdndTypes IsdndSupport Isdnd IsdndLogic IsdndSpec IsdndRun IsdndDial.

(** ** Answers to an incoming call *)
Definition answer_of (x : effect) : option (Z * Z) :=
  match x with Ioctl (I4B_CONNECT_RESP id r _ _ _ _ _ _) => Some (id, r) | _ => None end.
Definition answers (s : dmn) : list (Z * Z) := omap answer_of (trace s).

(** [m] gives at most [k] answers. *)
Definition at_most {A} (k : A -> nat) (m : M A) : Prop :=
  ∀ s, ∃ l, answers (m s).2 = answers s ++ l ∧
    match (m s).1 with Some a => (length l <= k a)%nat | None => (length l <= 1)%nat end.
Definition quiet {A} (m : M A) : Prop := ∀ s, answers (m s).2 = answers s.

Lemma quiet_at_most {A} k (m : M A) : quiet m -> at_most k m.
Proof. intros H s. exists []. rewrite H, app_nil_r. split; [done|]. case_match; simpl; lia. Qed.

Lemma quiet_ret {A} (a : A) : quiet (mret a).
Proof. by intros s. Qed.
Lemma quiet_bind {A B} (m : M A) (k : A -> M B) : quiet m -> (∀ a, quiet (k a)) -> quiet (m ≫= k).
Proof.
  intros Hm Hk s. unfold mbind, M_bind. specialize (Hm s). destruct (m s) as [[a|] s1]; [|done].
  simpl in *. by rewrite Hk.
Qed.
Lemma quiet_get {A} (f : dmn -> A) : quiet (get f).
Proof. by intros s. Qed.
Lemma quiet_fld {A} cep (f : cfg_entry -> A) : quiet (fld cep f).
Proof. by intros s. Qed.
Lemma quiet_upd cep f : quiet (upd cep f).
Proof. by intros s. Qed.
Lemma quiet_put_ctrl f : quiet (put (λ s, s <| isdn_ctrl_tab := f s |>)).
Proof. by intros s. Qed.
Lemma answers_snoc s x : answers (s <| trace := trace s ++ [x] |>) = answers s ++ option_list (answer_of x).
Proof. unfold answers. cbn. by rewrite omap_app. Qed.
Lemma quiet_emit x : answer_of x = None -> quiet (emit x).
Proof. intros Hx s. unfold emit, put. cbn [snd]. by rewrite answers_snoc, Hx, app_nil_r. Qed.
Lemma quiet_exit {A} x : quiet (error_exit x : M A).
Proof. intros s. unfold error_exit. cbn [snd]. rewrite answers_snoc. apply app_nil_r. Qed.
Lemma quiet_iff b m : quiet m -> quiet (iff b m).
Proof. destruct b; [done|]. intros _. apply quiet_ret. Qed.
Lemma quiet_for_all {A} (l : list A) body : (∀ x, quiet (body x)) -> quiet (for_all l body).
Proof.
  intros H. induction l as [|x l IH]; simpl; [apply quiet_ret|]. by apply quiet_bind.
Qed.

Create HintDb quiet discriminated.
#[export] Hint Resolve quiet_ret quiet_get quiet_fld quiet_upd quiet_put_ctrl quiet_exit : quiet.
#[export] Hint Extern 1 (quiet (emit _)) => by apply quiet_emit : quiet.
Ltac quiet :=
  repeat first
    [ solve [eauto with quiet nocore]
    | lazymatch goal with
      | |- quiet (_ ≫= _) => apply quiet_bind; [|intros ?]
      | |- quiet (iff _ _) => apply quiet_iff
      | |- quiet (for_all _ _) => apply quiet_for_all; intros ?
      | |- quiet (let _ := _ in _) => cbv zeta
      | |- quiet (match ?x with _ => _ end) => destruct x
      end ].
Tactic Notation "quiet_by" reference(f) := intros; unfold f; quiet.

Section answering.
Context {env : Env}.

Lemma do_ioctl_quiet r : answer_of (Ioctl r) = None -> quiet (do_ioctl r).
Proof. intros Hx s. unfold do_ioctl. cbn [snd]. by rewrite answers_snoc, Hx, app_nil_r. Qed.
#[local] Hint Extern 1 (quiet (do_ioctl _)) => apply do_ioctl_quiet; by repeat case_match : quiet.

Lemma response_to_user_quiet cep d : quiet (response_to_user cep d).
Proof. quiet_by response_to_user. Qed.
Lemma cep_set_state_quiet cep st w f : quiet (cep_set_state cep st w f).
Proof. quiet_by cep_set_state. Qed.
Lemma set_channel_state_quiet c ch x : quiet (set_channel_state c ch x).
Proof. quiet_by set_channel_state. Qed.
Lemma sendm_connect_req_quiet cep : quiet (sendm_connect_req cep).
Proof. quiet_by sendm_connect_req. Qed.
#[local] Hint Resolve response_to_user_quiet cep_set_state_quiet set_channel_state_quiet
  sendm_connect_req_quiet : quiet.
Lemma disconnect_code_quiet cep : quiet (disconnect_code cep).
Proof. quiet_by disconnect_code; unfold exec_connect_prog, exec_prog, account; quiet. Qed.
Lemma dial_fail_code_quiet cep : quiet (dial_fail_code cep).
Proof. quiet_by dial_fail_code; quiet_by retry_wait. Qed.
#[local] Hint Resolve disconnect_code_quiet dial_fail_code_quiet : quiet.
Lemma ev_disconnect_from_i4b_quiet id cause ex : quiet (ev_disconnect_from_i4b id cause ex).
Proof. quiet_by ev_disconnect_from_i4b; quiet_by disconnect_cep. Qed.
Lemma ev_disconnect_from_user_quiet cep : quiet (ev_disconnect_from_user cep).
Proof. quiet_by ev_disconnect_from_user; quiet_by sendm_disconnect_req. Qed.
Lemma ev_alert_from_user_quiet cep : quiet (ev_alert_from_user cep).
Proof. quiet_by ev_alert_from_user; quiet_by sendm_alert_req. Qed.
Lemma dial_code_quiet cep : quiet (dial_code cep).
Proof. quiet_by dial_code. Qed.
#[local] Hint Resolve ev_disconnect_from_i4b_quiet ev_disconnect_from_user_quiet
  ev_alert_from_user_quiet dial_code_quiet : quiet.
Lemma ev_dial_from_user_quiet cep : quiet (ev_dial_from_user cep).
Proof. quiet_by ev_dial_from_user. Qed.
#[local] Hint Resolve ev_dial_from_user_quiet : quiet.

Lemma at_most_before {A B} k (m : M A) (f : A -> M B) :
  quiet m -> (∀ a, at_most k (f a)) -> at_most k (m ≫= f).
Proof.
  intros Hm Hf s. unfold mbind, M_bind. specialize (Hm s). destruct (m s) as [[a|] s1]; simpl in *.
  - destruct (Hf a s1) as (l & Hl & Hn). exists l. by rewrite Hl, Hm.
  - exists []. rewrite Hm, app_nil_r. split; [done|]. simpl. lia.
Qed.
Lemma at_most_after {A B} (m : M A) (f : A -> M B) k :
  at_most (λ _, 1%nat) m -> (∀ a, quiet (f a)) -> (∀ b, (1 <= k b)%nat) -> at_most k (m ≫= f).
Proof.
  intros Hm Hf Hk s. unfold mbind, M_bind. destruct (Hm s) as (l & Hl & Hn).
  destruct (m s) as [[a|] s1]; simpl in *; exists l; [|done]. rewrite Hf, Hl. split; [done|].
  case_match; [etrans; [done|]; apply Hk|done].
Qed.

Lemma sendm_connect_resp_answers cep r c : at_most (λ _, 1%nat) (sendm_connect_resp cep r c).
Proof.
  intros s. unfold sendm_connect_resp, fld, get, do_ioctl, mbind, M_bind. cbn [fst snd id].
  rewrite answers_snoc. eexists. split; [reflexivity|]. by repeat case_match.
Qed.
Lemma ev_connect_from_user_answers cep : at_most (λ _, 1%nat) (ev_connect_from_user cep).
Proof.
  apply at_most_before; [quiet|]. intros e. destruct (in_state _ _); [|apply quiet_at_most; quiet].
  simpl. apply at_most_after; [apply sendm_connect_resp_answers|intros; quiet|done].
Qed.
Lemma ev_reject_from_user_answers cep : at_most (λ _, 1%nat) (ev_reject_from_user cep).
Proof.
  apply at_most_before; [quiet|]. intros e. destruct (in_state _ _); [|apply quiet_at_most; quiet].
  simpl. apply at_most_after; [apply sendm_connect_resp_answers|intros; quiet|done].
Qed.

(** An entry that answers the call leaves the loop over the entries. *)
Definition answered (leave : bool) : nat := if leave then 1 else 0.

Lemma answer_leaves {A} (m : M A) (k : A -> M unit) :
  at_most (λ _, 1%nat) m -> (∀ a, quiet (k a)) -> at_most answered (m ≫= (λ a, k a ;; mret true)).
Proof.
  intros Hm Hk s. unfold mbind, M_bind. destruct (Hm s) as (l & Hl & Hn).
  destruct (m s) as [[a|] s1]; simpl in *; [|by exists l].
  specialize (Hk a s1). destruct (k a s1) as [[[]|] s2]; simpl in *; exists l; by rewrite Hk, Hl.
Qed.
Lemma answer_leaves' (m : M unit) : at_most (λ _, 1%nat) m -> at_most answered (m ;; mret true).
Proof.
  intros Hm s. unfold mbind, M_bind. destruct (Hm s) as (l & Hl & Hn).
  destruct (m s) as [[a|] s1]; simpl in *; by exists l.
Qed.

Lemma take_call_answers cep mp : at_most answered (take_call cep mp).
Proof.
  unfold take_call. do 3 (apply at_most_before; [quiet|intros ?]). cbv zeta.
  repeat match goal with |- at_most _ (if ?x then _ else _) => destruct x end.
  - apply answer_leaves', ev_connect_from_user_answers.
  - apply answer_leaves', ev_reject_from_user_answers.
  - apply quiet_at_most; quiet.
  - apply quiet_at_most; quiet.
  - apply answer_leaves', ev_connect_from_user_answers.
  - apply (answer_leaves (ev_reject_from_user cep) (λ _, ev_dial_from_user cep));
      [apply ev_reject_from_user_answers|intros; quiet].
  - apply quiet_at_most; quiet.
Qed.
Lemma offer_call_answers mp cep : at_most answered (offer_call mp cep).
Proof.
  unfold offer_call. do 2 (apply at_most_before; [quiet|intros ?]).
  repeat match goal with |- at_most _ (if ?x then _ else _) => destruct x end;
    first [apply take_call_answers|apply quiet_at_most; solve [quiet]
          |apply at_most_before; [quiet|intros _; apply take_call_answers]].
Qed.
Lemma for_until_answers {A} (l : list A) (body : A -> M bool) :
  (∀ x, at_most answered (body x)) -> at_most (λ _, 1%nat) (for_until l body).
Proof.
  intros Hb. induction l as [|x l IH]; simpl; [apply quiet_at_most; quiet|].
  intros s. unfold mbind, M_bind. destruct (Hb x s) as (l1 & Hl1 & Hn1).
  destruct (body x s) as [[[|]|] s1]; simpl in *; [by exists l1| |by exists l1].
  destruct (IH s1) as (l2 & Hl2 & Hn2). exists l2. rewrite Hl2, Hl1.
  destruct l1; simpl in Hn1; [|lia]. by rewrite app_nil_r.
Qed.

(** C22: an incoming call is answered at most once.  However many entries
    match a connect indication and whatever they are configured to do with
    it (accept, reject, ignore, ring, answer, call back), and whatever
    happens on the way, the daemon sends at most one accept or reject for
    it. *)
Theorem call_answered_at_most_once mp s :
  ∃ l, answers (dispatch (MSG_CONNECT_IND mp) s).2 = answers s ++ l ∧ (length l <= 1)%nat.
Proof.
  assert (at_most (λ _, 1%nat) (dispatch (MSG_CONNECT_IND mp))) as H.
  { simpl. unfold ev_incoming_from_i4b. apply at_most_before; [quiet|]. intros s0. cbv zeta.
    case_match; [apply quiet_at_most; quiet|]. apply for_until_answers, offer_call_answers. }
  destruct (H s) as (l & Hl & Hn). exists l. split; [done|]. by case_match.
Qed.
End answering.

(** ** One entry takes the call *)
Definition released (e : cfg_entry) : Prop :=
  cdid e = CDID_UNUSED ∧ (state e = ST_IDLE ∨ state e = ST_DIAL_FAIL).

Section taking.
Context {env : Env}.

Lemma dial_fail_code_ends cep e l :
  lwp cep (dial_fail_code cep) (λ _ e' _, state e' = ST_IDLE ∨ state e' = ST_DIAL_FAIL) e l.
Proof.
  unfold dial_fail_code, retry_wait. lwp_go; cbn [id] in *; try apply select_cf.
  1-3: right; unfold select_next_dialno; by repeat case_match.
  - by right.
  - by left.
Qed.

Lemma disconnect_code_state cep e l :
  lwp cep (disconnect_code cep) (λ _ e' _, state e' = state e) e l.
Proof. by lwp_use disconnect_code_evolves as (_ & HD & _). Qed.

Lemma disconnect_cep_releases cep cause e l :
  lwp cep (disconnect_cep cep cause) (λ _ e' _, released e') e l.
Proof.
  unfold disconnect_cep. apply lwp_bind, lwp_upd; [done|]. apply lwp_bind, lwp_fld. cbn [id].
  apply lwp_bind. eapply (lwp_mono _ _ (λ _ e' _, state e' ≠ ST_DIAL)).
  { lwp_step; [|by apply in_state_false]. lwp_use dial_fail_code_ends as [HD|HD]; by rewrite HD. }
  intros _ e1 l1 _ H1. apply lwp_bind, lwp_fld. cbn [id].
  apply lwp_bind. eapply (lwp_mono _ _ (λ _ e' _, state e' ≠ ST_DIAL ∧ state e' ≠ ST_CONNECTED)).
  { lwp_step; [|split; [done|by apply in_state_false]]. lwp_step.
    lwp_use disconnect_code_state as HD. lwp_go. done. }
  intros _ e2 l2 _ [H2 H2']. apply lwp_bind, lwp_fld. cbn [id].
  apply lwp_bind. eapply (lwp_mono _ _ (λ _ e' _, state e' = ST_IDLE ∨ state e' = ST_DIAL_FAIL)).
  { lwp_go; [by left|]. match goal with H : _ || _ = false |- _ => apply orb_false_iff in H as [Ha Hb] end.
    apply in_state_false in Ha, Hb. destruct (state e2); tauto. }
  intros _ e3 l3 _ H3. lwp_go. done.
Qed.

(** The loop of [ev_disconnect_from_i4b]. *)
Lemma disconnect_loop id cause ex l : ∀ s s', NoDup l ->
  (∀ j, j ∈ l -> (j < length (cfg_entry_tab s))%nat) ->
  for_all l (λ cep, x ← fld cep cdid;
    iff ((x =? id) && negb (bool_decide (ex = Some cep))) (disconnect_cep cep cause)) s =
    (Some tt, s') ->
  length (cfg_entry_tab s') = length (cfg_entry_tab s) ∧
  ∀ j, (j < length (cfg_entry_tab s))%nat ->
    if bool_decide (j ∈ l ∧ cdid (entry s j) = id ∧ ex ≠ Some j)
    then released (entry s' j) else entry s' j = entry s j.
Proof.
  induction l as [|c l IH]; intros s s' Hnd Hl Hrun; simpl in Hrun.
  { injection Hrun as <-. split; [done|]. intros j Hj. rewrite bool_decide_false; [done|].
    intros [H _]. by apply not_elem_of_nil in H. }
  apply NoDup_cons in Hnd as [Hc Hnd]. unfold mbind at 1, M_bind at 1 in Hrun.
  set (m := x ← fld c cdid; _) in Hrun. destruct (m s) as [[[]|] s1] eqn:Em; [|done].
  assert (local_frame c s s1 ∧ if bool_decide (cdid (entry s c) = id ∧ ex ≠ Some c)
            then released (entry s1 c) else entry s1 c = entry s c) as [Hf Hs1].
  { assert (lwp c m (λ _ e' _, if bool_decide (cdid (entry s c) = id ∧ ex ≠ Some c)
               then released e' else e' = entry s c) (entry s c) (told s c)) as Hm.
    { unfold m. lwp_step. lwp_step. cbv beta. lwp_step.
      - match goal with H : _ && _ = true |- _ =>
          apply andb_true_iff in H as [Hx Hy]; apply Z.eqb_eq in Hx;
          apply negb_true_iff, bool_decide_eq_false in Hy end.
        rewrite bool_decide_true by done. apply disconnect_cep_releases.
      - match goal with H : _ && _ = false |- _ => rename H into Hxy end.
        rewrite bool_decide_false; [done|]. intros [Hx Hy]. apply Z.eqb_eq in Hx.
        by rewrite Hx, bool_decide_false in Hxy. }
    specialize (Hm s (Hl c (list_elem_of_here _ _)) eq_refl eq_refl). by rewrite Em in Hm. }
  pose proof (frame_length _ _ _ Hf) as Hlen.
  destruct (IH s1 s' Hnd) as [Hlen' Hrest]; [|done|].
  { intros j Hj. rewrite Hlen. apply Hl. by apply list_elem_of_further. }
  split; [congruence|]. intros j Hj. specialize (Hrest j ltac:(lia)).
  destruct (decide (j = c)) as [->|Hne].
  - rewrite bool_decide_false in Hrest by (by intros [? _]). rewrite Hrest.
    rewrite (bool_decide_ext _ (cdid (entry s c) = id ∧ ex ≠ Some c)); [done|].
    rewrite elem_of_cons. tauto.
  - assert (entry s1 j = entry s j) as Hj1.
    { unfold entry. rewrite (lf_tab _ _ _ Hf). by rewrite list_lookup_total_insert_ne. }
    rewrite Hj1 in Hrest.
    rewrite (bool_decide_ext _ (j ∈ l ∧ cdid (entry s j) = id ∧ ex ≠ Some j)); [done|].
    rewrite elem_of_cons. tauto.
Qed.

(** C23: an entry that answers an offered call takes it away from all the
    others.  When the driver of an entry in the incoming state accepts, the
    daemon sends exactly one accept for the call; the entry waits for the
    connection and keeps the call; every other entry that had been offered
    the same call gives it up and is idle, or waits for its next dial
    attempt; and every other entry is left as it was. *)
Theorem call_taken_once cep s :
  (cep < length (cfg_entry_tab s))%nat -> state (entry s cep) = ST_INCOMING ->
  (∀ tr, fork tr ≠ -1) ->
  let call := cdid (entry s cep) in
  ∃ s', ev_connect_from_user cep s = (Some tt, s') ∧
    answers s' = answers s ++ [(call, SETUP_RESP_ACCEPT)] ∧
    state (entry s' cep) = ST_WAIT_CONNECT ∧ cdid (entry s' cep) = call ∧
    ∀ j, (j < length (cfg_entry_tab s))%nat -> j ≠ cep ->
      (cdid (entry s j) = call -> released (entry s' j)) ∧
      (cdid (entry s j) ≠ call -> entry s' j = entry s j).
Proof.
  intros Hc Hs Hfork call. destruct (ev_connect_from_user_returns Hfork cep s) as [[] Hr].
  destruct (ev_connect_from_user cep s) as [r s'] eqn:E. simpl in Hr. subst r. exists s'. split; [done|].
  unfold ev_connect_from_user, mbind, M_bind, fld, get in E. cbn [id] in E.
  assert (in_state ST_INCOMING (entry s cep) = true) as Hi by (by apply bool_decide_eq_true).
  rewrite Hi in E. cbn [iff] in E. fold call in E.
  (* the response *)
  unfold sendm_connect_resp, fld, get, mbind, M_bind, do_ioctl in E. cbn [fst snd id] in E.
  change (SETUP_RESP_ACCEPT =? SETUP_RESP_REJECT) with false in E.
  change (SETUP_RESP_ACCEPT =? SETUP_RESP_ACCEPT) with true in E. cbv iota in E. fold call in E.
  match type of E with context [s <| trace := trace s ++ [?x] |>] =>
    set (s1 := s <| trace := trace s ++ [x] |>) in E;
    assert (answers s1 = answers s ++ [(call, SETUP_RESP_ACCEPT)]) as Ha1 by (apply answers_snoc)
  end.
  assert (∀ j, entry s1 j = entry s j) as He1 by done.
  assert (length (cfg_entry_tab s1) = length (cfg_entry_tab s)) as Hl1 by done. clearbody s1.
  (* the state *)
  assert (lwp cep (cep_set_state cep ST_WAIT_CONNECT TIMEOUT_CONNECT_ACTIVE 1)
            (λ _ e' _, state e' = ST_WAIT_CONNECT ∧ cdid e' = cdid (entry s1 cep))
            (entry s1 cep) (told s1 cep)) as Hset by (by lwp_go).
  destruct (Hset s1 ltac:(lia) eq_refl eq_refl) as [Hf2 Hs2].
  pose proof (cep_set_state_quiet cep ST_WAIT_CONNECT TIMEOUT_CONNECT_ACTIVE 1 s1) as Ha2.
  destruct (cep_set_state cep ST_WAIT_CONNECT TIMEOUT_CONNECT_ACTIVE 1 s1) as [[[]|] s2] eqn:E2; [|done].
  cbn [fst snd] in *. pose proof (frame_length _ _ _ Hf2) as Hl2. destruct Hs2 as [Hs2 Hc2].
  (* the others *)
  pose proof (ev_disconnect_from_i4b_quiet call CAUSE_NORMAL (Some cep) s2) as Ha3.
  rewrite E in Ha3. cbn [snd] in Ha3.
  apply disconnect_loop in E as [Hl3 Hj3]; [|apply NoDup_seq|].
  2: { intros j Hj. apply elem_of_seq in Hj. lia. }
  split; [congruence|].
  pose proof (Hj3 cep ltac:(lia)) as Hcep. rewrite bool_decide_false in Hcep by (by intros (_ & _ & ?)).
  rewrite Hcep. split; [done|]. split; [by rewrite Hc2, He1|].
  intros j Hj Hne. specialize (Hj3 j ltac:(lia)).
  assert (entry s2 j = entry s j) as Hj2.
  { rewrite <-He1. unfold entry. rewrite (lf_tab _ _ _ Hf2). by rewrite list_lookup_total_insert_ne. }
  rewrite Hj2 in Hj3. split; intros Hx.
  - rewrite bool_decide_true in Hj3; [done|]. split; [apply elem_of_seq; lia|]. split; [done|congruence].
  - rewrite bool_decide_false in Hj3 by (by intros (_ & ? & _)). done.
Qed.
End taking.

#[local] Existing Instance sample_env.

(** Two telephones ring for the same call; the second one answers. *)
Definition two_telephones : dmn :=
  sample_dmn <| cfg_entry_tab :=
    [(sample_entry 3 REACT_ALERT) <| state := ST_INCOMING |> <| cdid := 640 |>;
     (sample_entry 5 REACT_ALERT) <| state := ST_INCOMING |> <| cdid := 640 |>] |>.
Lemma call_taken_once_witness :
  ∃ s', ev_connect_from_user 1 two_telephones = (Some tt, s') ∧
    answers s' = [(640, SETUP_RESP_ACCEPT)] ∧ released (entry s' 0).
Proof.
  destruct (call_taken_once 1 two_telephones) as (s' & Hr & Ha & _ & _ & Hj).
  - vm_compute. lia.
  - reflexivity.
  - exact sample_fork.
  - exists s'. split; [exact Hr|]. split; [exact Ha|].
    apply (Hj 0%nat); [vm_compute; lia|lia|reflexivity].
Defined.

(** ** The times an entry is valid *)
Section times.
Context {env : Env}.

(** Days: none configured, a holiday, or the day of the week. *)
Definition day_valid (c : cfg_static) (s : dmn) : bool :=
  let tp := localtime (clock s) in
  (bit_set (day c) HD && isholiday s (tm_mday tp) (tm_mon tp + 1) (tm_year tp + 1900)) ||
  bit_set (day c) (Z.shiftl 1 (tm_wday tp)).

(** What isdnd.rc.5 says of the keyword [valid]: without days the entry is
    always valid; on a valid day it is valid at all times if no range is
    given, and from the first time on up to the second one, over midnight if
    the second one comes first (its example splits the day at 9:00 and 18:00
    into [09:00-18:00] and [18:00-9:00]). *)
Definition whole_day (c : cfg_static) : bool :=
  (fromhr c =? 0) && (frommin c =? 0) && (tohr c =? 0) && (tomin c =? 0).
Definition minute_of (h m : Z) : Z := 60 * h + m.
Definition in_range (from till now : Z) : bool :=
  if till <? from then (from <=? now) || (now <? till) else (from <=? now) && (now <? till).
Definition documented_valid (c : cfg_static) (s : dmn) : bool :=
  let tp := localtime (clock s) in
  (day c =? 0) ||
  day_valid c s && (whole_day c || in_range (minute_of (fromhr c) (frommin c)) (minute_of (tohr c) (tomin c))
                                     (minute_of (tm_hour tp) (tm_min tp))).

(** C40: the times at which an entry is valid.  [isvalidtime] is what
    isdnd.rc.5 says of the keyword [valid], except in two cases, which the
    theorem states too and in which the code and the manual disagree: the
    first minute of a range over midnight is left out; and if both times of
    a range lie in the same hour only the minutes are compared, so that the
    range is valid in every hour of the day (and one that would go over
    midnight never is). *)
Theorem isvalidtime_intervals e s :
  let c := cf e in let tp := localtime (clock s) in
  0 <= frommin c < 60 -> 0 <= tomin c < 60 -> 0 <= tm_min tp < 60 ->
  let at_start := minute_of (tm_hour tp) (tm_min tp) =? minute_of (fromhr c) (frommin c) in
  isvalidtime e s =
  if (day c =? 0) || whole_day c then documented_valid c s
  else if fromhr c =? tohr c then day_valid c s && (frommin c <=? tm_min tp) && (tm_min tp <? tomin c)
  else if (tohr c <? fromhr c) && at_start then false
  else documented_valid c s.
Proof.
  intros c tp H1 H2 H3 at_start. unfold isvalidtime, documented_valid, whole_day, minute_of in *. fold c tp. cbv zeta.
  destruct (Z.eqb_spec (day c) 0) as [Hd|Hd]; [done|]. unfold day_valid. fold tp. cbn [orb].
  destruct (_ || bit_set (day c) _); cbn [andb]; [|by repeat case_match].
  destruct ((fromhr c =? 0) && _ && _ && _) eqn:Hz; [done|]. cbn [orb].
  subst at_start. clearbody c tp. clear Hz. unfold in_range.
  destruct (Z.ltb_spec (tohr c) (fromhr c)); [|destruct (Z.eqb_spec (fromhr c) (tohr c)); [done|]].
  - rewrite (proj2 (Z.eqb_neq (fromhr c) (tohr c))) by lia. cbn [andb].
    rewrite (proj2 (Z.ltb_lt (60 * tohr c + tomin c) (60 * fromhr c + frommin c))) by lia.
    destruct (Z.eqb_spec (60 * tm_hour tp + tm_min tp) (60 * fromhr c + frommin c)).
    + apply not_true_is_false. rewrite !orb_true_iff, !andb_true_iff, ?Z.ltb_lt, ?Z.leb_le, ?Z.eqb_eq. lia.
    + apply eq_true_iff_eq. rewrite !orb_true_iff, !andb_true_iff, ?Z.ltb_lt, ?Z.leb_le, ?Z.eqb_eq. lia.
  - cbn [andb]. rewrite (proj2 (Z.ltb_ge (60 * tohr c + tomin c) (60 * fromhr c + frommin c))) by lia. apply eq_true_iff_eq.
    rewrite !orb_true_iff, !andb_true_iff, ?Z.ltb_lt, ?Z.leb_le, ?Z.eqb_eq. lia.
Qed.
End times.

(** An entry valid on Mondays; the sample's clock stands at noon on a Monday. *)
Definition timed_entry (h1 m1 h2 m2 : Z) : cfg_entry :=
  let e := sample_entry 3 REACT_IGNORE in
  e <| cf := (cf e) <| day := 2 |> <| fromhr := h1 |> <| frommin := m1 |>
                    <| tohr := h2 |> <| tomin := m2 |> |>.
Lemma isvalidtime_intervals_witness :
  isvalidtime (timed_entry 11 30 12 10) sample_dmn = documented_valid (cf (timed_entry 11 30 12 10)) sample_dmn ∧
  documented_valid (cf (timed_entry 11 30 12 10)) sample_dmn = true.
Proof.
  split; [|vm_compute; reflexivity].
  rewrite (isvalidtime_intervals (timed_entry 11 30 12 10) sample_dmn); [|vm_compute; split; congruence..].
  vm_compute. reflexivity.
Defined.

(** ** Executions that are not what the comments say *)

(** An interval inside one hour is matched at every hour: at noon, an entry
    valid from 18:00 to 18:30 is used. *)
Lemma same_hour_ignores_hour : isvalidtime (timed_entry 18 0 18 30) sample_dmn = true.
Proof. vm_compute. reflexivity. Qed.

(** The first minute of an interval that goes over midnight is left out: at
    12:00 an entry valid from 12:00 to 06:00 is refused. *)
Lemma overnight_first_minute : isvalidtime (timed_entry 12 0 6 0) sample_dmn = false.
Proof. vm_compute. reflexivity. Qed.

(** An entry without calls left in its budget is refused ("no budget for
    calling out"), and the next dial attempt, after the recovery time,
    places the call all the same, without counting it. *)
Definition spent_dmn : dmn :=
  sample_dmn <| cfg_entry_tab :=
    [(sample_entry 3 REACT_IGNORE) <| budget_calloutncalls_cnt := 0 |>
                                   <| budget_calloutperiod_time := 3600 |>] |>.
Definition spent_run : list (Z * event) :=
  [(100, Message (MSG_DIALOUT_IND 3 0)); (106, Timeout); (108, Message (MSG_CONNECT_ACTIVE_IND 64 1))].
Lemma spent_budget_dials :
  let s := (run spent_run spent_dmn).2 in
  budget_callout_rej (entry s 0) = 1 ∧ calls (trace s) = [[51]] ∧
  state (entry s 0) = ST_CONNECTED ∧ budget_callout_done (entry s 0) = 0.
Proof. vm_compute. done. Qed.

(** A keypad request makes the entry forget its numbers: the next request
    of its driver dials the empty number. *)
Definition keypad_run : list (Z * event) :=
  [(100, Message (MSG_KEYPAD_IND 3 0 [42; 55])); (102, Message (MSG_CONNECT_ACTIVE_IND 64 1));
   (110, Message (MSG_DISCONNECT_IND 64 16)); (120, Message (MSG_DIALOUT_IND 3 0))].
Lemma keypad_forgets_numbers :
  let s := (run keypad_run sample_dmn).2 in
  calls (trace s) = [[]; []] ∧ remote_numbers_count (entry s 0) = 0 ∧
  state (entry s 0) = ST_DIAL.
Proof. vm_compute. done. Qed.
