(* ===== verification/LiteTypes.v ===== *)
(** * DSS1 lite: data (dss1/dss1_lite.h, the tables of dss1_lite.c)

    The reduced stack that drives a telephone (USB phones and the loopback
    device): one D-channel, two B-channels, two call descriptors.  [lite] is
    [struct dss1_lite] together with its surroundings: the clock, the
    outcomes of the memory allocations, the frames the layer above has ready,
    and the list of what is handed out (frames, calls of the methods of the
    telephone).  A frame is the list of its bytes.  A computation of [M]
    yields [None] where the C code has no defined behaviour: a null pointer
    is followed, an array is left, a loop does not end. *)
From S2P Require Import Prelude Mbuf Dss1Types XlawTables Xlaw Dtmf.
Local Open Scope Z_scope.

Definition DL_TEI : Z := 0x01.
Definition DL_QUEUE_MAX : Z := 0x8.
Definition DL_BPS_MAX : Z := 512.
Definition DL_NCALL : nat := 2.
Definition DL_NCHAN : Z := 3.
Definition DL_ST_FREE : Z := 0xFF.
Definition DL_STATUS_COUNT_MAX : Z := 8.

(** ** The states of a call *)
Definition DL_ST_OUT_U0 : Z := 0x00.
Definition DL_ST_OUT_U0_TO : Z := 0x01.
Definition DL_ST_OUT_U1 : Z := 0x02.
Definition DL_ST_OUT_U1_TO : Z := 0x03.
Definition DL_ST_OUT_U2 : Z := 0x04.
Definition DL_ST_OUT_U2_ACK : Z := 0x05.
Definition DL_ST_OUT_U3 : Z := 0x06.
Definition DL_ST_OUT_U3_TO : Z := 0x07.
Definition DL_ST_OUT_U4 : Z := 0x08.
Definition DL_ST_OUT_U4_TO : Z := 0x09.
Definition DL_ST_OUT_UA : Z := 0x0A.
Definition DL_ST_OUT_UA_TO : Z := 0x0B.
Definition DL_ST_OUT_UC : Z := 0x0C.
Definition DL_ST_OUT_UC_TO : Z := 0x0D.
Definition DL_ST_OUT_MAX : Z := 0x0E.
Definition DL_ST_IN_U0 : Z := 0x80.
Definition DL_ST_IN_U0_ACK : Z := 0x81.
Definition DL_ST_IN_U6 : Z := 0x82.
Definition DL_ST_IN_U6_TO : Z := 0x83.
Definition DL_ST_IN_U7 : Z := 0x84.
Definition DL_ST_IN_U7_TO : Z := 0x85.
Definition DL_ST_IN_U8 : Z := 0x86.
Definition DL_ST_IN_U8_TO : Z := 0x87.
Definition DL_ST_IN_UA : Z := 0x88.
Definition DL_ST_IN_UA_TO : Z := 0x89.
Definition DL_ST_IN_UC : Z := 0x8A.
Definition DL_ST_IN_UC_TO : Z := 0x8B.
Definition DL_ST_IN_MAX : Z := 0x8C.

(** [struct dss1_lite_state] *)
Record dss1_lite_state := LiteState {
  st_timeout : Z; next_state : Z; q931_state : Z; st_flags : Z;      (* uint8_t *)
}.
Definition dss1_lite_out_states : list dss1_lite_state :=
  [LiteState 0 DL_ST_FREE 0x00 0x00;
   LiteState 8 DL_ST_FREE 0x00 0x00;
   LiteState 16 DL_ST_FREE 0x01 0x00;
   LiteState 16 DL_ST_FREE 0x01 0x00;
   LiteState 16 DL_ST_FREE 0x02 0x00;
   LiteState 16 DL_ST_FREE 0x02 0x00;
   LiteState 8 DL_ST_OUT_U3_TO 0x03 0x00;
   LiteState 4 DL_ST_FREE 0x03 0x01;
   LiteState 8 DL_ST_OUT_U4_TO 0x04 0x00;
   LiteState 4 DL_ST_FREE 0x04 0x01;
   LiteState 8 DL_ST_OUT_UA_TO 0x0A 0x00;
   LiteState 4 DL_ST_FREE 0x0A 0x01;
   LiteState 8 DL_ST_OUT_UC_TO 0x0C 0x00;
   LiteState 4 DL_ST_FREE 0x0C 0x01].
Definition dss1_lite_in_states : list dss1_lite_state :=
  [LiteState 8 DL_ST_FREE 0x00 0x00;
   LiteState 16 DL_ST_FREE 0x19 0x00;
   LiteState 8 DL_ST_IN_U6_TO 0x06 0x00;
   LiteState 4 DL_ST_FREE 0x06 0x01;
   LiteState 8 DL_ST_IN_U7_TO 0x07 0x00;
   LiteState 4 DL_ST_FREE 0x07 0x01;
   LiteState 4 DL_ST_FREE 0x08 0x00;
   LiteState 4 DL_ST_FREE 0x08 0x00;
   LiteState 8 DL_ST_IN_UA_TO 0x0A 0x00;
   LiteState 4 DL_ST_FREE 0x0A 0x01;
   LiteState 8 DL_ST_IN_UC_TO 0x0C 0x00;
   LiteState 4 DL_ST_FREE 0x0C 0x01].

(** ** Which elements a message has *)
Definition IE_HEADER_MASK : Z := 0x0001.
Definition IE_SENDING_COMPLETE_MASK : Z := 0x0002.
Definition IE_BEARER_CAP_MASK : Z := 0x0004.
Definition IE_CHANNEL_ID_MASK : Z := 0x0008.
Definition IE_KEYPAD_MASK : Z := 0x0010.
Definition IE_CALLING_PARTY_MASK : Z := 0x0020.
Definition IE_USERUSER_MASK : Z := 0x0040.
Definition IE_DISPLAY_MASK : Z := 0x0080.
Definition IE_CAUSE_MASK : Z := 0x0100.
Definition IE_CALLSTATE_MASK : Z := 0x0200.
Definition IE_PROGRESS_MASK : Z := 0x0400.
Definition IE_CALLED_PARTY_MASK : Z := 0x0800.
Definition IE_DEFLECT_MASK : Z := 0x1000.
Definition IE_MCID_MASK : Z := 0x2000.
Definition IE_DATE_TIME_MASK : Z := 0x4000.

Definition IT_CAP_SPEECH : Z := 0x80.
Definition IT_CAP_UNR_DIG_INFO : Z := 0x88.
Definition IT_RATE_64K : Z := 0x90.
Definition IT_UL1_G711U : Z := 0xa2.
Definition IT_UL1_G711A : Z := 0xa3.
Definition IE_CHAN_ID_NO : Z := 0x00.
Definition IE_CHAN_ID_B1 : Z := 0x01.
Definition IE_CHAN_ID_B2 : Z := 0x02.
Definition IE_CHAN_ID_ANY : Z := 0x03.
Definition CAUSE_Q850_NORMUNSP : Z := 0x1f.

(** ** Call descriptors *)

(** [struct dss1_lite_num]: arrays of 63 characters. *)
Record dss1_lite_num := LiteNum {
  num_telno : list Z; num_subaddr : list Z; num_prs_ind : Z; num_ton : Z;
}.
(** [struct dss1_lite_call_desc].  [dl_parent] tells if the pointer to the
    one [struct dss1_lite] is set. *)
Record dss1_lite_call_desc := LiteCd {
  dl_src : list dss1_lite_num;
  dl_dst : list dss1_lite_num;
  dl_part : dss1_lite_num;
  dl_otime_len : Z;
  dl_otime_data : list Z;
  dl_pstate : option dss1_lite_state;
  dl_parent : bool;
  dl_timeout_tick : Z;                   (* int *)
  dl_channel_id : Z;                     (* int *)
  dl_keypad : list Z; dl_display : list Z; dl_useruser : list Z;
  dl_timeout_active : bool;
  dl_state_index : Z;
  dl_need_release : bool;
  dl_status_count : Z;
  dl_channel_bprot : Z; dl_channel_bsubprot : Z;
  dl_channel_allocated : bool;
  dl_curr_callref : Z;
  dl_cause_out : Z; dl_cause_in : Z;
  dl_sending_complete : bool;
  dl_message_type : Z;
  dl_is_on_hold : bool;
}.
(** [memset(cd, 0, sizeof( *cd ))] *)
Definition zero_num : dss1_lite_num := LiteNum (replicate 63 0) (replicate 63 0) 0 0.
Definition zero_lite_cd : dss1_lite_call_desc :=
  {| dl_src := [zero_num; zero_num]; dl_dst := [zero_num; zero_num]; dl_part := zero_num;
     dl_otime_len := 0; dl_otime_data := replicate 8 0;
     dl_pstate := None; dl_parent := false; dl_timeout_tick := 0; dl_channel_id := 0;
     dl_keypad := replicate 32 0; dl_display := replicate 32 0; dl_useruser := replicate 32 0;
     dl_timeout_active := false; dl_state_index := 0; dl_need_release := false;
     dl_status_count := 0; dl_channel_bprot := 0; dl_channel_bsubprot := 0;
     dl_channel_allocated := false; dl_curr_callref := 0; dl_cause_out := 0; dl_cause_in := 0;
     dl_sending_complete := false; dl_message_type := 0; dl_is_on_hold := false |}.

(** ** Channels *)

(** [struct i4b_protocol], the members in use. *)
Record i4b_protocol := Protocol {
  protocol_1 : Z; protocol_4 : Z;
  dtmf_detect_enable : bool; echo_cancel_enable : bool;
}.
Definition P_DISABLE : Z := 0.
Definition PROT_IS_TRANSPARENT (p : i4b_protocol) : bool := (10 <=? protocol_1 p) && (protocol_1 p <? 20).
(** [ft->L5_PUT_DTMF]: null, [dss1_lite_l5_put_dtmf], or a function of the
    layer above. *)
Inductive put_dtmf_fn := DtmfNull | DtmfLite | DtmfOther.
#[global] Instance put_dtmf_fn_eq_dec : EqDecision put_dtmf_fn.
Proof. solve_decision. Defined.

(** [struct dss1_lite_fifo] with its [fifo_translator].  The current
    buffers are the bytes and the index of the pointer into them; a received
    buffer is a chain.  [l5_rx] are the buffers [L5_GET_MBUF] is going to
    return, [l5_alloc] the lengths of those [L5_ALLOC_MBUF] is going to. *)
Record dss1_lite_fifo := LiteFifo {
  prot_curr : i4b_protocol;
  L5_PUT_DTMF : put_dtmf_fn;
  ft_dtmf_rx : dtmf_rx; ft_dtmf_tx : dtmf_tx;
  m_tx_curr : option (list Z); m_tx_curr_ptr : nat; m_tx_curr_rem : Z;
  m_rx_curr : list (list Z); m_rx_curr_ptr : nat; m_rx_curr_rem : Z;
  m_tx_last_sample : Z; m_rx_last_sample : Z;          (* uint16_t *)
  in_stat : Z; out_stat : Z;                           (* uint32_t *)
  is_tracing : bool;
  l5_rx : list (list (list Z));
  l5_alloc : list (option nat);
}.
Definition protocol_law (p4 : Z) : bsubprot :=
  if p4 =? Dss1Types.BSUBPROT_G711_ALAW then BSUBPROT_G711_ALAW
  else if p4 =? Dss1Types.BSUBPROT_G711_ULAW then BSUBPROT_G711_ULAW
  else BSUBPROT_UNKNOWN.
Definition zero_fifo : dss1_lite_fifo :=
  LiteFifo (Protocol 0 0 false false) DtmfNull (i4b_dtmf_init_rx BSUBPROT_UNKNOWN)
    (i4b_dtmf_init_tx BSUBPROT_UNKNOWN) None 0 0 [] 0 0 0 0 0 0 false [] [].

(** ** The stack *)

(** What leaves the stack. *)
Inductive lite_effect :=
| SetRing (on : bool) | SetHookOn | SetHookOff | SetDtmf (digits : list Z)
| SetProtocol (channel : nat) (p : i4b_protocol) | SetStart (channel : nat)
| PutMbuf (channel : nat) (frame : list Z)
| PutDtmf (channel : nat) (digit : Z)
| Trace (channel : nat) (transmit : bool) (frame : list Z)
| SetActivity.

Record lite := Lite {
  dl_cd : list dss1_lite_call_desc;
  dl_outq : list (list Z);
  ifq_maxlen : Z;
  dl_fifo : list dss1_lite_fifo;
  dl_active_call_desc : option nat;
  dl_tx_mbuf : list (option (list Z));
  dl_option_value : Z; dl_option_mask : Z;             (* uint32_t *)
  dl_channel_util : Z;                                 (* uint32_t *)
  dl_tx_end_tick : Z;                                  (* int *)
  dl_audio_channel : Z;
  dl_tx_in : Z; dl_tx_out : Z; dl_tx_num : Z; dl_tx_window : Z;      (* uint8_t *)
  dl_rx_num : Z; dl_next_callref : Z;                  (* uint8_t *)
  dl_is_nt_mode : bool; dl_is_hook_off : bool;
  support_echo_cancel : bool;                          (* dl_methods *)
  no_layer1_dialtone : bool;                           (* dl_ctrl *)
  ticks : Z; hz : Z;
  getmbuf_avail : list bool;
  effects : list lite_effect;
}.

(** ** Computations *)
Definition M (A : Type) : Type := lite -> option (A * lite).
#[global] Instance M_ret : MRet M := λ A a d, Some (a, d).
#[global] Instance M_bind : MBind M := λ A B k m d,
  match m d with Some (a, d') => k a d' | None => None end.

Definition get {A} (f : lite -> A) : M A := λ d, Some (f d, d).
Definition put (f : lite -> lite) : M unit := λ d, Some (tt, f d).
Definition lift {A} (o : option A) : M A := λ d, match o with Some a => Some (a, d) | None => None end.
(** A pointer is followed only if it is set. *)
Definition check (b : bool) : M unit := if b then mret tt else lift None.
Definition iff (b : bool) (m : M unit) : M unit := if b then m else mret tt.
Fixpoint for_all {A} (l : list A) (body : A -> M unit) : M unit :=
  match l with [] => mret tt | x :: l' => body x ;; for_all l' body end.

(** Call descriptors, channels and what is handed out. *)
Definition get_cd (i : nat) : M dss1_lite_call_desc := λ d,
  match dl_cd d !! i with Some cd => Some (cd, d) | None => None end.
Definition cdf {A} (i : nat) (f : dss1_lite_call_desc -> A) : M A := cd ← get_cd i; mret (f cd).
Definition mod_cd (i : nat) (f : dss1_lite_call_desc -> dss1_lite_call_desc) : M unit :=
  cd ← get_cd i; put (λ d, d <| dl_cd ::= <[i := f cd]> |>).
Definition get_fifo (c : nat) : M dss1_lite_fifo := λ d,
  match dl_fifo d !! c with Some f => Some (f, d) | None => None end.
Definition mod_fifo (c : nat) (g : dss1_lite_fifo -> dss1_lite_fifo) : M unit :=
  f ← get_fifo c; put (λ d, d <| dl_fifo ::= <[c := g f]> |>).
Definition emit (e : lite_effect) : M unit := put (λ d, d <| effects ::= λ l, l ++ [e] |>).

(** [i4b_getmbuf(len, M_NOWAIT)] *)
Definition getmbuf (len : nat) : M (option (list Z)) :=
  avail ← get (λ d, head (getmbuf_avail d));
  put (λ d, d <| getmbuf_avail ::= tail |>) ;;
  mret (m_buf <$> i4b_getmbuf (default true avail) len).

(** ** Memory *)

(** Bytes written from an address on; nothing may be written past the end. *)
Definition write_at (pos : nat) (bytes buf : list Z) : option (list Z) :=
  if (pos + length bytes <=? length buf)%nat
  then Some (take pos buf ++ bytes ++ drop (pos + length bytes) buf) else None.
(** [strlen]: the array has to hold a NUL. *)
Fixpoint strlen (a : list Z) : option nat :=
  match a with
  | [] => None
  | c :: a' => if c =? 0 then Some 0%nat else S <$> strlen a'
  end.
(** [strlcpy(dst, src, sizeof(dst))] *)
Definition strlcpy (src dst : list Z) : option (list Z) :=
  write_at 0 (take (length dst - 1) (cstr src) ++ [0]) dst.
