(* ===== verification/Lite.v ===== *)
(** * DSS1 lite: operations (dss1/dss1_lite.c)

    The information elements and messages, the states of a call, the decoder
    of received frames with the numbering of frames, the requests of the
    telephone, and the polling of the D-channel. *)
From S2P Require Import Prelude Mbuf Dss1Types XlawTables Xlaw Dtmf LiteTypes.
Local Open Scope Z_scope.

(** ** Access to frames *)
Definition dss1_lite_peek_mbuf (m : list Z) (offset : Z) : Z := default 0 (m !! Z.to_nat offset).
Definition dss1_lite_poke_mbuf (offset : nat) (data : Z) (m : list Z) : list Z := <[offset := data]> m.

(** The NUL-terminated string at the start of [ptr], in place. *)
Fixpoint dss1_lite_string_filter (ptr : list Z) : option (list Z) :=
  match ptr with
  | [] => None
  | temp :: ptr' =>
      if temp =? 0 then Some ptr
      else
        let keep :=
          ((97 <=? temp) && (temp <=? 122)) || ((65 <=? temp) && (temp <=? 90)) ||
          ((48 <=? temp) && (temp <=? 57)) || (temp =? 42) || (temp =? 35) in
        (cons (if keep then temp else 95)) <$> dss1_lite_string_filter ptr'
  end.

(** The [while(1)] loop, with [fuel] rounds: the position of the element. *)
Fixpoint find_ie_loop (fuel : nat) (m : list Z) (offset ie : Z) : option Z :=
  match fuel with
  | O => None
  | S fuel =>
      let temp := dss1_lite_peek_mbuf m offset in
      if temp =? 0 then Some 0
      else if temp =? ie then Some offset
      else
        let offset := u16 (offset + 1) in
        if bit_set temp 0x80 then find_ie_loop fuel m offset ie
        else find_ie_loop fuel m (u16 (offset + dss1_lite_peek_mbuf m offset + 1)) ie
  end.
(** Every round but the last moves on by a byte at least. *)
Definition dss1_lite_find_ie_mbuf (m : list Z) (offset ie : Z) : option Z :=
  find_ie_loop (S (length m)) m offset ie.

(** ** Tests on a call descriptor *)
Definition dss1_lite_has_call (cd : dss1_lite_call_desc) : bool :=
  match dl_pstate cd with Some _ => true | None => false end.
Definition dss1_lite_has_status_check (cd : dss1_lite_call_desc) : option bool :=
  (λ s, bit_set (st_flags s) 0x01) <$> dl_pstate cd.
Definition dss1_lite_is_incoming (cd : dss1_lite_call_desc) : bool :=
  bit_set (dl_state_index cd) DL_ST_IN_U0.
Definition dss1_lite_get_state (cd : dss1_lite_call_desc) : Z := Z.land (dl_state_index cd) 0xFE.
Definition dss1_lite_get_timeout (cd : dss1_lite_call_desc) : Z := Z.land (dl_state_index cd) 1.

(** [cd->dl_parent->dl_is_nt_mode] *)
Definition dss1_lite_is_nt_mode (i : nat) : M bool :=
  parent ← cdf i dl_parent; check parent ;; get dl_is_nt_mode.
Definition dss1_lite_want_dialtone (i : nat) : M bool :=
  nt ← dss1_lite_is_nt_mode i; no ← get no_layer1_dialtone; bprot ← cdf i dl_channel_bprot;
  mret (nt && negb no && (bprot =? BPROT_NONE)).
(** A method of the telephone. *)
Definition method (i : nat) (e : lite_effect) : M unit :=
  parent ← cdf i dl_parent; check parent ;; emit e.
Definition dss1_lite_set_ring (i : nat) (on : bool) : M unit := method i (SetRing on).
Definition dss1_lite_set_dtmf (i : nat) (pdtmf : list Z) : M unit := method i (SetDtmf pdtmf).
Definition dss1_lite_set_hook_on (i : nat) : M unit := method i SetHookOn.
Definition dss1_lite_set_hook_off (i : nat) : M unit := method i SetHookOff.

(** ** The information elements

    Each function writes its bytes when it is given a pointer and returns
    the number of bytes in either case: here the bytes it writes and the
    number it returns.  [nt] is [dss1_lite_is_nt_mode(cd)]. *)
Definition ie_fn : Type := bool -> dss1_lite_call_desc -> option (list Z * Z).

Definition dss1_lite_ie_header : ie_fn := λ _ cd,
  Some ([0; 0; 0; 0; PD_Q931; 1; dl_curr_callref cd; dl_message_type cd], 8).
Definition dss1_lite_ie_sending_complete : ie_fn := λ _ _, Some ([IEI_SENDCOMPL], 1).
Definition dss1_lite_ie_bearer_cap : ie_fn := λ _ cd,
  Some (if dl_channel_bprot cd =? BPROT_NONE then
          ([IEI_BEARERCAP; 3; IT_CAP_SPEECH; IT_RATE_64K;
            if dl_channel_bsubprot cd =? Dss1Types.BSUBPROT_G711_ALAW then IT_UL1_G711A
            else if dl_channel_bsubprot cd =? Dss1Types.BSUBPROT_G711_ULAW then IT_UL1_G711U
            else 0xA0], 5)
        else ([IEI_BEARERCAP; 2; IT_CAP_UNR_DIG_INFO; IT_RATE_64K], 4)).
Definition EXT_EXCLUSIVE : Z := Z.lor EXT_LAST 0x08.
Definition dss1_lite_ie_channel_id : ie_fn := λ _ cd,
  Some (if negb (dl_channel_allocated cd) then ([], 0)
        else
          let k := dl_channel_id cd in
          ([IEI_CHANNELID; 1;
            Z.lor (if k =? CHAN_NOT_ANY then IE_CHAN_ID_NO
                   else if k =? CHAN_D1 then 0x04
                   else if k =? CHAN_B1 then IE_CHAN_ID_B1
                   else if k =? CHAN_B2 then IE_CHAN_ID_B2
                   else IE_CHAN_ID_ANY) EXT_EXCLUSIVE], 3)).

(** An element around the string [str]: the bytes in front of the string
    and the number returned, for the length of the string, an [int]. *)
Definition lite_string_ie (front : Z -> list Z) (bytes : Z -> Z) (str : list Z) : option (list Z * Z) :=
  n ← strlen str;
  let len := Z.of_nat n in
  if (len <=? 0) || (128 <=? len) then Some ([], 0)
  else Some (front len ++ take n str, u8 (bytes len)).
Definition dss1_lite_ie_keypad : ie_fn := λ _ cd,
  lite_string_ie (λ len, [IEI_KEYPAD; u8 len]) (λ len, len + 2) (dl_keypad cd).
Definition dss1_lite_ie_calling_party_sub (index : nat) : ie_fn := λ _ cd,
  num ← dl_src cd !! index;
  let ton :=
    if num_ton num =? TON_INTERNAT then Z.lor NUMBER_TYPE_PLAN 0x10
    else if num_ton num =? TON_NATIONAL then Z.lor NUMBER_TYPE_PLAN 0x20
    else NUMBER_TYPE_PLAN in
  lite_string_ie
    (λ len,
       if negb (num_prs_ind num =? PRS_NONE) then
         [IEI_CALLINGPN; u8 (len + 2); Z.land ton 0x7F;
          if num_prs_ind num =? PRS_RESTRICT then 0xA0 else 0x80]
       else [IEI_CALLINGPN; u8 (len + 1); ton])
    (λ len, if negb (num_prs_ind num =? PRS_NONE) then len + 4 else len + 3)
    (num_telno num).
Definition dss1_lite_ie_calling_party0 : ie_fn := dss1_lite_ie_calling_party_sub 0.
Definition dss1_lite_ie_calling_party1 : ie_fn := dss1_lite_ie_calling_party_sub 1.
Definition dss1_lite_ie_calling_subaddr_sub (index : nat) : ie_fn := λ _ cd,
  num ← dl_src cd !! index;
  lite_string_ie (λ len, [IEI_CALLINGPS; u8 (1 + len); NUMBER_TYPE_NSAP]) (λ len, len + 3) (num_subaddr num).
Definition dss1_lite_ie_calling_subaddr0 : ie_fn := dss1_lite_ie_calling_subaddr_sub 0.
Definition dss1_lite_ie_calling_subaddr1 : ie_fn := dss1_lite_ie_calling_subaddr_sub 1.
Definition dss1_lite_ie_useruser : ie_fn := λ _ cd,
  lite_string_ie (λ len, [IEI_USERUSER; u8 len]) (λ len, len + 2) (dl_useruser cd).
Definition dss1_lite_ie_display : ie_fn := λ _ cd,
  lite_string_ie (λ len, [IEI_DISPLAY; u8 len]) (λ len, len + 2) (dl_display cd).
Definition dss1_lite_ie_cause : ie_fn := λ nt cd,
  Some ([IEI_CAUSE; 2; if nt then CAUSE_STD_LOC_PUBLIC else CAUSE_STD_LOC_OUT;
         Z.lor (dl_cause_out cd) EXT_LAST], 4).
Definition dss1_lite_ie_callstate : ie_fn := λ _ cd,
  s ← dl_pstate cd; Some ([IEI_CALLSTATE; 1; q931_state s], 3).
Definition dss1_lite_ie_progress : ie_fn := λ nt _,
  Some ([IEI_PROGRESSI; 2; if nt then CAUSE_STD_LOC_PUBLIC else CAUSE_STD_LOC_OUT; 0x88], 4).
Definition dss1_lite_ie_called_party : ie_fn := λ _ cd,
  lite_string_ie (λ len, [IEI_CALLEDPN; u8 (1 + len); NUMBER_TYPE_PLAN]) (λ len, len + 3) (num_telno (dl_part cd)).
Definition dss1_lite_ie_called_subaddr : ie_fn := λ _ cd,
  lite_string_ie (λ len, [IEI_CALLEDPS; u8 (1 + len); NUMBER_TYPE_NSAP]) (λ len, len + 3) (num_subaddr (dl_part cd)).
Definition dss1_lite_ie_deflect : ie_fn := λ _ cd,
  lite_string_ie
    (λ len,
       [IEI_FACILITY; u8 (0x10 + len); 0x91; 0xa1; u8 (0x0D + len); 0x02; 0x02; 0x22;
        0x00; 0x02; 0x01; 0x0d; 0x30; u8 (0x04 + len); 0x30; u8 (0x02 + len); 0x80; u8 len])
    (λ len, 0x12 + len)
    (num_telno (dl_part cd)).
Definition dss1_lite_ie_mcid : ie_fn := λ _ _,
  Some ([IEI_FACILITY; 0x0a; 0x91; 0xa1; 0x07; 0x02; 0x02; 0x22; 0x00; 0x02; 0x01; 0x03], 0x0C).
Definition dss1_lite_ie_date : ie_fn := λ _ cd,
  let len := if 8 <? dl_otime_len cd then 8 else dl_otime_len cd in
  Some (if len =? 0 then ([], 0)
        else ([IEI_DATETIME; len] ++ take (Z.to_nat len) (dl_otime_data cd), 2 + len)).

Definition dss1_lite_ie_tab : list (ie_fn * Z) :=
  [(dss1_lite_ie_header, IE_HEADER_MASK);
   (dss1_lite_ie_sending_complete, IE_SENDING_COMPLETE_MASK);
   (dss1_lite_ie_bearer_cap, IE_BEARER_CAP_MASK);
   (dss1_lite_ie_channel_id, IE_CHANNEL_ID_MASK);
   (dss1_lite_ie_keypad, IE_KEYPAD_MASK);
   (dss1_lite_ie_calling_party0, IE_CALLING_PARTY_MASK);
   (dss1_lite_ie_calling_subaddr0, IE_CALLING_PARTY_MASK);
   (dss1_lite_ie_calling_party1, IE_CALLING_PARTY_MASK);
   (dss1_lite_ie_calling_subaddr1, IE_CALLING_PARTY_MASK);
   (dss1_lite_ie_useruser, IE_USERUSER_MASK);
   (dss1_lite_ie_display, IE_DISPLAY_MASK);
   (dss1_lite_ie_cause, IE_CAUSE_MASK);
   (dss1_lite_ie_callstate, IE_CALLSTATE_MASK);
   (dss1_lite_ie_progress, IE_PROGRESS_MASK);
   (dss1_lite_ie_called_party, IE_CALLED_PARTY_MASK);
   (dss1_lite_ie_called_subaddr, IE_CALLED_PARTY_MASK);
   (dss1_lite_ie_deflect, IE_DEFLECT_MASK);
   (dss1_lite_ie_mcid, IE_MCID_MASK);
   (dss1_lite_ie_date, IE_DATE_TIME_MASK)].

(** ** Sending *)
Definition dss1_lite_queue_mbuf (m : list Z) : M bool :=
  nt ← get dl_is_nt_mode;
  let m := if (nt : bool) then dss1_lite_poke_mbuf 0 (Z.lxor (dss1_lite_peek_mbuf m 0) 0x02) m else m in
  full ← get (λ d, ifq_maxlen d <=? Z.of_nat (length (dl_outq d)));
  if (full : bool) then mret false
  else put (λ d, d <| dl_outq ::= λ q, q ++ [m] |>) ;; mret true.

(** [dl_tx_mbuf[n] = m] *)
Definition set_tx_mbuf (n : Z) (m : option (list Z)) : M unit :=
  len ← get (λ d, length (dl_tx_mbuf d));
  check (Z.to_nat n <? len)%nat ;; put (λ d, d <| dl_tx_mbuf ::= <[Z.to_nat n := m]> |>).
Definition tx_slot (x : Z) : Z := Z.land x (DL_QUEUE_MAX - 1).
Definition dss1_lite_send_mbuf (m : list Z) : M bool :=
  if negb (bit_set (dss1_lite_peek_mbuf m 2) 0x01) then
    delta ← get (λ d, tx_slot (dl_tx_out d - dl_tx_in d));
    if (delta : Z) <? DL_QUEUE_MAX - 1 then
      n ← get (λ d, tx_slot (dl_tx_out d));
      set_tx_mbuf n (Some m) ;;
      put (λ d, d <| dl_tx_out ::= λ x, u8 (x + 1) |>) ;;
      mret true
    else mret false
  else dss1_lite_queue_mbuf m.

(** The elements of the message, one after the other, from [ptr] on. *)
Fixpoint write_ies (ies : list (list Z * Z)) (ptr : nat) (buf : list Z) : option (list Z) :=
  match ies with
  | [] => Some buf
  | (bytes, n) :: ies' => buf' ← write_at ptr bytes buf; write_ies ies' (ptr + Z.to_nat n) buf'
  end.
Definition dss1_lite_send_message (i : nat) (msg_type mask : Z) : M bool :=
  mod_cd i (λ cd, cd <| dl_message_type := msg_type |>) ;;
  nt ← dss1_lite_is_nt_mode i;
  cd ← get_cd i;
  ies ← lift (mapM (λ p : ie_fn * Z, p.1 nt cd)
                (filter (λ p, bit_set p.2 mask = true) dss1_lite_ie_tab));
  let len := foldl (λ len p, u16 (len + p.2)) 0 ies in
  if len =? 0 then mret true
  else
    m ← getmbuf (Z.to_nat len);
    match (m : option (list Z)) with
    | None => mret false
    | Some buf => buf ← lift (write_ies ies 0 buf); dss1_lite_send_mbuf buf
    end.

Definition flag (b : bool) (mask : Z) : Z := if b then mask else 0.
Definition dss1_lite_send_setup (i : nat) (sending_complete : bool) : M bool :=
  dss1_lite_send_message i 0x05
    (Z.lor (foldr Z.lor 0
              [IE_HEADER_MASK; IE_BEARER_CAP_MASK; IE_CHANNEL_ID_MASK; IE_KEYPAD_MASK;
               IE_CALLING_PARTY_MASK; IE_USERUSER_MASK; IE_DISPLAY_MASK])
           (flag sending_complete IE_SENDING_COMPLETE_MASK)).
Definition dss1_lite_send_alert (i : nat) : M bool :=
  dss1_lite_send_message i 0x01 IE_HEADER_MASK.
Definition dss1_lite_send_call_proceeding (i : nat) : M bool :=
  send_chan_id ← dss1_lite_is_nt_mode i;
  send_progress ← dss1_lite_want_dialtone i;
  dss1_lite_send_message i 0x02
    (Z.lor (Z.lor IE_HEADER_MASK (flag send_progress IE_PROGRESS_MASK))
           (flag send_chan_id IE_CHANNEL_ID_MASK)).
Definition dss1_lite_send_information (i : nat) : M bool :=
  dss1_lite_send_message i 0x7b (Z.lor IE_HEADER_MASK IE_CALLED_PARTY_MASK).
Definition dss1_lite_send_connect (i : nat) : M bool :=
  send_date_time ← dss1_lite_is_nt_mode i;
  dss1_lite_send_message i 0x07 (Z.lor IE_HEADER_MASK (flag send_date_time IE_DATE_TIME_MASK)).
Definition dss1_lite_send_connect_acknowledge (i : nat) : M bool :=
  dss1_lite_send_message i 0x0f IE_HEADER_MASK.
Definition dss1_lite_send_disconnect (i : nat) : M bool :=
  dss1_lite_send_message i 0x45 (Z.lor IE_HEADER_MASK IE_CAUSE_MASK).
Definition dss1_lite_send_release_complete (i : nat) (send_cause_flag : bool) : M bool :=
  dss1_lite_send_message i 0x5a
    (if send_cause_flag then Z.lor IE_HEADER_MASK IE_CAUSE_MASK else IE_HEADER_MASK).
Definition dss1_lite_send_status (i : nat) (q850cause : Z) : M bool :=
  mod_cd i (λ cd, cd <| dl_cause_out := q850cause |>) ;;
  retval ← dss1_lite_send_message i 0x7d (Z.lor (Z.lor IE_HEADER_MASK IE_CAUSE_MASK) IE_CALLSTATE_MASK);
  mod_cd i (λ cd, cd <| dl_cause_out := 0 |>) ;;
  mret retval.
Definition dss1_lite_send_status_enquiry (i : nat) : M bool :=
  dss1_lite_send_message i 0x75 IE_HEADER_MASK.
Definition dss1_lite_send_deflect_call (i : nat) : M bool :=
  dss1_lite_send_message i 0x62 (Z.lor IE_HEADER_MASK IE_DEFLECT_MASK).
Definition dss1_lite_send_mcid_call (i : nat) : M bool :=
  dss1_lite_send_message i 0x62 (Z.lor IE_HEADER_MASK IE_MCID_MASK).

(** S- and U-frames. *)
Definition dss1_lite_send_ctrl (sapi cntl : Z) : M bool :=
  let len := if bit_set cntl 0x02 then 3%nat else 4%nat in
  m ← getmbuf len;
  rx_num ← get dl_rx_num;
  match (m : option (list Z)) with
  | None => mret false
  | Some _ =>
      dss1_lite_send_mbuf
        ([sapi; DL_TEI; cntl] ++
         if (4 <=? len)%nat then [if bit_set sapi 0x02 then Z.lor rx_num 1 else rx_num] else [])
  end.

(** ** The states of a call *)
Definition dss1_lite_free_channel (i : nat) : M unit :=
  cd ← get_cd i;
  iff (dl_channel_allocated cd)
    (mod_cd i (λ cd, cd <| dl_channel_allocated := false |>) ;;
     iff ((0 <=? dl_channel_id cd) && (dl_channel_id cd <? DL_NCHAN))
       (check (dl_parent cd) ;;
        put (λ d, d <| dl_channel_util ::= λ u, u32 (Z.land u (Z.lnot (Z.shiftl 1 (dl_channel_id cd)))) |>))).
Definition chan_in_use (util id : Z) : bool := bit_set util (Z.shiftl 1 id).
Definition dss1_lite_alloc_channel (i : nat) : M unit :=
  cd ← get_cd i;
  util ← get dl_channel_util;
  let id := dl_channel_id cd in
  let finish id := mod_cd i (λ cd, cd <| dl_channel_id := id |>) in
  let not_any id := mod_cd i (λ cd, cd <| dl_channel_allocated := true |>) ;; finish id in
  let found id :=
    put (λ d, d <| dl_channel_util ::= λ u, u32 (Z.lor u (Z.shiftl 1 id)) |>) ;; not_any id in
  let not_found := finish CHAN_ANY in
  check (dl_parent cd) ;;
  if dl_channel_allocated cd then finish id
  else if (0 <=? id) && (id <? DL_NCHAN) then
    if chan_in_use util id then not_found else found id
  else if id =? CHAN_NOT_ANY then not_any id
  else if negb (chan_in_use util CHAN_B1) then found CHAN_B1
  else if negb (chan_in_use util CHAN_B2) then found CHAN_B2
  else not_found.

(** The entry of the table for [state]; none if the transition is refused. *)
Definition lite_transition (cd : dss1_lite_call_desc) (state : Z) : option (option dss1_lite_state) :=
  let backwards := Z.land state 0xFE <? Z.land (dl_state_index cd) 0xFE in
  if state =? DL_ST_FREE then
    if negb (dss1_lite_has_call cd) then None else Some None
  else if DL_ST_IN_MAX <=? state then None
  else if DL_ST_IN_U0 <=? state then
    if dss1_lite_has_call cd && (negb (dss1_lite_is_incoming cd) || backwards) then None
    else Some (dss1_lite_in_states !! Z.to_nat (state - DL_ST_IN_U0))
  else if DL_ST_OUT_MAX <=? state then None
  else if dss1_lite_has_call cd && (dss1_lite_is_incoming cd || backwards) then None
  else Some (dss1_lite_out_states !! Z.to_nat (state - DL_ST_OUT_U0)).
Definition dss1_lite_set_state (i : nat) (state : Z) : M bool :=
  cd ← get_cd i;
  match lite_transition cd state with
  | None => mret false
  | Some nst =>
      mod_cd i (λ cd, cd <| dl_timeout_active := false |> <| dl_timeout_tick := 0 |>
                         <| dl_pstate := nst |> <| dl_state_index := state |>) ;;
      match nst with
      | Some s =>
          now ← get ticks; hz ← get hz;
          iff (nonzero (st_timeout s))
            (mod_cd i (λ cd, cd <| dl_timeout_active := true |>
                               <| dl_timeout_tick := i32 (now + st_timeout s * hz) |>)) ;;
          iff (bit_set (st_flags s) 0x01) (dss1_lite_send_status_enquiry i ;; mret tt)
      | None =>
          iff (dl_need_release cd) (dss1_lite_send_release_complete i true ;; mret tt) ;;
          nt ← dss1_lite_is_nt_mode i;
          (if (nt : bool) then dss1_lite_set_hook_on i else dss1_lite_set_ring i false) ;;
          put (λ d, if bool_decide (dl_active_call_desc d = Some i)
                    then d <| dl_active_call_desc := None |> else d) ;;
          dss1_lite_free_channel i
      end ;;
      mret true
  end.

Definition dss1_lite_receive_status (i : nat) (state : Z) : M unit :=
  cd ← get_cd i;
  status_check ← lift (dss1_lite_has_status_check cd);
  let next_state := dss1_lite_get_state cd in
  let stay := dss1_lite_set_state i next_state ;; mret tt in
  iff status_check
    (if (next_state =? DL_ST_OUT_UA) || (next_state =? DL_ST_IN_UA) then iff (state =? 0x0A) stay
     else if (next_state =? DL_ST_OUT_UC) || (next_state =? DL_ST_IN_UC)
     then iff ((state =? 0x0B) || (state =? 0x0C)) stay
     else
       iff (((state =? 0x19) || ((0x01 <=? state) && (state <=? 0x09))) &&
            (dl_status_count cd <? DL_STATUS_COUNT_MAX))
         (mod_cd i (λ cd, cd <| dl_status_count ::= λ n, u8 (n + 1) |>) ;; stay)).

(** ** The elements of a received message *)
Definition decode_chan (nt : bool) (m : list Z) (offset old : Z) : Z :=
  let temp := dss1_lite_peek_mbuf m (u16 (offset + 2)) in
  let exclusive := bit_set temp 0x08 || negb nt in
  let iid := if bit_set temp 0x40 then 1 else 0 in
  if bit_set temp 0x20 then
    if bit_set temp 0x04 then (if exclusive then CHAN_D1 else old)
    else
      match Z.land temp 0x03 with
      | 0 => CHAN_NOT_ANY
      | 1 =>
          if Z.land (dss1_lite_peek_mbuf m (u16 (offset + iid + 3))) 0x2F =? 0x03 then
            if exclusive then Z.land (dss1_lite_peek_mbuf m (u16 (offset + iid + 4))) 0x7F else old
          else old
      | 3 => CHAN_ANY
      | _ => old
      end
  else if bit_set temp 0x04 then (if exclusive then CHAN_D1 else old)
  else
    match Z.land temp 0x03 with
    | 0 => CHAN_NOT_ANY
    | 3 => CHAN_ANY
    | 1 => if exclusive then CHAN_B1 else old
    | _ => if exclusive then CHAN_B2 else old
    end.
Definition dss1_lite_decode_channel_id (i : nat) (m : list Z) (offset : Z) : M unit :=
  cd ← get_cd i;
  iff (negb (dl_channel_allocated cd))
    (nt ← dss1_lite_is_nt_mode i;
     mod_cd i (λ cd, cd <| dl_channel_id := decode_chan nt m offset (dl_channel_id cd) |>)).
Definition dss1_lite_decode_bearer_cap (i : nat) (m : list Z) (offset : Z) : M unit :=
  cd ← get_cd i;
  let law := Z.land (dss1_lite_peek_mbuf m (u16 (offset + 4))) 0x1F in
  iff (dss1_lite_is_incoming cd)
    (mod_cd i (λ cd, cd
       <| dl_channel_bprot := if dss1_lite_peek_mbuf m (u16 (offset + 2)) =? 0x88 then BPROT_RHDLC
                              else BPROT_NONE |>
       <| dl_channel_bsubprot := if law =? 0x02 then Dss1Types.BSUBPROT_G711_ULAW
                                 else if law =? 0x03 then Dss1Types.BSUBPROT_G711_ALAW
                                 else Dss1Types.BSUBPROT_UNKNOWN |>)).
(** The new contents of [telno], of 63 bytes. *)
Definition decode_number (m : list Z) (offset : Z) (telno : list Z) : option (list Z) :=
  let len := dss1_lite_peek_mbuf m (u16 (offset + 1)) in
  let len := if negb (len =? 0) then len - 1 else len in
  let len := if 62 <? len then 62 else len in
  let digit k :=
    let temp := dss1_lite_peek_mbuf m (u16 (offset + 3 + Z.of_nat k)) in
    if temp =? 0 then 95 else temp in
  telno ← write_at 0 (map digit (seq 0 (Z.to_nat len)) ++ [0]) telno;
  dss1_lite_string_filter telno.
Definition dss1_lite_decode_called_party (i : nat) (m : list Z) (offset : Z) : M unit :=
  cd ← get_cd i;
  let ton := Z.shiftr (Z.land (dss1_lite_peek_mbuf m (u16 (offset + 2))) 0x70) 4 in
  telno ← lift (decode_number m offset (num_telno (dl_part cd)));
  mod_cd i (λ cd, cd <| dl_part ::= λ p, p
    <| num_ton := if ton =? 1 then TON_INTERNAT else if ton =? 2 then TON_NATIONAL else TON_OTHER |>
    <| num_subaddr ::= <[0%nat := 0]> |> <| num_prs_ind := PRS_ALLOWED |> <| num_telno := telno |> |>).

(** ** Call descriptors *)
Definition dss1_lite_find_cd (crval : Z) : M (option nat) :=
  get (λ d, fst <$> list_find (λ cd, dss1_lite_has_call cd && (dl_curr_callref cd =? crval) = true) (dl_cd d)).
Definition dss1_lite_alloc_cd (is_incoming : bool) (crval : Z) : M (option nat) :=
  active ← get dl_active_call_desc;
  free ← get (λ d, fst <$> list_find (λ cd, dss1_lite_has_call cd = false) (dl_cd d));
  match (active : option nat), (free : option nat) with
  | Some _, _ | None, None => mret None
  | None, Some i =>
      next ← get dl_next_callref;
      let crval := if is_incoming then crval else Z.lor next 0x01 in
      iff (negb is_incoming)
        (put (λ d, d <| dl_next_callref ::= λ c, Z.land (u8 (c + 0x10)) 0x7F |>)) ;;
      mod_cd i (λ _, zero_lite_cd <| dl_parent := true |> <| dl_channel_id := CHAN_ANY |>
                       <| dl_channel_bprot := BPROT_NONE |>
                       <| dl_channel_bsubprot := Dss1Types.BSUBPROT_G711_ALAW |>
                       <| dl_curr_callref := u8 crval |>) ;;
      dss1_lite_set_state i (if is_incoming then DL_ST_IN_U0 else DL_ST_OUT_U2) ;;
      put (λ d, match dl_active_call_desc d with
                | None => d <| dl_active_call_desc := Some i |>
                | Some _ => d
                end) ;;
      mret (Some i)
  end.

(** ** Requests of the telephone *)

(** [(get_state(cd) != state) && (set_state(cd, state) != 0)] *)
Definition enter_state (i : nat) (state : Z) : M bool :=
  cd ← get_cd i;
  if dss1_lite_get_state cd =? state then mret false else dss1_lite_set_state i state.
Definition dss1_lite_proceed_request (i : nat) : M bool :=
  ok ← enter_state i DL_ST_IN_U6;
  if (ok : bool) then dss1_lite_send_call_proceeding i else mret false.
Definition dss1_lite_alert_request (i : nat) : M bool :=
  dss1_lite_proceed_request i ;;
  ok ← enter_state i DL_ST_IN_U7;
  if (ok : bool) then dss1_lite_send_alert i else mret false.
Definition dss1_lite_setup_accept_resp (i : nat) : M bool :=
  dss1_lite_proceed_request i ;;
  ok ← enter_state i DL_ST_IN_U8;
  if (ok : bool) then
    nt ← dss1_lite_is_nt_mode i;
    iff (negb nt) (dss1_lite_set_ring i false) ;;
    dss1_lite_send_connect i ;;
    mod_cd i (λ cd, cd <| dl_cause_out := 0 |> <| dl_need_release := true |>) ;;
    iff nt (dss1_lite_set_state i DL_ST_IN_UA ;; mret tt) ;;
    mret true
  else mret false.

(** A request on the active call, in TE-mode. *)
Definition te_request (k : nat -> M bool) : M bool :=
  nt ← get dl_is_nt_mode;
  active ← get dl_active_call_desc;
  match (nt : bool), (active : option nat) with
  | true, _ | _, None => mret false
  | false, Some i => k i
  end.
Definition dss1_lite_deflect_request : M bool := te_request dss1_lite_send_deflect_call.
Definition dss1_lite_mcid_request : M bool := te_request dss1_lite_send_mcid_call.
Definition dss1_lite_disconnect_request : M bool :=
  te_request (λ i,
    dss1_lite_proceed_request i ;;
    cd ← get_cd i;
    ok ← enter_state i (if dss1_lite_is_incoming cd then DL_ST_IN_UC else DL_ST_OUT_UC);
    if (ok : bool) then dss1_lite_send_disconnect i else mret false).
Definition release_call (i : nat) (cause : Z) : M bool :=
  mod_cd i (λ cd, cd <| dl_cause_out := cause |>) ;; dss1_lite_set_state i DL_ST_FREE.
Definition dss1_lite_ring_event (ison : bool) : M bool :=
  nt ← get dl_is_nt_mode;
  active ← get dl_active_call_desc;
  if negb nt then mret false
  else
    match (active : option nat) with
    | None =>
        if negb ison then mret true
        else
          cd ← dss1_lite_alloc_cd false 0;
          match (cd : option nat) with
          | None => mret false
          | Some i =>
              dss1_lite_alloc_channel i ;;
              allocated ← cdf i dl_channel_allocated;
              if negb allocated then dss1_lite_set_state i DL_ST_FREE
              else
                retval ← dss1_lite_send_setup i true;
                mod_cd i (λ cd, cd <| dl_need_release := true |>) ;;
                mret retval
          end
    | Some i => if ison then mret true else release_call i CAUSE_Q850_NORMUNSP
    end.
Definition dss1_lite_hook_off : M bool :=
  nt ← get dl_is_nt_mode;
  if (nt : bool) then mret false
  else
    put (λ d, d <| dl_is_hook_off := true |>) ;;
    active ← get dl_active_call_desc;
    match (active : option nat) with
    | None =>
        cd ← dss1_lite_alloc_cd false 0;
        match (cd : option nat) with
        | None => mret false
        | Some i =>
            retval ← dss1_lite_send_setup i false;
            mod_cd i (λ cd, cd <| dl_need_release := true |>) ;;
            mret retval
        end
    | Some i => dss1_lite_setup_accept_resp i
    end.
Definition dss1_lite_hook_on : M bool :=
  nt ← get dl_is_nt_mode;
  if (nt : bool) then mret false
  else
    put (λ d, d <| dl_is_hook_off := false |>) ;;
    active ← get dl_active_call_desc;
    match (active : option nat) with
    | None => mret false
    | Some i => release_call i CAUSE_Q850_NORMUNSP
    end.
(** The R-key does nothing. *)
Definition dss1_lite_r_key_event : M bool := mret false.
Definition dss1_lite_dtmf_event (pdtmf : list Z) : M bool :=
  te_request (λ i,
    cd ← get_cd i;
    if dss1_lite_get_state cd =? DL_ST_OUT_U2 then
      telno ← lift (strlcpy pdtmf (num_telno (dl_part cd)));
      mod_cd i (λ cd, cd <| dl_part ::= λ p, p <| num_telno := telno |> |>) ;;
      dss1_lite_send_information i
    else mret false).

(** ** A received frame *)

(** The elements that are picked up from every message. *)
Definition decode_ies (i : nat) (m : list Z) : M unit :=
  let find ie k :=
    offset ← lift (dss1_lite_find_ie_mbuf m 0x08 ie); k (offset : Z) in
  find IEI_SENDCOMPL (λ o, iff (nonzero o) (mod_cd i (λ cd, cd <| dl_sending_complete := true |>))) ;;
  find IEI_CHANNELID (λ o, iff (nonzero o) (dss1_lite_decode_channel_id i m o)) ;;
  find IEI_BEARERCAP (λ o, iff (nonzero o) (dss1_lite_decode_bearer_cap i m o)) ;;
  find IEI_CALLEDPN (λ o,
    if nonzero o then dss1_lite_decode_called_party i m o
    else mod_cd i (λ cd, cd <| dl_part ::= λ p, p <| num_telno ::= <[0%nat := 0]> |>
           <| num_subaddr ::= <[0%nat := 0]> |> <| num_ton := TON_OTHER |> <| num_prs_ind := PRS_ALLOWED |> |>)).

(** A channel for a call that is under way, if the other end chose one. *)
Definition try_channel (i : nat) : M unit :=
  cd ← get_cd i; iff (negb (dl_channel_id cd =? CHAN_ANY)) (dss1_lite_alloc_channel i).
Definition set_state_channel (i : nat) (state : Z) : M unit :=
  ok ← dss1_lite_set_state i state; iff ok (try_channel i).
Definition lite_no_channel (i : nat) : M unit := release_call i CAUSE_Q850_NOCAVAIL ;; mret tt.
(** [dl_part.telno] as the methods of the telephone see it. *)
Definition part_telno (cd : dss1_lite_call_desc) : list Z := cstr (num_telno (dl_part cd)).

Definition lite_ev_alert (i : nat) : M unit :=
  cd ← get_cd i;
  ok ← dss1_lite_set_state i DL_ST_OUT_U4;
  iff (ok && (dss1_lite_get_state cd <? DL_ST_OUT_U3)) (try_channel i).
Definition lite_ev_call_proceeding (i : nat) : M unit := set_state_channel i DL_ST_OUT_U3.
Definition lite_ev_setup_acknowledge (i : nat) : M unit :=
  cd ← get_cd i;
  if dss1_lite_get_state cd =? DL_ST_OUT_U2 then
    iff (dss1_lite_get_timeout cd =? 0) (set_state_channel i DL_ST_OUT_U2_ACK)
  else lite_ev_call_proceeding i.
Definition lite_ev_setup (i : nat) : M unit :=
  mod_cd i (λ cd, cd <| dl_need_release := true |>) ;;
  dss1_lite_alloc_channel i ;;
  cd ← get_cd i;
  if negb (dl_channel_allocated cd) then lite_no_channel i
  else
    nt ← dss1_lite_is_nt_mode i;
    if negb nt then
      dss1_lite_set_ring i true ;; dss1_lite_alert_request i ;; mret tt
    else
      dss1_lite_set_hook_off i ;;
      iff (nonzero (default 0 (head (num_telno (dl_part cd))))) (dss1_lite_set_dtmf i (part_telno cd)) ;;
      if dl_sending_complete cd then dss1_lite_setup_accept_resp i ;; mret tt
      else release_call i CAUSE_Q850_NORMUNSP ;; mret tt.
Definition lite_ev_connect (i : nat) : M unit :=
  ok ← enter_state i DL_ST_OUT_UA;
  iff ok
    (try_channel i ;;
     cd ← get_cd i;
     if negb (dl_channel_id cd =? CHAN_ANY) && dl_channel_allocated cd then
       dss1_lite_send_connect_acknowledge i ;;
       nt ← dss1_lite_is_nt_mode i;
       iff nt (dss1_lite_set_hook_off i)
     else lite_no_channel i).
Definition lite_ev_connect_acknowledge (i : nat) : M unit :=
  cd ← get_cd i;
  iff (dss1_lite_get_state cd =? DL_ST_IN_U8) (dss1_lite_set_state i DL_ST_IN_UA ;; mret tt).
Definition lite_ev_disconnect (i : nat) : M unit :=
  cd ← get_cd i;
  enter_state i (if dss1_lite_is_incoming cd then DL_ST_IN_UC else DL_ST_OUT_UC) ;; mret tt.
Definition lite_ev_release (i : nat) : M unit := release_call i CAUSE_Q850_NORMUNSP ;; mret tt.
Definition lite_ev_release_complete (i : nat) : M unit :=
  mod_cd i (λ cd, cd <| dl_need_release := false |>) ;; dss1_lite_set_state i DL_ST_FREE ;; mret tt.
Definition lite_ev_information (i : nat) : M unit :=
  cd ← get_cd i;
  iff (dss1_lite_get_state cd =? DL_ST_IN_U0)
    (ok ← dss1_lite_set_state i DL_ST_IN_U0_ACK;
     iff ok
       (nt ← dss1_lite_is_nt_mode i;
        iff (nt && nonzero (default 0 (head (num_telno (dl_part cd)))))
          (dss1_lite_set_dtmf i (part_telno cd)))).
Definition lite_ev_status (i : nat) (m : list Z) : M unit :=
  offset ← lift (dss1_lite_find_ie_mbuf m 0x08 IEI_CALLSTATE);
  iff (nonzero offset)
    (dss1_lite_receive_status i (Z.land (dss1_lite_peek_mbuf m (u16 (offset + 2))) 0x3F)).

(** The [switch (event)]. *)
Definition lite_event (i : nat) (event : Z) (m : list Z) : M unit :=
  match event with
  | 0x01 => lite_ev_alert i
  | 0x0d => lite_ev_setup_acknowledge i
  | 0x02 => lite_ev_call_proceeding i
  | 0x05 => lite_ev_setup i
  | 0x07 => lite_ev_connect i
  | 0x0f => lite_ev_connect_acknowledge i
  | 0x45 => lite_ev_disconnect i
  | 0x4d => lite_ev_release i
  | 0x5a => lite_ev_release_complete i
  | 0x75 => dss1_lite_send_status i CAUSE_Q850_STENQRSP ;; mret tt
  | 0x7b => lite_ev_information i
  | 0x7d => lite_ev_status i m
  | _ => mret tt
  end.
(** From the label [i_frame] on: the call the message belongs to. *)
Definition i_frame (callref event : Z) (m : list Z) : M unit :=
  cd ← (if event =? 0x05 then
          if negb (bit_set callref 0x80) || (Z.land callref 0x7F =? 0) then mret None
          else dss1_lite_alloc_cd true callref
        else dss1_lite_find_cd callref);
  match (cd : option nat) with
  | None => mret tt
  | Some i => decode_ies i m ;; lite_event i event m
  end.

(** Frames that are acknowledged leave the queue. *)
Fixpoint ack_frames (n : nat) : M unit :=
  match n with
  | O => mret tt
  | S n =>
      x ← get dl_tx_in;
      set_tx_mbuf (tx_slot x) None ;;
      put (λ d, d <| dl_tx_in ::= λ x, u8 (x + 1) |>) ;;
      ack_frames n
  end.
(** From the label [check_nr] on.  The variable [tx_nr] is used again for
    the number of acknowledged frames; the loop leaves 255 in it. *)
Definition check_nr (sapi cntl tx_nr : Z) : M unit :=
  let temp := Z.land tx_nr 0xFE in
  tx_num ← get dl_tx_num;
  window ← get dl_tx_window;
  let tx_nr := u8 (temp - tx_num) / 2 in
  put (λ d, d <| dl_tx_num := temp |>) ;;
  (if negb (tx_nr =? 0) then
     if window <? tx_nr then put (λ d, d <| dl_tx_window := 0 |>)
     else
       put (λ d, d <| dl_tx_window ::= λ w, w - tx_nr |>) ;;
       ack_frames (Z.to_nat tx_nr)
   else mret tt) ;;
  let tx_nr := if negb (tx_nr =? 0) && negb (window <? tx_nr) then 255 else tx_nr in
  iff (negb (bit_set sapi 0x02) && bit_set (Z.land cntl tx_nr) 0x01)
    (dss1_lite_send_ctrl 0x02 0x01 ;; mret tt).

Definition dss1_lite_decode_mbuf (m : list Z) : M unit :=
  let sapi := dss1_lite_peek_mbuf m 0 in
  let tei := dss1_lite_peek_mbuf m 1 in
  let cntl := dss1_lite_peek_mbuf m 2 in
  let tx_nr := dss1_lite_peek_mbuf m 3 in
  let proto := dss1_lite_peek_mbuf m 4 in
  let reflen := dss1_lite_peek_mbuf m 5 in
  let callref := Z.lxor (dss1_lite_peek_mbuf m 6) 0x80 in
  let event := dss1_lite_peek_mbuf m 7 in
  if bit_set sapi 0xFC || negb (tei =? DL_TEI) then mret tt
  else
    nt ← get dl_is_nt_mode;
    let sapi := if (nt : bool) then sapi else Z.lxor sapi 0x02 in
    if bit_set cntl 0x01 then
      if negb (bit_set cntl 0x02) then check_nr sapi cntl tx_nr else mret tt
    else if negb (proto =? PD_Q931) || negb (reflen =? 0x01) then mret tt
    else
      rx_num ← get dl_rx_num;
      (if (rx_num : Z) =? cntl then
         put (λ d, d <| dl_rx_num := u8 (rx_num + 2) |>) ;;
         idle ← get (λ d, dl_tx_in d =? dl_tx_out d);
         (if bit_set tx_nr 1 then dss1_lite_send_ctrl 0x02 0x01 ;; mret tt
          else iff idle (dss1_lite_send_ctrl 0x00 0x01 ;; mret tt)) ;;
         i_frame callref event m
       else dss1_lite_send_ctrl 0 0x09 ;; mret tt) ;;
      check_nr sapi cntl tx_nr.

(** ** The channels (dss1_lite_l1if.c), built with HAVE_NO_ECHO_CANCEL *)
Definition disabled (f : dss1_lite_fifo) : bool := protocol_1 (prot_curr f) =? P_DISABLE.

(** The digits the detector reports, one call of [L5_PUT_DTMF] each. *)
Definition put_dtmf (c : nat) (h : put_dtmf_fn) (digit : Z) : M unit :=
  match h with
  | DtmfNull => lift None
  | DtmfLite => dss1_lite_dtmf_event [digit; 0] ;; mret tt
  | DtmfOther => emit (PutDtmf c digit)
  end.
Definition l1_dtmf_detect (c : nat) (m : list Z) : M unit :=
  f ← get_fifo c;
  if bool_decide (L5_PUT_DTMF f = DtmfNull) then mret tt
  else
    let '(digits, rx) := i4b_dtmf_detect m (ft_dtmf_rx f) in
    mod_fifo c (λ f, f <| ft_dtmf_rx := rx |>) ;;
    for_all digits (put_dtmf c (L5_PUT_DTMF f)).
Definition dss1_lite_l5_put_mbuf (c : nat) (m : list Z) : M unit :=
  f ← get_fifo c;
  iff (negb (disabled f))
    (iff (dtmf_detect_enable (prot_curr f) || bool_decide (L5_PUT_DTMF f = DtmfLite)) (l1_dtmf_detect c m) ;;
     iff (is_tracing f) (emit (Trace c true m)) ;;
     mod_fifo c (λ f, f <| out_stat ::= λ n, u32 (n + Z.of_nat (length m)) |>) ;;
     emit (PutMbuf c m)).
Definition dss1_lite_l5_get_mbuf (c : nat) : M (option (list (list Z))) :=
  f ← get_fifo c;
  match disabled f, l5_rx f with
  | true, _ | _, [] => mret None
  | false, m :: rest =>
      mod_fifo c (λ f, f <| l5_rx := rest |>
                         <| in_stat ::= λ n, u32 (n + Z.of_nat (length (default [] (head m)))) |>) ;;
      iff (is_tracing f) (emit (Trace c false (concat m))) ;;
      mret (Some m)
  end.
(** [L5_ALLOC_MBUF]: the contents of a fresh buffer are arbitrary in C. *)
Definition dss1_lite_l5_get_new_mbuf (c : nat) : M (option (list Z)) :=
  f ← get_fifo c;
  if disabled f then mret None
  else
    mod_fifo c (λ f, f <| l5_alloc ::= tail |>) ;;
    mret ((λ n, replicate n 0) <$> (head (l5_alloc f) ≫= id)).

(** The [while] loop in front of a sample, with [fuel] rounds: the channel,
    if there is room for a sample. *)
Fixpoint put_sample_loop (fuel : nat) (c : nat) : M (option dss1_lite_fifo) :=
  match fuel with
  | O => lift None
  | S fuel =>
      f ← get_fifo c;
      if negb (m_tx_curr_rem f =? 0) then mret (Some f)
      else
        match m_tx_curr f with Some m => dss1_lite_l5_put_mbuf c m | None => mret tt end ;;
        m ← dss1_lite_l5_get_new_mbuf c;
        mod_fifo c (λ f, f <| m_tx_curr := m |>) ;;
        match (m : option (list Z)) with
        | None => mret None
        | Some buf =>
            mod_fifo c (λ f, f <| m_tx_curr_ptr := 0%nat |> <| m_tx_curr_rem := u16 (Z.of_nat (length buf)) |>) ;;
            put_sample_loop fuel c
        end
  end.
Definition dss1_lite_l5_put_sample (c : nat) (sample : Z) : M unit :=
  mod_fifo c (λ f, f <| m_tx_last_sample := u16 sample |>) ;;
  f ← get_fifo c;
  if disabled f then mret tt
  else
    room ← put_sample_loop (S (S (length (l5_alloc f)))) c;
    match (room : option dss1_lite_fifo) with
    | None => mret tt
    | Some f =>
        let temp := if protocol_4 (prot_curr f) =? Dss1Types.BSUBPROT_G711_ALAW
                    then i4b_signed_to_alaw sample else i4b_signed_to_ulaw sample in
        buf ← lift (m_tx_curr f ≫= write_at (m_tx_curr_ptr f) [temp]);
        mod_fifo c (λ _, f <| m_tx_curr := Some buf |> <| m_tx_curr_ptr ::= S |>
                           <| m_tx_curr_rem ::= λ n, n - 1 |>)
    end.

(** [m_free(f->m_rx_curr)], and [L5_GET_MBUF] at the end of the chain. *)
Fixpoint get_sample_loop (fuel : nat) (c : nat) : M (option dss1_lite_fifo) :=
  match fuel with
  | O => lift None
  | S fuel =>
      f ← get_fifo c;
      if negb (m_rx_curr_rem f =? 0) then mret (Some f)
      else
        mod_fifo c (λ f, f <| m_rx_curr ::= tail |>) ;;
        (if negb (0 <? length (tail (m_rx_curr f)))%nat then
           m ← dss1_lite_l5_get_mbuf c;
           mod_fifo c (λ f, f <| m_rx_curr := default [] m |>)
         else mret tt) ;;
        f ← get_fifo c;
        match m_rx_curr f with
        | [] => mret None
        | m :: _ =>
            mod_fifo c (λ f, f <| m_rx_curr_ptr := 0%nat |> <| m_rx_curr_rem := u16 (Z.of_nat (length m)) |>) ;;
            get_sample_loop fuel c
        end
  end.
Definition i16 (x : Z) : Z := let y := u16 x in if y <? 32768 then y else y - 65536.
Definition rx_segments (f : dss1_lite_fifo) : nat := (length (m_rx_curr f) + length (concat (l5_rx f)))%nat.
Definition dss1_lite_l5_get_sample (c : nat) : M Z :=
  f ← get_fifo c;
  if disabled f then mret (i16 (m_rx_last_sample f))
  else
    data ← get_sample_loop (S (rx_segments f + length (l5_rx f))) c;
    match (data : option dss1_lite_fifo) with
    | None => f ← get_fifo c; mret (i16 (m_rx_last_sample f))
    | Some f =>
        temp ← lift (head (m_rx_curr f) ≫= λ m, m !! m_rx_curr_ptr f);
        let retval := if protocol_4 (prot_curr f) =? Dss1Types.BSUBPROT_G711_ALAW
                      then tab i4b_alaw_to_signed temp else tab i4b_ulaw_to_signed temp in
        mod_fifo c (λ _, f <| m_rx_curr_ptr ::= S |> <| m_rx_curr_rem ::= λ n, n - 1 |>
                           <| m_rx_last_sample := u16 retval |>) ;;
        mret retval
    end.

(** [L1_FIFO_SETUP] *)
Definition I4B_OPTION_NT_MODE : Z := 0x01.
Definition dss1_lite_l1_setup (c : nat) (p : i4b_protocol) : M unit :=
  mod_fifo c (λ f, f <| prot_curr := p |>) ;;
  let enable := negb (protocol_1 p =? P_DISABLE) in
  (if negb enable then emit (SetProtocol c p)
   else iff (negb (c =? 0)%nat) (put (λ d, d <| dl_audio_channel := Z.of_nat c |>))) ;;
  (if (c =? 0)%nat then
     put (λ d, d <| dl_tx_end_tick := i32 (ticks d - 1) |>
                 <| dl_is_nt_mode := negb (bit_set (dl_option_value d) I4B_OPTION_NT_MODE) |>
                 <| dl_tx_mbuf := replicate (Z.to_nat DL_QUEUE_MAX) None |> <| dl_outq := [] |>
                 <| dl_tx_in := dl_tx_out d |> <| dl_tx_window := 0 |>)
   else
     iff enable
       (mod_fifo c (λ f, f <| ft_dtmf_rx := i4b_dtmf_init_rx (protocol_law (protocol_4 p)) |>
                           <| ft_dtmf_tx := i4b_dtmf_init_tx (protocol_law (protocol_4 p)) |>
                           <| L5_PUT_DTMF ::= λ h, if bool_decide (h = DtmfNull) then DtmfLite else h |>))) ;;
  mod_fifo c (λ f, match m_tx_curr f with
                   | None => f
                   | Some _ => f <| m_tx_curr := None |> <| m_tx_curr_rem := 0 |> <| m_tx_curr_ptr := 0%nat |>
                   end) ;;
  mod_fifo c (λ f, match m_rx_curr f with
                   | [] => f
                   | _ :: _ => f <| m_rx_curr := [] |> <| m_rx_curr_rem := 0 |> <| m_rx_curr_ptr := 0%nat |>
                   end) ;;
  mod_fifo c (λ f, f <| m_tx_last_sample := 0 |> <| m_rx_last_sample := 0 |>) ;;
  iff enable (emit (SetProtocol c p)).
Definition dss1_lite_l1_start (c : nat) : M unit :=
  f ← get_fifo c; iff (negb (disabled f)) (emit (SetStart c)).
(** The numbers of bytes received and sent, which are cleared. *)
Definition dss1_lite_l1_stat (c : nat) : M (Z * Z) :=
  f ← get_fifo c;
  mod_fifo c (λ f, f <| in_stat := 0 |> <| out_stat := 0 |>) ;;
  mret (in_stat f, out_stat f).

(** The commands of [dss1_lite_l1_ioctl]; every other one does nothing. *)
Inductive lite_command :=
| CMR_SETTRACE (mask : Z)
| CMR_SET_I4B_OPTIONS (mask value : Z)
| CMR_SET_L1_ACTIVITY_VARIABLE
| CMR_ENABLE_ECHO_CANCEL (c : nat) | CMR_DISABLE_ECHO_CANCEL (c : nat)
| CMR_ENABLE_DTMF_DETECT (c : nat) | CMR_DISABLE_DTMF_DETECT (c : nat)
| CMR_OTHER.
Definition TRACE_D_RX : Z := 0x04.
Definition TRACE_B_RX : Z := 0x10.
Definition EINVAL : Z := 22.
Definition transp_option (c : nat) (ok : bool) (g : i4b_protocol -> i4b_protocol) : M Z :=
  f ← get_fifo c;
  if PROT_IS_TRANSPARENT (prot_curr f) && ok
  then mod_fifo c (λ f, f <| prot_curr ::= g |>) ;; mret 0 else mret EINVAL.
Definition dss1_lite_l1_ioctl (command : lite_command) : M Z :=
  match command with
  | CMR_SETTRACE temp =>
      put (λ d, d <| dl_fifo ::= imap (λ n f, f <| is_tracing :=
        if (n =? 0)%nat then bit_set temp TRACE_D_RX else bit_set temp TRACE_B_RX |>) |>) ;;
      mret 0
  | CMR_SET_I4B_OPTIONS mask value =>
      put (λ d, d <| dl_option_value ::= λ v,
        Z.lor (Z.land v (Z.lnot (Z.land mask (dl_option_mask d)))) (Z.land value (dl_option_mask d)) |>) ;;
      mret 0
  | CMR_SET_L1_ACTIVITY_VARIABLE => emit SetActivity ;; mret 0
  | CMR_ENABLE_ECHO_CANCEL c =>
      ok ← get support_echo_cancel; transp_option c ok (λ p, p <| echo_cancel_enable := true |>)
  | CMR_DISABLE_ECHO_CANCEL c => transp_option c true (λ p, p <| echo_cancel_enable := false |>)
  | CMR_ENABLE_DTMF_DETECT c => transp_option c true (λ p, p <| dtmf_detect_enable := true |>)
  | CMR_DISABLE_DTMF_DETECT c => transp_option c true (λ p, p <| dtmf_detect_enable := false |>)
  | CMR_OTHER => mret 0
  end.

(** [dss1_lite_attach], on a cleared structure. *)
Definition dss1_lite_attach (echo_cancel no_dialtone : bool) (now freq : Z) : lite :=
  {| dl_cd := replicate DL_NCALL zero_lite_cd; dl_outq := []; ifq_maxlen := 2 * DL_QUEUE_MAX;
     dl_fifo := replicate (Z.to_nat DL_NCHAN) zero_fifo; dl_active_call_desc := None;
     dl_tx_mbuf := replicate (Z.to_nat DL_QUEUE_MAX) None;
     dl_option_value := 0; dl_option_mask := I4B_OPTION_NT_MODE; dl_channel_util := 0;
     dl_tx_end_tick := 0; dl_audio_channel := 0; dl_tx_in := 0; dl_tx_out := 0; dl_tx_num := 0;
     dl_tx_window := 0; dl_rx_num := 0; dl_next_callref := 0; dl_is_nt_mode := false;
     dl_is_hook_off := false; support_echo_cancel := echo_cancel; no_layer1_dialtone := no_dialtone;
     ticks := now; hz := freq; getmbuf_avail := []; effects := [] |}.

(** ** Polling *)

(** The chain of buffers in one buffer. *)
Definition defrag (m : list (list Z)) : M (option (list Z)) :=
  match m with
  | [x] => mret (Some x)
  | _ =>
      let len := Z.to_nat (foldl (λ len x, u16 (len + Z.of_nat (length x))) 0 m) in
      m_new ← getmbuf len;
      mret ((λ _, take len (concat m)) <$> (m_new : option (list Z)))
  end.
Fixpoint peer_get_loop (fuel : nat) : M unit :=
  match fuel with
  | O => lift None
  | S fuel =>
      m ← dss1_lite_l5_get_mbuf 0;
      match (m : option (list (list Z))) with
      | None => mret tt
      | Some m =>
          m ← defrag m;
          match (m : option (list Z)) with Some m => dss1_lite_decode_mbuf m | None => mret tt end ;;
          peer_get_loop fuel
      end
  end.
Definition dss1_lite_peer_get_mbuf : M unit :=
  f ← get_fifo 0; peer_get_loop (S (length (l5_rx f))).

(** The loop that empties the output queue: the bytes sent. *)
Fixpoint peer_put_loop (fuel : nat) (len : Z) : M Z :=
  match fuel with
  | O => lift None
  | S fuel =>
      q ← get dl_outq;
      match (q : list (list Z)) with
      | [] => mret len
      | m :: rest =>
          put (λ d, d <| dl_outq := rest |>) ;;
          dss1_lite_l5_put_mbuf 0 m ;;
          peer_put_loop fuel (i32 (len + Z.of_nat (length m)))
      end
  end.
Definition dss1_lite_peer_put_mbuf : M unit :=
  q ← get dl_outq;
  len ← peer_put_loop (S (length q)) 0;
  put (λ d,
    let delta := Z.quot (i32 (len * hz d)) DL_BPS_MAX in
    let delta := if delta <? 0 then 0 else if 8 * hz d <? delta then 8 * hz d else delta in
    d <| dl_tx_end_tick := i32 (ticks d + delta) |>).

Definition dss1_lite_check_timeout (i : nat) : M unit :=
  cd ← get_cd i;
  now ← get ticks; hz ← get hz;
  let delta := i32 (dl_timeout_tick cd - now) in
  iff (dl_timeout_active cd && ((delta <? 0) || (128 * hz <? delta)))
    (s ← lift (dl_pstate cd); dss1_lite_set_state i (next_state s) ;; mret tt).

(** [m_dup(m, M_NOWAIT)] *)
Definition m_dup (m : list Z) : M (option (list Z)) :=
  avail ← get (λ d, head (getmbuf_avail d));
  put (λ d, d <| getmbuf_avail ::= tail |>) ;;
  mret (if default true avail then Some m else None).
(** The [for] loop over the window, from [n] on, [k] rounds. *)
Fixpoint send_window (k : nat) (n delta : Z) : M unit :=
  match k with
  | O => mret tt
  | S k =>
      slot ← get (λ d, dl_tx_mbuf d !! Z.to_nat (tx_slot (dl_tx_in d + n)));
      m ← lift slot;
      m ← match (m : option (list Z)) with Some m => m_dup m | None => mret None end;
      match (m : option (list Z)) with
      | None => send_window k (n + 1) delta
      | Some m =>
          rx_num ← get dl_rx_num; tx_num ← get dl_tx_num;
          let rx_num := if n =? delta - 1 then Z.lor rx_num 0x01 else rx_num in
          ok ← dss1_lite_queue_mbuf
                 (dss1_lite_poke_mbuf 3 rx_num (dss1_lite_poke_mbuf 2 (u8 (tx_num + 2 * n))
                    (dss1_lite_poke_mbuf 1 DL_TEI (dss1_lite_poke_mbuf 0 0x00 m))));
          if (ok : bool) then send_window k (n + 1) delta else mret tt
      end
  end.
Definition WIN_MAX : Z := DL_QUEUE_MAX / 2.
Definition dss1_lite_process : M unit :=
  f ← get_fifo 0;
  if disabled f then mret tt
  else
    active ← get dl_active_call_desc; off ← get dl_is_hook_off;
    iff (bool_decide (active = None) && off) (dss1_lite_hook_off ;; mret tt) ;;
    dss1_lite_peer_get_mbuf ;;
    dss1_lite_check_timeout 0 ;;
    delta ← get (λ d, i32 (dl_tx_end_tick d - ticks d)); hz ← get hz;
    if (0 <=? delta) && (delta <? 128 * hz) then mret tt
    else
      delta ← get (λ d, Z.min (tx_slot (dl_tx_out d - dl_tx_in d)) WIN_MAX);
      put (λ d, d <| dl_tx_window := delta |>) ;;
      send_window (Z.to_nat delta) 0 delta ;;
      dss1_lite_peer_put_mbuf.
