(* ===== verification/LiteLogic.v ===== *)
(** * DSS1 lite: the ring of frames and a logic for its operations

    [ring] relates the array [dl_tx_mbuf] with its two counters to the list
    of the frames that wait for an acknowledgement.  [vwp] is a weakest
    precondition on the part of the state the call control works on (the
    first call descriptor, the channels in use, the active call, the mode);
    the rest of the state keeps the invariant [rest].  A computation that
    satisfies [vwp] never ends in undefined behaviour. *)
From S2P Require Import Prelude Mbuf Dss1Types XlawTables Xlaw Dtmf LiteTypes Lite.
Local Open Scope Z_scope.

(** ** The ring *)
Lemma tx_slot_mod x : tx_slot x = x mod 8.
Proof. exact (Z.land_ones x 3 ltac:(lia)). Qed.
Lemma u8_mod8 x : u8 x mod 8 = x mod 8.
Proof. unfold u8. apply Z.mod_mod_divide. by exists 32. Qed.

(** The frames [q] wait, the oldest first; each has a header. *)
Record ring (slots : list (option (list Z))) (first last : Z) (q : list (list Z)) : Prop := {
  ring_slots : length slots = 8%nat;
  ring_room : (length q < 8)%nat;
  ring_first : is_u8 first;
  ring_last : last = u8 (first + Z.of_nat (length q));
  ring_lookup : ∀ k, (k < 8)%nat -> slots !! Z.to_nat (tx_slot (first + Z.of_nat k)) = Some (q !! k);
  ring_frames : Forall (λ m, (8 <= length m)%nat) q;
}.

Lemma ring_count slots first last q :
  ring slots first last q -> tx_slot (last - first) = Z.of_nat (length q).
Proof.
  intros [_ Hr _ -> _ _]. rewrite tx_slot_mod.
  rewrite Zminus_mod, u8_mod8, <-Zminus_mod. rewrite Z.mod_small; lia.
Qed.
Lemma ring_slot_lt x : (Z.to_nat (tx_slot x) < 8)%nat.
Proof. rewrite tx_slot_mod. pose proof (Z.mod_pos_bound x 8). lia. Qed.
Lemma ring_slot_inj first j k :
  (j < 8)%nat -> (k < 8)%nat ->
  Z.to_nat (tx_slot (first + Z.of_nat j)) = Z.to_nat (tx_slot (first + Z.of_nat k)) -> j = k.
Proof.
  intros Hj Hk. rewrite !tx_slot_mod. intros H.
  assert ((first + Z.of_nat j) mod 8 = (first + Z.of_nat k) mod 8) as E.
  { pose proof (Z.mod_pos_bound (first + Z.of_nat j) 8). pose proof (Z.mod_pos_bound (first + Z.of_nat k) 8). lia. }
  pose proof (Z.div_mod (first + Z.of_nat j) 8). pose proof (Z.div_mod (first + Z.of_nat k) 8). lia.
Qed.
Lemma tx_slot_u8 x y : tx_slot (u8 x + y) = tx_slot (x + y).
Proof. rewrite !tx_slot_mod, Zplus_mod, u8_mod8, <-Zplus_mod. done. Qed.
Lemma u8_u8_add x y : u8 (u8 x + y) = u8 (x + y).
Proof. unfold u8. by rewrite Zplus_mod_idemp_l. Qed.

Lemma ring_push slots first last q m :
  ring slots first last q -> (length q < 7)%nat -> (8 <= length m)%nat ->
  ring (<[Z.to_nat (tx_slot last) := Some m]> slots) first (u8 (last + 1)) (q ++ [m]).
Proof.
  intros Hr Hl Hm. destruct Hr as [Hs Hq Hf -> Hk Ha]. split;
    [by rewrite length_insert| | done| | |by apply Forall_app_2; [|apply Forall_singleton]].
  - rewrite length_app. cbn. lia.
  - rewrite u8_u8_add, length_app. cbn. f_equal. lia.
  - rewrite <-(Z.add_0_r (u8 _)), tx_slot_u8, Z.add_0_r.
    intros k Hk8. destruct (decide (k = length q)) as [->|Hne].
    + rewrite list_lookup_insert_eq by (rewrite Hs; apply ring_slot_lt).
      by rewrite lookup_app_r, Nat.sub_diag by lia.
    + rewrite list_lookup_insert_ne by (intros E; apply ring_slot_inj in E; lia).
      rewrite Hk by done. f_equal. destruct (decide (k < length q)%nat).
      * by rewrite lookup_app_l by lia.
      * rewrite lookup_ge_None_2 by lia. by rewrite lookup_ge_None_2 by (rewrite length_app; cbn; lia).
Qed.
Lemma ring_pop slots first last m q :
  ring slots first last (m :: q) ->
  ring (<[Z.to_nat (tx_slot first) := None]> slots) (u8 (first + 1)) last q.
Proof.
  intros [Hs Hq Hf -> Hk Ha]. cbn in Hq. split; [by rewrite length_insert|lia|apply u8_range| | |by apply Forall_cons in Ha as [_ ?]].
  - rewrite u8_u8_add. f_equal. cbn. lia.
  - intros k Hk8. rewrite tx_slot_u8. destruct (decide (k = 7%nat)) as [->|Hne].
    + replace (tx_slot (first + 1 + Z.of_nat 7)) with (tx_slot first).
      2: { rewrite !tx_slot_mod. replace (first + 1 + Z.of_nat 7) with (first + 1 * 8) by lia. by rewrite Z_mod_plus_full. }
      rewrite list_lookup_insert_eq by (rewrite Hs; apply ring_slot_lt).
      by rewrite lookup_ge_None_2 by lia.
    + replace (first + 1 + Z.of_nat k) with (first + Z.of_nat (S k)) by lia.
      rewrite list_lookup_insert_ne; [by rewrite Hk by lia|].
      replace (tx_slot first) with (tx_slot (first + Z.of_nat 0)) by (f_equal; lia).
      intros E. apply ring_slot_inj in E; lia.
Qed.
Lemma ring_empty first : is_u8 first -> ring (replicate 8 None) first first [].
Proof.
  intros Hf. split; [done|cbn; lia|done|cbn; by rewrite Z.add_0_r, u8_id| |done].
  intros k Hk. rewrite lookup_replicate_2 by apply ring_slot_lt. done.
Qed.

(** ** The view *)

(** What the call control works on: the first call descriptor (the second
    one stays as it was cleared), the channels in use, the active call, the
    mode, the frames in the ring, and if the kernel has memory throughout. *)
Record view := View {
  v_cd : dss1_lite_call_desc;
  v_util : Z;
  v_active : option nat;
  v_nt : bool;
  v_queue : list (list Z);
  v_mem : bool;
}.
Record holds (d : lite) (v : view) : Prop := {
  h_cd : dl_cd d = [v_cd v; zero_lite_cd];
  h_util : dl_channel_util d = v_util v;
  h_active : dl_active_call_desc d = v_active v;
  h_nt : dl_is_nt_mode d = v_nt v;
  h_ring : ring (dl_tx_mbuf d) (dl_tx_in d) (dl_tx_out d) (v_queue v);
  h_window : 0 <= dl_tx_window d <= Z.of_nat (length (v_queue v));
  h_mem : v_mem v = true -> getmbuf_avail d = [];
}.

(** A buffer with a position and the number of bytes left. *)
Definition cursor_ok (buf : option (list Z)) (pos : nat) (rem : Z) : Prop :=
  match buf with
  | Some m => 0 <= rem ∧ (0 < rem -> Z.of_nat pos + rem <= Z.of_nat (length m))
  | None => rem = 0
  end.
(** A chain of buffers: bytes, none longer than a cluster. *)
Definition chain_ok (m : list (list Z)) : Prop :=
  m ≠ [] ∧ Forall (λ s, Forall is_u8 s ∧ (length s <= MCLBYTES)%nat) m.
Record fifo_ok (f : dss1_lite_fifo) : Prop := {
  fo_tx : cursor_ok (m_tx_curr f) (m_tx_curr_ptr f) (m_tx_curr_rem f);
  fo_rx : cursor_ok (head (m_rx_curr f)) (m_rx_curr_ptr f) (m_rx_curr_rem f);
  fo_l5 : Forall chain_ok (l5_rx f);
}.
Record rest (d : lite) : Prop := {
  r_fifos : length (dl_fifo d) = 3%nat;
  r_fifo : Forall fifo_ok (dl_fifo d);
  r_max : ifq_maxlen d = 16;
  r_outq : (length (dl_outq d) <= 16)%nat;
  r_nums : is_u8 (dl_tx_num d) ∧ is_u8 (dl_rx_num d) ∧ 0 <= dl_next_callref d < 128;
}.

Definition vwp {A} (m : M A) (Q : A -> view -> Prop) (v : view) : Prop :=
  ∀ d, rest d -> holds d v ->
  match m d with
  | Some (a, d') => rest d' ∧ ∃ v', holds d' v' ∧ Q a v'
  | None => False
  end.

Section rules.
Implicit Types (v : view).

Lemma vwp_ret {A} (a : A) (Q : A -> view -> Prop) v : Q a v -> vwp (mret a) Q v.
Proof. intros H d Hr Hh. split; [done|by exists v]. Qed.
Lemma vwp_bind {A B} (m : M A) (k : A -> M B) Q v :
  vwp m (λ a, vwp (k a) Q) v -> vwp (m ≫= k) Q v.
Proof.
  intros Hm d Hr Hh. specialize (Hm d Hr Hh). unfold mbind, M_bind.
  destruct (m d) as [[a d']|]; [|done]. destruct Hm as (Hr' & v' & Hh' & Hk). by apply Hk.
Qed.
Lemma vwp_mono {A} (m : M A) (Q Q' : A -> view -> Prop) v :
  vwp m Q v -> (∀ a v', Q a v' -> Q' a v') -> vwp m Q' v.
Proof.
  intros Hm HQ d Hr Hh. specialize (Hm d Hr Hh). destruct (m d) as [[a d']|]; [|done].
  destruct Hm as (Hr' & v' & Hh' & Hk). split; [done|]. exists v'. auto.
Qed.
Lemma vwp_get {A} (f : lite -> A) (Q : A -> view -> Prop) v : (∀ a, Q a v) -> vwp (get f) Q v.
Proof. intros H d Hr Hh. split; [done|by exists v]. Qed.
Lemma vwp_get_view {A} (f : lite -> A) (g : view -> A) (Q : A -> view -> Prop) v :
  (∀ d, holds d v -> f d = g v) -> Q (g v) v -> vwp (get f) Q v.
Proof. intros Hf H d Hr Hh. split; [done|]. exists v. by rewrite (Hf d Hh). Qed.
Lemma vwp_nt (Q : bool -> view -> Prop) v : Q (v_nt v) v -> vwp (get dl_is_nt_mode) Q v.
Proof. apply (vwp_get_view _ v_nt). by intros d []. Qed.
Lemma vwp_active (Q : option nat -> view -> Prop) v : Q (v_active v) v -> vwp (get dl_active_call_desc) Q v.
Proof. apply (vwp_get_view _ v_active). by intros d []. Qed.
Lemma vwp_util (Q : Z -> view -> Prop) v : Q (v_util v) v -> vwp (get dl_channel_util) Q v.
Proof. apply (vwp_get_view _ v_util). by intros d []. Qed.
Lemma vwp_lift {A} (o : option A) a (Q : A -> view -> Prop) v : o = Some a -> Q a v -> vwp (lift o) Q v.
Proof. intros -> H d Hr Hh. split; [done|by exists v]. Qed.
Lemma vwp_check b (Q : unit -> view -> Prop) v : b = true -> Q tt v -> vwp (check b) Q v.
Proof. intros -> H. by apply vwp_ret. Qed.
Lemma vwp_iff b (m : M unit) (Q : unit -> view -> Prop) v :
  (b = true -> vwp m Q v) -> (b = false -> Q tt v) -> vwp (iff b m) Q v.
Proof. intros Ht Hf. destruct b; [by apply Ht|by apply vwp_ret, Hf]. Qed.
Lemma vwp_if {A} (b : bool) (m n : M A) Q v :
  (b = true -> vwp m Q v) -> (b = false -> vwp n Q v) -> vwp (if b then m else n) Q v.
Proof. destruct b; auto. Qed.

Lemma vwp_put (f : lite -> lite) v' (Q : unit -> view -> Prop) v :
  (∀ d, rest d -> holds d v -> rest (f d) ∧ holds (f d) v') -> Q tt v' -> vwp (put f) Q v.
Proof. intros Hf HQ d Hr Hh. destruct (Hf d Hr Hh). split; [done|by exists v']. Qed.
Lemma vwp_emit e (Q : unit -> view -> Prop) v : Q tt v -> vwp (emit e) Q v.
Proof. apply vwp_put. intros d [] []. by split. Qed.
Lemma vwp_get_cd (Q : dss1_lite_call_desc -> view -> Prop) v : Q (v_cd v) v -> vwp (get_cd 0) Q v.
Proof. intros H d Hr Hh. unfold get_cd. rewrite (h_cd _ _ Hh). cbn. split; [done|by exists v]. Qed.
Lemma vwp_cdf {A} (f : dss1_lite_call_desc -> A) (Q : A -> view -> Prop) v :
  Q (f (v_cd v)) v -> vwp (cdf 0 f) Q v.
Proof. intros H. apply vwp_bind, vwp_get_cd, vwp_ret, H. Qed.
Lemma vwp_mod_cd f (Q : unit -> view -> Prop) v :
  Q tt (v <| v_cd ::= f |>) -> vwp (mod_cd 0 f) Q v.
Proof.
  intros H. apply vwp_bind, vwp_get_cd. revert H. apply vwp_put.
  intros d [] [Hc]. split; [by split|]. split; try done. cbn. by rewrite Hc.
Qed.
Lemma vwp_getmbuf n (Q : option (list Z) -> view -> Prop) v :
  (v_mem v = false ∨ (MCLBYTES < n)%nat -> Q None v) ->
  ((n <= MCLBYTES)%nat -> Q (Some (replicate n 0)) v) -> vwp (getmbuf n) Q v.
Proof.
  intros Hn Hs d Hr Hh. unfold getmbuf, mbind, M_bind, get, put. split; [by destruct Hr|]. exists v. split.
  { destruct Hh as [? ? ? ? ? ? Hm]. split; try done. intros E. cbn. by rewrite (Hm E). }
  unfold i4b_getmbuf. destruct (Nat.ltb_spec MCLBYTES n); [by apply Hn; right|].
  destruct (default true (head (getmbuf_avail d))) eqn:E; [by apply Hs|]. apply Hn. left.
  destruct (v_mem v) eqn:Em; [|done]. by rewrite (h_mem _ _ Hh Em) in E.
Qed.
Lemma vwp_fifo c (Q : dss1_lite_fifo -> view -> Prop) v :
  (c < 3)%nat -> (∀ f, fifo_ok f -> Q f v) -> vwp (get_fifo c) Q v.
Proof.
  intros Hc H d Hr Hh. unfold get_fifo. destruct Hr as [Hl Hf]. 
  destruct (dl_fifo d !! c) as [f|] eqn:E; [|apply lookup_ge_None in E; lia].
  split; [by split|]. exists v. split; [done|]. apply H. by eapply Forall_lookup_1.
Qed.
Lemma vwp_mod_fifo c g (Q : unit -> view -> Prop) v :
  (c < 3)%nat -> (∀ f, fifo_ok f -> fifo_ok (g f)) -> Q tt v -> vwp (mod_fifo c g) Q v.
Proof.
  intros Hc Hg H. apply vwp_bind, vwp_fifo; [done|]. intros f Hf. revert H. apply vwp_put.
  intros d [] []. split; [|by split]. split; try done; cbn [dl_fifo set].
  - cbn. by rewrite length_insert.
  - cbn. apply Forall_insert; auto.
Qed.
End rules.
