(* ===== verification/LiteSend.v ===== *)
(** * DSS1 lite: what is sent

    Both passes of [dss1_lite_send_message] agree: the elements fill the
    buffer exactly, and the frame goes into the ring. *)
From S2P Require Import Prelude Mbuf Dss1Types XlawTables Xlaw Dtmf LiteTypes Lite LiteLogic.
Local Open Scope Z_scope.

(** ** Strings *)
Lemma strlen_spec a : 0 ∈ a -> ∃ n, strlen a = Some n ∧ (n < length a)%nat ∧ take n a = cstr a ∧ n = length (cstr a).
Proof.
  induction a as [|c a IH]; [by intros H%not_elem_of_nil|]. intros [<-|H]%elem_of_cons.
  { exists 0%nat. cbn. repeat split; lia. }
  cbn.
  destruct (Z.eqb_spec c 0) as [->|Hne]; [exists 0%nat; repeat split; cbn; lia|].
  destruct IH as (n & -> & Hn & Ht & Hl); [done|]. exists (S n). cbn. rewrite Ht, <-Hl. repeat split; lia.
Qed.
Lemma write_at_len pos bytes buf buf' : write_at pos bytes buf = Some buf' -> length buf' = length buf.
Proof.
  unfold write_at. destruct (Nat.leb_spec (pos + length bytes) (length buf)); [|done]. intros [= <-].
  rewrite !length_app, length_take, length_drop. lia.
Qed.

(** ** The elements *)
Definition num_ok (n : dss1_lite_num) : Prop :=
  length (num_telno n) = 63%nat ∧ length (num_subaddr n) = 63%nat ∧
  0 ∈ num_telno n ∧ 0 ∈ num_subaddr n.
Record texts_ok (cd : dss1_lite_call_desc) : Prop := {
  to_src : length (dl_src cd) = 2%nat ∧ Forall num_ok (dl_src cd);
  to_part : num_ok (dl_part cd);
  to_otime : 0 <= dl_otime_len cd ∧ length (dl_otime_data cd) = 8%nat;
  to_keypad : 0 ∈ dl_keypad cd;
  to_display : 0 ∈ dl_display cd;
  to_useruser : 0 ∈ dl_useruser cd;
}.

(** An element whose bytes are as many as the number that is returned. *)
Definition ie_exact (p : option (list Z * Z)) : Prop :=
  ∃ l n, p = Some (l, n) ∧ n = Z.of_nat (length l) ∧ (length l <= 145)%nat.
Lemma ie_const l n : n = Z.of_nat (length l) -> (length l <= 145)%nat -> ie_exact (Some (l, n)).
Proof. intros -> Hl. by exists l, (Z.of_nat (length l)). Qed.
Lemma string_ie_exact front bytes str :
  0 ∈ str -> (∀ len, bytes len = Z.of_nat (length (front len)) + len ∧ (length (front len) <= 18)%nat) ->
  ie_exact (lite_string_ie front bytes str).
Proof.
  intros Hs Hf. unfold lite_string_ie. destruct (strlen_spec str Hs) as (n & -> & Hn & _ & _). cbn.
  destruct (_ || _) eqn:E; [apply ie_const; cbn; lia|]. apply orb_false_iff in E as [E1 E2].
  destruct (Hf (Z.of_nat n)) as [Hb Hl]. apply ie_const; rewrite length_app, length_take, Nat.min_l by lia; [|lia].
  rewrite Hb, u8_id by (unfold is_u8; lia). lia.
Qed.

Ltac string_element :=
  apply string_ie_exact; [|intros len; cbn; repeat case_match; cbn; lia].

Lemma src_exact cd k front bytes (g : dss1_lite_num -> list Z) :
  texts_ok cd -> (k < 2)%nat -> (∀ n, num_ok n -> 0 ∈ g n) ->
  (∀ n len, bytes n len = Z.of_nat (length (front n len)) + len ∧ (length (front n len) <= 18)%nat) ->
  ie_exact (num ← dl_src cd !! k; lite_string_ie (front num) (bytes num) (g num)).
Proof.
  intros [[Hl Hf]] Hk Hg Hb. destruct (dl_src cd !! k) as [n|] eqn:E; [|apply lookup_ge_None in E; lia].
  cbn. apply string_ie_exact; [|done]. apply Hg. by eapply Forall_lookup_1.
Qed.

(** Every element the message can have. *)
Lemma ie_tab_exact nt cd f mask :
  texts_ok cd -> (f, mask) ∈ dss1_lite_ie_tab ->
  (mask = IE_CALLSTATE_MASK -> dl_pstate cd ≠ None) -> ie_exact (f nt cd).
Proof.
  intros Ht Hin Hc. pose proof (to_part _ Ht) as (_ & _ & Hp & Hs).
  unfold dss1_lite_ie_tab in Hin.
  repeat (apply elem_of_cons in Hin as [[= -> ->]|Hin]); [..|by apply not_elem_of_nil in Hin].
  - apply ie_const; cbn; lia.
  - apply ie_const; cbn; lia.
  - unfold dss1_lite_ie_bearer_cap. case_match; apply ie_const; cbn; lia.
  - unfold dss1_lite_ie_channel_id. case_match; apply ie_const; cbn; lia.
  - unfold dss1_lite_ie_keypad. string_element. by apply Ht.
  - apply src_exact; [done|lia|by intros n (_ & _ & ? & _)|intros; cbn; repeat case_match; cbn; lia].
  - apply src_exact; [done|lia|by intros n (_ & _ & _ & ?)|intros; cbn; lia].
  - apply src_exact; [done|lia|by intros n (_ & _ & ? & _)|intros; cbn; repeat case_match; cbn; lia].
  - apply src_exact; [done|lia|by intros n (_ & _ & _ & ?)|intros; cbn; lia].
  - unfold dss1_lite_ie_useruser. string_element. by apply Ht.
  - unfold dss1_lite_ie_display. string_element. by apply Ht.
  - apply ie_const; cbn; lia.
  - unfold dss1_lite_ie_callstate. destruct (dl_pstate cd); [apply ie_const; cbn; lia|]. by destruct Hc.
  - apply ie_const; cbn; lia.
  - unfold dss1_lite_ie_called_party. by string_element.
  - unfold dss1_lite_ie_called_subaddr. by string_element.
  - unfold dss1_lite_ie_deflect. by string_element.
  - apply ie_const; cbn; lia.
  - unfold dss1_lite_ie_date. pose proof (to_otime _ Ht) as [H0 H8].
    destruct (Z.ltb_spec 8 (dl_otime_len cd)); cbn -[Z.eqb take].
    + apply ie_const; cbn -[take]; rewrite length_take, H8; cbn; lia.
    + destruct (Z.eqb_spec (dl_otime_len cd) 0); [apply ie_const; cbn; lia|].
      apply ie_const; cbn -[take]; rewrite length_take, H8; lia.
Qed.

(** ** The message *)
Definition selected (mask : Z) : list (ie_fn * Z) :=
  filter (λ p, bit_set p.2 mask = true) dss1_lite_ie_tab.
(** The bytes of a message. *)
Definition message (nt : bool) (cd : dss1_lite_call_desc) (mask : Z) : list Z :=
  concat (map (λ p : ie_fn * Z, (default ([], 0) (p.1 nt cd)).1) (selected mask)).

Lemma mapM_exact nt cd (l : list (ie_fn * Z)) :
  Forall (λ p : ie_fn * Z, ie_exact (p.1 nt cd)) l ->
  ∃ ies, mapM (λ p : ie_fn * Z, p.1 nt cd) l = Some ies ∧
         map fst ies = map (λ p : ie_fn * Z, (default ([], 0) (p.1 nt cd)).1) l ∧
         Forall (λ p, p.2 = Z.of_nat (length p.1) ∧ (length p.1 <= 145)%nat) ies ∧ length ies = length l.
Proof.
  induction 1 as [|p l (b & n & Hp & Hn & Hb) _ (ies & Hm & Hf & Ha & Hl)]; [by exists []|].
  exists ((b, n) :: ies). cbn. rewrite Hp, Hm. cbn. rewrite Hf. repeat split; [|by f_equal].
  by constructor.
Qed.
Lemma foldl_len (ies : list (list Z * Z)) acc :
  Forall (λ p, p.2 = Z.of_nat (length p.1) ∧ (length p.1 <= 145)%nat) ies ->
  0 <= acc -> acc + 145 * Z.of_nat (length ies) < 65536 ->
  foldl (λ len p, u16 (len + p.2)) acc ies = acc + Z.of_nat (length (concat (map fst ies))).
Proof.
  intros H. revert acc. induction H as [|[b n] ies [Hn Hb] _ IH]; intros acc Ha Hl; cbn; [lia|].
  cbn in Hn, Hb, Hl. subst n. rewrite u16_id by (unfold is_u16; lia). rewrite IH by lia.
  rewrite length_app. lia.
Qed.
Lemma write_ies_exact (ies : list (list Z * Z)) pre k :
  Forall (λ p, p.2 = Z.of_nat (length p.1) ∧ (length p.1 <= 145)%nat) ies ->
  length (concat (map fst ies)) = k ->
  write_ies ies (length pre) (pre ++ replicate k 0) = Some (pre ++ concat (map fst ies)).
Proof.
  intros H. revert pre k. induction H as [|[b n] ies [Hn Hb] _ IH]; intros pre k Hk; cbn in *.
  - subst k. done.
  - subst n. unfold write_at. rewrite length_app in Hk.
    destruct (Nat.leb_spec (length pre + length b) (length (pre ++ replicate k 0))) as [_|Hbad].
    2: { rewrite length_app, length_replicate in Hbad. lia. }
    rewrite take_app_length, <-drop_drop, drop_app_length, drop_replicate. cbn.
    rewrite Nat2Z.id, <-length_app, app_assoc, (IH (pre ++ b)) by lia. by rewrite <-app_assoc.
Qed.

Lemma selected_exact nt cd mask :
  texts_ok cd -> (bit_set IE_CALLSTATE_MASK mask = true -> dl_pstate cd ≠ None) ->
  Forall (λ p : ie_fn * Z, ie_exact (p.1 nt cd)) (selected mask).
Proof.
  intros Ht Hc. apply Forall_forall. intros [f k] Hin. apply list_elem_of_filter in Hin as [Hm Hin].
  cbn in *. apply (ie_tab_exact nt cd f k Ht Hin). intros ->. by apply Hc.
Qed.

(** ** Into the ring *)
Lemma vwp_queue_mbuf m (Q : bool -> view -> Prop) v : (∀ b, Q b v) -> vwp (dss1_lite_queue_mbuf m) Q v.
Proof.
  intros H. unfold dss1_lite_queue_mbuf. apply vwp_bind, vwp_nt.
  intros d Hr Hh. unfold mbind, M_bind, get.
  destruct (_ <=? _) eqn:E; [split; [done|by exists v]|].
  apply Z.leb_gt in E. destruct Hr as [H1 H2 H3 H4 H5], Hh. rewrite H3 in E. cbn.
  split; [|exists v; by split]. split; try done. cbn. rewrite length_app. cbn. lia.
Qed.
Lemma vwp_send_i m (Q : bool -> view -> Prop) v :
  bit_set (dss1_lite_peek_mbuf m 2) 1 = false -> (8 <= length m)%nat ->
  ((length (v_queue v) < 7)%nat -> Q true (v <| v_queue := v_queue v ++ [m] |>)) ->
  ((length (v_queue v) = 7)%nat -> Q false v) -> vwp (dss1_lite_send_mbuf m) Q v.
Proof.
  intros Hi Hm Ht Hf d Hr Hh. unfold dss1_lite_send_mbuf. rewrite Hi. cbn [negb].
  unfold mbind, M_bind, get. destruct Hh as [H1 H2 H3 H4 H5 H6 H7].
  rewrite (ring_count _ _ _ _ H5). pose proof (ring_room _ _ _ _ H5).
  destruct (Z.ltb_spec (Z.of_nat (length (v_queue v))) (DL_QUEUE_MAX - 1)) as [Hl|Hl]; unfold DL_QUEUE_MAX in Hl.
  - unfold set_tx_mbuf, mbind, M_bind, get, check. rewrite (ring_slots _ _ _ _ H5).
    destruct (Nat.ltb_spec (Z.to_nat (tx_slot (dl_tx_out d))) 8) as [_|Hbad].
    2: { pose proof (ring_slot_lt (dl_tx_out d)). lia. }
    cbn. split; [by destruct Hr|]. eexists. split; [|apply Ht; lia].
    split; try done; cbn; [by apply ring_push; [|lia|]|]. rewrite length_app. cbn. lia.
  - split; [done|]. exists v. split; [by split|]. apply Hf. lia.
Qed.
Lemma vwp_send_ctrl sapi cntl (Q : bool -> view -> Prop) v :
  bit_set cntl 1 = true -> (∀ b, Q b v) -> vwp (dss1_lite_send_ctrl sapi cntl) Q v.
Proof.
  intros Hc H. unfold dss1_lite_send_ctrl. apply vwp_bind.
  apply (vwp_mono _ (λ _ v', v' = v)); [by apply vwp_getmbuf|]. intros m ? ->.
  apply vwp_bind, vwp_get. intros n. destruct m as [m|]; [|by apply vwp_ret].
  unfold dss1_lite_send_mbuf. cbn [app dss1_lite_peek_mbuf]. unfold dss1_lite_peek_mbuf. cbn [lookup Z.to_nat].
  change (default 0 (_ !! _)) with cntl. rewrite Hc. by apply vwp_queue_mbuf.
Qed.

Lemma message_header nt cd mask :
  bit_set IE_HEADER_MASK mask = true ->
  ∃ tl, message nt cd mask = [0; 0; 0; 0; PD_Q931; 1; dl_curr_callref cd; dl_message_type cd] ++ tl.
Proof.
  intros H. unfold message, selected, dss1_lite_ie_tab. rewrite filter_cons_True by done. cbn. by eexists.
Qed.
Lemma vwp_is_nt_mode (Q : bool -> view -> Prop) v :
  dl_parent (v_cd v) = true -> Q (v_nt v) v -> vwp (dss1_lite_is_nt_mode 0) Q v.
Proof. intros Hp H. apply vwp_bind, vwp_cdf, vwp_bind, vwp_check, vwp_nt; done. Qed.
Lemma vwp_method e (Q : unit -> view -> Prop) v :
  dl_parent (v_cd v) = true -> Q tt v -> vwp (method 0 e) Q v.
Proof. intros Hp H. apply vwp_bind, vwp_cdf, vwp_bind, vwp_check, vwp_emit; done. Qed.

Lemma vwp_send_message t mask (Q : bool -> view -> Prop) v :
  let cd := (v_cd v) <| dl_message_type := t |> in
  texts_ok (v_cd v) -> dl_parent (v_cd v) = true -> bit_set IE_HEADER_MASK mask = true ->
  (bit_set IE_CALLSTATE_MASK mask = true -> dl_pstate (v_cd v) ≠ None) ->
  (v_mem v = false ∨ (7 <= length (v_queue v))%nat ∨ (MCLBYTES < length (message (v_nt v) cd mask))%nat ->
   Q false (v <| v_cd := cd |>)) ->
  ((length (v_queue v) < 7)%nat ->
   Q true (v <| v_cd := cd |> <| v_queue := v_queue v ++ [message (v_nt v) cd mask] |>)) ->
  vwp (dss1_lite_send_message 0 t mask) Q v.
Proof.
  intros cd Ht Hp Hh Hc Hf Hq. unfold dss1_lite_send_message. apply vwp_bind, vwp_mod_cd.
  apply vwp_bind, vwp_is_nt_mode; [done|]. apply vwp_bind, vwp_get_cd.
  change (v_nt (v <| v_cd ::= _ |>)) with (v_nt v). change (v_cd (v <| v_cd ::= _ |>)) with cd.
  assert (texts_ok cd) as Ht' by (destruct Ht; by split).
  destruct (mapM_exact (v_nt v) cd (selected mask)) as (ies & Hm & Hfst & Ha & Hl).
  { by apply selected_exact. }
  apply vwp_bind, (vwp_lift _ ies); [exact Hm|].
  assert (length ies <= 19)%nat as Hn.
  { rewrite Hl. unfold selected. etrans; [apply length_filter|]. cbn. lia. }
  rewrite foldl_len by (first [done|lia]). rewrite Z.add_0_l.
  assert (concat (map fst ies) = message (v_nt v) cd mask) as Hmsg by (unfold message; by rewrite Hfst).
  rewrite Hmsg. destruct (message_header (v_nt v) cd mask Hh) as [tl Htl].
  assert ((Z.of_nat (length (message (v_nt v) cd mask)) =? 0) = false) as ->.
  { apply Z.eqb_neq. rewrite Htl, length_app. cbn [length]. lia. }
  rewrite Nat2Z.id. apply vwp_bind, vwp_getmbuf.
  { intros E. apply vwp_ret, Hf. destruct E; [by left|by right; right]. }
  intros _. apply vwp_bind, (vwp_lift _ (message (v_nt v) cd mask)).
  { pose proof (write_ies_exact ies [] _ Ha eq_refl) as Hw. cbn [length app] in Hw. by rewrite Hmsg in Hw. }
  apply vwp_send_i; [by rewrite Htl|rewrite Htl, length_app; cbn; lia|exact Hq|]. intros E. apply Hf. right. left. cbn in E. lia.
Qed.
