(* ===== verification/LiteSafe.v ===== *)
(** * DSS1 lite: the invariant of the call control

    [good] is the invariant between two calls of the stack: there is one
    call at most, in the first descriptor, and it is the active call; the
    state is the entry of the table for its index, and only a call has a
    timer or a channel; the channels in use are those of the call; the texts
    are terminated.  Every operation of the call control runs without
    undefined behaviour from a good state and leaves one. *)
From S2P Require Import Prelude Mbuf Dss1Types XlawTables Xlaw Dtmf LiteTypes Lite LiteLogic LiteSend.
Local Open Scope Z_scope.

Definition state_entry (idx : Z) : option dss1_lite_state :=
  if idx <? DL_ST_IN_U0 then dss1_lite_out_states !! Z.to_nat idx
  else dss1_lite_in_states !! Z.to_nat (idx - DL_ST_IN_U0).
Definition util_of (cd : dss1_lite_call_desc) : Z :=
  if dl_channel_allocated cd && (0 <=? dl_channel_id cd) && (dl_channel_id cd <? DL_NCHAN)
  then Z.shiftl 1 (dl_channel_id cd) else 0.
Record cd_good (cd : dss1_lite_call_desc) : Prop := {
  cg_texts : texts_ok cd;
  cg_state : ∀ s, dl_pstate cd = Some s -> 0 <= dl_state_index cd ∧ state_entry (dl_state_index cd) = Some s;
  cg_timer : dl_timeout_active cd = true -> dss1_lite_has_call cd = true;
  cg_parent : dss1_lite_has_call cd = true -> dl_parent cd = true;
  cg_channel : dl_channel_allocated cd = true -> dss1_lite_has_call cd = true;
}.
Record good (v : view) : Prop := {
  g_cd : cd_good (v_cd v);
  g_util : v_util v = util_of (v_cd v);
  g_active : v_active v = if dss1_lite_has_call (v_cd v) then Some 0%nat else None;
}.
Definition live (v : view) : Prop := good v ∧ dss1_lite_has_call (v_cd v) = true.

(** What a change of the descriptor has to leave alone. *)
Record same_control (cd cd' : dss1_lite_call_desc) : Prop := {
  sc_texts : texts_ok cd -> texts_ok cd';
  sc_pstate : dl_pstate cd' = dl_pstate cd;
  sc_index : dl_state_index cd' = dl_state_index cd;
  sc_timer : dl_timeout_active cd' = dl_timeout_active cd;
  sc_parent : dl_parent cd' = dl_parent cd;
  sc_alloc : dl_channel_allocated cd' = dl_channel_allocated cd;
  sc_chan : dl_channel_allocated cd = true -> dl_channel_id cd' = dl_channel_id cd;
}.
Lemma same_call cd cd' : same_control cd cd' -> dss1_lite_has_call cd' = dss1_lite_has_call cd.
Proof. intros [_ H _ _ _ _ _]. unfold dss1_lite_has_call. by rewrite H. Qed.
Lemma same_good cd cd' : same_control cd cd' -> cd_good cd -> cd_good cd'.
Proof.
  intros Hs [H1 H2 H3 H4 H5]. pose proof (same_call _ _ Hs) as Hc. destruct Hs as [S1 S2 S3 S4 S5 S6 _].
  split; [by apply S1|by rewrite S2, S3|by rewrite S4, Hc|by rewrite S5, Hc|by rewrite S6, Hc].
Qed.
Lemma same_util cd cd' : same_control cd cd' -> util_of cd' = util_of cd.
Proof.
  intros Hs. unfold util_of. rewrite (sc_alloc _ _ Hs). pose proof (sc_chan _ _ Hs) as Hc.
  destruct (dl_channel_allocated cd); [by rewrite Hc|done].
Qed.
Lemma good_same v cd' q :
  good v -> same_control (v_cd v) cd' -> good (v <| v_cd := cd' |> <| v_queue := q |>).
Proof.
  intros [H1 H2 H3] Hs. split; cbn; [by eapply same_good|by rewrite (same_util _ _ Hs)|].
  by rewrite (same_call _ _ Hs).
Qed.
Lemma live_same v cd' q :
  live v -> same_control (v_cd v) cd' -> live (v <| v_cd := cd' |> <| v_queue := q |>).
Proof. intros [Hg Hc] Hs. split; [by apply good_same|]. cbn. by rewrite (same_call _ _ Hs). Qed.

(** ** Computations that keep a call, and those that may end it *)
Definition keeps_live {A} (m : M A) : Prop := ∀ v, live v -> vwp m (λ _ v', live v') v.
Definition leaves_good {A} (m : M A) : Prop := ∀ v, live v -> vwp m (λ _ v', good v') v.
Definition keeps_good {A} (m : M A) : Prop := ∀ v, good v -> vwp m (λ _ v', good v') v.

Section composition.
Context {A B : Type}.
Implicit Types (m : M A) (k : A -> M B).
Lemma live_ret (a : A) : keeps_live (mret a).
Proof. intros v H. by apply vwp_ret. Qed.
Lemma live_bind m k : keeps_live m -> (∀ a, keeps_live (k a)) -> keeps_live (m ≫= k).
Proof. intros Hm Hk v H. apply vwp_bind. eapply vwp_mono; [by apply Hm|]. intros a v' H'. by apply Hk. Qed.
Lemma live_if (b : bool) m (n : M A) : keeps_live m -> keeps_live n -> keeps_live (if b then m else n).
Proof. by destruct b. Qed.
Lemma live_get (f : lite -> A) : keeps_live (get f).
Proof. intros v H. by apply vwp_get. Qed.
Lemma live_good m : keeps_live m -> leaves_good m.
Proof. intros Hm v H. eapply vwp_mono; [by apply Hm|]. by intros a v' []. Qed.
Lemma leaves_bind m k : keeps_live m -> (∀ a, leaves_good (k a)) -> leaves_good (m ≫= k).
Proof. intros Hm Hk v H. apply vwp_bind. eapply vwp_mono; [by apply Hm|]. intros a v' H'. by apply Hk. Qed.
Lemma leaves_then m k : leaves_good m -> (∀ a, keeps_good (k a)) -> leaves_good (m ≫= k).
Proof. intros Hm Hk v H. apply vwp_bind. eapply vwp_mono; [by apply Hm|]. intros a v' H'. by apply Hk. Qed.
Lemma good_ret (a : A) : keeps_good (mret a).
Proof. intros v H. by apply vwp_ret. Qed.
Lemma good_bind m k : keeps_good m -> (∀ a, keeps_good (k a)) -> keeps_good (m ≫= k).
Proof. intros Hm Hk v H. apply vwp_bind. eapply vwp_mono; [by apply Hm|]. intros a v' H'. by apply Hk. Qed.
Lemma good_get (f : lite -> A) : keeps_good (get f).
Proof. intros v H. by apply vwp_get. Qed.
Lemma good_if (b : bool) m (n : M A) : keeps_good m -> keeps_good n -> keeps_good (if b then m else n).
Proof. by destruct b. Qed.
Lemma leaves_if (b : bool) m (n : M A) : leaves_good m -> leaves_good n -> leaves_good (if b then m else n).
Proof. by destruct b. Qed.
End composition.
Lemma live_iff b m : keeps_live m -> keeps_live (iff b m).
Proof. intros H. destruct b; [done|apply live_ret]. Qed.
Lemma leaves_iff b m : leaves_good m -> leaves_good (iff b m).
Proof. intros H. destruct b; [done|]. apply live_good, live_ret. Qed.
Lemma good_iff b m : keeps_good m -> keeps_good (iff b m).
Proof. intros H. destruct b; [done|apply good_ret]. Qed.
Lemma live_get_cd : keeps_live (get_cd 0).
Proof. intros v H. by apply vwp_get_cd. Qed.
Lemma good_get_cd : keeps_good (get_cd 0).
Proof. intros v H. by apply vwp_get_cd. Qed.
Lemma live_cdf {A} (f : dss1_lite_call_desc -> A) : keeps_live (cdf 0 f).
Proof. intros v H. by apply vwp_cdf. Qed.
Lemma live_parent v : live v -> dl_parent (v_cd v) = true.
Proof. intros [[Hc _ _] H]. by apply Hc. Qed.
Lemma live_nt_mode : keeps_live (dss1_lite_is_nt_mode 0).
Proof. intros v H. by apply vwp_is_nt_mode; [apply live_parent|]. Qed.
Lemma live_method e : keeps_live (method 0 e).
Proof. intros v H. by apply vwp_method; [apply live_parent|]. Qed.
Lemma vwp_mod_live f v : live v -> same_control (v_cd v) (f (v_cd v)) -> vwp (mod_cd 0 f) (λ _, live) v.
Proof. intros H Hf. apply vwp_mod_cd. exact (live_same v (f (v_cd v)) (v_queue v) H Hf). Qed.
Lemma live_cd_mod f : (∀ cd, same_control cd (f cd)) -> keeps_live (mod_cd 0 f).
Proof. intros Hf v H. by apply vwp_mod_live. Qed.
Lemma live_send_message t mask : bit_set IE_HEADER_MASK mask = true -> keeps_live (dss1_lite_send_message 0 t mask).
Proof.
  intros Hm v H. pose proof H as [[[] _ _] Hc].
  assert (same_control (v_cd v) ((v_cd v) <| dl_message_type := t |>)) as Hs by (split; try done; by intros []).
  apply vwp_send_message; [done|by apply live_parent|done| | |].
  - intros _ E. unfold dss1_lite_has_call in Hc. by rewrite E in Hc.
  - intros _. exact (live_same v _ (v_queue v) H Hs).
  - intros _. by apply live_same.
Qed.
Lemma live_send_ctrl sapi cntl : bit_set cntl 1 = true -> keeps_live (dss1_lite_send_ctrl sapi cntl).
Proof. intros Hc v H. by apply vwp_send_ctrl. Qed.
Lemma good_send_ctrl sapi cntl : bit_set cntl 1 = true -> keeps_good (dss1_lite_send_ctrl sapi cntl).
Proof. intros Hc v H. by apply vwp_send_ctrl. Qed.

Create HintDb lite discriminated.
#[export] Hint Resolve live_ret live_get live_get_cd live_cdf live_nt_mode live_method live_send_message
  live_send_ctrl good_ret good_get good_get_cd good_send_ctrl : lite.
#[export] Hint Extern 1 (bit_set _ _ = true) => reflexivity : lite.
(** One step through a computation. *)
Ltac lite_step :=
  match goal with
  | |- keeps_live (_ ≫= _) => apply live_bind; [|intros ?]
  | |- keeps_live (iff _ _) => apply live_iff
  | |- keeps_live (if _ then _ else _) => apply live_if
  | |- keeps_live (match ?x with _ => _ end) => destruct x
  | |- keeps_live (mod_cd 0 _) => apply live_cd_mod; intros ?; split; try done; by intros []
  | |- keeps_good (_ ≫= _) => apply good_bind; [|intros ?]
  | |- keeps_good (iff _ _) => apply good_iff
  | |- keeps_good (if _ then _ else _) => apply good_if
  | |- keeps_good (match ?x with _ => _ end) => destruct x
  end.
(** The routines without a lemma of their own are unfolded. *)
Ltac lite_unfold :=
  let rec head_of m := lazymatch m with ?f _ => head_of f | _ => m end in
  match goal with
  | |- keeps_live ?m => let h := head_of m in unfold h
  | |- keeps_good ?m => let h := head_of m in unfold h
  end.
Ltac lite_crush := repeat first [solve [eauto with lite nocore] | lite_step | lite_unfold].

(** ** Messages *)
Section messages.
Lemma live_send_setup b : keeps_live (dss1_lite_send_setup 0 b).
Proof. apply live_send_message. by destruct b. Qed.
Lemma live_send_call_proceeding : keeps_live (dss1_lite_send_call_proceeding 0).
Proof.
  unfold dss1_lite_send_call_proceeding, dss1_lite_want_dialtone. apply live_bind; [apply live_nt_mode|].
  intros nt. apply live_bind; [lite_crush|]. intros b. apply live_send_message. by destruct nt, b.
Qed.
Lemma live_send_connect : keeps_live (dss1_lite_send_connect 0).
Proof. apply live_bind; [apply live_nt_mode|]. intros nt. apply live_send_message. by destruct nt. Qed.
Lemma live_send_release_complete b : keeps_live (dss1_lite_send_release_complete 0 b).
Proof. apply live_send_message. by destruct b. Qed.
Lemma live_send_status c : keeps_live (dss1_lite_send_status 0 c).
Proof. unfold dss1_lite_send_status. lite_crush. Qed.
End messages.
#[export] Hint Resolve live_send_setup live_send_call_proceeding live_send_connect live_send_release_complete
  live_send_status : lite.
(** ** Channels *)
Lemma chan_free_zero id : chan_in_use 0 id = false.
Proof. unfold chan_in_use, bit_set. by rewrite Z.land_0_l. Qed.
Lemma u32_chan id : 0 <= id < 3 -> u32 (Z.shiftl 1 id) = Z.shiftl 1 id.
Proof. intros H. assert (id = 0 ∨ id = 1 ∨ id = 2) as [->|[->|]] by lia; try done. by subst. Qed.
Lemma live_not_allocated v : good v -> dl_channel_allocated (v_cd v) = false -> v_util v = 0.
Proof. intros [_ -> _] H. unfold util_of. by rewrite H. Qed.

(** A call always gets a channel: no other call can hold one. *)
Definition allotted (cd : dss1_lite_call_desc) : dss1_lite_call_desc :=
  if dl_channel_allocated cd then cd
  else cd <| dl_channel_allocated := true |>
          <| dl_channel_id := let id := dl_channel_id cd in
               if (0 <=? id) && (id <? DL_NCHAN) || (id =? CHAN_NOT_ANY) then id else CHAN_B1 |>.
Lemma live_allotted v u :
  live v -> u = util_of (allotted (v_cd v)) -> live (v <| v_cd ::= allotted |> <| v_util := u |>).
Proof.
  intros [[H1 H2 H3] Hc] ->. unfold allotted.
  assert (∀ cd b id, cd_good cd -> dss1_lite_has_call cd = true ->
            cd_good (cd <| dl_channel_allocated := b |> <| dl_channel_id := id |>)) as Hg.
  { intros cd b id [[] ? ? ? ?] ?. by split. }
  destruct (dl_channel_allocated (v_cd v)) eqn:E; (split; [split|]); cbn; rewrite E; try done. by apply Hg.
Qed.
Lemma view_eq v v' :
  v_cd v = v_cd v' -> v_util v = v_util v' -> v_active v = v_active v' -> v_nt v = v_nt v' ->
  v_queue v = v_queue v' -> v_mem v = v_mem v' -> v = v'.
Proof. destruct v, v'. cbn. congruence. Qed.
Lemma cd_id_same cd : cd <| dl_channel_id := dl_channel_id cd |> = cd.
Proof. by destruct cd. Qed.
Lemma live_alloc_exact (Q : unit -> view -> Prop) v :
  live v -> Q tt (v <| v_cd ::= allotted |> <| v_util := util_of (allotted (v_cd v)) |>) ->
  vwp (dss1_lite_alloc_channel 0) Q v.
Proof.
  intros H HQ. unfold dss1_lite_alloc_channel. apply vwp_bind, vwp_get_cd, vwp_bind, vwp_util.
  apply vwp_bind, vwp_check; [by apply live_parent|].
  pose proof H as [Hg Hc]. pose proof (live_not_allocated v Hg) as Hu. pose proof (g_util v Hg) as Hu'.
  assert (∀ v', v_cd v' = allotted (v_cd v) -> v_util v' = util_of (allotted (v_cd v)) ->
            v_active v' = v_active v -> v_nt v' = v_nt v -> v_queue v' = v_queue v -> v_mem v' = v_mem v -> Q tt v') as HQ'.
  { intros v' E1 E2 E3 E4 E5 E6. by rewrite (view_eq v' (v <| v_cd ::= allotted |> <| v_util := util_of (allotted (v_cd v)) |>)). }
  clear HQ. unfold allotted in HQ'.
  destruct (dl_channel_allocated (v_cd v)) eqn:E; [by apply vwp_mod_cd, HQ'; [apply cd_id_same|..]|].
  rewrite (Hu eq_refl), !chan_free_zero in *. cbn [negb].
  assert (∀ id, 0 <= id < 3 ->
    (if (0 <=? dl_channel_id (v_cd v)) && (dl_channel_id (v_cd v) <? DL_NCHAN) || (dl_channel_id (v_cd v) =? CHAN_NOT_ANY)
     then dl_channel_id (v_cd v) else CHAN_B1) = id ->
    vwp (put (λ d, d <| dl_channel_util ::= λ u, u32 (Z.lor u (Z.shiftl 1 id)) |>) ;;
         mod_cd 0 (λ cd, cd <| dl_channel_allocated := true |>) ;;
         mod_cd 0 (λ cd, cd <| dl_channel_id := id |>)) Q v) as Hfound.
  { intros id Hid Hd. rewrite Hd in HQ'. apply vwp_bind, (vwp_put _ (v <| v_util := Z.shiftl 1 id |>)).
    - intros d [] []. split; [by split|]. split; try done. cbn. rewrite h_util, (Hu eq_refl), Z.lor_0_l. by apply u32_chan.
    - apply vwp_bind, vwp_mod_cd, vwp_mod_cd, HQ'; try done. cbn. unfold util_of. cbn.
      destruct (Z.leb_spec 0 id), (Z.ltb_spec id DL_NCHAN); unfold DL_NCHAN in *; try lia. done. }
  destruct ((0 <=? dl_channel_id (v_cd v)) && (dl_channel_id (v_cd v) <? DL_NCHAN)) eqn:Er.
  { apply Hfound; [|done]. unfold DL_NCHAN in Er. lia. }
  destruct (Z.eqb_spec (dl_channel_id (v_cd v)) CHAN_NOT_ANY) as [En|En]; [|by apply Hfound].
  apply vwp_bind, vwp_mod_cd, vwp_mod_cd, HQ'; try done. cbn. unfold util_of. cbn. rewrite Er. by apply Hu.
Qed.
Lemma live_alloc_channel : keeps_live (dss1_lite_alloc_channel 0).
Proof. intros v H. apply live_alloc_exact; [done|]. by apply live_allotted. Qed.
#[export] Hint Resolve live_alloc_channel : lite.

(** ** The states *)
Lemma state_entry_lookup st :
  0 <= st -> st < DL_ST_IN_MAX -> (DL_ST_IN_U0 <= st \/ st < DL_ST_OUT_MAX) -> ∃ s, state_entry st = Some s.
Proof.
  intros H0 H1 H2. unfold state_entry, DL_ST_IN_U0, DL_ST_IN_MAX, DL_ST_OUT_MAX in *.
  destruct (Z.ltb_spec st 128); apply lookup_lt_is_Some; cbn; lia.
Qed.
Lemma transition_some cd st nst :
  0 <= st -> lite_transition cd st = Some nst ->
  (st = DL_ST_FREE ∧ nst = None ∧ dss1_lite_has_call cd = true) ∨
  (st ≠ DL_ST_FREE ∧ ∃ s, nst = Some s ∧ state_entry st = Some s).
Proof.
  intros H0. unfold lite_transition. destruct (Z.eqb_spec st DL_ST_FREE) as [->|Hf].
  { destruct (dss1_lite_has_call cd); [intros [= <-]; by left|done]. }
  intros H. right. split; [done|].
  destruct (Z.leb_spec DL_ST_IN_MAX st) as [|H1]; [done|].
  destruct (Z.leb_spec DL_ST_IN_U0 st) as [H2|H2].
  - destruct (state_entry_lookup st) as [s Hs]; [done|done|by left|]. exists s. split; [|done].
    unfold state_entry in Hs. rewrite (proj2 (Z.ltb_ge _ _) H2) in Hs. destruct (_ && _); [done|]. congruence.
  - destruct (Z.leb_spec DL_ST_OUT_MAX st) as [|H3]; [done|].
    destruct (state_entry_lookup st) as [s Hs]; [done|done|by right|]. exists s. split; [|done].
    unfold state_entry in Hs. rewrite (proj2 (Z.ltb_lt _ _) H2) in Hs.
    unfold DL_ST_OUT_U0 in H. rewrite Z.sub_0_r in H. destruct (_ && _); [done|]. congruence.
Qed.

Lemma vwp_free_channel (Q : unit -> view -> Prop) v :
  dl_parent (v_cd v) = true -> v_util v = util_of (v_cd v) ->
  Q tt (v <| v_cd ::= λ cd, cd <| dl_channel_allocated := false |> |> <| v_util := 0 |>) ->
  vwp (dss1_lite_free_channel 0) Q v.
Proof.
  intros Hp Hu HQ. unfold dss1_lite_free_channel. apply vwp_bind, vwp_get_cd. unfold util_of in Hu.
  apply vwp_iff; intros E; rewrite E in Hu; cbn [andb] in Hu.
  - apply vwp_bind, vwp_mod_cd. apply vwp_iff; intros Er; rewrite Er in Hu.
    + apply vwp_bind, vwp_check; [done|]. revert HQ. apply vwp_put. intros d [] []. split; [by split|].
      split; try done. cbn. rewrite h_util. cbn. by rewrite Hu, Z.land_lnot_diag.
    + revert HQ. cbn. rewrite <-Hu. by destruct v.
  - replace v with (v <| v_cd ::= λ cd, cd <| dl_channel_allocated := false |> |> <| v_util := 0 |>) at 1; [done|].
    apply view_eq; try done. cbn. revert E. clear. destruct (v_cd v). cbn. by intros ->.
Qed.

(** The end of a call. *)
Lemma vwp_set_state_free (Q : bool -> view -> Prop) v :
  live v -> (∀ v', good v' -> dss1_lite_has_call (v_cd v') = false -> v_nt v' = v_nt v -> Q true v') ->
  vwp (dss1_lite_set_state 0 DL_ST_FREE) Q v.
Proof.
  intros H HQ. pose proof (live_parent v H) as Hp. destruct H as [[[Ht _ _ _ _] Hu Ha] Hc].
  unfold dss1_lite_set_state. apply vwp_bind, vwp_get_cd. unfold lite_transition. rewrite Hc. cbn [Z.eqb negb].
  change (DL_ST_FREE =? DL_ST_FREE) with true. cbn [negb].
  apply vwp_bind, vwp_mod_cd, vwp_bind.
  assert (∀ v', texts_ok (v_cd v') -> dl_pstate (v_cd v') = None -> dl_timeout_active (v_cd v') = false ->
            dl_parent (v_cd v') = true -> util_of (v_cd v') = v_util v' -> v_active v' = v_active v -> v_nt v' = v_nt v ->
            vwp (nt ← dss1_lite_is_nt_mode 0;
                 (if (nt : bool) then dss1_lite_set_hook_on 0 else dss1_lite_set_ring 0 false) ;;
                 put (λ d, if bool_decide (dl_active_call_desc d = Some 0%nat)
                           then d <| dl_active_call_desc := None |> else d) ;;
                 dss1_lite_free_channel 0) (λ _, vwp (mret true) Q) v') as Hend.
  { intros v' H1 H2 H3 H4 H5 H6 H7. apply vwp_bind, vwp_is_nt_mode; [done|]. apply vwp_bind.
    apply (vwp_mono _ (λ _ w, w = v')).
    { apply vwp_if; intros _; by apply vwp_method. }
    intros _ ? ->. apply vwp_bind, (vwp_put _ (v' <| v_active := None |>)).
    { intros d Hr Hh. destruct Hh as [? ? E3 ? ? ? ?]. rewrite E3, H6, Ha, Hc. cbn.
      split; [by destruct Hr|]. by split. }
    apply vwp_free_channel; [done|done|]. apply vwp_ret, HQ; try done; [split; cbn; [split; cbn|..]|]; try done.
    - by destruct H1.
    - by intros s; rewrite H2.
    - by rewrite H3.
    - unfold dss1_lite_has_call. cbn. by rewrite H2.
    - unfold dss1_lite_has_call. cbn. by rewrite H2. }
  apply vwp_bind, vwp_iff; intros En; [|apply Hend; try done; by destruct Ht].
  apply vwp_bind, vwp_send_message; try done; [by destruct Ht|..]; intros _;
    (apply vwp_ret, Hend; try done; by destruct Ht).
Qed.

(** A state that is entered. *)
Definition entered (s : dss1_lite_state) (st : Z) (cd cd' : dss1_lite_call_desc) : Prop :=
  ∃ tick t, cd' = cd <| dl_pstate := Some s |> <| dl_state_index := st |>
    <| dl_timeout_active := nonzero (st_timeout s) |> <| dl_timeout_tick := tick |> <| dl_message_type := t |>.
Lemma live_entered v v' s st :
  live v -> 0 <= st -> state_entry st = Some s -> entered s st (v_cd v) (v_cd v') ->
  v_util v' = v_util v -> v_active v' = v_active v -> live v'.
Proof.
  intros [[[[] _ _ Hp _] Hu Ha] Hc] H0 Hs (tick & t & E) Eu Ea.
  split; [split; [split|..]|]; rewrite ?E; cbn; try done.
  - intros s' [= <-]. done.
  - intros _. by apply Hp.
  - by rewrite Eu, Hu.
  - by rewrite Ea, Ha, Hc.
Qed.
Lemma vwp_set_state_enter s st (Q : bool -> view -> Prop) v :
  live v -> 0 <= st -> lite_transition (v_cd v) st = Some (Some s) ->
  (∀ v', live v' -> entered s st (v_cd v) (v_cd v') -> v_nt v' = v_nt v -> Q true v') ->
  vwp (dss1_lite_set_state 0 st) Q v.
Proof.
  intros H H0 Htr HQ. destruct (transition_some _ _ _ H0 Htr) as [(_ & [=] & _)|(_ & ? & [= <-] & Hs)].
  assert (∀ v' tick, v_cd v' = (v_cd v) <| dl_pstate := Some s |> <| dl_state_index := st |>
            <| dl_timeout_active := nonzero (st_timeout s) |> <| dl_timeout_tick := tick |>
            <| dl_message_type := dl_message_type (v_cd v') |> ->
            v_util v' = v_util v -> v_active v' = v_active v -> v_nt v' = v_nt v -> Q true v') as HQ'.
  { intros v' tick E Eu Ea En. assert (entered s st (v_cd v) (v_cd v')) as He by (by eexists _, _).
    apply HQ; [by eapply live_entered|done|done]. }
  clear HQ. unfold dss1_lite_set_state. apply vwp_bind, vwp_get_cd. rewrite Htr. apply vwp_bind, vwp_mod_cd.
  apply vwp_bind, vwp_bind, vwp_get. intros now. apply vwp_bind, vwp_get. intros freq. apply vwp_bind.
  apply (vwp_mono _ (λ _ v', ∃ tick, v' = v <| v_cd := (v_cd v) <| dl_pstate := Some s |> <| dl_state_index := st |>
    <| dl_timeout_active := nonzero (st_timeout s) |> <| dl_timeout_tick := tick |> |>)).
  { apply vwp_iff; intros E.
    - apply vwp_mod_cd. eexists. apply view_eq; try done. cbn. by rewrite E.
    - exists 0. apply view_eq; try done. cbn. by rewrite E. }
  intros _ ? (tick & ->). pose proof (live_parent v H) as Hp. destruct H as [[[[] _ _ _ _] _ _] _].
  apply vwp_iff; intros E.
  - apply vwp_bind, vwp_send_message; try done; intros _; by apply vwp_ret, vwp_ret, (HQ' _ tick).
  - by apply vwp_ret, (HQ' _ tick).
Qed.

(** Any state: refused, entered, or the end. *)
Lemma vwp_set_state st (Q : bool -> view -> Prop) v :
  live v -> 0 <= st -> Q false v ->
  (∀ s v', st ≠ DL_ST_FREE -> live v' -> entered s st (v_cd v) (v_cd v') -> v_nt v' = v_nt v -> Q true v') ->
  (∀ v', st = DL_ST_FREE -> good v' -> dss1_lite_has_call (v_cd v') = false -> v_nt v' = v_nt v -> Q true v') ->
  vwp (dss1_lite_set_state 0 st) Q v.
Proof.
  intros H H0 Hf He Hd. destruct (lite_transition (v_cd v) st) as [nst|] eqn:E.
  - destruct (transition_some _ _ _ H0 E) as [(-> & -> & _)|(Hn & s & -> & _)].
    + by apply vwp_set_state_free; [|eauto].
    + apply (vwp_set_state_enter s); eauto.
  - unfold dss1_lite_set_state. apply vwp_bind, vwp_get_cd. rewrite E. by apply vwp_ret.
Qed.
Lemma live_set_state st : 0 <= st -> st ≠ DL_ST_FREE -> keeps_live (dss1_lite_set_state 0 st).
Proof. intros H0 Hn v H. apply vwp_set_state; eauto. by intros. Qed.
Lemma leaves_set_state st : 0 <= st -> leaves_good (dss1_lite_set_state 0 st).
Proof.
  intros H0 v H. apply vwp_set_state; [done|done|by destruct H| |by intros]. by intros s v' _ [? _] _ _.
Qed.
#[export] Hint Extern 1 (keeps_live (dss1_lite_set_state 0 _)) => (apply live_set_state; [done|done]) : lite.
