(* ===== verification/LiteCalls.v ===== *)
(** * DSS1 lite: messages, requests and frames keep the invariant *)
From S2P Require Import Prelude Mbuf Dss1Types XlawTables Xlaw Dtmf LiteTypes Lite LiteLogic LiteSend LiteSafe.
Local Open Scope Z_scope.

(** A frame of bytes, no longer than a cluster. *)
Definition frame_ok (m : list Z) : Prop := Forall is_u8 m ∧ (length m <= MCLBYTES)%nat.
Lemma peek_u8 m o : frame_ok m -> is_u8 (dss1_lite_peek_mbuf m o).
Proof.
  intros [Hm _]. unfold dss1_lite_peek_mbuf. destruct (m !! Z.to_nat o) eqn:E; [|by split].
  by eapply Forall_lookup_1.
Qed.
Lemma peek_in m o : 0 <= o -> dss1_lite_peek_mbuf m o ≠ 0 -> o < Z.of_nat (length m).
Proof.
  unfold dss1_lite_peek_mbuf. intros H0 H. destruct (m !! Z.to_nat o) eqn:E; [|done].
  apply lookup_lt_Some in E. lia.
Qed.

(** ** The search for an element ends *)
Lemma find_ie_loop_total fuel m o ie :
  frame_ok m -> 0 <= o -> Z.of_nat (length m) <= Z.of_nat fuel + o -> ∃ r, find_ie_loop (S fuel) m o ie = Some r.
Proof.
  intros Hm. revert o. induction fuel as [|fuel IH]; intros o H0 Hf; cbn [find_ie_loop].
  - destruct (Z.eqb_spec (dss1_lite_peek_mbuf m o) 0) as [|Hn]; [by eexists|].
    apply peek_in in Hn; lia.
  - destruct (Z.eqb_spec (dss1_lite_peek_mbuf m o) 0) as [|Hn]; [by eexists|].
    apply peek_in in Hn; [|done]. destruct (_ =? ie); [by eexists|].
    destruct Hm as [Hu Hl]. unfold MCLBYTES in Hl. rewrite (u16_id (o + 1)) by (unfold is_u16; lia).
    pose proof (peek_u8 m (o + 1)) as Hp. unfold is_u8 in Hp. destruct (bit_set _ 0x80).
    + apply IH; lia.
    + rewrite u16_id by (unfold is_u16; specialize (Hp (conj Hu Hl)); lia).
      specialize (Hp (conj Hu Hl)). apply IH; lia.
Qed.
Lemma find_ie_total m o ie : frame_ok m -> 0 <= o -> ∃ r, dss1_lite_find_ie_mbuf m o ie = Some r.
Proof. intros Hm H0. apply find_ie_loop_total; [done|done|lia]. Qed.

(** ** The dialled number *)
Lemma string_filter_total a :
  0 ∈ a -> ∃ b, dss1_lite_string_filter a = Some b ∧ length b = length a ∧ 0 ∈ b.
Proof.
  induction a as [|c a IH]; [by intros H%not_elem_of_nil|]. intros H. cbn.
  destruct (Z.eqb_spec c 0) as [->|Hne]; [by eexists|].
  apply elem_of_cons in H as [<-|H]; [done|]. destruct (IH H) as (b & -> & Hl & Hb). cbn.
  eexists. split; [done|]. cbn. rewrite Hl. split; [done|]. by right.
Qed.
Lemma write_at_front bytes buf :
  (length bytes <= length buf)%nat -> write_at 0 bytes buf = Some (bytes ++ drop (length bytes) buf).
Proof. intros H. unfold write_at. by rewrite (proj2 (Nat.leb_le _ _)) by (cbn; lia). Qed.
Lemma decode_number_total m o telno :
  frame_ok m -> length telno = 63%nat ->
  ∃ t, decode_number m o telno = Some t ∧ length t = 63%nat ∧ 0 ∈ t.
Proof.
  intros Hm Hl. unfold decode_number. pose proof (peek_u8 m (u16 (o + 1)) Hm) as Hp.
  set (len := dss1_lite_peek_mbuf m (u16 (o + 1))) in *. unfold is_u8 in Hp.
  set (k := if 62 <? (if negb (len =? 0) then len - 1 else len) then _ else _).
  assert (0 <= k <= 62) as Hk.
  { subst k. destruct (Z.eqb_spec len 0); cbn [negb]; destruct (Z.ltb_spec 62 (len - 1)); try lia;
      destruct (Z.ltb_spec 62 len); lia. }
  set (digits := map _ _ ++ [0]). assert (length digits = S (Z.to_nat k)) as Hd.
  { subst digits. rewrite length_app, length_map, length_seq. cbn. lia. }
  rewrite write_at_front by lia. cbn [mbind option_bind].
  destruct (string_filter_total (digits ++ drop (length digits) telno)) as (t & -> & Ht & H0).
  - subst digits. rewrite <-app_assoc. apply elem_of_app. right. by left.
  - exists t. split; [done|]. rewrite Ht, length_app, length_drop. split; [lia|done].
Qed.

Lemma insert_zero (a : list Z) : length a = 63%nat -> length (<[0%nat := 0]> a) = 63%nat ∧ 0 ∈ <[0%nat := 0]> a.
Proof.
  intros H. split; [by rewrite length_insert|]. destruct a; [done|]. cbn. by left.
Qed.
Lemma part_same cd (f : dss1_lite_num -> dss1_lite_num) :
  (num_ok (dl_part cd) -> num_ok (f (dl_part cd))) -> same_control cd (cd <| dl_part ::= f |>).
Proof. intros Hf. split; try done. intros []. split; try done. cbn. by apply Hf. Qed.

(** ** The elements of a message *)
Lemma get_state_ok cd : 0 <= dss1_lite_get_state cd ∧ dss1_lite_get_state cd ≠ DL_ST_FREE.
Proof.
  unfold dss1_lite_get_state. split; [apply Z.land_nonneg; lia|]. intros E.
  apply (f_equal (λ x, Z.testbit x 0)) in E. rewrite Z.land_spec, andb_false_r in E. done.
Qed.
Lemma live_receive_status st : keeps_live (dss1_lite_receive_status 0 st).
Proof.
  intros v H. unfold dss1_lite_receive_status. apply vwp_bind, vwp_get_cd.
  destruct (dl_pstate (v_cd v)) as [s|] eqn:E.
  2: { destruct H as [_ Hc]. unfold dss1_lite_has_call in Hc. by rewrite E in Hc. }
  apply vwp_bind, (vwp_lift _ (bit_set (st_flags s) 1)); [unfold dss1_lite_has_status_check; by rewrite E|].
  destruct (get_state_ok (v_cd v)) as [H0 Hn]. pose proof (live_set_state _ H0 Hn) as Hs.
  revert v H E H0 Hn Hs. intros v H _ _ _ Hs. revert H.
  generalize (dss1_lite_get_state (v_cd v)) (dl_status_count (v_cd v)) Hs. clear Hs. intros z n Hs H.
  revert v H. change (keeps_live (iff (bit_set (st_flags s) 1)
    (if (z =? DL_ST_OUT_UA) || (z =? DL_ST_IN_UA) then iff (st =? 0x0A) (dss1_lite_set_state 0 z ;; mret tt)
     else if (z =? DL_ST_OUT_UC) || (z =? DL_ST_IN_UC)
     then iff ((st =? 0x0B) || (st =? 0x0C)) (dss1_lite_set_state 0 z ;; mret tt)
     else iff (((st =? 0x19) || ((0x01 <=? st) && (st <=? 0x09))) && (n <? DL_STATUS_COUNT_MAX))
       (mod_cd 0 (λ cd, cd <| dl_status_count ::= λ n, u8 (n + 1) |>) ;; dss1_lite_set_state 0 z ;; mret tt)))).
  lite_crush.
Qed.
Lemma live_decode_channel_id m o : keeps_live (dss1_lite_decode_channel_id 0 m o).
Proof.
  intros v H. unfold dss1_lite_decode_channel_id. apply vwp_bind, vwp_get_cd.
  apply vwp_iff; intros E; [|done]. apply vwp_bind, vwp_is_nt_mode; [by apply live_parent|].
  apply vwp_mod_live; [done|]. split; try done; [by intros []|].
  cbn. intros E'. by rewrite E' in E.
Qed.
Lemma live_decode_bearer_cap m o : keeps_live (dss1_lite_decode_bearer_cap 0 m o).
Proof. unfold dss1_lite_decode_bearer_cap. lite_crush. Qed.
Lemma live_decode_called_party m o : frame_ok m -> keeps_live (dss1_lite_decode_called_party 0 m o).
Proof.
  intros Hm v H. unfold dss1_lite_decode_called_party. apply vwp_bind, vwp_get_cd.
  pose proof H as [[[[] _ _ _ _] _ _] _]. destruct to_part as (H1 & H2 & H3 & H4).
  destruct (decode_number_total m o _ Hm H1) as (t & Ht & Hl & H0).
  apply vwp_bind, (vwp_lift _ t); [done|]. apply vwp_mod_live; [done|].
  cbv beta. apply part_same. intros _. destruct (insert_zero _ H2). by repeat split.
Qed.
Lemma live_find m ie (k : Z -> M unit) :
  frame_ok m -> (∀ o, keeps_live (k o)) -> keeps_live (o ← lift (dss1_lite_find_ie_mbuf m 0x08 ie); k o).
Proof.
  intros Hm Hk v H. destruct (find_ie_total m 0x08 ie Hm) as [o Ho]; [done|].
  apply vwp_bind, (vwp_lift _ o); [done|]. by apply Hk.
Qed.
#[export] Hint Resolve live_receive_status live_decode_channel_id live_decode_bearer_cap live_decode_called_party : lite.
Lemma live_decode_ies m : frame_ok m -> keeps_live (decode_ies 0 m).
Proof.
  intros Hm. unfold decode_ies.
  apply live_bind; [apply live_find; [done|intros o; lite_crush]|intros _].
  apply live_bind; [apply live_find; [done|intros o; lite_crush]|intros _].
  apply live_bind; [apply live_find; [done|intros o; lite_crush]|intros _].
  apply live_find; [done|]. intros o. apply live_if; [by apply live_decode_called_party|].
  apply live_cd_mod. intros cd. apply part_same. intros (H1 & H2 & H3 & H4).
  destruct (insert_zero _ H1), (insert_zero _ H2). by repeat split.
Qed.
#[export] Hint Resolve live_decode_ies : lite.

(** ** Requests *)
Lemma live_enter_state st : 0 <= st -> st ≠ DL_ST_FREE -> keeps_live (enter_state 0 st).
Proof. intros H0 Hn. pose proof (live_set_state st H0 Hn). unfold enter_state. lite_crush. Qed.
#[export] Hint Extern 1 (keeps_live (enter_state 0 _)) => (apply live_enter_state; [done|done]) : lite.
Lemma live_proceed_request : keeps_live (dss1_lite_proceed_request 0).
Proof. unfold dss1_lite_proceed_request. lite_crush. Qed.
#[export] Hint Resolve live_proceed_request : lite.
Lemma live_alert_request : keeps_live (dss1_lite_alert_request 0).
Proof. unfold dss1_lite_alert_request. lite_crush. Qed.
Lemma live_setup_accept_resp : keeps_live (dss1_lite_setup_accept_resp 0).
Proof. unfold dss1_lite_setup_accept_resp. lite_crush. Qed.
#[export] Hint Resolve live_alert_request live_setup_accept_resp : lite.
Lemma leaves_release c : leaves_good (release_call 0 c).
Proof. apply leaves_bind; [lite_crush|]. intros _. by apply leaves_set_state. Qed.

(** ** Received messages *)
Section events.
Ltac ends := apply leaves_then; [first [apply leaves_release | by apply leaves_set_state]|intros _; apply good_ret].
Lemma live_try_channel : keeps_live (try_channel 0).
Proof. unfold try_channel. lite_crush. Qed.
Lemma live_set_state_channel st : 0 <= st -> st ≠ DL_ST_FREE -> keeps_live (set_state_channel 0 st).
Proof. intros H0 Hn. pose proof (live_set_state st H0 Hn). pose proof live_try_channel. unfold set_state_channel. lite_crush. Qed.
#[local] Hint Resolve live_try_channel : lite.
#[local] Hint Extern 1 (keeps_live (set_state_channel 0 _)) => (apply live_set_state_channel; [done|done]) : lite.
Lemma leaves_no_channel : leaves_good (lite_no_channel 0).
Proof. ends. Qed.
Lemma leaves_setup : leaves_good (lite_ev_setup 0).
Proof.
  unfold lite_ev_setup. apply leaves_bind; [lite_crush|intros _]. apply leaves_bind; [lite_crush|intros _].
  apply leaves_bind; [lite_crush|intros cd]. apply leaves_if; [apply leaves_no_channel|].
  apply leaves_bind; [lite_crush|intros nt]. apply leaves_if; [apply live_good; lite_crush|].
  apply leaves_bind; [lite_crush|intros _]. apply leaves_bind; [lite_crush|intros _].
  apply leaves_if; [apply live_good; lite_crush|ends].
Qed.
Lemma leaves_connect : leaves_good (lite_ev_connect 0).
Proof.
  unfold lite_ev_connect. apply leaves_bind; [lite_crush|intros ok]. apply leaves_iff.
  apply leaves_bind; [lite_crush|intros _]. apply leaves_bind; [lite_crush|intros cd].
  apply leaves_if; [apply live_good; lite_crush|apply leaves_no_channel].
Qed.
Lemma live_status m : frame_ok m -> keeps_live (lite_ev_status 0 m).
Proof. intros Hm. apply live_find; [done|]. intros o. lite_crush. Qed.
Lemma live_disconnect : keeps_live (lite_ev_disconnect 0).
Proof.
  unfold lite_ev_disconnect. apply live_bind; [lite_crush|intros cd]. apply live_bind; [|intros _; lite_crush].
  destruct (dss1_lite_is_incoming cd); lite_crush.
Qed.
Lemma leaves_event e m : frame_ok m -> leaves_good (lite_event 0 e m).
Proof.
  intros Hm. unfold lite_event.
  repeat match goal with |- leaves_good (match ?x with _ => _ end) => destruct x end;
    try (by apply live_good, live_ret); try apply leaves_setup; try apply leaves_connect;
    try (by apply live_good, live_status); try (by apply live_good, live_disconnect);
    try (unfold lite_ev_release; ends);
    try (unfold lite_ev_release_complete; apply leaves_bind; [lite_crush|intros _]; ends);
    apply live_good; lite_crush.
Qed.
End events.

(** ** Call descriptors *)
Lemma vwp_find_cd c (Q : option nat -> view -> Prop) v :
  good v -> Q None v -> (live v -> Q (Some 0%nat) v) -> vwp (dss1_lite_find_cd c) Q v.
Proof.
  intros H Hn Hs. unfold dss1_lite_find_cd.
  apply (vwp_get_view _ (λ v, fst <$> list_find
    (λ cd, dss1_lite_has_call cd && (dl_curr_callref cd =? c) = true) [v_cd v; zero_lite_cd])).
  { intros d Hh. by rewrite (h_cd _ _ Hh). }
  cbn. case_decide as E; cbn; [|done]. apply andb_true_iff in E as [E _]. by apply Hs.
Qed.
(** The descriptor of a new call. *)
Definition fresh_cd (c : Z) : dss1_lite_call_desc :=
  zero_lite_cd <| dl_parent := true |> <| dl_channel_id := CHAN_ANY |> <| dl_channel_bprot := BPROT_NONE |>
    <| dl_channel_bsubprot := Dss1Types.BSUBPROT_G711_ALAW |> <| dl_curr_callref := u8 c |>.
Lemma fresh_texts c : texts_ok (fresh_cd c).
Proof.
  split; cbn; try (by left); try done; [split; [done|repeat constructor]|]; repeat split; by left.
Qed.
(** A state without enquiry, entered from any descriptor. *)
Lemma vwp_start_call s st (Q : bool -> view -> Prop) v :
  lite_transition (v_cd v) st = Some (Some s) -> bit_set (st_flags s) 1 = false ->
  (∀ v', entered s st (v_cd v) (v_cd v') -> v_util v' = v_util v -> v_active v' = v_active v ->
         v_nt v' = v_nt v -> v_queue v' = v_queue v -> Q true v') ->
  vwp (dss1_lite_set_state 0 st) Q v.
Proof.
  intros Ht Hf HQ. unfold dss1_lite_set_state. apply vwp_bind, vwp_get_cd. rewrite Ht.
  apply vwp_bind, vwp_mod_cd, vwp_bind, vwp_bind, vwp_get. intros now. apply vwp_bind, vwp_get. intros freq.
  rewrite Hf. apply vwp_bind, vwp_iff; intros E; [apply vwp_mod_cd|]; apply vwp_ret, vwp_ret, HQ; try reflexivity.
  - exists (i32 (now + st_timeout s * freq)), (dl_message_type (v_cd v)). cbn. rewrite E. by destruct (v_cd v).
  - exists 0, (dl_message_type (v_cd v)). cbn. rewrite E. by destruct (v_cd v).
Qed.
Lemma vwp_alloc_cd (incoming : bool) (c : Z) (Q : option nat -> view -> Prop) v :
  good v -> (live v -> Q None v) ->
  (∀ v' c' s, dss1_lite_has_call (v_cd v) = false -> live v' ->
    entered s (if incoming then DL_ST_IN_U0 else DL_ST_OUT_U2) (fresh_cd c') (v_cd v') ->
    v_queue v' = v_queue v -> v_nt v' = v_nt v -> (incoming = true -> c' = c) -> Q (Some 0%nat) v') ->
  vwp (dss1_lite_alloc_cd incoming c) Q v.
Proof.
  intros H Hn HQ. unfold dss1_lite_alloc_cd. apply vwp_bind, vwp_active, vwp_bind.
  apply (vwp_get_view _ (λ v, fst <$> list_find (λ cd, dss1_lite_has_call cd = false) [v_cd v; zero_lite_cd])).
  { intros d Hh. by rewrite (h_cd _ _ Hh). }
  pose proof (g_active v H) as Ha. cbn. rewrite Ha. destruct (dss1_lite_has_call (v_cd v)) eqn:Hc.
  { by apply vwp_ret, Hn. }
  cbn. apply vwp_bind, vwp_get. intros next. apply vwp_bind.
  apply (vwp_mono _ (λ _ v', v' = v)).
  { apply vwp_iff; [|done]. intros _. apply (vwp_put _ v); [|done]. intros d [? ? ? ? (? & ? & ?)] [].
    split; [|by split]. split; try done. cbn. split; [done|]. split; [done|].
    change 127 with (Z.ones 7). rewrite Z.land_ones by lia. apply Z.mod_pos_bound. lia. }
  intros _ ? ->. apply vwp_bind, vwp_mod_cd, vwp_bind.
  set (c' := if incoming then c else Z.lor next 1). set (st := if incoming then DL_ST_IN_U0 else DL_ST_OUT_U2).
  destruct (state_entry st) as [s|] eqn:Es; [|by subst st; destruct incoming].
  assert (lite_transition (fresh_cd c') st = Some (Some s) ∧ st_flags s = 0) as [Ht Hf].
  { subst st. destruct incoming; injection Es as <-; done. }
  apply (vwp_start_call s st); [done|by rewrite Hf|].
  intros v' He Eu Ea En Eq. apply vwp_bind, (vwp_put _ (v' <| v_active := Some 0%nat |>)).
  { intros d [] []. rewrite h_active, Ea. cbn. rewrite Ha. split; [by split|by split]. }
  apply vwp_ret. apply (HQ _ c' s); [done| |done|done|done|by intros ->].
  pose proof He as (tick & t & E). pose proof (fresh_texts c') as [].
  split; [split; [split|..]|]; cbn; rewrite ?E; cbn; try done.
  - intros s' [= <-]. by subst st; destruct incoming.
  - rewrite Eu. cbn. rewrite (live_not_allocated v H); [done|]. destruct (dl_channel_allocated (v_cd v)) eqn:E'; [|done].
    destruct H as [[] _ _]. by rewrite cg_channel in Hc.
Qed.

Lemma good_i_frame c e m : frame_ok m -> keeps_good (i_frame c e m).
Proof.
  intros Hm v H. unfold i_frame. apply vwp_bind.
  apply (vwp_mono _ (λ r v', match r with Some i => i = 0%nat ∧ live v' | None => good v' end)).
  - apply vwp_if; intros _; [apply vwp_if; intros _; [by apply vwp_ret|]|by apply vwp_find_cd].
    apply vwp_alloc_cd; [done|by intros [? _]|]. by intros v' c' s _ Hl _ _ _ _.
  - intros [i|] v' Hv; [destruct Hv as [-> Hv]|by apply vwp_ret].
    revert v' Hv. apply leaves_bind; [by apply live_decode_ies|]. intros _. by apply leaves_event.
Qed.

(** ** The numbers of frames *)
Lemma ack_frames_run n : ∀ d v,
  rest d -> dl_cd d = [v_cd v; zero_lite_cd] -> dl_channel_util d = v_util v ->
  dl_active_call_desc d = v_active v -> dl_is_nt_mode d = v_nt v ->
  ring (dl_tx_mbuf d) (dl_tx_in d) (dl_tx_out d) (v_queue v) ->
  (v_mem v = true -> getmbuf_avail d = []) -> 0 <= dl_tx_window d -> dl_tx_window d + Z.of_nat n <= Z.of_nat (length (v_queue v)) ->
  ∃ d', ack_frames n d = Some (tt, d') ∧ rest d' ∧ holds d' (v <| v_queue ::= drop n |>).
Proof.
  induction n as [|n IH]; intros d v Hr H1 H2 H3 H4 H5 Hm H6 H7.
  { exists d. split; [done|]. split; [done|]. split; try done. cbn. rewrite drop_0. lia. }
  cbn [ack_frames]. unfold mbind, M_bind, get, set_tx_mbuf, mbind, M_bind, get, check.
  rewrite (ring_slots _ _ _ _ H5), (proj2 (Nat.ltb_lt _ _) (ring_slot_lt (dl_tx_in d))). cbn.
  destruct (v_queue v) as [|x q] eqn:E; [cbn in H7; lia|]. cbn [length] in H7.
  match goal with |- context [ack_frames n ?d1] => destruct (IH d1 (v <| v_queue := q |>)) as (d' & Hd & Hr' & Hh') end;
    cbn; try done; [by destruct Hr|by eapply ring_pop|lia|].
  exists d'. split; [exact Hd|]. split; [done|]. destruct Hh'. split; try done; cbn; by rewrite E.
Qed.

(** The frames that [N(R)] acknowledges: none if it is not in the window. *)
Definition acknowledged (d : lite) (nr : Z) : nat :=
  let n := u8 (Z.land nr 0xFE - dl_tx_num d) / 2 in if dl_tx_window d <? n then 0%nat else Z.to_nat n.
Lemma check_nr_run sapi cntl nr d v :
  is_u8 nr -> rest d -> holds d v ->
  (acknowledged d nr <= length (v_queue v))%nat ∧
  ∃ d', check_nr sapi cntl nr d = Some (tt, d') ∧ rest d' ∧ holds d' (v <| v_queue ::= drop (acknowledged d nr) |>).
Proof.
  intros Hnr Hr Hh. unfold check_nr, mbind, M_bind, get, acknowledged.
  set (n := u8 (Z.land nr 0xFE - dl_tx_num d) / 2).
  assert (0 <= n < 128) as Hn.
  { subst n. pose proof (u8_range (Z.land nr 0xFE - dl_tx_num d)) as H. unfold is_u8 in H.
    split; [apply Z.div_pos; lia|]. apply Z.div_lt_upper_bound; lia. }
  assert (is_u8 (Z.land nr 0xFE)) as Hl.
  { pose proof (byte_forall (λ x, (0 <=? Z.land x 0xFE) && (Z.land x 0xFE <? 256)) eq_refl nr Hnr) as H.
    cbv beta in H. apply andb_true_iff in H. unfold is_u8. lia. }
  set (k := if dl_tx_window d <? n then 0%nat else Z.to_nat n).
  assert ((k <= length (v_queue v))%nat ∧ ∃ d1, rest d1 ∧ holds d1 (v <| v_queue ::= drop k |>) ∧
    (if negb (n =? 0) then
       if dl_tx_window d <? n then put (λ d, d <| dl_tx_window := 0 |>)
       else put (λ d, d <| dl_tx_window ::= λ w, w - n |>) ;; ack_frames (Z.to_nat n)
     else mret tt) (d <| dl_tx_num := Z.land nr 0xFE |>) = Some (tt, d1)) as (Hk & d1 & Hr1 & Hh1 & E).
  { subst k. destruct Hr as [? ? ? ? (? & ? & ?)]. pose proof Hh as [? ? ? ? ? ? ?].
    destruct (Z.ltb_spec (dl_tx_window d) n) as [E'|E'], (Z.eqb_spec n 0) as [E|E]; cbn [negb]; split; try lia.
    - eexists. split; [|split; [|reflexivity]]; split; try done. cbn. lia.
    - eexists. rewrite E. split; [|split; [|reflexivity]]; by split.
    - unfold mbind, M_bind, put.
      match goal with |- context [ack_frames _ ?d2] => destruct (ack_frames_run (Z.to_nat n) d2 v) as (d' & Hd & Hr' & Hh') end;
        cbn; try done; try lia. exists d'. split; [done|]. split; [exact Hh'|]. exact Hd. }
  split; [done|]. unfold mbind, M_bind, put in E. cbn in E. unfold put. cbn. rewrite E. clear E.
  assert (∀ b, vwp (iff b (dss1_lite_send_ctrl 0x02 0x01 ;; mret tt)) (λ _ v', v' = v <| v_queue ::= drop k |>)
                 (v <| v_queue ::= drop k |>)) as Hv.
  { intros b. apply vwp_iff; intros _; [|done]. apply vwp_bind, vwp_send_ctrl; [done|]. intros _. by apply vwp_ret. }
  match goal with |- context [iff ?b _ d1] => specialize (Hv b d1 Hr1 Hh1) end.
  destruct (iff _ _ d1) as [[[] d2]|]; [|done]. destruct Hv as (Hr2 & v' & Hh2 & ->). by exists d2.
Qed.
Lemma vwp_check_nr sapi cntl nr (Q : unit -> view -> Prop) v :
  is_u8 nr ->
  (∀ k, (k <= length (v_queue v))%nat -> Q tt (v <| v_queue ::= drop k |>)) -> vwp (check_nr sapi cntl nr) Q v.
Proof.
  intros Hnr HQ d Hr Hh. destruct (check_nr_run sapi cntl nr d v Hnr Hr Hh) as (Hk & d' & -> & Hr' & Hh').
  split; [done|]. eexists. split; [exact Hh'|]. by apply HQ.
Qed.
Lemma good_queue v q : good v -> good (v <| v_queue := q |>).
Proof. intros []. by split. Qed.
Lemma good_check_nr sapi cntl nr : is_u8 nr -> keeps_good (check_nr sapi cntl nr).
Proof. intros Hn v H. apply vwp_check_nr; [done|]. intros k _. exact (good_queue v _ H). Qed.

Lemma good_put_rx n : keeps_good (put (λ d, d <| dl_rx_num := u8 n |>)).
Proof.
  intros v H. apply (vwp_put _ v); [|done]. intros d [? ? ? ? (? & ? & ?)] [].
  split; [|by split]. split; try done. cbn. split; [done|]. split; [apply u8_range|done].
Qed.
Lemma good_decode_mbuf m : frame_ok m -> keeps_good (dss1_lite_decode_mbuf m).
Proof.
  intros Hm. pose proof (peek_u8 m 3 Hm) as H3. unfold dss1_lite_decode_mbuf.
  pose proof (λ c e, good_i_frame c e m Hm). pose proof (λ s c, good_check_nr s c _ H3). pose proof good_put_rx.
  lite_crush.
Qed.
