(* ===== verification/LiteRun.v ===== *)
(** * DSS1 lite: every run is safe

    The requests of the telephone, the channels and the polling; then runs
    of the whole stack, from [dss1_lite_attach] on. *)
From S2P Require Import Prelude Mbuf Dss1Types XlawTables Xlaw Dtmf LiteTypes Lite LiteLogic LiteSend LiteSafe.
From S2P Require Import LiteCalls.
Local Open Scope Z_scope.

(** ** Requests *)
Lemma good_te_request k : leaves_good (k 0%nat) -> keeps_good (te_request k).
Proof.
  intros Hk v H. unfold te_request. apply vwp_bind, vwp_nt, vwp_bind, vwp_active.
  pose proof (g_active v H) as Ha. rewrite Ha. destruct (v_nt v); [by apply vwp_ret|].
  destruct (dss1_lite_has_call (v_cd v)) eqn:Hc; [by apply Hk|by apply vwp_ret].
Qed.
Lemma good_active (m : option nat -> M bool) :
  leaves_good (m (Some 0%nat)) -> (∀ v, good v -> dss1_lite_has_call (v_cd v) = false -> vwp (m None) (λ _, good) v) ->
  keeps_good (a ← get dl_active_call_desc; m a).
Proof.
  intros Hs Hn v H. apply vwp_bind, vwp_active. rewrite (g_active v H).
  destruct (dss1_lite_has_call (v_cd v)) eqn:Hc; [by apply Hs|by apply Hn].
Qed.
(** What a fresh call is used for. *)
Lemma good_new_call v (k : nat -> M bool) :
  good v -> dss1_lite_has_call (v_cd v) = false -> leaves_good (k 0%nat) ->
  vwp (cd ← dss1_lite_alloc_cd false 0; match (cd : option nat) with None => mret false | Some i => k i end)
    (λ _, good) v.
Proof.
  intros H Hc Hk. apply vwp_bind, vwp_alloc_cd; [done|intros [_ Hc']; congruence|].
  intros v' c s _ Hl _ _ _ _. by apply Hk.
Qed.
Lemma good_put_hook b : keeps_good (put (λ d, d <| dl_is_hook_off := b |>)).
Proof. intros v H. apply (vwp_put _ v); [|done]. intros d [] []. by split. Qed.

Lemma good_ring_event b : keeps_good (dss1_lite_ring_event b).
Proof.
  unfold dss1_lite_ring_event. apply good_bind; [apply good_get|intros nt]. apply good_active.
  - destruct nt; [|apply live_good, live_ret]. destruct b; [apply live_good, live_ret|apply leaves_release].
  - intros v H Hc. destruct nt; [|by apply vwp_ret]. destruct b; [|by apply vwp_ret].
    apply (good_new_call v (λ i, _) H Hc). apply leaves_bind; [lite_crush|intros _].
    apply leaves_bind; [lite_crush|intros a]. apply leaves_if; [by apply leaves_set_state|apply live_good; lite_crush].
Qed.
Lemma good_hook_off : keeps_good dss1_lite_hook_off.
Proof.
  unfold dss1_lite_hook_off. apply good_bind; [apply good_get|intros nt]. apply good_if; [apply good_ret|].
  apply good_bind; [apply good_put_hook|intros _]. apply good_active; [apply live_good; lite_crush|].
  intros v H Hc. apply (good_new_call v (λ i, _) H Hc). apply live_good. lite_crush.
Qed.
Lemma good_hook_on : keeps_good dss1_lite_hook_on.
Proof.
  unfold dss1_lite_hook_on. apply good_bind; [apply good_get|intros nt]. apply good_if; [apply good_ret|].
  apply good_bind; [apply good_put_hook|intros _]. apply good_active; [apply leaves_release|].
  intros v H _. by apply vwp_ret.
Qed.
Lemma good_disconnect_request : keeps_good dss1_lite_disconnect_request.
Proof.
  apply good_te_request, live_good. apply live_bind; [lite_crush|intros _]. apply live_bind; [lite_crush|intros cd].
  apply live_bind; [destruct (dss1_lite_is_incoming cd); lite_crush|]. intros ok. lite_crush.
Qed.
Lemma strlcpy_total src dst :
  length dst = 63%nat -> ∃ t, strlcpy src dst = Some t ∧ length t = 63%nat ∧ 0 ∈ t.
Proof.
  intros Hl. unfold strlcpy. rewrite write_at_front.
  2: { rewrite length_app, length_take. cbn. lia. }
  eexists. split; [done|]. rewrite length_app, length_drop, !length_app, length_take. cbn. split; [lia|].
  rewrite <-app_assoc. apply elem_of_app. right. by left.
Qed.
Lemma good_dtmf_event s : keeps_good (dss1_lite_dtmf_event s).
Proof.
  apply good_te_request, live_good. intros v H. apply vwp_bind, vwp_get_cd.
  apply vwp_if; intros _; [|by apply vwp_ret].
  pose proof H as [[[[] _ _ _ _] _ _] _]. destruct to_part as (H1 & H2 & H3 & H4).
  destruct (strlcpy_total s _ H1) as (t & Ht & Hl & H0).
  apply vwp_bind, (vwp_lift _ t); [done|]. apply vwp_bind.
  eapply vwp_mono; [apply vwp_mod_live; [done|]; cbv beta; apply part_same; by repeat split|].
  intros r v' H'. assert (keeps_live (dss1_lite_send_information 0)) as Hi by lite_crush. by apply Hi.
Qed.
#[export] Hint Resolve good_dtmf_event good_hook_off : lite.

(** ** Channels *)
Lemma good_get_fifo c : (c < 3)%nat -> keeps_good (get_fifo c).
Proof. intros Hc v H. by apply vwp_fifo. Qed.
Lemma good_mod_fifo c g : (c < 3)%nat -> (∀ f, fifo_ok f -> fifo_ok (g f)) -> keeps_good (mod_fifo c g).
Proof. intros Hc Hg v H. by apply vwp_mod_fifo. Qed.
Lemma good_emit e : keeps_good (emit e).
Proof. intros v H. by apply vwp_emit. Qed.
Lemma good_getmbuf n : keeps_good (getmbuf n).
Proof. intros v H. by apply vwp_getmbuf. Qed.
Lemma good_for_all {A} (l : list A) body : (∀ x, keeps_good (body x)) -> keeps_good (for_all l body).
Proof. intros H. induction l as [|x l IH]; [apply good_ret|]. apply good_bind; [apply H|by intros _]. Qed.
#[export] Hint Resolve good_get_fifo good_emit good_getmbuf : lite.

Lemma good_dtmf_detect c m : (c < 3)%nat -> keeps_good (l1_dtmf_detect c m).
Proof.
  intros Hc. unfold l1_dtmf_detect. apply good_bind; [by apply good_get_fifo|intros f].
  case_bool_decide as E; [apply good_ret|]. destruct (i4b_dtmf_detect m (ft_dtmf_rx f)) as [ds rx].
  apply good_bind; [apply good_mod_fifo; [done|by intros ? []]|intros _]. apply good_for_all. intros x.
  unfold put_dtmf. destruct (L5_PUT_DTMF f); [done|lite_crush|lite_crush].
Qed.
Lemma good_put_mbuf c m : (c < 3)%nat -> keeps_good (dss1_lite_l5_put_mbuf c m).
Proof.
  intros Hc. pose proof (good_dtmf_detect c m Hc). unfold dss1_lite_l5_put_mbuf.
  apply good_bind; [by apply good_get_fifo|intros f]. apply good_iff.
  apply good_bind; [by apply good_iff|intros _]. apply good_bind; [lite_crush|intros _].
  apply good_bind; [apply good_mod_fifo; [done|by intros ? []]|intros _]. apply good_emit.
Qed.
(** What is received is a chain of buffers. *)
Lemma vwp_get_mbuf c (Q : option (list (list Z)) -> view -> Prop) v :
  (c < 3)%nat -> Q None v -> (∀ m, chain_ok m -> Q (Some m) v) -> vwp (dss1_lite_l5_get_mbuf c) Q v.
Proof.
  intros Hc Hn Hs. unfold dss1_lite_l5_get_mbuf. apply vwp_bind, vwp_fifo; [done|]. intros f [_ _ Hf].
  destruct (disabled f); [by apply vwp_ret|]. destruct (l5_rx f) as [|m r] eqn:E; [by apply vwp_ret|].
  apply Forall_cons in Hf as [Hm Hr]. apply vwp_bind, vwp_mod_fifo; [done|intros f' []; by split|].
  apply vwp_bind, vwp_iff; intros _; [apply vwp_emit|]; apply vwp_ret, Hs, Hm.
Qed.
Lemma vwp_defrag m (Q : option (list Z) -> view -> Prop) v :
  chain_ok m -> Q None v -> (∀ x, frame_ok x -> Q (Some x) v) -> vwp (defrag m) Q v.
Proof.
  intros [Hne Hm] Hn Hs. unfold defrag.
  assert (∀ l, vwp (m_new ← getmbuf l; mret ((λ _, take l (concat m)) <$> (m_new : option (list Z)))) Q v) as Hd.
  { intros l. apply vwp_bind, vwp_getmbuf; [by intros _; apply vwp_ret|]. intros Hl. apply vwp_ret, Hs. split.
    - apply Forall_take, Forall_concat. eapply Forall_impl; [exact Hm|]. by intros s [].
    - rewrite length_take. lia. }
  destruct m as [|x [|y m]]; [done| |apply Hd]. apply vwp_ret, Hs. by apply Forall_cons in Hm as [? _].
Qed.

(** ** Routines that leave a part of the state alone *)
Definition fixes {A B} (g : lite -> B) (m : M A) : Prop := ∀ d a d', m d = Some (a, d') -> g d' = g d.
Section fixes.
Context {B : Type} (g : lite -> B).
Lemma fixes_ret {A} (a : A) : fixes g (mret a).
Proof. by intros d a' d' [= _ <-]. Qed.
Lemma fixes_bind {A C} (m : M A) (k : A -> M C) : fixes g m -> (∀ a, fixes g (k a)) -> fixes g (m ≫= k).
Proof.
  intros Hm Hk d a d'. unfold mbind, M_bind. destruct (m d) as [[x d1]|] eqn:E; [|done].
  intros H. by rewrite (Hk x d1 a d' H), (Hm d x d1 E).
Qed.
Lemma fixes_get {A} (f : lite -> A) : fixes g (get f).
Proof. by intros d a' d' [= _ <-]. Qed.
Lemma fixes_lift {A} (o : option A) : fixes g (lift o).
Proof. intros d a d'. unfold lift. destruct o; [by intros [= _ <-]|done]. Qed.
Lemma fixes_put f : (∀ d, g (f d) = g d) -> fixes g (put f).
Proof. intros H d a d' [= _ <-]. apply H. Qed.
Lemma fixes_get_cd i : fixes g (get_cd i).
Proof. intros d a d'. unfold get_cd. destruct (dl_cd d !! i); [by intros [= _ <-]|done]. Qed.
Lemma fixes_get_fifo c : fixes g (get_fifo c).
Proof. intros d a d'. unfold get_fifo. destruct (dl_fifo d !! c); [by intros [= _ <-]|done]. Qed.
Lemma fixes_if {A} (b : bool) (m n : M A) : fixes g m -> fixes g n -> fixes g (if b then m else n).
Proof. by destruct b. Qed.
Lemma fixes_for_all {A} (l : list A) body : (∀ x, fixes g (body x)) -> fixes g (for_all l body).
Proof. intros H. induction l as [|x l IH]; [apply fixes_ret|]. apply fixes_bind; [apply H|by intros _]. Qed.
End fixes.
Ltac fixes_step :=
  let rec head_of m := lazymatch m with ?f _ => head_of f | _ => m end in
  match goal with
  | |- fixes _ (mret _) => apply fixes_ret
  | |- fixes _ (_ ≫= _) => apply fixes_bind; [|intros ?]
  | |- fixes _ (get _) => apply fixes_get
  | |- fixes _ (lift _) => apply fixes_lift
  | |- fixes _ (get_cd _) => apply fixes_get_cd
  | |- fixes _ (get_fifo _) => apply fixes_get_fifo
  | |- fixes _ (put _) => apply fixes_put; intros ?; repeat case_match; done
  | H : fixes _ ?m |- fixes _ ?m => exact H
  | |- fixes _ (if _ then _ else _) => apply fixes_if
  | |- fixes _ (match ?x with _ => _ end) => destruct x
  | |- fixes _ (for_all _ _) => apply fixes_for_all; intros ?
  | |- fixes _ ?m => let h := head_of m in unfold h
  end.

Lemma fixes_send_message i t k : fixes dl_fifo (dss1_lite_send_message i t k).
Proof. repeat fixes_step. Qed.
Lemma fixes_set_state i st : fixes dl_fifo (dss1_lite_set_state i st).
Proof. pose proof fixes_send_message. repeat first [solve [auto] | fixes_step]. Qed.
Lemma fixes_ack n : fixes dl_fifo (ack_frames n).
Proof. induction n; cbn [ack_frames]; repeat fixes_step. Qed.
Ltac fixes_crush :=
  repeat first [apply fixes_send_message | apply fixes_set_state | apply fixes_ack | fixes_step].
Lemma fixes_dtmf_event s : fixes dl_fifo (dss1_lite_dtmf_event s).
Proof. fixes_crush. Qed.
Lemma fixes_alloc_cd b c : fixes dl_fifo (dss1_lite_alloc_cd b c).
Proof. unfold dss1_lite_alloc_cd. fixes_crush. Qed.
Lemma fixes_decode_ies i m : fixes dl_fifo (decode_ies i m).
Proof. fixes_crush. Qed.
Lemma fixes_event i e m : fixes dl_fifo (lite_event i e m).
Proof.
  unfold lite_event. repeat match goal with |- fixes _ (match ?x with _ => _ end) => destruct x end; fixes_crush.
Qed.
Lemma fixes_decode_mbuf m : fixes dl_fifo (dss1_lite_decode_mbuf m).
Proof.
  unfold dss1_lite_decode_mbuf, i_frame. 
  repeat first [apply fixes_alloc_cd | apply fixes_decode_ies | apply fixes_event | apply fixes_send_message
               | apply fixes_ack | fixes_step].
Qed.

(** ** The loops end *)
Lemma vwp_run {A B} (g : lite -> B) (m : M A) Q v d :
  vwp m Q v -> fixes g m -> rest d -> holds d v ->
  ∃ a d' v', m d = Some (a, d') ∧ rest d' ∧ holds d' v' ∧ Q a v' ∧ g d' = g d.
Proof.
  intros Hm Hf Hr Hh. specialize (Hm d Hr Hh). destruct (m d) as [[a d']|] eqn:E; [|done].
  destruct Hm as (Hr' & v' & Hh' & HQ). exists a, d', v'. by rewrite (Hf d a d' E).
Qed.
(** [L5_GET_MBUF]: nothing, or the next chain. *)
Lemma l5_get_mbuf_run c d v f :
  (c < 3)%nat -> rest d -> holds d v -> dl_fifo d !! c = Some f ->
  dss1_lite_l5_get_mbuf c d = Some (None, d) ∨
  ∃ m r d' n, l5_rx f = m :: r ∧ dss1_lite_l5_get_mbuf c d = Some (Some m, d') ∧ rest d' ∧ holds d' v ∧
    chain_ok m ∧ dl_fifo d' !! c = Some (f <| l5_rx := r |> <| in_stat := n |>).
Proof.
  intros Hc Hr Hh Hf. unfold dss1_lite_l5_get_mbuf, mbind, M_bind, get_fifo. rewrite Hf.
  destruct (disabled f); [by left|]. destruct (l5_rx f) as [|m r] eqn:E; [by left|]. right.
  unfold mod_fifo, mbind, M_bind, get_fifo. rewrite Hf. cbn.
  destruct Hr as [H1 H2 H3 H4 H5], Hh. pose proof (Forall_lookup_1 _ _ _ _ H2 Hf) as [Ht Hx Hl].
  rewrite E in Hl. apply Forall_cons in Hl as [Hm Hl].
  destruct (is_tracing f); cbn; (eexists m, r, _, _; split; [done|]; split; [done|]; split;
    [split; cbn; try done; [by rewrite length_insert|by apply Forall_insert]|];
    split; [by split|]; split; [done|]; cbn; by rewrite list_lookup_insert_eq by (by eapply lookup_lt_Some)).
Qed.
Lemma fixes_defrag m : fixes dl_fifo (defrag m).
Proof. repeat fixes_step. Qed.
Lemma good_peer_get : keeps_good dss1_lite_peer_get_mbuf.
Proof.
  assert (∀ fuel d v f, rest d -> holds d v -> good v -> dl_fifo d !! 0%nat = Some f -> (length (l5_rx f) < fuel)%nat ->
    ∃ d' v', peer_get_loop fuel d = Some (tt, d') ∧ rest d' ∧ holds d' v' ∧ good v') as Hl.
  { induction fuel as [|fuel IH]; intros d v f Hr Hh Hg Hf Hl; [lia|]. cbn [peer_get_loop]. unfold mbind, M_bind.
    destruct (l5_get_mbuf_run 0 d v f) as [->|(m & r & d1 & n & E & -> & Hr1 & Hh1 & Hm & Hf1)]; [lia|done..| |].
    { by exists d, v. }
    destruct (vwp_run dl_fifo (defrag m) (λ x v', v' = v ∧ match x with Some x => frame_ok x | None => True end) v d1)
      as (x & d2 & v2 & -> & Hr2 & Hh2 & [-> Hx] & Hd2); [by apply vwp_defrag|apply fixes_defrag|done|done|].
    rewrite E in Hl. cbn in Hl. destruct x as [x|].
    - destruct (vwp_run dl_fifo (dss1_lite_decode_mbuf x) (λ _, good) v d2)
        as (u & d3 & v3 & -> & Hr3 & Hh3 & Hg3 & Hd3); [by apply good_decode_mbuf|apply fixes_decode_mbuf|done|done|].
      eapply (IH d3 v3); [done..|rewrite Hd3, Hd2; exact Hf1|cbn; lia].
    - eapply (IH d2 v); [done..|rewrite Hd2; exact Hf1|cbn; lia]. }
  intros v H d Hr Hh. unfold dss1_lite_peer_get_mbuf, mbind, M_bind, get_fifo.
  destruct (dl_fifo d !! 0%nat) as [f|] eqn:E.
  2: { apply lookup_ge_None in E. pose proof (r_fifos d Hr). lia. }
  destruct (Hl _ d v f Hr Hh H E (Nat.lt_succ_diag_r _)) as (d' & v' & -> & Hr' & Hh' & Hg'). split; [done|]. by exists v'.
Qed.

Lemma fixes_put_mbuf {B} (g : lite -> B) c m :
  (∀ d h, g (d <| dl_fifo ::= h |>) = g d) -> (∀ d e, g (d <| effects := e |>) = g d) ->
  (∀ s, fixes g (dss1_lite_dtmf_event s)) -> fixes g (dss1_lite_l5_put_mbuf c m).
Proof.
  intros H1 H2 H3. repeat first [apply H3 | apply fixes_put; intros ?; first [apply H1|apply H2] | fixes_step].
Qed.

(** A message is an I-frame: it does not go into the output queue. *)
Lemma write_at_keeps pos bytes buf buf' k :
  write_at pos bytes buf = Some buf' -> (k < pos)%nat -> buf' !! k = buf !! k.
Proof.
  unfold write_at. destruct (Nat.leb_spec (pos + length bytes) (length buf)); [|done]. intros [= <-] Hk.
  rewrite lookup_app_l by (rewrite length_take; lia). by apply lookup_take_lt.
Qed.
Lemma write_ies_keeps ies : ∀ ptr buf buf' k,
  write_ies ies ptr buf = Some buf' -> (k < ptr)%nat -> buf' !! k = buf !! k.
Proof.
  induction ies as [|[b n] ies IH]; intros ptr buf buf' k; cbn; [by intros [= <-]|].
  destruct (write_at ptr b buf) as [buf1|] eqn:E; [|done]. cbn. intros H Hk.
  rewrite (IH _ _ _ k H) by lia. by eapply write_at_keeps.
Qed.
Lemma selected_head nt cd mask l :
  bit_set IE_HEADER_MASK mask = true -> mapM (λ p : ie_fn * Z, p.1 nt cd) (selected mask) = Some l ->
  ∃ ies, l = ([0; 0; 0; 0; PD_Q931; 1; dl_curr_callref cd; dl_message_type cd], 8) :: ies.
Proof.
  intros Hh. unfold selected, dss1_lite_ie_tab. rewrite filter_cons_True by done.
  intros H%mapM_Some_1. inversion H as [|x y l1 l2 Hy]; subst. injection Hy as <-. by eexists.
Qed.
Lemma header_i_frame h ies buf buf' :
  length h = 8%nat -> h !! 2%nat = Some 0 -> write_ies ((h, 8) :: ies) 0 buf = Some buf' ->
  bit_set (dss1_lite_peek_mbuf buf' 2) 1 = false.
Proof.
  intros Hl Hh. cbn [write_ies]. destruct (write_at 0 h buf) as [b|] eqn:E; [|done]. cbn [mbind option_bind]. intros H.
  unfold dss1_lite_peek_mbuf. change (Z.to_nat 2) with 2%nat.
  rewrite (write_ies_keeps _ _ _ _ 2%nat H) by (cbn; lia). unfold write_at in E. destruct (_ <=? _)%nat; [|done].
  injection E as <-. cbn [take app]. by rewrite lookup_app_l, Hh by lia.
Qed.
Lemma fixes_i_frame m : bit_set (dss1_lite_peek_mbuf m 2) 1 = false -> fixes dl_outq (dss1_lite_send_mbuf m).
Proof. intros H. unfold dss1_lite_send_mbuf. rewrite H. cbn [negb]. repeat fixes_step. Qed.
Lemma fixes_message_outq i t mask :
  bit_set IE_HEADER_MASK mask = true -> fixes dl_outq (dss1_lite_send_message i t mask).
Proof.
  intros Hh. unfold dss1_lite_send_message. apply fixes_bind; [repeat fixes_step|intros _].
  apply fixes_bind; [repeat fixes_step|intros nt]. apply fixes_bind; [repeat fixes_step|intros cd].
  intros d r d'. unfold mbind at 1, M_bind at 1, lift at 1. fold (selected mask).
  destruct (mapM _ (selected mask)) as [l|] eqn:E; [|done].
  destruct (selected_head _ _ _ _ Hh E) as [ies ->]. revert d r d'.
  match goal with |- ∀ d r d', ?m d = _ -> _ => change (fixes dl_outq m) end.
  apply fixes_if; [apply fixes_ret|]. apply fixes_bind; [repeat fixes_step|intros [buf|]; [|apply fixes_ret]].
  intros d r d'. unfold mbind, M_bind, lift. destruct (write_ies _ 0 buf) as [b|] eqn:Eb; [|done].
  revert d r d'. apply fixes_i_frame. by eapply header_i_frame; [..|exact Eb].
Qed.
Lemma fixes_dtmf_outq s : fixes dl_outq (dss1_lite_dtmf_event s).
Proof.
  unfold dss1_lite_dtmf_event, te_request, dss1_lite_send_information.
  repeat first [apply fixes_message_outq; reflexivity | fixes_step].
Qed.
Lemma good_peer_put : keeps_good dss1_lite_peer_put_mbuf.
Proof.
  assert (∀ fuel len d v, rest d -> holds d v -> good v -> (length (dl_outq d) < fuel)%nat ->
    ∃ n d' v', peer_put_loop fuel len d = Some (n, d') ∧ rest d' ∧ holds d' v' ∧ good v') as Hl.
  { induction fuel as [|fuel IH]; intros len d v Hr Hh Hg Hl; [lia|]. cbn [peer_put_loop]. unfold mbind, M_bind, get.
    destruct (dl_outq d) as [|m q] eqn:E; [by exists len, d, v|]. unfold put.
    destruct (vwp_run dl_outq (dss1_lite_l5_put_mbuf 0 m) (λ _, good) v (d <| dl_outq := q |>))
      as (u & d1 & v1 & -> & Hr1 & Hh1 & Hg1 & Hd1).
    - by apply good_put_mbuf; [lia|].
    - apply fixes_put_mbuf; [done|done|apply fixes_dtmf_outq].
    - destruct Hr as [? ? ? Hq ?]. rewrite E in Hq. cbn in Hq. split; try done. cbn. lia.
    - destruct Hh. by split.
    - apply (IH _ d1 v1 Hr1 Hh1 Hg1). rewrite Hd1. cbn in Hl |- *. lia. }
  intros v H d Hr Hh. unfold dss1_lite_peer_put_mbuf, mbind, M_bind, get.
  destruct (Hl (S (length (dl_outq d))) 0 d v Hr Hh H (Nat.lt_succ_diag_r _)) as (n & d' & v' & -> & Hr' & Hh' & Hg').
  cbn. split; [by destruct Hr'|]. exists v'. by destruct Hh'.
Qed.

(** ** Polling *)
Lemma next_state_nonneg idx s : state_entry idx = Some s -> 0 <= next_state s.
Proof.
  unfold state_entry. intros H.
  assert (Forall (λ s, 0 <= next_state s) (dss1_lite_out_states ++ dss1_lite_in_states)) as Hall.
  { cbv [dss1_lite_out_states dss1_lite_in_states app]. repeat (apply Forall_cons; split; [vm_compute; congruence|]). apply Forall_nil_2. }
  apply Forall_app in Hall as [H1 H2]. destruct (_ <? _); [exact (Forall_lookup_1 _ _ _ _ H1 H)|exact (Forall_lookup_1 _ _ _ _ H2 H)].
Qed.
Lemma good_check_timeout : keeps_good (dss1_lite_check_timeout 0).
Proof.
  intros v H. unfold dss1_lite_check_timeout. apply vwp_bind, vwp_get_cd. apply vwp_bind, vwp_get. intros now.
  apply vwp_bind, vwp_get. intros freq. apply vwp_iff; intros E; [|done].
  apply andb_true_iff in E as [E _]. pose proof H as [[_ Hs Ht _ _] _ _]. specialize (Ht E).
  destruct (dl_pstate (v_cd v)) as [s|] eqn:Ep; [|unfold dss1_lite_has_call in Ht; by rewrite Ep in Ht].
  apply vwp_bind, (vwp_lift _ s); [done|]. destruct (Hs s eq_refl) as [_ He].
  assert (leaves_good (dss1_lite_set_state 0 (next_state s) ;; mret tt)) as Hl.
  { apply leaves_then; [apply leaves_set_state; by eapply next_state_nonneg|intros _; apply good_ret]. }
  apply Hl. by split.
Qed.
Lemma good_send_window k : ∀ n delta, keeps_good (send_window k n delta).
Proof.
  induction k as [|k IH]; intros n delta; [apply good_ret|]. cbn [send_window]. intros v H.
  apply vwp_bind. apply (vwp_mono _ (λ slot v', slot ≠ None ∧ v' = v)).
  { intros d Hr Hh. cbn. split; [done|]. exists v. split; [done|]. split; [|done].
    apply not_eq_None_Some, lookup_lt_is_Some. rewrite (ring_slots _ _ _ _ (h_ring _ _ Hh)). apply ring_slot_lt. }
  intros [m|] ? [Hm ->]; [|done]. apply vwp_bind, (vwp_lift _ m); [done|]. clear Hm. revert v H.
  match goal with |- ∀ v, good v -> vwp ?c _ v => change (keeps_good c) end.
  assert (∀ x, keeps_good (dss1_lite_queue_mbuf x ≫= λ ok : bool, if ok then send_window k (n + 1) delta else mret tt)) as Hq.
  { intros x. apply good_bind; [intros v H; by apply vwp_queue_mbuf|]. intros ok. apply good_if; [apply IH|apply good_ret]. }
  apply good_bind.
  - destruct m as [m|]; [|apply good_ret]. unfold m_dup. apply good_bind; [apply good_get|intros a].
    apply good_bind; [|intros _; apply good_ret]. intros v H. apply (vwp_put _ v); [|done]. intros d [] [].
    split; [by split|]. split; try done. intros E. cbn. by rewrite h_mem.
  - intros [x|]; [|apply IH]. apply good_bind; [apply good_get|intros rx]. apply good_bind; [apply good_get|intros tx].
    apply Hq.
Qed.
Lemma vwp_open_window (Q : Z -> view -> Prop) v :
  (∀ n, 0 <= n <= Z.of_nat (length (v_queue v)) -> Q n v) ->
  vwp (get (λ d, Z.min (tx_slot (dl_tx_out d - dl_tx_in d)) WIN_MAX)) Q v.
Proof.
  intros HQ d Hr Hh. split; [done|]. exists v. split; [done|]. apply HQ.
  rewrite (ring_count _ _ _ _ (h_ring _ _ Hh)). change WIN_MAX with 4. lia.
Qed.
Lemma good_process : keeps_good dss1_lite_process.
Proof.
  unfold dss1_lite_process. apply good_bind; [apply good_get_fifo; lia|intros f]. apply good_if; [apply good_ret|].
  apply good_bind; [apply good_get|intros a]. apply good_bind; [apply good_get|intros off].
  apply good_bind; [lite_crush|intros _]. apply good_bind; [apply good_peer_get|intros _].
  apply good_bind; [apply good_check_timeout|intros _]. apply good_bind; [apply good_get|intros x].
  apply good_bind; [apply good_get|intros freq]. apply good_if; [apply good_ret|].
  intros v H. apply vwp_bind, vwp_open_window. intros n Hn. apply vwp_bind, (vwp_put _ v).
  { intros d [] []. split; [by split|]. by split. }
  revert v H Hn. intros v H _. revert v H.
  match goal with |- ∀ v, good v -> vwp ?c _ v => change (keeps_good c) end.
  apply good_bind; [apply good_send_window|intros _]. apply good_peer_put.
Qed.

(** ** Samples *)
Lemma fifo_lookup d c : rest d -> (c < 3)%nat -> ∃ f, dl_fifo d !! c = Some f ∧ fifo_ok f.
Proof.
  intros [H1 H2 _ _ _] Hc. destruct (dl_fifo d !! c) as [f|] eqn:E; [|apply lookup_ge_None in E; lia].
  exists f. split; [done|]. by eapply Forall_lookup_1.
Qed.
(** A change of one channel. *)
Lemma mod_fifo_run c g d v f :
  rest d -> holds d v -> dl_fifo d !! c = Some f -> (fifo_ok f -> fifo_ok (g f)) ->
  ∃ d', mod_fifo c g d = Some (tt, d') ∧ rest d' ∧ holds d' v ∧ dl_fifo d' !! c = Some (g f).
Proof.
  intros Hr Hh Hf Hg. unfold mod_fifo, mbind, M_bind, get_fifo, put. rewrite Hf. eexists. split; [done|].
  destruct Hr, Hh. split; [|split; [by split|]].
  - split; try done; cbn; [by rewrite length_insert|]. apply Forall_insert; [done|]. apply Hg. by eapply Forall_lookup_1.
  - cbn. by rewrite list_lookup_insert_eq by (by eapply lookup_lt_Some).
Qed.
(** What the layer above has ready is not touched by what is put. *)
Definition tx_part (f : dss1_lite_fifo) : list (option nat) * Z := (l5_alloc f, m_tx_curr_rem f).
Definition tx_parts (c : nat) (d : lite) : option (list (option nat) * Z) := tx_part <$> dl_fifo d !! c.
Lemma parts_mod_fifo c g : (∀ f, tx_part (g f) = tx_part f) -> fixes (tx_parts c) (mod_fifo c g).
Proof.
  intros Hg d a d'. unfold mod_fifo, mbind, M_bind, get_fifo, put. destruct (dl_fifo d !! c) as [f|] eqn:E; [|done].
  intros [= _ <-]. unfold tx_parts. cbn. rewrite list_lookup_insert_eq by (by eapply lookup_lt_Some). rewrite E. cbn. by rewrite Hg.
Qed.
Lemma parts_put_mbuf c m : fixes (tx_parts c) (dss1_lite_l5_put_mbuf c m).
Proof.
  assert (∀ s, fixes (tx_parts c) (dss1_lite_dtmf_event s)) as He.
  { intros s d a d' H. unfold tx_parts. by rewrite (fixes_dtmf_event s d a d' H). }
  repeat first [apply He | apply parts_mod_fifo; intros ?; reflexivity | fixes_step].
Qed.
(** A fresh buffer, or none. *)
Lemma new_mbuf_run c d v f :
  rest d -> holds d v -> dl_fifo d !! c = Some f -> m_tx_curr_rem f = 0 ->
  ∃ m d' f', dss1_lite_l5_get_new_mbuf c d = Some (m, d') ∧ rest d' ∧ holds d' v ∧ dl_fifo d' !! c = Some f' ∧
    m_tx_curr_rem f' = 0 ∧ match m with Some _ => (length (l5_alloc f') < length (l5_alloc f))%nat | None => True end.
Proof.
  intros Hr Hh Hf H0. unfold dss1_lite_l5_get_new_mbuf, mbind, M_bind, get_fifo. rewrite Hf.
  destruct (disabled f); [by exists None, d, f|].
  destruct (mod_fifo_run c (λ f, f <| l5_alloc ::= tail |>) d v f Hr Hh Hf) as (d' & E & Hr' & Hh' & Hf'); [by intros []|].
  unfold mbind, M_bind in E. rewrite E. eexists _, d', _. split; [done|]. split; [done|]. split; [done|]. split; [exact Hf'|].
  split; [done|]. cbn. destruct (l5_alloc f) as [|[n|] r]; cbn; lia || done.
Qed.
Lemma put_sample_loop_run c fuel : (c < 3)%nat -> ∀ d v f,
  rest d -> holds d v -> good v -> dl_fifo d !! c = Some f -> (length (l5_alloc f) < fuel)%nat ->
  ∃ r d' v', put_sample_loop fuel c d = Some (r, d') ∧ rest d' ∧ holds d' v' ∧ good v' ∧
    match r with Some f' => dl_fifo d' !! c = Some f' ∧ m_tx_curr_rem f' ≠ 0 | None => True end.
Proof.
  intros Hc. induction fuel as [|fuel IH]; intros d v f Hr Hh Hg Hf Hl; [lia|]. cbn [put_sample_loop].
  unfold mbind at 1, M_bind at 1, get_fifo at 1. rewrite Hf.
  destruct (Z.eqb_spec (m_tx_curr_rem f) 0) as [E0|E0]; cbn [negb]; [|by exists (Some f), d, v].
  unfold mbind at 1, M_bind at 1.
  destruct (vwp_run (tx_parts c) (match m_tx_curr f with Some m => dss1_lite_l5_put_mbuf c m | None => mret tt end)
    (λ _, good) v d) as (u & d1 & v1 & -> & Hr1 & Hh1 & Hg1 & Ha1); [..|done|done|].
  { destruct (m_tx_curr f); [by apply good_put_mbuf|by apply vwp_ret]. }
  { destruct (m_tx_curr f); [apply parts_put_mbuf|apply fixes_ret]. }
  destruct (fifo_lookup d1 c Hr1 Hc) as (f1 & Hf1 & Hok1).
  unfold tx_parts in Ha1. rewrite Hf, Hf1 in Ha1. cbn in Ha1. injection Ha1 as Ea Er. rewrite E0 in Er.
  destruct (new_mbuf_run c d1 v1 f1 Hr1 Hh1 Hf1 Er) as (m & d2 & f2 & E2 & Hr2 & Hh2 & Hf2 & Er2 & Hm).
  unfold mbind at 1, M_bind at 1. rewrite E2. unfold mbind at 1, M_bind at 1.
  destruct (mod_fifo_run c (λ f, f <| m_tx_curr := m |>) d2 v1 f2 Hr2 Hh2 Hf2) as (d3 & -> & Hr3 & Hh3 & Hf3).
  { intros []. split; try done. cbn. rewrite Er2. destruct m; cbn; lia. }
  destruct m as [buf|]; [|by exists None, d3, v1]. unfold mbind at 1, M_bind at 1.
  destruct (mod_fifo_run c (λ f, f <| m_tx_curr_ptr := 0%nat |> <| m_tx_curr_rem := u16 (Z.of_nat (length buf)) |>)
    d3 v1 _ Hr3 Hh3 Hf3) as (d4 & -> & Hr4 & Hh4 & Hf4).
  { intros []. split; try done. cbn. unfold u16. split; [apply Z.mod_pos_bound; lia|]. intros _. apply Z.mod_le; lia. }
  eapply (IH d4 v1); [done..|exact Hf4|]. cbn. rewrite Ea in Hm. lia.
Qed.
Lemma good_put_sample c x : (c < 3)%nat -> keeps_good (dss1_lite_l5_put_sample c x).
Proof.
  intros Hc. unfold dss1_lite_l5_put_sample. apply good_bind; [apply good_mod_fifo; [done|by intros f []]|intros _].
  intros v H d Hr Hh. destruct (fifo_lookup d c Hr Hc) as (f & Hf & Hok).
  unfold mbind at 1, M_bind at 1, get_fifo. rewrite Hf. destruct (disabled f); [by split; [|exists v]|].
  destruct (put_sample_loop_run c (S (S (length (l5_alloc f)))) Hc d v f) as (r & d1 & v1 & E & Hr1 & Hh1 & Hg1 & Hx);
    [done..|lia|]. unfold mbind at 1, M_bind at 1. rewrite E. destruct r as [f1|]; [|by split; [|exists v1]].
  destruct Hx as [Hf1 Hn]. pose proof (Forall_lookup_1 _ _ _ _ (r_fifo d1 Hr1) Hf1) as Hok1. pose proof (fo_tx f1 Hok1) as Ht.
  unfold cursor_ok in Ht. destruct (m_tx_curr f1) as [buf|] eqn:Eb; [|done]. cbn [mbind option_bind].
  destruct (write_at _ _ buf) as [buf'|] eqn:Ew.
  2: { unfold write_at in Ew. cbn [length] in Ew. by rewrite (proj2 (Nat.leb_le _ _)) in Ew by lia. }
  apply write_at_len in Ew. unfold mbind at 1, M_bind at 1, lift.
  match goal with |- context [mod_fifo c ?g d1] =>
    destruct (mod_fifo_run c g d1 v1 f1 Hr1 Hh1 Hf1) as (d2 & -> & Hr2 & Hh2 & _) end.
  { intros []. split; try done. cbn. rewrite Ew. lia. }
  split; [done|]. by exists v1.
Qed.
Definition rx_measure (f : dss1_lite_fifo) : nat := (rx_segments f + length (l5_rx f))%nat.
(** The next segment that is received, if there is one. *)
Lemma next_segment_run c d v f :
  (c < 3)%nat -> rest d -> holds d v -> dl_fifo d !! c = Some f -> m_rx_curr_rem f = 0 ->
  ∃ d' f',
    (mod_fifo c (λ f, f <| m_rx_curr ::= tail |>) ;;
     if negb (0 <? length (tail (m_rx_curr f)))%nat then
       m ← dss1_lite_l5_get_mbuf c; mod_fifo c (λ f, f <| m_rx_curr := default [] m |>)
     else mret tt) d = Some (tt, d') ∧
    rest d' ∧ holds d' v ∧ dl_fifo d' !! c = Some f' ∧ m_rx_curr_rem f' = 0 ∧
    (m_rx_curr f' ≠ [] -> (rx_measure f' < rx_measure f)%nat).
Proof.
  intros Hc Hr Hh Hf H0.
  assert (∀ f l, fifo_ok f -> m_rx_curr_rem f = 0 -> fifo_ok (f <| m_rx_curr := l |>)) as Hset.
  { intros f0 l [] E. split; try done. cbn. rewrite E. destruct l; cbn; lia. }
  unfold mbind at 1, M_bind at 1.
  destruct (mod_fifo_run c (λ f, f <| m_rx_curr ::= tail |>) d v f Hr Hh Hf) as (d1 & -> & Hr1 & Hh1 & Hf1).
  { intros Hok. by apply (Hset f (tail (m_rx_curr f))). }
  assert (length (tail (m_rx_curr f)) <= length (m_rx_curr f))%nat as Hle by (destruct (m_rx_curr f); cbn; lia).
  destruct (tail (m_rx_curr f)) as [|y l] eqn:E; cbn [length Nat.ltb Nat.leb negb].
  - unfold mbind at 1, M_bind at 1.
    destruct (l5_get_mbuf_run c d1 v _ Hc Hr1 Hh1 Hf1) as [->|(m & r & d2 & n & El & -> & Hr2 & Hh2 & Hm & Hf2)].
    + match goal with |- context [mod_fifo c ?g d1] =>
        destruct (mod_fifo_run c g d1 v _ Hr1 Hh1 Hf1) as (d3 & -> & Hr3 & Hh3 & Hf3) end; [intros Hok; by apply Hset|].
      exists d3. eexists. split; [done|]. by repeat (split; [done|]).
    + match goal with |- context [mod_fifo c ?g d2] =>
        destruct (mod_fifo_run c g d2 v _ Hr2 Hh2 Hf2) as (d3 & -> & Hr3 & Hh3 & Hf3) end; [intros Hok; by apply Hset|].
      exists d3. eexists. split; [done|]. repeat (split; [done|]). intros _. cbn in El. unfold rx_measure, rx_segments.
      cbn. rewrite El. cbn. rewrite length_app. lia.
  - exists d1. eexists. split; [done|]. repeat (split; [done|]). intros _. unfold rx_measure, rx_segments. cbn. rewrite E.
    destruct (m_rx_curr f); cbn in E |- *; [done|]. subst. cbn. lia.
Qed.
Lemma get_sample_loop_run c fuel : (c < 3)%nat -> ∀ d v f,
  rest d -> holds d v -> dl_fifo d !! c = Some f -> (rx_measure f < fuel)%nat ->
  ∃ r d', get_sample_loop fuel c d = Some (r, d') ∧ rest d' ∧ holds d' v ∧
    match r with Some f' => dl_fifo d' !! c = Some f' ∧ m_rx_curr_rem f' ≠ 0 | None => True end.
Proof.
  intros Hc. induction fuel as [|fuel IH]; intros d v f Hr Hh Hf Hl; [lia|]. cbn [get_sample_loop].
  unfold mbind at 1, M_bind at 1, get_fifo at 1. rewrite Hf.
  destruct (Z.eqb_spec (m_rx_curr_rem f) 0) as [E0|E0]; cbn [negb]; [|by exists (Some f), d].
  destruct (next_segment_run c d v f Hc Hr Hh Hf E0) as (d1 & f1 & E1 & Hr1 & Hh1 & Hf1 & Er1 & Hm1).
  unfold mbind at 1, M_bind at 1 in E1. unfold mbind at 1, M_bind at 1.
  destruct (mod_fifo c _ d) as [[[] d0]|]; [|done]. unfold mbind at 1, M_bind at 1. rewrite E1.
  unfold mbind at 1, M_bind at 1, get_fifo at 1. rewrite Hf1.
  destruct (m_rx_curr f1) as [|m l] eqn:El; [by exists None, d1|]. unfold mbind at 1, M_bind at 1.
  destruct (mod_fifo_run c (λ f, f <| m_rx_curr_ptr := 0%nat |> <| m_rx_curr_rem := u16 (Z.of_nat (length m)) |>)
    d1 v f1 Hr1 Hh1 Hf1) as (d2 & -> & Hr2 & Hh2 & Hf2).
  { intros []. split; try done. cbn. rewrite El. cbn. unfold u16. split; [apply Z.mod_pos_bound; lia|].
    intros _. apply Z.mod_le; lia. }
  eapply (IH d2 v); [done..|exact Hf2|]. specialize (Hm1 ltac:(done)). unfold rx_measure, rx_segments in *. cbn. lia.
Qed.
Lemma good_get_sample c : (c < 3)%nat -> keeps_good (dss1_lite_l5_get_sample c).
Proof.
  intros Hc v H d Hr Hh. destruct (fifo_lookup d c Hr Hc) as (f & Hf & Hok). unfold dss1_lite_l5_get_sample.
  unfold mbind at 1, M_bind at 1, get_fifo at 1. rewrite Hf. destruct (disabled f); [by split; [|exists v]|].
  destruct (get_sample_loop_run c (S (rx_measure f)) Hc d v f) as (r & d1 & E & Hr1 & Hh1 & Hx); [done..|lia|].
  unfold mbind at 1, M_bind at 1. unfold rx_measure in E. rewrite E. destruct r as [f1|].
  2: { destruct (fifo_lookup d1 c Hr1 Hc) as (f1 & Hf1 & _). unfold mbind, M_bind, get_fifo. rewrite Hf1.
       split; [done|]. by exists v. }
  destruct Hx as [Hf1 Hn]. pose proof (Forall_lookup_1 _ _ _ _ (r_fifo d1 Hr1) Hf1) as Hok1. pose proof (fo_rx f1 Hok1) as Ht.
  unfold cursor_ok in Ht. destruct (head (m_rx_curr f1)) as [m|] eqn:Em; [|done]. cbn [mbind option_bind].
  destruct (m !! m_rx_curr_ptr f1) as [x|] eqn:Ex; [|apply lookup_ge_None in Ex; lia].
  unfold mbind at 1, M_bind at 1, lift. unfold mbind at 1, M_bind at 1.
  match goal with |- context [mod_fifo c ?g d1] =>
    destruct (mod_fifo_run c g d1 v f1 Hr1 Hh1 Hf1) as (d2 & -> & Hr2 & Hh2 & _) end.
  { intros []. split; try done. cbn. rewrite Em. cbn. lia. }
  split; [done|]. by exists v.
Qed.

(** ** Set-up and commands *)
Lemma fifo_reset_tx f :
  fifo_ok f -> fifo_ok (match m_tx_curr f with
    | None => f
    | Some _ => f <| m_tx_curr := None |> <| m_tx_curr_rem := 0 |> <| m_tx_curr_ptr := 0%nat |> end).
Proof. intros Hf. destruct (m_tx_curr f); [|done]. by destruct Hf. Qed.
Lemma fifo_reset_rx f :
  fifo_ok f -> fifo_ok (match m_rx_curr f with
    | [] => f
    | _ :: _ => f <| m_rx_curr := [] |> <| m_rx_curr_rem := 0 |> <| m_rx_curr_ptr := 0%nat |> end).
Proof. intros Hf. destruct (m_rx_curr f); [done|]. by destruct Hf. Qed.
Lemma good_put_same f :
  (∀ d, rest d -> rest (f d)) -> (∀ d v, holds d v -> holds (f d) v) -> keeps_good (put f).
Proof. intros Hr Hh v H. apply (vwp_put _ v); [|done]. by split; [apply Hr|apply Hh]. Qed.
Lemma good_clear_d_channel :
  keeps_good (put (λ d, d <| dl_tx_end_tick := i32 (ticks d - 1) |>
    <| dl_is_nt_mode := negb (bit_set (dl_option_value d) I4B_OPTION_NT_MODE) |>
    <| dl_tx_mbuf := replicate (Z.to_nat DL_QUEUE_MAX) None |> <| dl_outq := [] |>
    <| dl_tx_in := dl_tx_out d |> <| dl_tx_window := 0 |>)).
Proof.
  intros v [Hc Hu Ha] d [H1 H2 H3 H4 H5] [? ? ? ? Hq ? ?]. cbn. split; [split; try done; cbn; lia|].
  exists (v <| v_nt := negb (bit_set (dl_option_value d) I4B_OPTION_NT_MODE) |> <| v_queue := [] |>).
  split; [|by split]. split; try done. apply ring_empty. cbn. rewrite (ring_last _ _ _ _ Hq). apply u8_range.
Qed.
Lemma good_l1_setup c p : (c < 3)%nat -> keeps_good (dss1_lite_l1_setup c p).
Proof.
  intros Hc. unfold dss1_lite_l1_setup.
  apply good_bind; [apply good_mod_fifo; [done|by intros f []]|intros _].
  apply good_bind; [apply good_if; [lite_crush|apply good_iff, good_put_same; [by intros d []|by intros d v []]]|intros _].
  apply good_bind.
  { apply good_if; [apply good_clear_d_channel|]. apply good_iff, good_mod_fifo; [done|by intros f []]. }
  intros _. apply good_bind; [apply good_mod_fifo; [done|apply fifo_reset_tx]|intros _].
  apply good_bind; [apply good_mod_fifo; [done|apply fifo_reset_rx]|intros _].
  apply good_bind; [apply good_mod_fifo; [done|by intros f []]|intros _]. lite_crush.
Qed.
Lemma good_l1_stat c : (c < 3)%nat -> keeps_good (dss1_lite_l1_stat c).
Proof.
  intros Hc. apply good_bind; [by apply good_get_fifo|intros f].
  apply good_bind; [apply good_mod_fifo; [done|by intros f' []]|intros _; apply good_ret].
Qed.
Lemma good_transp c ok g : (c < 3)%nat -> keeps_good (transp_option c ok g).
Proof.
  intros Hc. apply good_bind; [by apply good_get_fifo|intros f]. apply good_if; [|apply good_ret].
  apply good_bind; [apply good_mod_fifo; [done|by intros f' []]|intros _; apply good_ret].
Qed.
(** The channel a command names. *)
Definition command_ok (c : lite_command) : Prop :=
  match c with
  | CMR_ENABLE_ECHO_CANCEL c | CMR_DISABLE_ECHO_CANCEL c
  | CMR_ENABLE_DTMF_DETECT c | CMR_DISABLE_DTMF_DETECT c => (c < 3)%nat
  | _ => True
  end.
Lemma good_ioctl cmd : command_ok cmd -> keeps_good (dss1_lite_l1_ioctl cmd).
Proof.
  intros Hc. destruct cmd; cbn in Hc; cbn [dss1_lite_l1_ioctl]; try by apply good_transp; lite_crush.
  - apply good_bind; [|intros _; apply good_ret]. apply good_put_same; [|by intros d v []].
    intros d []. split; try done; cbn; [by rewrite length_imap|]. apply Forall_lookup_2. intros n f.
    rewrite list_lookup_imap. intros (f0 & Hf & ->)%fmap_Some_1. eapply Forall_lookup_1 in Hf; [|done]. by destruct Hf.
  - apply good_bind; [|intros _; apply good_ret]. apply good_put_same; [by intros d []|by intros d v []].
  - lite_crush.
  - apply good_bind; [apply good_get|intros ok]. by apply good_transp.
  - lite_crush.
Qed.

(** ** Runs *)

(** What happens to the stack: requests of the telephone, the driver's
    polling and its samples, calls of the layer above; the clock, frames and
    buffers that become ready, and the kernel's memory. *)
Inductive lite_input :=
| InRing (on : bool) | InHookOff | InHookOn | InDeflect | InMcid | InDisconnect | InRKey
| InDtmf (digits : list Z) | InProcess
| InPutSample (c : nat) (sample : Z) | InGetSample (c : nat)
| InSetup (c : nat) (p : i4b_protocol) | InStart (c : nat) | InStat (c : nat) | InIoctl (cmd : lite_command)
| InClock (now : Z) | InReceived (c : nat) (m : list (list Z)) | InBuffers (c : nat) (l : list (option nat))
| InMemory (avail : list bool) | InPutDtmf (c : nat) (h : put_dtmf_fn).
Definition ignore {A} (m : M A) : M unit := m ;; mret tt.
Definition lite_handle (e : lite_input) : M unit :=
  match e with
  | InRing on => ignore (dss1_lite_ring_event on)
  | InHookOff => ignore dss1_lite_hook_off
  | InHookOn => ignore dss1_lite_hook_on
  | InDeflect => ignore dss1_lite_deflect_request
  | InMcid => ignore dss1_lite_mcid_request
  | InDisconnect => ignore dss1_lite_disconnect_request
  | InRKey => ignore dss1_lite_r_key_event
  | InDtmf s => ignore (dss1_lite_dtmf_event s)
  | InProcess => dss1_lite_process
  | InPutSample c x => dss1_lite_l5_put_sample c x
  | InGetSample c => ignore (dss1_lite_l5_get_sample c)
  | InSetup c p => dss1_lite_l1_setup c p
  | InStart c => dss1_lite_l1_start c
  | InStat c => ignore (dss1_lite_l1_stat c)
  | InIoctl cmd => ignore (dss1_lite_l1_ioctl cmd)
  | InClock now => put (λ d, d <| ticks := now |>)
  | InReceived c m => mod_fifo c (λ f, f <| l5_rx ::= λ l, l ++ [m] |>)
  | InBuffers c l => mod_fifo c (λ f, f <| l5_alloc := l |>)
  | InMemory avail => put (λ d, d <| getmbuf_avail := avail |>)
  | InPutDtmf c h => mod_fifo c (λ f, f <| L5_PUT_DTMF := h |>)
  end.
Definition lite_run (l : list lite_input) : M unit := for_all l lite_handle.
(** Channels exist; received chains are not empty and consist of bytes, in
    buffers of a cluster at most. *)
Definition input_ok (e : lite_input) : Prop :=
  match e with
  | InPutSample c _ | InGetSample c | InSetup c _ | InStart c | InStat c | InBuffers c _ | InPutDtmf c _ => (c < 3)%nat
  | InReceived c m => (c < 3)%nat ∧ chain_ok m
  | InIoctl cmd => command_ok cmd
  | _ => True
  end.
Lemma good_ignore {A} (m : M A) : keeps_good m -> keeps_good (ignore m).
Proof. intros H. apply good_bind; [done|intros ?; apply good_ret]. Qed.
Lemma good_handle e : input_ok e -> keeps_good (lite_handle e).
Proof.
  intros He. destruct e; cbn in He; cbn [lite_handle].
  - apply good_ignore, good_ring_event.
  - apply good_ignore, good_hook_off.
  - apply good_ignore, good_hook_on.
  - apply good_ignore, good_te_request, live_good. lite_crush.
  - apply good_ignore, good_te_request, live_good. lite_crush.
  - apply good_ignore, good_disconnect_request.
  - apply good_ignore, good_ret.
  - apply good_ignore, good_dtmf_event.
  - apply good_process.
  - by apply good_put_sample.
  - by apply good_ignore, good_get_sample.
  - by apply good_l1_setup.
  - apply good_bind; [by apply good_get_fifo|intros f]. lite_crush.
  - by apply good_ignore, good_l1_stat.
  - by apply good_ignore, good_ioctl.
  - apply good_put_same; [by intros d []|by intros d v []].
  - destruct He as [Hc Hm]. apply good_mod_fifo; [done|]. intros f []. split; try done. cbn. by apply Forall_app; split; [|constructor].
  - apply good_mod_fifo; [done|by intros f []].
  - intros v [? ? ?]. apply (vwp_put _ (v <| v_mem := false |>)); [by intros d [] []; split|by split].
  - apply good_mod_fifo; [done|by intros f []].
Qed.
Lemma good_run l : Forall input_ok l -> keeps_good (lite_run l).
Proof.
  induction 1 as [|e l He _ IH]; [apply good_ret|]. apply good_bind; [by apply good_handle|by intros _].
Qed.

(** ** The theorems *)
Lemma attach_good ec nd now freq :
  let d := dss1_lite_attach ec nd now freq in
  rest d ∧ holds d (View zero_lite_cd 0 None false [] true) ∧ good (View zero_lite_cd 0 None false [] true).
Proof.
  intros d. subst d. split; [|split].
  - split; cbn; try done; try (unfold is_u8; lia). by repeat (apply Forall_cons; split; [by split|]).
  - split; try done; cbn; try lia. by apply (ring_empty 0).
  - split; try done. split; try done. pose proof (fresh_texts 0) as []. by split.
Qed.
Lemma run_ok ec nd now freq l :
  Forall input_ok l ->
  ∃ d v, lite_run l (dss1_lite_attach ec nd now freq) = Some (tt, d) ∧ rest d ∧ holds d v ∧ good v.
Proof.
  intros Hl. destruct (attach_good ec nd now freq) as (Hr & Hh & Hg).
  pose proof (good_run l Hl _ Hg _ Hr Hh) as H. destruct (lite_run l _) as [[[] d]|]; [|done].
  destruct H as (Hr' & v & Hh' & Hg'). by exists d, v.
Qed.

(** C10: no run of the reduced stack meets undefined behaviour.  Whatever the
    telephone requests, whatever frames arrive on the D-channel (any bytes,
    in chains of buffers), however samples are put and fetched, memory runs
    short and the clock moves: every operation of the run returns.  No null
    pointer is followed, no array, string or buffer is left, and every loop
    ends. *)
Theorem lite_run_safe ec nd now freq l :
  Forall input_ok l -> ∃ d, lite_run l (dss1_lite_attach ec nd now freq) = Some (tt, d).
Proof. intros Hl. destruct (run_ok ec nd now freq l Hl) as (d & v & H & _). by exists d. Qed.

Lemma util_testbit cd k :
  0 <= k ->
  Z.testbit (util_of cd) k = dl_channel_allocated cd && (dl_channel_id cd =? k) && (k <? DL_NCHAN).
Proof.
  intros Hk. unfold util_of. destruct (dl_channel_allocated cd); [|apply Z.testbit_0_l]. cbn [andb].
  destruct (Z.leb_spec 0 (dl_channel_id cd)), (Z.ltb_spec (dl_channel_id cd) DL_NCHAN); cbn [andb];
    rewrite ?Z.shiftl_1_l, ?Z.pow2_bits_eqb, ?Z.testbit_0_l by done;
    destruct (Z.eqb_spec (dl_channel_id cd) k), (Z.ltb_spec k DL_NCHAN); try done; lia.
Qed.

(** C13: what every run keeps.  Of the two call descriptors only the first is
    ever used: it holds the active call if there is one.  The state of the
    call is the entry of the table for its index; without a call no timer
    runs and no channel is held; a channel is marked in use exactly if the
    call holds it.  (This is why polling needs to check the timer of the
    first descriptor only.) *)
Theorem lite_one_call ec nd now freq l d :
  Forall input_ok l -> lite_run l (dss1_lite_attach ec nd now freq) = Some (tt, d) ->
  ∃ cd, dl_cd d = [cd; zero_lite_cd] ∧
    dl_active_call_desc d = (if dss1_lite_has_call cd then Some 0%nat else None) ∧
    (∀ s, dl_pstate cd = Some s -> state_entry (dl_state_index cd) = Some s) ∧
    (dss1_lite_has_call cd = false -> dl_timeout_active cd = false ∧ dl_channel_allocated cd = false) ∧
    (∀ k, 0 <= k -> Z.testbit (dl_channel_util d) k =
                    dl_channel_allocated cd && (dl_channel_id cd =? k) && (k <? DL_NCHAN)).
Proof.
  intros Hl Hd. destruct (run_ok ec nd now freq l Hl) as (d' & v & E & _ & [] & [[] Hu Ha]).
  rewrite Hd in E. injection E as <-. exists (v_cd v). split; [done|]. split; [congruence|].
  split; [intros s Hs; by apply cg_state|]. split.
  - intros Hc. split; apply not_true_iff_false; intros E; [apply cg_timer in E|apply cg_channel in E]; congruence.
  - intros k Hk. rewrite h_util, Hu. by apply util_testbit.
Qed.

(** *** Witnesses: an incoming call that is answered *)
Definition sample_inputs : list lite_input :=
  [InIoctl (CMR_SET_I4B_OPTIONS 1 1); InSetup 0 (Protocol 1 0 false false);
   InReceived 0 [[0; 1; 0; 0; 8; 1; 1; 5]; [4; 3; 128; 144; 163; 24; 1; 137]]; InProcess;
   InClock 100; InHookOff; InProcess; InSetup 1 (Protocol 10 1 false false);
   InBuffers 1 [Some 2%nat; Some 2%nat]; InPutSample 1 1000; InPutSample 1 (-1000); InPutSample 1 0; InGetSample 1].
Lemma sample_inputs_ok : Forall input_ok sample_inputs.
Proof.
  repeat (apply Forall_cons; split); try apply Forall_nil_2; cbn; try done; try lia.
  split; [lia|]. split; [done|]. repeat (apply Forall_cons; split); try apply Forall_nil_2;
    (split; [concrete|cbn; unfold MCLBYTES; lia]).
Qed.
Lemma lite_run_safe_witness :
  Forall input_ok sample_inputs ∧ ∃ d, lite_run sample_inputs (dss1_lite_attach false false 0 100) = Some (tt, d).
Proof. split; [exact sample_inputs_ok|]. apply lite_run_safe. exact sample_inputs_ok. Defined.
Definition sample_end : lite :=
  match lite_run sample_inputs (dss1_lite_attach false false 0 100) with
  | Some (_, d) => d
  | None => dss1_lite_attach false false 0 100
  end.
Lemma sample_end_run : lite_run sample_inputs (dss1_lite_attach false false 0 100) = Some (tt, sample_end).
Proof. vm_compute. reflexivity. Qed.
Lemma lite_one_call_witness :
  lite_run sample_inputs (dss1_lite_attach false false 0 100) = Some (tt, sample_end) ∧
  dl_active_call_desc sample_end = Some 0%nat ∧ dl_channel_util sample_end = 2 ∧
  ∃ cd, dl_cd sample_end = [cd; zero_lite_cd].
Proof.
  split; [exact sample_end_run|]. split; [vm_compute; reflexivity|]. split; [vm_compute; reflexivity|].
  destruct (lite_one_call false false 0 100 sample_inputs sample_end sample_inputs_ok sample_end_run) as (cd & H & _).
  by exists cd.
Defined.
