(* ===== verification/LiteWindow.v ===== *)
(** * DSS1 lite: the transmit window

    What a poll sends and what a received number acknowledges, on the list
    of the frames that wait in the ring. *)
From S2P Require Import Prelude Mbuf Dss1Types XlawTables Xlaw Dtmf LiteTypes Lite LiteLogic LiteSend LiteSafe.
From S2P Require Import LiteCalls LiteRun.
Local Open Scope Z_scope.

(** ** The frames in the ring, the oldest first *)
Definition waiting (d : lite) : list (list Z) :=
  omap (λ k, dl_tx_mbuf d !! Z.to_nat (tx_slot (dl_tx_in d + Z.of_nat k)) ≫= id)
    (seq 0 (Z.to_nat (tx_slot (dl_tx_out d - dl_tx_in d)))).
Lemma omap_lookup_seq {A} (g : nat -> option A) q :
  (∀ k, (k < length q)%nat -> g k = q !! k) -> omap g (seq 0 (length q)) = q.
Proof.
  induction q as [|x q IH] using rev_ind; intros Hg; [done|]. rewrite length_app in *. cbn [length] in *.
  rewrite seq_app, omap_app, IH.
  - cbn. rewrite (Hg (length q)) by lia. by rewrite lookup_app_r, Nat.sub_diag by lia.
  - intros k Hk. rewrite Hg by lia. by rewrite lookup_app_l by lia.
Qed.
Lemma waiting_queue d v : holds d v -> waiting d = v_queue v.
Proof.
  intros []. unfold waiting. rewrite (ring_count _ _ _ _ h_ring), Nat2Z.id. apply omap_lookup_seq.
  intros k Hk. rewrite (LiteLogic.ring_lookup _ _ _ _ h_ring) by (destruct h_ring; lia). done.
Qed.

(** ** The frames of the window *)

(** The header of layer 2 in front of a message: the address (a command),
    the number of the frame, and the number that is expected with the poll
    bit. *)
Definition window_frame (nt : bool) (ns nr : Z) (poll : bool) (m : list Z) : list Z :=
  [if nt then 0x02 else 0x00; DL_TEI; ns; if poll then Z.lor nr 0x01 else nr] ++ drop 4 m.
(** The frames from the [n]-th on, of [delta]. *)
Definition window_frames (d : lite) (delta n : Z) (q : list (list Z)) : list (list Z) :=
  imap (λ i m, window_frame (dl_is_nt_mode d) (u8 (dl_tx_num d + 2 * (n + Z.of_nat i))) (dl_rx_num d)
                 (n + Z.of_nat i =? delta - 1) m) q.
Lemma poke_header ns nr m :
  (8 <= length m)%nat ->
  dss1_lite_poke_mbuf 3 nr (dss1_lite_poke_mbuf 2 ns (dss1_lite_poke_mbuf 1 DL_TEI (dss1_lite_poke_mbuf 0 0 m))) =
  [0; DL_TEI; ns; nr] ++ drop 4 m.
Proof. intros H. by destruct m as [|a [|b [|c [|e m]]]]; try (cbn in H; lia). Qed.

Lemma window_frames_cons d delta n m q :
  window_frames d delta n (m :: q) =
  window_frame (dl_is_nt_mode d) (u8 (dl_tx_num d + 2 * n)) (dl_rx_num d) (n =? delta - 1) m ::
  window_frames d delta (n + 1) q.
Proof.
  unfold window_frames. cbn [imap]. rewrite Z.add_0_r. f_equal. apply imap_ext. intros i x _. cbn.
  by replace (n + Z.of_nat (S i)) with (n + 1 + Z.of_nat i) by lia.
Qed.
Lemma m_dup_run m d : getmbuf_avail d = [] -> m_dup m d = Some (Some m, d).
Proof. intros H. destruct d. cbn in H. by subst. Qed.
Lemma queue_mbuf_run m d :
  Z.of_nat (length (dl_outq d)) < ifq_maxlen d ->
  dss1_lite_queue_mbuf m d =
  Some (true, d <| dl_outq ::= λ q, q ++ [if dl_is_nt_mode d
    then dss1_lite_poke_mbuf 0 (Z.lxor (dss1_lite_peek_mbuf m 0) 0x02) m else m] |>).
Proof.
  intros H. unfold dss1_lite_queue_mbuf, mbind, M_bind, get, put. by rewrite (proj2 (Z.leb_gt _ _) H).
Qed.
Lemma send_window_exact delta q : ∀ n d,
  (∀ i, (i < length q)%nat -> dl_tx_mbuf d !! Z.to_nat (tx_slot (dl_tx_in d + (n + Z.of_nat i))) = Some (q !! i)) ->
  Forall (λ m, (8 <= length m)%nat) q -> getmbuf_avail d = [] ->
  Z.of_nat (length (dl_outq d) + length q) <= ifq_maxlen d ->
  send_window (length q) n delta d = Some (tt, d <| dl_outq := dl_outq d ++ window_frames d delta n q |>).
Proof.
  induction q as [|m q IH]; intros n d Hs Hl Hm Ho.
  { destruct d. cbn -[app]. by rewrite app_nil_r. }
  apply Forall_cons in Hl as [Hl0 Hl]. pose proof (Hs 0%nat ltac:(cbn; lia)) as H0. rewrite Z.add_0_r in H0.
  cbn [length] in Ho. cbn [length send_window]. unfold mbind at 1, M_bind at 1, get at 1. rewrite H0.
  unfold mbind at 1, M_bind at 1, lift. cbn [lookup list_lookup]. unfold mbind at 1, M_bind at 1. rewrite m_dup_run by done.
  unfold mbind at 1, M_bind at 1, get at 1. unfold mbind at 1, M_bind at 1, get at 1.
  rewrite poke_header by done. unfold mbind at 1, M_bind at 1. rewrite queue_mbuf_run by lia.
  rewrite IH; [| |done|done|cbn; rewrite length_app; cbn; lia].
  - rewrite window_frames_cons.
    match goal with |- context [if dl_is_nt_mode d then dss1_lite_poke_mbuf ?a ?b ?c else ?e] =>
      replace (if dl_is_nt_mode d then dss1_lite_poke_mbuf a b c else e)
        with (window_frame (dl_is_nt_mode d) (u8 (dl_tx_num d + 2 * n)) (dl_rx_num d) (n =? delta - 1) m)
    end; [|unfold window_frame; by destruct (dl_is_nt_mode d)].
    destruct d. cbn -[app window_frame]. by rewrite <-app_assoc.
  - intros i Hi. pose proof (Hs (S i) ltac:(cbn; lia)) as H.
    by replace (n + Z.of_nat (S i)) with (n + 1 + Z.of_nat i) in H by lia.
Qed.

(** ** Out of the queue *)
Definition sent (l : list lite_effect) : list (list Z) :=
  omap (λ e, match e with PutMbuf 0 m => Some m | _ => None end) l.
(** The D-channel: no tones are looked for, and nothing has arrived. *)
Record quiet (d : lite) (f : dss1_lite_fifo) : Prop := {
  qu_fifo : dl_fifo d !! 0%nat = Some f;
  qu_enabled : disabled f = false;
  qu_handler : L5_PUT_DTMF f = DtmfNull;
}.
Lemma put_frame_run m d f :
  quiet d f ->
  ∃ f' l, let d' := d <| dl_fifo ::= <[0%nat := f']> |> <| effects ::= λ e, e ++ l |> in
    dss1_lite_l5_put_mbuf 0 m d = Some (tt, d') ∧ sent l = [m] ∧ quiet d' f'.
Proof.
  intros [Hf He Hh]. exists (f <| out_stat ::= λ n, u32 (n + Z.of_nat (length m)) |>).
  exists (if is_tracing f then [Trace 0 true m; PutMbuf 0 m] else [PutMbuf 0 m]). cbv zeta.
  assert (0 < length (dl_fifo d))%nat as Hl by (by eapply lookup_lt_Some). split; [|split].
  - unfold dss1_lite_l5_put_mbuf, mbind, M_bind, get_fifo. rewrite Hf, He, Hh. cbn [negb iff].
    assert (l1_dtmf_detect 0 m d = Some (tt, d)) as Hd.
    { unfold l1_dtmf_detect, mbind, M_bind, get_fifo. rewrite Hf, Hh. by rewrite bool_decide_eq_true_2. }
    destruct (_ || _); cbn [iff]; rewrite ?Hd; unfold mod_fifo, mbind, M_bind, get_fifo, emit, put, mret, M_ret;
      destruct (is_tracing f); cbn; rewrite Hf; destruct d; unfold set; cbn -[app]; by rewrite <-?app_assoc.
  - by destruct (is_tracing f).
  - split; try done. cbn. by rewrite list_lookup_insert_eq.
Qed.
Lemma put_loop_run q : ∀ len d f,
  quiet d f -> dl_outq d = q ->
  ∃ n F E, peer_put_loop (S (length q)) len d =
      Some (n, d <| dl_outq := [] |> <| dl_fifo := F |> <| effects := E |>) ∧
    sent E = sent (effects d) ++ q ∧ quiet (d <| dl_outq := [] |> <| dl_fifo := F |> <| effects := E |>) (default f (F !! 0%nat)).
Proof.
  induction q as [|m q IH]; intros len d f Hq Ho.
  { exists len, (dl_fifo d), (effects d). cbn [length peer_put_loop]. unfold mbind, M_bind, get. rewrite Ho, app_nil_r.
    destruct Hq as [H1 H2 H3]. destruct d. cbn in *. rewrite H1. subst. split; [done|]. split; [done|]. by split. }
  cbn [length]. cbn [peer_put_loop].
  unfold mbind at 1, M_bind at 1, get. rewrite Ho. unfold mbind at 1, M_bind at 1, put at 1.
  destruct (put_frame_run m (d <| dl_outq := q |>) f) as (f1 & l & E1 & Hl & Hq1); [by destruct Hq|].
  unfold mbind at 1, M_bind at 1. rewrite E1.
  destruct (IH (i32 (len + Z.of_nat (length m))) _ f1 Hq1 eq_refl) as (n & F & E & E2 & Hs & Hq2).
  exists n, F, E. split; [etransitivity; [exact E2|]; by destruct d|]. split.
  - rewrite Hs. cbn. unfold sent in *. rewrite omap_app, Hl, <-app_assoc. done.
  - destruct Hq2 as [H1 H2 H3]. cbn in *. rewrite H1 in *. by split.
Qed.

(** ** One poll *)
Definition timer_expired (d : lite) (cd : dss1_lite_call_desc) : bool :=
  let delta := i32 (dl_timeout_tick cd - ticks d) in
  dl_timeout_active cd && ((delta <? 0) || (128 * hz d <? delta)).
Definition line_busy (d : lite) : bool :=
  let delta := i32 (dl_tx_end_tick d - ticks d) in (0 <=? delta) && (delta <? 128 * hz d).
(** Nothing happens but sending: no frame has arrived, no timer has expired,
    the hook does not ask for a call, and the line is free. *)
Record poll_sends (d : lite) (f : dss1_lite_fifo) (cd : dss1_lite_call_desc) : Prop := {
  ps_quiet : quiet d f;
  ps_received : l5_rx f = [];
  ps_hook : dl_active_call_desc d ≠ None ∨ dl_is_hook_off d = false;
  ps_cd : head (dl_cd d) = Some cd;
  ps_timer : timer_expired d cd = false;
  ps_line : line_busy d = false;
}.
Definition window_size (d : lite) : Z := Z.min (tx_slot (dl_tx_out d - dl_tx_in d)) WIN_MAX.
Lemma process_prefix d f cd :
  poll_sends d f cd ->
  dss1_lite_process d =
  (put (λ d, d <| dl_tx_window := window_size d |>) ;;
   send_window (Z.to_nat (window_size d)) 0 (window_size d) ;;
   dss1_lite_peer_put_mbuf) d.
Proof.
  intros [[Hf He Hh] Hrx Hk Hcd Ht Hl]. unfold dss1_lite_process.
  unfold mbind at 1, M_bind at 1, get_fifo. rewrite Hf, He.
  unfold mbind at 1, M_bind at 1, get at 1. unfold mbind at 1, M_bind at 1, get at 1.
  assert (bool_decide (dl_active_call_desc d = None) && dl_is_hook_off d = false) as ->.
  { destruct Hk as [H| ->]; [by rewrite bool_decide_eq_false_2|apply andb_false_r]. }
  unfold mbind at 1, M_bind at 1, iff at 1, mret at 1, M_ret at 1.
  assert (dss1_lite_peer_get_mbuf d = Some (tt, d)) as Hg.
  { unfold dss1_lite_peer_get_mbuf, mbind, M_bind, get_fifo. rewrite Hf, Hrx. cbn [length peer_get_loop].
    unfold dss1_lite_l5_get_mbuf, mbind, M_bind, get_fifo. by rewrite Hf, He, Hrx. }
  assert (dss1_lite_check_timeout 0 d = Some (tt, d)) as Hc.
  { unfold dss1_lite_check_timeout, mbind, M_bind, get_cd, get. destruct (dl_cd d) as [|x l]; [done|].
    injection Hcd as ->. cbn [lookup list_lookup]. unfold timer_expired in Ht. by rewrite Ht. }
  unfold mbind at 1, M_bind at 1. rewrite Hg. unfold mbind at 1, M_bind at 1. rewrite Hc.
  unfold mbind at 1, M_bind at 1, get at 1. unfold mbind at 1, M_bind at 1, get at 1.
  unfold line_busy in Hl. rewrite Hl. reflexivity.
Qed.
Lemma process_run d f cd v :
  rest d -> holds d v -> good v -> poll_sends d f cd -> getmbuf_avail d = [] -> (length (dl_outq d) <= 12)%nat ->
  let n := Nat.min (length (v_queue v)) 4 in
  ∃ d', dss1_lite_process d = Some (tt, d') ∧ rest d' ∧ holds d' v ∧
    sent (effects d') = sent (effects d) ++ dl_outq d ++ window_frames d (Z.of_nat n) 0 (take n (v_queue v)) ∧
    dl_tx_window d' = Z.of_nat n ∧ dl_tx_num d' = dl_tx_num d ∧ dl_rx_num d' = dl_rx_num d.
Proof.
  intros Hr Hh Hg Hp Hm Ho n. pose proof (good_process v Hg d Hr Hh) as Hv.
  pose proof (process_prefix d f cd Hp) as E.
  assert (window_size d = Z.of_nat n) as Hw.
  { unfold window_size. rewrite (ring_count _ _ _ _ (h_ring _ _ Hh)). change WIN_MAX with 4. lia. }
  rewrite Hw, Nat2Z.id in E. unfold mbind at 1, M_bind at 1, put at 1 in E. rewrite Hw in E.
  set (d0 := d <| dl_tx_window := Z.of_nat n |>) in E.
  assert (length (take n (v_queue v)) = n) as Hlen by (rewrite length_take; lia).
  pose proof (send_window_exact (Z.of_nat n) (take n (v_queue v)) 0 d0) as Hs. rewrite Hlen in Hs.
  unfold mbind at 1, M_bind at 1 in E. rewrite Hs in E; clear Hs; [|..].
  2: { intros i Hi. rewrite Z.add_0_l. cbn -[tx_slot]. rewrite (ring_lookup _ _ _ _ (h_ring _ _ Hh)) by lia.
       by rewrite lookup_take_lt by lia. }
  2: { apply Forall_take, (ring_frames _ _ _ _ (h_ring _ _ Hh)). }
  2: done.
  2: { cbn. rewrite (r_max d Hr). lia. }
  unfold dss1_lite_peer_put_mbuf, mbind, M_bind, get in E.
  match type of E with context [peer_put_loop _ _ ?d1] => 
    destruct (put_loop_run (dl_outq d1) 0 d1 f) as (len & F & e & E1 & Hsent & Hq) end;
    [destruct (ps_quiet _ _ _ Hp); by split|done|].
  rewrite E1 in E. unfold put in E. rewrite E in Hv. destruct Hv as (Hr' & _).
  eexists. split; [exact E|]. split; [exact Hr'|]. destruct Hh. split; [split; try done; cbn; lia|].
  split; [exact Hsent|done].
Qed.

(** ** What a supervisory frame acknowledges *)
Lemma check_nr_num sapi cntl nr d d' :
  check_nr sapi cntl nr d = Some (tt, d') -> dl_tx_num d' = Z.land nr 0xFE.
Proof.
  unfold check_nr. unfold mbind at 1, M_bind at 1, get at 1. unfold mbind at 1, M_bind at 1, get at 1.
  unfold mbind at 1, M_bind at 1, put at 1. intros H.
  match type of H with ?m ?d0 = _ => assert (fixes dl_tx_num m) as Hf end.
  { assert (∀ n, fixes dl_tx_num (ack_frames n)) by (induction n; cbn [ack_frames]; repeat fixes_step).
    repeat first [solve [auto] | fixes_step]. }
  by rewrite (Hf _ _ _ H).
Qed.
Lemma supervisory_run sapi cntl nr d v :
  rest d -> holds d v -> bit_set sapi 0xFC = false -> bit_set cntl 0x01 = true -> bit_set cntl 0x02 = false -> is_u8 nr ->
  ∃ d', dss1_lite_decode_mbuf [sapi; DL_TEI; cntl; nr] d = Some (tt, d') ∧
    holds d' (v <| v_queue ::= drop (acknowledged d nr) |>) ∧ dl_tx_num d' = Z.land nr 0xFE.
Proof.
  intros Hr Hh Hs H1 H2 Hn. unfold dss1_lite_decode_mbuf.
  change (dss1_lite_peek_mbuf [sapi; DL_TEI; cntl; nr] 0) with sapi.
  change (dss1_lite_peek_mbuf [sapi; DL_TEI; cntl; nr] 1) with DL_TEI.
  change (dss1_lite_peek_mbuf [sapi; DL_TEI; cntl; nr] 2) with cntl.
  change (dss1_lite_peek_mbuf [sapi; DL_TEI; cntl; nr] 3) with nr.
  rewrite Hs, H1, H2. cbn [orb negb Z.eqb DL_TEI Pos.eqb]. unfold mbind at 1, M_bind at 1, get at 1.
  match goal with |- context [check_nr ?s cntl nr d] => destruct (check_nr_run s cntl nr d v Hn Hr Hh) as (_ & d' & E & _ & Hh') end.
  exists d'. split; [exact E|]. split; [done|]. by eapply check_nr_num.
Qed.

(** C12: the transmit window (poll, ring and decoder together).  A state
    that a run reaches, in which nothing but sending is due: memory is
    available, the output queue has 12 frames at most, no received frame is
    waiting, no timer has expired, the hook does not ask for a new call, the
    line is free, and the D-channel is enabled, without tone detection.  A poll then sends what is in the output queue and after it
    the oldest frames that wait in the ring, four at most: each behind a
    header with this end's address, consecutive numbers from [dl_tx_num] on,
    the number that is expected from the peer, and the poll bit in the last
    of them; the ring itself is as it was.  If the next thing that happens is
    a supervisory frame for this end, the frames it acknowledges, if they are in the
    window, leave the ring, the oldest first, and no others; the number it
    carries is the next one to be acknowledged. *)
Theorem window_exchange ec nd now freq l d f cd sapi cntl nr :
  Forall input_ok l -> lite_run l (dss1_lite_attach ec nd now freq) = Some (tt, d) ->
  poll_sends d f cd -> getmbuf_avail d = [] -> (length (dl_outq d) <= 12)%nat ->
  bit_set sapi 0xFC = false -> bit_set cntl 0x01 = true -> bit_set cntl 0x02 = false -> is_u8 nr ->
  let n := Nat.min (length (waiting d)) 4 in
  let k := u8 (Z.land nr 0xFE - dl_tx_num d) / 2 in
  ∃ d1 d2, dss1_lite_process d = Some (tt, d1) ∧
    sent (effects d1) = sent (effects d) ++ dl_outq d ++ window_frames d (Z.of_nat n) 0 (take n (waiting d)) ∧
    waiting d1 = waiting d ∧
    dss1_lite_decode_mbuf [sapi; DL_TEI; cntl; nr] d1 = Some (tt, d2) ∧
    waiting d2 = drop (if k <=? Z.of_nat n then Z.to_nat k else 0) (waiting d) ∧ dl_tx_num d2 = Z.land nr 0xFE.
Proof.
  intros Hl Hd Hp Hm Ho Hs H1 H2 Hn n k.
  destruct (run_ok ec nd now freq l Hl) as (d0 & v & E & Hr & Hh & Hg). rewrite Hd in E. injection E as <-.
  pose proof (waiting_queue d v Hh) as Hw. subst n. rewrite Hw in *.
  destruct (process_run d f cd v Hr Hh Hg Hp Hm Ho) as (d1 & E1 & Hr1 & Hh1 & Hs1 & Hn1 & Ht1 & _).
  destruct (supervisory_run sapi cntl nr d1 v Hr1 Hh1 Hs H1 H2 Hn) as (d2 & E2 & Hh2 & Ht2).
  exists d1, d2. split; [done|]. split; [done|]. split; [by apply waiting_queue|]. split; [done|]. split; [|done].
  rewrite (waiting_queue d2 _ Hh2). cbn -[drop Nat.min]. unfold acknowledged. rewrite Ht1, Hn1. fold k.
  rewrite Z.leb_antisym. by destruct (_ <? k).
Qed.

(** *** Witness: a call is set up, and its SETUP is acknowledged *)
Definition window_inputs : list lite_input :=
  [InIoctl (CMR_SET_I4B_OPTIONS 1 1); InSetup 0 (Protocol 1 0 false false); InClock 10; InHookOff].
Definition window_start : lite :=
  match lite_run window_inputs (dss1_lite_attach false false 0 100) with
  | Some (_, d) => d
  | None => dss1_lite_attach false false 0 100
  end.
Lemma window_exchange_witness :
  length (waiting window_start) = 1%nat ∧
  ∃ d1 d2, dss1_lite_process window_start = Some (tt, d1) ∧
    sent (effects d1) = [window_frame false 0 0 true (default [] (head (waiting window_start)))] ∧
    dss1_lite_decode_mbuf [2; DL_TEI; 1; 2] d1 = Some (tt, d2) ∧ waiting d2 = [] ∧ dl_tx_num d2 = 2.
Proof.
  split; [vm_compute; reflexivity|].
  destruct (window_exchange false false 0 100 window_inputs window_start
    (default zero_fifo (head (dl_fifo window_start))) (default zero_lite_cd (head (dl_cd window_start))) 2 1 2)
    as (d1 & d2 & E1 & Hs & _ & E2 & Hw & Hn); try (vm_compute; reflexivity).
  - repeat (apply Forall_cons; split); try apply Forall_nil_2; cbn; try done; lia.
  - split; try (vm_compute; reflexivity); [split; vm_compute; reflexivity|]. left. vm_compute. congruence.
  - vm_compute. lia.
  - split; vm_compute; congruence.
  - exists d1, d2. split; [exact E1|]. split; [rewrite Hs; vm_compute; reflexivity|]. split; [exact E2|].
    split; [rewrite Hw; vm_compute; reflexivity|exact Hn].
Defined.

(** ** The answer to a poll

    The comment in front of the answer asks for one to every supervisory
    command with the poll bit, but [tx_nr] no longer holds the received
    number there: a poll that acknowledges nothing stays without an answer,
    and a command without the poll bit is answered (with the final bit) if
    it acknowledges a frame. *)
Definition answers (m : list Z) (d : lite) : list (list Z) :=
  match dss1_lite_process d ≫= λ r, dss1_lite_decode_mbuf m r.2 with
  | Some (_, d') => dl_outq d'
  | None => []
  end.
Lemma poll_answer_inverted :
  answers [2; DL_TEI; 0x01; 0x01] window_start = [] ∧
  answers [2; DL_TEI; 0x01; 0x02] window_start = [[2; DL_TEI; 0x01; 0x01]].
Proof. by split; vm_compute. Qed.
