(* ===== verification/InfoCodec.v ===== *)
(** * Digits in INFORMATION messages (dss1_l3decoder.h)

    What the full stack makes of the INFORMATION messages of overlap sending:
    it collects the digits. *)
From S2P Require Import Prelude Mbuf Dss1Types Dss1State Buffer L3Encoder CallDesc L3Fsm L3Decoder L3Codec SetupCodec.
Local Open Scope Z_scope.

(** A message with the digits [s], for the call reference [cr]. *)
Definition info_message (cr : Z) (s : list Z) : list Z :=
  [PD_Q931; 1; cr; INFORMATION] ++ string_ie IEI_CALLEDPN [NUMBER_TYPE_PLAN] s.

(** [dss1_pipe_data_ind] on such a message, once the call is found: the call
    reference, the message type and the descriptor. *)
Definition decode_info (sc : l2softc) (cd : call_desc) (m : list Z) : Z * Z * call_desc :=
  let '(crval, mt, buf) := decode_header (dss1_buf_init m (Z.of_nat (length m))) in
  (crval, mt, dss1_decode_ie (dss1_decode_q931_cs0_ie_cd sc) (prepare_cd EV_L3_INFO cd) buf).

(** The called number, behind the digits that are there. *)
Lemma run_more_digits sc str cd :
  dir_incoming cd = true -> (dst_telno_ptr cd + length str < TELNO_MAX)%nat -> telno_text str -> str ≠ [] ->
  run sc [string_ie IEI_CALLEDPN [NUMBER_TYPE_PLAN] str] cd =
  cd <| dst_ton := TON_OTHER |> <| dst_telno ::= write_at (dst_telno_ptr cd) str |>
     <| dst_telno_ptr := (dst_telno_ptr cd + length str)%nat |> <| dst_telno_part := str |>.
Proof.
  intros Hd Hl Ht Hne. unfold TELNO_MAX in Hl.
  pose proof (cstr_text str Ht) as Hc. pose proof (telno_text_bytes _ Ht) as Hb.
  unfold string_ie. rewrite Hc. destruct str as [|c0 s0] eqn:E; [done|]. rewrite <-E in *. clear E c0 s0 Hne.
  cbn [run fold_left]. set (n := u8 _). assert (is_u8 n) as Hn by apply u8_range. cbn [app].
  assert (is_u8 IEI_CALLEDPN ∧ Forall is_u8 [NUMBER_TYPE_PLAN]) as [Hi Hpl] by (split; concrete).
  assert (Forall is_u8 (IEI_CALLEDPN :: n :: [NUMBER_TYPE_PLAN] ++ str)) as Hu.
  { do 2 (apply Forall_cons; split; [done|]). by apply Forall_app_2. }
  rewrite dec_calledpn by (rewrite read_byte; [done|done|cbn; lia|lia]).
  unfold decode_calledpn. rewrite Hd.
  pose proof (read_multi IEI_CALLEDPN n [NUMBER_TYPE_PLAN] str TELNO_MAX true Hi Hn Hpl Hb
    ltac:(cbn; lia) ltac:(unfold TELNO_MAX; lia) (λ _, Ht)) as Hr.
  set (room := Z.to_nat (u16 _)). assert (room = 41 - dst_telno_ptr cd)%nat as Hroom.
  { subst room. unfold TELNO_MAX. rewrite u16_id by (unfold is_u16; lia). lia. }
  pose proof (read_multi IEI_CALLEDPN n [NUMBER_TYPE_PLAN] str room true Hi Hn Hpl Hb
    ltac:(cbn; lia) ltac:(lia) (λ _, Ht)) as Hr'.
  change (2 + Z.of_nat (length [NUMBER_TYPE_PLAN])) with 3 in Hr, Hr'. cbn [app] in *. rewrite Hr'.
  assert (dss1_get_1 (ie_alone (IEI_CALLEDPN :: n :: NUMBER_TYPE_PLAN :: str)) 2 = NUMBER_TYPE_PLAN) as ->.
  { rewrite read_byte; [done|done|cbn; lia|lia]. }
  erewrite upd_part; [|unfold get_string; rewrite Hr; reflexivity]. reflexivity.
Qed.

Lemma info_message_received sc cr s cd :
  is_u8 cr -> telno_text s -> s ≠ [] -> dir_incoming cd = true -> dst_telno_ptr cd = length (dst_telno cd) ->
  (length (dst_telno cd) + length s < TELNO_MAX)%nat ->
  ∃ cd', decode_info sc cd (info_message cr s) = (Z.lxor cr 0x80, INFORMATION, cd') ∧
    dst_telno cd' = dst_telno cd ++ s ∧ dst_telno_ptr cd' = length (dst_telno cd') ∧
    dst_telno_part cd' = s ∧ dir_incoming cd' = true.
Proof.
  intros Hcr Ht Hne Hd Hp Hl. pose proof (telno_text_bytes _ Ht) as Hb. unfold TELNO_MAX in Hl.
  assert (make_callreference false cr = [1; cr]) as Hcref.
  { assert (forallb (λ k, bool_decide (make_callreference false (Z.of_nat k) = [1; Z.of_nat k])) (seq 0 256) = true) as H
      by (vm_compute; reflexivity).
    apply (byte_forall (λ x, bool_decide (make_callreference false x = [1; x]))) in Hcr; [|exact H].
    by apply bool_decide_eq_true in Hcr. }
  set (ie := string_ie IEI_CALLEDPN [NUMBER_TYPE_PLAN] s).
  set (pre := [PD_Q931] ++ make_callreference false cr ++ [INFORMATION]).
  assert (info_message cr s = pre ++ concat [ie]) as Hm.
  { subst pre. rewrite Hcref. cbn [concat]. by rewrite app_nil_r. }
  assert (pre ++ concat [ie] = [PD_Q931] ++ make_callreference false cr ++ [INFORMATION] ++ concat [ie]) as Hpre.
  { subst pre. by rewrite <-!app_assoc. }
  assert (ie = IEI_CALLEDPN :: u8 (Z.of_nat (1 + length s)) :: NUMBER_TYPE_PLAN :: s) as Hie.
  { subst ie. unfold string_ie. rewrite (cstr_text s Ht). by destruct s. }
  assert (Forall is_u8 ie) as Hu.
  { rewrite Hie. apply Forall_cons; split; [concrete|]. apply Forall_cons; split; [apply u8_range|].
    by apply Forall_cons; split; [concrete|]. }
  assert (Forall is_u8 (pre ++ concat [ie])) as Hum.
  { cbn [concat]. rewrite app_nil_r. apply Forall_app_2; [|done]. subst pre. rewrite Hcref. cbn [app].
    repeat (apply Forall_cons; split; [first [done|concrete]|]). apply Forall_nil_2. }
  assert (length ie < 60)%nat as Hil by (rewrite Hie; cbn; lia).
  assert (length (pre ++ concat [ie]) < 100)%nat as Hlen.
  { rewrite length_app. cbn [concat]. rewrite app_nil_r. subst pre. rewrite Hcref. cbn. lia. }
  exists (run sc [ie] (prepare_cd EV_L3_INFO cd)). split.
  - unfold decode_info. rewrite Hm, Hpre.
    rewrite (header_decodes false cr INFORMATION (concat [ie])); [|unfold is_u32, is_u8 in *; lia|concrete|..];
      rewrite <-?Hpre; [|done|lia].
    fold pre. f_equal. apply decode_elements; [apply decode_cd_windowed|..|done|lia].
    + apply Forall_cons; split; [|done]. rewrite Hie. split; [done|]. rewrite u8_id by (unfold is_u8; lia). cbn. lia.
    + apply Forall_cons; split; [lia|done].
  - subst ie. rewrite run_more_digits; [|done|change (dst_telno_ptr (prepare_cd EV_L3_INFO cd)) with (dst_telno_ptr cd); rewrite Hp; unfold TELNO_MAX; lia|done|done].
    change (prepare_cd EV_L3_INFO cd) with (cd <| dst_telno_part := [] |> <| peer_responded := true |>).
    cbn -[write_at]. rewrite Hp. unfold write_at. rewrite take_app_length. split; [done|]. by rewrite length_app.
Qed.
