(* ===== verification/LiteDial.v ===== *)
(** * DSS1 lite: from the keys of the telephone to the dialled number

    While a call is in overlap sending, every digit becomes an INFORMATION
    message in the ring; the digits may come from the touch tones on the
    B-channel.  The messages are read by the full stack at the other end
    (dss1_l3decoder.h), which collects the number. *)
From S2P Require Import Prelude Mbuf Dss1Types XlawTables Xlaw Dtmf LiteTypes Lite LiteLogic LiteSend LiteSafe.
From S2P Require Import LiteCalls LiteRun LiteWindow InfoCodec SetupCodec DtmfRx DtmfTx.
From S2P Require Dss1State L3Encoder.
Local Open Scope Z_scope.

(** The frame for the digits [s]: four bytes for layer 2, and the message. *)
Definition info_frame (cr : Z) (s : list Z) : list Z := [0; 0; 0; 0] ++ info_message cr s.

(** A call in overlap sending, in TE-mode, with memory. *)
Record dialling (cr : Z) (q : list (list Z)) (v : view) : Prop := {
  di_live : live v;
  di_nt : v_nt v = false;
  di_mem : v_mem v = true;
  di_state : dss1_lite_get_state (v_cd v) = DL_ST_OUT_U2;
  di_sub : cstr (num_subaddr (dl_part (v_cd v))) = [];
  di_cr : dl_curr_callref (v_cd v) = cr;
  di_queue : v_queue v = q;
}.

(** ** One message *)
Lemma cstr_app_nul s r : Forall (λ c, c ≠ 0) s -> cstr (s ++ 0 :: r) = s.
Proof.
  induction 1 as [|c s Hc _ IH]; cbn; [done|]. rewrite IH. by destruct (Z.eqb_spec c 0).
Qed.
Lemma telno_nonzero s : telno_text s -> Forall (λ c, c ≠ 0) s.
Proof. intros H. eapply Forall_impl; [exact H|]. intros c Hc%telno_char_range. lia. Qed.
Lemma strlcpy_text s dst :
  telno_text s -> (length s <= 62)%nat -> length dst = 63%nat ->
  ∃ t, strlcpy (s ++ [0]) dst = Some t ∧ cstr t = s ∧ length t = 63%nat ∧ 0 ∈ t.
Proof.
  intros Ht Hl Hd. pose proof (telno_nonzero s Ht) as Hn. unfold strlcpy.
  rewrite (cstr_app_nul s []) by done. rewrite take_ge by lia. rewrite write_at_front by (rewrite length_app; cbn; lia).
  eexists. split; [done|]. rewrite <-app_assoc. cbn [app]. split; [by apply cstr_app_nul|].
  rewrite length_app. cbn [length]. rewrite length_drop, length_app. cbn. split; [lia|].
  apply elem_of_app. right. by left.
Qed.
Lemma called_party_ie cd s nt :
  cstr (num_telno (dl_part cd)) = s -> 0 ∈ num_telno (dl_part cd) -> s ≠ [] -> (length s <= 62)%nat ->
  dss1_lite_ie_called_party nt cd =
  Some (L3Encoder.string_ie IEI_CALLEDPN [NUMBER_TYPE_PLAN] (num_telno (dl_part cd)), Z.of_nat (length s) + 3).
Proof.
  intros Hs H0 Hne Hl. unfold dss1_lite_ie_called_party, lite_string_ie, L3Encoder.string_ie.
  destruct (strlen_spec _ H0) as (n & -> & _ & Ht & Hn). rewrite Hs in *. cbn [mbind option_bind].
  assert (0 < Z.of_nat n <= 62) as Hr by (destruct s; [done|cbn [length] in *; lia]).
  rewrite (proj2 (Z.leb_gt _ _)), (proj2 (Z.leb_gt 128 _)) by lia. cbn [orb]. rewrite Ht, !u8_id by (unfold is_u8; lia).
  subst n. destruct s as [|c s]; [done|]. rewrite u8_id by (unfold is_u8; cbn [length] in *; lia).
  cbn [app length]. repeat f_equal; lia.
Qed.
Lemma empty_subaddr_ie cd nt :
  cstr (num_subaddr (dl_part cd)) = [] -> 0 ∈ num_subaddr (dl_part cd) ->
  dss1_lite_ie_called_subaddr nt cd = Some ([], 0).
Proof.
  intros Hs H0. unfold dss1_lite_ie_called_subaddr, lite_string_ie.
  destruct (strlen_spec _ H0) as (n & -> & _ & _ & ->). by rewrite Hs.
Qed.
Lemma info_message_bytes nt cd s :
  texts_ok cd -> dl_message_type cd = 0x7b -> cstr (num_telno (dl_part cd)) = s -> s ≠ [] -> (length s <= 62)%nat ->
  cstr (num_subaddr (dl_part cd)) = [] -> telno_text s ->
  message nt cd (Z.lor IE_HEADER_MASK IE_CALLED_PARTY_MASK) = info_frame (dl_curr_callref cd) s.
Proof.
  intros Ht Hm Hs Hne Hl Hsub Htt. destruct (to_part _ Ht) as (_ & _ & H1 & H2).
  unfold message. change (selected (Z.lor IE_HEADER_MASK IE_CALLED_PARTY_MASK))
    with [(dss1_lite_ie_header, IE_HEADER_MASK); (dss1_lite_ie_called_party, IE_CALLED_PARTY_MASK);
          (dss1_lite_ie_called_subaddr, IE_CALLED_PARTY_MASK)].
  cbn [map fst]. rewrite (called_party_ie cd s nt Hs H1 Hne Hl), (empty_subaddr_ie cd nt Hsub H2).
  cbn [from_option fst concat default dss1_lite_ie_header]. rewrite app_nil_r, Hm. unfold info_frame, info_message.
  cbn [app]. do 8 f_equal. unfold L3Encoder.string_ie. by rewrite Hs, (cstr_text s Htt).
Qed.

(** ** One digit *)
Lemma vwp_dial cr q s v :
  dialling cr q v -> telno_text s -> s ≠ [] -> (length s <= 62)%nat -> (length q < 7)%nat ->
  vwp (dss1_lite_dtmf_event (s ++ [0])) (λ b v', b = true ∧ dialling cr (q ++ [info_frame cr s]) v') v.
Proof.
  intros [[Hg Hc] Hnt Hmem Hst Hsub Hcr Hq] Ht Hne Hl Hroom. unfold dss1_lite_dtmf_event, te_request.
  apply vwp_bind, vwp_nt, vwp_bind, vwp_active. rewrite Hnt, (g_active v Hg), Hc.
  apply vwp_bind, vwp_get_cd. rewrite Hst, Z.eqb_refl.
  pose proof (cg_texts _ (g_cd v Hg)) as Htx. destruct (to_part _ Htx) as (P1 & P2 & P3 & P4).
  destruct (strlcpy_text s _ Ht Hl P1) as (t & Ets & Ect & Elt & E0).
  apply vwp_bind, (vwp_lift _ t); [done|]. apply vwp_bind, vwp_mod_cd.
  set (f := λ p : dss1_lite_num, p <| num_telno := t |>).
  assert (∀ ty, same_control (v_cd v) ((v_cd v) <| dl_part ::= f |> <| dl_message_type := ty |>)) as Hs.
  { intros ty. split; try done. intros []. by split. }
  pose proof (Hs (dl_message_type (v_cd v))) as [Htx' _ _ _ _ _ _]. specialize (Htx' Htx).
  assert (texts_ok ((v_cd v) <| dl_part ::= f |>)) as Htp by (destruct Htx'; by split).
  assert (message false ((v_cd v) <| dl_part ::= f |> <| dl_message_type := 0x7b |>)
            (Z.lor IE_HEADER_MASK IE_CALLED_PARTY_MASK) = info_frame cr s) as Hmsg.
  { etransitivity; [apply (info_message_bytes false _ s)|]; try done; [destruct Htp; by split|].
    by rewrite <-Hcr. }
  apply vwp_send_message; [done|by apply (cg_parent _ (g_cd v Hg))|done|done|..].
  - cbn -[message]. rewrite Hnt, Hq, Hmem. intros [[=]|[?|H]]; [lia|]. exfalso. revert H.
    match goal with |- context [message ?a ?b ?c] => replace (message a b c) with (info_frame cr s) by (symmetry; exact Hmsg) end.
    unfold info_frame, info_message, L3Encoder.string_ie. rewrite (cstr_text s Ht). unfold MCLBYTES.
    destruct s as [|c s]; [done|]. rewrite !length_app. cbn [length app] in *. lia.
  - intros _. split; [done|]. split; try done.
    + exact (live_same v _ (v_queue v ++ [_]) (conj Hg Hc) (Hs 0x7b)).
    + cbn -[message]. rewrite Hnt, Hq. do 2 f_equal. exact Hmsg.
Qed.

(** ** Digits from the touch tones *)
Definition digit_frames (cr : Z) (ds : list Z) : list (list Z) := map (λ x, info_frame cr [x]) ds.
Lemma key_text x : x ∈ code_to_ascii -> telno_text [x].
Proof.
  intros H. apply Forall_singleton. revert x H. apply Forall_forall.
  by repeat (apply Forall_cons; split; [reflexivity|]).
Qed.
Lemma vwp_dial_keys c cr ds : ∀ q v,
  dialling cr q v -> Forall (.∈ code_to_ascii) ds -> (length q + length ds <= 7)%nat ->
  vwp (for_all ds (put_dtmf c DtmfLite)) (λ _, dialling cr (q ++ digit_frames cr ds)) v.
Proof.
  induction ds as [|x ds IH]; intros q v Hd Hk Hl; [apply vwp_ret; cbn; by rewrite app_nil_r|].
  apply Forall_cons in Hk as [Hx Hk]. cbn [length] in Hl. apply vwp_bind, vwp_bind.
  eapply vwp_mono; [apply (vwp_dial cr q [x] v Hd (key_text x Hx)); [done|cbn; lia|lia]|].
  intros b v' [_ Hd']. apply vwp_ret. replace (q ++ digit_frames cr (x :: ds))
    with ((q ++ [info_frame cr [x]]) ++ digit_frames cr ds) by (by rewrite <-app_assoc).
  apply IH; [done|done|]. rewrite length_app. cbn. lia.
Qed.

(** A channel whose tones are dialled, with the state of its detector. *)
Record listening (c : nat) (rx : dtmf_rx) (d : lite) (f : dss1_lite_fifo) : Prop := {
  li_fifo : dl_fifo d !! c = Some f;
  li_enabled : disabled f = false;
  li_handler : L5_PUT_DTMF f = DtmfLite;
  li_rx : ft_dtmf_rx f = rx;
}.
Lemma emit_run e d v c rx f :
  rest d -> holds d v -> listening c rx d f ->
  ∃ d', emit e d = Some (tt, d') ∧ rest d' ∧ holds d' v ∧ listening c rx d' f.
Proof.
  intros [] [] []. eexists. split; [done|]. split; [by split|]. split; by split.
Qed.
Lemma dtmf_detect_run c cr q rx d v f m :
  rest d -> holds d v -> dialling cr q v -> listening c rx d f ->
  Forall (.∈ code_to_ascii) (i4b_dtmf_detect m rx).1 -> (length q + length (i4b_dtmf_detect m rx).1 <= 7)%nat ->
  ∃ d' v' f', l1_dtmf_detect c m d = Some (tt, d') ∧ rest d' ∧ holds d' v' ∧
    dialling cr (q ++ digit_frames cr (i4b_dtmf_detect m rx).1) v' ∧ listening c (i4b_dtmf_detect m rx).2 d' f'.
Proof.
  intros Hr Hh Hd [Hf He Hp Hx] Hk Hl. unfold l1_dtmf_detect. unfold mbind at 1, M_bind at 1, get_fifo. rewrite Hf, Hp.
  rewrite bool_decide_eq_false_2 by done. rewrite Hx.
  destruct (i4b_dtmf_detect m rx) as [ds rx']. cbn [fst snd] in *. unfold mbind at 1, M_bind at 1.
  destruct (mod_fifo_run c (λ f, f <| ft_dtmf_rx := rx' |>) d v f Hr Hh Hf) as (d1 & -> & Hr1 & Hh1 & Hf1); [by intros []|].
  destruct (vwp_run dl_fifo (for_all ds (put_dtmf c DtmfLite)) (λ _, dialling cr (q ++ digit_frames cr ds)) v d1)
    as ([] & d2 & v2 & -> & Hr2 & Hh2 & Hd2 & Hg2); [by apply vwp_dial_keys| |done|done|].
  { apply fixes_for_all. intros x. apply fixes_bind; [apply fixes_dtmf_event|intros; apply fixes_ret]. }
  eexists d2, v2, _. repeat (split; [done|]). split; [by rewrite Hg2|done..].
Qed.

Lemma put_mbuf_run c cr q rx d v f m :
  rest d -> holds d v -> dialling cr q v -> listening c rx d f ->
  Forall (.∈ code_to_ascii) (i4b_dtmf_detect m rx).1 -> (length q + length (i4b_dtmf_detect m rx).1 <= 7)%nat ->
  ∃ d' v' f', dss1_lite_l5_put_mbuf c m d = Some (tt, d') ∧ rest d' ∧ holds d' v' ∧
    dialling cr (q ++ digit_frames cr (i4b_dtmf_detect m rx).1) v' ∧ listening c (i4b_dtmf_detect m rx).2 d' f'.
Proof.
  intros Hr Hh Hd Hli Hk Hl. pose proof Hli as [Hf He Hp _]. unfold dss1_lite_l5_put_mbuf.
  unfold mbind at 1, M_bind at 1, get_fifo. rewrite Hf, He. cbn [negb iff].
  rewrite Hp, bool_decide_eq_true_2, orb_true_r by done. cbn [iff]. unfold mbind at 1, M_bind at 1.
  destruct (dtmf_detect_run c cr q rx d v f m Hr Hh Hd Hli Hk Hl) as (d1 & v1 & f1 & -> & Hr1 & Hh1 & Hd1 & Hl1).
  assert (∃ d2, iff (is_tracing f) (emit (Trace c true m)) d1 = Some (tt, d2) ∧ rest d2 ∧ holds d2 v1 ∧
    listening c (i4b_dtmf_detect m rx).2 d2 f1) as (d2 & E2 & Hr2 & Hh2 & [Hf2 He2 Hp2 Hx2]).
  { destruct (is_tracing f); [by apply emit_run|by exists d1]. }
  unfold mbind at 1, M_bind at 1. rewrite E2. unfold mbind at 1, M_bind at 1.
  destruct (mod_fifo_run c (λ f, f <| out_stat ::= λ n, u32 (n + Z.of_nat (length m)) |>) d2 v1 f1 Hr2 Hh2 Hf2)
    as (d3 & -> & Hr3 & Hh3 & Hf3); [by intros []|].
  destruct (emit_run (PutMbuf c m) d3 v1 c (i4b_dtmf_detect m rx).2 _ Hr3 Hh3 (Build_listening _ _ _ _ Hf3 He2 Hp2 Hx2))
    as (d4 & -> & Hr4 & Hh4 & Hl4).
  by eexists d4, v1, _.
Qed.
Lemma put_frames_run c cr frames : ∀ q rx d v f,
  rest d -> holds d v -> dialling cr q v -> listening c rx d f ->
  Forall (.∈ code_to_ascii) (receive_frames frames rx) -> (length q + length (receive_frames frames rx) <= 7)%nat ->
  ∃ d' v', for_all frames (dss1_lite_l5_put_mbuf c) d = Some (tt, d') ∧ rest d' ∧ holds d' v' ∧
    dialling cr (q ++ digit_frames cr (receive_frames frames rx)) v'.
Proof.
  induction frames as [|m frames IH]; intros q rx d v f Hr Hh Hd Hli Hk Hl.
  { exists d, v. cbn. by rewrite app_nil_r. }
  cbn [receive_frames for_all] in *. pose proof (put_mbuf_run c cr q rx d v f m Hr Hh Hd Hli) as H.
  destruct (i4b_dtmf_detect m rx) as [out rx']. cbn [fst snd] in H. rewrite length_app in Hl.
  apply Forall_app in Hk as [Hk1 Hk2]. destruct H as (d1 & v1 & f1 & E1 & Hr1 & Hh1 & Hd1 & Hl1); [done|lia|].
  unfold mbind at 1, M_bind at 1. rewrite E1. unfold digit_frames. rewrite map_app, app_assoc.
  apply (IH _ rx' d1 v1 f1); try done. rewrite length_app. unfold digit_frames. rewrite length_map. lia.
Qed.

(** ** At the other end *)
Definition collect (sc : Dss1State.l2softc) (cd : Dss1State.call_desc) (frames : list (list Z)) : Dss1State.call_desc :=
  foldl (λ cd m, (decode_info sc cd (drop 4 m)).2) cd frames.
Lemma collect_digits sc cr ds : is_u8 cr -> Forall (.∈ code_to_ascii) ds -> ∀ cd,
  Dss1State.dir_incoming cd = true -> Dss1State.dst_telno_ptr cd = length (Dss1State.dst_telno cd) ->
  (length (Dss1State.dst_telno cd) + length ds < TELNO_MAX)%nat ->
  Dss1State.dst_telno (collect sc cd (digit_frames cr ds)) = Dss1State.dst_telno cd ++ ds.
Proof.
  intros Hcr. induction 1 as [|x ds Hx _ IH]; intros cd Hd Hp Hl; [cbn; by rewrite app_nil_r|]. cbn [length] in Hl.
  destruct (info_message_received sc cr [x] cd Hcr (key_text x Hx)) as (cd' & E & Et & Ep & _ & Ed);
    [done|done|done|cbn; lia|].
  change (collect sc cd (digit_frames cr (x :: ds)))
    with (collect sc (decode_info sc cd (info_message cr [x])).2 (digit_frames cr ds)).
  rewrite E. cbn [snd]. rewrite IH; [|done|done|rewrite Et, length_app; cbn; lia].
  by rewrite Et, <-app_assoc.
Qed.

(** C11: keys become the dialled number (tone generator, tone detector, call
    control, ring and the full stack together).  A state that a run reaches,
    in terminal mode, whose active call is in overlap sending and has an
    empty subaddress; memory is available, and the ring has room for the
    digits (seven frames with those that wait).  The B-channel is enabled,
    its tone handler is the one of the reduced stack and its detector is
    freshly initialised.  A freshly initialised generator of the same
    encoding makes tones of 49 ms and gaps of 40 ms for the digits, and
    fills buffers of 714 samples per digit less one with them from its first
    sample on; these samples come in on the channel, in frames of any size.
    Then the ring has one more frame for each digit, behind the frames that
    wait there, and a full stack that decodes the messages of these frames
    in order, for an incoming call whose number has room for them, has the
    digits appended to the called number, each of them once. *)
Theorem tones_are_dialled ec nd now freq l d cd c f p ds bufs frames :
  Forall input_ok l -> lite_run l (dss1_lite_attach ec nd now freq) = Some (tt, d) ->
  getmbuf_avail d = [] -> dl_is_nt_mode d = false -> dl_active_call_desc d = Some 0%nat ->
  head (dl_cd d) = Some cd -> dss1_lite_get_state cd = DL_ST_OUT_U2 -> cstr (num_subaddr (dl_part cd)) = [] ->
  is_u8 (dl_curr_callref cd) -> listening c (i4b_dtmf_init_rx p) d f ->
  g711 p -> Forall (.∈ code_to_ascii) ds -> (0 < length ds)%nat -> (length (waiting d) + length ds <= 7)%nat ->
  length (concat bufs) = (714 * length ds - 1)%nat ->
  concat frames = send_frames bufs (queue_digits 49 40 ds (i4b_dtmf_init_tx p)) ->
  ∃ d' new, for_all frames (dss1_lite_l5_put_mbuf c) d = Some (tt, d') ∧
    waiting d' = waiting d ++ new ∧ length new = length ds ∧
    ∀ sc far, Dss1State.dir_incoming far = true ->
      Dss1State.dst_telno_ptr far = length (Dss1State.dst_telno far) ->
      (length (Dss1State.dst_telno far) + length ds < TELNO_MAX)%nat ->
      Dss1State.dst_telno (collect sc far new) = Dss1State.dst_telno far ++ ds.
Proof.
  intros Hl Hd Hmem Hnt Ha Hcd Hst Hsub Hcr Hli Hp Hds H0 Hroom Hb Hf.
  destruct (run_ok ec nd now freq l Hl) as (d0 & v & E & Hr & Hh & Hg). rewrite Hd in E. injection E as <-.
  pose proof (waiting_queue d v Hh) as Hw. rewrite Hw in *.
  set (w := v <| v_mem := true |>). assert (holds d w) as Hhw by (destruct Hh; by split).
  assert (v_cd v = cd) as Hvc by (rewrite (h_cd _ _ Hh) in Hcd; by injection Hcd).
  assert (dialling (dl_curr_callref cd) (v_queue v) w) as Hdl.
  { split; try done; cbn; rewrite ?Hvc; try done; [|by rewrite <-(h_nt _ _ Hh)].
    split; [by destruct Hg|]. cbn. pose proof (g_active v Hg) as Hga. rewrite <-(h_active _ _ Hh), Ha in Hga.
    by destruct (dss1_lite_has_call (v_cd v)). }
  assert (receive_frames frames (i4b_dtmf_init_rx p) = ds) as Hrx by (apply (number_received p ds bufs); lia || done).
  destruct (put_frames_run c (dl_curr_callref cd) frames (v_queue v) _ d w f Hr Hhw Hdl Hli) as (d' & v' & E & _ & Hh' & Hd');
    [by rewrite Hrx|by rewrite Hrx|]. rewrite Hrx in Hd'.
  exists d', (digit_frames (dl_curr_callref cd) ds). split; [done|]. split; [|split].
  - by rewrite (waiting_queue d' v' Hh'), (di_queue _ _ _ Hd').
  - apply length_map.
  - intros sc far Hdir Hptr Hlen. by apply collect_digits.
Qed.

(** *** Witness: the hook is taken off, the peer asks for the number, and two keys are pressed *)
Definition dial_inputs : list lite_input :=
  [InIoctl (CMR_SET_I4B_OPTIONS 1 1); InSetup 0 (Protocol 1 0 false false);
   InHookOff; InProcess; InClock 100;
   InReceived 0 [[2; 1; 0; 2; 8; 1; 129; 13; 24; 1; 137]]; InProcess;
   InSetup 1 (Protocol 10 Dss1Types.BSUBPROT_G711_ALAW false false)].
Definition dial_end : lite :=
  match lite_run dial_inputs (dss1_lite_attach false false 0 100) with
  | Some (_, d) => d
  | None => dss1_lite_attach false false 0 100
  end.
Lemma dial_inputs_ok : Forall input_ok dial_inputs.
Proof.
  repeat (apply Forall_cons; split); try apply Forall_nil_2; cbn; try done; try lia.
  split; [lia|]. split; [done|]. repeat (apply Forall_cons; split); try apply Forall_nil_2;
    (split; [concrete|cbn; unfold MCLBYTES; lia]).
Qed.
Lemma dial_end_run : lite_run dial_inputs (dss1_lite_attach false false 0 100) = Some (tt, dial_end).
Proof. vm_compute. reflexivity. Qed.
Lemma tones_are_dialled_witness :
  let p := protocol_law Dss1Types.BSUBPROT_G711_ALAW in
  let bufs := [replicate 400 0; replicate 1027 0] in
  let sent := send_frames bufs (queue_digits 49 40 [52; 35] (i4b_dtmf_init_tx p)) in
  ∃ d' new, for_all [take 50 sent; drop 50 sent] (dss1_lite_l5_put_mbuf 1) dial_end = Some (tt, d') ∧
    waiting d' = waiting dial_end ++ new ∧ length new = 2%nat.
Proof.
  intros p bufs sent.
  destruct (tones_are_dialled false false 0 100 dial_inputs dial_end (default zero_lite_cd (head (dl_cd dial_end))) 1
    (default zero_fifo (dl_fifo dial_end !! 1%nat)) p [52; 35] bufs [take 50 sent; drop 50 sent])
    as (d' & new & H1 & H2 & H3 & _); try (vm_compute; reflexivity).
  - exact dial_inputs_ok.
  - split; vm_compute; congruence.
  - split; vm_compute; reflexivity.
  - by right.
  - apply Forall_cons. split; [|apply Forall_singleton]; by apply (bool_decide_eq_true _).
  - cbn. lia.
  - change (waiting dial_end) with (@nil (list Z)). cbn. lia.
  - exists d', new. split; [exact H1|]. split; [exact H2|exact H3].
Defined.
